(* ===== verification/_CoqProject ===== *)
-Q . S2P
Prelude.v
CMemory.v
CrtString.v
CrtNumeric.v
CrtPrintf.v
CrtStdlib.v
OSList.v
OSSystem.v
PageTables.v
PageWalk.v
Bitvector.v
MemoryMap.v
PMM.v
VAS.v
VMM.v
KHeap.v
Objects.v
Scheduler.v
DiskIO.v
FatTable.v
FatNames.v
FatDir.v
FatWrite.v
FatListing.v
FatFiles.v
VFSManager.v
VfsFat.v
DiskManager.v
RamDrive.v
PortableExecutable.v
Msf.v
Pdb.v
KdMemory.v
KdBreak.v
KdPacket.v
HvRing.v
KdState.v
KdApi.v
KdSession.v
KdReport.v
Font.v
Graphics.v
Svga.v
PciBus.v
Keyboard.v
Interrupts.v
Clock.v
Mouse.v
Ahci.v
X64.v
Serial.v
EfiLoader.v
HvPlatform.v
VmBus.v
Firmware.v
Acpi.v
BootHeap.v
