(* ===== verification/Prelude.v ===== *)
(** VSOS: a verification of the kernel's core.

    VSOS is a 64-bit operating system in C and C++ (src/src): a UEFI loader, a kernel
    with memory managers, a scheduler, file systems, drivers and a kernel debugger, and
    the C runtime the kernel carries.  This library translates the parts with logic of
    their own into Rocq functions and proves what each part promises.  This file is the
    prelude all others load; its header describes the library.

    - How code is modelled.  A function of the source is a Rocq function on explicit
      states; what ends it is a value of [outcome]: a result ([Ret]), a failed [Assert]
      ([Bugcheck]), an access to memory that is not mapped or outside an array ([Fault]),
      or a loop that ran out of fuel ([Diverged]).  Fuel never stands for a result: where
      it is computed from the data, it is shown to be enough (the string loops, one turn
      per mapped byte; [chunk_fuel] of the debugger's copies; [ClearCluster], one per
      sector of the cluster); where a loop of the code can run for ever (a cyclic cluster chain, a
      debugger that never lets the thread go on, a line that never falls silent) the fuel is an argument, and the
      theorems say how much is needed.  Integers are [Z] with their wrap-around written
      out ([u8] ... [s64]); structures that the code reads as bytes are lists of bytes.
      Definitions carry the names of the source.

    - C runtime (src/src/core_crt, an argument to everything else): CMemory (the
      byte-addressed memory), CrtString, CrtNumeric, CrtPrintf, CrtStdlib.  The theorems
      give each function's effect on memory and the round trips between numbers and
      text; the places where a function leaves the C standard are facts of their own.

    - Lists and bits: OSList (OS.List.h: the intrusive list, refined to sequences),
      OSSystem (OS.System.h: page arithmetic and bit fields), Bitvector.

    - Memory: MemoryMap (the firmware's table), PMM (frames), PageTables and PageWalk
      (the four-level tables and their pool), VAS (reservations), VMM (the composition
      of the three: a reserved range is backed and mapped), KHeap.  The invariants are
      [pmm_ok], [wf], [space_ok] and [heap_ok]; every operation keeps them; [VMM_Allocate_backs]
      uses only the specifications of the parts below.

    - Objects and scheduling: Objects (events, semaphores, predicates, the ring
      buffer), Scheduler.  The scheduler knows objects through the class
      [KSignalObject] and its law [SignalLaws]; its theorems are about which thread
      runs, waits and deadlines.

    - Storage: DiskIO (the class [DiskDriver]; [HealthyDrive] states what a working
      drive does), FatTable, FatNames, FatDir, FatWrite (the FAT file system of
      kernel/vfs/FAT.cpp), FatListing and FatFiles (its correctness), VFSManager (paths,
      volumes and dispatch against the class [VirtualFileSystem]), VfsFat (FAT as an
      instance, and reading a file end to end), DiskManager (partitions and mounting),
      RamDrive.  A directory's sectors are given from the volume's layout, and
      what is to be listed of their slots by [Listing]; paths, files and names are followed on volumes described by
      [represents], [tree] and [chain].

    - Images and symbols: PortableExecutable, Msf (multi-stream files), Pdb.

    - Kernel debugger: KdMemory (copying in chunks), KdBreak (breakpoints), KdPacket (the
      serial protocol over the endless sequence of what reads of the line give; its loops run
      on fuel, and [KdReceivePacket_returns] needs a line that falls silent), KdState (structures and state), KdApi (the requests and the loop
      that serves them), KdSession (their correctness), KdReport (traps, reports and
      prompts).  The machine and the loaded library KdCom are the classes [Machine],
      [KdDll] and [Registers]; [MachineOk] and [RegistersOk] state what they promise, and
      an instance of each is given.  The invariant [engine_ok] says that memory is the
      debugged program's but for the breakpoints of the table.

    - Rings: HvRing (the two ring buffers of a Hyper-V channel, refined to two queues of messages;
      the other side follows the layout of packets).

    - Screen: Font and Graphics (src/src/gfx: frame buffers, clipping, text and the cursor;
      [drawing_is_clipped]: drawing changes the pixels of the clipped rectangle and no
      others), Svga (the VMware adapter's command queue, refined to a queue of commands; its
      waiting loop takes the values the device's register shows as a list).

    - Buses and interrupts: PciBus (enumeration, base address
      registers, interrupt routing), Interrupts (the handler table, the local and the I/O
      APIC, the walk over the ACPI table with one unit of fuel per entry), X64
      (descriptor tables, gates and the task state segment, read back by the processor's
      decoding; CPUID tests, SIMD, PIC and PIT).

    - Input and time: Keyboard (scan codes to key events and their echo), Mouse (packets
      and the pointer), Clock (the real-time clock, ticks and delays).

    - Disks and lines: Ahci (command tables, transfers and the sector operations over an
      abstract controller, [AHCIController] and [AHCIDevice]), Serial (the debugger's port
      library and the kernel's UART driver over any machine with the class [Ports], proved
      on a model of the 16550 with its trigger level and the line as a list; the packet code of KdPacket meets its
      promise of a line here, [port_is_the_line]).

    - Hyper-V: HvPlatform (synthetic interrupts, hypercalls, the reference clock, timers,
      device identifiers), VmBus (the bus driver: its interrupt and its thread as steps
      that interleave, refined to a queue of messages by [bus_refines_queue], with what each message means given
      on its bytes; requests and their answers; the messages that open a channel; the mouse).

    - Boot: EfiLoader (the kernel's image read, placed and relocated by the loader, and
      the initialisers of the C runtime, against the firmware's file calls [EfiServices]).

    - Firmware: Firmware (the configuration tables, and the walk over the SMBIOS table with one unit of
      fuel per mapped byte, which [smbios_walk_ends] shows to be enough for any memory), Acpi
      (memory and interrupts for ACPICA, the remapping of interrupts over the same table that
      Interrupts walks, PCI routing into the tables of PciBus, resources of devices),
      BootHeap (the allocator before the heap, and the kernel's choice between the two).

    - What is assumed.  Code that is not in the sources is a parameter: disk drivers,
      file system volumes, signal objects, the wait [kernel.KeWait] of the Hyper-V drivers, ports and registers, the firmware's tables,
      [IsValidKernelPointer] and the values of the status codes.  What the theorems need of it
      is stated by the classes above or as hypotheses ([HealthyDrive], [SignalLaws],
      [MachineOk], [RegistersOk], [BarHardware], [AHCIDevice], [WaitBlocks], [EfiServicesOk],
      [valid_mapped]), each with an instance or a witness.

    - What is not modelled.  Vendored code (src/ext: gnu-efi, ACPICA, and the ReactOS and
      CoreCLR headers beyond the structures used); assembly, context switches and single
      instructions; calls into ACPICA and its walk over the device tree; the loader of
      processes, which calls kernel functions without a body in the sources; the wiring at boot,
      which calls the components and keeps no state of its own; the boot loader's console and
      graphics calls; console output.  A kernel
      operation is modelled as it runs with interrupts off; where an interrupt can fall
      between the steps of other code and the code depends on it (VmBus, Serial,
      Clock, nested interrupts in Interrupts), the steps are separate.  Where a component is
      modelled in part, its file says what is left out.

    - Reading a component.  Each file has the data, then the operations in the order of
      the source, then the invariant and the lemmas on single operations (named
      [<operation>_run] where they evaluate it), then the theorems, and last a small
      concrete state on which the theorems are applied ([<theorem>_witness]).  [Fact]
      comments mark theorems that record where the code departs from its purpose. *)
From Stdlib Require Import ZArith Lia Bool.
From stdpp Require Export base tactics list numbers option gmap.
#[global] Set Default Proof Using "Type".
#[global] Open Scope Z_scope.

(** ** Machine integers

    A [w]-bit unsigned integer is a [Z] in [[0, 2^w)]; every operation that can
    leave that range is wrapped explicitly, as the hardware does. *)

Definition wrap (w x : Z) : Z := x mod 2 ^ w.

Definition swrap (w x : Z) : Z := (x + 2 ^ (w - 1)) mod 2 ^ w - 2 ^ (w - 1).

Abbreviation u8 := (wrap 8).
Abbreviation u16 := (wrap 16).
Abbreviation u32 := (wrap 32).
Abbreviation u64 := (wrap 64).
Abbreviation s8 := (swrap 8).
Abbreviation s16 := (swrap 16).
Abbreviation s32 := (swrap 32).
Abbreviation s64 := (swrap 64).

(** C's truthiness of an integer and the integer of a comparison. *)
Definition truthy (x : Z) : bool := negb (x =? 0).
Definition of_bool (b : bool) : Z := if b then 1 else 0.

(** ** Outcomes

    A run of kernel code ends with a value, stops in [Bugcheck] (a failed
    [Assert]; [Assert.h] never returns from it), touches an address that is not
    mapped ([Fault]), or exhausts the fuel of a loop ([Diverged]); the last one
    never stands for a value, and the termination theorems rule it out. *)
Inductive outcome (A : Type) : Type :=
| Ret (a : A)
| Bugcheck
| Fault
| Diverged.

Arguments Ret {A} a.
Arguments Bugcheck {A}.
Arguments Fault {A}.
Arguments Diverged {A}.

#[global] Instance outcome_ret : MRet outcome := fun A a => Ret a.
#[global] Instance outcome_bind : MBind outcome := fun A B f m =>
  match m with
  | Ret a => f a
  | Bugcheck => Bugcheck
  | Fault => Fault
  | Diverged => Diverged
  end.
#[global] Instance outcome_fmap : FMap outcome := fun A B f m =>
  match m with
  | Ret a => Ret (f a)
  | Bugcheck => Bugcheck
  | Fault => Fault
  | Diverged => Diverged
  end.

(** [Assert(b)] of Assert.h. *)
Definition Assert (b : bool) : outcome unit := if b then Ret tt else Bugcheck.

Definition returns {A} (m : outcome A) : Prop := exists a, m = Ret a.

(** [for (i = 0; i < n; i++) body] over an explicit state. *)
Fixpoint for_loop {S} (n : nat) (i : Z) (body : Z -> S -> outcome S) (s : S) : outcome S :=
  match n with
  | O => Ret s
  | Datatypes.S n' => s' ← body i s; for_loop n' (i + 1) body s'
  end.

(** Invariant rule: the loop returns, and the invariant holds at its end. *)
Lemma for_loop_inv {S} (P : Z -> S -> Prop) n i body (s : S) :
  P i s ->
  (forall j s, i <= j < i + Z.of_nat n -> P j s -> exists s', body j s = Ret s' /\ P (j + 1) s') ->
  exists s', for_loop n i body s = Ret s' /\ P (i + Z.of_nat n) s'.
Proof.
  revert i s. induction n as [|n IH]; intros i s HP Hb; cbn.
  - exists s. by rewrite Z.add_0_r.
  - destruct (Hb i s) as (s1 & -> & H1); [lia | done |]. cbn.
    destruct (IH (i + 1) s1 H1) as (s2 & -> & H2); [intros; apply Hb; [lia | done] |].
    exists s2. split; [done |]. by replace (i + Z.of_nat (Datatypes.S n)) with (i + 1 + Z.of_nat n) by lia.
Qed.

(** ** Tactics and hint databases *)

Create HintDb vsos discriminated.
Create HintDb vsos_arith discriminated.

Lemma bind_Ret {A B} (m : outcome A) (f : A -> outcome B) (b : B) :
  m ≫= f = Ret b <-> exists a, m = Ret a /\ f a = Ret b.
Proof.
  destruct m; cbn; split; try discriminate; try (by intros (? & [=] & _)).
  - eauto.
  - by intros (? & [= ->] & ?).
Qed.

Lemma Assert_Ret (b : bool) (u : unit) : Assert b = Ret u <-> b = true.
Proof. destruct b, u; cbn; naive_solver. Qed.

(** Invert every successful bind and assertion in the context. *)
Ltac inv_outcome :=
  repeat match goal with
  | H : (_ ≫= _) = Ret _ |- _ =>
      let a := fresh "v" in
      let H1 := fresh "Hstep" in
      apply bind_Ret in H as (a & H1 & H)
  | H : Assert _ = Ret _ |- _ => apply Assert_Ret in H
  | H : mret _ = Ret _ |- _ => cbv [mret outcome_ret] in H
  | H : Ret _ = Ret _ |- _ => injection H as H; subst
  | H : Bugcheck = Ret _ |- _ => discriminate H
  | H : Fault = Ret _ |- _ => discriminate H
  | H : Diverged = Ret _ |- _ => discriminate H
  end.

(** Turn boolean comparisons on integers into propositions. *)
Ltac zbool :=
  repeat match goal with
  | H : (_ && _)%bool = true |- _ => apply andb_true_iff in H as [? ?]
  | H : (_ || _)%bool = false |- _ => apply orb_false_iff in H as [? ?]
  | H : negb _ = true |- _ => apply negb_true_iff in H
  | H : negb _ = false |- _ => apply negb_false_iff in H
  | H : (_ =? _) = true |- _ => apply Z.eqb_eq in H
  | H : (_ =? _) = false |- _ => apply Z.eqb_neq in H
  | H : (_ <? _) = true |- _ => apply Z.ltb_lt in H
  | H : (_ <? _) = false |- _ => apply Z.ltb_ge in H
  | H : (_ <=? _) = true |- _ => apply Z.leb_le in H
  | H : (_ <=? _) = false |- _ => apply Z.leb_gt in H
  end.

(** Decide an integer comparison in the goal, both ways. *)
Ltac zcase :=
  match goal with
  | |- context [Z.eqb ?a ?b] => destruct (Z.eqb_spec a b)
  | |- context [Z.ltb ?a ?b] => destruct (Z.ltb_spec a b)
  | |- context [Z.leb ?a ?b] => destruct (Z.leb_spec a b)
  end.

(** Equality of returned tuples of integers. *)
Ltac ret_eq :=
  apply (f_equal Ret); repeat apply (f_equal2 pair); solve [done | lia].

(** ** Integers: wrapping *)

Lemma wrap_range (w x : Z) : 0 <= w -> 0 <= wrap w x < 2 ^ w.
Proof. intros. apply Z.mod_pos_bound. lia. Qed.

Lemma wrap_small (w x : Z) : 0 <= x < 2 ^ w -> wrap w x = x.
Proof. apply Z.mod_small. Qed.

Lemma swrap_range (w x : Z) :
  0 < w -> - 2 ^ (w - 1) <= swrap w x < 2 ^ (w - 1).
Proof.
  intros Hw. unfold swrap.
  assert (2 ^ w = 2 * 2 ^ (w - 1)) as Hp
    by (rewrite <- Z.pow_succ_r by lia; f_equal; lia).
  pose proof (Z.mod_pos_bound (x + 2 ^ (w - 1)) (2 ^ w)). lia.
Qed.

Lemma swrap_small (w x : Z) :
  0 < w -> - 2 ^ (w - 1) <= x < 2 ^ (w - 1) -> swrap w x = x.
Proof.
  intros Hw Hx. unfold swrap.
  assert (2 ^ w = 2 * 2 ^ (w - 1)) as Hp
    by (rewrite <- Z.pow_succ_r by lia; f_equal; lia).
  rewrite Z.mod_small; lia.
Qed.

Lemma wrap_wrap (w x : Z) : wrap w (wrap w x) = wrap w x.
Proof. apply Zmod_mod. Qed.

Lemma swrap_wrap (w x : Z) : swrap w (wrap w x) = swrap w x.
Proof. unfold swrap, wrap. by rewrite Zplus_mod_idemp_l. Qed.

(** Joining bit fields that do not overlap. *)
Lemma lor_shift_add a b n : 0 <= n -> 0 <= b < 2 ^ n -> Z.lor (a * 2 ^ n) b = a * 2 ^ n + b.
Proof.
  intros Hn Hb. rewrite <- Z.add_lor_land.
  assert (Z.land (a * 2 ^ n) b = 0) as ->; [| lia].
  apply Z.bits_inj'. intros i Hi. rewrite Z.land_spec, Z.bits_0, <- Z.shiftl_mul_pow2, Z.shiftl_spec by lia.
  destruct (Z.ltb_spec i n); [by rewrite Z.testbit_neg_r by lia |].
  rewrite <- (Z.mod_small b (2 ^ n)), Z.mod_pow2_bits_high by lia. apply andb_false_r.
Qed.

#[export] Hint Resolve wrap_range swrap_range : vsos_arith.
