(* ===== verification/CMemory.v ===== *)
(** The byte-addressed memory the C runtime works on.

    [mem] maps an address to the byte stored there; an address with no entry is
    not mapped and every access to it is a [Fault].  Pointers are plain [Z]
    addresses: C pointer arithmetic inside an object never wraps.  The file
    gives the load and store operations at the widths the sources use (little
    endian, x86-64), the predicate [cstr] "a NUL-terminated string is stored
    here", and [blit], the specification of a copied block. *)
From Stdlib Require Import String Ascii.
From S2P Require Import Prelude.

Abbreviation mem := (gmap Z Z).

(** *(uint8_t * )a *)
Definition load8 (m : mem) (a : Z) : outcome Z :=
  match m !! a with Some b => Ret b | None => Fault end.

(** *(uint8_t * )a = v *)
Definition store8 (m : mem) (a v : Z) : outcome mem :=
  match m !! a with Some _ => Ret (<[a := u8 v]> m) | None => Fault end.

(** Little-endian integer of a list of bytes, and its inverse. *)
Fixpoint le_of (l : list Z) : Z :=
  match l with
  | [] => 0
  | b :: l => b + 256 * le_of l
  end.

Fixpoint le_to (n : nat) (v : Z) : list Z :=
  match n with
  | O => []
  | S n => v mod 256 :: le_to n (v / 256)
  end.

Fixpoint load_bytes (m : mem) (a : Z) (n : nat) : outcome (list Z) :=
  match n with
  | O => Ret []
  | S n => b ← load8 m a; l ← load_bytes m (a + 1) n; Ret (b :: l)
  end.

Fixpoint store_bytes (m : mem) (a : Z) (l : list Z) : outcome mem :=
  match l with
  | [] => Ret m
  | b :: l => m' ← store8 m a b; store_bytes m' (a + 1) l
  end.

(** *(uintN_t * )a with N = 8 * n *)
Definition load_le (n : nat) (m : mem) (a : Z) : outcome Z :=
  l ← load_bytes m a n; Ret (le_of l).

Definition store_le (n : nat) (m : mem) (a v : Z) : outcome mem :=
  store_bytes m a (le_to n v).

Abbreviation load16 := (load_le 2).
Abbreviation load64 := (load_le 8).
Abbreviation store16 := (store_le 2).
Abbreviation store64 := (store_le 8).

(** The bytes of a string literal, without its terminator. *)
Definition lit (s : string) : list Z :=
  (fun a => Z.of_N (N_of_ascii a)) <$> list_ascii_of_string s.

(** The memory that holds exactly the bytes [l] from [a] on. *)
Fixpoint mem_of (a : Z) (l : list Z) : mem :=
  match l with
  | [] => ∅
  | b :: l => <[a := b]> (mem_of (a + 1) l)
  end.

(** ** Well-formedness and specifications *)

Definition is_byte (b : Z) : Prop := 0 <= b < 256.

(** Every stored value is a byte. *)
Definition mem_ok (m : mem) : Prop := forall a b, m !! a = Some b -> is_byte b.

(** The addresses [a, a + n) are mapped. *)
Definition mapped (m : mem) (a n : Z) : Prop :=
  forall x, a <= x < a + n -> is_Some (m !! x).

(** The list [l] is stored from [a] on. *)
Definition bytes_at (m : mem) (a : Z) (l : list Z) : Prop :=
  forall i b, l !! i = Some b -> m !! (a + Z.of_nat i) = Some b.

(** A string of C: nonzero bytes followed by a NUL. *)
Definition cstr (m : mem) (a : Z) (s : list Z) : Prop :=
  bytes_at m a (s ++ [0]) /\ Forall (fun b => b <> 0) s.

(** [m'] is [m] with the [n] bytes at [src] copied to [dst]. *)
Definition blit (m : mem) (dst src n : Z) (m' : mem) : Prop :=
  forall a, m' !! a =
    if (dst <=? a) && (a <? dst + n) then m !! (src + (a - dst)) else m !! a.

(** ** Basic lemmas *)

Lemma load8_Ret m a b : load8 m a = Ret b <-> m !! a = Some b.
Proof. unfold load8. destruct (m !! a); naive_solver. Qed.

Lemma store8_Ret m a v : is_Some (m !! a) -> store8 m a v = Ret (<[a := u8 v]> m).
Proof. unfold store8. by intros [? ->]. Qed.

Lemma u8_byte v : is_byte (u8 v).
Proof. apply (wrap_range 8). lia. Qed.

Lemma u8_id b : is_byte b -> u8 b = b.
Proof. apply (wrap_small 8). Qed.

#[export] Hint Resolve u8_byte : vsos.

Lemma mem_ok_insert m a v : mem_ok m -> is_byte v -> mem_ok (<[a := v]> m).
Proof.
  intros Hm Hv x b. rewrite lookup_insert. case_decide; naive_solver.
Qed.

Lemma mapped_insert m a v x n : mapped m x n -> mapped (<[a := v]> m) x n.
Proof.
  intros Hm y Hy. rewrite lookup_insert. case_decide; [eauto | by apply Hm].
Qed.

Lemma mapped_le m a n x k : mapped m a n -> a <= x -> x + k <= a + n -> mapped m x k.
Proof. intros H ?? y ?. apply H. lia. Qed.

Lemma blit_0 m dst src : blit m dst src 0 m.
Proof. intros a. repeat zcase; simpl; try reflexivity; lia. Qed.

(** Copying a prefix first is sound when the destination is not above the
    source, or does not overlap it. *)
Lemma blit_app m dst src k n m1 m2 :
  0 <= k -> 0 <= n ->
  blit m dst src k m1 -> blit m1 (dst + k) (src + k) n m2 ->
  dst <= src \/ src + (k + n) <= dst ->
  blit m dst src (k + n) m2.
Proof.
  intros Hk Hn H1 H2 Hd a. rewrite (H2 a), !H1.
  replace (src + k + (a - (dst + k))) with (src + (a - dst)) by lia.
  repeat zcase; cbn; try reflexivity; try lia.
Qed.

(** Copying a suffix first is sound when the destination is not below the source. *)
Lemma blit_app_rev m dst src k n m1 m2 :
  0 <= k -> 0 <= n ->
  blit m (dst + k) (src + k) n m1 -> blit m1 dst src k m2 ->
  src <= dst ->
  blit m dst src (k + n) m2.
Proof.
  intros Hk Hn H1 H2 Hd a. rewrite (H2 a), !H1.
  replace (src + k + (a - (dst + k))) with (src + (a - dst)) by lia.
  repeat zcase; cbn; try reflexivity; try lia.
  all: f_equal; lia.
Qed.

Lemma blit_mapped m dst src n m' x k :
  blit m dst src n m' -> mapped m src n -> mapped m x k -> mapped m' x k.
Proof.
  intros Hb Hs Hx a Ha. rewrite Hb. repeat zcase; cbn; [| by apply Hx..].
  apply Hs. lia.
Qed.

Lemma blit_ok m dst src n m' : blit m dst src n m' -> mem_ok m -> mem_ok m'.
Proof. intros Hb Hm a b. rewrite Hb. repeat zcase; cbn; apply Hm. Qed.

Lemma blit_unique m dst src n m1 m2 :
  blit m dst src n m1 -> blit m dst src n m2 -> m1 = m2.
Proof. intros H1 H2. apply map_eq. intros a. by rewrite H1, H2. Qed.

(** ** Little-endian words *)

Lemma le_to_length n v : length (le_to n v) = n.
Proof. revert v. induction n; intros; cbn; [done | by rewrite IHn]. Qed.

Lemma le_to_of l : Forall is_byte l -> le_to (length l) (le_of l) = l.
Proof.
  induction 1 as [|b l Hb Hl IH]; cbn; [done |].
  unfold is_byte in Hb.
  replace (b + 256 * le_of l) with (le_of l * 256 + b) by lia.
  rewrite Z.add_comm, Z.mod_add, Z.mod_small by lia.
  rewrite Z.div_add, Z.div_small, Z.add_0_l by lia. by rewrite IH.
Qed.

Lemma le_of_to n v : 0 <= v < 256 ^ Z.of_nat n -> le_of (le_to n v) = v.
Proof.
  revert v. induction n as [|n IH]; intros v Hv; cbn.
  - cbn in Hv. lia.
  - rewrite Nat2Z.inj_succ, Z.pow_succ_r in Hv by lia.
    rewrite IH.
    + pose proof (Z.div_mod v 256). lia.
    + split; [apply Z.div_pos; lia | apply Z.div_lt_upper_bound; lia].
Qed.

Lemma le_to_bytes n v : Forall is_byte (le_to n v).
Proof.
  revert v. induction n as [|n IH]; intros v; cbn; constructor; [| apply IH].
  unfold is_byte. apply Z.mod_pos_bound. lia.
Qed.

Lemma le_of_range l : Forall is_byte l -> 0 <= le_of l < 256 ^ Z.of_nat (length l).
Proof.
  induction 1 as [|b l Hb Hl IH]; cbn [le_of length]; [cbn; lia |].
  rewrite Nat2Z.inj_succ, Z.pow_succ_r by lia. unfold is_byte in Hb. lia.
Qed.

Lemma le_of_inj l1 l2 :
  Forall is_byte l1 -> Forall is_byte l2 -> length l1 = length l2 ->
  le_of l1 = le_of l2 -> l1 = l2.
Proof.
  intros H1 H2 Hl He. rewrite <- (le_to_of l1), <- (le_to_of l2) by done.
  by rewrite Hl, He.
Qed.

Lemma load_bytes_Ret m a n l :
  load_bytes m a n = Ret l <-> length l = n /\ bytes_at m a l.
Proof.
  revert a l. induction n as [|n IH]; intros a l; cbn.
  - split.
    + intros [= <-]. split; [done | intros i b; by rewrite lookup_nil].
    + intros [->%nil_length_inv _]. done.
  - rewrite bind_Ret. setoid_rewrite bind_Ret. setoid_rewrite load8_Ret. split.
    + intros (b & Hb & l' & [Hlen Hl']%IH & [= <-]). split; [cbn; lia |].
      intros [|i] c; cbn.
      * intros [= <-]. by rewrite Z.add_0_r.
      * intros Hc. apply Hl' in Hc. rewrite <- Hc. f_equal. lia.
    + destruct l as [|b l]; cbn; [intros [? _]; lia |]. intros [Hlen Hl].
      exists b. split; [rewrite <- (Hl 0%nat b eq_refl); f_equal; cbn; lia |].
      exists l. split; [apply IH; split; [lia |] | done].
      intros i c Hc. rewrite <- (Hl (S i) c Hc). f_equal. lia.
Qed.

Lemma load_bytes_total m a n :
  mapped m a (Z.of_nat n) -> exists l, load_bytes m a n = Ret l.
Proof.
  revert a. induction n as [|n IH]; intros a Hm; cbn; [eauto |].
  destruct (Hm a) as [b Hb]; [lia |].
  destruct (IH (a + 1)) as [l Hl]; [intros x Hx; apply Hm; lia |].
  exists (b :: l). unfold load8. by rewrite Hb; cbn; rewrite Hl.
Qed.

Lemma bytes_at_Forall m a l : mem_ok m -> bytes_at m a l -> Forall is_byte l.
Proof. intros Hm Hl. apply Forall_lookup. eauto. Qed.

Lemma store_bytes_spec m a l :
  mapped m a (Z.of_nat (length l)) -> Forall is_byte l ->
  exists m', store_bytes m a l = Ret m' /\
    forall x, m' !! x = if (a <=? x) && (x <? a + Z.of_nat (length l))
                        then l !! Z.to_nat (x - a) else m !! x.
Proof.
  revert m a. induction l as [|b l IH]; intros m a Hm Hl; cbn [store_bytes].
  - exists m. split; [done |]. intros x. repeat zcase; cbn in *; try done. lia.
  - apply Forall_cons in Hl as [Hb Hl]. cbn [length] in Hm.
    rewrite store8_Ret by (apply Hm; lia). cbn.
    destruct (IH (<[a := u8 b]> m) (a + 1)) as (m' & Hs & Hx).
    { apply mapped_insert. intros x Hx. apply Hm. lia. }
    { done. }
    exists m'. split; [done |]. intros x. rewrite Hx, u8_id by done.
    cbn [length]. rewrite lookup_insert.
    destruct (decide (a = x)) as [<- | Hne].
    + rewrite Z.sub_diag. repeat zcase; cbn; try done; lia.
    + repeat zcase; cbn; try done; try lia.
      replace (Z.to_nat (x - a)) with (S (Z.to_nat (x - (a + 1)))) by lia. done.
Qed.

(** A word moved by a load and a store is the block copy of its bytes. *)
Lemma word_copy_blit n m dst src :
  mem_ok m -> mapped m src (Z.of_nat n) -> mapped m dst (Z.of_nat n) ->
  exists m', (v ← load_le n m src; store_le n m dst v) = Ret m' /\
             blit m dst src (Z.of_nat n) m'.
Proof.
  intros Hok Hsrc Hdst. destruct (load_bytes_total m src n Hsrc) as [l Hl].
  pose proof Hl as Hl'. apply load_bytes_Ret in Hl' as [Hlen Hat].
  unfold load_le, store_le. rewrite Hl. cbn.
  assert (Forall is_byte l) as Hb by eauto using bytes_at_Forall.
  replace n with (length l) by done. rewrite le_to_of by done.
  destruct (store_bytes_spec m dst l) as (m' & Hs & Hx); [by rewrite Hlen | done |].
  exists m'. split; [done |]. intros a. rewrite Hx.
  repeat zcase; cbn; try done.
  destruct (lookup_lt_is_Some_2 l (Z.to_nat (a - dst))) as [c Hc]; [lia |].
  rewrite Hc. symmetry. rewrite <- (Hat _ _ Hc). f_equal. lia.
Qed.

(** ** Strings: enough fuel

    A loop that walks over a mapped string visits distinct mapped addresses, so
    the number of mapped bytes bounds its iterations. *)

Lemma bytes_at_size m a l : bytes_at m a l -> (length l <= size m)%nat.
Proof.
  intros Hl.
  assert (NoDup ((fun i => a + Z.of_nat i) <$> seq 0 (length l))) as Hnd.
  { apply NoDup_fmap_2; [intros x y; lia | apply NoDup_seq]. }
  rewrite <- (size_dom m).
  transitivity (size (list_to_set ((fun i => a + Z.of_nat i) <$> seq 0 (length l)) : gset Z)).
  - rewrite size_list_to_set by done. by rewrite length_fmap, length_seq.
  - apply subseteq_size. intros x Hx.
    apply elem_of_list_to_set, list_elem_of_fmap in Hx as (i & -> & Hi).
    apply elem_of_seq in Hi. apply elem_of_dom.
    destruct (lookup_lt_is_Some_2 l i) as [c Hc]; [lia |]. rewrite (Hl _ _ Hc). eauto.
Qed.

Lemma bytes_at_cons m a b l :
  bytes_at m a (b :: l) <-> m !! a = Some b /\ bytes_at m (a + 1) l.
Proof.
  split.
  - intros H. split.
    + rewrite <- (H 0%nat b eq_refl). f_equal. cbn. lia.
    + intros i c Hc. rewrite <- (H (S i) c Hc). f_equal. lia.
  - intros [H0 H] [|i] c; cbn.
    + intros [= <-]. by rewrite Z.add_0_r.
    + intros Hc. rewrite <- (H _ _ Hc). f_equal. lia.
Qed.

Lemma bytes_at_nil m a : bytes_at m a [].
Proof. intros i b. by rewrite lookup_nil. Qed.

Lemma bytes_at_app m a l1 l2 :
  bytes_at m a (l1 ++ l2) <-> bytes_at m a l1 /\ bytes_at m (a + Z.of_nat (length l1)) l2.
Proof.
  revert a. induction l1 as [|b l1 IH]; intros a; cbn [app length].
  - replace (a + Z.of_nat 0) with a by lia. split; [intros; split; [apply bytes_at_nil | done] | naive_solver].
  - rewrite !bytes_at_cons, IH.
    replace (a + Z.of_nat (S (length l1))) with (a + 1 + Z.of_nat (length l1)) by lia. tauto.
Qed.

Lemma cstr_nil m a : cstr m a [] <-> m !! a = Some 0.
Proof.
  unfold cstr. cbn [app]. rewrite bytes_at_cons. split; [tauto |].
  intros H. split; [split; [done | apply bytes_at_nil] | constructor].
Qed.

Lemma cstr_cons m a b s : cstr m a (b :: s) <-> m !! a = Some b /\ b <> 0 /\ cstr m (a + 1) s.
Proof. unfold cstr. cbn [app]. rewrite bytes_at_cons, Forall_cons. tauto. Qed.

Lemma cstr_size m a s : cstr m a s -> (length s < size m)%nat.
Proof. intros [H _]. apply bytes_at_size in H. rewrite length_app in H. cbn in H. lia. Qed.

Lemma cstr_unique m a s1 s2 : cstr m a s1 -> cstr m a s2 -> s1 = s2.
Proof.
  revert a s2. induction s1 as [|b s1 IH]; intros a [|c s2].
  - done.
  - rewrite cstr_nil, cstr_cons. naive_solver.
  - rewrite cstr_nil, cstr_cons. naive_solver.
  - rewrite !cstr_cons. intros (Hb & _ & H1) (Hc & _ & H2).
    f_equal; [congruence | by apply (IH (a + 1))].
Qed.

(** ** Concrete memories *)

Lemma lookup_mem_of a l x :
  mem_of a l !! x = if a <=? x then l !! Z.to_nat (x - a) else None.
Proof.
  revert a. induction l as [|b l IH]; intros a; cbn [mem_of].
  - rewrite lookup_empty. by zcase.
  - rewrite lookup_insert. case_decide.
    + subst. rewrite Z.leb_refl, Z.sub_diag. done.
    + rewrite IH. repeat zcase; try lia; [| done].
      replace (Z.to_nat (x - a)) with (S (Z.to_nat (x - (a + 1)))) by lia. done.
Qed.

Lemma mem_of_ok a l : forallb (fun b => (0 <=? b) && (b <? 256)) l = true -> mem_ok (mem_of a l).
Proof.
  intros Hl x b. rewrite lookup_mem_of. zcase; [| done]. intros Hb.
  rewrite forallb_forall in Hl.
  assert (In b l) as Hin by (eapply list_elem_of_In, list_elem_of_lookup_2; exact Hb).
  apply Hl in Hin. zbool. unfold is_byte. lia.
Qed.

Lemma mem_of_mapped a l x n :
  a <= x -> x + n <= a + Z.of_nat (length l) -> mapped (mem_of a l) x n.
Proof.
  intros ?? y Hy. rewrite lookup_mem_of. zcase; [| lia]. apply lookup_lt_is_Some_2. lia.
Qed.

Lemma mem_of_bytes_at a l1 l l2 :
  bytes_at (mem_of a (l1 ++ l ++ l2)) (a + Z.of_nat (length l1)) l.
Proof.
  intros i b Hb. rewrite lookup_mem_of. zcase; [| lia].
  replace (Z.to_nat _) with (length l1 + i)%nat by lia.
  rewrite lookup_app_r by lia. replace (_ - _)%nat with i by lia.
  by apply lookup_app_l_Some.
Qed.

(** Close a [mapped] goal from a hypothesis about a larger block, through the
    updates made to the memory. *)
Ltac mapped_tac :=
  solve [ match goal with
          | H : mapped ?m _ _ |- mapped ?m _ _ =>
              eapply mapped_le; [exact H | lia | lia]
          end
        | apply mapped_insert; mapped_tac
        | match goal with
          | H : blit _ _ _ _ ?m |- mapped ?m _ _ =>
              eapply blit_mapped; [exact H | mapped_tac | mapped_tac]
          end ].

#[export] Hint Resolve blit_0 blit_mapped blit_ok mapped_insert mem_ok_insert : vsos.
