(* ===== verification/CrtString.v ===== *)
(** The kernel's C runtime: memory blocks and strings.

    Models src/src/core_crt/string.c (and its boot-loader copy
    src/src/Boot/string.c) over the byte memory of [CMemory].  A function takes
    the memory and its pointers and returns the value, with the new memory when
    it writes.  Loops that walk a string carry a fuel of one more than the number of
    mapped bytes: every iteration moves to a fresh address, which must be mapped,
    so the fuel never runs out before the loop ends or faults.  [strstr] is the
    exception, whose loop does not move; it takes its fuel as an argument. *)
From S2P Require Import Prelude CMemory.

Definition NUL : Z := 0.

(** The value of a [char] (signed under MSVC) stored as the byte [b]. *)
Definition chr (b : Z) : Z := s8 b.

Definition walk_fuel (m : mem) : nat := S (size m).

(** ** Memory blocks *)

(** The comparison loop of [memcmp], over words of [w] bytes: [inl] is an early
    return, [inr] the final pointers. *)
Fixpoint memcmp_loop (w n : nat) (m : mem) (p1 p2 : Z) : outcome (Z + Z * Z) :=
  match n with
  | O => Ret (inr (p1, p2))
  | S n =>
      a ← load_le w m p1;
      b ← load_le w m p2;
      if a <? b then Ret (inl (-1))
      else if b <? a then Ret (inl 1)
      else memcmp_loop w n m (p1 + Z.of_nat w) (p2 + Z.of_nat w)
  end.

Definition memcmp (m : mem) (Buf1 Buf2 Size : Z) : outcome Z :=
  r ← memcmp_loop 8 (Z.to_nat (Size / 8)) m Buf1 Buf2;
  match r with
  | inl v => Ret v
  | inr (p1, p2) =>
      r ← memcmp_loop 1 (Z.to_nat (Size mod 8)) m p1 p2;
      match r with inl v => Ret v | inr _ => Ret 0 end
  end.

(** The copy loop of [memcpy], over words of [w] bytes. *)
Fixpoint memcpy_loop (w n : nat) (m : mem) (dst src : Z) : outcome (mem * Z * Z) :=
  match n with
  | O => Ret (m, dst, src)
  | S n =>
      m' ← (v ← load_le w m src; store_le w m dst v);
      memcpy_loop w n m' (dst + Z.of_nat w) (src + Z.of_nat w)
  end.

Definition memcpy (m : mem) (Dst Src Size : Z) : outcome (mem * Z) :=
  '(m, dst, src) ← memcpy_loop 8 (Z.to_nat (Size / 8)) m Dst Src;
  '(m, _, _) ← memcpy_loop 1 (Z.to_nat (Size mod 8)) m dst src;
  Ret (m, Dst).

(** [for (int i = n - 1; i >= 0; i--) dest_8[i] = source_8[i];] *)
Fixpoint memmove_down (n : nat) (m : mem) (dst src : Z) : outcome mem :=
  match n with
  | O => Ret m
  | S i =>
      v ← load8 m (src + Z.of_nat i);
      m ← store8 m (dst + Z.of_nat i) v;
      memmove_down i m dst src
  end.

Definition memmove (m : mem) (Dst Src Size : Z) : outcome (mem * Z) :=
  if Dst <? Src then memcpy m Dst Src Size
  else
    let i := s32 (s32 Size - 1) in
    m ← memmove_down (Z.to_nat (i + 1)) m Dst Src;
    Ret (m, Dst).

Fixpoint memset_loop (n : nat) (m : mem) (dst Val : Z) : outcome mem :=
  match n with
  | O => Ret m
  | S n => m ← store8 m dst (u8 Val); memset_loop n m (dst + 1) Val
  end.

Definition memset (m : mem) (Dst Val Size : Z) : outcome (mem * Z) :=
  m ← memset_loop (Z.to_nat Size) m Dst Val;
  Ret (m, Dst).

(** ** Lengths and comparisons *)

Fixpoint strlen_loop (fuel : nat) (m : mem) (str length : Z) : outcome Z :=
  match fuel with
  | O => Diverged
  | S fuel =>
      c ← load8 m str;
      if c =? NUL then Ret length else strlen_loop fuel m (str + 1) (length + 1)
  end.

Definition strlen (m : mem) (str : Z) : outcome Z := strlen_loop (walk_fuel m) m str 0.

Fixpoint strcmp_loop (fuel : nat) (m : mem) (str1 str2 : Z) : outcome Z :=
  match fuel with
  | O => Diverged
  | S fuel =>
      c1 ← load8 m str1;
      c2 ← load8 m str2;
      if truthy c1 && (chr c1 =? chr c2) then strcmp_loop fuel m (str1 + 1) (str2 + 1)
      else Ret (c1 - c2)
  end.

Definition strcmp (m : mem) (str1 str2 : Z) : outcome Z :=
  strcmp_loop (walk_fuel m) m str1 str2.

(** strcmp(name, arr) == 0 for a string and an array; past its end is a fault. *)
Fixpoint same_name (name arr : list Z) : outcome bool :=
  match name, arr with
  | _, [] => Fault
  | [], x :: _ => Ret (x =? 0)
  | c :: name, x :: arr => if c =? x then same_name name arr else Ret false
  end.

(** The string an array holds; without a terminator the code reads on. *)
Fixpoint c_str (arr : list Z) : outcome (list Z) :=
  match arr with
  | [] => Fault
  | x :: arr => if x =? 0 then Ret [] else s ← c_str arr; Ret (x :: s)
  end.

(** The macro [__ascii_toupper]. *)
Definition ascii_toupper (c : Z) : Z := if (97 <=? c) && (c <=? 122) then c - 97 + 65 else c.

Fixpoint stricmp_loop (n : nat) (m : mem) (s1 s2 i : Z) : outcome Z :=
  match n with
  | O => Ret 0
  | S n =>
      c1 ← load8 m (s1 + i);
      c2 ← load8 m (s2 + i);
      if ascii_toupper (chr c1) =? ascii_toupper (chr c2) then stricmp_loop n m s1 s2 (i + 1)
      else Ret (chr c1 - chr c2)
  end.

Definition stricmp (m : mem) (String1 String2 : Z) : outcome Z :=
  n1 ← strlen m String1;
  n2 ← strlen m String2;
  if negb (n1 =? n2) then Ret (-1)
  else stricmp_loop (Z.to_nat n1) m String1 String2 0.

(** The loop tests [i < strlen(_String1)] first, then [_MaxCount > 0]. *)
Fixpoint strnicmp_loop (n : nat) (m : mem) (s1 s2 i MaxCount : Z) : outcome Z :=
  match n with
  | O => Ret 0
  | S n =>
      if 0 <? MaxCount then
        c1 ← load8 m (s1 + i);
        c2 ← load8 m (s2 + i);
        if ascii_toupper (chr c1) =? ascii_toupper (chr c2)
        then strnicmp_loop n m s1 s2 (i + 1) (MaxCount - 1)
        else Ret (chr c1 - chr c2)
      else Ret 0
  end.

Definition strnicmp (m : mem) (String1 String2 MaxCount : Z) : outcome Z :=
  n1 ← strlen m String1;
  strnicmp_loop (Z.to_nat n1) m String1 String2 0 MaxCount.

(** [_MaxCount--] is evaluated only when both other conditions hold, and wraps at 0. *)
Fixpoint strncmp_loop (fuel : nat) (m : mem) (Str1 Str2 MaxCount : Z) : outcome (Z * Z * Z) :=
  match fuel with
  | O => Diverged
  | S fuel =>
      c1 ← load8 m Str1;
      if negb (truthy c1) then Ret (Str1, Str2, MaxCount)
      else
        c2 ← load8 m Str2;
        if negb (chr c1 =? chr c2) then Ret (Str1, Str2, MaxCount)
        else if MaxCount =? 0 then Ret (Str1, Str2, u64 (MaxCount - 1))
        else strncmp_loop fuel m (Str1 + 1) (Str2 + 1) (MaxCount - 1)
  end.

Definition strncmp (m : mem) (Str1 Str2 MaxCount : Z) : outcome Z :=
  '(p1, p2, count) ← strncmp_loop (walk_fuel m) m Str1 Str2 MaxCount;
  if truthy count then c1 ← load8 m p1; c2 ← load8 m p2; Ret (c1 - c2)
  else Ret 0.

Fixpoint strnlen_loop (fuel : nat) (m : mem) (s MaxCount count : Z) : outcome Z :=
  match fuel with
  | O => Diverged
  | S fuel =>
      c ← load8 m s;
      if truthy c && truthy MaxCount then strnlen_loop fuel m (s + 1) (MaxCount - 1) (count + 1)
      else Ret count
  end.

Definition strnlen_s (m : mem) (String MaxCount : Z) : outcome Z :=
  if String =? 0 then Ret 0 else strnlen_loop (walk_fuel m) m String MaxCount 0.

(** ** Copying and searching *)

Fixpoint strcat_loop (fuel : nat) (m : mem) (s Source : Z) : outcome (mem * Z) :=
  match fuel with
  | O => Diverged
  | S fuel =>
      c ← load8 m Source;
      if c =? NUL then Ret (m, s)
      else m ← store8 m s c; strcat_loop fuel m (s + 1) (Source + 1)
  end.

Definition strcat (m : mem) (Destination Source : Z) : outcome (mem * Z) :=
  n ← strlen m Destination;
  '(m, s) ← strcat_loop (walk_fuel m) m (Destination + n) Source;
  m ← store8 m s NUL;
  Ret (m, Destination).

Fixpoint strncat_loop (fuel : nat) (m : mem) (s Source Count : Z) : outcome (mem * Z) :=
  match fuel with
  | O => Diverged
  | S fuel =>
      c ← load8 m Source;
      if negb (c =? NUL) && truthy Count
      then m ← store8 m s c; strncat_loop fuel m (s + 1) (Source + 1) (Count - 1)
      else Ret (m, s)
  end.

Definition strncat (m : mem) (Destination Source Count : Z) : outcome (mem * Z) :=
  n ← strlen m Destination;
  '(m, s) ← strncat_loop (walk_fuel m) m (Destination + n) Source Count;
  m ← store8 m s NUL;
  Ret (m, Destination).

Definition strncpy (m : mem) (Destination Source Count : Z) : outcome (mem * Z) :=
  '(m, _) ← memcpy m Destination Source Count;
  Ret (m, Destination).

Definition strcpy (m : mem) (Destination Source : Z) : outcome (mem * Z) :=
  n ← strlen m Source;
  strncpy m Destination Source n.

Fixpoint strchr_loop (fuel : nat) (m : mem) (s Ch : Z) : outcome Z :=
  match fuel with
  | O => Diverged
  | S fuel =>
      c ← load8 m s;
      if chr c =? chr Ch then Ret s
      else if negb (truthy c) then Ret 0
      else strchr_loop fuel m (s + 1) Ch
  end.

Definition strchr (m : mem) (String Ch : Z) : outcome Z :=
  strchr_loop (walk_fuel m) m String Ch.

Fixpoint strrchr_loop (fuel : nat) (m : mem) (s Ch ret : Z) : outcome Z :=
  match fuel with
  | O => Diverged
  | S fuel =>
      c ← load8 m s;
      let ret := if chr c =? chr Ch then s else ret in
      if truthy c then strrchr_loop fuel m (s + 1) Ch ret else Ret ret
  end.

Definition strrchr (m : mem) (String Ch : Z) : outcome Z :=
  strrchr_loop (walk_fuel m) m String Ch 0.

(** The loop of [strstr] advances [s] but tests [_String], which never moves. *)
Fixpoint strstr_loop (fuel : nat) (m : mem) (String SubString n s : Z) : outcome Z :=
  match fuel with
  | O => Diverged
  | S fuel =>
      c ← load8 m String;
      if truthy c then
        r ← memcmp m String SubString n;
        if r =? 0 then Ret String else strstr_loop fuel m String SubString n (s + 1)
      else Ret 0
  end.

Definition strstr (fuel : nat) (m : mem) (String SubString : Z) : outcome Z :=
  n ← strlen m SubString;
  strstr_loop fuel m String SubString n String.

Definition isalpha (c : Z) : bool := ((64 <? c) && (c <? 91)) || ((96 <? c) && (c <? 123)).

(** ** Block copies *)

Lemma memcpy_loop_blit w n m dst src :
  mem_ok m ->
  mapped m src (Z.of_nat n * Z.of_nat w) -> mapped m dst (Z.of_nat n * Z.of_nat w) ->
  dst <= src \/ src + Z.of_nat n * Z.of_nat w <= dst ->
  exists m', memcpy_loop w n m dst src
             = Ret (m', dst + Z.of_nat n * Z.of_nat w, src + Z.of_nat n * Z.of_nat w) /\
             blit m dst src (Z.of_nat n * Z.of_nat w) m'.
Proof.
  revert m dst src. induction n as [|n IH]; intros m dst src Hok Hs Hd Ho.
  - exists m. cbn [memcpy_loop]. rewrite Z.mul_0_l, !Z.add_0_r. auto with vsos.
  - rewrite Nat2Z.inj_succ, Z.mul_succ_l in *.
    destruct (word_copy_blit w m dst src) as (m1 & Hm1 & Hb1);
      [done | mapped_tac.. |].
    cbn [memcpy_loop]. rewrite Hm1. cbn [mbind outcome_bind].
    destruct (IH m1 (dst + Z.of_nat w) (src + Z.of_nat w)) as (m2 & Hm2 & Hb2).
    + eauto with vsos.
    + mapped_tac.
    + mapped_tac.
    + lia.
    + exists m2. rewrite Hm2. split; [ret_eq |].
      rewrite (Z.add_comm _ (Z.of_nat w)). eapply blit_app; [lia | lia | done | done | lia].
Qed.

Lemma memcpy_blit m dst src n :
  mem_ok m -> 0 <= n -> mapped m src n -> mapped m dst n ->
  dst <= src \/ src + n <= dst ->
  exists m', memcpy m dst src n = Ret (m', dst) /\ blit m dst src n m'.
Proof.
  intros Hok Hn Hs Hd Ho. unfold memcpy.
  pose proof (Z.div_mod n 8 ltac:(lia)) as Hdm.
  pose proof (Z.mod_pos_bound n 8 ltac:(lia)) as Hmod.
  assert (0 <= n / 8) by (apply Z.div_pos; lia).
  destruct (memcpy_loop_blit 8 (Z.to_nat (n / 8)) m dst src) as (m1 & Hm1 & Hb1).
  { done. }
  { mapped_tac. }
  { mapped_tac. }
  { lia. }
  set (k := Z.of_nat (Z.to_nat (n / 8)) * Z.of_nat 8) in *.
  destruct (memcpy_loop_blit 1 (Z.to_nat (n mod 8)) m1 (dst + k) (src + k)) as (m2 & Hm2 & Hb2).
  { eauto with vsos. }
  { mapped_tac. }
  { mapped_tac. }
  { lia. }
  exists m2. rewrite Hm1. cbn [mbind outcome_bind]. rewrite Hm2. split; [done |].
  replace n with (k + Z.of_nat (Z.to_nat (n mod 8)) * Z.of_nat 1) by lia.
  eapply blit_app; [lia | lia | done | done | lia].
Qed.

Lemma memmove_down_blit n m dst src :
  mem_ok m -> mapped m src (Z.of_nat n) -> mapped m dst (Z.of_nat n) -> src <= dst ->
  exists m', memmove_down n m dst src = Ret m' /\ blit m dst src (Z.of_nat n) m'.
Proof.
  revert m. induction n as [|n IH]; intros m Hok Hs Hd Ho.
  - exists m. auto with vsos.
  - rewrite Nat2Z.inj_succ in *. cbn [memmove_down].
    destruct (Hs (src + Z.of_nat n)) as [b Hb]; [lia |].
    unfold load8. rewrite Hb. cbn [mbind outcome_bind].
    rewrite store8_Ret by (apply Hd; lia). cbn [mbind outcome_bind].
    rewrite u8_id by eauto.
    set (m1 := <[dst + Z.of_nat n := b]> m).
    assert (blit m (dst + Z.of_nat n) (src + Z.of_nat n) 1 m1) as Hb1.
    { intros a. unfold m1. rewrite lookup_insert.
      case_decide; repeat zcase; cbn; try lia; try done.
      rewrite <- Hb. f_equal. lia. }
    destruct (IH m1) as (m2 & Hm2 & Hb2).
    + apply mem_ok_insert; eauto.
    + mapped_tac.
    + mapped_tac.
    + done.
    + exists m2. split; [done |]. rewrite <- Z.add_1_r.
      eapply blit_app_rev; [lia | lia | done | done | lia].
Qed.

Lemma memset_loop_spec n m dst v :
  mapped m dst (Z.of_nat n) ->
  exists m', memset_loop n m dst v = Ret m' /\
    forall a, m' !! a = if (dst <=? a) && (a <? dst + Z.of_nat n) then Some (u8 v) else m !! a.
Proof.
  revert m dst. induction n as [|n IH]; intros m dst Hm; cbn [memset_loop].
  - exists m. split; [done |]. intros a. repeat zcase; cbn; try done; lia.
  - rewrite store8_Ret by (apply Hm; lia). cbn [mbind outcome_bind].
    destruct (IH (<[dst := u8 (u8 v)]> m) (dst + 1)) as (m' & Hm' & Ha).
    { mapped_tac. }
    exists m'. split; [done |]. intros a. rewrite Ha, lookup_insert, wrap_wrap.
    destruct (decide (dst = a)); repeat zcase; cbn; try done; lia.
Qed.

(** Fact: [memcpy] never faults on mapped blocks and copies exactly the [n] bytes
    of the source, changing nothing else, whenever the destination does not
    start inside the source; the word loop and the byte loop split the block
    correctly for every size and alignment. *)
Theorem memcpy_correct m dst src n :
  mem_ok m -> 0 <= n < 2 ^ 64 -> mapped m src n -> mapped m dst n ->
  dst <= src \/ src + n <= dst ->
  exists m', memcpy m dst src n = Ret (m', dst) /\ blit m dst src n m'.
Proof. intros ? [? _]. by apply memcpy_blit. Qed.

(** Fact: [memmove] copies the source block to the destination for every overlap
    of the two, when the size fits the signed loop counter. *)
Theorem memmove_correct m dst src n :
  mem_ok m -> 0 <= n < 2 ^ 31 -> mapped m src n -> mapped m dst n ->
  exists m', memmove m dst src n = Ret (m', dst) /\ blit m dst src n m'.
Proof.
  intros Hok Hn Hs Hd. unfold memmove. destruct (Z.ltb_spec dst src).
  - apply memcpy_blit; auto; lia.
  - rewrite (swrap_small 32 n), (swrap_small 32 (n - 1)) by lia.
    replace (n - 1 + 1) with n by lia.
    destruct (memmove_down_blit (Z.to_nat n) m dst src) as (m' & Hm & Hb);
      [done | rewrite Z2Nat.id; done || lia.. | done |].
    exists m'. rewrite Hm. cbn [mbind outcome_bind]. rewrite Z2Nat.id in Hb by lia. done.
Qed.

(** Fact: above 2 GiB the [int] counter of [memmove] turns negative and the upward
    move copies nothing: the call returns with the memory unchanged. *)
Theorem memmove_large_noop m dst src n :
  2 ^ 31 < n <= 2 ^ 32 -> src <= dst -> memmove m dst src n = Ret (m, dst).
Proof.
  intros Hn Ho. unfold memmove. destruct (Z.ltb_spec dst src); [lia |].
  assert (s32 n = n - 2 ^ 32) as E.
  { unfold swrap. replace (n + 2 ^ (32 - 1)) with ((n - 2 ^ 31) + 1 * 2 ^ 32) by lia.
    rewrite Z.mod_add, Z.mod_small; lia. }
  rewrite E. destruct (Z.eq_dec n (2 ^ 32)) as [-> | Hne].
  - reflexivity.
  - rewrite (swrap_small 32) by lia. replace (Z.to_nat _) with 0%nat by lia. reflexivity.
Qed.

Lemma memcpy_correct_witness :
  exists m', memcpy (mem_of 100 (seqZ 0 64)) 101 104 21 = Ret (m', 101) /\
             blit (mem_of 100 (seqZ 0 64)) 101 104 21 m'.
Proof.
  apply memcpy_correct.
  - apply mem_of_ok. vm_compute. reflexivity.
  - lia.
  - apply mem_of_mapped; vm_compute; discriminate.
  - apply mem_of_mapped; vm_compute; discriminate.
  - lia.
Defined.

Lemma memmove_correct_witness :
  exists m', memmove (mem_of 100 (seqZ 0 64)) 104 101 21 = Ret (m', 104) /\
             blit (mem_of 100 (seqZ 0 64)) 104 101 21 m'.
Proof.
  apply memmove_correct.
  - apply mem_of_ok. vm_compute. reflexivity.
  - lia.
  - apply mem_of_mapped; vm_compute; discriminate.
  - apply mem_of_mapped; vm_compute; discriminate.
Defined.

Lemma memmove_large_noop_witness :
  memmove ∅ 4096 0 (2 ^ 31 + 4096) = Ret (∅, 4096).
Proof. apply memmove_large_noop; lia. Defined.

(** ** Block comparison *)

(** [n] words of [w] bytes agree at [p1] and [p2]. *)
Definition same_bytes (m : mem) (p1 p2 n : Z) : Prop :=
  forall i, 0 <= i < n -> m !! (p1 + i) = m !! (p2 + i).

Lemma load_le_same w m p1 p2 a b :
  mem_ok m -> load_le w m p1 = Ret a -> load_le w m p2 = Ret b ->
  a = b <-> same_bytes m p1 p2 (Z.of_nat w).
Proof.
  unfold load_le. intros Hok (l1 & [Hl1 H1]%load_bytes_Ret & [= <-])%bind_Ret
    (l2 & [Hl2 H2]%load_bytes_Ret & [= <-])%bind_Ret.
  split.
  - intros He. apply le_of_inj in He as ->;
      [| by eauto using bytes_at_Forall.. | by rewrite Hl1, Hl2].
    intros i Hi. destruct (lookup_lt_is_Some_2 l2 (Z.to_nat i)) as [c Hc]; [lia |].
    apply H1 in Hc as Hc1. apply H2 in Hc as Hc2.
    rewrite Z2Nat.id in * by lia. congruence.
  - intros Hs. f_equal. apply list_eq_same_length with w; [done | done |].
    intros i x y Hi Hx Hy. apply H1 in Hx. apply H2 in Hy.
    specialize (Hs (Z.of_nat i)). rewrite Hs in Hx by lia. congruence.
Qed.

Lemma memcmp_loop_spec w n m p1 p2 :
  mem_ok m -> mapped m p1 (Z.of_nat n * Z.of_nat w) -> mapped m p2 (Z.of_nat n * Z.of_nat w) ->
  (memcmp_loop w n m p1 p2 = Ret (inr (p1 + Z.of_nat n * Z.of_nat w, p2 + Z.of_nat n * Z.of_nat w)) /\
   same_bytes m p1 p2 (Z.of_nat n * Z.of_nat w)) \/
  (exists r, memcmp_loop w n m p1 p2 = Ret (inl r) /\ (r = -1 \/ r = 1) /\
   ~ same_bytes m p1 p2 (Z.of_nat n * Z.of_nat w)).
Proof.
  intros Hok. revert p1 p2. induction n as [|n IH]; intros p1 p2 H1 H2.
  - left. cbn [memcmp_loop]. rewrite Z.mul_0_l, !Z.add_0_r. split; [done |]. intros i Hi. lia.
  - rewrite Nat2Z.inj_succ, Z.mul_succ_l in *. cbn [memcmp_loop].
    destruct (load_bytes_total m p1 w) as [l1 Hl1]; [mapped_tac |].
    destruct (load_bytes_total m p2 w) as [l2 Hl2]; [mapped_tac |].
    assert (load_le w m p1 = Ret (le_of l1)) as E1 by (unfold load_le; by rewrite Hl1).
    assert (load_le w m p2 = Ret (le_of l2)) as E2 by (unfold load_le; by rewrite Hl2).
    pose proof (load_le_same w m p1 p2 _ _ Hok E1 E2) as Heq.
    rewrite E1, E2. cbn [mbind outcome_bind].
    assert (le_of l1 <> le_of l2 ->
            ~ same_bytes m p1 p2 (Z.of_nat n * Z.of_nat w + Z.of_nat w)) as Hno.
    { intros Hne Hs. apply Hne, Heq. intros i Hi. apply Hs. lia. }
    destruct (Z.ltb_spec (le_of l1) (le_of l2)).
    { right. exists (-1). split_and!; [done | by left |]. apply Hno. lia. }
    destruct (Z.ltb_spec (le_of l2) (le_of l1)).
    { right. exists 1. split_and!; [done | by right |]. apply Hno. lia. }
    assert (same_bytes m p1 p2 (Z.of_nat w)) as Hw by (apply Heq; lia).
    destruct (IH (p1 + Z.of_nat w) (p2 + Z.of_nat w)) as [[-> Hs] | (r & -> & Hr & Hs)];
      [mapped_tac | mapped_tac | left | right].
    + split; [apply (f_equal Ret), (f_equal inr); apply (f_equal2 pair); lia |].
      intros i Hi. destruct (Z.lt_ge_cases i (Z.of_nat w)); [apply Hw; lia |].
      specialize (Hs (i - Z.of_nat w)).
      replace (p1 + Z.of_nat w + (i - Z.of_nat w)) with (p1 + i) in Hs by lia.
      replace (p2 + Z.of_nat w + (i - Z.of_nat w)) with (p2 + i) in Hs by lia.
      apply Hs. lia.
    + exists r. split_and!; [done.. |]. intros Hall. apply Hs. intros i Hi.
      rewrite <- !Z.add_assoc. apply Hall. lia.
Qed.

Lemma memcmp_same m p1 p2 n :
  mem_ok m -> 0 <= n -> mapped m p1 n -> mapped m p2 n ->
  exists r, memcmp m p1 p2 n = Ret r /\ (r = -1 \/ r = 0 \/ r = 1) /\
            (r = 0 <-> same_bytes m p1 p2 n).
Proof.
  intros Hok Hn H1 H2. unfold memcmp.
  pose proof (Z.div_mod n 8 ltac:(lia)) as Hdm.
  pose proof (Z.mod_pos_bound n 8 ltac:(lia)) as Hmod.
  assert (0 <= n / 8) by (apply Z.div_pos; lia).
  destruct (memcmp_loop_spec 8 (Z.to_nat (n / 8)) m p1 p2)
    as [[-> Hs] | (r & -> & Hr & Hs)]; [done | mapped_tac | mapped_tac | |]; cbn [mbind outcome_bind].
  - set (k := Z.of_nat (Z.to_nat (n / 8)) * Z.of_nat 8) in *.
    destruct (memcmp_loop_spec 1 (Z.to_nat (n mod 8)) m (p1 + k) (p2 + k))
      as [[-> Ht] | (r & -> & Hr & Ht)]; [done | mapped_tac | mapped_tac | |]; cbn [mbind outcome_bind].
    + exists 0. split_and!; [done | lia |]. split; [intros _ | done].
      intros i Hi. destruct (Z.lt_ge_cases i k); [apply Hs; lia |].
      specialize (Ht (i - k)). replace (p1 + k + (i - k)) with (p1 + i) in Ht by lia.
      replace (p2 + k + (i - k)) with (p2 + i) in Ht by lia. apply Ht. lia.
    + exists r. split_and!; [done | lia |]. split; [lia |]. intros Hall. exfalso.
      apply Ht. intros i Hi. rewrite <- !Z.add_assoc. apply Hall. lia.
  - exists r. split_and!; [done | lia |]. split; [lia |]. intros Hall. exfalso.
    apply Hs. intros i Hi. apply Hall. lia.
Qed.

(** Fact: [memcmp] returns on mapped blocks, with -1, 0 or 1, and returns 0 exactly
    when the two blocks hold the same bytes. *)
Theorem memcmp_zero_iff m p1 p2 n :
  mem_ok m -> 0 <= n < 2 ^ 64 -> mapped m p1 n -> mapped m p2 n ->
  exists r, memcmp m p1 p2 n = Ret r /\ (r = -1 \/ r = 0 \/ r = 1) /\
            (r = 0 <-> same_bytes m p1 p2 n).
Proof. intros ? [? _]. by apply memcmp_same. Qed.

Lemma memcmp_zero_iff_witness :
  exists r, memcmp (mem_of 0 (seqZ 0 10 ++ seqZ 0 9 ++ [77])) 0 10 10 = Ret r /\
            (r = -1 \/ r = 0 \/ r = 1) /\
            (r = 0 <-> same_bytes (mem_of 0 (seqZ 0 10 ++ seqZ 0 9 ++ [77])) 0 10 10).
Proof.
  apply memcmp_zero_iff.
  - apply mem_of_ok. vm_compute. reflexivity.
  - lia.
  - apply mem_of_mapped; vm_compute; discriminate.
  - apply mem_of_mapped; vm_compute; discriminate.
Defined.

(** Fact: the order [memcmp] reports is not the byte-wise one: it compares the
    little-endian value of whole words, so a block whose first byte is smaller
    can compare greater. *)
Theorem memcmp_word_order :
  let m := mem_of 0 [1; 0; 0; 0; 0; 0; 0; 2;  2; 0; 0; 0; 0; 0; 0; 1] in
  memcmp m 0 8 8 = Ret 1 /\ m !! 0 = Some 1 /\ m !! 8 = Some 2.
Proof. vm_compute. auto. Qed.

(** ** Strings *)

Lemma chr_inj a b : is_byte a -> is_byte b -> chr a = chr b <-> a = b.
Proof.
  unfold chr, is_byte. intros Ha Hb. split; [| by intros ->].
  intros H. apply (f_equal (wrap 8)) in H. unfold swrap, wrap in H.
  rewrite !Zminus_mod_idemp_l in H.
  replace (a + 2 ^ (8 - 1) - 2 ^ (8 - 1)) with a in H by lia.
  replace (b + 2 ^ (8 - 1) - 2 ^ (8 - 1)) with b in H by lia.
  rewrite !Z.mod_small in H by lia. done.
Qed.

Lemma chr_eqb a b : is_byte a -> is_byte b -> (chr a =? chr b) = (a =? b).
Proof.
  intros Ha Hb. pose proof (chr_inj a b Ha Hb). repeat zcase; naive_solver.
Qed.

Lemma truthy_nonzero c : c <> 0 -> truthy c = true.
Proof. unfold truthy. zcase; naive_solver. Qed.

Lemma load8_eq m a b : m !! a = Some b -> load8 m a = Ret b.
Proof. unfold load8. by intros ->. Qed.

(** Run one iteration of a loop over strings whose bytes are known. *)
Ltac walk :=
  repeat match goal with
  | H : ?m !! ?a = Some ?b |- context [load8 ?m ?a] =>
      rewrite (load8_eq m a b H); cbn [mbind outcome_bind]
  end.

Lemma strlen_loop_spec fuel m p s k :
  cstr m p s -> (length s < fuel)%nat ->
  strlen_loop fuel m p k = Ret (k + Z.of_nat (length s)).
Proof.
  revert p s k. induction fuel as [|fuel IH]; intros p s k Hs Hf; [lia |].
  destruct s as [|c s]; cbn [strlen_loop length] in *.
  - apply cstr_nil in Hs. walk. cbn. f_equal. lia.
  - apply cstr_cons in Hs as (Hc & Hne & Hs). walk. unfold NUL.
    destruct (Z.eqb_spec c 0); [done |]. rewrite (IH _ s) by (done || lia). f_equal. lia.
Qed.

Lemma strlen_cstr m p s : cstr m p s -> strlen m p = Ret (Z.of_nat (length s)).
Proof.
  intros Hs. unfold strlen, walk_fuel. rewrite (strlen_loop_spec _ _ _ s);
    [done | done | apply cstr_size in Hs; lia].
Qed.

(** The difference of the first bytes that differ, the terminator counting as 0. *)
Fixpoint str_compare (s t : list Z) : Z :=
  match s, t with
  | [], [] => 0
  | [], c :: _ => - c
  | b :: _, [] => b
  | b :: s, c :: t => if b =? c then str_compare s t else b - c
  end.

Lemma strcmp_loop_spec fuel m p q s t :
  mem_ok m -> cstr m p s -> cstr m q t -> (length s < fuel)%nat ->
  strcmp_loop fuel m p q = Ret (str_compare s t).
Proof.
  intros Hok. revert p q s t. induction fuel as [|fuel IH]; intros p q s t Hs Ht Hf; [lia |].
  destruct s as [|b s], t as [|c t]; cbn [strcmp_loop length str_compare] in *;
    rewrite ?cstr_nil, ?cstr_cons in Hs; rewrite ?cstr_nil, ?cstr_cons in Ht;
    destruct_and?; walk; [done.. | |].
  - rewrite chr_eqb, truthy_nonzero by eauto. cbn. destruct (Z.eqb_spec b 0); [done |].
    f_equal. lia.
  - rewrite chr_eqb, truthy_nonzero by eauto. cbn. destruct (Z.eqb_spec b c); [| done].
    eapply IH; [done.. | lia].
Qed.

Lemma str_compare_zero s t :
  Forall (fun b => b <> 0) s -> Forall (fun b => b <> 0) t -> str_compare s t = 0 <-> s = t.
Proof.
  intros Hs. revert t. induction Hs as [|b s Hb Hs IH]; intros [|c t] Ht; cbn.
  - done.
  - apply Forall_cons in Ht as [Hc _]. split; [lia | done].
  - split; [done | done].
  - apply Forall_cons in Ht as [Hc Ht]. destruct (Z.eqb_spec b c) as [-> | Hne].
    + rewrite IH by done. naive_solver.
    + split; [lia | naive_solver].
Qed.

(** Fact: [strcmp] on two strings returns the difference of the first bytes (as
    unsigned chars) in which they differ, and so 0 exactly for equal strings. *)
Theorem strcmp_correct m p q s t :
  mem_ok m -> cstr m p s -> cstr m q t ->
  strcmp m p q = Ret (str_compare s t) /\ (str_compare s t = 0 <-> s = t).
Proof.
  intros Hok Hs Ht. split.
  - apply strcmp_loop_spec; [done.. |]. apply cstr_size in Hs. unfold walk_fuel. lia.
  - apply str_compare_zero; [apply Hs | apply Ht].
Qed.

Lemma mem_of_cstr a l1 s l2 :
  forallb (fun b => negb (b =? 0)) s = true ->
  cstr (mem_of a (l1 ++ (s ++ [0]) ++ l2)) (a + Z.of_nat (length l1)) s.
Proof.
  intros Hs. split; [apply mem_of_bytes_at |].
  apply Forall_forall. intros b Hb%list_elem_of_In. rewrite forallb_forall in Hs.
  specialize (Hs b Hb). zbool. done.
Qed.

(** "kernel" and "kernal", one after the other. *)
Definition demo_strings : mem :=
  mem_of 16 ([107; 101; 114; 110; 101; 108; 0] ++ [107; 101; 114; 110; 97; 108; 0]).

Lemma strcmp_correct_witness :
  strcmp demo_strings 16 23 = Ret (str_compare [107; 101; 114; 110; 101; 108] [107; 101; 114; 110; 97; 108]) /\
  (str_compare [107; 101; 114; 110; 101; 108] [107; 101; 114; 110; 97; 108] = 0 <->
   [107; 101; 114; 110; 101; 108] = [107; 101; 114; 110; 97; 108]).
Proof.
  apply strcmp_correct.
  - apply mem_of_ok. reflexivity.
  - apply (mem_of_cstr 16 [] [107; 101; 114; 110; 101; 108] [107; 101; 114; 110; 97; 108; 0]).
    reflexivity.
  - apply (mem_of_cstr 16 [107; 101; 114; 110; 101; 108; 0] [107; 101; 114; 110; 97; 108] []).
    reflexivity.
Defined.

Lemma strncmp_loop_spec fuel m p q s t n :
  mem_ok m -> cstr m p s -> cstr m q t -> (length s < fuel)%nat -> 0 <= n < 2 ^ 64 ->
  exists p' q' n', strncmp_loop fuel m p q n = Ret (p', q', n') /\
    (if truthy n' then c1 ← load8 m p'; c2 ← load8 m q'; Ret (c1 - c2) else Ret 0)
    = Ret (str_compare (take (Z.to_nat n) s) (take (Z.to_nat n) t)).
Proof.
  intros Hok. revert p q s t n.
  induction fuel as [|fuel IH]; intros p q s t n Hs Ht Hf Hn; [lia |].
  destruct s as [|b s]; cbn [strncmp_loop length] in *.
  - apply cstr_nil in Hs. walk. change (negb (truthy 0)) with true; cbv iota. exists p, q, n. split; [done |].
    rewrite take_nil. unfold truthy. destruct (Z.eqb_spec n 0) as [-> | Hne]; cbn [negb].
    { by rewrite take_0. }
    destruct t as [|c t]; rewrite ?cstr_nil, ?cstr_cons in Ht; destruct_and?; walk.
    + by rewrite take_nil.
    + destruct (Z.to_nat n) eqn:E; [lia |]. done.
  - apply cstr_cons in Hs as (Hb & Hb0 & Hs). walk. rewrite truthy_nonzero by done. cbn [negb].
    destruct t as [|c t]; rewrite ?cstr_nil, ?cstr_cons in Ht; destruct_and?; walk;
      rewrite chr_eqb by eauto.
    + destruct (Z.eqb_spec b 0); [done |]. cbn [negb]. exists p, q, n. split; [done |].
      unfold truthy. destruct (Z.eqb_spec n 0) as [-> | Hne]; cbn [negb]; [reflexivity |]. walk.
      destruct (Z.to_nat n) eqn:E; [lia |]. cbn. f_equal. lia.
    + destruct (Z.eqb_spec b c) as [-> | Hbc]; cbn [negb].
      * destruct (Z.eqb_spec n 0) as [-> | Hne].
        -- exists p, q, (u64 (0 - 1)). split; [done |].
           change (truthy (u64 (0 - 1))) with true; cbv iota. walk.
           rewrite Z.sub_diag. reflexivity.
        -- destruct (IH (p + 1) (q + 1) s t (n - 1)) as (p' & q' & n' & E & Hr);
             [done | done | lia | lia |].
           exists p', q', n'. split; [done |]. rewrite Hr.
           replace (Z.to_nat n) with (S (Z.to_nat (n - 1))) by lia.
           cbn. by rewrite Z.eqb_refl.
      * exists p, q, n. split; [done |]. unfold truthy.
        destruct (Z.eqb_spec n 0) as [-> | Hne]; cbn [negb]; [reflexivity |]. walk.
        destruct (Z.to_nat n) eqn:E; [lia |]. cbn. destruct (Z.eqb_spec b c); done.
Qed.

(** Fact: [strncmp] compares exactly the first [n] characters, although its counter
    wraps to 2^64-1 when the strings agree for longer than that. *)
Theorem strncmp_correct m p q s t n :
  mem_ok m -> cstr m p s -> cstr m q t -> 0 <= n < 2 ^ 64 ->
  strncmp m p q n = Ret (str_compare (take (Z.to_nat n) s) (take (Z.to_nat n) t)).
Proof.
  intros Hok Hs Ht Hn. unfold strncmp.
  destruct (strncmp_loop_spec (walk_fuel m) m p q s t n) as (p' & q' & n' & E & Hr);
    [done.. | apply cstr_size in Hs; unfold walk_fuel; lia | done |].
  rewrite E. apply Hr.
Qed.

Lemma strncmp_correct_witness :
  strncmp demo_strings 16 23 4
  = Ret (str_compare (take (Z.to_nat 4) [107; 101; 114; 110; 101; 108])
                     (take (Z.to_nat 4) [107; 101; 114; 110; 97; 108])).
Proof.
  apply strncmp_correct.
  - apply mem_of_ok. reflexivity.
  - apply (mem_of_cstr 16 [] [107; 101; 114; 110; 101; 108] [107; 101; 114; 110; 97; 108; 0]).
    reflexivity.
  - apply (mem_of_cstr 16 [107; 101; 114; 110; 101; 108; 0] [107; 101; 114; 110; 97; 108] []).
    reflexivity.
  - lia.
Defined.

(** ** Concatenation, copy and search *)

(** Bytes outside [a, a + n) are the same in both memories. *)
Definition same_outside (m m' : mem) (a n : Z) : Prop :=
  forall x, x < a \/ a + n <= x -> m' !! x = m !! x.

Lemma bytes_at_outside m m' a n p l :
  same_outside m m' a n -> p + Z.of_nat (length l) <= a \/ a + n <= p ->
  bytes_at m p l -> bytes_at m' p l.
Proof.
  intros Ho Hd Hl i b Hi. pose proof (lookup_lt_Some _ _ _ Hi).
  rewrite Ho by lia. by apply Hl.
Qed.

Lemma cstr_outside m m' a n p s :
  same_outside m m' a n -> p + Z.of_nat (length s) < a \/ a + n <= p ->
  cstr m p s -> cstr m' p s.
Proof.
  intros Ho Hd [Hs Hz]. split; [| done]. eapply bytes_at_outside; [done | | done].
  rewrite length_app. cbn. lia.
Qed.

Lemma cstr_mapped m p s : cstr m p s -> mapped m p (Z.of_nat (length s)).
Proof.
  intros [[Hb _]%bytes_at_app _] x Hx.
  destruct (lookup_lt_is_Some_2 s (Z.to_nat (x - p))) as [c Hc]; [lia |].
  exists c. rewrite <- (Hb _ _ Hc). f_equal. lia.
Qed.

Lemma strcat_loop_spec fuel m d q s :
  mem_ok m -> cstr m q s -> mapped m d (Z.of_nat (length s)) -> (length s < fuel)%nat ->
  q + Z.of_nat (length s) < d \/ d + Z.of_nat (length s) <= q ->
  exists m', strcat_loop fuel m d q = Ret (m', d + Z.of_nat (length s)) /\
    bytes_at m' d s /\ same_outside m m' d (Z.of_nat (length s)).
Proof.
  revert m d q s. induction fuel as [|fuel IH]; intros m d q s Hok Hs Hd Hf Ho; [lia |].
  destruct s as [|c s]; cbn [strcat_loop length] in *.
  - apply cstr_nil in Hs. walk. exists m. cbn. rewrite Z.add_0_r.
    split_and!; [done | apply bytes_at_nil | by intros x]. 
  - apply cstr_cons in Hs as (Hc & Hc0 & Hs). walk. unfold NUL.
    destruct (Z.eqb_spec c 0); [done |].
    rewrite store8_Ret by (apply Hd; lia). cbn [mbind outcome_bind].
    rewrite u8_id by eauto.
    assert (same_outside m (<[d := c]> m) d 1) as Ho1
      by (intros x Hx; rewrite lookup_insert_ne; [done | lia]).
    destruct (IH (<[d := c]> m) (d + 1) (q + 1) s) as (m' & E & Hb & Hs').
    + apply mem_ok_insert; eauto.
    + eapply cstr_outside; [exact Ho1 | lia | done].
    + mapped_tac.
    + lia.
    + lia.
    + exists m'. rewrite E. split_and!; [ret_eq | |].
      * apply bytes_at_cons. split; [| done].
        rewrite Hs' by lia. apply lookup_insert_eq.
      * intros x Hx. rewrite Hs' by lia. apply Ho1. lia.
Qed.

(** Fact: [strcat] appends: with room for both and no overlap, the destination then
    holds the NUL-terminated concatenation, and no byte outside the room is
    changed. *)
Theorem strcat_correct m d q s t :
  mem_ok m -> cstr m d s -> cstr m q t ->
  mapped m (d + Z.of_nat (length s)) (Z.of_nat (length t) + 1) ->
  q + Z.of_nat (length t) < d \/ d + Z.of_nat (length s + length t) < q ->
  exists m', strcat m d q = Ret (m', d) /\ cstr m' d (s ++ t) /\
    same_outside m m' (d + Z.of_nat (length s)) (Z.of_nat (length t) + 1).
Proof.
  intros Hok Hs Ht Hroom Ho. unfold strcat. rewrite (strlen_cstr m d s) by done.
  cbn [mbind outcome_bind].
  destruct (strcat_loop_spec (walk_fuel m) m (d + Z.of_nat (length s)) q t)
    as (m1 & -> & Hb & Hout);
    [done | done | mapped_tac | apply cstr_size in Ht; unfold walk_fuel; lia | lia |].
  cbn [mbind outcome_bind].
  set (e := d + Z.of_nat (length s) + Z.of_nat (length t)) in *.
  assert (is_Some (m1 !! e)) as He by (rewrite Hout by lia; apply Hroom; lia).
  rewrite store8_Ret by done. cbn [mbind outcome_bind]. change (u8 NUL) with 0.
  exists (<[e := 0]> m1). split_and!; [done | |].
  - assert (same_outside m1 (<[e := 0]> m1) e 1) as He1
      by (intros x Hx; rewrite lookup_insert_ne; [done | lia]).
    split; [| apply Forall_app; split; [apply Hs | apply Ht]].
    rewrite <- app_assoc, !bytes_at_app. split_and!.
    + eapply bytes_at_outside; [exact He1 | lia |].
      eapply bytes_at_outside; [exact Hout | lia |]. destruct Hs as [Hs _]. by apply bytes_at_app in Hs as [??].
    + eapply bytes_at_outside; [exact He1 | lia | done].
    + apply bytes_at_cons. split; [apply lookup_insert_eq | apply bytes_at_nil].
  - intros x Hx. rewrite lookup_insert_ne by lia. apply Hout. lia.
Qed.

(** "kern" in a buffer of ten bytes at 16, and "el" at 32. *)
Definition demo_strcat : mem :=
  mem_of 16 ([107; 101; 114; 110; 0; 9; 9; 9; 9; 9; 9; 9; 9; 9; 9; 9] ++ [101; 108; 0]).

Lemma strcat_correct_witness :
  exists m', strcat demo_strcat 16 32 = Ret (m', 16) /\
    cstr m' 16 ([107; 101; 114; 110] ++ [101; 108]) /\
    same_outside demo_strcat m' 20 3.
Proof.
  apply (strcat_correct demo_strcat 16 32 [107; 101; 114; 110] [101; 108]).
  - apply mem_of_ok. reflexivity.
  - apply (mem_of_cstr 16 [] [107; 101; 114; 110]
             [9; 9; 9; 9; 9; 9; 9; 9; 9; 9; 9; 101; 108; 0]). reflexivity.
  - apply (mem_of_cstr 16 [107; 101; 114; 110; 0; 9; 9; 9; 9; 9; 9; 9; 9; 9; 9; 9]
             [101; 108] []). reflexivity.
  - apply mem_of_mapped; vm_compute; discriminate.
  - cbn. lia.
Defined.

(** Fact: [strcpy] copies the characters of the source but not its terminator: the
    byte after them keeps the value it had, so unless it was already 0 the
    destination does not hold the source string. *)
Theorem strcpy_drops_terminator m d q s :
  mem_ok m -> cstr m q s -> mapped m d (Z.of_nat (length s) + 1) ->
  q + Z.of_nat (length s) < d \/ d + Z.of_nat (length s) < q ->
  exists m', strcpy m d q = Ret (m', d) /\ bytes_at m' d s /\
    m' !! (d + Z.of_nat (length s)) = m !! (d + Z.of_nat (length s)) /\
    (m !! (d + Z.of_nat (length s)) <> Some 0 -> ~ cstr m' d s).
Proof.
  intros Hok Hs Hd Ho. unfold strcpy, strncpy. rewrite (strlen_cstr m q s) by done.
  cbn [mbind outcome_bind]. pose proof Hs as [[Hb _]%bytes_at_app _].
  pose proof (cstr_mapped m q s Hs) as Hq.
  destruct (memcpy_blit m d q (Z.of_nat (length s))) as (m' & -> & Hbl);
    [done | lia | done | mapped_tac | lia |].
  assert (m' !! (d + Z.of_nat (length s)) = m !! (d + Z.of_nat (length s))) as Hend
    by (rewrite Hbl; repeat zcase; try done; lia).
  exists m'. cbn [mbind outcome_bind]. split_and!; [done | | done |].
  - intros i b Hi. pose proof (lookup_lt_Some _ _ _ Hi). rewrite Hbl.
    repeat zcase; try lia. cbn. rewrite <- (Hb _ _ Hi). f_equal. lia.
  - intros Hne [Hc _]. apply bytes_at_app in Hc as [_ Hc].
    apply bytes_at_cons in Hc as [Hc _]. congruence.
Qed.

Lemma strcpy_drops_terminator_witness :
  exists m', strcpy demo_strcat 24 16 = Ret (m', 24) /\ bytes_at m' 24 [107; 101; 114; 110] /\
    m' !! (24 + Z.of_nat 4) = demo_strcat !! (24 + Z.of_nat 4) /\
    (demo_strcat !! (24 + Z.of_nat 4) <> Some 0 -> ~ cstr m' 24 [107; 101; 114; 110]).
Proof.
  apply (strcpy_drops_terminator demo_strcat 24 16 [107; 101; 114; 110]).
  - apply mem_of_ok. reflexivity.
  - apply (mem_of_cstr 16 [] [107; 101; 114; 110]
             [9; 9; 9; 9; 9; 9; 9; 9; 9; 9; 9; 101; 108; 0]). reflexivity.
  - apply mem_of_mapped; vm_compute; discriminate.
  - cbn. lia.
Defined.

Lemma strchr_loop_spec fuel m p s c :
  mem_ok m -> cstr m p s -> (length s < fuel)%nat -> is_byte c -> c <> 0 ->
  strchr_loop fuel m p c
  = Ret (match list_find (fun b => b = c) s with
         | Some (i, _) => p + Z.of_nat i
         | None => 0
         end).
Proof.
  intros Hok Hs Hf Hc Hc0. revert p s Hs Hf.
  induction fuel as [|fuel IH]; intros p s Hs Hf; [lia |].
  destruct s as [|b s]; cbn [strchr_loop length list_find] in *.
  - apply cstr_nil in Hs. walk. rewrite chr_eqb by (done || unfold is_byte; lia).
    destruct (Z.eqb_spec 0 c); [done |]. done.
  - apply cstr_cons in Hs as (Hb & Hb0 & Hs). walk.
    rewrite chr_eqb, truthy_nonzero by eauto. cbn [negb].
    destruct (Z.eqb_spec b c) as [-> | Hne].
    + rewrite decide_True by done. f_equal. lia.
    + rewrite decide_False by done. rewrite (IH _ s) by (done || lia). f_equal.
      destruct (list_find _ s) as [[i ?] |]; cbn; lia.
Qed.

(** [strchr] finds the first occurrence, or returns NULL when there is none. *)
Lemma strchr_first m p s c :
  mem_ok m -> cstr m p s -> is_byte c -> c <> 0 ->
  strchr m p c = Ret (match list_find (fun b => b = c) s with
                      | Some (i, _) => p + Z.of_nat i
                      | None => 0
                      end).
Proof.
  intros Hok Hs Hc Hc0. apply strchr_loop_spec; auto.
  apply cstr_size in Hs. unfold walk_fuel. lia.
Qed.

Lemma same_bytes_prefix m p q s t :
  cstr m p s -> cstr m q t ->
  same_bytes m p q (Z.of_nat (length t)) <-> take (length t) s = t.
Proof.
  intros [Hs Hsz] [Ht Htz]. split.
  - intros Hsame. apply list_eq_same_length with (length t); [done | |].
    + rewrite length_take. destruct (Nat.le_gt_cases (length t) (length s)) as [|Hlt]; [lia |].
      exfalso. pose proof (Hs (length s) 0) as H0. rewrite list_lookup_middle in H0 by done.
      destruct (lookup_lt_is_Some_2 t (length s)) as [c Hc]; [lia |].
      rewrite Hsame, (Ht (length s) c) in H0 by (lia || by apply lookup_app_l_Some).
      rewrite Forall_lookup in Htz. apply (Htz _ _ Hc). naive_solver.
    + intros i x y Hi Hx Hy. rewrite lookup_take in Hx. case_decide; [| done].
      pose proof (Hs i x) as H1. pose proof (Ht i y) as H2.
      rewrite Hsame in H1 by lia.
      rewrite H2 in H1 by by apply lookup_app_l_Some.
      assert (Some y = Some x) by (apply H1; by apply lookup_app_l_Some). congruence.
  - intros Htk i Hi. destruct (lookup_lt_is_Some_2 t (Z.to_nat i)) as [c Hc]; [lia |].
    pose proof (Ht (Z.to_nat i) c) as H2. rewrite Z2Nat.id in H2 by lia.
    rewrite H2 by by apply lookup_app_l_Some.
    rewrite <- Htk in Hc. rewrite lookup_take in Hc. case_decide; [| done].
    pose proof (Hs (Z.to_nat i) c) as H1. rewrite Z2Nat.id in H1 by lia.
    apply H1. by apply lookup_app_l_Some.
Qed.

(** Fact: [strstr] returns its first argument when the pattern is a prefix of the
    string, and never returns for any other non-empty string: whatever the fuel,
    the loop is still running, because it advances [s] and tests [_String]. *)
Theorem strstr_prefix_or_hang m p q s t fuel :
  mem_ok m -> cstr m p s -> cstr m q t -> s <> [] ->
  mapped m p (Z.of_nat (length t)) -> Z.of_nat (length t) < 2 ^ 64 ->
  strstr (S fuel) m p q
  = (if decide (take (length t) s = t) then Ret p else Diverged).
Proof.
  intros Hok Hs Ht Hne Hp Hlen. unfold strstr. rewrite (strlen_cstr m q t) by done.
  cbn [mbind outcome_bind].
  pose proof (cstr_mapped m q t Ht) as Hq.
  destruct (memcmp_same m p q (Z.of_nat (length t))) as (r & Er & _ & Hr);
    [done | lia | done | done |].
  pose proof (same_bytes_prefix m p q s t Hs Ht) as Hpre.
  destruct s as [|c s]; [done |]. clear Hne.
  assert (m !! p = Some c /\ c <> 0) as [Hc Hc0] by (apply cstr_cons in Hs; tauto).
  assert (forall f x, strstr_loop f m p q (Z.of_nat (length t)) x =
                      if decide (f = 0%nat) then Diverged
                      else if decide (r = 0) then Ret p else Diverged) as Hloop.
  { induction f as [|f IH]; intros x; [done |]. cbn [strstr_loop]. walk.
    rewrite truthy_nonzero by done. rewrite Er. cbn [mbind outcome_bind].
    rewrite (decide_False (P := S f = 0%nat)) by done.
    destruct (Z.eqb_spec r 0); rewrite ?IH; repeat case_decide; done. }
  rewrite Hloop, decide_False by done.
  destruct (decide (r = 0)), (decide (take (length t) (c :: s) = t)); naive_solver.
Qed.

Lemma strstr_prefix_or_hang_witness :
  strstr 1000 demo_strcat 16 32
  = (if decide (take 2 [107; 101; 114; 110] = [101; 108]) then Ret 16 else Diverged).
Proof.
  apply (strstr_prefix_or_hang demo_strcat 16 32 [107; 101; 114; 110] [101; 108] 999).
  - apply mem_of_ok. reflexivity.
  - apply (mem_of_cstr 16 [] [107; 101; 114; 110]
             [9; 9; 9; 9; 9; 9; 9; 9; 9; 9; 9; 101; 108; 0]). reflexivity.
  - apply (mem_of_cstr 16 [107; 101; 114; 110; 0; 9; 9; 9; 9; 9; 9; 9; 9; 9; 9; 9]
             [101; 108] []). reflexivity.
  - discriminate.
  - apply mem_of_mapped; vm_compute; discriminate.
  - reflexivity.
Defined.
