(* ===== verification/CrtNumeric.v ===== *)
(** The kernel's C runtime: conversions between integers and text.

    Models [itoa] and [strtol] of src/src/core_crt/string.c over the byte
    memory, with [int] and [long] as 32-bit signed integers (the kernel is built
    by MSVC, where [long] has 32 bits).  [ldigits] is the reference: the digits of
    a number, least significant first; the number formatter of [CrtPrintf] uses
    it too. *)
From Stdlib Require Import String.
From S2P Require Import Prelude CMemory CrtString.

(** ** Digits of a number *)

(** Digits of [n] in [base], least significant first, at least one. *)
Fixpoint ldigits (fuel : nat) (base n : Z) : list Z :=
  match fuel with
  | O => []
  | S fuel => n mod base :: (if n / base =? 0 then [] else ldigits fuel base (n / base))
  end.

Fixpoint lvalue (base : Z) (l : list Z) : Z :=
  match l with
  | [] => 0
  | d :: l => d + base * lvalue base l
  end.

Definition digit_text : list Z := lit "0123456789abcdefghijklmnopqrstuvwxyz".

Definition digit_chr (d : Z) : Z := default 0 (digit_text !! Z.to_nat d).

(** ** itoa *)

Definition itoa_table : list Z :=
  lit "zyxwvutsrqponmlkjihgfedcba9876543210123456789abcdefghijklmnopqrstuvwxyz".

(** The do-while conversion loop; a 32-bit value has at most 32 digits. *)
Fixpoint itoa_conv (fuel : nat) (m : mem) (ptr value base : Z) : outcome (mem * Z) :=
  match fuel with
  | O => Diverged
  | S fuel =>
      c ← match itoa_table !! Z.to_nat (35 + Z.rem value base) with
          | Some c => Ret c
          | None => Fault
          end;
      m ← store8 m ptr c;
      let value := Z.quot value base in
      if truthy value then itoa_conv fuel m (ptr + 1) value base else Ret (m, ptr + 1)
  end.

Fixpoint itoa_reverse (fuel : nat) (m : mem) (low ptr : Z) : outcome mem :=
  match fuel with
  | O => Diverged
  | S fuel =>
      if low <? ptr then
        tmp ← load8 m low;
        c ← load8 m ptr;
        m ← store8 m low c;
        m ← store8 m ptr tmp;
        itoa_reverse fuel m (low + 1) (ptr - 1)
      else Ret m
  end.

(** The sign, written for negative decimals only. *)
Definition itoa_sign (m : mem) (value ptr base : Z) : outcome (mem * Z) :=
  if (value <? 0) && (base =? 10) then m ← store8 m ptr 45; Ret (m, ptr + 1)
  else Ret (m, ptr).

Definition itoa (m : mem) (value str base : Z) : outcome (mem * Z) :=
  if (base <? 2) || (36 <? base) then
    m ← store8 m str NUL;
    Ret (m, str)
  else
    '(m, ptr) ← itoa_sign m value str base;
    let low := ptr in
    '(m, ptr) ← itoa_conv 32 m ptr value base;
    m ← store8 m ptr NUL;
    let ptr := ptr - 1 in
    m ← itoa_reverse 32 m low ptr;
    Ret (m, str).

(** ** strtol *)

Fixpoint skip_blanks (fuel : nat) (m : mem) (s : Z) : outcome Z :=
  match fuel with
  | O => Diverged
  | S fuel =>
      c ← load8 m s;
      if (c =? 32) || (c =? 9) then skip_blanks fuel m (s + 1) else Ret s
  end.

(** The value of a digit character, [None] where the loop breaks. *)
Definition strtol_digit (c : Z) : option Z :=
  if (48 <=? c) && (c <=? 57) then Some (c - 48)
  else if (97 <=? c) && (c <=? 122) then Some (c - 97 + 10)
  else if (65 <=? c) && (c <=? 90) then Some (c - 65 + 10)
  else None.

Fixpoint strtol_loop (fuel : nat) (m : mem) (s base val : Z) : outcome (Z * Z) :=
  match fuel with
  | O => Diverged
  | S fuel =>
      c ← load8 m s;
      match strtol_digit (chr c) with
      | None => Ret (s, val)
      | Some dig =>
          if base <=? dig then Ret (s, val)
          else strtol_loop fuel m (s + 1) base (s32 (val * base + dig))
      end
  end.

(** The base and the position after an optional 0x or 0 prefix. *)
Definition strtol_prefix (m : mem) (s base : Z) : outcome (Z * Z) :=
  c0 ← load8 m s;
  is_hex ← (if ((base =? 0) || (base =? 16)) && (c0 =? 48)
            then c1 ← load8 m (s + 1); Ret (c1 =? 120)
            else Ret false);
  if is_hex : bool then Ret (s + 2, 16)
  else if (base =? 0) && (c0 =? 48) then Ret (s + 1, 8)
  else if base =? 0 then Ret (s, 10)
  else Ret (s, base).

(** [endptr] is 0 for NULL. *)
Definition strtol (m : mem) (s endptr base : Z) : outcome (mem * Z) :=
  s ← skip_blanks (walk_fuel m) m s;
  c ← load8 m s;
  let '(s, neg) := if c =? 43 then (s + 1, false)
                   else if c =? 45 then (s + 1, true) else (s, false) in
  '(s, base) ← strtol_prefix m s base;
  '(s, val) ← strtol_loop (walk_fuel m) m s base 0;
  m ← (if truthy endptr then store64 m endptr s else Ret m);
  Ret (m, if neg : bool then s32 (- val) else val).

(** ** The digits of a number *)

Lemma ldigits_length fuel base n : (length (ldigits fuel base n) <= fuel)%nat.
Proof. revert n. induction fuel as [|f IH]; intros n; cbn; [lia |]. zcase; cbn; [lia |]. specialize (IH (n / base)). lia. Qed.

Lemma ldigits_nonempty fuel base n : (0 < fuel)%nat -> ldigits fuel base n <> [].
Proof. destruct fuel; [lia | done]. Qed.

Lemma ldigits_range fuel base n :
  2 <= base -> Forall (fun d => 0 <= d < base) (ldigits fuel base n).
Proof.
  intros Hb. revert n. induction fuel as [|f IH]; intros n; cbn; constructor.
  - apply Z.mod_pos_bound. lia.
  - zcase; [constructor | apply IH].
Qed.

Lemma ldigits_value fuel base n :
  2 <= base -> 0 <= n < base ^ Z.of_nat fuel -> lvalue base (ldigits fuel base n) = n.
Proof.
  intros Hb. revert n. induction fuel as [|f IH]; intros n Hn; cbn in *; [lia |].
  rewrite Nat2Z.inj_succ, Z.pow_succ_r in Hn by lia.
  pose proof (Z.div_mod n base ltac:(lia)) as Hdm.
  destruct (Z.eqb_spec (n / base) 0) as [E | _]; cbn [lvalue].
  - rewrite E in Hdm. lia.
  - rewrite IH; [lia |]. split; [apply Z.div_pos; lia | apply Z.div_lt_upper_bound; lia].
Qed.

(** More fuel does not change the digits once it covers the number. *)
Lemma ldigits_fuel f1 f2 base n :
  2 <= base -> 0 <= n < base ^ Z.of_nat f1 -> (0 < f1 <= f2)%nat ->
  ldigits f2 base n = ldigits f1 base n.
Proof.
  intros Hb. revert f2 n. induction f1 as [|f1 IH]; intros f2 n Hn Hf; [lia |].
  destruct f2 as [|f2]; [lia |]. cbn. f_equal.
  rewrite Nat2Z.inj_succ, Z.pow_succ_r in Hn by lia.
  destruct (Z.eqb_spec (n / base) 0) as [E | Hne]; [done |].
  assert (n / base < base ^ Z.of_nat f1) by (apply Z.div_lt_upper_bound; lia).
  assert (0 <= n / base) by (apply Z.div_pos; lia).
  destruct f1 as [|f1]; [cbn in *; lia |]. apply IH; lia.
Qed.

(** A property of the 36 digits, by evaluation. *)
Lemma digit_cases (P : Z -> bool) :
  forallb P (seqZ 0 36) = true -> forall d, 0 <= d < 36 -> P d = true.
Proof.
  intros HP d Hd. rewrite forallb_forall in HP. apply HP.
  apply list_elem_of_In, elem_of_seqZ. lia.
Qed.

Lemma digit_chr_byte d : 0 <= d < 36 -> is_byte (digit_chr d) /\ digit_chr d <> 0.
Proof.
  intros Hd. pose proof (digit_cases
    (fun d => (0 <? digit_chr d) && (digit_chr d <? 256)) eq_refl d Hd) as H.
  cbn beta in H. zbool. unfold is_byte. lia.
Qed.

Lemma strtol_digit_chr d : 0 <= d < 36 -> strtol_digit (chr (digit_chr d)) = Some d.
Proof.
  intros Hd. pose proof (digit_cases
    (fun d => bool_decide (strtol_digit (chr (digit_chr d)) = Some d)) eq_refl d Hd) as H.
  by apply bool_decide_eq_true in H.
Qed.

Lemma itoa_table_chr d : 0 <= d < 36 ->
  itoa_table !! Z.to_nat (35 + d) = Some (digit_chr d) /\
  itoa_table !! Z.to_nat (35 - d) = Some (digit_chr d).
Proof.
  intros Hd. pose proof (digit_cases (fun d => bool_decide
    (itoa_table !! Z.to_nat (35 + d) = Some (digit_chr d) /\
     itoa_table !! Z.to_nat (35 - d) = Some (digit_chr d))) eq_refl d Hd) as H.
  by apply bool_decide_eq_true in H.
Qed.

(** ** itoa writes the digits *)

Definition same_outside_refl m a n : same_outside m m a n := fun x _ => eq_refl.

Lemma same_outside_insert m a v n x :
  a <= x < a + n -> same_outside m (<[x := v]> m) a n.
Proof. intros Hx y Hy. rewrite lookup_insert_ne; [done | lia]. Qed.

Lemma same_outside_trans m1 m2 m3 a n b k c l :
  same_outside m1 m2 a n -> same_outside m2 m3 b k ->
  c <= a -> a + n <= c + l -> c <= b -> b + k <= c + l -> same_outside m1 m3 c l.
Proof. intros H1 H2 **. intros x Hx. rewrite H2, H1; [done | lia | lia]. Qed.

Lemma same_outside_mapped m m' a n x k :
  same_outside m m' a n -> mapped m' a n -> mapped m x k -> mapped m' x k.
Proof.
  intros Ho Hn Hx y Hy. destruct (decide (a <= y < a + n)); [by apply Hn |].
  rewrite Ho by lia. by apply Hx.
Qed.

Lemma quot_rem_abs v b :
  2 <= b -> Z.abs (Z.quot v b) = Z.abs v / b /\
            (Z.rem v b = Z.abs v mod b \/ Z.rem v b = - (Z.abs v mod b)).
Proof.
  intros Hb. destruct (Z.le_ge_cases 0 v) as [Hv | Hv].
  - rewrite Z.quot_div_nonneg, Z.rem_mod_nonneg, (Z.abs_eq v) by lia.
    rewrite Z.abs_eq by (apply Z.div_pos; lia). auto.
  - replace v with (- Z.abs v) by lia. set (a := Z.abs v).
    assert (0 <= a) by (unfold a; lia).
    rewrite Z.quot_opp_l, Z.rem_opp_l, !Z.abs_opp, (Z.abs_eq a) by lia.
    rewrite Z.quot_div_nonneg, Z.rem_mod_nonneg by lia.
    rewrite Z.abs_eq by (apply Z.div_pos; lia). auto.
Qed.

Lemma itoa_conv_spec fuel m ptr v b :
  mem_ok m -> 2 <= b <= 36 -> Z.abs v < b ^ Z.of_nat fuel -> (0 < fuel)%nat ->
  mapped m ptr (Z.of_nat (length (ldigits fuel b (Z.abs v)))) ->
  exists m', itoa_conv fuel m ptr v b
             = Ret (m', ptr + Z.of_nat (length (ldigits fuel b (Z.abs v)))) /\
    bytes_at m' ptr (digit_chr <$> ldigits fuel b (Z.abs v)) /\ mem_ok m' /\
    same_outside m m' ptr (Z.of_nat (length (ldigits fuel b (Z.abs v)))).
Proof.
  intros Hok Hb. revert m ptr v Hok.
  induction fuel as [|fuel IH]; intros m ptr v Hok Hv Hf Hm; [lia |].
  destruct (quot_rem_abs v b ltac:(lia)) as [Hq Hr].
  pose proof (Z.mod_pos_bound (Z.abs v) b ltac:(lia)) as Hd.
  set (d := Z.abs v mod b) in *.
  assert (itoa_table !! Z.to_nat (35 + Z.rem v b) = Some (digit_chr d)) as Hc.
  { destruct (itoa_table_chr d) as [H1 H2]; [lia |]. destruct Hr as [-> | ->]; done. }
  destruct (digit_chr_byte d) as [Hby _]; [lia |].
  cbn [itoa_conv ldigits] in *. fold d in Hm |- *. rewrite Hc. cbn [mbind outcome_bind].
  rewrite store8_Ret by (apply Hm; cbn; lia). cbn [mbind outcome_bind].
  rewrite (u8_id _ Hby), <- Hq in *.
  assert (same_outside m (<[ptr := digit_chr d]> m) ptr 1) as Ho
    by (apply same_outside_insert; lia).
  unfold truthy. destruct (Z.eqb_spec (Z.quot v b) 0) as [E | Hne]; cbn [negb].
  - rewrite E in *. cbn [Z.abs Z.eqb length fmap list_fmap] in *. eexists.
    split_and!; [ret_eq | | by apply mem_ok_insert | done].
    apply bytes_at_cons. split; [apply lookup_insert_eq | apply bytes_at_nil].
  - destruct (Z.eqb_spec (Z.abs (Z.quot v b)) 0) as [? | _]; [lia |].
    rewrite Nat2Z.inj_succ, Z.pow_succ_r in Hv by lia.
    assert (Z.abs (Z.quot v b) < b ^ Z.of_nat fuel)
      by (rewrite Hq; apply Z.div_lt_upper_bound; lia).
    destruct fuel as [|fuel]; [cbn in *; lia |].
    cbn [length] in Hm.
    destruct (IH (<[ptr := digit_chr d]> m) (ptr + 1) (Z.quot v b))
      as (m' & E & Hby' & Hok' & Ho');
      [by apply mem_ok_insert | done | lia | mapped_tac |].
    exists m'. cbn [length]. rewrite E. split_and!; [ret_eq | | done |].
    + rewrite fmap_cons. apply bytes_at_cons. split; [| done].
      rewrite Ho' by lia. apply lookup_insert_eq.
    + eapply same_outside_trans; [exact Ho | exact Ho' | lia..].
Qed.

Lemma list_ends {A} (l : list A) :
  l = [] \/ (exists x, l = [x]) \/ exists x l' y, l = x :: l' ++ [y].
Proof.
  destruct l as [|x l]; [by left |]. right.
  destruct l as [|y l _] using rev_ind; [left; eauto | right; eauto].
Qed.

Lemma itoa_reverse_spec fuel m low l :
  mem_ok m -> bytes_at m low l -> (length l < 2 * fuel)%nat ->
  exists m', itoa_reverse fuel m low (low + Z.of_nat (length l) - 1) = Ret m' /\
    bytes_at m' low (rev l) /\ mem_ok m' /\ same_outside m m' low (Z.of_nat (length l)).
Proof.
  revert m low l. induction fuel as [|fuel IH]; intros m low l Hok Hl Hf; [lia |].
  destruct (list_ends l) as [-> | [[x ->] | (x & l' & y & ->)]]; cbn [itoa_reverse].
  - destruct (Z.ltb_spec low (low + Z.of_nat (length (@nil Z)) - 1)); [cbn in *; lia |].
    exists m. auto using same_outside_refl.
  - destruct (Z.ltb_spec low (low + Z.of_nat (length [x]) - 1)); [cbn in *; lia |].
    exists m. auto using same_outside_refl.
  - set (e := low + Z.of_nat (length (x :: l' ++ [y])) - 1).
    assert (e = low + 1 + Z.of_nat (length l')) as He
      by (unfold e; cbn [length]; rewrite length_app; cbn; lia).
    assert (length (x :: l' ++ [y]) = length l' + 2)%nat as Hlen
      by (cbn; rewrite length_app; cbn; lia).
    apply bytes_at_cons in Hl as [Hx Hl]. apply bytes_at_app in Hl as [Hl Hy].
    apply bytes_at_cons in Hy as [Hy _]. rewrite <- He in Hy.
    destruct (Z.ltb_spec low e); [| lia]. walk.
    rewrite store8_Ret by eauto. cbn [mbind outcome_bind]. rewrite (u8_id y) by eauto.
    rewrite store8_Ret by (rewrite lookup_insert_ne by lia; eauto). cbn [mbind outcome_bind].
    rewrite (u8_id x) by eauto.
    set (m1 := <[e := x]> (<[low := y]> m)).
    assert (same_outside m m1 low (Z.of_nat (length (x :: l' ++ [y])))) as Ho1.
    { eapply same_outside_trans;
        [apply (same_outside_insert m low y 1) | apply (same_outside_insert _ e x 1) | ..]; lia. }
    assert (bytes_at m1 (low + 1) l') as Hl1.
    { intros i b Hi. pose proof (lookup_lt_Some _ _ _ Hi). unfold m1.
      rewrite !lookup_insert_ne by lia. by apply Hl. }
    destruct (IH m1 (low + 1) l') as (m' & E & Hr & Hok' & Ho').
    { unfold m1. apply mem_ok_insert; [apply mem_ok_insert |]; eauto. }
    { done. }
    { lia. }
    exists m'. replace (e - 1) with (low + 1 + Z.of_nat (length l') - 1) by lia.
    split_and!; [done | | done |].
    + cbn [rev]. rewrite rev_app_distr. cbn [rev app]. apply bytes_at_cons. split.
      { rewrite Ho' by lia. unfold m1. rewrite lookup_insert_ne by lia. apply lookup_insert_eq. }
      apply bytes_at_app. split; [done |]. apply bytes_at_cons.
      split; [| apply bytes_at_nil]. rewrite length_rev, <- He, Ho' by lia.
      apply lookup_insert_eq.
    + eapply same_outside_trans; [exact Ho1 | exact Ho' | lia..].
Qed.

(** The text of a number: a minus sign for negative decimals, then the digits. *)
Definition itoa_text (value base : Z) : list Z :=
  (if (value <? 0) && (base =? 10) then [45] else []) ++
  rev (digit_chr <$> ldigits 32 base (Z.abs value)).

Lemma digit_text_nonzero f b n : 2 <= b <= 36 ->
  Forall (fun c => c <> 0) (digit_chr <$> ldigits f b n).
Proof.
  intros Hb. apply Forall_fmap. eapply Forall_impl; [apply (ldigits_range f b n); lia |].
  intros d Hd. cbn in Hd |- *. apply digit_chr_byte. lia.
Qed.

Definition itoa_sign_text (value base : Z) : list Z :=
  if (value <? 0) && (base =? 10) then [45] else [].

Lemma itoa_sign_spec m value str base :
  mem_ok m -> mapped m str 34 ->
  exists m1, itoa_sign m value str base
             = Ret (m1, str + Z.of_nat (length (itoa_sign_text value base))) /\
    bytes_at m1 str (itoa_sign_text value base) /\ mem_ok m1 /\ mapped m1 str 34 /\
    same_outside m m1 str (Z.of_nat (length (itoa_sign_text value base))).
Proof.
  intros Hok Hm. unfold itoa_sign, itoa_sign_text.
  destruct ((value <? 0) && (base =? 10)); cbn [length].
  - rewrite store8_Ret by (apply Hm; lia). eexists. cbn [mbind outcome_bind].
    split_and!; [done | | apply mem_ok_insert; auto with vsos | mapped_tac |].
    + apply bytes_at_cons. split; [apply lookup_insert_eq | apply bytes_at_nil].
    + apply same_outside_insert. lia.
  - exists m. rewrite Z.add_0_r. auto using bytes_at_nil, same_outside_refl.
Qed.

Lemma itoa_spec m value str base :
  mem_ok m -> - 2 ^ 31 <= value < 2 ^ 31 -> 2 <= base <= 36 -> mapped m str 34 ->
  exists m', itoa m value str base = Ret (m', str) /\ cstr m' str (itoa_text value base) /\
    mem_ok m' /\
    same_outside m m' str (Z.of_nat (length (itoa_text value base)) + 1).
Proof.
  intros Hok Hv Hb Hm. unfold itoa, itoa_text.
  destruct (Z.ltb_spec base 2), (Z.ltb_spec 36 base); try lia. cbn [orb].
  fold (itoa_sign_text value base). set (sgn := itoa_sign_text value base).
  set (ds := ldigits 32 base (Z.abs value)).
  assert (length ds <= 32)%nat as Hlen by apply ldigits_length.
  assert (Z.abs value < base ^ Z.of_nat 32) as Hfit.
  { apply Z.lt_le_trans with (2 ^ Z.of_nat 32); [lia | apply Z.pow_le_mono_l; lia]. }
  assert (length sgn <= 1)%nat as Hsgn by (unfold sgn, itoa_sign_text; case_match; cbn; lia).
  destruct (itoa_sign_spec m value str base) as (m1 & -> & Hb1 & Hok1 & Hm1 & Ho1); [done.. |].
  fold sgn in Hb1, Ho1 |- *.
  cbn [mbind outcome_bind]. set (low := str + Z.of_nat (length sgn)) in *.
  destruct (itoa_conv_spec 32 m1 low value base) as (m2 & -> & Hb2 & Hok2 & Ho2);
    [done | done | done | lia | fold ds; mapped_tac |].
  fold ds in Hb2, Ho2 |- *. cbn [mbind outcome_bind].
  set (e := low + Z.of_nat (length ds)) in *.
  rewrite store8_Ret by (rewrite Ho2 by lia; apply Hm1; lia). cbn [mbind outcome_bind].
  change (u8 NUL) with 0.
  assert (bytes_at (<[e := 0]> m2) low (digit_chr <$> ds)) as Hb3.
  { eapply (bytes_at_outside m2 _ e 1); [apply same_outside_insert; lia | | done].
    rewrite length_fmap. lia. }
  destruct (itoa_reverse_spec 32 (<[e := 0]> m2) low (digit_chr <$> ds))
    as (m3 & E & Hb4 & Hok3 & Ho3);
    [apply mem_ok_insert; [done | by vm_compute] | done | rewrite length_fmap; lia |].
  rewrite length_fmap in E, Ho3. fold e in E. rewrite E. exists m3. cbn [mbind outcome_bind].
  assert (length (sgn ++ rev (digit_chr <$> ds)) = (length sgn + length ds)%nat) as Htl
    by (rewrite length_app, length_rev, length_fmap; done).
  assert (same_outside m1 m3 low (Z.of_nat (length ds) + 1)) as Ho13.
  { apply (same_outside_trans m1 m2 m3 low (Z.of_nat (length ds)) low (Z.of_nat (length ds) + 1));
      [exact Ho2 | | lia..].
    apply (same_outside_trans m2 (<[e := 0]> m2) m3 e 1 low (Z.of_nat (length ds)));
      [apply same_outside_insert; lia | exact Ho3 | lia..]. }
  split_and!; [done | split | done |].
  - rewrite <- app_assoc, bytes_at_app. split.
    + eapply bytes_at_outside; [exact Ho13 | lia | done].
    + fold low. apply bytes_at_app. split; [done |]. apply bytes_at_cons.
      split; [| apply bytes_at_nil]. rewrite length_rev, length_fmap. fold e.
      rewrite Ho3 by lia. apply lookup_insert_eq.
  - apply Forall_app. split; [unfold sgn, itoa_sign_text; case_match; by repeat constructor |].
    apply Forall_rev, digit_text_nonzero. done.
  - rewrite Htl. eapply same_outside_trans; [exact Ho1 | exact Ho13 | lia..].
Qed.

(** ** strtol reads the digits *)

Lemma s32_fold a b d : s32 (s32 a * b + d) = s32 (a * b + d).
Proof.
  unfold swrap. f_equal.
  rewrite <- (Zplus_mod_idemp_l (_ * b + d)), <- (Zplus_mod_idemp_l (a * b + d)).
  do 2 f_equal. rewrite <- Zplus_mod_idemp_l, <- (Zplus_mod_idemp_l (a * b)).
  do 2 f_equal. rewrite <- Zmult_mod_idemp_l, <- (Zmult_mod_idemp_l a). do 2 f_equal.
  rewrite Zminus_mod_idemp_l. f_equal. lia.
Qed.

Lemma s32_opp a : s32 (- s32 a) = s32 (- a).
Proof. pose proof (s32_fold a (-1) 0) as H. revert H. rewrite !Z.add_0_r. intros H.
  replace (- s32 a) with (s32 a * -1) by lia. rewrite H. f_equal. lia. Qed.

(** Most significant digit first. *)
Definition mvalue (base acc : Z) (l : list Z) : Z := fold_left (fun a d => a * base + d) l acc.

Lemma rev_fmap {A B} (f : A -> B) (l : list A) : rev (f <$> l) = f <$> rev l.
Proof. induction l as [|x l IH]; [done |]. cbn. by rewrite IH, fmap_app. Qed.

Lemma mvalue_rev base l : mvalue base 0 (rev l) = lvalue base l.
Proof.
  unfold mvalue.
  induction l as [|d l IH]; [done |]. cbn [rev lvalue].
  rewrite fold_left_app. cbn. rewrite IH. lia.
Qed.

(** A byte that ends a run of digits. *)
Definition stops (b e : Z) : Prop := forall d, strtol_digit (chr e) = Some d -> b <= d.

Lemma strtol_loop_run fuel m s b ds e acc :
  mem_ok m -> 2 <= b <= 36 -> Forall (fun d => 0 <= d < b) ds -> stops b e ->
  bytes_at m s ((digit_chr <$> ds) ++ [e]) -> (length ds < fuel)%nat ->
  strtol_loop fuel m s b (s32 acc) = Ret (s + Z.of_nat (length ds), s32 (mvalue b acc ds)).
Proof.
  intros Hok Hb. revert m s ds acc Hok.
  induction fuel as [|fuel IH]; intros m s ds acc Hok Hds He Hs Hf; [lia |].
  destruct ds as [|d ds]; cbn [strtol_loop length fmap list_fmap app] in *.
  - apply bytes_at_cons in Hs as [Hc _]. walk. destruct (strtol_digit (chr e)) as [d|] eqn:Hd; [| cbn; ret_eq].
    specialize (He d Hd). destruct (Z.leb_spec b d); [| lia]. cbn. ret_eq.
  - apply bytes_at_cons in Hs as [Hc Hs]. walk. apply Forall_cons in Hds as [Hd Hds].
    rewrite strtol_digit_chr by lia. destruct (Z.leb_spec b d); [lia |].
    rewrite s32_fold, (IH _ _ ds) by (done || lia). cbn. ret_eq.
Qed.

Lemma strtol_loop_spec fuel m s b ds acc :
  mem_ok m -> 2 <= b <= 36 -> Forall (fun d => 0 <= d < b) ds ->
  cstr m s (digit_chr <$> ds) -> (length ds < fuel)%nat ->
  strtol_loop fuel m s b (s32 acc) = Ret (s + Z.of_nat (length ds), s32 (mvalue b acc ds)).
Proof. intros ???[??]?. by eapply (strtol_loop_run _ _ _ _ _ 0). Qed.

Lemma digit_chr_not d c :
  0 <= d < 36 -> forallb (fun d => negb (digit_chr d =? c)) (seqZ 0 36) = true ->
  (digit_chr d =? c) = false.
Proof. intros Hd H. apply negb_true_iff. by apply (digit_cases (fun d => negb (digit_chr d =? c))). Qed.

Lemma digit_chr_not_x d : 0 <= d < 16 -> (digit_chr d =? 120) = false.
Proof.
  intros Hd. pose proof (digit_cases
    (fun d => implb (d <? 16) (negb (digit_chr d =? 120))) eq_refl d ltac:(lia)) as H.
  cbn beta in H. destruct (Z.ltb_spec d 16); [| lia]. cbn in H. by apply negb_true_iff in H.
Qed.

(** A run of digits in a base from 2 to 36 has no base prefix. *)
Lemma strtol_prefix_digits m s b ds :
  mem_ok m -> 2 <= b <= 36 -> Forall (fun d => 0 <= d < b) ds -> ds <> [] ->
  cstr m s (digit_chr <$> ds) -> strtol_prefix m s b = Ret (s, b).
Proof.
  intros Hok Hb Hds Hne Hs. unfold strtol_prefix.
  destruct ds as [|d ds]; [done |]. apply Forall_cons in Hds as [Hd Hds].
  apply cstr_cons in Hs as (Hc & _ & Hs). walk.
  destruct (Z.eqb_spec b 0); [lia |]. cbn [orb andb].
  destruct (Z.eqb_spec b 16) as [-> | Hb16]; cbn [andb]; [| by cbn].
  destruct (digit_chr d =? 48); [| by cbn].
  destruct ds as [|e ds].
  - apply cstr_nil in Hs. walk. done.
  - apply cstr_cons in Hs as (He & _ & Hs). walk. apply Forall_cons in Hds as [He' _].
    by rewrite digit_chr_not_x.
Qed.

Lemma strtol_digits m s b ds neg :
  mem_ok m -> 2 <= b <= 36 -> Forall (fun d => 0 <= d < b) ds -> ds <> [] ->
  cstr m s ((if neg : bool then [45] else []) ++ (digit_chr <$> ds)) ->
  strtol m s 0 b = Ret (m, if neg then s32 (- mvalue b 0 ds) else s32 (mvalue b 0 ds)).
Proof.
  intros Hok Hb Hds Hne Hs. unfold strtol.
  assert (exists c r, (if neg then [45] else []) ++ (digit_chr <$> ds) = c :: r /\
            (c =? 32) = false /\ (c =? 9) = false /\ (c =? 43) = false /\ (c =? 45) = neg)
    as (c & r & E & H32 & H9 & H43 & H45).
  { destruct neg; [by eexists _, _ |]. destruct ds as [|d ds]; [done |].
    apply Forall_cons in Hds as [Hd _]. eexists _, _. split; [done |].
    split_and!; apply digit_chr_not; done || lia. }
  pose proof Hs as Hs'. rewrite E in Hs'. apply cstr_cons in Hs' as (Hc & _ & _).
  assert (skip_blanks (walk_fuel m) m s = Ret s) as ->
    by (unfold walk_fuel; cbn [skip_blanks]; walk; by rewrite H32, H9).
  cbn [mbind outcome_bind].
  walk. rewrite H43, H45.
  assert (cstr m (if neg then s + 1 else s) (digit_chr <$> ds)) as Hd.
  { destruct neg; [| done]. by apply cstr_cons in Hs as (_ & _ & Hs). }
  replace (if neg then (s + 1, true) else (s, false)) with (if neg then s + 1 else s, neg)
    by by destruct neg.
  rewrite (strtol_prefix_digits _ _ _ ds) by done. cbn [mbind outcome_bind].
  pose proof (strtol_loop_spec (walk_fuel m) m (if neg then s + 1 else s) b ds 0) as Hl.
  change (s32 0) with 0 in Hl. rewrite Hl; [| done.. |].
  - cbn. destruct neg; [by rewrite s32_opp | done].
  - apply cstr_size in Hd. rewrite length_fmap in Hd. unfold walk_fuel. lia.
Qed.

(** Decimal digits with anything but a digit behind them. *)
Lemma strtol_decimal m s ds e :
  mem_ok m -> Forall (fun d => 0 <= d < 10) ds -> ds <> [] -> stops 10 e ->
  bytes_at m s ((digit_chr <$> ds) ++ [e]) ->
  strtol m s 0 10 = Ret (m, s32 (mvalue 10 0 ds)).
Proof.
  intros Hok Hds Hne He Hs. unfold strtol. destruct ds as [|d ds]; [done |].
  pose proof (Forall_inv Hds) as Hd. cbv beta in Hd. cbn [fmap list_fmap app] in Hs. pose proof Hs as [Hc _]%bytes_at_cons.
  assert ((digit_chr d =? 32) = false /\ (digit_chr d =? 9) = false /\ (digit_chr d =? 43) = false /\
          (digit_chr d =? 45) = false) as (H32 & H9 & H43 & H45)
    by (split_and!; apply digit_chr_not; done || lia).
  assert (skip_blanks (walk_fuel m) m s = Ret s) as ->
    by (unfold walk_fuel; cbn [skip_blanks]; walk; by rewrite H32, H9).
  cbn [mbind outcome_bind]. walk. rewrite H43, H45. cbn iota beta.
  assert (strtol_prefix m s 10 = Ret (s, 10)) as -> by (unfold strtol_prefix; walk; done).
  cbn [mbind outcome_bind].
  pose proof (strtol_loop_run (walk_fuel m) m s 10 (d :: ds) e 0) as Hl. change (s32 0) with 0 in Hl.
  rewrite Hl; [done | done | lia | done | done | done |].
  apply bytes_at_size in Hs. cbn [length] in Hs. rewrite length_app, length_fmap in Hs. unfold walk_fuel. cbn in *. lia.
Qed.

(** Fact: [itoa] produces, for every 32-bit value and every supported base, the
    NUL-terminated text of its digits, with a minus sign exactly for negative
    decimals (INT_MIN included), and writes only those bytes. *)
Theorem itoa_correct m value str base :
  mem_ok m -> - 2 ^ 31 <= value < 2 ^ 31 -> 2 <= base <= 36 -> mapped m str 34 ->
  exists m', itoa m value str base = Ret (m', str) /\ cstr m' str (itoa_text value base) /\
    same_outside m m' str (Z.of_nat (length (itoa_text value base)) + 1).
Proof.
  intros Hok Hv Hb Hm. destruct (itoa_spec m value str base) as (m' & ? & ? & _ & ?); eauto.
Qed.

Lemma itoa_correct_witness :
  exists m', itoa (mem_of 0 (repeat 7 40)) (- 2 ^ 31) 2 10 = Ret (m', 2) /\
    cstr m' 2 (itoa_text (- 2 ^ 31) 10) /\
    same_outside (mem_of 0 (repeat 7 40)) m' 2 (Z.of_nat (length (itoa_text (- 2 ^ 31) 10)) + 1).
Proof.
  apply itoa_correct; [apply mem_of_ok; reflexivity | lia | lia |].
  apply mem_of_mapped; vm_compute; discriminate.
Defined.

(** Fact: reading back with [strtol] what [itoa] wrote gives the value, for every
    32-bit value in decimal and every non-negative one in the other bases. *)
Theorem itoa_strtol_roundtrip m value str base :
  mem_ok m -> - 2 ^ 31 <= value < 2 ^ 31 -> 2 <= base <= 36 -> 0 <= value \/ base = 10 ->
  mapped m str 34 ->
  exists m', itoa m value str base = Ret (m', str) /\ strtol m' str 0 base = Ret (m', value).
Proof.
  intros Hok Hv Hb Hsign Hm.
  destruct (itoa_spec m value str base) as (m' & E & Hs & Hok' & _); [done.. |].
  exists m'. split; [done |]. unfold itoa_text in Hs. rewrite rev_fmap in Hs.
  set (ds := ldigits 32 base (Z.abs value)) in *.
  rewrite (strtol_digits m' str base (rev ds) ((value <? 0) && (base =? 10)));
    [| done | done | | | done].
  - assert (lvalue base ds = Z.abs value) as Hval.
    { apply ldigits_value; [lia |]. split; [lia |].
      apply Z.lt_le_trans with (2 ^ Z.of_nat 32); [lia | apply Z.pow_le_mono_l; lia]. }
    rewrite mvalue_rev, Hval.
    destruct (Z.ltb_spec value 0); destruct (Z.eqb_spec base 10); cbn [andb]; try lia.
    all: do 2 f_equal; rewrite ?swrap_small; lia.
  - apply Forall_rev, ldigits_range. lia.
  - intros Hnil. apply (f_equal length) in Hnil. rewrite length_rev in Hnil. done.
Qed.

Lemma itoa_strtol_roundtrip_witness :
  exists m', itoa (mem_of 0 (repeat 7 40)) (- 2 ^ 31) 2 10 = Ret (m', 2) /\
             strtol m' 2 0 10 = Ret (m', - 2 ^ 31).
Proof.
  apply itoa_strtol_roundtrip; [apply mem_of_ok; reflexivity | lia | lia | lia |].
  apply mem_of_mapped; vm_compute; discriminate.
Defined.
