(* ===== verification/CrtPrintf.v ===== *)
(** The kernel's C runtime: formatted output.

    Models src/src/core_crt/stdio.c ([ksprintn], [kvprintf], [sprintf],
    [snprintf], [vsprintf], [vsnprintf]) and the wide copies of the same routines in
    src/src/core_crt/wchar.c ([kswprintn], [kvwprintf], [swprintf],
    [vswprintf]).  The two engines differ only in the character type, so
    [kvprintf] takes a record [flavour] of what differs: the width of a stored
    character and of a character read from a string, the [%hhd] conversion and the
    size of the units [%D] walks over.

    The format and the string arguments are given as lists of characters without
    their NUL (the terminator is the end of the list); the argument list [ap] is a
    list of [arg]s, one per [va_arg].  The output is the list of characters
    passed to [PCHAR], in order; [retval] counts them.  A [%n] store is recorded
    in the result, as the pair of its width in bytes and the value stored.
    Reading past the arguments, or one of the wrong kind, is a [Fault] (undefined
    behaviour of [va_arg]). *)
From Stdlib Require Import String.
From S2P Require Import Prelude CMemory CrtString CrtNumeric.

Inductive arg : Type :=
| AInt (v : Z)            (** an integer slot of 64 bits *)
| AStr (s : list Z)       (** a pointer to a string *)
| ANull                   (** a null pointer *)
| ABytes (b : list Z)     (** a pointer to raw data, for %D *)
| APtr.                   (** a pointer that receives a value, for %n *)

Record flavour := {
  fl_char : Z -> Z;          (** a character read through the string type *)
  fl_fmt : Z -> Z;           (** [(unsigned char)*fmt] or [(wchar_t)*fmt] *)
  fl_hh : Z -> Z;            (** the signed [cflag] conversion *)
  fl_out : Z -> Z            (** the character stored by [PCHAR] *)
}.

(** stdio.c: [char] is signed, the format is read as [unsigned char]. *)
Definition narrow : flavour :=
  {| fl_char := s8; fl_fmt := u8; fl_hh := s8; fl_out := u8 |}.

(** wchar.c: [wchar_t] is a 16-bit unsigned integer. *)
Definition wide : flavour :=
  {| fl_char := u16; fl_fmt := u16; fl_hh := u16; fl_out := u16 |}.

(** ** ksprintn *)

(** The macro [toupper] of stdio.c. *)
Definition toupper_macro (c : Z) : Z := c - 32 * of_bool ((97 <=? c) && (c <=? 122)).

(** The digits in the order they are stored: [nbuf[1]], [nbuf[2]], ...; reading
    backwards from the returned pointer gives the number.  [nbuf] has [MAXNBUF]
    characters, the first of them the NUL, so the store after the [fuel]-th digit
    would be past its end.  [base] is converted to [uintmax_t] by the division. *)
Fixpoint ksprintn_loop (fuel : nat) (num base : Z) (upper : bool) : outcome (list Z) :=
  match fuel with
  | O => Fault
  | S fuel =>
      c ← match digit_text !! Z.to_nat (num mod u64 base) with
          | Some c => Ret c
          | None => Fault
          end;
      let c := if upper then toupper_macro c else c in
      let num := num / u64 base in
      if truthy num then l ← ksprintn_loop fuel num base upper; Ret (c :: l)
      else Ret [c]
  end.

Definition MAXNBUF : nat := 8 * 8 + 1.

(** The text in reading order; a [base] of 0 is a division by zero. *)
Definition ksprintn (num base : Z) (upper : bool) : outcome (list Z) :=
  if base =? 0 then Fault
  else l ← ksprintn_loop (MAXNBUF - 1) num base upper; Ret (rev l).

(** ** The conversion specification *)

Record spec := {
  padc : Z; width : Z; dwidth : Z;
  qflag : bool; lflag : bool; ladjust : bool; sharpflag : bool; sign : bool;
  dot : bool; bconv : bool; upper : bool;
  cflag : bool; hflag : bool; jflag : bool; tflag : bool; zflag : bool
}.

Definition spec0 : spec :=
  {| padc := 32; width := 0; dwidth := 0;
     qflag := false; lflag := false; ladjust := false; sharpflag := false; sign := false;
     dot := false; bconv := false; upper := false;
     cflag := false; hflag := false; jflag := false; tflag := false; zflag := false |}.

Definition set_padc (x : Z) (s : spec) : spec :=
  {| padc := x; width := width s; dwidth := dwidth s; qflag := qflag s; lflag := lflag s;
     ladjust := ladjust s; sharpflag := sharpflag s; sign := sign s; dot := dot s;
     bconv := bconv s; upper := upper s; cflag := cflag s; hflag := hflag s;
     jflag := jflag s; tflag := tflag s; zflag := zflag s |}.
Definition set_width (x : Z) (s : spec) : spec :=
  {| padc := padc s; width := x; dwidth := dwidth s; qflag := qflag s; lflag := lflag s;
     ladjust := ladjust s; sharpflag := sharpflag s; sign := sign s; dot := dot s;
     bconv := bconv s; upper := upper s; cflag := cflag s; hflag := hflag s;
     jflag := jflag s; tflag := tflag s; zflag := zflag s |}.
Definition set_dwidth (x : Z) (s : spec) : spec :=
  {| padc := padc s; width := width s; dwidth := x; qflag := qflag s; lflag := lflag s;
     ladjust := ladjust s; sharpflag := sharpflag s; sign := sign s; dot := dot s;
     bconv := bconv s; upper := upper s; cflag := cflag s; hflag := hflag s;
     jflag := jflag s; tflag := tflag s; zflag := zflag s |}.
Definition set_long (q l : bool) (s : spec) : spec :=
  {| padc := padc s; width := width s; dwidth := dwidth s; qflag := q; lflag := l;
     ladjust := ladjust s; sharpflag := sharpflag s; sign := sign s; dot := dot s;
     bconv := bconv s; upper := upper s; cflag := cflag s; hflag := hflag s;
     jflag := jflag s; tflag := tflag s; zflag := zflag s |}.
Definition set_half (c h : bool) (s : spec) : spec :=
  {| padc := padc s; width := width s; dwidth := dwidth s; qflag := qflag s; lflag := lflag s;
     ladjust := ladjust s; sharpflag := sharpflag s; sign := sign s; dot := dot s;
     bconv := bconv s; upper := upper s; cflag := c; hflag := h;
     jflag := jflag s; tflag := tflag s; zflag := zflag s |}.
Definition set_jtz (j t z : bool) (s : spec) : spec :=
  {| padc := padc s; width := width s; dwidth := dwidth s; qflag := qflag s; lflag := lflag s;
     ladjust := ladjust s; sharpflag := sharpflag s; sign := sign s; dot := dot s;
     bconv := bconv s; upper := upper s; cflag := cflag s; hflag := hflag s;
     jflag := j; tflag := t; zflag := z |}.
Definition set_adj (la sh sg dt : bool) (s : spec) : spec :=
  {| padc := padc s; width := width s; dwidth := dwidth s; qflag := qflag s; lflag := lflag s;
     ladjust := la; sharpflag := sh; sign := sg; dot := dt;
     bconv := bconv s; upper := upper s; cflag := cflag s; hflag := hflag s;
     jflag := jflag s; tflag := tflag s; zflag := zflag s |}.
Definition set_conv (b u : bool) (s : spec) : spec :=
  {| padc := padc s; width := width s; dwidth := dwidth s; qflag := qflag s; lflag := lflag s;
     ladjust := ladjust s; sharpflag := sharpflag s; sign := sign s; dot := dot s;
     bconv := b; upper := u; cflag := cflag s; hflag := hflag s;
     jflag := jflag s; tflag := tflag s; zflag := zflag s |}.

(** [va_arg] of an integer type: the slot, to be converted by the caller. *)
Definition va_int (ap : list arg) : outcome (Z * list arg) :=
  match ap with AInt v :: ap => Ret (v, ap) | _ => Fault end.

(** The digits of a width or precision: [ch] is the one already read. *)
Fixpoint scan_number (fl : flavour) (n ch : Z) (fmt : list Z) : Z * list Z :=
  let n := s32 (n * 10 + ch - 48) in
  match fmt with
  | [] => (n, [])
  | c :: rest =>
      let c := fl.(fl_char) c in
      if (c <? 48) || (57 <? c) then (n, fmt) else scan_number fl n c rest
  end.

(** [handle_nosign]: the unsigned argument. *)
Definition fetch_unsigned (s : spec) (ap : list arg) : outcome (Z * list arg) :=
  '(v, ap) ← va_int ap;
  Ret (if s.(jflag) then u64 v
       else if s.(qflag) || (s.(width) =? 16) then u64 v
       else if s.(tflag) then u64 (s64 v)
       else if s.(lflag) then u32 v
       else if s.(zflag) then u64 v
       else if s.(hflag) then u16 (s32 v)
       else if s.(cflag) then u8 (s32 v)
       else u32 v, ap).

(** [handle_sign]: the signed argument, converted to [uintmax_t]. *)
Definition fetch_signed (fl : flavour) (s : spec) (ap : list arg) : outcome (Z * list arg) :=
  '(v, ap) ← va_int ap;
  Ret (u64 (if s.(jflag) then s64 v
            else if s.(qflag) then s64 v
            else if s.(tflag) then s64 v
            else if s.(lflag) then s32 v
            else if s.(zflag) then u64 v
            else if s.(hflag) then s16 (s32 v)
            else if s.(cflag) then fl.(fl_hh) (s32 v)
            else s32 v), ap).

Definition pad (n c : Z) : list Z := repeat c (Z.to_nat n).

(** ** The number output, from label [number] on *)

(** The names of the set bits of [num], for %b; [first] is [retval == tmp]. *)
Fixpoint bits_text (fuel : nat) (fl : flavour) (num : Z) (q : list Z) (first : bool)
  : outcome (list Z) :=
  match fuel with
  | O => Diverged
  | S fuel =>
      match q with
      | [] => Ret []
      | n :: q =>
          let n := fl.(fl_char) n in
          let '(name, rest) := (fix split l := match l with
                                 | [] => ([], [])
                                 | c :: l' => if 32 <? fl.(fl_char) c
                                              then let '(a, b) := split l' in (c :: a, b)
                                              else ([], l)
                                 end) q in
          if Z.testbit num (wrap 6 (n - 1)) then
            l ← bits_text fuel fl num rest false;
            Ret ((if first then 60 else 44) :: (fl.(fl_char) <$> name) ++ l)
          else bits_text fuel fl num rest first
      end
  end.

Definition imax (a b : Z) : Z := if b <? a then a else b.

Definition number (fl : flavour) (s : spec) (num base : Z) (q : list Z) : outcome (list Z) :=
  let neg := s.(sign) && (s64 num <? 0) in
  let num := if neg then u64 (- s64 num) else num in
  p ← ksprintn num base s.(upper);
  let n := Z.of_nat (length p) in
  let sharp := s.(sharpflag) && truthy num in
  let tmp := (if sharp then if base =? 8 then 1 else if base =? 16 then 2 else 0 else 0)
             + of_bool neg in
  let dw := if negb s.(ladjust) && (s.(padc) =? 48) then s32 (s.(width) - tmp) else s.(dwidth) in
  let w := s32 (s.(width) - s32 (tmp + imax dw n)) in
  let dw := s32 (dw - n) in
  names ← (if s.(bconv) && truthy num then bits_text (S (length q)) fl num q true else Ret []);
  let names := if bool_decide (names = []) then [] else names ++ [62] in
  let w_after := s32 (w - Z.of_nat (length names)) in
  Ret ((if negb s.(ladjust) then pad w 32 else []) ++
       (if neg then [45] else []) ++
       (if sharp then if base =? 8 then [48] else if base =? 16 then [48; 120] else [] else []) ++
       pad dw 48 ++ p ++ names ++
       (if s.(ladjust) then pad w_after 32 else [])).

(** ** One conversion, from label [reswitch] to the end of the switch *)

Record conv := {
  cv_out : list Z;            (** the characters it prints *)
  cv_fmt : list Z;            (** the rest of the format *)
  cv_ap : list arg;           (** the rest of the arguments *)
  cv_stop : bool;             (** an unknown conversion stops all later ones *)
  cv_store : list (Z * Z)     (** %n: the width in bytes and the value stored *)
}.

(** %s: the string cut by the precision and padded to the width. *)
Definition conv_string (fl : flavour) (s : spec) (str : list Z) : list Z :=
  let n := if s.(dot) then Z.min (Z.max 0 s.(dwidth)) (Z.of_nat (length str))
           else Z.of_nat (length str) in
  let w := s32 (s.(width) - n) in
  (if negb s.(ladjust) then pad w s.(padc) else []) ++
  (fl.(fl_char) <$> take (Z.to_nat n) str) ++
  (if s.(ladjust) then pad w s.(padc) else []).

(** %D: [width] units of data in hexadecimal, separated by [sep]. *)
Fixpoint conv_dump (width : nat) (fl : flavour) (up sep : list Z) : outcome (list Z) :=
  match width with
  | O => Ret []
  | S width =>
      match up with
      | [] => Fault
      | b :: up =>
          match digit_text !! Z.to_nat (b / 16), digit_text !! Z.to_nat (Z.land b 15) with
          | Some hi, Some lo =>
              l ← conv_dump width fl up sep;
              Ret (hi :: lo :: (if bool_decide (width = O) then [] else fl.(fl_char) <$> sep) ++ l)
          | _, _ => Fault
          end
      end
  end.

(** The size in bytes of the object %n stores to. *)
Definition conv_n_size (s : spec) : Z :=
  if s.(jflag) then 8 else if s.(qflag) then 8 else if s.(lflag) then 4
  else if s.(zflag) then 8 else if s.(hflag) then 2 else if s.(cflag) then 1 else 4.

(** The end of a numeric conversion: [handle_sign] or [handle_nosign], [number]. *)
Definition conv_number (fl : flavour) (s : spec) (signed : bool) (base : Z) (fmt : list Z)
    (ap : list arg) : outcome conv :=
  if signed then
    '(num, ap) ← fetch_signed fl s ap;
    out ← number fl s num base [];
    Ret {| cv_out := out; cv_fmt := fmt; cv_ap := ap; cv_stop := false; cv_store := [] |}
  else
    let s := set_adj s.(ladjust) s.(sharpflag) false s.(dot) s in
    '(num, ap) ← fetch_unsigned s ap;
    '(base, q, ap) ← (if s.(bconv) then
                        match ap with
                        | AStr (b :: q) :: ap => Ret (fl.(fl_char) b, q, ap)
                        | _ => Fault
                        end
                      else Ret (base, [], ap));
    out ← number fl s num base q;
    Ret {| cv_out := out; cv_fmt := fmt; cv_ap := ap; cv_stop := false; cv_store := [] |}.

Definition done_with (out : list Z) (fmt : list Z) (ap : list arg) : outcome conv :=
  Ret {| cv_out := out; cv_fmt := fmt; cv_ap := ap; cv_stop := false; cv_store := [] |}.

(** [fmt0] is the format after the percent sign; each turn of the function is one
    pass through the switch.  The end of the list is the NUL: reading it sends the
    code to the default case with [fmt] past the terminator. *)
Fixpoint reswitch (fuel : nat) (fl : flavour) (radix retval : Z) (fmt0 : list Z)
    (s : spec) (fmt : list Z) (ap : list arg) : outcome conv :=
  match fuel, fmt with
  | O, _ => Diverged
  | _, [] => Fault
  | S fuel, c :: fmt =>
      let ch := fl.(fl_fmt) c in
      let again s fmt ap := reswitch fuel fl radix retval fmt0 s fmt ap in
      if ch =? 46 (* . *) then again (set_adj s.(ladjust) s.(sharpflag) s.(sign) true s) fmt ap
      else if ch =? 35 (* # *) then again (set_adj s.(ladjust) true s.(sign) s.(dot) s) fmt ap
      else if ch =? 43 (* + *) then again (set_adj s.(ladjust) s.(sharpflag) true s.(dot) s) fmt ap
      else if ch =? 45 (* - *) then again (set_adj true s.(sharpflag) s.(sign) s.(dot) s) fmt ap
      else if ch =? 37 (* % *) then done_with [37] fmt ap
      else if ch =? 42 (* * *) then
        '(v, ap) ← va_int ap;
        let v := s32 v in
        if negb s.(dot) then
          if v <? 0 then
            again (set_width (s32 (- v)) (set_adj (negb s.(ladjust)) s.(sharpflag) s.(sign) s.(dot) s)) fmt ap
          else again (set_width v s) fmt ap
        else again (set_dwidth v s) fmt ap
      else if (ch =? 48) && negb s.(dot) (* 0 *) then again (set_padc 48 s) fmt ap
      else if (48 <=? ch) && (ch <=? 57) (* 0-9 *) then
        let '(n, fmt) := scan_number fl 0 ch fmt in
        again (if s.(dot) then set_dwidth n s else set_width n s) fmt ap
      else if ch =? 98 (* b *) then
        conv_number fl (set_conv true s.(upper) (set_adj true s.(sharpflag) s.(sign) s.(dot) s))
          false 0 fmt ap
      else if ch =? 99 (* c *) then
        '(v, ap) ← va_int ap;
        let w := s32 (s.(width) - 1) in
        done_with ((if negb s.(ladjust) then pad w s.(padc) else []) ++ [s32 v] ++
                   (if s.(ladjust) then pad w s.(padc) else [])) fmt ap
      else if ch =? 68 (* D *) then
        match ap with
        | ABytes up :: AStr sep :: ap =>
            out ← conv_dump (Z.to_nat (if s.(width) =? 0 then 16 else s.(width))) fl up sep;
            done_with out fmt ap
        | _ => Fault
        end
      else if (ch =? 100) || (ch =? 105) (* d i *) then
        conv_number fl (set_adj s.(ladjust) s.(sharpflag) true s.(dot) s) true 10 fmt ap
      else if ch =? 104 (* h *) then
        again (if s.(hflag) then set_half true false s else set_half s.(cflag) true s) fmt ap
      else if ch =? 106 (* j *) then again (set_jtz true s.(tflag) s.(zflag) s) fmt ap
      else if ch =? 108 (* l *) then
        again (if s.(lflag) then set_long true false s else set_long s.(qflag) true s) fmt ap
      else if ch =? 110 (* n *) then
        match ap with
        | APtr :: ap =>
            Ret {| cv_out := []; cv_fmt := fmt; cv_ap := ap; cv_stop := false;
                   cv_store := [(conv_n_size s, retval)] |}
        | _ => Fault
        end
      else if ch =? 111 (* o *) then conv_number fl s false 8 fmt ap
      else if ch =? 112 (* p *) then
        '(v, ap) ← va_int ap;
        out ← number fl (set_adj s.(ladjust) (s.(width) =? 0) false s.(dot) s) (u64 v) 16 [];
        done_with out fmt ap
      else if ch =? 113 (* q *) then again (set_long true s.(lflag) s) fmt ap
      else if ch =? 114 (* r *) then conv_number fl s s.(sign) radix fmt ap
      else if ch =? 115 (* s *) then
        match ap with
        | AStr str :: ap => done_with (conv_string fl s str) fmt ap
        | ANull :: ap => done_with (conv_string fl s (lit "(null)")) fmt ap
        | _ => Fault
        end
      else if ch =? 116 (* t *) then again (set_jtz s.(jflag) true s.(zflag) s) fmt ap
      else if ch =? 117 (* u *) then conv_number fl s false 10 fmt ap
      else if ch =? 88 (* X *) then conv_number fl (set_conv s.(bconv) true s) false 16 fmt ap
      else if ch =? 120 (* x *) then conv_number fl s false 16 fmt ap
      else if ch =? 121 (* y *) then
        conv_number fl (set_adj s.(ladjust) s.(sharpflag) true s.(dot) s) true 16 fmt ap
      else if ch =? 122 (* z *) then again (set_jtz s.(jflag) s.(tflag) true s) fmt ap
      else
        (* the unknown conversion is printed as it stands *)
        Ret {| cv_out := 37 :: (fl.(fl_char) <$> take (length fmt0 - length fmt) fmt0);
               cv_fmt := fmt; cv_ap := ap; cv_stop := true; cv_store := [] |}
  end.

(** ** The engine and its callers *)

Fixpoint kvprintf_loop (fuel : nat) (fl : flavour) (radix : Z) (fmt : list Z) (ap : list arg)
    (stop : bool) (out : list Z) (stores : list (Z * Z)) : outcome (list Z * list (Z * Z)) :=
  match fuel with
  | O => Diverged
  | S fuel =>
      match fmt with
      | [] => Ret (out, stores)
      | c :: fmt =>
          let ch := fl.(fl_fmt) c in
          if negb (ch =? 37) || stop then
            kvprintf_loop fuel fl radix fmt ap stop (out ++ [ch]) stores
          else
            r ← reswitch (S (length fmt)) fl radix (Z.of_nat (length out)) fmt spec0 fmt ap;
            kvprintf_loop fuel fl radix r.(cv_fmt) r.(cv_ap) r.(cv_stop)
              (out ++ r.(cv_out)) (stores ++ r.(cv_store))
      end
  end.

(** The characters as [*d++ = cc] stores them. *)
Definition stored_chars (fl : flavour) (out : list Z) : list Z := fl.(fl_out) <$> out.

(** The characters stored through [d], the %n stores; [None] is a null format. *)
Definition kvprintf (fl : flavour) (fmt : option (list Z)) (radix : Z) (ap : list arg)
  : outcome (list Z * list (Z * Z)) :=
  let fmt := default (lit "(fmt null)" ++ [10]) fmt in
  let radix := if (radix <? 2) || (36 <? radix) then 10 else radix in
  '(out, stores) ← kvprintf_loop (S (length fmt)) fl radix fmt ap false [] [];
  Ret (stored_chars fl out, stores).

(** [_Buffer[retval] = '\0'] after the characters; the result is [retval]. *)
Definition vsprintf (m : mem) (Buffer : Z) (Format : option (list Z)) (ArgList : list arg)
  : outcome (mem * Z) :=
  '(out, _) ← kvprintf narrow Format 10 ArgList;
  let retval := Z.of_nat (length out) in
  m ← store_bytes m Buffer out;
  m ← store8 m (Buffer + retval) NUL;
  Ret (m, retval).

Definition sprintf (m : mem) (Buffer : Z) (Format : option (list Z)) (ap : list arg)
  : outcome (mem * Z) :=
  '(out, _) ← kvprintf narrow Format 10 ap;
  let retval := Z.of_nat (length out) in
  m ← store_bytes m Buffer out;
  m ← store8 m (Buffer + retval) NUL;
  Ret (m, retval).

(** [_BufferCount] is not used. *)
Definition snprintf (m : mem) (Buffer BufferCount : Z) (Format : option (list Z)) (ap : list arg)
  : outcome (mem * Z) :=
  '(out, _) ← kvprintf narrow Format 10 ap;
  let retval := Z.of_nat (length out) in
  m ← store_bytes m Buffer out;
  m ← store8 m (Buffer + retval) NUL;
  Ret (m, retval).

Definition vsnprintf (m : mem) (Buffer BufferCount : Z) (Format : option (list Z))
    (ArgList : list arg) : outcome (mem * Z) :=
  vsprintf m Buffer Format ArgList.

(** The wide engine stores 16-bit units. *)
Fixpoint store_units (m : mem) (a : Z) (l : list Z) : outcome mem :=
  match l with
  | [] => Ret m
  | c :: l => m ← store16 m a c; store_units m (a + 2) l
  end.

(** [kswprintn] and [kvwprintf] repeat [ksprintn] and [kvprintf] on wide characters. *)
Definition kswprintn (num base : Z) (upper : bool) : outcome (list Z) := ksprintn num base upper.

Definition kvwprintf (fmt : option (list Z)) (radix : Z) (ap : list arg)
  : outcome (list Z * list (Z * Z)) := kvprintf wide fmt radix ap.

Definition vswprintf (m : mem) (Buffer BufferCount : Z) (Format : option (list Z))
    (ArgList : list arg) : outcome (mem * Z) :=
  '(out, _) ← kvwprintf Format 10 ArgList;
  let retval := Z.of_nat (length out) in
  m ← store_units m Buffer out;
  m ← store16 m (Buffer + 2 * retval) NUL;
  Ret (m, retval).

Definition swprintf (m : mem) (Buffer BufferCount : Z) (Format : option (list Z))
    (ap : list arg) : outcome (mem * Z) :=
  vswprintf m Buffer BufferCount Format ap.

(** ** Examples of the documentation *)

(** The example of the comment above [kvprintf]. *)
Example kvprintf_bits_doc :
  kvprintf narrow (Some (lit "reg=%b" ++ [10])) 10
    [AInt 3; AStr ([8; 2] ++ lit "BITTWO" ++ [1] ++ lit "BITONE")]
  = Ret (lit "reg=3<BITTWO,BITONE>" ++ [10], []).
Proof. vm_compute. reflexivity. Qed.

(** ** Digits *)

Lemma digit_text_lookup d : 0 <= d < 36 -> digit_text !! Z.to_nat d = Some (digit_chr d).
Proof.
  intros Hd. pose proof (digit_cases (fun d => bool_decide
    (digit_text !! Z.to_nat d = Some (digit_chr d))) eq_refl d Hd) as H.
  by apply bool_decide_eq_true in H.
Qed.

(** The character of a digit, in upper case on demand. *)
Definition case_chr (upper : bool) (d : Z) : Z :=
  if upper then toupper_macro (digit_chr d) else digit_chr d.

Lemma ksprintn_loop_spec fuel num base up :
  2 <= base <= 36 -> 0 <= num < base ^ Z.of_nat fuel -> (0 < fuel)%nat ->
  ksprintn_loop fuel num base up = Ret (case_chr up <$> ldigits fuel base num).
Proof.
  intros Hb. revert num. induction fuel as [|fuel IH]; intros num Hn Hf; [lia |].
  cbn [ksprintn_loop ldigits]. rewrite (wrap_small 64 base) by lia.
  pose proof (Z.mod_pos_bound num base ltac:(lia)) as Hd.
  rewrite digit_text_lookup by lia. cbn [mbind outcome_bind]. unfold truthy.
  destruct (Z.eqb_spec (num / base) 0) as [E | Hne]; cbn [negb]; [done |].
  rewrite Nat2Z.inj_succ, Z.pow_succ_r in Hn by lia.
  assert (0 <= num / base) by (apply Z.div_pos; lia).
  assert (num / base < base ^ Z.of_nat fuel) by (apply Z.div_lt_upper_bound; lia).
  destruct fuel as [|fuel]; [cbn in *; lia |]. rewrite IH by lia. done.
Qed.

(** The text of a 64-bit magnitude. *)
Definition num_text (up : bool) (base num : Z) : list Z :=
  rev (case_chr up <$> ldigits 64 base num).

Lemma pow64 base : 2 <= base -> 2 ^ 64 <= base ^ Z.of_nat 64.
Proof. intros. apply Z.pow_le_mono_l. lia. Qed.

Lemma ksprintn_text num base up :
  2 <= base <= 36 -> 0 <= num < 2 ^ 64 -> ksprintn num base up = Ret (num_text up base num).
Proof.
  intros Hb Hn. unfold ksprintn. destruct (Z.eqb_spec base 0); [lia |].
  pose proof (pow64 base ltac:(lia)).
  change (MAXNBUF - 1)%nat with 64%nat. rewrite ksprintn_loop_spec by lia. done.
Qed.

(** Fact: [ksprintn] never overruns its buffer of [MAXNBUF] characters: for every
    64-bit number and base from 2 to 36 it produces between 1 and [MAXNBUF - 1]
    digits, and they are the digits of the number. *)
Theorem ksprintn_digits num base :
  2 <= base <= 36 -> 0 <= num < 2 ^ 64 ->
  exists ds, ksprintn num base false = Ret (digit_chr <$> ds) /\
    (1 <= length ds <= MAXNBUF - 1)%nat /\ Forall (fun d => 0 <= d < base) ds /\
    mvalue base 0 ds = num.
Proof.
  intros Hb Hn. pose proof (pow64 base ltac:(lia)).
  exists (rev (ldigits 64 base num)). split_and!.
  - rewrite ksprintn_text by done. unfold num_text. by rewrite rev_fmap.
  - rewrite length_rev. pose proof (ldigits_nonempty 64 base num ltac:(lia)).
    destruct (ldigits 64 base num); [done | cbn; lia].
  - rewrite length_rev. apply ldigits_length.
  - apply Forall_rev, ldigits_range. lia.
  - rewrite mvalue_rev. apply ldigits_value; lia.
Qed.

Lemma ksprintn_digits_witness :
  exists ds, ksprintn (2 ^ 64 - 1) 2 false = Ret (digit_chr <$> ds) /\
    (1 <= length ds <= MAXNBUF - 1)%nat /\ Forall (fun d => 0 <= d < 2) ds /\
    mvalue 2 0 ds = 2 ^ 64 - 1.
Proof. apply ksprintn_digits; lia. Defined.

(** ** The layout of a number *)

(** The sign and the radix prefix. *)
Definition number_prefix (s : spec) (num base : Z) : list Z :=
  let neg := s.(sign) && (s64 num <? 0) in
  let mag := if neg then u64 (- s64 num) else num in
  (if neg then [45] else []) ++
  (if s.(sharpflag) && truthy mag
   then if base =? 8 then [48] else if base =? 16 then [48; 120] else [] else []).

Definition magnitude (s : spec) (num : Z) : Z :=
  if s.(sign) && (s64 num <? 0) then u64 (- s64 num) else num.

(** The minimal number of digits: the precision, or the field less the prefix
    when it is padded with zeros. *)
Definition precision (s : spec) (num base : Z) : Z :=
  if negb s.(ladjust) && (s.(padc) =? 48)
  then s.(width) - Z.of_nat (length (number_prefix s num base)) else s.(dwidth).

Lemma pad_length n c : Z.of_nat (length (pad n c)) = Z.max 0 n.
Proof. unfold pad. rewrite repeat_length. lia. Qed.

Lemma imax_max a b : imax a b = Z.max a b.
Proof. unfold imax. zcase; lia. Qed.

Lemma magnitude_range s num : 0 <= num < 2 ^ 64 -> 0 <= magnitude s num < 2 ^ 64.
Proof. intros. unfold magnitude. destruct (_ && _); [apply (wrap_range 64); lia | done]. Qed.

Lemma num_text_length up base num : (length (num_text up base num) <= 64)%nat.
Proof. unfold num_text. rewrite length_rev, length_fmap. apply ldigits_length. Qed.

(** Everything [number] prints, without the bit names of %b. *)
Lemma number_layout fl s num base :
  2 <= base <= 36 -> 0 <= num < 2 ^ 64 -> s.(bconv) = false ->
  0 <= s.(width) < 2 ^ 30 -> 0 <= s.(dwidth) < 2 ^ 30 ->
  let pre := number_prefix s num base in
  let ds := num_text s.(upper) base (magnitude s num) in
  let n := Z.of_nat (length ds) in
  let fill := s.(width) - (Z.of_nat (length pre) + Z.max (precision s num base) n) in
  number fl s num base [] =
  Ret ((if negb s.(ladjust) then pad fill 32 else []) ++ pre ++
       pad (precision s num base - n) 48 ++ ds ++
       (if s.(ladjust) then pad fill 32 else [])).
Proof.
  intros Hb Hn Hbc Hw Hdw pre ds n fill. unfold number. fold (magnitude s num).
  rewrite ksprintn_text by auto using magnitude_range. cbn [mbind outcome_bind]. rewrite Hbc.
  cbn [andb mbind outcome_bind].
  rewrite (bool_decide_eq_true_2 ([] = [])) by done. cbn [length app].
  pose proof (num_text_length s.(upper) base (magnitude s num)) as Hlen. fold ds in Hlen |- *.
  fold n.
  set (tmp := (if sharpflag s && truthy (magnitude s num)
               then if base =? 8 then 1 else if base =? 16 then 2 else 0 else 0)
              + of_bool (sign s && (s64 num <? 0))).
  assert (Z.of_nat (length pre) = tmp /\ 0 <= tmp <= 3) as [Hpre Htmp].
  { unfold pre, number_prefix, tmp, magnitude. rewrite length_app.
    destruct (sign s && (s64 num <? 0)); repeat case_match; cbn; lia. }
  assert (precision s num base =
          if negb (ladjust s) && (padc s =? 48) then s32 (width s - tmp) else dwidth s) as Hprec.
  { unfold precision. fold pre. rewrite Hpre.
    destruct (negb (ladjust s) && (padc s =? 48)); [| done].
    rewrite swrap_small; [done | lia | lia]. }
  rewrite <- Hprec, imax_max.
  assert (- 3 <= precision s num base < 2 ^ 30) as Hpr
    by (unfold precision; fold pre; destruct (negb (ladjust s) && (padc s =? 48)); lia).
  rewrite (swrap_small 32 (tmp + _)) by lia.
  replace (s32 (width s - (tmp + _))) with fill
    by (rewrite swrap_small by lia; unfold fill; lia).
  rewrite (swrap_small 32 (precision s num base - n)) by lia.
  replace (s32 (fill - Z.of_nat 0)) with fill by (rewrite swrap_small by lia; lia).
  unfold pre, number_prefix. fold (magnitude s num). by rewrite <- !app_assoc.
Qed.

(** Fact: a number is never truncated and fills its field exactly: what [number]
    prints has the length of the field width or, where that is more, of the sign,
    the radix prefix and the digits raised to the precision; the digits are those
    of the magnitude and stand, with their zeros, directly after the prefix. *)
Theorem number_fills_field fl s num base :
  2 <= base <= 36 -> 0 <= num < 2 ^ 64 -> s.(bconv) = false ->
  0 <= s.(width) < 2 ^ 30 -> 0 <= s.(dwidth) < 2 ^ 30 ->
  let pre := number_prefix s num base in
  let ds := num_text s.(upper) base (magnitude s num) in
  exists lead zeros trail,
    number fl s num base [] = Ret (repeat 32 lead ++ pre ++ repeat 48 zeros ++ ds ++ repeat 32 trail) /\
    Z.of_nat (lead + length pre + zeros + length ds + trail)
    = Z.max s.(width) (Z.of_nat (length pre) + Z.max (precision s num base) (Z.of_nat (length ds))).
Proof.
  intros Hb Hn Hbc Hw Hdw pre ds.
  set (fill := s.(width) - (Z.of_nat (length pre) + Z.max (precision s num base) (Z.of_nat (length ds)))).
  exists (if negb s.(ladjust) then Z.to_nat fill else 0%nat),
    (Z.to_nat (precision s num base - Z.of_nat (length ds))),
    (if s.(ladjust) then Z.to_nat fill else 0%nat).
  rewrite number_layout by done. fold pre ds fill. split.
  - unfold pad. by destruct s.(ladjust).
  - destruct s.(ladjust); cbn [negb]; lia.
Qed.

Lemma number_fills_field_witness :
  exists lead zeros trail,
    number narrow (set_padc 48 (set_width 8 (set_adj false true true false spec0))) (2 ^ 64 - 42) 16 []
    = Ret (repeat 32 lead ++
           number_prefix (set_padc 48 (set_width 8 (set_adj false true true false spec0))) (2 ^ 64 - 42) 16 ++
           repeat 48 zeros ++
           num_text false 16 (magnitude (set_padc 48 (set_width 8 (set_adj false true true false spec0))) (2 ^ 64 - 42)) ++
           repeat 32 trail) /\
    Z.of_nat (lead + 3 + zeros + 2 + trail) = 8.
Proof.
  apply (number_fills_field narrow (set_padc 48 (set_width 8 (set_adj false true true false spec0)))
           (2 ^ 64 - 42) 16); cbn; reflexivity || lia.
Defined.

(** ** Formats *)

(** A character that the format loop prints unchanged. *)
Definition plain (fl : flavour) (c : Z) : Prop := fl.(fl_fmt) c = c /\ fl.(fl_out) c = c.

Lemma loop_literal fl radix t : forall fuel rest ap stop out st,
  Forall (fun c => fl.(fl_fmt) c = c /\ (c <> 37 \/ stop = true)) t ->
  kvprintf_loop (length t + fuel) fl radix (t ++ rest) ap stop out st
  = kvprintf_loop fuel fl radix rest ap stop (out ++ t) st.
Proof.
  induction t as [|c t IH]; intros fuel rest ap stop out st Ht.
  - by rewrite app_nil_r.
  - apply Forall_cons in Ht as [[Hc Hs] Ht]. cbn [length Nat.add app kvprintf_loop].
    rewrite Hc. replace (negb (c =? 37) || stop) with true
      by (destruct Hs as [? | ->]; [destruct (Z.eqb_spec c 37); done | by rewrite orb_true_r]).
    rewrite IH by done. by rewrite <- app_assoc.
Qed.

Lemma stored_plain fl t : Forall (plain fl) t -> stored_chars fl t = t.
Proof.
  unfold stored_chars. induction 1 as [|c t [_ Hc] _ IH]; [done |]. cbn. by rewrite Hc, IH.
Qed.

(** [out] after a literal text is that text, whatever follows. *)
Lemma kvprintf_prefix fl radix t rest ap :
  2 <= radix <= 36 -> Forall (fun c => plain fl c /\ c <> 37) t ->
  kvprintf fl (Some (t ++ rest)) radix ap
  = ('(out, st) ← kvprintf_loop (S (length rest)) fl radix rest ap false t [];
     Ret (stored_chars fl out, st)).
Proof.
  intros Hr Ht. unfold kvprintf. cbn [from_option id].
  destruct (Z.ltb_spec radix 2), (Z.ltb_spec 36 radix); try lia. cbn [orb].
  rewrite length_app, <- Nat.add_succ_r, loop_literal; [done |].
  eapply Forall_impl; [exact Ht |]. cbn. intros c [[? _] ?]. auto.
Qed.

Lemma loop_percent fuel fl radix fmt ap out st :
  fl.(fl_fmt) 37 = 37 ->
  kvprintf_loop (S fuel) fl radix (37 :: fmt) ap false out st
  = (r ← reswitch (S (length fmt)) fl radix (Z.of_nat (length out)) fmt spec0 fmt ap;
     kvprintf_loop fuel fl radix r.(cv_fmt) r.(cv_ap) r.(cv_stop)
       (out ++ r.(cv_out)) (st ++ r.(cv_store))).
Proof. intros H. cbn [kvprintf_loop]. by rewrite H. Qed.

(** Fact: a format that ends inside a conversion is read past its terminator: after
    any literal text, a last percent sign makes [kvprintf] access the memory
    behind the string. *)
Theorem kvprintf_dangling_percent fl radix t ap :
  2 <= radix <= 36 -> fl.(fl_fmt) 37 = 37 -> Forall (fun c => plain fl c /\ c <> 37) t ->
  kvprintf fl (Some (t ++ [37])) radix ap = Fault.
Proof.
  intros Hr H37 Ht. rewrite kvprintf_prefix by done. cbn [length kvprintf_loop].
  rewrite H37. reflexivity.
Qed.

Lemma kvprintf_dangling_percent_witness :
  kvprintf narrow (Some (lit "100" ++ [37])) 10 [] = Fault.
Proof.
  apply kvprintf_dangling_percent; [lia | reflexivity |].
  repeat constructor; vm_compute; discriminate.
Defined.

(** The characters the switch has a case for. *)
Definition known_conversion (c : Z) : bool :=
  existsb (Z.eqb c) (lit ".#+-%*0123456789bcDdihjlnopqrstuXxyz").

Lemma reswitch_unknown fl radix retval rest c ap fuel :
  fl.(fl_fmt) c = c -> known_conversion c = false ->
  reswitch (S fuel) fl radix retval (c :: rest) spec0 (c :: rest) ap
  = Ret {| cv_out := [37; fl.(fl_char) c]; cv_fmt := rest; cv_ap := ap; cv_stop := true;
           cv_store := [] |}.
Proof.
  intros Hc Hk.
  assert (forall x, known_conversion x = true -> (c =? x) = false) as Hne.
  { intros x Hx. destruct (Z.eqb_spec c x) as [-> | ?]; [congruence | done]. }
  cbn [reswitch]. rewrite Hc.
  replace ((48 <=? c) && (c <=? 57)) with false.
  2: { destruct (Z.leb_spec 48 c), (Z.leb_spec c 57); try done. exfalso.
       assert (forallb known_conversion (seqZ 48 10) = true) as Hd by reflexivity.
       rewrite forallb_forall in Hd. specialize (Hd c). rewrite Hd in Hk; [done |].
       apply list_elem_of_In, elem_of_seqZ. lia. }
  repeat match goal with |- context [c =? ?x] => rewrite (Hne x eq_refl) end.
  cbn [andb orb]. cbn [length]. by rewrite Nat.sub_succ_l, Nat.sub_diag by lia.
Qed.

(** Fact: an unknown conversion turns the rest of the format into plain text: the
    whole format is printed as it stands, later percent signs included, and no
    argument is consumed for it. *)
Theorem kvprintf_unknown_verbatim fl radix t c rest ap :
  2 <= radix <= 36 -> Forall (fun x => plain fl x /\ x <> 37) t ->
  Forall (plain fl) (37 :: c :: rest) -> fl.(fl_out) (fl.(fl_char) c) = c ->
  known_conversion c = false ->
  kvprintf fl (Some (t ++ 37 :: c :: rest)) radix ap = Ret (t ++ 37 :: c :: rest, []).
Proof.
  intros Hr Ht Hrest Hc Hk. rewrite kvprintf_prefix by done.
  assert (Forall (plain fl) t) as Ht' by (eapply Forall_impl; [exact Ht | naive_solver]).
  pose proof Hrest as Hrest'.
  apply Forall_cons in Hrest as [[H37 O37] [[Hcf Hco] Hrest]%Forall_cons].
  rewrite loop_percent, reswitch_unknown by done.
  cbn [mbind outcome_bind cv_out cv_fmt cv_ap cv_stop cv_store app length].
  replace (S (S (length rest))) with (length rest + 2)%nat by lia.
  rewrite <- (app_nil_r rest) at 2.
  rewrite loop_literal by (eapply Forall_impl; [exact Hrest | intros x [? _]; auto]).
  cbn. unfold stored_chars. rewrite !fmap_app. cbn. rewrite O37, Hc.
  fold (stored_chars fl t) (stored_chars fl rest). rewrite !stored_plain by done.
  by rewrite <- app_assoc.
Qed.

Lemma kvprintf_unknown_verbatim_witness :
  kvprintf narrow (Some (lit "a=" ++ 37 :: 107 :: lit " b=%d")) 10 [AInt 1]
  = Ret (lit "a=" ++ 37 :: 107 :: lit " b=%d", []).
Proof.
  apply kvprintf_unknown_verbatim; [lia | | | reflexivity | reflexivity].
  - repeat constructor; vm_compute; discriminate.
  - repeat constructor; vm_compute; discriminate.
Defined.

(** ** %d prints what itoa prints *)

Lemma conv_d fl radix retval fmt0 v rest ap fuel :
  fl.(fl_fmt) 100 = 100 ->
  reswitch (S fuel) fl radix retval fmt0 spec0 (100 :: rest) (AInt v :: ap)
  = (out ← number fl (set_adj false false true false spec0) (u64 (s32 v)) 10 [];
     done_with out rest ap).
Proof. intros H. cbn [reswitch]. rewrite H. reflexivity. Qed.

Lemma num_text_itoa v :
  - 2 ^ 31 <= v < 2 ^ 31 ->
  num_text false 10 (Z.abs v) = rev (digit_chr <$> ldigits 32 10 (Z.abs v)).
Proof.
  intros Hv. unfold num_text. rewrite (ldigits_fuel 32 64); [done | lia | | lia].
  split; [lia |]. apply Z.lt_le_trans with (10 ^ 31); [lia |]. vm_compute. discriminate.
Qed.

Lemma number_d fl v :
  - 2 ^ 31 <= v < 2 ^ 31 ->
  number fl (set_adj false false true false spec0) (u64 (s32 v)) 10 [] = Ret (itoa_text v 10).
Proof.
  intros Hv. rewrite number_layout; [| lia | apply (wrap_range 64); lia | done | cbn; lia | cbn; lia].
  unfold number_prefix, precision, magnitude.
  cbn [set_adj sign sharpflag ladjust padc width dwidth upper spec0 andb negb].
  change (32 =? 48) with false; cbv iota.
  rewrite swrap_wrap, (swrap_small 32 v), (swrap_small 64 v) by lia.
  assert ((if v <? 0 then u64 (- v) else u64 v) = Z.abs v) as ->.
  { destruct (Z.ltb_spec v 0); rewrite wrap_small; lia. }
  unfold itoa_text. rewrite num_text_itoa by done.
  set (ds := rev _). assert (pad (0 - Z.of_nat (length ds)) 48 = []) as ->
    by (unfold pad; by replace (Z.to_nat _) with 0%nat by lia).
  assert (forall k, 0 <= k -> pad (0 - (k + Z.max 0 (Z.of_nat (length ds)))) 32 = []) as Hpad
    by (intros; unfold pad; by replace (Z.to_nat _) with 0%nat by lia).
  rewrite Hpad by lia. rewrite !app_nil_r. by destruct (v <? 0).
Qed.

Lemma itoa_text_bytes v b : 2 <= b <= 36 -> Forall (fun c => is_byte c /\ c <> 0) (itoa_text v b).
Proof.
  intros Hb. unfold itoa_text. apply Forall_app. split.
  - case_match; repeat constructor; done || discriminate.
  - apply Forall_rev, Forall_fmap. eapply Forall_impl; [apply (ldigits_range 32 b); lia |].
    intros d Hd. cbn in Hd |- *. apply digit_chr_byte. lia.
Qed.

Lemma kvprintf_d v :
  - 2 ^ 31 <= v < 2 ^ 31 ->
  kvprintf narrow (Some (lit "%d")) 10 [AInt v] = Ret (itoa_text v 10, []).
Proof.
  intros Hv. rewrite (kvprintf_prefix narrow 10 [] (lit "%d")) by (lia || constructor).
  change (lit "%d") with [37; 100]. rewrite loop_percent by done.
  cbn [length]. rewrite conv_d, number_d by done. cbn.
  do 2 f_equal. unfold stored_chars. rewrite <- list_fmap_id. apply list_fmap_ext.
  intros i c Hc. cbn. apply u8_id.
  pose proof (itoa_text_bytes v 10 ltac:(lia)) as Hb. rewrite Forall_lookup in Hb.
  by apply (Hb i).
Qed.

(** Fact: the two decimal printers of the runtime agree: %d prints, for every
    32-bit value, exactly the text [itoa] produces. *)
Theorem kvprintf_d_itoa v :
  - 2 ^ 31 <= v < 2 ^ 31 ->
  kvprintf narrow (Some (lit "%d")) 10 [AInt v] = Ret (itoa_text v 10, []).
Proof. apply kvprintf_d. Qed.

Lemma kvprintf_d_itoa_witness :
  kvprintf narrow (Some (lit "%d")) 10 [AInt (- 2 ^ 31)] = Ret (itoa_text (- 2 ^ 31) 10, []).
Proof. apply kvprintf_d_itoa. lia. Defined.

(** [sprintf] leaves its output, terminated, in the buffer. *)
Lemma sprintf_cstr m buf fmt ap out st :
  mem_ok m -> kvprintf narrow fmt 10 ap = Ret (out, st) ->
  Forall (fun c => is_byte c /\ c <> 0) out -> mapped m buf (Z.of_nat (length out) + 1) ->
  exists m', sprintf m buf fmt ap = Ret (m', Z.of_nat (length out)) /\ mem_ok m' /\
             cstr m' buf out /\ same_outside m m' buf (Z.of_nat (length out) + 1).
Proof.
  intros Hok Hk Hout Hm. unfold sprintf. rewrite Hk. cbn [mbind outcome_bind].
  assert (Forall is_byte out) as Hby by (eapply Forall_impl; [exact Hout | naive_solver]).
  destruct (store_bytes_spec m buf out) as (m1 & -> & Hx); [mapped_tac | done |].
  cbn [mbind outcome_bind]. set (e := buf + Z.of_nat (length out)).
  assert (m1 !! e = m !! e) as He by (rewrite Hx; repeat zcase; cbn; done || lia).
  rewrite store8_Ret by (rewrite He; apply Hm; lia). cbn [mbind outcome_bind].
  change (u8 NUL) with 0. exists (<[e := 0]> m1).
  assert (mem_ok m1) as Hok1.
  { intros a b. rewrite Hx. repeat zcase; cbn; eauto. intros Hb.
    rewrite Forall_lookup in Hby. eauto. }
  split_and!; [done | apply mem_ok_insert; [done | by vm_compute] | split | ].
  - apply bytes_at_app. split.
    + intros i b Hi. pose proof (lookup_lt_Some _ _ _ Hi).
      rewrite lookup_insert_ne, Hx by lia. repeat zcase; try lia. cbn.
      by replace (Z.to_nat (buf + Z.of_nat i - buf)) with i by lia.
    + apply bytes_at_cons. split; [apply lookup_insert_eq | apply bytes_at_nil].
  - eapply Forall_impl; [exact Hout | naive_solver].
  - intros a Ha. rewrite lookup_insert_ne by lia. rewrite Hx. repeat zcase; cbn; done || lia.
Qed.

(** C35: printing a 32-bit integer with [sprintf("%d")] and parsing the buffer with
    [strtol] gives the integer back; the call writes only the text and its NUL,
    at most twelve bytes. *)
Theorem sprintf_strtol_roundtrip m buf v :
  mem_ok m -> - 2 ^ 31 <= v < 2 ^ 31 -> mapped m buf 12 ->
  exists m' n, sprintf m buf (Some (lit "%d")) [AInt v] = Ret (m', n) /\ 1 <= n <= 11 /\
    same_outside m m' buf (n + 1) /\ strtol m' buf 0 10 = Ret (m', v).
Proof.
  intros Hok Hv Hm. set (ds := ldigits 32 10 (Z.abs v)).
  assert (lvalue 10 ds = Z.abs v) as Hval.
  { apply ldigits_value; [lia |]. split; [lia |].
    apply Z.lt_le_trans with (10 ^ 31); [lia |]. vm_compute. discriminate. }
  assert (1 <= length ds <= 10)%nat as Hlen.
  { unfold ds. rewrite (ldigits_fuel 10 32); [| lia | split; [lia |] | lia].
    - pose proof (ldigits_nonempty 10 10 (Z.abs v) ltac:(lia)).
      pose proof (ldigits_length 10 10 (Z.abs v)).
      destruct (ldigits 10 10 (Z.abs v)) as [|d l]; [done | cbn [length] in *; lia].
    - change (10 ^ Z.of_nat 10) with 10000000000. lia. }
  assert (itoa_text v 10 = (if v <? 0 then [45] else []) ++ (digit_chr <$> rev ds)) as Htext
    by (unfold itoa_text; fold ds; rewrite rev_fmap; by destruct (v <? 0)).
  assert (1 <= Z.of_nat (length (itoa_text v 10)) <= 11) as Hn.
  { rewrite Htext, length_app, length_fmap, length_rev. destruct (v <? 0); cbn [length]; lia. }
  destruct (sprintf_cstr m buf (Some (lit "%d")) [AInt v] (itoa_text v 10) [])
    as (m' & E & Hok' & Hs & Ho);
    [done | by apply kvprintf_d | by apply itoa_text_bytes | mapped_tac |].
  exists m', (Z.of_nat (length (itoa_text v 10))). split_and!; [done | lia | lia | done |].
  rewrite Htext in Hs. rewrite (strtol_digits m' buf 10 (rev ds) (v <? 0));
    [| done | lia | apply Forall_rev, ldigits_range; lia | | done].
  - rewrite mvalue_rev, Hval. destruct (Z.ltb_spec v 0); do 2 f_equal; rewrite swrap_small; lia.
  - intros Hnil. apply (f_equal length) in Hnil. rewrite length_rev in Hnil. cbn in Hnil. lia.
Qed.

Lemma sprintf_strtol_roundtrip_witness :
  exists m' n, sprintf (mem_of 0 (repeat 7 16)) 1 (Some (lit "%d")) [AInt (-1234)] = Ret (m', n) /\
    1 <= n <= 11 /\ same_outside (mem_of 0 (repeat 7 16)) m' 1 (n + 1) /\
    strtol m' 1 0 10 = Ret (m', -1234).
Proof.
  apply sprintf_strtol_roundtrip; [apply mem_of_ok; reflexivity | lia |].
  apply mem_of_mapped; vm_compute; discriminate.
Defined.

(** Fact: [snprintf] does not honour its buffer size: a format without conversions
    that is longer than the size is stored whole, past the end of the buffer. *)
Theorem snprintf_overruns m buf n t :
  mem_ok m -> Forall (fun c => is_byte c /\ c <> 0 /\ c <> 37) t ->
  mapped m buf (Z.of_nat (length t) + 1) -> 0 <= n < Z.of_nat (length t) ->
  exists m', snprintf m buf n (Some t) [] = Ret (m', Z.of_nat (length t)) /\
    m' !! (buf + n) = t !! Z.to_nat n /\ m' !! (buf + Z.of_nat (length t)) = Some 0.
Proof.
  intros Hok Ht Hm Hn.
  assert (kvprintf narrow (Some t) 10 [] = Ret (t, [])) as Hk.
  { rewrite <- (app_nil_r t) at 1. rewrite kvprintf_prefix; [| lia |].
    - cbn. do 2 f_equal. apply stored_plain. eapply Forall_impl; [exact Ht |].
      intros c (? & _). by split; apply u8_id.
    - eapply Forall_impl; [exact Ht |]. intros c (? & _ & ?). by split; [split; apply u8_id |]. }
  destruct (sprintf_cstr m buf (Some t) [] t []) as (m' & E & _ & [Hs _] & _);
    [done | done | eapply Forall_impl; [exact Ht | naive_solver] | done |].
  exists m'. split; [exact E |]. apply bytes_at_app in Hs as [Hs He]. split.
  - destruct (lookup_lt_is_Some_2 t (Z.to_nat n)) as [c Hc]; [lia |].
    rewrite Hc, <- (Hs _ _ Hc). f_equal. lia.
  - by apply bytes_at_cons in He as [He _].
Qed.

Lemma snprintf_overruns_witness :
  exists m', snprintf (mem_of 0 (repeat 7 16)) 0 4 (Some (lit "overflow")) [] = Ret (m', 8) /\
    m' !! (0 + 4) = lit "overflow" !! Z.to_nat 4 /\ m' !! (0 + Z.of_nat 8) = Some 0.
Proof.
  apply (snprintf_overruns (mem_of 0 (repeat 7 16)) 0 4 (lit "overflow")).
  - apply mem_of_ok. reflexivity.
  - repeat constructor; vm_compute; discriminate.
  - apply mem_of_mapped; vm_compute; discriminate.
  - vm_compute. split; [discriminate | reflexivity].
Defined.
