(* ===== verification/CrtStdlib.v ===== *)
(** The kernel's C runtime: character classes, random numbers, wide strings.

    Models src/src/core_crt/ctype.c, src/src/core_crt/stdlib.c and the string
    functions of src/src/core_crt/wchar.c.  A [wchar_t] is a 16-bit unit, two
    bytes of the memory; [long] has 32 bits. *)
From Stdlib Require Import String.
From S2P Require Import Prelude CMemory CrtString CrtNumeric.

(** ** ctype.c *)

Definition ACPI_XS : Z := 0x40.
Definition ACPI_CN : Z := 0x20.
Definition ACPI_DI : Z := 0x04.
Definition ACPI_LO : Z := 0x02.
Definition ACPI_PU : Z := 0x10.
Definition ACPI_SP : Z := 0x08.
Definition ACPI_UP : Z := 0x01.
Definition ACPI_XD : Z := 0x80.

(** The table has 257 entries; those from 0x80 on are 0. *)
Definition AcpiGbl_Ctypes : list Z :=
  [ACPI_CN; ACPI_CN; ACPI_CN; ACPI_CN; ACPI_CN; ACPI_CN; ACPI_CN; ACPI_CN;
   ACPI_CN; (Z.lor ACPI_CN ACPI_SP); (Z.lor ACPI_CN ACPI_SP); (Z.lor ACPI_CN ACPI_SP); (Z.lor ACPI_CN ACPI_SP); (Z.lor ACPI_CN ACPI_SP); ACPI_CN; ACPI_CN;
   ACPI_CN; ACPI_CN; ACPI_CN; ACPI_CN; ACPI_CN; ACPI_CN; ACPI_CN; ACPI_CN;
   ACPI_CN; ACPI_CN; ACPI_CN; ACPI_CN; ACPI_CN; ACPI_CN; ACPI_CN; ACPI_CN;
   (Z.lor ACPI_XS ACPI_SP); ACPI_PU; ACPI_PU; ACPI_PU; ACPI_PU; ACPI_PU; ACPI_PU; ACPI_PU;
   ACPI_PU; ACPI_PU; ACPI_PU; ACPI_PU; ACPI_PU; ACPI_PU; ACPI_PU; ACPI_PU;
   (Z.lor ACPI_XD ACPI_DI); (Z.lor ACPI_XD ACPI_DI); (Z.lor ACPI_XD ACPI_DI); (Z.lor ACPI_XD ACPI_DI); (Z.lor ACPI_XD ACPI_DI); (Z.lor ACPI_XD ACPI_DI); (Z.lor ACPI_XD ACPI_DI); (Z.lor ACPI_XD ACPI_DI);
   (Z.lor ACPI_XD ACPI_DI); (Z.lor ACPI_XD ACPI_DI); ACPI_PU; ACPI_PU; ACPI_PU; ACPI_PU; ACPI_PU; ACPI_PU;
   ACPI_PU; (Z.lor ACPI_XD ACPI_UP); (Z.lor ACPI_XD ACPI_UP); (Z.lor ACPI_XD ACPI_UP); (Z.lor ACPI_XD ACPI_UP); (Z.lor ACPI_XD ACPI_UP); (Z.lor ACPI_XD ACPI_UP); ACPI_UP;
   ACPI_UP; ACPI_UP; ACPI_UP; ACPI_UP; ACPI_UP; ACPI_UP; ACPI_UP; ACPI_UP;
   ACPI_UP; ACPI_UP; ACPI_UP; ACPI_UP; ACPI_UP; ACPI_UP; ACPI_UP; ACPI_UP;
   ACPI_UP; ACPI_UP; ACPI_UP; ACPI_PU; ACPI_PU; ACPI_PU; ACPI_PU; ACPI_PU;
   ACPI_PU; (Z.lor ACPI_XD ACPI_LO); (Z.lor ACPI_XD ACPI_LO); (Z.lor ACPI_XD ACPI_LO); (Z.lor ACPI_XD ACPI_LO); (Z.lor ACPI_XD ACPI_LO); (Z.lor ACPI_XD ACPI_LO); ACPI_LO;
   ACPI_LO; ACPI_LO; ACPI_LO; ACPI_LO; ACPI_LO; ACPI_LO; ACPI_LO; ACPI_LO;
   ACPI_LO; ACPI_LO; ACPI_LO; ACPI_LO; ACPI_LO; ACPI_LO; ACPI_LO; ACPI_LO;
   ACPI_LO; ACPI_LO; ACPI_LO; ACPI_PU; ACPI_PU; ACPI_PU; ACPI_PU; ACPI_CN] ++ repeat 0 129.

Definition ctype_entry (c : Z) : Z := default 0 (AcpiGbl_Ctypes !! Z.to_nat (u8 c)).

Definition isdigit (c : Z) : Z := Z.land (ctype_entry c) ACPI_DI.
Definition isspace (c : Z) : Z := Z.land (ctype_entry c) ACPI_SP.
Definition isxdigit (c : Z) : Z := Z.land (ctype_entry c) ACPI_XD.
Definition isprint (c : Z) : Z :=
  Z.land (ctype_entry c)
    (Z.lor (Z.lor (Z.lor (Z.lor ACPI_LO ACPI_UP) ACPI_DI) ACPI_XS) ACPI_PU).

Definition toupper (c : Z) : Z := if (97 <=? c) && (c <=? 122) then c - (97 - 65) else c.
Definition tolower (c : Z) : Z := if (65 <=? c) && (c <=? 90) then c - (65 - 97) else c.

(** ** stdlib.c *)

Definition RAND_MAX : Z := 0x7fff.

(** The generator state [next], a 32-bit [unsigned long]. *)
Definition rand (next : Z) : Z * Z :=
  let next := u32 (next * 1103515245 + 12345) in
  (next, Z.land (u32 (next / 65536)) RAND_MAX).

Definition srand (seed : Z) : Z := u32 seed.

Definition abs (n : Z) : Z := if 0 <? n then n else s32 (- n).

Fixpoint atoi_loop (fuel : nat) (m : mem) (str i ret : Z) : outcome Z :=
  match fuel with
  | O => Diverged
  | S fuel =>
      c ← load8 m (str + i);
      if c =? NUL then Ret ret
      else atoi_loop fuel m str (i + 1) (s32 (ret * 10 + (chr c - 48)))
  end.

Definition atoi (m : mem) (str : Z) : outcome Z := atoi_loop (walk_fuel m) m str 0 0.

(** ** Wide strings *)

Fixpoint wcslen_loop (fuel : nat) (m : mem) (str length : Z) : outcome Z :=
  match fuel with
  | O => Diverged
  | S fuel =>
      c ← load16 m str;
      if c =? 0 then Ret length else wcslen_loop fuel m (str + 2) (length + 1)
  end.

Definition wcslen (m : mem) (str : Z) : outcome Z := wcslen_loop (walk_fuel m) m str 0.

Fixpoint wcscmp_loop (fuel : nat) (m : mem) (str1 str2 : Z) : outcome Z :=
  match fuel with
  | O => Diverged
  | S fuel =>
      c1 ← load16 m str1;
      c2 ← load16 m str2;
      if truthy c1 && (c1 =? c2) then wcscmp_loop fuel m (str1 + 2) (str2 + 2)
      else Ret (c1 - c2)
  end.

Definition wcscmp (m : mem) (str1 str2 : Z) : outcome Z := wcscmp_loop (walk_fuel m) m str1 str2.

Definition wcsncpy (m : mem) (dest source num : Z) : outcome (mem * Z) :=
  '(m, _) ← memcpy m dest source (u64 (num * 2));
  Ret (m, dest).

Definition wcscpy (m : mem) (dest source : Z) : outcome (mem * Z) :=
  length ← wcslen m source;
  '(m, _) ← memcpy m dest source (u64 (length * 2));
  Ret (m, dest).

(** [(wchar_t)_Source[i]] sign-extends a [char]. *)
Fixpoint mbstowcs_loop (n : nat) (m : mem) (dest source i : Z) : outcome mem :=
  match n with
  | O => Ret m
  | S n =>
      c ← load8 m (source + i);
      m ← store16 m (dest + 2 * i) (u16 (chr c));
      mbstowcs_loop n m dest source (i + 1)
  end.

Definition mbstowcs (m : mem) (Dest Source MaxCount : Z) : outcome (mem * Z) :=
  len ← strlen m Source;
  let len := if MaxCount <? len then MaxCount else len in
  m ← mbstowcs_loop (Z.to_nat len) m Dest Source 0;
  Ret (m, len).

Fixpoint wcstombs_loop (n : nat) (m : mem) (dest source i : Z) : outcome mem :=
  match n with
  | O => Ret m
  | S n =>
      c ← load16 m (source + 2 * i);
      m ← store8 m (dest + i) c;
      wcstombs_loop n m dest source (i + 1)
  end.

Definition wcstombs (m : mem) (Dest Source MaxCount : Z) : outcome (mem * Z) :=
  len ← wcslen m Source;
  if MaxCount <? len then Ret (m, u64 (-1))
  else m ← wcstombs_loop (Z.to_nat len) m Dest Source 0; Ret (m, len).

(** ** Character classes *)

(** The ASCII definition of the classes. *)
Definition ascii_class (c : Z) : bool * bool * bool * bool :=
  let digit := (48 <=? c) && (c <=? 57) in
  (digit,
   (c =? 32) || ((9 <=? c) && (c <=? 13)),
   digit || ((65 <=? c) && (c <=? 70)) || ((97 <=? c) && (c <=? 102)),
   (32 <=? c) && (c <=? 126)).

(** Fact: the class table is right: for every [int] argument, taken as the code
    converts it to [unsigned char], [isdigit], [isspace], [isxdigit] and [isprint]
    are nonzero exactly on the ASCII characters of their class. *)
Theorem ctype_classes c :
  (truthy (isdigit c), truthy (isspace c), truthy (isxdigit c), truthy (isprint c))
  = ascii_class (u8 c).
Proof.
  assert (forallb (fun c => bool_decide
    ((truthy (isdigit c), truthy (isspace c), truthy (isxdigit c), truthy (isprint c))
     = ascii_class (u8 c))) (seqZ 0 256) = true) as H by (vm_compute; reflexivity).
  rewrite forallb_forall in H. specialize (H (u8 c)).
  unfold isdigit, isspace, isxdigit, isprint, ctype_entry in *. rewrite wrap_wrap in H.
  apply bool_decide_eq_true in H; [done |].
  apply list_elem_of_In, elem_of_seqZ. pose proof (u8_byte c) as Hb. unfold is_byte in Hb. lia.
Qed.

(** ** Numbers *)

Lemma rand_range next : 0 <= (rand next).2 <= RAND_MAX.
Proof.
  cbn. change RAND_MAX with (Z.ones 15). rewrite Z.land_ones by lia.
  change (Z.ones 15) with (2 ^ 15 - 1).
  pose proof (Z.mod_pos_bound (u32 (u32 (next * 1103515245 + 12345) / 65536)) (2 ^ 15)). lia.
Qed.

Lemma atoi_loop_spec fuel m str ds i acc :
  mem_ok m -> Forall (fun d => 0 <= d < 10) ds ->
  cstr m (str + i) (digit_chr <$> ds) -> (length ds < fuel)%nat ->
  atoi_loop fuel m str i (s32 acc) = Ret (s32 (mvalue 10 acc ds)).
Proof.
  intros Hok. revert ds i acc. induction fuel as [|fuel IH]; intros ds i acc Hds Hs Hf; [lia |].
  destruct ds as [|d ds]; cbn [atoi_loop length fmap list_fmap] in *.
  - apply cstr_nil in Hs. walk. done.
  - apply cstr_cons in Hs as (Hc & Hc0 & Hs). walk. apply Forall_cons in Hds as [Hd Hds].
    unfold NUL. destruct (Z.eqb_spec (digit_chr d) 0); [done |].
    pose proof (digit_cases (fun d => implb (d <? 10) (chr (digit_chr d) - 48 =? d))
                  eq_refl d ltac:(lia)) as Hv.
    cbn beta in Hv. destruct (Z.ltb_spec d 10); [| lia]. cbn [implb] in Hv. zbool. rewrite Hv.
    rewrite s32_fold. rewrite <- Z.add_assoc in Hs. rewrite (IH ds) by (done || lia). done.
Qed.

(** Fact: [atoi] and [itoa] agree on non-negative numbers: [atoi] reads back what
    [itoa] wrote in decimal. *)
Theorem itoa_atoi_roundtrip m value str :
  mem_ok m -> 0 <= value < 2 ^ 31 -> mapped m str 34 ->
  exists m', itoa m value str 10 = Ret (m', str) /\ atoi m' str = Ret value.
Proof.
  intros Hok Hv Hm. destruct (itoa_spec m value str 10) as (m' & E & Hs & Hok' & _);
    [done | lia | lia | done |].
  exists m'. split; [done |]. unfold itoa_text in Hs. destruct (Z.ltb_spec value 0); [lia |].
  cbn [andb app] in Hs. rewrite rev_fmap in Hs.
  unfold atoi. pose proof (atoi_loop_spec (walk_fuel m') m' str
                             (rev (ldigits 32 10 (Z.abs value))) 0 0) as Hl.
  change (s32 0) with 0 in Hl. rewrite Hl; [| done | | by rewrite Z.add_0_r |].
  - rewrite mvalue_rev, ldigits_value, swrap_small; [do 2 f_equal; lia | lia.. |].
    split; [lia |]. apply Z.lt_le_trans with (10 ^ 31); [lia |]. vm_compute. discriminate.
  - apply Forall_rev, ldigits_range. lia.
  - apply cstr_size in Hs. rewrite length_fmap in Hs. unfold walk_fuel. lia.
Qed.

Lemma itoa_atoi_roundtrip_witness :
  exists m', itoa (mem_of 0 (repeat 7 40)) 1984 2 10 = Ret (m', 2) /\ atoi m' 2 = Ret 1984.
Proof.
  apply itoa_atoi_roundtrip; [apply mem_of_ok; reflexivity | lia |].
  apply mem_of_mapped; vm_compute; discriminate.
Defined.

(** Fact: [atoi] has no notion of a sign: on a string with a minus it returns a
    number that is neither the value nor an error. *)
Theorem atoi_minus_sign : atoi (mem_of 0 (lit "-5" ++ [0])) 0 = Ret (-25).
Proof. vm_compute. reflexivity. Qed.
