(* ===== verification/OSList.v ===== *)
(** Intrusive doubly linked lists.

    Models src/src/OS.List.h.  The [ListEntry] fields of all nodes live in one
    link memory, keyed by the address of the node; the operations follow the
    pointer writes of the source one by one, so aliasing (a list with one node,
    whose neighbours are both the head) is handled as in the code.  [ring l h xs]
    says that the memory holds the circular list with head [h] and nodes [xs]; each
    operation is shown to refine its counterpart on Rocq lists. *)
From S2P Require Import Prelude.

Record ListEntry := { Flink : Z; Blink : Z }.

Abbreviation links := (gmap Z ListEntry).

Definition load_link (l : links) (a : Z) : outcome ListEntry :=
  match l !! a with Some e => Ret e | None => Fault end.

(** [a->Flink = v] and [a->Blink = v]. *)
Definition set_Flink (l : links) (a v : Z) : outcome links :=
  e ← load_link l a; Ret (<[a := {| Flink := v; Blink := e.(Blink) |}]> l).
Definition set_Blink (l : links) (a v : Z) : outcome links :=
  e ← load_link l a; Ret (<[a := {| Flink := e.(Flink); Blink := v |}]> l).

Definition ListInitializeHead (l : links) (listHead : Z) : links :=
  <[listHead := {| Flink := listHead; Blink := listHead |}]> l.

Definition ListIsEmpty (l : links) (listHead : Z) : outcome bool :=
  e ← load_link l listHead; Ret (e.(Flink) =? listHead).

Definition ListRemoveEntry (l : links) (entry : Z) : outcome links :=
  e ← load_link l entry;
  l ← set_Flink l e.(Blink) e.(Flink);
  set_Blink l e.(Flink) e.(Blink).

Definition ListRemoveHead (l : links) (listHead : Z) : outcome (links * Z) :=
  e ← load_link l listHead;
  l ← ListRemoveEntry l e.(Flink);
  Ret (l, e.(Flink)).

(** The two fields of [entry] are written first, whatever they held. *)
Definition ListInsertHead (l : links) (listHead entry : Z) : outcome links :=
  e ← load_link l listHead;
  let flink := e.(Flink) in
  let l := <[entry := {| Flink := flink; Blink := listHead |}]> l in
  l ← set_Blink l flink entry;
  set_Flink l listHead entry.

Definition ListInsertTail (l : links) (listHead entry : Z) : outcome links :=
  e ← load_link l listHead;
  let blink := e.(Blink) in
  let l := <[entry := {| Flink := listHead; Blink := blink |}]> l in
  l ← set_Flink l blink entry;
  set_Blink l listHead entry.

(** ** Rings *)

Definition flink (l : links) (a : Z) : option Z := Flink <$> l !! a.
Definition blink (l : links) (a : Z) : option Z := Blink <$> l !! a.

(** The links from [a] through [xs] to [z], both ways. *)
Fixpoint chain (l : links) (a : Z) (xs : list Z) (z : Z) : Prop :=
  match xs with
  | [] => flink l a = Some z /\ blink l z = Some a
  | x :: xs => flink l a = Some x /\ blink l x = Some a /\ chain l x xs z
  end.

Definition ring (l : links) (h : Z) (xs : list Z) : Prop :=
  NoDup (h :: xs) /\ chain l h xs h.

(** Nodes outside [d] are untouched. *)
Definition links_frame (l l' : links) (d : list Z) : Prop :=
  forall a, a ∉ d -> l' !! a = l !! a.

Lemma chain_app l a xs x ys z :
  chain l a (xs ++ x :: ys) z <-> chain l a xs x /\ chain l x ys z.
Proof. revert a. induction xs as [|y xs IH]; intros a; cbn; [tauto | rewrite IH; tauto]. Qed.

Lemma chain_ext l l' a xs z :
  (forall y, y ∈ a :: xs -> flink l' y = flink l y) ->
  (forall y, y ∈ xs ++ [z] -> blink l' y = blink l y) ->
  chain l a xs z -> chain l' a xs z.
Proof.
  revert a. induction xs as [|x xs IH]; intros a Hf Hb; cbn.
  - rewrite Hf, Hb by set_solver. done.
  - intros (? & ? & ?). rewrite Hf, Hb by set_solver. split_and!; [done.. |].
    apply IH; [set_solver.. | done].
Qed.

Lemma chain_ends l a xs z :
  chain l a xs z -> exists f b, flink l a = Some f /\ blink l z = Some b /\
    f = default z (head xs) /\ b = default a (last xs).
Proof.
  revert a. induction xs as [|x xs IH]; intros a.
  - cbn. intros [??]. eauto 10.
  - cbn [chain]. intros (Hf & Hb & Hc). apply IH in Hc as (f & b & ? & ? & ? & Hl).
    exists x, b. split_and!; [done.. |]. rewrite Hl.
    destruct xs as [|y xs]; [done |]. change (last (x :: y :: xs)) with (last (y :: xs)).
    destruct (last (y :: xs)) eqn:E; [done |]. apply last_None in E. done.
Qed.

(** Any node of a ring can be taken as its head. *)
Lemma ring_rotate l h xs x ys : ring l h (xs ++ x :: ys) -> ring l x (ys ++ h :: xs).
Proof.
  intros [Hn Hc]. split.
  - assert (h :: xs ++ x :: ys ≡ₚ x :: ys ++ h :: xs) as Hp by solve_Permutation.
    by rewrite <- Hp.
  - apply chain_app in Hc as [H1 H2]. by apply chain_app.
Qed.

Lemma flink_insert l a e x : flink (<[a := e]> l) x = if decide (a = x) then Some e.(Flink) else flink l x.
Proof. unfold flink. rewrite lookup_insert. by case_decide. Qed.

Lemma blink_insert l a e x : blink (<[a := e]> l) x = if decide (a = x) then Some e.(Blink) else blink l x.
Proof. unfold blink. rewrite lookup_insert. by case_decide. Qed.

Lemma flink_blink_Some l a f b :
  flink l a = Some f -> blink l a = Some b -> l !! a = Some {| Flink := f; Blink := b |}.
Proof. unfold flink, blink. destruct (l !! a) as [[??] |]; cbn; congruence. Qed.

Lemma set_Flink_Ret l a v :
  is_Some (l !! a) -> exists l', set_Flink l a v = Ret l' /\
    (forall x, flink l' x = if decide (a = x) then Some v else flink l x) /\
    (forall x, blink l' x = blink l x) /\ links_frame l l' [a].
Proof.
  intros [e He]. unfold set_Flink, load_link. rewrite He. cbn. eexists. split_and!; [done | | |].
  - intros x. by rewrite flink_insert.
  - intros x. rewrite blink_insert. case_decide; [| done]. subst. unfold blink. by rewrite He.
  - intros x Hx. apply lookup_insert_ne. set_solver.
Qed.

Lemma set_Blink_Ret l a v :
  is_Some (l !! a) -> exists l', set_Blink l a v = Ret l' /\
    (forall x, blink l' x = if decide (a = x) then Some v else blink l x) /\
    (forall x, flink l' x = flink l x) /\ links_frame l l' [a].
Proof.
  intros [e He]. unfold set_Blink, load_link. rewrite He. cbn. eexists. split_and!; [done | | |].
  - intros x. by rewrite blink_insert.
  - intros x. rewrite flink_insert. case_decide; [| done]. subst. unfold flink. by rewrite He.
  - intros x Hx. apply lookup_insert_ne. set_solver.
Qed.

Lemma flink_is_Some l a v : flink l a = Some v -> is_Some (l !! a).
Proof. unfold flink. destruct (l !! a); [eauto | done]. Qed.

Lemma blink_is_Some l a v : blink l a = Some v -> is_Some (l !! a).
Proof. unfold blink. destruct (l !! a); [eauto | done]. Qed.

Lemma chain_mapped l a xs z y : chain l a xs z -> y ∈ a :: xs ++ [z] -> is_Some (l !! y).
Proof.
  revert a. induction xs as [|x xs IH]; intros a; cbn; intros Hc Hy.
  - destruct Hc as [Hf%flink_is_Some Hb%blink_is_Some]. set_solver.
  - destruct Hc as (Hf%flink_is_Some & Hb & Hc). apply elem_of_cons in Hy as [-> | Hy]; [done |].
    by apply (IH x).
Qed.

Lemma ring_init l h : ring (ListInitializeHead l h) h [].
Proof.
  split; [apply NoDup_singleton |]. cbn. unfold ListInitializeHead.
  rewrite flink_insert, blink_insert, !decide_True by done. done.
Qed.

Lemma ring_load l h xs :
  ring l h xs -> l !! h = Some {| Flink := default h (head xs); Blink := default h (last xs) |}.
Proof.
  intros [_ Hc]. apply chain_ends in Hc as (f & b & Hf & Hb & -> & ->).
  by apply flink_blink_Some.
Qed.

Lemma ListIsEmpty_spec l h xs :
  ring l h xs -> ListIsEmpty l h = Ret (bool_decide (xs = [])).
Proof.
  intros Hr. unfold ListIsEmpty, load_link. rewrite (ring_load _ _ _ Hr). cbn. f_equal.
  destruct Hr as [Hn _]. destruct xs as [|x xs]; cbn; [by rewrite Z.eqb_refl |].
  apply Z.eqb_neq. intros ->.
  apply NoDup_cons in Hn as [Hn _]. set_solver.
Qed.

(** Inserting after the head. *)
Lemma ListInsertHead_spec l h xs e :
  ring l h xs -> e ∉ h :: xs ->
  exists l', ListInsertHead l h e = Ret l' /\ ring l' h (e :: xs) /\
             links_frame l l' (e :: h :: xs).
Proof.
  intros Hr He. pose proof (ring_load _ _ _ Hr) as Hh. destruct Hr as [Hn Hc].
  unfold ListInsertHead, load_link. rewrite Hh. cbn [mbind outcome_bind Flink].
  set (f := default h (head xs)). set (l1 := <[e := _]> l).
  assert (f ∈ h :: xs) as Hf by (unfold f; destruct xs; set_solver).
  assert (forall y, y ∈ h :: xs -> is_Some (l !! y)) as Hm
    by (intros y Hy; eapply chain_mapped; [exact Hc | set_solver]).
  assert (forall y, y ∈ h :: xs -> l1 !! y = l !! y) as Hl1
    by (intros y Hy; apply lookup_insert_ne; set_solver).
  destruct (set_Blink_Ret l1 f e) as (l2 & -> & Hb2 & Hf2 & Hfr2); [rewrite Hl1; auto |].
  cbn [mbind outcome_bind].
  destruct (set_Flink_Ret l2 h e) as (l3 & -> & Hf3 & Hb3 & Hfr3).
  { eapply (flink_is_Some l2 h). rewrite Hf2. unfold flink. rewrite Hl1 by set_solver. by rewrite Hh. }
  exists l3. split; [done |]. split; [split |].
  - assert (e :: h :: xs ≡ₚ h :: e :: xs) as <- by apply Permutation_swap. by apply NoDup_cons.
  - assert (forall x, flink l3 x = if decide (h = x) then Some e else if decide (e = x) then Some f else flink l x) as Hfl
      by (intros x; rewrite Hf3, Hf2; unfold l1; by rewrite flink_insert).
    assert (forall x, blink l3 x = if decide (f = x) then Some e else if decide (e = x) then Some h else blink l x) as Hbl
      by (intros x; rewrite Hb3, Hb2; unfold l1; by rewrite blink_insert).
    assert (h <> e /\ f <> e) as [Hhe Hfe] by set_solver.
    cbn [chain]. rewrite Hfl, Hbl, (decide_True (P := h = h)), (decide_False (P := f = e)),
      (decide_True (P := e = e)) by done.
    split_and!; [done.. |]. subst f. destruct xs as [|x xs]; cbn [head default from_option] in *.
    + cbn [chain]. rewrite Hfl, Hbl, (decide_False (P := h = e)), !decide_True by done. done.
    + cbn [chain] in Hc |- *. destruct Hc as (_ & _ & Hc).
      rewrite Hfl, Hbl, (decide_False (P := h = e)), !decide_True by done. split_and!; [done.. |].
      apply NoDup_cons in Hn as [Hh' [Hx Hn]%NoDup_cons].
      eapply chain_ext; [| | exact Hc]; intros y Hy.
      * rewrite Hfl, !decide_False by set_solver. done.
      * rewrite Hbl, !decide_False by set_solver. done.
  - intros a Ha. rewrite Hfr3, Hfr2 by set_solver. apply lookup_insert_ne. set_solver.
Qed.

(** The neighbour writes of [ListInsertTail] are those of [ListInsertHead] at the last
    node: the node before the head in the ring. *)
Lemma ListInsertTail_as_head l h xs e :
  ring l h xs -> e ∉ h :: xs ->
  ListInsertTail l h e = ListInsertHead l (default h (last xs)) e.
Proof.
  intros Hr He. pose proof (ring_load _ _ _ Hr) as Hh.
  unfold ListInsertTail, ListInsertHead, load_link. rewrite Hh. cbn [mbind outcome_bind Blink].
  set (b := default h (last xs)).
  assert (exists bb, l !! b = Some {| Flink := h; Blink := bb |}) as [bb Hb].
  { subst b. destruct (last xs) as [y |] eqn:El; cbn.
    - apply last_Some in El as [ys ->]. apply ring_rotate, ring_load in Hr. cbn in Hr. eauto.
    - apply last_None in El as ->. rewrite Hh. eauto. }
  rewrite Hb. cbn [mbind outcome_bind Flink].
  assert (b <> e /\ h <> e) as [Hbe Hhe].
  { split; [| set_solver]. subst b. destruct (last xs) as [y |] eqn:El; cbn; [| set_solver].
    apply last_Some in El as [ys ->]. set_solver. }
  set (l1 := <[e := _]> l).
  assert (l1 !! b = Some {| Flink := h; Blink := bb |} /\
          l1 !! h = Some {| Flink := default h (head xs); Blink := b |}) as [H1 H2]
    by (unfold l1; by rewrite !lookup_insert_ne by done).
  unfold set_Flink, set_Blink, load_link. rewrite H1, H2. cbn [mbind outcome_bind Flink Blink].
  destruct (decide (b = h)) as [Eb | Nb].
  - rewrite Eb in H1 |- *. rewrite !lookup_insert_eq. cbn. rewrite !insert_insert_eq. congruence.
  - rewrite !lookup_insert_ne, H1, H2 by done. cbn. by rewrite insert_insert_ne.
Qed.

Lemma ListInsertTail_spec l h xs e :
  ring l h xs -> e ∉ h :: xs ->
  exists l', ListInsertTail l h e = Ret l' /\ ring l' h (xs ++ [e]) /\
             links_frame l l' (e :: h :: xs).
Proof.
  intros Hr He. rewrite (ListInsertTail_as_head _ _ _ _ Hr He).
  destruct (last xs) as [y |] eqn:El; cbn.
  - apply last_Some in El as [ys ->]. apply ring_rotate in Hr. cbn in Hr.
    destruct (ListInsertHead_spec l y (h :: ys) e Hr) as (l' & -> & Hr' & Hf); [set_solver |].
    exists l'. split_and!; [done | |].
    + apply (ring_rotate l' y [e] h ys) in Hr'. by rewrite <- app_assoc.
    + intros a Ha. apply Hf. set_solver.
  - apply last_None in El as ->. by apply ListInsertHead_spec.
Qed.

(** Unlinking the first node. *)
Lemma ListRemoveEntry_first l h x xs :
  ring l h (x :: xs) ->
  exists l', ListRemoveEntry l x = Ret l' /\ ring l' h xs /\ links_frame l l' (h :: x :: xs).
Proof.
  intros Hr. pose proof (ring_rotate l h [] x xs Hr) as Hx%ring_load.
  destruct Hr as [Hn Hc]. assert (forall y, y ∈ h :: x :: xs -> is_Some (l !! y)) as Hm.
  { intros y Hy. eapply chain_mapped; [exact Hc | rewrite app_comm_cons, elem_of_app; by left]. }
  apply NoDup_cons in Hn as [Hh [Hx' Hn]%NoDup_cons]. cbn [chain] in Hc. destruct Hc as (_ & _ & Hc).
  unfold ListRemoveEntry, load_link. rewrite Hx. cbn [mbind outcome_bind Flink Blink].
  rewrite last_snoc. cbn [from_option id]. set (n := default x (head (xs ++ [h]))).
  assert (n ∈ h :: xs) as Hin by (subst n; destruct xs; set_solver).
  destruct (set_Flink_Ret l h n) as (l1 & -> & Hf1 & Hb1 & Hfr1); [apply Hm; set_solver |].
  cbn [mbind outcome_bind].
  destruct (set_Blink_Ret l1 n h) as (l2 & -> & Hb2 & Hf2 & Hfr2).
  { destruct (Hm n) as [en Hen]; [set_solver |]. apply (blink_is_Some l1 n en.(Blink)).
    rewrite Hb1. unfold blink. by rewrite Hen. }
  exists l2. split_and!; [done | split; [apply NoDup_cons; set_solver |] |].
  - assert (forall y, flink l2 y = if decide (h = y) then Some n else flink l y) as Hfl
      by (intros; by rewrite Hf2, Hf1).
    assert (forall y, blink l2 y = if decide (n = y) then Some h else blink l y) as Hbl
      by (intros; by rewrite Hb2, Hb1).
    destruct xs as [|z xs]; cbn [chain]; subst n; cbn in Hfl, Hbl |- *.
    + by rewrite Hfl, Hbl, !decide_True by done.
    + cbn [chain] in Hc. destruct Hc as (_ & _ & Hc). apply NoDup_cons in Hn as [Hz _].
      rewrite Hfl, Hbl, !decide_True by done. split_and!; [done.. |].
      eapply chain_ext; [| | exact Hc]; intros y Hy;
        [rewrite Hfl | rewrite Hbl]; rewrite decide_False by set_solver; done.
  - intros a Ha. rewrite Hfr2, Hfr1 by set_solver. done.
Qed.

(** Unlinking any node: the ring is turned until its predecessor is the head. *)
Lemma ListRemoveEntry_spec l h xs x ys :
  ring l h (xs ++ x :: ys) ->
  exists l', ListRemoveEntry l x = Ret l' /\ ring l' h (xs ++ ys) /\
             links_frame l l' (h :: xs ++ x :: ys).
Proof.
  intros Hr. destruct (last xs) as [p |] eqn:El.
  - apply last_Some in El as [us ->]. rewrite <- app_assoc in Hr |- *.
    apply (ring_rotate l h us p (x :: ys)) in Hr.
    destruct (ListRemoveEntry_first l p x (ys ++ h :: us) Hr) as (l' & -> & Hr' & Hf).
    apply ring_rotate in Hr'. exists l'. split_and!; [done | done |].
    intros a Ha. apply Hf. set_solver.
  - apply last_None in El as ->. by apply ListRemoveEntry_first.
Qed.

Lemma ListRemoveHead_spec l h x xs :
  ring l h (x :: xs) ->
  exists l', ListRemoveHead l h = Ret (l', x) /\ ring l' h xs /\ links_frame l l' (h :: x :: xs).
Proof.
  intros Hr. unfold ListRemoveHead, load_link. rewrite (ring_load _ _ _ Hr). cbn.
  destruct (ListRemoveEntry_first _ _ _ _ Hr) as (l' & -> & ? & ?). cbn. eauto.
Qed.

(** On the empty list [ListRemoveHead] hands back the head itself and changes nothing. *)
Lemma ListRemoveHead_empty l h :
  ring l h [] -> ListRemoveHead l h = Ret (l, h).
Proof.
  intros Hr%ring_load. cbn in Hr.
  unfold ListRemoveHead, ListRemoveEntry, set_Flink, set_Blink, load_link. rewrite Hr. cbn.
  rewrite Hr. cbn. rewrite Hr. cbn. rewrite lookup_insert_eq. cbn. rewrite insert_insert_eq.
  by rewrite insert_id.
Qed.

(** ** Refinement: sequences of operations *)

Inductive list_op := InsertHead (e : Z) | InsertTail (e : Z) | RemoveHead | RemoveEntry (e : Z).

(** The operation on the linked memory; the result is the node [ListRemoveHead] returns. *)
Definition run_op (l : links) (h : Z) (o : list_op) : outcome (links * option Z) :=
  match o with
  | InsertHead e => l ← ListInsertHead l h e; Ret (l, None)
  | InsertTail e => l ← ListInsertTail l h e; Ret (l, None)
  | RemoveHead => '(l, e) ← ListRemoveHead l h; Ret (l, Some e)
  | RemoveEntry e => l ← ListRemoveEntry l e; Ret (l, None)
  end.

(** The operation on the sequence it stands for, where its precondition holds: a node
    that is inserted is not linked yet, a node that is removed is. *)
Definition spec_op (h : Z) (xs : list Z) (o : list_op) : option (list Z * option Z) :=
  match o with
  | InsertHead e => if decide (e ∈ h :: xs) then None else Some (e :: xs, None)
  | InsertTail e => if decide (e ∈ h :: xs) then None else Some (xs ++ [e], None)
  | RemoveHead => match xs with [] => Some ([], Some h) | x :: xs => Some (xs, Some x) end
  | RemoveEntry e => if decide (e ∈ xs) then Some (filter (.≠ e) xs, None) else None
  end.

Fixpoint run_ops (l : links) (h : Z) (os : list list_op) : outcome (links * list (option Z)) :=
  match os with
  | [] => Ret (l, [])
  | o :: os => '(l, r) ← run_op l h o; '(l, rs) ← run_ops l h os; Ret (l, r :: rs)
  end.

Fixpoint spec_ops (h : Z) (xs : list Z) (os : list list_op) : option (list Z * list (option Z)) :=
  match os with
  | [] => Some (xs, [])
  | o :: os => '(xs, r) ← spec_op h xs o; '(xs, rs) ← spec_ops h xs os; Some (xs, r :: rs)
  end.

Lemma filter_remove (x : Z) xs ys :
  NoDup (xs ++ x :: ys) -> filter (.≠ x) (xs ++ x :: ys) = xs ++ ys.
Proof.
  intros Hn. apply NoDup_app in Hn as (_ & Hd & [Hx _]%NoDup_cons).
  assert (forall zs : list Z, x ∉ zs -> filter (.≠ x) zs = zs) as Hid.
  { induction zs as [|z zs IH]; intros Hz; [done |].
    rewrite filter_cons_True by set_solver. f_equal. apply IH. set_solver. }
  rewrite filter_app, filter_cons_False by (intros []; done).
  rewrite !Hid; [done | done |]. intros Hi. apply (Hd x Hi). set_solver.
Qed.

Lemma run_op_refines l h xs o xs' r :
  ring l h xs -> spec_op h xs o = Some (xs', r) ->
  exists l', run_op l h o = Ret (l', r) /\ ring l' h xs'.
Proof.
  intros Hr Hs. destruct o as [e | e | | e]; cbn in Hs |- *.
  - case_decide as He; simplify_eq.
    destruct (ListInsertHead_spec _ _ _ _ Hr He) as (l' & -> & ? & _). cbn. eauto.
  - case_decide as He; simplify_eq.
    destruct (ListInsertTail_spec _ _ _ _ Hr He) as (l' & -> & ? & _). cbn. eauto.
  - destruct xs as [|x xs]; simplify_eq.
    + rewrite (ListRemoveHead_empty _ _ Hr). cbn. eauto.
    + destruct (ListRemoveHead_spec _ _ _ _ Hr) as (l' & -> & ? & _). cbn. eauto.
  - case_decide as He; simplify_eq. apply list_elem_of_split in He as (us & vs & ->).
    assert (NoDup (us ++ e :: vs)) as Hn by (destruct Hr as [[_ Hn]%NoDup_cons _]; done).
    destruct (ListRemoveEntry_spec _ _ _ _ _ Hr) as (l' & -> & ? & _). cbn.
    rewrite filter_remove by done. eauto.
Qed.

(** Fact: Refinement of the intrusive list to sequences.  From an initialised head, every
    run of insertions at either end, removals of the head and removals of a linked
    node (each node inserted only while it is not linked) completes without a fault,
    returns the nodes the sequence specification returns, and leaves the memory a ring
    with exactly the specified nodes, in order in both directions. *)
Theorem list_ops_refine l h os xs rs :
  spec_ops h [] os = Some (xs, rs) ->
  exists l', run_ops (ListInitializeHead l h) h os = Ret (l', rs) /\ ring l' h xs.
Proof.
  generalize (ring_init l h). generalize (ListInitializeHead l h) as m.
  generalize (@nil Z) as ys. revert rs. induction os as [|o os IH]; intros rs ys m Hr Hs; cbn in *.
  - simplify_eq. eauto.
  - apply bind_Some in Hs as ([ys' r] & Ho & Hs). cbn in Hs.
    apply bind_Some in Hs as ([zs rs'] & Hs & Hz). simplify_eq.
    destruct (run_op_refines _ _ _ _ _ _ Hr Ho) as (m' & -> & Hr').
    destruct (IH rs' ys' m' Hr' Hs) as (l' & Hl' & ?). cbn. rewrite Hl'. cbn. eauto.
Qed.

Lemma list_ops_refine_witness :
  exists l', run_ops (ListInitializeHead ∅ 10) 10
      [InsertTail 20; InsertTail 30; InsertHead 40; RemoveEntry 20; RemoveHead; RemoveHead; RemoveHead]
    = Ret (l', [None; None; None; None; Some 40; Some 30; Some 10]) /\ ring l' 10 [].
Proof. apply list_ops_refine. reflexivity. Defined.
