(* ===== verification/OSSystem.v ===== *)
(** Page arithmetic and bit fields.

    Models src/src/OS.System.h (page constants, rounding and alignment on 64-bit
    [size_t]) and the bit-field structures the paging code is written with: a layout
    lists the fields of a structure with their widths, lowest bits first, and a field
    is read and written by name as the compiler does. *)
From stdpp Require Import strings.
From S2P Require Import Prelude.

Definition PageShift : Z := 12.
Definition PageSize : Z := Z.shiftl 1 PageShift.
Definition PageMask : Z := 0xFFF.

Definition DivRoundUp (x y : Z) : Z := u64 (u64 (x + y) - 1) / y.

Definition SizeToPages (bytes : Z) : Z := DivRoundUp bytes PageSize.

Definition ByteAlign (size alignment : Z) : Z :=
  let mask := u64 (alignment - 1) in
  Z.land (u64 (size + mask)) (u64 (Z.lnot mask)).

Definition PageAlign (size : Z) : Z := ByteAlign size PageSize.

(** ** Bit fields *)

Definition layout := list (string * Z).

(** Position and width of a field. *)
Fixpoint field_at (lo : Z) (l : layout) (name : string) : option (Z * Z) :=
  match l with
  | [] => None
  | (n, w) :: l => if String.eqb n name then Some (lo, w) else field_at (lo + w) l name
  end.

Definition layout_size (l : layout) : Z := foldr (fun f n => f.2 + n) 0 l.

Definition get_bits (v lo w : Z) : Z := Z.land (Z.shiftr v lo) (Z.ones w).

Definition set_bits (v lo w x : Z) : Z :=
  Z.lor (Z.land v (Z.lnot (Z.shiftl (Z.ones w) lo))) (Z.shiftl (Z.land x (Z.ones w)) lo).

(** [v.name] and [v.name = x]; a name the layout lacks does not compile in the source. *)
Definition get_field (l : layout) (name : string) (v : Z) : Z :=
  match field_at 0 l name with Some (lo, w) => get_bits v lo w | None => 0 end.

Definition set_field (l : layout) (name : string) (x v : Z) : Z :=
  match field_at 0 l name with Some (lo, w) => set_bits v lo w x | None => v end.

(** ** Lemmas on bits *)

Lemma get_bits_testbit v lo w i :
  0 <= lo -> 0 <= w -> 0 <= i ->
  Z.testbit (get_bits v lo w) i = (i <? w) && Z.testbit v (i + lo).
Proof.
  intros. unfold get_bits. rewrite Z.land_spec, Z.shiftr_spec by lia.
  destruct (Z.ltb_spec i w).
  - rewrite Z.ones_spec_low by lia. by rewrite andb_true_r.
  - rewrite Z.ones_spec_high by lia. by rewrite andb_false_r.
Qed.

Lemma set_bits_testbit v lo w x i :
  0 <= lo -> 0 <= w -> 0 <= i ->
  Z.testbit (set_bits v lo w x) i =
    if (lo <=? i) && (i <? lo + w) then Z.testbit x (i - lo) else Z.testbit v i.
Proof.
  intros. unfold set_bits.
  rewrite Z.lor_spec, Z.land_spec, Z.lnot_spec, !Z.shiftl_spec by lia.
  destruct (Z.leb_spec lo i); cbn [andb].
  - rewrite Z.land_spec. destruct (Z.ltb_spec i (lo + w)).
    + rewrite Z.ones_spec_low by lia. cbn. by rewrite andb_false_r, andb_true_r.
    + rewrite Z.ones_spec_high by lia. cbn. by rewrite andb_true_r, andb_false_r, orb_false_r.
  - rewrite !(Z.testbit_neg_r _ (i - lo)) by lia. cbn. by rewrite andb_true_r, orb_false_r.
Qed.

(** Reading back the field just written, and any field that does not overlap it. *)
Lemma get_set_bits_same v lo w x :
  0 <= lo -> 0 <= w -> get_bits (set_bits v lo w x) lo w = Z.land x (Z.ones w).
Proof.
  intros. apply Z.bits_inj'. intros i Hi.
  rewrite get_bits_testbit, set_bits_testbit, Z.land_spec by lia.
  destruct (Z.ltb_spec i w).
  - rewrite Z.ones_spec_low by lia. destruct (Z.leb_spec lo (i + lo)); [| lia].
    destruct (Z.ltb_spec (i + lo) (lo + w)); [| lia]. cbn. rewrite andb_true_r. f_equal. lia.
  - rewrite Z.ones_spec_high by lia. by rewrite andb_false_r.
Qed.

Lemma get_set_bits_other v lo w x lo' w' :
  0 <= lo -> 0 <= w -> 0 <= lo' -> 0 <= w' -> lo' + w' <= lo \/ lo + w <= lo' ->
  get_bits (set_bits v lo w x) lo' w' = get_bits v lo' w'.
Proof.
  intros. apply Z.bits_inj'. intros i Hi.
  rewrite !get_bits_testbit, set_bits_testbit by lia.
  destruct (Z.ltb_spec i w'); [| done]. destruct (Z.leb_spec lo (i + lo')); [| done].
  destruct (Z.ltb_spec (i + lo') (lo + w)); [lia | done].
Qed.

Lemma truthy_bit l k : 0 <= k -> Z.land l (2 ^ k) =? 0 = negb (Z.testbit l k).
Proof.
  intros Hk. destruct (Z.testbit l k) eqn:Hb; cbn [negb].
  - apply Z.eqb_neq. intros H0. apply (f_equal (fun x => Z.testbit x k)) in H0.
    rewrite Z.land_spec, Hb, Z.pow2_bits_true, Z.testbit_0_l in H0 by lia. done.
  - apply Z.eqb_eq, Z.bits_inj'. intros i Hi. rewrite Z.land_spec, Z.testbit_0_l.
    destruct (decide (i = k)) as [-> |]; [by rewrite Hb |].
    rewrite Z.pow2_bits_false by lia. apply andb_false_r.
Qed.

Lemma get_bits_div v lo w : 0 <= lo -> 0 <= w -> get_bits v lo w = v / 2 ^ lo mod 2 ^ w.
Proof. intros. unfold get_bits. by rewrite Z.land_ones, Z.shiftr_div_pow2 by lia. Qed.

Lemma get_bits_range v lo w : 0 <= lo -> 0 <= w -> 0 <= get_bits v lo w < 2 ^ w.
Proof. intros. rewrite get_bits_div by lia. apply Z.mod_pos_bound. lia. Qed.

(** Clearing the low [k] bits rounds down to a multiple of [2^k]. *)
Lemma land_lnot_low k a w :
  0 <= k <= w -> 0 <= a < 2 ^ w ->
  Z.land a (wrap w (Z.lnot (2 ^ k - 1))) = a / 2 ^ k * 2 ^ k.
Proof.
  intros Hk Ha. replace (2 ^ k - 1) with (Z.ones k) by (rewrite Z.ones_equiv; lia).
  rewrite <- Z.shiftl_mul_pow2, <- Z.shiftr_div_pow2 by lia.
  apply Z.bits_inj'. intros i Hi. unfold wrap.
  rewrite Z.land_spec, Z.shiftl_spec by lia. destruct (Z.ltb_spec i w).
  - rewrite Z.mod_pow2_bits_low, Z.lnot_spec by lia. destruct (Z.ltb_spec i k).
    + rewrite Z.ones_spec_low, (Z.testbit_neg_r _ (i - k)) by lia. apply andb_false_r.
    + rewrite Z.ones_spec_high, Z.shiftr_spec by lia. cbn. rewrite andb_true_r. f_equal. lia.
  - rewrite Z.shiftr_spec by lia. replace (i - k + k) with i by lia.
    assert (Z.testbit a i = false) as -> by (rewrite <- (Z.mod_small a (2 ^ w)) by lia; apply Z.mod_pow2_bits_high; lia).
    done.
Qed.

Lemma DivRoundUp_spec x y :
  0 <= x -> 0 < y -> x + y <= 2 ^ 64 -> y < 2 ^ 64 ->
  forall q, DivRoundUp x y = q <-> (q - 1) * y < x <= q * y.
Proof.
  intros Hx Hy Hb Hy2 q. unfold DivRoundUp, wrap.
  assert (((x + y) mod 2 ^ 64 - 1) mod 2 ^ 64 = x + y - 1) as ->.
  { rewrite Zminus_mod_idemp_l, Z.mod_small; lia. }
  split; [intros <-; pose proof (Z.div_mod (x + y - 1) y); pose proof (Z.mod_pos_bound (x + y - 1) y); nia |].
  intros. symmetry. apply (Z.div_unique_pos _ _ _ (x + y - 1 - q * y)); lia.
Qed.

Lemma ByteAlign_spec size k :
  0 <= size -> 0 <= k < 64 -> size + 2 ^ k <= 2 ^ 64 ->
  ByteAlign size (2 ^ k) = DivRoundUp size (2 ^ k) * 2 ^ k.
Proof.
  intros Hs Hk Hb. assert (0 < 2 ^ k < 2 ^ 64) by (split; [lia | apply Z.pow_lt_mono_r; lia]).
  unfold ByteAlign. rewrite (wrap_small 64 (2 ^ k - 1)), (wrap_small 64 (size + _)) by lia.
  rewrite land_lnot_low by lia. f_equal. symmetry. apply DivRoundUp_spec; [lia.. |].
  pose proof (Z.div_mod (size + (2 ^ k - 1)) (2 ^ k)).
  pose proof (Z.mod_pos_bound (size + (2 ^ k - 1)) (2 ^ k)). nia.
Qed.

(** Fact: page rounding is exact and the two ways of computing it agree: for every size
    that does not overflow when rounded, [PageAlign] is [SizeToPages] pages, which is
    the least whole number of pages that holds the size. *)
Theorem PageAlign_SizeToPages size :
  0 <= size <= 2 ^ 64 - PageSize ->
  PageAlign size = SizeToPages size * PageSize /\
  PageAlign size mod PageSize = 0 /\ size <= PageAlign size < size + PageSize.
Proof.
  intros Hs. change PageSize with (2 ^ 12) in *. unfold PageAlign, SizeToPages.
  change PageSize with (2 ^ 12). rewrite ByteAlign_spec by lia.
  pose proof (proj1 (DivRoundUp_spec size (2 ^ 12) ltac:(lia) ltac:(lia) ltac:(lia) ltac:(lia) _) eq_refl).
  split_and!; [done | apply Z.mod_mul; lia | lia..].
Qed.

Lemma PageAlign_SizeToPages_witness :
  PageAlign 4097 = SizeToPages 4097 * PageSize /\
  PageAlign 4097 mod PageSize = 0 /\ 4097 <= PageAlign 4097 < 4097 + PageSize.
Proof. apply PageAlign_SizeToPages. vm_compute. by split. Defined.
