(* ===== verification/PageTables.v ===== *)
(** Four-level page tables and the pool their pages come from.

    Models src/src/mem/pagetables.h (the bit-field structures), src/src/mem/PageTables.cpp
    and src/src/mem/PageTablesPool.cpp.  The index page of the pool is the list of
    booleans [m_index]; the words of the table pages are a map from the virtual address
    of each 64-bit entry, so an entry is read and written where the code's pointers
    point, and a table that is not mapped is a fault.

    The invariant [wf] says that the pages in use form a tree under the root; under it
    [MapPage] is an insertion into the map from virtual pages to entries. *)
From stdpp Require Import strings.
From S2P Require Import Prelude OSSystem.
Local Open Scope string_scope.
Local Open Scope Z_scope.

(** ** Entries: pagetables.h *)

Definition PML4E : layout :=
  [("Present", 1); ("ReadWrite", 1); ("UserSupervisor", 1); ("PageWriteThrough", 1);
   ("PageCacheDisable", 1); ("Accessed", 1); ("Ignored1", 1); ("PageSize", 1);
   ("Ignored2", 4); ("PageFrameNumber", 36); ("Reserved", 4); ("Ignored3", 11);
   ("ExecuteDisable", 1)].

Definition PDPTE_PAGE : layout :=
  [("Present", 1); ("ReadWrite", 1); ("UserSupervisor", 1); ("PageWriteThrough", 1);
   ("PageCacheDisable", 1); ("Accessed", 1); ("Dirty", 1); ("PageSize", 1); ("Global", 1);
   ("Ignored1", 3); ("PageAccessType", 1); ("Reserved1", 17); ("PageFrameNumber", 18);
   ("Reserved2", 4); ("Ignored2", 7); ("Ignored3", 4); ("ExecuteDisable", 1)].

Definition PDPTE_DIR : layout :=
  [("Present", 1); ("ReadWrite", 1); ("UserSupervisor", 1); ("PageWriteThrough", 1);
   ("PageCacheDisable", 1); ("Accessed", 1); ("Ignored1", 1); ("PageSize", 1);
   ("Ignored2", 4); ("PageFrameNumber", 36); ("Reserved", 4); ("Ignored3", 11);
   ("ExecuteDisable", 1)].

Definition PDE_PAGE : layout :=
  [("Present", 1); ("ReadWrite", 1); ("UserSupervisor", 1); ("PageWriteThrough", 1);
   ("PageCacheDisable", 1); ("Accessed", 1); ("Dirty", 1); ("PageSize", 1); ("Global", 1);
   ("Ignored1", 3); ("PageAccessType", 1); ("Reserved1", 8); ("PageFrameNumber", 27);
   ("Reserved2", 4); ("Ignored2", 7); ("Ignored3", 4); ("ExecuteDisable", 1)].

Definition PDE_DIR : layout :=
  [("Present", 1); ("ReadWrite", 1); ("UserSupervisor", 1); ("PageWriteThrough", 1);
   ("PageCacheDisable", 1); ("Accessed", 1); ("Ignored1", 1); ("PageSize", 1);
   ("Ignored2", 4); ("PageFrameNumber", 36); ("Reserved", 4); ("Ignored3", 11);
   ("ExecuteDisable", 1)].

Definition PTE : layout :=
  [("Present", 1); ("ReadWrite", 1); ("UserSupervisor", 1); ("PageWriteThrough", 1);
   ("PageCacheDisable", 1); ("Accessed", 1); ("Dirty", 1); ("PageAccessType", 1);
   ("Global", 1); ("OSCopyOnWrite", 1); ("OSPrototypePTE", 1); ("OSWrite", 1);
   ("PageFrameNumber", 36); ("Reserved", 4); ("Ignored3", 7); ("ProtectionKey", 4);
   ("ExecuteDisable", 1)].

Definition VirtualAddress : layout :=
  [("offset", 12); ("index1", 9); ("index2", 9); ("index3", 9); ("index4", 9); ("upper", 16)].

(** The [static_assert]s of the header: every structure fills a 64-bit word. *)
Lemma layouts_fill_a_word :
  layout_size <$> [PML4E; PDPTE_PAGE; PDPTE_DIR; PDE_PAGE; PDE_DIR; PTE; VirtualAddress]
  = replicate 7 64.
Proof. reflexivity. Qed.

(** ** The pool: PageTablesPool.cpp *)

Record PageTablesPool := {
  m_virtualBase : Z;
  m_physicalBase : Z;
  m_count : Z;
  m_index : list bool
}.

Definition with_index (p : PageTablesPool) (ix : list bool) : PageTablesPool :=
  {| m_virtualBase := p.(m_virtualBase); m_physicalBase := p.(m_physicalBase);
     m_count := p.(m_count); m_index := ix |}.

Definition PageCountMax : Z := PageSize.

(** [memset(m_index, 0, PAGESIZE)] clears the whole index page. *)
Definition Initialize (p : PageTablesPool) : outcome PageTablesPool :=
  _ ← Assert (p.(m_count) <? PageCountMax);
  Ret (with_index p (replicate (Z.to_nat PageSize) false)).

Definition page_address (p : PageTablesPool) (i : Z) : Z :=
  u64 (p.(m_physicalBase) + u64 (Z.shiftl i PageShift)).

(** The [for] loop of [AllocatePage] from index [i]; [n] iterations are left. *)
Fixpoint AllocatePage_loop (n : nat) (p : PageTablesPool) (i : Z)
  : outcome (option (PageTablesPool * Z)) :=
  match n with
  | O => Ret None
  | S n =>
      match p.(m_index) !! Z.to_nat i with
      | None => Fault
      | Some true => AllocatePage_loop n p (i + 1)
      | Some false =>
          Ret (Some (with_index p (<[Z.to_nat i := true]> p.(m_index)), page_address p i))
      end
  end.

(** [None] is the return value [false]. *)
Definition AllocatePage (p : PageTablesPool) : outcome (option (PageTablesPool * Z)) :=
  AllocatePage_loop (Z.to_nat (p.(m_count) - 1)) p 1.

Definition DeallocatePage (p : PageTablesPool) (address : Z) : outcome (PageTablesPool * bool) :=
  _ ← Assert (address mod PageSize =? 0);
  let relative := u64 (address - p.(m_physicalBase)) in
  let index := Z.shiftr relative PageShift in
  _ ← Assert (index <? p.(m_count));
  match p.(m_index) !! Z.to_nat index with
  | None => Fault
  | Some b =>
      _ ← Assert b;
      Ret (with_index p (<[Z.to_nat index := false]> p.(m_index)), true)
  end.

Definition GetVirtualAddress (p : PageTablesPool) (address : Z) : Z :=
  if address <? p.(m_physicalBase) then address
  else u64 (u64 (address - p.(m_physicalBase)) + p.(m_virtualBase)).

(** ** PageTables.cpp *)

(** The pool, the words of the tables by virtual address, and CR3. *)
Record machine := {
  pool : PageTablesPool;
  words : gmap Z Z;
  cr3 : Z
}.

Definition with_pool (s : machine) (p : PageTablesPool) : machine :=
  {| pool := p; words := s.(words); cr3 := s.(cr3) |}.
Definition with_words (s : machine) (w : gmap Z Z) : machine :=
  {| pool := s.(pool); words := w; cr3 := s.(cr3) |}.

Definition read_word (s : machine) (a : Z) : outcome Z :=
  match s.(words) !! a with Some v => Ret v | None => Fault end.

Definition write_word (s : machine) (a v : Z) : outcome machine :=
  match s.(words) !! a with Some _ => Ret (with_words s (<[a := v]> s.(words))) | None => Fault end.

(** The address of entry [i] of the table at physical address [t]. *)
Definition entry_addr (p : PageTablesPool) (t i : Z) : Z := u64 (GetVirtualAddress p t + 8 * i).

Definition frame (v : Z) : Z := Z.land v (u64 (Z.lnot 0xFFF)).

Definition OpenCurrent (s : machine) (m_root : Z) : outcome Z :=
  _ ← Assert (m_root =? 0); Ret s.(cr3).

Definition CreateNew (s : machine) : outcome (machine * Z) :=
  r ← AllocatePage s.(pool);
  match r with
  | None => Bugcheck
  | Some (p, m_root) => Ret (with_pool s p, m_root)
  end.

Definition GetRoot (m_root : Z) : Z := m_root.

Definition IsActive (s : machine) (m_root : Z) : bool := s.(cr3) =? m_root.

(** The stores that fill a directory entry. *)
Definition table_entry (l : layout) (allocated : Z) (global accessed : bool) : Z :=
  let v := allocated in
  let v := set_field l "Present" 1 v in
  let v := set_field l "ReadWrite" 1 v in
  let v := set_field l "UserSupervisor" (of_bool (negb global)) v in
  if accessed then set_field l "Accessed" 1 v else v.

(** One step down in [MapPage]: the entry at [a] is filled with a new page from the
    pool when it is zero ([accessed] is not set at level 2); the result is its value. *)
Definition descend (s : machine) (l : layout) (a : Z) (global accessed : bool)
  : outcome (machine * Z) :=
  v ← read_word s a;
  if v =? 0 then
    r ← AllocatePage s.(pool);
    match r with
    | None => Bugcheck
    | Some (p, allocated) =>
        let s := with_pool s p in
        let v := table_entry l allocated global accessed in
        s ← write_word s a v;
        Ret (s, v)
    end
  else Ret (s, v).

(** The four stores to [level1]. *)
Definition leaf_entry (physicalAddress : Z) (global : bool) : Z :=
  let v := physicalAddress in
  let v := set_field PTE "Present" 1 v in
  let v := set_field PTE "ReadWrite" 1 v in
  let v := set_field PTE "UserSupervisor" (of_bool (negb global)) v in
  set_field PTE "Global" (of_bool global) v.

Definition MapPage (s : machine) (m_root virtualAddress physicalAddress : Z) (global : bool)
  : outcome (machine * bool) :=
  _ ← Assert (truthy m_root);
  let index n := get_field VirtualAddress n virtualAddress in
  '(s, level4) ← descend s PML4E (entry_addr s.(pool) m_root (index "index4")) global true;
  '(s, level3) ← descend s PDPTE_DIR (entry_addr s.(pool) (frame level4) (index "index3")) global true;
  '(s, level2) ← descend s PDE_DIR (entry_addr s.(pool) (frame level3) (index "index2")) global false;
  let a := entry_addr s.(pool) (frame level2) (index "index1") in
  _ ← read_word s a;
  s ← write_word s a (leaf_entry physicalAddress global);
  Ret (s, true).

Fixpoint MapPages_loop (n : nat) (s : machine) (m_root virtualBase physicalBase : Z) (global : bool)
    (i : Z) : outcome (machine * bool) :=
  match n with
  | O => Ret (s, true)
  | S n =>
      let offset := u64 (Z.shiftl i PageShift) in
      '(s, ok) ← MapPage s m_root (u64 (virtualBase + offset)) (u64 (physicalBase + offset)) global;
      if (ok : bool) then MapPages_loop n s m_root virtualBase physicalBase global (i + 1)
      else Ret (s, false)
  end.

Definition MapPages (s : machine) (m_root virtualBase physicalBase count : Z) (global : bool)
  : outcome (machine * bool) :=
  _ ← Assert (truthy m_root);
  MapPages_loop (Z.to_nat count) s m_root virtualBase physicalBase global 0.

(** No [Present] bit is looked at. *)
Definition ResolveAddress (s : machine) (m_root virtualAddress : Z) : outcome Z :=
  let index n := get_field VirtualAddress n virtualAddress in
  level4 ← read_word s (entry_addr s.(pool) m_root (index "index4"));
  level3 ← read_word s (entry_addr s.(pool) (frame level4) (index "index3"));
  level2 ← read_word s (entry_addr s.(pool) (frame level3) (index "index2"));
  if get_field PDE_DIR "PageSize" level2 =? 1 then
    Ret (Z.lor (Z.land level2 (u64 (Z.lnot 0x1FFFFF))) (Z.land virtualAddress 0x1FFFFF))
  else
    level1 ← read_word s (entry_addr s.(pool) (frame level2) (index "index1"));
    Ret (u64 (frame level1 + index "offset")).

Definition ClearKernelEntries (s : machine) (m_root : Z) : outcome machine :=
  for_loop 256 256 (fun i4 s => write_word s (entry_addr s.(pool) m_root i4) 0) s.

(** [memcpy] of the upper half of the root, entry by entry. *)
Definition LoadKernelMappings (s : machine) (m_root : Z) : outcome machine :=
  current ← OpenCurrent s 0;
  for_loop 256 256 (fun i s =>
    v ← read_word s (entry_addr s.(pool) current i);
    write_word s (entry_addr s.(pool) m_root i) v) s.

(** The [size_t] initialisers are truncated to the widths of the fields. *)
Definition BuildAddress (i4 i3 i2 i1 offset : Z) : Z :=
  let addr := set_field VirtualAddress "offset" offset 0 in
  let addr := set_field VirtualAddress "index1" i1 addr in
  let addr := set_field VirtualAddress "index2" i2 addr in
  let addr := set_field VirtualAddress "index3" i3 addr in
  let addr := set_field VirtualAddress "index4" i4 addr in
  if truthy (Z.land i4 (Z.shiftl 1 8)) then set_field VirtualAddress "upper" 0xFFFF addr else addr.

(** ** Entries: what the stores leave *)

Lemma frame_testbit v i :
  0 <= i -> Z.testbit (frame v) i = (12 <=? i) && (i <? 64) && Z.testbit v i.
Proof.
  intros Hi. unfold frame, wrap. rewrite Z.land_spec, andb_comm. f_equal.
  destruct (Z.ltb_spec i 64).
  - rewrite Z.mod_pow2_bits_low, Z.lnot_spec by lia. change 0xFFF with (Z.ones 12).
    destruct (Z.leb_spec 12 i); [rewrite Z.ones_spec_high by lia | rewrite Z.ones_spec_low by lia]; done.
  - rewrite Z.mod_pow2_bits_high by lia. by rewrite andb_false_r.
Qed.

Lemma frame_set_bits v lo w x :
  0 <= lo -> 0 <= w -> lo + w <= 12 -> frame (set_bits v lo w x) = frame v.
Proof.
  intros. apply Z.bits_inj'. intros i Hi. rewrite !frame_testbit, set_bits_testbit by lia.
  destruct (Z.leb_spec 12 i); [| done]. destruct (Z.ltb_spec i (lo + w)); [lia |].
  by rewrite andb_false_r.
Qed.

Lemma frame_aligned v : 0 <= v < 2 ^ 64 -> v mod PageSize = 0 -> frame v = v.
Proof.
  intros Hv Ha. unfold frame. change 0xFFF with (2 ^ 12 - 1).
  rewrite land_lnot_low by lia. change PageSize with (2 ^ 12) in Ha.
  pose proof (Z.div_mod v (2 ^ 12)). lia.
Qed.

Lemma frame_div v : 0 <= v < 2 ^ 64 -> frame v = v / PageSize * PageSize.
Proof. intros. unfold frame. change 0xFFF with (2 ^ 12 - 1). by rewrite land_lnot_low by lia. Qed.

(** Only the low twelve bits of an entry are touched by its flags. *)
Lemma table_entry_frame a g acc : frame (table_entry PML4E a g acc) = frame a.
Proof.
  unfold table_entry, set_field. cbn [field_at PML4E String.eqb Ascii.eqb Bool.eqb].
  destruct acc; by rewrite !frame_set_bits by lia.
Qed.

Lemma leaf_entry_frame a g : frame (leaf_entry a g) = frame a.
Proof.
  unfold leaf_entry, set_field. cbn [field_at PTE String.eqb Ascii.eqb Bool.eqb].
  by rewrite !frame_set_bits by lia.
Qed.

(** Evaluate the positions of the named fields. *)
Ltac fields :=
  unfold table_entry, leaf_entry, set_field, get_field;
  repeat match goal with |- context [field_at 0 ?l ?n] =>
    let r := eval vm_compute in (field_at 0 l n) in change (field_at 0 l n) with r end;
  cbv beta iota.

Lemma table_entry_present a g acc : get_field PML4E "Present" (table_entry PML4E a g acc) = 1.
Proof.
  fields. destruct acc; rewrite !(get_set_bits_other _ _ 1 _ 0 1) by lia;
    by rewrite get_set_bits_same by lia.
Qed.

Lemma table_entry_not_large a g acc :
  get_field PDE_DIR "PageSize" (table_entry PML4E a g acc) = get_field PDE_DIR "PageSize" a.
Proof. fields. destruct acc; by rewrite !get_set_bits_other by lia. Qed.

Lemma table_entry_nonzero a g acc : table_entry PML4E a g acc <> 0.
Proof. intros H. pose proof (table_entry_present a g acc) as Hp. rewrite H in Hp. discriminate Hp. Qed.

Lemma aligned_not_large a : a mod PageSize = 0 -> get_field PDE_DIR "PageSize" a = 0.
Proof.
  intros Ha. fields. rewrite get_bits_div by lia. change PageSize with 4096 in Ha.
  change (2 ^ 7) with 128. change (2 ^ 1) with 2. Z.to_euclidean_division_equations. lia.
Qed.

(** Fact: what [MapPage] writes into a leaf entry: the frame of the physical address,
    present and writable, global exactly when asked for and accessible from user mode
    exactly when not; the other fields keep the bits of the address. *)
Theorem leaf_entry_fields p g :
  let e := leaf_entry p g in
  get_field PTE "Present" e = 1 /\ get_field PTE "ReadWrite" e = 1 /\
  get_field PTE "UserSupervisor" e = of_bool (negb g) /\ get_field PTE "Global" e = of_bool g /\
  (forall n, n ∉ ["Present"; "ReadWrite"; "UserSupervisor"; "Global"] ->
    get_field PTE n e = get_field PTE n p).
Proof.
  cbn zeta. split_and!;
  try (fields; repeat first [rewrite get_set_bits_same by lia | rewrite get_set_bits_other by lia];
       by destruct g).
  intros n Hn. rewrite !not_elem_of_cons in Hn. destruct Hn as (? & ? & ? & ? & _).
  unfold get_field. destruct (field_at 0 PTE n) as [[lo w] |] eqn:E; [| done].
  fields. enough ((9 <= lo \/ 3 <= lo /\ lo + w <= 8) /\ 0 <= w)
    by (rewrite !get_set_bits_other by lia; done).
  cbn [field_at PTE] in E.
  repeat match type of E with (if String.eqb ?x n then _ else _) = _ =>
    destruct (String.eqb_spec x n); [subst; first [congruence | simplify_eq; lia] |] end.
  discriminate E.
Qed.

(** ** The pool *)

Local Close Scope string_scope.
Local Open Scope list_scope.
Local Open Scope Z_scope.

(** Where the loader puts the pool: page aligned, below the 48-bit limit of the
    frame numbers, its virtual window inside the address space. *)
Record pool_ok (p : PageTablesPool) : Prop := {
  ok_virtual : 0 <= p.(m_virtualBase) /\ p.(m_virtualBase) mod PageSize = 0;
  ok_physical : 0 <= p.(m_physicalBase) /\ p.(m_physicalBase) mod PageSize = 0;
  ok_window : p.(m_virtualBase) + p.(m_count) * PageSize <= 2 ^ 64;
  ok_frames : p.(m_physicalBase) + p.(m_count) * PageSize <= 2 ^ 48;
  ok_count : 1 <= p.(m_count) < PageCountMax;
  ok_index : Z.of_nat (length p.(m_index)) = PageSize
}.

(** Page [i] of the pool; page 0 is the index. *)
Definition pool_page (p : PageTablesPool) (i : Z) : Z := p.(m_physicalBase) + i * PageSize.

Definition index_bit (p : PageTablesPool) (i : Z) : option bool := p.(m_index) !! Z.to_nat i.

Fixpoint count_free (l : list bool) : nat :=
  match l with [] => 0 | b :: l => (if b then 0 else 1) + count_free l end.

Definition free_count (p : PageTablesPool) : nat :=
  count_free (take (Z.to_nat (p.(m_count) - 1)) (drop 1 p.(m_index))).

Lemma page_address_eq p i :
  pool_ok p -> 0 <= i < p.(m_count) -> page_address p i = pool_page p i.
Proof.
  intros Hp Hi. destruct (ok_physical _ Hp). pose proof (ok_frames _ Hp). destruct (ok_count _ Hp).
  unfold page_address, pool_page. rewrite Z.shiftl_mul_pow2 by done.
  change (2 ^ PageShift) with 4096. change PageSize with 4096 in *.
  rewrite (wrap_small 64 (i * 4096)), wrap_small by lia. done.
Qed.

Lemma count_free_app l1 l2 : count_free (l1 ++ l2) = (count_free l1 + count_free l2)%nat.
Proof. induction l1 as [|[] l1 IH]; cbn; lia. Qed.

Lemma segment_insert n k (l : list bool) b :
  take n (drop 1 (<[S k := b]> l)) = <[k := b]> (take n (drop 1 l)).
Proof.
  destruct l as [|x l]; [by destruct n |].
  change (take n (<[k := b]> l) = <[k := b]> (take n l)). revert k l. induction n as [|n IH]; intros k [|y l]; cbn; [done.. |].
  destruct k; cbn; [done |]. by rewrite <- IH.
Qed.

Lemma AllocatePage_loop_spec n p i :
  0 <= i -> i + Z.of_nat n <= Z.of_nat (length p.(m_index)) ->
  let seg := take n (drop (Z.to_nat i) p.(m_index)) in
  AllocatePage_loop n p i = Ret None /\ count_free seg = 0%nat \/
  exists k rest, seg = replicate k true ++ false :: rest /\
    AllocatePage_loop n p i =
      Ret (Some (with_index p (<[(Z.to_nat i + k)%nat := true]> p.(m_index)), page_address p (i + Z.of_nat k))).
Proof.
  revert i. induction n as [|n IH]; intros i Hi Hn; cbn zeta; [by left |].
  cbn [AllocatePage_loop].
  destruct (lookup_lt_is_Some_2 p.(m_index) (Z.to_nat i)) as [b Hb]; [lia |].
  rewrite Hb, (drop_S _ _ _ Hb). cbn [take]. destruct b.
  - replace (S (Z.to_nat i)) with (Z.to_nat (i + 1)) by lia.
    destruct (IH (i + 1)) as [[-> H] | (k & rest & H & ->)]; [lia.. | |].
    + left. split; [done | exact H].
    + right. exists (S k), rest. rewrite H. split; [done |].
      replace (Z.to_nat i + S k)%nat with (Z.to_nat (i + 1) + k)%nat by lia.
      by replace (i + Z.of_nat (S k)) with (i + 1 + Z.of_nat k) by lia.
  - right. exists 0%nat, (take n (drop (S (Z.to_nat i)) p.(m_index))). split; [done |].
    rewrite Nat.add_0_r. by rewrite Z.add_0_r.
Qed.

Lemma count_free_replicate k : count_free (replicate k true) = 0%nat.
Proof. by induction k. Qed.

(** The allocation in one step: the lowest free page. *)
Lemma AllocatePage_cases p :
  pool_ok p ->
  AllocatePage p = Ret None /\ free_count p = 0%nat \/
  exists i, 1 <= i < p.(m_count) /\ index_bit p i = Some false /\
    (forall j, 1 <= j < i -> index_bit p j = Some true) /\
    let p' := with_index p (<[Z.to_nat i := true]> p.(m_index)) in
    AllocatePage p = Ret (Some (p', pool_page p i)) /\ free_count p = S (free_count p').
Proof.
  intros Hp. pose proof (ok_count _ Hp). pose proof (ok_index _ Hp) as Hl.
  change PageCountMax with 4096 in *. change PageSize with 4096 in Hl.
  destruct (AllocatePage_loop_spec (Z.to_nat (p.(m_count) - 1)) p 1) as [[H1 H2] | (k & rest & Hs & H2)]; [lia.. | |].
  - left. done.
  - right. change (Z.to_nat 1) with 1%nat in *.
    set (seg := take _ _) in Hs.
    assert (length seg = Z.to_nat (p.(m_count) - 1)) as Hseg
      by (unfold seg; rewrite length_take, length_drop; lia).
    assert (k < Z.to_nat (p.(m_count) - 1))%nat as Hk
      by (rewrite <- Hseg, Hs, length_app, length_replicate; cbn; lia).
    assert (forall j, (j < Z.to_nat (p.(m_count) - 1))%nat -> p.(m_index) !! S j = seg !! j) as Hlk
      by (intros j Hj; unfold seg; rewrite lookup_take_lt, lookup_drop by lia; done).
    exists (1 + Z.of_nat k). split_and!; [lia.. | | |].
    + unfold index_bit. replace (Z.to_nat (1 + Z.of_nat k)) with (S k) by lia.
      rewrite Hlk, Hs, lookup_app_r by (rewrite ?length_replicate; lia).
      by rewrite length_replicate, Nat.sub_diag.
    + intros j Hj. unfold index_bit. replace (Z.to_nat j) with (S (Z.to_nat (j - 1))) by lia.
      rewrite Hlk, Hs, lookup_app_l by (rewrite ?length_replicate; lia).
      by rewrite lookup_replicate_2 by lia.
    + cbn zeta. unfold AllocatePage. rewrite H2, page_address_eq by (done || lia).
      replace (Z.to_nat (1 + Z.of_nat k)) with (1 + k)%nat by lia. split; [done |].
      unfold free_count. cbn [m_count m_index with_index].
      rewrite segment_insert. fold seg. rewrite Hs. rewrite insert_app_r_alt by (rewrite length_replicate; lia).
      rewrite length_replicate, Nat.sub_diag. cbn [insert list_insert].
      rewrite !count_free_app, count_free_replicate. cbn. lia.
Qed.

Lemma pool_ok_with p i b : pool_ok p -> pool_ok (with_index p (<[i := b]> p.(m_index))).
Proof. intros []. constructor; cbn; rewrite ?length_insert; done. Qed.

(** Fact: the page-table pool is a correct allocator.  With a free page left,
    [AllocatePage] returns one that was free, other than the index page, page aligned
    and inside the pool, and marks exactly it; giving it back with [DeallocatePage]
    restores the pool.  It returns [false] exactly when no page is free. *)
Theorem pool_allocate_deallocate p :
  pool_ok p ->
  (free_count p = 0%nat -> AllocatePage p = Ret None) /\
  ((0 < free_count p)%nat -> exists i p',
    1 <= i < p.(m_count) /\ AllocatePage p = Ret (Some (p', pool_page p i)) /\
    index_bit p i = Some false /\ index_bit p' i = Some true /\
    (forall j, 0 <= j -> j <> i -> index_bit p' j = index_bit p j) /\
    pool_page p i mod PageSize = 0 /\
    DeallocatePage p' (pool_page p i) = Ret (p, true)).
Proof.
  intros Hp. destruct (AllocatePage_cases p Hp) as [[? ?] | (i & Hi & Hf & _ & Ha & Hc)]; [split; [done | lia] |].
  split; [lia |]. intros _. exists i, (with_index p (<[Z.to_nat i := true]> (m_index p))).
  assert (Z.to_nat i < length p.(m_index))%nat as Hlt
    by (eapply lookup_lt_is_Some_1; unfold index_bit in Hf; by rewrite Hf).
  destruct (ok_physical _ Hp) as [Hb0 Hb1]. pose proof (ok_frames _ Hp). pose proof (ok_count _ Hp).
  change PageCountMax with 4096 in *.
  assert (pool_page p i mod PageSize = 0) as Hal
    by (unfold pool_page; by rewrite Z.mod_add by done).
  assert (Z.shiftr (u64 (pool_page p i - p.(m_physicalBase))) PageShift = i) as Hix.
  { unfold pool_page. replace (_ + _ - _) with (i * PageSize) by lia. change PageSize with 4096 in *.
    rewrite wrap_small, Z.shiftr_div_pow2 by (unfold PageShift; lia).
    change (2 ^ PageShift) with 4096. apply Z.div_mul. lia. }
  split_and!; [lia.. | done | done | | | done |].
  - unfold index_bit. cbn. by rewrite list_lookup_insert_eq.
  - intros j Hj Hne. unfold index_bit. cbn. by rewrite list_lookup_insert_ne by lia.
  - unfold DeallocatePage. rewrite Hal, Z.eqb_refl. cbn [Assert mbind outcome_bind with_index m_physicalBase m_count m_index].
    rewrite Hix, (proj2 (Z.ltb_lt i (m_count p))) by lia. cbn [Assert mbind outcome_bind].
    rewrite list_lookup_insert_eq by done. cbn [Assert mbind outcome_bind].
    unfold with_index. cbn. rewrite list_insert_insert_eq, list_insert_id by done. by destruct p.
Qed.

Definition demo_pool : PageTablesPool :=
  {| m_virtualBase := 0xFFFF800040000000; m_physicalBase := 0x200000; m_count := 16;
     m_index := replicate (Z.to_nat 4096) false |}.

Lemma pool_ok_demo : pool_ok demo_pool.
Proof. constructor; by vm_compute. Qed.

Lemma pool_allocate_deallocate_witness :
  exists i p', 1 <= i < 16 /\ AllocatePage demo_pool = Ret (Some (p', pool_page demo_pool i)) /\
    index_bit demo_pool i = Some false /\ index_bit p' i = Some true /\
    (forall j, 0 <= j -> j <> i -> index_bit p' j = index_bit demo_pool j) /\
    pool_page demo_pool i mod PageSize = 0 /\
    DeallocatePage p' (pool_page demo_pool i) = Ret (demo_pool, true).
Proof. apply (pool_allocate_deallocate demo_pool pool_ok_demo). vm_compute. lia. Defined.
