(* ===== verification/PageWalk.v ===== *)
(** Correctness of the page-table walk.

    The tables of a root built from the pool form a tree ([wf]); [slot] is the walk the
    hardware and [ResolveAddress] do, [pte] the leaf entry it finds.  [MapPage] is shown
    to be exactly an update of [pte] at one virtual page, and [ResolveAddress] to read
    it, for every virtual address and every state of the tables. *)
From stdpp Require Import strings.
From S2P Require Import Prelude OSSystem PageTables.

Lemma entry_addr_eq p k i :
  pool_ok p -> 0 <= k < p.(m_count) -> 0 <= i < 512 ->
  entry_addr p (pool_page p k) i = p.(m_virtualBase) + k * PageSize + 8 * i.
Proof.
  intros Hp Hk Hi. destruct (ok_physical _ Hp), (ok_virtual _ Hp).
  pose proof (ok_frames _ Hp). pose proof (ok_window _ Hp). destruct (ok_count _ Hp).
  unfold entry_addr, GetVirtualAddress, pool_page. change PageSize with 4096 in *.
  rewrite (proj2 (Z.ltb_ge _ _)) by lia. replace (_ + _ - _) with (k * 4096) by lia.
  rewrite (wrap_small 64 (k * 4096)) by lia. rewrite (wrap_small 64 (_ + m_virtualBase p)) by lia.
  rewrite wrap_small by lia. lia.
Qed.

Lemma entry_addr_inj p k i k' i' :
  pool_ok p -> 0 <= k < p.(m_count) -> 0 <= k' < p.(m_count) -> 0 <= i < 512 -> 0 <= i' < 512 ->
  entry_addr p (pool_page p k) i = entry_addr p (pool_page p k') i' -> k = k' /\ i = i'.
Proof. intros. rewrite !entry_addr_eq in * by done. change PageSize with 4096 in *. lia. Qed.

Lemma pool_page_inj p k k' : pool_page p k = pool_page p k' -> k = k'.
Proof. unfold pool_page. change PageSize with 4096. lia. Qed.

Lemma pool_page_aligned p k :
  pool_ok p -> 0 <= k < p.(m_count) ->
  pool_page p k mod PageSize = 0 /\ 0 <= pool_page p k < 2 ^ 48.
Proof.
  intros Hp Hk. destruct (ok_physical _ Hp). pose proof (ok_frames _ Hp). unfold pool_page.
  rewrite Z.mod_add by done. change PageSize with 4096 in *. lia.
Qed.

(** ** The tree of tables

    [T] gives the level of each table page in use, 4 for the root. *)
Record wf (s : machine) (root : Z) (T : gmap Z nat) : Prop := {
  wf_pool : pool_ok s.(pool);
  wf_root : T !! root = Some 4%nat;
  wf_owned : forall t L, T !! t = Some L -> exists k,
    t = pool_page s.(pool) k /\ 1 <= k < s.(pool).(m_count) /\
    index_bit s.(pool) k = Some true /\ (1 <= L)%nat;
  wf_mapped : forall t L i, T !! t = Some L -> 0 <= i < 512 ->
    is_Some (s.(words) !! entry_addr s.(pool) t i);
  wf_child : forall t L i e, T !! t = Some (S (S L)) -> 0 <= i < 512 ->
    s.(words) !! entry_addr s.(pool) t i = Some e -> e <> 0 ->
    T !! frame e = Some (S L) /\ get_field PDE_DIR "PageSize"%string e = 0;
  wf_tree : forall t L i e t' L' i' e', T !! t = Some (S (S L)) -> T !! t' = Some (S (S L')) ->
    0 <= i < 512 -> 0 <= i' < 512 ->
    s.(words) !! entry_addr s.(pool) t i = Some e -> e <> 0 ->
    s.(words) !! entry_addr s.(pool) t' i' = Some e' -> e' <> 0 ->
    frame e = frame e' -> t = t' /\ i = i';
  wf_free : forall k i, 1 <= k < s.(pool).(m_count) -> index_bit s.(pool) k = Some false ->
    0 <= i < 512 -> s.(words) !! entry_addr s.(pool) (pool_page s.(pool) k) i = Some 0
}.

(** The index of a virtual address into a table of level [L]. *)
Definition vindex (L : nat) (v : Z) : Z := get_bits v (12 + 9 * (Z.of_nat L - 1)) 9.

(** The virtual page number: the 36 translated bits. *)
Definition vpn (v : Z) : Z := get_bits v 12 36.

Fixpoint slot (s : machine) (L : nat) (t v : Z) : option Z :=
  match L with
  | O => None
  | S L' =>
      let a := entry_addr s.(pool) t (vindex L v) in
      match L' with
      | O => Some a
      | S _ => e ← s.(words) !! a; if e =? 0 then None else slot s L' (frame e) v
      end
  end.

(** The entry the walk from table [t] of level [L] ends at; 0 where it is cut short. *)
Definition pte (s : machine) (L : nat) (t v : Z) : Z :=
  match slot s L t v with Some a => default 0 (s.(words) !! a) | None => 0 end.

Lemma vindex_range L v : 0 <= vindex (S L) v < 512.
Proof. unfold vindex. apply (get_bits_range _ _ 9); lia. Qed.

Lemma slot_S s L t v :
  slot s (S (S L)) t v = e ← s.(words) !! entry_addr s.(pool) t (vindex (S (S L)) v);
                         if e =? 0 then None else slot s (S L) (frame e) v.
Proof. done. Qed.

Lemma slot_step s L t v e :
  s.(words) !! entry_addr s.(pool) t (vindex (S (S L)) v) = Some e -> e <> 0 ->
  slot s (S (S L)) t v = slot s (S L) (frame e) v.
Proof. intros He Hn. rewrite slot_S, He. cbn [mbind option_bind]. by rewrite (proj2 (Z.eqb_neq e 0)). Qed.

Lemma vpn_indices v v' :
  vpn v = vpn v' <-> forall L, (1 <= L <= 4)%nat -> vindex L v = vindex L v'.
Proof.
  unfold vpn, vindex. split.
  - intros H L HL. apply Z.bits_inj'. intros i Hi. rewrite !get_bits_testbit by lia.
    destruct (Z.ltb_spec i 9); [| done].
    assert (forall x, Z.testbit x (i + (12 + 9 * (Z.of_nat L - 1)))
              = Z.testbit (get_bits x 12 36) (i + 9 * (Z.of_nat L - 1))) as Hx.
    { intros x. rewrite get_bits_testbit by lia. rewrite (proj2 (Z.ltb_lt _ _)) by lia. cbn. f_equal. lia. }
    by rewrite !Hx, H.
  - intros H. apply Z.bits_inj'. intros i Hi. rewrite !get_bits_testbit by lia.
    destruct (Z.ltb_spec i 36); [| done]. cbn.
    pose proof (Z.div_mod i 9 ltac:(lia)). pose proof (Z.mod_pos_bound i 9 ltac:(lia)).
    specialize (H (S (Z.to_nat (i / 9)))).
    assert (0 <= i / 9 <= 3) by (split; [apply Z.div_pos; lia | apply Z.lt_succ_r, Z.div_lt_upper_bound; lia]).
    apply (f_equal (fun z => Z.testbit z (i mod 9))) in H; [| lia].
    rewrite !get_bits_testbit in H by lia. rewrite (proj2 (Z.ltb_lt _ _)) in H by lia. cbn in H.
    replace (i + 12) with (i mod 9 + (12 + 9 * (Z.of_nat (S (Z.to_nat (i / 9))) - 1))) by lia. done.
Qed.

(** The walk depends on the page number only. *)
Lemma slot_vpn s t v v' : vpn v' = vpn v -> slot s 4 t v' = slot s 4 t v.
Proof.
  intros Hv. rewrite vpn_indices in Hv.
  assert (forall L t, (L <= 4)%nat -> slot s L t v' = slot s L t v) as H; [| by apply H].
  clear t. induction L as [|L IH]; intros t HL; [done |]. cbn [slot]. rewrite Hv by lia.
  destruct L; [done |]. destruct (words s !! _) as [e |]; cbn; [| done].
  destruct (e =? 0); [done |]. apply IH. lia.
Qed.

(** ** The walk *)

Lemma pte_1 s t v : pte s 1 t v = default 0 (s.(words) !! entry_addr s.(pool) t (vindex 1 v)).
Proof. done. Qed.

Lemma pte_S s L t v :
  pte s (S (S L)) t v =
    match s.(words) !! entry_addr s.(pool) t (vindex (S (S L)) v) with
    | Some e => if e =? 0 then 0 else pte s (S L) (frame e) v
    | None => 0
    end.
Proof.
  unfold pte. rewrite slot_S. destruct (_ !! _) as [e |]; cbn; [| done]. by destruct (e =? 0).
Qed.

Section walk.
Context (s : machine) (root : Z) (T : gmap Z nat) (Hwf : wf s root T).

Lemma owned_addr_inj t L i t' L' i' :
  T !! t = Some L -> T !! t' = Some L' -> 0 <= i < 512 -> 0 <= i' < 512 ->
  entry_addr s.(pool) t i = entry_addr s.(pool) t' i' -> t = t' /\ i = i'.
Proof using Hwf.
  intros Ht Ht' Hi Hi' He.
  destruct (wf_owned _ _ _ Hwf _ _ Ht) as (k & -> & ? & _).
  destruct (wf_owned _ _ _ Hwf _ _ Ht') as (k' & -> & ? & _).
  apply entry_addr_inj in He as [-> ->]; [done | apply (wf_pool _ _ _ Hwf) | lia..].
Qed.

(** The walk ends in a table of level 1. *)
Lemma slot_leaf L t v a :
  T !! t = Some (S L) -> slot s (S L) t v = Some a ->
  exists t1, T !! t1 = Some 1%nat /\ a = entry_addr s.(pool) t1 (vindex 1 v).
Proof using Hwf.
  revert t. induction L as [|L IH]; intros t Ht Hs; [cbn in Hs; simplify_eq; eauto |].
  rewrite slot_S in Hs. apply bind_Some in Hs as (e & He & Hs).
  destruct (Z.eqb_spec e 0); [done |].
  destruct (wf_child _ _ _ Hwf _ _ _ _ Ht (vindex_range _ v) He) as [Hc _]; [done |]. by eapply IH.
Qed.

(** Two addresses share a leaf entry only if they agree on every index. *)
Lemma slot_inj L t t' v v' a :
  T !! t = Some (S L) -> T !! t' = Some (S L) ->
  slot s (S L) t v = Some a -> slot s (S L) t' v' = Some a ->
  t = t' /\ forall l, (1 <= l <= S L)%nat -> vindex l v = vindex l v'.
Proof using Hwf.
  revert t t'. induction L as [|L IH]; intros t t' Ht Ht' Hs Hs'.
  - cbn in Hs, Hs'. simplify_eq. eapply owned_addr_inj in Hs as [-> Hi]; eauto using vindex_range.
    split; [done |]. intros l Hl. by replace l with 1%nat by lia.
  - rewrite slot_S in Hs, Hs'. apply bind_Some in Hs as (e & He & Hs).
    apply bind_Some in Hs' as (e' & He' & Hs').
    destruct (Z.eqb_spec e 0), (Z.eqb_spec e' 0); try done.
    destruct (wf_child _ _ _ Hwf _ _ _ _ Ht (vindex_range _ v) He) as [Hc _]; [done |].
    destruct (wf_child _ _ _ Hwf _ _ _ _ Ht' (vindex_range _ v') He') as [Hc' _]; [done |].
    destruct (IH _ _ Hc Hc' Hs Hs') as [Hf Hl].
    destruct (wf_tree _ _ _ Hwf _ _ _ _ _ _ _ _ Ht Ht' (vindex_range _ v) (vindex_range _ v')
      He ltac:(done) He' ltac:(done) Hf) as [-> Hi].
    split; [done |]. intros l Hl'. destruct (decide (l = S (S L))) as [-> |]; [done | apply Hl; lia].
Qed.

(** Filling a zero entry with a zeroed page changes no translation. *)
Lemma fill_pte t0 L0 i0 e k ix :
  T !! t0 = Some (S (S L0)) -> 0 <= i0 < 512 ->
  s.(words) !! entry_addr s.(pool) t0 i0 = Some 0 -> e <> 0 -> frame e = pool_page s.(pool) k ->
  1 <= k < s.(pool).(m_count) -> index_bit s.(pool) k = Some false ->
  let s' := {| pool := with_index s.(pool) ix;
               words := <[entry_addr s.(pool) t0 i0 := e]> s.(words); cr3 := s.(cr3) |} in
  forall L t v, T !! t = Some (S L) ->
    pte s' (S L) t v = pte s (S L) t v /\
    forall a, slot s (S L) t v = Some a -> slot s' (S L) t v = Some a.
Proof using Hwf.
  intros Ht0 Hi0 Hz He Hf Hk Hfree s'. set (a0 := entry_addr s.(pool) t0 i0) in *.
  assert (forall L v, pte s' (S L) (pool_page s.(pool) k) v = 0) as Hzero.
  { assert (forall i, 0 <= i < 512 -> s'.(words) !! entry_addr s'.(pool) (pool_page s.(pool) k) i = Some 0) as Hw.
    { intros i Hi. change (entry_addr (pool s')) with (entry_addr (pool s)). cbn. rewrite lookup_insert_ne; [by apply (wf_free _ _ _ Hwf) |].
      intros Ha. destruct (wf_owned _ _ _ Hwf _ _ Ht0) as (k0 & -> & ? & Hb & _).
      apply entry_addr_inj in Ha as [-> _]; [congruence | apply (wf_pool _ _ _ Hwf) | lia..]. }
    intros [|L] v; [rewrite pte_1 | rewrite pte_S]; rewrite Hw by apply vindex_range; done. }
  intros L. induction L as [|L IH]; intros t v Ht.
  - split; [| done]. rewrite !pte_1. cbn. rewrite lookup_insert_ne; [done |].
    intros Ha. eapply owned_addr_inj in Ha as [-> _]; eauto using vindex_range. congruence.
  - rewrite !pte_S, !slot_S. cbn [words s' pool].
    change (entry_addr (with_index (pool s) ix)) with (entry_addr (pool s)).
    destruct (decide (a0 = entry_addr s.(pool) t (vindex (S (S L)) v))) as [Ha | Ha].
    + rewrite <- Ha, lookup_insert_eq, Hz. cbn [mbind option_bind]. rewrite Z.eqb_refl.
      rewrite (proj2 (Z.eqb_neq e 0)) by done. rewrite Hf, Hzero. split; [done | intros ? [=]].
    + rewrite lookup_insert_ne by done. destruct (words s !! entry_addr (pool s) t _) as [e1 |] eqn:E1; cbn [mbind option_bind]; [| done].
      destruct (Z.eqb_spec e1 0); [split; [done | intros ? [=]] |].
      destruct (wf_child _ _ _ Hwf _ _ _ _ Ht (vindex_range _ v) E1) as [Hc _]; [done |].
      by apply IH.
Qed.

(** Writing a leaf entry changes the translation of its page only. *)
Lemma leaf_pte v a e :
  slot s 4 root v = Some a ->
  let s' := with_words s (<[a := e]> s.(words)) in
  (forall L t v', T !! t = Some (S L) -> slot s' (S L) t v' = slot s (S L) t v') /\
  forall v', pte s' 4 root v' = if decide (vpn v' = vpn v) then e else pte s 4 root v'.
Proof using Hwf.
  intros Hs s'. pose proof (wf_root _ _ _ Hwf) as Hr.
  destruct (slot_leaf _ _ _ _ Hr Hs) as (t1 & Ht1 & Ha).
  assert (forall L t v', T !! t = Some (S L) -> slot s' (S L) t v' = slot s (S L) t v') as Hslot.
  { intros L. induction L as [|L IH]; intros t v' Ht; [done |]. rewrite !slot_S. cbn [words s' pool with_words].
    rewrite lookup_insert_ne.
    - destruct (words s !! entry_addr (pool s) t _) as [e1 |] eqn:E1; cbn [mbind option_bind]; [| done]. destruct (Z.eqb_spec e1 0); [done |].
      destruct (wf_child _ _ _ Hwf _ _ _ _ Ht (vindex_range _ v') E1) as [Hc _]; [done |]. by apply IH.
    - rewrite Ha. intros He. eapply owned_addr_inj in He as [-> _]; eauto using vindex_range. congruence. }
  split; [done |]. intros v'. unfold pte. rewrite Hslot by done. cbn [words s' with_words].
  case_decide as Hv.
  - rewrite (slot_vpn s root v v' Hv), Hs.
    by rewrite lookup_insert_eq.
  - destruct (slot s 4 root v') as [a' |] eqn:E; [| done]. rewrite lookup_insert_ne; [done |].
    intros <-. apply Hv. apply vpn_indices. by apply (slot_inj 3 root root v' v a).
Qed.
End walk.

(** ** Preservation of the tree *)

Lemma index_bit_insert p k j b :
  0 <= k -> 0 <= j -> index_bit p k <> None ->
  index_bit (with_index p (<[Z.to_nat k := b]> p.(m_index))) j =
    if decide (j = k) then Some b else index_bit p j.
Proof.
  intros Hk Hj Hs. unfold index_bit in *. cbn. case_decide as H.
  - subst. apply list_lookup_insert_eq, lookup_lt_is_Some. by apply not_eq_None_Some.
  - apply list_lookup_insert_ne. lia.
Qed.

Section fill.
Context (s : machine) (root : Z) (T : gmap Z nat) (Hwf : wf s root T).
Context (t0 : Z) (L0 : nat) (i0 e k : Z).
Context (Ht0 : T !! t0 = Some (S (S L0))) (Hi0 : 0 <= i0 < 512).
Context (Hz : s.(words) !! entry_addr s.(pool) t0 i0 = Some 0).
Context (He : e <> 0) (Hf : frame e = pool_page s.(pool) k).
Context (Hps : get_field PDE_DIR "PageSize"%string e = 0).
Context (Hk : 1 <= k < s.(pool).(m_count)) (Hfree : index_bit s.(pool) k = Some false).

Let a0 := entry_addr s.(pool) t0 i0.
Let page := pool_page s.(pool) k.
Let s' := {| pool := with_index s.(pool) (<[Z.to_nat k := true]> s.(pool).(m_index));
             words := <[a0 := e]> s.(words); cr3 := s.(cr3) |}.
Let T' := <[page := S L0]> T.

Lemma owned_not_free t L : T !! t = Some L -> t <> page.
Proof using Hwf Hfree.
  intros Ht ->. destruct (wf_owned _ _ _ Hwf _ _ Ht) as (k' & Heq & _ & Hb & _).
  apply pool_page_inj in Heq as <-. congruence.
Qed.

Lemma fill_T t L : T !! t = Some L -> T' !! t = Some L.
Proof using Hwf Hfree. intros Ht. unfold T'. rewrite lookup_insert_ne; [done |]. symmetry. by eapply owned_not_free. Qed.

Lemma fill_free_word k' i :
  1 <= k' < s.(pool).(m_count) -> index_bit s.(pool) k' = Some false -> 0 <= i < 512 ->
  s'.(words) !! entry_addr s.(pool) (pool_page s.(pool) k') i = Some 0.
Proof using Hwf Ht0 Hi0 Hz.
  intros Hk' Hb Hi. cbn. rewrite lookup_insert_ne; [by apply (wf_free _ _ _ Hwf) |].
  unfold a0. intros Ha. destruct (wf_owned _ _ _ Hwf _ _ Ht0) as (k0 & -> & ? & Hb0 & _).
  apply entry_addr_inj in Ha as [-> _]; [congruence | apply (wf_pool _ _ _ Hwf) | lia..].
Qed.

(** The non-zero entries of the upper levels: the new one and the old ones. *)
Lemma fill_entries t L i x :
  T' !! t = Some (S (S L)) -> 0 <= i < 512 ->
  s'.(words) !! entry_addr s.(pool) t i = Some x -> x <> 0 ->
  t = t0 /\ i = i0 /\ x = e \/
  T !! t = Some (S (S L)) /\ s.(words) !! entry_addr s.(pool) t i = Some x.
Proof using Hwf Ht0 Hi0 Hz Hk Hfree.
  intros Ht Hi Hx Hn. unfold T' in Ht. apply lookup_insert_Some in Ht as [[<- _] | [_ Ht]].
  { unfold page in Hx. rewrite fill_free_word in Hx by done. congruence. }
  cbn in Hx. apply lookup_insert_Some in Hx as [[Ha <-] | [_ Hx]]; [left | by right].
  unfold a0 in Ha. eapply (owned_addr_inj _ _ _ Hwf) in Ha as [-> ->]; eauto.
Qed.

Lemma fill_wf : wf s' root T'.
Proof using All.
  pose proof (wf_pool _ _ _ Hwf) as Hp.
  assert (forall j, 0 <= j -> index_bit s'.(pool) j = if decide (j = k) then Some true else index_bit s.(pool) j) as Hbit
    by (intros j Hj; apply index_bit_insert; [lia | done | by rewrite Hfree]).
  constructor; change (entry_addr (pool s')) with (entry_addr (pool s));
    change (pool_page (pool s')) with (pool_page (pool s)); change (m_count (pool s')) with (m_count (pool s)).
  - by apply pool_ok_with.
  - apply fill_T, (wf_root _ _ _ Hwf).
  - intros t L Ht. unfold T' in Ht. apply lookup_insert_Some in Ht as [[<- <-] | [_ Ht]].
    + exists k. rewrite Hbit, decide_True by (done || lia). split_and!; (done || lia).
    + destruct (wf_owned _ _ _ Hwf _ _ Ht) as (k' & -> & ? & ? & ?). exists k'.
      rewrite Hbit by lia. split_and!; [done | lia | lia | by case_decide | done].
  - intros t L i Ht Hi. unfold T' in Ht. apply lookup_insert_Some in Ht as [[<- <-] | [_ Ht]].
    + unfold page. rewrite fill_free_word by done. eauto.
    + cbn. apply lookup_insert_is_Some'. right. by eapply (wf_mapped _ _ _ Hwf).
  - intros t L i x Ht Hi Hx Hn. destruct (fill_entries t L i x Ht Hi Hx Hn) as [(-> & -> & ->) | [Ht' Hx']].
    + rewrite Hf. fold page. unfold T' at 1. rewrite lookup_insert_eq.
      pose proof (fill_T _ _ Ht0). split; [congruence | done].
    + destruct (wf_child _ _ _ Hwf _ _ _ _ Ht' Hi Hx' Hn) as [Hc ?]. split; [by apply fill_T | done].
  - intros t L i x t' L' i' x' Ht Ht' Hi Hi' Hx Hn Hx' Hn' Hfr.
    destruct (fill_entries t L i x Ht Hi Hx Hn) as [(-> & -> & ->) | [Ht1 Hx1]];
    destruct (fill_entries t' L' i' x' Ht' Hi' Hx' Hn') as [(-> & -> & ->) | [Ht1' Hx1']]; [done | | |].
    + destruct (wf_child _ _ _ Hwf _ _ _ _ Ht1' Hi' Hx1' Hn') as [Hc _].
      destruct (owned_not_free _ _ Hc). by rewrite <- Hfr.
    + destruct (wf_child _ _ _ Hwf _ _ _ _ Ht1 Hi Hx1 Hn) as [Hc _].
      destruct (owned_not_free _ _ Hc). by rewrite Hfr.
    + by eapply (wf_tree _ _ _ Hwf).
  - intros k' i Hk' Hb Hi. rewrite Hbit in Hb by lia. case_decide; [done |]. by apply fill_free_word.
Qed.
End fill.

(** What one step of the descent does. *)
Lemma descend_spec s root T t L i g acc :
  wf s root T -> T !! t = Some (S (S L)) -> 0 <= i < 512 -> (1 <= free_count s.(pool))%nat ->
  exists s' e T', descend s PML4E (entry_addr s.(pool) t i) g acc = Ret (s', e) /\
    wf s' root T' /\ (forall u l, T !! u = Some l -> T' !! u = Some l) /\
    (free_count s.(pool) <= S (free_count s'.(pool)))%nat /\
    entry_addr s'.(pool) = entry_addr s.(pool) /\ s'.(cr3) = s.(cr3) /\
    (forall a x, s.(words) !! a = Some x -> x <> 0 -> s'.(words) !! a = Some x) /\
    s'.(words) !! entry_addr s.(pool) t i = Some e /\ e <> 0 /\ T' !! frame e = Some (S L) /\
    forall l u v, T !! u = Some (S l) ->
      pte s' (S l) u v = pte s (S l) u v /\
      forall a, slot s (S l) u v = Some a -> slot s' (S l) u v = Some a.
Proof.
  intros Hwf Ht Hi Hfc. unfold descend, read_word.
  destruct (wf_mapped _ _ _ Hwf _ _ _ Ht Hi) as [x Hx]. rewrite Hx. cbn [mbind outcome_bind].
  destruct (Z.eqb_spec x 0) as [-> | Hn].
  - destruct (AllocatePage_cases _ (wf_pool _ _ _ Hwf)) as [[_ ?] | (k & Hk & Hb & _ & Ha & Hc)]; [lia |].
    rewrite Ha. cbn [mbind outcome_bind]. unfold write_word. cbn [words with_pool]. rewrite Hx.
    cbn [mbind outcome_bind]. set (e := table_entry PML4E _ g acc).
    destruct (pool_page_aligned _ k (wf_pool _ _ _ Hwf)) as [Hal Hr]; [lia |].
    assert (frame e = pool_page s.(pool) k) as Hf
      by (unfold e; rewrite table_entry_frame; apply frame_aligned; [lia | done]).
    assert (e <> 0) as He by apply table_entry_nonzero.
    eexists _, e, _. split; [done |].
    split; [eapply (fill_wf s root T Hwf t L i e k); try done |].
    { unfold e. rewrite table_entry_not_large. by apply aligned_not_large. }
    split_and!.
    + intros. by eapply fill_T.
    + unfold with_words, with_pool. cbn. lia.
    + done.
    + done.
    + intros a x Hax Hn. cbn. rewrite lookup_insert_ne; [done | congruence].
    + unfold with_words, with_pool. cbn. by rewrite lookup_insert_eq.
    + done.
    + rewrite Hf. by rewrite lookup_insert_eq.
    + exact (fill_pte s root T Hwf t L i e k _ Ht Hi Hx He Hf Hk Hb).
  - exists s, x, T. destruct (wf_child _ _ _ Hwf _ _ _ _ Ht Hi Hx Hn) as [Hc _].
    split_and!; try done. lia.
Qed.

Lemma leaf_wf s root T t i e :
  wf s root T -> T !! t = Some 1%nat -> 0 <= i < 512 ->
  wf (with_words s (<[entry_addr s.(pool) t i := e]> s.(words))) root T.
Proof.
  intros Hwf Ht Hi.
  assert (forall u l j, T !! u = Some (S (S l)) -> 0 <= j < 512 ->
    <[entry_addr s.(pool) t i := e]> s.(words) !! entry_addr s.(pool) u j = s.(words) !! entry_addr s.(pool) u j) as Hup.
  { intros u l j Hu Hj. apply lookup_insert_ne. intros Ha.
    eapply (owned_addr_inj _ _ _ Hwf) in Ha as [-> _]; eauto. congruence. }
  constructor; cbn [pool words with_words]; try apply Hwf.
  - intros u l j Hu Hj. apply lookup_insert_is_Some'. right. by eapply (wf_mapped _ _ _ Hwf).
  - intros u l j x Hu Hj. rewrite (Hup u l) by done. by apply (wf_child _ _ _ Hwf).
  - intros u l j x u' l' j' x' Hu Hu' Hj Hj'. rewrite (Hup u l), (Hup u' l') by done.
    by apply (wf_tree _ _ _ Hwf u l j x u' l' j' x').
  - intros k j Hk Hb Hj. rewrite lookup_insert_ne; [by apply (wf_free _ _ _ Hwf) |].
    intros Ha. destruct (wf_owned _ _ _ Hwf _ _ Ht) as (k0 & -> & ? & Hb0 & _).
    apply entry_addr_inj in Ha as [-> _]; [congruence | apply (wf_pool _ _ _ Hwf) | lia..].
Qed.

Lemma index_fields v :
  get_field VirtualAddress "index4" v = vindex 4 v /\ get_field VirtualAddress "index3" v = vindex 3 v /\
  get_field VirtualAddress "index2" v = vindex 2 v /\ get_field VirtualAddress "index1" v = vindex 1 v.
Proof. done. Qed.

Lemma root_nonzero s root T : wf s root T -> truthy root = true.
Proof.
  intros Hwf. destruct (wf_owned _ _ _ Hwf _ _ (wf_root _ _ _ Hwf)) as (k & -> & Hk & _).
  destruct (ok_physical _ (wf_pool _ _ _ Hwf)). unfold truthy, pool_page. change PageSize with 4096 in *.
  apply negb_true_iff, Z.eqb_neq. lia.
Qed.

(** [MapPage] as an update of the translation. *)
Lemma MapPage_spec s root T v p g :
  wf s root T -> (3 <= free_count s.(pool))%nat ->
  exists s' T', MapPage s root v p g = Ret (s', true) /\ wf s' root T' /\
    (free_count s.(pool) <= 3 + free_count s'.(pool))%nat /\ s'.(cr3) = s.(cr3) /\
    is_Some (slot s' 4 root v) /\
    (forall v' a, slot s 4 root v' = Some a -> slot s' 4 root v' = Some a) /\
    forall v', pte s' 4 root v' =
      if decide (vpn v' = vpn v) then leaf_entry p g else pte s 4 root v'.
Proof.
  intros Hwf Hfc. unfold MapPage. rewrite (root_nonzero _ _ _ Hwf). cbn [Assert mbind outcome_bind].
  destruct (index_fields v) as (-> & -> & -> & ->).
  change PDPTE_DIR with PML4E. change PDE_DIR with PML4E.
  destruct (descend_spec s root T root 2 (vindex 4 v) g true Hwf (wf_root _ _ _ Hwf) (vindex_range _ v))
    as (s1 & e4 & T1 & -> & Hwf1 & Hs1 & Hc1 & Ha1 & Hr1 & _ & Hw1 & Hn1 & Ht1 & Hp1); [lia |].
  cbn [mbind outcome_bind].
  destruct (descend_spec s1 root T1 (frame e4) 1 (vindex 3 v) g true Hwf1 Ht1 (vindex_range _ v))
    as (s2 & e3 & T2 & -> & Hwf2 & Hs2 & Hc2 & Ha2 & Hr2 & Hk2 & Hw2 & Hn2 & Ht2 & Hp2); [lia |].
  cbn [mbind outcome_bind].
  destruct (descend_spec s2 root T2 (frame e3) 0 (vindex 2 v) g false Hwf2 Ht2 (vindex_range _ v))
    as (s3 & e2 & T3 & -> & Hwf3 & Hs3 & Hc3 & Ha3 & Hr3 & Hk3 & Hw3 & Hn3 & Ht3 & Hp3); [lia |].
  cbn [mbind outcome_bind].
  destruct (wf_mapped _ _ _ Hwf3 _ _ _ Ht3 (vindex_range 0 v)) as [x Hx].
  unfold read_word, write_word. rewrite Hx. cbn [mbind outcome_bind].
  assert (slot s3 4 root v = Some (entry_addr s3.(pool) (frame e2) (vindex 1 v))) as Hslot.
  { rewrite (slot_step _ _ _ _ e4), (slot_step _ _ _ _ e3), (slot_step _ _ _ _ e2); [done | | done | | done | | done];
      rewrite Ha3; [done | rewrite Ha2; auto | rewrite Ha2, Ha1; auto]. }
  destruct (leaf_pte _ _ _ Hwf3 v _ (leaf_entry p g) Hslot) as [Hsl Hpte].
  pose proof (wf_root _ _ _ Hwf) as R0. pose proof (wf_root _ _ _ Hwf1) as R1.
  pose proof (wf_root _ _ _ Hwf2) as R2. pose proof (wf_root _ _ _ Hwf3) as R3.
  eexists _, T3. split; [done |]. split; [by apply leaf_wf; [| | apply vindex_range] |].
  split_and!; [cbn; lia | cbn; congruence | rewrite Hsl by done; eauto | |].
  - intros v' a Ha. rewrite Hsl by done. by apply (Hp3 3%nat), (Hp2 3%nat), (Hp1 3%nat).
  - intros v'. rewrite Hpte. case_decide; [done |].
    by rewrite (proj1 (Hp3 3%nat root v' R2)), (proj1 (Hp2 3%nat root v' R1)), (proj1 (Hp1 3%nat root v' R0)).
Qed.

(** ** Resolving addresses *)

Lemma ResolveAddress_pte s root T v a :
  wf s root T -> slot s 4 root v = Some a ->
  ResolveAddress s root v =
    Ret (u64 (frame (pte s 4 root v) + get_field VirtualAddress "offset"%string v)).
Proof.
  intros Hwf Hs. unfold ResolveAddress, read_word.
  destruct (index_fields v) as (-> & -> & -> & ->). pose proof (wf_root _ _ _ Hwf) as Hr.
  assert (forall L t, T !! t = Some (S (S L)) -> is_Some (slot s (S (S L)) t v) -> exists e,
    s.(words) !! entry_addr s.(pool) t (vindex (S (S L)) v) = Some e /\ e <> 0 /\ T !! frame e = Some (S L) /\
    get_field PDE_DIR "PageSize"%string e = 0 /\ is_Some (slot s (S L) (frame e) v)) as Hstep.
  { intros L t Ht [a' Ha]. rewrite slot_S in Ha. apply bind_Some in Ha as (e & He & Ha).
    destruct (Z.eqb_spec e 0); [done |]. destruct (wf_child _ _ _ Hwf _ _ _ _ Ht (vindex_range _ v) He); [done |].
    exists e. split_and!; eauto. }
  destruct (Hstep 2%nat root Hr) as (e4 & E4 & N4 & R4 & _ & S4); [eauto |].
  destruct (Hstep 1%nat _ R4 S4) as (e3 & E3 & N3 & R3 & _ & S3).
  destruct (Hstep 0%nat _ R3 S3) as (e2 & E2 & N2 & R2 & P2 & _).
  rewrite E4. cbn [mbind outcome_bind]. rewrite E3. cbn [mbind outcome_bind]. rewrite E2. cbn [mbind outcome_bind].
  rewrite P2. cbn [Z.eqb].
  destruct (wf_mapped _ _ _ Hwf _ _ _ R2 (vindex_range 0 v)) as [e1 E1]. rewrite E1. cbn [mbind outcome_bind].
  repeat f_equal. rewrite pte_S, E4, (proj2 (Z.eqb_neq e4 0)) by done.
  rewrite pte_S, E3, (proj2 (Z.eqb_neq e3 0)) by done.
  rewrite pte_S, E2, (proj2 (Z.eqb_neq e2 0)) by done. by rewrite pte_1, E1.
Qed.

(** The offset and the page number make up the translated part of an address. *)
Lemma offset_eq v : get_field VirtualAddress "offset"%string v = v mod PageSize.
Proof.
  unfold get_field. change (field_at 0 VirtualAddress "offset"%string) with (Some (0, 12)).
  cbv beta iota. rewrite get_bits_div by lia. change PageSize with (2 ^ 12). by rewrite Z.pow_0_r, Z.div_1_r.
Qed.

Lemma frame_plus_offset p o :
  0 <= p < 2 ^ 64 -> 0 <= o < PageSize -> u64 (frame p + o) = p / PageSize * PageSize + o.
Proof.
  intros Hp Ho. rewrite frame_div by done. apply wrap_small. change PageSize with 4096 in *.
  Z.to_euclidean_division_equations. lia.
Qed.

(** C1: mapping a page and resolving it.  In every well-formed tree of tables with three
    pages left in the pool, [MapPage] succeeds and keeps the tree well formed; afterwards
    [ResolveAddress] sends every address of that virtual page to the physical page with
    the same offset, and gives for every other address that had a translation the
    answer it gave before. *)
Theorem MapPage_ResolveAddress s root T v p g :
  wf s root T -> (3 <= free_count s.(pool))%nat -> 0 <= p < 2 ^ 64 ->
  exists s' T', MapPage s root v p g = Ret (s', true) /\ wf s' root T' /\
    (forall v', vpn v' = vpn v ->
      ResolveAddress s' root v' = Ret (p / PageSize * PageSize + v' mod PageSize)) /\
    (forall v', vpn v' <> vpn v -> is_Some (slot s 4 root v') ->
      ResolveAddress s' root v' = ResolveAddress s root v').
Proof.
  intros Hwf Hfc Hp. destruct (MapPage_spec s root T v p g Hwf Hfc) as (s' & T' & -> & Hwf' & _ & _ & [a Ha] & Hk & Hpte).
  exists s', T'. split_and!; [done | done | |].
  - intros v' Hv. pose proof Ha as Ha'. rewrite <- (slot_vpn s' root v v' Hv) in Ha'.
    rewrite (ResolveAddress_pte _ _ _ _ _ Hwf' Ha'), Hpte, decide_True, leaf_entry_frame, offset_eq by done.
    f_equal. apply frame_plus_offset; [done |]. by apply Z.mod_pos_bound.
  - intros v' Hv [a' Ha']. pose proof (Hk _ _ Ha') as Ha2.
    rewrite (ResolveAddress_pte _ _ _ _ _ Hwf Ha'), (ResolveAddress_pte _ _ _ _ _ Hwf' Ha2).
    by rewrite Hpte, decide_False.
Qed.

(** ** MapPages *)

Definition page_of (base j : Z) : Z := u64 (base + u64 (Z.shiftl j PageShift)).

Lemma MapPages_loop_spec n s root T vb pb g i :
  wf s root T -> (3 * n <= free_count s.(pool))%nat ->
  (forall j j', i <= j < j' -> j' < i + Z.of_nat n -> vpn (page_of vb j) <> vpn (page_of vb j')) ->
  exists s' T', MapPages_loop n s root vb pb g i = Ret (s', true) /\ wf s' root T' /\
    (forall v a, slot s 4 root v = Some a -> slot s' 4 root v = Some a) /\
    (forall j v, i <= j < i + Z.of_nat n -> vpn v = vpn (page_of vb j) ->
      is_Some (slot s' 4 root v) /\ pte s' 4 root v = leaf_entry (page_of pb j) g) /\
    (forall v, (forall j, i <= j < i + Z.of_nat n -> vpn v <> vpn (page_of vb j)) ->
      pte s' 4 root v = pte s 4 root v).
Proof.
  revert s T i. induction n as [|n IH]; intros s T i Hwf Hfc Hd; cbn [MapPages_loop].
  { exists s, T. split_and!; try done. lia. }
  fold (page_of vb i) (page_of pb i).
  destruct (MapPage_spec s root T (page_of vb i) (page_of pb i) g Hwf) as (s1 & T1 & -> & Hwf1 & Hc1 & _ & Hs1 & Hk1 & Hp1); [lia |].
  cbn [mbind outcome_bind].
  destruct (IH s1 T1 (i + 1) Hwf1) as (s2 & T2 & -> & Hwf2 & Hk2 & Hin2 & Hout2); [lia | intros; apply Hd; lia |].
  exists s2, T2. split_and!; [done.. | eauto | |].
  - intros j v Hj Hv. destruct (decide (j = i)) as [-> | Hne]; [| apply Hin2; [lia | done]].
    destruct Hs1 as [a Ha]. split.
    + exists a. apply Hk2. by rewrite (slot_vpn s1 root (page_of vb i) v Hv).
    + rewrite Hout2; [by rewrite Hp1, decide_True |]. intros j' Hj'. rewrite Hv. apply Hd; lia.
  - intros v Hv. rewrite Hout2 by (intros; apply Hv; lia). rewrite Hp1, decide_False; [done | apply Hv; lia].
Qed.

Lemma page_of_eq base j :
  0 <= base -> 0 <= j -> base + j * PageSize < 2 ^ 64 -> page_of base j = base + j * PageSize.
Proof.
  intros. unfold page_of. rewrite Z.shiftl_mul_pow2 by done. change (2 ^ PageShift) with PageSize.
  change PageSize with 4096 in *. rewrite (wrap_small 64 (j * 4096)), wrap_small by lia. done.
Qed.

Lemma div_add_aligned a d : a mod PageSize = 0 -> (a + d) / PageSize = a / PageSize + d / PageSize.
Proof.
  intros Ha. rewrite (Z.div_mod a PageSize) at 1 by done. rewrite Ha, Z.add_0_r.
  rewrite (Z.mul_comm PageSize), Z.div_add_l by done. done.
Qed.

Lemma vpn_eq v : vpn v = v / PageSize mod 2 ^ 36.
Proof. unfold vpn. by rewrite get_bits_div by lia. Qed.

Lemma MapPages_range s root T vb pb count g :
  wf s root T -> 0 <= count < 2 ^ 36 -> (3 * Z.to_nat count <= free_count s.(pool))%nat ->
  0 <= vb -> vb mod PageSize = 0 -> vb + count * PageSize <= 2 ^ 64 ->
  0 <= pb -> pb mod PageSize = 0 -> pb + count * PageSize <= 2 ^ 64 ->
  exists s' T', MapPages s root vb pb count g = Ret (s', true) /\ wf s' root T' /\
    (forall d, 0 <= d < count * PageSize -> ResolveAddress s' root (vb + d) = Ret (pb + d)) /\
    (forall v, 0 <= v -> count <= (v / PageSize - vb / PageSize) mod 2 ^ 36 -> is_Some (slot s 4 root v) ->
      ResolveAddress s' root v = ResolveAddress s root v).
Proof.
  intros Hwf Hc Hfc Hv0 Hva Hvb Hp0 Hpa Hpb. unfold MapPages. rewrite (root_nonzero _ _ _ Hwf). cbn [Assert mbind outcome_bind].
  assert (forall j, 0 <= j < count -> vpn (page_of vb j) = (vb / PageSize + j) mod 2 ^ 36) as Hpage.
  { intros j Hj. rewrite page_of_eq, vpn_eq, Z.div_add by (change PageSize with 4096 in *; lia). done. }
  destruct (MapPages_loop_spec (Z.to_nat count) s root T vb pb g 0 Hwf Hfc) as (s' & T' & -> & Hwf' & Hk & Hin & Hout).
  { intros j j' Hj Hj'. rewrite !Hpage by lia. Z.to_euclidean_division_equations. lia. }
  exists s', T'. split_and!; [done.. | |].
  - intros d Hd. assert (0 <= d / PageSize < count) as Hq
      by (change PageSize with 4096 in *; Z.to_euclidean_division_equations; lia).
    assert (vpn (vb + d) = vpn (page_of vb (d / PageSize))) as Hvd.
    { by rewrite Hpage, vpn_eq, div_add_aligned by done. }
    destruct (Hin (d / PageSize) (vb + d)) as [[a Ha] Hpte]; [lia | done |].
    rewrite (ResolveAddress_pte _ _ _ _ _ Hwf' Ha), Hpte, leaf_entry_frame, offset_eq.
    rewrite page_of_eq by (change PageSize with 4096 in *; lia).
    rewrite frame_plus_offset; [| change PageSize with 4096 in *; lia | by apply Z.mod_pos_bound].
    f_equal. rewrite Z.div_add, (Zplus_mod vb d), Hva, Z.add_0_l, Zmod_mod by done.
    pose proof (Z.div_mod pb PageSize ltac:(done)). pose proof (Z.div_mod d PageSize ltac:(done)).
    change PageSize with 4096 in *. lia.
  - intros v Hv Hfar [a Ha]. rewrite (ResolveAddress_pte _ _ _ _ _ Hwf Ha), (ResolveAddress_pte _ _ _ _ _ Hwf' (Hk _ _ Ha)).
    rewrite Hout; [done |]. intros j Hj. rewrite Hpage, vpn_eq by lia. intros Heq.
    enough ((v / PageSize - vb / PageSize) mod 2 ^ 36 = j) by lia.
    rewrite Zminus_mod, Heq, <- Zminus_mod. replace (_ + j - _) with j by lia. rewrite Z.mod_small; lia.
Qed.

(** C2: mapping a range.  With three pool pages per page to map, [MapPages] maps every
    page of the range: afterwards each address of the virtual range resolves to the
    address at the same distance from the physical base, and every other address that
    had a translation keeps it. *)
Theorem MapPages_ResolveAddress s root T vb pb count g :
  wf s root T -> 0 <= count < 2 ^ 36 -> (3 * Z.to_nat count <= free_count s.(pool))%nat ->
  0 <= vb -> vb mod PageSize = 0 -> vb + count * PageSize <= 2 ^ 64 ->
  0 <= pb -> pb mod PageSize = 0 -> pb + count * PageSize <= 2 ^ 64 ->
  exists s' T', MapPages s root vb pb count g = Ret (s', true) /\ wf s' root T' /\
    (forall d, 0 <= d < count * PageSize -> ResolveAddress s' root (vb + d) = Ret (pb + d)) /\
    (forall v, 0 <= v -> count <= (v / PageSize - vb / PageSize) mod 2 ^ 36 -> is_Some (slot s 4 root v) ->
      ResolveAddress s' root v = ResolveAddress s root v).
Proof. apply MapPages_range. Qed.

(** ** A new root *)

(** The loader hands over a pool whose pages are all zero. *)
Definition zeroed (s : machine) : Prop :=
  forall k i, 1 <= k < s.(pool).(m_count) -> 0 <= i < 512 ->
    s.(words) !! entry_addr s.(pool) (pool_page s.(pool) k) i = Some 0.

Lemma CreateNew_wf s :
  pool_ok s.(pool) -> zeroed s -> (1 <= free_count s.(pool))%nat ->
  exists s' root, CreateNew s = Ret (s', root) /\ wf s' root {[ root := 4%nat ]} /\
    free_count s.(pool) = S (free_count s'.(pool)) /\
    forall v, slot s' 4 root v = None.
Proof.
  intros Hp Hz Hfc. unfold CreateNew.
  destruct (AllocatePage_cases _ Hp) as [[_ ?] | (k & Hk & Hb & _ & -> & Hc)]; [lia |]. cbn [mbind outcome_bind].
  set (p' := with_index _ _) in *. exists (with_pool s p'), (pool_page s.(pool) k).
  assert (forall t i, t = pool_page s.(pool) k -> 0 <= i < 512 -> s.(words) !! entry_addr s.(pool) t i = Some 0) as Hw
    by (intros t i -> Hi; by apply Hz).
  assert (forall t L, ({[ pool_page s.(pool) k := 4%nat ]} : gmap Z nat) !! t = Some L -> t = pool_page s.(pool) k /\ L = 4%nat) as Hs
    by (intros t L [-> ->]%lookup_singleton_Some; done).
  split_and!; [done | | done |].
  - constructor; cbn [pool words with_pool]; change (entry_addr p') with (entry_addr (pool s));
      change (pool_page p') with (pool_page (pool s)); change (m_count p') with (m_count (pool s)).
    + by apply pool_ok_with.
    + apply lookup_singleton_eq.
    + intros t L [-> ->]%Hs. exists k. unfold p'. rewrite index_bit_insert, decide_True by (done || lia || by rewrite Hb).
      split_and!; (done || lia).
    + intros t L i [-> ->]%Hs Hi. rewrite Hw by done. eauto.
    + intros t L i e [-> [= <-]]%Hs Hi He. rewrite Hw in He by done. congruence.
    + intros t L i e t' L' i' e' [-> _]%Hs _ Hi _ He. rewrite Hw in He by done. congruence.
    + intros k' i Hk' _ Hi. by apply Hz.
  - intros v. rewrite slot_S. cbn [pool words with_pool]. change (entry_addr p') with (entry_addr (pool s)).
    rewrite Hw by (done || apply vindex_range). done.
Qed.

Fixpoint zero_words (n : nat) (a : Z) : gmap Z Z :=
  match n with O => ∅ | S n => <[a := 0]> (zero_words n (a + 8)) end.

Lemma zero_words_lookup n a i : 0 <= i < Z.of_nat n -> zero_words n a !! (a + 8 * i) = Some 0.
Proof.
  revert a i. induction n as [|n IH]; intros a i Hi; [lia |]. cbn.
  destruct (decide (i = 0)) as [-> |]; [by rewrite Z.add_0_r, lookup_insert_eq |].
  rewrite lookup_insert_ne by lia. replace (a + 8 * i) with (a + 8 + 8 * (i - 1)) by lia. apply IH. lia.
Qed.

(** A pool of 16 zeroed pages, with the given CR3. *)
Definition demo_words : gmap Z Z := zero_words (15 * 512) (0xFFFF800040000000 + 4096).
Definition demo_machine (c : Z) : machine := {| pool := demo_pool; words := demo_words; cr3 := c |}.

Lemma demo_entry k i :
  1 <= k < 16 -> 0 <= i < 512 ->
  entry_addr demo_pool (pool_page demo_pool k) i = 0xFFFF800040000000 + k * 4096 + 8 * i.
Proof. intros. apply (entry_addr_eq demo_pool); [apply pool_ok_demo | cbn; lia | done]. Qed.

Lemma demo_words_zero k i :
  1 <= k < 16 -> 0 <= i < 512 -> demo_words !! entry_addr demo_pool (pool_page demo_pool k) i = Some 0.
Proof.
  intros Hk Hi. rewrite demo_entry by done.
  replace (_ + _) with (0xFFFF800040000000 + 4096 + 8 * ((k - 1) * 512 + i)) by lia.
  apply zero_words_lookup. lia.
Qed.

Lemma demo_zeroed c : zeroed (demo_machine c).
Proof. intros k i Hk Hi. by apply demo_words_zero. Qed.

Lemma demo_root : exists s root, CreateNew (demo_machine 0) = Ret (s, root) /\
  wf s root {[ root := 4%nat ]} /\ (14 <= free_count s.(pool))%nat.
Proof.
  destruct (CreateNew_wf (demo_machine 0) pool_ok_demo (demo_zeroed 0)) as (s & root & ? & ? & Hc & _); [vm_compute; lia |].
  exists s, root. split_and!; [done.. |].
  assert (free_count (demo_machine 0).(pool) = 15%nat) as H15 by (vm_compute; reflexivity). lia.
Qed.

Lemma MapPage_ResolveAddress_witness :
  exists s root s' T', CreateNew (demo_machine 0) = Ret (s, root) /\
    MapPage s root 0x7000123 0x9000 false = Ret (s', true) /\ wf s' root T' /\
    ResolveAddress s' root 0x7000FFF = Ret 0x9FFF.
Proof.
  destruct demo_root as (s & root & Hc & Hwf & Hf).
  destruct (MapPage_ResolveAddress s root _ 0x7000123 0x9000 false Hwf) as (s' & T' & Hm & Hwf' & Hr & _); [lia.. |].
  exists s, root, s', T'. split_and!; [done.. |]. by rewrite Hr by reflexivity.
Defined.

Lemma MapPages_ResolveAddress_witness :
  exists s root s' T', CreateNew (demo_machine 0) = Ret (s, root) /\
    MapPages s root 0xFFFF800000000000 0x100000 2 true = Ret (s', true) /\ wf s' root T' /\
    ResolveAddress s' root (0xFFFF800000000000 + 0x1234) = Ret (0x100000 + 0x1234).
Proof.
  destruct demo_root as (s & root & Hc & Hwf & Hf).
  destruct (MapPages_ResolveAddress s root _ 0xFFFF800000000000 0x100000 2 true Hwf) as (s' & T' & Hm & Hwf' & Hr & _);
    [lia | change (Z.to_nat 2) with 2%nat; lia | lia | reflexivity | by vm_compute | lia | reflexivity | by vm_compute |].
  exists s, root, s', T'. split_and!; [done.. |]. apply Hr. by vm_compute.
Defined.

(** ** BuildAddress *)

Definition canonical (v : Z) : Prop :=
  get_field VirtualAddress "upper"%string v = if Z.testbit v 47 then 0xFFFF else 0.

Lemma bit8_test i : truthy (Z.land i (Z.shiftl 1 8)) = Z.testbit i 8.
Proof.
  unfold truthy. destruct (Z.testbit i 8) eqn:E.
  - apply negb_true_iff, Z.eqb_neq. intros H. apply (f_equal (fun z => Z.testbit z 8)) in H.
    rewrite Z.land_spec, E in H. discriminate H.
  - apply negb_false_iff, Z.eqb_eq. apply Z.bits_inj'. intros j Hj. rewrite Z.land_spec, Z.bits_0.
    destruct (decide (j = 8)) as [-> |]; [by rewrite E |].
    rewrite Z.shiftl_1_l, Z.pow2_bits_false by done. apply andb_false_r.
Qed.

(** Fact: [BuildAddress] is the inverse of the decomposition into indices: for every
    canonical address it rebuilds the address from its four table indices and its
    offset, sign extension included. *)
Theorem BuildAddress_roundtrip v :
  0 <= v < 2 ^ 64 -> canonical v ->
  BuildAddress (vindex 4 v) (vindex 3 v) (vindex 2 v) (vindex 1 v)
    (get_field VirtualAddress "offset"%string v) = v.
Proof.
  intros Hv Hc. unfold BuildAddress. rewrite bit8_test.
  assert (Z.testbit (vindex 4 v) 8 = Z.testbit v 47) as -> by (unfold vindex; rewrite get_bits_testbit by lia; done).
  set (addr := set_field _ "index4" _ _).
  assert (forall i, 0 <= i -> Z.testbit addr i = if i <? 48 then Z.testbit v i else false) as Haddr.
  { intros i Hi. unfold addr. fields. rewrite !set_bits_testbit by lia. unfold vindex.
    assert (forall lo w, 0 <= lo -> 0 <= w -> lo <= i < lo + w -> Z.testbit (get_bits v lo w) (i - lo) = Z.testbit v i) as Hg.
    { intros lo w ???. rewrite get_bits_testbit by lia. rewrite (proj2 (Z.ltb_lt _ _)) by lia. cbn. f_equal. lia. }
    cbn [Z.of_nat Pos.of_succ_nat Pos.succ].
    repeat match goal with |- context [(?x <=? i) && (i <? ?y)] =>
      destruct (Z.leb_spec x i), (Z.ltb_spec i y); cbn [andb] end;
      try lia; destruct (Z.ltb_spec i 48); try lia; try (apply Hg; lia); try apply Z.testbit_0_l. }
  assert (Z.testbit v 47 = false -> forall i, 48 <= i -> Z.testbit v i = false) as Hlow.
  { intros E i Hi. unfold canonical in Hc. rewrite E in Hc. destruct (Z.ltb_spec i 64).
    - apply (f_equal (fun z => Z.testbit z (i - 48))) in Hc. unfold get_field in Hc.
      change (field_at 0 VirtualAddress "upper"%string) with (Some (48, 16)) in Hc. cbv beta iota in Hc.
      rewrite get_bits_testbit, (proj2 (Z.ltb_lt (i - 48) 16)), Z.bits_0 in Hc by lia.
      cbn in Hc. by replace (i - 48 + 48) with i in Hc by lia.
    - rewrite <- (Z.mod_small v (2 ^ 64)) by lia. apply Z.mod_pow2_bits_high. lia. }
  apply Z.bits_inj'. intros i Hi. destruct (Z.testbit v 47) eqn:E.
  - unfold canonical in Hc. rewrite E in Hc. fields. rewrite set_bits_testbit, Haddr by lia.
    destruct (Z.leb_spec 48 i), (Z.ltb_spec i (48 + 16)); cbn [andb].
    + rewrite <- Hc. fields. rewrite get_bits_testbit, (proj2 (Z.ltb_lt (i - 48) 16)) by lia. cbn. f_equal. lia.
    + rewrite (proj2 (Z.ltb_ge i 48)) by lia. symmetry. rewrite <- (Z.mod_small v (2 ^ 64)) by lia.
      apply Z.mod_pow2_bits_high. lia.
    + by rewrite (proj2 (Z.ltb_lt i 48)) by lia.
    + lia.
  - rewrite Haddr by done. destruct (Z.ltb_spec i 48); [done |]. by rewrite Hlow.
Qed.

Lemma BuildAddress_roundtrip_witness :
  BuildAddress (vindex 4 0xFFFF800040201ABC) (vindex 3 0xFFFF800040201ABC)
    (vindex 2 0xFFFF800040201ABC) (vindex 1 0xFFFF800040201ABC)
    (get_field VirtualAddress "offset"%string 0xFFFF800040201ABC) = 0xFFFF800040201ABC.
Proof. apply BuildAddress_roundtrip; [lia | reflexivity]. Defined.

(** ** The kernel half of a root *)

(** [s'] differs from [s] in the words at [f 0 .. f (n-1)] only, which hold [g]. *)
Definition words_updated (s s' : machine) (f : Z -> Z) (lo hi : Z) (g : Z -> option Z) : Prop :=
  s'.(pool) = s.(pool) /\ s'.(cr3) = s.(cr3) /\
  (forall i, lo <= i < hi -> s'.(words) !! f i = g i) /\
  (forall a, (forall i, lo <= i < hi -> f i <> a) -> s'.(words) !! a = s.(words) !! a).

Lemma words_updated_step s s' f lo hi g v :
  words_updated s s' f lo hi g -> lo <= hi -> g hi = Some v -> (forall i, lo <= i < hi -> f i <> f hi) ->
  words_updated s (with_words s' (<[f hi := v]> s'.(words))) f lo (hi + 1) g.
Proof.
  intros (Hp & Hc & Hin & Hout) Hlh Hg Hf. split_and!; [done.. | |]; cbn.
  - intros i Hi. destruct (decide (i = hi)) as [-> |]; [by rewrite lookup_insert_eq |].
    rewrite lookup_insert_ne by (symmetry; apply Hf; lia). apply Hin. lia.
  - intros a Ha. rewrite lookup_insert_ne by (apply Ha; lia). apply Hout. intros; apply Ha; lia.
Qed.

Section kernel_half.
Context (s : machine) (root k : Z).
Context (Hp : pool_ok s.(pool)) (Hroot : root = pool_page s.(pool) k) (Hk : 1 <= k < s.(pool).(m_count)).
Context (Hm : forall i, 0 <= i < 512 -> is_Some (s.(words) !! entry_addr s.(pool) root i)).

Lemma root_entry_inj i j :
  0 <= i < 512 -> 0 <= j < 512 -> entry_addr s.(pool) root i = entry_addr s.(pool) root j -> i = j.
Proof using Hp Hroot Hk.
  intros Hi Hj He. rewrite Hroot in He. apply entry_addr_inj in He as [_ ->]; (done || lia).
Qed.

Lemma ClearKernelEntries_spec :
  exists s', ClearKernelEntries s root = Ret s' /\
    words_updated s s' (entry_addr s.(pool) root) 256 512 (fun _ => Some 0).
Proof using All.
  apply (for_loop_inv (fun i s' => words_updated s s' (entry_addr s.(pool) root) 256 i (fun _ => Some 0))).
  - split_and!; try done. lia.
  - intros j s1 Hj Hu. unfold write_word. destruct Hu as (Hp1 & Hc1 & Hin & Hout) eqn:EHu. clear EHu.
    rewrite Hp1, Hout by (intros i Hi He; apply root_entry_inj in He; lia).
    destruct (Hm j) as [x ->]; [lia |]. eexists. split; [done |].
    apply words_updated_step; [done | lia | done |]. intros i Hi He. apply root_entry_inj in He; lia.
Qed.

Lemma LoadKernelMappings_spec :
  (forall i, 0 <= i < 512 -> is_Some (s.(words) !! entry_addr s.(pool) s.(cr3) i)) ->
  s.(cr3) = root \/ (forall i j, 256 <= i < 512 -> 256 <= j < 512 ->
    entry_addr s.(pool) root i <> entry_addr s.(pool) s.(cr3) j) ->
  exists s', LoadKernelMappings s root = Ret s' /\
    words_updated s s' (entry_addr s.(pool) root) 256 512
      (fun i => s.(words) !! entry_addr s.(pool) s.(cr3) i).
Proof using All.
  intros Hcur Hsep. unfold LoadKernelMappings, OpenCurrent. cbn [Assert Z.eqb mbind outcome_bind].
  apply (for_loop_inv (fun i s' => words_updated s s' (entry_addr s.(pool) root) 256 i
    (fun i => s.(words) !! entry_addr s.(pool) s.(cr3) i))).
  - split_and!; try done. lia.
  - intros j s1 Hj Hu. destruct Hu as (Hp1 & Hc1 & Hin & Hout) eqn:EHu. clear EHu.
    unfold read_word, write_word. rewrite Hp1.
    assert (s1.(words) !! entry_addr s.(pool) s.(cr3) j = s.(words) !! entry_addr s.(pool) s.(cr3) j) as ->.
    { apply Hout. intros i Hi. destruct Hsep as [-> | Hsep]; [| apply Hsep; lia].
      intros He. apply root_entry_inj in He; lia. }
    destruct (Hcur j) as [x Hx]; [lia |]. rewrite Hx. cbn [mbind outcome_bind].
    rewrite Hout by (intros i Hi He; apply root_entry_inj in He; lia).
    destruct (Hm j) as [y ->]; [lia |]. eexists. split; [done |].
    apply words_updated_step; [done | lia | done |]. intros i Hi He. apply root_entry_inj in He; lia.
Qed.
End kernel_half.

(** Fact: every address space shares the kernel half.  After [LoadKernelMappings] the
    upper 256 entries of a root taken from the pool are those of the root in CR3, for
    a current root that is another mapped page or the same one; no other word of the
    tables has changed, in particular not the user half of the root. *)
Theorem LoadKernelMappings_shares s root k :
  pool_ok s.(pool) -> root = pool_page s.(pool) k -> 1 <= k < s.(pool).(m_count) ->
  (forall i, 0 <= i < 512 -> is_Some (s.(words) !! entry_addr s.(pool) root i)) ->
  (forall i, 0 <= i < 512 -> is_Some (s.(words) !! entry_addr s.(pool) s.(cr3) i)) ->
  s.(cr3) = root \/ (forall i j, 256 <= i < 512 -> 256 <= j < 512 ->
      entry_addr s.(pool) root i <> entry_addr s.(pool) s.(cr3) j) ->
  exists s', LoadKernelMappings s root = Ret s' /\ s'.(pool) = s.(pool) /\
    (forall i, 256 <= i < 512 ->
      s'.(words) !! entry_addr s.(pool) root i = s.(words) !! entry_addr s.(pool) s.(cr3) i) /\
    (forall i, 0 <= i < 256 ->
      s'.(words) !! entry_addr s.(pool) root i = s.(words) !! entry_addr s.(pool) root i) /\
    (forall k' i, k' <> k -> 0 <= k' < s.(pool).(m_count) -> 0 <= i < 512 ->
      s'.(words) !! entry_addr s.(pool) (pool_page s.(pool) k') i =
      s.(words) !! entry_addr s.(pool) (pool_page s.(pool) k') i).
Proof.
  intros Hp Hr Hk Hm Hcur Hsep.
  destruct (LoadKernelMappings_spec s root k Hp Hr Hk Hm Hcur Hsep) as (s' & -> & Hpool & _ & Hin & Hout).
  exists s'. split_and!; [done.. | |].
  - intros i Hi. apply Hout. intros j Hj He. apply (root_entry_inj s root k) in He; (done || lia).
  - intros k' i Hk' Hr' Hi. apply Hout. intros j Hj He. rewrite Hr in He.
    apply entry_addr_inj in He as [-> _]; (done || lia).
Qed.

Lemma LoadKernelMappings_shares_witness :
  let s := demo_machine (pool_page demo_pool 2) in
  exists s', LoadKernelMappings s (pool_page demo_pool 1) = Ret s' /\
    s'.(words) !! entry_addr s.(pool) (pool_page demo_pool 1) 300
    = s.(words) !! entry_addr s.(pool) s.(cr3) 300.
Proof.
  intros s. destruct (LoadKernelMappings_shares s (pool_page demo_pool 1) 1) as (s' & Hl & _ & Hin & _).
  - apply pool_ok_demo.
  - reflexivity.
  - cbn. lia.
  - intros i Hi. exists 0. apply demo_words_zero; lia.
  - intros i Hi. exists 0. apply demo_words_zero; lia.
  - right. intros i j Hi Hj. cbn [pool cr3 demo_machine s]. rewrite !demo_entry by lia. lia.
  - exists s'. split; [exact Hl |]. apply Hin. lia.
Defined.
