(* ===== verification/Bitvector.v ===== *)
(** Bit vectors.

    Models src/src/kernel/types/Bitvector.cpp: an array of 64-bit words, allocated by
    [Initialize], with bits set and read by shift and mask.  The theorem shows that it is
    an array of booleans. *)
From S2P Require Import Prelude.

Definition mapBits : Z := 64.
Definition GetMapSize (length : Z) : Z := u64 (length + (mapBits - 1)) / mapBits.
Definition GetMapIndex (index : Z) : Z := index / mapBits.
Definition GetMapShift (index : Z) : Z := index mod mapBits.

(** [m_map] is a null pointer until [Initialize]. *)
Record Bitvector := { Length : Z; m_map : option (list Z) }.

Definition new_Bitvector (length : Z) : Bitvector := {| Length := length; m_map := None |}.

(** [new] does not fail: the heap bugchecks instead. *)
Definition Initialize (v : Bitvector) : Bitvector :=
  {| Length := v.(Length); m_map := Some (replicate (Z.to_nat (GetMapSize v.(Length))) 0) |}.

Definition load_element (v : Bitvector) (index : Z) : outcome (list Z * Z) :=
  match v.(m_map) with
  | None => Bugcheck
  | Some map =>
      _ ← Assert (index <? v.(Length));
      match map !! Z.to_nat (GetMapIndex index) with
      | Some element => Ret (map, element)
      | None => Fault
      end
  end.

Definition Get (v : Bitvector) (index : Z) : outcome bool :=
  '(_, element) ← load_element v index;
  let mask := Z.shiftl 1 (GetMapShift index) in
  Ret (truthy (Z.land element mask)).

Definition Set_bit (v : Bitvector) (index : Z) (value : bool) : outcome Bitvector :=
  '(map, element) ← load_element v index;
  let mask := Z.shiftl 1 (GetMapShift index) in
  let element := if value then Z.lor element mask else Z.land element (u64 (Z.lnot mask)) in
  Ret {| Length := v.(Length); m_map := Some (<[Z.to_nat (GetMapIndex index) := element]> map) |}.

(** ** As an array of booleans *)

(** The words are 64-bit and there are enough of them. *)
Definition bv_ok (v : Bitvector) : Prop :=
  exists map, v.(m_map) = Some map /\ 0 <= v.(Length) <= mapBits * Z.of_nat (length map) /\
    Forall (fun e => 0 <= e < 2 ^ 64) map.

Definition bit (v : Bitvector) (i : Z) : bool :=
  match v.(m_map) with
  | Some map => match map !! Z.to_nat (GetMapIndex i) with Some e => Z.testbit e (GetMapShift i) | None => false end
  | None => false
  end.

Lemma Initialize_bv_ok v :
  0 <= v.(Length) -> v.(Length) + 63 < 2 ^ 64 -> bv_ok (Initialize v) /\ forall i, bit (Initialize v) i = false.
Proof.
  intros H0 H1. split.
  - eexists. split; [done |]. rewrite length_replicate. split; [| by apply Forall_replicate].
    cbn. unfold GetMapSize, mapBits. rewrite wrap_small by lia. Z.to_euclidean_division_equations. lia.
  - intros i. unfold bit. cbn. destruct (_ !! _) as [e |] eqn:E; [| done].
    apply lookup_replicate in E as [-> _]. apply Z.testbit_0_l.
Qed.

Lemma mask_test e s : 0 <= s -> truthy (Z.land e (Z.shiftl 1 s)) = Z.testbit e s.
Proof.
  intros Hs. rewrite Z.shiftl_1_l. unfold truthy. destruct (Z.testbit e s) eqn:E.
  - apply negb_true_iff, Z.eqb_neq. intros H. apply (f_equal (fun z => Z.testbit z s)) in H.
    rewrite Z.land_spec, E, Z.pow2_bits_true, Z.bits_0 in H by done. discriminate H.
  - apply negb_false_iff, Z.eqb_eq, Z.bits_inj'. intros j Hj. rewrite Z.land_spec, Z.bits_0.
    destruct (decide (s = j)) as [-> | Hne]; [by rewrite E |].
    rewrite Z.pow2_bits_false by done. apply andb_false_r.
Qed.

Lemma shift_range i : 0 <= GetMapShift i < 64.
Proof. apply Z.mod_pos_bound. done. Qed.

Lemma load_element_ok v i :
  bv_ok v -> 0 <= i < v.(Length) -> exists map e, v.(m_map) = Some map /\
    load_element v i = Ret (map, e) /\ map !! Z.to_nat (GetMapIndex i) = Some e /\ 0 <= e < 2 ^ 64.
Proof.
  intros (map & Hm & Hl & Hf) Hi. unfold load_element. rewrite Hm.
  rewrite (proj2 (Z.ltb_lt _ _)) by lia. cbn [Assert mbind outcome_bind].
  destruct (lookup_lt_is_Some_2 map (Z.to_nat (GetMapIndex i))) as [e He].
  { unfold GetMapIndex, mapBits in *. Z.to_euclidean_division_equations. lia. }
  exists map, e. rewrite He. split_and!; try done; by eapply Forall_lookup_1 in Hf as [? ?].
Qed.

Lemma Get_bit v i : bv_ok v -> 0 <= i < v.(Length) -> Get v i = Ret (bit v i).
Proof.
  intros Hv Hi. destruct (load_element_ok v i Hv Hi) as (map & e & Hm & Hl & He & _).
  unfold Get, bit. rewrite Hl, Hm, He. cbn [mbind outcome_bind]. f_equal. apply mask_test. apply shift_range.
Qed.

Lemma bits_bound x w : 0 <= w -> (forall i, w <= i -> Z.testbit x i = false) -> x < 2 ^ w.
Proof.
  intros Hw Hb. enough (x mod 2 ^ w = x) as <- by (apply Z.mod_pos_bound; lia).
  apply Z.bits_inj'. intros i Hi. destruct (Z.ltb_spec i w); [by rewrite Z.mod_pow2_bits_low by lia |].
  rewrite Z.mod_pow2_bits_high by lia. by rewrite Hb.
Qed.

(** The bits of an updated word. *)
Lemma update_bits e s (b : bool) j :
  0 <= s < 64 -> 0 <= j < 64 -> 0 <= e < 2 ^ 64 ->
  let e' := if b then Z.lor e (Z.shiftl 1 s) else Z.land e (u64 (Z.lnot (Z.shiftl 1 s))) in
  Z.testbit e' j = (if decide (s = j) then b else Z.testbit e j) /\ 0 <= e' < 2 ^ 64.
Proof.
  intros Hs Hj He. cbn zeta. rewrite Z.shiftl_1_l. split.
  - destruct b.
    + rewrite Z.lor_spec. case_decide; subst; [by rewrite Z.pow2_bits_true, orb_true_r by lia |].
      by rewrite Z.pow2_bits_false, orb_false_r by done.
    + rewrite Z.land_spec. unfold wrap. rewrite Z.mod_pow2_bits_low, Z.lnot_spec by lia.
      case_decide; subst; [by rewrite Z.pow2_bits_true, andb_false_r by lia |].
      by rewrite Z.pow2_bits_false, andb_true_r by done.
  - destruct b.
    + split; [apply Z.lor_nonneg; lia |]. apply bits_bound; [lia |]. intros i Hi.
      rewrite Z.lor_spec, Z.pow2_bits_false, <- (Z.mod_small e (2 ^ 64)), Z.mod_pow2_bits_high by lia. done.
    + split; [apply Z.land_nonneg; lia |]. apply bits_bound; [lia |]. intros i Hi.
      by rewrite Z.land_spec, <- (Z.mod_small e (2 ^ 64)), Z.mod_pow2_bits_high by lia.
Qed.

Lemma Set_bit_bit v i b :
  bv_ok v -> 0 <= i < v.(Length) ->
  exists v', Set_bit v i b = Ret v' /\ bv_ok v' /\ v'.(Length) = v.(Length) /\
    forall j, 0 <= j < v.(Length) -> bit v' j = if decide (j = i) then b else bit v j.
Proof.
  intros Hv Hi. destruct (load_element_ok v i Hv Hi) as (map & e & Hm & Hl & He & Hr).
  unfold Set_bit. rewrite Hl. cbn [mbind outcome_bind]. set (e' := if b then _ else _).
  assert (forall j, 0 <= j < 64 -> Z.testbit e' j = (if decide (GetMapShift i = j) then b else Z.testbit e j) /\ 0 <= e' < 2 ^ 64) as Hb
    by (intros j Hj; apply update_bits; [apply shift_range | done | done]).
  eexists. split; [done |]. destruct Hv as (map' & Hm' & Hlen & Hf). rewrite Hm in Hm'. injection Hm' as <-. split_and!.
  - eexists. split; [done |]. cbn. rewrite length_insert. split; [done |]. apply Forall_insert; [done |].
    apply (Hb 0); lia.
  - done.
  - intros j Hj. unfold bit. cbn [m_map]. rewrite Hm.
    destruct (decide (Z.to_nat (GetMapIndex i) = Z.to_nat (GetMapIndex j))) as [Heq | Hne].
    + rewrite <- Heq, list_lookup_insert_eq by (by eapply lookup_lt_Some). rewrite He.
      rewrite (proj1 (Hb (GetMapShift j) (shift_range j))).
      unfold GetMapIndex, GetMapShift, mapBits in *.
      assert (i / 64 = j / 64) by (Z.to_euclidean_division_equations; lia).
      destruct (decide (j = i)) as [-> | Hji]; [by rewrite decide_True |].
      rewrite decide_False; [done |]. intros Hmod. apply Hji. rewrite (Z.div_mod j 64), (Z.div_mod i 64) by lia. congruence.
    + rewrite list_lookup_insert_ne by done. by destruct (decide (j = i)) as [-> |].
Qed.

(** Fact: the bit vector is an array of booleans: on an initialised vector a bit that was
    set reads back as written, and every other bit reads as before, across all word
    boundaries. *)
Theorem Bitvector_get_set v i b :
  bv_ok v -> 0 <= i < v.(Length) ->
  exists v', Set_bit v i b = Ret v' /\ bv_ok v' /\
    (forall j, 0 <= j < v.(Length) -> Get v' j = if decide (j = i) then Ret b else Get v j).
Proof.
  intros Hv Hi. destruct (Set_bit_bit v i b Hv Hi) as (v' & -> & Hv' & Hl & Hb).
  exists v'. split_and!; [done.. |]. intros j Hj. rewrite Get_bit, Hb by (done || lia).
  case_decide; [done |]. by rewrite Get_bit.
Qed.

Lemma Bitvector_get_set_witness :
  exists v', Set_bit (Initialize (new_Bitvector 100)) 65 true = Ret v' /\ bv_ok v' /\
    (forall j, 0 <= j < 100 -> Get v' j = if decide (j = 65) then Ret true else Get (Initialize (new_Bitvector 100)) j).
Proof. apply Bitvector_get_set; [apply Initialize_bv_ok; cbn; lia | cbn; lia]. Defined.
