(* ===== verification/MemoryMap.v ===== *)
(** The memory map handed over by the firmware.

    Models src/src/kernel/mem/MemoryMap.cpp.  The table is the list of its descriptors;
    [m_size] is its size in bytes and [m_descSize] the stride, both from the firmware. *)
From S2P Require Import Prelude OSSystem PageTables.

(** [EFI_MEMORY_TYPE] and the attribute bit used here (efidef.h). *)
Definition EfiLoaderCode : Z := 1.
Definition EfiBootServicesCode : Z := 3.
Definition EfiBootServicesData : Z := 4.
Definition EfiConventionalMemory : Z := 7.
Definition EFI_MEMORY_RUNTIME : Z := 0x8000000000000000.

Record EFI_MEMORY_DESCRIPTOR := {
  Type_ : Z;
  PhysicalStart : Z;
  VirtualStart : Z;
  NumberOfPages : Z;
  Attribute : Z
}.

Record MemoryMap := {
  m_table : list EFI_MEMORY_DESCRIPTOR;
  m_descSize : Z
}.

Definition m_size (m : MemoryMap) : Z := Z.of_nat (length m.(m_table)) * m.(m_descSize).

Definition Length (m : MemoryMap) : Z := m_size m / m.(m_descSize).

Definition Get (m : MemoryMap) (index : Z) : outcome EFI_MEMORY_DESCRIPTOR :=
  _ ← Assert (index <? Length m);
  match m.(m_table) !! Z.to_nat index with Some d => Ret d | None => Fault end.

(** One step of the reclaiming loop: the [case]s have no [break] but nothing follows. *)
Definition reclaim (d : EFI_MEMORY_DESCRIPTOR) : outcome EFI_MEMORY_DESCRIPTOR :=
  if (d.(Type_) =? EfiBootServicesCode) || (d.(Type_) =? EfiBootServicesData) || (d.(Type_) =? EfiLoaderCode) then
    _ ← Assert (Z.land d.(Attribute) EFI_MEMORY_RUNTIME =? 0);
    Ret {| Type_ := EfiConventionalMemory; PhysicalStart := d.(PhysicalStart); VirtualStart := d.(VirtualStart);
           NumberOfPages := d.(NumberOfPages); Attribute := d.(Attribute) |}
  else Ret d.

Fixpoint reclaim_all (ds : list EFI_MEMORY_DESCRIPTOR) : outcome (list EFI_MEMORY_DESCRIPTOR) :=
  match ds with
  | [] => Ret []
  | d :: ds => d ← reclaim d; ds ← reclaim_all ds; Ret (d :: ds)
  end.

(** The bytes the copy moves: [m_size] is already in bytes. *)
Definition copied_bytes (m : MemoryMap) : Z := u64 (m_size m * m.(m_descSize)).

Definition Reallocate (m : MemoryMap) : outcome MemoryMap :=
  ds ← reclaim_all m.(m_table);
  Ret {| m_table := ds; m_descSize := m.(m_descSize) |}.

Definition end_address (d : EFI_MEMORY_DESCRIPTOR) : Z :=
  u64 (d.(PhysicalStart) + u64 (Z.shiftl d.(NumberOfPages) PageShift)).

Definition GetPhysicalAddressSize (m : MemoryMap) : Z :=
  foldl (fun highest d => if highest <? end_address d then end_address d else highest) 0 m.(m_table).

(** [largest] starts at the first descriptor, whatever its type. *)
Definition GetLargestConventionalAddress (m : MemoryMap) : outcome Z :=
  match m.(m_table) with
  | [] => Fault
  | first :: _ =>
      let largest := foldl (fun largest d =>
        if negb (d.(Type_) =? EfiConventionalMemory) then largest
        else if largest.(NumberOfPages) <? d.(NumberOfPages) then d else largest) first m.(m_table) in
      Ret largest.(PhysicalStart)
  end.

Fixpoint MapRuntime_loop (s : machine) (root : Z) (ds : list EFI_MEMORY_DESCRIPTOR) : outcome machine :=
  match ds with
  | [] => Ret s
  | d :: ds =>
      if Z.land d.(Attribute) EFI_MEMORY_RUNTIME =? 0 then MapRuntime_loop s root ds
      else
        '(s, ok) ← MapPages s root d.(VirtualStart) d.(PhysicalStart) d.(NumberOfPages) true;
        _ ← Assert ok;
        MapRuntime_loop s root ds
  end.

Definition MapRuntime (m : MemoryMap) (s : machine) (root : Z) : outcome machine :=
  MapRuntime_loop s root m.(m_table).

(** ** Properties *)

Lemma Length_table m : 0 < m.(m_descSize) -> Length m = Z.of_nat (length m.(m_table)).
Proof. intros. unfold Length, m_size. apply Z.div_mul. lia. Qed.

Lemma Get_table m i : 0 < m.(m_descSize) -> (i < length m.(m_table))%nat ->
  exists d, m.(m_table) !! i = Some d /\ Get m (Z.of_nat i) = Ret d.
Proof.
  intros Hd Hi. destruct (lookup_lt_is_Some_2 _ _ Hi) as [d Hl]. exists d. split; [done |].
  unfold Get. rewrite Length_table, (proj2 (Z.ltb_lt _ _)) by lia. cbn. by rewrite Nat2Z.id, Hl.
Qed.

(** Fact: the physical address size is the highest end of any region: every region ends at
    or below it, and some region ends there unless the table is empty or all zero. *)
Theorem GetPhysicalAddressSize_max m :
  let top := GetPhysicalAddressSize m in
  (forall d, d ∈ m.(m_table) -> end_address d <= top) /\
  (top = 0 \/ exists d, d ∈ m.(m_table) /\ end_address d = top).
Proof.
  unfold GetPhysicalAddressSize. cbn zeta. set (f := fun highest d => _).
  assert (forall ds h, h <= foldl f h ds /\ (forall d, d ∈ ds -> end_address d <= foldl f h ds) /\
    (foldl f h ds = h \/ exists d, d ∈ ds /\ end_address d = foldl f h ds)) as H.
  { induction ds as [|d ds IH]; intros h; cbn [foldl].
    - split_and!; [lia | intros d Hd; by apply elem_of_nil in Hd | by left].
    - destruct (IH (f h d)) as (H1 & H2 & H3).
      assert (h <= f h d /\ end_address d <= f h d /\ (f h d = h \/ f h d = end_address d)) as (F1 & F2 & F3)
        by (unfold f; destruct (Z.ltb_spec h (end_address d)); lia).
      split_and!; [lia | |].
      + intros d' [-> | Hd]%elem_of_cons; [lia | by apply H2].
      + destruct H3 as [H3 | (d' & Hd & He)]; [| right; exists d'; split; [by right | done]].
        destruct F3 as [F3 | F3]; [left; congruence | right; exists d; split; [by left | congruence]]. }
  destruct (H (m_table m) 0) as (_ & H2 & H3). done.
Qed.

(** Fact: the region chosen for contiguous allocations need not be conventional memory:
    with a large firmware region first in the table its start is returned. *)
Theorem GetLargestConventionalAddress_reserved :
  let firmware := {| Type_ := 0; PhysicalStart := 0; VirtualStart := 0; NumberOfPages := 100; Attribute := 0 |} in
  let ram := {| Type_ := EfiConventionalMemory; PhysicalStart := 0x100000; VirtualStart := 0; NumberOfPages := 64; Attribute := 0 |} in
  GetLargestConventionalAddress {| m_table := [firmware; ram]; m_descSize := 48 |} = Ret firmware.(PhysicalStart) /\
  firmware.(PhysicalStart) <> ram.(PhysicalStart).
Proof. split; [reflexivity | done]. Qed.
