(* ===== verification/PMM.v ===== *)
(** The physical memory manager.

    Models src/src/kernel/mem/PMM.cpp and the [PageFrame] of src/src/LoaderParams.h: an
    array of 24-byte frames, each with its state and its link in the free list, and a
    bit vector with one bit per group ("buddy") of four pages. *)
From S2P Require Import Prelude OSSystem OSList Bitvector MemoryMap.

Inductive PageState := Free | Active | Reserved.

#[global] Instance PageState_eq_dec : EqDecision PageState.
Proof. solve_decision. Defined.

Definition GetPageState (desc : EFI_MEMORY_DESCRIPTOR) : PageState :=
  if desc.(Type_) =? EfiConventionalMemory then Free else Reserved.

Definition BuddySize : Z := 4.
Definition GetBuddyIndex (address : Z) : Z := Z.shiftr address PageShift / BuddySize.

Definition sizeof_PageFrame : Z := 24.

(** [f_states] and [f_links] are the fields of the array at [m_frames]. *)
Record PMM := {
  m_frames : Z;
  m_count : Z;
  f_states : list PageState;
  f_links : links;
  m_freeList : Z;               (** the address of the list head *)
  m_buddyMap : Bitvector;
  m_nextBuddy : Z
}.

Definition with_frames (p : PMM) (st : list PageState) (l : links) : PMM :=
  {| m_frames := p.(m_frames); m_count := p.(m_count); f_states := st; f_links := l;
     m_freeList := p.(m_freeList); m_buddyMap := p.(m_buddyMap); m_nextBuddy := p.(m_nextBuddy) |}.
Definition with_buddies (p : PMM) (b : Bitvector) (next : Z) : PMM :=
  {| m_frames := p.(m_frames); m_count := p.(m_count); f_states := p.(f_states); f_links := p.(f_links);
     m_freeList := p.(m_freeList); m_buddyMap := b; m_nextBuddy := next |}.

(** [&m_frames[i].Link]: the link is the first field. *)
Definition frame_addr (p : PMM) (i : Z) : Z := p.(m_frames) + sizeof_PageFrame * i.

Definition GetIndex (p : PMM) (entry : Z) : Z := (entry - p.(m_frames)) / sizeof_PageFrame.

Definition GetSize (p : PMM) : Z := u64 (p.(m_count) * sizeof_PageFrame).

(** The constructor; the frames are raw memory until [Initialize]. *)
Definition new_PMM (address count head : Z) : PMM :=
  {| m_frames := address; m_count := count; f_states := []; f_links := ∅; m_freeList := head;
     m_buddyMap := new_Bitvector (count / BuddySize); m_nextBuddy := 0 |}.

Fixpoint zero_links (n : nat) (a : Z) : links :=
  match n with
  | O => ∅
  | S n => <[a := {| Flink := 0; Blink := 0 |}]> (zero_links n (a + sizeof_PageFrame))
  end.

(** The body of the inner loop of [Initialize]. *)
Definition add_frame (p : PMM) (absIndex : Z) (state : PageState) : outcome PMM :=
  match p.(f_states) !! Z.to_nat absIndex with
  | None => Fault
  | Some _ =>
      let regionInUse := bool_decide (state <> Free) in
      let p := with_frames p (<[Z.to_nat absIndex := state]> p.(f_states)) p.(f_links) in
      let buddyIndex := absIndex / BuddySize in
      buddyInUse ← Bitvector.Get p.(m_buddyMap) buddyIndex;
      b ← Set_bit p.(m_buddyMap) buddyIndex (regionInUse || buddyInUse);
      let p := with_buddies p b p.(m_nextBuddy) in
      if negb regionInUse then
        l ← ListInsertHead p.(f_links) p.(m_freeList) (frame_addr p absIndex);
        Ret (with_frames p p.(f_states) l)
      else Ret p
  end.

Definition add_region (p : PMM) (desc : EFI_MEMORY_DESCRIPTOR) : outcome PMM :=
  let state := GetPageState desc in
  _ ← Assert (Z.land desc.(PhysicalStart) PageMask =? 0);
  let baseIndex := Z.shiftr desc.(PhysicalStart) PageShift in
  for_loop (Z.to_nat desc.(NumberOfPages)) 0 (fun j p => add_frame p (u64 (baseIndex + j)) state) p.

Definition Initialize (p : PMM) (memoryMap : MemoryMap) : outcome PMM :=
  let n := Z.to_nat p.(m_count) in
  let p := with_frames p (replicate n Free)
    (ListInitializeHead (zero_links n p.(m_frames)) p.(m_freeList)) in
  let p := with_buddies p (Bitvector.Initialize p.(m_buddyMap)) p.(m_nextBuddy) in
  p ← for_loop (Z.to_nat (MemoryMap.Length memoryMap)) 0
        (fun i p => desc ← MemoryMap.Get memoryMap i; add_region p desc) p;
  largest ← GetLargestConventionalAddress memoryMap;
  let index := Z.shiftr largest PageShift in
  Ret (with_buddies p p.(m_buddyMap) (u64 (index + (BuddySize - 1)) / BuddySize)).

(** [address] is an in/out reference: the result is the state, the return value and the
    address after the call. *)
Definition AllocatePage (p : PMM) (address : Z) : outcome (PMM * bool * Z) :=
  if negb (address =? 0) then
    _ ← Assert (Z.land address PageMask =? 0);
    let index := Z.shiftr address PageShift in
    _ ← Assert (index <? p.(m_count));
    match p.(f_states) !! Z.to_nat index with
    | None => Fault
    | Some st =>
        if decide (st <> Free) then Ret (p, false, address)
        else
          b ← Set_bit p.(m_buddyMap) (GetBuddyIndex address) true;
          l ← ListRemoveEntry p.(f_links) (frame_addr p index);
          Ret (with_buddies (with_frames p (<[Z.to_nat index := Active]> p.(f_states)) l) b p.(m_nextBuddy),
               true, address)
    end
  else
    empty ← ListIsEmpty p.(f_links) p.(m_freeList);
    _ ← Assert (negb empty);
    '(l, popped) ← ListRemoveHead p.(f_links) p.(m_freeList);
    let index := GetIndex p popped in
    let address := u64 (Z.shiftl index PageShift) in
    match p.(f_states) !! Z.to_nat index with
    | None => Fault
    | Some _ =>
        b ← Set_bit p.(m_buddyMap) (GetBuddyIndex address) true;
        Ret (with_buddies (with_frames p (<[Z.to_nat index := Active]> p.(f_states)) l) b p.(m_nextBuddy),
             true, address)
    end.

(** [NotImplemented()] bugchecks. *)
Definition DeallocatePage (p : PMM) (address : Z) : outcome PMM := Bugcheck.

(** The inner loop that looks for a group in use, with its [break]. *)
Fixpoint group_in_use (n : nat) (b : Bitvector) (i : Z) : outcome bool :=
  match n with
  | O => Ret false
  | S n => inUse ← Bitvector.Get b i; if (inUse : bool) then Ret true else group_in_use n b (i + 1)
  end.

Fixpoint AllocateContiguous_loop (fuel : nat) (p : PMM) (address pageCount buddyCount : Z)
  : outcome (PMM * bool * Z) :=
  match fuel with
  | O => Diverged
  | S fuel =>
      if p.(m_nextBuddy) <? u64 (p.(m_buddyMap).(Bitvector.Length) - buddyCount) then
        inUse ← group_in_use (Z.to_nat buddyCount) p.(m_buddyMap) p.(m_nextBuddy);
        if (inUse : bool) then
          AllocateContiguous_loop fuel (with_buddies p p.(m_buddyMap) (u64 (p.(m_nextBuddy) + 1)))
            address pageCount buddyCount
        else
          let index := u64 (p.(m_nextBuddy) * BuddySize) in
          let address := u64 (Z.shiftl index PageShift) in
          l ← for_loop (Z.to_nat pageCount) 0 (fun i l => ListRemoveEntry l (frame_addr p (index + i))) p.(f_links);
          b ← for_loop (Z.to_nat buddyCount) 0 (fun i b => Set_bit b (p.(m_nextBuddy) + i) false) p.(m_buddyMap);
          Ret (with_buddies (with_frames p p.(f_states) l) b (u64 (p.(m_nextBuddy) + buddyCount)), true, address)
      else Ret (p, false, address)
  end.

(** Every turn advances [m_nextBuddy], and a read beyond the bit vector bugchecks. *)
Definition AllocateContiguous (p : PMM) (address pageCount : Z) : outcome (PMM * bool * Z) :=
  let buddyCount := DivRoundUp pageCount BuddySize in
  AllocateContiguous_loop (S (S (Z.to_nat (p.(m_buddyMap).(Bitvector.Length) - p.(m_nextBuddy)))))
    p address pageCount buddyCount.

(** ** The free list

    [fl] lists the indices of the pages on the free list. *)
Record pmm_ok (p : PMM) (fl : list Z) : Prop := {
  ok_count : 0 <= p.(m_count) <= 2 ^ 52;
  ok_states : Z.of_nat (length p.(f_states)) = p.(m_count);
  ok_ring : ring p.(f_links) p.(m_freeList) (frame_addr p <$> fl);
  ok_free : forall i, i ∈ fl -> 0 <= i /\ p.(f_states) !! Z.to_nat i = Some Free;
  ok_buddies : bv_ok p.(m_buddyMap) /\ p.(m_buddyMap).(Bitvector.Length) * BuddySize = p.(m_count)
}.

Lemma frame_addr_inj p i j : frame_addr p i = frame_addr p j -> i = j.
Proof. unfold frame_addr, sizeof_PageFrame. lia. Qed.

#[global] Instance frame_addr_Inj p : Inj eq eq (frame_addr p).
Proof. intros i j. apply frame_addr_inj. Qed.

Lemma GetIndex_frame_addr p i : GetIndex p (frame_addr p i) = i.
Proof.
  unfold GetIndex, frame_addr, sizeof_PageFrame. replace (_ + _ - _) with (i * 24) by lia. by apply Z.div_mul.
Qed.

Lemma ok_index p fl i : pmm_ok p fl -> i ∈ fl -> 0 <= i < p.(m_count).
Proof.
  intros Hok Hi. destruct (ok_free _ _ Hok i Hi) as [H0 Hl]. apply lookup_lt_Some in Hl.
  pose proof (ok_states _ _ Hok). lia.
Qed.

Lemma ok_NoDup p fl : pmm_ok p fl -> NoDup fl.
Proof. intros Hok. destruct (ok_ring _ _ Hok) as [[_ Hn]%NoDup_cons _]. by eapply NoDup_fmap_1. Qed.

Lemma page_index i : 0 <= i <= 2 ^ 52 - 1 ->
  u64 (Z.shiftl i PageShift) = i * PageSize /\ Z.shiftr (i * PageSize) PageShift = i /\
  Z.land (i * PageSize) PageMask = 0 /\ GetBuddyIndex (i * PageSize) = i / BuddySize.
Proof.
  intros Hi. assert (Z.shiftr (i * PageSize) PageShift = i) as Hs
    by (rewrite Z.shiftr_div_pow2 by done; by apply Z.div_mul).
  split_and!; [| done | |].
  - rewrite Z.shiftl_mul_pow2 by done. change (2 ^ PageShift) with PageSize. change PageSize with 4096. rewrite wrap_small; lia.
  - change PageMask with (Z.ones 12). rewrite Z.land_ones by lia. by apply Z.mod_mul.
  - unfold GetBuddyIndex. by rewrite Hs.
Qed.

(** Taking page [i] off the list, whichever way it was unlinked. *)
Lemma take_page p fl fl' l i :
  pmm_ok p fl -> i ∈ fl -> i ∉ fl' -> (forall j, j ∈ fl' -> j ∈ fl) ->
  ring l p.(m_freeList) (frame_addr p <$> fl') ->
  exists b, Set_bit p.(m_buddyMap) (GetBuddyIndex (i * PageSize)) true = Ret b /\
    pmm_ok (with_buddies (with_frames p (<[Z.to_nat i := Active]> p.(f_states)) l) b p.(m_nextBuddy)) fl'.
Proof.
  intros Hok Hi Hni Hsub Hr. pose proof (ok_index _ _ _ Hok Hi) as Hidx. pose proof (ok_count _ _ Hok).
  destruct (ok_buddies _ _ Hok) as [Hbv Hlen]. destruct (page_index i ltac:(lia)) as (_ & _ & _ & ->).
  destruct (Set_bit_bit p.(m_buddyMap) (i / BuddySize) true Hbv) as (b & Hset & Hbv' & Hl' & _).
  { unfold BuddySize in *. Z.to_euclidean_division_equations. lia. }
  exists b. split; [done |]. constructor; cbn.
  - done.
  - by rewrite length_insert, (ok_states _ _ Hok).
  - done.
  - intros j Hj. destruct (ok_free _ _ Hok j (Hsub j Hj)) as [H0 Hf]. split; [done |].
    rewrite list_lookup_insert_ne; [done |]. intros Heq. apply Hni. replace i with j by lia. done.
  - split; [done |]. by rewrite Hl'.
Qed.

Lemma AllocatePage_pop p i fl :
  pmm_ok p (i :: fl) -> exists p', AllocatePage p 0 = Ret (p', true, i * PageSize) /\ pmm_ok p' fl /\
    p'.(f_states) = <[Z.to_nat i := Active]> p.(f_states) /\ p'.(m_count) = p.(m_count).
Proof.
  intros Hok. assert (i ∈ i :: fl) as Hi by set_solver.
  pose proof (ok_index _ _ _ Hok Hi). pose proof (ok_count _ _ Hok).
  destruct (page_index i ltac:(lia)) as (Hsh & _ & _ & _).
  pose proof (ok_ring _ _ Hok) as Hr. unfold AllocatePage. cbn [Z.eqb negb].
  rewrite (ListIsEmpty_spec _ _ _ Hr). cbn [mbind outcome_bind fmap list_fmap].
  rewrite bool_decide_eq_false_2 by done. cbn [negb Assert mbind outcome_bind].
  destruct (ListRemoveHead_spec _ _ _ _ Hr) as (l & -> & Hr' & _). cbn [mbind outcome_bind].
  rewrite GetIndex_frame_addr, (proj2 (ok_free _ _ Hok i Hi)), Hsh.
  destruct (take_page p (i :: fl) fl l i Hok Hi) as (b & -> & Hok'); [| set_solver | done |].
  { pose proof (ok_NoDup _ _ Hok) as [? _]%NoDup_cons. done. }
  cbn [mbind outcome_bind]. eauto.
Qed.

(** Fact: a requested page.  [AllocatePage] with an address returns [false] and changes
    nothing when the page is active or reserved; for a page on the free list it
    succeeds, marks exactly that page active and takes exactly it off the list. *)
Theorem AllocatePage_at p fl i :
  pmm_ok p fl -> 0 < i < p.(m_count) ->
  (forall st, p.(f_states) !! Z.to_nat i = Some st -> st <> Free ->
    AllocatePage p (i * PageSize) = Ret (p, false, i * PageSize)) /\
  (i ∈ fl -> exists p', AllocatePage p (i * PageSize) = Ret (p', true, i * PageSize) /\
    pmm_ok p' (filter (.≠ i) fl) /\ p'.(f_states) = <[Z.to_nat i := Active]> p.(f_states)).
Proof.
  intros Hok Hi. pose proof (ok_count _ _ Hok). destruct (page_index i ltac:(lia)) as (_ & Hs & Hm & _).
  assert (AllocatePage p (i * PageSize) = match p.(f_states) !! Z.to_nat i with
    | None => Fault
    | Some st => if decide (st <> Free) then Ret (p, false, i * PageSize)
        else b ← Set_bit p.(m_buddyMap) (GetBuddyIndex (i * PageSize)) true;
          l ← ListRemoveEntry p.(f_links) (frame_addr p i);
          Ret (with_buddies (with_frames p (<[Z.to_nat i := Active]> p.(f_states)) l) b p.(m_nextBuddy), true, i * PageSize)
    end) as ->.
  { unfold AllocatePage. rewrite (proj2 (Z.eqb_neq (i * PageSize) 0)) by (change PageSize with 4096; lia).
    cbn [negb]. rewrite Hm. cbn [Z.eqb Assert mbind outcome_bind]. rewrite Hs, (proj2 (Z.ltb_lt _ _)) by lia. done. }
  split.
  - intros st -> Hst. by rewrite decide_True.
  - intros Hin. rewrite (proj2 (ok_free _ _ Hok i Hin)), decide_False by (intros []; done).
    pose proof (ok_NoDup _ _ Hok) as Hnd. apply list_elem_of_split in Hin as (us & vs & ->).
    rewrite filter_remove by done. pose proof (ok_ring _ _ Hok) as Hr. rewrite fmap_app in Hr. cbn in Hr.
    destruct (ListRemoveEntry_spec _ _ _ _ _ Hr) as (l & Hl & Hr' & _). rewrite <- fmap_app in Hr'.
    apply NoDup_app in Hnd as (_ & Hd & [Hv _]%NoDup_cons).
    assert (i ∉ us ++ vs) as Hn.
    { rewrite elem_of_app. intros [Hu |]; [apply (Hd i Hu); set_solver | done]. }
    destruct (take_page p (us ++ i :: vs) (us ++ vs) l i Hok) as (b & -> & Hok'); [set_solver | done | set_solver | done |].
    cbn [mbind outcome_bind]. rewrite Hl. cbn [mbind outcome_bind]. eauto.
Qed.

(** ** Runs of allocations *)

Fixpoint AllocatePages (n : nat) (p : PMM) : outcome (PMM * list Z) :=
  match n with
  | O => Ret (p, [])
  | S n => '(p, ok, a) ← AllocatePage p 0; '(p, l) ← AllocatePages n p; Ret (p, a :: l)
  end.

(** C6: no page is handed out twice.  From a well-formed free list of at least [n] pages,
    [n] allocations succeed and return the addresses of [n] different pages, all of them
    free before and active afterwards; with an empty list the next one bugchecks. *)
Theorem AllocatePages_distinct p fl n :
  pmm_ok p fl ->
  ((n <= length fl)%nat -> exists p', AllocatePages n p = Ret (p', (fun i => i * PageSize) <$> take n fl) /\
    NoDup (take n fl) /\ pmm_ok p' (drop n fl) /\
    forall i, i ∈ take n fl -> p.(f_states) !! Z.to_nat i = Some Free /\ p'.(f_states) !! Z.to_nat i = Some Active) /\
  (fl = [] -> AllocatePage p 0 = Bugcheck).
Proof.
  intros Hok. split.
  - intros Hn. pose proof (ok_NoDup _ _ Hok) as Hnd.
    enough (forall n fl p, pmm_ok p fl -> (n <= length fl)%nat ->
      exists p', AllocatePages n p = Ret (p', (fun i => i * PageSize) <$> take n fl) /\ pmm_ok p' (drop n fl) /\
        forall i, 0 <= i -> p'.(f_states) !! Z.to_nat i =
          if decide (i ∈ take n fl) then Some Active else p.(f_states) !! Z.to_nat i) as H.
    { destruct (H n fl p Hok Hn) as (p' & Ha & Hok' & Hst). exists p'. split_and!; [done | | done |].
      - rewrite <- (take_drop n fl) in Hnd. by apply NoDup_app in Hnd as [? _].
      - intros i Hi. destruct (ok_free _ _ Hok i) as [H0 Hf]; [rewrite <- (take_drop n fl); set_solver |].
        split; [done |]. by rewrite Hst, decide_True. }
    clear. induction n as [|n IH]; intros fl p Hok Hn; cbn [AllocatePages].
    + exists p. split_and!; [done | by rewrite drop_0 |]. intros i _. by rewrite decide_False by set_solver.
    + destruct fl as [|i fl]; [cbn in Hn; lia |]. destruct (AllocatePage_pop _ _ _ Hok) as (p1 & -> & Hok1 & Hst1 & _).
      cbn [mbind outcome_bind]. destruct (IH fl p1 Hok1) as (p2 & -> & Hok2 & Hst2); [cbn in Hn; lia |].
      cbn [mbind outcome_bind]. exists p2. split_and!; [done.. |]. intros j Hj. rewrite Hst2, Hst1 by done. cbn [take].
      destruct (ok_free _ _ Hok i) as [Hi0 Hif]; [set_solver |].
      destruct (decide (j = i)) as [-> | Hji].
      * rewrite (decide_True (P := i ∈ i :: take n fl)) by set_solver. case_decide; [done |].
        apply list_lookup_insert_eq. by eapply lookup_lt_Some.
      * rewrite list_lookup_insert_ne by lia. case_decide; [by rewrite decide_True by set_solver |].
        by rewrite decide_False by set_solver.
  - intros ->. unfold AllocatePage. cbn [Z.eqb negb]. by rewrite (ListIsEmpty_spec _ _ _ (ok_ring _ _ Hok)).
Qed.

(** ** Initialisation *)

Definition region_pages (d : EFI_MEMORY_DESCRIPTOR) : list Z := seqZ (d.(PhysicalStart) / PageSize) d.(NumberOfPages).

(** The free list after the descriptors [ds]: each page is inserted at the head. *)
Definition free_pages (ds : list EFI_MEMORY_DESCRIPTOR) : list Z :=
  foldl (fun fl d => if decide (GetPageState d = Free) then reverse (region_pages d) ++ fl else fl) [] ds.

(** Page aligned regions inside the frame array. *)
Definition region_ok (p : PMM) (d : EFI_MEMORY_DESCRIPTOR) : Prop :=
  0 <= d.(PhysicalStart) < 2 ^ 64 /\ d.(PhysicalStart) mod PageSize = 0 /\ 0 <= d.(NumberOfPages) /\
  d.(PhysicalStart) / PageSize + d.(NumberOfPages) <= p.(m_count).

Lemma add_frame_spec p fl i st :
  pmm_ok p fl -> 0 <= i < p.(m_count) -> i ∉ fl -> frame_addr p i <> p.(m_freeList) ->
  exists p', add_frame p i st = Ret p' /\ pmm_ok p' (if decide (st = Free) then i :: fl else fl) /\
    p'.(m_count) = p.(m_count) /\ p'.(m_frames) = p.(m_frames) /\ p'.(m_freeList) = p.(m_freeList).
Proof.
  intros Hok Hi Hn Hhd. unfold add_frame. pose proof (ok_states _ _ Hok).
  destruct (lookup_lt_is_Some_2 p.(f_states) (Z.to_nat i)) as [s0 Hs0]; [lia |]. rewrite Hs0. cbn [m_buddyMap with_frames].
  destruct (ok_buddies _ _ Hok) as [Hbv Hlen].
  assert (0 <= i / BuddySize < p.(m_buddyMap).(Bitvector.Length)) as Hbi
    by (unfold BuddySize in *; Z.to_euclidean_division_equations; lia).
  rewrite (Get_bit _ _ Hbv Hbi). cbn [mbind outcome_bind].
  destruct (Set_bit_bit _ (i / BuddySize) (bool_decide (st <> Free) || bit p.(m_buddyMap) (i / BuddySize)) Hbv Hbi)
    as (b & -> & Hbv' & Hl' & _). cbn [mbind outcome_bind].
  assert (forall j, j ∈ fl -> 0 <= j /\ <[Z.to_nat i := st]> p.(f_states) !! Z.to_nat j = Some Free) as Hfree.
  { intros j Hj. destruct (ok_free _ _ Hok j Hj). split; [done |]. rewrite list_lookup_insert_ne; [done |].
    intros Heq. apply Hn. by replace i with j by lia. }
  destruct (decide (st = Free)) as [-> | Hst].
  - rewrite bool_decide_eq_false_2 by (intros []; done). cbn [negb with_buddies with_frames f_links m_freeList].
    change (frame_addr (with_buddies _ _ _) i) with (frame_addr p i).
    destruct (ListInsertHead_spec _ _ _ (frame_addr p i) (ok_ring _ _ Hok)) as (l & -> & Hr & _).
    { rewrite not_elem_of_cons. split; [done |]. by rewrite list_elem_of_fmap_inj by apply _. }
    cbn [mbind outcome_bind]. eexists. split; [done |]. split_and!; try done. constructor; cbn; try done.
    + apply (ok_count _ _ Hok).
    + by rewrite length_insert.
    + intros j [-> | Hj]%elem_of_cons; [| by apply Hfree]. split; [lia |]. apply list_lookup_insert_eq. lia.
    + by rewrite Hl'.
  - rewrite bool_decide_eq_true_2 by done. cbn [negb]. eexists. split; [done |]. split_and!; try done. constructor; cbn; try done.
    + apply (ok_count _ _ Hok).
    + by rewrite length_insert.
    + apply (ok_ring _ _ Hok).
    + by rewrite Hl'.
Qed.

Lemma reverse_seqZ_S m j : 0 <= j -> reverse (seqZ m (j + 1)) = (m + j) :: reverse (seqZ m j).
Proof.
  intros Hj. rewrite (seqZ_app m j 1) by lia. rewrite reverse_app. done.
Qed.

Lemma add_region_spec p fl d :
  pmm_ok p fl -> region_ok p d -> (forall i, i ∈ region_pages d -> i ∉ fl /\ frame_addr p i <> p.(m_freeList)) ->
  exists p', add_region p d = Ret p' /\
    pmm_ok p' (if decide (GetPageState d = Free) then reverse (region_pages d) ++ fl else fl) /\
    p'.(m_count) = p.(m_count) /\ p'.(m_frames) = p.(m_frames) /\ p'.(m_freeList) = p.(m_freeList).
Proof.
  intros Hok (Hs & Ha & Hn0 & Hfit) Hdis. pose proof (ok_count _ _ Hok) as Hcnt. unfold add_region.
  change PageMask with (Z.ones 12). rewrite Z.land_ones, Z.shiftr_div_pow2 by (done || lia).
  change (2 ^ 12) with PageSize. change (2 ^ PageShift) with PageSize. rewrite Ha. cbn [Z.eqb Assert mbind outcome_bind].
  set (base := PhysicalStart d / PageSize) in *.
  assert (0 <= base) by (apply Z.div_pos; [lia | done]).
  destruct (for_loop_inv (fun j q => pmm_ok q (if decide (GetPageState d = Free) then reverse (seqZ base j) ++ fl else fl) /\
      q.(m_count) = p.(m_count) /\ q.(m_frames) = p.(m_frames) /\ q.(m_freeList) = p.(m_freeList))
    (Z.to_nat (NumberOfPages d)) 0 (fun j p => add_frame p (u64 (base + j)) (GetPageState d)) p) as (q & Hq & Hok' & Hc).
  - split; [| done]. by case_decide.
  - intros j q Hj (Hokq & Hcq & Hfq & Hlq). rewrite wrap_small by lia.
    destruct (Hdis (base + j)) as [Hni Hhd]; [apply elem_of_seqZ; lia |].
    destruct (add_frame_spec q _ (base + j) (GetPageState d) Hokq) as (q' & -> & Hokq' & Hc' & Hf' & Hl');
      [lia | | by unfold frame_addr in *; rewrite Hfq, Hlq |].
    { case_decide; [| done]. rewrite elem_of_app, elem_of_reverse, elem_of_seqZ. intros [? | ?]; [lia | done]. }
    exists q'. split; [done |]. split_and!; [| congruence..].
    case_decide; [| done]. by rewrite reverse_seqZ_S by lia.
  - exists q. split_and!; [done | | apply Hc..]. rewrite Z2Nat.id in Hok' by done. done.
Qed.

Lemma free_pages_sub ds i : i ∈ free_pages ds -> exists d, d ∈ ds /\ i ∈ region_pages d.
Proof.
  unfold free_pages. induction ds as [|d ds IH] using rev_ind; [by intros ?%elem_of_nil |].
  rewrite foldl_snoc. case_decide.
  - rewrite elem_of_app, elem_of_reverse. intros [? | (d' & ? & ?)%IH]; [exists d; set_solver | exists d'; set_solver].
  - intros (d' & ? & ?)%IH. exists d'. set_solver.
Qed.

Lemma zero_links_lookup n a i : 0 <= i < Z.of_nat n -> is_Some (zero_links n a !! (a + sizeof_PageFrame * i)).
Proof.
  revert a i. induction n as [|n IH]; intros a i Hi; [lia |]. cbn. unfold sizeof_PageFrame in *.
  destruct (decide (i = 0)) as [-> |]; [rewrite Z.mul_0_r, Z.add_0_r, lookup_insert_eq; eauto |].
  rewrite lookup_insert_ne by lia. replace (a + 24 * i) with (a + 24 + 24 * (i - 1)) by lia. apply IH. lia.
Qed.

Lemma PMM_Initialize_ok base count head m first ds :
  m.(m_table) = first :: ds -> 0 < m.(m_descSize) -> 0 <= count <= 2 ^ 52 -> count mod BuddySize = 0 ->
  (head < base \/ base + sizeof_PageFrame * count <= head) ->
  let p := new_PMM base count head in
  (forall d, d ∈ m.(m_table) -> region_ok p d) ->
  (forall i j d e, m.(m_table) !! i = Some d -> m.(m_table) !! j = Some e -> i <> j ->
    forall x, x ∈ region_pages d -> x ∉ region_pages e) ->
  exists p', Initialize p m = Ret p' /\ pmm_ok p' (free_pages m.(m_table)).
Proof.
  intros Htab Hds Hcnt Hmod Hhead p Hreg Hdis. unfold Initialize. set (p1 := with_buddies _ _ _).
  assert (0 <= count / BuddySize /\ count / BuddySize * BuddySize = count) as [Hb0 Hb1].
  { unfold BuddySize in *. Z.to_euclidean_division_equations. lia. }
  assert (pmm_ok p1 []) as Hok1.
  { constructor; cbn; [done | rewrite length_replicate; lia | | intros i Hi; by apply elem_of_nil in Hi |].
    - apply (ring_init _ head).
    - split; [apply Initialize_bv_ok; cbn; unfold BuddySize in *; lia | done]. }
  rewrite Length_table, Nat2Z.id by done.
  set (P := fun i q => pmm_ok q (free_pages (take (Z.to_nat i) m.(m_table))) /\
    q.(m_count) = count /\ q.(m_frames) = base /\ q.(m_freeList) = head).
  destruct (for_loop_inv P (length m.(m_table)) 0 (fun i p => desc ← MemoryMap.Get m i; add_region p desc) p1)
    as (q & -> & Hq & _).
  - split; [exact Hok1 | done].
  - intros j q Hj (Hokq & Hcq & Hfq & Hlq).
    destruct (Get_table m (Z.to_nat j) Hds) as (d & Hd & Hg); [lia |]. rewrite Z2Nat.id in Hg by lia. rewrite Hg.
    cbn [mbind outcome_bind].
    assert (region_ok q d) as Hrd.
    { destruct (Hreg d) as (? & ? & ? & ?); [by eapply list_elem_of_lookup_2 |]. unfold region_ok. rewrite Hcq. done. }
    destruct (add_region_spec q _ d Hokq Hrd) as (q' & -> & Hok' & Hc' & Hf' & Hl').
    + intros i Hi. split.
      * intros (e & He & Hie)%free_pages_sub. apply list_elem_of_lookup_1 in He as [k Hk].
        apply lookup_take_Some in Hk as [Hk Hkl].
        eapply (Hdis (Z.to_nat j) k d e Hd Hk); [lia | done | done].
      * destruct Hrd as (? & ? & ? & ?). apply elem_of_seqZ in Hi. assert (0 <= PhysicalStart d / PageSize) by (apply Z.div_pos; [lia | done]).
        unfold frame_addr, sizeof_PageFrame in *. rewrite Hfq, Hlq. lia.
    + exists q'. split; [done |]. split_and!; [| congruence..].
      replace (Z.to_nat (j + 1)) with (S (Z.to_nat j)) by lia. rewrite (take_S_r _ _ _ Hd).
      unfold free_pages. by rewrite foldl_snoc.
  - cbn [mbind outcome_bind]. unfold GetLargestConventionalAddress. rewrite Htab. cbn [mbind outcome_bind].
    eexists. split; [done |]. rewrite Z.add_0_l, Nat2Z.id, take_ge, Htab in Hq by done.
    destruct Hq as [H1 H2 H3 H4 H5]. by constructor.
Qed.

(** Fact: [Initialize] builds the free list from the memory map: for a table of disjoint,
    page aligned regions inside the frame array (a multiple of four pages long), it
    returns, and the free list holds exactly the pages of the conventional regions, each
    of them in state [Free]. *)
Theorem PMM_Initialize_correct base count head m first ds :
  m.(m_table) = first :: ds -> 0 < m.(m_descSize) -> 0 <= count <= 2 ^ 52 -> count mod BuddySize = 0 ->
  (head < base \/ base + sizeof_PageFrame * count <= head) ->
  (forall d, d ∈ m.(m_table) -> region_ok (new_PMM base count head) d) ->
  (forall i j d e, m.(m_table) !! i = Some d -> m.(m_table) !! j = Some e -> i <> j ->
    forall x, x ∈ region_pages d -> x ∉ region_pages e) ->
  exists p', Initialize (new_PMM base count head) m = Ret p' /\ pmm_ok p' (free_pages m.(m_table)) /\
    forall x, x ∈ free_pages m.(m_table) <->
      exists d, d ∈ m.(m_table) /\ GetPageState d = Free /\ x ∈ region_pages d.
Proof.
  intros. destruct (PMM_Initialize_ok base count head m first ds) as (p' & Hi & Hok); [done.. |].
  exists p'. split_and!; [done.. |]. intros x. clear. unfold free_pages.
  induction (m_table m) as [|d l IH] using rev_ind.
  { split; [by intros ?%elem_of_nil | by intros (? & ?%elem_of_nil & _)]. }
  rewrite foldl_snoc. setoid_rewrite elem_of_app. setoid_rewrite list_elem_of_singleton.
  case_decide; rewrite ?elem_of_app, ?elem_of_reverse, IH; naive_solver.
Qed.

(** A machine with 16 frames: 4 firmware pages, then 12 pages of conventional memory. *)
Definition demo_map : MemoryMap :=
  {| m_table :=
       [{| Type_ := 0; PhysicalStart := 0; VirtualStart := 0; NumberOfPages := 4; Attribute := 0 |};
        {| Type_ := EfiConventionalMemory; PhysicalStart := 0x4000; VirtualStart := 0; NumberOfPages := 12; Attribute := 0 |}];
     m_descSize := 48 |}.

Lemma demo_region d : d ∈ demo_map.(m_table) -> region_ok (new_PMM 0x1000 16 0x500) d.
Proof. intros [-> | [-> | []%elem_of_nil]%elem_of_cons]%elem_of_cons; vm_compute; intuition congruence. Qed.

Lemma demo_disjoint i j d e :
  demo_map.(m_table) !! i = Some d -> demo_map.(m_table) !! j = Some e -> i <> j ->
  forall x, x ∈ region_pages d -> x ∉ region_pages e.
Proof.
  intros Hd He Hij x. unfold region_pages.
  destruct i as [|[|[|i]]], j as [|[|[|j]]]; try done; cbn in Hd, He; simplify_eq;
    change PageSize with 4096; cbn [PhysicalStart NumberOfPages]; rewrite !elem_of_seqZ; vm_compute (_ / _); lia.
Qed.

Lemma demo_pmm_ok : exists p, Initialize (new_PMM 0x1000 16 0x500) demo_map = Ret p /\
  pmm_ok p (reverse (seqZ 4 12)).
Proof.
  destruct (PMM_Initialize_ok 0x1000 16 0x500 demo_map _ _ eq_refl) as (p & Hi & Hok);
    [done | done | done | left; done | apply demo_region | apply demo_disjoint |]. exists p. split; [done | exact Hok].
Qed.

Lemma PMM_Initialize_correct_witness :
  exists p', Initialize (new_PMM 0x1000 16 0x500) demo_map = Ret p' /\ pmm_ok p' (free_pages demo_map.(m_table)) /\
    forall x, x ∈ free_pages demo_map.(m_table) <->
      exists d, d ∈ demo_map.(m_table) /\ GetPageState d = Free /\ x ∈ region_pages d.
Proof.
  apply (PMM_Initialize_correct 0x1000 16 0x500 demo_map _ _ eq_refl);
    [done | done | done | left; done | apply demo_region | apply demo_disjoint].
Defined.

Lemma AllocatePage_at_witness :
  exists p p', AllocatePage p (5 * PageSize) = Ret (p', true, 5 * PageSize) /\
    p'.(f_states) = <[Z.to_nat 5 := Active]> p.(f_states).
Proof.
  destruct demo_pmm_ok as (p & Hi & Hok).
  assert (p.(m_count) = 16) as Hc by (pose proof (ok_states _ _ Hok); vm_compute in Hi; injection Hi as <-; done).
  destruct (AllocatePage_at p _ 5 Hok ltac:(lia)) as [_ H].
  destruct H as (p' & Ha & _ & Hst); [apply elem_of_reverse, elem_of_seqZ; lia |].
  exists p, p'. split; [exact Ha | exact Hst].
Defined.

Lemma AllocatePages_distinct_witness :
  exists p p', AllocatePages 3 p = Ret (p', [15 * PageSize; 14 * PageSize; 13 * PageSize]) /\
    pmm_ok p' (reverse (seqZ 4 9)).
Proof.
  destruct demo_pmm_ok as (p & Hi & Hok).
  destruct (AllocatePages_distinct p _ 3 Hok) as [H _].
  destruct H as (p' & Ha & _ & Hok' & _); [vm_compute; lia |].
  assert ((fun i => i * PageSize) <$> take 3 (reverse (seqZ 4 12)) = [15 * PageSize; 14 * PageSize; 13 * PageSize]) as E
    by (vm_compute; reflexivity).
  assert (drop 3 (reverse (seqZ 4 12)) = reverse (seqZ 4 9)) as E' by (vm_compute; reflexivity).
  rewrite E in Ha. rewrite E' in Hok'. exists p, p'. split; [exact Ha | exact Hok'].
Defined.

(** ** Contiguous allocations *)

(** Four contiguous pages, then a request for the first of them by address. *)
Definition contiguous_run : outcome (Z * bool * Z * option PageState) :=
  p ← Initialize (new_PMM 0x1000 16 0x500) demo_map;
  '(p, ok1, a) ← AllocateContiguous p 0 4;
  let state := p.(f_states) !! Z.to_nat (a / PageSize) in
  '(p, ok2, b) ← AllocatePage p a;
  Ret (a, ok2, b, state).

(** Fact: contiguous pages are not marked as in use: [AllocateContiguous] leaves their frames
    in state [Free] and marks their groups free in the bit vector, so a later request for
    the same page by address succeeds and the page is handed out twice. *)
Theorem AllocateContiguous_double : contiguous_run = Ret (0x4000, true, 0x4000, Some Free).
Proof. vm_compute. reflexivity. Qed.
