(* ===== verification/VAS.v ===== *)
(** Virtual address spaces.

    Models src/src/kernel/mem/VAS.h and VAS.cpp, and the address-space layout of
    src/src/os.internal.h.  The reservations are kept in the order of the intrusive list
    ([ListInsertTail] appends); their nodes come from the heap, which bugchecks rather
    than fail. *)
From S2P Require Import Prelude OSSystem.

(** ** The layout: os.internal.h *)

Module Layout.

Definition UserStart : Z := 0x0.
Definition UserStop : Z := 0x0000800000000000.

Definition KernelSectionLength : Z := 0x1000000000.
Definition KernelStart : Z := 0xFFFF800000000000.
Definition KernelLibraryStart : Z := KernelStart.
Definition KernelBaseAddress : Z := 0xFFFF800001000000.
Definition KernelLibraryEnd : Z := 0xFFFF800010000000.
Definition KernelPdbStart : Z := KernelLibraryEnd.
Definition KernelKernelPdb : Z := 0xFFFF800011000000.
Definition KernelPdbEnd : Z := 0xFFFF800020000000.
Definition KernelStackStart : Z := KernelPdbEnd.
Definition KernelStackEnd : Z := 0xFFFF800030000000.
Definition KernelRuntimeStart : Z := KernelStackEnd.
Definition KernelRuntimeEnd : Z := 0xFFFF800040000000.
Definition KernelWindowsStart : Z := KernelRuntimeEnd.
Definition KernelWindowsEnd : Z := 0xFFFF800050000000.
Definition KernelHardwareStart : Z := KernelStart + KernelSectionLength.
Definition KernelPageTablesPool : Z := KernelHardwareStart.
Definition KernelGraphicsDevice : Z := KernelHardwareStart + 0x2000000.
Definition KernelRamDrive : Z := KernelHardwareStart + 0x4000000.
Definition KernelHardwareEnd : Z := KernelHardwareStart + 0x8000000.
Definition KernelPageFrameDBStart : Z := KernelHardwareStart + 0x100000000.
Definition KernelHeapStart : Z := KernelHardwareStart + KernelSectionLength.
Definition KernelHeapEnd : Z := KernelHeapStart + KernelSectionLength.
Definition KernelUefiStart : Z := KernelHeapEnd.
Definition KernelUefiEnd : Z := KernelUefiStart + KernelSectionLength.
Definition KernelAcpiStart : Z := KernelUefiEnd.
Definition KernelAcpiEnd : Z := KernelAcpiStart + KernelSectionLength.
Definition KernelIoStart : Z := KernelAcpiEnd.
Definition KernelIoEnd : Z := KernelIoStart + KernelSectionLength.
Definition KernelSharedPageStart : Z := 0xFFFFF78000000000.
Definition KernelSharedPageStop : Z := 0xFFFFF78000001000.
Definition KernelEnd : Z := 0xFFFFFFFFFFFFFFFF.

(** The regions of the two halves, in order of their addresses; the frame database
    runs up to the heap. *)
Definition regions : list (Z * Z) :=
  [(UserStart, UserStop);
   (KernelLibraryStart, KernelLibraryEnd); (KernelPdbStart, KernelPdbEnd);
   (KernelStackStart, KernelStackEnd); (KernelRuntimeStart, KernelRuntimeEnd);
   (KernelWindowsStart, KernelWindowsEnd);
   (KernelPageTablesPool, KernelGraphicsDevice); (KernelGraphicsDevice, KernelRamDrive);
   (KernelRamDrive, KernelHardwareEnd); (KernelPageFrameDBStart, KernelHeapStart);
   (KernelHeapStart, KernelHeapEnd); (KernelUefiStart, KernelUefiEnd);
   (KernelAcpiStart, KernelAcpiEnd); (KernelIoStart, KernelIoEnd);
   (KernelSharedPageStart, KernelSharedPageStop)].

Fixpoint ordered (lo : Z) (rs : list (Z * Z)) : bool :=
  match rs with
  | [] => true
  | (a, b) :: rs => (lo <=? a) && (a <? b) && (a mod PageSize =? 0) && (b mod PageSize =? 0) && ordered b rs
  end.

Lemma ordered_disjoint rs lo i j a b c d :
  ordered lo rs = true -> rs !! i = Some (a, b) -> rs !! j = Some (c, d) -> (i < j)%nat ->
  lo <= a /\ a < b /\ b <= c.
Proof.
  revert lo i j. induction rs as [|[x y] rs IH]; intros lo i j Ho Hi Hj Hij; [done |].
  cbn in Ho. zbool. destruct j as [|j]; [lia |]. cbn in Hj.
  assert (forall lo rs j, ordered lo rs = true -> rs !! j = Some (c, d) -> lo <= c) as Hlow.
  { clear. intros lo rs. revert lo. induction rs as [|[x y] rs IH]; intros lo [|j] Ho Hj; try done;
      cbn in Ho, Hj; zbool; simplify_eq; [done |]. pose proof (IH _ _ H0 Hj). lia. }
  destruct i as [|i]; cbn in Hi.
  - simplify_eq. pose proof (Hlow _ _ _ H0 Hj). lia.
  - destruct (IH y i j H0 Hi Hj) as (? & ? & ?); [lia |]. lia.
Qed.

(** Fact: the regions of the address space do not overlap: each is page aligned, not empty
    and ends before the next one starts, and every kernel region lies in the half whose
    addresses have the sign bit set. *)
Theorem layout_disjoint i j a b c d :
  regions !! i = Some (a, b) -> regions !! j = Some (c, d) -> (i < j)%nat ->
  a < b /\ b <= c /\ c mod PageSize = 0 /\ KernelStart <= c /\ d <= KernelEnd.
Proof.
  intros Hi Hj Hij. destruct (ordered_disjoint regions 0 i j a b c d) as (_ & ? & ?); [by vm_compute | done.. |].
  split_and!; [done.. | | |]; destruct j as [|j]; try lia; clear -Hj;
    repeat (destruct j as [|j]; [cbn in Hj; injection Hj as <- <-; by vm_compute |]); done.
Qed.

Lemma layout_disjoint_witness : KernelStackStart < KernelStackEnd /\ KernelStackEnd <= KernelHeapStart /\
  KernelHeapStart mod PageSize = 0 /\ KernelStart <= KernelHeapStart /\ KernelHeapEnd <= KernelEnd.
Proof. apply (layout_disjoint 3 10); [reflexivity | reflexivity | lia]. Defined.

End Layout.

(** ** The address space: VAS.h, VAS.cpp *)

Record Reservation := { Address : Z; PageCount : Z }.

Record VirtualAddressSpace := {
  IsGlobal : bool;
  m_reservations : list Reservation;
  m_start : Z;
  m_end : Z;
  m_watermark : Z;
  m_initialized : bool
}.

Definition AllocationGranularity : Z := Z.shiftl PageSize 2.

Definition new_space (start end_ : Z) (isGlobal : bool) : VirtualAddressSpace :=
  {| IsGlobal := isGlobal; m_reservations := []; m_start := start; m_end := end_;
     m_watermark := if start =? 0 then 0x140000000 else start; m_initialized := false |}.

Definition UserAddressSpace : VirtualAddressSpace := new_space Layout.UserStart Layout.UserStop false.

Definition Initialize (s : VirtualAddressSpace) : outcome VirtualAddressSpace :=
  _ ← Assert (negb s.(m_initialized));
  Ret {| IsGlobal := s.(IsGlobal); m_reservations := []; m_start := s.(m_start); m_end := s.(m_end);
         m_watermark := s.(m_watermark); m_initialized := true |}.

Definition pages_bytes (count : Z) : Z := u64 (Z.shiftl count PageShift).

(** One turn of the loop of [IsFree]: does [res] let the range pass? *)
Definition passes (address highAddress : Z) (res : Reservation) : bool :=
  let end_ := u64 (res.(Address) + pages_bytes res.(PageCount)) in
  negb ((res.(Address) <=? address) && (address <? end_)) &&
  negb ((res.(Address) <=? highAddress) && (highAddress <? end_)).

Definition IsFree (s : VirtualAddressSpace) (address count : Z) : outcome bool :=
  _ ← Assert s.(m_initialized);
  _ ← Assert (Z.land address PageMask =? 0);
  if (address <? s.(m_start)) || (s.(m_end) <=? address) then Ret false
  else
    let highAddress := u64 (address + pages_bytes count) in
    Ret (forallb (passes address highAddress) s.(m_reservations)).

Definition with_watermark (s : VirtualAddressSpace) (w : Z) : VirtualAddressSpace :=
  {| IsGlobal := s.(IsGlobal); m_reservations := s.(m_reservations); m_start := s.(m_start);
     m_end := s.(m_end); m_watermark := w; m_initialized := s.(m_initialized) |}.

Definition add_reservation (s : VirtualAddressSpace) (r : Reservation) : VirtualAddressSpace :=
  {| IsGlobal := s.(IsGlobal); m_reservations := s.(m_reservations) ++ [r]; m_start := s.(m_start);
     m_end := s.(m_end); m_watermark := s.(m_watermark); m_initialized := s.(m_initialized) |}.

(** [while (!IsFree(m_watermark, count))]; the assertion inside stops it at [m_end].  The
    number of turns is bounded by the size of the space over the granularity, far too
    large to be computed as a fuel, so the fuel is an argument. *)
Fixpoint find_watermark (fuel : nat) (s : VirtualAddressSpace) (count : Z) : outcome VirtualAddressSpace :=
  match fuel with
  | O => Diverged
  | S fuel =>
      free ← IsFree s s.(m_watermark) count;
      if (free : bool) then Ret s
      else
        _ ← Assert (s.(m_watermark) <? s.(m_end));
        find_watermark fuel (with_watermark s (u64 (s.(m_watermark) + AllocationGranularity))) count
  end.

(** [address] is an in/out reference; the result is the space, the return value and the
    address after the call. *)
Definition Reserve (fuel : nat) (s : VirtualAddressSpace) (address count : Z) : outcome (VirtualAddressSpace * bool * Z) :=
  _ ← Assert s.(m_initialized);
  _ ← Assert (negb (count =? 0));
  if negb (address =? 0) then
    free ← IsFree s address count;
    if (free : bool) then
      Ret (add_reservation s {| Address := address; PageCount := count |}, true, address)
    else Ret (s, false, address)
  else
    s ← find_watermark fuel s count;
    let address := s.(m_watermark) in
    let s := with_watermark s (u64 (s.(m_watermark) + ByteAlign (pages_bytes count) AllocationGranularity)) in
    Ret (add_reservation s {| Address := address; PageCount := count |}, true, address).

Definition IsValidPointer (s : VirtualAddressSpace) (p : Z) : outcome bool :=
  let page := Z.land p (u64 (Z.lnot PageMask)) in
  free ← IsFree s page 1;
  Ret (negb free).

(** ** Allocation from the watermark *)

Definition end_of (r : Reservation) : Z := r.(Address) + r.(PageCount) * PageSize.

(** The reservations made from the watermark lie below it, in order. *)
Fixpoint below (lo : Z) (rs : list Reservation) (hi : Z) : Prop :=
  match rs with
  | [] => lo <= hi
  | r :: rs => lo <= r.(Address) /\ 0 < r.(PageCount) /\ below (end_of r) rs hi
  end.

Record space_ok (s : VirtualAddressSpace) : Prop := {
  ok_initialized : s.(m_initialized) = true;
  ok_start : 0 <= s.(m_start) <= s.(m_watermark);
  ok_watermark : s.(m_watermark) mod PageSize = 0 /\ s.(m_watermark) <= 2 ^ 64;
  ok_below : below s.(m_start) s.(m_reservations) s.(m_watermark)
}.

Lemma below_elem lo rs hi r : below lo rs hi -> r ∈ rs -> lo <= r.(Address) /\ 0 < r.(PageCount) /\ end_of r <= hi.
Proof.
  revert lo. induction rs as [|x rs IH]; intros lo Hb Hr; [by apply elem_of_nil in Hr |]. cbn in Hb.
  destruct Hb as (? & ? & Hb).
  assert (forall lo rs, below lo rs hi -> lo <= hi) as Hle.
  { clear. intros lo rs. revert lo. induction rs as [|x rs IH]; intros lo Hb; [done |]. cbn in Hb.
    destruct Hb as (? & ? & Hb%IH). unfold end_of in *. change PageSize with 4096 in *. lia. }
  apply elem_of_cons in Hr as [-> | Hr].
  - split_and!; [done.. | by eapply Hle].
  - destruct (IH _ Hb Hr) as (? & ? & ?). unfold end_of in *. change PageSize with 4096 in *. split_and!; lia.
Qed.

Lemma below_snoc lo rs hi r :
  below lo rs hi -> hi <= r.(Address) -> 0 < r.(PageCount) -> forall hi', end_of r <= hi' -> below lo (rs ++ [r]) hi'.
Proof.
  intros Hb Hr Hc hi' He. revert lo Hb. induction rs as [|x rs IH]; intros lo Hb; cbn in Hb |- *.
  - split_and!; [lia | done | done].
  - destruct Hb as (? & ? & Hb). split_and!; [done.. | by apply IH].
Qed.

Lemma pages_bytes_eq c : 0 <= c -> c * PageSize < 2 ^ 64 -> pages_bytes c = c * PageSize.
Proof.
  intros. unfold pages_bytes. rewrite Z.shiftl_mul_pow2 by done. change (2 ^ PageShift) with PageSize.
  change PageSize with 4096 in *. apply wrap_small. lia.
Qed.

(** A range past every reservation passes the checks. *)
Lemma IsFree_above s a c :
  s.(m_initialized) = true -> a mod PageSize = 0 -> s.(m_start) <= a < s.(m_end) -> 0 <= a -> 0 <= c ->
  a + c * PageSize < 2 ^ 64 -> (forall r, r ∈ s.(m_reservations) -> 0 <= r.(Address) /\ 0 < r.(PageCount) /\ end_of r <= a) ->
  IsFree s a c = Ret true.
Proof.
  intros Hi Ha Hr H0 Hc Hb Hrs. unfold IsFree. rewrite Hi. change PageMask with (Z.ones 12).
  rewrite Z.land_ones by lia. change (2 ^ 12) with PageSize. rewrite Ha. cbn [Z.eqb Assert mbind outcome_bind].
  rewrite (proj2 (Z.ltb_ge _ _)), (proj2 (Z.leb_gt _ _)) by lia. cbn [orb]. f_equal.
  apply forallb_forall. intros r Hin%list_elem_of_In. destruct (Hrs r Hin) as (H1 & H2 & H3).
  unfold end_of in H3. unfold passes. change PageSize with 4096 in *.
  rewrite !pages_bytes_eq by (change PageSize with 4096; lia). change PageSize with 4096. rewrite !wrap_small by lia.
  rewrite !(proj2 (Z.ltb_ge _ (Address r + _))) by lia. by rewrite !andb_false_r.
Qed.

Lemma IsFree_outside s a c :
  s.(m_initialized) = true -> a mod PageSize = 0 -> s.(m_end) <= a -> IsFree s a c = Ret false.
Proof.
  intros Hi Ha He. unfold IsFree. rewrite Hi. change PageMask with (Z.ones 12).
  rewrite Z.land_ones by lia. change (2 ^ 12) with PageSize. rewrite Ha. cbn [Z.eqb Assert mbind outcome_bind].
  by rewrite (proj2 (Z.leb_le _ _) He), orb_true_r.
Qed.

Lemma ByteAlign_granularity b :
  0 <= b -> b + AllocationGranularity <= 2 ^ 64 ->
  b <= ByteAlign b AllocationGranularity < b + AllocationGranularity /\ ByteAlign b AllocationGranularity mod PageSize = 0.
Proof.
  intros. change AllocationGranularity with (2 ^ 14) in *. rewrite ByteAlign_spec by lia.
  pose proof (proj1 (DivRoundUp_spec b (2 ^ 14) ltac:(lia) ltac:(lia) ltac:(lia) ltac:(lia) _) eq_refl).
  split; [lia |]. change (2 ^ 14) with (4 * PageSize) at 2. rewrite Z.mul_assoc. by apply Z.mod_mul.
Qed.

Lemma find_watermark_first fuel s count :
  (0 < fuel)%nat -> IsFree s s.(m_watermark) count = Ret true -> find_watermark fuel s count = Ret s.
Proof. intros Hn Hf. destruct fuel; [lia |]. cbn. by rewrite Hf. Qed.

Lemma find_watermark_stop fuel s count :
  (0 < fuel)%nat -> IsFree s s.(m_watermark) count = Ret false -> s.(m_end) <= s.(m_watermark) ->
  find_watermark fuel s count = Bugcheck.
Proof.
  intros Hn Hf Hw. destruct fuel; [lia |]. cbn. rewrite Hf. cbn [mbind outcome_bind].
  by rewrite (proj2 (Z.ltb_ge _ _) Hw).
Qed.

Lemma Reserve_unfold fuel s count :
  s.(m_initialized) = true -> 0 < count ->
  Reserve fuel s 0 count =
    s ← find_watermark fuel s count;
    Ret (add_reservation (with_watermark s
           (u64 (s.(m_watermark) + ByteAlign (pages_bytes count) AllocationGranularity)))
           {| Address := s.(m_watermark); PageCount := count |}, true, s.(m_watermark)).
Proof.
  intros Hi Hc. unfold Reserve. by rewrite Hi, (proj2 (Z.eqb_neq count 0)) by lia.
Qed.

(** The watermark after a reservation. *)
Lemma watermark_advance w count :
  0 <= w -> w mod PageSize = 0 -> 0 < count -> w + count * PageSize + AllocationGranularity <= 2 ^ 64 ->
  exists w', u64 (w + ByteAlign (pages_bytes count) AllocationGranularity) = w' /\
    w + count * PageSize <= w' <= 2 ^ 64 /\ w' mod PageSize = 0.
Proof.
  intros Hw Hal Hc Hb. change AllocationGranularity with 16384 in Hb.
  rewrite pages_bytes_eq by (change PageSize with 4096 in *; lia).
  destruct (ByteAlign_granularity (count * PageSize)) as [Hba Hbm];
    [change PageSize with 4096; lia | change AllocationGranularity with 16384; lia |].
  revert Hba Hbm. generalize (ByteAlign (count * PageSize) AllocationGranularity) as n. intros n Hba Hbm.
  change AllocationGranularity with 16384 in Hba.
  exists (w + n). rewrite wrap_small by (change PageSize with 4096 in *; lia). split_and!; [done | lia | lia |].
  by rewrite Z.add_mod, Hal, Hbm by done.
Qed.

Lemma Reserve_ok fuel s count :
  (0 < fuel)%nat -> space_ok s -> 0 < count -> s.(m_watermark) + count * PageSize + AllocationGranularity <= 2 ^ 64 ->
  s.(m_watermark) < s.(m_end) -> exists s', Reserve fuel s 0 count = Ret (s', true, s.(m_watermark)) /\
    space_ok s' /\ s'.(m_end) = s.(m_end) /\ s.(m_watermark) < s'.(m_watermark) /\
    s'.(m_reservations) = s.(m_reservations) ++ [{| Address := s.(m_watermark); PageCount := count |}] /\
    forall r, r ∈ s.(m_reservations) -> end_of r <= s.(m_watermark).
Proof.
  intros Hfuel Hok Hc Hb Hw. destruct (ok_start _ Hok), (ok_watermark _ Hok) as [Hal _].
  assert (forall r, r ∈ s.(m_reservations) -> 0 <= r.(Address) /\ 0 < r.(PageCount) /\ end_of r <= s.(m_watermark)) as Hrs.
  { intros r Hr. destruct (below_elem _ _ _ _ (ok_below _ Hok) Hr) as (? & ? & ?). split_and!; lia. }
  assert (0 < PageSize /\ 0 < AllocationGranularity) as [Hps Hg] by done.
  rewrite Reserve_unfold by (done || apply Hok).
  destruct (watermark_advance (m_watermark s) count) as (w' & Hw' & Hle & Hal'); [lia | done | done | done |].
  rewrite find_watermark_first by (first [done | apply IsFree_above; [apply Hok | done | lia.. | nia | done]]).
  cbn [mbind outcome_bind]. rewrite Hw'. eexists. split; [done |].
  split_and!; cbn [add_reservation with_watermark m_end m_watermark m_reservations]; try done.
  - constructor; cbn [add_reservation with_watermark m_initialized m_start m_watermark m_reservations].
    + apply Hok.
    + nia.
    + split; [done | lia].
    + eapply below_snoc; [apply Hok | done | done |]. unfold end_of. cbn [Address PageCount]. lia.
  - nia.
  - intros r Hr. by destruct (Hrs r Hr) as (_ & _ & ?).
Qed.

(** Fact: reservations do not overlap.  In an address space all of whose reservations were
    made without asking for an address, such a request succeeds as long as the watermark
    is inside the space: it returns the watermark, page aligned and past the end of every
    earlier reservation, records the range there, and keeps this property; one
    turn of the search is enough.  A request beyond the end of the space bugchecks. *)
Theorem Reserve_watermark fuel s count :
  (0 < fuel)%nat -> space_ok s -> 0 < count -> s.(m_watermark) + count * PageSize + AllocationGranularity <= 2 ^ 64 ->
  (s.(m_watermark) < s.(m_end) -> exists s', Reserve fuel s 0 count = Ret (s', true, s.(m_watermark)) /\
    space_ok s' /\ s'.(m_end) = s.(m_end) /\ s.(m_watermark) < s'.(m_watermark) /\
    s'.(m_reservations) = s.(m_reservations) ++ [{| Address := s.(m_watermark); PageCount := count |}] /\
    forall r, r ∈ s.(m_reservations) -> end_of r <= s.(m_watermark)) /\
  (s.(m_end) <= s.(m_watermark) -> Reserve fuel s 0 count = Bugcheck).
Proof.
  intros Hfuel Hok Hc Hb. split; [by apply Reserve_ok |]. intros Hw.
  rewrite Reserve_unfold by (done || apply Hok).
  destruct (ok_watermark _ Hok) as [Hal _].
  by rewrite find_watermark_stop by (done || (apply IsFree_outside; done || apply Hok)).
Qed.

Definition demo_space : VirtualAddressSpace :=
  {| IsGlobal := false; m_reservations := [{| Address := 0x140000000; PageCount := 3 |}]; m_start := 0;
     m_end := Layout.UserStop; m_watermark := 0x140004000; m_initialized := true |}.

Lemma demo_space_ok : space_ok demo_space.
Proof. constructor; by vm_compute. Qed.

Lemma Reserve_watermark_witness :
  exists s', Reserve 1 demo_space 0 5 = Ret (s', true, 0x140004000) /\ space_ok s' /\ s'.(m_watermark) = 0x14000C000.
Proof.
  destruct (Reserve_watermark 1 demo_space 5 ltac:(lia) demo_space_ok) as [H _]; [lia | by vm_compute |].
  destruct H as (s' & Hr & Hok & _); [by vm_compute |]. exists s'. split_and!; [done.. |].
  vm_compute in Hr. injection Hr as <-. done.
Defined.

(** ** What the checks of [IsFree] decide *)

Lemma forallb_decide {A} (P : A -> Prop) (f : A -> bool) l :
  (forall x, x ∈ l -> f x = true <-> P x) -> forallb f l = true <-> forall x, x ∈ l -> P x.
Proof.
  intros H. rewrite forallb_forall. split; intros Hl x Hx.
  - apply H; [done |]. apply Hl. by apply list_elem_of_In.
  - apply H; [by apply list_elem_of_In |]. apply Hl. by apply list_elem_of_In.
Qed.

(** Fact: the meaning of [IsFree], for ranges that do not wrap: it answers true exactly when
    the first address lies in the space and neither the first address of the range nor the
    address just past its end lies inside a reservation. *)
Theorem IsFree_decides s a c :
  s.(m_initialized) = true -> 0 <= a -> a mod PageSize = 0 -> 0 <= c -> a + c * PageSize < 2 ^ 64 ->
  (forall r, r ∈ s.(m_reservations) -> 0 <= r.(Address) /\ 0 <= r.(PageCount) /\ end_of r < 2 ^ 64) ->
  exists b, IsFree s a c = Ret b /\
    (b = true <-> s.(m_start) <= a < s.(m_end) /\ forall r, r ∈ s.(m_reservations) ->
      ~ (r.(Address) <= a < end_of r) /\ ~ (r.(Address) <= a + c * PageSize < end_of r)).
Proof.
  intros Hi H0 Ha Hc Hb Hrs. unfold IsFree. rewrite Hi. change PageMask with (Z.ones 12).
  rewrite Z.land_ones by lia. change (2 ^ 12) with PageSize. rewrite Ha. cbn [Z.eqb Assert mbind outcome_bind].
  destruct (Z.ltb_spec a (m_start s)), (Z.leb_spec (m_end s) a); cbn [orb];
    try (exists false; split; [done |]; split; [done | lia]).
  eexists. split; [done |].
  rewrite (forallb_decide (fun r => ~ (r.(Address) <= a < end_of r) /\ ~ (r.(Address) <= a + c * PageSize < end_of r))).
  { intuition lia. }
  intros r Hr. destruct (Hrs r Hr) as (Hr1 & Hr2 & Hr3). unfold passes, end_of in *.
  rewrite !pages_bytes_eq by (change PageSize with 4096 in *; lia).
  rewrite !(wrap_small 64) by (change PageSize with 4096 in *; lia).
  rewrite andb_true_iff, !negb_true_iff, !andb_false_iff, !Z.leb_gt, !Z.ltb_ge. lia.
Qed.

Lemma IsFree_decides_witness :
  exists b, IsFree demo_space 0x140004000 2 = Ret b /\
    (b = true <-> 0 <= 0x140004000 < Layout.UserStop /\ forall r, r ∈ demo_space.(m_reservations) ->
      ~ (r.(Address) <= 0x140004000 < end_of r) /\ ~ (r.(Address) <= 0x140004000 + 2 * PageSize < end_of r)).
Proof.
  apply IsFree_decides; [done | lia | done | lia | by vm_compute |].
  intros r [-> | []%elem_of_nil]%elem_of_cons. by vm_compute.
Defined.

(** Fact: [IsFree] is not a test for overlap.  With one page reserved at 0x5000, a range of
    three pages around it counts as free and [Reserve] hands it out, the free page just
    below it does not, a range may run past the end of the space, and an address outside
    the space counts as a valid pointer. *)
Theorem IsFree_misses_overlap :
  let s := {| IsGlobal := false; m_reservations := [{| Address := 0x5000; PageCount := 1 |}]; m_start := 0x1000;
              m_end := 0x10000; m_watermark := 0x8000; m_initialized := true |} in
  IsFree s 0x4000 3 = Ret true /\
  Reserve 1 s 0x4000 3 = Ret (add_reservation s {| Address := 0x4000; PageCount := 3 |}, true, 0x4000) /\
  IsFree s 0x4000 1 = Ret false /\
  IsFree s 0xF000 64 = Ret true /\
  IsValidPointer s 0x20000 = Ret true.
Proof. vm_compute. repeat split. Qed.
