(* ===== verification/VMM.v ===== *)
(** The virtual memory manager.

    Models src/src/kernel/mem/VMM.cpp: a range is reserved in an address space, and each of
    its pages is backed by a page of the physical memory manager and mapped in the current
    page tables.  This is where the components of the memory manager meet: the theorem
    uses the specifications of [PMM], [VAS] and [PageWalk]. *)
From S2P Require Import Prelude OSSystem OSList Bitvector PageTables PageWalk MemoryMap PMM VAS.

(** What the manager works on: the frames, the tables (with CR3) and the address space. *)
Record memory := {
  m_physicalMemory : PMM;
  tables : machine;
  addressSpace : VirtualAddressSpace
}.

Definition with_pages (s : memory) (p : PMM) (m : machine) : memory :=
  {| m_physicalMemory := p; tables := m; addressSpace := s.(addressSpace) |}.
Definition with_space (s : memory) (a : VirtualAddressSpace) : memory :=
  {| m_physicalMemory := s.(m_physicalMemory); tables := s.(tables); addressSpace := a |}.

(** The assertion on a requested address. *)
Definition check_aligned (addr : Z) : outcome unit :=
  if negb (addr =? 0) then Assert (Z.land addr PageMask =? 0) else Ret tt.

(** One turn of the loop of [Allocate]. *)
Definition back_page (addr i : Z) (s : memory) : outcome memory :=
  '(p, ok, pAddr) ← PMM.AllocatePage s.(m_physicalMemory) 0;
  _ ← Assert ok;
  '(m, ok) ← MapPages s.(tables) s.(tables).(cr3) (u64 (addr + u64 (Z.shiftl i PageShift))) pAddr 1
               s.(addressSpace).(IsGlobal);
  _ ← Assert ok;
  Ret (with_pages s p m).

(** The result is the base address, 0 for [nullptr]; the zeroing of the range goes
    through the new mapping and is not part of this state. *)
Definition Allocate (fuel : nat) (s : memory) (address count : Z) : outcome (memory * Z) :=
  _ ← check_aligned address;
  '(a, ok, addr) ← Reserve fuel s.(addressSpace) address count;
  let s := with_space s a in
  if (ok : bool) then
    s ← for_loop (Z.to_nat count) 0 (back_page addr) s;
    Ret (s, addr)
  else Ret (s, 0).

Fixpoint map_list (s : memory) (addr i : Z) (addresses : list Z) : outcome memory :=
  match addresses with
  | [] => Ret s
  | a :: addresses =>
      '(m, ok) ← MapPages s.(tables) s.(tables).(cr3) (u64 (addr + u64 (Z.shiftl i PageShift))) a 1
                   s.(addressSpace).(IsGlobal);
      _ ← Assert ok;
      map_list (with_pages s s.(m_physicalMemory) m) addr (i + 1) addresses
  end.

Definition VirtualMap (fuel : nat) (s : memory) (address : Z) (addresses : list Z) : outcome (memory * Z) :=
  let count := Z.of_nat (length addresses) in
  _ ← Assert (negb (count =? 0));
  _ ← check_aligned address;
  '(a, ok, addr) ← Reserve fuel s.(addressSpace) address count;
  let s := with_space s a in
  if (ok : bool) then s ← map_list s addr 0 addresses; Ret (s, addr)
  else Ret (s, 0).

(** ** Backing the pages of a range *)

(** Page [i] of the range at [base]. *)
Definition range_page (base i : Z) : Z := u64 (base + u64 (Z.shiftl i PageShift)).

Lemma MapPages_one s root T v p g :
  wf s root T -> (3 <= free_count s.(pool))%nat -> 0 <= v < 2 ^ 64 -> 0 <= p < 2 ^ 64 ->
  exists s' T', MapPages s root v p 1 g = Ret (s', true) /\ wf s' root T' /\
    (free_count s.(pool) <= 3 + free_count s'.(pool))%nat /\ s'.(cr3) = s.(cr3) /\
    is_Some (slot s' 4 root v) /\
    (forall v' a, slot s 4 root v' = Some a -> slot s' 4 root v' = Some a) /\
    forall v', pte s' 4 root v' = if decide (vpn v' = vpn v) then leaf_entry p g else pte s 4 root v'.
Proof.
  intros Hwf Hfc Hv Hp. destruct (MapPage_spec s root T v p g Hwf Hfc) as (s' & T' & Hm & Hwf' & Hc & H).
  exists s', T'. unfold MapPages. rewrite (root_nonzero _ _ _ Hwf). cbn [Assert mbind outcome_bind].
  change (Z.to_nat 1) with 1%nat. cbn [MapPages_loop].
  change (u64 (Z.shiftl 0 PageShift)) with 0. rewrite !Z.add_0_r, !wrap_small by done. rewrite Hm. cbn [mbind outcome_bind].
  by split.
Qed.

Section backing.
Context (root base count : Z) (fl : list Z) (space : VirtualAddressSpace).
Context (Hbase : 0 <= base /\ base mod PageSize = 0) (Hcount : 0 <= count < 2 ^ 36).
Context (Hfit : base + count * PageSize <= 2 ^ 64) (Hfl : count <= Z.of_nat (length fl)).

(** After [i] turns: pages [0 .. i-1] of the range are mapped to the first frames. *)
Definition backed (i : Z) (s : memory) : Prop :=
  s.(addressSpace) = space /\ s.(tables).(cr3) = root /\
  pmm_ok s.(m_physicalMemory) (drop (Z.to_nat i) fl) /\
  exists T, wf s.(tables) root T /\ (3 * Z.to_nat (count - i) <= free_count s.(tables).(pool))%nat /\
    forall j f, 0 <= j < i -> fl !! Z.to_nat j = Some f -> forall v, vpn v = vpn (range_page base j) ->
      is_Some (slot s.(tables) 4 root v) /\
      pte s.(tables) 4 root v = leaf_entry (f * PageSize) space.(IsGlobal).

Lemma range_page_eq j : 0 <= j < count -> range_page base j = base + j * PageSize.
Proof using All. intros Hj. apply (page_of_eq base j); [lia.. | change PageSize with 4096 in *; lia]. Qed.

Lemma range_page_vpn j : 0 <= j < count -> vpn (range_page base j) = (base / PageSize + j) mod 2 ^ 36.
Proof using All. intros Hj. rewrite range_page_eq, vpn_eq, Z.div_add by done. done. Qed.

Lemma range_page_inj i j : 0 <= i < count -> 0 <= j < count -> vpn (range_page base i) = vpn (range_page base j) -> i = j.
Proof using All.
  intros Hi Hj. rewrite !range_page_vpn by done. generalize (base / PageSize). intros b He.
  Z.to_euclidean_division_equations. lia.
Qed.

Lemma back_page_spec i s :
  0 <= i < count -> backed i s -> exists s', back_page base i s = Ret s' /\ backed (i + 1) s'.
Proof using All.
  intros Hi (Ha & Hr & Hp & T & Hwf & Hfc & Hmap). unfold back_page. fold (range_page base i).
  destruct (lookup_lt_is_Some_2 fl (Z.to_nat i)) as [f Hf]; [lia |].
  rewrite (drop_S _ _ _ Hf) in Hp. pose proof (ok_index _ _ f Hp ltac:(set_solver)) as Hfi.
  pose proof (PMM.ok_count _ _ Hp) as Hpc.
  destruct (AllocatePage_pop _ _ _ Hp) as (p & -> & Hp' & _ & _). cbn [mbind outcome_bind Assert].
  rewrite Ha, Hr.
  destruct (MapPages_one s.(tables) root T (range_page base i) (f * PageSize) space.(IsGlobal) Hwf)
    as (m & T' & -> & Hwf' & Hfc' & Hr' & [a Hs] & Hk & Hpte);
    [lia | rewrite range_page_eq by done; change PageSize with 4096 in *; lia | change PageSize with 4096 in *; lia |].
  cbn [mbind outcome_bind Assert]. eexists. split; [done |]. unfold backed. cbn [with_pages addressSpace tables m_physicalMemory].
  split_and!; [done | congruence | by replace (Z.to_nat (i + 1)) with (S (Z.to_nat i)) by lia |].
  exists T'. split_and!; [done | lia |]. intros j f' Hj Hf' v Hv. destruct (decide (j = i)) as [-> | Hne].
  - rewrite Hpte, decide_True by done. assert (f' = f) as -> by congruence. rewrite (slot_vpn m root _ _ Hv). eauto.
  - destruct (Hmap j f' ltac:(lia) Hf' v Hv) as [[b Hb] Hold]. split; [eauto |].
    rewrite Hpte, decide_False; [done |]. intros Heq. rewrite Hv in Heq.
    apply range_page_inj in Heq; lia.
Qed.

Lemma backed_resolve s j f d :
  backed count s -> 0 <= j < count -> fl !! Z.to_nat j = Some f -> 0 <= f < 2 ^ 52 -> 0 <= d < PageSize ->
  ResolveAddress s.(tables) root (base + j * PageSize + d) = Ret (f * PageSize + d).
Proof using All.
  intros (_ & _ & _ & T & Hwf & _ & Hmap) Hj Hf Hfr Hd.
  assert (vpn (base + j * PageSize + d) = vpn (range_page base j)) as Hv.
  { rewrite range_page_eq, !vpn_eq by done. rewrite div_add_aligned, (Z.div_small d), Z.add_0_r; [done | lia |].
    rewrite Z.mod_add by done. apply Hbase. }
  destruct (Hmap j f Hj Hf _ Hv) as [[a Ha] Hpte].
  rewrite (ResolveAddress_pte _ _ _ _ _ Hwf Ha), Hpte, leaf_entry_frame, offset_eq.
  rewrite frame_plus_offset; [| change PageSize with 4096 in *; lia | by apply Z.mod_pos_bound].
  rewrite Z.div_mul, Zplus_mod, Z.mod_add, (proj2 Hbase), Z.add_0_l, Zmod_mod, Z.mod_small by (done || lia). done.
Qed.
End backing.

(** C3: the memory manager end to end.  With [count] free frames, three pool pages for each
    and an address space with room at its watermark, [Allocate] without an address returns
    the watermark of the space and backs every page of the range with a frame of its own:
    the frames were free, are different from each other and are off the free list
    afterwards, every byte of the range resolves into its frame, and the frames, the tables
    and the address space stay well formed. *)
Theorem VMM_Allocate_backs fuel s count fl root T :
  (0 < fuel)%nat -> 0 < count < 2 ^ 36 -> pmm_ok s.(m_physicalMemory) fl -> count <= Z.of_nat (length fl) ->
  s.(tables).(cr3) = root -> wf s.(tables) root T -> (3 * Z.to_nat count <= free_count s.(tables).(pool))%nat ->
  space_ok s.(addressSpace) -> s.(addressSpace).(m_watermark) < s.(addressSpace).(m_end) ->
  s.(addressSpace).(m_watermark) + count * PageSize + AllocationGranularity <= 2 ^ 64 ->
  let base := s.(addressSpace).(m_watermark) in
  exists s' T', Allocate fuel s 0 count = Ret (s', base) /\
    pmm_ok s'.(m_physicalMemory) (drop (Z.to_nat count) fl) /\ wf s'.(tables) root T' /\ space_ok s'.(addressSpace) /\
    NoDup fl /\
    forall j f d, 0 <= j < count -> fl !! Z.to_nat j = Some f -> 0 <= d < PageSize ->
      ResolveAddress s'.(tables) root (base + j * PageSize + d) = Ret (f * PageSize + d).
Proof.
  intros Hfuel Hc Hp Hfl Hr Hwf Hfc Hsp Hw Hb base.
  destruct (Reserve_ok fuel _ count Hfuel Hsp (proj1 Hc) Hb Hw) as (a & Hres & Ha & _).
  destruct (ok_start _ Hsp), (VAS.ok_watermark _ Hsp) as [Hal _].
  assert (0 <= base /\ base mod PageSize = 0) as Hbase by (split; [unfold base; lia | done]).
  assert (base + count * PageSize <= 2 ^ 64) as Hfit by (unfold base; change AllocationGranularity with 16384 in Hb; lia).
  unfold Allocate, check_aligned. cbn [negb Z.eqb mbind outcome_bind]. rewrite Hres. cbn [mbind outcome_bind].
  fold base.
  destruct (for_loop_inv (backed root base count fl a) (Z.to_nat count) 0 (back_page base) (with_space s a))
    as (s' & -> & Hs').
  - split_and!; try done. exists T. split_and!; [done | cbn; lia | lia].
  - intros j t Hj Ht. apply back_page_spec; (done || lia).
  - rewrite Z.add_0_l, Z2Nat.id in Hs' by lia. cbn [mbind outcome_bind].
    pose proof Hs' as (Hsa & _ & Hp' & T' & Hwf' & _). exists s', T'.
    split_and!; [done | done | done | by rewrite Hsa | by eapply ok_NoDup |].
    intros j f d Hj Hf Hd. eapply backed_resolve; try done; try lia.
    pose proof (PMM.ok_index _ _ f Hp ltac:(by eapply list_elem_of_lookup_2)). pose proof (PMM.ok_count _ _ Hp). lia.
Qed.

(** The tables do not depend on which root is loaded. *)
Lemma wf_cr3 s root T c : wf s root T -> wf {| pool := s.(pool); words := s.(words); cr3 := c |} root T.
Proof. intros []. by constructor. Qed.

Lemma VMM_Allocate_backs_witness :
  exists s s' root, Allocate 1 s 0 2 = Ret (s', 0x140004000) /\
    ResolveAddress s'.(tables) root (0x140004000 + 1 * PageSize + 5) = Ret (14 * PageSize + 5).
Proof.
  destruct demo_pmm_ok as (p & _ & Hp). destruct demo_root as (m & root & _ & Hwf & Hfc).
  pose (s := {| m_physicalMemory := p; tables := {| pool := m.(pool); words := m.(words); cr3 := root |};
                addressSpace := demo_space |}).
  destruct (VMM_Allocate_backs 1 s 2 _ root _ ltac:(lia) ltac:(lia) Hp ltac:(vm_compute; congruence) eq_refl
    (wf_cr3 _ _ _ root Hwf)) as (s' & T' & Ha & _ & _ & _ & _ & Hres);
    [cbn [pool tables s]; lia | apply demo_space_ok | by vm_compute | by vm_compute |].
  exists s, s', root. split; [exact Ha |]. apply Hres; [lia | by vm_compute | by vm_compute].
Defined.
