(* ===== verification/KHeap.v ===== *)
(** The kernel heap.

    Models src/src/kernel/mem/KHeap.h and KHeap.cpp.  A block is a 24-byte header
    ([ListEntry Link] first, so the address of the link is the address of the block)
    followed by its data.  Headers are kept by address; a [memset] over a range removes
    every header it would overwrite, so a block that overlapped another would be lost,
    and memory above the watermark is not mapped.

    The invariant [heap_ok] says that the blocks tile the heap from its start to its end
    in list order; all operations preserve it. *)
From S2P Require Import Prelude OSSystem OSList.

Definition InitialPages : Z := Z.shiftl 1 12.
Definition HeapAlign : Z := 32.
Definition Magic : Z := 0xBEEF.
Definition sizeof_HeapBlock : Z := 24.

(** The bit fields after the link: [Size] has 47 bits. *)
Record HeapBlock := { Free : bool; Size : Z; BlockMagic : Z }.

Record KHeap := {
  m_isInitialized : bool;
  m_blocks : Z;                 (** the address of the list head *)
  h_links : links;
  h_blocks : gmap Z HeapBlock;
  m_start : Z;
  m_watermark : Z;
  m_end : Z;
  m_bytes : Z;
  m_count : Z
}.

Definition with_memory (h : KHeap) (l : links) (b : gmap Z HeapBlock) : KHeap :=
  {| m_isInitialized := h.(m_isInitialized); m_blocks := h.(m_blocks); h_links := l; h_blocks := b;
     m_start := h.(m_start); m_watermark := h.(m_watermark); m_end := h.(m_end);
     m_bytes := h.(m_bytes); m_count := h.(m_count) |}.

Definition with_stats (h : KHeap) (bytes count : Z) : KHeap :=
  {| m_isInitialized := h.(m_isInitialized); m_blocks := h.(m_blocks); h_links := h.(h_links);
     h_blocks := h.(h_blocks); m_start := h.(m_start); m_watermark := h.(m_watermark);
     m_end := h.(m_end); m_bytes := bytes; m_count := count |}.

Definition load_block (h : KHeap) (a : Z) : outcome HeapBlock :=
  match h.(h_blocks) !! a with Some b => Ret b | None => Fault end.

(** A range the heap has mapped. *)
Definition heap_mapped (h : KHeap) (a n : Z) : bool :=
  (h.(m_start) <=? a) && (a + n <=? h.(m_watermark)).

Definition store_block (h : KHeap) (a : Z) (b : HeapBlock) : outcome KHeap :=
  if heap_mapped h a sizeof_HeapBlock then
    Ret (with_memory h h.(h_links)
      (<[a := {| Free := b.(Free); Size := wrap 47 b.(Size); BlockMagic := wrap 16 b.(BlockMagic) |}]> h.(h_blocks)))
  else Fault.

(** [memset(address, _, n)]: the headers that overlap the range are gone. *)
Definition overwritten (address n a : Z) : Prop :=
  0 < n /\ address < a + sizeof_HeapBlock /\ a < address + n.

#[global] Instance overwritten_dec address n a : Decision (overwritten address n a).
Proof. unfold overwritten. apply _. Defined.

Definition heap_memset (h : KHeap) (address n : Z) : outcome KHeap :=
  if (n =? 0) || heap_mapped h address n then
    Ret (with_memory h (filter (fun e => ~ overwritten address n e.1) h.(h_links))
                       (filter (fun e => ~ overwritten address n e.1) h.(h_blocks)))
  else Fault.

(** ** CheckHeap *)

Fixpoint CheckHeap_loop (fuel : nat) (h : KHeap) (current lastAddr : Z) : outcome bool :=
  match fuel with
  | O => Diverged
  | S fuel =>
      if current =? h.(m_blocks) then Ret true
      else
        let data := current + sizeof_HeapBlock in
        if data <? lastAddr then Ret false
        else e ← load_link h.(h_links) current; CheckHeap_loop fuel h e.(Flink) data
  end.

Definition list_fuel (h : KHeap) : nat := S (S (size h.(h_links))).

Definition CheckHeap (h : KHeap) : outcome bool :=
  e ← load_link h.(h_links) h.(m_blocks); CheckHeap_loop (list_fuel h) h e.(Flink) 0.

(** ** Allocate *)

(** First fit: the first entry from [entry] on that is free and large enough, or the
    list head when there is none. *)
Fixpoint find_block (fuel : nat) (h : KHeap) (entry allocationSize : Z) : outcome Z :=
  match fuel with
  | O => Diverged
  | S fuel =>
      block ← load_block h entry;
      if negb block.(Free) || (block.(Size) <? allocationSize) then
        _ ← Assert (block.(BlockMagic) =? Magic);
        e ← load_link h.(h_links) entry;
        if e.(Flink) =? h.(m_blocks) then Ret h.(m_blocks)
        else find_block fuel h e.(Flink) allocationSize
      else Ret entry
  end.

(** [entry = m_blocks.Flink] and the loop over the blocks. *)
Definition Allocate (h : KHeap) (size : Z) : outcome (KHeap * Z) :=
  let allocationSize := ByteAlign size HeapAlign in
  head ← load_link h.(h_links) h.(m_blocks);
  entry ← find_block (list_fuel h) h head.(Flink) allocationSize;
  _ ← Assert (negb (entry =? h.(m_blocks)));
  block ← load_block h entry;
  h ← store_block h entry {| Free := false; Size := block.(Size); BlockMagic := block.(BlockMagic) |};
  let h := with_stats h (u64 (h.(m_bytes) + allocationSize)) (u64 (h.(m_count) + 1)) in
  let address := entry + sizeof_HeapBlock in
  if u64 (block.(Size) - allocationSize) <? HeapAlign + sizeof_HeapBlock then
    ok ← CheckHeap h;
    _ ← Assert ok;
    h ← heap_memset h address block.(Size);
    Ret (h, address)
  else
    let newBlock := address + allocationSize in
    h ← store_block h newBlock
      {| Free := true; Size := u64 (u64 (block.(Size) - allocationSize) - sizeof_HeapBlock); BlockMagic := Magic |};
    l ← ListInsertHead h.(h_links) entry newBlock;
    let h := with_memory h l h.(h_blocks) in
    h ← store_block h entry {| Free := false; Size := allocationSize; BlockMagic := block.(BlockMagic) |};
    ok ← CheckHeap h;
    _ ← Assert ok;
    h ← heap_memset h address (wrap 47 allocationSize);
    Ret (h, address).

(** ** Deallocate *)

Definition Deallocate (h : KHeap) (address : Z) : outcome KHeap :=
  _ ← Assert (h.(m_start) + sizeof_HeapBlock <=? address);
  _ ← Assert (address <? h.(m_end));
  let entry := address - sizeof_HeapBlock in
  block ← load_block h entry;
  _ ← Assert (block.(BlockMagic) =? Magic);
  _ ← Assert (negb block.(Free));
  h ← store_block h entry {| Free := true; Size := block.(Size); BlockMagic := block.(BlockMagic) |};
  let h := with_stats h (u64 (h.(m_bytes) - block.(Size))) (u64 (h.(m_count) - 1)) in
  h ← heap_memset h address block.(Size);
  ok ← CheckHeap h;
  _ ← Assert ok;
  Ret h.

(** ** Construction and growth

    A page is taken from the physical memory manager and mapped at the watermark; the
    heap sees only that this succeeds, so the environment is a parameter. *)
Definition new_heap (head heapStart heapEnd : Z) : KHeap :=
  {| m_isInitialized := false; m_blocks := head; h_links := ∅; h_blocks := ∅;
     m_start := heapStart; m_watermark := heapStart; m_end := heapEnd; m_bytes := 0; m_count := 0 |}.

Definition with_watermark (h : KHeap) (w : Z) : KHeap :=
  {| m_isInitialized := h.(m_isInitialized); m_blocks := h.(m_blocks); h_links := h.(h_links);
     h_blocks := h.(h_blocks); m_start := h.(m_start); m_watermark := w; m_end := h.(m_end);
     m_bytes := h.(m_bytes); m_count := h.(m_count) |}.

Definition Grow {E} (map_page : E -> Z -> outcome E) (env : E) (h : KHeap) (pages : Z) : outcome (E * KHeap) :=
  for_loop (Z.to_nat pages) 0 (fun _ '(env, h) =>
    env ← map_page env h.(m_watermark);
    Ret (env, with_watermark h (u64 (h.(m_watermark) + PageSize)))) (env, h).

Definition Initialize {E} (map_page : E -> Z -> outcome E) (env : E) (h : KHeap) : outcome (E * KHeap) :=
  let h := with_memory h (ListInitializeHead h.(h_links) h.(m_blocks)) h.(h_blocks) in
  '(env, h) ← Grow map_page env h InitialPages;
  let head := h.(m_start) in
  l ← ListInsertTail h.(h_links) h.(m_blocks) head;
  h ← store_block (with_memory h l h.(h_blocks)) head
    {| Free := true; Size := u64 (u64 (h.(m_end) - h.(m_start)) - sizeof_HeapBlock); BlockMagic := Magic |};
  Ret (env,
    {| m_isInitialized := true; m_blocks := h.(m_blocks); h_links := h.(h_links); h_blocks := h.(h_blocks);
       m_start := h.(m_start); m_watermark := h.(m_watermark); m_end := h.(m_end);
       m_bytes := h.(m_bytes); m_count := h.(m_count) |}).

(** ** The tiling invariant *)

Abbreviation blocklist := (list (Z * HeapBlock)).

(** The blocks cover [[a, e)] without gaps or overlaps, in order. *)
Fixpoint tiled (a e : Z) (bs : blocklist) : Prop :=
  match bs with
  | [] => a = e
  | (x, b) :: bs => x = a /\ 0 <= b.(Size) < 2 ^ 47 /\ tiled (a + sizeof_HeapBlock + b.(Size)) e bs
  end.

(** The headers in memory are those of the list. *)
Definition reps (m : gmap Z HeapBlock) (bs : blocklist) : Prop :=
  forall a b, m !! a = Some b <-> (a, b) ∈ bs.

Definition live (bs : blocklist) : list (Z * Z) :=
  (fun e => (e.1 + sizeof_HeapBlock, e.2.(Size))) <$> filter (fun e => e.2.(Free) = false) bs.

Record heap_ok (h : KHeap) (bs : blocklist) : Prop := {
  ok_range : 0 < h.(m_start) /\ h.(m_end) <= 2 ^ 64;
  ok_tiled : tiled h.(m_start) h.(m_end) bs;
  ok_head : h.(m_blocks) + sizeof_HeapBlock <= h.(m_start) \/ h.(m_end) <= h.(m_blocks);
  ok_ring : ring h.(h_links) h.(m_blocks) bs.*1;
  ok_reps : reps h.(h_blocks) bs;
  ok_nonempty : bs <> [];
  ok_magic : forall x b, (x, b) ∈ bs -> b.(BlockMagic) = Magic;
  ok_mapped : forall x b, (x, b) ∈ bs ->
    x + sizeof_HeapBlock + (if b.(Free) then 0 else b.(Size)) <= h.(m_watermark);
  ok_stats : h.(m_count) = Z.of_nat (length (live bs))
}.

Lemma tiled_app a e bs cs :
  tiled a e (bs ++ cs) <-> exists m, tiled a m bs /\ tiled m e cs.
Proof.
  revert a. induction bs as [|[x b] bs IH]; intros a; cbn.
  - split; [eauto | by intros (? & <- & ?)].
  - setoid_rewrite IH. naive_solver.
Qed.

Lemma tiled_bounds a e bs : tiled a e bs -> a <= e /\ forall x b, (x, b) ∈ bs ->
  a <= x /\ 0 <= b.(Size) < 2 ^ 47 /\ x + sizeof_HeapBlock + b.(Size) <= e.
Proof.
  revert a. unfold sizeof_HeapBlock in *. induction bs as [|[y c] bs IH]; intros a; cbn.
  - intros ->. split; [lia |]. intros x b Hx. by apply elem_of_nil in Hx.
  - intros (-> & Hc & Ht). destruct (IH _ Ht) as [Ha Hb]. split; [unfold sizeof_HeapBlock in *; lia |].
    intros x b [[= -> ->] | Hx]%elem_of_cons; [unfold sizeof_HeapBlock in *; lia |].
    destruct (Hb _ _ Hx). unfold sizeof_HeapBlock in *. lia.
Qed.

(** Blocks on either side of one. *)
Lemma tiled_split a e pre x b post :
  tiled a e (pre ++ (x, b) :: post) ->
  0 <= b.(Size) < 2 ^ 47 /\ a <= x /\ x + sizeof_HeapBlock + b.(Size) <= e /\
  tiled a x pre /\ tiled (x + sizeof_HeapBlock + b.(Size)) e post /\
  (forall y c, (y, c) ∈ pre -> y + sizeof_HeapBlock + c.(Size) <= x /\ 0 <= c.(Size)) /\
  (forall y c, (y, c) ∈ post -> x + sizeof_HeapBlock + b.(Size) <= y).
Proof.
  intros (m & Hpre & Hx)%tiled_app. cbn in Hx. destruct Hx as (-> & Hb & Hpost).
  destruct (tiled_bounds _ _ _ Hpre) as [? Hp]. destruct (tiled_bounds _ _ _ Hpost) as [? Hq].
  split_and!; try lia; try done.
  - intros y c Hy. destruct (Hp _ _ Hy) as (? & ? & ?). lia.
  - intros y c Hy. by destruct (Hq _ _ Hy).
Qed.

(** The data of a block overlaps no header. *)
Lemma tiled_no_overlap a e pre x b post n y c :
  tiled a e (pre ++ (x, b) :: post) -> n <= b.(Size) -> (y, c) ∈ pre ++ (x, b) :: post ->
  ~ overwritten (x + sizeof_HeapBlock) n y.
Proof.
  intros Ht Hn Hy. destruct (tiled_split _ _ _ _ _ _ Ht) as (_ & _ & _ & _ & _ & Hp & Hq).
  unfold overwritten, sizeof_HeapBlock in *.
  apply elem_of_app in Hy as [Hy | [[= -> ->] | Hy]%elem_of_cons].
  - destruct (Hp _ _ Hy). lia.
  - lia.
  - pose proof (Hq _ _ Hy). lia.
Qed.

Lemma tiled_NoDup a e bs : tiled a e bs -> NoDup bs.*1.
Proof.
  revert a. induction bs as [|[x b] bs IH]; intros a; cbn; [constructor |].
  intros (-> & Hb & Ht). constructor; [| by eapply IH].
  intros ((y & c) & -> & Hy)%list_elem_of_fmap. destruct (tiled_bounds _ _ _ Ht) as [_ Hc].
  destruct (Hc _ _ Hy) as [? _]. cbn in *. unfold sizeof_HeapBlock in *. lia.
Qed.

(** Headers after a store and after an insertion. *)
Lemma reps_update m pre x b b' post :
  reps m (pre ++ (x, b) :: post) -> NoDup (pre ++ (x, b) :: post).*1 ->
  reps (<[x := b']> m) (pre ++ (x, b') :: post).
Proof.
  intros Hr Hn a c. rewrite fmap_app in Hn. cbn in Hn. apply NoDup_app in Hn as (_ & Hd & [Hx _]%NoDup_cons).
  assert (forall d, (x, d) ∉ pre /\ (x, d) ∉ post) as Hnot.
  { intros d. split; intros Hi; [apply (Hd x); [by apply (list_elem_of_fmap_2 fst) in Hi | set_solver] |].
    apply Hx. by apply (list_elem_of_fmap_2 fst) in Hi. }
  rewrite elem_of_app, elem_of_cons. destruct (decide (a = x)) as [-> | Hne].
  - rewrite lookup_insert_eq. destruct (Hnot c). split; [intros [= ->]; auto | intros [? | [[= ->] | ?]]; done].
  - rewrite lookup_insert_ne by done. rewrite (Hr a c), elem_of_app, elem_of_cons. naive_solver.
Qed.

Lemma reps_insert m pre x b y c post :
  reps m (pre ++ (x, b) :: post) -> y ∉ (pre ++ (x, b) :: post).*1 ->
  reps (<[y := c]> m) (pre ++ (x, b) :: (y, c) :: post).
Proof.
  intros Hr Hy a d. rewrite elem_of_app, !elem_of_cons. destruct (decide (a = y)) as [-> | Hne].
  - rewrite lookup_insert_eq.
    assert (forall z, (y, z) ∉ pre ++ (x, b) :: post) as Hnot
      by (intros z Hz; apply Hy; by apply (list_elem_of_fmap_2 fst) in Hz).
    specialize (Hnot d). rewrite elem_of_app, elem_of_cons in Hnot.
    split; [intros [= ->]; auto | intros [? | [? | [[= ->] | ?]]]; naive_solver].
  - rewrite lookup_insert_ne by done. rewrite (Hr a d), elem_of_app, elem_of_cons. naive_solver.
Qed.

(** ** Walks over the list *)

Lemma flink_load l a f : flink l a = Some f -> exists e, load_link l a = Ret e /\ e.(Flink) = f.
Proof. unfold flink, load_link. destruct (l !! a) as [e |]; cbn; [intros [= <-]; eauto | done]. Qed.

Lemma chain_flink l a xs z : chain l a xs z -> flink l a = Some (default z (head xs)).
Proof. intros (f & b & ? & _ & -> & _)%chain_ends. done. Qed.

Lemma ring_size l h xs : ring l h xs -> (S (length xs) <= size l)%nat.
Proof.
  intros [Hn Hc]. change (S (length xs)) with (length (h :: xs)).
  rewrite <- (size_list_to_set (C := gset Z)) by done. rewrite <- (size_dom (D := gset Z)).
  apply subseteq_size. intros x Hx%elem_of_list_to_set. apply elem_of_dom.
  eapply chain_mapped; [exact Hc | set_solver].
Qed.

Definition fits (n : Z) (b : HeapBlock) : bool := b.(Free) && (n <=? b.(Size)).

Fixpoint first_fit (bs : blocklist) (n : Z) : option (Z * HeapBlock) :=
  match bs with
  | [] => None
  | (x, b) :: bs => if fits n b then Some (x, b) else first_fit bs n
  end.

Lemma first_fit_split bs n x b :
  first_fit bs n = Some (x, b) -> exists pre post, bs = pre ++ (x, b) :: post /\ b.(Free) = true /\ n <= b.(Size).
Proof.
  induction bs as [|[y c] bs IH]; cbn; [done |]. destruct (fits n c) eqn:E.
  - intros [= -> ->]. exists [], bs. unfold fits in E. zbool. done.
  - intros (pre & post & -> & ?)%IH. by exists ((y, c) :: pre), post.
Qed.

Lemma find_block_chain fuel h bs y b n :
  chain h.(h_links) y bs.*1 h.(m_blocks) ->
  (forall x c, (x, c) ∈ (y, b) :: bs -> h.(h_blocks) !! x = Some c /\ c.(BlockMagic) = Magic /\ x <> h.(m_blocks)) ->
  (length bs < fuel)%nat ->
  find_block fuel h y n =
    Ret (match first_fit ((y, b) :: bs) n with Some (x, _) => x | None => h.(m_blocks) end).
Proof.
  revert y b fuel. induction bs as [|[z c] bs IH]; intros y b [|fuel] Hc Hb Hf; try (cbn in Hf; lia);
    cbn [find_block first_fit]; unfold load_block;
    destruct (Hb y b) as (-> & Hm & _); [set_solver | | set_solver |]; cbn [mbind outcome_bind];
    replace (negb (Free b) || (Size b <? n)) with (negb (fits n b))
      by (unfold fits; rewrite negb_andb, Z.leb_antisym, negb_involutive; done);
    destruct (fits n b); cbn [negb]; try done; rewrite Hm, Z.eqb_refl; cbn [Assert mbind outcome_bind].
  - destruct (flink_load _ _ _ (chain_flink _ _ _ _ Hc)) as (e & -> & He). cbn. by rewrite He, Z.eqb_refl.
  - destruct (flink_load _ _ _ (chain_flink _ _ _ _ Hc)) as (e & -> & He). cbn [mbind outcome_bind]. rewrite He.
    cbn [fmap list_fmap head from_option fst id]. destruct (Hb z c) as (_ & _ & Hz); [set_solver |]. rewrite (proj2 (Z.eqb_neq z _)) by done.
    cbn in Hc. destruct Hc as (_ & _ & Hc). apply (IH z c); [done | intros; apply Hb; set_solver | cbn in Hf; lia].
Qed.

Lemma CheckHeap_chain fuel h bs y last e :
  chain h.(h_links) y bs.*1 h.(m_blocks) -> y <> h.(m_blocks) ->
  (forall x c, (x, c) ∈ bs -> x <> h.(m_blocks)) ->
  last <= y + sizeof_HeapBlock -> tiled e h.(m_end) bs -> y <= e -> (S (length bs) < fuel)%nat ->
  CheckHeap_loop fuel h y last = Ret true.
Proof.
  revert y last e fuel. induction bs as [|[z c] bs IH]; intros y last e [|fuel] Hc Hy Hb Hl Ht He Hf; try (cbn in Hf; lia);
    cbn [CheckHeap_loop]; rewrite (proj2 (Z.eqb_neq y _)), (proj2 (Z.ltb_ge _ last)) by (done || lia);
    destruct (flink_load _ _ _ (chain_flink _ _ _ _ Hc)) as (w & -> & Hw);
    cbn [mbind outcome_bind]; rewrite Hw; cbn [fmap list_fmap head from_option fst id].
  - destruct fuel; [cbn in Hf; lia |]. cbn [CheckHeap_loop]. by rewrite Z.eqb_refl.
  - cbn in Hc, Ht. destruct Hc as (_ & _ & Hc), Ht as (-> & Hs & Ht).
    eapply (IH e); [done | apply (Hb e c); set_solver | intros x d Hx; apply (Hb x d); set_solver | unfold sizeof_HeapBlock in *; lia | done
      | unfold sizeof_HeapBlock in *; lia | cbn in Hf; lia].
Qed.

(** What the walks need of the heap, without the statistics. *)
Definition heap_list (h : KHeap) (bs : blocklist) : Prop :=
  tiled h.(m_start) h.(m_end) bs /\ ring h.(h_links) h.(m_blocks) bs.*1 /\ bs <> [] /\
  (h.(m_blocks) + sizeof_HeapBlock <= h.(m_start) \/ h.(m_end) <= h.(m_blocks)) /\ 0 < h.(m_start).

Lemma heap_list_head h bs : heap_list h bs -> exists y b rest, bs = (y, b) :: rest /\
  load_link h.(h_links) h.(m_blocks) = Ret {| Flink := y; Blink := default h.(m_blocks) (last bs.*1) |} /\
  chain h.(h_links) y rest.*1 h.(m_blocks) /\ (S (S (length rest)) < list_fuel h)%nat.
Proof.
  intros (Ht & Hr & Hn & _). destruct bs as [|[y b] rest]; [done |]. exists y, b, rest. split; [done |].
  unfold load_link. rewrite (ring_load _ _ _ Hr). split; [done |].
  pose proof (ring_size _ _ _ Hr) as Hs. cbn in Hs. rewrite length_fmap in Hs.
  destruct Hr as [_ Hc]. cbn in Hc. destruct Hc as (_ & _ & Hc). split; [done |]. unfold list_fuel. lia.
Qed.

Lemma heap_list_not_head h bs x c : heap_list h bs -> (x, c) ∈ bs -> x <> h.(m_blocks).
Proof.
  intros (Ht & Hr & _) Hx ->. destruct Hr as [[Hn _]%NoDup_cons _]. apply Hn.
  by apply (list_elem_of_fmap_2 fst) in Hx.
Qed.

Lemma CheckHeap_true h bs : heap_list h bs -> CheckHeap h = Ret true.
Proof.
  intros Hl. pose proof Hl as (Ht & _ & _ & _ & Hs). unfold CheckHeap.
  destruct (heap_list_head _ _ Hl) as (y & b & rest & -> & -> & Hc & Hf). cbn [mbind outcome_bind Flink].
  cbn in Ht. destruct Ht as (Hy & Hb & Ht).
  eapply CheckHeap_chain; [done | apply (heap_list_not_head _ _ y b Hl); set_solver | | unfold sizeof_HeapBlock; lia | done
    | unfold sizeof_HeapBlock; lia | lia].
  intros x c Hx. apply (heap_list_not_head _ _ x c Hl). set_solver.
Qed.

Lemma ring_filter (P : Z * ListEntry -> Prop) `{!forall e, Decision (P e)} l h xs :
  ring l h xs -> (forall a e, a ∈ h :: xs -> P (a, e)) -> ring (filter P l) h xs.
Proof.
  intros [Hn Hc] HP. split; [done |].
  assert (forall a, a ∈ h :: xs -> filter P l !! a = l !! a) as Hl.
  { intros a Ha. destruct (l !! a) as [e |] eqn:E.
    - apply map_lookup_filter_Some. auto.
    - apply map_lookup_filter_None. by left. }
  eapply chain_ext; [| | exact Hc]; intros y Hy; unfold flink, blink; rewrite Hl; set_solver.
Qed.

(** Filling the data of a block, or part of it, leaves every header alone. *)
Lemma heap_memset_data h pre x b post n :
  heap_list h (pre ++ (x, b) :: post) -> reps h.(h_blocks) (pre ++ (x, b) :: post) ->
  0 <= n <= b.(Size) -> x + sizeof_HeapBlock + n <= h.(m_watermark) ->
  exists h', heap_memset h (x + sizeof_HeapBlock) n = Ret h' /\
    heap_list h' (pre ++ (x, b) :: post) /\ reps h'.(h_blocks) (pre ++ (x, b) :: post) /\
    h' = with_memory h h'.(h_links) h'.(h_blocks).
Proof.
  intros (Ht & Hr & Hne & Hh & Hs) Hrep Hn Hw. unfold heap_memset, heap_mapped.
  destruct (tiled_split _ _ _ _ _ _ Ht) as (Hb & Hx & He & _).
  rewrite (proj2 (Z.leb_le (m_start h) _)), (proj2 (Z.leb_le _ (m_watermark h))) by (unfold sizeof_HeapBlock in *; lia).
  rewrite orb_true_r. eexists. split; [done |]. split_and!; [split_and!; try done | |].
  - apply ring_filter; [done |]. intros a e [-> | Ha]%elem_of_cons.
    + cbn. unfold overwritten, sizeof_HeapBlock in *. lia.
    + apply list_elem_of_fmap in Ha as ([y c] & -> & Hy). cbn [fst]. eapply tiled_no_overlap; [exact Ht | lia | exact Hy].
  - intros a c. cbn. rewrite map_lookup_filter_Some, (Hrep a c). split; [by intros [? _] |].
    intros Ha. split; [done |]. cbn. eapply tiled_no_overlap; [exact Ht | lia | exact Ha].
  - done.
Qed.

(** ** Allocation *)

Lemma tiled_replace a e pre x b post mid :
  tiled a e (pre ++ (x, b) :: post) -> tiled x (x + sizeof_HeapBlock + b.(Size)) mid ->
  tiled a e (pre ++ mid ++ post).
Proof.
  intros Ht Hm. destruct (tiled_split _ _ _ _ _ _ Ht) as (_ & _ & _ & Hpre & Hpost & _).
  apply tiled_app. exists x. split; [done |]. apply tiled_app. eauto.
Qed.

Lemma live_app bs cs : live (bs ++ cs) = live bs ++ live cs.
Proof. unfold live. by rewrite filter_app, fmap_app. Qed.

Lemma live_cons x b bs :
  live ((x, b) :: bs) = (if b.(Free) then [] else [(x + sizeof_HeapBlock, b.(Size))]) ++ live bs.
Proof. unfold live. destruct b as [[] ? ?]; [by rewrite filter_cons_False | by rewrite filter_cons_True]. Qed.

(** The data of a live block lies inside the heap, away from that of every other. *)
Lemma live_elem bs d n :
  (d, n) ∈ live bs <-> exists b, (d - sizeof_HeapBlock, b) ∈ bs /\ b.(Free) = false /\ b.(Size) = n.
Proof.
  unfold live. rewrite list_elem_of_fmap. split.
  - intros ([x b] & [= -> ->] & [Hf Hx]%list_elem_of_filter). exists b. cbn in *.
    by replace (x + sizeof_HeapBlock - sizeof_HeapBlock) with x by lia.
  - intros (b & Hx & Hf & <-). exists (d - sizeof_HeapBlock, b). cbn. split; [f_equal; lia |].
    by apply list_elem_of_filter.
Qed.

Lemma store_block_Ret h a b :
  h.(m_start) <= a -> a + sizeof_HeapBlock <= h.(m_watermark) -> 0 <= b.(Size) < 2 ^ 47 -> b.(BlockMagic) = Magic ->
  store_block h a b = Ret (with_memory h h.(h_links) (<[a := b]> h.(h_blocks))).
Proof.
  intros. unfold store_block, heap_mapped. rewrite !(proj2 (Z.leb_le _ _)) by lia. cbn [andb].
  rewrite wrap_small by done. destruct b as [f s g]; cbn in *; subst. done.
Qed.

Lemma ByteAlign_heap size :
  0 <= size -> size + HeapAlign <= 2 ^ 47 ->
  size <= ByteAlign size HeapAlign < size + HeapAlign.
Proof.
  intros. unfold HeapAlign in *. change 32 with (2 ^ 5) at 1 2.
  rewrite ByteAlign_spec by lia.
  pose proof (proj1 (DivRoundUp_spec size (2 ^ 5) ltac:(lia) ltac:(lia) ltac:(lia) ltac:(lia) _) eq_refl). lia.
Qed.

(** How far above the header of the chosen block the allocation writes. *)
Definition extent (b : HeapBlock) (n : Z) : Z :=
  if b.(Size) - n <? HeapAlign + sizeof_HeapBlock then b.(Size) else n + sizeof_HeapBlock.

(** The blocks that replace the chosen one. *)
Definition carve (x : Z) (b : HeapBlock) (n : Z) : blocklist :=
  if b.(Size) - n <? HeapAlign + sizeof_HeapBlock
  then [(x, {| Free := false; Size := b.(Size); BlockMagic := b.(BlockMagic) |})]
  else [(x, {| Free := false; Size := n; BlockMagic := b.(BlockMagic) |});
        (x + sizeof_HeapBlock + n, {| Free := true; Size := b.(Size) - n - sizeof_HeapBlock; BlockMagic := Magic |})].

Lemma carve_tiled x b n :
  0 <= n <= b.(Size) -> b.(Size) < 2 ^ 47 -> tiled x (x + sizeof_HeapBlock + b.(Size)) (carve x b n).
Proof.
  intros. unfold carve, HeapAlign, sizeof_HeapBlock. case (Z.ltb_spec (Size b - n) (32 + 24)); intros; cbn;
    unfold sizeof_HeapBlock; lia.
Qed.

Lemma heap_ok_list h bs : heap_ok h bs -> heap_list h bs.
Proof. intros []. split_and!; tauto. Qed.

Lemma find_block_first h bs n :
  heap_ok h bs ->
  exists e, load_link h.(h_links) h.(m_blocks) = Ret e /\
    find_block (list_fuel h) h e.(Flink) n =
      Ret (match first_fit bs n with Some (x, _) => x | None => h.(m_blocks) end).
Proof.
  intros Hok. pose proof (heap_ok_list _ _ Hok) as Hl.
  destruct (heap_list_head _ _ Hl) as (y & b & rest & -> & He & Hc & Hf). eexists. split; [exact He |].
  cbn [Flink]. apply find_block_chain; [done | | lia].
  intros x c Hx. split_and!; [by apply (ok_reps _ _ Hok) | by eapply ok_magic | by eapply heap_list_not_head].
Qed.

(** The heap after an allocation from the block [(x, b)] in [pre ++ (x, b) :: post]. *)
Lemma Allocate_from h pre x b post size :
  let n := ByteAlign size HeapAlign in
  heap_ok h (pre ++ (x, b) :: post) -> first_fit (pre ++ (x, b) :: post) n = Some (x, b) ->
  0 <= n <= b.(Size) -> x + sizeof_HeapBlock + extent b n <= h.(m_watermark) ->
  exists h', Allocate h size = Ret (h', x + sizeof_HeapBlock) /\
    heap_list h' (pre ++ carve x b n ++ post) /\ reps h'.(h_blocks) (pre ++ carve x b n ++ post) /\
    exists l m, h' = with_stats (with_memory h l m) (u64 (h.(m_bytes) + n)) (u64 (h.(m_count) + 1)).
Proof.
  intros n Hok Hff Hn Hw. pose proof (heap_ok_list _ _ Hok) as Hl.
  assert ((x, b) ∈ pre ++ (x, b) :: post) as Hin by set_solver.
  pose proof (ok_magic _ _ Hok _ _ Hin) as Hmag. pose proof (ok_mapped _ _ Hok _ _ Hin) as Hmap.
  destruct (tiled_split _ _ _ _ _ _ (ok_tiled _ _ Hok)) as (Hb & Hx & He & _ & _ & Hbef & Haft).
  destruct (find_block_first h _ n Hok) as (e & Hle & Hfb). rewrite Hff in Hfb.
  unfold Allocate. fold n. rewrite Hle. cbn [mbind outcome_bind]. rewrite Hfb. cbn [mbind outcome_bind].
  rewrite (proj2 (Z.eqb_neq x _)) by (by eapply heap_list_not_head). cbn [negb Assert mbind outcome_bind].
  unfold load_block. rewrite (proj2 (ok_reps _ _ Hok x b) Hin). cbn [mbind outcome_bind].
  rewrite store_block_Ret by (done || (destruct (Free b); unfold sizeof_HeapBlock in *; lia)). cbn [mbind outcome_bind].
  rewrite (wrap_small 64 (Size b - n)) by lia.
  pose proof (carve_tiled x b n Hn ltac:(lia)) as Hct. pose proof (tiled_replace _ _ _ _ _ _ _ (ok_tiled _ _ Hok) Hct) as Ht'.
  destruct Hl as (_ & Hring & _ & Hhead & Hst).
  pose proof (tiled_NoDup _ _ _ (ok_tiled _ _ Hok)) as Hnd.
  unfold extent, carve in *. destruct (Z.ltb_spec (Size b - n) (HeapAlign + sizeof_HeapBlock)) as [Hsplit | Hsplit].
  - set (b' := {| Free := false; Size := Size b; BlockMagic := BlockMagic b |}) in *.
    set (h1 := with_stats _ _ _).
    assert (heap_list h1 (pre ++ (x, b') :: post)) as Hl1.
    { split_and!; [exact Ht' | | by destruct pre | done | done]. cbn. by rewrite fmap_app in Hring |- *. }
    rewrite (CheckHeap_true _ _ Hl1). cbn [Assert mbind outcome_bind].
    destruct (heap_memset_data h1 pre x b' post (Size b)) as (h2 & -> & Hl2 & Hr2 & Hh2);
      [done | eapply reps_update; [apply (ok_reps _ _ Hok) | done] | cbn; lia | cbn; lia |].
    cbn [mbind outcome_bind]. exists h2. split_and!; [done.. |]. eexists _, _. exact Hh2.
  - set (b1 := {| Free := false; Size := n; BlockMagic := BlockMagic b |}) in *.
    set (b2 := {| Free := true; Size := Size b - n - sizeof_HeapBlock; BlockMagic := Magic |}) in *.
    set (y := x + sizeof_HeapBlock + n) in *.
    rewrite (wrap_small 64 (Size b - n - _)) by (unfold HeapAlign, sizeof_HeapBlock in *; lia).
    fold b2. rewrite store_block_Ret by (done || (cbn; unfold y, HeapAlign, sizeof_HeapBlock in *; lia)).
    cbn [mbind outcome_bind with_memory with_stats h_links h_blocks].
    assert (y ∉ h.(m_blocks) :: (pre ++ (x, b) :: post).*1) as Hy.
    { assert (y <> h.(m_blocks)) by (unfold y, HeapAlign, sizeof_HeapBlock in *; lia).
      rewrite not_elem_of_cons. split; [done |].
      intros ([z c] & Hyz & Hz)%list_elem_of_fmap. cbn in Hyz.
      apply (tiled_no_overlap _ _ _ _ _ _ (Size b) z c (ok_tiled _ _ Hok)); [lia | done |].
      unfold overwritten, y, HeapAlign, sizeof_HeapBlock in *. lia. }
    rewrite fmap_app in Hring. cbn in Hring. apply ring_rotate in Hring.
    destruct (ListInsertHead_spec _ x _ y Hring) as (l' & -> & Hring' & _).
    { rewrite fmap_app in Hy. cbn in Hy. clear -Hy. set_solver. }
    cbn [mbind outcome_bind]. apply (ring_rotate l' x (y :: post.*1) (m_blocks h) pre.*1) in Hring'.
    rewrite store_block_Ret by (done || (cbn; unfold y, HeapAlign, sizeof_HeapBlock in *; lia)).
    cbn [mbind outcome_bind with_memory with_stats h_links h_blocks]. fold b1.
    set (h3 := with_memory _ _ _).
    assert (heap_list h3 (pre ++ (x, b1) :: (y, b2) :: post)) as Hl3.
    { split_and!; [exact Ht' | | by destruct pre | done | done]. cbn. by rewrite fmap_app. }
    assert (reps h3.(h_blocks) (pre ++ (x, b1) :: (y, b2) :: post)) as Hr3.
    { cbn. rewrite insert_insert_ne by (unfold y, HeapAlign, sizeof_HeapBlock in *; lia).
      rewrite insert_insert_eq. apply reps_insert.
      - eapply reps_update; [apply (ok_reps _ _ Hok) | done].
      - rewrite fmap_app in Hy |- *. cbn in Hy |- *. clear -Hy. set_solver. }
    rewrite (CheckHeap_true _ _ Hl3). cbn [Assert mbind outcome_bind]. rewrite (wrap_small 47 n) by lia.
    destruct (heap_memset_data h3 pre x b1 ((y, b2) :: post) n) as (h4 & -> & Hl4 & Hr4 & Hh4);
      [done.. | cbn; lia | cbn; unfold sizeof_HeapBlock in *; lia |].
    cbn [mbind outcome_bind]. exists h4. split_and!; [done.. |]. eexists _, _. exact Hh4.
Qed.

Lemma tiled_length a e bs : tiled a e bs -> 24 * Z.of_nat (length bs) <= e - a.
Proof.
  revert a. induction bs as [|[x b] bs IH]; intros a; cbn [tiled length].
  - intros ->. lia.
  - intros (-> & Hb & Ht). apply IH in Ht. unfold sizeof_HeapBlock in *. lia.
Qed.

Lemma live_length bs : (length (live bs) <= length bs)%nat.
Proof. unfold live. rewrite length_fmap. apply length_filter. Qed.

Lemma heap_ok_count h bs : heap_ok h bs -> 0 <= h.(m_count) < 2 ^ 62.
Proof.
  intros Hok. rewrite (ok_stats _ _ Hok). pose proof (live_length bs). pose proof (tiled_length _ _ _ (ok_tiled _ _ Hok)).
  destruct (ok_range _ _ Hok). lia.
Qed.

(** The size of the data handed out. *)
Definition granted (b : HeapBlock) (n : Z) : Z :=
  if b.(Size) - n <? HeapAlign + sizeof_HeapBlock then b.(Size) else n.

Lemma carve_live x b n post :
  live (carve x b n ++ post) = (x + sizeof_HeapBlock, granted b n) :: live post.
Proof. unfold carve, granted. destruct (_ <? _); cbn [app]; rewrite !live_cons; done. Qed.

Lemma carve_elem x b n y c :
  (y, c) ∈ carve x b n -> b.(BlockMagic) = Magic -> 0 <= n <= b.(Size) ->
  c.(BlockMagic) = Magic /\
  y + sizeof_HeapBlock + (if c.(Free) then 0 else c.(Size)) <= x + sizeof_HeapBlock + extent b n.
Proof.
  unfold carve, extent. intros Hy Hm Hn. destruct (_ <? _);
    rewrite ?elem_of_cons, elem_of_nil in Hy; destruct_or?; simplify_eq; cbn; unfold sizeof_HeapBlock in *; split; (done || lia).
Qed.

Lemma heap_ok_after h h' pre x b post n :
  heap_ok h (pre ++ (x, b) :: post) -> b.(Free) = true -> 0 <= n <= b.(Size) ->
  x + sizeof_HeapBlock + extent b n <= h.(m_watermark) ->
  heap_list h' (pre ++ carve x b n ++ post) -> reps h'.(h_blocks) (pre ++ carve x b n ++ post) ->
  (exists l m, h' = with_stats (with_memory h l m) (u64 (h.(m_bytes) + n)) (u64 (h.(m_count) + 1))) ->
  heap_ok h' (pre ++ carve x b n ++ post).
Proof.
  intros Hok Hfree Hn Hw (Ht & Hr & Hne & Hhd & Hst) Hrep (l & m & Hh').
  pose proof (heap_ok_count _ _ Hok) as Hcnt.
  assert (forall y c, (y, c) ∈ pre ++ carve x b n ++ post -> (y, c) ∈ carve x b n \/ (y, c) ∈ pre ++ (x, b) :: post) as Hcase
    by (intros y c; rewrite !elem_of_app, elem_of_cons; tauto).
  assert ((x, b) ∈ pre ++ (x, b) :: post) as Hin by set_solver.
  pose proof (ok_magic _ _ Hok _ _ Hin) as Hmag.
  constructor; try done.
  - rewrite Hh'. apply (ok_range _ _ Hok).
  - intros y c [Hy | Hy]%Hcase; [by eapply carve_elem | by eapply ok_magic].
  - intros y c [Hy | Hy]%Hcase; rewrite Hh'; cbn [m_watermark with_stats with_memory].
    + destruct (carve_elem _ _ _ _ _ Hy Hmag Hn). lia.
    + by apply (ok_mapped _ _ Hok).
  - rewrite Hh'. cbn [m_count with_stats]. rewrite wrap_small by lia. rewrite (ok_stats _ _ Hok).
    rewrite (live_app pre (carve _ _ _ ++ _)), carve_live, (live_app pre), live_cons, Hfree, !length_app. cbn. lia.
Qed.

(** C4: first-fit allocation is sound.  In a well-formed heap [Allocate] takes the first
    free block that is large enough, provided its new contents are mapped; it returns
    the start of the data of that block, at least [size] bytes that lie inside the heap
    and overlap no block handed out before, adds exactly this block to the live ones and
    keeps the heap well formed.  When no free block is large enough it bugchecks. *)
Theorem Allocate_correct h bs size :
  heap_ok h bs -> 0 <= size -> size + HeapAlign <= 2 ^ 47 ->
  let n := ByteAlign size HeapAlign in
  (first_fit bs n = None -> Allocate h size = Bugcheck) /\
  (forall x b, first_fit bs n = Some (x, b) -> x + sizeof_HeapBlock + extent b n <= h.(m_watermark) ->
    exists h' bs' got, Allocate h size = Ret (h', x + sizeof_HeapBlock) /\ heap_ok h' bs' /\
      size <= got /\ h.(m_start) < x + sizeof_HeapBlock /\ x + sizeof_HeapBlock + got <= h.(m_end) /\
      live bs' ≡ₚ (x + sizeof_HeapBlock, got) :: live bs /\
      forall d m, (d, m) ∈ live bs -> d + m <= x \/ x + sizeof_HeapBlock + got <= d).
Proof.
  intros Hok Hsz0 Hsz n. pose proof (ByteAlign_heap size Hsz0 Hsz) as Hn. fold n in Hn. split.
  - intros Hff. destruct (find_block_first h bs n Hok) as (e & Hle & Hfb). unfold Allocate. fold n.
    rewrite Hle. cbn [mbind outcome_bind]. rewrite Hfb, Hff. cbn [mbind outcome_bind]. by rewrite Z.eqb_refl.
  - intros x b Hff Hw. destruct (first_fit_split _ _ _ _ Hff) as (pre & post & -> & Hfree & Hfit).
    assert (0 <= n <= Size b) as Hn' by lia.
    destruct (Allocate_from h pre x b post size Hok Hff Hn' Hw) as (h' & Ha & Hl & Hr & Hh). fold n in Hl, Hr, Hh.
    exists h', (pre ++ carve x b n ++ post), (granted b n).
    destruct (tiled_split _ _ _ _ _ _ (ok_tiled _ _ Hok)) as (Hb & Hx & He & _ & _ & Hbef & Haft).
    assert (n <= granted b n <= Size b) as Hg by (unfold granted; destruct (_ <? _); lia).
    split_and!; [done | by eapply heap_ok_after | lia | unfold sizeof_HeapBlock; lia | lia | |].
    + rewrite (live_app pre (carve _ _ _ ++ _)), carve_live, (live_app pre), live_cons, Hfree. cbn [app].
      by rewrite Permutation_middle.
    + intros d m (c & Hd & Hc & Hs)%live_elem. rewrite elem_of_app, elem_of_cons in Hd.
      destruct Hd as [Hd | [[= _ ->] | Hd]]; [| congruence |].
      * destruct (Hbef _ _ Hd). lia.
      * pose proof (Haft _ _ Hd). unfold sizeof_HeapBlock in *. lia.
Qed.

(** ** Deallocation *)

Lemma Deallocate_from h pre x b post :
  heap_ok h (pre ++ (x, b) :: post) -> b.(Free) = false -> x + sizeof_HeapBlock < h.(m_end) ->
  let b' := {| Free := true; Size := b.(Size); BlockMagic := b.(BlockMagic) |} in
  exists h', Deallocate h (x + sizeof_HeapBlock) = Ret h' /\ heap_ok h' (pre ++ (x, b') :: post).
Proof.
  intros Hok Hfree Hlt b'. pose proof (heap_ok_list _ _ Hok) as (_ & Hring & _ & Hhd & Hst).
  assert ((x, b) ∈ pre ++ (x, b) :: post) as Hin by set_solver.
  pose proof (ok_magic _ _ Hok _ _ Hin) as Hmag. pose proof (ok_mapped _ _ Hok _ _ Hin) as Hmap. rewrite Hfree in Hmap.
  pose proof (proj2 (ok_reps _ _ Hok _ _) Hin) as Hlk. pose proof (heap_ok_count _ _ Hok) as Hcnt.
  destruct (tiled_split _ _ _ _ _ _ (ok_tiled _ _ Hok)) as (Hb & Hx & He & _).
  assert (tiled (m_start h) (m_end h) (pre ++ (x, b') :: post)) as Ht'
    by (apply (tiled_replace _ _ _ _ _ _ [(x, b')] (ok_tiled _ _ Hok)); cbn; lia).
  unfold Deallocate. rewrite (proj2 (Z.leb_le _ (x + _))), (proj2 (Z.ltb_lt (x + _) _)) by lia. cbn [Assert mbind outcome_bind].
  replace (x + sizeof_HeapBlock - sizeof_HeapBlock) with x by lia. unfold load_block. rewrite Hlk. cbn [mbind outcome_bind].
  rewrite Hmag, Z.eqb_refl, Hfree. cbn [negb Assert mbind outcome_bind]. rewrite <- Hmag. fold b'.
  rewrite store_block_Ret by (done || lia). cbn [mbind outcome_bind].
  set (h1 := with_stats _ _ _).
  assert (heap_list h1 (pre ++ (x, b') :: post)) as Hl1.
  { split_and!; [exact Ht' | | by destruct pre | done | done]. cbn. by rewrite fmap_app in Hring |- *. }
  destruct (heap_memset_data h1 pre x b' post (Size b)) as (h2 & -> & Hl2 & Hr2 & Hh2);
    [done | eapply reps_update; [apply (ok_reps _ _ Hok) | by eapply tiled_NoDup, (ok_tiled _ _ Hok)] | cbn; lia | cbn; lia |].
  cbn [mbind outcome_bind]. rewrite (CheckHeap_true _ _ Hl2). cbn [Assert mbind outcome_bind].
  exists h2. split; [done |]. destruct Hl2 as (? & ? & ? & ? & ?).
  assert (forall y c, (y, c) ∈ pre ++ (x, b') :: post -> (y, c) = (x, b') \/ (y, c) ∈ pre ++ (x, b) :: post) as Hcase
    by (intros y c; rewrite !elem_of_app, !elem_of_cons; tauto).
  constructor; try done.
  - rewrite Hh2. apply (ok_range _ _ Hok).
  - intros y c [[= -> ->] | Hy]%Hcase; [done | by eapply ok_magic].
  - rewrite Hh2. intros y c [[= -> ->] | Hy]%Hcase; [cbn; lia | by apply (ok_mapped _ _ Hok)].
  - rewrite Hh2. cbn [m_count with_memory with_stats h1]. rewrite (ok_stats _ _ Hok) in Hcnt |- *.
    assert (length (live (pre ++ (x, b) :: post)) = S (length (live (pre ++ (x, b') :: post)))) as Hlen
      by (rewrite !live_app, !live_cons, Hfree, !length_app; cbn; lia).
    rewrite Hlen in Hcnt |- *. rewrite wrap_small; lia.
Qed.

(** C5: giving back a live block makes exactly that block free: [Deallocate] returns,
    the heap stays well formed and the other live blocks are untouched.  (A block at the
    very end of the heap has no data byte; its address fails the range assertion.) *)
Theorem Deallocate_correct h bs d sz :
  heap_ok h bs -> (d, sz) ∈ live bs -> d < h.(m_end) ->
  exists h' bs', Deallocate h d = Ret h' /\ heap_ok h' bs' /\ live bs ≡ₚ (d, sz) :: live bs'.
Proof.
  intros Hok (b & Hin & Hfree & Hs)%live_elem Hlt.
  set (x := d - sizeof_HeapBlock) in *. assert (d = x + sizeof_HeapBlock) as Hd by (unfold x; lia). clearbody x. subst d.
  apply list_elem_of_split in Hin as (pre & post & ->).
  destruct (Deallocate_from h pre x b post Hok Hfree Hlt) as (h' & Hd & Hok').
  eexists h', _. split_and!; [done.. |]. rewrite !live_app, !live_cons, Hfree, Hs. cbn [app Free].
  by rewrite Permutation_middle.
Qed.

(** Fact: freeing twice, or freeing an address that is not the data of a live block but of
    a free one, stops in a bugcheck. *)
Theorem Deallocate_double_free h bs x b :
  heap_ok h bs -> (x, b) ∈ bs -> b.(Free) = true -> Deallocate h (x + sizeof_HeapBlock) = Bugcheck.
Proof.
  intros Hok Hin Hfree. destruct (tiled_bounds _ _ _ (ok_tiled _ _ Hok)) as [_ Ht].
  destruct (Ht _ _ Hin) as (Hx & Hb & He).
  unfold Deallocate. rewrite (proj2 (Z.leb_le _ (x + _))) by lia. cbn [Assert mbind outcome_bind].
  destruct (_ <? _); [| done]. cbn [Assert mbind outcome_bind].
  replace (x + sizeof_HeapBlock - sizeof_HeapBlock) with x by lia.
  unfold load_block. rewrite (proj2 (ok_reps _ _ Hok x b) Hin). cbn [mbind outcome_bind].
  by rewrite (ok_magic _ _ Hok _ _ Hin), Z.eqb_refl, Hfree.
Qed.

(** ** Initialisation *)

Lemma Grow_Ret {E} (map_page : E -> Z -> outcome E) (env : E) h pages :
  (forall e w, h.(m_watermark) <= w < h.(m_watermark) + pages * PageSize -> returns (map_page e w)) ->
  0 <= pages -> 0 <= h.(m_watermark) -> h.(m_watermark) + pages * PageSize < 2 ^ 64 ->
  exists env', Grow map_page env h pages = Ret (env', with_watermark h (h.(m_watermark) + pages * PageSize)).
Proof.
  intros Hmap Hp Hw Hb. unfold Grow. change PageSize with 4096 in *.
  destruct (for_loop_inv (fun i (s : E * KHeap) => s.2 = with_watermark h (h.(m_watermark) + i * 4096))
    (Z.to_nat pages) 0 (fun _ '(env, h) => env ← map_page env h.(m_watermark);
      Ret (env, with_watermark h (u64 (h.(m_watermark) + 4096)))) (env, h)) as ([e' h'] & Hl & Hh).
  - cbn. destruct h; unfold with_watermark; cbn. f_equal. lia.
  - intros j [e1 h1] Hj Hs. cbn in Hs. subst h1. cbn [m_watermark with_watermark].
    destruct (Hmap e1 (m_watermark h + j * 4096)) as [e2 ->]; [lia |]. cbn [mbind outcome_bind].
    eexists. split; [done |]. cbn. unfold with_watermark. cbn. f_equal. rewrite wrap_small by lia. lia.
  - exists e'. rewrite Hl. cbn in Hh. subst h'. repeat f_equal. lia.
Qed.

Lemma KHeap_Initialize_ok {E} (map_page : E -> Z -> outcome E) (env : E) head a e :
  (forall s w, a <= w < a + InitialPages * PageSize -> returns (map_page s w)) ->
  0 < a -> a + InitialPages * PageSize < 2 ^ 64 -> e <= 2 ^ 64 ->
  sizeof_HeapBlock <= e - a < 2 ^ 47 -> head + sizeof_HeapBlock <= a \/ e <= head ->
  exists env' h, Initialize map_page env (new_heap head a e) = Ret (env', h) /\
    h.(m_isInitialized) = true /\ h.(m_watermark) = a + InitialPages * PageSize /\
    heap_ok h [(a, {| Free := true; Size := e - a - sizeof_HeapBlock; BlockMagic := Magic |})].
Proof.
  intros Hmap Ha Hw He Hsz Hhd. unfold Initialize.
  set (h0 := with_memory _ _ _).
  destruct (Grow_Ret map_page env h0 InitialPages) as [env' ->]; [done | done | cbn; lia | done |].
  cbn [mbind outcome_bind h0 with_watermark with_memory new_heap m_start m_end m_blocks h_links h_blocks m_watermark].
  destruct (ListInsertTail_spec (ListInitializeHead ∅ head) head [] a (ring_init _ _)) as (l & -> & Hr & _).
  { unfold sizeof_HeapBlock in *. set_unfold. lia. }
  cbn [mbind outcome_bind]. rewrite (wrap_small 64 (e - a)), (wrap_small 64 (e - a - _)) by (unfold sizeof_HeapBlock in *; lia).
  rewrite store_block_Ret; [| cbn; lia | cbn; change InitialPages with 4096; change PageSize with 4096; unfold sizeof_HeapBlock; lia
    | cbn; unfold sizeof_HeapBlock in *; lia | done].
  cbn [mbind outcome_bind]. eexists _, _. split; [done |]. split; [done |]. split; [done |].
  constructor; cbn [m_start m_end m_blocks h_links h_blocks m_watermark with_memory with_watermark m_count]; try done.
  - cbn. unfold sizeof_HeapBlock in *. lia.
  - intros x b. rewrite elem_of_cons, elem_of_nil. rewrite lookup_insert_Some, lookup_empty. naive_solver.
  - intros x b [[= -> ->] | []%elem_of_nil]%elem_of_cons. done.
  - intros x b [[= -> ->] | []%elem_of_nil]%elem_of_cons. cbn. change InitialPages with 4096. change PageSize with 4096.
    unfold sizeof_HeapBlock. lia.
Qed.

(** Fact: initialisation establishes the invariant: for a heap of at least one block and at
    most 2^47 bytes whose list head lies outside it, and an environment that can map the
    initial pages, [Initialize] leaves a well-formed heap with one free block that spans
    it, and no live block. *)
Theorem KHeap_Initialize_correct {E} (map_page : E -> Z -> outcome E) (env : E) head a e :
  (forall s w, a <= w < a + InitialPages * PageSize -> returns (map_page s w)) ->
  0 < a -> a + InitialPages * PageSize < 2 ^ 64 -> e <= 2 ^ 64 ->
  sizeof_HeapBlock <= e - a < 2 ^ 47 -> head + sizeof_HeapBlock <= a \/ e <= head ->
  exists env' h, Initialize map_page env (new_heap head a e) = Ret (env', h) /\
    h.(m_isInitialized) = true /\ h.(m_watermark) = a + InitialPages * PageSize /\
    heap_ok h [(a, {| Free := true; Size := e - a - sizeof_HeapBlock; BlockMagic := Magic |})].
Proof. apply KHeap_Initialize_ok. Qed.

Lemma KHeap_Initialize_correct_witness :
  exists env' h, Initialize (fun _ _ => Ret tt) tt (new_heap 0x1000 0x10000 0x20000) = Ret (env', h) /\
    h.(m_isInitialized) = true /\ h.(m_watermark) = 0x10000 + InitialPages * PageSize /\
    heap_ok h [(0x10000, {| Free := true; Size := 0x20000 - 0x10000 - sizeof_HeapBlock; BlockMagic := Magic |})].
Proof.
  apply KHeap_Initialize_correct; [intros [] w _; by exists tt | lia | by vm_compute | lia | by vm_compute | left; by vm_compute].
Defined.

(** A heap of 64 KiB, fresh and after one allocation of 100 bytes. *)
Lemma demo_heap_ok : exists h, heap_ok h [(0x10000, {| Free := true; Size := 65512; BlockMagic := Magic |})] /\
  h.(m_watermark) = 0x10000 + 0x1000000.
Proof.
  destruct (KHeap_Initialize_ok (fun _ _ => Ret tt) tt 0x1000 0x10000 0x20000) as (_ & h & _ & _ & Hw & Hok);
    [intros [] w _; by exists tt | lia | by vm_compute | lia | by vm_compute | left; by vm_compute | eauto].
Qed.

Lemma demo_allocated : exists h bs, heap_ok h bs /\ (0x10018, 128) ∈ live bs /\ 0x10018 < h.(m_end).
Proof.
  destruct demo_heap_ok as (h & Hok & Hw).
  destruct (Allocate_from h [] 0x10000 _ [] 100 Hok) as (h' & Ha & Hl & Hr & Hh); [reflexivity | by vm_compute | rewrite Hw; by vm_compute |].
  exists h', ([] ++ carve 0x10000 {| Free := true; Size := 65512; BlockMagic := Magic |} 128 ++ []). split_and!.
  - eapply (heap_ok_after h); [exact Hok | done | by vm_compute | rewrite Hw; by vm_compute | exact Hl | exact Hr | exact Hh].
  - apply live_elem. eexists. split; [by left | done].
  - destruct Hl as (Ht & _). destruct (tiled_bounds _ _ _ Ht) as [_ Hb].
    destruct (Hb 0x10000 {| Free := false; Size := 128; BlockMagic := Magic |}) as (_ & _ & He); [by left |].
    cbn in He. unfold sizeof_HeapBlock in He. lia.
Qed.

Lemma Allocate_correct_witness :
  exists h h' bs' got, Allocate h 100 = Ret (h', 0x10000 + sizeof_HeapBlock) /\ heap_ok h' bs' /\ 100 <= got /\
    live bs' ≡ₚ [(0x10000 + sizeof_HeapBlock, got)].
Proof.
  destruct demo_heap_ok as (h & Hok & Hw).
  destruct (Allocate_correct h _ 100 Hok ltac:(lia) ltac:(by vm_compute)) as [_ H].
  destruct (H 0x10000 {| Free := true; Size := 65512; BlockMagic := Magic |}) as (h' & bs' & got & Ha & Hok' & Hg & _ & _ & Hl & _);
    [reflexivity | rewrite Hw; by vm_compute |].
  exists h, h', bs', got. split_and!; done.
Defined.

Lemma Deallocate_correct_witness :
  exists h bs h' bs', Deallocate h 0x10018 = Ret h' /\ heap_ok h' bs' /\ live bs ≡ₚ (0x10018, 128) :: live bs'.
Proof.
  destruct demo_allocated as (h & bs & Hok & Hin & Hlt).
  destruct (Deallocate_correct h bs 0x10018 128 Hok Hin Hlt) as (h' & bs' & ? & ? & ?).
  exists h, bs, h', bs'. done.
Defined.

Lemma Deallocate_double_free_witness : exists h, Deallocate h (0x10000 + sizeof_HeapBlock) = Bugcheck.
Proof.
  destruct demo_heap_ok as (h & Hok & _). exists h.
  apply (Deallocate_double_free h _ 0x10000 {| Free := true; Size := 65512; BlockMagic := Magic |} Hok); [by left | done].
Defined.

(** ** Statistics *)

(** One allocation of 32 bytes from a heap whose only block has 64, then its release. *)
Definition stats_run : outcome (Z * Z) :=
  '(_, h) ← Initialize (fun _ _ => Ret tt) tt (new_heap 0x1000 0x10000 0x10058);
  '(h, p) ← Allocate h 32;
  h ← Deallocate h p;
  Ret (h.(m_bytes), h.(m_count)).

(** Fact: the byte statistics are not balanced: [Allocate] adds the rounded request and
    [Deallocate] subtracts the size of the block, so after one allocation from a block
    that is too small to split and its release [m_bytes] has wrapped below zero, while
    [m_count] is back at zero. *)
Theorem heap_bytes_drift : stats_run = Ret (2 ^ 64 - 32, 0).
Proof. vm_compute. reflexivity. Qed.
