(* ===== verification/Objects.v ===== *)
(** Kernel objects.

    Models src/src/kernel/objects/: the interface [KSignalObject], its implementations
    [KEvent], [KSemaphore] and [KPredicate], and the ring buffer.  The virtual methods of
    the interface are a type class; what the scheduler relies on is the law
    [Observed_returns], which every implementation satisfies. *)
From S2P Require Import Prelude.

(** ** KSignalObject.h *)

Class KSignalObject (A : Type) := {
  IsSignalled : A -> bool;
  Observed : A -> outcome A
}.

(** A signalled object can be observed. *)
Class SignalLaws (A : Type) `{KSignalObject A} :=
  Observed_returns : forall x : A, IsSignalled x = true -> returns (Observed x).

(** ** KEvent.h *)

Record KEvent := { m_manualReset : bool; m_state : bool }.

Definition new_KEvent (manualReset initialState : bool) : KEvent :=
  {| m_manualReset := manualReset; m_state := initialState |}.

Definition Set_event (e : KEvent) : KEvent := {| m_manualReset := e.(m_manualReset); m_state := true |}.
Definition Reset_event (e : KEvent) : KEvent := {| m_manualReset := e.(m_manualReset); m_state := false |}.

#[global] Instance KEvent_signal : KSignalObject KEvent := {|
  IsSignalled e := e.(m_state);
  Observed e :=
    _ ← Assert e.(m_state);
    Ret (if negb e.(m_manualReset) then Reset_event e else e)
|}.

#[global] Instance KEvent_laws : SignalLaws KEvent.
Proof. intros [mr []] H; [by eexists | done]. Qed.

(** ** KSemaphore.h: [m_value] is an [int] *)

Record KSemaphore := { m_value : Z; m_limit : Z }.

Definition new_KSemaphore (initial maximum : Z) : KSemaphore := {| m_value := initial; m_limit := maximum |}.

Definition Value (s : KSemaphore) : Z := s.(m_value).

(** The limit is not looked at. *)
Definition Signal (s : KSemaphore) : KSemaphore := {| m_value := s32 (s.(m_value) + 1); m_limit := s.(m_limit) |}.

#[global] Instance KSemaphore_signal : KSignalObject KSemaphore := {|
  IsSignalled s := 0 <? s.(m_value);
  Observed s :=
    _ ← Assert (0 <? s.(m_value));
    Ret {| m_value := s.(m_value) - 1; m_limit := s.(m_limit) |}
|}.

#[global] Instance KSemaphore_laws : SignalLaws KSemaphore.
Proof. intros s H. cbn in *. rewrite H. by eexists. Qed.

(** ** KPredicate.h: the predicate reads state of its own *)

Record KPredicate := { m_predicate : bool }.

#[global] Instance KPredicate_signal : KSignalObject KPredicate := {|
  IsSignalled p := p.(m_predicate);
  Observed p := Ret p
|}.

#[global] Instance KPredicate_laws : SignalLaws KPredicate.
Proof. intros p _. by eexists. Qed.

(** Any of them, as a pointer to the base class sees it. *)
Inductive signal := OEvent (e : KEvent) | OSemaphore (s : KSemaphore) | OPredicate (p : KPredicate).

#[global] Instance signal_signal : KSignalObject signal := {|
  IsSignalled o := match o with OEvent e => IsSignalled e | OSemaphore s => IsSignalled s | OPredicate p => IsSignalled p end;
  Observed o :=
    match o with
    | OEvent e => OEvent <$> Observed e
    | OSemaphore s => OSemaphore <$> Observed s
    | OPredicate p => OPredicate <$> Observed p
    end
|}.

#[global] Instance signal_laws : SignalLaws signal.
Proof.
  intros [e | s | p] H; cbn in H |- *.
  - destruct (KEvent_laws e H) as [x Hx]. cbn in Hx. rewrite Hx. by eexists.
  - destruct (KSemaphore_laws s H) as [x Hx]. cbn in Hx. rewrite Hx. by eexists.
  - by eexists.
Qed.

(** ** Semaphores count *)

(** Signals and completed waits on a semaphore, as a client runs them: a wait completes
    only when the semaphore is signalled. *)
Inductive sem_op := Release | Wait.

Fixpoint run_sem (s : KSemaphore) (os : list sem_op) : outcome KSemaphore :=
  match os with
  | [] => Ret s
  | Release :: os => run_sem (Signal s) os
  | Wait :: os => s ← Observed s; run_sem s os
  end.

Definition balance (os : list sem_op) : Z := foldr (fun o n => match o with Release => 1 | Wait => -1 end + n) 0 os.

Lemma run_sem_value os : forall s s', 0 <= s.(m_value) ->
  s.(m_value) + Z.of_nat (length os) < 2 ^ 31 -> run_sem s os = Ret s' ->
  s'.(m_value) = s.(m_value) + balance os /\ 0 <= s'.(m_value).
Proof.
  induction os as [|[] os IH]; intros s s' Hs Hb Hr; cbn [run_sem length balance foldr] in *.
  - injection Hr as <-. lia.
  - assert (m_value (Signal s) = m_value s + 1) as Hv by (unfold Signal; cbn; apply swrap_small; lia).
    destruct (IH (Signal s) s') as [H1 H2]; [lia.. | done |]. unfold balance in H1. lia.
  - cbn in Hr. destruct (Z.ltb_spec 0 (m_value s)); [| done]. cbn in Hr.
    pose proof (IH {| m_value := m_value s - 1; m_limit := m_limit s |} s') as HI. cbn [m_value] in HI.
    destruct HI as [H1 H2]; [lia.. | done |]. unfold balance in H1. lia.
Qed.

(** Fact: the semaphore counts: after any run of releases and completed waits that starts at a
    non-negative value and stays within an [int], the value is the initial value plus the
    releases minus the waits and is never negative; the limit given to the constructor
    does not bound it. *)
Theorem semaphore_counts s os s' :
  0 <= s.(m_value) -> s.(m_value) + Z.of_nat (length os) < 2 ^ 31 -> run_sem s os = Ret s' ->
  s'.(m_value) = s.(m_value) + balance os /\ 0 <= s'.(m_value) /\
  run_sem (new_KSemaphore 1 1) [Release; Release] = Ret {| m_value := 3; m_limit := 1 |}.
Proof. intros H1 H2 H3. destruct (run_sem_value os s s' H1 H2 H3). split_and!; [done.. | reflexivity]. Qed.

Lemma semaphore_counts_witness :
  2 = 1 + balance [Release; Wait; Release] /\ 0 <= 2 /\
  run_sem (new_KSemaphore 1 1) [Release; Release] = Ret {| m_value := 3; m_limit := 1 |}.
Proof. apply (semaphore_counts (new_KSemaphore 1 10) [Release; Wait; Release] {| m_value := 2; m_limit := 10 |}); [done | done | reflexivity]. Defined.

(** ** KRingBuffer.h *)

(** [std::array<T, N>] with its three indices; [N] is the length of [m_buffer]. *)
Record KRingBuffer (T : Type) := {
  m_head : Z;
  m_tail : Z;
  m_count : Z;
  m_buffer : list T
}.
Arguments m_head {T} _.
Arguments m_tail {T} _.
Arguments m_count {T} _.
Arguments m_buffer {T} _.

Section ring.
Context {T : Type}.

Definition new_KRingBuffer (n : nat) (zero : T) : KRingBuffer T :=
  {| m_head := 0; m_tail := u64 (Z.of_nat n - 1); m_count := 0; m_buffer := replicate n zero |}.

Definition Size (r : KRingBuffer T) : Z := Z.of_nat (length r.(m_buffer)).
Definition IsFull (r : KRingBuffer T) : bool := Size r =? r.(m_count).
Definition IsEmpty (r : KRingBuffer T) : bool := r.(m_count) =? 0.

(** [None] is the return value [false]. *)
Definition Read (r : KRingBuffer T) : outcome (option (KRingBuffer T * T)) :=
  if r.(m_count) =? 0 then Ret None
  else
    match r.(m_buffer) !! Z.to_nat r.(m_head) with
    | None => Fault
    | Some item =>
        Ret (Some ({| m_head := u64 (r.(m_head) + 1) mod Size r; m_tail := r.(m_tail);
                      m_count := r.(m_count) - 1; m_buffer := r.(m_buffer) |}, item))
    end.

Definition Write (r : KRingBuffer T) (item : T) : outcome (option (KRingBuffer T)) :=
  if r.(m_count) =? Size r then Ret None
  else
    let tail := u64 (r.(m_tail) + 1) mod Size r in
    match r.(m_buffer) !! Z.to_nat tail with
    | None => Fault
    | Some _ =>
        Ret (Some {| m_head := r.(m_head); m_tail := tail; m_count := u64 (r.(m_count) + 1);
                     m_buffer := <[Z.to_nat tail := item]> r.(m_buffer) |})
    end.

(** The buffer holds the queue [q]: item [i] is at [m_head + i], the last at [m_tail]. *)
Definition holds (r : KRingBuffer T) (q : list T) : Prop :=
  0 < Size r < 2 ^ 63 /\ r.(m_count) = Z.of_nat (length q) /\ Z.of_nat (length q) <= Size r /\
  0 <= r.(m_head) < Size r /\ r.(m_tail) = (r.(m_head) + Z.of_nat (length q) + Size r - 1) mod Size r /\
  forall i, (i < length q)%nat -> r.(m_buffer) !! Z.to_nat ((r.(m_head) + Z.of_nat i) mod Size r) = q !! i.

Lemma holds_new n zero : (0 < n)%nat -> Z.of_nat n < 2 ^ 63 -> holds (new_KRingBuffer n zero) [].
Proof.
  intros Hn Hb. unfold holds, Size, new_KRingBuffer. cbn [m_buffer m_count m_head m_tail length].
  rewrite length_replicate. split_and!; try lia.
  rewrite wrap_small by lia. rewrite Z.mod_small; lia.
Qed.

(** Items of one queue sit at different positions. *)
Lemma mod_position h i j n :
  0 <= h < n -> 0 <= i < n -> 0 <= j < n -> (h + i) mod n = (h + j) mod n -> i = j.
Proof.
  intros Hh Hi Hj He. rewrite !(Z.mod_eq _ n) in He by lia.
  assert (0 <= (h + i) / n <= 1 /\ 0 <= (h + j) / n <= 1) as [H1 H2].
  { split; (split; [apply Z.div_pos; lia | apply Z.lt_succ_r, Z.div_lt_upper_bound; lia]). }
  assert (forall q, 0 <= q <= 1 -> q = 0 \/ q = 1) as Hq by lia.
  destruct (Hq _ H1) as [Ha | Ha], (Hq _ H2) as [Hb | Hb]; rewrite Ha, Hb in He; lia.
Qed.

Lemma mod_step a n : 0 < n -> (a mod n + 1) mod n = (a + 1) mod n.
Proof. intros. by rewrite Zplus_mod_idemp_l. Qed.

(** Reading takes the oldest item; an empty buffer gives [false]. *)
Lemma Read_holds r q :
  holds r q ->
  match q with
  | [] => Read r = Ret None
  | x :: q => exists r', Read r = Ret (Some (r', x)) /\ holds r' q /\ Size r' = Size r
  end.
Proof.
  intros (Hn & Hc & Hle & Hh & Ht & Hi). unfold Read. rewrite Hc. destruct q as [|x q]; [done |].
  cbn [length] in *. rewrite (proj2 (Z.eqb_neq _ 0)) by lia.
  pose proof (Hi 0%nat ltac:(lia)) as H0. rewrite Z.add_0_r, Z.mod_small in H0 by lia. cbn in H0. rewrite H0.
  eexists. split; [done |]. rewrite (wrap_small 64) by lia. split; [| done].
  unfold holds, Size. cbn [m_buffer m_count m_head m_tail]. fold (Size r). split_and!; try lia.
  - apply Z.mod_pos_bound. lia.
  - apply Z.mod_pos_bound. lia.
  - rewrite Ht. set (hd := (m_head r + 1) mod Size r).
    replace (hd + Z.of_nat (length q) + Size r - 1) with (hd + (Z.of_nat (length q) + Size r - 1)) by lia.
    unfold hd. rewrite Zplus_mod_idemp_l. f_equal. lia.
  - intros i Hlt. rewrite Zplus_mod_idemp_l. pose proof (Hi (S i) ltac:(lia)) as HS. change ((x :: q) !! S i) with (q !! i) in HS. rewrite <- HS. do 3 f_equal. lia.
Qed.

(** Writing appends; a full buffer gives [false]. *)
Lemma Write_holds r q x :
  holds r q ->
  if decide (Z.of_nat (length q) = Size r) then Write r x = Ret None
  else exists r', Write r x = Ret (Some r') /\ holds r' (q ++ [x]) /\ Size r' = Size r.
Proof.
  intros (Hn & Hc & Hle & Hh & Ht & Hi). unfold Write. rewrite Hc.
  case_decide as Hf; [by rewrite Hf, Z.eqb_refl |]. rewrite (proj2 (Z.eqb_neq _ _)) by done.
  pose proof (Z.mod_pos_bound (m_head r + Z.of_nat (length q) + Size r - 1) (Size r) ltac:(lia)) as Htb.
  rewrite <- Ht in Htb. rewrite (wrap_small 64 (m_tail r + 1)) by lia.
  assert ((m_tail r + 1) mod Size r = (m_head r + Z.of_nat (length q)) mod Size r) as Htail.
  { rewrite Ht, mod_step by lia. replace (_ - 1 + 1) with (m_head r + Z.of_nat (length q) + 1 * Size r) by lia.
    by rewrite Z.mod_add by lia. }
  rewrite Htail. set (t := (m_head r + Z.of_nat (length q)) mod Size r) in *.
  assert (0 <= t < Size r) as Htr by (apply Z.mod_pos_bound; lia).
  destruct (lookup_lt_is_Some_2 r.(m_buffer) (Z.to_nat t)) as [y ->]; [unfold Size in *; lia |].
  eexists. split; [done |]. rewrite (wrap_small 64) by lia.
  unfold holds, Size. cbn [m_buffer m_count m_head m_tail]. rewrite length_insert, length_app. fold (Size r). cbn [length].
  split; [| done]. split_and!; try lia.
  - unfold t. replace (m_head r + Z.of_nat (length q + 1) + Size r - 1) with (m_head r + Z.of_nat (length q) + 1 * Size r) by lia.
    by rewrite Z.mod_add by lia.
  - intros i Hlt. destruct (decide (i = length q)) as [-> |].
    + fold t. rewrite list_lookup_insert_eq by (unfold Size in *; lia).
      rewrite lookup_app_r by lia. by rewrite Nat.sub_diag.
    + rewrite lookup_app_l by lia. rewrite list_lookup_insert_ne; [apply Hi; lia |].
      intros Heq. assert ((m_head r + Z.of_nat i) mod Size r = t) as Hm.
      { pose proof (Z.mod_pos_bound (m_head r + Z.of_nat i) (Size r) ltac:(lia)). lia. }
      apply mod_position in Hm; lia.
Qed.
End ring.

(** ** Refinement to a queue *)

Section queue.
Context {T : Type}.

Inductive ring_op := OpRead | OpWrite (x : T).

(** One operation with what it returns: the flag and the item read. *)
Definition ring_step (r : KRingBuffer T) (o : ring_op) : outcome (KRingBuffer T * (bool * option T)) :=
  match o with
  | OpRead => x ← Read r; Ret (match x with None => (r, (false, None)) | Some (r, x) => (r, (true, Some x)) end)
  | OpWrite x => y ← Write r x; Ret (match y with None => (r, (false, None)) | Some r => (r, (true, None)) end)
  end.

(** The same on a bounded queue. *)
Definition queue_step (n : Z) (q : list T) (o : ring_op) : list T * (bool * option T) :=
  match o with
  | OpRead => match q with [] => ([], (false, None)) | x :: q => (q, (true, Some x)) end
  | OpWrite x => if decide (Z.of_nat (length q) = n) then (q, (false, None)) else (q ++ [x], (true, None))
  end.

Fixpoint ring_run (r : KRingBuffer T) (os : list ring_op) : outcome (list (bool * option T)) :=
  match os with
  | [] => Ret []
  | o :: os => '(r, x) ← ring_step r o; xs ← ring_run r os; Ret (x :: xs)
  end.

Fixpoint queue_run (n : Z) (q : list T) (os : list ring_op) : list (bool * option T) :=
  match os with
  | [] => []
  | o :: os => let '(q, x) := queue_step n q o in x :: queue_run n q os
  end.

Lemma ring_step_refines r q o :
  holds r q -> exists r', ring_step r o = Ret (r', (queue_step (Size r) q o).2) /\
    holds r' (queue_step (Size r) q o).1 /\ Size r' = Size r.
Proof.
  intros Hr. destruct o as [| x]; cbn.
  - pose proof (Read_holds r q Hr) as H. destruct q as [|x q].
    + rewrite H. by eexists.
    + destruct H as (r' & -> & ? & ?). by eexists.
  - pose proof (Write_holds r q x Hr) as H. case_decide.
    + rewrite H. by eexists.
    + destruct H as (r' & -> & ? & ?). by eexists.
Qed.

(** C34: the ring buffer is a bounded queue: from an empty buffer of any size, every
    sequence of reads and writes runs without a fault and returns what the same
    sequence returns on a first-in first-out queue of that capacity, including the
    refused writes when it is full and the refused reads when it is empty. *)
Theorem ring_refines_queue n zero os :
  (0 < n)%nat -> Z.of_nat n < 2 ^ 63 ->
  ring_run (new_KRingBuffer n zero) os = Ret (queue_run (Z.of_nat n) [] os).
Proof.
  intros Hn Hb. pose proof (holds_new n zero Hn Hb) as Hr.
  assert (Size (new_KRingBuffer n zero) = Z.of_nat n) as Hs by (unfold Size; cbn; by rewrite length_replicate).
  revert Hr Hs. generalize (new_KRingBuffer n zero) as r, (@nil T) as q.
  induction os as [|o os IH]; intros r q Hr Hs; cbn; [done |].
  destruct (ring_step_refines r q o Hr) as (r' & -> & Hr' & Hs'). rewrite Hs in *.
  cbn [mbind outcome_bind]. destruct (queue_step (Z.of_nat n) q o) as [q' x] eqn:E. cbn in *.
  by rewrite (IH r' q' Hr' Hs').
Qed.
End queue.

Lemma ring_refines_queue_witness :
  ring_run (new_KRingBuffer 2 0) [OpRead; OpWrite 5; OpWrite 6; OpWrite 7; OpRead; OpWrite 8; OpRead; OpRead]
  = Ret [(false, None); (true, None); (true, None); (false, None); (true, Some 5); (true, None); (true, Some 6); (true, Some 8)].
Proof.
  exact (ring_refines_queue 2 0 [OpRead; OpWrite 5; OpWrite 6; OpWrite 7; OpRead; OpWrite 8; OpRead; OpRead] ltac:(lia) ltac:(lia)).
Defined.
