(* ===== verification/Scheduler.v ===== *)
(** The scheduler.

    Models src/src/kernel/sched/Scheduler.cpp and the scheduling fields of KThread.h.
    Signal objects live in a store and are known only through [KSignalObject] and
    [SignalLaws]; a thread's [m_signal] is a key of the store.  [Schedule] is modelled up
    to the context switch: what runs after it is the thread the state marks as running.
    The clock is the value the timer returns, as an argument. *)
From S2P Require Import Prelude Objects.

Definition APIC_TICKS_PER_SEC : Z := 100.
Definition msPerTick : Z := 1000 / APIC_TICKS_PER_SEC.
Definition nsPerTick : Z := 1000000000 / APIC_TICKS_PER_SEC.

Inductive ThreadState := Ready | Running | SignalWait | Sleeping | Terminated.
Inductive WaitStatus := WaitNone | Signaled | Timeout | Abandoned | BrokenPipe.

#[global] Instance ThreadState_eq_dec : EqDecision ThreadState.
Proof. solve_decision. Defined.
#[global] Instance WaitStatus_eq_dec : EqDecision WaitStatus.
Proof. solve_decision. Defined.

(** [t_user] is the [Deleted] flag of the user thread, if there is one. *)
Record KThread := {
  Id : Z;
  t_user : option bool;
  t_state : ThreadState;
  m_waitStatus : WaitStatus;
  m_timeout : Z;
  m_signal : option Z
}.

Definition new_KThread (id : Z) (user : option bool) : KThread :=
  {| Id := id; t_user := user; t_state := Ready; m_waitStatus := WaitNone; m_timeout := 0; m_signal := None |}.

Definition with_state (t : KThread) (s : ThreadState) : KThread :=
  {| Id := t.(Id); t_user := t.(t_user); t_state := s; m_waitStatus := t.(m_waitStatus);
     m_timeout := t.(m_timeout); m_signal := t.(m_signal) |}.
Definition with_wait (t : KThread) (timeout : Z) (sg : option Z) : KThread :=
  {| Id := t.(Id); t_user := t.(t_user); t_state := t.(t_state); m_waitStatus := t.(m_waitStatus);
     m_timeout := timeout; m_signal := sg |}.
Definition with_status (t : KThread) (w : WaitStatus) : KThread :=
  {| Id := t.(Id); t_user := t.(t_user); t_state := t.(t_state); m_waitStatus := w;
     m_timeout := t.(m_timeout); m_signal := t.(m_signal) |}.

Section scheduler.
Context {Obj : Type} `{KSignalObject Obj}.

Record Scheduler := {
  Enabled : bool;
  m_threadIndex : Z;
  m_threads : list KThread;
  cpu_thread : Z;             (** the id of [m_cpu.Thread] *)
  signals : gmap Z Obj
}.

Definition with_threads (s : Scheduler) (ts : list KThread) : Scheduler :=
  {| Enabled := s.(Enabled); m_threadIndex := s.(m_threadIndex); m_threads := ts;
     cpu_thread := s.(cpu_thread); signals := s.(signals) |}.
Definition with_signals (s : Scheduler) (sg : gmap Z Obj) : Scheduler :=
  {| Enabled := s.(Enabled); m_threadIndex := s.(m_threadIndex); m_threads := s.(m_threads);
     cpu_thread := s.(cpu_thread); signals := sg |}.

(** [Init] starts with the boot thread; the id counter has already been at 1. *)
Definition Init (sg : gmap Z Obj) : Scheduler :=
  {| Enabled := false; m_threadIndex := 0; m_threads := [with_state (new_KThread 1 None) Running];
     cpu_thread := 0; signals := sg |}.

Definition GetCurrentThread (s : Scheduler) : outcome KThread :=
  _ ← Assert (s.(m_threadIndex) <? Z.of_nat (length s.(m_threads)));
  match s.(m_threads) !! Z.to_nat s.(m_threadIndex) with Some t => Ret t | None => Fault end.

(** ** Schedule *)

(** Terminated threads other than the current one are removed. *)
Fixpoint purge (current : Z) (ts : list KThread) : outcome (list KThread) :=
  match ts with
  | [] => Ret []
  | t :: ts =>
      if bool_decide (t.(t_state) = Terminated) && negb (t.(Id) =? current) then
        _ ← Assert (default true t.(t_user));
        purge current ts
      else ts ← purge current ts; Ret (t :: ts)
  end.

(** One thread in the loop that updates the states. *)
Definition update_thread (tsc : Z) (sg : gmap Z Obj) (t : KThread) : outcome (gmap Z Obj * KThread) :=
  match t.(t_state) with
  | Sleeping =>
      _ ← Assert (negb (t.(m_timeout) =? 0));
      if t.(m_timeout) <=? tsc then
        Ret (sg, with_status (with_state (with_wait t 0 t.(m_signal)) Ready) WaitNone)
      else Ret (sg, t)
  | SignalWait =>
      match t.(m_signal) with
      | None => Bugcheck
      | Some p =>
          if t.(m_timeout) <=? tsc then
            Ret (sg, with_status (with_state (with_wait t 0 t.(m_signal)) Ready) Timeout)
          else
            match sg !! p with
            | None => Fault
            | Some o =>
                if IsSignalled o then
                  o ← Observed o;
                  Ret (<[p := o]> sg, with_status (with_state (with_wait t 0 None) Ready) Signaled)
                else Ret (sg, t)
            end
      end
  | _ => Ret (sg, t)
  end.

Fixpoint update_threads (tsc : Z) (sg : gmap Z Obj) (ts : list KThread) : outcome (gmap Z Obj * list KThread) :=
  match ts with
  | [] => Ret (sg, [])
  | t :: ts =>
      '(sg, t) ← update_thread tsc sg t;
      '(sg, ts) ← update_threads tsc sg ts;
      Ret (sg, t :: ts)
  end.

(** The current thread, known by its id, becomes ready if it was still running. *)
Definition mark_ready (current : Z) (t : KThread) : KThread :=
  if (t.(Id) =? current) && bool_decide (t.(t_state) = Running) then with_state t Ready else t.

(** [while (true)]: the next ready thread after [i]. *)
Fixpoint select (fuel : nat) (ts : list KThread) (i : Z) : outcome Z :=
  match fuel with
  | O => Diverged
  | S fuel =>
      if Z.of_nat (length ts) =? 0 then Fault
      else
        let i := u64 (i + 1) mod Z.of_nat (length ts) in
        match ts !! Z.to_nat i with
        | None => Fault
        | Some t => if decide (t.(t_state) = Ready) then Ret i else select fuel ts i
        end
  end.

(** One round of the threads is enough, see [select_ready]; without a ready thread the
    loop does not end, whatever the fuel, see [select_none]. *)
Definition Schedule (s : Scheduler) (tsc : Z) : outcome Scheduler :=
  _ ← Assert s.(Enabled);
  current ← GetCurrentThread s;
  ts ← purge current.(Id) s.(m_threads);
  '(sg, ts) ← update_threads tsc s.(signals) ts;
  let ts := mark_ready current.(Id) <$> ts in
  i ← select (length ts) ts s.(m_threadIndex);
  let ts := alter (fun t => with_state t Running) (Z.to_nat i) ts in
  match ts !! Z.to_nat i with
  | None => Fault
  | Some next =>
      Ret {| Enabled := s.(Enabled); m_threadIndex := i; m_threads := ts;
             cpu_thread := if next.(Id) =? current.(Id) then s.(cpu_thread) else next.(Id);
             signals := sg |}
  end.

(** ** Operations of threads

    [tscStart] is the clock when the deadline is computed, [tsc] when [Schedule] reads it. *)

(** The current thread is updated in place. *)
Definition set_current (s : Scheduler) (t : KThread) : Scheduler :=
  with_threads s (<[Z.to_nat s.(m_threadIndex) := t]> s.(m_threads)).

Definition kill (id : Z) (t : KThread) : KThread :=
  if t.(Id) =? id then
    {| Id := t.(Id); t_user := (fun _ => true) <$> t.(t_user); t_state := Terminated;
       m_waitStatus := t.(m_waitStatus); m_timeout := t.(m_timeout); m_signal := t.(m_signal) |}
  else t.

Definition KillThread (s : Scheduler) (id : Z) : Scheduler := with_threads s (kill id <$> s.(m_threads)).

(** [Fatal("Unreachable")] follows in the killed thread, which never runs again. *)
Definition KillCurrentThread (s : Scheduler) (tsc : Z) : outcome Scheduler :=
  current ← GetCurrentThread s;
  Schedule (KillThread s current.(Id)) tsc.

Definition AddReady (s : Scheduler) (t : KThread) : outcome Scheduler :=
  let t := with_state t Ready in
  _ ← Assert (forallb (fun u => negb (u.(Id) =? t.(Id))) s.(m_threads));
  Ret (with_threads s (s.(m_threads) ++ [t])).

Definition Sleep (s : Scheduler) (value tscStart tsc : Z) : outcome Scheduler :=
  current ← GetCurrentThread s;
  let deadline := u64 (tscStart + value / nsPerTick) in
  Schedule (set_current s (with_state (with_wait current deadline current.(m_signal)) Sleeping)) tsc.

(** [Some Signaled] when the wait ends at once; otherwise the thread is parked and its
    [m_waitStatus] is the result when it runs again. *)
Definition ObjectWait (s : Scheduler) (object timeout tscStart tsc : Z) : outcome (Scheduler * option WaitStatus) :=
  current ← GetCurrentThread s;
  _ ← Assert (bool_decide (current.(t_state) = Running));
  _ ← Assert (bool_decide (current.(m_signal) = None));
  match s.(signals) !! object with
  | None => Fault
  | Some o =>
      if IsSignalled o then
        o ← Observed o;
        Ret (with_signals s (<[object := o]> s.(signals)), Some Signaled)
      else
        let rounded_ticks := u64 (timeout + (msPerTick - 1)) / msPerTick in
        let deadline := u64 (tscStart + rounded_ticks) in
        s ← Schedule (set_current s (with_wait (with_state current SignalWait) deadline (Some object))) tsc;
        Ret (s, None)
  end.

Definition onTimerTick (s : Scheduler) (tsc : Z) : outcome Scheduler :=
  if s.(Enabled) then Schedule s tsc else Ret s.
End scheduler.
Arguments Scheduler Obj : clear implicits.

(** ** Selecting the next thread *)

Lemma select_spec n ts i :
  0 <= i -> i + Z.of_nat n < 2 ^ 64 -> 0 < Z.of_nat (length ts) < 2 ^ 63 ->
  match select n ts i with
  | Ret k => exists d, (1 <= d <= n)%nat /\ k = (i + Z.of_nat d) mod Z.of_nat (length ts) /\
      (exists t, ts !! Z.to_nat k = Some t /\ t.(t_state) = Ready) /\
      forall e t, (1 <= e < d)%nat -> ts !! Z.to_nat ((i + Z.of_nat e) mod Z.of_nat (length ts)) = Some t -> t.(t_state) <> Ready
  | Diverged => forall e t, (1 <= e <= n)%nat ->
      ts !! Z.to_nat ((i + Z.of_nat e) mod Z.of_nat (length ts)) = Some t -> t.(t_state) <> Ready
  | _ => False
  end.
Proof.
  set (L := Z.of_nat (length ts)).
  revert i. induction n as [|n IH]; intros i Hi Hb HL; cbn [select]; [intros e t ?; lia |].
  fold L. rewrite (proj2 (Z.eqb_neq L 0)) by lia. rewrite (wrap_small 64) by lia.
  pose proof (Z.mod_pos_bound (i + 1) L ltac:(lia)) as Hm.
  destruct (lookup_lt_is_Some_2 ts (Z.to_nat ((i + 1) mod L))) as [t Ht]; [unfold L in *; lia |]. rewrite Ht.
  destruct (decide (t_state t = Ready)) as [Hr | Hr].
  - exists 1%nat. split_and!; [lia | lia | done | eauto | intros; lia].
  - specialize (IH ((i + 1) mod L)).
    assert (forall e, ((i + 1) mod L + Z.of_nat e) mod L = (i + Z.of_nat (S e)) mod L) as He
      by (intros e; rewrite Zplus_mod_idemp_l; f_equal; lia).
    assert (Z.of_nat n < 2 ^ 64 - i - 1) by lia.
    destruct (decide ((i + 1) mod L + Z.of_nat n < 2 ^ 64)) as [Hlt |]; [| pose proof (Z.mod_le (i + 1) L ltac:(lia) ltac:(lia)); lia].
    specialize (IH ltac:(lia) Hlt ltac:(lia)). destruct (select n ts ((i + 1) mod L)) as [k | | |]; try done.
    + destruct IH as (d & Hd & -> & Hk & Hbef). exists (S d). rewrite He. rewrite He in Hk. split_and!; [lia | lia | done | done |].
      intros e u Heu Hu. destruct (decide (e = 1%nat)) as [-> |].
      * change (Z.of_nat 1) with 1 in Hu. rewrite Ht in Hu. congruence.
      * destruct e as [|e]; [lia |]. rewrite <- He in Hu. eapply Hbef; [| exact Hu]. lia.
    + intros e u Heu Hu. destruct (decide (e = 1%nat)) as [-> |].
      * change (Z.of_nat 1) with 1 in Hu. rewrite Ht in Hu. congruence.
      * destruct e as [|e]; [lia |]. rewrite <- He in Hu. eapply IH; [| exact Hu]. lia.
Qed.

(** One round finds a ready thread if there is one. *)
Lemma select_ready ts i j t :
  0 <= i < 2 ^ 63 -> Z.of_nat (length ts) < 2 ^ 63 -> ts !! j = Some t -> t.(t_state) = Ready ->
  exists k u, select (length ts) ts i = Ret k /\ 0 <= k < Z.of_nat (length ts) /\
    ts !! Z.to_nat k = Some u /\ u.(t_state) = Ready.
Proof.
  intros Hi HL Hj Hr. apply lookup_lt_Some in Hj as Hjl.
  pose proof (select_spec (length ts) ts i ltac:(lia) ltac:(lia) ltac:(lia)) as Hs.
  set (L := Z.of_nat (length ts)) in *. destruct (select (length ts) ts i) as [k | | |]; try done.
  - destruct Hs as (d & _ & -> & (u & Hu & Hru) & _). eexists _, u. split_and!; [done | | | done | done];
      pose proof (Z.mod_pos_bound (i + Z.of_nat d) L ltac:(lia)); lia.
  - exfalso. set (e := (Z.of_nat j - i - 1) mod L + 1).
    pose proof (Z.mod_pos_bound (Z.of_nat j - i - 1) L ltac:(lia)) as He.
    assert ((i + e) mod L = Z.of_nat j) as Hej.
    { unfold e. replace (i + _) with (i + 1 + (Z.of_nat j - i - 1) mod L) by lia.
      rewrite Zplus_mod_idemp_r. replace (i + 1 + _) with (Z.of_nat j) by lia. apply Z.mod_small. lia. }
    apply (Hs (Z.to_nat e) t); [lia | | done]. rewrite Z2Nat.id by lia. rewrite Hej. by rewrite Nat2Z.id.
Qed.

Lemma select_none ts n i :
  (forall t, t ∈ ts -> t.(t_state) <> Ready) -> 0 < Z.of_nat (length ts) < 2 ^ 63 -> 0 <= i < 2 ^ 63 ->
  select n ts i = Diverged.
Proof.
  intros Hn HL. revert i. induction n as [|n IH]; intros i Hi; cbn [select]; [done |].
  rewrite (proj2 (Z.eqb_neq _ 0)) by lia. rewrite (wrap_small 64) by lia.
  pose proof (Z.mod_pos_bound (i + 1) (Z.of_nat (length ts)) ltac:(lia)) as Hm.
  destruct (lookup_lt_is_Some_2 ts (Z.to_nat ((i + 1) mod Z.of_nat (length ts)))) as [t Ht]; [lia |]. rewrite Ht.
  rewrite decide_False by (apply Hn; by eapply list_elem_of_lookup_2). apply IH. lia.
Qed.

(** ** One pass over the threads *)

Section updates.
Context {Obj : Type} `{SignalLaws Obj}.

(** What the assertions of the pass need. *)
Definition thread_ok (sg : gmap Z Obj) (t : KThread) : Prop :=
  match t.(t_state) with
  | Sleeping => t.(m_timeout) <> 0
  | SignalWait => exists p, t.(m_signal) = Some p /\ is_Some (sg !! p)
  | Terminated => default true t.(t_user) = true
  | _ => True
  end.

Definition woken (t : KThread) (sg : option Z) (w : WaitStatus) : KThread :=
  with_status (with_state (with_wait t 0 sg) Ready) w.

(** What the pass may do to a thread at time [tsc]. *)
Inductive stepped (tsc : Z) (t : KThread) : KThread -> Prop :=
| step_same : (t.(t_state) = Sleeping \/ t.(t_state) = SignalWait -> tsc < t.(m_timeout)) -> stepped tsc t t
| step_slept : t.(t_state) = Sleeping -> t.(m_timeout) <= tsc -> stepped tsc t (woken t t.(m_signal) WaitNone)
| step_timeout : t.(t_state) = SignalWait -> t.(m_timeout) <= tsc -> stepped tsc t (woken t t.(m_signal) Timeout)
| step_signaled : t.(t_state) = SignalWait -> tsc < t.(m_timeout) -> stepped tsc t (woken t None Signaled).

Lemma update_thread_spec tsc sg t :
  thread_ok sg t -> exists sg' t', update_thread tsc sg t = Ret (sg', t') /\ stepped tsc t t' /\
    forall p, is_Some (sg !! p) -> is_Some (sg' !! p).
Proof using H0.
  unfold thread_ok, update_thread. destruct (t_state t) eqn:E.
  - intros _. eexists _, _. split_and!; [done | | done]. apply step_same. rewrite E. intros [|]; done.
  - intros _. eexists _, _. split_and!; [done | | done]. apply step_same. rewrite E. intros [|]; done.
  - intros (p & Hp & [o Ho]). rewrite Hp. destruct (Z.leb_spec (m_timeout t) tsc).
    + eexists _, _. split_and!; [done | | done]. rewrite <- Hp. by apply step_timeout.
    + rewrite Ho. destruct (IsSignalled o) eqn:Es.
      * destruct (Observed_returns _ Es) as [o' ->]. cbn [mbind outcome_bind]. eexists _, _. split_and!; [done | by apply step_signaled |].
        intros q Hq. apply lookup_insert_is_Some'. by right.
      * eexists _, _. split_and!; [done | by apply step_same | done].
  - intros Ht. rewrite (proj2 (Z.eqb_neq _ 0)) by done. cbn [negb Assert mbind outcome_bind].
    destruct (Z.leb_spec (m_timeout t) tsc); eexists _, _; (split_and!; [done | | done]);
      [by apply step_slept | by apply step_same].
  - intros _. eexists _, _. split_and!; [done | | done]. apply step_same. rewrite E. intros [|]; done.
Qed.

Lemma thread_ok_mono (sg sg' : gmap Z Obj) t :
  (forall p, is_Some (sg !! p) -> is_Some (sg' !! p)) -> thread_ok sg t -> thread_ok sg' t.
Proof using Type. unfold thread_ok. destruct (t_state t); naive_solver. Qed.

Lemma update_threads_spec tsc ts : forall sg,
  Forall (thread_ok sg) ts -> exists sg' ts', update_threads tsc sg ts = Ret (sg', ts') /\ Forall2 (stepped tsc) ts ts' /\
    forall p, is_Some (sg !! p) -> is_Some (sg' !! p).
Proof using H0.
  induction ts as [|t ts IH]; intros sg Hok; cbn [update_threads]; [by eexists _, _ |].
  apply Forall_cons in Hok as [Ht Hok]. destruct (update_thread_spec tsc sg t Ht) as (sg1 & t' & -> & Hst & Hd).
  cbn [mbind outcome_bind]. destruct (IH sg1) as (sg2 & ts' & -> & Hsts & Hd').
  { eapply Forall_impl; [exact Hok |]. intros u. by apply thread_ok_mono. }
  cbn [mbind outcome_bind]. eexists _, _. split_and!; [done | by constructor | eauto].
Qed.

Lemma stepped_id tsc t t' : stepped tsc t t' -> t'.(Id) = t.(Id).
Proof using Type. by intros []. Qed.

Lemma stepped_running tsc t t' : stepped tsc t t' -> t'.(t_state) = Running -> t' = t.
Proof using Type. by intros []. Qed.

Lemma stepped_ok tsc (sg : gmap Z Obj) t t' : stepped tsc t t' -> thread_ok sg t -> thread_ok sg t'.
Proof using Type. by intros [] Ht. Qed.

(** ** The threads after a purge *)

Definition kept (current : Z) (t : KThread) : Prop := t.(t_state) <> Terminated \/ t.(Id) = current.

#[global] Instance kept_dec current t : Decision (kept current t).
Proof. unfold kept. apply _. Defined.

Lemma purge_filter (sg : gmap Z Obj) current ts :
  Forall (thread_ok sg) ts -> purge current ts = Ret (filter (kept current) ts).
Proof using Type.
  induction ts as [|t ts IH]; intros Hok; [done |]. apply Forall_cons in Hok as [Ht Hok]. cbn [purge].
  rewrite IH by done. destruct (decide (t_state t = Terminated)) as [E | E].
  - rewrite bool_decide_eq_true_2 by done. destruct (Z.eqb_spec (Id t) current); cbn [negb andb].
    + rewrite filter_cons_True by (right; done). done.
    + rewrite filter_cons_False by (intros []; done). unfold thread_ok in Ht. rewrite E in Ht. by rewrite Ht.
  - rewrite bool_decide_eq_false_2 by done. cbn [andb]. rewrite filter_cons_True by (by left). done.
Qed.

(** The thread list is well formed: ids are unique and only the thread at the index,
    the current one, may be running. *)
Record sched_ok (s : Scheduler Obj) : Prop := {
  ok_enabled : s.(Enabled) = true;
  ok_threads : Forall (thread_ok s.(signals)) s.(m_threads);
  ok_ids : NoDup (Id <$> s.(m_threads));
  ok_index : 0 <= s.(m_threadIndex) < Z.of_nat (length s.(m_threads));
  ok_size : Z.of_nat (length s.(m_threads)) < 2 ^ 63;
  ok_running : forall i t, s.(m_threads) !! i = Some t -> t.(t_state) = Running -> Z.of_nat i = s.(m_threadIndex)
}.

Lemma current_thread s : sched_ok s -> exists t, GetCurrentThread s = Ret t /\ s.(m_threads) !! Z.to_nat s.(m_threadIndex) = Some t.
Proof using Type.
  intros Hok. destruct (ok_index _ Hok). unfold GetCurrentThread. rewrite (proj2 (Z.ltb_lt _ _)) by done. cbn [Assert mbind outcome_bind].
  destruct (lookup_lt_is_Some_2 s.(m_threads) (Z.to_nat s.(m_threadIndex))) as [t Ht]; [lia |]. rewrite Ht. eauto.
Qed.

(** The state the selection starts from: purged, updated, the current thread ready. *)
Definition refreshed (s : Scheduler Obj) (tsc : Z) (current : Z) (sg' : gmap Z Obj) (ts : list KThread) : Prop :=
  exists us, update_threads tsc s.(signals) (filter (kept current) s.(m_threads)) = Ret (sg', us) /\
    Forall2 (stepped tsc) (filter (kept current) s.(m_threads)) us /\ ts = mark_ready current <$> us /\
    forall p, is_Some (s.(signals) !! p) -> is_Some (sg' !! p).

Lemma refresh s tsc c :
  sched_ok s -> exists sg' ts, refreshed s tsc c sg' ts.
Proof using H0.
  intros Hok. destruct (update_threads_spec tsc (filter (kept c) s.(m_threads)) s.(signals)) as (sg' & us & Hu & Hst & Hd).
  { apply Forall_forall. intros t [_ Ht]%list_elem_of_filter. eapply Forall_forall; [apply (ok_threads _ Hok) | done]. }
  by exists sg', (mark_ready c <$> us), us.
Qed.

(** The parts of [Schedule] put together. *)
Lemma Schedule_refreshed s tsc c sg' ts :
  sched_ok s -> GetCurrentThread s = Ret c -> refreshed s tsc c.(Id) sg' ts ->
  Schedule s tsc =
    i ← select (length ts) ts s.(m_threadIndex);
    match alter (fun t => with_state t Running) (Z.to_nat i) ts !! Z.to_nat i with
    | None => Fault
    | Some next =>
        Ret {| Enabled := true; m_threadIndex := i;
               m_threads := alter (fun t => with_state t Running) (Z.to_nat i) ts;
               cpu_thread := if next.(Id) =? c.(Id) then s.(cpu_thread) else next.(Id); signals := sg' |}
    end.
Proof using Type.
  intros Hok Hc (us & Hu & _ & -> & _). unfold Schedule. rewrite (ok_enabled _ Hok). cbn [Assert mbind outcome_bind].
  rewrite Hc. cbn [mbind outcome_bind]. rewrite (purge_filter s.(signals)) by apply Hok. cbn [mbind outcome_bind].
  rewrite Hu. done.
Qed.

Lemma mark_ready_id c t : (mark_ready c t).(Id) = t.(Id).
Proof using Type. unfold mark_ready. by destruct (_ && _). Qed.

Lemma Forall2_stepped_ids tsc ts us : Forall2 (stepped tsc) ts us -> Id <$> us = Id <$> ts.
Proof using Type. induction 1 as [|t u ts us Hs _ IH]; cbn; [done |]. rewrite IH. f_equal. by eapply stepped_id. Qed.

(** Facts about the refreshed list. *)
Lemma refreshed_facts s tsc c sg' ts :
  sched_ok s -> GetCurrentThread s = Ret c -> refreshed s tsc c.(Id) sg' ts ->
  NoDup (Id <$> ts) /\ Forall (thread_ok sg') ts /\ (0 < length ts <= length s.(m_threads))%nat /\
  (forall t, t ∈ ts -> t.(t_state) <> Running) /\
  (c.(t_state) = Running -> exists t, t ∈ ts /\ t.(Id) = c.(Id) /\ t.(t_state) = Ready).
Proof using Type.
  intros Hok Hc (us & _ & Hst & -> & Hd). destruct (current_thread s Hok) as (c' & Hc' & Hcl). rewrite Hc in Hc'. injection Hc' as <-.
  assert (Id <$> (mark_ready (Id c) <$> us) = Id <$> filter (kept (Id c)) s.(m_threads)) as Hids.
  { rewrite <- list_fmap_compose. rewrite <- (Forall2_stepped_ids _ _ _ Hst). apply list_fmap_ext. intros i t _. apply mark_ready_id. }
  assert (c ∈ filter (kept (Id c)) s.(m_threads)) as Hcin
    by (apply list_elem_of_filter; split; [by right | by eapply list_elem_of_lookup_2]).
  assert (forall u, u ∈ us -> exists t, t ∈ s.(m_threads) /\ stepped tsc t u) as Hsrc.
  { intros u Hu. apply list_elem_of_lookup_1 in Hu as [i Hi].
    destruct (Forall2_lookup_r _ _ _ _ _ Hst Hi) as (t & Ht & Hs). exists t. split; [| done].
    apply list_elem_of_lookup_2 in Ht. by apply list_elem_of_filter in Ht as [_ ?]. }
  assert (forall t, t ∈ s.(m_threads) -> t.(t_state) = Running -> t = c) as Hrun.
  { intros t Ht Hr. apply list_elem_of_lookup_1 in Ht as [i Hi]. pose proof (ok_running _ Hok i t Hi Hr) as Hidx.
    rewrite <- Hidx, Nat2Z.id in Hcl. congruence. }
  split_and!.
  - rewrite Hids. pose proof (ok_ids _ Hok) as Hn. clear -Hn. induction (m_threads s) as [|t ts IH]; [done |].
    cbn in Hn. apply NoDup_cons in Hn as [Hn1 Hn2]. rewrite filter_cons. case_decide; [| by apply IH].
    cbn. apply NoDup_cons. split; [| by apply IH]. intros (u & Hu & Hin)%list_elem_of_fmap. apply Hn1.
    apply list_elem_of_filter in Hin as [_ Hin]. rewrite Hu. by apply list_elem_of_fmap_2.
  - apply Forall_fmap, Forall_forall. intros u Hu. destruct (Hsrc u Hu) as (t & Ht & Hs).
    assert (thread_ok sg' u) as Hou.
    { eapply stepped_ok; [exact Hs |]. apply (thread_ok_mono s.(signals)); [exact Hd |].
      eapply Forall_forall; [apply (ok_threads _ Hok) | done]. }
    cbn. unfold mark_ready. by destruct (_ && _).
  - rewrite length_fmap, <- (Forall2_length _ _ _ Hst). destruct (filter _ _) eqn:E; [by apply elem_of_nil in Hcin | cbn; lia].
  - rewrite length_fmap, <- (Forall2_length _ _ _ Hst). apply length_filter.
  - intros t (u & -> & Hu)%list_elem_of_fmap Hr. unfold mark_ready in Hr.
    destruct (Z.eqb_spec (Id u) (Id c)) as [He | Hne]; cbn [andb] in Hr.
    + destruct (decide (t_state u = Running)) as [E | E]; [by rewrite bool_decide_eq_true_2 in Hr by done |].
      by rewrite bool_decide_eq_false_2 in Hr by done.
    + destruct (Hsrc u Hu) as (t & Ht & Hs). pose proof (stepped_running _ _ _ Hs Hr) as ->.
      apply Hne. f_equal. by apply Hrun.
  - intros Hcr. apply list_elem_of_lookup_1 in Hcin as [i Hi].
    destruct (Forall2_lookup_l _ _ _ _ _ Hst Hi) as (u & Hu & Hs). exists (mark_ready (Id c) u).
    split_and!; [apply list_elem_of_fmap_2; by eapply list_elem_of_lookup_2 | by rewrite mark_ready_id, (stepped_id _ _ _ Hs) |].
    assert (u = c) as ->.
    { inversion Hs; subst; try congruence; done. }
    unfold mark_ready. by rewrite Z.eqb_refl, bool_decide_eq_true_2.
Qed.
End updates.

Section schedule.
Context {Obj : Type} `{SignalLaws Obj}.

(** Running the thread at index [k] of the refreshed list. *)
Lemma Schedule_choose s tsc c sg' ts k u :
  sched_ok s -> GetCurrentThread s = Ret c -> refreshed s tsc c.(Id) sg' ts ->
  select (length ts) ts s.(m_threadIndex) = Ret k -> 0 <= k < Z.of_nat (length ts) ->
  ts !! Z.to_nat k = Some u ->
  exists s', Schedule s tsc = Ret s' /\ sched_ok s' /\
    s'.(m_threadIndex) = k /\ s'.(m_threads) = alter (fun t => with_state t Running) (Z.to_nat k) ts /\
    GetCurrentThread s' = Ret (with_state u Running) /\
    (u.(Id) <> c.(Id) -> s'.(cpu_thread) = u.(Id)).
Proof using Type.
  intros Hok Hc Href Hsel Hk Hu. destruct (refreshed_facts s tsc c sg' ts Hok Hc Href) as (Hids & Hall & Hlen & Hnr & _).
  pose proof (ok_size _ Hok) as Hsz.
  rewrite (Schedule_refreshed _ _ _ _ _ Hok Hc Href), Hsel. cbn [mbind outcome_bind].
  assert (alter (fun t => with_state t Running) (Z.to_nat k) ts !! Z.to_nat k = Some (with_state u Running)) as Hat
    by (by rewrite list_lookup_alter_eq, Hu).
  rewrite Hat. eexists. split; [done |].
  assert (forall i t, alter (fun t => with_state t Running) (Z.to_nat k) ts !! i = Some t ->
    i = Z.to_nat k /\ t = with_state u Running \/ i <> Z.to_nat k /\ ts !! i = Some t) as Hcase.
  { intros i t Hi. destruct (decide (i = Z.to_nat k)) as [-> | Hne]; [rewrite Hat in Hi; left; split; congruence |].
    rewrite list_lookup_alter_ne in Hi by done. by right. }
  split_and!; try done.
  - constructor; cbn [Enabled m_threadIndex m_threads signals].
    + done.
    + apply Forall_lookup. intros i t [[-> ->] | [_ Hi]]%Hcase; [done |]. by eapply Forall_lookup_1 in Hall.
    + assert (Id <$> alter (fun t => with_state t Running) (Z.to_nat k) ts = Id <$> ts) as ->; [| done].
      apply list_eq. intros i. rewrite !list_lookup_fmap. destruct (decide (i = Z.to_nat k)) as [-> |].
      * by rewrite Hat, Hu.
      * by rewrite list_lookup_alter_ne.
    + rewrite length_alter. lia.
    + rewrite length_alter. lia.
    + intros i t [[-> _] | [_ Hi]]%Hcase Hr; [lia |]. destruct (Hnr t); [by eapply list_elem_of_lookup_2 | done].
  - unfold GetCurrentThread. cbn [m_threadIndex m_threads]. rewrite length_alter, (proj2 (Z.ltb_lt _ _)) by lia.
    cbn [Assert mbind outcome_bind]. by rewrite Hat.
  - intros Hne. cbn [cpu_thread]. cbn. by rewrite (proj2 (Z.eqb_neq _ _)).
Qed.

(** C7: preemption.  When the timer preempts a running thread of a well-formed scheduler,
    [Schedule] returns for every clock value: exactly one thread runs afterwards, it is
    the current one, the processor has been told when it changed, and the scheduler is
    well formed again. *)
Theorem Schedule_preempts s tsc c :
  sched_ok s -> GetCurrentThread s = Ret c -> c.(t_state) = Running ->
  exists s' u, Schedule s tsc = Ret s' /\ sched_ok s' /\ GetCurrentThread s' = Ret u /\ u.(t_state) = Running /\
    (forall i t, s'.(m_threads) !! i = Some t -> t.(t_state) = Running -> Z.of_nat i = s'.(m_threadIndex)) /\
    (u.(Id) <> c.(Id) -> s'.(cpu_thread) = u.(Id)).
Proof using All.
  intros Hok Hc Hr. destruct (refresh s tsc c.(Id) Hok) as (sg' & ts & Href).
  destruct (refreshed_facts s tsc c sg' ts Hok Hc Href) as (_ & _ & Hlen & _ & Hready).
  destruct (Hready Hr) as (t & Ht & _ & Htr). apply list_elem_of_lookup_1 in Ht as [j Hj].
  pose proof (ok_size _ Hok). destruct (ok_index _ Hok).
  destruct (select_ready ts s.(m_threadIndex) j t) as (k & u & Hsel & Hk & Hu & _); [lia | lia | done | done |].
  destruct (Schedule_choose s tsc c sg' ts k u Hok Hc Href Hsel Hk Hu) as (s' & Hs & Hok' & _ & _ & Hcur & Hcpu).
  exists s', (with_state u Running). split_and!; try done. by apply (ok_running _ Hok').
Qed.

(** Fact: without an idle thread the scheduler hangs: when no thread is ready after the pass
    that wakes sleepers and waiters, and the current one is not running, the search for
    the next thread goes round for ever, whatever the number of turns. *)
Theorem Schedule_idle_hangs s tsc c sg' ts :
  sched_ok s -> GetCurrentThread s = Ret c -> refreshed s tsc c.(Id) sg' ts ->
  (forall t, t ∈ ts -> t.(t_state) <> Ready) ->
  Schedule s tsc = Diverged /\ forall fuel, select fuel ts s.(m_threadIndex) = Diverged.
Proof using Type.
  intros Hok Hc Href Hn. destruct (refreshed_facts s tsc c sg' ts Hok Hc Href) as (_ & _ & Hlen & _ & _).
  pose proof (ok_size _ Hok). destruct (ok_index _ Hok).
  assert (forall fuel, select fuel ts s.(m_threadIndex) = Diverged) as Hd by (intros; apply select_none; [done | lia | lia]).
  split; [| done]. rewrite (Schedule_refreshed _ _ _ _ _ Hok Hc Href). by rewrite Hd.
Qed.

(** Fact: sleeping is neither cut short nor overslept.  After any call of [Schedule] a thread
    that was asleep is unchanged as long as its deadline lies ahead; once the clock has
    reached the deadline it is ready or running, with the deadline cleared and the
    status of a completed sleep. *)
Theorem Sleep_deadline s s' tsc t :
  sched_ok s -> Schedule s tsc = Ret s' -> t ∈ s.(m_threads) -> t.(t_state) = Sleeping ->
  (tsc < t.(m_timeout) -> t ∈ s'.(m_threads)) /\
  (t.(m_timeout) <= tsc -> exists t', t' ∈ s'.(m_threads) /\ t'.(Id) = t.(Id) /\
    (t'.(t_state) = Ready \/ t'.(t_state) = Running) /\ t'.(m_timeout) = 0 /\ t'.(m_waitStatus) = WaitNone).
Proof using All.
  intros Hok Hs Ht Hsl. destruct (current_thread s Hok) as (c & Hc & _).
  destruct (refresh s tsc c.(Id) Hok) as (sg' & ts & Href). pose proof Href as (us & _ & Hst & Hts & _).
  rewrite (Schedule_refreshed _ _ _ _ _ Hok Hc Href) in Hs. apply bind_Ret in Hs as (k & Hsel & Hs).
  destruct (alter _ (Z.to_nat k) ts !! Z.to_nat k) as [next |] eqn:Hn; [| done]. injection Hs as <-. cbn [m_threads].
  assert (t ∈ filter (kept (Id c)) s.(m_threads)) as Htk by (apply list_elem_of_filter; split; [left; congruence | done]).
  apply list_elem_of_lookup_1 in Htk as [i Hi].
  destruct (Forall2_lookup_l _ _ _ _ _ Hst Hi) as (u & Hu & Hstep).
  assert (u.(t_state) <> Running -> ts !! i = Some u) as Hti.
  { intros Hnr. rewrite Hts, list_lookup_fmap, Hu. cbn. f_equal. unfold mark_ready.
    rewrite (bool_decide_eq_false_2 (t_state u = Running)) by done. by rewrite andb_false_r. }
  split; intros Htime; destruct Hstep as [Hx | Hx Hy | Hx Hy | Hx Hy]; try congruence; try lia.
  - specialize (Hti ltac:(congruence)). apply (list_elem_of_lookup_2 _ i).
    rewrite list_lookup_alter_ne; [done |]. intros <-. rewrite list_lookup_alter_eq, Hti in Hn.
    (* the selected thread was ready *)
    destruct (refreshed_facts s tsc c sg' ts Hok Hc Href) as (_ & _ & Hlen & _ & _).
    pose proof (ok_size _ Hok). destruct (ok_index _ Hok).
    pose proof (select_spec (length ts) ts s.(m_threadIndex) ltac:(lia) ltac:(lia) ltac:(lia)) as Hspec.
    rewrite Hsel in Hspec. destruct Hspec as (d & _ & _ & (v & Hv & Hvr) & _). congruence.
  - specialize (Hx (or_introl Hsl)). lia.
  - specialize (Hti ltac:(done)). destruct (decide (i = Z.to_nat k)) as [-> | Hne].
    + exists (with_state (woken t (m_signal t) WaitNone) Running). split_and!; [| by cbn; auto ..].
      apply (list_elem_of_lookup_2 _ (Z.to_nat k)). by rewrite list_lookup_alter_eq, Hti.
    + exists (woken t (m_signal t) WaitNone). split_and!; [| by cbn; auto ..].
      apply (list_elem_of_lookup_2 _ i). by rewrite list_lookup_alter_ne.
Qed.
End schedule.

(** ** Who is woken by an object *)

(** How many waits an object can still satisfy: an auto-reset event one when it is set, a
    semaphore its value; a manual-reset event and a predicate are not used up. *)
Definition tokens (o : signal) : option Z :=
  match o with
  | OEvent e => if e.(m_manualReset) then None else Some (of_bool e.(Objects.m_state))
  | OSemaphore s => Some (Z.max 0 s.(m_value))
  | OPredicate _ => None
  end.

Definition waits (p tsc : Z) (t : KThread) : bool :=
  bool_decide (t.(t_state) = SignalWait) && bool_decide (t.(m_signal) = Some p) && (tsc <? t.(m_timeout)).

Fixpoint waiting (p tsc : Z) (ts : list KThread) : Z :=
  match ts with [] => 0 | t :: ts => of_bool (waits p tsc t) + waiting p tsc ts end.

(** The waiters of [p] in [ts] that the pass has made ready in [us]. *)
Fixpoint granted (p tsc : Z) (ts us : list KThread) : Z :=
  match ts, us with
  | t :: ts, u :: us => of_bool (waits p tsc t && bool_decide (u.(t_state) = Ready)) + granted p tsc ts us
  | _, _ => 0
  end.

Lemma waiting_nonneg p tsc ts : 0 <= waiting p tsc ts.
Proof. induction ts as [|t ts IH]; cbn; [lia |]. destruct (waits p tsc t); cbn; lia. Qed.

Lemma tokens_nonneg o n : tokens o = Some n -> 0 <= n.
Proof. destruct o as [[[] []] | [] | ]; cbn; intros [= <-]; lia. Qed.

Lemma tokens_observed o n :
  tokens o = Some n ->
  if IsSignalled o then 0 < n /\ exists o', Observed o = Ret o' /\ tokens o' = Some (n - 1) else n = 0.
Proof.
  destruct o as [[[] []] | [v l] | ]; cbn; intros [= <-]; try done.
  - split; [done |]. by eexists.
  - destruct (Z.ltb_spec 0 v); cbn; [| lia]. split; [lia |]. eexists. split; [done |]. cbn. f_equal. lia.
Qed.

(** A thread that does not wait for [p] leaves its object alone. *)
Lemma update_thread_other tsc sg sg' (t u : KThread) p :
  update_thread (Obj := signal) tsc sg t = Ret (sg', u) -> waits p tsc t = false -> sg' !! p = sg !! p.
Proof.
  unfold update_thread, waits. destruct (t_state t) eqn:E; try (by intros [= <- <-]).
  - rewrite bool_decide_eq_true_2 by done. destruct (m_signal t) as [q |] eqn:Eq; [| done].
    destruct (Z.leb_spec (m_timeout t) tsc); [by intros [= <- <-] |].
    destruct (sg !! q) as [o |] eqn:Es; [| done]. destruct (IsSignalled o); [| by intros [= <- <-]].
    intros (o' & Ho & [= <- <-])%bind_Ret. rewrite (proj2 (Z.ltb_lt _ _)) by done. rewrite andb_true_r. cbn [andb].
    intros Hd%bool_decide_eq_false. apply lookup_insert_ne. congruence.
  - intros (? & _ & Hs)%bind_Ret _. by destruct (_ <=? _); injection Hs as <- <-.
Qed.

(** A thread that waits for [p] takes a token if there is one. *)
Lemma update_thread_waiter tsc sg sg' (t u : KThread) p o n :
  update_thread (Obj := signal) tsc sg t = Ret (sg', u) -> waits p tsc t = true -> sg !! p = Some o -> tokens o = Some n ->
  exists o', sg' !! p = Some o' /\ tokens o' = Some (n - Z.min n 1) /\
    of_bool (bool_decide (u.(t_state) = Ready)) = Z.min n 1.
Proof.
  unfold update_thread, waits. intros Hu Hw Hp Hn. apply andb_true_iff in Hw as [[Hw1%bool_decide_eq_true Hw2%bool_decide_eq_true]%andb_true_iff Hw3%Z.ltb_lt].
  rewrite Hw1, Hw2, (proj2 (Z.leb_gt _ _)), Hp in Hu by done. pose proof (tokens_observed o n Hn) as Ht.
  destruct (IsSignalled o).
  - destruct Ht as (Hpos & o' & Ho & Ho'). rewrite Ho in Hu. cbn in Hu. injection Hu as <- <-. exists o'.
    rewrite lookup_insert_eq, Ho'. split_and!; [done | f_equal; lia |].
    rewrite bool_decide_eq_true_2 by done. cbn [of_bool]. lia.
  - subst n. injection Hu as <- <-. exists o. rewrite Hw1. split_and!; [done.. |]. done.
Qed.

(** C8: no wake-up is lost and none is invented.  In one pass of the scheduler an object that
    is used up by waits (an auto-reset event, a semaphore) makes ready exactly as many of
    the threads whose wait on it has not timed out as it has tokens, or all of them if there
    are fewer, and is left with the remaining tokens. *)
Theorem signal_grants tsc ts sg sg' us p o n :
  update_threads (Obj := signal) tsc sg ts = Ret (sg', us) -> sg !! p = Some o -> tokens o = Some n ->
  granted p tsc ts us = Z.min n (waiting p tsc ts) /\
  exists o', sg' !! p = Some o' /\ tokens o' = Some (n - Z.min n (waiting p tsc ts)).
Proof.
  revert sg us o n. induction ts as [|t ts IH]; intros sg us o n Hu Hp Hn; cbn [update_threads] in Hu.
  - injection Hu as <- <-. pose proof (tokens_nonneg _ _ Hn). cbn. split; [lia |]. exists o. rewrite Hn. split; [done |]. f_equal. lia.
  - apply bind_Ret in Hu as ([sg1 u] & Hu1 & Hu). apply bind_Ret in Hu as ([sg2 us'] & Hu2 & Hu). injection Hu as <- <-.
    pose proof (tokens_nonneg _ _ Hn). pose proof (waiting_nonneg p tsc ts). cbn [granted waiting].
    destruct (waits p tsc t) eqn:Ew; cbn [andb of_bool].
    + destruct (update_thread_waiter _ _ _ _ _ _ _ _ Hu1 Ew Hp Hn) as (o1 & Hp1 & Hn1 & Hg).
      destruct (IH _ _ _ _ Hu2 Hp1 Hn1) as (Hgr & o' & Ho' & Hn'). cbn [of_bool] in Hg |- *. rewrite Hg, Hgr.
      split; [lia |]. exists o'. split; [done |]. rewrite Hn'. f_equal. lia.
    + rewrite <- (update_thread_other _ _ _ _ _ p Hu1 Ew) in Hp.
      destruct (IH _ _ _ _ Hu2 Hp Hn) as (Hgr & o' & Ho' & Hn'). rewrite Hgr. split; [lia |]. by exists o'.
Qed.

(** ** Concrete runs *)

(** A boot thread that runs, a ready thread, a sleeper, and an auto-reset event 7. *)
Definition demo_sched : Scheduler signal :=
  {| Enabled := true; m_threadIndex := 0;
     m_threads := [with_state (new_KThread 1 None) Running; new_KThread 2 None;
                   with_state (with_wait (new_KThread 3 None) 150 None) Sleeping];
     cpu_thread := 1; signals := {[ 7 := OEvent (new_KEvent false false) ]} |}.

Lemma demo_sched_ok : sched_ok demo_sched.
Proof.
  constructor; [done | | | by vm_compute | by vm_compute |].
  - repeat (apply Forall_cons; split; [done |]). done.
  - apply (bool_decide_unpack _). by vm_compute.
  - intros [|[|[|i]]] t Ht Hr; cbn in Ht; simplify_eq; done.
Qed.

Lemma Schedule_preempts_witness :
  exists s' u, Schedule demo_sched 100 = Ret s' /\ GetCurrentThread s' = Ret u /\ u.(t_state) = Running.
Proof.
  destruct (Schedule_preempts demo_sched 100 _ demo_sched_ok eq_refl eq_refl) as (s' & u & ? & _ & ? & ? & _).
  exists s', u. done.
Defined.

Lemma Sleep_deadline_witness :
  exists s', Schedule demo_sched 200 = Ret s' /\ exists t', t' ∈ s'.(m_threads) /\ t'.(Id) = 3 /\
    (t'.(t_state) = Ready \/ t'.(t_state) = Running) /\ t'.(m_timeout) = 0 /\ t'.(m_waitStatus) = WaitNone.
Proof.
  eexists. split; [vm_compute; reflexivity |].
  apply (Sleep_deadline demo_sched _ 200 (with_state (with_wait (new_KThread 3 None) 150 None) Sleeping) demo_sched_ok);
    [reflexivity | right; right; left | reflexivity | by vm_compute].
Defined.

(** The boot thread alone, asleep until tick 500. *)
Definition demo_idle : Scheduler signal :=
  {| Enabled := true; m_threadIndex := 0;
     m_threads := [with_state (with_wait (new_KThread 1 None) 500 None) Sleeping];
     cpu_thread := 1; signals := ∅ |}.

Lemma demo_idle_ok : sched_ok demo_idle.
Proof.
  constructor; [done | | | by vm_compute | by vm_compute |].
  - repeat (apply Forall_cons; split; [done |]). done.
  - apply (bool_decide_unpack _). by vm_compute.
  - intros [|i] t Ht Hr; cbn in Ht; simplify_eq; done.
Qed.

Lemma Schedule_idle_hangs_witness :
  Schedule demo_idle 100 = Diverged /\ forall fuel, select fuel demo_idle.(m_threads) 0 = Diverged.
Proof.
  apply (Schedule_idle_hangs demo_idle 100 (with_state (with_wait (new_KThread 1 None) 500 None) Sleeping) ∅ demo_idle.(m_threads) demo_idle_ok eq_refl).
  - exists demo_idle.(m_threads). split_and!; [reflexivity | | reflexivity | done].
    repeat constructor.
  - intros t [-> | []%elem_of_nil]%elem_of_cons. done.
Defined.

(** Two threads wait on a semaphore with one token, a third one has timed out. *)
Lemma signal_grants_witness :
  let w id d := with_state (with_wait (new_KThread id None) d (Some 7)) SignalWait in
  let ts := [w 1 50; w 2 200; w 3 300] in
  exists sg' us, update_threads (Obj := signal) 100 {[ 7 := OSemaphore (new_KSemaphore 1 10) ]} ts = Ret (sg', us) /\
    granted 7 100 ts us = Z.min 1 (waiting 7 100 ts) /\ waiting 7 100 ts = 2.
Proof.
  eexists _, _. split; [vm_compute; reflexivity |].
  split; [| reflexivity]. eapply (signal_grants 100 _ {[ 7 := OSemaphore (new_KSemaphore 1 10) ]} _ _ 7 _ 1);
    [vm_compute; reflexivity | reflexivity | reflexivity].
Defined.

(** A wait of 10 ms on the event, which is never set; the next tick resumes the waiter. *)
Definition timed_out_run : outcome (option WaitStatus * Scheduler signal) :=
  '(s, _) ← ObjectWait demo_sched 7 10 100 100;
  s ← onTimerTick s 101;
  t ← GetCurrentThread s;
  Ret (if t.(Id) =? 1 then Some t.(m_waitStatus) else None, s).

(** Fact: a thread whose wait has timed out cannot wait again: the time-out does not clear the
    thread's signal pointer, so once it runs again with status [Timeout] its next
    [ObjectWait], on any object, fails the assertion and bugchecks. *)
Theorem ObjectWait_after_timeout :
  exists s, timed_out_run = Ret (Some Timeout, s) /\
    forall object timeout tscStart tsc, ObjectWait s object timeout tscStart tsc = Bugcheck.
Proof. eexists. split; [vm_compute; reflexivity |]. intros. reflexivity. Qed.

(** Fact: waiting without a time limit does not wait: the default time-out of [ObjectWait], the
    largest [uint64_t], overflows when it is rounded up to ticks, the deadline is the
    current tick, and the same call of [Schedule] already times the wait out. *)
Theorem ObjectWait_infinite_times_out :
  exists s t, ObjectWait demo_sched 7 (2 ^ 64 - 1) 100 100 = Ret (s, None) /\
    s.(m_threads) !! 0%nat = Some t /\ t.(Id) = 1 /\ t.(m_waitStatus) = Timeout /\ t.(t_state) = Ready.
Proof. eexists _, _. split_and!; vm_compute; reflexivity. Qed.
