(* ===== verification/DiskIO.v ===== *)
(** The disk layer: [DiskDriver] and [Disk] (kernel/drivers/io/DiskDriver.h and
    kernel/io/disk/Disk.h, Disk.cpp).

    A driver is an abstract class in the source, so it is a typeclass here: the
    file system is proved against the interface.  [ReadSector] fills the caller's
    buffer and returns 0, or returns another value; the model gives the bytes
    transferred, or [None].  A failed transfer leaves the buffer as it was; no
    caller looks at the buffer after a failure. *)
From S2P Require Import Prelude.

Class DiskDriver (D : Type) := {
  driver_read : D -> Z -> Z -> option (list Z);
  driver_write : D -> Z -> Z -> list Z -> option D
}.

(** A drive that works: a sector that can be read takes a block of its size, and
    a write changes that sector and no other. *)
Class HealthyDrive (D : Type) `{DiskDriver D} := {
  write_total d i s old b :
    driver_read d i s = Some old -> length b = length old -> is_Some (driver_write d i s b);
  write_read d d' i s old b :
    driver_read d i s = Some old -> length b = length old -> driver_write d i s b = Some d' ->
    driver_read d' i s = Some b;
  write_frame d d' i s b i' s' :
    driver_write d i s b = Some d' -> (i', s') <> (i, s) -> driver_read d' i' s' = driver_read d i' s'
}.

Inductive DiskType := HardDisk | MassStorage | Floppy | CDROM.
#[global] Instance DiskType_eq_dec : EqDecision DiskType.
Proof. solve_decision. Defined.

(** A partition as the disk records it; the name is never filled in. *)
Record PartitionInfo := {
  PartitionType : Z; GUID : Z; startLBA : Z; endLBA : Z; p_attributes : Z
}.

(** [m_Partitions] are the first [partitionCount] of the 128 places.  The size
    and the block counts are stored by the constructor and never read. *)
Record Disk (D : Type) := {
  m_Driver : option D; m_DriverIndex : Z; m_Type : DiskType; m_Partitions : list PartitionInfo
}.
Arguments m_Driver {D}. Arguments m_DriverIndex {D}. Arguments m_Type {D}. Arguments m_Partitions {D}.
Arguments Build_Disk {D}.

(** A new disk. *)
Definition new_Disk {D} (drv : D) (index : Z) (type : DiskType) : Disk D :=
  {| m_Driver := Some drv; m_DriverIndex := index; m_Type := type; m_Partitions := [] |}.

Section disk.
Context {D : Type} `{DiskDriver D}.

Definition ReadSector (d : Disk D) (lba : Z) : option (list Z) :=
  match d.(m_Driver) with
  | Some drv => driver_read drv d.(m_DriverIndex) lba
  | None => None
  end.

Definition WriteSector (d : Disk D) (lba : Z) (buf : list Z) : option (Disk D) :=
  match d.(m_Driver) with
  | Some drv => match driver_write drv d.(m_DriverIndex) lba buf with
                | Some drv' => Some {| m_Driver := Some drv'; m_DriverIndex := d.(m_DriverIndex); m_Type := d.(m_Type);
                                  m_Partitions := d.(m_Partitions) |}
                | None => None
                end
  | None => None
  end.

(** The count is a byte and there are 128 places. *)
Definition AddPartitionInfo (d : Disk D) (info : PartitionInfo) : outcome (Disk D) :=
  if Z.of_nat (length d.(m_Partitions)) <? 128 then
    Ret {| m_Driver := d.(m_Driver); m_DriverIndex := d.(m_DriverIndex); m_Type := d.(m_Type);
           m_Partitions := d.(m_Partitions) ++ [info] |}
  else Fault.

(** [Disk] hands the promises of its driver on to its clients. *)
Lemma Disk_write `{!HealthyDrive D} d lba old b :
  ReadSector d lba = Some old -> length b = length old ->
  exists d', WriteSector d lba b = Some d' /\ ReadSector d' lba = Some b /\
    forall x, x <> lba -> ReadSector d' x = ReadSector d x.
Proof.
  unfold ReadSector, WriteSector. destruct (m_Driver d) as [drv|]; [| done]. intros Hr Hl.
  destruct (write_total drv _ _ _ b Hr Hl) as [drv' Hw]. rewrite Hw.
  eexists. split; [done |]. cbn. split; [by eapply write_read |].
  intros x Hx. eapply write_frame; [done | congruence].
Qed.
End disk.

(** A drive held in memory: the sectors it has, by drive and number. *)
Definition ram_drive := gmap (Z * Z) (list Z).

#[global] Instance ram_drive_driver : DiskDriver ram_drive := {|
  driver_read d i s := d !! (i, s);
  driver_write d i s b :=
    match d !! (i, s) with
    | Some old => if decide (length b = length old) then Some (<[(i, s) := b]> d) else None
    | None => None
    end
|}.

#[global] Instance ram_drive_healthy : HealthyDrive ram_drive.
Proof.
  split; cbn.
  - intros d i s old b -> Hl. rewrite decide_True by done. eauto.
  - intros d d' i s old b -> Hl. rewrite decide_True by done. intros [= <-]. apply (lookup_insert_eq (M := gmap (Z * Z))).
  - intros d d' i s b i' s'. destruct (d !! (i, s)) as [old|]; [| done]. case_decide; [| done].
    intros [= <-] Hne. by apply (lookup_insert_ne (M := gmap (Z * Z))).
Qed.
