(* ===== verification/FatTable.v ===== *)
(** The allocation table of the FAT file system (kernel/vfs/FAT.h, FAT.cpp): the
    boot parameter block and the geometry [Initialize] derives from it, the
    mapping of clusters to sectors, and the table operations [ReadTable],
    [WriteTable], [AllocateCluster] and [ClearCluster].

    [FAT] holds the object's fields; the ones only [Initialize] writes are in
    [Geometry].  Of FSInfo only [startSearchCluster] is used after it is read.
    Buffer accesses outside [readBuffer] are [Fault]s, and so is the processor's
    divide error. *)
From Stdlib Require Import ZArith Lia.
From S2P Require Import Prelude CMemory DiskIO.

Inductive FATType := FAT12 | FAT16 | FAT32.
#[global] Instance FATType_eq_dec : EqDecision FATType.
Proof. solve_decision. Defined.

Definition CLUSTER_END (t : FATType) : Z :=
  match t with FAT12 => 0xFF8 | FAT16 => 0xFFF8 | FAT32 => 0x0FFFFFF8 end.
Definition CLUSTER_FREE (t : FATType) : Z :=
  match t with FAT12 => 0x000 | FAT16 => 0x0000 | FAT32 => 0x00000000 end.

Record Geometry := {
  FatType : FATType;
  bytesPerSector : Z;
  rootDirSectors : Z;
  sectorsPerCluster : Z;
  clusterSize : Z;
  firstDataSector : Z;
  firstFatSector : Z;
  rootDirCluster : Z;
  totalClusters : Z
}.

Record FAT (D : Type) := {
  disk : Disk D;
  StartLBA : Z;
  geo : Geometry;
  readBuffer : list Z;
  startSearchCluster : Z
}.
Arguments disk {D}. Arguments StartLBA {D}. Arguments geo {D}.
Arguments readBuffer {D}. Arguments startSearchCluster {D}. Arguments Build_FAT {D}.

(** [n] bytes of a buffer as a little-endian integer, and the store. *)
Definition get (n : nat) (l : list Z) (off : Z) : outcome Z :=
  if (0 <=? off) && (off + Z.of_nat n <=? Z.of_nat (length l))
  then Ret (le_of (take n (drop (Z.to_nat off) l))) else Fault.

Definition put (l : list Z) (off : Z) (bs : list Z) : outcome (list Z) :=
  if (0 <=? off) && (off + Z.of_nat (length bs) <=? Z.of_nat (length l))
  then Ret (list_inserts (Z.to_nat off) bs l) else Fault.

(** The fields of [FAT32_BPB] the driver uses, at their packed offsets. *)
Record BPB := {
  bpb_bytesPerSector : Z; bpb_SectorsPerCluster : Z; bpb_ReservedSectors : Z; bpb_NumOfFats : Z;
  bpb_NumDirEntries : Z; bpb_TotalSectorsSmall : Z; bpb_SectorsPerFat12_16 : Z;
  bpb_TotalSectorsBig : Z; bpb_SectorsPerFat32 : Z; bpb_RootDirCluster : Z; bpb_FSInfoSector : Z
}.

Definition FAT32_BPB (s : list Z) : outcome BPB :=
  bps ← get 2 s 11; spc ← get 1 s 13; rs ← get 2 s 14; nf ← get 1 s 16; nd ← get 2 s 17;
  ts ← get 2 s 19; spf ← get 2 s 22; tb ← get 4 s 32; spf32 ← get 4 s 36; rc ← get 4 s 44;
  fsi ← get 2 s 48;
  Ret {| bpb_bytesPerSector := bps; bpb_SectorsPerCluster := spc; bpb_ReservedSectors := rs;
         bpb_NumOfFats := nf; bpb_NumDirEntries := nd; bpb_TotalSectorsSmall := ts;
         bpb_SectorsPerFat12_16 := spf; bpb_TotalSectorsBig := tb; bpb_SectorsPerFat32 := spf32;
         bpb_RootDirCluster := rc; bpb_FSInfoSector := fsi |}.

(** FSInfo's [startSearchCluster], after two signatures, 480 reserved bytes and
    [lastFreeCluster]. *)
Definition FAT32_FSInfo (s : list Z) : outcome Z := get 4 s 492.

Definition FatSize (b : BPB) : Z :=
  if b.(bpb_SectorsPerFat12_16) =? 0 then b.(bpb_SectorsPerFat32) else b.(bpb_SectorsPerFat12_16).
Definition TotalSectors (b : BPB) : Z :=
  if b.(bpb_TotalSectorsSmall) =? 0 then b.(bpb_TotalSectorsBig) else b.(bpb_TotalSectorsSmall).

(** What [Initialize] computes from the parameter block. *)
Definition geometry (b : BPB) : outcome Geometry :=
  let bps := b.(bpb_bytesPerSector) in
  let spc := b.(bpb_SectorsPerCluster) in
  if (bps =? 0) || (spc =? 0) then Fault else
  let root := (b.(bpb_NumDirEntries) * 32 + (bps - 1)) / bps in
  let fats := u32 (b.(bpb_ReservedSectors) + u32 (b.(bpb_NumOfFats) * FatSize b)) in
  let first := u32 (fats + root) in
  let total := u32 (TotalSectors b - first) / spc in
  let t := if total <? 4085 then FAT12 else if total <? 65525 then FAT16 else FAT32 in
  Ret {| FatType := t; bytesPerSector := bps; rootDirSectors := root; sectorsPerCluster := spc;
         clusterSize := bps * spc; firstDataSector := first; firstFatSector := b.(bpb_ReservedSectors);
         rootDirCluster := (if bool_decide (t = FAT32) then b.(bpb_RootDirCluster) else fats);
         totalClusters := total |}.

Section fat.
Context {D : Type} `{DiskDriver D}.

Definition with_buffer (f : FAT D) (b : list Z) : FAT D :=
  {| disk := f.(disk); StartLBA := f.(StartLBA); geo := f.(geo); readBuffer := b;
     startSearchCluster := f.(startSearchCluster) |}.
Definition with_disk (f : FAT D) (d : Disk D) : FAT D :=
  {| disk := d; StartLBA := f.(StartLBA); geo := f.(geo); readBuffer := f.(readBuffer);
     startSearchCluster := f.(startSearchCluster) |}.
Definition with_hint (f : FAT D) (c : Z) : FAT D :=
  {| disk := f.(disk); StartLBA := f.(StartLBA); geo := f.(geo); readBuffer := f.(readBuffer);
     startSearchCluster := c |}.

(** [FAT::Initialize] on the device [d] of a partition that starts at [start]:
    the initialised object, or [None] where the code returns false. *)
Definition Initialize (d : Disk D) (start : Z) : outcome (option (FAT D)) :=
  match ReadSector d start with
  | None => Ret None
  | Some s =>
      if (512 <? length s)%nat then Fault else
      b ← FAT32_BPB s; g ← geometry b;
      let f hint := {| disk := d; StartLBA := start; geo := g;
                       readBuffer := replicate (Z.to_nat g.(bytesPerSector)) 0;
                       startSearchCluster := hint |} in
      if bool_decide (g.(FatType) = FAT32) && (0 <? b.(bpb_FSInfoSector)) then
        match ReadSector d (u64 (start + b.(bpb_FSInfoSector))) with
        | None => Ret None
        | Some i => if (512 <? length i)%nat then Fault else hint ← FAT32_FSInfo i; Ret (Some (f (if hint =? 0xFFFFFFFF then 2 else hint)))
        end
      else Ret (Some (f (if bool_decide (g.(FatType) = FAT32) then 0 else 2)))
  end.

Definition ClusterToSector (f : FAT D) (cluster : Z) : Z :=
  u32 (u32 (u32 (cluster - 2) * f.(geo).(sectorsPerCluster)) + f.(geo).(firstDataSector)).

(** disk->ReadSector(lba, this->readBuffer): whether it succeeded. *)
Definition read_buffer (f : FAT D) (lba : Z) : outcome (FAT D * bool) :=
  match ReadSector f.(disk) lba with
  | None => Ret (f, false)
  | Some l => if (length l <=? length f.(readBuffer))%nat
              then Ret (with_buffer f (l ++ drop (length l) f.(readBuffer)), true) else Fault
  end.

(** disk->WriteSector(lba, this->readBuffer) *)
Definition write_buffer (f : FAT D) (lba : Z) : FAT D * bool :=
  match WriteSector f.(disk) lba f.(readBuffer) with
  | None => (f, false)
  | Some d => (with_disk f d, true)
  end.

(** Where a cluster's entry is: its byte offset in the table, the sector and the
    offset in the sector. *)
Definition fatOffset (t : FATType) (cluster : Z) : Z :=
  match t with
  | FAT32 => u32 (cluster * 4)
  | FAT16 => u32 (cluster * 2)
  | FAT12 => u32 (cluster + cluster / 2)
  end.
Definition fatSector (g : Geometry) (cluster : Z) : Z :=
  u32 (g.(firstFatSector) + fatOffset g.(FatType) cluster / g.(bytesPerSector)).
Definition entOffset (g : Geometry) (cluster : Z) : Z :=
  fatOffset g.(FatType) cluster mod g.(bytesPerSector).
Definition entry_bytes (t : FATType) : nat := match t with FAT32 => 4 | _ => 2 end.

(** The value a table entry gives to a cluster, and the entry after a store. *)
Definition table_value (t : FATType) (cluster e : Z) : Z :=
  match t with
  | FAT32 => Z.land e 0x0FFFFFFF
  | FAT16 => e
  | FAT12 => if Z.odd cluster then Z.shiftr e 4 else Z.land e 0x0FFF
  end.
Definition table_merge (t : FATType) (cluster e value : Z) : Z :=
  match t with
  | FAT32 => value
  | FAT16 => u16 value
  | FAT12 => if Z.odd cluster then u16 (Z.lor (Z.land e 0x000F) (u32 (Z.shiftl value 4)))
             else u16 (Z.lor (Z.land e 0xF000) (Z.land value 0x0FFF))
  end.

Definition bad_cluster (g : Geometry) (cluster : Z) : bool :=
  (cluster <? 2) || (g.(totalClusters) <? cluster).

Definition ReadTable (f : FAT D) (cluster : Z) : outcome (FAT D * Z) :=
  let g := f.(geo) in
  if bad_cluster g cluster then Ret (f, 0) else
  r ← read_buffer f (u64 (f.(StartLBA) + fatSector g cluster));
  if (r.2 : bool) then
    e ← get (entry_bytes g.(FatType)) r.1.(readBuffer) (entOffset g cluster);
    Ret (r.1, table_value g.(FatType) cluster e)
  else Ret (r.1, 0).

Definition WriteTable (f : FAT D) (cluster value : Z) : outcome (FAT D) :=
  let g := f.(geo) in
  if bad_cluster g cluster then Ret f else
  let lba := u64 (f.(StartLBA) + fatSector g cluster) in
  r ← read_buffer f lba;
  if (r.2 : bool) then
    e ← get (entry_bytes g.(FatType)) r.1.(readBuffer) (entOffset g cluster);
    b ← put r.1.(readBuffer) (entOffset g cluster)
          (le_to (entry_bytes g.(FatType)) (table_merge g.(FatType) cluster e value));
    Ret (write_buffer (with_buffer r.1 b) lba).1
  else Ret r.1.

(** The search of [AllocateCluster]: [n] is the number of clusters left. *)
Fixpoint AllocateCluster_loop (n : nat) (f : FAT D) (cluster : Z) : outcome (FAT D * Z) :=
  match n with
  | O => Ret (f, 0)
  | S n =>
      r ← ReadTable f cluster;
      let t := f.(geo).(FatType) in
      if r.2 =? CLUSTER_FREE t then
        f' ← WriteTable (with_hint r.1 cluster) cluster (CLUSTER_END t);
        Ret (f', cluster)
      else AllocateCluster_loop n r.1 (u32 (cluster + 1))
  end.

Definition AllocateCluster (f : FAT D) : outcome (FAT D * Z) :=
  AllocateCluster_loop (Z.to_nat (f.(geo).(totalClusters) - f.(startSearchCluster))) f f.(startSearchCluster).

(** The sectors of a cluster, from the [i]-th on, overwritten with the buffer. *)
Fixpoint ClearCluster_loop (n : nat) (f : FAT D) (sector i : Z) : FAT D :=
  match n with
  | O => f
  | S n => let r := write_buffer f (u64 (f.(StartLBA) + sector + i)) in
           if (r.2 : bool) then ClearCluster_loop n r.1 sector (i + 1) else r.1
  end.

Definition ClearCluster (f : FAT D) (cluster : Z) : FAT D :=
  ClearCluster_loop (Z.to_nat f.(geo).(sectorsPerCluster))
    (with_buffer f (replicate (Z.to_nat f.(geo).(bytesPerSector)) 0)) (ClusterToSector f cluster) 0.
End fat.

(** ** Buffers *)

Lemma get_in n l off :
  0 <= off -> off + Z.of_nat n <= Z.of_nat (length l) ->
  get n l off = Ret (le_of (take n (drop (Z.to_nat off) l))).
Proof. intros. unfold get. by repeat (zcase; [| lia]). Qed.

Lemma put_in l off bs :
  0 <= off -> off + Z.of_nat (length bs) <= Z.of_nat (length l) ->
  put l off bs = Ret (list_inserts (Z.to_nat off) bs l).
Proof. intros. unfold put. by repeat (zcase; [| lia]). Qed.

Lemma take_drop_lookup {A} (l : list A) n k i :
  take n (drop k l) !! i = if decide (i < n)%nat then l !! (k + i)%nat else None.
Proof.
  case_decide.
  - by rewrite lookup_take_lt, lookup_drop by lia.
  - apply lookup_take_ge. lia.
Qed.

Lemma take_drop_inserts_same {A} (l bs : list A) k :
  (k + length bs <= length l)%nat -> take (length bs) (drop k (list_inserts k bs l)) = bs.
Proof.
  intros Hl. apply list_eq. intros i. rewrite take_drop_lookup. case_decide.
  - rewrite list_lookup_inserts by lia. f_equal. lia.
  - symmetry. apply lookup_ge_None_2. lia.
Qed.

Lemma take_drop_inserts_other {A} (l bs : list A) k n k' :
  (k + length bs <= k')%nat \/ (k' + n <= k)%nat ->
  take n (drop k' (list_inserts k bs l)) = take n (drop k' l).
Proof.
  intros Hd. apply list_eq. intros i. rewrite !take_drop_lookup. case_decide; [| done].
  destruct Hd.
  - apply list_lookup_inserts_ge. lia.
  - apply list_lookup_inserts_lt. lia.
Qed.

(** A 16-bit entry as its two bytes. *)
Lemma le_of_2 l k b0 b1 :
  l !! k = Some b0 -> l !! S k = Some b1 -> le_of (take 2 (drop k l)) = b0 + 256 * b1.
Proof.
  intros H0 H1. rewrite (drop_S l b0 k H0). rewrite (drop_S l b1 (S k) H1).
  cbn [take le_of]. rewrite take_0. cbn [le_of]. lia.
Qed.

Lemma le_to_of_mod n v : le_of (le_to n v) = v mod 256 ^ Z.of_nat n.
Proof.
  revert v. induction n as [|n IH]; intros v; [cbn; by rewrite Z.mod_1_r |].
  cbn [le_to le_of]. rewrite IH, Nat2Z.inj_succ, Z.pow_succ_r by lia.
  rewrite (Z.rem_mul_r v 256) by lia. lia.
Qed.

Lemma Forall_inserts {A} (P : A -> Prop) k bs l : Forall P bs -> Forall P l -> Forall P (list_inserts k bs l).
Proof.
  intros Hb Hl. apply Forall_lookup_2. intros i x Hx.
  apply list_lookup_inserts_Some in Hx as [[_ Hx] | (_ & _ & Hx)];
    [eapply (Forall_lookup_1 _ _ _ _ Hl) | eapply (Forall_lookup_1 _ _ _ _ Hb)]; exact Hx.
Qed.

(** ** Entries, arithmetically *)

Definition value_mask (t : FATType) : Z := match t with FAT12 => 2 ^ 12 | FAT16 => 2 ^ 16 | FAT32 => 2 ^ 28 end.

Lemma land_nibble e : 0 <= e < 2 ^ 16 -> Z.land e 0xF000 = e / 4096 * 4096.
Proof.
  intros He. change 0xF000 with (Z.land (Z.lnot (Z.ones 12)) (Z.ones 16)).
  rewrite Z.land_assoc, Z.land_ones by lia. rewrite <- Z.ldiff_land, Z.ldiff_ones_r by lia.
  rewrite Z.shiftr_div_pow2, Z.shiftl_mul_pow2 by lia. apply Z.mod_small.
  Z.to_euclidean_division_equations; lia.
Qed.

Lemma merge_even c e v :
  Z.odd c = false -> 0 <= e < 2 ^ 16 -> table_merge FAT12 c e v = e / 4096 * 4096 + v mod 4096.
Proof.
  intros Hc He. cbn. rewrite Hc, (land_nibble e He). change 0x0FFF with (Z.ones 12).
  rewrite Z.land_ones by lia. change 4096 with (2 ^ 12). rewrite lor_shift_add by (try apply Z.mod_pos_bound; lia).
  apply (wrap_small 16). change (2 ^ 12) with 4096 in *. Z.to_euclidean_division_equations; lia.
Qed.

Lemma merge_odd c e v :
  Z.odd c = true -> 0 <= v -> table_merge FAT12 c e v = e mod 16 + 16 * (v mod 4096).
Proof.
  intros Hc Hv. cbn. rewrite Hc. change 0x000F with (Z.ones 4). rewrite Z.land_ones, Z.shiftl_mul_pow2 by lia.
  unfold wrap. rewrite Z.lor_comm.
  replace (v * 2 ^ 4 mod 2 ^ 32) with (v mod 2 ^ 28 * 2 ^ 4)
    by (change (2 ^ 32) with (2 ^ 28 * 2 ^ 4); by rewrite Z.mul_mod_distr_r by lia).
  rewrite lor_shift_add by (try apply Z.mod_pos_bound; lia).
  change (2 ^ 4) with 16. change (2 ^ 28) with 268435456. change (2 ^ 16) with 65536.
  Z.to_euclidean_division_equations; lia.
Qed.

Lemma value_even c e : Z.odd c = false -> table_value FAT12 c e = e mod 4096.
Proof. intros Hc. cbn. rewrite Hc. change 0x0FFF with (Z.ones 12). by rewrite Z.land_ones by lia. Qed.

Lemma value_odd c e : Z.odd c = true -> table_value FAT12 c e = e / 16.
Proof. intros Hc. cbn. rewrite Hc. by rewrite Z.shiftr_div_pow2 by lia. Qed.

(** The stored entry reads back as the low bits of the value. *)
Lemma value_merge t c e v :
  0 <= e < 256 ^ Z.of_nat (entry_bytes t) -> 0 <= v < 2 ^ 32 ->
  table_value t c (table_merge t c e v mod 256 ^ Z.of_nat (entry_bytes t)) = v mod value_mask t.
Proof.
  intros He Hv. destruct t; cbn [entry_bytes value_mask] in *.
  - change (256 ^ Z.of_nat 2) with 65536 in *. change (2 ^ 12) with 4096. change (2 ^ 32) with 4294967296 in *.
    destruct (Z.odd c) eqn:Hc.
    + rewrite merge_odd, value_odd by (done || lia). Z.to_euclidean_division_equations; lia.
    + rewrite merge_even, value_even by (done || lia). Z.to_euclidean_division_equations; lia.
  - cbn. unfold wrap. change (256 ^ Z.of_nat 2) with (2 ^ 16). by rewrite Zmod_mod.
  - cbn [table_value table_merge]. change 0x0FFFFFFF with (Z.ones 28). rewrite Z.land_ones by lia.
    change (256 ^ Z.of_nat 4) with (2 ^ 32). by rewrite (Z.mod_small v (2 ^ 32)) by lia.
Qed.

(** ** The table as an array of values *)

Record geo_ok (g : Geometry) : Prop := {
  go_bps : 0 < g.(bytesPerSector) < 2 ^ 16;
  go_first : 0 <= g.(firstFatSector) < 2 ^ 16;
  go_total : 0 <= g.(totalClusters) < 2 ^ 28
}.

(** A cluster number the code accepts, whose entry does not straddle a sector. *)
Definition valid (g : Geometry) (c : Z) : Prop :=
  2 <= c <= g.(totalClusters) /\
  entOffset g c + Z.of_nat (entry_bytes g.(FatType)) <= g.(bytesPerSector).

Lemma fatOffset_small g c :
  geo_ok g -> 2 <= c <= g.(totalClusters) ->
  fatOffset g.(FatType) c = match g.(FatType) with FAT32 => c * 4 | FAT16 => c * 2 | FAT12 => c + c / 2 end
  /\ 0 <= fatOffset g.(FatType) c < 2 ^ 30.
Proof.
  intros [_ _ Ht] Hc. change (2 ^ 28) with 268435456 in Ht.
  assert (0 <= c / 2 < 2 ^ 27) as Hd by (change (2 ^ 27) with 134217728; Z.to_euclidean_division_equations; lia).
  change (2 ^ 27) with 134217728 in Hd. change (2 ^ 30) with 1073741824.
  destruct (FatType g); cbn [fatOffset]; rewrite (wrap_small 32) by (change (2 ^ 32) with 4294967296; lia);
    (split; [done | lia]).
Qed.

Lemma fatSector_small g c :
  geo_ok g -> 2 <= c <= g.(totalClusters) ->
  fatSector g c = g.(firstFatSector) + fatOffset g.(FatType) c / g.(bytesPerSector)
  /\ 0 <= fatSector g c < 2 ^ 32.
Proof.
  intros Hg Hc. destruct (fatOffset_small g c Hg Hc) as [_ Ho]. destruct Hg as [Hb Hf _].
  assert (0 <= fatOffset (FatType g) c / bytesPerSector g <= fatOffset (FatType g) c) as Hd.
  { split; [apply Z.div_pos; lia |]. apply Z.div_le_upper_bound; nia. }
  change (2 ^ 30) with 1073741824 in *. change (2 ^ 16) with 65536 in *.
  unfold fatSector. rewrite (wrap_small 32) by (change (2 ^ 32) with 4294967296; lia).
  change (2 ^ 32) with 4294967296. lia.
Qed.

(** Reading the entry of [c] in a sector's bytes. *)
Definition entry_in (g : Geometry) (l : list Z) (c : Z) : Z :=
  table_value g.(FatType) c (le_of (take (entry_bytes g.(FatType)) (drop (Z.to_nat (entOffset g c)) l))).

Lemma entOffset_range g c : geo_ok g -> 0 <= entOffset g c < g.(bytesPerSector).
Proof. intros [Hb _ _]. apply Z.mod_pos_bound. lia. Qed.

Definition stored (g : Geometry) (l : list Z) (c v : Z) : list Z :=
  let k := Z.to_nat (entOffset g c) in
  let n := entry_bytes g.(FatType) in
  list_inserts k (le_to n (table_merge g.(FatType) c (le_of (take n (drop k l))) v)) l.

Section sector.
Context (g : Geometry) (l : list Z) (c v : Z).
Hypotheses (Hg : geo_ok g) (Hl : Z.of_nat (length l) = g.(bytesPerSector)) (Hb : Forall is_byte l)
  (Hc : valid g c) (Hv : 0 <= v < 2 ^ 32).

Lemma stored_bytes : Forall is_byte (stored g l c v).
Proof using Hb. apply Forall_inserts; [apply le_to_bytes | done]. Qed.

Lemma stored_length : length (stored g l c v) = length l.
Proof. apply length_inserts. Qed.

Lemma stored_same : entry_in g (stored g l c v) c = v mod value_mask g.(FatType).
Proof using All.
  destruct (entOffset_range g c Hg) as [Ho _]. destruct Hc as [_ Hfit].
  unfold entry_in, stored. set (n := entry_bytes (FatType g)) in *.
  set (w := table_merge _ _ _ _).
  replace n with (length (le_to n w)) at 1 by apply le_to_length.
  rewrite take_drop_inserts_same by (rewrite le_to_length; lia).
  rewrite le_to_of_mod. unfold w, n. apply value_merge; [| done].
  assert (length (take n (drop (Z.to_nat (entOffset g c)) l)) = n) as Hn
    by (rewrite length_take, length_drop; lia).
  pose proof (le_of_range (take n (drop (Z.to_nat (entOffset g c)) l))) as Hr. rewrite Hn in Hr.
  apply Hr. by apply Forall_take, Forall_drop.
Qed.

(** Two entries of one sector are apart, or they are the FAT12 pair that shares
    a byte. *)
Lemma entries_apart c' :
  valid g c' -> c' <> c -> fatSector g c' = fatSector g c ->
  let n := Z.of_nat (entry_bytes g.(FatType)) in
  entOffset g c' + n <= entOffset g c \/ entOffset g c + n <= entOffset g c' \/
  (g.(FatType) = FAT12 /\
   ((c' = c + 1 /\ Z.odd c = false /\ entOffset g c' = entOffset g c + 1) \/
    (c = c' + 1 /\ Z.odd c' = false /\ entOffset g c = entOffset g c' + 1))).
Proof using Hg Hc.
  clear Hl Hb Hv. intros [Hc' _] Hne Hs. destruct Hc as [Hc0 _].
  destruct (fatOffset_small g c Hg Hc0) as [Ho _]. destruct (fatOffset_small g c' Hg Hc') as [Ho' _].
  destruct (fatSector_small g c Hg Hc0) as [Hq _]. destruct (fatSector_small g c' Hg Hc') as [Hq' _].
  rewrite Hq, Hq' in Hs. destruct Hg as [Hbp _ _]. unfold entOffset.
  pose proof (Z.div_mod (fatOffset (FatType g) c) (bytesPerSector g)) as H1.
  pose proof (Z.div_mod (fatOffset (FatType g) c') (bytesPerSector g)) as H2.
  assert (fatOffset (FatType g) c' / bytesPerSector g = fatOffset (FatType g) c / bytesPerSector g) as Hd by lia.
  rewrite Hd in H2.
  destruct (FatType g); cbn [entry_bytes]; [| lia..].
  assert (c = 2 * (c / 2) + c mod 2) as Hm by (apply Z.div_mod; lia).
  assert (c' = 2 * (c' / 2) + c' mod 2) as Hm' by (apply Z.div_mod; lia).
  rewrite Zmod_odd in Hm, Hm'.
  destruct (Z.odd c), (Z.odd c'); [lia | | | lia].
  - destruct (Z.eq_dec c (c' + 1)); [| lia]. right; right. split; [done |]. right. split; [done |]. split; [done | lia].
  - destruct (Z.eq_dec c' (c + 1)); [| lia]. right; right. split; [done |]. left. split; [done |]. split; [done | lia].
Qed.

Lemma stored_other c' :
  valid g c' -> c' <> c -> fatSector g c' = fatSector g c ->
  entry_in g (stored g l c v) c' = entry_in g l c'.
Proof using All.
  intros Hc' Hne Hs. destruct (entOffset_range g c Hg) as [Ho _]. destruct (entOffset_range g c' Hg) as [Ho' _].
  pose proof (proj2 Hc) as Hfit. pose proof (proj2 Hc') as Hfit'.
  unfold entry_in, stored.
  destruct (entries_apart c' Hc' Hne Hs) as [Hd | [Hd | [Ht Hpair]]];
    [rewrite take_drop_inserts_other by (rewrite le_to_length; lia); done.. |].
  rewrite Ht in *. cbn [entry_bytes] in *.
  set (k := Z.to_nat (entOffset g c)). set (k' := Z.to_nat (entOffset g c')).
  assert (forall i, (i < length l)%nat -> exists b, l !! i = Some b /\ is_byte b) as Hat.
  { intros i Hi. destruct (lookup_lt_is_Some_2 l i Hi) as [b Hib]. exists b. split; [done |].
    by apply (Forall_lookup_1 _ _ _ _ Hb Hib). }
  destruct (Hat k) as (b0 & H0 & Hb0); [lia |]. destruct (Hat (S k)) as (b1 & H1 & Hb1); [lia |].
  rewrite (le_of_2 l k b0 b1 H0 H1). unfold is_byte in *.
  set (w := table_merge FAT12 c (b0 + 256 * b1) v).
  assert (forall i b, (i < k \/ S k < i)%nat -> l !! i = Some b -> list_inserts k (le_to 2 w) l !! i = Some b) as Hout.
  { intros i b Hi Hib. destruct Hi; [rewrite list_lookup_inserts_lt by lia | rewrite list_lookup_inserts_ge by (rewrite le_to_length; lia)]; done. }
  assert (list_inserts k (le_to 2 w) l !! k = Some (w mod 256)) as W0
    by (rewrite list_lookup_inserts by (rewrite ?le_to_length; lia); by rewrite Nat.sub_diag).
  assert (list_inserts k (le_to 2 w) l !! S k = Some (w / 256 mod 256)) as W1
    by (rewrite list_lookup_inserts by (rewrite ?le_to_length; lia); by replace (S k - k)%nat with 1%nat by lia).
  destruct Hpair as [(Hcc & Hodd & Hk) | (Hcc & Hodd & Hk)].
  - assert (k' = S k) as -> by (unfold k, k'; lia).
    assert (Z.odd c' = true) as Hodd' by (by rewrite Hcc, Z.odd_add, Hodd).
    destruct (Hat (S (S k))) as (b2 & H2 & Hb2); [lia |].
    rewrite (le_of_2 _ _ _ _ W1 (Hout (S (S k)) b2 ltac:(lia) H2)), (le_of_2 _ _ _ _ H1 H2), !value_odd by done.
    unfold w. rewrite merge_even by (done || lia). Z.to_euclidean_division_equations; lia.
  - assert (k = S k') as Hkk by (unfold k, k'; lia).
    assert (Z.odd c = true) as Hodd' by (by rewrite Hcc, Z.odd_add, Hodd).
    destruct (Hat k') as (b' & H' & Hb'); [lia |]. rewrite Hkk in H0, W0, Hout. rewrite Hkk.
    rewrite (le_of_2 _ k' b' _ (Hout k' b' ltac:(lia) H') W0), (le_of_2 _ _ _ _ H' H0), !value_even by done.
    unfold w. rewrite merge_odd by (done || lia). Z.to_euclidean_division_equations; lia.
Qed.
End sector.

Section table.
Context {D : Type} `{HealthyDrive D}.

Definition entry_lba (f : FAT D) (c : Z) : Z := u64 (f.(StartLBA) + fatSector f.(geo) c).

(** The object [f] stands for the table [T]: its geometry is sane and every
    valid entry is on a readable sector and has the value [T] gives. *)
Record represents (f : FAT D) (T : Z -> Z) : Prop := {
  rep_geo : geo_ok f.(geo);
  rep_start : 0 <= f.(StartLBA) < 2 ^ 63;
  rep_buffer : Z.of_nat (length f.(readBuffer)) = f.(geo).(bytesPerSector);
  rep_entry c : valid f.(geo) c -> exists l,
    ReadSector f.(disk) (entry_lba f c) = Some l /\ Z.of_nat (length l) = f.(geo).(bytesPerSector) /\
    Forall is_byte l /\ T c = entry_in f.(geo) l c
}.

Lemma bad_cluster_false g c : valid g c -> bad_cluster g c = false.
Proof. intros [Hc _]. unfold bad_cluster. repeat (zcase; [lia |]). done. Qed.

(** The two accesses every operation makes: the sector in the buffer, the entry
    read from it. *)
Lemma read_buffer_full (f : FAT D) lba l :
  ReadSector f.(disk) lba = Some l -> length l = length f.(readBuffer) ->
  read_buffer f lba = Ret (with_buffer f l, true).
Proof.
  intros Hr Hl. unfold read_buffer. rewrite Hr, Hl, Nat.leb_refl.
  by rewrite drop_all, app_nil_r.
Qed.

Lemma get_entry g l c :
  geo_ok g -> Z.of_nat (length l) = g.(bytesPerSector) -> valid g c ->
  get (entry_bytes g.(FatType)) l (entOffset g c) =
    Ret (le_of (take (entry_bytes g.(FatType)) (drop (Z.to_nat (entOffset g c)) l))).
Proof. intros Hg Hl [_ Hfit]. apply get_in; [by apply entOffset_range | lia]. Qed.

Lemma represents_buffer f T l :
  represents f T -> Z.of_nat (length l) = f.(geo).(bytesPerSector) -> represents (with_buffer f l) T.
Proof. intros [] Hl. by split. Qed.

Lemma represents_hint f T c : represents f T -> represents (with_hint f c) T.
Proof. intros []. by split. Qed.

Lemma represents_ext f T T' : (forall c, T c = T' c) -> represents f T -> represents f T'.
Proof.
  intros He []. split; [done.. |]. intros c Hc. rewrite <- He. by apply rep_entry0.
Qed.

Lemma ReadTable_run f T c :
  represents f T -> valid f.(geo) c ->
  exists l, ReadTable f c = Ret (with_buffer f l, T c) /\ Z.of_nat (length l) = f.(geo).(bytesPerSector).
Proof.
  intros [Hg Hs Hb He] Hc. destruct (He c Hc) as (l & Hr & Hl & _ & HT).
  exists l. split; [| done]. unfold ReadTable. rewrite bad_cluster_false by done.
  change (u64 (StartLBA f + fatSector (geo f) c)) with (entry_lba f c).
  rewrite (read_buffer_full f _ l Hr) by lia. cbn. rewrite get_entry by done. cbn. by rewrite HT.
Qed.

Lemma entry_lba_inj f T c c' :
  represents f T -> valid f.(geo) c -> valid f.(geo) c' -> entry_lba f c' = entry_lba f c ->
  fatSector f.(geo) c' = fatSector f.(geo) c.
Proof.
  intros [Hg Hs _ _] [Hc _] [Hc' _]. unfold entry_lba.
  destruct (fatSector_small _ c Hg Hc) as [_ H1]. destruct (fatSector_small _ c' Hg Hc') as [_ H2].
  change (2 ^ 63) with 9223372036854775808 in Hs. change (2 ^ 32) with 4294967296 in *.
  rewrite !(wrap_small 64) by (change (2 ^ 64) with 18446744073709551616; lia). lia.
Qed.

Lemma WriteTable_run f T c v :
  represents f T -> valid f.(geo) c -> 0 <= v < 2 ^ 32 ->
  exists f', WriteTable f c v = Ret f' /\ f'.(geo) = f.(geo) /\
    f'.(startSearchCluster) = f.(startSearchCluster) /\
    represents f' (fun x => if x =? c then v mod value_mask f.(geo).(FatType) else T x).
Proof using All.
  intros Hf Hc Hv. pose proof Hf as [Hg Hs Hb He]. destruct (He c Hc) as (l & Hr & Hl & Hby & HT).
  destruct (entOffset_range _ c Hg) as [Ho _].
  unfold WriteTable. rewrite bad_cluster_false by done. cbv zeta.
  change (u64 (StartLBA f + fatSector (geo f) c)) with (entry_lba f c).
  rewrite (read_buffer_full f _ l Hr) by lia. cbn [mbind outcome_bind fst snd]. cbn [with_buffer readBuffer].
  rewrite get_entry by done. cbn [mbind outcome_bind].
  rewrite put_in by (rewrite ?le_to_length; destruct Hc; lia). cbn [mbind outcome_bind].
  change (list_inserts _ (le_to _ (table_merge _ _ _ _)) l) with (stored f.(geo) l c v).
  destruct (Disk_write f.(disk) (entry_lba f c) l (stored f.(geo) l c v) Hr) as (d' & Hw & Hw1 & Hw2);
    [apply stored_length |].
  unfold write_buffer. cbn [with_buffer disk readBuffer]. rewrite Hw. cbn [fst].
  eexists. split; [done |]. split; [done |]. split; [done |]. split; cbn [with_disk with_buffer geo StartLBA readBuffer disk]; try done.
  { by rewrite stored_length. }
  intros x Hx. change (entry_lba _ x) with (entry_lba f x).
  destruct (Z.eqb_spec x c) as [-> | Hne].
  - exists (stored f.(geo) l c v). rewrite stored_length, stored_same by done.
    split; [done |]. split; [done |]. split; [by apply stored_bytes | done].
  - destruct (He x Hx) as (lx & Hrx & Hlx & Hbx & HTx).
    destruct (decide (entry_lba f x = entry_lba f c)) as [Hlba | Hlba].
    + rewrite Hlba in Hrx |- *. rewrite Hr in Hrx. injection Hrx as <-.
      exists (stored f.(geo) l c v). rewrite stored_length.
      rewrite stored_other by (done || by eapply entry_lba_inj).
      split; [done |]. split; [done |]. split; [by apply stored_bytes | done].
    + exists lx. rewrite Hw2 by done. done.
Qed.

(** C17: [WriteTable] stores the value, cut to the width of an entry, for the
    cluster it is given and for no other: a [ReadTable] of any valid cluster (one in the table whose entry
    does not straddle two sectors; both are to be valid) then returns that value or the old one.  The neighbour that shares a byte in a
    FAT12 table is included. *)
Theorem WriteTable_ReadTable f T c v x :
  represents f T -> valid f.(geo) c -> valid f.(geo) x -> 0 <= v < 2 ^ 32 ->
  let T' x := if x =? c then v mod value_mask f.(geo).(FatType) else T x in
  exists f' l, WriteTable f c v = Ret f' /\ ReadTable f' x = Ret (with_buffer f' l, T' x) /\
    represents (with_buffer f' l) T'.
Proof using All.
  intros Hf Hc Hx Hv T'. destruct (WriteTable_run f T c v Hf Hc Hv) as (f' & Hw & Hg & _ & Hf').
  destruct (ReadTable_run f' T' x) as (l & Hr & Hl); [done | by rewrite Hg |].
  exists f', l. split; [done |]. split; [done | by apply represents_buffer].
Qed.

(** The table [T] with the cluster [c] marked as the end of a chain. *)
Definition ended (t : FATType) (T : Z -> Z) (c : Z) : Z -> Z :=
  fun x => if x =? c then CLUSTER_END t else T x.

Lemma CLUSTER_END_mask t : 0 <= CLUSTER_END t < 2 ^ 32 /\ CLUSTER_END t mod value_mask t = CLUSTER_END t.
Proof. by destruct t. Qed.

Lemma AllocateCluster_loop_run n f T c :
  represents f T -> (forall x, c <= x < f.(geo).(totalClusters) -> valid f.(geo) x) ->
  n = Z.to_nat (f.(geo).(totalClusters) - c) -> 0 <= c ->
  exists f' r, AllocateCluster_loop n f c = Ret (f', r) /\
    ((c <= r < f.(geo).(totalClusters) /\ T r = 0 /\ (forall x, c <= x < r -> T x <> 0) /\
      f'.(startSearchCluster) = r /\ represents f' (ended f.(geo).(FatType) T r)) \/
     (r = 0 /\ (forall x, c <= x < f.(geo).(totalClusters) -> T x <> 0) /\
      f'.(startSearchCluster) = f.(startSearchCluster) /\ represents f' T)).
Proof using All.
  revert f c. induction n as [|n IH]; intros f c Hf Hval Hn Hc.
  { exists f, 0. split; [done |]. right. split; [done |]. split; [intros; lia | done]. }
  assert (c < totalClusters (geo f)) as Hlt by lia.
  destruct (ReadTable_run f T c Hf (Hval c ltac:(lia))) as (l & Hr & Hl).
  cbn [AllocateCluster_loop]. rewrite Hr. cbn [mbind outcome_bind fst snd].
  assert (CLUSTER_FREE (FatType (geo f)) = 0) as -> by by destruct (FatType (geo f)).
  pose proof (represents_buffer f T l Hf Hl) as Hf1.
  destruct (Z.eqb_spec (T c) 0) as [Ht | Ht].
  - destruct (CLUSTER_END_mask (FatType (geo f))) as [He Hm].
    destruct (WriteTable_run (with_hint (with_buffer f l) c) T c _ (represents_hint _ _ c Hf1)
                (Hval c ltac:(lia)) He) as (f' & Hw & Hg & Hh & Hf').
    rewrite Hw. cbn. exists f', c. split; [done |]. left. split; [lia |]. split; [done |].
    split; [intros; lia |]. cbn in Hf', Hh. rewrite Hm in Hf'. by split.
  - pose proof (go_total _ (rep_geo _ _ Hf)) as Hb. change (2 ^ 28) with 268435456 in Hb.
    rewrite (wrap_small 32) by (change (2 ^ 32) with 4294967296; lia).
    destruct (IH (with_buffer f l) (c + 1) Hf1) as (f' & r & Hrun & Hres);
      [intros x Hx; apply (Hval x); cbn in Hx; lia | cbn; lia | lia |].
    exists f', r. split; [exact Hrun |]. cbn [with_buffer geo startSearchCluster] in Hres.
    assert (forall u, (forall x, c + 1 <= x < u -> T x <> 0) -> forall x, c <= x < u -> T x <> 0) as Hstep.
    { intros u Hu x Hx. destruct (Z.eq_dec x c) as [-> |]; [done | apply Hu; lia]. }
    destruct Hres as [(? & ? & ? & ?) | (? & ? & ?)]; [left | right]; split_and!; eauto; try tauto; lia.
Qed.

(** Fact: [AllocateCluster] returns the first free cluster from the hint on, below
    [totalClusters], marks it as the end of a chain, remembers it as the next
    hint and changes no other entry; it returns 0, and changes nothing, exactly
    when there is none. *)
Theorem AllocateCluster_first_free f T :
  let n := f.(geo).(totalClusters) in
  represents f T -> (forall x, 2 <= x < n -> valid f.(geo) x) -> 2 <= f.(startSearchCluster) ->
  exists f' c, AllocateCluster f = Ret (f', c) /\
    ((f.(startSearchCluster) <= c < n /\ T c = 0 /\ (forall x, f.(startSearchCluster) <= x < c -> T x <> 0) /\
      f'.(startSearchCluster) = c /\ represents f' (ended f.(geo).(FatType) T c)) \/
     (c = 0 /\ (forall x, f.(startSearchCluster) <= x < n -> T x <> 0) /\
      f'.(startSearchCluster) = f.(startSearchCluster) /\ represents f' T)).
Proof using All.
  intros n Hf Hval Hh. apply AllocateCluster_loop_run; [done | intros; apply Hval; lia | done | lia].
Qed.

(** Fact: the entry of cluster 341 of a FAT12 table with 512-byte sectors lies on
    the last byte of one sector and the first of the next; both [ReadTable] and
    [WriteTable] look for it in one sector and access a byte past the buffer. *)
Theorem FAT12_entry_straddles f v l :
  f.(geo).(FatType) = FAT12 -> f.(geo).(bytesPerSector) = 512 -> 341 <= f.(geo).(totalClusters) ->
  ReadSector f.(disk) (entry_lba f 341) = Some l -> length l = 512%nat -> length f.(readBuffer) = 512%nat ->
  ReadTable f 341 = Fault /\ WriteTable f 341 v = Fault.
Proof using D H.
  intros Ht Hb Hn Hr Hl Hlen.
  assert (bad_cluster (geo f) 341 = false) as Hbad by (unfold bad_cluster; repeat (zcase; [lia |]); done).
  assert (entOffset (geo f) 341 = 511) as Ho by (unfold entOffset; by rewrite Ht, Hb).
  unfold ReadTable, WriteTable. rewrite Hbad. cbv zeta.
  change (u64 (StartLBA f + fatSector (geo f) 341)) with (entry_lba f 341).
  rewrite (read_buffer_full f _ l Hr), Ho, Ht by lia.
  cbn [mbind outcome_bind fst snd with_buffer readBuffer entry_bytes]. unfold get. by rewrite Hl.
Qed.

(** Fact: when [Initialize] leaves the hint at 0 (a FAT32 volume without an FSInfo
    sector), [AllocateCluster] takes the rejected cluster number 0 for a free
    cluster: it always returns 0, the answer for a full volume, however many
    clusters are free. *)
Theorem AllocateCluster_hint_zero f :
  f.(startSearchCluster) = 0 -> 0 < f.(geo).(totalClusters) ->
  AllocateCluster f = Ret (with_hint f 0, 0).
Proof using D H.
  intros Hh Ht. unfold AllocateCluster. rewrite Hh.
  destruct (Z.to_nat (totalClusters (geo f) - 0)) as [|n] eqn:Hn; [lia |]. cbn [AllocateCluster_loop].
  unfold ReadTable at 1. cbn [bad_cluster Z.ltb orb Z.compare]. cbn [mbind outcome_bind fst snd].
  assert (CLUSTER_FREE (FatType (geo f)) = 0) as -> by by destruct (FatType (geo f)). reflexivity.
Qed.

(** ** Clearing a cluster *)

Lemma ClearCluster_loop_run n f sector i :
  0 <= f.(StartLBA) + sector + i -> f.(StartLBA) + sector + i + Z.of_nat n <= 2 ^ 64 ->
  (forall k, i <= k < i + Z.of_nat n -> exists l,
     ReadSector f.(disk) (f.(StartLBA) + sector + k) = Some l /\ length l = length f.(readBuffer)) ->
  let f' := ClearCluster_loop n f sector i in
  forall x, ReadSector f'.(disk) x =
    if (f.(StartLBA) + sector + i <=? x) && (x <? f.(StartLBA) + sector + i + Z.of_nat n)
    then Some f.(readBuffer) else ReadSector f.(disk) x.
Proof using All.
  revert f i. induction n as [|n IH]; intros f i Hlo Hhi Hread f' x.
  { unfold f'. cbn [ClearCluster_loop]. repeat zcase; cbn; done || lia. }
  destruct (Hread i) as (l & Hr & Hl); [lia |].
  destruct (Disk_write f.(disk) (f.(StartLBA) + sector + i) l f.(readBuffer) Hr) as (d' & Hw & Hsame & Hother); [done |].
  unfold f'. cbn [ClearCluster_loop]. rewrite (wrap_small 64) by (split; [lia |]; lia).
  unfold write_buffer. rewrite Hw. cbn [fst snd].
  rewrite (IH (with_disk f d') (i + 1)); cbn [with_disk StartLBA readBuffer disk]; try lia.
  - destruct (Z.eq_dec x (f.(StartLBA) + sector + i)) as [-> | Hne].
    + repeat zcase; cbn; done || lia.
    + rewrite Hother by done. repeat zcase; cbn; done || lia.
  - intros k Hk. rewrite Hother by lia. apply Hread. lia.
Qed.

(** Fact: [ClearCluster] leaves every sector of the cluster zeroed and every other
    sector of the disk as it was. *)
Theorem ClearCluster_zeroes f c :
  let lo := f.(StartLBA) + ClusterToSector f c in
  let hi := lo + f.(geo).(sectorsPerCluster) in
  let zeros := replicate (Z.to_nat f.(geo).(bytesPerSector)) 0 in
  0 <= f.(geo).(sectorsPerCluster) -> 0 <= lo -> hi <= 2 ^ 64 ->
  (forall x, lo <= x < hi -> exists l, ReadSector f.(disk) x = Some l /\ length l = length zeros) ->
  forall x, ReadSector (ClearCluster f c).(disk) x =
    if (lo <=? x) && (x <? hi) then Some zeros else ReadSector f.(disk) x.
Proof using All.
  intros lo hi zeros Hs Hlo Hhi Hread x. unfold ClearCluster.
  rewrite ClearCluster_loop_run; cbn [with_buffer StartLBA readBuffer disk].
  - by rewrite Z.add_0_r, Z2Nat.id by done.
  - unfold lo in Hlo. lia.
  - rewrite Z2Nat.id by done. unfold hi, lo in Hhi. lia.
  - rewrite Z2Nat.id by done. intros k Hk. apply Hread. unfold hi, lo. lia.
Qed.

End table.

(** ** Geometry *)

(** A parameter block whose fields have their widths and whose tables fit in the
    volume. *)
Record bpb_ok (b : BPB) : Prop := {
  bo_bps : 0 < b.(bpb_bytesPerSector) < 2 ^ 16;
  bo_spc : 0 < b.(bpb_SectorsPerCluster) < 2 ^ 8;
  bo_res : 0 <= b.(bpb_ReservedSectors) < 2 ^ 16;
  bo_fats : 0 <= b.(bpb_NumOfFats) < 2 ^ 8;
  bo_dir : 0 <= b.(bpb_NumDirEntries) < 2 ^ 16;
  bo_size : 0 <= FatSize b;
  bo_total : TotalSectors b < 2 ^ 32
}.

Definition root_sectors (b : BPB) : Z :=
  (b.(bpb_NumDirEntries) * 32 + (b.(bpb_bytesPerSector) - 1)) / b.(bpb_bytesPerSector).
Definition data_start (b : BPB) : Z :=
  b.(bpb_ReservedSectors) + b.(bpb_NumOfFats) * FatSize b + root_sectors b.

Lemma geometry_run b g :
  bpb_ok b -> data_start b <= TotalSectors b -> geometry b = Ret g ->
  g.(firstDataSector) = data_start b /\ g.(rootDirSectors) = root_sectors b /\
  g.(bytesPerSector) = b.(bpb_bytesPerSector) /\ g.(sectorsPerCluster) = b.(bpb_SectorsPerCluster) /\
  g.(totalClusters) = (TotalSectors b - data_start b) / b.(bpb_SectorsPerCluster) /\
  g.(FatType) = (if g.(totalClusters) <? 4085 then FAT12 else if g.(totalClusters) <? 65525 then FAT16 else FAT32).
Proof.
  intros [Hb Hs Hr Hn Hd Hz Ht] Hfit Hg. unfold geometry in Hg.
  destruct (Z.eqb_spec (bpb_bytesPerSector b) 0); [lia |].
  destruct (Z.eqb_spec (bpb_SectorsPerCluster b) 0); [lia |]. cbn [orb] in Hg. fold (root_sectors b) in Hg.
  assert (0 <= root_sectors b) as Hroot by (apply Z.div_pos; lia).
  assert (0 <= bpb_NumOfFats b * FatSize b) as Hfats by nia.
  assert (data_start b = bpb_ReservedSectors b + bpb_NumOfFats b * FatSize b + root_sectors b) as Hds by done.
  rewrite (wrap_small 32 (bpb_NumOfFats b * FatSize b)) in Hg by lia.
  rewrite (wrap_small 32 (bpb_ReservedSectors b + bpb_NumOfFats b * FatSize b)) in Hg by lia.
  rewrite <- Hds, (wrap_small 32 (data_start b)), (wrap_small 32 (TotalSectors b - data_start b)) in Hg by lia.
  injection Hg as <-. by split_and!.
Qed.

Lemma ClusterToSector_run {D} (f : FAT D) b c :
  bpb_ok b -> data_start b <= TotalSectors b -> geometry b = Ret f.(geo) ->
  2 <= c <= f.(geo).(totalClusters) + 1 ->
  ClusterToSector f c = data_start b + (c - 2) * f.(geo).(sectorsPerCluster) /\
  ClusterToSector f c + f.(geo).(sectorsPerCluster) <= TotalSectors b.
Proof.
  intros Hok Hfit Hg Hc. destruct (geometry_run b _ Hok Hfit Hg) as (Hf & _ & _ & Hs & Ht & _).
  destruct Hok as [Hb Hsp Hr Hn Hd Hz Hto].
  assert (0 <= data_start b) as Hpos.
  { unfold data_start. assert (0 <= root_sectors b) by (apply Z.div_pos; lia). nia. }
  unfold ClusterToSector. rewrite Hf. rewrite Ht in Hc. rewrite Hs.
  set (spc := bpb_SectorsPerCluster b) in *. set (room := TotalSectors b - data_start b) in *.
  assert (spc * (room / spc) <= room) as Hroom by (apply Z.mul_div_le; lia).
  assert (0 <= room / spc) by (apply Z.div_pos; unfold room; lia).
  assert ((c - 2) * spc + spc <= spc * (room / spc)) by nia.
  assert (room / spc <= room) by (apply Z.div_le_upper_bound; nia).
  rewrite (wrap_small 32 (c - 2)) by (unfold room in *; lia).
  rewrite (wrap_small 32 ((c - 2) * spc)) by (unfold room in *; nia).
  rewrite (wrap_small 32) by (unfold room in *; nia). unfold room in *. lia.
Qed.

(** C38: on a parameter block whose reserved area, tables and root directory fit
    in the volume, the geometry is the one the FAT layout prescribes: the root
    directory has room for its entries, the data area follows it, the type is
    FAT12 below 4085 clusters and FAT16 below 65525, and every cluster, the last
    one included, lies inside the volume and apart from the others. *)
Theorem geometry_correct {D} (f : FAT D) b :
  bpb_ok b -> data_start b <= TotalSectors b -> geometry b = Ret f.(geo) ->
  let g := f.(geo) in
  g.(firstDataSector) = data_start b /\
  b.(bpb_NumDirEntries) * 32 <= g.(rootDirSectors) * g.(bytesPerSector) /\
  g.(FatType) = (if g.(totalClusters) <? 4085 then FAT12 else if g.(totalClusters) <? 65525 then FAT16 else FAT32) /\
  (forall c, 2 <= c <= g.(totalClusters) + 1 ->
     data_start b <= ClusterToSector f c /\
     ClusterToSector f c + g.(sectorsPerCluster) <= TotalSectors b) /\
  (forall c c', 2 <= c < c' -> c' <= g.(totalClusters) + 1 ->
     ClusterToSector f c + g.(sectorsPerCluster) <= ClusterToSector f c').
Proof.
  intros Hok Hfit Hg g. destruct (geometry_run b g Hok Hfit Hg) as (Hf & Hroot & Hbp & Hs & Ht & Hty).
  pose proof (bo_bps _ Hok) as Hb. pose proof (bo_spc _ Hok) as Hsp.
  split; [done |]. split; [| split; [done |]; split].
  - rewrite Hroot, Hbp. unfold root_sectors. Z.to_euclidean_division_equations; nia.
  - intros c Hc. destruct (ClusterToSector_run f b c Hok Hfit Hg Hc) as [-> ?]. split; [| done].
    fold g. rewrite Hs. nia.
  - intros c c' Hc Hc'. destruct (ClusterToSector_run f b c Hok Hfit Hg) as [-> _]; [fold g; lia |].
    destruct (ClusterToSector_run f b c' Hok Hfit Hg) as [-> _]; [fold g; lia |]. fold g. rewrite Hs. nia.
Qed.

(** ** A small FAT12 volume and a floppy's parameter block *)

Definition demo_geo : Geometry :=
  {| FatType := FAT12; bytesPerSector := 32; rootDirSectors := 2; sectorsPerCluster := 2;
     clusterSize := 64; firstDataSector := 5; firstFatSector := 1; rootDirCluster := 3; totalClusters := 12 |}.
Definition demo_sector : list Z := [0xF8; 0xFF; 0xFF; 0xF8; 0x5F; 0x00] ++ replicate 26 0.
Definition demo_drive : ram_drive :=
  <[(0, 1) := demo_sector]> (<[(0, 7) := replicate 32 7]> (<[(0, 8) := replicate 32 8]> ∅)).
Definition demo_fat : FAT ram_drive :=
  {| disk := new_Disk demo_drive 0 HardDisk; StartLBA := 0; geo := demo_geo;
     readBuffer := replicate 32 0; startSearchCluster := 2 |}.
Definition demo_table (c : Z) : Z := entry_in demo_geo demo_sector c.

Lemma demo_geo_ok : geo_ok demo_geo.
Proof. by split. Qed.

Lemma demo_valid c : 2 <= c <= 12 -> valid demo_geo c /\ fatSector demo_geo c = 1.
Proof.
  intros Hc. assert (0 <= c + c / 2 < 32) as Ho by (Z.to_euclidean_division_equations; lia).
  destruct (fatOffset_small demo_geo c demo_geo_ok Hc) as [H1 _].
  destruct (fatSector_small demo_geo c demo_geo_ok Hc) as [H2 _].
  cbn [demo_geo FatType bytesPerSector firstFatSector] in *. rewrite H1 in H2. split.
  - split; [done |]. unfold entOffset. cbn [demo_geo FatType bytesPerSector entry_bytes].
    rewrite H1, Z.mod_small by done. Z.to_euclidean_division_equations; lia.
  - rewrite H2, Z.div_small by done. done.
Qed.

Lemma demo_represents : represents demo_fat demo_table.
Proof.
  split; [exact demo_geo_ok | done | reflexivity |]. intros c [Hc _]. destruct (demo_valid c Hc) as [_ Hs].
  exists demo_sector. unfold entry_lba. cbn [demo_fat geo StartLBA]. rewrite Hs.
  split; [reflexivity |]. split; [reflexivity |]. split; [| done].
  unfold demo_sector, is_byte. rewrite Forall_app. split; [repeat constructor; lia | apply Forall_replicate; lia].
Qed.

Lemma WriteTable_ReadTable_witness :
  exists f' l, WriteTable demo_fat 3 0xABC = Ret f' /\ ReadTable f' 2 = Ret (with_buffer f' l, 0xFF8).
Proof.
  destruct (WriteTable_ReadTable demo_fat demo_table 3 0xABC 2 demo_represents) as (f' & l & Hw & Hr & _).
  - exact (proj1 (demo_valid 3 ltac:(lia))).
  - exact (proj1 (demo_valid 2 ltac:(lia))).
  - lia.
  - exists f', l. split; [exact Hw | exact Hr].
Defined.

Lemma AllocateCluster_first_free_witness : exists f', AllocateCluster demo_fat = Ret (f', 4).
Proof.
  destruct (AllocateCluster_first_free demo_fat demo_table demo_represents) as (f' & c & Hrun & Hres).
  - intros x Hx. cbn in Hx. exact (proj1 (demo_valid x ltac:(lia))).
  - cbn. lia.
  - exists f'. rewrite Hrun. destruct Hres as [(Hc & Hfree & Hbefore & _) | (_ & Hnone & _)].
    + cbn in Hc. assert (~ (2 <= 4 < c)) as Hle by (intros Hlt; exact (Hbefore 4 Hlt eq_refl)).
      assert (c <> 2) by (intros ->; vm_compute in Hfree; discriminate).
      assert (c <> 3) by (intros ->; vm_compute in Hfree; discriminate).
      replace c with 4 by lia. reflexivity.
    + exfalso. apply (Hnone 4); [cbn; lia | reflexivity].
Defined.

Definition wide_fat : FAT ram_drive :=
  {| disk := new_Disk (<[(0, 1) := replicate 512 0]> ∅) 0 HardDisk; StartLBA := 0;
     geo := {| FatType := FAT12; bytesPerSector := 512; rootDirSectors := 14; sectorsPerCluster := 1;
               clusterSize := 512; firstDataSector := 33; firstFatSector := 1; rootDirCluster := 19;
               totalClusters := 2847 |};
     readBuffer := replicate 512 0; startSearchCluster := 2 |}.

Lemma FAT12_entry_straddles_witness : ReadTable wide_fat 341 = Fault /\ WriteTable wide_fat 341 0 = Fault.
Proof.
  apply (FAT12_entry_straddles wide_fat 0 (replicate 512 0)); cbn; reflexivity || lia || idtac.
Defined.

Lemma ClearCluster_zeroes_witness :
  ReadSector (ClearCluster demo_fat 3).(disk) 8 = Some (replicate 32 0) /\
  ReadSector (ClearCluster demo_fat 3).(disk) 1 = Some demo_sector.
Proof.
  assert (forall x, 7 <= x < 9 -> exists l, ReadSector demo_fat.(disk) x = Some l /\ length l = 32%nat) as Hs.
  { intros x Hx. assert (x = 7 \/ x = 8) as [-> | ->] by lia; eexists; split; reflexivity. }
  split; rewrite (ClearCluster_zeroes demo_fat 3); try exact Hs; reflexivity || (vm_compute; discriminate).
Defined.

Definition floppy_bpb : BPB :=
  {| bpb_bytesPerSector := 512; bpb_SectorsPerCluster := 1; bpb_ReservedSectors := 1; bpb_NumOfFats := 2;
     bpb_NumDirEntries := 224; bpb_TotalSectorsSmall := 2880; bpb_SectorsPerFat12_16 := 9;
     bpb_TotalSectorsBig := 0; bpb_SectorsPerFat32 := 0; bpb_RootDirCluster := 0; bpb_FSInfoSector := 0 |}.

Lemma geometry_correct_witness :
  wide_fat.(geo).(firstDataSector) = data_start floppy_bpb /\ wide_fat.(geo).(FatType) = FAT12.
Proof.
  destruct (geometry_correct wide_fat floppy_bpb) as (Hf & _ & Ht & _).
  - split; cbn; lia.
  - vm_compute. discriminate.
  - vm_compute. reflexivity.
  - split; [exact Hf | exact Ht].
Defined.

Lemma AllocateCluster_hint_zero_witness :
  AllocateCluster (with_hint demo_fat 0) = Ret (with_hint demo_fat 0, 0).
Proof. exact (AllocateCluster_hint_zero (with_hint demo_fat 0) eq_refl eq_refl). Defined.
