(* ===== verification/FatNames.v ===== *)
(** Names and dates of the FAT file system (kernel/vfs/FAT.cpp): path splitting
    ([IndexOf], [StrSplit]), case conversion, 8.3 names, long file name entries
    and their checksum, and the packed dates.

    A C string is the list of its bytes without the terminator; an array is the
    list of all its bytes, and an access outside it is a [Fault]. *)
From Stdlib Require Import ZArith Lia String.
From S2P Require Import Prelude CMemory DiskIO FatTable.

(** ** Characters and paths *)

Fixpoint IndexOf_loop (str : list Z) (c skip hits i : Z) : Z :=
  match str with
  | [] => -1
  | x :: str =>
      if x =? c then if hits =? skip then i else IndexOf_loop str c skip (u32 (hits + 1)) (i + 1)
      else IndexOf_loop str c skip hits (i + 1)
  end.
Definition IndexOf (str : list Z) (c skip : Z) : Z := IndexOf_loop str c skip 0 0.

(** [char] is signed: a byte above 127 is negative and never in the range. *)
Definition Uppercase (c : Z) : Z := if (97 <=? s8 c) && (s8 c <=? 122) then u8 (c - 32) else c.
Definition Lowercase (c : Z) : Z := if (65 <=? s8 c) && (s8 c <=? 90) then u8 (c + 32) else c.
Definition Uppercase_str (str : list Z) : list Z := Uppercase <$> str.
Definition Lowercase_str (str : list Z) : list Z := Lowercase <$> str.

(** The bytes [pos, i) of a string. *)
Definition substring (str : list Z) (pos i : nat) : list Z := take (i - pos) (drop pos str).

(** The loop of [StrSplit]: [n] characters left, at index [i]; the parts found so
    far and the start of the next one. *)
Fixpoint StrSplit_loop (n : nat) (str : list Z) (d : Z) (i pos : nat) (result : list (list Z)) : list (list Z) * nat :=
  match n with
  | O => (result, pos)
  | S n =>
      if default 0 (str !! i) =? d
      then StrSplit_loop n str d (S i) (S i) (if (0 <? i - pos)%nat then result ++ [substring str pos i] else result)
      else StrSplit_loop n str d (S i) pos result
  end.

Definition StrSplit (str : list Z) (d : Z) : list (list Z) :=
  let len := length str in
  let r := StrSplit_loop len str d 0 0 [] in
  if (0 <? r.2)%nat && (0 <? len - r.2)%nat then r.1 ++ [substring str r.2 len] else r.1.

(** ** 8.3 names *)

(** [uint8_t] sum, rotated right by one before each of the 11 characters. *)
Fixpoint Checksum_loop (n : nat) (filename : list Z) (Sum : Z) : outcome Z :=
  match n with
  | O => Ret Sum
  | S n => match filename with
           | [] => Fault
           | c :: filename =>
               Checksum_loop n filename
                 (u8 ((if truthy (Z.land Sum 1) then 0x80 else 0) + Z.shiftr Sum 1 + c))
           end
  end.
Definition Checksum (filename : list Z) : outcome Z := Checksum_loop 11 filename 0.

(** The length left of [n] characters from [base] on without trailing blanks. *)
Fixpoint trim_blanks (n : nat) (str : list Z) (base : nat) : nat :=
  match n with
  | O => O
  | S k => if default 0 (str !! (base + k)%nat) =? 32 then trim_blanks k str base else S k
  end.

Definition ParseShortFilename (str : list Z) : outcome (list Z) :=
  if (length str <? 11)%nat then Fault else
  let outFileName := replicate 12 0 in
  let mainEnd := trim_blanks 8 str 0 in
  b ← put outFileName 0 (take mainEnd str);
  let extEnd := trim_blanks 3 str 8 in
  if (extEnd =? 0)%nat then Ret b else
  b ← put b (Z.of_nat mainEnd) [46];
  put b (Z.of_nat mainEnd + 1) (take extEnd (drop 8 str)).

(** strchr(name, '.') - name *)
Fixpoint dot_index (name : list Z) : option nat :=
  match name with
  | [] => None
  | c :: name => if c =? 46 then Some O else S <$> dot_index name
  end.

(** [None] is the null pointer.  Past the null check the index is never
    negative, so the branches for a name without extension are dead. *)
Definition CreateShortFilename (name : list Z) : option (list Z) :=
  match dot_index name with
  | None => None
  | Some dotIndex =>
      let ext := (fun i => let charIndex := (dotIndex + 1 + i)%nat in
                   if (length name <=? charIndex)%nat then 32 else Uppercase (default 0 (name !! charIndex)))
                 <$> seq 0 3 in
      let main := if (8 <? dotIndex)%nat then (Uppercase <$> take 6 name) ++ [126; 49]
                  else (Uppercase <$> take dotIndex name) ++ replicate (8 - dotIndex) 32 in
      Some (main ++ ext)
  end.

(** ** Long file names *)

Definition LFN_ENTRY_END : Z := 0x40.
Definition ATTR_LONG_NAME : Z := Z.lor (Z.lor (Z.lor 0x01 0x02) 0x04) 0x08.

Record LFNEntry := {
  entryIndex : Z;
  namePart1 : list Z;
  l_Attributes : Z;
  l_checksum : Z;
  namePart2 : list Z;
  namePart3 : list Z
}.

(** [k] 16-bit characters of the name from the index [p] on; past the end of the
    name they are 0. *)
Definition name_part (name : list Z) (p k : nat) : list Z :=
  flat_map (fun j => [default 0 (name !! j); 0]) (seq p k).

Definition lfn_entry (name : list Z) (num : nat) (checksum : Z) (n : nat) : LFNEntry :=
  let p := (13 * n)%nat in
  {| entryIndex := (let i := u8 (Z.of_nat n + 1) in if (n =? num - 1)%nat then Z.lor i LFN_ENTRY_END else i);
     namePart1 := name_part name p 5;
     l_Attributes := ATTR_LONG_NAME;
     l_checksum := checksum;
     namePart2 := name_part name (p + 5) 6;
     namePart3 := name_part name (p + 11) 2 |}.

Fixpoint CreateLFN_loop (k : nat) (name : list Z) (num : nat) (checksum : Z) (n : nat) (entries : list LFNEntry) : list LFNEntry :=
  match k with
  | O => entries
  | S k => CreateLFN_loop k name num checksum (S n) (lfn_entry name num checksum n :: entries)
  end.
Definition CreateLFNEntriesFromName (name : list Z) (num : nat) (checksum : Z) : list LFNEntry :=
  CreateLFN_loop num name num checksum 0 [].

(** Every other byte of a part, printable or replaced by 0. *)
Fixpoint name_chars (part : list Z) : list Z :=
  match part with
  | b :: _ :: part => (if (32 <=? b) && (b <=? 127) then b else 0) :: name_chars part
  | _ => []
  end.

Fixpoint ParseLFN_loop (entries : list LFNEntry) (shortChecksum : Z) (longName : list Z) : outcome (list Z) :=
  match entries with
  | [] => Ret longName
  | item :: entries =>
      if negb (item.(l_checksum) =? shortChecksum) then Ret longName else
      let index := Z.land item.(entryIndex) 0x0F in
      let chars := name_chars item.(namePart1) ++ name_chars item.(namePart2) ++ name_chars item.(namePart3) in
      longName ← put longName ((index - 1) * 13) chars;
      ParseLFN_loop entries shortChecksum longName
  end.

Definition ParseLFNEntries (entries : list LFNEntry) (FileName : list Z) : outcome (list Z) :=
  shortChecksum ← Checksum FileName;
  ParseLFN_loop entries shortChecksum (replicate (length entries * 13 + 1) 0).

(** ** Dates *)

Record Time := { year : Z; month : Z; day : Z; hour : Z; minute : Z; second : Z }.

Definition FatTime (t : Time) : Z :=
  u16 (Z.lor (Z.lor (Z.shiftl t.(hour) 11) (Z.shiftl t.(minute) 5)) (Z.shiftr t.(second) 1)).
Definition FatDate (t : Time) : Z :=
  u16 (Z.lor (Z.lor (Z.shiftl (u16 (t.(year) - 1980)) 9) (Z.shiftl t.(month) 5)) t.(day)).

(** The dates [DirectoryList] gives for an entry. *)
Definition creation (CreationDate CreationTime : Z) : Time :=
  {| day := Z.land CreationDate 0x1F;
     month := Z.land (Z.shiftr CreationDate 5) 0xF;
     year := u16 (Z.land (Z.shiftr CreationDate 9) 0x7F + 1980);
     second := u8 (Z.land CreationTime 0x1F * 2);
     minute := Z.land (Z.shiftr CreationTime 5) 0x3F;
     hour := Z.land (Z.shiftr CreationTime 11) 0x1F |}.

(** ** Dates: packing and unpacking *)

Lemma pack3 a b c n k :
  0 <= n -> 0 <= k -> 0 <= b < 2 ^ n -> 0 <= c < 2 ^ k ->
  Z.lor (Z.lor (Z.shiftl a (n + k)) (Z.shiftl b k)) c = (a * 2 ^ n + b) * 2 ^ k + c.
Proof.
  intros Hn Hk Hb Hc. rewrite !Z.shiftl_mul_pow2 by lia.
  rewrite lor_shift_add by (rewrite ?Z.pow_add_r by lia; nia).
  rewrite Z.pow_add_r by lia.
  replace (a * (2 ^ n * 2 ^ k) + b * 2 ^ k) with ((a * 2 ^ n + b) * 2 ^ k) by ring.
  by apply lor_shift_add.
Qed.

Record time_ok (t : Time) : Prop := {
  to_year : 1980 <= t.(year) < 2108;
  to_month : 0 <= t.(month) < 16;
  to_day : 0 <= t.(day) < 32;
  to_hour : 0 <= t.(hour) < 24;
  to_minute : 0 <= t.(minute) < 60;
  to_second : 0 <= t.(second) < 60
}.

Lemma FatTime_sum t : time_ok t -> FatTime t = (t.(hour) * 64 + t.(minute)) * 32 + t.(second) / 2.
Proof.
  intros []. unfold FatTime. rewrite (Z.shiftr_div_pow2 (second t)) by lia. change (2 ^ 1) with 2.
  assert (0 <= second t / 2 < 30) by (Z.to_euclidean_division_equations; lia).
  rewrite (pack3 _ _ _ 6 5) by lia. apply (wrap_small 16). lia.
Qed.

Lemma FatDate_sum t : time_ok t -> FatDate t = ((t.(year) - 1980) * 16 + t.(month)) * 32 + t.(day).
Proof.
  intros []. unfold FatDate. rewrite (wrap_small 16 (_ - _)) by lia.
  rewrite (pack3 _ _ _ 4 5) by lia. apply (wrap_small 16). lia.
Qed.

(** Fact: the date and time [CreateEntry] stores are the ones [DirectoryList]
    reads back, the seconds rounded down to an even number. *)
Theorem creation_roundtrip t :
  time_ok t ->
  creation (FatDate t) (FatTime t) =
    {| year := t.(year); month := t.(month); day := t.(day); hour := t.(hour); minute := t.(minute);
       second := t.(second) - t.(second) mod 2 |}.
Proof.
  intros Ht. unfold creation. rewrite (FatTime_sum t Ht), (FatDate_sum t Ht). destruct Ht.
  change 0x1F with (Z.ones 5). change 0xF with (Z.ones 4). change 0x7F with (Z.ones 7). change 0x3F with (Z.ones 6).
  rewrite !Z.land_ones, !Z.shiftr_div_pow2 by lia.
  change (2 ^ 4) with 16. change (2 ^ 5) with 32. change (2 ^ 6) with 64. change (2 ^ 7) with 128.
  change (2 ^ 9) with 512. change (2 ^ 11) with 2048.
  assert (((hour t * 64 + minute t) * 32 + second t / 2) mod 32 = second t / 2) as ->
    by (Z.to_euclidean_division_equations; lia).
  rewrite (wrap_small 8) by (Z.to_euclidean_division_equations; lia).
  rewrite (wrap_small 16) by (Z.to_euclidean_division_equations; lia).
  f_equal; Z.to_euclidean_division_equations; lia.
Qed.

Lemma creation_roundtrip_witness :
  creation (FatDate {| year := 2024; month := 2; day := 29; hour := 23; minute := 59; second := 59 |})
           (FatTime {| year := 2024; month := 2; day := 29; hour := 23; minute := 59; second := 59 |}) =
    {| year := 2024; month := 2; day := 29; hour := 23; minute := 59; second := 58 |}.
Proof. apply (creation_roundtrip {| year := 2024; month := 2; day := 29; hour := 23; minute := 59; second := 59 |}). split; cbn; lia. Defined.

(** ** Splitting paths *)

(** The pieces of a string between delimiters, empty ones included. *)
Fixpoint pieces (d : Z) (l : list Z) : list (list Z) :=
  match l with
  | [] => [[]]
  | x :: l => if x =? d then [] :: pieces d l
              else match pieces d l with p :: ps => (x :: p) :: ps | [] => [[x]] end
  end.
Definition nonempty (l : list Z) : bool := match l with [] => false | _ => true end.

Lemma pieces_nil d l : pieces d l <> [].
Proof. destruct l as [|x l]; cbn; [done |]. destruct (x =? d); [done |]. by destruct (pieces d l). Qed.

(** The pieces of [seg ++ l] when [seg] has no delimiter. *)
Definition glue (seg : list Z) (ps : list (list Z)) : list (list Z) :=
  match ps with p :: ps => (seg ++ p) :: ps | [] => [] end.

Lemma substring_snoc str pos i x :
  (pos <= i)%nat -> str !! i = Some x -> substring str pos (S i) = substring str pos i ++ [x].
Proof.
  intros Hp Hx. unfold substring. rewrite Nat.sub_succ_l by done.
  apply take_S_r. rewrite lookup_drop. rewrite <- Hx. f_equal. lia.
Qed.

Lemma substring_nil str i : substring str i i = [].
Proof. unfold substring. by rewrite Nat.sub_diag. Qed.

Lemma substring_length str pos i : (i <= length str)%nat -> length (substring str pos i) = (i - pos)%nat.
Proof. intros. unfold substring. rewrite length_take, length_drop. lia. Qed.

Lemma nonempty_length (l : list Z) : nonempty l = (0 <? length l)%nat.
Proof. by destruct l. Qed.

Lemma StrSplit_loop_spec n str d i pos res :
  n = (length str - i)%nat -> (pos <= i <= length str)%nat ->
  let ps := glue (substring str pos i) (pieces d (drop i str)) in
  exists pos', StrSplit_loop n str d i pos res = (res ++ filter nonempty (removelast ps), pos') /\
    (pos' <= length str)%nat /\ substring str pos' (length str) = List.last ps [] /\
    (pos' = O <-> pos = O /\ d ∉ drop i str).
Proof.
  revert i pos res. induction n as [|n IH]; intros i pos res Hn Hp.
  - assert (i = length str) as -> by lia. rewrite drop_all. cbn. exists pos. rewrite !app_nil_r.
    split_and!; [done | lia | done | set_solver].
  - destruct (lookup_lt_is_Some_2 str i) as [x Hx]; [lia |]. rewrite (drop_S str x i Hx). cbn [StrSplit_loop pieces].
    rewrite Hx. change (default 0 (Some x)) with x. destruct (Z.eqb_spec x d) as [-> | Hne].
    + edestruct (IH (S i) (S i)) as (pos' & -> & Hle & Hlast & Hz); [lia | lia |].
      exists pos'. rewrite substring_nil in *. cbn [glue] in *. rewrite app_nil_r.
      destruct (pieces d (drop (S i) str)) as [|p ps] eqn:Hps; [by destruct (pieces_nil _ _ Hps) |].
      cbn [glue app] in *. split; [| split; [lia | split; [done |]]].
      * f_equal. change (removelast (substring str pos i :: p :: ps)) with (substring str pos i :: removelast (p :: ps)).
        rewrite filter_cons. case_decide as Hd; rewrite nonempty_length, substring_length in Hd by lia;
          destruct (0 <? i - pos)%nat; cbn in Hd; try done; by rewrite <- app_assoc.
      * rewrite Hz. set_solver.
    + edestruct (IH (S i) pos res) as (pos' & -> & Hle & Hlast & Hz); [lia | lia |].
      exists pos'. rewrite (substring_snoc str pos i x) in * by (done || lia).
      destruct (pieces d (drop (S i) str)) as [|p ps] eqn:Hps; [by destruct (pieces_nil _ _ Hps) |].
      cbn [glue] in *. rewrite <- app_assoc in *. split_and!; [done | lia | done | rewrite Hz; set_solver].
Qed.

Lemma pieces_app d p l :
  d ∉ p -> pieces d (p ++ d :: l) = p :: pieces d l.
Proof.
  induction p as [|x p IH]; intros Hd; cbn.
  - by rewrite Z.eqb_refl.
  - destruct (Z.eqb_spec x d) as [-> |]; [set_solver |]. by rewrite IH by set_solver.
Qed.

Lemma pieces_single d p : d ∉ p -> pieces d p = [p].
Proof.
  induction p as [|x p IH]; intros Hd; cbn; [done |].
  destruct (Z.eqb_spec x d) as [-> |]; [set_solver |]. by rewrite IH by set_solver.
Qed.

(** [StrSplit] gives the nonempty pieces of the string between delimiters, in
    order; a string without a delimiter gives the empty list, which its callers
    take for a name in the root directory. *)
Lemma StrSplit_run str d :
  StrSplit str d = if bool_decide (d ∈ str) then filter nonempty (pieces d str) else [].
Proof.
  destruct (StrSplit_loop_spec (length str) str d 0 0 []) as (pos' & Hloop & Hle & Hlast & Hz); [lia | lia |].
  rewrite substring_nil, drop_0 in *. unfold StrSplit. rewrite Hloop. cbn [fst snd app].
  assert (glue [] (pieces d str) = pieces d str) as Hg by by destruct (pieces d str).
  rewrite Hg in *. case_bool_decide as Hin.
  - destruct (Nat.ltb_spec 0 pos'); [| tauto || (exfalso; apply proj1 in Hz; destruct Hz; [lia | done])]. cbn [andb].
    rewrite (app_removelast_last [] (pieces_nil d str)) at 3. rewrite filter_app, <- Hlast.
    rewrite filter_cons, filter_nil.
    case_decide as Hd; rewrite nonempty_length, substring_length in Hd by done;
      destruct (0 <? length str - pos')%nat; cbn in Hd; try done. by rewrite app_nil_r.
  - rewrite (proj2 Hz) by done. by rewrite pieces_single.
Qed.

(** A path of several parts. *)
Fixpoint join (d : Z) (parts : list (list Z)) : list Z :=
  match parts with
  | [] => []
  | [p] => p
  | p :: ps => p ++ d :: join d ps
  end.

Lemma pieces_join d parts : parts <> [] -> Forall (fun p => d ∉ p) parts -> pieces d (join d parts) = parts.
Proof.
  induction parts as [|p [|q ps] IH]; intros Hne Hd; [done | |]; apply Forall_cons in Hd as [Hp Hd].
  - by apply pieces_single.
  - change (join d (p :: q :: ps)) with (p ++ d :: join d (q :: ps)). by rewrite pieces_app, IH.
Qed.

Lemma IndexOf_loop_app p l c skip hits i :
  c ∉ p -> IndexOf_loop (p ++ l) c skip hits i = IndexOf_loop l c skip hits (i + Z.of_nat (length p)).
Proof.
  revert i. induction p as [|x p IH]; intros i Hc; cbn [app IndexOf_loop length].
  - f_equal. lia.
  - destruct (Z.eqb_spec x c) as [-> |]; [set_solver |]. rewrite IH by set_solver. f_equal. lia.
Qed.

Lemma IndexOf_join d p q ps hits i :
  Forall (fun p => d ∉ p) (p :: q :: ps) -> 0 <= hits -> hits + Z.of_nat (length ps) < 2 ^ 32 ->
  IndexOf_loop (join d (p :: q :: ps)) d (hits + Z.of_nat (length ps)) hits i =
    i + Z.of_nat (length (join d (removelast (p :: q :: ps)))).
Proof.
  revert p q hits i. induction ps as [|r ps IH]; intros p q hits i Hd Hh Hs; apply Forall_cons in Hd as [Hp Hd].
  - change (join d [p; q]) with (p ++ d :: q). rewrite IndexOf_loop_app by done. cbn.
    rewrite Z.eqb_refl, Z.add_0_r, Z.eqb_refl. done.
  - change (join d (p :: q :: r :: ps)) with (p ++ d :: join d (q :: r :: ps)).
    rewrite IndexOf_loop_app by done. cbn [IndexOf_loop length]. rewrite Z.eqb_refl.
    cbn [length] in Hs. destruct (Z.eqb_spec hits (hits + Z.of_nat (S (length ps)))); [lia |].
    rewrite (wrap_small 32) by lia.
    replace (hits + Z.of_nat (S (length ps))) with (hits + 1 + Z.of_nat (length ps)) by lia.
    rewrite IH by (done || lia).
    change (removelast (p :: q :: r :: ps)) with (p :: removelast (q :: r :: ps)).
    assert (removelast (q :: r :: ps) <> []) as Hne by done.
    destruct (removelast (q :: r :: ps)) as [|s ss]; [done |].
    change (join d (p :: s :: ss)) with (p ++ d :: join d (s :: ss)). rewrite length_app. cbn [length]. lia.
Qed.

Lemma join_last d parts :
  (2 <= length parts)%nat -> join d parts = join d (removelast parts) ++ d :: List.last parts [].
Proof.
  induction parts as [|p [|q ps] IH]; cbn [length]; [lia | lia |]. intros _.
  destruct ps as [|r ps]; [done |].
  change (join d (p :: q :: r :: ps)) with (p ++ d :: join d (q :: r :: ps)).
  rewrite IH by (cbn; lia).
  change (removelast (p :: q :: r :: ps)) with (p :: removelast (q :: r :: ps)).
  change (List.last (p :: q :: r :: ps) []) with (List.last (q :: r :: ps) []).
  assert (removelast (q :: r :: ps) <> []) as Hne by done.
  destruct (removelast (q :: r :: ps)) as [|s ss]; [done |].
  change (join d (p :: s :: ss)) with (p ++ d :: join d (s :: ss)). by rewrite <- app_assoc.
Qed.

Lemma StrSplit_join d parts :
  (2 <= length parts)%nat -> Forall (fun p => d ∉ p /\ p <> []) parts -> StrSplit (join d parts) d = parts.
Proof.
  intros Hlen Hparts.
  assert (Forall (fun p => d ∉ p) parts) as Hd by (eapply Forall_impl; [done | by intros ? []]).
  assert (parts <> []) as Hne by (intros ->; cbn in Hlen; lia).
  rewrite StrSplit_run, bool_decide_true by (rewrite (join_last d parts Hlen); set_solver).
  rewrite pieces_join by done.
  clear -Hparts. induction Hparts as [|p ps [_ Hp] _ IH]; [done |]. rewrite filter_cons, IH. by destruct p.
Qed.

Lemma StrSplit_single d p : d ∉ p -> StrSplit p d = [].
Proof. intros Hd. by rewrite StrSplit_run, bool_decide_false. Qed.

(** Fact: on a path of at least two nonempty parts, [StrSplit] finds the parts and
    the index that [CreateNewDirFileEntry] takes from [IndexOf] cuts the path
    into its parent directory and the name of the last part. *)
Theorem path_parts d parts :
  (2 <= length parts)%nat -> Z.of_nat (length parts) < 2 ^ 32 ->
  Forall (fun p => d ∉ p /\ p <> []) parts ->
  let path := join d parts in
  StrSplit path d = parts /\
  exists i, IndexOf path d (Z.of_nat (length parts) - 2) = Z.of_nat i /\
    take i path = join d (removelast parts) /\ path !! i = Some d /\ drop (S i) path = List.last parts [].
Proof.
  intros Hlen Hsmall Hparts path.
  assert (Forall (fun p => d ∉ p) parts) as Hd by (eapply Forall_impl; [done | by intros ? []]).
  pose proof (join_last d parts Hlen) as Hjoin. fold path in Hjoin. split.
  - by apply StrSplit_join.
  - exists (length (join d (removelast parts))).
    rewrite Hjoin, take_app_length, list_lookup_middle, drop_app_ge by lia.
    replace (S _ - _)%nat with 1%nat by lia. split_and!; [| done..].
    rewrite <- Hjoin. destruct parts as [|p [|q ps]]; cbn [length] in Hlen; [lia | lia |].
    unfold IndexOf. replace (Z.of_nat (length (p :: q :: ps)) - 2) with (0 + Z.of_nat (length ps)) by (cbn [length]; lia).
    unfold path. rewrite IndexOf_join by (done || cbn [length] in Hsmall; lia). lia.
Qed.

Lemma path_parts_witness :
  StrSplit [97; 92; 98; 99; 92; 100] 92 = [[97]; [98; 99]; [100]].
Proof.
  refine (proj1 (path_parts 92 [[97]; [98; 99]; [100]] _ _ _)); [cbn; lia | cbn; lia |].
  apply (bool_decide_unpack _). reflexivity.
Defined.


(** ** Long file names: encoding and decoding *)

Lemma put_app a b c bs off :
  off = Z.of_nat (length a) -> length b = length bs -> put (a ++ b ++ c) off bs = Ret (a ++ bs ++ c).
Proof.
  intros -> Hb. rewrite put_in by (rewrite ?length_app; lia). f_equal. rewrite Nat2Z.id. apply list_eq. intros i.
  destruct (decide (i < length a)%nat) as [Hi | Hi].
  - by rewrite list_lookup_inserts_lt, !lookup_app_l by lia.
  - rewrite (lookup_app_r a) by lia. destruct (decide (i < length a + length bs)%nat) as [Hi2 | Hi2].
    + rewrite list_lookup_inserts by (rewrite ?length_app; lia). by rewrite lookup_app_l by lia.
    + rewrite list_lookup_inserts_ge by lia. rewrite !lookup_app_r by lia. f_equal. lia.
Qed.

Lemma put_app_0 b c bs : length b = length bs -> put (b ++ c) 0 bs = Ret (bs ++ c).
Proof. intros Hb. exact (put_app [] b c bs 0 eq_refl Hb). Qed.

Lemma Checksum_loop_ret n l s : (n <= length l)%nat -> exists c, Checksum_loop n l s = Ret c.
Proof.
  revert l s. induction n as [|n IH]; intros l s Hl; [by exists s |].
  destruct l as [|x l]; cbn in Hl; [lia |]. apply IH. lia.
Qed.

Definition name_byte (name : list Z) (j : nat) : Z := default 0 (name !! j).
Definition printable (b : Z) : Prop := 32 <= b <= 127.

Lemma name_chars_part name p k :
  Forall printable name -> name_chars (name_part name p k) = name_byte name <$> seq p k.
Proof.
  intros Hp. revert p. induction k as [|k IH]; intros p; [done |].
  cbn [name_part seq flat_map app name_chars fmap list_fmap]. f_equal; [| apply IH].
  unfold name_byte. destruct (name !! p) as [b|] eqn:Hb; [| done]. cbn.
  destruct (Forall_lookup_1 _ _ _ _ Hp Hb). repeat (zcase; [| lia]). done.
Qed.

Lemma lfn_index n num : (n < 15)%nat -> Z.land (lfn_entry [] num 0 n).(entryIndex) 0x0F = Z.of_nat n + 1.
Proof.
  intros Hn. cbn [lfn_entry entryIndex].
  assert (Z.land (u8 (Z.of_nat n + 1)) 0x0F = Z.of_nat n + 1) as Hi.
  { rewrite (wrap_small 8) by lia. change 0x0F with (Z.ones 4). rewrite Z.land_ones by lia. apply Z.mod_small. lia. }
  destruct (n =? num - 1)%nat; [| done].
  rewrite Z.land_lor_distr_l, Hi. change (Z.land LFN_ENTRY_END 0x0F) with 0. apply Z.lor_0_r.
Qed.

Lemma CreateLFN_loop_rev k name num ck n acc :
  CreateLFN_loop k name num ck n acc = rev (lfn_entry name num ck <$> seq n k) ++ acc.
Proof.
  revert n acc. induction k as [|k IH]; intros n acc; [done |]. cbn [CreateLFN_loop seq fmap list_fmap rev].
  by rewrite IH, <- app_assoc.
Qed.

Lemma ParseLFN_loop_run m name num ck tail :
  Forall printable name -> (m <= 15)%nat ->
  ParseLFN_loop (rev (lfn_entry name num ck <$> seq 0 m)) ck (replicate (13 * m) 0 ++ tail) =
    Ret ((name_byte name <$> seq 0 (13 * m)) ++ tail).
Proof.
  intros Hp. revert tail. induction m as [|m IH]; intros tail Hm; [done |].
  rewrite seq_S, fmap_app, rev_app_distr. cbn [fmap list_fmap rev app Nat.add ParseLFN_loop lfn_entry l_checksum].
  rewrite Z.eqb_refl. cbn [negb]. cbv zeta.
  change (Z.land _ 0x0F) with (Z.land (lfn_entry [] num 0 m).(entryIndex) 0x0F). rewrite lfn_index by lia.
  change (namePart1 (lfn_entry name num ck m)) with (name_part name (13 * m) 5).
  change (namePart2 (lfn_entry name num ck m)) with (name_part name (13 * m + 5) 6).
  change (namePart3 (lfn_entry name num ck m)) with (name_part name (13 * m + 11) 2).
  rewrite !name_chars_part by done.
  rewrite <- !fmap_app. replace (13 * m + 11)%nat with (13 * m + 5 + 6)%nat by lia.
  rewrite <- seq_app. replace (13 * m + 5)%nat with (13 * m + 5)%nat by lia. rewrite <- seq_app.
  change (5 + (6 + 2))%nat with 13%nat.
  replace (13 * S m)%nat with (13 * m + 13)%nat by lia. rewrite replicate_add, <- app_assoc.
  rewrite put_app by (rewrite ?length_replicate, ?length_fmap, ?length_seq; lia). cbn [mbind outcome_bind].
  rewrite IH by lia. rewrite seq_app, fmap_app, <- app_assoc. done.
Qed.

Lemma name_bytes name n :
  (length name <= n)%nat -> name_byte name <$> seq 0 n = name ++ replicate (n - length name) 0.
Proof.
  intros Hn. apply list_eq. intros i. rewrite list_lookup_fmap.
  destruct (decide (i < n)%nat) as [Hi | Hi].
  - rewrite lookup_seq_lt by done. cbn. unfold name_byte. destruct (decide (i < length name)%nat) as [Hl | Hl].
    + rewrite lookup_app_l by done. destruct (lookup_lt_is_Some_2 name i Hl) as [b ->]. done.
    + rewrite lookup_app_r, lookup_replicate_2 by lia. by rewrite lookup_ge_None_2 by lia.
  - rewrite lookup_seq_ge by lia. cbn. symmetry. apply lookup_ge_None_2. rewrite length_app, length_replicate. lia.
Qed.

Lemma ParseLFN_run name num short ck :
  Forall printable name -> (length name <= 13 * num)%nat -> (num <= 15)%nat -> Checksum short = Ret ck ->
  ParseLFNEntries (CreateLFNEntriesFromName name num ck) short =
    Ret (name ++ replicate (13 * num + 1 - length name) 0).
Proof.
  intros Hp Hl Hn Hck. unfold ParseLFNEntries, CreateLFNEntriesFromName. rewrite Hck. cbn [mbind outcome_bind].
  rewrite CreateLFN_loop_rev, app_nil_r, length_rev, length_fmap, length_seq, Nat.mul_comm, replicate_add.
  rewrite ParseLFN_loop_run by done. rewrite name_bytes, <- app_assoc by done. do 2 f_equal.
  rewrite <- replicate_add. f_equal. lia.
Qed.

(** C39: the long name entries [CreateEntry] makes from a printable name of at
    most 15 * 13 characters parse back, under the checksum of the same short
    name, to that name padded with NULs. *)
Theorem lfn_roundtrip name num short ck :
  Forall printable name -> (length name <= 13 * num)%nat -> (num <= 15)%nat -> Checksum short = Ret ck ->
  ParseLFNEntries (CreateLFNEntriesFromName name num ck) short =
    Ret (name ++ replicate (13 * num + 1 - length name) 0).
Proof. apply ParseLFN_run. Qed.

Lemma lfn_roundtrip_witness :
  ParseLFNEntries (CreateLFNEntriesFromName (lit "vsoskrnl.exe.old") 2 0) (replicate 11 0) =
    Ret (lit "vsoskrnl.exe.old" ++ replicate 11 0).
Proof.
  apply (lfn_roundtrip (lit "vsoskrnl.exe.old") 2 (replicate 11 0) 0); [| vm_compute; lia | lia | reflexivity].
  repeat constructor; vm_compute; discriminate.
Defined.

(** Fact: the index of an entry is cut to four bits when a name is parsed: the
    sixteenth entry of a long name counts as the 0th and [ParseLFNEntries]
    writes 13 bytes in front of its buffer. *)
Theorem lfn_sixteen_entries name short ck :
  Checksum short = Ret ck -> ParseLFNEntries (CreateLFNEntriesFromName name 16 ck) short = Fault.
Proof.
  intros Hck. unfold ParseLFNEntries, CreateLFNEntriesFromName. rewrite Hck. cbn [mbind outcome_bind].
  rewrite CreateLFN_loop_rev, app_nil_r. change (seq 0 16) with (seq 0 15 ++ [15%nat]).
  rewrite fmap_app, rev_app_distr. cbn [fmap list_fmap rev app ParseLFN_loop lfn_entry l_checksum].
  rewrite Z.eqb_refl. cbn [negb]. cbv zeta. unfold put. done.
Qed.

Lemma lfn_sixteen_entries_witness :
  ParseLFNEntries (CreateLFNEntriesFromName (replicate 200 97) 16 0) (replicate 11 0) = Fault.
Proof. apply (lfn_sixteen_entries (replicate 200 97) (replicate 11 0) 0). reflexivity. Defined.

(** ** 8.3 names: encoding and decoding *)

Lemma dot_index_app base l : 46 ∉ base -> dot_index (base ++ 46 :: l) = Some (length base).
Proof.
  induction base as [|x base IH]; intros Hd; cbn; [done |].
  destruct (Z.eqb_spec x 46) as [-> |]; [set_solver |]. by rewrite IH by set_solver.
Qed.

(** Trailing blanks are cut back to the last character that is not one. *)
Lemma trim_blanks_run n str base k :
  (k <= n)%nat -> (forall j, (k <= j < n)%nat -> str !! (base + j)%nat = Some 32) ->
  (k <> 0%nat -> default 0 (str !! (base + (k - 1))%nat) <> 32) -> trim_blanks n str base = k.
Proof.
  induction n as [|n IH]; intros Hk Hblank Hlast; cbn [trim_blanks]; [lia |].
  destruct (decide (k = S n)) as [-> | Hne].
  - replace (S n - 1)%nat with n in Hlast by lia. destruct (Z.eqb_spec (default 0 (str !! (base + n)%nat)) 32); [| done].
    by destruct Hlast.
  - rewrite (Hblank n) by lia. cbn. apply IH; [lia | intros; apply Hblank; lia | done].
Qed.

Lemma trim_blanks_app a b k c base :
  base = length a -> List.last b 0 <> 32 ->
  trim_blanks (length b + k) (a ++ b ++ replicate k 32 ++ c) base = length b.
Proof.
  intros -> Hb. apply trim_blanks_run; [lia | |].
  - intros j Hj. rewrite lookup_app_r by lia. rewrite lookup_app_r by lia.
    rewrite lookup_app_l by (rewrite length_replicate; lia). apply lookup_replicate_2. lia.
  - intros Hne. rewrite lookup_app_r by lia. rewrite lookup_app_l by lia.
    destruct b as [|x b] using rev_ind; [done |]. clear IHb. rewrite List.last_last in Hb.
    rewrite length_app. cbn [length]. rewrite lookup_app_r by lia.
    by replace (_ - _)%nat with 0%nat by lia.
Qed.

(** Whether a buffer holds a terminated string. *)
Definition terminated (l : list Z) : bool := existsb (Z.eqb 0) l.

(** A name of at most eight characters and an extension of one to three, neither
    ending in a blank. *)
Record short_ok (base ext : list Z) : Prop := {
  so_base : (length base <= 8)%nat;
  so_ext : (1 <= length ext <= 3)%nat;
  so_dot : 46 ∉ base;
  so_chars : Forall (fun b => 0 < b < 128) (base ++ ext);
  so_base_last : List.last base 0 <> 32;
  so_ext_last : List.last ext 0 <> 32
}.

Lemma Uppercase_small b : 0 < b < 128 -> Uppercase b = if (97 <=? b) && (b <=? 122) then b - 32 else b.
Proof.
  intros Hb. unfold Uppercase. rewrite (swrap_small 8) by lia.
  repeat zcase; cbn; try done. apply (wrap_small 8). lia.
Qed.

Lemma Uppercase_blank b : 0 < b < 128 -> (Uppercase b = 32 <-> b = 32) /\ Uppercase b <> 0.
Proof. intros Hb. rewrite Uppercase_small by done. repeat zcase; cbn; lia. Qed.

Lemma last_Uppercase l :
  Forall (fun b => 0 < b < 128) l -> List.last l 0 <> 32 -> List.last (Uppercase <$> l) 0 <> 32.
Proof.
  intros Hl Hb. destruct l as [|x l] using rev_ind; [done |]. clear IHl.
  rewrite fmap_app. cbn [fmap list_fmap]. rewrite !List.last_last in *.
  apply Forall_app in Hl as [_ Hx]. apply Forall_inv in Hx. rewrite (proj1 (Uppercase_blank x Hx)). done.
Qed.

(** The 8.3 name of a short name: upper case, both parts padded with blanks. *)
Lemma CreateShortFilename_run base ext :
  short_ok base ext ->
  CreateShortFilename (base ++ 46 :: ext) =
    Some ((Uppercase <$> base) ++ replicate (8 - length base) 32 ++
          (Uppercase <$> ext) ++ replicate (3 - length ext) 32).
Proof.
  intros [Hb He Hd _ _ _]. unfold CreateShortFilename. rewrite dot_index_app by done.
  destruct (Nat.ltb_spec 8 (length base)); [lia |]. rewrite take_app_length, <- app_assoc. do 3 f_equal.
  apply list_eq. intros i. rewrite list_lookup_fmap.
  destruct (decide (i < 3)%nat) as [Hi | Hi].
  - rewrite lookup_seq_lt by done. cbn [fmap option_fmap option_map Nat.add].
    destruct (Nat.leb_spec (length (base ++ 46 :: ext)) (length base + 1 + i)) as [Hle | Hlt];
      rewrite length_app in *; cbn [length] in *.
    + rewrite lookup_app_r by (rewrite length_fmap; lia). symmetry. apply lookup_replicate_2. rewrite length_fmap. lia.
    + rewrite lookup_app_r by lia. replace (length base + 1 + i - length base)%nat with (S i) by lia. change ((46 :: ext) !! S i) with (ext !! i).
      rewrite lookup_app_l by (rewrite length_fmap; lia). rewrite list_lookup_fmap.
      destruct (lookup_lt_is_Some_2 ext i) as [x Hx]; [lia |]. rewrite Hx. done.
  - rewrite lookup_seq_ge by lia. symmetry. apply lookup_ge_None_2. rewrite length_app, length_fmap, length_replicate. lia.
Qed.

Lemma ParseShortFilename_run base ext :
  (length base <= 8)%nat -> (1 <= length ext <= 3)%nat ->
  List.last base 0 <> 32 -> List.last ext 0 <> 32 ->
  ParseShortFilename (base ++ replicate (8 - length base) 32 ++ ext ++ replicate (3 - length ext) 32) =
    Ret (base ++ 46 :: ext ++ replicate (11 - length base - length ext) 0).
Proof.
  intros Hb He Hlb Hle. unfold ParseShortFilename.
  set (s := base ++ _). assert (length s = 11)%nat as Hs
    by (unfold s; rewrite !length_app, !length_replicate; lia).
  destruct (Nat.ltb_spec (length s) 11); [lia |].
  assert (trim_blanks 8 s 0 = length base) as ->.
  { replace 8%nat with (length base + (8 - length base))%nat at 1 by lia.
    exact (trim_blanks_app [] base (8 - length base) _ 0 eq_refl Hlb). }
  assert (trim_blanks 3 s 8 = length ext) as ->.
  { replace 3%nat with (length ext + (3 - length ext))%nat at 1 by lia.
    unfold s. rewrite app_assoc. rewrite <- (app_nil_r (replicate (3 - length ext) 32)).
    apply trim_blanks_app; [rewrite length_app, length_replicate; lia | done]. }
  destruct (Nat.eqb_spec (length ext) 0); [lia |].
  assert (take (length base) s = base) as -> by (unfold s; by rewrite take_app_length).
  assert (take (length ext) (drop 8 s) = ext) as ->.
  { unfold s. rewrite app_assoc, drop_app_ge by (rewrite length_app, length_replicate; lia).
    rewrite length_app, length_replicate. replace (8 - _)%nat with 0%nat by lia. by rewrite drop_0, take_app_length. }
  set (k := (11 - length base - length ext)%nat).
  replace 12%nat with (length base + (1 + (length ext + k)))%nat by (unfold k; lia).
  rewrite !replicate_add. cbn [replicate].
  rewrite put_app_0 by (rewrite ?length_replicate; done). cbn [mbind outcome_bind app].
  rewrite (put_app base [0] (replicate (length ext) 0 ++ replicate k 0) [46] _ eq_refl eq_refl
           : put (base ++ 0 :: replicate (length ext) 0 ++ replicate k 0) _ [46] = _).
  cbn [mbind outcome_bind]. rewrite app_assoc.
  rewrite put_app by (rewrite ?length_app, ?length_replicate; cbn; lia).
  by rewrite <- app_assoc.
Qed.

(** Fact: a name of at most 8 characters with an extension of one to three is
    stored and read back in upper case; the buffer it is read into has room for
    12 bytes, so exactly the names of 8 and 3 characters come back without a
    terminator. *)
Theorem short_name_roundtrip base ext :
  short_ok base ext ->
  let name := base ++ 46 :: ext in
  exists s r, CreateShortFilename name = Some s /\ length s = 11%nat /\ ParseShortFilename s = Ret r /\
    r = (Uppercase <$> name) ++ replicate (12 - length name) 0 /\
    (terminated r = false <-> length base = 8%nat /\ length ext = 3%nat).
Proof.
  intros Hok name. pose proof Hok as [Hb He Hd Hc Hlb Hle]. apply Forall_app in Hc as [Hcb Hce].
  eexists _, _. split; [by apply CreateShortFilename_run |].
  split; [rewrite !length_app, !length_fmap, !length_replicate; lia |].
  rewrite <- (length_fmap Uppercase base), <- (length_fmap Uppercase ext).
  split; [apply ParseShortFilename_run; rewrite ?length_fmap; auto using last_Uppercase |].
  rewrite !length_fmap. unfold name. rewrite fmap_app, length_app. cbn [fmap list_fmap length].
  change (Uppercase 46) with 46. rewrite <- app_assoc. cbn [app].
  replace (12 - (length base + S (length ext)))%nat with (11 - length base - length ext)%nat by lia.
  split; [done |]. unfold terminated. rewrite existsb_app. cbn [existsb]. rewrite existsb_app.
  assert (forall l, Forall (fun b => 0 < b < 128) l -> existsb (Z.eqb 0) (Uppercase <$> l) = false) as Hno.
  { clear. induction 1 as [|b l Hb _ IH]; [done |].
    cbn [fmap list_fmap existsb]. rewrite IH, orb_false_r.
    apply Z.eqb_neq. pose proof (proj2 (Uppercase_blank b Hb)). done. }
  rewrite !Hno by done. cbn [orb Z.eqb].
  destruct (11 - length base - length ext)%nat eqn:Hk; cbn; split; try done; lia.
Qed.

Lemma short_name_roundtrip_witness :
  exists s r, CreateShortFilename (lit "readme.txt") = Some s /\ ParseShortFilename s = Ret r /\
    r = lit "README.TXT" ++ [0; 0].
Proof.
  destruct (short_name_roundtrip (lit "readme") (lit "txt")) as (s & r & Hs & _ & Hp & Hr & _).
  - split; cbn; try lia.
    + intros Hin. repeat (apply elem_of_cons in Hin as [Hin | Hin]; [discriminate |]). by apply elem_of_nil in Hin.
    + repeat constructor; lia.
  - exists s, r. split; [exact Hs | split; [exact Hp | exact Hr]].
Defined.
