(* ===== verification/FatDir.v ===== *)
(** Directories and files of the FAT file system (kernel/vfs/FAT.cpp): directory
    entries and their layout, listing and searching a directory, resolving a
    path, reading and writing files, creating and modifying entries.

    A loop over a cluster chain takes fuel: a chain on the disk can be cyclic,
    and then the code does not return.  The caller's buffers are lists; copying
    outside them is a [Fault], and so is following a null pointer. *)
From Stdlib Require Import ZArith Lia.
From S2P Require Import Prelude CMemory CrtString DiskIO FatTable FatNames.

(** ** Entries on disk *)

Definition ATTR_VOLUME_ID : Z := 0x08.
Definition ATTR_DIRECTORY : Z := 0x10.
Definition ENTRY_END : Z := 0x00.
Definition ENTRY_UNUSED : Z := 0xE5.
Definition PATH_SEPERATOR_C : Z := 92.
Definition sizeof_DirectoryEntry : Z := 32.

Record DirectoryEntry := {
  FileName : list Z;
  Attributes : Z;
  Reserved : Z;
  CreationTimeTenth : Z;
  CreationTime : Z;
  CreationDate : Z;
  AccessDate : Z;
  HighFirstCluster : Z;
  ModifyTime : Z;
  ModifyDate : Z;
  LowFirstCluster : Z;
  FileSize : Z
}.

Definition field (b : list Z) (off n : nat) : Z := le_of (take n (drop off b)).

(** The entry in 32 bytes, and its bytes. *)
Definition entry_of (b : list Z) : DirectoryEntry :=
  {| FileName := take 11 b; Attributes := field b 11 1; Reserved := field b 12 1;
     CreationTimeTenth := field b 13 1; CreationTime := field b 14 2; CreationDate := field b 16 2;
     AccessDate := field b 18 2; HighFirstCluster := field b 20 2; ModifyTime := field b 22 2;
     ModifyDate := field b 24 2; LowFirstCluster := field b 26 2; FileSize := field b 28 4 |}.
Definition entry_bytes_of (e : DirectoryEntry) : list Z :=
  e.(FileName) ++ le_to 1 e.(Attributes) ++ le_to 1 e.(Reserved) ++ le_to 1 e.(CreationTimeTenth) ++
  le_to 2 e.(CreationTime) ++ le_to 2 e.(CreationDate) ++ le_to 2 e.(AccessDate) ++
  le_to 2 e.(HighFirstCluster) ++ le_to 2 e.(ModifyTime) ++ le_to 2 e.(ModifyDate) ++
  le_to 2 e.(LowFirstCluster) ++ le_to 4 e.(FileSize).

Definition lfn_of (b : list Z) : LFNEntry :=
  {| entryIndex := field b 0 1; namePart1 := take 10 (drop 1 b); l_Attributes := field b 11 1;
     l_checksum := field b 13 1; namePart2 := take 12 (drop 14 b); namePart3 := take 4 (drop 28 b) |}.
Definition lfn_bytes (e : LFNEntry) : list Z :=
  le_to 1 e.(entryIndex) ++ e.(namePart1) ++ le_to 1 e.(l_Attributes) ++ [0] ++ le_to 1 e.(l_checksum) ++
  e.(namePart2) ++ [0; 0] ++ e.(namePart3).

Definition GET_CLUSTER (e : DirectoryEntry) : Z :=
  u32 (Z.lor e.(LowFirstCluster) (Z.shiftl e.(HighFirstCluster) 16)).

Definition is_directory (e : DirectoryEntry) : bool := truthy (Z.land e.(Attributes) ATTR_DIRECTORY).

Record FATEntryInfo := {
  entry : DirectoryEntry;
  filename : list Z;
  sector : Z;
  offsetInSector : Z
}.

(** [n] bytes of a buffer from [off] on. *)
Definition slice (l : list Z) (off : Z) (n : nat) : outcome (list Z) :=
  if (0 <=? off) && (off + Z.of_nat n <=? Z.of_nat (length l))
  then Ret (take n (drop (Z.to_nat off) l)) else Fault.

(** What scanning a directory has come to: a return from the function, or the
    long-name entries held and the results. *)
Inductive progress :=
| Stop (results : list FATEntryInfo)
| Go (lfn : list LFNEntry) (results : list FATEntryInfo).

(** The body of the loop over entries: the 32 bytes [b] at [offset] of [sector]. *)
Definition scan_entry (b : list Z) (sec offset : Z) (lfn : list LFNEntry) (results : list FATEntryInfo)
  : outcome progress :=
  let e := entry_of b in
  let c := field b 0 1 in
  if c =? ENTRY_END then Ret (Stop results)
  else if (c =? ENTRY_UNUSED) || (c =? 0x2E) || (c =? 0x05) then Ret (Go lfn results)
  else if e.(Attributes) =? ATTR_VOLUME_ID then Ret (Go lfn results)
  else if e.(Attributes) =? ATTR_LONG_NAME then Ret (Go (lfn ++ [lfn_of b]) results)
  else
    name ← (match lfn with
            | [] => ParseShortFilename e.(FileName)
            | _ => ParseLFNEntries lfn e.(FileName)
            end);
    Ret (Go [] (results ++ [{| entry := e; filename := name; sector := sec; offsetInSector := offset |}])).

(** The loop over the entries of the sector in the buffer; [entryIndex] is a
    [uint8_t], so 256 turns are a whole round. *)
Fixpoint scan_entries (fuel : nat) (buf : list Z) (bps sec entryIndex : Z) (lfn : list LFNEntry)
    (results : list FATEntryInfo) : outcome progress :=
  match fuel with
  | O => Diverged
  | S fuel =>
      if entryIndex <? bps / sizeof_DirectoryEntry then
        let off := entryIndex * sizeof_DirectoryEntry in
        b ← slice buf off 32;
        r ← scan_entry b sec off lfn results;
        match r with
        | Stop results => Ret (Stop results)
        | Go lfn results => scan_entries fuel buf bps sec (u8 (entryIndex + 1)) lfn results
        end
      else Ret (Go lfn results)
  end.

Section dir.
Context {D : Type} `{DiskDriver D}.

(** The sector a turn of the directory loops starts at: the root directory of a
    FAT12/16 volume lies in front of the data region. *)
Definition dir_sector (f : FAT D) (rootDirectory : bool) (sec cluster : Z) : Z :=
  if rootDirectory && negb (bool_decide (f.(geo).(FatType) = FAT32)) && (sec =? 0)
  then u32 (f.(geo).(firstDataSector) - f.(geo).(rootDirSectors))
  else if bool_decide (f.(geo).(FatType) = FAT32) || negb rootDirectory then ClusterToSector f cluster
  else sec.

(** Whether a cluster number is inside a chain. *)
Definition in_chain (f : FAT D) (cluster : Z) : bool :=
  negb (cluster =? CLUSTER_FREE f.(geo).(FatType)) && (cluster <? CLUSTER_END f.(geo).(FatType)).

(** The loop over the sectors of a cluster: [n] sectors left, at the [i]-th. *)
Fixpoint scan_sectors (n : nat) (f : FAT D) (sec i : Z) (lfn : list LFNEntry) (results : list FATEntryInfo)
  : outcome (FAT D * progress) :=
  match n with
  | O => Ret (f, Go lfn results)
  | S n =>
      r ← read_buffer f (u64 (f.(StartLBA) + sec + i));
      if (r.2 : bool) then
        p ← scan_entries 257 r.1.(readBuffer) f.(geo).(bytesPerSector) (u32 (sec + i)) 0 lfn results;
        match p with
        | Stop results => Ret (r.1, Stop results)
        | Go lfn results => scan_sectors n r.1 sec (i + 1) lfn results
        end
      else Ret (r.1, Stop results)
  end.

Fixpoint GetDirectoryEntries_loop (fuel : nat) (f : FAT D) (rootDirectory : bool) (sec cluster : Z)
    (lfn : list LFNEntry) (results : list FATEntryInfo) : outcome (FAT D * list FATEntryInfo) :=
  if in_chain f cluster then
    match fuel with
    | O => Diverged
    | S fuel =>
        let sec := dir_sector f rootDirectory sec cluster in
        r ← scan_sectors (Z.to_nat f.(geo).(sectorsPerCluster)) f sec 0 lfn results;
        match r.2 with
        | Stop results => Ret (r.1, results)
        | Go lfn results =>
            if rootDirectory && negb (bool_decide (f.(geo).(FatType) = FAT32))
            then GetDirectoryEntries_loop fuel r.1 rootDirectory (u32 (sec + 1)) cluster lfn results
            else t ← ReadTable r.1 cluster;
                 GetDirectoryEntries_loop fuel t.1 rootDirectory sec t.2 lfn results
        end
    end
  else Ret (f, results).

Definition GetDirectoryEntries (fuel : nat) (f : FAT D) (dirCluster : Z) (rootDirectory : bool) :=
  GetDirectoryEntries_loop fuel f rootDirectory 0 dirCluster [] [].

(** ** Searching *)

(** The first entry of the name; every entry is compared. *)
Fixpoint search_list (name : list Z) (childs : list FATEntryInfo) (ret : option FATEntryInfo)
  : outcome (option FATEntryInfo) :=
  match childs with
  | [] => Ret ret
  | item :: childs =>
      m ← same_name name item.(filename);
      search_list name childs (match ret with None => if (m : bool) then Some item else None | _ => ret end)
  end.

Definition SeachInDirectory (fuel : nat) (f : FAT D) (name : list Z) (dirCluster : Z) (rootDirectory : bool)
  : outcome (FAT D * option FATEntryInfo) :=
  r ← GetDirectoryEntries fuel f dirCluster rootDirectory;
  ret ← search_list name r.2 None;
  Ret (r.1, ret).

Fixpoint GetEntryByPath_loop (fuel : nat) (f : FAT D) (parts : list (list Z)) (searchCluster : Z) (first : bool)
  : outcome (FAT D * option FATEntryInfo) :=
  match parts with
  | [] => Ret (f, None)
  | p :: parts =>
      r ← SeachInDirectory fuel f p searchCluster first;
      match r.2 with
      | None => Ret (r.1, None)
      | Some e =>
          match parts with
          | [] => Ret (r.1, Some e)
          | _ => if is_directory e.(entry)
                 then GetEntryByPath_loop fuel r.1 parts (GET_CLUSTER e.(entry)) false
                 else Ret (r.1, None)
          end
      end
  end.

Definition GetEntryByPath (fuel : nat) (f : FAT D) (path : list Z) : outcome (FAT D * option FATEntryInfo) :=
  match StrSplit path PATH_SEPERATOR_C with
  | [] => SeachInDirectory fuel f path f.(geo).(rootDirCluster) true
  | parts => GetEntryByPath_loop fuel f parts f.(geo).(rootDirCluster) true
  end.

Definition FileExists (fuel : nat) (f : FAT D) (path : list Z) : outcome (FAT D * bool) :=
  r ← GetEntryByPath fuel f path;
  Ret (r.1, match r.2 with None => false | Some e => negb (is_directory e.(entry)) end).

Definition DirectoryExists (fuel : nat) (f : FAT D) (path : list Z) : outcome (FAT D * bool) :=
  r ← GetEntryByPath fuel f path;
  Ret (r.1, match r.2 with None => false | Some e => is_directory e.(entry) end).

Definition GetFileSize (fuel : nat) (f : FAT D) (path : list Z) : outcome (FAT D * Z) :=
  r ← GetEntryByPath fuel f path;
  Ret (r.1, match r.2 with
            | None => 0
            | Some e => if is_directory e.(entry) then 0xFFFFFFFF else e.(entry).(FileSize)
            end).

(** ** Reading and writing files *)

(** The loop over the sectors of a cluster in [ReadFile]: whether every sector
    could be read, the bytes read, the position in the caller's buffer and the
    buffer. *)
Fixpoint read_sectors (n : nat) (f : FAT D) (sec i len bytesRead pos : Z) (buffer : list Z)
  : outcome (FAT D * bool * (Z * Z * list Z)) :=
  match n with
  | O => Ret (f, true, (bytesRead, pos, buffer))
  | S n =>
      let bps := f.(geo).(bytesPerSector) in
      r ← read_buffer f (u64 (f.(StartLBA) + sec + i));
      if (r.2 : bool) then
        let remaingBytes := u32 (len - bytesRead) in
        b ← slice r.1.(readBuffer) 0 (Z.to_nat (if remaingBytes <=? bps then remaingBytes else bps));
        buffer ← put buffer pos b;
        read_sectors n r.1 sec (i + 1) len (u32 (bytesRead + bps)) (pos + bps) buffer
      else Ret (r.1, false, (bytesRead, pos, buffer))
  end.

Fixpoint ReadFile_loop (fuel : nat) (f : FAT D) (cluster len bytesRead pos : Z) (buffer : list Z)
  : outcome (FAT D * list Z * Z) :=
  if in_chain f cluster then
    match fuel with
    | O => Diverged
    | S fuel =>
        '(f, ok, (bytesRead, pos, buffer)) ←
          read_sectors (Z.to_nat f.(geo).(sectorsPerCluster)) f (ClusterToSector f cluster) 0 len bytesRead pos buffer;
        if (ok : bool) then
          t ← ReadTable f cluster;
          ReadFile_loop fuel t.1 t.2 len bytesRead pos buffer
        else Ret (f, buffer, -1)
    end
  else Ret (f, buffer, 0).

(** The buffer after the call and the return value; [offset] is not used. *)
Definition ReadFile (fuel : nat) (f : FAT D) (path buffer : list Z) (offset len : Z) : outcome (FAT D * list Z * Z) :=
  r ← (if s32 len =? -1 then GetFileSize fuel f path else Ret (f, len));
  let len := r.2 in
  r ← GetEntryByPath fuel r.1 path;
  match r.2 with
  | None => Ret (r.1, buffer, -1)
  | Some e => if is_directory e.(entry) then Ret (r.1, buffer, -1)
              else ReadFile_loop fuel r.1 (GET_CLUSTER e.(entry)) len 0 0 buffer
  end.
End dir.
