(* ===== verification/FatWrite.v ===== *)
(** Changing a FAT volume (kernel/vfs/FAT.cpp): finding room for directory
    entries, writing long-name and short entries, creating files and
    directories, modifying an entry, writing a file and listing a directory for
    the virtual file system.

    The clock is hardware: the dates the code reads are arguments. *)
From Stdlib Require Import ZArith Lia.
From S2P Require Import Prelude CMemory CrtString DiskIO FatTable FatNames FatDir.

Section write.
Context {D : Type} `{DiskDriver D}.

(** Copying [bs] into the read buffer at [off]. *)
Definition fill_buffer (f : FAT D) (off : Z) (bs : list Z) : outcome (FAT D) :=
  b ← put f.(readBuffer) off bs; Ret (with_buffer f b).

(** ** Room for entries *)

(** What the search for [entryCount] free entries in a row carries: the number
    found and the cluster, sector of the cluster and offset of the first. *)
Record startpoint := { freeCount : Z; targetCluster : Z; targetSector : Z; sectorOffset : Z }.

(** The loop over the entries of the sector in the buffer. *)
Fixpoint find_entries (fuel : nat) (buf : list Z) (bps entryCount cluster i entryIndex : Z) (p : startpoint)
  : outcome (startpoint * bool) :=
  match fuel with
  | O => Diverged
  | S fuel =>
      if entryIndex <? bps / sizeof_DirectoryEntry then
        let off := entryIndex * sizeof_DirectoryEntry in
        c ← get 1 buf off;
        if (c =? ENTRY_END) || (c =? ENTRY_UNUSED) then
          let p := if p.(freeCount) =? 0
                   then {| freeCount := 0; targetCluster := cluster; targetSector := i; sectorOffset := off |} else p in
          let n := u32 (p.(freeCount) + 1) in
          let p := {| freeCount := n; targetCluster := p.(targetCluster); targetSector := p.(targetSector);
                      sectorOffset := p.(sectorOffset) |} in
          if n =? entryCount then Ret (p, true)
          else find_entries fuel buf bps entryCount cluster i (u8 (entryIndex + 1)) p
        else find_entries fuel buf bps entryCount cluster i (u8 (entryIndex + 1))
               {| freeCount := 0; targetCluster := 0; targetSector := 0; sectorOffset := 0 |}
      else Ret (p, false)
  end.

(** The loop over the sectors of a cluster: [None] is a return of false. *)
Fixpoint find_sectors (n : nat) (f : FAT D) (entryCount cluster sec i : Z) (p : startpoint)
  : outcome (FAT D * option (startpoint * bool)) :=
  match n with
  | O => Ret (f, Some (p, false))
  | S n =>
      r ← read_buffer f (u64 (f.(StartLBA) + sec + i));
      if (r.2 : bool) then
        q ← find_entries 257 r.1.(readBuffer) f.(geo).(bytesPerSector) entryCount cluster i 0 p;
        if (q.2 : bool) then Ret (r.1, Some q)
        else find_sectors n r.1 entryCount cluster sec (i + 1) q.1
      else Ret (r.1, None)
  end.

(** A new cluster behind [cluster], cleared and linked. *)
Definition extend_chain (f : FAT D) (cluster : Z) : outcome (FAT D * Z) :=
  a ← AllocateCluster f;
  f ← WriteTable (ClearCluster a.1 a.2) cluster a.2;
  Ret (f, a.2).

Fixpoint FindEntryStartpoint_loop (fuel : nat) (f : FAT D) (cluster entryCount : Z) (rootDirectory : bool)
    (sec : Z) (p : startpoint) : outcome (FAT D * option startpoint) :=
  if in_chain f cluster then
    match fuel with
    | O => Diverged
    | S fuel =>
        let sec := dir_sector f rootDirectory sec cluster in
        r ← find_sectors (Z.to_nat f.(geo).(sectorsPerCluster)) f entryCount cluster sec 0 p;
        let f := r.1 in
        match r.2 with
        | None => Ret (f, None)
        | Some (p, true) => Ret (f, Some p)
        | Some (p, false) =>
            if rootDirectory && negb (bool_decide (f.(geo).(FatType) = FAT32)) then
              let sec := u32 (sec + 1) in
              let rootDirLastSector :=
                u32 (u32 (f.(geo).(firstDataSector) - f.(geo).(rootDirSectors)) +
                     224 * sizeof_DirectoryEntry / f.(geo).(bytesPerSector)) in
              if rootDirLastSector <=? sec then Ret (f, None)
              else FindEntryStartpoint_loop fuel f cluster entryCount rootDirectory sec p
            else
              t ← ReadTable f cluster;
              if CLUSTER_END f.(geo).(FatType) <=? t.2 then
                a ← extend_chain t.1 cluster;
                FindEntryStartpoint_loop fuel a.1 a.2 entryCount rootDirectory sec p
              else FindEntryStartpoint_loop fuel t.1 t.2 entryCount rootDirectory sec p
        end
    end
  else Ret (f, None).

Definition FindEntryStartpoint (fuel : nat) (f : FAT D) (cluster entryCount : Z) (rootDirectory : bool) :=
  FindEntryStartpoint_loop fuel f cluster entryCount rootDirectory 0
    {| freeCount := 0; targetCluster := 0; targetSector := 0; sectorOffset := 0 |}.

(** ** Writing entries *)

(** The loop of [WriteLongFilenameEntries] over the entries, at the [i]-th. *)
Fixpoint WriteLFN_loop (f : FAT D) (entries : list LFNEntry) (i cluster target off sec : Z) (rootDirectory : bool)
  : outcome (FAT D * bool) :=
  match entries with
  | [] => Ret (f, true)
  | e :: entries =>
      let bps := f.(geo).(bytesPerSector) in
      let entryOffset := u32 (off + i * sizeof_DirectoryEntry) in
      let sec := dir_sector f rootDirectory sec cluster in
      let lba := u64 (u64 (f.(StartLBA) + sec) + target) in
      r ← read_buffer f lba;
      if negb r.2 then Ret (r.1, false) else
      f ← fill_buffer r.1 entryOffset (lfn_bytes e);
      let w := write_buffer f lba in
      if negb w.2 then Ret (w.1, false) else
      let f := w.1 in
      if bps <=? entryOffset + sizeof_DirectoryEntry then
        if rootDirectory && negb (bool_decide (f.(geo).(FatType) = FAT32))
        then WriteLFN_loop f entries (i + 1) cluster target 0 (u32 (sec + 1)) rootDirectory
        else if f.(geo).(sectorsPerCluster) <? u32 (sec + 1) then
          t ← ReadTable f cluster;
          WriteLFN_loop t.1 entries (i + 1) t.2 target off sec rootDirectory
        else WriteLFN_loop f entries (i + 1) cluster target off (u32 (sec + 1)) rootDirectory
      else WriteLFN_loop f entries (i + 1) cluster target off sec rootDirectory
  end.

Definition WriteLongFilenameEntries (f : FAT D) (entries : list LFNEntry) (cluster target off : Z)
    (rootDirectory : bool) : outcome (FAT D * bool) :=
  WriteLFN_loop f entries 0 cluster target off 0 rootDirectory.

Definition WriteDirectoryEntry (f : FAT D) (e : DirectoryEntry) (target off : Z) : outcome (FAT D * bool) :=
  let lba := u64 (f.(StartLBA) + target) in
  r ← read_buffer f lba;
  if negb r.2 then Ret (r.1, false) else
  f ← fill_buffer r.1 off (entry_bytes_of e);
  Ret (write_buffer f lba).

(** Where the short entry goes, after [n] long-name entries at [p]: the sector of
    the volume and the offset in it. *)
Definition entry_place (f : FAT D) (p : startpoint) (n : nat) (rootDirectory : bool) : outcome (FAT D * Z * Z) :=
  let bps := f.(geo).(bytesPerSector) in
  let off := u32 (p.(sectorOffset) + Z.of_nat n * sizeof_DirectoryEntry) in
  if rootDirectory && negb (bool_decide (f.(geo).(FatType) = FAT32)) then
    let sec := u32 (f.(geo).(firstDataSector) - f.(geo).(rootDirSectors)) in
    if bps <=? off then Ret (f, u32 (sec + 1), off mod bps) else Ret (f, sec, off)
  else if bps <=? off then
    let sec := u32 (p.(targetSector) + 1) in
    if f.(geo).(sectorsPerCluster) <=? sec then
      t ← ReadTable f p.(targetCluster);
      if CLUSTER_END f.(geo).(FatType) <=? t.2 then
        a ← extend_chain t.1 t.2;
        Ret (a.1, ClusterToSector a.1 a.2, off mod bps)
      else Ret (t.1, ClusterToSector t.1 t.2, off mod bps)
    else Ret (f, u32 (ClusterToSector f p.(targetCluster) + sec), off mod bps)
  else Ret (f, u32 (ClusterToSector f p.(targetCluster) + p.(targetSector)), off).

(** The short entry [CreateEntry] writes, dated [d] and [t]. *)
Definition new_entry (shortName : list Z) (attr cluster : Z) (d t : Time) : DirectoryEntry :=
  {| FileName := shortName; Attributes := attr; Reserved := 0; CreationTimeTenth := 100;
     CreationTime := FatTime t; CreationDate := FatDate d; AccessDate := FatDate d;
     HighFirstCluster := Z.land (Z.shiftr cluster 16) 0xFFFF; ModifyTime := FatTime t; ModifyDate := FatDate d;
     LowFirstCluster := Z.land cluster 0xFFFF; FileSize := 0 |}.

(** The offset of the new entry in the read buffer, or [None] for the null
    pointer. *)
Definition CreateEntry (fuel : nat) (f : FAT D) (parentCluster : Z) (name : list Z) (attr : Z)
    (rootDirectory : bool) (cluster : Z) (d t : Time) : outcome (FAT D * option Z) :=
  let nameLength := u8 (Z.of_nat (length name)) in
  if nameLength =? 0 then Ret (f, None) else
  let required := nameLength / 13 + (if 0 <? nameLength mod 13 then 1 else 0) in
  s ← FindEntryStartpoint fuel f parentCluster (required + 1) rootDirectory;
  match s.2 with
  | None => Ret (s.1, None)
  | Some p =>
      match CreateShortFilename name with
      | None => Fault
      | Some shortName =>
          ck ← Checksum shortName;
          let lfn := CreateLFNEntriesFromName name (Z.to_nat required) ck in
          w ← WriteLongFilenameEntries s.1 lfn p.(targetCluster) p.(targetSector) p.(sectorOffset) rootDirectory;
          if negb w.2 then Ret (w.1, None) else
          '(f, sec, off) ← entry_place w.1 p (length lfn) rootDirectory;
          w ← WriteDirectoryEntry f (new_entry shortName attr cluster d t) sec off;
          Ret (w.1, if (w.2 : bool) then Some off else None)
      end
  end.

(** ** Creating files and directories *)

(** The . and .. entries of a new directory, dated like its entry [e]. *)
Definition dot_entry (name : list Z) (e : DirectoryEntry) (cluster : Z) : DirectoryEntry :=
  {| FileName := name; Attributes := ATTR_DIRECTORY; Reserved := 0; CreationTimeTenth := e.(CreationTimeTenth);
     CreationTime := e.(CreationTime); CreationDate := e.(CreationDate); AccessDate := e.(AccessDate);
     HighFirstCluster := Z.land (Z.shiftr cluster 16) 0xFFFF; ModifyTime := e.(ModifyTime);
     ModifyDate := e.(ModifyDate); LowFirstCluster := Z.land cluster 0xFFFF; FileSize := 0 |}.
Definition dot_name : list Z := 46 :: replicate 10 32.
Definition dotdot_name : list Z := 46 :: 46 :: replicate 9 32.

(** What follows a created entry, found at [off] of the buffer: the return value. *)
Definition init_created (f : FAT D) (off attributes entryRootCluster : Z) : outcome (FAT D * Z) :=
  b ← slice f.(readBuffer) off 32;
  let createdEntry := entry_of b in
  let directoryCluster := GET_CLUSTER createdEntry in
  let f := ClearCluster f directoryCluster in
  if truthy (Z.land attributes ATTR_DIRECTORY) then
    let lba := u64 (f.(StartLBA) + ClusterToSector f directoryCluster) in
    r ← read_buffer f lba;
    if negb r.2 then Ret (r.1, -1) else
    f ← fill_buffer r.1 0 (entry_bytes_of (dot_entry dot_name createdEntry directoryCluster));
    f ← fill_buffer f sizeof_DirectoryEntry (entry_bytes_of (dot_entry dotdot_name createdEntry entryRootCluster));
    let w := write_buffer f lba in
    Ret (w.1, if (w.2 : bool) then 0 else -1)
  else Ret (f, 0).

Definition CreateNewDirFileEntry (fuel : nat) (f : FAT D) (path : list Z) (attributes : Z) (d t : Time)
  : outcome (FAT D * Z) :=
  let pathParts := StrSplit path PATH_SEPERATOR_C in
  '(f, ret, root) ←
    (match pathParts with
     | [] =>
         a ← AllocateCluster f;
         c ← CreateEntry fuel a.1 f.(geo).(rootDirCluster) path attributes true a.2 d t;
         Ret (c.1, c.2, 0)
     | _ =>
         let i := IndexOf path PATH_SEPERATOR_C (u32 (u64 (Z.of_nat (length pathParts) - 2))) in
         if i <? 0 then Fault else
         let name := drop (Z.to_nat i + 1) path in
         e ← GetEntryByPath fuel f (take (Z.to_nat i) path);
         match e.2 with
         | None => Ret (e.1, None, 0)
         | Some parentEntry =>
             let parent := GET_CLUSTER parentEntry.(entry) in
             a ← AllocateCluster e.1;
             c ← CreateEntry fuel a.1 parent name attributes false a.2 d t;
             Ret (c.1, c.2, parent)
         end
     end);
  match ret with
  | Some off => init_created f off attributes root
  | None => Ret (f, -1)
  end.

Definition CreateFile (fuel : nat) (f : FAT D) (path : list Z) (d t : Time) : outcome (FAT D * Z) :=
  CreateNewDirFileEntry fuel f path 0 d t.
Definition CreateDirectory (fuel : nat) (f : FAT D) (path : list Z) (d t : Time) : outcome (FAT D * Z) :=
  CreateNewDirFileEntry fuel f path ATTR_DIRECTORY d t.

(** ** Modifying an entry and writing a file *)

Definition ModifyEntry (f : FAT D) (e : FATEntryInfo) (newVersion : DirectoryEntry) : outcome (FAT D * bool) :=
  let lba := u64 (f.(StartLBA) + e.(sector)) in
  r ← read_buffer f lba;
  if negb r.2 then Ret (r.1, false) else
  b ← slice r.1.(readBuffer) e.(offsetInSector) 32;
  if bool_decide (entry_bytes_of e.(entry) = b) then
    f ← fill_buffer r.1 e.(offsetInSector) (entry_bytes_of newVersion);
    Ret (write_buffer f lba)
  else Ret (r.1, false).

(** disk->WriteSector(lba, buf) for a block of the caller's. *)
Definition write_block (f : FAT D) (lba : Z) (buf : list Z) : FAT D * bool :=
  match WriteSector f.(disk) lba buf with
  | None => (f, false)
  | Some d => (with_disk f d, true)
  end.

(** The loop over the sectors of the [i]-th cluster written. *)
Fixpoint write_sectors (n : nat) (f : FAT D) (buffer : list Z) (len i s sec bytesWritten : Z)
  : outcome (FAT D * bool * Z) :=
  match n with
  | O => Ret (f, true, bytesWritten)
  | S n =>
      let bps := f.(geo).(bytesPerSector) in
      let bytesLeft := u32 (len - bytesWritten) in
      let pos := u32 (i * f.(geo).(clusterSize)) + u32 (s * bps) in
      let lba := u64 (f.(StartLBA) + sec + s) in
      w ← (if bytesLeft <? bps then
             b ← slice buffer pos (Z.to_nat bytesLeft);
             f ← fill_buffer (with_buffer f (replicate (Z.to_nat bps) 0)) 0 b;
             Ret (write_buffer f lba)
           else
             b ← slice buffer pos (Z.to_nat bps);
             Ret (write_block f lba b));
      if (w.2 : bool) then write_sectors n w.1 buffer len i (s + 1) sec (u32 (bytesWritten + bps))
      else Ret (w.1, false, bytesWritten)
  end.

(** The loop over the clusters: [k] left, at the [i]-th. *)
Fixpoint write_clusters (k : nat) (f : FAT D) (buffer : list Z) (len i cluster bytesWritten : Z)
  : outcome (FAT D * bool) :=
  match k with
  | O => Ret (f, true)
  | S k =>
      '(f, ok, bytesWritten) ←
        write_sectors (Z.to_nat f.(geo).(sectorsPerCluster)) f buffer len i 0 (ClusterToSector f cluster) bytesWritten;
      if (ok : bool) then
        a ← AllocateCluster f;
        f ← WriteTable a.1 cluster a.2;
        write_clusters k f buffer len (i + 1) a.2 bytesWritten
      else Ret (f, false)
  end.

Definition reqClusters (g : Geometry) (len : Z) : Z :=
  len / g.(clusterSize) + (if len mod g.(clusterSize) =? 0 then 0 else 1).

(** The entry after the write: its size and its dates. *)
Definition written_entry (e : DirectoryEntry) (len : Z) (d t : Time) : DirectoryEntry :=
  {| FileName := e.(FileName); Attributes := e.(Attributes); Reserved := e.(Reserved);
     CreationTimeTenth := e.(CreationTimeTenth); CreationTime := e.(CreationTime); CreationDate := e.(CreationDate);
     AccessDate := e.(AccessDate); HighFirstCluster := e.(HighFirstCluster); ModifyTime := FatTime t;
     ModifyDate := FatDate d; LowFirstCluster := e.(LowFirstCluster); FileSize := len |}.

Definition WriteFile (fuel : nat) (f : FAT D) (path buffer : list Z) (len : Z) (create : bool) (d t : Time)
  : outcome (FAT D * Z) :=
  x ← FileExists fuel f path;
  c ← (if negb x.2 && create then CreateFile fuel x.1 path d t else Ret (x.1, 0));
  if negb (c.2 =? 0) then Ret (c.1, -1) else
  r ← GetEntryByPath fuel c.1 path;
  match r.2 with
  | None => Ret (r.1, -1)
  | Some e =>
      w ← write_clusters (Z.to_nat (reqClusters f.(geo) len)) r.1 buffer len 0 (GET_CLUSTER e.(entry)) 0;
      if negb w.2 then Ret (w.1, -1) else
      m ← ModifyEntry w.1 e (written_entry e.(entry) len d t);
      Ret (m.1, if (m.2 : bool) then 0 else -1)
  end.

(** ** Listing for the virtual file system *)

Record VFSEntry := { v_size : Z; isDir : bool; v_creation : Time; v_name : list Z }.

(** The copy of the name: 255 bytes, zeroed, and [strcpy] without terminator. *)
Definition vfs_entry (item : FATEntryInfo) : outcome VFSEntry :=
  s ← c_str item.(filename);
  name ← put (replicate 255 0) 0 s;
  Ret {| v_size := item.(entry).(FileSize); isDir := is_directory item.(entry);
         v_creation := creation item.(entry).(CreationDate) item.(entry).(CreationTime); v_name := name |}.

Fixpoint vfs_entries (childs : list FATEntryInfo) : outcome (list VFSEntry) :=
  match childs with
  | [] => Ret []
  | item :: childs => e ← vfs_entry item; es ← vfs_entries childs; Ret (e :: es)
  end.

(** A path that does not exist is a null pointer that is followed. *)
Definition DirectoryList (fuel : nat) (f : FAT D) (path : list Z) : outcome (FAT D * list VFSEntry) :=
  p ← (match path with
       | [] => Ret (f, f.(geo).(rootDirCluster))
       | _ => r ← GetEntryByPath fuel f path;
              match r.2 with
              | None => Fault
              | Some parent => Ret (r.1, GET_CLUSTER parent.(entry))
              end
       end);
  r ← GetDirectoryEntries fuel p.1 p.2 (match path with [] => true | _ => false end);
  es ← vfs_entries r.2;
  Ret (r.1, es).
End write.
