(* ===== verification/FatListing.v ===== *)
(** Correctness of the directory code of FatDir: the layout of an entry, the sectors and
    the slots of a directory, what is to be listed of them, the
    nested loops of [GetDirectoryEntries] as one pass over the slots, listing and searching a
    directory, resolving a path. *)
From Stdlib Require Import ZArith Lia String.
From S2P Require Import Prelude CMemory CrtString DiskIO FatTable FatNames FatDir.

(** ** The layout of an entry *)

Record entry_ok (e : DirectoryEntry) : Prop := {
  eo_name : length e.(FileName) = 11%nat /\ Forall is_byte e.(FileName);
  eo_bytes : is_byte e.(Attributes) /\ is_byte e.(Reserved) /\ is_byte e.(CreationTimeTenth);
  eo_times : 0 <= e.(CreationTime) < 2 ^ 16 /\ 0 <= e.(CreationDate) < 2 ^ 16 /\ 0 <= e.(AccessDate) < 2 ^ 16 /\
             0 <= e.(ModifyTime) < 2 ^ 16 /\ 0 <= e.(ModifyDate) < 2 ^ 16;
  eo_cluster : 0 <= e.(HighFirstCluster) < 2 ^ 16 /\ 0 <= e.(LowFirstCluster) < 2 ^ 16;
  eo_size : 0 <= e.(FileSize) < 2 ^ 32
}.

Lemma entry_bytes_length e : length e.(FileName) = 11%nat -> length (entry_bytes_of e) = 32%nat.
Proof. intros H. unfold entry_bytes_of. rewrite !length_app, !le_to_length, H. done. Qed.

(** Take a list of known length apart. *)
Ltac list_of_length l H :=
  repeat (destruct l as [|? l]; cbn in H; [discriminate H |]); destruct l; [clear H | discriminate H].

Lemma entry_of_bytes e : entry_ok e -> entry_of (entry_bytes_of e) = e.
Proof.
  intros [[Hn _] (Ha & Hr & Ht) (H1 & H2 & H3 & H4 & H5) (H6 & H7) H8]. unfold is_byte in *.
  destruct e as [nm a r ctt ct cd ad hi mt md lo sz]; cbn in *. list_of_length nm Hn.
  unfold entry_of, entry_bytes_of, field. cbn [FileName Attributes Reserved CreationTimeTenth CreationTime CreationDate
    AccessDate HighFirstCluster ModifyTime ModifyDate LowFirstCluster FileSize le_to app take drop].
  f_equal;
    (apply (le_of_to 1); assumption) || (apply (le_of_to 2); assumption) || (apply (le_of_to 4); assumption).
Qed.

Lemma entry_bytes_of_entry b : length b = 32%nat -> Forall is_byte b -> entry_bytes_of (entry_of b) = b.
Proof.
  intros Hl Hb.
  assert (forall off n, (off + n <= 32)%nat -> le_to n (field b off n) = take n (drop off b)) as Hf.
  { intros off n Hn. unfold field. rewrite <- (le_to_of (take n (drop off b))) at 2 by by apply Forall_take, Forall_drop.
    f_equal. rewrite length_take, length_drop. lia. }
  unfold entry_of, entry_bytes_of. cbn [FileName Attributes Reserved CreationTimeTenth CreationTime CreationDate
    AccessDate HighFirstCluster ModifyTime ModifyDate LowFirstCluster FileSize].
  rewrite !Hf by lia. clear Hb Hf. by list_of_length b Hl.
Qed.

(** ** One pass over the slots

    A slot is the 32 bytes at an offset of a sector.  The reference function
    [scan_slots] takes the slots of a directory in order. *)

Definition slot : Type := list Z * Z * Z.

Fixpoint scan_slots (ss : list slot) (lfn : list LFNEntry) (results : list FATEntryInfo) : outcome progress :=
  match ss with
  | [] => Ret (Go lfn results)
  | (b, sec, off) :: ss =>
      r ← scan_entry b sec off lfn results;
      match r with
      | Stop results => Ret (Stop results)
      | Go lfn results => scan_slots ss lfn results
      end
  end.

(** A slot the loop passes over: a deleted or dot entry, or the volume label. *)
Definition skipped (s : slot) : Prop :=
  let c := field s.1.1 0 1 in
  c <> 0 /\ (c = 0xE5 \/ c = 0x2E \/ c = 0x05 \/ field s.1.1 11 1 = 0x08).
#[global] Instance skipped_dec s : Decision (skipped s).
Proof. unfold skipped. apply _. Defined.

(** The bytes of the slots that are not passed over. *)
Definition kept_slots (ss : list slot) : list (list Z) := (fun s : slot => s.1.1) <$> filter (fun s => ~ skipped s) ss.

Lemma scan_entry_skipped b sec off lfn res :
  skipped (b, sec, off) -> scan_entry b sec off lfn res = Ret (Go lfn res).
Proof.
  unfold skipped, scan_entry. cbn [fst snd entry_of Attributes]. intros [H0 Hs].
  unfold ENTRY_END, ENTRY_UNUSED, ATTR_VOLUME_ID. repeat zcase; try done; tauto.
Qed.

Lemma scan_slots_kept ss lfn res : scan_slots ss lfn res = scan_slots (filter (fun s => ~ skipped s) ss) lfn res.
Proof.
  revert lfn res. induction ss as [|[[b sec] off] ss IH]; intros lfn res; [done |].
  rewrite filter_cons. case_decide as Hs; cbn [scan_slots].
  - destruct (scan_entry b sec off lfn res) as [[]| | |]; cbn; auto.
  - rewrite scan_entry_skipped by (by destruct (decide (skipped (b, sec, off)))). apply IH.
Qed.

(** The slots of the bytes of sector [sec], from the [k]-th on. *)
Definition slots_from (buf : list Z) (sec : Z) (k n : nat) : list slot :=
  (fun i => (take 32 (drop (32 * i) buf), sec, 32 * Z.of_nat i)) <$> seq k n.
Definition sector_slots (bps : Z) (buf : list Z) (sec : Z) : list slot :=
  slots_from buf sec 0 (Z.to_nat (bps / 32)).

Lemma scan_slots_app ss1 ss2 lfn results :
  scan_slots (ss1 ++ ss2) lfn results =
    r ← scan_slots ss1 lfn results;
    match r with Stop results => Ret (Stop results) | Go lfn results => scan_slots ss2 lfn results end.
Proof.
  revert lfn results. induction ss1 as [|[[b sec] off] ss1 IH]; intros lfn results; cbn; [done |].
  destruct (scan_entry b sec off lfn results) as [[]| | |]; cbn; auto.
Qed.

Lemma scan_entries_slots fuel buf bps sec k lfn results :
  Z.of_nat (length buf) = bps -> 0 < bps < 8192 -> (k <= Z.to_nat (bps / 32))%nat ->
  (Z.to_nat (bps / 32) - k < fuel)%nat ->
  scan_entries fuel buf bps sec (Z.of_nat k) lfn results =
    scan_slots (slots_from buf sec k (Z.to_nat (bps / 32) - k)) lfn results.
Proof.
  intros Hl Hb. revert k lfn results. induction fuel as [|fuel IH]; intros k lfn results Hk Hf; [lia |].
  assert (0 <= bps / 32 < 256) as Hn by (Z.to_euclidean_division_equations; lia).
  cbn [scan_entries]. unfold sizeof_DirectoryEntry. destruct (Z.ltb_spec (Z.of_nat k) (bps / 32)) as [Hlt | Hge].
  - assert (32 * Z.of_nat k + 32 <= bps) as Hin by (Z.to_euclidean_division_equations; lia).
    replace (Z.to_nat (bps / 32) - k)%nat with (S (Z.to_nat (bps / 32) - S k)) by lia.
    unfold slots_from. cbn [seq fmap list_fmap scan_slots]. fold (slots_from buf sec (S k) (Z.to_nat (bps / 32) - S k)).
    unfold slice. destruct (Z.leb_spec 0 (Z.of_nat k * 32)); [| lia].
    destruct (Z.leb_spec (Z.of_nat k * 32 + Z.of_nat 32) (Z.of_nat (length buf))); [| lia]. cbn [andb mbind outcome_bind].
    replace (Z.to_nat (Z.of_nat k * 32)) with (32 * k)%nat by lia.
    replace (Z.of_nat k * 32) with (32 * Z.of_nat k) by lia.
    destruct (scan_entry _ sec _ lfn results) as [[]| | |]; cbn [mbind outcome_bind]; try done.
    rewrite (wrap_small 8) by lia. replace (Z.of_nat k + 1) with (Z.of_nat (S k)) by lia. apply IH; lia.
  - by replace (Z.to_nat (bps / 32) - k)%nat with 0%nat by lia.
Qed.

Lemma scan_entries_sector buf bps sec lfn results :
  Z.of_nat (length buf) = bps -> 0 < bps < 8192 ->
  scan_entries 257 buf bps sec 0 lfn results = scan_slots (sector_slots bps buf sec) lfn results.
Proof.
  intros Hl Hb. unfold sector_slots. assert (0 <= bps / 32 < 256) by (Z.to_euclidean_division_equations; lia).
  rewrite <- (Nat.sub_0_r (Z.to_nat (bps / 32))). apply (scan_entries_slots 257 buf bps sec 0); lia.
Qed.

Section listing.
Context {D : Type} `{HealthyDrive D}.

(** The bytes of a sector of the volume [f], and that it can be read. *)
Definition sector_data (f : FAT D) (s : Z) : list Z := default [] (ReadSector f.(disk) (u64 (f.(StartLBA) + s))).
Definition readable (f : FAT D) (s : Z) : Prop :=
  0 <= f.(StartLBA) + s < 2 ^ 64 /\ 0 <= s < 2 ^ 32 /\
  exists l, ReadSector f.(disk) (u64 (f.(StartLBA) + s)) = Some l /\ Z.of_nat (length l) = f.(geo).(bytesPerSector).

(** The sectors a turn of a directory loop reads, and their slots. *)
Definition sectors_at (f : FAT D) (base : Z) : list Z :=
  (fun i => base + Z.of_nat i) <$> seq 0 (Z.to_nat f.(geo).(sectorsPerCluster)).
Definition slots_of (f : FAT D) (secs : list Z) : list slot :=
  flat_map (fun s => sector_slots f.(geo).(bytesPerSector) (sector_data f s) s) secs.

(** The volume apart from what the read buffer holds. *)
Definition buffered (f f' : FAT D) : Prop :=
  exists l, f' = with_buffer f l /\ Z.of_nat (length l) = f.(geo).(bytesPerSector).

Lemma buffered_trans f f1 f2 : buffered f f1 -> buffered f1 f2 -> buffered f f2.
Proof. intros (l & -> & Hl) (l' & -> & Hl'). by exists l'. Qed.

Lemma buffered_length f f' : buffered f f' -> Z.of_nat (length f'.(readBuffer)) = f.(geo).(bytesPerSector).
Proof. by intros (l & -> & Hl). Qed.

Lemma readable_buffered f f' s : buffered f f' -> readable f s -> readable f' s.
Proof. by intros (l & -> & _). Qed.

Lemma read_sector_run f s :
  Z.of_nat (length f.(readBuffer)) = f.(geo).(bytesPerSector) -> readable f s ->
  read_buffer f (u64 (f.(StartLBA) + s)) = Ret (with_buffer f (sector_data f s), true) /\
  buffered f (with_buffer f (sector_data f s)) /\ Z.of_nat (length (sector_data f s)) = f.(geo).(bytesPerSector).
Proof.
  intros Hb (_ & _ & l & Hr & Hl). unfold sector_data. rewrite Hr. change (default [] (Some l)) with l.
  split; [apply read_buffer_full; [done | lia] |]. split; [by exists l | done].
Qed.

Lemma scan_sectors_run n f base k lfn results :
  let secs := (fun i => base + Z.of_nat i) <$> seq k n in
  Z.of_nat (length f.(readBuffer)) = f.(geo).(bytesPerSector) -> 0 < f.(geo).(bytesPerSector) < 8192 ->
  Forall (readable f) secs ->
  forall p, scan_slots (slots_of f secs) lfn results = Ret p ->
  exists f', scan_sectors n f base (Z.of_nat k) lfn results = Ret (f', p) /\ buffered f f'.
Proof using D H.
  revert f k lfn results. induction n as [|n IH]; intros f k lfn results secs Hb Hbp Hread p Hp.
  - injection Hp as <-. exists f. split; [done |]. exists (readBuffer f). by destruct f.
  - unfold secs in *. cbn [seq fmap list_fmap] in Hread, Hp. apply Forall_cons in Hread as [Hs Hread].
    destruct (read_sector_run f _ Hb Hs) as (Hr & Hbuf & Hlen).
    cbn [scan_sectors]. replace (f.(StartLBA) + base + Z.of_nat k) with (f.(StartLBA) + (base + Z.of_nat k)) by lia.
    rewrite Hr. cbn [mbind outcome_bind fst snd with_buffer readBuffer geo].
    rewrite (wrap_small 32) by (destruct Hs as (_ & ? & _); lia).
    rewrite scan_entries_sector by done. cbn [slots_of flat_map] in Hp. rewrite scan_slots_app in Hp.
    destruct (scan_slots (sector_slots _ (sector_data f _) _) lfn results) as [q| | |]; cbn [mbind outcome_bind] in *;
      [| discriminate..].
    destruct q as [results'|lfn' results'].
    + injection Hp as <-. eexists. split; [done |]. by eexists.
    + replace (Z.of_nat k + 1) with (Z.of_nat (S k)) by lia.
      edestruct (IH (with_buffer f (sector_data f (base + Z.of_nat k))) (S k) lfn' results') as (f' & Hrun & Hf');
        [exact Hlen | done | done | exact Hp |].
      exists f'. split; [exact Hrun |]. eapply buffered_trans; [exact Hbuf | exact Hf'].
Qed.

(** ** The sectors of a directory

    A directory is a chain of clusters in the table [T], but for the root directory of a FAT12 or FAT16
    volume, which is a run of sectors in front of the data region.  The code reads that run a cluster's
    length at a time and starts each turn one sector behind the start of the last one. *)
Definition flat_root (f : FAT D) (root : bool) : bool := root && negb (bool_decide (f.(geo).(FatType) = FAT32)).

Definition end_mark (t : FATType) : Z := match t with FAT12 => 0xFF8 | FAT16 => 0xFFF8 | FAT32 => 0x0FFFFFF8 end.

(** The first [n] clusters of the chain from [c] on. *)
Fixpoint clusters (T : Z -> Z) (c : Z) (n : nat) : list Z :=
  match n with O => [] | S n => c :: clusters T (T c) n end.

(** Where the first [n] turns start. *)
Definition dir_starts (f : FAT D) (T : Z -> Z) (root : bool) (c : Z) (n : nat) : list Z :=
  let g := f.(geo) in
  if flat_root f root then (fun k => g.(firstDataSector) - g.(rootDirSectors) + Z.of_nat k) <$> seq 0 n
  else (fun c => g.(firstDataSector) + (c - 2) * g.(sectorsPerCluster)) <$> clusters T c n.

(** The sectors of [n] turns can be read, and the clusters are in use; a flat root is read when the number
    [c] passed for its cluster looks like one in use. *)
Record dir_ok (f : FAT D) (T : Z -> Z) (root : bool) (c : Z) (n : nat) : Prop := {
  do_cluster : 0 < f.(geo).(sectorsPerCluster);
  do_sectors : Forall (readable f) (flat_map (sectors_at f) (dir_starts f T root c n));
  do_chain : if flat_root f root then 0 < c < end_mark f.(geo).(FatType)
             else Forall (fun c => valid f.(geo) c /\ c < end_mark f.(geo).(FatType)) (clusters T c n)
}.

(** The slots of the sectors, in order. *)
Definition dir_slots (f : FAT D) (bases : list Z) : list slot := slots_of f (flat_map (sectors_at f) bases).

(** ** The turns of the directory loop, as it computes their sectors *)

Fixpoint turns (f : FAT D) (T : Z -> Z) (root : bool) (sec c : Z) (bases : list Z) : Prop :=
  match bases with
  | [] => True
  | b :: bases =>
      in_chain f c = true /\ b = dir_sector f root sec c /\ Forall (readable f) (sectors_at f b) /\
      if flat_root f root then turns f T root (u32 (b + 1)) c bases
      else valid f.(geo) c /\ turns f T root b (T c) bases
  end.

Lemma turns_buffered f f' T root sec c bases :
  buffered f f' -> turns f T root sec c bases -> turns f' T root sec c bases.
Proof.
  intros (l & -> & _). revert sec c. induction bases as [|b bases IH]; intros sec c; cbn [turns]; [done |].
  intros (Hin & Hb & Hr & Hrest). split; [exact Hin |]. split; [exact Hb |]. split; [exact Hr |].
  change (flat_root (with_buffer f l) root) with (flat_root f root).
  destruct (flat_root f root); [by apply IH |]. destruct Hrest as [Hv Hrest]. split; [exact Hv | by apply IH].
Qed.

Lemma dir_slots_buffered f f' bases : buffered f f' -> dir_slots f' bases = dir_slots f bases.
Proof. by intros (l & -> & _). Qed.

Lemma represents_buffered f f' T : buffered f f' -> represents f T -> represents f' T.
Proof. intros (l & -> & Hl) Hf. by apply represents_buffer. Qed.

Lemma GetDirectoryEntries_run fuel f T root sec c bases lfn res results :
  represents f T -> f.(geo).(bytesPerSector) < 8192 -> turns f T root sec c bases ->
  scan_slots (dir_slots f bases) lfn res = Ret (Stop results) -> (length bases <= fuel)%nat ->
  exists f', GetDirectoryEntries_loop fuel f root sec c lfn res = Ret (f', results) /\ buffered f f'.
Proof using All.
  revert fuel f sec c lfn res. induction bases as [|b bases IH]; intros fuel f sec c lfn res Hf Hbp Hp Hscan Hfuel.
  { discriminate Hscan. }
  destruct fuel as [|fuel]; [cbn in Hfuel; lia |]. cbn [turns] in Hp. destruct Hp as (Hin & -> & Hread & Hrest).
  pose proof (go_bps _ (rep_geo _ _ Hf)) as Hpos.
  cbn [GetDirectoryEntries_loop]. rewrite Hin. set (base := dir_sector f root sec c) in *.
  unfold dir_slots in Hscan. cbn [flat_map] in Hscan.
  assert (slots_of f (sectors_at f base ++ flat_map (sectors_at f) bases) =
          slots_of f (sectors_at f base) ++ dir_slots f bases) as Happ by apply flat_map_app.
  rewrite Happ, scan_slots_app in Hscan.
  destruct (scan_slots (slots_of f (sectors_at f base)) lfn res) as [p| | |] eqn:Hslots; try discriminate Hscan.
  destruct (scan_sectors_run _ f base 0 lfn res (rep_buffer _ _ Hf) ltac:(lia) Hread p Hslots) as (f1 & Hrun & Hf1).
  change (Z.of_nat 0) with 0 in Hrun. rewrite Hrun. cbn [mbind outcome_bind fst snd] in *.
  destruct p as [results'|lfn' res'].
  { injection Hscan as <-. by exists f1. }
  pose proof (represents_buffered _ _ _ Hf1 Hf) as Hrep1.
  pose proof Hf1 as (l1 & Hl1 & _). change (root && negb (bool_decide (FatType (geo f) = FAT32))) with (flat_root f root).
  rewrite <- (dir_slots_buffered _ _ bases Hf1) in Hscan.
  destruct (flat_root f root).
  - edestruct (IH fuel f1) as (f2 & Hrun2 & Hf2); [exact Hrep1 | by rewrite Hl1 | by eapply turns_buffered | exact Hscan | cbn in Hfuel; lia |].
    exists f2. split; [exact Hrun2 |]. eapply buffered_trans; [exact Hf1 | exact Hf2].
  - destruct Hrest as [Hval Hrest].
    destruct (ReadTable_run f1 T c Hrep1) as (l2 & Hrt & Hl2); [by rewrite Hl1 |].
    rewrite Hrt. cbn [mbind outcome_bind fst snd].
    assert (buffered f1 (with_buffer f1 l2)) as Hb2 by by exists l2.
    assert (buffered f (with_buffer f1 l2)) as Hb by (eapply buffered_trans; [exact Hf1 | exact Hb2]).
    edestruct (IH fuel (with_buffer f1 l2)) as (f2 & Hrun2 & Hf2);
      [by eapply represents_buffered | by rewrite Hl1 | by eapply turns_buffered | exact Hscan | cbn in Hfuel; lia |].
    exists f2. split; [exact Hrun2 |]. eapply buffered_trans; [exact Hb | exact Hf2].
Qed.

(** They start where the directory has them. *)
Lemma readable_start (f : FAT D) b : 0 < f.(geo).(sectorsPerCluster) -> Forall (readable f) (sectors_at f b) -> 0 <= b < 2 ^ 32.
Proof.
  intros Hs Hr. unfold sectors_at in Hr. destruct (Z.to_nat (sectorsPerCluster (geo f))) as [| k] eqn:Hk; [lia |].
  cbn [seq fmap list_fmap] in Hr. apply Forall_inv in Hr as (_ & Hr & _). lia.
Qed.

Lemma in_chain_spec (f : FAT D) c : 0 < c < end_mark f.(geo).(FatType) -> in_chain f c = true.
Proof.
  intros Hc. unfold in_chain. apply andb_true_intro. split; [apply negb_true_iff, Z.eqb_neq | apply Z.ltb_lt];
    destruct (FatType (geo f)); cbn in *; lia.
Qed.

Lemma ClusterToSector_start (f : FAT D) c (b := f.(geo).(firstDataSector) + (c - 2) * f.(geo).(sectorsPerCluster)) :
  0 <= b < 2 ^ 32 -> ClusterToSector f c = b.
Proof.
  intros Hb. unfold ClusterToSector, wrap. rewrite Z.mul_mod_idemp_l, Z.add_mod_idemp_l by done.
  rewrite Z.add_comm. by apply Z.mod_small.
Qed.

Lemma flat_turns (f : FAT D) T c n (start := f.(geo).(firstDataSector) - f.(geo).(rootDirSectors)) : forall k sec,
  flat_root f true = true -> 0 < f.(geo).(sectorsPerCluster) -> in_chain f c = true ->
  Forall (readable f) (flat_map (sectors_at f) ((fun k => start + Z.of_nat k) <$> seq k n)) ->
  (k = 0%nat /\ sec = 0 \/ 0 < sec /\ sec = start + Z.of_nat k) ->
  turns f T true sec c ((fun k => start + Z.of_nat k) <$> seq k n).
Proof.
  induction n as [| n IH]; intros k sec Hflat Hspc Hin Hr Hsec; [done |].
  cbn [seq fmap list_fmap flat_map turns] in *. apply Forall_app in Hr as [Hr Hrest].
  pose proof (readable_start f _ Hspc Hr) as Hb. split; [done |]. rewrite Hflat. split.
  { unfold dir_sector. cbn [negb orb andb]. unfold flat_root in Hflat. cbn [andb] in Hflat. rewrite Hflat.
    apply negb_true_iff in Hflat. rewrite Hflat. cbn [orb andb].
    destruct Hsec as [[-> ->] | [Hpos ->]]; [cbn; fold start; rewrite (wrap_small 32) by lia; lia |].
    destruct (Z.eqb_spec (start + Z.of_nat k) 0); [lia | done]. }
  split; [done |]. destruct n as [| n]; [done |].
  assert (0 <= start + Z.of_nat (S k) < 2 ^ 32).
  { cbn [seq fmap list_fmap flat_map] in Hrest. apply Forall_app in Hrest as [Hnext _]. by apply (readable_start f). }
  rewrite (wrap_small 32) by lia. apply IH; try done. right. lia.
Qed.

Lemma chain_turns (f : FAT D) T root n : forall c sec,
  flat_root f root = false -> 0 < f.(geo).(sectorsPerCluster) ->
  Forall (fun c => valid f.(geo) c /\ c < end_mark f.(geo).(FatType)) (clusters T c n) ->
  let starts := (fun c => f.(geo).(firstDataSector) + (c - 2) * f.(geo).(sectorsPerCluster)) <$> clusters T c n in
  Forall (readable f) (flat_map (sectors_at f) starts) -> turns f T root sec c starts.
Proof.
  induction n as [| n IH]; intros c sec Hflat Hspc Hc starts Hr; [done |]. unfold starts in *.
  cbn [clusters fmap list_fmap flat_map turns] in *. apply Forall_app in Hr as [Hr Hrest]. apply Forall_cons in Hc as [[Hv Hend] Hc].
  split; [apply in_chain_spec; destruct Hv; lia |]. rewrite Hflat. split; [| split; [done | split; [done | by apply IH]]].
  pose proof (readable_start f _ Hspc Hr) as Hb. rewrite <- (ClusterToSector_start f c Hb). unfold dir_sector.
  unfold flat_root in Hflat. rewrite Hflat. cbn [andb].
  destruct root; cbn [andb negb] in *; [apply negb_false_iff in Hflat; by rewrite Hflat | by rewrite orb_true_r].
Qed.

Lemma dir_turns (f : FAT D) T root c n : dir_ok f T root c n -> turns f T root 0 c (dir_starts f T root c n).
Proof.
  intros [Hspc Hr Hc]. unfold dir_starts in *. destruct (flat_root f root) eqn:Hflat; [| by apply chain_turns].
  destruct root; [| discriminate Hflat]. apply flat_turns; try done; [by apply in_chain_spec | by left].
Qed.

Lemma dir_starts_length (f : FAT D) T root c n : length (dir_starts f T root c n) = n.
Proof.
  unfold dir_starts. destruct (flat_root f root); rewrite length_fmap; [by rewrite length_seq |].
  revert c. induction n as [| n IH]; intros c; cbn; [done | by rewrite IH].
Qed.

Lemma dir_ok_buffered (f f' : FAT D) T root c n : buffered f f' -> dir_ok f T root c n -> dir_ok f' T root c n.
Proof. intros (l & -> & _) [H1 H2 H3]. by split. Qed.

Lemma dir_starts_buffered (f f' : FAT D) T root c n : buffered f f' -> dir_starts f' T root c n = dir_starts f T root c n.
Proof. by intros (l & -> & _). Qed.

(** [n] turns over a directory with an end marker in their sectors. *)
Lemma listing_of_slots fuel f T root c n results :
  represents f T -> f.(geo).(bytesPerSector) < 8192 -> dir_ok f T root c n -> (n <= fuel)%nat ->
  scan_slots (dir_slots f (dir_starts f T root c n)) [] [] = Ret (Stop results) ->
  exists f', GetDirectoryEntries fuel f c root = Ret (f', results) /\ buffered f f'.
Proof using All.
  intros Hf Hb Hd Hn Hscan. eapply GetDirectoryEntries_run; [exact Hf | exact Hb | by apply dir_turns | exact Hscan |].
  by rewrite dir_starts_length.
Qed.
End listing.

(** ** A directory of files

    The slots [CreateEntry] writes for a file: its long-name entries, last part
    first, and the short entry. *)

Record file := { fname : list Z; fentry : DirectoryEntry }.

Definition lfn_count (name : list Z) : nat := Z.to_nat ((Z.of_nat (length name) + 12) / 13).
Definition encode_file (x : file) (ck : Z) : list (list Z) :=
  (lfn_bytes <$> CreateLFNEntriesFromName x.(fname) (lfn_count x.(fname)) ck) ++ [entry_bytes_of x.(fentry)].

(** A file the code lists under its name: at most five long-name entries (the
    index 5 of a sixth would be taken for a deleted entry). *)
Record file_ok (x : file) : Prop := {
  fo_name : Forall printable x.(fname) /\ (1 <= length x.(fname) <= 65)%nat;
  fo_entry : entry_ok x.(fentry);
  fo_first : forall b, head x.(fentry).(FileName) = Some b -> ~ (b = 0 \/ b = 0xE5 \/ b = 0x2E \/ b = 0x05);
  fo_attr : x.(fentry).(Attributes) <> 0x08 /\ x.(fentry).(Attributes) <> 0x0F
}.

Definition padded (name : list Z) : list Z := name ++ replicate (13 * lfn_count name + 1 - length name) 0.
Definition listed (x : file) (i : FATEntryInfo) : Prop := i.(entry) = x.(fentry) /\ i.(filename) = padded x.(fname).

Lemma lfn_count_bounds name : (length name <= 13 * lfn_count name)%nat /\
  ((1 <= length name <= 65)%nat -> (1 <= lfn_count name <= 5)%nat).
Proof. unfold lfn_count. split; [| intros]; Z.to_euclidean_division_equations; lia. Qed.

Lemma name_part_length name p k : length (name_part name p k) = (2 * k)%nat.
Proof.
  revert p. induction k as [|k IH]; intros p; [done |]. unfold name_part in *. cbn [seq flat_map app length].
  rewrite IH. lia.
Qed.

(** A long-name entry the directory loop takes for one and reads back. *)
Definition lfn_ok (e : LFNEntry) : Prop :=
  length e.(namePart1) = 10%nat /\ length e.(namePart2) = 12%nat /\ length e.(namePart3) = 4%nat /\
  e.(l_Attributes) = ATTR_LONG_NAME /\ is_byte e.(l_checksum) /\ is_byte e.(entryIndex) /\
  e.(entryIndex) <> 0 /\ e.(entryIndex) <> 0xE5 /\ e.(entryIndex) <> 0x2E /\ e.(entryIndex) <> 0x05.

Lemma lfn_of_bytes e : lfn_ok e -> lfn_of (lfn_bytes e) = e /\
  field (lfn_bytes e) 0 1 = e.(entryIndex) /\ (entry_of (lfn_bytes e)).(Attributes) = ATTR_LONG_NAME.
Proof.
  intros (H1 & H2 & H3 & Ha & Hc & Hi & _). destruct e as [ix p1 at_ ck p2 p3]. cbn in *. subst at_.
  list_of_length p1 H1. list_of_length p2 H2. list_of_length p3 H3.
  assert (ix mod 256 = ix) as Hix by (apply Z.mod_small; exact Hi).
  assert (ck mod 256 = ck) as Hck by (apply Z.mod_small; exact Hc).
  unfold lfn_of, lfn_bytes, entry_of, field. cbn -[Z.modulo Z.mul Z.add]. rewrite Hix, Hck.
  split; [f_equal; lia | split; [lia | done]].
Qed.

Lemma scan_entry_lfn e sec off lfn res :
  lfn_ok e -> scan_entry (lfn_bytes e) sec off lfn res = Ret (Go (lfn ++ [e]) res).
Proof.
  intros He. destruct (lfn_of_bytes e He) as (Hof & Hf & Ha).
  destruct He as (_ & _ & _ & _ & _ & _ & H0 & H1 & H2 & H3).
  unfold scan_entry. rewrite Hf, Ha, Hof. unfold ENTRY_END, ENTRY_UNUSED.
  repeat (zcase; [done |]). done.
Qed.

Lemma scan_slots_lfn es ss lfn res :
  (fun s : slot => s.1.1) <$> ss = lfn_bytes <$> es -> Forall lfn_ok es ->
  scan_slots ss lfn res = Ret (Go (lfn ++ es) res).
Proof.
  revert ss lfn. induction es as [|e es IH]; intros [|[[b sec] off] ss] lfn Hss Hes; try discriminate Hss.
  - by rewrite app_nil_r.
  - injection Hss as -> Hss. apply Forall_cons in Hes as [He Hes]. cbn [scan_slots].
    rewrite scan_entry_lfn by done. cbn [mbind outcome_bind]. rewrite (IH ss (lfn ++ [e])) by done.
    by rewrite <- app_assoc.
Qed.

Lemma lfn_entry_index name num ck n :
  (n < num <= 5)%nat -> let i := (lfn_entry name num ck n).(entryIndex) in
  is_byte i /\ i <> 0 /\ i <> 0xE5 /\ i <> 0x2E /\ i <> 0x05.
Proof.
  intros Hn. unfold is_byte. cbn [lfn_entry entryIndex]. cbv zeta.
  destruct n as [|[|[|[|[|n]]]]], num as [|[|[|[|[|[|num]]]]]]; try lia;
    cbv -[Z.le Z.lt not]; lia.
Qed.

Lemma lfn_entry_ok name num ck n : (n < num <= 5)%nat -> is_byte ck -> lfn_ok (lfn_entry name num ck n).
Proof.
  intros Hn Hck. destruct (lfn_entry_index name num ck n Hn) as (H0 & H1 & H2 & H3 & H4).
  unfold lfn_ok. split; [apply name_part_length |]. split; [apply name_part_length |].
  split; [apply name_part_length |]. by split_and!.
Qed.

Lemma CreateLFN_ok name num ck :
  (num <= 5)%nat -> is_byte ck -> Forall lfn_ok (CreateLFNEntriesFromName name num ck).
Proof.
  intros Hn Hck. unfold CreateLFNEntriesFromName. rewrite CreateLFN_loop_rev, app_nil_r.
  apply Forall_rev, Forall_fmap, Forall_forall. intros n Hin%elem_of_seq. apply lfn_entry_ok; [lia | done].
Qed.

Lemma CreateLFN_not_nil name num ck : (1 <= num)%nat -> CreateLFNEntriesFromName name num ck <> [].
Proof.
  intros Hn Hnil. apply (f_equal length) in Hnil. unfold CreateLFNEntriesFromName in Hnil.
  rewrite CreateLFN_loop_rev, app_nil_r, length_rev, length_fmap, length_seq in Hnil. cbn in Hnil. lia.
Qed.

Lemma Checksum_loop_byte n l s c : is_byte s -> Checksum_loop n l s = Ret c -> is_byte c.
Proof.
  revert l s. induction n as [|n IH]; intros l s Hs; cbn [Checksum_loop]; [by intros [= <-] |].
  destruct l as [|x l]; [discriminate |]. apply IH. apply u8_byte.
Qed.

(** The short entry behind its long-name entries gives the file. *)
Lemma scan_entry_file x ck sec off res :
  file_ok x -> Checksum x.(fentry).(FileName) = Ret ck ->
  exists i, scan_entry (entry_bytes_of x.(fentry)) sec off
              (CreateLFNEntriesFromName x.(fname) (lfn_count x.(fname)) ck) res = Ret (Go [] (res ++ [i])) /\ listed x i /\
            (i.(sector) = sec /\ i.(offsetInSector) = off).
Proof.
  intros [[Hp Hlen] Hok Hfirst [Ha1 Ha2]] Hck. destruct (lfn_count_bounds (fname x)) as [Hcov Hcnt]. specialize (Hcnt Hlen).
  unfold scan_entry. rewrite entry_of_bytes by done.
  assert (exists b, head (FileName (fentry x)) = Some b /\ field (entry_bytes_of (fentry x)) 0 1 = b) as (b & Hb & Hf).
  { destruct Hok as [[Hn _] _ _ _ _]. unfold entry_bytes_of, field.
    destruct (FileName (fentry x)) as [|b nm]; [discriminate Hn |]. exists b. split; [done |].
    cbn [drop app take le_of]. rewrite take_0. cbn [le_of]. lia. }
  specialize (Hfirst b Hb). rewrite Hf. unfold ENTRY_END, ENTRY_UNUSED, ATTR_VOLUME_ID.
  change ATTR_LONG_NAME with 0x0F.
  repeat (zcase; [exfalso; tauto |]). cbn [orb].
  destruct (CreateLFNEntriesFromName (fname x) (lfn_count (fname x)) ck) as [|e es] eqn:Hes;
    [by destruct (CreateLFN_not_nil (fname x) (lfn_count (fname x)) ck ltac:(lia)) |].
  rewrite <- Hes. rewrite ParseLFN_run by (done || lia). cbn [mbind outcome_bind].
  eexists. split; [done |]. by split_and!.
Qed.

Lemma scan_slots_file x ck ss res :
  file_ok x -> Checksum x.(fentry).(FileName) = Ret ck ->
  (fun s : slot => s.1.1) <$> ss = encode_file x ck ->
  exists i, scan_slots ss [] res = Ret (Go [] (res ++ [i])) /\ listed x i.
Proof.
  intros Hx Hck Hss. unfold encode_file in Hss. apply fmap_app_inv in Hss as (ss1 & ss2 & H1 & H2 & ->).
  destruct ss2 as [|[[b sec] off] [|]]; try discriminate H2. injection H2 as <-.
  destruct (lfn_count_bounds (fname x)) as [_ Hcnt]. specialize (Hcnt (proj2 (fo_name _ Hx))).
  rewrite scan_slots_app, (scan_slots_lfn _ _ _ _ (eq_sym H1))
    by (apply CreateLFN_ok; [lia | by eapply (Checksum_loop_byte 11 _ 0)]).
  cbn [mbind outcome_bind app scan_slots].
  destruct (scan_entry_file x ck sec off res Hx Hck) as (i & -> & Hi & _). by exists i.
Qed.

(** The files, their slots and an end marker somewhere behind them. *)
Fixpoint encode_files (files : list file) : list (list Z) :=
  match files with
  | [] => []
  | x :: files =>
      match Checksum x.(fentry).(FileName) with
      | Ret ck => encode_file x ck ++ encode_files files
      | _ => []
      end
  end.

Lemma scan_slots_files files ss z rest res :
  Forall file_ok files -> (fun s : slot => s.1.1) <$> ss = encode_files files ++ z :: rest -> field z 0 1 = 0 ->
  exists infos, scan_slots ss [] res = Ret (Stop (res ++ infos)) /\ Forall2 listed files infos.
Proof.
  intros Hfiles. revert ss res. induction Hfiles as [|x files Hx Hfiles IH]; intros ss res Hss Hz; cbn [encode_files] in Hss.
  - destruct ss as [|[[b sec] off] ss]; [discriminate Hss |]. injection Hss as -> Hss.
    exists []. split; [| constructor]. cbn [scan_slots]. unfold scan_entry. rewrite Hz. by rewrite app_nil_r.
  - destruct (Checksum_loop_ret 11 (FileName (fentry x)) 0) as (ck & Hck).
    { destruct (fo_entry _ Hx) as [[-> _] _ _ _ _]. lia. }
    change (Checksum (FileName (fentry x)) = Ret ck) in Hck. rewrite Hck, <- app_assoc in Hss.
    apply fmap_app_inv in Hss as (ss1 & ss2 & H1 & H2 & ->).
    destruct (scan_slots_file x ck ss1 res Hx Hck (eq_sym H1)) as (i & Hrun & Hi).
    destruct (IH ss2 (res ++ [i]) (eq_sym H2) Hz) as (infos & Hrun2 & His).
    exists (i :: infos). split; [| by constructor].
    rewrite scan_slots_app, Hrun. cbn [mbind outcome_bind]. rewrite Hrun2. by rewrite <- app_assoc.
Qed.

(** ** What is to be listed

    Slots as a directory has them: deleted entries, dots and labels anywhere between the files; a file with
    its long name in the slots before its entry; a file with a short name only; and the end marker. *)

Definition passed_over (b : list Z) : Prop :=
  exists c, head b = Some c /\ c <> 0 /\ (c ∈ [0xE5; 0x2E; 0x05] \/ b !! 11%nat = Some 0x08).

(** A file without a long name: [base] and [ext] in the eleven bytes of the name, filled up with blanks. *)
Record short_ok (e : DirectoryEntry) (base ext : list Z) : Prop := {
  so_entry : entry_ok e;
  so_name : e.(FileName) = base ++ replicate (8 - length base) 32 ++ ext ++ replicate (3 - length ext) 32;
  so_length : (length base <= 8)%nat /\ (length ext <= 3)%nat;
  so_blanks : List.last base 0 <> 32 /\ List.last ext 0 <> 32;
  so_first : forall b, head e.(FileName) = Some b -> ~ (b = 0 \/ b = 0xE5 \/ b = 0x2E \/ b = 0x05);
  so_attr : e.(Attributes) <> 0x08 /\ e.(Attributes) <> 0x0F
}.

(** The twelve bytes of its name in the list. *)
Definition short_name (base ext : list Z) : list Z :=
  let name := base ++ match ext with [] => [] | _ => 46 :: ext end in name ++ replicate (12 - length name) 0.

(** What is to be listed of a list of slots: each file's entry and name, and the sector and the offset of its
    entry. *)
Inductive Listing : list slot -> list FATEntryInfo -> Prop :=
| Listing_end b sec off rest : head b = Some 0 -> Listing ((b, sec, off) :: rest) []
| Listing_skip b sec off ss l : passed_over b -> Listing ss l -> Listing ((b, sec, off) :: ss) l
| Listing_long x ck parts sec off ss l :
    file_ok x -> Checksum x.(fentry).(FileName) = Ret ck ->
    (fun s : slot => s.1.1) <$> parts = lfn_bytes <$> CreateLFNEntriesFromName x.(fname) (lfn_count x.(fname)) ck ->
    Listing ss l ->
    Listing (parts ++ (entry_bytes_of x.(fentry), sec, off) :: ss)
            ({| entry := x.(fentry); filename := padded x.(fname); sector := sec; offsetInSector := off |} :: l)
| Listing_short e base ext sec off ss l :
    short_ok e base ext -> Listing ss l ->
    Listing ((entry_bytes_of e, sec, off) :: ss)
            ({| entry := e; filename := short_name base ext; sector := sec; offsetInSector := off |} :: l).

Lemma field_head b c : head b = Some c -> field b 0 1 = c.
Proof. destruct b as [| x b]; [done |]. intros [= ->]. unfold field. cbn. rewrite take_0. cbn. lia. Qed.

Lemma passed_over_skipped b sec off : passed_over b -> skipped (b, sec, off).
Proof.
  intros (c & Hc & H0 & Hs). unfold skipped. cbn [fst]. rewrite (field_head b c Hc). split; [done |].
  destruct Hs as [Hs | Hs].
  - repeat (apply elem_of_cons in Hs as [-> | Hs]; [tauto |]). by apply elem_of_nil in Hs.
  - right. right. right. unfold field. rewrite (drop_S _ _ _ Hs). cbn. rewrite take_0. cbn. lia.
Qed.

(** The eleven bytes of a short name, with an extension or without, are read back. *)
Lemma ParseShortFilename_name e base ext : short_ok e base ext -> ParseShortFilename e.(FileName) = Ret (short_name base ext).
Proof.
  intros [_ -> [Hb He] [Hlb Hle] _ _]. destruct ext as [| x ext].
  - unfold ParseShortFilename. cbn [length app]. set (s := base ++ _).
    assert (length s = 11)%nat as Hs by (unfold s; rewrite !length_app, !length_replicate; lia).
    rewrite Hs. cbn [Nat.ltb Nat.leb]. assert (trim_blanks 8 s 0 = length base) as ->.
    { replace 8%nat with (length base + (8 - length base))%nat at 1 by lia.
      exact (trim_blanks_app [] base (8 - length base) _ 0 eq_refl Hlb). }
    assert (take (length base) s = base) as -> by (unfold s; by rewrite take_app_length).
    assert (trim_blanks 3 s 8 = 0)%nat as ->.
    { unfold s. rewrite <- (app_nil_r (replicate (3 - 0) 32)), app_assoc.
      apply (trim_blanks_app _ [] 3 [] 8); [rewrite length_app, length_replicate; lia | done]. }
    replace 12%nat with (length base + (12 - length base))%nat at 1 by lia. rewrite replicate_add.
    rewrite put_app_0 by (rewrite length_replicate; done). cbn [mbind outcome_bind]. cbn [Nat.eqb].
    unfold short_name. by rewrite app_nil_r.
  - rewrite ParseShortFilename_run by (done || (cbn [length] in *; lia)). unfold short_name.
    rewrite <- (app_assoc base (46 :: x :: ext)). cbn [app].
    replace (12 - length (base ++ 46%Z :: x :: ext))%nat with (11 - length base - length (x :: ext))%nat; [done |].
    rewrite length_app. cbn [length]. lia.
Qed.

Lemma scan_entry_short e base ext sec off res : short_ok e base ext ->
  scan_entry (entry_bytes_of e) sec off [] res =
    Ret (Go [] (res ++ [{| entry := e; filename := short_name base ext; sector := sec; offsetInSector := off |}])).
Proof.
  intros Hs. pose proof (ParseShortFilename_name e base ext Hs) as Hname. destruct Hs as [He Hfn _ _ Hfirst Hattr].
  unfold scan_entry. rewrite entry_of_bytes, Hname by done.
  destruct (FileName e) as [| b nm] eqn:Hf; [destruct He as [[Hn _] _ _ _ _]; by rewrite Hf in Hn |].
  rewrite (field_head (entry_bytes_of e) b) by (unfold entry_bytes_of; by rewrite Hf).
  specialize (Hfirst b eq_refl). destruct Hattr as [Ha1 Ha2].
  unfold ENTRY_END, ENTRY_UNUSED, ATTR_VOLUME_ID. change ATTR_LONG_NAME with 0x0F.
  repeat (zcase; [exfalso; tauto |]). done.
Qed.

(** One pass over the slots gives the list. *)
Lemma scan_slots_listing ss l res : Listing ss l -> scan_slots ss [] res = Ret (Stop (res ++ l)).
Proof.
  intros Hl. revert res. induction Hl as [b sec off rest Hb | b sec off ss l Hb _ IH
    | x ck parts sec off ss l Hx Hck Hparts _ IH | e base ext sec off ss l He _ IH]; intros res.
  - cbn [scan_slots]. unfold scan_entry. rewrite (field_head b 0 Hb). by rewrite app_nil_r.
  - cbn [scan_slots]. rewrite scan_entry_skipped by by apply passed_over_skipped. apply IH.
  - destruct (lfn_count_bounds (fname x)) as [_ Hcnt]. specialize (Hcnt (proj2 (fo_name _ Hx))).
    rewrite scan_slots_app, (scan_slots_lfn _ _ _ _ Hparts)
      by (apply CreateLFN_ok; [lia | by eapply (Checksum_loop_byte 11 _ 0)]).
    cbn [mbind outcome_bind app scan_slots].
    destruct (scan_entry_file x ck sec off res Hx Hck) as (i & -> & [Hi1 Hi2] & Hi3). cbn [mbind outcome_bind].
    rewrite IH, <- app_assoc. cbn [app]. do 4 f_equal. destruct Hi3. destruct i. cbn in *. by subst.
  - cbn [scan_slots]. rewrite (scan_entry_short e base ext) by done. cbn [mbind outcome_bind].
    by rewrite IH, <- app_assoc.
Qed.

(** ** Searching *)

Definition c_name (name : list Z) : Prop := Forall (fun b => b <> 0) name.

Lemma same_name_run name fn k :
  c_name name -> Forall printable fn -> same_name name (fn ++ replicate (S k) 0) = Ret (bool_decide (name = fn)).
Proof.
  unfold c_name, printable. revert name. induction fn as [|x fn IH]; intros name Hn Hf.
  - destruct name as [|c name]; cbn; [done |]. apply Forall_cons in Hn as [Hc _].
    destruct (Z.eqb_spec c 0); [done |]. by rewrite bool_decide_false.
  - apply Forall_cons in Hf as [Hx Hf]. destruct name as [|c name]; cbn [app same_name].
    + destruct (Z.eqb_spec x 0); [lia |]. by rewrite bool_decide_false.
    + apply Forall_cons in Hn as [_ Hn]. destruct (Z.eqb_spec c x) as [-> | Hne].
      * rewrite IH by done. f_equal. apply bool_decide_ext. naive_solver.
      * rewrite bool_decide_false; [done | congruence].
Qed.

Lemma padded_tail name : exists k, padded name = name ++ replicate (S k) 0.
Proof.
  destruct (lfn_count_bounds name) as [H _]. exists (13 * lfn_count name - length name)%nat.
  unfold padded. do 2 f_equal. lia.
Qed.

(** The first file of the name. *)
Definition find_file (name : list Z) (files : list file) : option file :=
  snd <$> list_find (fun x => x.(fname) = name) files.

Lemma find_file_cons name x files :
  find_file name (x :: files) = if decide (x.(fname) = name) then Some x else find_file name files.
Proof.
  unfold find_file. cbn [list_find]. case_decide; [done |]. by destruct (list_find _ files) as [[]|].
Qed.

Lemma find_file_in name files x : find_file name files = Some x -> x ∈ files /\ x.(fname) = name.
Proof.
  induction files as [|y files IH]; [done |]. rewrite find_file_cons. case_decide.
  - intros [= ->]. split; [left | done].
  - intros Hx. destruct (IH Hx). split; [by right | done].
Qed.

Definition found (x : option file) (i : option FATEntryInfo) : Prop :=
  match x, i with Some x, Some i => i.(entry) = x.(fentry) | None, None => True | _, _ => False end.

Lemma search_list_run name files infos ret :
  c_name name -> Forall file_ok files -> Forall2 listed files infos ->
  exists r, search_list name infos ret = Ret r /\
    match ret with Some i => r = Some i | None => found (find_file name files) r end.
Proof.
  intros Hn Hok Hl. revert ret. induction Hl as [|x i files infos [He Hf] Hl IH]; intros ret; cbn [search_list].
  - exists ret. by destruct ret.
  - apply Forall_cons in Hok as [Hx Hok]. specialize (IH Hok).
    destruct (padded_tail (fname x)) as (k & Hk). rewrite Hf, Hk.
    rewrite same_name_run by (done || apply Hx). cbn [mbind outcome_bind]. rewrite find_file_cons.
    destruct ret as [j|]; [apply (IH (Some j)) |]. destruct (decide (fname x = name)) as [Heq | Hne].
    + rewrite bool_decide_true by done. destruct (IH (Some i)) as (r & Hr & ->). by exists (Some i).
    + rewrite bool_decide_false by congruence. apply (IH None).
Qed.

Section paths.
Context {D : Type} `{HealthyDrive D}.

(** The directory at cluster [c] (the root directory when [root]) holds exactly
    [files], besides deleted entries, dots and a label; [fuel] turns read it. *)
Definition holds (fuel : nat) (f : FAT D) (T : Z -> Z) (root : bool) (c : Z) (files : list file) : Prop :=
  Forall file_ok files /\ exists n z rest,
    dir_ok f T root c n /\ (n <= fuel)%nat /\
    kept_slots (dir_slots f (dir_starts f T root c n)) = encode_files files ++ z :: rest /\ field z 0 1 = 0.

Lemma holds_buffered fuel f f' T root c files :
  buffered f f' -> holds fuel f T root c files -> holds fuel f' T root c files.
Proof.
  intros Hb (Hok & n & z & rest & Hp & Hl & Hs & Hz). split; [done |]. exists n, z, rest.
  split; [by eapply dir_ok_buffered |]. split; [done |].
  by rewrite (dir_starts_buffered _ _ _ _ _ _ Hb), (dir_slots_buffered _ _ _ Hb).
Qed.

Lemma listing_run fuel f T root c files :
  represents f T -> f.(geo).(bytesPerSector) < 8192 -> holds fuel f T root c files ->
  exists f' infos, GetDirectoryEntries fuel f c root = Ret (f', infos) /\ buffered f f' /\ Forall2 listed files infos.
Proof using All.
  intros Hf Hb (Hok & n & z & rest & Hp & Hl & Hs & Hz).
  destruct (scan_slots_files files _ z rest [] Hok Hs Hz) as (infos & Hscan & Hlisted). rewrite <- scan_slots_kept in Hscan.
  destruct (listing_of_slots fuel f T root c n infos Hf Hb Hp Hl Hscan) as (f' & Hrun & Hf').
  by exists f', infos.
Qed.


Lemma search_run fuel f T root c files name :
  represents f T -> f.(geo).(bytesPerSector) < 8192 -> holds fuel f T root c files -> c_name name ->
  exists f' r, SeachInDirectory fuel f name c root = Ret (f', r) /\ buffered f f' /\ found (find_file name files) r.
Proof using All.
  intros Hf Hb Hh Hn. destruct (listing_run fuel f T root c files Hf Hb Hh) as (f' & infos & Hrun & Hf' & Hl).
  destruct (search_list_run name files infos None Hn (proj1 Hh) Hl) as (r & Hr & Hfound).
  exists f', r. unfold SeachInDirectory. rewrite Hrun. cbn [mbind outcome_bind fst snd]. by rewrite Hr.
Qed.

(** ** The tree of directories

    [rootfiles] are the files of the root directory, [dirs] those of the
    directory that starts at a cluster. *)
Record tree (fuel : nat) (f : FAT D) (T : Z -> Z) (rootfiles : list file) (dirs : Z -> list file) : Prop := {
  tr_root : holds fuel f T true f.(geo).(rootDirCluster) rootfiles;
  tr_dirs x c : x ∈ rootfiles ++ dirs c -> is_directory x.(fentry) = true ->
                holds fuel f T false (GET_CLUSTER x.(fentry)) (dirs (GET_CLUSTER x.(fentry)))
}.

(** The file a path names, in the tree. *)
Fixpoint walk (dirs : Z -> list file) (files : list file) (parts : list (list Z)) : option file :=
  match parts with
  | [] => None
  | p :: parts =>
      match find_file p files with
      | None => None
      | Some x =>
          match parts with
          | [] => Some x
          | _ => if is_directory x.(fentry) then walk dirs (dirs (GET_CLUSTER x.(fentry))) parts else None
          end
      end
  end.

Lemma path_loop_run fuel f T rootfiles dirs parts c root files :
  represents f T -> f.(geo).(bytesPerSector) < 8192 -> tree fuel f T rootfiles dirs ->
  holds fuel f T root c files -> (forall x, x ∈ files -> exists c', x ∈ rootfiles ++ dirs c') ->
  Forall c_name parts ->
  exists f' r, GetEntryByPath_loop fuel f parts c root = Ret (f', r) /\ buffered f f' /\ found (walk dirs files parts) r.
Proof using All.
  revert f c root files. induction parts as [|p parts IH]; intros f c root files Hf Hb Ht Hh Hin Hn.
  { exists f, None. split; [done |]. split; [| done]. exists (readBuffer f). split; [by destruct f |]. apply (rep_buffer _ _ Hf). }
  apply Forall_cons in Hn as [Hp Hn]. cbn [GetEntryByPath_loop walk].
  destruct (search_run fuel f T root c files p Hf Hb Hh Hp) as (f1 & r & Hrun & Hf1 & Hfound).
  rewrite Hrun. cbn [mbind outcome_bind fst snd].
  destruct (find_file p files) as [x|] eqn:Hx, r as [e|]; cbn in Hfound; try done; [| by exists f1, None].
  destruct parts as [|q parts]; [by exists f1, (Some e) |]. rewrite Hfound.
  destruct (is_directory (fentry x)) eqn:Hdir; [| by exists f1, None].
  destruct (find_file_in _ _ _ Hx) as [Hxin _]. destruct (Hin x Hxin) as (c' & Hc').
  pose proof (tr_dirs _ _ _ _ _ Ht x c' Hc' Hdir) as Hsub. pose proof Hf1 as (l1 & Hl1 & _).
  destruct (IH f1 (GET_CLUSTER (fentry x)) false (dirs (GET_CLUSTER (fentry x)))) as (f2 & r2 & Hrun2 & Hf2 & Hfound2).
  - by eapply represents_buffered.
  - by rewrite Hl1.
  - destruct Ht as [Hroot Hdirs]. split; [eapply holds_buffered; [exact Hf1 |]; by rewrite Hl1 |].
    intros y cy Hy Hyd. eapply holds_buffered; [exact Hf1 |]. by eapply Hdirs.
  - by eapply holds_buffered.
  - intros y Hy. exists (GET_CLUSTER (fentry x)). apply elem_of_app. by right.
  - done.
  - exists f2, r2. split; [exact Hrun2 |]. split; [eapply buffered_trans; [exact Hf1 | exact Hf2] | exact Hfound2].
Qed.

(** The parts of a path: a single name, or several joined by separators. *)
Definition path_ok (parts : list (list Z)) : Prop :=
  parts <> [] /\ Forall (fun p => c_name p /\ PATH_SEPERATOR_C ∉ p /\ p <> []) parts.

Lemma GetEntryByPath_run fuel f T rootfiles dirs parts :
  represents f T -> f.(geo).(bytesPerSector) < 8192 -> tree fuel f T rootfiles dirs -> path_ok parts ->
  exists f' r, GetEntryByPath fuel f (join PATH_SEPERATOR_C parts) = Ret (f', r) /\ buffered f f' /\
    found (walk dirs rootfiles parts) r.
Proof using All.
  intros Hf Hb Ht [Hne Hok].
  assert (Forall c_name parts) as Hn by (eapply Forall_impl; [exact Hok | by intros ? (? & _)]).
  assert (forall x, x ∈ rootfiles -> exists c', x ∈ rootfiles ++ dirs c') as Hin
    by (intros x Hx; exists 0; apply elem_of_app; by left).
  pose proof (path_loop_run fuel f T rootfiles dirs parts _ true rootfiles Hf Hb Ht (tr_root _ _ _ _ _ Ht) Hin Hn) as Hloop.
  unfold GetEntryByPath. destruct parts as [|p [|q parts]]; [done | |].
  - apply Forall_inv in Hok as (Hc & Hd & _). cbn [join]. rewrite StrSplit_single by done.
    destruct (search_run fuel f T true _ rootfiles p Hf Hb (tr_root _ _ _ _ _ Ht) Hc) as (f1 & r & Hrun & Hf1 & Hfound).
    exists f1, r. split; [exact Hrun |]. split; [done |]. cbn [walk]. by destruct (find_file p rootfiles).
  - rewrite StrSplit_join; [exact Hloop | cbn; lia |]. eapply Forall_impl; [exact Hok | by intros ? (_ & ? & ?)].
Qed.

(** C31: path resolution refines the walk down the tree of directories: on a
    volume whose directories hold given files, [GetEntryByPath] returns for
    every path the entry of the file the walk finds, and the null pointer
    exactly when a part is missing or a part before the last is not a directory. *)
Theorem GetEntryByPath_walks fuel f T rootfiles dirs parts :
  represents f T -> f.(geo).(bytesPerSector) < 8192 -> tree fuel f T rootfiles dirs -> path_ok parts ->
  exists f' r, GetEntryByPath fuel f (join PATH_SEPERATOR_C parts) = Ret (f', r) /\ buffered f f' /\
    found (walk dirs rootfiles parts) r.
Proof using All. apply GetEntryByPath_run. Qed.
End paths.

(** ** A small volume with a directory and a file in it *)

Definition vol_geo : Geometry :=
  {| FatType := FAT12; bytesPerSector := 64; rootDirSectors := 2; sectorsPerCluster := 1;
     clusterSize := 64; firstDataSector := 4; firstFatSector := 1; rootDirCluster := 2; totalClusters := 12 |}.
Definition vol_table_sector : list Z := [0xF8; 0xFF; 0xFF; 0x03; 0x80; 0xFF; 0x05; 0x80; 0xFF] ++ replicate 55 0.
Definition vol_entry (name : list Z) (attr cluster size : Z) : DirectoryEntry :=
  {| FileName := name; Attributes := attr; Reserved := 0; CreationTimeTenth := 0; CreationTime := 0;
     CreationDate := 0x21; AccessDate := 0x21; HighFirstCluster := 0; ModifyTime := 0; ModifyDate := 0x21;
     LowFirstCluster := cluster; FileSize := size |}.
Definition vol_dir : file :=
  {| fname := [100]; fentry := vol_entry (68 :: replicate 10 32) ATTR_DIRECTORY 2 0 |}.
Definition vol_file : file :=
  {| fname := [97; 46; 116; 120; 116];
     fentry := vol_entry ([65; 32; 32; 32; 32; 32; 32; 32; 84; 88; 84]) 0 4 100 |}.
Definition vol_drive : ram_drive :=
  list_to_map [((0, 1), vol_table_sector);
               ((0, 2), List.concat (encode_files [vol_dir])); ((0, 3), replicate 64 0);
               ((0, 4), List.concat (encode_files [vol_file])); ((0, 5), replicate 64 0);
               ((0, 6), replicate 64 7); ((0, 7), replicate 64 8)].
Definition vol : FAT ram_drive :=
  {| disk := new_Disk vol_drive 0 HardDisk; StartLBA := 0; geo := vol_geo;
     readBuffer := replicate 64 0; startSearchCluster := 2 |}.
Definition vol_table (c : Z) : Z := entry_in vol_geo vol_table_sector c.

Lemma vol_geo_ok : geo_ok vol_geo.
Proof. by split. Qed.

Lemma vol_valid c : 2 <= c <= 12 -> valid vol_geo c /\ fatSector vol_geo c = 1.
Proof.
  intros Hc. assert (0 <= c + c / 2 < 32) as Ho by (Z.to_euclidean_division_equations; lia).
  destruct (fatOffset_small vol_geo c vol_geo_ok Hc) as [H1 _].
  destruct (fatSector_small vol_geo c vol_geo_ok Hc) as [H2 _].
  cbn [vol_geo FatType bytesPerSector firstFatSector] in *. rewrite H1 in H2. split.
  - split; [done |]. unfold entOffset. cbn [vol_geo FatType bytesPerSector entry_bytes].
    rewrite H1, Z.mod_small by lia. lia.
  - rewrite H2, Z.div_small by lia. done.
Qed.

(** A volume of this geometry whose table is in one sector. *)
Lemma one_sector_represents (f : FAT ram_drive) l :
  f.(geo) = vol_geo -> f.(StartLBA) = 0 -> length f.(readBuffer) = 64%nat ->
  ReadSector f.(disk) 1 = Some l -> length l = 64%nat -> Forall is_byte l -> represents f (entry_in vol_geo l).
Proof.
  intros Hg Hs Hb Hr Hl Hbytes. split; rewrite ?Hg, ?Hs, ?Hb; [exact vol_geo_ok | done | reflexivity |].
  intros c [Hc _]. destruct (vol_valid c Hc) as [_ Hsec]. exists l. unfold entry_lba. rewrite Hg, Hs, Hsec, Hl. done.
Qed.

Lemma vol_represents : represents vol vol_table.
Proof.
  apply one_sector_represents; try reflexivity. unfold vol_table_sector, is_byte. rewrite Forall_app.
  split; [repeat constructor; lia | apply Forall_replicate; lia].
Qed.

Lemma vol_readable s : 1 <= s <= 7 -> readable vol s.
Proof.
  intros Hs. unfold readable. cbn [vol StartLBA]. split; [lia |]. split; [lia |].
  assert (s = 1 \/ s = 2 \/ s = 3 \/ s = 4 \/ s = 5 \/ s = 6 \/ s = 7) as Hcases by lia.
  repeat destruct Hcases as [-> | Hcases]; try subst s; eexists; split; vm_compute; reflexivity.
Qed.

Lemma vol_sectors s : 1 <= s <= 7 -> Forall (readable vol) (sectors_at vol s).
Proof.
  intros Hs. change (sectors_at vol s) with [s + 0]. rewrite Z.add_0_r. by repeat constructor; apply vol_readable.
Qed.

Lemma vol_root_ok : dir_ok vol vol_table true 2 2.
Proof.
  split; [done | | by split].
  change (flat_map (sectors_at vol) (dir_starts vol vol_table true 2 2)) with [2; 3]. by repeat constructor; apply vol_readable.
Qed.

Lemma vol_dir_cluster_ok : dir_ok vol vol_table false 2 2.
Proof.
  split; [done | |].
  - change (flat_map (sectors_at vol) (dir_starts vol vol_table false 2 2)) with [4; 5]. by repeat constructor; apply vol_readable.
  - change (clusters vol_table 2 2) with [2; 3]. repeat constructor; by apply vol_valid.
Qed.

Lemma vol_entry_ok name attr cluster size :
  length name = 11%nat -> Forall is_byte name -> is_byte attr -> 0 <= cluster < 2 ^ 16 -> 0 <= size < 2 ^ 32 ->
  entry_ok (vol_entry name attr cluster size).
Proof. intros. unfold is_byte in *. split; cbn; repeat split; done || lia. Qed.

Lemma vol_dir_ok : file_ok vol_dir.
Proof.
  split; [split; [repeat constructor; lia | cbn; lia] | | by intros b [= <-]; lia | done].
  apply vol_entry_ok; [done | repeat constructor; lia | split; vm_compute; congruence | lia | lia].
Qed.

Lemma vol_file_ok : file_ok vol_file.
Proof.
  split; [split; [repeat constructor; lia | cbn; lia] | | by intros b [= <-]; lia | done].
  apply vol_entry_ok; [done | repeat constructor; lia | split; vm_compute; congruence | lia | lia].
Qed.

Definition vol_dirs (c : Z) : list file := if c =? 2 then [vol_file] else [].

Lemma vol_tree : tree 2 vol vol_table [vol_dir] vol_dirs.
Proof.
  split.
  - split; [apply Forall_singleton, vol_dir_ok |]. exists 2%nat, (replicate 32 0), [replicate 32 0].
    split; [exact vol_root_ok |]. split; [lia |]. split; vm_compute; reflexivity.
  - intros x c Hin Hdir. assert (x = vol_dir) as ->.
    { unfold vol_dirs in Hin. destruct (c =? 2); cbn in Hin; set_unfold in Hin; destruct_or?; subst; done || discriminate Hdir. }
    change (GET_CLUSTER (fentry vol_dir)) with 2. change (vol_dirs 2) with [vol_file].
    split; [apply Forall_singleton, vol_file_ok |]. exists 2%nat, (replicate 32 0), [replicate 32 0].
    split; [exact vol_dir_cluster_ok |]. split; [lia |]. split; vm_compute; reflexivity.
Qed.

(** A directory of three clusters with a deleted entry, a short name and a file with a long name; its table. *)
Definition vol_short : DirectoryEntry := vol_entry ([77; 65; 75; 69] ++ replicate 7 32) 0 5 7.
Definition listed_table : list Z := [0xF8; 0xFF; 0xFF; 0x03; 0x40; 0x00; 0xF8; 0x0F; 0x00] ++ replicate 55 0.
Definition listed_drive : ram_drive :=
  list_to_map [((0, 1), listed_table); ((0, 4), (0xE5 :: replicate 31 7) ++ entry_bytes_of vol_short);
               ((0, 5), List.concat (encode_files [vol_file])); ((0, 6), replicate 64 0)].
Definition listed_vol : FAT ram_drive :=
  {| disk := new_Disk listed_drive 0 HardDisk; StartLBA := 0; geo := vol_geo;
     readBuffer := replicate 64 0; startSearchCluster := 2 |}.

Lemma listed_represents : represents listed_vol (entry_in vol_geo listed_table).
Proof.
  apply one_sector_represents; try reflexivity. unfold listed_table, is_byte. rewrite Forall_app.
  split; [repeat constructor; lia | apply Forall_replicate; lia].
Qed.

Lemma listed_ok : dir_ok listed_vol (entry_in vol_geo listed_table) false 2 3.
Proof.
  split; [done | |].
  - change (flat_map (sectors_at listed_vol) (dir_starts listed_vol (entry_in vol_geo listed_table) false 2 3)) with [4; 5; 6].
    repeat (constructor; [split; [cbn; lia |]; split; [lia |]; eexists; split; vm_compute; reflexivity |]). constructor.
  - change (clusters (entry_in vol_geo listed_table) 2 3) with [2; 3; 4]. repeat constructor; by apply vol_valid.
Qed.

Lemma vol_short_ok : short_ok vol_short [77; 65; 75; 69] [].
Proof.
  split; [| done | cbn; lia | done | intros b [= <-]; lia | done].
  apply vol_entry_ok; [done | repeat constructor; lia | split; lia | lia | lia].
Qed.

Lemma listed_slots : exists l, Listing (dir_slots listed_vol (dir_starts listed_vol (entry_in vol_geo listed_table) false 2 3)) l /\
  (fun i => (i.(entry).(FileSize), i.(sector), i.(offsetInSector))) <$> l = [(7, 4, 32); (100, 5, 32)].
Proof.
  set (ck := match Checksum (FileName (fentry vol_file)) with Ret ck => ck | _ => 0 end).
  assert (Checksum (FileName (fentry vol_file)) = Ret ck) as Hck by reflexivity. eexists. split.
  - replace (dir_slots _ _) with
      ((0xE5 :: replicate 31 7, 4, 0) :: (entry_bytes_of vol_short, 4, 32) ::
       [(lfn_bytes (lfn_entry (fname vol_file) 1 ck 0), 5, 0)] ++ (entry_bytes_of (fentry vol_file), 5, 32) ::
       [(replicate 32 0, 6, 0); (replicate 32 0, 6, 32)]) by (vm_compute; reflexivity).
    apply Listing_skip; [exists 0xE5; split; [done | split; [done | left; left]] |].
    apply (Listing_short _ [77; 65; 75; 69] []); [exact vol_short_ok |].
    apply (Listing_long vol_file ck); [exact vol_file_ok | exact Hck | reflexivity |]. by apply Listing_end.
  - reflexivity.
Qed.


(** Fact: with two sectors in a cluster the root directory of this volume is listed wrong: the second sector is
    read at the end of the first turn and again at the start of the second one, and the file in it is listed twice. *)
Definition twice_vol : FAT ram_drive :=
  {| disk := new_Disk (list_to_map [((0, 2), (0xE5 :: replicate 31 7) ++ (0xE5 :: replicate 31 7));
                                    ((0, 3), entry_bytes_of vol_short ++ (0xE5 :: replicate 31 7));
                                    ((0, 4), replicate 64 0)]) 0 HardDisk;
     StartLBA := 0; readBuffer := replicate 64 0; startSearchCluster := 2;
     geo := {| FatType := FAT12; bytesPerSector := 64; rootDirSectors := 3; sectorsPerCluster := 2; clusterSize := 128;
               firstDataSector := 5; firstFatSector := 1; rootDirCluster := 2; totalClusters := 12 |} |}.

Example root_file_twice : exists f' l,
  GetDirectoryEntries 3 twice_vol 2 true = Ret (f', l) /\
  (fun i => (i.(entry).(FileSize), i.(sector), i.(offsetInSector))) <$> l = [(7, 3, 0); (7, 3, 0)].
Proof. do 2 eexists. split; vm_compute; reflexivity. Qed.

Lemma vol_path_ok : path_ok [[100]; [97; 46; 116; 120; 116]].
Proof.
  split; [done |].
  repeat (apply Forall_cons; split); [..| constructor]; (split; [repeat constructor; lia | split; [| done]]);
    vm_compute; intros Hin; set_unfold in Hin; lia.
Qed.

Lemma GetEntryByPath_walks_witness : exists f' i,
  GetEntryByPath 2 vol (join PATH_SEPERATOR_C [[100]; [97; 46; 116; 120; 116]]) = Ret (f', Some i) /\
  i.(entry).(FileSize) = 100.
Proof.
  destruct (GetEntryByPath_walks 2 vol vol_table [vol_dir] vol_dirs [[100]; [97; 46; 116; 120; 116]]
              vol_represents eq_refl vol_tree) as (f' & r & Hrun & _ & Hfound).
  - exact vol_path_ok.
  - change (walk vol_dirs [vol_dir] [[100]; [97; 46; 116; 120; 116]]) with (Some vol_file) in Hfound.
    destruct r as [i|]; [| destruct Hfound]. exists f', i. split; [exact Hrun |].
    cbn in Hfound. rewrite Hfound. reflexivity.
Defined.
