(* ===== verification/FatFiles.v ===== *)
(** Reading files (FatDir's [ReadFile]): the content of a cluster chain, the
    copy loops, and the end-to-end theorem on a path; the short reads that
    overrun the caller's buffer. *)
From Stdlib Require Import ZArith Lia String.
From S2P Require Import Prelude CMemory CrtString DiskIO FatTable FatNames FatDir FatListing.

Section files.
Context {D : Type} `{HealthyDrive D}.

(** The clusters of the chain from [c] on, each with readable sectors. *)
Fixpoint chain (f : FAT D) (T : Z -> Z) (c : Z) (cs : list Z) : Prop :=
  match cs with
  | [] => in_chain f c = false
  | x :: cs => x = c /\ in_chain f c = true /\ valid f.(geo) c /\
               Forall (readable f) (sectors_at f (ClusterToSector f c)) /\ chain f T (T c) cs
  end.

Definition chain_sectors (f : FAT D) (cs : list Z) : list Z := flat_map (fun c => sectors_at f (ClusterToSector f c)) cs.
Definition content (f : FAT D) (secs : list Z) : list Z := flat_map (sector_data f) secs.

Lemma chain_buffered f f' T c cs : buffered f f' -> chain f T c cs -> chain f' T c cs.
Proof.
  intros (l & -> & _). revert c. induction cs as [|x cs IH]; intros c; [done |].
  intros (? & ? & ? & ? & ?). split_and!; try done. by apply IH.
Qed.

Lemma content_length f secs :
  Forall (readable f) secs -> Z.of_nat (length (content f secs)) = Z.of_nat (length secs) * f.(geo).(bytesPerSector).
Proof.
  induction 1 as [|s secs Hs Hsecs IH]; [done |]. cbn [content flat_map length]. rewrite length_app.
  destruct Hs as (_ & _ & l & Hr & Hl). unfold sector_data at 1. rewrite Hr. change (default [] (Some l)) with l.
  fold (content f secs). lia.
Qed.

(** The caller's buffer once the first [n] bytes of [data] are copied. *)
Definition filled (buffer data : list Z) (n : nat) : list Z := take n data ++ drop n buffer.

Lemma filled_put buffer data n bs :
  (n <= length data)%nat -> bs = take (length bs) (drop n data) -> (n + length bs <= length buffer)%nat ->
  put (filled buffer data n) (Z.of_nat n) bs = Ret (filled buffer data (n + length bs)).
Proof.
  intros Hn Hbs Hl. unfold filled.
  rewrite <- (take_drop (length bs) (drop n buffer)).
  rewrite put_app; [| rewrite length_take; lia | rewrite length_take, length_drop; lia].
  rewrite drop_drop. f_equal. rewrite app_assoc. f_equal. rewrite Hbs at 1. by rewrite take_take_drop.
Qed.

Section copy.
Context (len bps : Z) (buffer data : list Z).
Hypotheses (Hbps : 0 < bps < 2 ^ 16) (Hlen : 0 < len <= Z.of_nat (length buffer))
  (Hdata : len <= Z.of_nat (length data) < 2 ^ 32).

(** The variables of the copy loops once [m] sectors are copied. *)
Definition copied (m : Z) : Z * Z * list Z := (m * bps, m * bps, filled buffer data (Z.to_nat (Z.min len (m * bps)))).

(** The data the next [n] sectors hold. *)
Definition holds_data (f : FAT D) (secs : list Z) (m : Z) : Prop :=
  content f secs = take (Z.to_nat (Z.of_nat (length secs) * bps)) (drop (Z.to_nat (m * bps)) data) /\
  (m + Z.of_nat (length secs)) * bps <= Z.of_nat (length data).

Lemma copy_step m b :
  0 <= m -> m * bps < len -> Z.of_nat (length b) = bps -> b = take (length b) (drop (Z.to_nat (m * bps)) data) ->
  (m + 1) * bps <= Z.of_nat (length data) ->
  let remaining := u32 (len - m * bps) in
  exists c, slice b 0 (Z.to_nat (if remaining <=? bps then remaining else bps)) = Ret c /\
    put (copied m).2 (m * bps) c = Ret (copied (m + 1)).2.
Proof using All.
  intros Hm Hlt Hb Hseg Hin remaining. unfold remaining. rewrite (wrap_small 32) by lia.
  set (a := Z.to_nat (if len - m * bps <=? bps then len - m * bps else bps)).
  assert (Z.of_nat a = Z.min bps (len - m * bps)) as Ha by (unfold a; zcase; lia).
  exists (take a b). split.
  - unfold slice. destruct (Z.leb_spec (0 + Z.of_nat a) (Z.of_nat (length b))); [| lia]. done.
  - cbn [copied snd].
    assert (length (take a b) = a) as Hla by (rewrite length_take; lia).
    replace (Z.to_nat (Z.min len (m * bps))) with (Z.to_nat (m * bps)) by lia.
    replace (m * bps) with (Z.of_nat (Z.to_nat (m * bps))) at 2 by lia.
    rewrite filled_put.
    + rewrite Hla. do 2 f_equal. nia.
    + lia.
    + rewrite Hla. rewrite Hseg at 1. rewrite take_take. f_equal. lia.
    + rewrite Hla. lia.
Qed.

Lemma read_sectors_run n f base k m :
  let secs := (fun i => base + Z.of_nat i) <$> seq k n in
  f.(geo).(bytesPerSector) = bps -> Z.of_nat (length f.(readBuffer)) = bps -> Forall (readable f) secs ->
  holds_data f secs m -> 0 <= m -> (n <> 0%nat -> (m + Z.of_nat n - 1) * bps < len) ->
  exists f', read_sectors n f base (Z.of_nat k) len (copied m).1.1 (copied m).1.2 (copied m).2 =
    Ret (f', true, copied (m + Z.of_nat n)) /\ buffered f f'.
Proof using All.
  revert f k m. induction n as [|n IH]; intros f k m secs Hg Hb Hread [Hseg Hin] Hm Hend.
  { exists f. rewrite Z.add_0_r. split; [done |]. exists (readBuffer f). split; [by destruct f |]. by rewrite Hb. }
  unfold secs in *. rewrite length_fmap, length_seq in *. cbn [seq fmap list_fmap] in Hread, Hseg.
  apply Forall_cons in Hread as [Hs Hread].
  assert (Z.of_nat (length (readBuffer f)) = bytesPerSector (geo f)) as Hb' by congruence.
  destruct (read_sector_run f _ Hb' Hs) as (Hr & Hbuf & Hl).
  cbn [content flat_map] in Hseg. fold (content f ((fun i => base + Z.of_nat i) <$> seq (S k) n)) in Hseg.
  set (b := sector_data f (base + Z.of_nat k)) in *. rewrite Hg in Hl.
  assert (b = take (length b) (drop (Z.to_nat (m * bps)) data)) as Hbseg.
  { apply (f_equal (take (length b))) in Hseg. rewrite take_app_length, take_take in Hseg.
    rewrite Hseg at 1. f_equal. nia. }
  destruct (copy_step m b Hm ltac:(nia) Hl Hbseg ltac:(nia)) as (c & Hc & Hput).
  cbn [read_sectors]. replace (f.(StartLBA) + base + Z.of_nat k) with (f.(StartLBA) + (base + Z.of_nat k)) by lia.
  rewrite Hr. cbn [mbind outcome_bind fst snd with_buffer readBuffer geo]. rewrite Hg.
  cbn [copied fst snd] in Hput |- *. rewrite Hc. cbn [mbind outcome_bind]. rewrite Hput. cbn [mbind outcome_bind].
  rewrite (wrap_small 32) by nia. replace (m * bps + bps) with ((m + 1) * bps) by lia.
  replace (Z.of_nat k + 1) with (Z.of_nat (S k)) by lia.
  destruct (IH (with_buffer f b) (S k) (m + 1)) as (f' & Hrun & Hf'); [done | done | done | | lia | intros; nia |].
  - split; rewrite length_fmap, length_seq; [| lia].
    apply (f_equal (drop (length b))) in Hseg. rewrite drop_app_length in Hseg.
    change (content (with_buffer f b)) with (content f). rewrite Hseg.
    rewrite List.skipn_firstn_comm, drop_drop. f_equal; [nia |]. f_equal. nia.
  - exists f'. cbn [copied fst snd] in Hrun. rewrite Hrun. split; [do 2 f_equal; f_equal; lia |].
    eapply buffered_trans; [exact Hbuf | exact Hf'].
Qed.
End copy.

Lemma holds_data_app data (f : FAT D) s1 s2 m :
  0 <= m -> 0 < f.(geo).(bytesPerSector) -> Forall (readable f) s1 ->
  holds_data f.(geo).(bytesPerSector) data f (s1 ++ s2) m ->
  holds_data f.(geo).(bytesPerSector) data f s1 m /\
  holds_data f.(geo).(bytesPerSector) data f s2 (m + Z.of_nat (length s1)).
Proof.
  intros Hm Hb Hr [Hseg Hin]. pose proof (content_length f s1 Hr) as Hl. rewrite length_app in *.
  unfold content in Hseg. rewrite flat_map_app in Hseg. fold (content f s1) (content f s2) in Hseg.
  split; split; [| nia | | nia].
  - apply (f_equal (take (length (content f s1)))) in Hseg. rewrite take_app_length, take_take in Hseg.
    rewrite Hseg. f_equal. nia.
  - apply (f_equal (drop (length (content f s1)))) in Hseg. rewrite drop_app_length in Hseg.
    rewrite Hseg, List.skipn_firstn_comm, drop_drop. f_equal; [nia |]. f_equal. nia.
Qed.

Lemma sectors_at_length (f : FAT D) base : length (sectors_at f base) = Z.to_nat f.(geo).(sectorsPerCluster).
Proof. unfold sectors_at. by rewrite length_fmap, length_seq. Qed.

Lemma ReadFile_loop_run fuel (f : FAT D) T len buffer data cs c m :
  let bps := f.(geo).(bytesPerSector) in
  let n := Z.of_nat (length (chain_sectors f cs)) in
  represents f T -> 0 < len <= Z.of_nat (length buffer) -> len <= Z.of_nat (length data) < 2 ^ 32 ->
  chain f T c cs -> holds_data bps data f (chain_sectors f cs) m -> 0 <= m ->
  (n <> 0 -> (m + n - 1) * bps < len) -> (length cs <= fuel)%nat ->
  exists f', ReadFile_loop fuel f c len (m * bps) (m * bps) (copied len bps buffer data m).2 =
    Ret (f', (copied len bps buffer data (m + n)).2, 0) /\ buffered f f'.
Proof using All.
  intros bps n Hf Hlen Hdata. revert fuel f c m bps n Hf.
  induction cs as [|x cs IH]; intros fuel f c m bps n Hf Hch Hd Hm Hend Hfuel; cbn [chain] in Hch.
  { exists f. destruct fuel; cbn [ReadFile_loop]; rewrite Hch; unfold n; cbn [chain_sectors flat_map length];
      rewrite Z.add_0_r; (split; [done |]); exists (readBuffer f); (split; [by destruct f | apply (rep_buffer _ _ Hf)]). }
  destruct fuel as [|fuel]; [cbn in Hfuel; lia |]. destruct Hch as (-> & Hin & Hval & Hread & Hch).
  pose proof (go_bps _ (rep_geo _ _ Hf)) as Hb.
  unfold n in *. cbn [chain_sectors flat_map] in *. fold (chain_sectors f cs) in *.
  set (s1 := sectors_at f (ClusterToSector f c)) in *. rewrite length_app in *.
  destruct (holds_data_app data f s1 _ m Hm ltac:(lia) Hread Hd) as [Hd1 Hd2].
  cbn [ReadFile_loop]. rewrite Hin.
  destruct (read_sectors_run len bps buffer data Hb Hlen Hdata (Z.to_nat (sectorsPerCluster (geo f))) f
              (ClusterToSector f c) 0 m eq_refl (rep_buffer _ _ Hf) Hread Hd1 Hm) as (f1 & Hrun & Hf1).
  { unfold s1 in Hend. rewrite sectors_at_length in Hend. intros Hne. fold bps in Hb. nia. }
  change (Z.of_nat 0) with 0 in Hrun. cbn [copied fst snd] in Hrun. cbn [copied snd]. rewrite Hrun.
  cbn [mbind outcome_bind].
  pose proof (represents_buffered _ _ _ Hf1 Hf) as Hrep1. pose proof Hf1 as (l1 & Hl1 & _).
  destruct (ReadTable_run f1 T c Hrep1) as (l2 & Hrt & Hl2); [by rewrite Hl1 |].
  rewrite Hrt. cbn [mbind outcome_bind fst snd].
  assert (buffered f (with_buffer f1 l2)) as Hbuf by (eapply buffered_trans; [exact Hf1 | by exists l2]).
  assert (bps = (with_buffer f1 l2).(geo).(bytesPerSector)) as Hbps by by rewrite Hl1.
  destruct (IH fuel (with_buffer f1 l2) (T c) (m + Z.of_nat (length s1))) as (f2 & Hrun2 & Hf2).
  - by eapply represents_buffered.
  - by eapply chain_buffered.
  - rewrite Hl1. exact Hd2.
  - lia.
  - rewrite Hl1. change (chain_sectors (with_buffer (with_buffer f l1) l2) cs) with (chain_sectors f cs).
    change (bytesPerSector (geo (with_buffer (with_buffer f l1) l2))) with bps. intros Hne. fold bps in Hb. nia.
  - cbn in Hfuel. lia.
  - exists f2. split; [| eapply buffered_trans; [exact Hbuf | exact Hf2]].
    rewrite <- Hbps in Hrun2. unfold s1 in Hrun2 at 1 2 3. rewrite !sectors_at_length in Hrun2. cbn [copied snd] in Hrun2.
    cbn [copied]. rewrite Hrun2. rewrite Hl1. change (chain_sectors (with_buffer (with_buffer f l1) l2) cs) with (chain_sectors f cs).
    do 5 f_equal. lia.
Qed.

Lemma ReadFile_run fuel (f : FAT D) T rootfiles dirs parts x cs buffer offset :
  let bps := f.(geo).(bytesPerSector) in
  let secs := chain_sectors f cs in
  let size := x.(fentry).(FileSize) in
  represents f T -> bps < 8192 -> tree fuel f T rootfiles dirs -> path_ok parts ->
  walk dirs rootfiles parts = Some x -> is_directory x.(fentry) = false ->
  chain f T (GET_CLUSTER x.(fentry)) cs -> (length cs <= fuel)%nat ->
  (Z.of_nat (length secs) - 1) * bps < size <= Z.of_nat (length secs) * bps -> Z.of_nat (length secs) * bps < 2 ^ 32 ->
  0 < size <= Z.of_nat (length buffer) ->
  exists f', ReadFile fuel f (join PATH_SEPERATOR_C parts) buffer offset 0xFFFFFFFF =
    Ret (f', take (Z.to_nat size) (content f secs) ++ drop (Z.to_nat size) buffer, 0) /\ buffered f f'.
Proof using All.
  intros bps secs size Hf Hb Ht Hpath Hwalk Hdir Hch Hfuel Hsize Hmax Hbuf.
  pose proof (go_bps _ (rep_geo _ _ Hf)) as Hpos.
  destruct (GetEntryByPath_run fuel f T rootfiles dirs parts Hf Hb Ht Hpath) as (f1 & r1 & Hrun1 & Hf1 & Hr1).
  rewrite Hwalk in Hr1. destruct r1 as [e1|]; [| done]. cbn in Hr1.
  unfold ReadFile. change (s32 0xFFFFFFFF =? -1) with true. cbn iota. unfold GetFileSize.
  rewrite Hrun1. cbn [mbind outcome_bind fst snd]. rewrite Hr1, Hdir.
  pose proof Hf1 as (l1 & Hl1 & _). pose proof (represents_buffered _ _ _ Hf1 Hf) as Hrep1.
  assert (tree fuel f1 T rootfiles dirs) as Ht1.
  { destruct Ht as [Hroot Hdirs]. split; [eapply holds_buffered; [exact Hf1 |]; by rewrite Hl1 |].
    intros y cy Hy Hyd. eapply holds_buffered; [exact Hf1 |]. by eapply Hdirs. }
  destruct (GetEntryByPath_run fuel f1 T rootfiles dirs parts Hrep1) as (f2 & r2 & Hrun2 & Hf2 & Hr2);
    [by rewrite Hl1 | done | done |].
  rewrite Hwalk in Hr2. destruct r2 as [e2|]; [| done]. cbn in Hr2.
  rewrite Hrun2. cbn [mbind outcome_bind fst snd]. rewrite Hr2, Hdir.
  assert (buffered f f2) as Hb2 by (eapply buffered_trans; [exact Hf1 | exact Hf2]).
  pose proof Hb2 as (l2 & Hl2 & _).
  assert (Forall (readable f) secs) as Hread.
  { clear -Hch. unfold secs. revert Hch. generalize (GET_CLUSTER (fentry x)). induction cs as [|y cs IH]; intros c; [constructor |].
    intros (-> & _ & _ & Hr & Hch). cbn [chain_sectors flat_map]. apply Forall_app. split; [done | by eapply IH]. }
  pose proof (content_length f secs Hread) as Hcl.
  destruct (ReadFile_loop_run fuel f2 T size buffer (content f secs) cs (GET_CLUSTER (fentry x)) 0) as (f3 & Hrun3 & Hf3).
  - by eapply represents_buffered.
  - lia.
  - rewrite Hcl. fold bps. lia.
  - by eapply chain_buffered.
  - rewrite Hl2. split; [| change (bytesPerSector (geo (with_buffer f l2))) with bps;
      change (chain_sectors (with_buffer f l2) cs) with secs; rewrite Hcl; fold bps; lia].
    change (content (with_buffer f l2) (chain_sectors (with_buffer f l2) cs)) with (content f secs).
    cbn [Z.mul]. rewrite drop_0. symmetry. apply take_ge.
    change (chain_sectors (with_buffer f l2) cs) with secs. change (bytesPerSector (geo (with_buffer f l2))) with bps.
    fold bps in Hcl. lia.
  - lia.
  - rewrite Hl2. change (bytesPerSector (geo (with_buffer f l2))) with bps.
    change (chain_sectors (with_buffer f l2) cs) with secs. intros _. lia.
  - done.
  - exists f3. split; [| eapply buffered_trans; [exact Hb2 | exact Hf3]].
    revert Hrun3. rewrite Hl2 at 2 3 4 5 6. change (bytesPerSector (geo (with_buffer f l2))) with bps.
    change (chain_sectors (with_buffer f l2) cs) with secs. cbn [copied snd]. rewrite Z.mul_0_l, Z.add_0_l.
    replace (Z.to_nat (size `min` 0)) with 0%nat by lia.
    replace (size `min` (Z.of_nat (length secs) * bps)) with size by lia.
    change (filled buffer (content f secs) 0) with buffer. done.
Qed.

(** Fact: reading a file. When the path names a file whose chain ends with the
    sector its last byte is in, [ReadFile] called without a length returns 0 and
    fills the caller's buffer with exactly the bytes of the file, following the
    chain across clusters; the offset it is given makes no difference. *)
Theorem ReadFile_content fuel (f : FAT D) T rootfiles dirs parts x cs buffer offset :
  let bps := f.(geo).(bytesPerSector) in
  let secs := chain_sectors f cs in
  let size := x.(fentry).(FileSize) in
  represents f T -> bps < 8192 -> tree fuel f T rootfiles dirs -> path_ok parts ->
  walk dirs rootfiles parts = Some x -> is_directory x.(fentry) = false ->
  chain f T (GET_CLUSTER x.(fentry)) cs -> (length cs <= fuel)%nat ->
  (Z.of_nat (length secs) - 1) * bps < size <= Z.of_nat (length secs) * bps -> Z.of_nat (length secs) * bps < 2 ^ 32 ->
  0 < size <= Z.of_nat (length buffer) ->
  exists f', ReadFile fuel f (join PATH_SEPERATOR_C parts) buffer offset 0xFFFFFFFF =
    Ret (f', take (Z.to_nat size) (content f secs) ++ drop (Z.to_nat size) buffer, 0) /\ buffered f f'.
Proof using All. apply ReadFile_run. Qed.

End files.

Lemma vol_chain : chain vol vol_table 4 [4; 5].
Proof.
  split; [done |]. split; [done |]. split; [exact (proj1 (vol_valid 4 ltac:(lia))) |].
  split; [change (ClusterToSector vol 4) with 6; apply vol_sectors; lia |]. change (vol_table 4) with 5.
  split; [done |]. split; [done |]. split; [exact (proj1 (vol_valid 5 ltac:(lia))) |].
  split; [change (ClusterToSector vol 5) with 7; apply vol_sectors; lia | done].
Qed.

Lemma ReadFile_content_witness : exists f',
  ReadFile 2 vol (join PATH_SEPERATOR_C [[100]; [97; 46; 116; 120; 116]]) (replicate 110 1) 0 0xFFFFFFFF =
  Ret (f', replicate 64 7 ++ replicate 36 8 ++ replicate 10 1, 0).
Proof.
  destruct (ReadFile_content 2 vol vol_table [vol_dir] vol_dirs [[100]; [97; 46; 116; 120; 116]] vol_file [4; 5]
              (replicate 110 1) 0 vol_represents) as (f' & Hrun & _).
  - reflexivity.
  - exact vol_tree.
  - exact vol_path_ok.
  - reflexivity.
  - reflexivity.
  - exact vol_chain.
  - cbn. lia.
  - split; vm_compute; congruence.
  - reflexivity.
  - split; vm_compute; congruence.
  - exists f'. rewrite Hrun. vm_compute. reflexivity.
Defined.
