(* ===== verification/VFSManager.v ===== *)
(** The virtual file system: the interface [VirtualFileSystem]
    (kernel/vfs/virtualFileSystem.h) and the manager of the mounted volumes
    (kernel/vfs/VFSManager.h, VFSManager.cpp).

    A volume is known only through the interface, a typeclass over the state [W]
    the volumes share (the disks) and the state [F] of one volume.  The manager
    keeps pointers: [Filesystems] lists addresses, and the objects are in a store,
    so two entries of the list can be the same object. *)
From Stdlib Require Import ZArith Lia String.
From S2P Require Import Prelude CMemory CrtString CrtNumeric DiskIO FatTable FatNames FatDir FatWrite.

(** ** The interface *)

Class VirtualFileSystem (W F : Type) := {
  vfs_disk : F -> Z;
  vfs_ReadFile : W -> F -> list Z -> list Z -> Z -> Z -> outcome (W * F * (list Z * Z));
  vfs_WriteFile : W -> F -> list Z -> list Z -> Z -> bool -> outcome (W * F * Z);
  vfs_FileExists : W -> F -> list Z -> outcome (W * F * bool);
  vfs_DirectoryExists : W -> F -> list Z -> outcome (W * F * bool);
  vfs_CreateFile : W -> F -> list Z -> outcome (W * F * Z);
  vfs_CreateDirectory : W -> F -> list Z -> outcome (W * F * Z);
  vfs_GetFileSize : W -> F -> list Z -> outcome (W * F * Z);
  vfs_DirectoryList : W -> F -> list Z -> outcome (W * F * list VFSEntry)
}.

Record VFSManager := { Filesystems : list Z; bootPartitionID : Z }.

(** The shared state and the objects by address. *)
Record system (W F : Type) := { world : W; volumes : gmap Z F }.
Arguments world {W F}. Arguments volumes {W F}. Arguments Build_system {W F}.

(** [VFSManager()] *)
Definition new_VFSManager : VFSManager := {| Filesystems := []; bootPartitionID := -1 |}.

Definition Mount (v : VFSManager) (vfs : Z) : VFSManager :=
  {| Filesystems := v.(Filesystems) ++ [vfs]; bootPartitionID := v.(bootPartitionID) |}.

Definition Unmount (v : VFSManager) (vfs : Z) : VFSManager :=
  {| Filesystems := filter (fun p => p <> vfs) v.(Filesystems); bootPartitionID := v.(bootPartitionID) |}.

(** The vector while a loop over it unmounts: the array and the number of
    elements in use.  [remove] moves the elements that stay to the front and
    leaves the others of the array as they were; [erase] only lowers the number. *)
Definition unmount_array (a : list Z * nat) (vfs : Z) : list Z * nat :=
  let kept := filter (fun p => p <> vfs) (take a.2 a.1) in
  (kept ++ drop (length kept) a.1, length kept).

Section manager.
Context {W F : Type} `{VirtualFileSystem W F}.

(** The loop of [UnmountByDisk]: its iterator goes to the end the vector had when
    the loop started. *)
Fixpoint UnmountByDisk_loop (n : nat) (s : system W F) (disk : Z) (i : nat) (a : list Z * nat)
  : outcome (list Z * nat) :=
  match n with
  | O => Ret a
  | S n =>
      match a.1 !! i with
      | None => Fault
      | Some vfs =>
          match s.(volumes) !! vfs with
          | None => Fault
          | Some f => UnmountByDisk_loop n s disk (S i) (if vfs_disk f =? disk then unmount_array a vfs else a)
          end
      end
  end.

Definition UnmountByDisk (s : system W F) (v : VFSManager) (disk : Z) : outcome VFSManager :=
  let n := length v.(Filesystems) in
  a ← UnmountByDisk_loop n s disk 0 (v.(Filesystems), n);
  Ret {| Filesystems := take a.2 a.1; bootPartitionID := v.(bootPartitionID) |}.

(** ** Paths *)

(** The copy of the disk part is an array on the heap, at [idStr], without a
    terminator; [rest] are the bytes behind it, where [strtol] reads on. *)
Definition idStr : Z := 0x1000.

(** The number, and the length of the disk part where the code stores it. *)
Definition ExtractDiskNumber (rest : list Z) (v : VFSManager) (path : list Z) : outcome (Z * option Z) :=
  match list_find (fun c => c = 58) path with
  | Some (idLength, _) =>
      if bool_decide (PATH_SEPERATOR_C ∈ path) then
        let m := mem_of idStr (take idLength path ++ rest) in
        c ← load8 m idStr;
        if isalpha c then
          if (c =? 98) || (c =? 66) then Ret (v.(bootPartitionID), Some (u8 (Z.of_nat idLength)))
          else Ret (-1, None)
        else
          r ← strtol m idStr 0 10;
          Ret (r.2, Some (u8 (Z.of_nat idLength)))
      else Ret (-1, None)
  | None => Ret (-1, None)
  end.

(** The string [n] bytes behind the start of another. *)
Definition path_from (path : list Z) (n : Z) : outcome (list Z) :=
  if n <=? Z.of_nat (length path) then Ret (drop (Z.to_nat n) path) else Fault.

(** The volume the number stands for: the address in the vector, if there is one
    ([size() > disk] compares unsigned numbers). *)
Definition mounted (v : VFSManager) (disk : Z) : option Z :=
  if negb (disk =? -1) && (u64 disk <? Z.of_nat (length v.(Filesystems)))
  then v.(Filesystems) !! Z.to_nat disk else None.

(** A virtual call on the object at [p]. *)
Definition with_volume {R} (s : system W F) (p : Z) (op : W -> F -> outcome (W * F * R)) : outcome (system W F * R) :=
  match s.(volumes) !! p with
  | None => Fault
  | Some f =>
      r ← op s.(world) f;
      Ret ({| world := r.1.1; volumes := <[p := r.1.2]> s.(volumes) |}, r.2)
  end.

Context (rest : list Z).

(** What every operation starts with: the disk number, the length of the disk
    part, and the choice of the volume. *)
Definition lookup_disk (v : VFSManager) (path : list Z) : outcome (option Z * Z) :=
  r ← ExtractDiskNumber rest v path;
  Ret (mounted v r.1, default 0 r.2).

(** The operation [op] on the rest of the path, or [e] without a volume. *)
Definition dispatch {R} (s : system W F) (v : VFSManager) (path : list Z)
    (op : list Z -> W -> F -> outcome (W * F * R)) (e : R) : outcome (system W F * R) :=
  d ← lookup_disk v path;
  match d.1 with
  | Some p => sub ← path_from path (d.2 + 2); with_volume s p (op sub)
  | None => Ret (s, e)
  end.

(** The variant whose path may be the disk part alone, where it returns [b]. *)
Definition dispatch_or {R} (s : system W F) (v : VFSManager) (path : list Z)
    (op : list Z -> W -> F -> outcome (W * F * R)) (b e : R) : outcome (system W F * R) :=
  d ← lookup_disk v path;
  match d.1 with
  | Some p =>
      if Z.of_nat (length path) =? d.2 + 2 then Ret (s, b)
      else sub ← path_from path (d.2 + 2); with_volume s p (op sub)
  | None => Ret (s, e)
  end.

Definition ReadFile (s : system W F) (v : VFSManager) (path buffer : list Z) (offset len : Z) :=
  dispatch s v path (fun sub w f => vfs_ReadFile w f sub buffer offset len) (buffer, -1).
Definition WriteFile (s : system W F) (v : VFSManager) (path buffer : list Z) (len : Z) (create : bool) :=
  dispatch s v path (fun sub w f => vfs_WriteFile w f sub buffer len create) (-1).
Definition FileExists (s : system W F) (v : VFSManager) (path : list Z) :=
  dispatch s v path (fun sub w f => vfs_FileExists w f sub) false.
Definition DirectoryExists (s : system W F) (v : VFSManager) (path : list Z) :=
  dispatch_or s v path (fun sub w f => vfs_DirectoryExists w f sub) true false.
Definition CreateFile (s : system W F) (v : VFSManager) (path : list Z) :=
  dispatch_or s v path (fun sub w f => vfs_CreateFile w f sub) (of_bool true) (-1).
Definition CreateDirectory (s : system W F) (v : VFSManager) (path : list Z) :=
  dispatch_or s v path (fun sub w f => vfs_CreateDirectory w f sub) (of_bool true) (-1).
Definition GetFileSize (s : system W F) (v : VFSManager) (path : list Z) :=
  dispatch s v path (fun sub w f => vfs_GetFileSize w f sub) 0xFFFFFFFF.

(** [None] is the null pointer. *)
Definition DirectoryList (s : system W F) (v : VFSManager) (path : list Z) :=
  dispatch s v path (fun sub w f => r ← vfs_DirectoryList w f sub; Ret (r.1, Some r.2)) None.

(** Ejecting is not implemented: only the number is looked up. *)
Definition EjectDrive (v : VFSManager) (path : list Z) : outcome bool :=
  d ← lookup_disk v path;
  Ret (bool_decide (is_Some d.1)).

(** ** The boot partition *)

(** The digits [itoa] writes into the 16 bytes of the array. *)
Definition decimal (i : Z) : outcome (list Z) :=
  '(m, p) ← itoa (mem_of idStr (replicate 16 0xCC)) i idStr 10;
  n ← strlen m p;
  load_bytes m p (Z.to_nat n).

Definition pathString : list Z := lit "####:\efi\boot\vsoskrnl.exe".

(** The path the search looks for on the volume [i]: the digits are copied in
    front of the colon, and the path starts three characters behind the first. *)
Definition boot_path (i : Z) : outcome (list Z) :=
  digits ← decimal i;
  let n := length digits in
  if (4 <? n)%nat then Fault
  else Ret (drop (4 - n + 3) (take (4 - n) pathString ++ digits ++ drop 4 pathString)).

Fixpoint SearchBootPartition_loop (n : nat) (s : system W F) (v : VFSManager) (i : Z)
  : outcome (system W F * VFSManager * bool) :=
  match n with
  | O => Ret (s, v, false)
  | S n =>
      path ← boot_path (s32 i);
      match v.(Filesystems) !! Z.to_nat i with
      | None => Fault
      | Some p =>
          r ← with_volume s p (fun w f => vfs_FileExists w f path);
          if (r.2 : bool) then Ret (r.1, {| Filesystems := v.(Filesystems); bootPartitionID := s32 i |}, true)
          else SearchBootPartition_loop n r.1 v (i + 1)
      end
  end.

Definition SearchBootPartition (s : system W F) (v : VFSManager) : outcome (system W F * VFSManager * bool) :=
  SearchBootPartition_loop (length v.(Filesystems)) s v 0.
End manager.

(** ** The disk part of a path *)

(** The text of a disk number: its digits, most significant first. *)
Definition digits_ok (ds : list Z) : Prop := ds <> [] /\ (length ds < 256)%nat /\ Forall (fun d => 0 <= d < 10) ds.
Definition disk_path (ds sub : list Z) : list Z := (digit_chr <$> ds) ++ 58 :: PATH_SEPERATOR_C :: sub.

(** The bytes behind the copy end the number. *)
Definition ends_number (rest : list Z) : Prop :=
  Forall is_byte rest /\ exists e, head rest = Some e /\ stops 10 e.

Lemma digit_chr_range d : 0 <= d < 10 -> 48 <= digit_chr d <= 57.
Proof.
  intros Hd. pose proof (digit_cases (fun d => implb (d <? 10) ((48 <=? digit_chr d) && (digit_chr d <=? 57))) eq_refl d ltac:(lia)) as Hc.
  cbn beta in Hc. destruct (Z.ltb_spec d 10); [| lia]. cbn [implb] in Hc. zbool. lia.
Qed.

Lemma find_colon ds sub : Forall (fun d => 0 <= d < 10) ds ->
  list_find (fun c => c = 58) (disk_path ds sub) = Some (length ds, 58).
Proof.
  intros Hds. apply list_find_app_Some. right. rewrite length_fmap.
  split; [lia |]. split; [| by rewrite Nat.sub_diag].
  apply list_find_None, Forall_fmap. eapply Forall_impl; [exact Hds |]. intros d Hd. cbn.
  pose proof (digit_chr_range d Hd). lia.
Qed.

Lemma ExtractDiskNumber_digits rest v ds sub :
  digits_ok ds -> ends_number rest ->
  ExtractDiskNumber rest v (disk_path ds sub) = Ret (s32 (mvalue 10 0 ds), Some (Z.of_nat (length ds))).
Proof.
  intros (Hne & Hlen & Hds) (Hok & e & He & Hstop). unfold ExtractDiskNumber. rewrite find_colon by done.
  rewrite bool_decide_true by (unfold disk_path; set_solver).
  assert (take (length ds) (disk_path ds sub) = digit_chr <$> ds) as ->.
  { unfold disk_path. rewrite take_app_le by (rewrite length_fmap; lia). apply take_ge. by rewrite length_fmap. }
  destruct rest as [|e' rest]; [done |]. injection He as ->.
  set (m := mem_of idStr _).
  assert (bytes_at m idStr ((digit_chr <$> ds) ++ [e])) as Hb.
  { pose proof (mem_of_bytes_at idStr [] ((digit_chr <$> ds) ++ [e]) rest) as Hb. cbn [app length] in Hb.
    rewrite Z.add_0_r, <- app_assoc in Hb. exact Hb. }
  assert (mem_ok m) as Hm.
  { apply mem_of_ok, forallb_forall. intros x Hx%list_elem_of_In. rewrite elem_of_app, list_elem_of_fmap in Hx.
    destruct Hx as [(d & -> & Hd) | Hx].
    - rewrite Forall_forall in Hds. pose proof (digit_chr_range d (Hds d Hd)). apply andb_true_intro. split; [apply Z.leb_le | apply Z.ltb_lt]; lia.
    - rewrite Forall_forall in Hok. specialize (Hok x Hx). unfold is_byte in Hok. apply andb_true_intro. split; [apply Z.leb_le | apply Z.ltb_lt]; lia. }
  rewrite (strtol_decimal m idStr ds e) by done.
  destruct ds as [|d ds]; [done |]. cbn [fmap list_fmap app] in Hb. apply bytes_at_cons in Hb as [Hc _].
  rewrite (proj2 (load8_Ret _ _ _) Hc). cbn [mbind outcome_bind].
  pose proof (digit_chr_range d (Forall_inv Hds)) as Hr.
  assert (isalpha (digit_chr d) = false) as ->.
  { unfold isalpha. repeat zcase; try lia; done. }
  cbn [snd]. rewrite wrap_small; [done | cbn in *; lia].
Qed.

Lemma path_from_disk ds sub : path_from (disk_path ds sub) (Z.of_nat (length ds) + 2) = Ret sub.
Proof.
  unfold path_from, disk_path. rewrite length_app, length_fmap. cbn [length].
  destruct (Z.leb_spec (Z.of_nat (length ds) + 2) (Z.of_nat (length ds + S (S (length sub))))); [| lia].
  f_equal. rewrite drop_app_ge by (rewrite length_fmap; lia). rewrite length_fmap.
  by replace (Z.to_nat (Z.of_nat (length ds) + 2) - length ds)%nat with 2%nat by lia.
Qed.

Lemma mounted_Some v n p : 0 <= n < 2 ^ 31 -> v.(Filesystems) !! Z.to_nat n = Some p -> mounted v (s32 n) = Some p.
Proof.
  intros Hn Hp. rewrite swrap_small by lia. unfold mounted. rewrite Hp. apply lookup_lt_Some in Hp.
  rewrite wrap_small by lia. destruct (Z.eqb_spec n (-1)); [lia |]. destruct (Z.ltb_spec n (Z.of_nat (length (Filesystems v)))); [done | lia].
Qed.

Lemma mvalue_nonneg ds acc : 0 <= acc -> Forall (fun d => 0 <= d < 10) ds -> 0 <= mvalue 10 acc ds.
Proof.
  unfold mvalue. revert acc. induction ds as [|d ds IH]; intros acc Ha Hds; [done |].
  apply Forall_cons in Hds as [Hd Hds]. cbn. apply IH; [lia | done].
Qed.

Section correct.
Context {W F : Type} `{VirtualFileSystem W F} (rest : list Z) (Hrest : ends_number rest).
Context (v : VFSManager) (ds : list Z) (Hds : digits_ok ds) (Hmax : mvalue 10 0 ds < 2 ^ 31).

Lemma lookup_disk_run sub :
  lookup_disk rest v (disk_path ds sub) =
    Ret (v.(Filesystems) !! Z.to_nat (mvalue 10 0 ds), Z.of_nat (length ds)).
Proof using All.
  unfold lookup_disk. rewrite ExtractDiskNumber_digits by done. cbn [mbind outcome_bind fst snd default].
  pose proof (mvalue_nonneg ds 0 ltac:(lia) (proj2 (proj2 Hds))) as Hn. do 2 f_equal.
  destruct (Filesystems v !! Z.to_nat (mvalue 10 0 ds)) as [p|] eqn:Hp; [by apply mounted_Some |].
  unfold mounted. rewrite swrap_small, wrap_small by lia. apply lookup_ge_None in Hp.
  destruct (Z.ltb_spec (mvalue 10 0 ds) (Z.of_nat (length (Filesystems v)))); [lia |].
  by rewrite andb_false_r.
Qed.

Lemma dispatch_run {R} s sub (op : list Z -> W -> F -> outcome (W * F * R)) e :
  dispatch rest s v (disk_path ds sub) op e =
    match v.(Filesystems) !! Z.to_nat (mvalue 10 0 ds) with
    | Some p => with_volume s p (op sub)
    | None => Ret (s, e)
    end.
Proof using All.
  unfold dispatch. rewrite lookup_disk_run. cbn [mbind outcome_bind fst snd].
  destruct (v.(Filesystems) !! _); [| done]. by rewrite path_from_disk.
Qed.

Lemma dispatch_or_run {R} s sub (op : list Z -> W -> F -> outcome (W * F * R)) b e :
  dispatch_or rest s v (disk_path ds sub) op b e =
    match v.(Filesystems) !! Z.to_nat (mvalue 10 0 ds) with
    | Some p => match sub with [] => Ret (s, b) | _ => with_volume s p (op sub) end
    | None => Ret (s, e)
    end.
Proof using All.
  unfold dispatch_or. rewrite lookup_disk_run. cbn [mbind outcome_bind fst snd].
  destruct (v.(Filesystems) !! _); [| done]. rewrite path_from_disk.
  unfold disk_path. rewrite length_app, length_fmap. cbn [length].
  destruct (Z.eqb_spec (Z.of_nat (length ds + S (S (length sub)))) (Z.of_nat (length ds) + 2)) as [Hl|Hl], sub; cbn in *; done || lia.
Qed.

(** Fact: dispatch. For a path made of the decimal number of a mounted volume, ':\'
    and a path of that volume, every operation of the manager is the operation of
    that volume on the rest of the path: no other volume changes, and the volume
    itself counts as an existing directory. The bytes behind the copied number on
    the heap must not be digits, since it has no terminator. *)
Theorem vfs_dispatches s sub p :
  v.(Filesystems) !! Z.to_nat (mvalue 10 0 ds) = Some p ->
  let path := disk_path ds sub in
  (forall buffer offset len, ReadFile rest s v path buffer offset len = with_volume s p (fun w f => vfs_ReadFile w f sub buffer offset len)) /\
  (forall buffer len create, WriteFile rest s v path buffer len create = with_volume s p (fun w f => vfs_WriteFile w f sub buffer len create)) /\
  FileExists rest s v path = with_volume s p (fun w f => vfs_FileExists w f sub) /\
  GetFileSize rest s v path = with_volume s p (fun w f => vfs_GetFileSize w f sub) /\
  DirectoryExists rest s v path =
    match sub with [] => Ret (s, true) | _ => with_volume s p (fun w f => vfs_DirectoryExists w f sub) end /\
  CreateFile rest s v path =
    match sub with [] => Ret (s, 1) | _ => with_volume s p (fun w f => vfs_CreateFile w f sub) end /\
  CreateDirectory rest s v path =
    match sub with [] => Ret (s, 1) | _ => with_volume s p (fun w f => vfs_CreateDirectory w f sub) end.
Proof using All.
  intros Hp path. unfold ReadFile, WriteFile, FileExists, GetFileSize, DirectoryExists, CreateFile, CreateDirectory, path.
  rewrite !dispatch_run, !dispatch_or_run, Hp. split_and!; try done; intros; by rewrite dispatch_run, Hp.
Qed.

(** C40: an operation on the number of a volume that is not mounted answers its
    error value and changes nothing. *)
Theorem vfs_no_volume s sub :
  Z.of_nat (length v.(Filesystems)) <= mvalue 10 0 ds ->
  let path := disk_path ds sub in
  (forall buffer offset len, ReadFile rest s v path buffer offset len = Ret (s, (buffer, -1))) /\
  (forall buffer len create, WriteFile rest s v path buffer len create = Ret (s, -1)) /\
  FileExists rest s v path = Ret (s, false) /\ DirectoryExists rest s v path = Ret (s, false) /\
  CreateFile rest s v path = Ret (s, -1) /\ CreateDirectory rest s v path = Ret (s, -1) /\
  GetFileSize rest s v path = Ret (s, 0xFFFFFFFF) /\ DirectoryList rest s v path = Ret (s, None).
Proof using All.
  intros Hn path.
  assert (v.(Filesystems) !! Z.to_nat (mvalue 10 0 ds) = None) as Hp by (apply lookup_ge_None_2; lia).
  unfold ReadFile, WriteFile, FileExists, GetFileSize, DirectoryExists, CreateFile, CreateDirectory, DirectoryList, path.
  rewrite !dispatch_run, !dispatch_or_run, Hp. split_and!; try done; intros; by rewrite dispatch_run, Hp.
Qed.
End correct.

(** ** Unmounting *)

Section unmount.
Context {W F : Type} `{VirtualFileSystem W F} (s : system W F) (disk : Z).

(** The volume at an address is on the disk, or on another one. *)
Definition on_disk (p : Z) : Prop := exists f, s.(volumes) !! p = Some f /\ vfs_disk f = disk.
Definition off_disk (p : Z) : Prop := exists f, s.(volumes) !! p = Some f /\ vfs_disk f <> disk.

Lemma unmount_loop_off n i a :
  (forall j, (i <= j < i + n)%nat -> exists p, a.1 !! j = Some p /\ off_disk p) ->
  UnmountByDisk_loop n s disk i a = Ret a.
Proof using Type.
  revert i. induction n as [|n IH]; intros i Hoff; [done |]. cbn [UnmountByDisk_loop].
  destruct (Hoff i) as (p & Hp & f & Hf & Hd); [lia |]. rewrite Hp, Hf.
  destruct (Z.eqb_spec (vfs_disk f) disk); [done |]. apply IH. intros j Hj. apply Hoff. lia.
Qed.

Lemma filter_off p l : on_disk p -> Forall off_disk l -> filter (fun q => q <> p) l = l.
Proof using Type.
  intros (f & Hf & Hd). induction 1 as [|q l (g & Hg & Hne) Hl IH]; [done |].
  rewrite filter_cons_True by (intros ->; congruence). by rewrite IH.
Qed.

(** Fact: [UnmountByDisk] takes the volume of the disk off the list when there is
    exactly one, wherever it is, and leaves the others in their order. *)
Theorem UnmountByDisk_single v l1 p l2 :
  v.(Filesystems) = l1 ++ p :: l2 -> on_disk p -> Forall off_disk (l1 ++ l2) ->
  UnmountByDisk s v disk = Ret {| Filesystems := l1 ++ l2; bootPartitionID := v.(bootPartitionID) |}.
Proof using Type.
  intros Hv Hp Hoff. pose proof Hoff as [Hoff1 Hoff2]%Forall_app. unfold UnmountByDisk. rewrite Hv.
  set (l := l1 ++ p :: l2).
  assert (forall k i, (i + k = length l1)%nat ->
    UnmountByDisk_loop (k + S (length l2)) s disk i (l, length l) =
    UnmountByDisk_loop (S (length l2)) s disk (length l1) (l, length l)) as Hpre.
  { induction k as [|k IH]; intros i Hi; [by replace i with (length l1) by lia |].
    cbn [Nat.add UnmountByDisk_loop fst]. destruct (lookup_lt_is_Some_2 l1 i) as [q Hq]; [lia |].
    unfold l at 1. rewrite (lookup_app_l_Some _ _ _ _ Hq). pose proof (Forall_lookup_1 _ _ _ _ Hoff1 Hq) as (f & Hf & Hd).
    rewrite Hf. destruct (Z.eqb_spec (vfs_disk f) disk); [done |]. apply IH. lia. }
  replace (length l) with (length l1 + S (length l2))%nat at 1 by (unfold l; rewrite length_app; done).
  rewrite (Hpre (length l1) 0%nat) by lia. cbn [UnmountByDisk_loop fst].
  assert (l !! length l1 = Some p) as -> by (unfold l; by rewrite lookup_app_r, Nat.sub_diag by lia).
  pose proof Hp as (f & Hf & Hd). rewrite Hf. destruct (Z.eqb_spec (vfs_disk f) disk); [| done].
  unfold unmount_array. cbn [fst snd]. rewrite firstn_all.
  assert (filter (fun q => q <> p) l = l1 ++ l2) as ->.
  { unfold l. rewrite filter_app, (filter_off p l1 Hp Hoff1), filter_cons_False by naive_solver. by rewrite (filter_off p l2 Hp Hoff2). }
  rewrite unmount_loop_off.
  - cbn [mbind outcome_bind fst snd]. do 2 f_equal. apply take_app_length.
  - intros j Hj. cbn [fst]. assert (length (l1 ++ l2) = length l1 + length l2)%nat as Hlen by apply length_app.
    destruct (decide (j < length (l1 ++ l2))%nat) as [Hin | Hout].
    + destruct (lookup_lt_is_Some_2 _ _ Hin) as [q Hq]. exists q. rewrite (lookup_app_l_Some _ _ _ _ Hq).
      split; [done |]. by apply (Forall_lookup_1 _ _ _ _ Hoff Hq).
    + assert (j = length (l1 ++ l2)) as -> by lia. rewrite lookup_app_r, Nat.sub_diag by lia.
      rewrite lookup_drop, Nat.add_0_r. unfold l. rewrite lookup_app_r by lia.
      destruct l2 as [|q l2]; [cbn in Hj; lia |]. rewrite Hlen. cbn [length].
      replace (length l1 + S (length l2) - length l1)%nat with (S (length l2)) by lia. cbn [lookup list_lookup].
      destruct (lookup_lt_is_Some_2 (q :: l2) (length l2)) as [x Hx]; [cbn; lia |]. exists x. split; [exact Hx |].
      by apply (Forall_lookup_1 _ _ _ _ Hoff2 Hx).
Qed.

(** Fact: with several volumes on the disk the loop passes over the one behind a
    removed one: of three, the second stays mounted. *)
Theorem UnmountByDisk_skips v p q r :
  v.(Filesystems) = [p; q; r] -> on_disk p -> on_disk q -> on_disk r -> p <> q -> q <> r -> p <> r ->
  UnmountByDisk s v disk = Ret {| Filesystems := [q]; bootPartitionID := v.(bootPartitionID) |}.
Proof using Type.
  intros Hv (f & Hf & Hd) (g & Hg & He) (h & Hh & Hi) H1 H2 H3. unfold UnmountByDisk. rewrite Hv.
  cbn -[filter]. rewrite Hf, Hd, Z.eqb_refl. unfold unmount_array. cbn [fst snd take].
  rewrite filter_cons_False, !filter_cons_True, filter_nil by congruence. cbn -[filter].
  rewrite Hh, Hi, Z.eqb_refl. unfold unmount_array. cbn [fst snd take].
  rewrite filter_cons_True, filter_cons_False, filter_nil by congruence. cbn -[filter].
  rewrite Hh, Hi, Z.eqb_refl. unfold unmount_array. cbn [fst snd take].
  by rewrite filter_cons_True, filter_nil by congruence.
Qed.
End unmount.

(** ** The boot partition *)

Definition boot_file : list Z := lit "efi\boot\vsoskrnl.exe".

Lemma boot_path_one_digit i : 0 <= i < 10 -> boot_path (s32 i) = Ret boot_file.
Proof.
  intros Hi. assert (i ∈ seqZ 0 10) as Hin by (apply elem_of_seqZ; lia). clear Hi. revert i Hin.
  apply Forall_forall. repeat (apply Forall_cons; split; [vm_compute; reflexivity |]). constructor.
Qed.

(** Fact: from the tenth volume on the path starts with a separator. *)
Theorem boot_path_two_digits i : 10 <= i < 100 -> boot_path (s32 i) = Ret (PATH_SEPERATOR_C :: boot_file).
Proof.
  intros Hi. assert (i ∈ seqZ 10 90) as Hin by (apply elem_of_seqZ; lia). clear Hi. revert i Hin.
  apply Forall_forall. repeat (apply Forall_cons; split; [vm_compute; reflexivity |]). constructor.
Qed.

Section boot.
Context {W F : Type} `{VirtualFileSystem W F}.

(** In the states [I] the volume at every address of [ps] answers whether it has
    the kernel's file, and the answer does not depend on the state. *)
Context (I : system W F -> Prop) (ps : list Z) (has_kernel : Z -> bool).
Hypothesis answers : forall s p, I s -> p ∈ ps ->
  exists s', with_volume s p (fun w f => vfs_FileExists w f boot_file) = Ret (s', has_kernel p) /\ I s'.

Lemma boot_search_run n s v i :
  I s -> v.(Filesystems) = ps -> (i + n = length ps)%nat -> (length ps <= 10)%nat ->
  exists s', I s' /\ SearchBootPartition_loop n s v (Z.of_nat i) =
    match list_find has_kernel (drop i ps) with
    | Some (k, _) => Ret (s', {| Filesystems := ps; bootPartitionID := Z.of_nat (i + k) |}, true)
    | None => Ret (s', v, false)
    end.
Proof using answers.
  revert s i. induction n as [|n IH]; intros s i HI Hv Hi Hl.
  - exists s. split; [done |]. by rewrite drop_ge by lia.
  - cbn [SearchBootPartition_loop]. rewrite boot_path_one_digit by lia. cbn [mbind outcome_bind].
    rewrite Hv, Nat2Z.id. destruct (lookup_lt_is_Some_2 ps i) as [p Hp]; [lia |]. rewrite Hp, (drop_S _ _ _ Hp).
    destruct (answers s p HI (list_elem_of_lookup_2 _ _ _ Hp)) as (s' & Hrun & HI'). rewrite Hrun.
    cbn [mbind outcome_bind fst snd list_find]. destruct (has_kernel p) eqn:Hk.
    + exists s'. split; [done |]. rewrite decide_True by done. rewrite swrap_small by lia. by rewrite Nat.add_0_r.
    + replace (Z.of_nat i + 1) with (Z.of_nat (S i)) by lia.
      destruct (IH s' (S i) HI' Hv) as (s2 & HI2 & Hrun2); [lia | done |]. exists s2. split; [done |].
      rewrite Hrun2, decide_False by (by intros []).
      destruct (list_find has_kernel (drop (S i) ps)) as [[k y]|]; cbn; [| done].
      by replace (i + S k)%nat with (S (i + k)) by lia.
Qed.

(** Fact: the boot partition is the first of up to ten mounted volumes that has the
    kernel's file; without one the search fails and nothing is assigned. *)
Theorem SearchBootPartition_first s v :
  I s -> v.(Filesystems) = ps -> (length ps <= 10)%nat ->
  exists s', I s' /\ SearchBootPartition s v =
    match list_find has_kernel ps with
    | Some (k, _) => Ret (s', {| Filesystems := ps; bootPartitionID := Z.of_nat k |}, true)
    | None => Ret (s', v, false)
    end.
Proof using answers.
  intros HI Hv Hl. unfold SearchBootPartition. rewrite Hv. exact (boot_search_run (length ps) s v 0 HI Hv eq_refl Hl).
Qed.
End boot.

(** ** Volumes that are tables of files *)

Record table_volume := { t_disk : Z; t_files : list (list Z * list Z) }.

Definition table_file (f : table_volume) (path : list Z) : option (list Z) :=
  snd <$> (snd <$> list_find (fun x => x.1 = path) f.(t_files)).

#[global] Instance table_filesystem : VirtualFileSystem unit table_volume := {|
  vfs_disk := t_disk;
  vfs_ReadFile w f path buffer offset len :=
    Ret (w, f, match table_file f path with
               | Some data => (take (length buffer) data ++ drop (length data) buffer, 0)
               | None => (buffer, -1)
               end);
  vfs_WriteFile w f path buffer len create :=
    Ret (w, {| t_disk := f.(t_disk); t_files := (path, take (Z.to_nat len) buffer) :: f.(t_files) |}, 0);
  vfs_FileExists w f path := Ret (w, f, bool_decide (is_Some (table_file f path)));
  vfs_DirectoryExists w f path := Ret (w, f, false);
  vfs_CreateFile w f path := Ret (w, {| t_disk := f.(t_disk); t_files := (path, []) :: f.(t_files) |}, 0);
  vfs_CreateDirectory w f path := Ret (w, f, -1);
  vfs_GetFileSize w f path := Ret (w, f, Z.of_nat (length (default [] (table_file f path))));
  vfs_DirectoryList w f path := Ret (w, f, [])
|}.

Definition table_system : system unit table_volume :=
  {| world := tt;
     volumes := list_to_map [(0x100, {| t_disk := 1; t_files := [([97], [1; 2])] |});
                             (0x200, {| t_disk := 2; t_files := [(boot_file, [7]); ([98], [3])] |});
                             (0x300, {| t_disk := 1; t_files := [] |})] |}.
Definition table_manager : VFSManager := Mount (Mount (Mount new_VFSManager 0x100) 0x200) 0x300.

Lemma ends_number_fill : ends_number [0xCC].
Proof. split; [repeat constructor; lia |]. exists 0xCC. split; [done |]. by intros d [=]. Qed.

Lemma digits_ok_one : digits_ok [1].
Proof. split; [done |]. split; [cbn; lia |]. repeat constructor; lia. Qed.

Lemma vfs_dispatches_witness :
  ReadFile [0xCC] table_system table_manager (disk_path [1] [98]) [0; 0] 0 1 =
    Ret (table_system, ([3; 0], 0)).
Proof.
  destruct (vfs_dispatches [0xCC] ends_number_fill table_manager [1] digits_ok_one ltac:(vm_compute; reflexivity)
              table_system [98] 0x200 ltac:(reflexivity)) as [Hread _].
  rewrite Hread. vm_compute. reflexivity.
Defined.

Lemma vfs_no_volume_witness :
  FileExists [0xCC] table_system new_VFSManager (disk_path [1] [98]) = Ret (table_system, false).
Proof.
  destruct (vfs_no_volume [0xCC] ends_number_fill new_VFSManager [1] digits_ok_one ltac:(vm_compute; reflexivity)
              table_system [98]) as (_ & _ & Hex & _); [vm_compute; discriminate | exact Hex].
Defined.

Lemma UnmountByDisk_single_witness :
  UnmountByDisk table_system table_manager 2 =
    Ret {| Filesystems := [0x100; 0x300]; bootPartitionID := -1 |}.
Proof.
  apply (UnmountByDisk_single table_system 2 table_manager [0x100] 0x200 [0x300]).
  - reflexivity.
  - eexists. split; reflexivity.
  - repeat (apply Forall_cons; split); [..| constructor]; (eexists; split; [reflexivity | discriminate]).
Defined.

Lemma SearchBootPartition_first_witness : exists s',
  SearchBootPartition table_system table_manager =
    Ret (s', {| Filesystems := table_manager.(Filesystems); bootPartitionID := 1 |}, true).
Proof.
  destruct (SearchBootPartition_first (fun s => s = table_system) table_manager.(Filesystems) (fun p => p =? 0x200))
    with (s := table_system) (v := table_manager) as (s' & _ & Hrun).
  - intros s p -> Hp. exists table_system. split; [| done]. cbn in Hp. set_unfold in Hp.
    destruct Hp as [-> | [-> | [-> | []]]]; vm_compute; reflexivity.
  - reflexivity.
  - reflexivity.
  - cbn. lia.
  - exists s'. rewrite Hrun. reflexivity.
Defined.
