(* ===== verification/VfsFat.v ===== *)
(** FAT volumes under the virtual file system: [FAT] (kernel/vfs/FAT.h) as an
    implementation of the interface of VFSManager.v, and the theorem that reading
    through the manager gives the content of the file.

    The disks are shared: two volumes on one disk see each other's writes.  The
    store maps the address of a disk to its state; the [disk] field of a volume is
    filled in from the store for the time of an operation. *)
From Stdlib Require Import ZArith Lia String.
From S2P Require Import Prelude CMemory CrtString CrtNumeric DiskIO FatTable FatNames FatDir FatWrite FatListing FatFiles VFSManager.

Record volume (D : Type) := { v_disk : Z; v_fat : FAT D }.
Arguments v_disk {D}. Arguments v_fat {D}. Arguments Build_volume {D}.

Section fat_volumes.
Context {D : Type} `{DiskDriver D}.
Abbreviation disks := (gmap Z (Disk D)).

Definition on_fat {R} (op : FAT D -> outcome (FAT D * R)) (w : disks) (v : volume D) : outcome (disks * volume D * R) :=
  match w !! v.(v_disk) with
  | None => Fault
  | Some d =>
      r ← op (with_disk v.(v_fat) d);
      Ret (<[v.(v_disk) := r.1.(disk)]> w, {| v_disk := v.(v_disk); v_fat := r.1 |}, r.2)
  end.

(** The overriding methods; [fuel] bounds the loops over chains, [d] and [t] are
    the clock's dates. *)
Definition fat_methods (fuel : nat) (d t : Time) : VirtualFileSystem disks (volume D) := {|
  vfs_disk := v_disk;
  vfs_ReadFile w v path buffer offset len :=
    on_fat (fun f => r ← FatDir.ReadFile fuel f path buffer offset len; Ret (r.1.1, (r.1.2, r.2))) w v;
  vfs_WriteFile w v path buffer len create :=
    on_fat (fun f => FatWrite.WriteFile fuel f path buffer len create d t) w v;
  vfs_FileExists w v path := on_fat (fun f => FatDir.FileExists fuel f path) w v;
  vfs_DirectoryExists w v path := on_fat (fun f => FatDir.DirectoryExists fuel f path) w v;
  vfs_CreateFile w v path := on_fat (fun f => FatWrite.CreateFile fuel f path d t) w v;
  vfs_CreateDirectory w v path := on_fat (fun f => FatWrite.CreateDirectory fuel f path d t) w v;
  vfs_GetFileSize w v path := on_fat (fun f => FatDir.GetFileSize fuel f path) w v;
  vfs_DirectoryList w v path := on_fat (fun f => FatWrite.DirectoryList fuel f path) w v
|}.
End fat_volumes.

Section read.
Context {D : Type} `{HealthyDrive D} (fuel : nat) (d t : Time) (rest : list Z).
Abbreviation disks := (gmap Z (Disk D)).
#[local] Hint Extern 0 (VirtualFileSystem _ (volume D)) => exact (fat_methods fuel d t) : typeclass_instances.

Lemma buffered_disk (f f' : FAT D) : buffered f f' -> f'.(disk) = f.(disk).
Proof. by intros (l & -> & _). Qed.

(** C18: reading a whole file through the virtual file system. When the volume of that number is
    a FAT volume whose directories and chains hold given files, [ReadFile] without a length (-1) on
    'n:\dir\...\name' fills the caller's buffer with exactly the bytes of that
    file, returns 0, and changes no disk and no other volume; the offset is not looked at. This
    holds for a file that is not empty, fits the buffer, and has its last byte in the last sector of its
    chain: sectors of the chain behind the last byte are read too, and from the second of them on, or when a
    shorter length is asked for, the code copies whole sectors past the end of the buffer. *)
Theorem VFS_ReadFile_content (s : system disks (volume D)) (m : VFSManager) ds p v dk T rootfiles dirs parts x cs buffer offset :
  let f := with_disk v.(v_fat) dk in
  let bps := f.(geo).(bytesPerSector) in
  let secs := chain_sectors f cs in
  let size := x.(fentry).(FileSize) in
  ends_number rest -> digits_ok ds -> mvalue 10 0 ds < 2 ^ 31 ->
  m.(Filesystems) !! Z.to_nat (mvalue 10 0 ds) = Some p ->
  s.(volumes) !! p = Some v -> s.(world) !! v.(v_disk) = Some dk ->
  represents f T -> bps < 8192 -> tree fuel f T rootfiles dirs -> path_ok parts ->
  walk dirs rootfiles parts = Some x -> is_directory x.(fentry) = false ->
  chain f T (GET_CLUSTER x.(fentry)) cs -> (length cs <= fuel)%nat ->
  (Z.of_nat (length secs) - 1) * bps < size <= Z.of_nat (length secs) * bps -> Z.of_nat (length secs) * bps < 2 ^ 32 ->
  0 < size <= Z.of_nat (length buffer) ->
  exists s', VFSManager.ReadFile rest s m (disk_path ds (join PATH_SEPERATOR_C parts)) buffer offset 0xFFFFFFFF =
    Ret (s', (take (Z.to_nat size) (content f secs) ++ drop (Z.to_nat size) buffer, 0)) /\
    s'.(world) = s.(world) /\ forall q, q <> p -> s'.(volumes) !! q = s.(volumes) !! q.
Proof using All.
  intros f bps secs size Hrest Hds Hmax Hm Hv Hw Hf Hb Ht Hpath Hwalk Hdir Hch Hfuel Hsize Hlim Hbuf.
  unfold VFSManager.ReadFile. rewrite dispatch_run by done. rewrite Hm. unfold with_volume. rewrite Hv.
  cbn [vfs_ReadFile fat_methods]. unfold on_fat. rewrite Hw. fold f.
  destruct (ReadFile_run fuel f T rootfiles dirs parts x cs buffer offset) as (f' & Hrun & Hf'); try done.
  rewrite Hrun. cbn [mbind outcome_bind fst snd]. eexists. split; [done |]. cbn [world volumes].
  split; [| intros q Hq; by apply (lookup_insert_ne (M := gmap Z))].
  rewrite (buffered_disk _ _ Hf'). by apply (insert_id (M := gmap Z)).
Qed.
End read.

(** The volume of FatListing as the only one of the manager. *)
Definition vol_system : system (gmap Z (Disk ram_drive)) (volume ram_drive) :=
  {| world := {[0x10 := vol.(disk)]}; volumes := {[0x20 := {| v_disk := 0x10; v_fat := vol |}]} |}.
Definition no_time : Time := {| year := 1980; month := 1; day := 1; hour := 0; minute := 0; second := 0 |}.

Lemma VFS_ReadFile_content_witness : exists s',
  VFSManager.ReadFile (H := fat_methods 2 no_time no_time) [0xCC] vol_system (Mount new_VFSManager 0x20)
    (disk_path [0] (join PATH_SEPERATOR_C [[100]; [97; 46; 116; 120; 116]])) (replicate 110 1) 0 0xFFFFFFFF =
  Ret (s', (replicate 64 7 ++ replicate 36 8 ++ replicate 10 1, 0)).
Proof.
  destruct (VFS_ReadFile_content 2 no_time no_time [0xCC] vol_system (Mount new_VFSManager 0x20) [0] 0x20
              {| v_disk := 0x10; v_fat := vol |} vol.(disk) vol_table [vol_dir] vol_dirs
              [[100]; [97; 46; 116; 120; 116]] vol_file [4; 5] (replicate 110 1) 0) as (s' & Hrun & _).
  - exact ends_number_fill.
  - split; [done |]. split; [cbn; lia |]. repeat constructor; lia.
  - vm_compute. reflexivity.
  - reflexivity.
  - reflexivity.
  - reflexivity.
  - exact vol_represents.
  - reflexivity.
  - exact vol_tree.
  - exact vol_path_ok.
  - reflexivity.
  - reflexivity.
  - exact vol_chain.
  - cbn. lia.
  - split; vm_compute; congruence.
  - reflexivity.
  - split; vm_compute; congruence.
  - exists s'. rewrite Hrun. vm_compute. reflexivity.
Defined.
