(* ===== verification/DiskManager.v ===== *)
(** The disk manager (kernel/io/disk/DiskManager.h, Diskmanager.cpp): the list of
    disks, the partition table of a disk, and the mounting of the file systems
    found on it.

    Disks and volumes are objects at addresses, as in VfsFat.v; [fresh] gives the
    address [new] returns for the volume of a partition. *)
From Stdlib Require Import ZArith Lia.
From S2P Require Import Prelude CMemory CrtString DiskIO FatTable FatNames FatDir FatWrite VFSManager VfsFat.

(** ** The partition table *)

(** The fields of [PartitionTableEntry] the code reads. *)
Record PartitionTableEntry := { bootable : Z; partition_id : Z; start_lba : Z; length_ : Z }.
Record MasterBootRecord := { signature : Z; primaryPartitions : list PartitionTableEntry; magicnumber : Z }.

Definition partition_at (s : list Z) (p : Z) : outcome PartitionTableEntry :=
  let off := 446 + 16 * p in
  b ← get 1 s off; i ← get 1 s (off + 4); l ← get 4 s (off + 8); n ← get 4 s (off + 12);
  Ret {| bootable := b; partition_id := i; start_lba := l; length_ := n |}.

Definition mbr_of (s : list Z) : outcome MasterBootRecord :=
  sig ← get 4 s 440;
  p0 ← partition_at s 0; p1 ← partition_at s 1; p2 ← partition_at s 2; p3 ← partition_at s 3;
  magic ← get 2 s 510;
  Ret {| signature := sig; primaryPartitions := [p0; p1; p2; p3]; magicnumber := magic |}.

(** The partition types that hold a FAT volume. *)
Definition is_fat_id (id : Z) : bool :=
  (id =? 0x0B) || (id =? 0x0C) || (id =? 0x01) || (id =? 0x04) || (id =? 0x06).

(** What is recorded of the [p]-th partition; the sector numbers are bytes. *)
Definition partition_info (p : Z) (e : PartitionTableEntry) : PartitionInfo :=
  let start := u8 e.(start_lba) in
  {| PartitionType := e.(partition_id); GUID := p; startLBA := start;
     endLBA := u8 (start + e.(length_)); p_attributes := e.(bootable) |}.

Record DiskManager := { m_Disks : list Z }.
Definition new_DiskManager : DiskManager := {| m_Disks := [] |}.

(** The size of a [Disk] object: the table of methods, seven fields, the count
    and 128 partitions of 80 bytes, rounded up. *)
Definition sizeof_Disk : Z := 10296.

Section manager.
Context {D : Type} `{DiskDriver D}.
Abbreviation disks := (gmap Z (Disk D)).
Abbreviation state := (system disks (volume D) * VFSManager)%type.

Definition with_disks (s : state) (w : disks) : state := ({| world := w; volumes := s.1.(volumes) |}, s.2).

(** [AssignVFS] for the disk at [disk]; the new volume is at [vfs]. *)
Definition AssignVFS (s : state) (partition : PartitionTableEntry) (disk vfs : Z) : outcome state :=
  if partition.(partition_id) =? 0xCD then Ret s
  else if is_fat_id partition.(partition_id) then
    match s.1.(world) !! disk with
    | None => Fault
    | Some d =>
        f ← Initialize d partition.(start_lba);
        match f with
        | Some f =>
            Ret ({| world := s.1.(world); volumes := <[vfs := {| v_disk := disk; v_fat := f |}]> s.1.(volumes) |},
                 Mount s.2 vfs)
        | None => Ret s
        end
    end
  else Ret s.

(** The loop over the partitions, at the [p]-th. *)
Fixpoint Detect_loop (fresh : Z -> Z) (s : state) (disk : Z) (es : list PartitionTableEntry) (p : Z) : outcome state :=
  match es with
  | [] => Ret s
  | e :: es =>
      if e.(partition_id) =? 0 then Detect_loop fresh s disk es (p + 1)
      else
        match s.1.(world) !! disk with
        | None => Fault
        | Some d =>
            d ← AddPartitionInfo d (partition_info p e);
            s ← AssignVFS (with_disks s (<[disk := d]> s.1.(world))) e disk (fresh p);
            Detect_loop fresh s disk es (p + 1)
        end
  end.

(** The sector is read into a zeroed array of 2048 bytes. *)
Definition DetectAndLoadFilesystem (fresh : Z -> Z) (s : state) (disk : Z) : outcome state :=
  match s.1.(world) !! disk with
  | None => Fault
  | Some d =>
      match ReadSector d 0 with
      | None => Ret s
      | Some l =>
          if (2048 <? length l)%nat then Fault else
          mbr ← mbr_of (l ++ replicate (2048 - length l) 0);
          if negb (mbr.(magicnumber) =? 0xAA55) then Ret s
          else if bool_decide (d.(m_Type) = Floppy) then Ret s
          else Detect_loop fresh s disk mbr.(primaryPartitions) 0
      end
  end.

Definition AddDisk (fresh : Z -> Z) (m : DiskManager) (s : state) (d : Z) : outcome (DiskManager * state) :=
  s ← DetectAndLoadFilesystem fresh s d;
  Ret ({| m_Disks := m.(m_Disks) ++ [d] |}, s).

Definition RemoveDisk (m : DiskManager) (d : Z) : DiskManager := {| m_Disks := filter (fun x => x <> d) m.(m_Disks) |}.

(** The object a disk index is taken for: the address of the first disk plus the
    index times the size of an object. *)
Definition disk_at (w : disks) (m : DiskManager) (diskIndex : Z) : option (Disk D) :=
  match m.(m_Disks) with
  | [] => None
  | front :: _ => w !! (front + diskIndex * sizeof_Disk)
  end.

(** Whether the return value is 0, and the bytes in the buffer. *)
Definition DM_ReadSector (w : disks) (m : DiskManager) (diskIndex sector : Z) : outcome (bool * option (list Z)) :=
  if diskIndex <? Z.of_nat (length m.(m_Disks)) then
    match disk_at w m diskIndex with
    | None => Fault
    | Some d => let r := ReadSector d sector in Ret (bool_decide (is_Some r), r)
    end
  else Ret (true, None).

Definition DM_WriteSector (w : disks) (m : DiskManager) (diskIndex sector : Z) (buf : list Z) : outcome (disks * bool) :=
  if diskIndex <? Z.of_nat (length m.(m_Disks)) then
    match m.(m_Disks), disk_at w m diskIndex with
    | front :: _, Some d =>
        match WriteSector d sector buf with
        | Some d => Ret (<[front + diskIndex * sizeof_Disk := d]> w, true)
        | None => Ret (w, false)
        end
    | _, _ => Fault
    end
  else Ret (w, true).
End manager.

(** ** What is found on a disk *)

Section detection.
Context {D : Type} `{DiskDriver D}.
Abbreviation disks := (gmap Z (Disk D)).

Definition with_partitions (d : Disk D) (ps : list PartitionInfo) : Disk D :=
  {| m_Driver := d.(m_Driver); m_DriverIndex := d.(m_DriverIndex); m_Type := d.(m_Type); m_Partitions := ps |}.

(** The volumes a list of results of [Initialize] gives, with their indices, and
    the partitions recorded. *)
Fixpoint found_volumes (p : Z) (rs : list (option (FAT D))) : list (Z * FAT D) :=
  match rs with
  | [] => []
  | Some f :: rs => (p, f) :: found_volumes (p + 1) rs
  | None :: rs => found_volumes (p + 1) rs
  end.
Fixpoint recorded (p : Z) (es : list PartitionTableEntry) : list PartitionInfo :=
  match es with
  | [] => []
  | e :: es => (if e.(partition_id) =? 0 then [] else [partition_info p e]) ++ recorded (p + 1) es
  end.

(** A partition whose type is one of FAT's has a volume when [Initialize] succeeds
    on it; other partitions have none. *)
Definition initialises (d : Disk D) (e : PartitionTableEntry) (r : option (FAT D)) : Prop :=
  if is_fat_id e.(partition_id) then Initialize d e.(start_lba) = Ret r else r = None.

Lemma Initialize_partitions d ps start r :
  Initialize d start = Ret r ->
  Initialize (with_partitions d ps) start = Ret ((fun f => with_disk f (with_partitions d ps)) <$> r) /\
  forall f, r = Some f -> with_disk (with_disk f (with_partitions d ps)) d = f.
Proof.
  unfold Initialize. change (ReadSector (with_partitions d ps)) with (ReadSector d). intros Hr.
  destruct (ReadSector d start) as [l|]; [| injection Hr as <-; done].
  destruct (512 <? length l)%nat; [done |].
  destruct (FAT32_BPB l) as [b| | |]; try done. cbn [mbind outcome_bind] in *.
  destruct (geometry b) as [g| | |]; try done. cbn [mbind outcome_bind] in *.
  destruct (bool_decide (FatType g = FAT32) && (0 <? bpb_FSInfoSector b)).
  - destruct (ReadSector d (u64 (start + bpb_FSInfoSector b))) as [i|]; [| injection Hr as <-; done].
    destruct (512 <? length i)%nat; [done |]. destruct (FAT32_FSInfo i) as [h| | |]; try done.
    cbn [mbind outcome_bind] in *. injection Hr as <-. split; [done |]. by intros f [= <-].
  - injection Hr as <-. split; [done |]. by intros f [= <-].
Qed.

(** One volume: its partition is recorded, and mounted when it initialises. *)
Lemma AssignVFS_run s e disk vfs d ps r :
  s.1.(world) !! disk = Some (with_partitions d ps) -> initialises d e r ->
  exists s', AssignVFS s e disk vfs = Ret s' /\ s'.1.(world) = s.1.(world) /\
    match r with
    | None => s' = s
    | Some f => s'.2 = Mount s.2 vfs /\ exists v, s'.1.(volumes) = <[vfs := v]> s.1.(volumes) /\
                  v.(v_disk) = disk /\ with_disk v.(v_fat) d = f
    end.
Proof.
  intros Hd Hr. unfold initialises in Hr. unfold AssignVFS.
  destruct (Z.eqb_spec (partition_id e) 0xCD) as [He | He].
  { rewrite He in Hr. change (is_fat_id 0xCD) with false in Hr. cbn iota in Hr. subst r. by exists s. }
  destruct (is_fat_id (partition_id e)); [| subst r; by exists s].
  rewrite Hd. destruct (Initialize_partitions d ps _ _ Hr) as [Hi Hf]. rewrite Hi. cbn [mbind outcome_bind].
  destruct r as [f|]; cbn [fmap option_fmap option_map]; [| by exists s].
  eexists. split; [done |]. split; [done |]. split; [done |]. eexists. split; [done |]. split; [done |]. by apply Hf.
Qed.

Lemma Detect_loop_run fresh s disk d ps es rs p :
  s.1.(world) !! disk = Some (with_partitions d ps) -> (length ps + length es <= 128)%nat ->
  Forall2 (initialises d) es rs -> NoDup ((fun x => fresh x.1) <$> found_volumes p rs) ->
  exists s', Detect_loop fresh s disk es p = Ret s' /\
    s'.1.(world) = <[disk := with_partitions d (ps ++ recorded p es)]> s.1.(world) /\
    s'.2 = {| Filesystems := s.2.(Filesystems) ++ ((fun x => fresh x.1) <$> found_volumes p rs);
              bootPartitionID := s.2.(bootPartitionID) |} /\
    (forall q, q ∉ (fun x => fresh x.1) <$> found_volumes p rs -> s'.1.(volumes) !! q = s.1.(volumes) !! q) /\
    (forall x, x ∈ found_volumes p rs -> exists v, s'.1.(volumes) !! fresh x.1 = Some v /\
       v.(v_disk) = disk /\ with_disk v.(v_fat) d = x.2).
Proof.
  intros Hd Hl Hes. revert s ps p Hd Hl. induction Hes as [|e r es rs Hr Hes IH]; intros s ps p Hd Hl Hnd.
  { exists s. split; [done |]. rewrite app_nil_r, (insert_id (M := gmap Z)) by done.
    split; [done |]. split; [cbn; rewrite app_nil_r; by destruct s as [? []] |].
    split; [done |]. intros x Hx. by apply not_elem_of_nil in Hx. }
  cbn [Detect_loop recorded]. cbn [length] in Hl.
  destruct (Z.eqb_spec (partition_id e) 0) as [He | He].
  { unfold initialises in Hr. rewrite He in Hr. change (is_fat_id 0) with false in Hr. cbn iota in Hr. subst r.
    cbn [found_volumes app] in *. apply IH; [done | lia | done]. }
  rewrite Hd. unfold AddPartitionInfo. cbn [with_partitions m_Partitions].
  destruct (Z.ltb_spec (Z.of_nat (length ps)) 128); [| lia]. cbn [mbind outcome_bind].
  set (s1 := with_disks s _).
  assert (s1.1.(world) = <[disk := with_partitions d (ps ++ [partition_info p e])]> s.1.(world) /\
          s1.1.(volumes) = s.1.(volumes) /\ s1.2 = s.2) as (Hw1 & Hv1 & Hm1) by done.
  destruct (AssignVFS_run s1 e disk (fresh p) d (ps ++ [partition_info p e]) r) as (s2 & Hrun & Hw2 & Hs2);
    [rewrite Hw1; apply (lookup_insert_eq (M := gmap Z)) | done |].
  rewrite Hrun. cbn [mbind outcome_bind].
  assert (NoDup ((fun x => fresh x.1) <$> found_volumes (p + 1) rs) /\
          (is_Some r -> fresh p ∉ (fun x => fresh x.1) <$> found_volumes (p + 1) rs)) as [Hnd2 Hfresh].
  { destruct r; cbn [found_volumes fmap list_fmap] in Hnd; [apply NoDup_cons in Hnd as [? ?]; done | split; [done | by intros []]]. }
  destruct (IH s2 (ps ++ [partition_info p e]) (p + 1)) as (s' & Hrun' & Hw' & Hm' & Hq' & Hx');
    [rewrite Hw2, Hw1; apply (lookup_insert_eq (M := gmap Z)) | rewrite length_app; cbn; lia | done |].
  exists s'. split; [exact Hrun' |]. split.
  { rewrite Hw', Hw2, Hw1, (insert_insert_eq (M := gmap Z)). by rewrite <- app_assoc. }
  destruct r as [f|]; cbn [found_volumes fmap list_fmap].
  - destruct Hs2 as (Hm2 & v & Hv2 & Hvd & Hvf). split.
    { rewrite Hm', Hm2, Hm1. cbn [Mount Filesystems bootPartitionID fst]. by rewrite <- app_assoc. }
    split.
    + intros q Hq. apply not_elem_of_cons in Hq as [Hqp Hq]. rewrite Hq' by done. rewrite Hv2, Hv1.
      apply (lookup_insert_ne (M := gmap Z)). cbn in Hqp. congruence.
    + intros x Hx. apply elem_of_cons in Hx as [-> | Hx]; [| by apply Hx'].
      exists v. cbn [fst snd]. rewrite Hq' by (apply Hfresh; done). rewrite Hv2, (lookup_insert_eq (M := gmap Z)). done.
  - subst s2. split; [by rewrite Hm', Hm1 |]. split; [intros q Hq; by rewrite Hq', Hv1 | exact Hx'].
Qed.

(** ** The sector on the disk *)

(** An entry of the table as its format has it: a status, the first sector's cylinder, head and sector
    in three bytes, a type, the last sector's in three bytes, and the number of the first sector and the
    number of sectors in four bytes each. *)
Record slot := { s_status : Z; s_first : list Z; s_type : Z; s_last : list Z; s_start : Z; s_count : Z }.

Definition slot_bytes (e : slot) : list Z :=
  [e.(s_status)] ++ e.(s_first) ++ [e.(s_type)] ++ e.(s_last) ++ le_to 4 e.(s_start) ++ le_to 4 e.(s_count).
Definition slot_ok (e : slot) : Prop :=
  length e.(s_first) = 3%nat /\ length e.(s_last) = 3%nat /\ 0 <= e.(s_start) < 2 ^ 32 /\ 0 <= e.(s_count) < 2 ^ 32.

(** The first sector: 446 bytes of code, with the disk's signature in the last six, four entries, and the
    magic number; [rest] is what a larger sector has behind it. *)
Definition mbr_bytes (code : list Z) (es : list slot) (rest : list Z) : list Z :=
  code ++ flat_map slot_bytes es ++ [0x55; 0xAA] ++ rest.

(** The types of FAT12, of FAT16 up to and above 32 MB, and of FAT32 with the two ways of addressing. *)
Definition fat_types : list Z := [0x01; 0x04; 0x06; 0x0B; 0x0C].

(** What is to be recorded of the used entries: the sector numbers cut to bytes. *)
Definition partition_list (es : list slot) : list PartitionInfo :=
  omap (fun x : nat * slot => let (i, e) := x in
    if decide (e.(s_type) = 0) then None
    else Some {| PartitionType := e.(s_type); GUID := Z.of_nat i; startLBA := e.(s_start) mod 256;
                 endLBA := (e.(s_start) + e.(s_count)) mod 256; p_attributes := e.(s_status) |}) (imap pair es).

(** The volume, if any, of an entry. *)
Definition volume_of (d : Disk D) (e : slot) (r : option (FAT D)) : Prop :=
  if decide (e.(s_type) ∈ fat_types) then Initialize d e.(s_start) = Ret r else r = None.

Definition entry_of (e : slot) : PartitionTableEntry :=
  {| bootable := e.(s_status); partition_id := e.(s_type); start_lba := e.(s_start); length_ := e.(s_count) |}.

Lemma get_at n l A B off : length l = n -> off = Z.of_nat (length A) -> get n (A ++ l ++ B) off = Ret (le_of l).
Proof.
  intros <- ->. rewrite get_in by (rewrite ?length_app; lia). by rewrite Nat2Z.id, drop_app_length, take_app_length.
Qed.

Lemma slot_length e : slot_ok e -> length (slot_bytes e) = 16%nat.
Proof. intros (H1 & H2 & _). unfold slot_bytes. rewrite !length_app, H1, H2, !le_to_length. done. Qed.

(** The sides of a field of an entry, its length and its place. *)
Ltac slot_field :=
  first [ unfold slot_bytes; rewrite <- ?app_assoc; reflexivity
        | rewrite ?length_app; cbn [length]; lia | done ].

(** The fields are read where the format has them. *)
Lemma partition_at_run A e B p :
  slot_ok e -> Z.of_nat (length A) = 446 + 16 * p -> partition_at (A ++ slot_bytes e ++ B) p = Ret (entry_of e).
Proof.
  intros (H1 & H2 & Hs & Hc) HA. unfold partition_at, slot_bytes. cbv zeta.
  assert (forall X l Y n off, X ++ l ++ Y = A ++ slot_bytes e ++ B -> length l = n -> off = Z.of_nat (length X) ->
            get n (A ++ slot_bytes e ++ B) off = Ret (le_of l)) as Hget by (intros X l Y n off <- Hn Ho; by apply get_at).
  pose proof (le_to_length 4 (s_start e)) as H3. pose proof (le_to_length 4 (s_count e)) as H4.
  fold (slot_bytes e).
  rewrite (Hget A [s_status e] (s_first e ++ [s_type e] ++ s_last e ++ le_to 4 (s_start e) ++ le_to 4 (s_count e) ++ B) 1%nat (446 + 16 * p))
    by slot_field.
  rewrite (Hget (A ++ [s_status e] ++ s_first e) [s_type e] (s_last e ++ le_to 4 (s_start e) ++ le_to 4 (s_count e) ++ B) 1%nat (446 + 16 * p + 4))
    by slot_field.
  rewrite (Hget (A ++ [s_status e] ++ s_first e ++ [s_type e] ++ s_last e) (le_to 4 (s_start e)) (le_to 4 (s_count e) ++ B) 4%nat (446 + 16 * p + 8))
    by slot_field.
  rewrite (Hget (A ++ [s_status e] ++ s_first e ++ [s_type e] ++ s_last e ++ le_to 4 (s_start e)) (le_to 4 (s_count e)) B 4%nat (446 + 16 * p + 12))
    by slot_field.
  cbn [mbind outcome_bind]. rewrite !le_of_to by done. unfold entry_of. cbn [le_of]. do 2 f_equal; lia.
Qed.

Lemma mbr_run code e0 e1 e2 e3 rest :
  length code = 446%nat -> Forall slot_ok [e0; e1; e2; e3] ->
  exists sig, mbr_of (mbr_bytes code [e0; e1; e2; e3] rest) =
    Ret {| signature := sig; primaryPartitions := entry_of <$> [e0; e1; e2; e3]; magicnumber := 0xAA55 |}.
Proof.
  intros Hc Hes. repeat apply Forall_cons in Hes as [? Hes]. unfold mbr_of.
  set (s := mbr_bytes code _ rest). set (tail := [0x55; 0xAA] ++ rest).
  assert (s = code ++ slot_bytes e0 ++ slot_bytes e1 ++ slot_bytes e2 ++ slot_bytes e3 ++ tail) as Hs
    by (unfold s, mbr_bytes; cbn [flat_map]; by rewrite app_nil_r, <- !app_assoc).
  clearbody s. assert (length (slot_bytes e0) = 16 /\ length (slot_bytes e1) = 16 /\ length (slot_bytes e2) = 16 /\
    length (slot_bytes e3) = 16)%nat as (L0 & L1 & L2 & L3) by (by rewrite !slot_length).
  assert (500 <= length s)%nat by (rewrite Hs, !length_app; lia).
  assert (get 4 s 440 = Ret (le_of (take 4 (drop 440 s)))) as -> by (apply get_in; lia).
  assert (partition_at s 0 = Ret (entry_of e0)) as ->
    by (rewrite Hs; apply partition_at_run; [done | lia]).
  assert (partition_at s 1 = Ret (entry_of e1)) as ->
    by (rewrite Hs, app_assoc; apply partition_at_run; [done | rewrite !length_app; lia]).
  assert (partition_at s 2 = Ret (entry_of e2)) as ->
    by (rewrite Hs, !app_assoc, <- (app_assoc _ _ tail), <- (app_assoc _ _ (_ ++ tail)); apply partition_at_run; [done | rewrite !length_app; lia]).
  assert (partition_at s 3 = Ret (entry_of e3)) as ->
    by (rewrite Hs, !app_assoc, <- (app_assoc _ _ tail); apply partition_at_run; [done | rewrite !length_app; lia]).
  assert (get 2 s 510 = Ret 0xAA55) as ->
    by (rewrite Hs, !app_assoc; unfold tail; apply (get_at 2); [done | rewrite !length_app; lia]).
  by eexists.
Qed.

Lemma recorded_list es : forall p, recorded (Z.of_nat p) (entry_of <$> es) =
  omap (fun x : nat * slot => let (i, e) := x in
    if decide (e.(s_type) = 0) then None
    else Some {| PartitionType := e.(s_type); GUID := Z.of_nat i; startLBA := e.(s_start) mod 256;
                 endLBA := (e.(s_start) + e.(s_count)) mod 256; p_attributes := e.(s_status) |}) (imap (fun i => pair (p + i)%nat) es).
Proof.
  induction es as [| e es IH]; intros p; [done |]. rewrite fmap_cons, imap_cons. cbn [recorded omap list_omap entry_of partition_id].
  replace (Z.of_nat p + 1) with (Z.of_nat (S p)) by lia. rewrite IH, Nat.add_0_r.
  replace (imap (fun i => pair (S p + i)%nat) es) with (imap ((fun i => pair (p + i)%nat) ∘ S) es)
    by (apply imap_ext; intros i x _; cbn; f_equal; lia).
  destruct (Z.eqb_spec e.(s_type) 0); [by rewrite decide_True |]. rewrite decide_False by done. cbn [app]. f_equal.
  unfold partition_info, wrap. cbn [partition_id start_lba length_ bootable]. f_equal. by rewrite Z.add_mod_idemp_l.
Qed.

Lemma partition_list_recorded es : partition_list es = recorded 0 (entry_of <$> es).
Proof. symmetry. apply (recorded_list es 0). Qed.

Lemma volume_initialises d e r : volume_of d e r -> initialises d (entry_of e) r.
Proof.
  unfold volume_of, initialises, is_fat_id. cbn [entry_of partition_id start_lba]. set (t := s_type e).
  intros Hr. replace ((t =? 11) || (t =? 12) || (t =? 1) || (t =? 4) || (t =? 6)) with (bool_decide (t ∈ fat_types)); [by case_decide; [rewrite bool_decide_true | rewrite bool_decide_false] |].
  apply eq_true_iff_eq. rewrite bool_decide_eq_true, !orb_true_iff, !Z.eqb_eq. unfold fat_types. set_solver.
Qed.

(** C32: a disk with a partition table. When the first sector of a disk that is no floppy has a table of
    four entries in the usual format, every entry with a type is recorded on
    the disk, in order, with its place in the table, its type, its status and its sector numbers cut to bytes;
    for each one of a FAT type (1, 4, 6, 11 or 12) on which [Initialize] succeeds at the entry's first sector a
    volume of this disk is mounted behind the volumes there are, in the order of the table; nothing else changes. *)
Theorem DetectAndLoadFilesystem_mounts fresh s disk d code e0 e1 e2 e3 rest rs :
  s.1.(world) !! disk = Some d -> ReadSector d 0 = Some (mbr_bytes code [e0; e1; e2; e3] rest) ->
  length code = 446%nat -> Forall slot_ok [e0; e1; e2; e3] -> (length rest <= 2048 - 512)%nat ->
  d.(m_Type) <> Floppy -> (length d.(m_Partitions) + 4 <= 128)%nat ->
  Forall2 (volume_of d) [e0; e1; e2; e3] rs -> NoDup ((fun x => fresh x.1) <$> found_volumes 0 rs) ->
  exists s', DetectAndLoadFilesystem fresh s disk = Ret s' /\
    s'.1.(world) = <[disk := with_partitions d (d.(m_Partitions) ++ partition_list [e0; e1; e2; e3])]> s.1.(world) /\
    s'.2 = {| Filesystems := s.2.(Filesystems) ++ ((fun x => fresh x.1) <$> found_volumes 0 rs);
              bootPartitionID := s.2.(bootPartitionID) |} /\
    (forall q, q ∉ (fun x => fresh x.1) <$> found_volumes 0 rs -> s'.1.(volumes) !! q = s.1.(volumes) !! q) /\
    (forall x, x ∈ found_volumes 0 rs -> exists v, s'.1.(volumes) !! fresh x.1 = Some v /\
       v.(v_disk) = disk /\ with_disk v.(v_fat) d = x.2).
Proof.
  intros Hd Hl Hcode Hslots Hrest Htype Hroom Hes Hnd. unfold DetectAndLoadFilesystem. rewrite Hd, Hl.
  set (l := mbr_bytes code [e0; e1; e2; e3] rest).
  assert (length l = 512 + length rest)%nat as Hlen.
  { unfold l, mbr_bytes. cbn [flat_map]. pose proof Hslots as Hs. repeat apply Forall_cons in Hs as [? Hs].
    rewrite !length_app, Hcode, !slot_length by done. cbn [length]. lia. }
  destruct (Nat.ltb_spec 2048 (length l)); [lia |].
  assert (l ++ replicate (2048 - length l) 0 = mbr_bytes code [e0; e1; e2; e3] (rest ++ replicate (2048 - length l) 0)) as ->
    by (unfold l, mbr_bytes; by rewrite <- !app_assoc).
  destruct (mbr_run code e0 e1 e2 e3 (rest ++ replicate (2048 - length l) 0) Hcode Hslots) as (sig & ->).
  cbn [mbind outcome_bind magicnumber primaryPartitions].
  rewrite Z.eqb_refl. cbn [negb]. rewrite bool_decide_false by done. rewrite partition_list_recorded.
  apply Detect_loop_run; [rewrite Hd; by destruct d | done | | done].
  apply Forall2_fmap_l. eapply Forall2_impl; [exact Hes |]. intros e r Hr. by apply volume_initialises.
Qed.

(** Fact: a disk index that does not exist is answered with success, and an index
    other than 0 addresses an object behind the first disk, not the next disk of
    the list. *)
Theorem DM_ReadSector_index (w : disks) m diskIndex sector :
  (Z.of_nat (length m.(m_Disks)) <= diskIndex -> DM_ReadSector w m diskIndex sector = Ret (true, None)) /\
  (forall front ds, m.(m_Disks) = front :: ds -> 0 <= diskIndex <= Z.of_nat (length ds) ->
     w !! (front + diskIndex * sizeof_Disk) = None -> DM_ReadSector w m diskIndex sector = Fault).
Proof.
  unfold DM_ReadSector, disk_at. split.
  - intros Hl. destruct (Z.ltb_spec diskIndex (Z.of_nat (length (m_Disks m)))); [lia | done].
  - intros front ds -> Hi Hw. rewrite Hw. cbn [length]. destruct (Z.ltb_spec diskIndex (Z.of_nat (S (length ds)))); [done | lia].
Qed.
End detection.

(** ** A disk with two partitions, one of them FAT *)

Definition demo_slot (type start n : Z) : slot :=
  {| s_status := 0x80; s_first := [1; 1; 0]; s_type := type; s_last := [9; 9; 9]; s_start := start; s_count := n |}.
Definition no_slot : slot := {| s_status := 0; s_first := [0; 0; 0]; s_type := 0; s_last := [0; 0; 0]; s_start := 0; s_count := 0 |}.
Definition mbr_sector : list Z :=
  mbr_bytes (replicate 446 0) [demo_slot 0x83 64 100; no_slot; demo_slot 0x04 300 2880; no_slot] [].
Definition boot_sector : list Z :=
  replicate 11 0 ++ le_to 2 512 ++ [1] ++ le_to 2 1 ++ [2] ++ le_to 2 224 ++ le_to 2 2880 ++ [0xF8] ++ le_to 2 9 ++
  replicate 488 0.
Definition parted_disk : Disk ram_drive :=
  new_Disk (<[(0, 0) := mbr_sector]> (<[(0, 300) := boot_sector]> ∅)) 0 HardDisk.
Definition parted_fat : option (FAT ram_drive) :=
  match Initialize parted_disk 300 with Ret r => r | _ => None end.
Definition parted_state : system (gmap Z (Disk ram_drive)) (volume ram_drive) * VFSManager :=
  ({| world := {[0x10 := parted_disk]}; volumes := ∅ |}, new_VFSManager).

Lemma DetectAndLoadFilesystem_mounts_witness : exists s',
  DetectAndLoadFilesystem (fun p => 0x100 + p) parted_state 0x10 = Ret s' /\
  s'.2.(Filesystems) = [0x102] /\
  (fun d => (fun i => (GUID i, startLBA i, endLBA i)) <$> d.(m_Partitions)) <$> (s'.1.(world) !! 0x10) = Some [(0, 64, 164); (2, 44, 108)].
Proof.
  destruct (DetectAndLoadFilesystem_mounts (fun p => 0x100 + p) parted_state 0x10 parted_disk (replicate 446 0)
              (demo_slot 0x83 64 100) no_slot (demo_slot 0x04 300 2880) no_slot []
              [None; None; parted_fat; None]) as (s' & Hrun & Hw & Hm & _).
  - reflexivity.
  - reflexivity.
  - reflexivity.
  - repeat (constructor; [repeat split; vm_compute; congruence |]). constructor.
  - cbn. lia.
  - discriminate.
  - vm_compute. repeat constructor.
  - repeat (constructor; [vm_compute; reflexivity |]). constructor.
  - vm_compute. repeat constructor. apply not_elem_of_nil.
  - exists s'. split; [exact Hrun |]. rewrite Hm, Hw. split; vm_compute; reflexivity.
Defined.
