(* ===== verification/RamDrive.v ===== *)
(** The RAM drive: a table of files in the first page of a block of memory
    (src/src/Ramdrive.h, RamDrive.cpp) and the driver that opens and reads them
    (kernel/drivers/io/RamDriveDriver.cpp, kernel/objects/KFile.h).

    The drive is bytes of the memory of CMemory; the specification is the list of
    its files. *)
From Stdlib Require Import ZArith Lia String.
From S2P Require Import Prelude CMemory CrtString OSSystem.

Definition EntrySize : Z := 32.
Definition MAX_NAME : Z := EntrySize - 4 - 8.
Definition MAX_ENTRIES : Z := PageSize / EntrySize.

(** [m_superblock] is [m_address]; the constructor starts the pages behind the
    table. *)
Record RamDrive := { m_address : Z; m_size : Z; m_pageWatermark : Z }.
Definition new_RamDrive (address size : Z) : RamDrive :=
  {| m_address := address; m_size := size; m_pageWatermark := 1 |}.

(** The fields of the entry at an index: [Name], [PageNumber] and [Length]. *)
Definition Name_at (r : RamDrive) (index : Z) : Z := u64 (r.(m_address) + u64 (index * EntrySize)).
Definition PageNumber_at (r : RamDrive) (index : Z) : Z := Name_at r index + MAX_NAME.
Definition Length_at (r : RamDrive) (index : Z) : Z := Name_at r index + MAX_NAME + 4.

Definition Clear (m : mem) (r : RamDrive) : outcome mem := r ← memset m r.(m_address) 0 PageSize; Ret r.1.

(** The loop over the entries, [n] of them left. *)
Fixpoint FileCount_loop (n : nat) (m : mem) (r : RamDrive) (index : Z) : outcome Z :=
  match n with
  | O => Ret index
  | S n => c ← load8 m (Name_at r index);
           if c =? 0 then Ret index else FileCount_loop n m r (index + 1)
  end.
Definition FileCount (m : mem) (r : RamDrive) : outcome Z := FileCount_loop (Z.to_nat MAX_ENTRIES) m r 0.

(** Whether the file is there, and its index or that of the next free entry. *)
Fixpoint GetFileIndex_loop (n : nat) (m : mem) (r : RamDrive) (name index : Z) : outcome (bool * Z) :=
  match n with
  | O => Ret (false, u64 (-1))
  | S n =>
      c ← load8 m (Name_at r index);
      if c =? 0 then Ret (false, index)
      else
        d ← strcmp m name (Name_at r index);
        if d =? 0 then Ret (true, index) else GetFileIndex_loop n m r name (index + 1)
  end.
Definition GetFileIndex (m : mem) (r : RamDrive) (name : Z) : outcome (bool * Z) :=
  GetFileIndex_loop (Z.to_nat MAX_ENTRIES) m r name 0.

(** The memory, the drive and the address of the new file. *)
Definition Allocate (m : mem) (r : RamDrive) (name size : Z) : outcome (mem * RamDrive * Z) :=
  i ← GetFileIndex m r name;
  let index := i.2 in
  c ← strcpy m (Name_at r index) name;
  m ← store_le 4 c.1 (PageNumber_at r index) (u32 r.(m_pageWatermark));
  m ← store64 m (Length_at r index) size;
  let address := u64 (r.(m_address) + u64 (Z.shiftl r.(m_pageWatermark) PageShift)) in
  Ret (m, {| m_address := r.(m_address); m_size := r.(m_size);
             m_pageWatermark := u64 (r.(m_pageWatermark) + SizeToPages size) |}, address).

(** The address and the length of a file, or [None] where the code returns false. *)
Definition Open (m : mem) (r : RamDrive) (name : Z) : outcome (option (Z * Z)) :=
  i ← GetFileIndex m r name;
  if (i.1 : bool) then
    length ← load64 m (Length_at r i.2);
    page ← load_le 4 m (PageNumber_at r i.2);
    Ret (Some (u64 (r.(m_address) + u64 (Z.shiftl page PageShift)), length))
  else Ret None.

(** ** The driver *)

Inductive GenericAccess := Read | Write | ReadWrite.
#[global] Instance GenericAccess_eq_dec : EqDecision GenericAccess.
Proof. solve_decision. Defined.

Record KFile := { Access : GenericAccess; Length : Z; Position : Z; Context : Z }.

Definition opened (access : GenericAccess) (a : Z * Z) : KFile :=
  {| Access := access; Length := a.2; Position := 0; Context := a.1 |}.

(** [None] is [Result::Failed]. *)
Definition OpenFile (m : mem) (r : RamDrive) (path : Z) (access : GenericAccess) : outcome (option KFile) :=
  _ ← Assert (bool_decide (access = Read));
  o ← Open m r path;
  Ret (option_map (opened access) o).

Definition ReadFile (m : mem) (handle : KFile) (buffer bytesToRead : Z) : outcome (mem * Z) :=
  _ ← Assert (handle.(Position) <? handle.(Length));
  let read := Z.min bytesToRead (u64 (handle.(Length) - handle.(Position))) in
  r ← memcpy m buffer (u64 (handle.(Context) + handle.(Position))) read;
  Ret (r.1, read).

(** ** The files of a drive *)

Record ram_file := { rname : list Z; rpage : Z; rlen : Z }.

Definition name_bytes (s : list Z) : list Z := s ++ replicate (20 - length s) 0.
Definition encode (f : ram_file) : list Z := name_bytes f.(rname) ++ le_to 4 f.(rpage) ++ le_to 8 f.(rlen).
Definition superblock (files : list ram_file) : list Z :=
  flat_map encode files ++ replicate (32 * (128 - length files)) 0.

Definition name_ok (s : list Z) : Prop := (1 <= length s <= 19)%nat /\ Forall (fun b => b <> 0) s.
Definition file_ok (f : ram_file) : Prop := name_ok f.(rname) /\ 0 <= f.(rpage) < 2 ^ 32 /\ 0 <= f.(rlen) < 2 ^ 64.

(** The files are one behind the other, from page [p] up to the watermark [w]. *)
Fixpoint laid_out (p : Z) (files : list ram_file) (w : Z) : Prop :=
  match files with
  | [] => w = p
  | f :: files => f.(rpage) = p /\ laid_out (p + SizeToPages f.(rlen)) files w
  end.

(** The drive in memory holds the files. *)
Record drive_ok (m : mem) (r : RamDrive) (files : list ram_file) : Prop := {
  dr_mem : mem_ok m;
  dr_range : 0 <= r.(m_address) /\ r.(m_address) + 4096 <= 2 ^ 64;
  dr_bytes : bytes_at m r.(m_address) (superblock files);
  dr_count : (length files <= 128)%nat;
  dr_files : Forall file_ok files;
  dr_pages : laid_out 1 files r.(m_pageWatermark) /\ 0 <= r.(m_pageWatermark) < 2 ^ 32
}.

Lemma name_bytes_length s : name_ok s -> length (name_bytes s) = 20%nat.
Proof. intros [? _]. unfold name_bytes. rewrite length_app, length_replicate. lia. Qed.

Lemma encode_length f : file_ok f -> length (encode f) = 32%nat.
Proof. intros [Hn _]. unfold encode. rewrite !length_app, !le_to_length, name_bytes_length by done. done. Qed.

Lemma encode_files_length files : Forall file_ok files -> length (flat_map encode files) = (32 * length files)%nat.
Proof.
  induction 1 as [|f files Hf Hfs IH]; [done |]. cbn [flat_map length]. rewrite length_app, encode_length, IH by done. lia.
Qed.

Lemma superblock_length files :
  Forall file_ok files -> (length files <= 128)%nat -> length (superblock files) = 4096%nat.
Proof. intros. unfold superblock. rewrite length_app, encode_files_length, length_replicate by done. lia. Qed.

Lemma Name_at_run m r files i :
  drive_ok m r files -> 0 <= i < 128 -> Name_at r i = r.(m_address) + 32 * i.
Proof.
  intros [_ Hr _ _ _ _] Hi. unfold Name_at. change EntrySize with 32. rewrite (wrap_small 64 (i * 32)) by lia.
  rewrite wrap_small by lia. lia.
Qed.

(** The entry of a file, and the free entries. *)
Lemma entry_bytes m r files i f :
  drive_ok m r files -> files !! i = Some f -> bytes_at m (Name_at r (Z.of_nat i)) (encode f).
Proof.
  intros Hd Hi. pose proof (lookup_lt_Some _ _ _ Hi). pose proof (dr_count _ _ _ Hd).
  rewrite (Name_at_run m r files) by (done || lia).
  pose proof (dr_files _ _ _ Hd) as Hf. pose proof (dr_bytes _ _ _ Hd) as Hb.
  apply list_elem_of_split_length in Hi as (l1 & l2 & -> & ->). apply Forall_app in Hf as [Hf1 Hf2].
  unfold superblock in Hb. rewrite flat_map_app, <- app_assoc in Hb. apply bytes_at_app in Hb as [_ Hb].
  cbn [flat_map] in Hb. rewrite <- app_assoc in Hb. apply bytes_at_app in Hb as [Hb _].
  rewrite encode_files_length in Hb by done. by replace (m_address r + 32 * Z.of_nat (length l1)) with (m_address r + Z.of_nat (32 * length l1)) by lia.
Qed.

Lemma free_bytes m r files :
  drive_ok m r files -> (length files < 128)%nat ->
  bytes_at m (Name_at r (Z.of_nat (length files))) (replicate 32 0).
Proof.
  intros Hd Hl. rewrite (Name_at_run m r files) by (done || lia).
  pose proof (dr_bytes _ _ _ Hd) as Hb. unfold superblock in Hb. apply bytes_at_app in Hb as [_ Hb].
  rewrite encode_files_length in Hb by apply Hd.
  replace (32 * (128 - length files))%nat with (32 + 32 * (127 - length files))%nat in Hb by lia.
  rewrite replicate_add in Hb. apply bytes_at_app in Hb as [Hb _].
  by replace (m_address r + 32 * Z.of_nat (length files)) with (m_address r + Z.of_nat (32 * length files)) by lia.
Qed.

(** The name of a file as a string: the entry is zeroed behind it. *)
Lemma entry_cstr m a f : file_ok f -> bytes_at m a (encode f) -> cstr m a f.(rname).
Proof.
  intros [[Hl Hz] _] Hb. split; [| done]. unfold encode, name_bytes in Hb.
  replace (20 - length (rname f))%nat with (S (19 - length (rname f))) in Hb by lia. cbn [replicate] in Hb.
  rewrite <- app_assoc in Hb. apply bytes_at_app in Hb as [H1 H2]. apply bytes_at_app. split; [exact H1 |].
  cbn [app] in H2. apply bytes_at_cons in H2 as [H2 _]. apply bytes_at_cons. split; [exact H2 | apply bytes_at_nil].
Qed.

(** ** Looking a name up *)

Definition find_ram (s : list Z) (files : list ram_file) : option (nat * ram_file) := list_find (fun f => f.(rname) = s) files.

Lemma GetFileIndex_run m r files name s :
  drive_ok m r files -> cstr m name s ->
  GetFileIndex m r name = Ret (match find_ram s files with
    | Some (i, _) => (true, Z.of_nat i)
    | None => (false, if (length files <? 128)%nat then Z.of_nat (length files) else u64 (-1))
    end).
Proof.
  intros Hd Hs. unfold GetFileIndex. change (Z.to_nat MAX_ENTRIES) with 128%nat. pose proof (dr_count _ _ _ Hd) as Hcnt.
  assert (forall k i, (i + k = length files)%nat ->
    GetFileIndex_loop (k + (128 - length files)) m r name (Z.of_nat i) =
    Ret (match list_find (fun f => f.(rname) = s) (drop i files) with
         | Some (j, _) => (true, Z.of_nat (i + j))
         | None => (false, if (length files <? 128)%nat then Z.of_nat (length files) else u64 (-1))
         end)) as Hloop.
  { induction k as [|k IH]; intros i Hi.
    - rewrite drop_ge by lia. cbn [Nat.add list_find]. replace i with (length files) by lia.
      destruct (Nat.ltb_spec (length files) 128) as [Hlt | Hge].
      + destruct (128 - length files)%nat as [|n] eqn:Hn; [lia |]. cbn [GetFileIndex_loop].
        pose proof (free_bytes m r files Hd Hlt) as Hb. cbn [replicate] in Hb. apply bytes_at_cons in Hb as [Hb _].
        rewrite (load8_eq _ _ _ Hb). cbn [mbind outcome_bind]. done.
      + by replace (128 - length files)%nat with 0%nat by lia.
    - destruct (lookup_lt_is_Some_2 files i) as [f Hf]; [lia |].
      pose proof (Forall_lookup_1 _ _ _ _ (dr_files _ _ _ Hd) Hf) as Hok.
      pose proof (entry_bytes m r files i f Hd Hf) as Hb. pose proof (entry_cstr _ _ _ Hok Hb) as Hc.
      rewrite (drop_S _ _ _ Hf). cbn [Nat.add GetFileIndex_loop list_find].
      destruct Hok as [[Hlen Hz] _]. destruct (rname f) as [|b nm] eqn:Hnm; [cbn in Hlen; lia |].
      pose proof Hc as (H0 & Hb0 & _)%cstr_cons. rewrite (load8_eq _ _ _ H0). cbn [mbind outcome_bind].
      destruct (Z.eqb_spec b 0); [done |]. unfold strcmp.
      rewrite (strcmp_loop_spec _ _ _ _ s (b :: nm)) by (done || apply Hd || (apply cstr_size in Hs; unfold walk_fuel; lia)).
      cbn [mbind outcome_bind]. pose proof (str_compare_zero s (b :: nm) (proj2 Hs) Hz) as Hcmp.
      destruct (Z.eqb_spec (str_compare s (b :: nm)) 0) as [He | Hne].
      + rewrite decide_True by (symmetry; by apply Hcmp). by rewrite Nat.add_0_r.
      + rewrite decide_False by (intros He; apply Hne, Hcmp; done).
        replace (Z.of_nat i + 1) with (Z.of_nat (S i)) by lia. rewrite IH by lia.
        destruct (list_find _ (drop (S i) files)) as [[j g]|]; cbn; [| done].
        by replace (i + S j)%nat with (S (i + j)) by lia. }
  specialize (Hloop (length files) 0%nat). cbn [Nat.add drop] in Hloop. change (Z.of_nat 0) with 0 in Hloop.
  replace (length files + (128 - length files))%nat with 128%nat in Hloop by lia. unfold find_ram. rewrite Hloop; [done | lia].
Qed.

Lemma Open_run m r files name s :
  drive_ok m r files -> cstr m name s ->
  Open m r name = Ret (match find_ram s files with
    | Some (_, f) => Some (u64 (r.(m_address) + f.(rpage) * PageSize), f.(rlen))
    | None => None
    end).
Proof.
  intros Hd Hs. unfold Open. rewrite (GetFileIndex_run m r files name s) by done. cbn [mbind outcome_bind].
  destruct (find_ram s files) as [[i f]|] eqn:Hf; [| done]. cbn [fst snd].
  apply list_find_Some in Hf as (Hi & _ & _).
  pose proof (entry_bytes m r files i f Hd Hi) as Hb. destruct (Forall_lookup_1 _ _ _ _ (dr_files _ _ _ Hd) Hi) as (Hn & Hp & Hl).
  unfold encode in Hb. apply bytes_at_app in Hb as [_ Hb]. rewrite name_bytes_length in Hb by done.
  apply bytes_at_app in Hb as [H1 H2]. rewrite le_to_length in H2.
  unfold load_le, Length_at, PageNumber_at. change MAX_NAME with 20.
  change (Z.of_nat 20) with 20 in *. change (Z.of_nat 4) with 4 in *.
  rewrite (proj2 (load_bytes_Ret m _ 8 (le_to 8 (rlen f)))) by (by split).
  rewrite (proj2 (load_bytes_Ret m _ 4 (le_to 4 (rpage f)))) by (by split).
  cbn [mbind outcome_bind]. rewrite !le_of_to by done. rewrite Z.shiftl_mul_pow2 by done.
  change (2 ^ PageShift) with PageSize. change PageSize with 4096. rewrite (wrap_small 64 (rpage f * 4096)) by lia. done.
Qed.

(** Fact: [Open] finds exactly the files of the drive: the address of the first page
    and the length of the first file of the name, and nothing for other names. *)
Theorem Open_finds m r files name s :
  drive_ok m r files -> cstr m name s ->
  Open m r name = Ret (match find_ram s files with
    | Some (_, f) => Some (u64 (r.(m_address) + f.(rpage) * PageSize), f.(rlen))
    | None => None
    end).
Proof. apply Open_run. Qed.

(** ** Adding a file *)

(** [m'] is [m] with the bytes [l] stored at [a]. *)
Definition stored_at (m : mem) (a : Z) (l : list Z) (m' : mem) : Prop :=
  forall x, m' !! x = if (a <=? x) && (x <? a + Z.of_nat (length l)) then l !! Z.to_nat (x - a) else m !! x.

Lemma stored_outside m a l m' : stored_at m a l m' -> same_outside m m' a (Z.of_nat (length l)).
Proof. intros H x Hx. rewrite H. repeat zcase; try lia; done. Qed.

Lemma stored_inside m a l m' : stored_at m a l m' -> bytes_at m' a l.
Proof.
  intros H i b Hi. pose proof (lookup_lt_Some _ _ _ Hi). rewrite H. repeat zcase; try lia. cbn.
  rewrite <- Hi. f_equal. lia.
Qed.

Lemma stored_ok m a l m' : stored_at m a l m' -> mem_ok m -> Forall is_byte l -> mem_ok m'.
Proof.
  intros H Hm Hl x b. rewrite H. case_match; [apply Forall_lookup_1; exact Hl | apply Hm].
Qed.

Lemma stored_update m a l m' c l1 l0 l2 :
  stored_at m a l m' -> bytes_at m c (l1 ++ l0 ++ l2) -> a = c + Z.of_nat (length l1) -> length l0 = length l ->
  bytes_at m' c (l1 ++ l ++ l2).
Proof.
  intros H Hb -> Hl. pose proof (stored_outside _ _ _ _ H) as Ho.
  apply bytes_at_app in Hb as [H1 H2]. apply bytes_at_app in H2 as [_ H2]. rewrite Hl in H2.
  apply bytes_at_app. split; [eapply bytes_at_outside; [exact Ho | lia | exact H1] |].
  apply bytes_at_app. split; [by eapply stored_inside |]. eapply bytes_at_outside; [exact Ho | lia | exact H2].
Qed.

Lemma blit_stored m d q s m' : blit m d q (Z.of_nat (length s)) m' -> bytes_at m q s -> stored_at m d s m'.
Proof.
  intros Hbl Hs x. rewrite Hbl. destruct (Z.leb_spec d x), (Z.ltb_spec x (d + Z.of_nat (length s))); cbn; try done.
  destruct (lookup_lt_is_Some_2 s (Z.to_nat (x - d))) as [b Hb]; [lia |]. rewrite Hb, <- (Hs _ _ Hb). f_equal. lia.
Qed.

Lemma store_le_run n m a v : mapped m a (Z.of_nat n) -> exists m', store_le n m a v = Ret m' /\ stored_at m a (le_to n v) m'.
Proof. intros Hm. apply (store_bytes_spec m a (le_to n v)); [by rewrite le_to_length | apply le_to_bytes]. Qed.

Lemma bytes_mapped m a l x n : bytes_at m a l -> a <= x -> x + n <= a + Z.of_nat (length l) -> mapped m x n.
Proof.
  intros Hb H1 H2 y Hy. destruct (lookup_lt_is_Some_2 l (Z.to_nat (y - a))) as [b Hi]; [lia |].
  exists b. rewrite <- (Hb _ _ Hi). f_equal. lia.
Qed.

Lemma strcpy_run m d q s :
  mem_ok m -> cstr m q s -> mapped m d (Z.of_nat (length s)) -> q + Z.of_nat (length s) < d \/ d + Z.of_nat (length s) <= q ->
  exists m', strcpy m d q = Ret (m', d) /\ stored_at m d s m'.
Proof.
  intros Hok Hs Hd Ho. unfold strcpy, strncpy. rewrite (strlen_cstr m q s) by done. cbn [mbind outcome_bind].
  pose proof (cstr_mapped m q s Hs) as Hq. pose proof Hs as [[Hb _]%bytes_at_app _].
  destruct (memcpy_blit m d q (Z.of_nat (length s))) as (m' & -> & Hbl); [done | lia | done | done | lia |].
  exists m'. split; [done |]. by eapply blit_stored.
Qed.

Lemma superblock_split files :
  (length files < 128)%nat ->
  superblock files = flat_map encode files ++ replicate 32 0 ++ replicate (32 * (127 - length files)) 0.
Proof.
  intros Hl. unfold superblock. f_equal. rewrite <- replicate_add. f_equal. lia.
Qed.

(** Filling in the free entry piece by piece. *)
Lemma entry_written m a pre post s page len m1 m2 m3 :
  name_ok s -> bytes_at m a (pre ++ replicate 32 0 ++ post) ->
  stored_at m (a + Z.of_nat (length pre)) s m1 ->
  stored_at m1 (a + Z.of_nat (length pre) + 20) (le_to 4 page) m2 ->
  stored_at m2 (a + Z.of_nat (length pre) + 24) (le_to 8 len) m3 ->
  bytes_at m3 a (pre ++ encode {| rname := s; rpage := page; rlen := len |} ++ post).
Proof.
  intros [Hl _] Hb H1 H2 H3.
  replace (replicate 32 0) with (replicate (length s) 0 ++ (replicate (20 - length s) 0 ++ replicate 4 0 ++ replicate 8 0)) in Hb
    by (rewrite <- !replicate_add; f_equal; lia). rewrite <- !app_assoc in Hb.
  pose proof (stored_update m _ s m1 a pre (replicate (length s) 0) _ H1 Hb eq_refl ltac:(by rewrite length_replicate)) as B1.
  replace (pre ++ s ++ replicate (20 - length s) 0 ++ replicate 4 0 ++ replicate 8 0 ++ post)
    with ((pre ++ name_bytes s) ++ replicate 4 0 ++ replicate 8 0 ++ post) in B1
    by (unfold name_bytes; by rewrite <- !app_assoc).
  assert (length (pre ++ name_bytes s) = length pre + 20)%nat as L1.
  { unfold name_bytes. rewrite !length_app, length_replicate. lia. }
  pose proof (stored_update m1 _ (le_to 4 page) m2 a _ (replicate 4 0) _ H2 B1 ltac:(rewrite L1; lia) ltac:(by rewrite le_to_length)) as B2.
  rewrite app_assoc in B2.
  pose proof (stored_update m2 _ (le_to 8 len) m3 a _ (replicate 8 0) _ H3 B2
                ltac:(rewrite length_app, L1, le_to_length; lia) ltac:(by rewrite le_to_length)) as B3.
  unfold encode. cbn [rname rpage rlen]. by rewrite <- !app_assoc in B3 |- *.
Qed.

Lemma laid_out_app p files f w :
  laid_out p files w -> f.(rpage) = w -> laid_out p (files ++ [f]) (w + SizeToPages f.(rlen)).
Proof.
  revert p. induction files as [|g files IH]; intros p; cbn [laid_out app].
  - by intros -> ->.
  - intros [Hp Hl] Hf. split; [done | by apply IH].
Qed.

Lemma SizeToPages_nonneg n : 0 <= SizeToPages n.
Proof.
  unfold SizeToPages, DivRoundUp. apply Z.div_pos; [| done]. apply wrap_range. lia.
Qed.

(** Fact: [Allocate] refines adding a file at the end of the list: the new entry has
    the name, the length and the page at the watermark, whose address is returned;
    the pages follow those of the other files, and only the table is written. The
    table must have been zeroed, since the copied name has no terminator. *)
Theorem Allocate_adds m r files name s size :
  drive_ok m r files -> cstr m name s -> name_ok s -> find_ram s files = None -> (length files < 128)%nat ->
  0 <= size < 2 ^ 64 -> r.(m_pageWatermark) + SizeToPages size < 2 ^ 32 ->
  name + Z.of_nat (length s) < r.(m_address) \/ r.(m_address) + 4096 <= name ->
  let w := r.(m_pageWatermark) in
  let r' := {| m_address := r.(m_address); m_size := r.(m_size); m_pageWatermark := w + SizeToPages size |} in
  exists m', Allocate m r name size = Ret (m', r', u64 (r.(m_address) + w * PageSize)) /\
    drive_ok m' r' (files ++ [{| rname := s; rpage := w; rlen := size |}]) /\
    same_outside m m' r.(m_address) 4096.
Proof.
  intros Hd Hs Hn Hfind Hlt Hsize Hw Hout w r'. pose proof Hn as [Hl Hz].
  unfold Allocate. rewrite (GetFileIndex_run m r files name s) by done. rewrite Hfind.
  destruct (Nat.ltb_spec (length files) 128); [| lia]. cbn [mbind outcome_bind fst snd].
  unfold PageNumber_at, Length_at. change MAX_NAME with 20. rewrite (Name_at_run m r files) by (done || lia).
  pose proof (dr_bytes _ _ _ Hd) as Hb. rewrite superblock_split in Hb by done.
  pose proof (dr_range _ _ _ Hd) as [Hr1 Hr2]. pose proof (dr_mem _ _ _ Hd) as Hok.
  pose proof (encode_files_length files (dr_files _ _ _ Hd)) as Hel.
  pose proof (superblock_length files (dr_files _ _ _ Hd) (dr_count _ _ _ Hd)) as Hsl.
  pose proof (bytes_mapped m r.(m_address) (superblock files) r.(m_address) 4096 (dr_bytes _ _ _ Hd) ltac:(lia) ltac:(lia)) as Hmap.
  set (e := r.(m_address) + 32 * Z.of_nat (length files)).
  destruct (strcpy_run m e name s Hok Hs) as (m1 & Hc1 & H1); [eapply mapped_le; [exact Hmap | lia | lia] | lia |].
  pose proof (stored_ok _ _ _ _ H1 Hok (proj1 (proj1 (Forall_app _ _ _) (bytes_at_Forall _ _ _ Hok (proj1 Hs))))) as Hok1.
  rewrite Hc1. cbn [mbind outcome_bind fst].
  assert (forall a l ma mb, stored_at ma a l mb -> mapped ma r.(m_address) 4096 -> mapped mb r.(m_address) 4096) as Hkeep.
  { intros a l ma mb Hst Hma x Hx. rewrite Hst. destruct (Z.leb_spec a x), (Z.ltb_spec x (a + Z.of_nat (length l))); cbn; try by apply Hma.
    apply lookup_lt_is_Some_2. lia. }
  destruct (store_le_run 4 m1 (e + 20) (u32 r.(m_pageWatermark))) as (m2 & Hc2 & H2).
  { eapply mapped_le; [eapply Hkeep; [exact H1 | exact Hmap] | lia | lia]. }
  rewrite Hc2. cbn [mbind outcome_bind].
  destruct (store_le_run 8 m2 (e + 20 + 4) size) as (m3 & Hc3 & H3).
  { eapply mapped_le; [eapply Hkeep; [exact H2 | eapply Hkeep; [exact H1 | exact Hmap]] | lia | lia]. }
  rewrite Hc3. cbn [mbind outcome_bind].
  pose proof (SizeToPages_nonneg size). destruct (dr_pages _ _ _ Hd) as [Hlaid Hwr].
  rewrite Z.shiftl_mul_pow2 by done. change (2 ^ PageShift) with 4096. change PageSize with 4096.
  rewrite (wrap_small 64 (m_pageWatermark r * 4096)), (wrap_small 64 (m_pageWatermark r + _)) by lia.
  exists m3. split; [done |]. rewrite (wrap_small 32) in H2 by (unfold w; lia).
  replace (e + 20 + 4) with (e + 24) in H3 by lia.
  assert (e = r.(m_address) + Z.of_nat (length (flat_map encode files))) as He by (rewrite Hel; lia).
  rewrite He in H1, H2, H3.
  pose proof (entry_written _ _ _ _ _ _ _ _ _ _ Hn Hb H1 H2 H3) as B.
  split.
  - split.
    + eapply stored_ok; [exact H3 | eapply stored_ok; [exact H2 | exact Hok1 | apply le_to_bytes] | apply le_to_bytes].
    + done.
    + cbn [r' m_address]. unfold superblock. rewrite flat_map_app, length_app. cbn [flat_map length]. rewrite app_nil_r, <- app_assoc.
      replace (128 - (length files + 1))%nat with (127 - length files)%nat by lia. exact B.
    + rewrite length_app. cbn. lia.
    + apply Forall_app. split; [apply Hd |]. apply Forall_singleton. split; [done |]. cbn. unfold w. lia.
    + cbn [r' m_pageWatermark]. split; [| unfold w; lia]. by apply (laid_out_app 1 files {| rname := s; rpage := w; rlen := size |}).
  - intros x Hx. rewrite H3, H2, H1, !le_to_length. repeat zcase; try lia; done.
Qed.

(** Fact: on a full drive the index is -1 and the entry of the new file is written
    in front of the table, over whatever is there. *)
Theorem Allocate_full_underruns m r files name s size :
  drive_ok m r files -> cstr m name s -> name_ok s -> find_ram s files = None -> length files = 128%nat ->
  32 <= r.(m_address) -> mapped m (r.(m_address) - 32) 32 ->
  name + Z.of_nat (length s) < r.(m_address) - 32 \/ r.(m_address) + 4096 <= name ->
  exists m' r' a, Allocate m r name size = Ret (m', r', a) /\ bytes_at m' (r.(m_address) - 32) s.
Proof.
  intros Hd Hs Hn Hfind Hlt Haddr Hmap Hout. pose proof Hn as [Hl Hz].
  unfold Allocate. rewrite (GetFileIndex_run m r files name s) by done. rewrite Hfind, Hlt. cbn [Nat.ltb Nat.leb].
  cbn [mbind outcome_bind fst snd]. pose proof (dr_range _ _ _ Hd) as [Hr1 Hr2]. pose proof (dr_mem _ _ _ Hd) as Hok.
  assert (Name_at r (u64 (-1)) = r.(m_address) - 32) as He.
  { unfold Name_at. change (u64 (-1)) with (2 ^ 64 - 1). change EntrySize with 32.
    replace (u64 ((2 ^ 64 - 1) * 32)) with (2 ^ 64 - 32) by (vm_compute; reflexivity).
    unfold wrap. replace (m_address r + (2 ^ 64 - 32)) with (m_address r - 32 + 1 * 2 ^ 64) by lia.
    rewrite Z.mod_add by lia. apply Z.mod_small. lia. }
  unfold PageNumber_at, Length_at. change MAX_NAME with 20. rewrite He. set (e := r.(m_address) - 32) in *.
  destruct (strcpy_run m e name s Hok Hs) as (m1 & Hc1 & H1); [eapply mapped_le; [exact Hmap | lia | lia] | lia |].
  rewrite Hc1. cbn [mbind outcome_bind fst].
  assert (forall a l ma mb, stored_at ma a l mb -> mapped ma e 32 -> mapped mb e 32) as Hkeep.
  { intros a l ma mb Hst Hma x Hx. rewrite Hst. destruct (Z.leb_spec a x), (Z.ltb_spec x (a + Z.of_nat (length l))); cbn; try by apply Hma.
    apply lookup_lt_is_Some_2. lia. }
  destruct (store_le_run 4 m1 (e + 20) (u32 r.(m_pageWatermark))) as (m2 & Hc2 & H2).
  { eapply mapped_le; [eapply Hkeep; [exact H1 | exact Hmap] | lia | lia]. }
  rewrite Hc2. cbn [mbind outcome_bind].
  destruct (store_le_run 8 m2 (e + 20 + 4) size) as (m3 & Hc3 & H3).
  { eapply mapped_le; [eapply Hkeep; [exact H2 | eapply Hkeep; [exact H1 | exact Hmap]] | lia | lia]. }
  rewrite Hc3. cbn [mbind outcome_bind]. do 3 eexists. split; [done |].
  eapply bytes_at_outside; [exact (stored_outside _ _ _ _ H3) | lia |].
  eapply bytes_at_outside; [exact (stored_outside _ _ _ _ H2) | lia |]. by apply (stored_inside m).
Qed.

(** Fact: [FileCount] is the number of files. *)
Theorem FileCount_run m r files : drive_ok m r files -> FileCount m r = Ret (Z.of_nat (length files)).
Proof.
  intros Hd. unfold FileCount. change (Z.to_nat MAX_ENTRIES) with 128%nat. pose proof (dr_count _ _ _ Hd) as Hcnt.
  assert (forall k i, (i + k = length files)%nat ->
    FileCount_loop (k + (128 - length files)) m r (Z.of_nat i) = Ret (Z.of_nat (length files))) as Hloop.
  { induction k as [|k IH]; intros i Hi; cbn [Nat.add].
    - replace i with (length files) by lia. destruct (decide (length files = 128%nat)) as [-> | Hne]; [done |].
      replace (128 - length files)%nat with (S (127 - length files)) by lia. cbn [FileCount_loop].
      pose proof (free_bytes m r files Hd ltac:(lia)) as Hb. cbn [replicate] in Hb. apply bytes_at_cons in Hb as [Hb _].
      by rewrite (load8_eq _ _ _ Hb).
    - cbn [FileCount_loop]. destruct (lookup_lt_is_Some_2 files i) as [f Hf]; [lia |].
      pose proof (Forall_lookup_1 _ _ _ _ (dr_files _ _ _ Hd) Hf) as Hok.
      pose proof (entry_cstr _ _ _ Hok (entry_bytes m r files i f Hd Hf)) as Hc.
      destruct Hok as [[Hlen Hz] _]. destruct (rname f) as [|b nm]; [cbn in Hlen; lia |].
      apply cstr_cons in Hc as (H0 & Hb0 & _). rewrite (load8_eq _ _ _ H0). cbn [mbind outcome_bind].
      destruct (Z.eqb_spec b 0); [done |]. replace (Z.of_nat i + 1) with (Z.of_nat (S i)) by lia. apply IH. lia. }
  specialize (Hloop (length files) 0%nat eq_refl). replace (length files + (128 - length files))%nat with 128%nat in Hloop by lia. exact Hloop.
Qed.

Lemma laid_out_disjoint files p w i j f g :
  laid_out p files w -> files !! i = Some f -> files !! j = Some g -> (i < j)%nat ->
  f.(rpage) + SizeToPages f.(rlen) <= g.(rpage).
Proof.
  assert (forall files p w j g, laid_out p files w -> files !! j = Some g -> p <= g.(rpage)) as Hlow.
  { clear. induction files as [|f files IH]; intros p w j g Hl Hj; [done |]. destruct Hl as [Hp Hl].
    destruct j as [|j]; [injection Hj as <-; lia |]. pose proof (IH _ _ _ _ Hl Hj). pose proof (SizeToPages_nonneg (rlen f)). lia. }
  revert p i j. induction files as [|h files IH]; intros p i j Hl Hi Hj Hij; [done |]. destruct Hl as [Hp Hl].
  destruct i as [|i], j as [|j]; try lia.
  - injection Hi as ->. cbn in Hj. rewrite Hp. by eapply Hlow.
  - cbn in Hi, Hj. eapply IH; [exact Hl | exact Hi | exact Hj | lia].
Qed.

(** Fact: opening a file and reading from it. The handle is at the start of the file;
    a read of at most the rest of the file copies exactly the bytes asked for into
    the caller's buffer. *)
Theorem OpenFile_ReadFile m r files name s i f data buffer n :
  drive_ok m r files -> cstr m name s -> find_ram s files = Some (i, f) -> 0 < f.(rlen) ->
  r.(m_address) + f.(rpage) * PageSize + f.(rlen) <= 2 ^ 64 ->
  bytes_at m (r.(m_address) + f.(rpage) * PageSize) data -> Z.of_nat (length data) = f.(rlen) ->
  0 <= n <= f.(rlen) -> mapped m buffer n ->
  (buffer <= r.(m_address) + f.(rpage) * PageSize \/ r.(m_address) + f.(rpage) * PageSize + n <= buffer) ->
  exists h m', OpenFile m r name Read = Ret (Some h) /\ ReadFile m h buffer n = Ret (m', n) /\
    bytes_at m' buffer (take (Z.to_nat n) data).
Proof.
  intros Hd Hs Hf Hpos Hend Hdata Hlen Hn Hmap Ho. change PageSize with 4096 in *.
  assert (Open m r name = Ret (Some (u64 (m_address r + rpage f * 4096), rlen f))) as Hopen
    by (pose proof (Open_run m r files name s Hd Hs) as Ho'; by rewrite Hf in Ho').
  unfold OpenFile. cbn [Assert bool_decide]. rewrite bool_decide_true by done. cbn [Assert mbind outcome_bind].
  rewrite Hopen. cbn [mbind outcome_bind option_map]. exists (opened Read (m_address r + rpage f * 4096, rlen f)). pose proof (dr_range _ _ _ Hd) as [Hr1 Hr2].
  apply list_find_Some in Hf as (Hi & _ & _). destruct (Forall_lookup_1 _ _ _ _ (dr_files _ _ _ Hd) Hi) as (_ & Hp & Hl).
  rewrite (wrap_small 64 (m_address r + rpage f * 4096)) by lia.
  unfold ReadFile, opened. cbn [fst snd Position Length Context]. destruct (Z.ltb_spec 0 (rlen f)); [| lia].
  cbn [Assert mbind outcome_bind]. rewrite Z.sub_0_r, Z.add_0_r, !wrap_small by lia. rewrite Z.min_l by lia.
  set (src := m_address r + rpage f * 4096) in *.
  destruct (memcpy_blit m buffer src n) as (m' & Hc & Hbl); [apply Hd | lia | | done | lia |].
  { eapply bytes_mapped; [exact Hdata | lia | lia]. }
  exists m'. split; [done |]. rewrite Hc. cbn [mbind outcome_bind fst]. split; [done |].
  eapply stored_inside. eapply (blit_stored m buffer src).
  - rewrite length_take. replace (Z.of_nat (Z.to_nat n `min` length data)) with n by lia. exact Hbl.
  - rewrite <- (take_drop (Z.to_nat n) data) in Hdata. by apply bytes_at_app in Hdata as [? _].
Qed.

(** ** A drive with one file *)

Definition demo_file : ram_file := {| rname := [97]; rpage := 1; rlen := 4 |}.
Definition demo_front : list Z := [97; 0; 98; 0] ++ replicate 4028 9.
Definition demo_mem : mem := mem_of 64 (demo_front ++ superblock [demo_file] ++ [5; 6; 7; 8]).
Definition demo_drive : RamDrive := {| m_address := 4096; m_size := 2; m_pageWatermark := 2 |}.

Lemma demo_drive_ok : drive_ok demo_mem demo_drive [demo_file].
Proof.
  split.
  - apply mem_of_ok. vm_compute. reflexivity.
  - done.
  - exact (mem_of_bytes_at 64 demo_front (superblock [demo_file]) [5; 6; 7; 8]).
  - cbn. lia.
  - apply Forall_singleton. split; [split; [cbn; lia | repeat constructor; lia] | cbn; lia].
  - split; [by split | cbn; lia].
Qed.

Lemma demo_name_a : cstr demo_mem 64 [97].
Proof. apply (mem_of_cstr 64 [] [97]). reflexivity. Qed.
Lemma demo_name_b : cstr demo_mem 66 [98].
Proof. apply (mem_of_cstr 64 [97; 0] [98]). reflexivity. Qed.

Lemma Open_finds_witness : Open demo_mem demo_drive 64 = Ret (Some (8192, 4)) /\ Open demo_mem demo_drive 66 = Ret None.
Proof.
  split; [rewrite (Open_finds _ _ _ _ _ demo_drive_ok demo_name_a) | rewrite (Open_finds _ _ _ _ _ demo_drive_ok demo_name_b)];
    reflexivity.
Defined.

Lemma Allocate_adds_witness : exists m' r', Allocate demo_mem demo_drive 66 5000 = Ret (m', r', 12288) /\
  drive_ok m' r' [demo_file; {| rname := [98]; rpage := 2; rlen := 5000 |}] /\ r'.(m_pageWatermark) = 4.
Proof.
  destruct (Allocate_adds demo_mem demo_drive [demo_file] 66 [98] 5000 demo_drive_ok demo_name_b) as (m' & Hrun & Hok & _).
  - split; [cbn; lia | repeat constructor; lia].
  - reflexivity.
  - cbn. lia.
  - lia.
  - reflexivity.
  - cbn. lia.
  - exists m'. eexists. split; [exact Hrun |]. split; [exact Hok | reflexivity].
Defined.

Lemma OpenFile_ReadFile_witness : exists h m', OpenFile demo_mem demo_drive 64 Read = Ret (Some h) /\
  ReadFile demo_mem h 200 3 = Ret (m', 3) /\ bytes_at m' 200 [5; 6; 7].
Proof.
  apply (OpenFile_ReadFile demo_mem demo_drive [demo_file] 64 [97] 0 demo_file [5; 6; 7; 8] 200 3 demo_drive_ok demo_name_a).
  - reflexivity.
  - reflexivity.
  - vm_compute. discriminate.
  - pose proof (mem_of_bytes_at 64 (demo_front ++ superblock [demo_file]) [5; 6; 7; 8] []) as Hb.
    rewrite app_nil_r, <- app_assoc in Hb. exact Hb.
  - reflexivity.
  - cbn. lia.
  - apply mem_of_mapped; vm_compute; discriminate.
  - left. vm_compute. discriminate.
Defined.
