(* ===== verification/PortableExecutable.v ===== *)
(** Portable executables in memory (kernel/types/PortableExecutable.h,
    PortableExecutable.cpp, with the structures of ext/windows/winnt.h): the entry
    point, the sections, the exported functions and the name of the program
    database of a loaded image. *)
From Stdlib Require Import ZArith Lia String.
From S2P Require Import Prelude CMemory CrtString.

Definition IMAGE_DOS_SIGNATURE : Z := 0x5A4D.
Definition IMAGE_NT_SIGNATURE : Z := 0x00004550.
Definition IMAGE_DIRECTORY_ENTRY_EXPORT : Z := 0.
Definition IMAGE_DIRECTORY_ENTRY_DEBUG : Z := 6.
Definition IMAGE_DEBUG_TYPE_CODEVIEW : Z := 2.
Definition CODEVIEW_RSDS_SIG : Z := 0x53445352.
Definition sizeof_IMAGE_SECTION_HEADER : Z := 40.

(** [MakePointer] on a base and a signed offset. *)
Definition MakePointer (base offset : Z) : Z := u64 (base + offset).

Section image.
Context (m : mem).
Abbreviation load32 := (load_le 4 m).

(** The C string at an address. *)
Definition read_cstr (a : Z) : outcome (list Z) := n ← strlen m a; load_bytes m a (Z.to_nat n).

(** The NT headers of the image, after both signatures are checked. *)
Definition nt_header (imageBase : Z) : outcome Z :=
  magic ← load16 m imageBase;
  _ ← Assert (magic =? IMAGE_DOS_SIGNATURE);
  e_lfanew ← load32 (imageBase + 60);
  let ntHeader := MakePointer imageBase (s32 e_lfanew) in
  sig ← load32 ntHeader;
  _ ← Assert (sig =? IMAGE_NT_SIGNATURE);
  Ret ntHeader.

Definition NumberOfSections (nt : Z) : outcome Z := load16 m (nt + 6).
Definition SizeOfOptionalHeader (nt : Z) : outcome Z := load16 m (nt + 20).
Definition AddressOfEntryPoint (nt : Z) : outcome Z := load32 (nt + 24 + 16).
Definition SizeOfImage (nt : Z) : outcome Z := load32 (nt + 24 + 56).

(** The address and the size in an entry of [DataDirectory]. *)
Definition DataDirectory (nt i : Z) : outcome (Z * Z) :=
  a ← load32 (nt + 24 + 112 + 8 * i);
  n ← load32 (nt + 24 + 112 + 8 * i + 4);
  Ret (a, n).

Definition IMAGE_FIRST_SECTION (nt : Z) : outcome Z := n ← SizeOfOptionalHeader nt; Ret (nt + 24 + n).
Definition VirtualAddress (section : Z) : outcome Z := load32 (section + 12).

Definition GetEntryPoint (imageBase : Z) : outcome Z := nt ← nt_header imageBase; AddressOfEntryPoint nt.
Definition GetSizeOfImage (imageBase : Z) : outcome Z := nt ← nt_header imageBase; SizeOfImage nt.

Definition Contains (imageBase ip : Z) : outcome bool :=
  nt ← nt_header imageBase;
  n ← SizeOfImage nt;
  let imageEnd := u64 (imageBase + n) in
  Ret ((imageBase <=? ip) && (ip <? imageEnd)).

(** The section of a name: the loop over the headers, [n] left. *)
Fixpoint GetPESection_loop (n : nat) (section : Z) (name : list Z) : outcome Z :=
  match n with
  | O => Bugcheck
  | S n =>
      s ← read_cstr section;
      if bool_decide (s = name) then Ret section
      else GetPESection_loop n (section + sizeof_IMAGE_SECTION_HEADER) name
  end.
Definition GetPESection (imageBase : Z) (name : list Z) : outcome Z :=
  nt ← nt_header imageBase;
  section ← IMAGE_FIRST_SECTION nt;
  n ← NumberOfSections nt;
  GetPESection_loop (Z.to_nat n) section name.

(** The section at an index. *)
Definition GetPESection_at (imageBase index : Z) : outcome Z :=
  nt ← nt_header imageBase;
  n ← NumberOfSections nt;
  _ ← Assert (index <? n);
  section ← IMAGE_FIRST_SECTION nt;
  Ret (section + index * sizeof_IMAGE_SECTION_HEADER).

(** ** Exports *)

(** The loop over the names: [n] left, at the [i]-th; [search] is the address
    found so far, and a later entry of the name replaces an earlier one. *)
Fixpoint search_exports (n : nat) (imageBase pNames pOrdinals pFunctions : Z) (procName : list Z) (i search : Z) : outcome Z :=
  match n with
  | O => Ret search
  | S n =>
      a ← load32 (pNames + 4 * i);
      name ← read_cstr (MakePointer imageBase a);
      search ← (if bool_decide (procName = name) then
                  ordinal ← load16 m (pOrdinals + 2 * i);
                  f ← load32 (pFunctions + 4 * ordinal);
                  Ret (MakePointer imageBase f)
                else Ret search);
      search_exports n imageBase pNames pOrdinals pFunctions procName (i + 1) search
  end.

(** 0 is the null pointer. *)
Definition GetProcAddress (imageBase : Z) (procName : list Z) : outcome Z :=
  nt ← nt_header imageBase;
  d ← DataDirectory nt IMAGE_DIRECTORY_ENTRY_EXPORT;
  _ ← Assert (negb (d.2 =? 0));
  if (d.2 =? 0) || (d.1 =? 0) then Ret 0 else
  let exportDirectory := MakePointer imageBase d.1 in
  nNames ← load32 (exportDirectory + 24);
  aFunctions ← load32 (exportDirectory + 28);
  aNames ← load32 (exportDirectory + 32);
  aOrdinals ← load32 (exportDirectory + 36);
  search ← search_exports (Z.to_nat nNames) imageBase (MakePointer imageBase aNames) (MakePointer imageBase aOrdinals)
             (MakePointer imageBase aFunctions) procName 0 0;
  let base := u64 (imageBase + d.1) in
  if (base <=? search) && (search <? u64 (base + d.2)) then Ret 0 else Ret search.

(** The address of the name; 0 is the null pointer. *)
Definition GetPdbName (imageBase : Z) : outcome Z :=
  nt ← nt_header imageBase;
  d ← DataDirectory nt IMAGE_DIRECTORY_ENTRY_DEBUG;
  _ ← Assert (negb (d.2 =? 0));
  if (d.2 =? 0) || (d.1 =? 0) then Ret 0 else
  let debugDirectory := MakePointer imageBase d.1 in
  type ← load32 (debugDirectory + 12);
  _ ← Assert (type =? IMAGE_DEBUG_TYPE_CODEVIEW);
  a ← load32 (debugDirectory + 20);
  let address := MakePointer imageBase a in
  sig ← load32 address;
  _ ← Assert (sig =? CODEVIEW_RSDS_SIG);
  Ret (u64 (address + 24)).
End image.

(** ** The export table *)

Lemma read_cstr_run m a s : cstr m a s -> read_cstr m a = Ret s.
Proof.
  intros Hs. unfold read_cstr. rewrite (strlen_cstr m a s) by done. cbn [mbind outcome_bind]. rewrite Nat2Z.id.
  apply load_bytes_Ret. split; [done |]. by destruct Hs as [[? _]%bytes_at_app _].
Qed.

(** An exported name with the offset of its function. *)
Definition export : Type := list Z * Z.

(** The [i]-th entry of the three tables. *)
Record export_at (m : mem) (imageBase pNames pOrdinals pFunctions i : Z) (e : export) : Prop := {
  ea_name : exists a, load_le 4 m (pNames + 4 * i) = Ret a /\ cstr m (MakePointer imageBase a) e.1;
  ea_function : exists ordinal, load16 m (pOrdinals + 2 * i) = Ret ordinal /\
                  load_le 4 m (pFunctions + 4 * ordinal) = Ret e.2
}.

Record has_exports (m : mem) (imageBase nt va size : Z) (es : list export) : Prop := {
  he_header : nt_header m imageBase = Ret nt;
  he_directory : DataDirectory m nt IMAGE_DIRECTORY_ENTRY_EXPORT = Ret (va, size);
  he_present : 0 < va /\ 0 < size;
  he_range : 0 <= imageBase /\ imageBase + 2 ^ 33 <= 2 ^ 64 /\ va + size < 2 ^ 33;
  he_count : load_le 4 m (imageBase + va + 24) = Ret (Z.of_nat (length es));
  he_tables : exists aF aN aO, load_le 4 m (imageBase + va + 28) = Ret aF /\ load_le 4 m (imageBase + va + 32) = Ret aN /\
    load_le 4 m (imageBase + va + 36) = Ret aO /\
    forall i e, es !! i = Some e -> export_at m imageBase (MakePointer imageBase aN) (MakePointer imageBase aO)
                                      (MakePointer imageBase aF) (Z.of_nat i) e;
  he_functions : Forall (fun e : export => 0 <= e.2 < 2 ^ 32) es
}.

(** The last export of the name. *)
Definition last_export (name : list Z) (es : list export) (found : option Z) : option Z :=
  fold_left (fun found e => if bool_decide (name = e.1) then Some e.2 else found) es found.

Lemma search_exports_run m imageBase pN pO pF name es k found :
  (forall i e, es !! i = Some e -> export_at m imageBase pN pO pF (Z.of_nat (k + i)) e) ->
  search_exports m (length es) imageBase pN pO pF name (Z.of_nat k) (match found with Some f => MakePointer imageBase f | None => 0 end) =
    Ret (match last_export name es found with Some f => MakePointer imageBase f | None => 0 end).
Proof.
  revert k found. induction es as [|e es IH]; intros k found He; [done |].
  destruct (He 0%nat e eq_refl) as [(a & Ha & Hs) (o & Ho & Hf)]. rewrite Nat.add_0_r in *.
  cbn [length search_exports last_export fold_left]. rewrite Ha. cbn [mbind outcome_bind].
  rewrite (read_cstr_run _ _ _ Hs). cbn [mbind outcome_bind].
  assert (forall i e', es !! i = Some e' -> export_at m imageBase pN pO pF (Z.of_nat (S k + i)) e') as He'.
  { intros i e' Hi. replace (S k + i)%nat with (k + S i)%nat by lia. by apply He. }
  replace (Z.of_nat k + 1) with (Z.of_nat (S k)) by lia.
  destruct (bool_decide (name = e.1)).
  - rewrite Ho. cbn [mbind outcome_bind]. rewrite Hf. cbn [mbind outcome_bind]. exact (IH (S k) (Some e.2) He').
  - cbn [mbind outcome_bind]. exact (IH (S k) found He').
Qed.

(** Fact: [GetProcAddress] finds the exports of an image: the address of the function
    with that name (of the last one, should a name occur twice), the null pointer
    for a name that is not exported and for one whose function lies inside the
    export directory, which is forwarded to another image. *)
Theorem GetProcAddress_finds m imageBase nt va size es name :
  has_exports m imageBase nt va size es ->
  GetProcAddress m imageBase name = Ret (match last_export name es None with
    | None => 0
    | Some f => if (va <=? f) && (f <? va + size) then 0 else imageBase + f
    end).
Proof.
  intros [Hnt Hdir [Hva Hsize] (Hb0 & Hb1 & Hb2) Hn (aF & aN & aO & HF & HN & HO & He) Hfs]. unfold GetProcAddress.
  rewrite Hnt. cbn [mbind outcome_bind]. rewrite Hdir. cbn [mbind outcome_bind fst snd].
  destruct (Z.eqb_spec size 0); [lia |]. destruct (Z.eqb_spec va 0); [lia |]. cbn [negb Assert mbind outcome_bind orb].
  assert (MakePointer imageBase va = imageBase + va) as -> by (apply wrap_small; lia).
  rewrite Hn. cbn [mbind outcome_bind]. rewrite HF. cbn [mbind outcome_bind]. rewrite HN. cbn [mbind outcome_bind].
  rewrite HO. cbn [mbind outcome_bind]. rewrite Nat2Z.id.
  pose proof (search_exports_run m imageBase _ _ _ name es 0 None He) as Hrun. change (Z.of_nat 0) with 0 in Hrun.
  rewrite Hrun. cbn [mbind outcome_bind]. rewrite !wrap_small by lia.
  assert (forall f, last_export name es None = Some f -> 0 <= f < 2 ^ 32) as Hlast.
  { clear -Hfs. assert (forall found, (forall f, found = Some f -> 0 <= f < 2 ^ 32) ->
      forall f, last_export name es found = Some f -> 0 <= f < 2 ^ 32) as Hgen; [| by apply Hgen].
    induction Hfs as [|e es Hx Hes IH]; intros found Hfd f; cbn [last_export fold_left]; [apply Hfd |].
    apply IH. intros g. destruct (bool_decide (name = e.1)); [by intros [= <-] | apply Hfd]. }
  destruct (last_export name es None) as [f|].
  - specialize (Hlast f eq_refl). unfold MakePointer. rewrite wrap_small by lia.
    repeat zcase; cbn; try lia; done.
  - repeat zcase; cbn; try lia; done.
Qed.

(** ** A small image *)

Definition demo_exports : list export := [([97], 0x500); ([98; 99], 0x110)].
Definition demo_image : mem :=
  mem_of 0x1000 [0x4D; 0x5A] ∪ mem_of 0x103C (le_to 4 0x40) ∪
  mem_of 0x1040 (le_to 4 0x4550) ∪ mem_of (0x1040 + 136) (le_to 4 0x100 ++ le_to 4 0x60) ∪
  mem_of 0x1118 (le_to 4 2 ++ le_to 4 0x130 ++ le_to 4 0x140 ++ le_to 4 0x150) ∪
  mem_of 0x1130 (le_to 4 0x500 ++ le_to 4 0x110) ∪ mem_of 0x1140 (le_to 4 0x160 ++ le_to 4 0x162) ∪
  mem_of 0x1150 (le_to 2 0 ++ le_to 2 1) ∪ mem_of 0x1160 [97; 0; 98; 99; 0].

Lemma demo_cstr a s : load_bytes demo_image a (S (length s)) = Ret (s ++ [0]) -> Forall (fun b => b <> 0) s -> cstr demo_image a s.
Proof. intros Hl Hz. apply load_bytes_Ret in Hl as [_ Hl]. by split. Qed.

Lemma demo_has_exports : has_exports demo_image 0x1000 0x1040 0x100 0x60 demo_exports.
Proof.
  split.
  - vm_compute. reflexivity.
  - vm_compute. reflexivity.
  - lia.
  - lia.
  - vm_compute. reflexivity.
  - exists 0x130, 0x140, 0x150. split; [vm_compute; reflexivity |]. split; [vm_compute; reflexivity |].
    split; [vm_compute; reflexivity |]. intros [|[|i]] e He; [injection He as <-.. | done].
    + split; [exists 0x160 | exists 0]; (split; [vm_compute; reflexivity |]);
        [apply demo_cstr; [vm_compute; reflexivity | repeat constructor; lia] | vm_compute; reflexivity].
    + split; [exists 0x162 | exists 1]; (split; [vm_compute; reflexivity |]);
        [apply demo_cstr; [vm_compute; reflexivity | repeat constructor; lia] | vm_compute; reflexivity].
  - repeat constructor; cbn; lia.
Qed.

Lemma GetProcAddress_finds_witness :
  GetProcAddress demo_image 0x1000 [97] = Ret 0x1500 /\ GetProcAddress demo_image 0x1000 [98; 99] = Ret 0 /\
  GetProcAddress demo_image 0x1000 [100] = Ret 0.
Proof.
  split; [| split]; rewrite (GetProcAddress_finds _ _ _ _ _ _ _ demo_has_exports); reflexivity.
Defined.
