(* ===== verification/Msf.v ===== *)
(** Multi-stream files, the container of program databases
    (kernel/pdb/MsfFile.h, MsfFile.cpp, MsfStream.h, MsfStream.cpp).

    The file lies in memory at [base].  A stream is a list of block numbers and a
    position; a vector indexed past its end is a [Fault].  [holds] says which
    bytes a stream has at a position, across its blocks. *)
From Stdlib Require Import ZArith Lia String.
From S2P Require Import Prelude CMemory CrtString OSSystem.

(** ** Streams *)

(** A stream without its reference to the file. *)
Record MsfStream := { m_blockNumbers : list Z; ms_size : Z; m_position : Z }.

Definition with_position (s : MsfStream) (p : Z) : MsfStream :=
  {| m_blockNumbers := s.(m_blockNumbers); ms_size := s.(ms_size); m_position := u32 p |}.

Section file.
Context (m : mem) (base : Z).

(** The header: 30 bytes of magic, then at 32 the fields. *)
Definition BlockSize : outcome Z := load_le 4 m (base + 32).
Definition NumDirectoryBytes : outcome Z := load_le 4 m (base + 44).
Definition BlockMapAddr : outcome Z := load_le 4 m (base + 52).

Definition GetBlock (blockNumber : Z) : Z := u64 (base + u64 (Z.shiftl blockNumber PageShift)).

(** The block a stream's position is in, with the offset and the block size. *)
Definition locate (s : MsfStream) : outcome (Z * Z * Z) :=
  bs ← BlockSize;
  if bs =? 0 then Fault else Ret (s.(m_position) / bs, s.(m_position) mod bs, bs).

Definition block_number (s : MsfStream) (i : Z) : outcome Z :=
  match s.(m_blockNumbers) !! Z.to_nat i with Some b => Ret b | None => Fault end.

Definition GetPointer (s : MsfStream) : outcome Z :=
  '(blockNumber, blockIndex, _) ← locate s;
  b ← block_number s blockNumber;
  Ret (u64 (GetBlock b + blockIndex)).

(** [T Read<T>()] for an integer of [n] bytes. *)
Definition Read_value (n : nat) (s : MsfStream) : outcome (MsfStream * Z) :=
  p ← GetPointer s;
  v ← load_le n m p;
  Ret (with_position s (s.(m_position) + Z.of_nat n), v).

(** [bool Read<T>(T* )] for an object of [n] bytes, which are the result. *)
Definition Read_object (n : nat) (s : MsfStream) : outcome (MsfStream * list Z) :=
  '(blockNumber, blockIndex, bs) ← locate s;
  b ← block_number s blockNumber;
  let bytes := Z.min (Z.of_nat n) (u64 (bs - blockIndex)) in
  l ← load_bytes m (u64 (GetBlock b + blockIndex)) (Z.to_nat bytes);
  let remaining := Z.of_nat n - bytes in
  r ← (if remaining =? 0 then Ret [] else b ← block_number s (blockNumber + 1); load_bytes m (GetBlock b) (Z.to_nat remaining));
  Ret (with_position s (s.(m_position) + Z.of_nat n), l ++ r).

(** The loop of both [ReadString]s and of [SkipString]: the characters up to the
    terminator, and the stream behind it. *)
Fixpoint ReadString_loop (fuel : nat) (s : MsfStream) : outcome (MsfStream * list Z) :=
  match fuel with
  | O => Diverged
  | S fuel =>
      p ← GetPointer s;
      c ← load8 m p;
      let s := with_position s (s.(m_position) + 1) in
      if c =? 0 then Ret (s, []) else r ← ReadString_loop fuel s; Ret (r.1, c :: r.2)
  end.

(** A string ends in the stream: the blocks bound its length. *)
Definition string_fuel (s : MsfStream) : nat := S (4096 * length s.(m_blockNumbers)).
Definition ReadString (s : MsfStream) : outcome (MsfStream * list Z) := ReadString_loop (string_fuel s) s.
Definition SkipString (s : MsfStream) : outcome MsfStream := r ← ReadString s; Ret r.1.

(** [bool ReadString(char* str)] into an array of [size] characters. *)
Definition ReadString_array (size : nat) (s : MsfStream) : outcome (MsfStream * list Z) :=
  r ← ReadString s;
  if (length r.2 <? size)%nat then Ret r else Fault.

(** [Read(buffer, length)]: the pointer to the next character is taken before the
    loop looks whether there is one. *)
Fixpoint Read_loop (n : nat) (s : MsfStream) (p : Z) : outcome (MsfStream * list Z) :=
  match n with
  | O => Ret (s, [])
  | S n =>
      c ← load8 m p;
      let s := with_position s (s.(m_position) + 1) in
      p ← GetPointer s;
      r ← Read_loop n s p;
      Ret (r.1, c :: r.2)
  end.
Definition Read_buffer (n : nat) (s : MsfStream) : outcome (MsfStream * list Z) := p ← GetPointer s; Read_loop n s p.

(** Aligning to [a] bytes, skipping [n] and seeking. *)
Definition SkipAlign (a : Z) (s : MsfStream) : MsfStream :=
  with_position s (Z.land (s.(m_position) + (a - 1)) (u64 (Z.lnot (a - 1)))).
Definition Skip (n : Z) (s : MsfStream) : MsfStream := with_position s (s.(m_position) + n).
Definition Seek (p : Z) (s : MsfStream) : MsfStream := with_position s p.

(** ** The file *)

Definition Magic : list Z := lit "Microsoft C/C++ MSF 7.00" ++ [13; 10; 0x1a; 0x44; 0x53; 0].

(** The block numbers of the directory, up to a zero. *)
Fixpoint directory_blocks (fuel : nat) (directory : Z) : outcome (list Z) :=
  match fuel with
  | O => Diverged
  | S fuel =>
      b ← load_le 4 m directory;
      if b =? 0 then Ret [] else l ← directory_blocks fuel (directory + 4); Ret (b :: l)
  end.

(** The sizes of [n] streams: [None] marks an invalid one. *)
Fixpoint stream_sizes (n : nat) (d : MsfStream) : outcome (MsfStream * list (option Z)) :=
  match n with
  | O => Ret (d, [])
  | S n =>
      r ← Read_value 4 d;
      t ← stream_sizes n r.1;
      Ret (t.1, (if r.2 =? 0xFFFFFFFF then None else Some r.2) :: t.2)
  end.

Fixpoint block_numbers (n : nat) (d : MsfStream) : outcome (MsfStream * list Z) :=
  match n with
  | O => Ret (d, [])
  | S n =>
      r ← Read_value 4 d;
      _ ← Assert (negb (r.2 =? 0));
      t ← block_numbers n r.1;
      Ret (t.1, r.2 :: t.2)
  end.

(** The streams: an invalid one has no blocks and size 0. *)
Fixpoint stream_blocks (sizes : list (option Z)) (d : MsfStream) : outcome (MsfStream * list MsfStream) :=
  match sizes with
  | [] => Ret (d, [])
  | None :: sizes =>
      t ← stream_blocks sizes d;
      Ret (t.1, {| m_blockNumbers := []; ms_size := 0; m_position := 0 |} :: t.2)
  | Some size :: sizes =>
      r ← block_numbers (Z.to_nat (SizeToPages size)) d;
      t ← stream_blocks sizes r.1;
      Ret (t.1, {| m_blockNumbers := r.2; ms_size := size; m_position := 0 |} :: t.2)
  end.

(** The constructor: the streams of the file at [base]. *)
Definition MsfFile : outcome (list MsfStream) :=
  magic ← load_bytes m base 30;
  _ ← Assert (bool_decide (magic = Magic));
  bs ← BlockSize;
  _ ← Assert (bs =? PageSize);
  map ← BlockMapAddr;
  blocks ← directory_blocks (walk_fuel m) (GetBlock map);
  n ← NumDirectoryBytes;
  r ← Read_value 4 {| m_blockNumbers := blocks; ms_size := n; m_position := 0 |};
  _ ← Assert (negb (r.2 =? 0));
  s ← stream_sizes (Z.to_nat r.2) r.1;
  t ← stream_blocks s.2 s.1;
  Ret t.2.

(** [GetStream] rewinds the stream it returns a reference to. *)
Definition GetStream (streams : list MsfStream) (index : Z) : outcome (list MsfStream) :=
  _ ← Assert (index <? Z.of_nat (length streams));
  match streams !! Z.to_nat index with
  | None => Fault
  | Some s => Ret (<[Z.to_nat index := Seek 0 s]> streams)
  end.

(** An operation on the stream at an index of the vector. *)
Definition on_stream {A} (index : Z) (op : MsfStream -> outcome (MsfStream * A)) (streams : list MsfStream)
  : outcome (list MsfStream * A) :=
  match streams !! Z.to_nat index with
  | None => Fault
  | Some s => r ← op s; Ret (<[Z.to_nat index := r.1]> streams, r.2)
  end.
End file.

(** ** The bytes of a stream *)

Section contents.
Context (m : mem) (base : Z).
Hypotheses (Hbase : 0 <= base <= 2 ^ 63) (Hbs : BlockSize m base = Ret 4096).

(** The byte at position [p] of a stream. *)
Definition byte_at (s : MsfStream) (p : Z) : option Z :=
  match s.(m_blockNumbers) !! Z.to_nat (p / 4096) with
  | Some b => m !! (base + b * 4096 + p mod 4096)
  | None => None
  end.

(** The stream has the bytes [l] from position [p] on. *)
Definition holds (s : MsfStream) (p : Z) (l : list Z) : Prop :=
  forall i b, l !! i = Some b -> byte_at s (p + Z.of_nat i) = Some b.

Definition stream_ok (s : MsfStream) : Prop :=
  Forall (fun b => 0 <= b < 2 ^ 32) s.(m_blockNumbers) /\ 0 <= s.(m_position).

Lemma holds_app s p l1 l2 : holds s p (l1 ++ l2) <-> holds s p l1 /\ holds s (p + Z.of_nat (length l1)) l2.
Proof.
  unfold holds. split.
  - intros H. split; intros i b Hi.
    + apply H. by apply lookup_app_l_Some.
    + rewrite <- (H (length l1 + i)%nat b); [f_equal; lia |]. rewrite lookup_app_r by lia. rewrite <- Hi. f_equal. lia.
  - intros [H1 H2] i b [Hi | [Hl Hi]]%lookup_app_Some; [by apply H1 |]. rewrite <- (H2 _ _ Hi). f_equal. lia.
Qed.

Lemma holds_cons s p c l : holds s p (c :: l) <-> byte_at s p = Some c /\ holds s (p + 1) l.
Proof.
  rewrite (holds_app s p [c] l). unfold holds at 1. split.
  - intros [H1 H2]. split; [| exact H2]. rewrite <- (H1 0%nat c eq_refl). f_equal. cbn. lia.
  - intros [H1 H2]. split; [| exact H2]. intros [|i] b Hi; [| done]. injection Hi as <-. rewrite <- H1. f_equal. cbn. lia.
Qed.

Lemma GetBlock_run b : 0 <= b < 2 ^ 32 -> GetBlock base b = base + b * 4096.
Proof using Hbase.
  intros Hb. unfold GetBlock. rewrite Z.shiftl_mul_pow2 by done. change (2 ^ PageShift) with 4096.
  rewrite (wrap_small 64 (b * 4096)), wrap_small by lia. done.
Qed.

Lemma locate_run s : locate m base s = Ret (s.(m_position) / 4096, s.(m_position) mod 4096, 4096).
Proof using Hbs. unfold locate. by rewrite Hbs. Qed.

(** The block a byte is in. *)
Lemma byte_block s p c :
  byte_at s p = Some c -> stream_ok s -> exists b, s.(m_blockNumbers) !! Z.to_nat (p / 4096) = Some b /\
    0 <= b < 2 ^ 32 /\ m !! (base + b * 4096 + p mod 4096) = Some c.
Proof using Type.
  intros Hc [Hok _]. unfold byte_at in Hc. destruct (m_blockNumbers s !! _) as [b|] eqn:Hb; [| done].
  exists b. split; [done |]. split; [exact (Forall_lookup_1 _ _ _ _ Hok Hb) | done].
Qed.

Lemma GetPointer_run s c :
  stream_ok s -> byte_at s s.(m_position) = Some c ->
  exists a, GetPointer m base s = Ret a /\ m !! a = Some c.
Proof using All.
  intros Hok Hc. destruct (byte_block s _ c Hc Hok) as (b & Hb & Hr & Hm).
  unfold GetPointer. rewrite locate_run. cbn [mbind outcome_bind]. unfold block_number. rewrite Hb. cbn [mbind outcome_bind].
  rewrite GetBlock_run by done. pose proof (Z.mod_pos_bound s.(m_position) 4096 ltac:(lia)).
  rewrite wrap_small by lia. eauto.
Qed.

(** Bytes that do not cross the end of a block are at one address. *)
Lemma segment s p l b :
  holds s p l -> 0 <= p -> s.(m_blockNumbers) !! Z.to_nat (p / 4096) = Some b -> p mod 4096 + Z.of_nat (length l) <= 4096 ->
  bytes_at m (base + b * 4096 + p mod 4096) l.
Proof using Type.
  intros Hl Hp Hb Hfit i c Hi. pose proof (lookup_lt_Some _ _ _ Hi). specialize (Hl i c Hi). unfold byte_at in Hl.
  assert ((p + Z.of_nat i) / 4096 = p / 4096 /\ (p + Z.of_nat i) mod 4096 = p mod 4096 + Z.of_nat i) as [Hq Hr]
    by (Z.to_euclidean_division_equations; lia).
  rewrite Hq, Hr, Hb in Hl. rewrite <- Hl. f_equal. lia.
Qed.

Lemma Read_value_run s l n :
  stream_ok s -> holds s s.(m_position) l -> length l = n -> (0 < n)%nat ->
  s.(m_position) mod 4096 + Z.of_nat n <= 4096 ->
  Read_value m base n s = Ret (with_position s (s.(m_position) + Z.of_nat n), le_of l).
Proof using All.
  intros Hok Hl Hn Hpos Hfit. destruct l as [|c l]; [cbn in Hn; lia |].
  pose proof Hl as [Hc _]%holds_cons. destruct (byte_block s _ c Hc Hok) as (b & Hb & Hr & _). pose proof (proj2 Hok).
  unfold Read_value, GetPointer. rewrite locate_run. cbn [mbind outcome_bind]. unfold block_number. rewrite Hb. cbn [mbind outcome_bind].
  rewrite GetBlock_run by done. pose proof (Z.mod_pos_bound s.(m_position) 4096 ltac:(lia)). rewrite wrap_small by lia.
  unfold load_le. rewrite (proj2 (load_bytes_Ret m _ n (c :: l))); [done |]. split; [done |].
  eapply segment; [exact Hl | done | done | rewrite Hn; done].
Qed.

Lemma Read_object_run s l n :
  stream_ok s -> holds s s.(m_position) l -> length l = n -> (0 < n <= 4096)%nat ->
  Read_object m base n s = Ret (with_position s (s.(m_position) + Z.of_nat n), l).
Proof using All.
  intros Hok Hl Hn Hpos. pose proof (proj2 Hok) as Hp0.
  assert (l <> []) as Hne by (intros ->; cbn in Hn; lia).
  assert (exists c l', l = c :: l') as (c & l' & Hcl) by (destruct l; [done | eauto]).
  pose proof Hl as Hl'. rewrite Hcl in Hl'. apply holds_cons in Hl' as [Hc _].
  destruct (byte_block s _ c Hc Hok) as (b & Hb & Hr & _).
  set (p := s.(m_position)) in *. pose proof (Z.mod_pos_bound p 4096 ltac:(lia)) as Hmod.
  set (k := Z.to_nat (Z.min (Z.of_nat n) (4096 - p mod 4096))).
  assert (Z.of_nat k = Z.min (Z.of_nat n) (4096 - p mod 4096)) as Hk by lia.
  unfold Read_object. rewrite locate_run. fold p. cbn [mbind outcome_bind]. unfold block_number. rewrite Hb.
  cbn [mbind outcome_bind]. rewrite GetBlock_run by done. rewrite !wrap_small by lia. fold k.
  rewrite <- (take_drop k l) in Hl. apply holds_app in Hl as [H1 H2].
  assert (length (take k l) = k) as Hlk by (rewrite length_take; lia). rewrite Hlk in H2.
  rewrite (proj2 (load_bytes_Ret m _ k (take k l))).
  2: { split; [done |]. eapply segment; [exact H1 | done | done | lia]. }
  cbn [mbind outcome_bind]. rewrite <- Hk. destruct (Z.eqb_spec (Z.of_nat n - Z.of_nat k) 0) as [Hz | Hz].
  - cbn [mbind outcome_bind]. rewrite app_nil_r, take_ge by lia. done.
  - assert ((p + Z.of_nat k) / 4096 = p / 4096 + 1 /\ (p + Z.of_nat k) mod 4096 = 0) as [Hq Hr0]
      by (Z.to_euclidean_division_equations; lia).
    assert (length (drop k l) = n - k)%nat as Hld by (rewrite length_drop; lia).
    assert (exists c' r, drop k l = c' :: r) as (c' & r & Hcr) by (destruct (drop k l); [cbn in Hld; lia | eauto]).
    pose proof H2 as H2'. rewrite Hcr in H2'. apply holds_cons in H2' as [Hc' _].
    destruct (byte_block s _ c' Hc' Hok) as (b' & Hb' & Hr' & _). rewrite Hq in Hb'.
    rewrite Hb'. cbn [mbind outcome_bind]. rewrite GetBlock_run by done.
    rewrite (proj2 (load_bytes_Ret m _ _ (drop k l))).
    + cbn [mbind outcome_bind]. by rewrite take_drop.
    + split; [lia |]. pose proof (segment s (p + Z.of_nat k) (drop k l) b' H2 ltac:(lia)) as Hseg.
      rewrite Hq, Hr0, Z.add_0_r in Hseg. apply Hseg; [done | lia].
Qed.

Lemma ReadString_loop_run fuel s str :
  stream_ok s -> holds s s.(m_position) (str ++ [0]) -> Forall (fun c => c <> 0) str -> (length str < fuel)%nat ->
  s.(m_position) + Z.of_nat (length str) + 1 < 2 ^ 32 ->
  ReadString_loop m base fuel s = Ret (with_position s (s.(m_position) + Z.of_nat (length str) + 1), str).
Proof using All.
  revert s str. induction fuel as [|fuel IH]; intros s str Hok Hl Hz Hf Hp; [lia |].
  pose proof (proj2 Hok) as Hp0. cbn [ReadString_loop]. destruct str as [|c str]; cbn [app length] in *.
  - apply holds_cons in Hl as [Hc _]. destruct (GetPointer_run s 0 Hok Hc) as (a & -> & Ha). cbn [mbind outcome_bind].
    rewrite (proj2 (load8_Ret _ _ _) Ha). cbn. do 3 f_equal. lia.
  - apply holds_cons in Hl as [Hc Hl]. apply Forall_cons in Hz as [Hc0 Hz].
    destruct (GetPointer_run s c Hok Hc) as (a & -> & Ha). cbn [mbind outcome_bind].
    rewrite (proj2 (load8_Ret _ _ _) Ha). cbn [mbind outcome_bind]. destruct (Z.eqb_spec c 0); [done |].
    rewrite (IH (with_position s (s.(m_position) + 1)) str).
    + cbn [mbind outcome_bind fst snd]. unfold with_position. cbn [m_position m_blockNumbers ms_size].
      rewrite (wrap_small 32 (m_position s + 1)) by lia. do 3 f_equal. f_equal. lia.
    + split; [apply Hok |]. cbn. apply wrap_range. lia.
    + cbn [with_position m_position]. rewrite wrap_small by lia. exact Hl.
    + done.
    + lia.
    + cbn [with_position m_position]. rewrite wrap_small by lia. lia.
Qed.

Lemma ReadString_run s str :
  stream_ok s -> holds s s.(m_position) (str ++ [0]) -> Forall (fun c => c <> 0) str ->
  s.(m_position) + Z.of_nat (length str) + 1 < 2 ^ 32 ->
  ReadString m base s = Ret (with_position s (s.(m_position) + Z.of_nat (length str) + 1), str).
Proof using All.
  intros Hok Hl Hz Hp. apply ReadString_loop_run; [done | done | done | | done]. unfold string_fuel.
  apply holds_app in Hl as [_ Hl]. apply holds_cons in Hl as [Hc _].
  destruct (byte_block s _ 0 Hc Hok) as (b & Hb & _). apply lookup_lt_Some in Hb. pose proof (proj2 Hok).
  set (q := m_position s + Z.of_nat (length str)) in *. assert (q / 4096 < Z.of_nat (length (m_blockNumbers s))) by lia.
  enough (q < 4096 * Z.of_nat (length (m_blockNumbers s))) by lia. Z.to_euclidean_division_equations; lia.
Qed.

(** Fact: reading from a stream. An object of up to a block, and a string of any
    length, are read as the bytes the stream has from its position on, whichever
    blocks of the file these are in, and the position moves behind them. *)
Theorem stream_reads s :
  stream_ok s ->
  (forall n l, holds s s.(m_position) l -> length l = n -> (0 < n <= 4096)%nat ->
     Read_object m base n s = Ret (with_position s (s.(m_position) + Z.of_nat n), l)) /\
  (forall str, holds s s.(m_position) (str ++ [0]) -> Forall (fun c => c <> 0) str ->
     s.(m_position) + Z.of_nat (length str) + 1 < 2 ^ 32 ->
     ReadString m base s = Ret (with_position s (s.(m_position) + Z.of_nat (length str) + 1), str)).
Proof using All. intros Hok. split; intros; [by apply Read_object_run | by apply ReadString_run]. Qed.

(** Fact: the typed read takes all its bytes from where the first one is, so at the
    end of a block it goes on in the next block of the file, not of the stream. *)
Theorem Read_value_crosses s b l n :
  stream_ok s -> s.(m_blockNumbers) !! Z.to_nat (s.(m_position) / 4096) = Some b ->
  bytes_at m (base + b * 4096 + s.(m_position) mod 4096) l -> length l = n ->
  Read_value m base n s = Ret (with_position s (s.(m_position) + Z.of_nat n), le_of l).
Proof using All.
  intros Hok Hb Hl Hn. pose proof (Forall_lookup_1 _ _ _ _ (proj1 Hok) Hb) as Hr. cbn in Hr.
  unfold Read_value, GetPointer. rewrite locate_run. cbn [mbind outcome_bind]. unfold block_number. rewrite Hb. cbn [mbind outcome_bind].
  rewrite GetBlock_run by done. pose proof (Z.mod_pos_bound s.(m_position) 4096 ltac:(lia)). rewrite wrap_small by lia.
  unfold load_le. by rewrite (proj2 (load_bytes_Ret m _ n l)).
Qed.

(** ** The directory *)

(** The bytes of a list of 32-bit words. *)
Definition words (ws : list Z) : list Z := flat_map (le_to 4) ws.
Definition word (w : Z) : Prop := 0 <= w < 2 ^ 32.

Lemma words_length ws : length (words ws) = (4 * length ws)%nat.
Proof. induction ws as [|w ws IH]; [done |]. cbn [words flat_map length]. rewrite length_app, le_to_length. fold (words ws). lia. Qed.

Lemma Read_word d w ws :
  stream_ok d -> d.(m_position) mod 4 = 0 -> d.(m_position) + 4 < 2 ^ 32 -> word w -> holds d d.(m_position) (words (w :: ws)) ->
  let d' := with_position d (d.(m_position) + 4) in
  Read_value m base 4 d = Ret (d', w) /\ stream_ok d' /\ d'.(m_position) = d.(m_position) + 4 /\
  d'.(m_position) mod 4 = 0 /\ holds d' d'.(m_position) (words ws).
Proof using All.
  intros Hok Hmod Hmax Hw Hl d'. pose proof (proj2 Hok) as Hp. cbn [words flat_map] in Hl. apply holds_app in Hl as [H1 H2].
  rewrite (Read_value_run d (le_to 4 w) 4).
  - rewrite le_of_to by done.
    assert (m_position d' = m_position d + 4) as Hd' by (unfold d'; cbn; apply wrap_small; lia).
    split; [done |]. split; [split; [apply Hok | rewrite Hd'; lia] |]. split; [done |]. rewrite Hd'. split; [| exact H2].
    Z.to_euclidean_division_equations; lia.
  - done.
  - done.
  - apply le_to_length.
  - lia.
  - Z.to_euclidean_division_equations; lia.
Qed.

(** A stream of the directory: nothing for an invalid one, else its size and its
    block numbers. *)
Definition entry_size (e : option (Z * list Z)) : Z := match e with Some x => x.1 | None => 0xFFFFFFFF end.
Definition entry_blocks (e : option (Z * list Z)) : list Z := match e with Some x => x.2 | None => [] end.
Definition entry_stream (e : option (Z * list Z)) : MsfStream :=
  {| m_blockNumbers := entry_blocks e; ms_size := match e with Some x => x.1 | None => 0 end; m_position := 0 |}.
Definition entry_ok (e : option (Z * list Z)) : Prop :=
  match e with
  | None => True
  | Some (size, blocks) => 0 <= size < 0xFFFFFFFF /\ Z.of_nat (length blocks) = SizeToPages size /\
                           Forall (fun b => 0 < b < 2 ^ 32) blocks
  end.
Definition directory_words (es : list (option (Z * list Z))) : list Z :=
  Z.of_nat (length es) :: map entry_size es ++ flat_map entry_blocks es.

Lemma stream_sizes_run es d rest :
  stream_ok d -> d.(m_position) mod 4 = 0 -> d.(m_position) + 4 * Z.of_nat (length es) < 2 ^ 32 ->
  Forall entry_ok es -> holds d d.(m_position) (words (map entry_size es ++ rest)) ->
  let d' := with_position d (d.(m_position) + 4 * Z.of_nat (length es)) in
  stream_sizes m base (length es) d = Ret (d', map (option_map fst) es) /\ stream_ok d' /\
  d'.(m_position) = d.(m_position) + 4 * Z.of_nat (length es) /\ d'.(m_position) mod 4 = 0 /\ holds d' d'.(m_position) (words rest).
Proof using All.
  revert d. induction es as [|e es IH]; intros d Hok Hmod Hmax Hes Hl d'; pose proof (proj2 Hok).
  - assert (d' = d) as ->.
    { unfold d', with_position. destruct d as [bl sz p]; cbn in *. rewrite wrap_small by lia. f_equal. lia. }
    split; [done |]. split; [done |]. split; [cbn; lia | done].
  - apply Forall_cons in Hes as [He Hes]. cbn [map app length] in Hl, Hmax.
    destruct (Read_word d (entry_size e) (map entry_size es ++ rest)) as (Hr & Hok1 & Hp1 & Hm1 & Hl1); [done | done | lia | | done |].
    { destruct e as [[size bl]|]; unfold word; cbn; [destruct He as [? _]; lia | lia]. }
    destruct (IH (with_position d (m_position d + 4)) Hok1 Hm1) as (Hr2 & Hok2 & Hp2 & Hm2 & Hl2); [rewrite Hp1; lia | done | done |].
    cbn [length stream_sizes]. rewrite Hr. cbn [mbind outcome_bind fst snd]. rewrite Hr2. cbn [mbind outcome_bind fst snd map].
    assert (with_position (with_position d (m_position d + 4)) (m_position (with_position d (m_position d + 4)) + 4 * Z.of_nat (length es)) = d') as Hd'.
    { unfold d', with_position. cbn [m_blockNumbers ms_size m_position]. f_equal. rewrite (wrap_small 32 (m_position d + 4)) by lia. f_equal. cbn [length]. lia. }
    rewrite Hd' in *. split; [| split; [done |]; split; [rewrite Hp2, Hp1; cbn [length]; lia | done]].
    f_equal. f_equal. f_equal. destruct e as [[size bl]|]; cbn; [| done]. destruct He as [Hs _]. by destruct (Z.eqb_spec size 0xFFFFFFFF); [lia |].
Qed.

Lemma block_numbers_run bs d rest :
  stream_ok d -> d.(m_position) mod 4 = 0 -> d.(m_position) + 4 * Z.of_nat (length bs) < 2 ^ 32 ->
  Forall (fun b => 0 < b < 2 ^ 32) bs -> holds d d.(m_position) (words (bs ++ rest)) ->
  exists d', block_numbers m base (length bs) d = Ret (d', bs) /\ stream_ok d' /\
    d'.(m_position) = d.(m_position) + 4 * Z.of_nat (length bs) /\ d'.(m_position) mod 4 = 0 /\ holds d' d'.(m_position) (words rest).
Proof using All.
  revert d. induction bs as [|b bs IH]; intros d Hok Hmod Hmax Hbs' Hl.
  - exists d. split; [done |]. split; [done |]. split; [cbn; lia | done].
  - apply Forall_cons in Hbs' as [Hb Hbs']. cbn [app length] in Hl, Hmax.
    destruct (Read_word d b (bs ++ rest)) as (Hr & Hok1 & Hp1 & Hm1 & Hl1); [done | done | lia | unfold word; lia | done |].
    destruct (IH (with_position d (m_position d + 4)) Hok1 Hm1) as (d2 & Hr2 & Hok2 & Hp2 & Hm2 & Hl2); [rewrite Hp1; lia | done | done |].
    exists d2. cbn [length block_numbers]. rewrite Hr. cbn [mbind outcome_bind fst snd].
    destruct (Z.eqb_spec b 0); [lia |]. cbn [negb Assert mbind outcome_bind]. rewrite Hr2. cbn [mbind outcome_bind fst snd].
    split; [done |]. split; [done |]. split; [rewrite Hp2, Hp1; cbn [length]; lia | done].
Qed.

Lemma stream_blocks_run es d :
  stream_ok d -> d.(m_position) mod 4 = 0 ->
  d.(m_position) + 4 * Z.of_nat (length (flat_map entry_blocks es)) < 2 ^ 32 ->
  Forall entry_ok es -> holds d d.(m_position) (words (flat_map entry_blocks es)) ->
  exists d', stream_blocks m base (map (option_map fst) es) d = Ret (d', map entry_stream es).
Proof using All.
  revert d. induction es as [|e es IH]; intros d Hok Hmod Hmax Hes Hl; [by exists d |].
  apply Forall_cons in Hes as [He Hes]. cbn [flat_map] in Hl, Hmax. rewrite length_app in Hmax.
  destruct e as [[size bs]|]; cbn [map option_map entry_blocks fst snd stream_blocks] in *.
  - destruct He as (Hs & Hlen & Hb). rewrite <- Hlen, Nat2Z.id.
    destruct (block_numbers_run bs d (flat_map entry_blocks es)) as (d1 & Hr & Hok1 & Hp1 & Hm1 & Hl1); [done | done | lia | done | done |].
    rewrite Hr. cbn [mbind outcome_bind fst snd].
    destruct (IH d1) as (d2 & Hr2); [done | done | rewrite Hp1; lia | done | done |]. rewrite Hr2. by exists d2.
  - destruct (IH d) as (d2 & Hr2); [done | done | cbn in Hmax; lia | done | done |]. rewrite Hr2. by exists d2.
Qed.
End contents.

(** A multi-stream file in memory: the header, the block map and the directory of
    the streams [es]. *)
Record is_msf (m : mem) (base map n : Z) (dblocks : list Z) (es : list (option (Z * list Z))) : Prop := {
  im_base : 0 <= base <= 2 ^ 63;
  im_magic : bytes_at m base Magic;
  im_size : BlockSize m base = Ret 4096;
  im_map : BlockMapAddr m base = Ret map /\ word map;
  im_blocks : bytes_at m (base + map * 4096) (words (dblocks ++ [0])) /\ Forall (fun b => 0 < b < 2 ^ 32) dblocks;
  im_bytes : NumDirectoryBytes m base = Ret n;
  im_entries : es <> [] /\ Forall entry_ok es /\ Z.of_nat (length (words (directory_words es))) < 2 ^ 32;
  im_directory : holds m base {| m_blockNumbers := dblocks; ms_size := n; m_position := 0 |} 0 (words (directory_words es))
}.

Lemma directory_blocks_run m a bs fuel :
  bytes_at m a (words (bs ++ [0])) -> Forall (fun b => 0 < b < 2 ^ 32) bs -> (length bs < fuel)%nat ->
  directory_blocks m fuel a = Ret bs.
Proof.
  revert a fuel. induction bs as [|b bs IH]; intros a fuel Hl Hb Hf; destruct fuel as [|fuel]; cbn [length] in *; try lia;
    cbn [directory_blocks app words flat_map] in *; apply bytes_at_app in Hl as [H1 H2]; unfold load_le.
  - rewrite (proj2 (load_bytes_Ret m a 4 (le_to 4 0))) by (split; [done | exact H1]). done.
  - apply Forall_cons in Hb as [Hb Hbs].
    rewrite (proj2 (load_bytes_Ret m a 4 (le_to 4 b))) by (split; [done | exact H1]). cbn [mbind outcome_bind].
    rewrite le_of_to by (cbn; lia). destruct (Z.eqb_spec b 0); [lia |]. cbn [mbind outcome_bind].
    rewrite (IH (a + 4) fuel); [done | exact H2 | done | lia].
Qed.

(** C37: opening a multi-stream file inverts its layout, with a zero word behind the list of the directory's
    blocks, which ends the walk over it: the constructor yields one
    stream per entry of the directory, in order, with its size and block numbers,
    and an empty stream for an entry marked invalid. *)
Theorem MsfFile_parses m base bmap n dblocks es :
  is_msf m base bmap n dblocks es -> MsfFile m base = Ret (map entry_stream es).
Proof.
  intros [Hbase Hmagic Hbs [Hmap Hword] [Hbl Hblr] Hn (Hne & Hes & Hlen) Hdir]. unfold MsfFile.
  rewrite (proj2 (load_bytes_Ret m base 30 Magic)) by (split; [reflexivity | done]). cbn [mbind outcome_bind].
  rewrite bool_decide_true by done. cbn [Assert mbind outcome_bind]. rewrite Hbs. cbn [mbind outcome_bind].
  change (4096 =? PageSize) with true. cbn [Assert mbind outcome_bind]. rewrite Hmap. cbn [mbind outcome_bind].
  rewrite GetBlock_run by (done || exact Hword).
  rewrite (directory_blocks_run m _ dblocks); [| done | done |].
  2: { apply bytes_at_size in Hbl. rewrite words_length, length_app in Hbl. unfold walk_fuel. lia. }
  cbn [mbind outcome_bind]. rewrite Hn. cbn [mbind outcome_bind].
  set (d := {| m_blockNumbers := dblocks; ms_size := n; m_position := 0 |}) in *.
  assert (stream_ok d) as Hok.
  { split; [| done]. eapply Forall_impl; [exact Hblr |]. cbn. intros; lia. }
  unfold directory_words in Hdir, Hlen. rewrite words_length in Hlen. cbn [length] in Hlen. rewrite length_app, length_map in Hlen.
  destruct (Read_word m base Hbase Hbs d (Z.of_nat (length es)) _ Hok eq_refl ltac:(cbn; lia) ltac:(unfold word; lia) Hdir) as (Hr & Hok1 & Hp1 & Hm1 & Hl1).
  rewrite Hr. cbn [mbind outcome_bind fst snd].
  assert (length es <> 0%nat) by (by destruct es).
  destruct (Z.eqb_spec (Z.of_nat (length es)) 0); [lia |]. cbn [negb Assert mbind outcome_bind]. rewrite Nat2Z.id.
  destruct (stream_sizes_run m base Hbase Hbs es _ _ Hok1 Hm1 ltac:(rewrite Hp1; cbn; lia) Hes Hl1) as (Hr2 & Hok2 & Hp2 & Hm2 & Hl2).
  rewrite Hr2. cbn [mbind outcome_bind fst snd].
  destruct (stream_blocks_run m base Hbase Hbs es _ Hok2 Hm2) as (d' & Hr3); [rewrite Hp2, Hp1; cbn [d m_position]; lia | done | exact Hl2 |].
  by rewrite Hr3.
Qed.

(** ** A file with one stream in two blocks, the second in front of the first *)

Definition demo_entries : list (option (Z * list Z)) := [None; Some (5000, [4; 3])].
Definition demo_header : list Z := Magic ++ [0; 0] ++ words [4096; 1; 5; 20; 0; 1].
Definition demo_msf : mem :=
  mem_of 0 demo_header ∪ mem_of 4096 (words [2; 0]) ∪ mem_of 8192 (words (directory_words demo_entries)) ∪
  mem_of 12288 [99; 100; 0] ∪ mem_of 20478 [97; 98].
Definition demo_stream : MsfStream := {| m_blockNumbers := [4; 3]; ms_size := 5000; m_position := 4094 |}.

Lemma demo_bytes a l : load_bytes demo_msf a (length l) = Ret l -> bytes_at demo_msf a l.
Proof. intros Hl. by apply load_bytes_Ret in Hl as [_ Hl]. Qed.

Lemma stream_reads_witness :
  Read_object demo_msf 0 4 demo_stream = Ret (with_position demo_stream 4098, [97; 98; 99; 100]) /\
  ReadString demo_msf 0 demo_stream = Ret (with_position demo_stream 4099, [97; 98; 99; 100]).
Proof.
  destruct (stream_reads demo_msf 0 ltac:(lia) ltac:(vm_compute; reflexivity) demo_stream) as [Hobj Hstr].
  - split; [repeat constructor; lia | cbn; lia].
  - split.
    + apply (Hobj 4%nat [97; 98; 99; 100]); [| done | lia]. intros i b Hi.
      do 4 (destruct i as [|i]; [injection Hi as <-; vm_compute; reflexivity |]). done.
    + apply (Hstr [97; 98; 99; 100]); [| repeat constructor; lia | cbn; lia]. intros i b Hi.
      do 5 (destruct i as [|i]; [injection Hi as <-; vm_compute; reflexivity |]). done.
Defined.

Lemma MsfFile_parses_witness : MsfFile demo_msf 0 = Ret (map entry_stream demo_entries).
Proof.
  apply (MsfFile_parses demo_msf 0 1 20 [2] demo_entries). split.
  - lia.
  - apply demo_bytes. vm_compute. reflexivity.
  - vm_compute. reflexivity.
  - split; [vm_compute; reflexivity | unfold word; lia].
  - split; [apply demo_bytes; vm_compute; reflexivity | repeat constructor; lia].
  - vm_compute. reflexivity.
  - split; [done |]. split; [| vm_compute; reflexivity].
    repeat constructor; lia || vm_compute; congruence.
  - intros i b Hi.
    do 20 (destruct i as [|i]; [injection Hi as <-; vm_compute; reflexivity |]). by destruct i.
Defined.
