(* ===== verification/Pdb.v ===== *)
(** Program databases (kernel/pdb/): the hash table and the named streams
    (PdbHashTable.cpp, PdbStream.cpp), the public symbols (PdbPublicsStream.cpp),
    the debug information and the lookup of a function and a line
    (PdbDbi.cpp, Pdb.cpp; record layouts of ext/coreclr/cvinfo.h).

    The streams of the file are a list: a reference to a stream is its index, so
    two references to one stream share its position.  Loops over records take
    fuel; reading past the blocks of a stream is a [Fault]. *)
From Stdlib Require Import ZArith Lia String.
From S2P Require Import Prelude CMemory CrtString OSSystem PortableExecutable Msf.

(** The integer of [n] bytes at an offset of an object. *)
Definition fld (l : list Z) (off n : nat) : Z := le_of (take n (drop off l)).

(** ** Hash table and named streams *)

Record PdbHashTable := { h_size : Z; h_capacity : Z; h_vectorLength : Z; m_items : list (Z * Z) }.

Record PdbStream := { m_namesBuffer : list Z; m_table : PdbHashTable }.
Definition PdbStreamVersion_VC70 : Z := 20000404.

(** The first item of the key. *)
Definition GetValue (t : PdbHashTable) (key : Z) : option Z :=
  match list_find (fun i => i.1 = key) t.(m_items) with Some (_, i) => Some i.2 | None => None end.

(** The walk over the names: [k] is the offset of the current one. *)
Fixpoint GetStream_loop (fuel : nat) (names name : list Z) (k : nat) : outcome (option nat) :=
  match fuel with
  | O => Diverged
  | S fuel =>
      same ← same_name name (drop k names);
      if (same : bool) then Ret (Some k)
      else
        s ← c_str (drop k names);
        let k := (k + length s + 1)%nat in
        if (length names <=? k)%nat then Ret None else GetStream_loop fuel names name k
  end.

(** The index of a named stream. *)
Definition PdbStream_GetStream (p : PdbStream) (name : list Z) : outcome (option Z) :=
  k ← GetStream_loop (S (length p.(m_namesBuffer))) p.(m_namesBuffer) name 0;
  Ret (match k with Some k => GetValue p.(m_table) (Z.of_nat k) | None => None end).

(** ** Records *)

Definition S_CONSTANT : Z := 0x1107.
Definition S_UDT : Z := 0x1108.
Definition S_LDATA32 : Z := 0x110c.
Definition S_GDATA32 : Z := 0x110d.
Definition S_PUB32 : Z := 0x110e.
Definition S_PROCREF : Z := 0x1125.
Definition S_LPROCREF : Z := 0x1127.
Definition DEBUG_S_LINES : Z := 0xf2.
Definition Section_Text : Z := 1.
Definition Ver60 : Z := 0xeffe0000 + 19970605.
Definition MAXPATH : nat := 255.

(** The fields of [DbiStreamHeader] that are used. *)
Record DbiStreamHeader := {
  VersionSignature : Z; VersionHeader : Z; SymRecordStreamIndex : Z; ModInfoSize : Z;
  SectionContributionSize : Z; Machine : Z
}.
Definition DbiStreamHeader_of (l : list Z) : DbiStreamHeader :=
  {| VersionSignature := s32 (fld l 0 4); VersionHeader := fld l 4 4; SymRecordStreamIndex := fld l 20 2;
     ModInfoSize := s32 (fld l 24 4); SectionContributionSize := s32 (fld l 28 4); Machine := fld l 58 2 |}.

Record SectionContribEntry := { sc_Section : Z; sc_Offset : Z; sc_Size : Z; sc_ModuleIndex : Z }.
Definition SectionContribEntry_of (l : list Z) : SectionContribEntry :=
  {| sc_Section := fld l 0 2; sc_Offset := s32 (fld l 4 4); sc_Size := s32 (fld l 8 4); sc_ModuleIndex := fld l 16 2 |}.

Record ModInfo := { ModuleSymStream : Z; SymByteSize : Z; C11ByteSize : Z; C13ByteSize : Z }.
Definition ModInfo_of (l : list Z) : ModInfo :=
  {| ModuleSymStream := fld l 34 2; SymByteSize := fld l 36 4; C11ByteSize := fld l 40 4; C13ByteSize := fld l 44 4 |}.

(** A line: the offset of its code and its number, 24 bits. *)
Record CV_Line := { l_offset : Z; linenumStart : Z }.
Definition CV_Line_of (l : list Z) : CV_Line :=
  {| l_offset := fld l 0 4; linenumStart := Z.land (fld l 4 4) 0xFFFFFF |}.

(** The functions by offset in the text section. *)
Abbreviation functions := (gmap Z (list Z)).

Section file.
Context (m : mem) (base : Z).

(** ** Loading the table and the names *)

Fixpoint load_items (n : nat) (s : MsfStream) : outcome (MsfStream * list (Z * Z)) :=
  match n with
  | O => Ret (s, [])
  | S n =>
      key ← Read_value m base 4 s;
      value ← Read_value m base 4 key.1;
      t ← load_items n value.1;
      Ret (t.1, (key.2, value.2) :: t.2)
  end.

Definition PdbHashTable_Load (s : MsfStream) : outcome (MsfStream * PdbHashTable) :=
  size ← Read_value m base 4 s;
  capacity ← Read_value m base 4 size.1;
  vectorLength ← Read_value m base 4 capacity.1;
  let s := Skip (u32 (vectorLength.2 * 2) * 4) vectorLength.1 in
  t ← load_items (Z.to_nat size.2) s;
  Ret (SkipAlign 2 t.1, {| h_size := size.2; h_capacity := capacity.2; h_vectorLength := vectorLength.2; m_items := t.2 |}).

(** The constructor of [PdbStream] on its stream. *)
Definition PdbStream_new (s : MsfStream) : outcome (MsfStream * PdbStream) :=
  header ← Read_object m base 28 s;
  _ ← Assert (fld header.2 0 4 =? PdbStreamVersion_VC70);
  len ← Read_value m base 4 header.1;
  names ← Read_buffer m base (Z.to_nat len.2) len.1;
  t ← PdbHashTable_Load names.1;
  Ret (t.1, {| m_namesBuffer := names.2; m_table := t.2 |}).

(** ** Public symbols *)

(** [insert] keeps an entry that is there. *)
Definition add_function (f : functions) (offset : Z) (name : list Z) : functions :=
  match f !! offset with Some _ => f | None => <[offset := name]> f end.

(** One turn of the loop over the records. *)
Definition load_record (s : MsfStream) (f : functions) : outcome (MsfStream * functions) :=
  header ← Read_object m base 4 s;
  let len := fld header.2 0 2 in
  let type := fld header.2 2 2 in
  if (type =? S_PUB32) || (type =? S_LPROCREF) || (type =? S_PROCREF) then
    record ← Read_object m base 10 header.1;
    name ← ReadString m base record.1;
    let f := if fld record.2 8 2 =? Section_Text then add_function f (fld record.2 4 4) name.2 else f in
    Ret (SkipAlign 4 name.1, f)
  else if (type =? S_CONSTANT) || (type =? S_UDT) || (type =? S_LDATA32) || (type =? S_GDATA32) then
    Ret (SkipAlign 4 (Skip (u32 (len - 2)) header.1), f)
  else Bugcheck.

Fixpoint Publics_loop (fuel : nat) (s : MsfStream) (f : functions) : outcome (MsfStream * functions) :=
  match fuel with
  | O => Diverged
  | S fuel =>
      if s.(m_position) <? s.(ms_size) then r ← load_record s f; Publics_loop fuel r.1 r.2
      else Ret (s, f)
  end.
Definition Publics_Load (fuel : nat) (s : MsfStream) : outcome (MsfStream * functions) := Publics_loop fuel s ∅.

(** The return value is false in both cases. *)
Definition GetFunction (f : functions) (offset : Z) : bool * list Z :=
  match f !! offset with
  | None => (false, lit "<not found>")
  | Some name => (false, name)
  end.

(** ** Debug information *)

Record PdbDbi := { dbi_stream : Z; m_header : DbiStreamHeader; m_textSection : Z; m_publics : functions }.

(** The constructor, on the stream at index [i]. *)
Definition PdbDbi_new (fuel : nat) (streams : list MsfStream) (i image : Z) : outcome (list MsfStream * PdbDbi) :=
  h ← on_stream i (Read_object m base 64) streams;
  let header := DbiStreamHeader_of h.2 in
  _ ← Assert (header.(VersionSignature) =? -1);
  _ ← Assert (header.(VersionHeader) =? 19990903);
  _ ← Assert (header.(Machine) =? 0x8664);
  section ← GetPESection_at m image 0;
  name ← read_cstr m section;
  _ ← Assert (bool_decide (name = lit ".text"));
  streams ← GetStream h.1 header.(SymRecordStreamIndex);
  p ← on_stream header.(SymRecordStreamIndex) (Publics_Load fuel) streams;
  Ret (p.1, {| dbi_stream := i; m_header := header; m_textSection := section; m_publics := p.2 |}).

(** The loop over the section contributions, up to [endPosition]. *)
Fixpoint GetModuleIndex_loop (fuel : nat) (s : MsfStream) (section offset endPosition : Z) : outcome (MsfStream * Z) :=
  match fuel with
  | O => Diverged
  | S fuel =>
      if s.(m_position) <? endPosition then
        r ← Read_object m base 28 s;
        let e := SectionContribEntry_of r.2 in
        if (e.(sc_Section) =? section) && ((u32 e.(sc_Offset) <=? offset) && (offset <? u32 (e.(sc_Offset) + e.(sc_Size))))
        then Ret (r.1, e.(sc_ModuleIndex))
        else GetModuleIndex_loop fuel r.1 section offset endPosition
      else Bugcheck
  end.

Definition GetModuleIndex (fuel : nat) (h : DbiStreamHeader) (section offset : Z) (s : MsfStream) : outcome (MsfStream * Z) :=
  let s := Seek (64 + h.(ModInfoSize)) s in
  let endPosition := u32 (s.(m_position) + h.(ModInfoSize) + h.(SectionContributionSize)) in
  version ← Read_object m base 4 s;
  _ ← Assert (fld version.2 0 4 =? Ver60);
  GetModuleIndex_loop fuel version.1 section offset endPosition.

(** The loop over the modules: the [current]-th is next. *)
Fixpoint GetModuleInfo_loop (fuel : nat) (s : MsfStream) (index current endPosition : Z) : outcome (MsfStream * option ModInfo) :=
  match fuel with
  | O => Diverged
  | S fuel =>
      if s.(m_position) <? endPosition then
        r ← Read_object m base 64 s;
        if current =? index then Ret (r.1, Some (ModInfo_of r.2))
        else
          s ← SkipString m base r.1;
          s ← SkipString m base s;
          GetModuleInfo_loop fuel (SkipAlign 4 s) index (u32 (current + 1)) endPosition
      else Ret (s, None)
  end.

Definition GetModuleInfo (fuel : nat) (h : DbiStreamHeader) (index : Z) (s : MsfStream) : outcome (MsfStream * option ModInfo) :=
  let s := Seek 64 s in
  GetModuleInfo_loop fuel s index 0 (u32 (s.(m_position) + h.(ModInfoSize))).

(** ** Lines *)

(** The loop over the lines of a block: its condition is the number of lines, which
    does not change, so it ends only where the offset is found. *)
Fixpoint find_line (fuel : nat) (s : MsfStream) (nLines target : Z) (prev : CV_Line) : outcome (MsfStream * option Z) :=
  match fuel with
  | O => Diverged
  | S fuel =>
      if truthy nLines then
        r ← Read_object m base 8 s;
        let line := CV_Line_of r.2 in
        if (prev.(l_offset) <=? target) && (target <? line.(l_offset)) then Ret (r.1, Some prev.(linenumStart))
        else find_line fuel r.1 nLines target line
      else Ret (s, None)
  end.

(** What a lookup gives: the return value, the name and the line. *)
Record lookup := { found : bool; l_Name : list Z; LineNumber : Z }.

Fixpoint ResolveFunction_loop (fuel : nat) (s : MsfStream) (f : functions) (offset endPosition : Z) : outcome (MsfStream * lookup) :=
  match fuel with
  | O => Diverged
  | S fuel' =>
      if s.(m_position) <? endPosition then
        h ← Read_object m base 8 s;
        let type := fld h.2 0 4 in
        let cbLen := s32 (fld h.2 4 4) in
        if negb (type =? DEBUG_S_LINES) then ResolveFunction_loop fuel' (Skip (u32 cbLen) h.1) f offset endPosition
        else
          l ← Read_object m base 12 h.1;
          let offCon := s32 (fld l.2 0 4) in
          let cbCon := s32 (fld l.2 8 4) in
          if offset <? u32 offCon then Ret (l.1, {| found := false; l_Name := lit "<not found1>"; LineNumber := 0 |})
          else if u32 (offCon + cbCon) <=? offset then
            ResolveFunction_loop fuel' (Skip (u32 (cbLen - 12)) l.1) f offset endPosition
          else
            b ← Read_object m base 12 l.1;
            let nLines := fld b.2 4 4 in
            r ← find_line fuel b.1 nLines (u32 (offset - offCon)) {| l_offset := 0; linenumStart := 0 |};
            match r.2 with
            | Some line => Ret (r.1, {| found := true; l_Name := (GetFunction f (u32 offCon)).2; LineNumber := line |})
            | None => ResolveFunction_loop fuel' r.1 f offset endPosition
            end
      else Ret (s, {| found := false; l_Name := lit "<not found2>"; LineNumber := 0 |})
  end.

Definition ResolveFunction (fuel : nat) (d : PdbDbi) (streams : list MsfStream) (rva : Z) : outcome (list MsfStream * lookup) :=
  va ← VirtualAddress m d.(m_textSection);
  let offset := u32 (rva - va) in
  i ← on_stream d.(dbi_stream) (GetModuleIndex fuel d.(m_header) Section_Text offset) streams;
  r ← on_stream d.(dbi_stream) (GetModuleInfo fuel d.(m_header) i.2) i.1;
  match r.2 with
  | None => Bugcheck
  | Some info =>
      _ ← Assert (info.(C11ByteSize) =? 0);
      _ ← Assert (negb (info.(C13ByteSize) =? 0));
      a ← on_stream d.(dbi_stream) (ReadString_array m base MAXPATH) r.1;
      b ← on_stream d.(dbi_stream) (ReadString_array m base MAXPATH) a.1;
      streams ← GetStream b.1 info.(ModuleSymStream);
      h ← on_stream info.(ModuleSymStream) (Read_value m base 4) streams;
      _ ← Assert (h.2 =? 4);
      on_stream info.(ModuleSymStream)
        (fun s => ResolveFunction_loop fuel (Seek info.(SymByteSize) s) d.(m_publics) offset
                    (u32 (info.(SymByteSize) + info.(C13ByteSize)))) h.1
  end.

(** The constructor of [Pdb]: streams 3 and 1 are the debug information and the
    named streams. *)
Record Pdb := { m_msfFile : list MsfStream; m_dbi : PdbDbi; m_pdb : PdbStream }.
Definition Pdb_new (fuel : nat) (image : Z) : outcome Pdb :=
  streams ← MsfFile m base;
  streams ← GetStream streams 3;
  d ← PdbDbi_new fuel streams 3 image;
  streams ← GetStream d.1 1;
  p ← on_stream 1 PdbStream_new streams;
  Ret {| m_msfFile := p.1; m_dbi := d.2; m_pdb := p.2 |}.
End file.

(** ** The symbols of a stream *)

(** A symbol of a kind the code reads, with its fields, or one it skips, with the
    bytes behind its type. *)
Inductive symbol :=
| Public (type len flags offset section : Z) (name : list Z)
| Other (type : Z) (payload : list Z).

Definition pad (n : nat) : list Z := replicate (Z.to_nat ((- Z.of_nat n) mod 4)) 0.
Definition symbol_bytes (x : symbol) : list Z :=
  match x with
  | Public type len flags offset section name =>
      le_to 2 len ++ le_to 2 type ++ le_to 4 flags ++ le_to 4 offset ++ le_to 2 section ++ name ++ [0]
  | Other type payload => le_to 2 (Z.of_nat (length payload) + 2) ++ le_to 2 type ++ payload
  end.
Definition encode_symbol (x : symbol) : list Z := symbol_bytes x ++ pad (length (symbol_bytes x)).

Definition symbol_ok (x : symbol) : Prop :=
  match x with
  | Public type len flags offset section name =>
      (type = S_PUB32 \/ type = S_LPROCREF \/ type = S_PROCREF) /\ 0 <= offset < 2 ^ 32 /\ 0 <= section < 2 ^ 16 /\
      Forall (fun c => c <> 0) name
  | Other type payload =>
      (type = S_CONSTANT \/ type = S_UDT \/ type = S_LDATA32 \/ type = S_GDATA32) /\ Z.of_nat (length payload) + 2 < 2 ^ 16
  end.

(** What a symbol adds to the functions. *)
Definition apply_symbol (f : functions) (x : symbol) : functions :=
  match x with
  | Public _ _ _ offset section name => if section =? Section_Text then add_function f offset name else f
  | Other _ _ => f
  end.

(** The stream at another position. *)
Definition at_position (s : MsfStream) (p : Z) : MsfStream :=
  {| m_blockNumbers := s.(m_blockNumbers); ms_size := s.(ms_size); m_position := p |}.

Lemma with_position_at s p q : 0 <= q < 2 ^ 32 -> with_position (at_position s p) q = at_position s q.
Proof. intros Hq. unfold with_position. by rewrite wrap_small by lia. Qed.

Lemma SkipAlign_at s p : 0 <= p -> p + 3 < 2 ^ 32 -> SkipAlign 4 (at_position s p) = at_position s (p + (- p) mod 4).
Proof.
  intros H0 H1. unfold SkipAlign. cbn [at_position m_position]. change (4 - 1) with (2 ^ 2 - 1) at 2.
  rewrite (land_lnot_low 2 (p + (4 - 1)) 64) by lia. rewrite with_position_at.
  - f_equal. change (2 ^ 2) with 4. Z.to_euclidean_division_equations; lia.
  - change (2 ^ 2) with 4. Z.to_euclidean_division_equations; lia.
Qed.

Lemma fld_app l1 l l2 off n : length l1 = off -> length l = n -> fld (l1 ++ l ++ l2) off n = le_of l.
Proof. intros <- <-. unfold fld. by rewrite drop_app_length, take_app_length. Qed.

Lemma fld_le l1 n v l2 off : length l1 = off -> 0 <= v < 256 ^ Z.of_nat n -> fld (l1 ++ le_to n v ++ l2) off n = v.
Proof. intros Hl Hv. rewrite (fld_app l1 (le_to n v) l2) by (done || apply le_to_length). by apply le_of_to. Qed.

Lemma encode_symbol_length x : Z.of_nat (length (encode_symbol x)) =
  Z.of_nat (length (symbol_bytes x)) + (- Z.of_nat (length (symbol_bytes x))) mod 4.
Proof.
  unfold encode_symbol, pad. rewrite length_app, length_replicate.
  pose proof (Z.mod_pos_bound (- Z.of_nat (length (symbol_bytes x))) 4). lia.
Qed.

Section symbols.
Context (m : mem) (base : Z) (Hbase : 0 <= base <= 2 ^ 63) (Hbs : BlockSize m base = Ret 4096).
Context (s : MsfStream) (Hs : Forall (fun b => 0 <= b < 2 ^ 32) s.(m_blockNumbers)).

Lemma Read_at n p l : 0 <= p -> holds m base s p l -> length l = n -> (0 < n <= 4096)%nat -> p + Z.of_nat n < 2 ^ 32 ->
  Read_object m base n (at_position s p) = Ret (at_position s (p + Z.of_nat n), l).
Proof using All.
  intros Hp Hl Hn Hb Hm. rewrite (Read_object_run m base Hbase Hbs (at_position s p) l n) by (done || by split).
  cbn [at_position m_position]. by rewrite (with_position_at s p) by lia.
Qed.

Lemma ReadString_at p str : 0 <= p -> holds m base s p (str ++ [0]) -> Forall (fun c => c <> 0) str ->
  p + Z.of_nat (length str) + 1 < 2 ^ 32 ->
  ReadString m base (at_position s p) = Ret (at_position s (p + Z.of_nat (length str) + 1), str).
Proof using All.
  intros Hp Hl Hz Hm. rewrite (ReadString_run m base Hbase Hbs (at_position s p) str) by (done || by split).
  cbn [at_position m_position]. by rewrite (with_position_at s p) by lia.
Qed.

Lemma load_record_run x p f :
  symbol_ok x -> 0 <= p -> p mod 4 = 0 -> p + Z.of_nat (length (encode_symbol x)) + 3 < 2 ^ 32 ->
  holds m base s p (encode_symbol x) ->
  load_record m base (at_position s p) f = Ret (at_position s (p + Z.of_nat (length (encode_symbol x))), apply_symbol f x).
Proof using All.
  intros Hx Hp Hmod Hmax Hl. rewrite encode_symbol_length in *. unfold encode_symbol in Hl. apply holds_app in Hl as [Hl _].
  set (n := Z.of_nat (length (symbol_bytes x))) in *. pose proof (Z.mod_pos_bound (- n) 4 ltac:(lia)).
  assert (forall q, q = p + n -> SkipAlign 4 (at_position s q) = at_position s (p + (n + (- n) mod 4))) as Halign.
  { intros q ->. rewrite SkipAlign_at by lia. f_equal. Z.to_euclidean_division_equations; lia. }
  unfold load_record. destruct x as [type len flags offset section name | type payload]; cbn [symbol_bytes apply_symbol] in *.
  - destruct Hx as (Ht & Ho & Hsec & Hz).
    assert (n = 15 + Z.of_nat (length name)) as Hn by (unfold n; rewrite !length_app, !le_to_length; cbn [length]; lia).
    replace (le_to 2 len ++ le_to 2 type ++ le_to 4 flags ++ le_to 4 offset ++ le_to 2 section ++ name ++ [0])
      with ((le_to 2 len ++ le_to 2 type) ++ (le_to 4 flags ++ le_to 4 offset ++ le_to 2 section) ++ (name ++ [0])) in Hl
      by (by rewrite <- !app_assoc).
    apply holds_app in Hl as [H1 Hl]. apply holds_app in Hl as [H2 H3]. rewrite !length_app, !le_to_length in H2, H3.
    rewrite (Read_at 4 p _ Hp H1) by (rewrite ?length_app, ?le_to_length; lia). cbn [mbind outcome_bind fst snd].
    assert (fld (le_to 2 len ++ le_to 2 type) 2 2 = type) as ->.
    { rewrite <- (app_nil_r (le_to 2 type)). apply fld_le; [apply le_to_length |]. unfold S_PUB32, S_LPROCREF, S_PROCREF in Ht. cbn. lia. }
    assert ((type =? S_PUB32) || (type =? S_LPROCREF) || (type =? S_PROCREF) = true) as ->
      by (destruct Ht as [-> | [-> | ->]]; done).
    change (Z.of_nat (2 + 2)) with 4 in *. change (Z.of_nat 4) with 4 in *.
    rewrite (Read_at 10 (p + 4) _ ltac:(lia) H2) by (rewrite ?length_app, ?le_to_length; lia). cbn [mbind outcome_bind fst snd].
    change (Z.of_nat (4 + (4 + 2))) with 10 in H3. change (Z.of_nat 10) with 10.
    rewrite (ReadString_at (p + 4 + 10) name) by (done || lia). cbn [mbind outcome_bind fst snd].
    rewrite Halign by lia.
    rewrite (app_assoc (le_to 4 flags)), <- (app_nil_r ((le_to 4 flags ++ _) ++ _)), <- app_assoc.
    rewrite (fld_le _ 2 section) by (rewrite ?length_app, ?le_to_length; done || (cbn; lia)).
    rewrite <- app_assoc, (fld_le _ 4 offset) by (rewrite ?le_to_length; done || (cbn; lia)). done.
  - destruct Hx as (Ht & Hlen).
    assert (n = 4 + Z.of_nat (length payload)) as Hn by (unfold n; rewrite !length_app, !le_to_length; lia).
    rewrite app_assoc in Hl. apply holds_app in Hl as [H1 H2].
    rewrite (Read_at 4 p _ Hp H1) by (rewrite ?length_app, ?le_to_length; lia). cbn [mbind outcome_bind fst snd].
    assert (fld (le_to 2 (Z.of_nat (length payload) + 2) ++ le_to 2 type) 2 2 = type) as ->.
    { rewrite <- (app_nil_r (le_to 2 type)). apply fld_le; [apply le_to_length |].
      unfold S_CONSTANT, S_UDT, S_LDATA32, S_GDATA32 in Ht. cbn. lia. }
    assert ((type =? S_PUB32) || (type =? S_LPROCREF) || (type =? S_PROCREF) = false) as ->
      by (destruct Ht as [-> | [-> | [-> | ->]]]; done).
    assert ((type =? S_CONSTANT) || (type =? S_UDT) || (type =? S_LDATA32) || (type =? S_GDATA32) = true) as ->
      by (destruct Ht as [-> | [-> | [-> | ->]]]; done).
    assert (fld (le_to 2 (Z.of_nat (length payload) + 2) ++ le_to 2 type) 0 2 = Z.of_nat (length payload) + 2) as ->
      by (apply (fld_le []); [done | cbn; lia]).
    unfold Skip. cbn [at_position m_position]. change (Z.of_nat 4) with 4. rewrite (wrap_small 32 (_ + 2 - 2)) by lia.
    fold (at_position s (p + 4)). rewrite with_position_at by lia. by rewrite Halign by lia.
Qed.

Lemma encode_symbols_mod xs : Z.of_nat (length (flat_map encode_symbol xs)) mod 4 = 0.
Proof.
  induction xs as [|x xs IH]; [done |]. cbn [flat_map]. rewrite length_app, Nat2Z.inj_add, encode_symbol_length.
  Z.to_euclidean_division_equations; lia.
Qed.

Lemma Publics_loop_run xs p f fuel :
  Forall symbol_ok xs -> 0 <= p -> p mod 4 = 0 -> holds m base s p (flat_map encode_symbol xs) ->
  s.(ms_size) = p + Z.of_nat (length (flat_map encode_symbol xs)) -> s.(ms_size) + 3 < 2 ^ 32 -> (length xs < fuel)%nat ->
  Publics_loop m base fuel (at_position s p) f = Ret (at_position s s.(ms_size), fold_left apply_symbol xs f).
Proof using All.
  revert p f fuel. induction xs as [|x xs IH]; intros p f fuel Hx Hp Hmod Hl Hsize Hmax Hfuel;
    (destruct fuel as [|fuel]; [cbn in Hfuel; lia |]); cbn [Publics_loop at_position m_position ms_size fold_left flat_map length] in *.
  - destruct (Z.ltb_spec p (ms_size s)); [lia |]. do 3 f_equal. lia.
  - apply Forall_cons in Hx as [Hx Hxs]. rewrite length_app in Hsize. apply holds_app in Hl as [H1 H2].
    assert (0 < length (encode_symbol x))%nat as Hpos.
    { unfold encode_symbol. rewrite length_app. destruct x; cbn [symbol_bytes]; rewrite !length_app, le_to_length; lia. }
    destruct (Z.ltb_spec p (ms_size s)); [| lia].
    rewrite (load_record_run x p f) by (done || lia). cbn [mbind outcome_bind fst snd].
    rewrite IH; [done | done | lia | | exact H2 | lia | done | lia].
    rewrite encode_symbol_length. Z.to_euclidean_division_equations; lia.
Qed.
End symbols.

Definition text_symbol (offset : Z) (x : symbol) : bool :=
  match x with Public _ _ _ o section _ => (o =? offset) && (section =? Section_Text) | Other _ _ => false end.

(** Fact: loading the public symbols. On a stream that holds a list of symbols, each
    padded to four bytes, the loop reads them all, and the functions are exactly
    the names of the symbols in the text section by their offsets, the first of
    several with one offset; looking up an offset then gives that name. *)
Theorem Publics_Load_symbols m base s xs fuel :
  0 <= base <= 2 ^ 63 -> BlockSize m base = Ret 4096 -> Forall (fun b => 0 <= b < 2 ^ 32) s.(m_blockNumbers) ->
  s.(m_position) = 0 -> Forall symbol_ok xs -> holds m base s 0 (flat_map encode_symbol xs) ->
  s.(ms_size) = Z.of_nat (length (flat_map encode_symbol xs)) -> s.(ms_size) + 3 < 2 ^ 32 -> (length xs < fuel)%nat ->
  Publics_Load m base fuel s = Ret (at_position s s.(ms_size), fold_left apply_symbol xs ∅) /\
  forall offset, (GetFunction (fold_left apply_symbol xs ∅) offset).2 =
    match list_find (text_symbol offset) xs with
    | Some (_, Public _ _ _ _ _ name) => name
    | _ => lit "<not found>"
    end.
Proof.
  intros Hbase Hbs Hs Hp Hx Hl Hsize Hmax Hfuel. split.
  - unfold Publics_Load. replace s with (at_position s 0) at 1 by (destruct s; cbn in *; by subst).
    by rewrite (Publics_loop_run m base Hbase Hbs s Hs xs 0 ∅ fuel).
  - intros offset. unfold GetFunction.
    assert (forall f, fold_left apply_symbol xs f !! offset =
      match f !! offset with
      | Some name => Some name
      | None => match list_find (text_symbol offset) xs with
                | Some (_, Public _ _ _ _ _ name) => Some name
                | _ => None
                end
      end) as Hfold.
    { clear. induction xs as [|x xs IH]; intros f; cbn [fold_left list_find]; [by destruct (f !! offset) |].
      rewrite IH. destruct x as [t l fl o sec nm | t pl]; cbn [apply_symbol text_symbol].
      - destruct (Z.eqb_spec sec Section_Text) as [-> | Hne].
        + unfold add_function. destruct (Z.eqb_spec o offset) as [-> | Hoff]; cbn [andb].
          * rewrite decide_True by done. destruct (f !! offset) as [n|] eqn:Hf; [by rewrite Hf | by rewrite lookup_insert_eq].
          * assert ((match f !! o with Some _ => f | None => <[o:=nm]> f end) !! offset = f !! offset) as ->
              by (destruct (f !! o); [done | by rewrite lookup_insert_ne]).
            rewrite decide_False by (by intros []). destruct (list_find _ xs) as [[k y]|]; cbn; done.
        + rewrite andb_false_r, decide_False by (by intros []). destruct (list_find _ xs) as [[k y]|]; cbn; done.
      - rewrite decide_False by (by intros []). destruct (list_find _ xs) as [[k y]|]; cbn; done. }
    rewrite Hfold. change ((∅ : functions) !! offset) with (None : option (list Z)). cbn iota.
    destruct (list_find _ xs) as [[k []]|]; done.
Qed.

(** ** Lines and modules *)

Definition line_bytes (l : CV_Line) : list Z := le_to 4 l.(l_offset) ++ le_to 4 l.(linenumStart).
Definition line_ok (l : CV_Line) : Prop := 0 <= l.(l_offset) < 2 ^ 32 /\ 0 <= l.(linenumStart) < 2 ^ 24.

(** The offsets of the lines grow. *)
Fixpoint increasing (p : Z) (ls : list CV_Line) : Prop :=
  match ls with
  | [] => True
  | l :: ls => p < l.(l_offset) /\ increasing l.(l_offset) ls
  end.

(** The 64 bytes of a module, its two names and the padding. *)
Record module := { mod_info : list Z; mod_name : list Z; obj_name : list Z }.
Definition module_bytes (x : module) : list Z := x.(mod_info) ++ x.(mod_name) ++ [0] ++ x.(obj_name) ++ [0].
Definition encode_module (x : module) : list Z := module_bytes x ++ pad (length (module_bytes x)).
Definition module_ok (x : module) : Prop :=
  length x.(mod_info) = 64%nat /\ Forall (fun c => c <> 0) x.(mod_name) /\ Forall (fun c => c <> 0) x.(obj_name).

Lemma line_of_bytes l : line_ok l -> CV_Line_of (line_bytes l) = l.
Proof.
  intros [Ho Hn]. unfold CV_Line_of, line_bytes.
  assert (fld (le_to 4 (l_offset l) ++ le_to 4 (linenumStart l)) 0 4 = l_offset l) as ->
    by (apply (fld_le []); [done | exact Ho]).
  assert (fld (le_to 4 (l_offset l) ++ le_to 4 (linenumStart l)) 4 4 = linenumStart l) as ->.
  { rewrite <- (app_nil_r (le_to 4 (linenumStart l))). apply fld_le; [done |]. change (256 ^ Z.of_nat 4) with (2 ^ 32). lia. }
  change 0xFFFFFF with (Z.ones 24). rewrite Z.land_ones, Z.mod_small by lia. by destruct l.
Qed.

Section lookups.
Context (m : mem) (base : Z) (Hbase : 0 <= base <= 2 ^ 63) (Hbs : BlockSize m base = Ret 4096).
Context (s : MsfStream) (Hs : Forall (fun b => 0 <= b < 2 ^ 32) s.(m_blockNumbers)).

(** A turn of the loop that does not find the offset. *)
Lemma find_line_step l p nLines target prev fuel :
  line_ok l -> 0 <= p -> p + 8 < 2 ^ 32 -> holds m base s p (line_bytes l) -> nLines <> 0 ->
  find_line m base (S fuel) (at_position s p) nLines target prev =
    if (prev.(l_offset) <=? target) && (target <? l.(l_offset)) then Ret (at_position s (p + 8), Some prev.(linenumStart))
    else find_line m base fuel (at_position s (p + 8)) nLines target l.
Proof using All.
  intros Hl Hp Hmax Hb Hn. cbn [find_line]. rewrite (truthy_nonzero nLines) by done.
  rewrite (Read_at m base Hbase Hbs s Hs 8 p (line_bytes l)); [| done | done | by unfold line_bytes; rewrite length_app, !le_to_length | lia | lia].
  cbn [mbind outcome_bind fst snd]. rewrite line_of_bytes by done. by destruct ((l_offset prev <=? target) && (target <? l_offset l)).
Qed.

Lemma find_line_passes ls p nLines target prev fuel :
  Forall line_ok ls -> 0 <= p -> p + 8 * Z.of_nat (length ls) < 2 ^ 32 -> holds m base s p (flat_map line_bytes ls) ->
  nLines <> 0 -> Forall (fun l => l.(l_offset) <= target) ls ->
  find_line m base (length ls + fuel) (at_position s p) nLines target prev =
    find_line m base fuel (at_position s (p + 8 * Z.of_nat (length ls))) nLines target (List.last ls prev).
Proof using All.
  revert p prev. induction ls as [|l ls IH]; intros p prev Hok Hp Hmax Hb Hn Ht; cbn [length] in *.
  { cbn [Nat.add List.last]. do 2 f_equal. lia. }
  apply Forall_cons in Hok as [Hl Hok]. apply Forall_cons in Ht as [Hlt Ht]. cbn [flat_map] in Hb. apply holds_app in Hb as [H1 H2].
  change (S (length ls) + fuel)%nat with (S (length ls + fuel)).
  rewrite (find_line_step l) by (done || lia). destruct (Z.ltb_spec target (l_offset l)); [lia |]. rewrite andb_false_r.
  assert (length (line_bytes l) = 8%nat) as Hlen by (unfold line_bytes; by rewrite length_app, !le_to_length).
  rewrite Hlen in H2. rewrite IH; [| done | lia | lia | exact H2 | done | done].
  replace (p + 8 + 8 * Z.of_nat (length ls)) with (p + 8 * Z.of_nat (S (length ls))) by lia. f_equal.
  destruct ls as [|l' ls]; [done |]. cbn [List.last]. clear. revert l'. induction ls as [|a ls IH]; intros l'; [done | apply IH].
Qed.

(** Fact: the line of an offset. Among lines with growing offsets the loop finds the
    one whose code the offset is in: at or behind its start and in front of the
    next line's; it reads the lines in order, across the blocks of the stream. *)
Theorem find_line_finds pre l next post p nLines target fuel :
  let ls := pre ++ l :: next :: post in
  Forall line_ok ls -> increasing (-1) ls -> 0 <= p -> p + 8 * Z.of_nat (length ls) < 2 ^ 32 ->
  holds m base s p (flat_map line_bytes ls) -> nLines <> 0 ->
  l.(l_offset) <= target < next.(l_offset) -> (length ls <= fuel)%nat ->
  exists p', find_line m base fuel (at_position s p) nLines target {| l_offset := 0; linenumStart := 0 |} =
    Ret (at_position s p', Some l.(linenumStart)).
Proof using All.
  intros ls Hok Hinc Hp Hmax Hb Hn [Ht1 Ht2] Hfuel. unfold ls in *.
  assert (Forall (fun x => x.(l_offset) <= target) (pre ++ [l])) as Hbefore.
  { assert (forall pre q, increasing q (pre ++ l :: next :: post) -> Forall (fun x => x.(l_offset) <= l.(l_offset)) pre /\ q < l.(l_offset)) as Hgen.
    { clear. induction pre as [|x pre IH]; intros q; cbn [app increasing].
      - intros [Hq _]. split; [constructor | done].
      - intros [Hq Hi]. destruct (IH _ Hi) as [Hf Hlt]. split; [constructor; [lia | done] | lia]. }
    destruct (Hgen pre (-1) Hinc) as [Hf _]. apply Forall_app. split; [| apply Forall_singleton; lia].
    eapply Forall_impl; [exact Hf |]. cbn. intros; lia. }
  replace (pre ++ l :: next :: post) with ((pre ++ [l]) ++ next :: post) in * by (by rewrite <- app_assoc).
  rewrite length_app in *. rewrite flat_map_app in Hb. apply holds_app in Hb as [H1 H2].
  apply Forall_app in Hok as [Hok1 Hok2]. apply Forall_cons in Hok2 as [Hnx _].
  assert (length (flat_map line_bytes (pre ++ [l])) = 8 * length (pre ++ [l]))%nat as Hlen.
  { clear. induction (pre ++ [l]) as [|x xs IH]; [done |]. cbn [flat_map length]. rewrite length_app, IH. unfold line_bytes. rewrite length_app, !le_to_length. lia. }
  cbn [flat_map length] in H2, Hmax, Hfuel. apply holds_app in H2 as [H2 _]. rewrite Hlen in H2.
  replace fuel with (length (pre ++ [l]) + S (fuel - S (length (pre ++ [l]))))%nat by lia.
  rewrite find_line_passes by (done || lia).
  rewrite (find_line_step next); [| done | lia | lia | | done].
  2: { by replace (p + 8 * Z.of_nat (length (pre ++ [l]))) with (p + Z.of_nat (8 * length (pre ++ [l]))) by lia. }
  rewrite List.last_last. destruct (Z.leb_spec (l_offset l) target); [| lia]. destruct (Z.ltb_spec target (l_offset next)); [| lia].
  cbn [andb]. eauto.
Qed.

(** Fact: an offset in the last line of a block is not found there: the loop goes on
    with the bytes behind the lines, since its condition is the constant number of
    lines. *)
Theorem find_line_overruns ls p target fuel prev :
  Forall line_ok ls -> 0 <= p -> p + 8 * Z.of_nat (length ls) < 2 ^ 32 -> holds m base s p (flat_map line_bytes ls) ->
  ls <> [] -> Forall (fun l => l.(l_offset) <= target) ls ->
  find_line m base (length ls + fuel) (at_position s p) (Z.of_nat (length ls)) target prev =
    find_line m base fuel (at_position s (p + 8 * Z.of_nat (length ls))) (Z.of_nat (length ls)) target (List.last ls prev).
Proof using All. intros. apply find_line_passes; try done. by destruct ls. Qed.

Lemma GetModuleInfo_loop_run xs k x p current endPosition fuel :
  Forall module_ok xs -> xs !! k = Some x -> 0 <= p -> p mod 4 = 0 ->
  p + Z.of_nat (length (flat_map encode_module xs)) + 3 < 2 ^ 32 ->
  holds m base s p (flat_map encode_module xs) -> p + Z.of_nat (length (flat_map encode_module xs)) <= endPosition ->
  (k < fuel)%nat -> 0 <= current -> current + Z.of_nat k < 2 ^ 32 ->
  exists p', GetModuleInfo_loop m base fuel (at_position s p) (current + Z.of_nat k) current endPosition =
    Ret (at_position s p', Some (ModInfo_of x.(mod_info))).
Proof using All.
  revert k p current fuel. induction xs as [|y xs IH]; intros k p current fuel Hok Hk Hp Hmod Hmax Hl Hend Hfuel Hc Hck; [done |].
  apply Forall_cons in Hok as [(Hlen & Hz1 & Hz2) Hok]. destruct fuel as [|fuel]; [lia |]. cbn [flat_map] in *. rewrite length_app in *.
  apply holds_app in Hl as [Hy Hl]. unfold encode_module in Hy at 1. apply holds_app in Hy as [Hy _].
  set (n := Z.of_nat (length (module_bytes y))) in *.
  assert (Z.of_nat (length (encode_module y)) = n + (- n) mod 4) as Hny.
  { unfold encode_module, pad. rewrite length_app, length_replicate. fold n. pose proof (Z.mod_pos_bound (- n) 4 ltac:(lia)). lia. }
  assert (n = 66 + Z.of_nat (length (mod_name y)) + Z.of_nat (length (obj_name y))) as Hn.
  { unfold n, module_bytes. rewrite !length_app, Hlen. cbn [length]. lia. }
  pose proof (Z.mod_pos_bound (- n) 4 ltac:(lia)).
  unfold module_bytes in Hy. apply holds_app in Hy as [H1 Hy]. rewrite (app_assoc (mod_name y)) in Hy. apply holds_app in Hy as [H2 H3].
  rewrite Hlen in *. rewrite length_app in H3. cbn [length] in H3.
  cbn [GetModuleInfo_loop at_position m_position]. destruct (Z.ltb_spec p endPosition); [| lia].
  fold (at_position s p). rewrite (Read_at m base Hbase Hbs s Hs 64 p (mod_info y)) by (done || lia). cbn [mbind outcome_bind fst snd].
  destruct k as [|k]; cbn in Hk.
  - injection Hk as ->. rewrite Z.add_0_r, Z.eqb_refl. eauto.
  - destruct (Z.eqb_spec current (current + Z.of_nat (S k))); [lia |]. unfold SkipString.
    change (Z.of_nat 64) with 64 in *. rewrite (ReadString_at m base Hbase Hbs s Hs (p + 64) (mod_name y)) by (done || lia).
    cbn [mbind outcome_bind fst snd].
    rewrite (ReadString_at m base Hbase Hbs s Hs (p + 64 + Z.of_nat (length (mod_name y)) + 1) (obj_name y)); [| lia | | done | lia].
    2: { by replace (p + 64 + Z.of_nat (length (mod_name y)) + 1) with (p + 64 + Z.of_nat (length (mod_name y) + 1)) by lia. }
    cbn [mbind outcome_bind fst snd]. rewrite SkipAlign_at by lia. rewrite (wrap_small 32) by lia.
    replace (current + Z.of_nat (S k)) with (current + 1 + Z.of_nat k) by lia.
    set (q := p + 64 + Z.of_nat (length (mod_name y)) + 1 + Z.of_nat (length (obj_name y)) + 1).
    assert (q + (- q) mod 4 = p + Z.of_nat (length (encode_module y))) as Hq.
    { rewrite Hny. unfold q. Z.to_euclidean_division_equations; lia. }
    rewrite Hq. apply (IH k); [done | done | lia | | lia | exact Hl | lia | lia | lia | lia].
    rewrite Hny. Z.to_euclidean_division_equations; lia.
Qed.

(** Fact: [GetModuleInfo] finds the module of an index: it passes over the names and
    the padding of the modules in front of it. *)
Theorem GetModuleInfo_finds h xs k x fuel :
  Forall module_ok xs -> xs !! k = Some x -> h.(ModInfoSize) = Z.of_nat (length (flat_map encode_module xs)) ->
  h.(ModInfoSize) + 67 < 2 ^ 32 -> holds m base s 64 (flat_map encode_module xs) -> (k < fuel)%nat ->
  exists p', GetModuleInfo m base fuel h (Z.of_nat k) s = Ret (at_position s p', Some (ModInfo_of x.(mod_info))).
Proof using All.
  intros Hok Hk Hsize Hmax Hl Hfuel. unfold GetModuleInfo. change (Seek 64 s) with (at_position s 64).
  cbn [at_position m_position]. fold (at_position s 64). rewrite (wrap_small 32) by lia.
  assert (k < length (flat_map encode_module xs))%nat as Hkl.
  { apply lookup_lt_Some in Hk. clear -Hk Hok. revert k Hk. induction Hok as [|y ys (Hy & _) Hys IH]; intros k Hk; [cbn in Hk; lia |].
    cbn [flat_map length] in *. rewrite length_app. unfold encode_module at 1, module_bytes. rewrite !length_app, Hy.
    destruct k as [|k]; [lia |]. specialize (IH k ltac:(lia)). lia. }
  apply (GetModuleInfo_loop_run xs k x 64 0); done || lia.
Qed.
End lookups.

(** ** A stream with three symbols and three lines *)

Definition demo_symbols : list symbol :=
  [Public S_PUB32 20 2 0x40 1 (lit "main"); Other S_UDT [1; 2; 3; 4; 5; 6]; Public S_PUB32 20 2 0x80 2 (lit "data")].
Definition demo_lines : list CV_Line :=
  [{| l_offset := 0; linenumStart := 10 |}; {| l_offset := 7; linenumStart := 12 |}; {| l_offset := 20; linenumStart := 13 |}].
Definition demo_pdb : mem :=
  mem_of 0 demo_header ∪ mem_of 4096 (flat_map encode_symbol demo_symbols) ∪ mem_of 8192 (flat_map line_bytes demo_lines).
Definition symbol_stream : MsfStream :=
  {| m_blockNumbers := [1]; ms_size := Z.of_nat (length (flat_map encode_symbol demo_symbols)); m_position := 0 |}.
Definition line_stream : MsfStream := {| m_blockNumbers := [2]; ms_size := 24; m_position := 0 |}.

(** Reading the bytes one by one decides [holds]. *)
Lemma holds_check m base s p l :
  forallb (fun i => bool_decide (byte_at m base s (p + Z.of_nat i) = l !! i)) (seq 0 (length l)) = true -> holds m base s p l.
Proof.
  intros H i b Hi. rewrite forallb_forall in H. specialize (H i). rewrite in_seq in H.
  apply bool_decide_eq_true_1 in H; [by rewrite H |]. apply lookup_lt_Some in Hi. lia.
Qed.

Lemma Publics_Load_symbols_witness :
  (GetFunction (fold_left apply_symbol demo_symbols ∅) 0x40).2 = lit "main" /\
  (GetFunction (fold_left apply_symbol demo_symbols ∅) 0x80).2 = lit "<not found>" /\
  exists s, Publics_Load demo_pdb 0 4 symbol_stream = Ret (s, fold_left apply_symbol demo_symbols ∅).
Proof.
  destruct (Publics_Load_symbols demo_pdb 0 symbol_stream demo_symbols 4) as [Hload Hfun].
  - lia.
  - vm_compute. reflexivity.
  - repeat constructor; cbn; lia.
  - reflexivity.
  - repeat constructor; cbn; auto; lia || congruence.
  - apply holds_check. vm_compute. reflexivity.
  - reflexivity.
  - vm_compute. reflexivity.
  - cbn. lia.
  - split; [rewrite Hfun; reflexivity |]. split; [rewrite Hfun; reflexivity |]. eexists. exact Hload.
Defined.

Lemma find_line_finds_witness :
  exists p, find_line demo_pdb 0 3 (at_position line_stream 0) 3 8 {| l_offset := 0; linenumStart := 0 |} =
    Ret (at_position line_stream p, Some 12).
Proof.
  apply (find_line_finds demo_pdb 0 ltac:(lia) ltac:(vm_compute; reflexivity) line_stream ltac:(repeat constructor; cbn; lia)
           [{| l_offset := 0; linenumStart := 10 |}] {| l_offset := 7; linenumStart := 12 |} {| l_offset := 20; linenumStart := 13 |} []).
  - repeat constructor; cbn; lia.
  - cbn. lia.
  - lia.
  - cbn. lia.
  - apply holds_check. vm_compute. reflexivity.
  - lia.
  - cbn. lia.
  - cbn. lia.
Defined.
