(* ===== verification/KdMemory.v ===== *)
(** Memory access of the kernel debugger (kernel/debugger/kd64/kdapi.cpp and
    mmdbg.cpp): the copy in aligned chunks behind every read and write the
    debugger makes, and its byte-wise move and fill.

    The pointer [Buffer] of the debugger's own object is a list of bytes and an
    offset into it.  Which addresses are valid is asked of the kernel
    ([IsValidKernelPointer]), an argument here: its body is not in the sources.
    An address that is held valid but is not mapped is a [Fault]. *)
From Stdlib Require Import ZArith Lia.
From S2P Require Import Prelude CMemory OSSystem.

Definition MMDBG_COPY_WRITE : Z := 0x00000001.
Definition MMDBG_COPY_UNSAFE : Z := 0x00000004.
Definition MMDBG_COPY_MAX_SIZE : Z := 0x8.

(** The status codes by name: their values are in a header outside the sources. *)
Inductive NTSTATUS :=
| STATUS_SUCCESS | STATUS_UNSUCCESSFUL | STATUS_INVALID_PARAMETER | STATUS_INVALID_PARAMETER_3
| STATUS_DATATYPE_MISALIGNMENT | STATUS_DEVICE_NOT_CONNECTED | STATUS_BREAKPOINT | STATUS_SINGLE_STEP | STATUS_ASSERTION_FAILURE.
Definition NT_SUCCESS (Status : NTSTATUS) : bool :=
  match Status with STATUS_SUCCESS => true | _ => false end.

(** ** Moving and filling *)

Fixpoint KdpMoveMemory (Length : nat) (m : mem) (Destination Source : Z) : outcome mem :=
  match Length with
  | O => Ret m
  | S n => c ← load8 m Source; m ← store8 m Destination c; KdpMoveMemory n m (Destination + 1) (Source + 1)
  end.

Fixpoint KdpZeroMemory (Length : nat) (m : mem) (Destination : Z) : outcome mem :=
  match Length with
  | O => Ret m
  | S n => m ← store8 m Destination 0; KdpZeroMemory n m (Destination + 1)
  end.

(** ** Copying *)

Section copy.
Context (IsValidKernelPointer : Z -> bool).

Definition legal_size (Size : Z) : bool := (Size =? 1) || (Size =? 2) || (Size =? 4) || (Size =? 8).

(** One access of [Size] bytes, at offset [k] of the buffer. *)
Definition MmDbgCopyMemory (m : mem) (Address : Z) (Buffer : list Z) (k : nat) (Size Flags : Z) : outcome (NTSTATUS * mem * list Z) :=
  if negb (legal_size Size) then Ret (STATUS_INVALID_PARAMETER_3, m, Buffer)
  else if negb (Z.land Address (Size - 1) =? 0) then Ret (STATUS_INVALID_PARAMETER_3, m, Buffer)
  else if negb (IsValidKernelPointer Address) then Ret (STATUS_UNSUCCESSFUL, m, Buffer)
  else if (length Buffer <? k + Z.to_nat Size)%nat then Fault
  else if truthy (Z.land Flags MMDBG_COPY_WRITE) then
    m ← store_bytes m Address (take (Z.to_nat Size) (drop k Buffer));
    Ret (STATUS_SUCCESS, m, Buffer)
  else
    l ← load_bytes m Address (Z.to_nat Size);
    Ret (STATUS_SUCCESS, m, list_inserts k l Buffer).

(** The two inner loops on the chunk: it doubles while it stays aligned, inside the
    limit and the rest, and is halved while the rest is smaller. *)
Fixpoint grow_chunk (fuel : nat) (Address RemainingLength ChunkSize CopyChunk : Z) : outcome Z :=
  match fuel with
  | O => Diverged
  | S fuel =>
      if (CopyChunk * 2 <=? RemainingLength) && (CopyChunk <? ChunkSize) && (Z.land Address (CopyChunk * 2 - 1) =? 0)
      then grow_chunk fuel Address RemainingLength ChunkSize (CopyChunk * 2)
      else Ret CopyChunk
  end.
Fixpoint shrink_chunk (fuel : nat) (RemainingLength CopyChunk : Z) : outcome Z :=
  match fuel with
  | O => Diverged
  | S fuel => if RemainingLength <? CopyChunk then shrink_chunk fuel RemainingLength (CopyChunk / 2) else Ret CopyChunk
  end.

(** A chunk has at most eight bytes. *)
Definition chunk_fuel : nat := 5.

(** The loop over the range; the result is the memory, the buffer and the length
    that remains. *)
Fixpoint copy_loop (fuel : nat) (m : mem) (Address : Z) (Buffer : list Z) (k : nat) (RemainingLength CopyChunk ChunkSize Flags : Z)
  : outcome (mem * list Z * Z) :=
  match fuel with
  | O => Diverged
  | S fuel =>
      if 0 <? RemainingLength then
        c ← grow_chunk chunk_fuel Address RemainingLength ChunkSize CopyChunk;
        c ← shrink_chunk chunk_fuel RemainingLength c;
        '(Status, m, Buffer) ← MmDbgCopyMemory m Address Buffer k c Flags;
        if negb (NT_SUCCESS Status) then Ret (m, Buffer, RemainingLength)
        else copy_loop fuel m (u64 (Address + c)) Buffer (k + Z.to_nat c) (RemainingLength - c) c ChunkSize Flags
      else Ret (m, Buffer, RemainingLength)
  end.

(** The status, the memory, the buffer and [*ActualSize]. *)
Definition KdpCopyMemoryChunks (m : mem) (Address : Z) (Buffer : list Z) (TotalSize ChunkSize Flags : Z)
  : outcome (NTSTATUS * mem * list Z * Z) :=
  let ChunkSize :=
    if ChunkSize =? 0 then 4 else if MMDBG_COPY_MAX_SIZE <? ChunkSize then MMDBG_COPY_MAX_SIZE else ChunkSize in
  '(m, Buffer, RemainingLength) ← copy_loop (S (Z.to_nat TotalSize)) m Address Buffer 0 TotalSize 1 ChunkSize Flags;
  Ret (if RemainingLength =? 0 then STATUS_SUCCESS else STATUS_UNSUCCESSFUL, m, Buffer, TotalSize - RemainingLength).
End copy.

(** ** Correctness *)

Lemma KdpMoveMemory_blit n m Destination Source :
  mem_ok m -> mapped m Source (Z.of_nat n) -> mapped m Destination (Z.of_nat n) ->
  Destination <= Source \/ Source + Z.of_nat n <= Destination ->
  exists m', KdpMoveMemory n m Destination Source = Ret m' /\ blit m Destination Source (Z.of_nat n) m'.
Proof.
  revert m Destination Source. induction n as [|n IH]; intros m d s Hok Hs Hd Hdis; cbn [KdpMoveMemory].
  { exists m. split; [done | apply blit_0]. }
  destruct (Hs s) as [c Hc]; [lia |]. rewrite (proj2 (load8_Ret _ _ _) Hc). cbn [mbind outcome_bind].
  rewrite store8_Ret by (apply Hd; lia). cbn [mbind outcome_bind].
  assert (blit m d s 1 (<[d := u8 c]> m)) as H1.
  { intros a. rewrite lookup_insert, u8_id by (eapply Hok; exact Hc). case_decide; repeat zcase; cbn; try lia; try done.
    subst. by rewrite Z.sub_diag, Z.add_0_r. }
  destruct (IH (<[d := u8 c]> m) (d + 1) (s + 1)) as (m' & Hr & Hb).
  - apply mem_ok_insert; [done | apply u8_byte].
  - apply mapped_insert. eapply mapped_le; [exact Hs | lia | lia].
  - apply mapped_insert. eapply mapped_le; [exact Hd | lia | lia].
  - lia.
  - exists m'. split; [done |]. replace (Z.of_nat (S n)) with (1 + Z.of_nat n) by lia.
    eapply blit_app; [lia | lia | exact H1 | exact Hb | lia].
Qed.

(** What copying [n] bytes between the address and offset [k] of the buffer does. *)
Definition copied (write : bool) (m : mem) (a : Z) (buf : list Z) (k n : nat) (m' : mem) (buf' : list Z) : Prop :=
  if write then
    buf' = buf /\ forall x, m' !! x = if (a <=? x) && (x <? a + Z.of_nat n) then buf !! (k + Z.to_nat (x - a))%nat else m !! x
  else
    m' = m /\ length buf' = length buf /\
    forall i, buf' !! i = if (k <=? i)%nat && (i <? k + n)%nat then m !! (a + Z.of_nat (i - k)) else buf !! i.

Lemma copied_0 write m a buf k : copied write m a buf k 0 m buf.
Proof.
  destruct write; unfold copied.
  - split; [done |]. intros x. repeat zcase; cbn [andb]; done || lia.
  - split; [done |]. split; [done |]. intros i. destruct (Nat.leb_spec k i), (Nat.ltb_spec i (k + 0)); cbn [andb]; done || lia.
Qed.

Lemma copied_app write m a buf k n1 n2 m1 buf1 m2 buf2 :
  copied write m a buf k n1 m1 buf1 -> copied write m1 (a + Z.of_nat n1) buf1 (k + n1) n2 m2 buf2 ->
  copied write m a buf k (n1 + n2) m2 buf2.
Proof.
  destruct write; unfold copied.
  - intros [-> H1] [-> H2]. split; [done |]. intros x. rewrite H2, H1.
    repeat zcase; cbn [andb]; try lia; try done. f_equal. lia.
  - intros (-> & Hl1 & H1) (-> & Hl2 & H2). split; [done |]. split; [congruence |]. intros i. rewrite H2, H1.
    destruct (Nat.leb_spec (k + n1) i), (Nat.ltb_spec i (k + n1 + n2)), (Nat.leb_spec k i), (Nat.ltb_spec i (k + n1)), (Nat.ltb_spec i (k + (n1 + n2)));
      cbn [andb]; try lia; try done. f_equal. lia.
Qed.

(** A chunk of 1, 2, 4 or 8 bytes at an address it divides. *)
Definition chunk (a c : Z) : Prop := (c = 1 \/ c = 2 \/ c = 4 \/ c = 8) /\ a mod c = 0.

Lemma chunk_land a c : chunk a c -> Z.land a (c - 1) = 0.
Proof.
  intros [Hc Ha]. assert (exists k, 0 <= k /\ c = 2 ^ k) as (k & Hk & ->).
  { destruct Hc as [-> | [-> | [-> | ->]]]; [exists 0 | exists 1 | exists 2 | exists 3]; lia. }
  replace (2 ^ k - 1) with (Z.ones k) by (rewrite Z.ones_equiv; lia). by rewrite Z.land_ones.
Qed.

Lemma land_chunk a k : 0 <= k -> Z.land a (2 ^ k - 1) = 0 -> a mod 2 ^ k = 0.
Proof. intros Hk. replace (2 ^ k - 1) with (Z.ones k) by (rewrite Z.ones_equiv; lia). by rewrite Z.land_ones. Qed.

Lemma grow_chunk_run fuel a r limit c :
  chunk a c -> limit <= 8 -> 8 < c * 2 ^ Z.of_nat fuel ->
  exists c', grow_chunk fuel a r limit c = Ret c' /\ chunk a c' /\ (c' <= r \/ c' = c).
Proof.
  revert c. induction fuel as [|fuel IH]; intros c Hc Hl Hf.
  { destruct Hc as [Hc _]. cbn in Hf. lia. }
  cbn [grow_chunk]. destruct (Z.leb_spec (c * 2) r); cbn [andb]; [| by eauto].
  destruct (Z.ltb_spec c limit); cbn [andb]; [| by eauto].
  destruct (Z.eqb_spec (Z.land a (c * 2 - 1)) 0) as [Hland |]; [| by eauto].
  assert (chunk a (c * 2)) as Hc2.
  { destruct Hc as [Hc _]. split; [lia |].
    destruct Hc as [-> | [-> | [-> | ->]]]; [apply (land_chunk a 1) | apply (land_chunk a 2) | apply (land_chunk a 3) | lia]; lia || exact Hland. }
  destruct (IH (c * 2) Hc2 Hl) as (c' & Hr & Hc' & Hle).
  { rewrite Nat2Z.inj_succ, Z.pow_succ_r in Hf by lia. lia. }
  exists c'. split; [done |]. split; [done | lia].
Qed.

Lemma chunk_half a c : chunk a c -> 1 < c -> chunk a (c / 2).
Proof.
  intros [Hc Ha] H1. destruct Hc as [-> | [-> | [-> | ->]]]; try lia;
    [change (2 / 2) with 1 | change (4 / 2) with 2 | change (8 / 2) with 4];
    split; [auto | | auto | | auto |]; Z.to_euclidean_division_equations; lia.
Qed.

Lemma shrink_chunk_run fuel a r c :
  chunk a c -> 0 < r -> c < r * 2 ^ Z.of_nat fuel ->
  exists c', shrink_chunk (S fuel) r c = Ret c' /\ chunk a c' /\ c' <= r.
Proof.
  revert c. induction fuel as [|fuel IH]; intros c Hc Hr Hf; cbn [shrink_chunk] in *.
  { change (2 ^ Z.of_nat 0) with 1 in Hf. destruct (Z.ltb_spec r c); [lia | by eauto]. }
  destruct (Z.ltb_spec r c); [| by eauto]. apply IH; [apply chunk_half; [done | lia] | done |].
  rewrite Nat2Z.inj_succ, Z.pow_succ_r in Hf by lia. apply Z.div_lt_upper_bound; lia.
Qed.

Section copies.
Context (valid : Z -> bool).

(** The kernel holds an address valid only where memory is mapped, in the aligned
    eight bytes around it. *)
Definition valid_mapped (m : mem) : Prop := forall a x, valid a = true -> a / 8 = x / 8 -> is_Some (m !! x).

(** An access of a chunk: it copies if the address is valid, else it changes nothing. *)
Lemma MmDbgCopyMemory_run m a buf k c Flags :
  valid_mapped m -> Forall is_byte buf -> chunk a c -> (k + Z.to_nat c <= length buf)%nat ->
  exists m' buf', MmDbgCopyMemory valid m a buf k c Flags =
      Ret (if valid a then STATUS_SUCCESS else STATUS_UNSUCCESSFUL, m', buf') /\
    copied (truthy (Z.land Flags MMDBG_COPY_WRITE)) m a buf k (if valid a then Z.to_nat c else 0) m' buf'.
Proof.
  intros Hv Hbuf Hc Hk. pose proof Hc as [Hsize Hmod]. unfold MmDbgCopyMemory.
  assert (legal_size c = true) as -> by (unfold legal_size; destruct Hsize as [-> | [-> | [-> | ->]]]; done).
  cbn [negb]. rewrite chunk_land by done. cbn [Z.eqb negb]. destruct (valid a) eqn:Hva; cbn [negb].
  2: { exists m, buf. split; [done | apply copied_0]. }
  destruct (Nat.ltb_spec (length buf) (k + Z.to_nat c)); [lia |].
  assert (mapped m a (Z.of_nat (Z.to_nat c))) as Hm.
  { intros x Hx. apply (Hv a); [done |]. destruct Hsize as [-> | [-> | [-> | ->]]]; Z.to_euclidean_division_equations; lia. }
  destruct (truthy _); unfold copied.
  - set (l := take (Z.to_nat c) (drop k buf)). assert (length l = Z.to_nat c) as Hl by (unfold l; rewrite length_take, length_drop; lia).
    destruct (store_bytes_spec m a l) as (m' & -> & Hx); [by rewrite Hl | unfold l; by apply Forall_take, Forall_drop |].
    exists m', buf. split; [done |]. split; [done |]. intros x. rewrite Hx, Hl.
    repeat zcase; cbn [andb]; try done. unfold l. rewrite lookup_take_lt by lia. by rewrite lookup_drop.
  - destruct (load_bytes_total m a (Z.to_nat c) Hm) as [l Hl]. rewrite Hl.
    apply load_bytes_Ret in Hl as [Hlen Hat]. exists m, (list_inserts k l buf). split; [done |].
    split; [done |]. split; [apply length_inserts |]. intros i.
    destruct (Nat.leb_spec k i), (Nat.ltb_spec i (k + Z.to_nat c)); cbn [andb]; [| | | lia].
    + rewrite list_lookup_inserts by lia. destruct (lookup_lt_is_Some_2 l (i - k)) as [b Hb]; [lia |]. rewrite Hb. symmetry. by apply Hat.
    + apply list_lookup_inserts_ge. lia.
    + apply list_lookup_inserts_lt. lia.
Qed.

(** Neither the memory's domain nor the buffer's bytes change. *)
Lemma copied_keeps write m a buf k n m' buf' :
  copied write m a buf k n m' buf' -> mem_ok m -> valid_mapped m -> Forall is_byte buf -> (k + n <= length buf)%nat ->
  valid_mapped m' /\ Forall is_byte buf' /\ mem_ok m' /\ length buf' = length buf.
Proof.
  intros Hc Hok Hv Hb Hk. destruct write; unfold copied in Hc.
  - destruct Hc as [-> Hm]. split; [| split; [done | split; [| done]]].
    + intros y x Hy Hx. rewrite Hm. repeat zcase; cbn [andb]; try by apply (Hv y). apply lookup_lt_is_Some_2. lia.
    + intros x b. rewrite Hm. destruct (_ && _); [| apply Hok]. intros Hx. exact (Forall_lookup_1 _ _ _ _ Hb Hx).
  - destruct Hc as (-> & Hl & Hi). split; [done |]. split; [| done]. apply Forall_lookup. intros i b. rewrite Hi.
    destruct (_ && _); [apply Hok | intros Hx; exact (Forall_lookup_1 _ _ _ _ Hb Hx)].
Qed.

(** The loop copies some first [n] bytes of the rest: all of them if every address
    is valid, and none if the first is not. *)
Lemma copy_loop_run fuel m a buf k r c limit Flags :
  mem_ok m -> valid_mapped m -> Forall is_byte buf -> chunk a c -> 0 <= r -> (Z.to_nat r < fuel)%nat ->
  0 <= a -> a + r < 2 ^ 64 -> (k + Z.to_nat r <= length buf)%nat -> limit <= 8 ->
  exists m' buf' n, copy_loop valid fuel m a buf k r c limit Flags = Ret (m', buf', r - Z.of_nat n) /\
    (n <= Z.to_nat r)%nat /\
    ((forall x, a <= x < a + r -> valid x = true) -> Z.of_nat n = r) /\ (valid a = false -> n = 0%nat) /\
    copied (truthy (Z.land Flags MMDBG_COPY_WRITE)) m a buf k n m' buf'.
Proof.
  revert m a buf k r c. induction fuel as [|fuel IH]; intros m a buf k r c Hok Hv Hbuf Hc Hr Hf Ha Hmax Hk Hl; [lia |].
  assert (exists m' buf' n, Ret (m, buf, r) = Ret (m', buf', r - Z.of_nat n) /\ n = 0%nat /\
    copied (truthy (Z.land Flags MMDBG_COPY_WRITE)) m a buf k n m' buf') as (m0 & buf0 & n0 & H0 & -> & Hc0).
  { exists m, buf, 0%nat. rewrite Z.sub_0_r. split; [done |]. split; [done | apply copied_0]. }
  cbn [copy_loop]. destruct (Z.ltb_spec 0 r).
  2: { exists m0, buf0, 0%nat. split; [exact H0 |]. split; [lia |]. split; [lia |]. done. }
  destruct (grow_chunk_run chunk_fuel a r limit c) as (c1 & -> & Hc1 & _); [done | done | unfold chunk_fuel; change (2 ^ Z.of_nat 5) with 32; destruct Hc as [Hc _]; lia |].
  cbn [mbind outcome_bind].
  destruct (shrink_chunk_run 4 a r c1) as (c2 & Hs & Hc2 & Hle); [done | done | change (2 ^ Z.of_nat 4) with 16; destruct Hc1 as [Hc1 _]; lia |].
  change (shrink_chunk chunk_fuel r c1) with (shrink_chunk 5 r c1). rewrite Hs. cbn [mbind outcome_bind].
  assert (0 < c2) as Hpos by (destruct Hc2 as [Hc2 _]; lia).
  destruct (MmDbgCopyMemory_run m a buf k c2 Flags) as (m1 & buf1 & -> & H1); [done | done | done | lia |]. cbn [mbind outcome_bind].
  destruct (valid a) eqn:Hva; cbn [NT_SUCCESS negb].
  2: { exists m1, buf1, 0%nat. rewrite Z.sub_0_r. split; [done |]. split; [lia |]. split; [| done].
       intros Hall. rewrite (Hall a) in Hva by lia. done. }
  rewrite (wrap_small 64) by lia. destruct (copied_keeps _ _ _ _ _ _ _ _ H1) as (Hv1 & Hb1 & Hok1 & Hlen1); [done | done | done | lia |].
  destruct (IH m1 (a + c2) buf1 (k + Z.to_nat c2)%nat (r - c2) c2) as (m2 & buf2 & n & Hr2 & Hn & Hall & _ & H2); try done; try lia.
  { destruct Hc2 as [Hsz Hmod]. split; [done |]. Z.to_euclidean_division_equations; lia. }
  exists m2, buf2, (Z.to_nat c2 + n)%nat. rewrite Hr2. split; [do 2 f_equal; lia |]. split; [lia |]. split.
  { intros Hvalid. rewrite Nat2Z.inj_add, Hall; [lia |]. intros x Hx. apply Hvalid. lia. }
  split; [done |]. eapply copied_app; [exact H1 |]. by rewrite Z2Nat.id by lia.
Qed.

Lemma KdpCopyMemoryChunks_run m a buf total ChunkSize Flags :
  mem_ok m -> valid_mapped m -> Forall is_byte buf -> 0 <= total <= Z.of_nat (length buf) -> 0 <= a -> a + total < 2 ^ 64 ->
  exists m' buf' n, KdpCopyMemoryChunks valid m a buf total ChunkSize Flags =
      Ret (if Z.of_nat n =? total then STATUS_SUCCESS else STATUS_UNSUCCESSFUL, m', buf', Z.of_nat n) /\
    Z.of_nat n <= total /\
    ((forall x, a <= x < a + total -> valid x = true) -> Z.of_nat n = total) /\ (valid a = false -> n = 0%nat) /\
    copied (truthy (Z.land Flags MMDBG_COPY_WRITE)) m a buf 0 n m' buf'.
Proof.
  intros Hok Hv Hbuf Ht Ha Hmax. unfold KdpCopyMemoryChunks.
  set (limit := if ChunkSize =? 0 then 4 else _).
  assert (limit <= 8) as Hl by (unfold limit, MMDBG_COPY_MAX_SIZE; repeat zcase; lia).
  destruct (copy_loop_run (S (Z.to_nat total)) m a buf 0 total 1 limit Flags) as (m' & buf' & n & -> & Hn & Hall & Hnone & Hc);
    try done; try lia; [split; [by left | apply Z.mod_1_r] |].
  cbn [mbind outcome_bind]. exists m', buf', n. split; [| split; [lia | done]].
  replace (total - (total - Z.of_nat n)) with (Z.of_nat n) by lia.
  destruct (Z.eqb_spec (total - Z.of_nat n) 0), (Z.eqb_spec (Z.of_nat n) total); done || lia.
Qed.

(** Fact: copying memory for the debugger. For any alignment and chunk limit the copy
    ends and moves exactly the bytes it reports: a first part of the range, into the
    buffer or from it, and nothing else changes. It succeeds exactly when it moved
    the whole range, which it does if the kernel holds every address valid; it
    moves nothing if the first is not. *)
Theorem KdpCopyMemoryChunks_copies m a buf total ChunkSize Flags :
  mem_ok m -> valid_mapped m -> Forall is_byte buf -> 0 <= total <= Z.of_nat (length buf) -> 0 <= a -> a + total < 2 ^ 64 ->
  exists m' buf' n, KdpCopyMemoryChunks valid m a buf total ChunkSize Flags =
      Ret (if Z.of_nat n =? total then STATUS_SUCCESS else STATUS_UNSUCCESSFUL, m', buf', Z.of_nat n) /\
    Z.of_nat n <= total /\
    ((forall x, a <= x < a + total -> valid x = true) -> Z.of_nat n = total) /\ (valid a = false -> n = 0%nat) /\
    copied (truthy (Z.land Flags MMDBG_COPY_WRITE)) m a buf 0 n m' buf'.
Proof. apply KdpCopyMemoryChunks_run. Qed.
End copies.

Lemma KdpCopyMemoryChunks_copies_witness :
  exists m' buf', KdpCopyMemoryChunks (fun a => (0 <=? a) && (a <? 16)) (mem_of 0 (seqZ 0 16)) 3 (replicate 9 0) 9 0 MMDBG_COPY_UNSAFE =
    Ret (STATUS_SUCCESS, m', buf', 9) /\ buf' !! 8%nat = Some 11.
Proof.
  destruct (KdpCopyMemoryChunks_copies (fun a => (0 <=? a) && (a <? 16)) (mem_of 0 (seqZ 0 16)) 3 (replicate 9 0) 9 0 MMDBG_COPY_UNSAFE)
    as (m' & buf' & n & Hr & _ & Hall & _ & _ & _ & Hbuf).
  - apply mem_of_ok. reflexivity.
  - intros a x Ha Hx. cbn in Ha. zbool. apply (mem_of_mapped 0 (seqZ 0 16) 0 16); [lia | rewrite length_seqZ; lia |]. Z.to_euclidean_division_equations; lia.
  - apply Forall_replicate. unfold is_byte. lia.
  - cbn. lia.
  - lia.
  - lia.
  - assert (Z.of_nat n = 9) as Hn.
    { apply Hall. intros x Hx. apply andb_true_iff. split; [apply Z.leb_le | apply Z.ltb_lt]; lia. }
    exists m', buf'. rewrite Hr, Hn. split; [done |]. rewrite Hbuf. replace n with 9%nat by lia. reflexivity.
Defined.
