(* ===== verification/KdBreak.v ===== *)
(** Breakpoints of the kernel debugger (kernel/debugger/kd64/kdbreak.cpp, kd64.h).

    The state is the memory, the table of breakpoints, and the flags that say
    whether changes to the memory are owed and whether breakpoints are suspended.
    Stopping the other processors around [KdSetOwedBreakpoints] is not modelled.
    [reachable] gives the states that operations lead to; the theorems say that
    the memory differs from the debugged program's only where a breakpoint is. *)
From Stdlib Require Import ZArith Lia.
From S2P Require Import Prelude CMemory KdMemory.

Definition KD_BREAKPOINT_MAX : nat := 32.
Definition KD_BREAKPOINT_ACTIVE : Z := 0x01.
Definition KD_BREAKPOINT_PENDING : Z := 0x02.
Definition KD_BREAKPOINT_SUSPENDED : Z := 0x04.
Definition KD_BREAKPOINT_EXPIRED : Z := 0x08.
Definition KD_BREAKPOINT_SIZE : Z := 1.
Definition KdpBreakpointInstruction : Z := 0xCC.

Record BREAKPOINT_ENTRY := { bp_Flags : Z; bp_Address : Z; bp_Content : Z }.
Definition no_breakpoint : BREAKPOINT_ENTRY := {| bp_Flags := 0; bp_Address := 0; bp_Content := 0 |}.

Record kd := {
  kd_mem : mem; KdpBreakpointTable : list BREAKPOINT_ENTRY; KdpOweBreakpoint : bool; BreakpointsSuspended : bool
}.
Definition new_kd (m : mem) : kd :=
  {| kd_mem := m; KdpBreakpointTable := replicate KD_BREAKPOINT_MAX no_breakpoint;
     KdpOweBreakpoint := false; BreakpointsSuspended := false |}.

(** ** Flags and entries *)

Definition has (f : Z) (e : BREAKPOINT_ENTRY) : bool := truthy (Z.land e.(bp_Flags) f).
Definition with_flags (e : BREAKPOINT_ENTRY) (f : Z) : BREAKPOINT_ENTRY :=
  {| bp_Flags := f; bp_Address := e.(bp_Address); bp_Content := e.(bp_Content) |}.
(** [Flags |= f] and [Flags &= ~f]. *)
Definition set_flag (f : Z) (e : BREAKPOINT_ENTRY) : BREAKPOINT_ENTRY := with_flags e (Z.lor e.(bp_Flags) f).
Definition clear_flag (f : Z) (e : BREAKPOINT_ENTRY) : BREAKPOINT_ENTRY := with_flags e (Z.land e.(bp_Flags) (u32 (Z.lnot f))).

(** An index outside the table is a [Fault]. *)
Definition entry (s : kd) (i : nat) : outcome BREAKPOINT_ENTRY :=
  match s.(KdpBreakpointTable) !! i with Some e => Ret e | None => Fault end.
Definition with_entry (s : kd) (i : nat) (e : BREAKPOINT_ENTRY) : kd :=
  {| kd_mem := s.(kd_mem); KdpBreakpointTable := <[i := e]> s.(KdpBreakpointTable);
     KdpOweBreakpoint := s.(KdpOweBreakpoint); BreakpointsSuspended := s.(BreakpointsSuspended) |}.
Definition with_owe (s : kd) (b : bool) : kd :=
  {| kd_mem := s.(kd_mem); KdpBreakpointTable := s.(KdpBreakpointTable); KdpOweBreakpoint := b; BreakpointsSuspended := s.(BreakpointsSuspended) |}.
Definition with_suspended (s : kd) (b : bool) : kd :=
  {| kd_mem := s.(kd_mem); KdpBreakpointTable := s.(KdpBreakpointTable); KdpOweBreakpoint := s.(KdpOweBreakpoint); BreakpointsSuspended := b |}.
Definition with_kd_mem (s : kd) (m : mem) : kd :=
  {| kd_mem := m; KdpBreakpointTable := s.(KdpBreakpointTable); KdpOweBreakpoint := s.(KdpOweBreakpoint); BreakpointsSuspended := s.(BreakpointsSuspended) |}.

(** ** Operations *)

Section operations.
Context (IsValidKernelPointer : Z -> bool).

(** Saving the instruction at an address, and writing one: whether it worked. *)
Definition save_instruction (s : kd) (Address : Z) : outcome (bool * Z) :=
  '(Status, _, Content, _) ← KdpCopyMemoryChunks IsValidKernelPointer s.(kd_mem) Address [0] KD_BREAKPOINT_SIZE 0 MMDBG_COPY_UNSAFE;
  Ret (NT_SUCCESS Status, List.hd 0 Content).
Definition write_instruction (s : kd) (Address Content : Z) : outcome (kd * bool) :=
  '(Status, m, _, _) ← KdpCopyMemoryChunks IsValidKernelPointer s.(kd_mem) Address [Content] KD_BREAKPOINT_SIZE 0
                         (Z.lor MMDBG_COPY_UNSAFE MMDBG_COPY_WRITE);
  Ret (with_kd_mem s m, NT_SUCCESS Status).

(** The handle of a breakpoint is its index plus one; 0 is the failure. *)
Definition KdpAddBreakpoint (Address : Z) (s : kd) : outcome (kd * Z) :=
  match list_find (fun e => has KD_BREAKPOINT_ACTIVE e = true /\ e.(bp_Address) = Address) s.(KdpBreakpointTable) with
  | Some (i, e) =>
      if has KD_BREAKPOINT_EXPIRED e then Ret (with_entry s i (clear_flag KD_BREAKPOINT_EXPIRED e), Z.of_nat i + 1)
      else Ret (s, 0)
  | None =>
      match list_find (fun e => e.(bp_Flags) = 0) s.(KdpBreakpointTable) with
      | None => Ret (s, 0)
      | Some (i, e) =>
          '(ok, Content) ← save_instruction s Address;
          if (ok : bool) then
            let s := with_entry s i {| bp_Flags := KD_BREAKPOINT_ACTIVE; bp_Address := Address; bp_Content := Content |} in
            '(s, _) ← write_instruction s Address KdpBreakpointInstruction;
            Ret (s, Z.of_nat i + 1)
          else
            let s := with_entry s i {| bp_Flags := Z.lor KD_BREAKPOINT_ACTIVE KD_BREAKPOINT_PENDING;
                                       bp_Address := Address; bp_Content := e.(bp_Content) |} in
            Ret (with_owe s true, Z.of_nat i + 1)
      end
  end.

(** One turn of the loop over the table. *)
Definition owed_step (i : nat) (s : kd) : outcome kd :=
  e ← entry s i;
  if truthy (Z.land e.(bp_Flags) (Z.lor KD_BREAKPOINT_PENDING KD_BREAKPOINT_EXPIRED)) then
    '(ok, Content) ← save_instruction s e.(bp_Address);
    if negb ok then Ret (with_owe s true)
    else if has KD_BREAKPOINT_PENDING e then
      let e := {| bp_Flags := e.(bp_Flags); bp_Address := e.(bp_Address); bp_Content := Content |} in
      '(s, ok) ← write_instruction (with_entry s i e) e.(bp_Address) KdpBreakpointInstruction;
      Ret (if negb ok then with_owe s true else with_entry s i (with_flags e KD_BREAKPOINT_ACTIVE))
    else if has KD_BREAKPOINT_EXPIRED e then
      '(s, ok) ← write_instruction s e.(bp_Address) e.(bp_Content);
      Ret (if negb ok then with_owe s true
           else if has KD_BREAKPOINT_SUSPENDED e
                then with_entry s i (with_flags e (Z.lor KD_BREAKPOINT_SUSPENDED KD_BREAKPOINT_ACTIVE))
                else with_entry s i (with_flags e 0))
    else Ret s
  else Ret s.

Definition KdSetOwedBreakpoints (s : kd) : outcome kd :=
  if negb s.(KdpOweBreakpoint) then Ret s
  else for_loop KD_BREAKPOINT_MAX 0 (fun i s => owed_step (Z.to_nat i) s) (with_owe s false).

Definition KdpLowWriteContent (i : nat) (s : kd) : outcome (kd * bool) :=
  e ← entry s i;
  if has KD_BREAKPOINT_PENDING e then Ret (with_entry s i (clear_flag KD_BREAKPOINT_PENDING e), true)
  else if e.(bp_Content) =? KdpBreakpointInstruction then Ret (s, true)
  else
    '(s, ok) ← write_instruction s e.(bp_Address) e.(bp_Content);
    if negb ok then Ret (with_owe (with_entry s i (set_flag KD_BREAKPOINT_EXPIRED e)) true, false) else Ret (s, true).

Definition KdpLowRestoreBreakpoint (i : nat) (s : kd) : outcome (kd * bool) :=
  e ← entry s i;
  if has KD_BREAKPOINT_EXPIRED e then Ret (with_entry s i (clear_flag KD_BREAKPOINT_EXPIRED e), true)
  else if e.(bp_Content) =? KdpBreakpointInstruction then Ret (s, true)
  else
    '(s, ok) ← write_instruction s e.(bp_Address) KdpBreakpointInstruction;
    if negb ok then Ret (with_owe (with_entry s i (set_flag KD_BREAKPOINT_PENDING e)) true, false)
    else Ret (with_entry s i (clear_flag KD_BREAKPOINT_PENDING e), true).

Definition KdpDeleteBreakpoint (BpEntry : Z) (s : kd) : outcome (kd * bool) :=
  if (BpEntry =? 0) || (Z.of_nat KD_BREAKPOINT_MAX <? BpEntry) then Ret (s, false)
  else
    let i := Z.to_nat (BpEntry - 1) in
    e ← entry s i;
    if negb (truthy e.(bp_Flags)) then Ret (s, false)
    else if has KD_BREAKPOINT_SUSPENDED e && negb (has KD_BREAKPOINT_EXPIRED e) then Ret (with_entry s i (with_flags e 0), true)
    else
      '(s, ok) ← KdpLowWriteContent i s;
      if (ok : bool) then e ← entry s i; Ret (with_entry s i (with_flags e 0), true) else Ret (s, true).

Definition KdpDeleteBreakpointRange (Base Limit : Z) (s : kd) : outcome (kd * bool) :=
  for_loop KD_BREAKPOINT_MAX 0
    (fun i r =>
       e ← entry r.1 (Z.to_nat i);
       if has KD_BREAKPOINT_ACTIVE e && ((Base <=? e.(bp_Address)) && (e.(bp_Address) <=? Limit)) then
         d ← KdpDeleteBreakpoint (i + 1) r.1;
         Ret (d.1, if d.2 : bool then true else r.2)
       else Ret r) (s, false).

Definition KdpRestoreAllBreakpoints (s : kd) : outcome kd :=
  for_loop KD_BREAKPOINT_MAX 0
    (fun i s =>
       e ← entry s (Z.to_nat i);
       if has KD_BREAKPOINT_ACTIVE e && has KD_BREAKPOINT_SUSPENDED e then
         r ← KdpLowRestoreBreakpoint (Z.to_nat i) (with_entry s (Z.to_nat i) (clear_flag KD_BREAKPOINT_SUSPENDED e));
         Ret r.1
       else Ret s) (with_suspended s false).

Definition KdpSuspendBreakPoint (BpEntry : Z) (s : kd) : outcome kd :=
  let i := Z.to_nat (u32 (BpEntry - 1)) in
  e ← entry s i;
  if has KD_BREAKPOINT_ACTIVE e && negb (has KD_BREAKPOINT_SUSPENDED e) then
    r ← KdpLowWriteContent i (with_entry s i (set_flag KD_BREAKPOINT_SUSPENDED e));
    Ret r.1
  else Ret s.

Definition KdpSuspendAllBreakPoints (s : kd) : outcome kd :=
  for_loop KD_BREAKPOINT_MAX 1 KdpSuspendBreakPoint (with_suspended s true).

(** ** What the debugger asks for *)

Inductive request :=
| AddBreakpoint (Address : Z)
| SetOwed
| DeleteBreakpoint (BpEntry : Z)
| DeleteRange (Base Limit : Z)
| SuspendAll
| RestoreAll.

Definition serve (r : request) (s : kd) : outcome kd :=
  match r with
  | AddBreakpoint a => x ← KdpAddBreakpoint a s; Ret x.1
  | SetOwed => KdSetOwedBreakpoints s
  | DeleteBreakpoint n => x ← KdpDeleteBreakpoint n s; Ret x.1
  | DeleteRange b l => x ← KdpDeleteBreakpointRange b l s; Ret x.1
  | SuspendAll => KdpSuspendAllBreakPoints s
  | RestoreAll => KdpRestoreAllBreakpoints s
  end.
End operations.

(** ** The invariant

    The flags an entry can have: it is free; active, with its instruction in
    memory; pending, with nothing in memory; suspended, with the program's
    instruction back in memory; or deleted or suspended while the memory could
    not be written, so that the breakpoint is still in memory. *)
Definition flags_ok (f : Z) : Prop := f = 0 \/ f = 1 \/ f = 3 \/ f = 5 \/ f = 9 \/ f = 13.
Definition written (e : BREAKPOINT_ENTRY) : bool := (e.(bp_Flags) =? 1) || (e.(bp_Flags) =? 9) || (e.(bp_Flags) =? 13).
Definition owed (e : BREAKPOINT_ENTRY) : bool := (e.(bp_Flags) =? 3) || (e.(bp_Flags) =? 9) || (e.(bp_Flags) =? 13).
Definition saved (e : BREAKPOINT_ENTRY) : bool := written e || (e.(bp_Flags) =? 5).
Definition address_ok (a : Z) : Prop := 0 <= a < 2 ^ 64 - 1.

(** A breakpoint's instruction is in memory at its address, and its content is the
    program's. *)
Record entry_ok (o m : mem) (e : BREAKPOINT_ENTRY) : Prop := {
  eo_flags : flags_ok e.(bp_Flags);
  eo_address : e.(bp_Flags) <> 0 -> address_ok e.(bp_Address);
  eo_written : written e = true -> m !! e.(bp_Address) = Some KdpBreakpointInstruction;
  eo_saved : saved e = true -> o !! e.(bp_Address) = Some e.(bp_Content)
}.

(** [o] is the memory of the debugged program. *)
Record core_ok (o : mem) (s : kd) : Prop := {
  co_length : length s.(KdpBreakpointTable) = KD_BREAKPOINT_MAX;
  co_entry : forall i e, s.(KdpBreakpointTable) !! i = Some e -> entry_ok o s.(kd_mem) e;
  co_distinct : forall i j e e', s.(KdpBreakpointTable) !! i = Some e -> s.(KdpBreakpointTable) !! j = Some e' ->
    e.(bp_Flags) <> 0 -> e'.(bp_Flags) <> 0 -> e.(bp_Address) = e'.(bp_Address) -> i = j;
  co_rest : forall a, (forall i e, s.(KdpBreakpointTable) !! i = Some e -> written e = true -> e.(bp_Address) <> a) ->
    s.(kd_mem) !! a = o !! a
}.

(** The first [n] entries are in order if nothing is owed. *)
Definition settled (n : nat) (s : kd) : Prop :=
  s.(KdpOweBreakpoint) = false -> forall j e, (j < n)%nat -> s.(KdpBreakpointTable) !! j = Some e -> owed e = false.

Definition bp_ok (o : mem) (s : kd) : Prop := core_ok o s /\ settled KD_BREAKPOINT_MAX s.

Lemma written_at o s a : core_ok o s ->
  (exists i e, s.(KdpBreakpointTable) !! i = Some e /\ written e = true /\ e.(bp_Address) = a) \/ s.(kd_mem) !! a = o !! a.
Proof.
  intros Hc. destruct (decide (Exists (fun e => written e = true /\ e.(bp_Address) = a) s.(KdpBreakpointTable))) as [Hex | Hno].
  - left. apply Exists_exists in Hex as (e & Hin & Hw). apply list_elem_of_lookup in Hin as [i Hi]. by exists i, e.
  - right. apply (co_rest o s Hc). intros i e Hi Hw Ha. apply Hno, Exists_exists. exists e. split; [by eapply list_elem_of_lookup_2 | done].
Qed.

Lemma core_mem_ok o s : core_ok o s -> mem_ok o -> mem_ok s.(kd_mem).
Proof.
  intros Hc Ho a b Hb. destruct (written_at o s a Hc) as [(i & e & Hi & Hw & <-) | He].
  - rewrite (eo_written _ _ _ (co_entry o s Hc i e Hi) Hw) in Hb. injection Hb as <-. done.
  - rewrite He in Hb. exact (Ho a b Hb).
Qed.

Lemma core_valid o s valid : core_ok o s -> valid_mapped valid o -> valid_mapped valid s.(kd_mem).
Proof.
  intros Hc Hv a x Ha Hx. destruct (written_at o s x Hc) as [(i & e & Hi & Hw & <-) | ->]; [| by apply (Hv a)].
  rewrite (eo_written _ _ _ (co_entry o s Hc i e Hi) Hw). done.
Qed.

(** Changing one entry and the byte at its address. *)
Lemma core_update o s i e e' m' s' :
  core_ok o s -> s.(KdpBreakpointTable) !! i = Some e ->
  s'.(kd_mem) = m' -> s'.(KdpBreakpointTable) = <[i := e']> s.(KdpBreakpointTable) ->
  flags_ok e'.(bp_Flags) -> address_ok e'.(bp_Address) ->
  (saved e' = true -> o !! e'.(bp_Address) = Some e'.(bp_Content)) ->
  (forall a, a <> e'.(bp_Address) -> m' !! a = s.(kd_mem) !! a) ->
  m' !! e'.(bp_Address) = (if written e' then Some KdpBreakpointInstruction else o !! e'.(bp_Address)) ->
  (e.(bp_Flags) <> 0 /\ e'.(bp_Address) = e.(bp_Address) \/
   e.(bp_Flags) = 0 /\ forall j x, s.(KdpBreakpointTable) !! j = Some x -> x.(bp_Flags) <> 0 -> x.(bp_Address) <> e'.(bp_Address)) ->
  core_ok o s'.
Proof.
  intros Hc Hi Hm HT Hf Ha Hsv Hout Hin Hold.
  assert (forall j x, j <> i -> s.(KdpBreakpointTable) !! j = Some x -> x.(bp_Flags) <> 0 -> x.(bp_Address) <> e'.(bp_Address)) as Hfresh.
  { intros j x Hji Hj Hx. destruct Hold as [[He Heq] | [_ Hold]]; [| by apply (Hold j)].
    rewrite Heq. intros Hxa. by apply Hji, (co_distinct o s Hc j i x e). }
  assert (forall x, written x = true -> x.(bp_Flags) <> 0) as Hwf by (unfold written; intros x Hx Hz; by rewrite Hz in Hx).
  assert (i < length s.(KdpBreakpointTable))%nat as Hlt by (by eapply lookup_lt_Some).
  split.
  - rewrite HT, length_insert. apply Hc.
  - intros j x. rewrite HT, Hm. destruct (decide (j = i)) as [-> | Hji].
    + rewrite list_lookup_insert_eq by done. intros [= <-]. split; [done | done | | done]. intros Hw. by rewrite Hin, Hw.
    + rewrite list_lookup_insert_ne by done. intros Hj. destruct (co_entry o s Hc j x Hj) as [H1 H2 H3 H4].
      split; [done | done | | done]. intros Hw. rewrite Hout; [by apply H3 |]. apply (Hfresh j); auto.
  - intros j k x y. rewrite HT. destruct (decide (j = i)) as [-> | Hji], (decide (k = i)) as [-> | Hki]; [done | | |].
    + rewrite list_lookup_insert_eq, list_lookup_insert_ne by done. intros [= <-] Hk _ Hy Heq. by destruct (Hfresh k y Hki Hk Hy).
    + rewrite list_lookup_insert_eq, list_lookup_insert_ne by done. intros Hj [= <-] Hx _ Heq. by destruct (Hfresh j x Hji Hj Hx).
    + rewrite !list_lookup_insert_ne by done. apply (co_distinct o s Hc).
  - intros a. rewrite HT, Hm. intros Hno. destruct (decide (a = e'.(bp_Address))) as [-> | Hne].
    + rewrite Hin. destruct (written e') eqn:Hw; [| done]. exfalso. apply (Hno i e'); [by apply list_lookup_insert_eq | done | done].
    + rewrite Hout by done. apply (co_rest o s Hc). intros j x Hj Hw Hxa. destruct (decide (j = i)) as [-> | Hji].
      * rewrite Hi in Hj. injection Hj as <-. destruct Hold as [[_ Heq] | [Hz _]]; [congruence | by apply (Hwf e)].
      * apply (Hno j x); [by rewrite list_lookup_insert_ne | done | done].
Qed.

Lemma settled_update n s i e' s' :
  settled n s -> s'.(KdpBreakpointTable) = <[i := e']> s.(KdpBreakpointTable) ->
  s'.(KdpOweBreakpoint) = true \/ (s'.(KdpOweBreakpoint) = s.(KdpOweBreakpoint) /\ owed e' = false) -> settled n s'.
Proof.
  intros Hs HT Ho Hfalse j x Hj. rewrite HT. destruct Ho as [Ho | [Ho He]]; [congruence |]. intros Hx.
  apply list_lookup_insert_Some in Hx as [(-> & <- & _) | [_ Hx]]; [done |]. apply (Hs ltac:(congruence) j); done.
Qed.

Lemma entry_run s i e : s.(KdpBreakpointTable) !! i = Some e -> entry s i = Ret e.
Proof. intros Hi. unfold entry. by rewrite Hi. Qed.

(** ** Reading and writing one instruction *)

Lemma save_instruction_run valid s a :
  mem_ok s.(kd_mem) -> valid_mapped valid s.(kd_mem) -> address_ok a ->
  exists c, save_instruction valid s a = Ret (valid a, c) /\ (valid a = true -> s.(kd_mem) !! a = Some c).
Proof.
  intros Ho Hv [Ha Hmax]. destruct (KdpCopyMemoryChunks_run valid s.(kd_mem) a [0] 1 0 MMDBG_COPY_UNSAFE) as (m' & buf & n & Hr & Hn & Hall & Hnone & Hcp).
  - done.
  - done.
  - repeat constructor; done.
  - cbn. lia.
  - lia.
  - lia.
  - unfold save_instruction, KD_BREAKPOINT_SIZE. rewrite Hr. cbn [mbind outcome_bind]. destruct (valid a) eqn:Hva.
    + assert (Z.of_nat n = 1) as Hn1 by (apply Hall; intros x Hx; by replace x with a by lia).
      exists (List.hd 0 buf). rewrite Hn1. split; [done |]. intros _. unfold copied in Hcp.
      change (truthy (Z.land MMDBG_COPY_UNSAFE MMDBG_COPY_WRITE)) with false in Hcp. destruct Hcp as (_ & Hl & Hi).
      specialize (Hi 0%nat). replace n with 1%nat in Hi by lia. destruct buf as [|c buf]; [done |]. cbn in Hi. by rewrite Z.add_0_r in Hi.
    + rewrite (Hnone eq_refl). exists (List.hd 0 buf). done.
Qed.

Lemma write_instruction_run valid s a c :
  mem_ok s.(kd_mem) -> valid_mapped valid s.(kd_mem) -> address_ok a -> is_byte c ->
  write_instruction valid s a c = Ret (with_kd_mem s (if valid a then <[a := c]> s.(kd_mem) else s.(kd_mem)), valid a).
Proof.
  intros Ho Hv [Ha Hmax] Hb.
  destruct (KdpCopyMemoryChunks_run valid s.(kd_mem) a [c] 1 0 (Z.lor MMDBG_COPY_UNSAFE MMDBG_COPY_WRITE)) as (m' & buf & n & Hr & Hn & Hall & Hnone & Hcp).
  - done.
  - done.
  - by constructor.
  - cbn. lia.
  - lia.
  - lia.
  - unfold write_instruction, KD_BREAKPOINT_SIZE. rewrite Hr. cbn [mbind outcome_bind]. unfold copied in Hcp.
    change (truthy (Z.land (Z.lor MMDBG_COPY_UNSAFE MMDBG_COPY_WRITE) MMDBG_COPY_WRITE)) with true in Hcp. destruct Hcp as [_ Hm].
    assert (m' = if valid a then <[a := c]> s.(kd_mem) else s.(kd_mem)) as ->.
    { apply map_eq. intros x. rewrite Hm. destruct (valid a) eqn:Hva.
      - assert (Z.of_nat n = 1) as -> by (apply Hall; intros y Hy; by replace y with a by lia).
        rewrite lookup_insert. case_decide; subst.
        + rewrite Z.sub_diag. repeat zcase; done || lia.
        + repeat zcase; done || lia.
      - rewrite (Hnone eq_refl). repeat zcase; cbn [andb]; done || lia. }
    destruct (valid a) eqn:Hva.
    + assert (Z.of_nat n = 1) as -> by (apply Hall; intros x Hx; by replace x with a by lia). done.
    + rewrite (Hnone eq_refl). done.
Qed.

(** ** Every operation keeps the invariant *)

(** Evaluate the flags of an entry whose flags are known. *)
Ltac flags :=
  repeat match goal with
  | |- context [has ?f ?e] => let b := eval vm_compute in (has f e) in change (has f e) with b
  | |- context [truthy ?x] => let b := eval vm_compute in (truthy x) in change (truthy x) with b
  end; cbn [andb orb negb].

(** The side conditions of [core_update] and [settled_update]. *)
Ltac entry_step :=
  match goal with
  | |- flags_ok _ => cbn; unfold flags_ok; vm_compute; tauto
  | |- _ = _ => reflexivity || assumption
  | |- _ => idtac
  end.

Section operations_ok.
Context (valid : Z -> bool) (o : mem) (Ho : mem_ok o) (Hvo : valid_mapped valid o).

Lemma unwritten_at s i e :
  core_ok o s -> s.(KdpBreakpointTable) !! i = Some e -> e.(bp_Flags) <> 0 -> written e = false ->
  s.(kd_mem) !! e.(bp_Address) = o !! e.(bp_Address).
Proof using Type.
  intros Hc Hi He Hw. apply (co_rest o s Hc). intros j x Hj Hxw Hxa.
  assert (j = i) as ->; [| congruence]. apply (co_distinct o s Hc j i x e); try done.
  intros Hz. unfold written in Hxw. by rewrite Hz in Hxw.
Qed.

(** One entry after an operation on it: its flags and content are new, and the
    memory has a breakpoint at its address or the program's byte. *)
Lemma entry_changes n s i e e' s' :
  core_ok o s -> settled n s -> s.(KdpBreakpointTable) !! i = Some e -> e.(bp_Flags) <> 0 ->
  s'.(KdpBreakpointTable) = <[i := e']> s.(KdpBreakpointTable) -> e'.(bp_Address) = e.(bp_Address) ->
  flags_ok e'.(bp_Flags) -> (saved e' = true -> o !! e.(bp_Address) = Some e'.(bp_Content)) ->
  (forall a, a <> e.(bp_Address) -> s'.(kd_mem) !! a = s.(kd_mem) !! a) ->
  s'.(kd_mem) !! e.(bp_Address) = (if written e' then Some KdpBreakpointInstruction else o !! e.(bp_Address)) ->
  s'.(KdpOweBreakpoint) = true \/ (s'.(KdpOweBreakpoint) = s.(KdpOweBreakpoint) /\ owed e' = false) ->
  core_ok o s' /\ settled n s'.
Proof using Type.
  intros Hc Hs Hi He HT Ha Hf Hsv Hout Hin Hw. split; [| by eapply settled_update].
  eapply (core_update o s i e e'); try done; rewrite ?Ha; try done; [| by left].
  apply (eo_address _ _ _ (co_entry o s Hc i e Hi) He).
Qed.

(** A change of the table only: the memory agrees with the new flags already. *)
Lemma flags_change n s i e f s' :
  core_ok o s -> settled n s -> s.(KdpBreakpointTable) !! i = Some e -> e.(bp_Flags) <> 0 ->
  s'.(KdpBreakpointTable) = <[i := with_flags e f]> s.(KdpBreakpointTable) -> s'.(kd_mem) = s.(kd_mem) -> flags_ok f ->
  (saved (with_flags e f) = true -> saved e = true) ->
  (written (with_flags e f) = written e \/ (saved e = true /\ e.(bp_Content) = KdpBreakpointInstruction)) ->
  s'.(KdpOweBreakpoint) = true \/ (s'.(KdpOweBreakpoint) = s.(KdpOweBreakpoint) /\ owed (with_flags e f) = false) ->
  core_ok o s' /\ settled n s'.
Proof using Type.
  intros Hc Hs Hi He HT Hm Hf Hsv Hw Hsettled. destruct (co_entry o s Hc i e Hi) as [H1 H2 H3 H4].
  eapply (entry_changes n s i e (with_flags e f)); try done; rewrite ?Hm; try done.
  - intros Hsave. apply H4, Hsv, Hsave.
  - assert (s.(kd_mem) !! e.(bp_Address) = if written e then Some KdpBreakpointInstruction else o !! e.(bp_Address)) as Hmem.
    { destruct (written e) eqn:Hwe; [by apply H3 | by apply (unwritten_at s i)]. }
    destruct Hw as [-> | [Hse Hcc]]; [done |]. rewrite Hmem, (H4 Hse), Hcc. by destruct (written e), (written (with_flags e f)).
Qed.

(** A write at the address of an entry. *)
Lemma write_changes n s i e e' c s' :
  core_ok o s -> settled n s -> s.(KdpBreakpointTable) !! i = Some e -> e.(bp_Flags) <> 0 ->
  s'.(KdpBreakpointTable) = <[i := e']> s.(KdpBreakpointTable) -> e'.(bp_Address) = e.(bp_Address) ->
  s'.(kd_mem) = <[e.(bp_Address) := c]> s.(kd_mem) ->
  flags_ok e'.(bp_Flags) -> (saved e' = true -> o !! e.(bp_Address) = Some e'.(bp_Content)) ->
  Some c = (if written e' then Some KdpBreakpointInstruction else o !! e.(bp_Address)) ->
  s'.(KdpOweBreakpoint) = true \/ (s'.(KdpOweBreakpoint) = s.(KdpOweBreakpoint) /\ owed e' = false) ->
  core_ok o s' /\ settled n s'.
Proof using Type.
  intros Hc Hs Hi He HT Ha Hm Hf Hsv Hw Hsettled. eapply (entry_changes n s i e e'); try done; rewrite Hm.
  - intros a Hne. by rewrite lookup_insert_ne.
  - by rewrite lookup_insert_eq.
Qed.

Lemma saved_byte s i e : core_ok o s -> s.(KdpBreakpointTable) !! i = Some e -> saved e = true -> is_byte e.(bp_Content).
Proof using Ho. intros Hc Hi Hs. eapply Ho, eo_saved; [by eapply co_entry | done]. Qed.

(** Writing the content back. *)
Lemma KdpLowWriteContent_run s i e :
  mem_ok s.(kd_mem) -> valid_mapped valid s.(kd_mem) -> s.(KdpBreakpointTable) !! i = Some e ->
  has KD_BREAKPOINT_PENDING e = false -> address_ok e.(bp_Address) -> is_byte e.(bp_Content) ->
  (e.(bp_Content) = KdpBreakpointInstruction -> s.(kd_mem) !! e.(bp_Address) = Some KdpBreakpointInstruction) ->
  KdpLowWriteContent valid i s =
    if valid e.(bp_Address) || (e.(bp_Content) =? KdpBreakpointInstruction)
    then Ret (with_kd_mem s (<[e.(bp_Address) := e.(bp_Content)]> s.(kd_mem)), true)
    else Ret (with_owe (with_entry s i (set_flag KD_BREAKPOINT_EXPIRED e)) true, false).
Proof using Type.
  intros Hm Hv Hi Hp Ha Hb Hcc. unfold KdpLowWriteContent, entry. rewrite Hi. cbn [mbind outcome_bind]. rewrite Hp.
  destruct (Z.eqb_spec e.(bp_Content) KdpBreakpointInstruction) as [He |].
  - rewrite orb_true_r, He, insert_id by auto. by destruct s.
  - rewrite orb_false_r, write_instruction_run by done. cbn [mbind outcome_bind]. destruct (valid e.(bp_Address)); [done |]. by destruct s.
Qed.

Lemma written_cases e : written e = true -> e.(bp_Flags) = 1 \/ e.(bp_Flags) = 9 \/ e.(bp_Flags) = 13.
Proof using Type. unfold written. intros H. apply orb_true_iff in H as [H | H%Z.eqb_eq]; [| auto]. apply orb_true_iff in H as [H%Z.eqb_eq | H%Z.eqb_eq]; auto. Qed.

(** Deleting a breakpoint that is in memory. *)
Lemma delete_written n s i e :
  core_ok o s -> settled n s -> s.(KdpBreakpointTable) !! i = Some e -> written e = true ->
  exists s' b, ('(s, ok) ← KdpLowWriteContent valid i s;
                if (ok : bool) then e ← entry s i; Ret (with_entry s i (with_flags e 0), true) else Ret (s, true)) = Ret (s', b) /\
    core_ok o s' /\ settled n s'.
Proof using All.
  intros Hc Hs Hi Hw. destruct (co_entry o s Hc i e Hi) as [Hf Ha Hin Hsv]. specialize (Hin Hw).
  assert (saved e = true) as Hsave by (unfold saved; by rewrite Hw). specialize (Hsv Hsave).
  pose proof (written_cases e Hw) as Hcases. assert (e.(bp_Flags) <> 0) as Hne by lia.
  assert (has KD_BREAKPOINT_PENDING e = false) as Hp.
  { unfold has. destruct Hcases as [-> | [-> | ->]]; reflexivity. }
  rewrite (KdpLowWriteContent_run s i e); [| by apply (core_mem_ok o) | by apply (core_valid o) | done | done | by apply Ha | by apply (saved_byte s i) | done].
  destruct (valid e.(bp_Address) || (e.(bp_Content) =? KdpBreakpointInstruction)); cbn [mbind outcome_bind].
  - unfold entry. cbn [with_kd_mem KdpBreakpointTable]. rewrite Hi. cbn [mbind outcome_bind]. eexists _, _. split; [done |].
    apply (write_changes n s i e (with_flags e 0) e.(bp_Content)); try done.
    + by left.
    + right. done.
  - eexists _, _. split; [done |].
    assert (exists f, set_flag KD_BREAKPOINT_EXPIRED e = with_flags e f /\ (f = 9 \/ f = 13)) as (f & -> & Hff).
    { eexists. split; [reflexivity |]. destruct Hcases as [-> | [-> | ->]]; vm_compute; auto. }
    apply (flags_change n s i e f); try done; try (by left).
    + unfold flags_ok. lia.
    + left. rewrite Hw. by destruct Hff as [-> | ->].
Qed.

Lemma KdpDeleteBreakpoint_run n s i e :
  core_ok o s -> settled n s -> s.(KdpBreakpointTable) !! i = Some e ->
  exists s' b, KdpDeleteBreakpoint valid (Z.of_nat i + 1) s = Ret (s', b) /\ core_ok o s' /\ settled n s'.
Proof using All.
  intros Hc Hs Hi. pose proof (lookup_lt_Some _ _ _ Hi) as Hlt. rewrite (co_length o s Hc) in Hlt. unfold KD_BREAKPOINT_MAX in Hlt.
  unfold KdpDeleteBreakpoint. destruct (Z.eqb_spec (Z.of_nat i + 1) 0); [lia |]. cbn [orb].
  change (Z.of_nat KD_BREAKPOINT_MAX) with 32. destruct (Z.ltb_spec 32 (Z.of_nat i + 1)); [lia |].
  replace (Z.to_nat (Z.of_nat i + 1 - 1)) with i by lia. rewrite (entry_run s i e Hi). cbn [mbind outcome_bind].
  pose proof (eo_flags _ _ _ (co_entry o s Hc i e Hi)) as Hf. destruct (written e) eqn:Hw.
  - destruct (delete_written n s i e Hc Hs Hi Hw) as (s' & b & Hd & Hok). exists s', b. split; [| done].
    rewrite <- Hd. unfold has. by destruct (written_cases e Hw) as [-> | [-> | ->]].
  - destruct e as [f a c]. cbn [bp_Flags] in Hf. destruct Hf as [-> | [-> | [-> | [-> | [-> | ->]]]]]; try discriminate; flags.
    + by exists s, false.
    + unfold KdpLowWriteContent. rewrite (entry_run _ _ _ Hi). cbn [mbind outcome_bind]. flags. cbn [mbind outcome_bind]. unfold entry.
      cbn [with_entry KdpBreakpointTable]. rewrite list_lookup_insert_eq by (by eapply lookup_lt_Some). cbn [mbind outcome_bind].
      eexists _, _. split; [done |]. apply (flags_change n s i {| bp_Flags := 3; bp_Address := a; bp_Content := c |} 0); try done.
      * cbn. by rewrite list_insert_insert_eq.
      * by left.
      * by left.
      * by right.
    + eexists _, _. split; [done |]. apply (flags_change n s i {| bp_Flags := 5; bp_Address := a; bp_Content := c |} 0); try done.
      * by left.
      * by left.
      * by right.
Qed.

(** Deleting a breakpoint whose address is valid frees its entry. *)
Lemma KdpDeleteBreakpoint_frees s i e s' b :
  core_ok o s -> s.(KdpBreakpointTable) !! i = Some e -> e.(bp_Flags) <> 0 -> valid e.(bp_Address) = true ->
  KdpDeleteBreakpoint valid (Z.of_nat i + 1) s = Ret (s', b) ->
  b = true /\ exists c, c.(bp_Flags) = 0 /\ s'.(KdpBreakpointTable) = <[i := c]> s.(KdpBreakpointTable).
Proof using All.
  intros Hc Hi Hne Hva. pose proof (lookup_lt_Some _ _ _ Hi) as Hlt. rewrite (co_length o s Hc) in Hlt. unfold KD_BREAKPOINT_MAX in Hlt.
  unfold KdpDeleteBreakpoint. destruct (Z.eqb_spec (Z.of_nat i + 1) 0); [lia |]. cbn [orb].
  change (Z.of_nat KD_BREAKPOINT_MAX) with 32. destruct (Z.ltb_spec 32 (Z.of_nat i + 1)); [lia |].
  replace (Z.to_nat (Z.of_nat i + 1 - 1)) with i by lia. rewrite (entry_run s i e Hi). cbn [mbind outcome_bind].
  destruct (co_entry o s Hc i e Hi) as [Hf Ha Hin Hsv]. destruct (written e) eqn:Hw.
  - assert (saved e = true) as Hsave by (unfold saved; by rewrite Hw).
    assert (has KD_BREAKPOINT_PENDING e = false) as Hp by (unfold has; destruct (written_cases e Hw) as [-> | [-> | ->]]; done).
    rewrite (KdpLowWriteContent_run s i e); [| by apply (core_mem_ok o) | by apply (core_valid o) | done | done | by apply Ha | by apply (saved_byte s i) | by intros; apply Hin].
    rewrite Hva. cbn [orb mbind outcome_bind]. unfold entry. cbn [with_kd_mem KdpBreakpointTable]. rewrite Hi. cbn [mbind outcome_bind].
    assert (truthy e.(bp_Flags) = true /\ (has KD_BREAKPOINT_SUSPENDED e && negb (has KD_BREAKPOINT_EXPIRED e)) = false) as [-> ->].
    { unfold has. by destruct (written_cases e Hw) as [-> | [-> | ->]]. }
    cbn [negb]. intros [= <- <-]. split; [done |]. exists (with_flags e 0). done.
  - destruct e as [f a c]. cbn [bp_Flags] in *. destruct Hf as [-> | [-> | [-> | [-> | [-> | ->]]]]]; try discriminate; flags; [done | |].
    + unfold KdpLowWriteContent. rewrite (entry_run _ _ _ Hi). cbn [mbind outcome_bind]. flags. cbn [mbind outcome_bind]. unfold entry.
      cbn [with_entry KdpBreakpointTable]. rewrite list_lookup_insert_eq by (by eapply lookup_lt_Some). cbn [mbind outcome_bind].
      intros [= <- <-]. split; [done |]. eexists. split; [| cbn; by rewrite list_insert_insert_eq]. done.
    + intros [= <- <-]. split; [done |]. exists {| bp_Flags := 0; bp_Address := a; bp_Content := c |}. by split.
Qed.

Lemma for_entries (P : nat -> kd -> Prop) body s :
  P 0%nat s ->
  (forall j s, (j < KD_BREAKPOINT_MAX)%nat -> P j s -> exists s', body (Z.of_nat j) s = Ret s' /\ P (S j) s') ->
  exists s', for_loop KD_BREAKPOINT_MAX 0 body s = Ret s' /\ P KD_BREAKPOINT_MAX s'.
Proof using Type.
  intros H0 Hb. destruct (for_loop_inv (fun i s => P (Z.to_nat i) s) KD_BREAKPOINT_MAX 0 body s H0) as (s' & Hr & HP).
  - intros j s1 Hj HP. destruct (Hb (Z.to_nat j) s1) as (s' & Hr & HP'); [lia | done |].
    rewrite Z2Nat.id in Hr by lia. exists s'. split; [done |]. by replace (Z.to_nat (j + 1)) with (S (Z.to_nat j)) by lia.
  - exists s'. done.
Qed.

Lemma table_entry o' s j : core_ok o' s -> (j < KD_BREAKPOINT_MAX)%nat -> exists e, s.(KdpBreakpointTable) !! j = Some e.
Proof using Type. intros Hc Hj. apply lookup_lt_is_Some_2. by rewrite (co_length _ _ Hc). Qed.

Lemma active_flags e : flags_ok e.(bp_Flags) -> has KD_BREAKPOINT_ACTIVE e = negb (e.(bp_Flags) =? 0).
Proof using Type. unfold flags_ok, has. intros [-> | [-> | [-> | [-> | [-> | ->]]]]]; done. Qed.

Lemma KdpAddBreakpoint_run s a :
  bp_ok o s -> address_ok a ->
  (forall i e, s.(KdpBreakpointTable) !! i = Some e -> e.(bp_Address) = a -> e.(bp_Flags) <> 13) ->
  exists s' h, KdpAddBreakpoint valid a s = Ret (s', h) /\ bp_ok o s'.
Proof using All.
  intros [Hc Hs] Ha H13. unfold KdpAddBreakpoint. destruct (list_find _ (KdpBreakpointTable s)) as [[i e]|] eqn:Hfind.
  - apply list_find_Some in Hfind as (Hi & [Hact Hea] & _). destruct (co_entry o s Hc i e Hi) as [Hf _ _ _].
    destruct (has KD_BREAKPOINT_EXPIRED e) eqn:Hx; [| by exists s, 0].
    assert (e.(bp_Flags) = 9) as H9.
    { specialize (H13 i e Hi Hea). unfold has in Hx. destruct Hf as [Hf | [Hf | [Hf | [Hf | [Hf | Hf]]]]]; rewrite Hf in Hx; done. }
    eexists _, _. split; [done |]. unfold clear_flag. rewrite H9. apply (flags_change KD_BREAKPOINT_MAX s i e 1); try done.
    + by rewrite H9.
    + unfold flags_ok. auto.
    + intros _. unfold saved, written. by rewrite H9.
    + left. unfold written. by rewrite H9.
    + by right.
  - apply list_find_None in Hfind. destruct (list_find (fun e => e.(bp_Flags) = 0) _) as [[i e]|] eqn:Hfree; [| by exists s, 0].
    apply list_find_Some in Hfree as (Hi & He & _).
    assert (forall j x, s.(KdpBreakpointTable) !! j = Some x -> x.(bp_Flags) <> 0 -> x.(bp_Address) <> a) as Hfresh.
    { intros j x Hj Hx Hxa. apply (Forall_lookup_1 _ _ _ _ Hfind Hj). split; [| done].
      rewrite active_flags by (apply (eo_flags _ _ _ (co_entry o s Hc j x Hj))). by apply Z.eqb_neq in Hx as ->. }
    assert (s.(kd_mem) !! a = o !! a) as Hmem.
    { apply (co_rest o s Hc). intros j x Hj Hw. apply (Hfresh j); [done |]. by destruct (written_cases x Hw) as [-> | [-> | ->]]. }
    destruct (save_instruction_run valid s a) as (c & -> & Hread); [by apply (core_mem_ok o) | by apply (core_valid o) | done |].
    cbn [mbind outcome_bind]. destruct (valid a) eqn:Hva.
    + specialize (Hread eq_refl). rewrite (write_instruction_run valid); [| by apply (core_mem_ok o s) | by apply (core_valid o s) | done | done].
      cbn [mbind outcome_bind]. rewrite Hva. eexists _, _. split; [done |]. split.
      * eapply (core_update o s i e {| bp_Flags := 1; bp_Address := a; bp_Content := c |}); try done; cbn [bp_Flags bp_Address bp_Content].
        -- unfold flags_ok. auto.
        -- intros _. by rewrite <- Hmem.
        -- intros x Hx. cbn. by rewrite lookup_insert_ne.
        -- cbn. by rewrite lookup_insert_eq.
        -- by right.
      * eapply (settled_update _ s i {| bp_Flags := 1; bp_Address := a; bp_Content := c |}); [done | done | by right].
    + eexists _, _. split; [done |]. split.
      * eapply (core_update o s i e {| bp_Flags := 3; bp_Address := a; bp_Content := e.(bp_Content) |}); try done.
        -- unfold flags_ok. cbn. auto.
        -- by right.
      * eapply (settled_update _ s i {| bp_Flags := 3; bp_Address := a; bp_Content := e.(bp_Content) |}); [done | done | by left].
Qed.

Lemma KdpDeleteBreakpointRange_run s Base Limit :
  bp_ok o s -> exists s' b, KdpDeleteBreakpointRange valid Base Limit s = Ret (s', b) /\ bp_ok o s'.
Proof using All.
  intros Hok. unfold KdpDeleteBreakpointRange.
  destruct (for_loop_inv (fun _ r => bp_ok o r.1) KD_BREAKPOINT_MAX 0 (fun i (r : kd * bool) =>
       e ← entry r.1 (Z.to_nat i);
       if has KD_BREAKPOINT_ACTIVE e && ((Base <=? e.(bp_Address)) && (e.(bp_Address) <=? Limit)) then
         d ← KdpDeleteBreakpoint valid (i + 1) r.1;
         Ret (d.1, if d.2 : bool then true else r.2)
       else Ret r) (s, false)) as ([s' b] & Hr & Hok'); [done | | by exists s', b].
  intros j [s1 b] Hj [Hc Hs]. cbn [fst snd] in *. destruct (table_entry o s1 (Z.to_nat j) Hc) as [e He]; [unfold KD_BREAKPOINT_MAX in *; lia |].
  rewrite (entry_run _ _ _ He). cbn [mbind outcome_bind]. destruct (_ && _); [| by eexists].
  destruct (KdpDeleteBreakpoint_run KD_BREAKPOINT_MAX s1 (Z.to_nat j) e Hc Hs He) as (s2 & d & Hd & Hok2).
  rewrite Z2Nat.id in Hd by lia. rewrite Hd. cbn [mbind outcome_bind]. eexists. split; [done |]. done.
Qed.

(** Where the addresses of the range are valid no breakpoint is left in it; the
    result tells whether there was one. *)
Lemma KdpDeleteBreakpointRange_clears s Base Limit :
  bp_ok o s -> (forall x, Base <= x <= Limit -> valid x = true) ->
  exists s' b, KdpDeleteBreakpointRange valid Base Limit s = Ret (s', b) /\ bp_ok o s' /\ (b = false -> s' = s) /\
    forall j e, s'.(KdpBreakpointTable) !! j = Some e -> Base <= e.(bp_Address) <= Limit -> e.(bp_Flags) = 0.
Proof using All.
  intros Hok Hva. unfold KdpDeleteBreakpointRange.
  destruct (for_loop_inv (fun k r => bp_ok o r.1 /\ (r.2 = false -> r.1 = s) /\
              forall j e, Z.of_nat j < k -> r.1.(KdpBreakpointTable) !! j = Some e -> Base <= e.(bp_Address) <= Limit -> e.(bp_Flags) = 0)
      KD_BREAKPOINT_MAX 0 (fun i (r : kd * bool) =>
       e ← entry r.1 (Z.to_nat i);
       if has KD_BREAKPOINT_ACTIVE e && ((Base <=? e.(bp_Address)) && (e.(bp_Address) <=? Limit)) then
         d ← KdpDeleteBreakpoint valid (i + 1) r.1;
         Ret (d.1, if d.2 : bool then true else r.2)
       else Ret r) (s, false)) as ([s' b] & Hr & Hok' & Hb & Hall).
  - split; [done |]. split; [done |]. intros. lia.
  - intros j [s1 b] Hj (Hc1 & Hb & Hall). cbn [fst snd] in *. pose proof (proj1 Hc1) as Hc. pose proof (proj2 Hc1) as Hs.
    destruct (table_entry o s1 (Z.to_nat j) Hc) as [e He]; [unfold KD_BREAKPOINT_MAX in *; lia |].
    rewrite (entry_run _ _ _ He). cbn [mbind outcome_bind]. rewrite (active_flags e) by (apply (eo_flags _ _ _ (co_entry o s1 Hc _ e He))).
    destruct (_ && _) eqn:Hsel.
    + zbool. destruct (KdpDeleteBreakpoint_run KD_BREAKPOINT_MAX s1 (Z.to_nat j) e Hc Hs He) as (s2 & d & Hd & Hok2).
      destruct (KdpDeleteBreakpoint_frees s1 (Z.to_nat j) e s2 d Hc He) as (-> & c & Hcf & HT); [done | apply Hva; lia | done |].
      rewrite Z2Nat.id in Hd by lia. rewrite Hd. cbn [mbind outcome_bind]. eexists. split; [done |]. cbn [fst snd]. split; [done |]. split; [done |].
      intros k x Hk. rewrite HT. intros Hx. apply list_lookup_insert_Some in Hx as [(_ & <- & _) | [Hne Hx]]; [done |]. apply (Hall k); [lia | done].
    + eexists. split; [done |]. split; [done |]. split; [done |]. intros k x Hk Hx Hin. destruct (decide (k = Z.to_nat j)) as [-> |]; [| apply (Hall k); [lia | done | done]].
      cbn [fst] in Hx. assert (x = e) as -> by congruence. destruct (Z.eqb_spec e.(bp_Flags) 0); [done |]. exfalso. revert Hsel. repeat zcase; cbn; done || lia.
  - exists s', b. split; [done |]. split; [done |]. split; [done |]. intros j e Hj. apply (Hall j); [| done].
    apply lookup_lt_Some in Hj. pose proof (co_length _ _ (proj1 Hok')) as Hlen. cbn [fst] in Hlen. lia.
Qed.

Lemma settled_next i s e :
  settled i s -> s.(KdpBreakpointTable) !! i = Some e -> (s.(KdpOweBreakpoint) = false -> owed e = false) -> settled (S i) s.
Proof using Type.
  intros Hs Hi He Ho' j x Hj Hx. destruct (decide (j = i)) as [-> | Hne]; [| by apply (Hs Ho' j); [lia |]].
  rewrite Hi in Hx. injection Hx as <-. by apply He.
Qed.

Lemma insert_here s i e e' : s.(KdpBreakpointTable) !! i = Some e -> <[i := e']> s.(KdpBreakpointTable) !! i = Some e'.
Proof using Type. intros Hi. apply list_lookup_insert_eq. by eapply lookup_lt_Some. Qed.

(** What an owed entry looks like once the memory is accessible. *)
Definition paid (e : BREAKPOINT_ENTRY) (c : Z) : BREAKPOINT_ENTRY :=
  if has KD_BREAKPOINT_PENDING e then {| bp_Flags := 1; bp_Address := e.(bp_Address); bp_Content := c |}
  else with_flags e (if has KD_BREAKPOINT_SUSPENDED e then 5 else 0).

Lemma owed_step_run i s :
  (i < KD_BREAKPOINT_MAX)%nat -> core_ok o s -> settled i s ->
  exists s', owed_step valid i s = Ret s' /\ core_ok o s' /\ settled (S i) s'.
Proof using All.
  intros Hlt Hc Hs. destruct (table_entry o s i Hc Hlt) as [e Hi]. unfold owed_step. rewrite (entry_run _ _ _ Hi). cbn [mbind outcome_bind].
  destruct (co_entry o s Hc i e Hi) as [Hf Ha Hw Hsv].
  pose proof (core_mem_ok o s Hc Ho) as Hmo. pose proof (core_valid o s valid Hc Hvo) as Hvm.
  destruct (owed e) eqn:Howed.
  2: { assert (truthy (Z.land e.(bp_Flags) (Z.lor KD_BREAKPOINT_PENDING KD_BREAKPOINT_EXPIRED)) = false) as ->.
       { unfold owed in Howed. destruct Hf as [Hf | [Hf | [Hf | [Hf | [Hf | Hf]]]]]; rewrite Hf in *; done. }
       exists s. split; [done |]. split; [done |]. by eapply settled_next. }
  assert (e.(bp_Flags) = 3 \/ e.(bp_Flags) = 9 \/ e.(bp_Flags) = 13) as Hcases.
  { unfold owed in Howed. apply orb_true_iff in Howed as [Hx | Hx%Z.eqb_eq]; [| auto]. apply orb_true_iff in Hx as [Hx%Z.eqb_eq | Hx%Z.eqb_eq]; auto. }
  assert (address_ok e.(bp_Address)) as Haddr by (apply Ha; lia).
  assert (truthy (Z.land e.(bp_Flags) (Z.lor KD_BREAKPOINT_PENDING KD_BREAKPOINT_EXPIRED)) = true) as -> by (destruct Hcases as [-> | [-> | ->]]; done).
  destruct (save_instruction_run valid s e.(bp_Address) Hmo Hvm Haddr) as (c & -> & Hread). cbn [mbind outcome_bind].
  destruct (valid e.(bp_Address)) eqn:Hva; cbn [negb].
  2: { exists (with_owe s true). split; [done |]. split; [by destruct Hc; split |]. intros Hx. discriminate Hx. }
  specialize (Hread eq_refl).
  assert (forall s', s'.(KdpBreakpointTable) = <[i := paid e c]> s.(KdpBreakpointTable) -> core_ok o s' /\ settled i s' ->
            core_ok o s' /\ settled (S i) s') as Hnext.
  { intros s' HT [Hc' Hs']. split; [done |]. eapply settled_next; [done | rewrite HT; by apply (insert_here s i e) |].
    intros _. unfold paid, has. destruct Hcases as [H | [H | H]]; rewrite H; reflexivity. }
  destruct Hcases as [H3 | Hx].
  - assert (has KD_BREAKPOINT_PENDING e = true) as Hp by (unfold has; by rewrite H3). rewrite Hp.
    rewrite (write_instruction_run valid) by done. cbn [mbind outcome_bind with_entry bp_Address]. rewrite Hva. cbn [negb].
    assert (s.(kd_mem) !! e.(bp_Address) = o !! e.(bp_Address)) as Hmem.
    { apply (unwritten_at s i); [done | done | lia |]. unfold written. by rewrite H3. }
    assert (paid e c = {| bp_Flags := 1; bp_Address := e.(bp_Address); bp_Content := c |}) as Hpaid by (unfold paid; by rewrite Hp).
    eexists. split; [done |]. apply Hnext; [cbn; by rewrite list_insert_insert_eq, Hpaid |].
    apply (write_changes i s i e (paid e c) KdpBreakpointInstruction); rewrite ?Hpaid; try done; cbn.
    + lia.
    + by rewrite list_insert_insert_eq.
    + unfold flags_ok. auto.
    + intros _. by rewrite <- Hmem.
    + by right.
  - assert (has KD_BREAKPOINT_PENDING e = false /\ has KD_BREAKPOINT_EXPIRED e = true /\ saved e = true) as (Hp & Hex & Hsave).
    { unfold has, saved, written. destruct Hx as [-> | ->]; done. }
    rewrite Hp, Hex, (write_instruction_run valid); [| done | done | done | by apply (saved_byte s i)].
    cbn [mbind outcome_bind]. rewrite Hva. cbn [negb].
    assert (paid e c = with_flags e (if has KD_BREAKPOINT_SUSPENDED e then 5 else 0)) as Hpaid by (unfold paid; by rewrite Hp).
    eexists. split; [done |]. apply Hnext.
    { rewrite Hpaid. by destruct (has KD_BREAKPOINT_SUSPENDED e). }
    apply (write_changes i s i e (paid e c) e.(bp_Content)); rewrite ?Hpaid; try done.
    + lia.
    + by destruct (has KD_BREAKPOINT_SUSPENDED e).
    + by destruct (has KD_BREAKPOINT_SUSPENDED e).
    + unfold flags_ok. cbn. destruct (has KD_BREAKPOINT_SUSPENDED e); auto.
    + intros _. by apply Hsv.
    + rewrite Hsv by done. by destruct (has KD_BREAKPOINT_SUSPENDED e).
    + right. by destruct (has KD_BREAKPOINT_SUSPENDED e).
Qed.

Lemma KdSetOwedBreakpoints_run s : bp_ok o s -> exists s', KdSetOwedBreakpoints valid s = Ret s' /\ bp_ok o s'.
Proof using All.
  intros [Hc Hs]. unfold KdSetOwedBreakpoints. destruct (KdpOweBreakpoint s) eqn:Howe; cbn [negb]; [| by exists s].
  apply (for_entries (fun i s => core_ok o s /\ settled i s)).
  - split; [by destruct Hc; split |]. intros _ j e Hj. lia.
  - intros j s1 Hj [Hc1 Hs1]. rewrite Nat2Z.id. by apply owed_step_run.
Qed.

Lemma restore_step_run s i e :
  core_ok o s -> settled KD_BREAKPOINT_MAX s -> s.(KdpBreakpointTable) !! i = Some e ->
  has KD_BREAKPOINT_ACTIVE e && has KD_BREAKPOINT_SUSPENDED e = true ->
  exists s' b, KdpLowRestoreBreakpoint valid i (with_entry s i (clear_flag KD_BREAKPOINT_SUSPENDED e)) = Ret (s', b) /\ bp_ok o s'.
Proof using All.
  intros Hc Hs Hi Hact. destruct (co_entry o s Hc i e Hi) as [Hf Ha Hw Hsv].
  pose proof (core_mem_ok o s Hc Ho) as Hmo. pose proof (core_valid o s valid Hc Hvo) as Hvm.
  assert (e.(bp_Flags) = 5 \/ e.(bp_Flags) = 13) as Hcases.
  { unfold has in Hact. destruct Hf as [Hf | [Hf | [Hf | [Hf | [Hf | Hf]]]]]; rewrite Hf in Hact; first [by auto | by vm_compute in Hact]. }
  assert (saved e = true) as Hsave by (unfold saved, written; destruct Hcases as [-> | ->]; done).
  unfold KdpLowRestoreBreakpoint. erewrite (entry_run _ i) by (cbn; by apply (insert_here s i e)). cbn [mbind outcome_bind].
  destruct e as [f a c]; cbn [bp_Flags bp_Address bp_Content] in *. destruct Hcases as [-> | ->]; flags.
  - change (clear_flag KD_BREAKPOINT_SUSPENDED {| bp_Flags := 5; bp_Address := a; bp_Content := c |}) with {| bp_Flags := 1; bp_Address := a; bp_Content := c |}.
    cbn [bp_Content bp_Address]. destruct (Z.eqb_spec c KdpBreakpointInstruction) as [-> | Hne].
    + eexists _, _. split; [done |]. eapply (flags_change KD_BREAKPOINT_MAX s i _ 1); try done.
      * unfold flags_ok. auto.
      * by right.
      * by right.
    + rewrite (write_instruction_run valid) by (done || apply Ha; done). cbn [mbind outcome_bind]. destruct (valid a) eqn:Hva; cbn [negb].
      * eexists _, _. split; [done |].
        apply (write_changes KD_BREAKPOINT_MAX s i {| bp_Flags := 5; bp_Address := a; bp_Content := c |} {| bp_Flags := 1; bp_Address := a; bp_Content := c |} KdpBreakpointInstruction); try done.
        -- cbn. by rewrite list_insert_insert_eq.
        -- unfold flags_ok. cbn. auto.
        -- by right.
      * eexists _, _. split; [done |]. eapply (flags_change KD_BREAKPOINT_MAX s i _ 3); try done.
        -- cbn. by rewrite list_insert_insert_eq.
        -- unfold flags_ok. auto.
        -- by left.
        -- by left.
  - eexists _, _. split; [done |]. eapply (flags_change KD_BREAKPOINT_MAX s i _ 1); try done.
    + cbn. by rewrite list_insert_insert_eq.
    + unfold flags_ok. auto.
    + by left.
    + by right.
Qed.

Lemma KdpRestoreAllBreakpoints_run s : bp_ok o s -> exists s', KdpRestoreAllBreakpoints valid s = Ret s' /\ bp_ok o s'.
Proof using All.
  intros [Hc Hs]. unfold KdpRestoreAllBreakpoints. apply (for_entries (fun _ s => bp_ok o s)).
  - split; [by destruct Hc; split | exact Hs].
  - intros j s1 Hj [Hc1 Hs1]. rewrite Nat2Z.id. destruct (table_entry o s1 j Hc1 Hj) as [e He].
    rewrite (entry_run _ _ _ He). cbn [mbind outcome_bind]. destruct (_ && _) eqn:Hact; [| by exists s1].
    destruct (restore_step_run s1 j e Hc1 Hs1 He Hact) as (s' & b & -> & Hok). by exists s'.
Qed.

(** Suspending one breakpoint that nothing is owed for. *)
Lemma KdpSuspendBreakPoint_run s i e :
  core_ok o s -> settled KD_BREAKPOINT_MAX s -> s.(KdpBreakpointTable) !! i = Some e -> owed e = false ->
  exists s' e', KdpSuspendBreakPoint valid (Z.of_nat i + 1) s = Ret s' /\ bp_ok o s' /\
    s'.(KdpBreakpointTable) = <[i := e']> s.(KdpBreakpointTable).
Proof using All.
  intros Hc Hs Hi Howed. destruct (co_entry o s Hc i e Hi) as [Hf Ha Hw Hsv].
  pose proof (core_mem_ok o s Hc Ho) as Hmo. pose proof (core_valid o s valid Hc Hvo) as Hvm.
  pose proof (lookup_lt_Some _ _ _ Hi) as Hlt. rewrite (co_length o s Hc) in Hlt. unfold KD_BREAKPOINT_MAX in Hlt.
  unfold KdpSuspendBreakPoint. replace (Z.of_nat i + 1 - 1) with (Z.of_nat i) by lia. rewrite (wrap_small 32), Nat2Z.id by lia.
  rewrite (entry_run _ _ _ Hi). cbn [mbind outcome_bind]. destruct (_ && _) eqn:Hact.
  2: { exists s, e. split; [done |]. split; [done |]. by rewrite list_insert_id. }
  assert (e.(bp_Flags) = 1) as H1.
  { unfold has in Hact. unfold owed in Howed. destruct Hf as [Hf | [Hf | [Hf | [Hf | [Hf | Hf]]]]]; rewrite Hf in *; first [done | by vm_compute in Hact]. }
  assert (saved e = true) as Hsave by (unfold saved, written; by rewrite H1).
  specialize (Hsv Hsave). assert (written e = true) as Hwe by (unfold written; by rewrite H1). specialize (Hw Hwe).
  pose proof (saved_byte s i e Hc Hi Hsave) as Hb.
  destruct e as [f a c]; cbn [bp_Flags bp_Address bp_Content] in *. subst f.
  set (s1 := with_entry s i _). set (e1 := {| bp_Flags := 5; bp_Address := a; bp_Content := c |}).
  assert (s1.(KdpBreakpointTable) !! i = Some e1) as Hi1 by (cbn; erewrite insert_here by exact Hi; done).
  rewrite (KdpLowWriteContent_run s1 i e1); [| done | done | done | reflexivity | by apply Ha | done | by intros].
  cbn [e1 bp_Address bp_Content]. destruct (valid a || (c =? KdpBreakpointInstruction)); cbn [mbind outcome_bind].
  - eexists _, _. split; [done |]. split; [| done].
    apply (write_changes KD_BREAKPOINT_MAX s i {| bp_Flags := 1; bp_Address := a; bp_Content := c |} e1 c); try done.
    + unfold flags_ok. cbn. auto.
    + by right.
  - eexists _, _. split; [done |]. split; [| cbn; by rewrite list_insert_insert_eq].
    apply (flags_change KD_BREAKPOINT_MAX s i {| bp_Flags := 1; bp_Address := a; bp_Content := c |} 13); try done.
    + cbn. by rewrite list_insert_insert_eq.
    + unfold flags_ok. auto 10.
    + by left.
    + by left.
Qed.

Lemma KdpSuspendAllBreakPoints_run s :
  bp_ok o s -> s.(KdpOweBreakpoint) = false -> exists s', KdpSuspendAllBreakPoints valid s = Ret s' /\ bp_ok o s'.
Proof using All.
  intros [Hc Hs] Howe. unfold KdpSuspendAllBreakPoints.
  destruct (for_loop_inv (fun k s => bp_ok o s /\ forall j e, k <= Z.of_nat j + 1 -> s.(KdpBreakpointTable) !! j = Some e -> owed e = false)
              KD_BREAKPOINT_MAX 1 (KdpSuspendBreakPoint valid) (with_suspended s true)) as (s' & Hr & Hok & _); [| | by exists s'].
  - split; [split; [by destruct Hc; split | exact Hs] |]. intros j e _ Hj. apply (Hs Howe j); [| done].
    apply lookup_lt_Some in Hj. cbn in Hj. by rewrite (co_length o s Hc) in Hj.
  - intros k s1 Hk [[Hc1 Hs1] Hrest]. unfold KD_BREAKPOINT_MAX in Hk. destruct (table_entry o s1 (Z.to_nat (k - 1)) Hc1) as [e He]; [unfold KD_BREAKPOINT_MAX; lia |].
    destruct (KdpSuspendBreakPoint_run s1 (Z.to_nat (k - 1)) e Hc1 Hs1 He) as (s' & e' & Hr & Hok & HT); [apply (Hrest (Z.to_nat (k - 1))); [lia | done] |].
    replace (Z.of_nat (Z.to_nat (k - 1)) + 1) with k in Hr by lia. exists s'. split; [done |]. split; [done |].
    intros j x Hj. rewrite HT, list_lookup_insert_ne by lia. apply Hrest. lia.
Qed.
End operations_ok.

(** ** The states the debugger reaches *)

(** When a request may be made: an address of a breakpoint that could neither be
    suspended nor restored is not added again, and breakpoints are suspended only
    while nothing is owed.  [add_to_suspended] and [suspend_pending] show what
    happens otherwise. *)
Definition request_ok (r : request) (s : kd) : Prop :=
  match r with
  | AddBreakpoint a => address_ok a /\
      forall i e, s.(KdpBreakpointTable) !! i = Some e -> e.(bp_Address) = a -> e.(bp_Flags) <> 13
  | DeleteBreakpoint n => 0 <= n
  | SuspendAll => s.(KdpOweBreakpoint) = false
  | SetOwed | DeleteRange _ _ | RestoreAll => True
  end.

(** Requests over time, each with the addresses that are valid then. *)
Inductive reachable (o : mem) : kd -> Prop :=
| reach_start : reachable o (new_kd o)
| reach_request valid r s s' :
    reachable o s -> valid_mapped valid o -> request_ok r s -> serve valid r s = Ret s' -> reachable o s'.

Lemma serve_run valid o r s :
  mem_ok o -> valid_mapped valid o -> bp_ok o s -> request_ok r s -> exists s', serve valid r s = Ret s' /\ bp_ok o s'.
Proof.
  intros Ho Hv Hok Hr. destruct r as [a | | n | b l | |]; cbn [serve request_ok] in *.
  - destruct Hr as [Ha H13]. destruct (KdpAddBreakpoint_run valid o Ho Hv s a Hok Ha H13) as (s' & h & -> & Hok'). by exists s'.
  - by apply (KdSetOwedBreakpoints_run valid o).
  - unfold KdpDeleteBreakpoint. destruct ((n =? 0) || (Z.of_nat KD_BREAKPOINT_MAX <? n)) eqn:Hn; [by exists s |].
    apply orb_false_iff in Hn as [Hn0%Z.eqb_neq Hn%Z.ltb_ge]. destruct Hok as [Hc Hs].
    destruct (table_entry o s (Z.to_nat (n - 1)) Hc) as [e He]; [lia |].
    destruct (KdpDeleteBreakpoint_run valid o Ho Hv KD_BREAKPOINT_MAX s _ e Hc Hs He) as (s' & d & Hd & Hok').
    replace (Z.of_nat (Z.to_nat (n - 1)) + 1) with n in Hd by lia. unfold KdpDeleteBreakpoint in Hd.
    apply Z.eqb_neq in Hn0. apply Z.ltb_ge in Hn. rewrite Hn0, Hn in Hd. cbn [orb] in Hd. rewrite Hd. by exists s'.
  - destruct (KdpDeleteBreakpointRange_run valid o Ho Hv s b l Hok) as (s' & d & -> & Hok'). by exists s'.
  - by apply (KdpSuspendAllBreakPoints_run valid o).
  - by apply (KdpRestoreAllBreakpoints_run valid o).
Qed.

Lemma start_ok o : bp_ok o (new_kd o).
Proof.
  assert (forall i e, replicate KD_BREAKPOINT_MAX no_breakpoint !! i = Some e -> e = no_breakpoint) as Hrep
    by (intros i e Hi; by apply lookup_replicate in Hi as [-> _]).
  split; [split |].
  - apply length_replicate.
  - intros i e Hi. rewrite (Hrep i e Hi). split; try done. by left.
  - intros i j e e' Hi _ He. rewrite (Hrep i e Hi) in He. done.
  - done.
  - intros _ j e _ Hj. by rewrite (Hrep j e Hj).
Qed.

Lemma reachable_ok o s : mem_ok o -> reachable o s -> bp_ok o s.
Proof.
  intros Ho. induction 1 as [| valid r s s' _ IH Hv Hr Hserve]; [apply start_ok |].
  destruct (serve_run valid o r s Ho Hv IH Hr) as (s1 & Hs1 & Hok). rewrite Hserve in Hs1. by injection Hs1 as <-.
Qed.

(** C19: breakpoints are transparent to requests that come in turn: the address of a new breakpoint
    is not the last of all and not that of an expired breakpoint that is suspended, the number of one to
    delete is not negative, and all are suspended only when none is owed ([request_ok]).
    In every state that such requests lead to, from an empty table, every such
    request returns; each entry of the table is well formed; the memory has the
    breakpoint instruction exactly where an active entry says so and the debugged
    program's byte everywhere else, and each of these entries keeps the byte it
    replaced; without such an entry the memory is the program's. (Out of turn neither
    holds: [suspend_pending] and [add_to_suspended] are two such requests that damage the program.) *)
Theorem breakpoints_transparent o s :
  mem_ok o -> reachable o s ->
  (forall valid r, valid_mapped valid o -> request_ok r s -> exists s', serve valid r s = Ret s') /\
  (forall i e, s.(KdpBreakpointTable) !! i = Some e -> entry_ok o s.(kd_mem) e) /\
  (forall a, (exists i e, s.(KdpBreakpointTable) !! i = Some e /\ written e = true /\ e.(bp_Address) = a) \/
             s.(kd_mem) !! a = o !! a) /\
  ((forall i e, s.(KdpBreakpointTable) !! i = Some e -> written e = false) -> s.(kd_mem) = o).
Proof.
  intros Ho Hr. pose proof (reachable_ok o s Ho Hr) as [Hc Hs]. split; [| split; [apply Hc | split]].
  - intros valid r Hv Hq. destruct (serve_run valid o r s) as (s' & Hs' & _); [done | done | by split | done |]. by exists s'.
  - intros a. by apply written_at.
  - intros Hno. apply map_eq. intros a. apply (co_rest o s Hc). intros i e Hi Hw. by rewrite (Hno i e Hi) in Hw.
Qed.

(** ** Requests out of turn *)

Definition demo_valid (a : Z) : bool := (0 <=? a) && (a <? 8).
Definition demo_program : mem := mem_of 0 [10; 11; 12; 13; 14; 15; 16; 17].

Definition serve_all (rs : list ((Z -> bool) * request)) (s : kd) : outcome kd :=
  foldl (fun s r => s ← s; serve r.1 r.2 s) (Ret s) rs.

(** Fact: a breakpoint that was never written is suspended, restored and deleted: the
    program's instruction is replaced by the content of an unused entry. *)
Theorem suspend_pending :
  (s ← serve_all [(fun _ => false, AddBreakpoint 3); (demo_valid, SuspendAll); (demo_valid, RestoreAll); (demo_valid, DeleteBreakpoint 1)]
         (new_kd demo_program); load8 s.(kd_mem) 3) = Ret 0.
Proof. vm_compute. reflexivity. Qed.

(** Fact: a suspended breakpoint that could not be taken out of memory is added again
    and deleted: the breakpoint instruction stays in the program. *)
Theorem add_to_suspended :
  (s ← serve_all [(demo_valid, AddBreakpoint 3); (fun _ => false, SuspendAll); (demo_valid, AddBreakpoint 3); (demo_valid, DeleteBreakpoint 1)]
         (new_kd demo_program); load8 s.(kd_mem) 3) = Ret KdpBreakpointInstruction.
Proof. vm_compute. reflexivity. Qed.

Definition demo_reached : kd :=
  {| kd_mem := <[3 := 0xCC]> demo_program;
     KdpBreakpointTable := {| bp_Flags := 1; bp_Address := 3; bp_Content := 13 |} :: replicate 31 no_breakpoint;
     KdpOweBreakpoint := false; BreakpointsSuspended := false |}.

Lemma demo_valid_mapped : valid_mapped demo_valid demo_program.
Proof.
  intros a x Ha Hx. unfold demo_valid in Ha. zbool. apply (mem_of_mapped 0 _ 0 8); [lia | cbn; lia |].
  Z.to_euclidean_division_equations; lia.
Qed.

Lemma breakpoints_transparent_witness :
  exists s', serve demo_valid (DeleteBreakpoint 1) demo_reached = Ret s'.
Proof.
  destruct (breakpoints_transparent demo_program demo_reached) as (Hserve & _ & _ & _).
  - apply mem_of_ok. reflexivity.
  - apply (reach_request _ demo_valid (AddBreakpoint 3) (new_kd demo_program)).
    + apply reach_start.
    + apply demo_valid_mapped.
    + split; [unfold address_ok; lia |]. intros i e Hi. apply lookup_replicate in Hi as [-> _]. done.
    + vm_compute. reflexivity.
  - apply Hserve; [apply demo_valid_mapped | cbn; lia].
Defined.
