(* ===== verification/KdPacket.v ===== *)
(** The packet protocol of the kernel debugger's serial connection
    (kdCom/kddll.cpp, kdserial.cpp, the byte functions of kdcom.cpp; constants and
    the packet header of ext/reactos/windbgkd.h).

    The serial port is the endless sequence of what its successive reads give and the bytes
    sent.  Neither the search for a leader nor the loop over packets has a bound, so both
    run on fuel: a line that falls silent ends them ([KdReceivePacket_returns]), one
    that never does can keep them for ever ([KdReceivePacket_babble]).  A store past the
    caller's buffer is a [Fault]. *)
From Stdlib Require Import ZArith Lia.
From S2P Require Import Prelude CMemory.

Definition PACKET_MAX_SIZE : Z := 4000.
Definition INITIAL_PACKET_ID : Z := 0x80800000.
Definition SYNC_PACKET_ID : Z := 0x00000800.
Definition BREAKIN_PACKET_BYTE : Z := 0x62.
Definition PACKET_LEADER : Z := 0x30303030.
Definition PACKET_LEADER_BYTE : Z := 0x30.
Definition CONTROL_PACKET_LEADER : Z := 0x69696969.
Definition CONTROL_PACKET_LEADER_BYTE : Z := 0x69.
Definition PACKET_TRAILING_BYTE : Z := 0xAA.
Definition PACKET_TYPE_KD_ACKNOWLEDGE : Z := 4.
Definition PACKET_TYPE_KD_RESEND : Z := 5.
Definition PACKET_TYPE_KD_RESET : Z := 6.
Definition PACKET_TYPE_KD_POLL_BREAKIN : Z := 8.

Inductive KDP_STATUS := KDP_PACKET_RECEIVED | KDP_PACKET_TIMEOUT | KDP_PACKET_RESEND.

(** ** The port *)

(** What a read of the port gives: a byte, nothing in time, or a line error. *)
Inductive rx := RxByte (b : Z) | RxNone | RxError.

(** What the next reads give, what all the reads after these give, and what was sent. *)
Record port := { incoming : list rx; later : nat -> rx; outgoing : list Z }.

Definition next_read (p : port) : rx * port :=
  match p.(incoming) with
  | x :: l => (x, {| incoming := l; later := p.(later); outgoing := p.(outgoing) |})
  | [] => (p.(later) 0%nat, {| incoming := []; later := fun n => p.(later) (S n); outgoing := p.(outgoing) |})
  end.

(** What the [n]-th read to come gives. *)
Definition read_at (p : port) (n : nat) : rx :=
  match p.(incoming) !! n with Some x => x | None => p.(later) (n - length p.(incoming))%nat end.

Definition KdpSendBuffer (p : port) (Buffer : list Z) : port :=
  {| incoming := p.(incoming); later := p.(later); outgoing := p.(outgoing) ++ Buffer |}.

Definition KdpReceiveByte (p : port) : port * KDP_STATUS * Z :=
  let '(x, p) := next_read p in
  match x with
  | RxByte b => (p, KDP_PACKET_RECEIVED, b)
  | RxNone => (p, KDP_PACKET_TIMEOUT, 0)
  | RxError => (p, KDP_PACKET_RESEND, 0)
  end.

(** Polling takes one read of the port. *)
Definition KdpPollByte : port -> port * KDP_STATUS * Z := KdpReceiveByte.

Definition KdpPollBreakIn (p : port) : port * KDP_STATUS :=
  let '(p, KdStatus, Byte) := KdpPollByte p in
  match KdStatus with
  | KDP_PACKET_RECEIVED => (p, if Byte =? BREAKIN_PACKET_BYTE then KDP_PACKET_RECEIVED else KDP_PACKET_TIMEOUT)
  | _ => (p, KDP_PACKET_TIMEOUT)
  end.

(** The bytes received before the first read that fails. *)
Fixpoint KdpReceiveBuffer (Size : nat) (p : port) : port * KDP_STATUS * list Z :=
  match Size with
  | O => (p, KDP_PACKET_RECEIVED, [])
  | S Size =>
      let '(p, Status, Byte) := KdpReceiveByte p in
      match Status with
      | KDP_PACKET_RECEIVED => let '(p, Status, l) := KdpReceiveBuffer Size p in (p, Status, Byte :: l)
      | _ => (p, Status, [])
      end
  end.

(** The leader: four equal leader bytes.  Of the buffer only the first byte is read
    before it is written. *)
Fixpoint leader_loop (fuel : nat) (p : port) (Index : nat) (Buffer : list Z) : outcome (port * KDP_STATUS * Z) :=
  match fuel with
  | O => Diverged
  | S fuel =>
      let '(p, KdStatus, Byte) := KdpReceiveByte p in
      match KdStatus with
      | KDP_PACKET_TIMEOUT =>
          Ret (p, if List.hd 0 Buffer =? BREAKIN_PACKET_BYTE then KDP_PACKET_RESEND else KDP_PACKET_TIMEOUT, 0)
      | KDP_PACKET_RECEIVED =>
          if (Byte =? PACKET_LEADER_BYTE) || (Byte =? CONTROL_PACKET_LEADER_BYTE) then
            let Index := if negb (Byte =? List.hd 0 Buffer) then O else Index in
            let Buffer := <[Index := Byte]> Buffer in
            if (S Index <? 4)%nat then leader_loop fuel p (S Index) Buffer
            else Ret (p, KDP_PACKET_RECEIVED, le_of Buffer)
          else if Byte =? BREAKIN_PACKET_BYTE then leader_loop fuel p 0 (<[0%nat := Byte]> Buffer)
          else leader_loop fuel p 0 (<[0%nat := 0]> Buffer)
      | KDP_PACKET_RESEND => leader_loop fuel p 0 (<[0%nat := 0]> Buffer)
      end
  end.
Definition KdpReceivePacketLeader (fuel : nat) (p : port) : outcome (port * KDP_STATUS * Z) :=
  leader_loop fuel p 0 [0; 0; 0; 0].

(** ** Packets *)

Definition KdpCalculateChecksum (Buffer : list Z) : Z := foldl (fun Checksum b => u32 (Checksum + b)) 0 Buffer.

(** The sixteen bytes of a [KD_PACKET]. *)
Definition KD_PACKET (PacketLeader PacketType ByteCount PacketId Checksum : Z) : list Z :=
  le_to 4 PacketLeader ++ le_to 2 PacketType ++ le_to 2 ByteCount ++ le_to 4 PacketId ++ le_to 4 Checksum.

Definition KdpSendControlPacket (PacketType PacketId : Z) (p : port) : port :=
  KdpSendBuffer p (KD_PACKET CONTROL_PACKET_LEADER PacketType 0 PacketId 0).

(** The state of the connection. *)
Record kdcom := { CurrentPacketId : Z; RemotePacketId : Z; KdpControlCPending : bool }.
Definition new_kdcom : kdcom :=
  {| CurrentPacketId := Z.lor INITIAL_PACKET_ID SYNC_PACKET_ID; RemotePacketId := INITIAL_PACKET_ID; KdpControlCPending := false |}.
Definition flip_current (k : kdcom) : kdcom :=
  {| CurrentPacketId := Z.lxor k.(CurrentPacketId) 1; RemotePacketId := k.(RemotePacketId); KdpControlCPending := k.(KdpControlCPending) |}.
Definition flip_remote (k : kdcom) : kdcom :=
  {| CurrentPacketId := k.(CurrentPacketId); RemotePacketId := Z.lxor k.(RemotePacketId) 1; KdpControlCPending := k.(KdpControlCPending) |}.
Definition reset_ids (k : kdcom) : kdcom :=
  {| CurrentPacketId := INITIAL_PACKET_ID; RemotePacketId := INITIAL_PACKET_ID; KdpControlCPending := k.(KdpControlCPending) |}.
Definition control_c (k : kdcom) : kdcom :=
  {| CurrentPacketId := k.(CurrentPacketId); RemotePacketId := k.(RemotePacketId); KdpControlCPending := true |}.

(** The caller's strings: the header with its length and bytes, the data if the
    caller wants any, and [*DataLength].  The bytes are the memory behind [Buffer]: what is
    stored past them is not the caller's. *)
Record message := { h_Length : Z; h_Buffer : list Z; d_Length : Z; d_Buffer : list Z; DataLength : Z }.
Definition with_h_Length (m : message) (n : Z) : message :=
  {| h_Length := n; h_Buffer := m.(h_Buffer); d_Length := m.(d_Length); d_Buffer := m.(d_Buffer); DataLength := m.(DataLength) |}.
Definition with_header (m : message) (l : list Z) : outcome message :=
  if (length l <=? length m.(h_Buffer))%nat then
    Ret {| h_Length := m.(h_Length); h_Buffer := list_inserts 0 l m.(h_Buffer); d_Length := m.(d_Length); d_Buffer := m.(d_Buffer); DataLength := m.(DataLength) |}
  else Fault.
Definition with_DataLength (m : message) (n : Z) : message :=
  {| h_Length := m.(h_Length); h_Buffer := m.(h_Buffer); d_Length := m.(d_Length); d_Buffer := m.(d_Buffer); DataLength := n |}.
Definition with_data_length (m : message) (n : Z) : message :=
  {| h_Length := m.(h_Length); h_Buffer := m.(h_Buffer); d_Length := n; d_Buffer := m.(d_Buffer); DataLength := m.(DataLength) |}.
Definition with_data (m : message) (l : list Z) : outcome message :=
  if (length l <=? length m.(d_Buffer))%nat then
    Ret {| h_Length := m.(h_Length); h_Buffer := m.(h_Buffer); d_Length := m.(d_Length); d_Buffer := list_inserts 0 l m.(d_Buffer); DataLength := m.(DataLength) |}
  else Fault.

(** How a turn of the loop ends: with a result of the function, or in the next turn. *)
Inductive turn := Done (p : port) (k : kdcom) (m : message) (s : KDP_STATUS) | Again (p : port) (k : kdcom) (m : message).

Section receive.
Context (PacketType MaximumLength : Z) (wants_data : bool).

(** Steps 6 and on for a control packet. *)
Definition control_packet (p : port) (k : kdcom) (m : message) (type id : Z) : turn :=
  if type =? PACKET_TYPE_KD_ACKNOWLEDGE then
    if (PacketType =? PACKET_TYPE_KD_ACKNOWLEDGE) && (id =? Z.land k.(CurrentPacketId) (u32 (Z.lnot SYNC_PACKET_ID)))
    then Done p (flip_current k) m KDP_PACKET_RECEIVED
    else Again p k m
  else if type =? PACKET_TYPE_KD_RESET then
    Done (KdpSendControlPacket PACKET_TYPE_KD_RESET 0 p) (reset_ids k) m KDP_PACKET_RESEND
  else if type =? PACKET_TYPE_KD_RESEND then Done p k m KDP_PACKET_RESEND
  else Again p k m.

(** The end of a packet: the trailing byte, the checksum, the acknowledgement. *)
Definition packet_end (p : port) (k : kdcom) (m : message) (type id expected Checksum : Z) : turn :=
  let '(p, KdStatus, Byte) := KdpReceiveByte p in
  match KdStatus with
  | KDP_PACKET_RECEIVED =>
      if negb (Byte =? PACKET_TRAILING_BYTE) then Again (KdpSendControlPacket PACKET_TYPE_KD_RESEND 0 p) k m
      else if negb (expected =? Checksum) then Again (KdpSendControlPacket PACKET_TYPE_KD_RESEND 0 p) k m
      else
        let p := KdpSendControlPacket PACKET_TYPE_KD_ACKNOWLEDGE id p in
        if negb (id =? k.(RemotePacketId)) then Again p k m
        else if PacketType =? type then Done p (flip_remote k) m KDP_PACKET_RECEIVED
        else Again p k m
  | _ => Again (KdpSendControlPacket PACKET_TYPE_KD_RESEND 0 p) k m
  end.

(** The data behind the header, if the caller wants it. *)
Definition packet_data (p : port) (k : kdcom) (m : message) (type id expected Checksum : Z) : outcome turn :=
  if wants_data then
    let m := with_data_length m (u16 m.(DataLength)) in
    if truthy m.(d_Length) then
      let '(p, KdStatus, l) := KdpReceiveBuffer (Z.to_nat m.(d_Length)) p in
      m ← with_data m l;
      match KdStatus with
      | KDP_PACKET_RECEIVED => Ret (packet_end p k m type id expected (u32 (Checksum + KdpCalculateChecksum l)))
      | _ => Ret (Again (KdpSendControlPacket PACKET_TYPE_KD_RESEND 0 p) k m)
      end
    else Ret (packet_end p k m type id expected Checksum)
  else Ret (packet_end p k m type id expected Checksum).

(** A data packet, behind its [KD_PACKET]. *)
Definition data_packet (p : port) (k : kdcom) (m : message) (type ByteCount id expected : Z) : outcome turn :=
  if PacketType =? PACKET_TYPE_KD_ACKNOWLEDGE then
    Ret (Done (KdpSendControlPacket PACKET_TYPE_KD_RESEND 0 p) (flip_current k) m KDP_PACKET_RECEIVED)
  else
    let m := with_h_Length m MaximumLength in
    if (ByteCount <? m.(h_Length)) || (PACKET_MAX_SIZE <? ByteCount) then
      Ret (Again (KdpSendControlPacket PACKET_TYPE_KD_RESEND 0 p) k (with_h_Length m ByteCount))
    else
      let '(p, KdStatus, l) := KdpReceiveBuffer (Z.to_nat m.(h_Length)) p in
      m ← with_header m l;
      match KdStatus with
      | KDP_PACKET_RECEIVED =>
          packet_data p k (with_DataLength m (ByteCount - m.(h_Length))) type id expected (KdpCalculateChecksum l)
      | _ => Ret (Again (KdpSendControlPacket PACKET_TYPE_KD_RESEND 0 p) k m)
      end.

(** One turn of the loop. *)
Definition receive_turn (fuel : nat) (p : port) (k : kdcom) (m : message) : outcome turn :=
  '(p, KdStatus, PacketLeader) ← KdpReceivePacketLeader fuel p;
  match KdStatus with
  | KDP_PACKET_RESEND => Ret (Done p (control_c k) m KDP_PACKET_RESEND)
  | KDP_PACKET_TIMEOUT => Ret (Done p k m KDP_PACKET_TIMEOUT)
  | KDP_PACKET_RECEIVED =>
      let '(p, KdStatus, l) := KdpReceiveBuffer 2 p in
      match KdStatus with
      | KDP_PACKET_RECEIVED =>
          let type := le_of l in
          if (PacketLeader =? CONTROL_PACKET_LEADER) && (type =? PACKET_TYPE_KD_RESEND) then Ret (Done p k m KDP_PACKET_RESEND)
          else
            let '(p, KdStatus, l) := KdpReceiveBuffer 2 p in
            match KdStatus with
            | KDP_PACKET_RECEIVED =>
                let ByteCount := le_of l in
                let '(p, KdStatus, l) := KdpReceiveBuffer 4 p in
                match KdStatus with
                | KDP_PACKET_RECEIVED =>
                    let id := le_of l in
                    let '(p, KdStatus, l) := KdpReceiveBuffer 4 p in
                    match KdStatus with
                    | KDP_PACKET_RECEIVED =>
                        if PacketLeader =? CONTROL_PACKET_LEADER then Ret (control_packet p k m type id)
                        else data_packet p k m type ByteCount id (le_of l)
                    | s => Ret (Done p k m s)
                    end
                | s => Ret (Done p k m s)
                end
            | s => Ret (Done p k m s)
            end
      | s => Ret (Done p k m s)
      end
  end.

(** The loop over packets.  What is left of the fuel is also that of a leader's search. *)
Fixpoint receive_loop (fuel : nat) (p : port) (k : kdcom) (m : message) : outcome (port * kdcom * message * KDP_STATUS) :=
  match fuel with
  | O => Diverged
  | S fuel' =>
      t ← receive_turn fuel p k m;
      match t with
      | Done p k m s => Ret (p, k, m, s)
      | Again p k m => receive_loop fuel' p k m
      end
  end.

Definition KdReceivePacket (fuel : nat) (p : port) (k : kdcom) (m : message) : outcome (port * kdcom * message * KDP_STATUS) :=
  if PacketType =? PACKET_TYPE_KD_POLL_BREAKIN then let '(p, s) := KdpPollBreakIn p in Ret (p, k, m, s)
  else receive_loop fuel p k m.
End receive.

(** ** A call returns *)

(** From the [N]-th read on the port times out. *)
Definition quiet (N : nat) (p : port) : Prop := forall n, (N <= n)%nat -> read_at p n = RxNone.

Lemma read_at_next p x p' n : next_read p = (x, p') -> read_at p 0 = x /\ read_at p' n = read_at p (S n) /\ outgoing p' = outgoing p.
Proof.
  destruct p as [[| y l] f o]; intros [= <- <-]; split_and!; try done; unfold read_at; cbn; by rewrite ?Nat.sub_0_r.
Qed.

Lemma KdpReceiveByte_quiet N p p' s b : KdpReceiveByte p = (p', s, b) -> quiet N p -> quiet (pred N) p' /\ (N = O -> s = KDP_PACKET_TIMEOUT).
Proof.
  unfold KdpReceiveByte. destruct (next_read p) as [x q] eqn:Hn. intros H Hq.
  assert (q = p') as <- by (destruct x; congruence). split.
  - intros n Hle. destruct (read_at_next _ _ _ n Hn) as (_ & -> & _). apply Hq. lia.
  - intros ->. destruct (read_at_next _ _ _ 0 Hn) as (Hx & _). rewrite Hq in Hx by lia. subst x. congruence.
Qed.

Lemma quiet_weak N M p : quiet N p -> (N <= M)%nat -> quiet M p.
Proof. intros Hq Hle n Hn. apply Hq. lia. Qed.

Lemma quiet_send N p l : quiet N (KdpSendBuffer p l) <-> quiet N p.
Proof. done. Qed.

Lemma KdpReceiveBuffer_quiet n N p p' s l : KdpReceiveBuffer n p = (p', s, l) -> quiet N p -> quiet N p' /\ (length l <= n)%nat.
Proof.
  revert p p' s l. induction n as [|n IH]; intros p p' s l; cbn [KdpReceiveBuffer]; [by intros [= <- <- <-] |].
  destruct (KdpReceiveByte p) as [[p1 s1] b] eqn:Hb. intros H Hq.
  destruct (KdpReceiveByte_quiet N _ _ _ _ Hb Hq) as [Hq1%(quiet_weak _ N) _]; [| lia].
  destruct s1; try (injection H as <- <- <-; split; [done | cbn; lia]).
  destruct (KdpReceiveBuffer n p1) as [[p2 s2] l2] eqn:Hr. injection H as <- <- <-.
  destruct (IH _ _ _ _ Hr Hq1). split; [done | cbn; lia].
Qed.

(** With more fuel than reads to come before the silence, the search for a leader ends, and a leader takes reads. *)
Lemma leader_loop_quiet fuel : forall N p i buf, quiet N p -> (N < fuel)%nat ->
  exists p' s x, leader_loop fuel p i buf = Ret (p', s, x) /\ quiet N p' /\
    (s = KDP_PACKET_RECEIVED -> exists N', (N' < N)%nat /\ quiet N' p').
Proof.
  induction fuel as [|fuel IH]; intros N p i buf Hq Hf; [lia |]. cbn [leader_loop].
  destruct (KdpReceiveByte p) as [[p1 s1] b] eqn:Hb. destruct (KdpReceiveByte_quiet N _ _ _ _ Hb Hq) as [Hq1 Hz].
  assert (forall i buf, s1 <> KDP_PACKET_TIMEOUT -> exists p' s x, leader_loop fuel p1 i buf = Ret (p', s, x) /\ quiet N p' /\
    (s = KDP_PACKET_RECEIVED -> exists N', (N' < N)%nat /\ quiet N' p')) as Hrec.
  { intros i' buf' Hs. destruct N as [|N]; [by specialize (Hz eq_refl) |].
    destruct (IH N p1 i' buf') as (p' & s & x & -> & Hq' & Hr); [exact Hq1 | lia |]. exists p', s, x. split; [done |].
    split; [apply (quiet_weak N); auto |]. intros Hs'. destruct (Hr Hs') as (N' & ? & ?). exists N'. auto. }
  destruct s1.
  - destruct (_ || _).
    + destruct (_ <? _)%nat; [by apply Hrec |]. destruct N as [|N]; [by specialize (Hz eq_refl) |].
      eexists _, _, _. split; [reflexivity |]. split; [apply (quiet_weak N); auto | intros _; by exists N; auto].
    + by destruct (_ =? _); apply Hrec.
  - eexists _, _, _. split; [reflexivity |]. split; [apply (quiet_weak (pred N)); auto with lia | by destruct (_ =? _)].
  - by apply Hrec.
Qed.

(** The caller's buffers hold the largest packet. *)
Definition buffers_ok (MaximumLength : Z) (wants_data : bool) (m : message) : Prop :=
  0 <= MaximumLength <= Z.of_nat (length m.(h_Buffer)) /\
  (wants_data = true -> PACKET_MAX_SIZE - MaximumLength <= Z.of_nat (length m.(d_Buffer))).

(** A turn ends, and the next starts with at most [M] reads before the silence. *)
Definition turn_ok (M : nat) (MaximumLength : Z) (w : bool) (t : outcome turn) : Prop :=
  exists r, t = Ret r /\
    match r with Done _ _ _ _ => True | Again p _ m => quiet M p /\ buffers_ok MaximumLength w m end.

Lemma packet_end_quiet N T ML w p k m type id e c : quiet N p -> buffers_ok ML w m -> turn_ok N ML w (Ret (packet_end T p k m type id e c)).
Proof.
  intros Hq Hm. eexists. split; [reflexivity |]. unfold packet_end. destruct (KdpReceiveByte p) as [[p1 s] b] eqn:Hb.
  destruct (KdpReceiveByte_quiet N _ _ _ _ Hb Hq) as [Hq1%(quiet_weak _ N) _]; [| lia].
  destruct s; repeat (destruct (_ =? _); cbn [negb]); done.
Qed.

Lemma packet_data_quiet N T ML w p k m type id e c :
  quiet N p -> buffers_ok ML w m -> 0 <= m.(DataLength) <= PACKET_MAX_SIZE - ML ->
  turn_ok N ML w (packet_data T w p k m type id e c).
Proof.
  intros Hq Hm Hd. unfold packet_data. destruct w; [| by apply packet_end_quiet]. destruct (truthy _); [| by apply packet_end_quiet].
  cbn [with_data_length d_Length]. destruct Hm as [Hm1 Hm2]. specialize (Hm2 eq_refl).
  rewrite (wrap_small 16) by (unfold PACKET_MAX_SIZE in Hd; lia).
  destruct (KdpReceiveBuffer _ p) as [[p1 s] l] eqn:Hb. destruct (KdpReceiveBuffer_quiet _ N _ _ _ _ Hb Hq) as [Hq1 Hl].
  unfold with_data. cbn [with_data_length d_Buffer]. rewrite (proj2 (Nat.leb_le _ _)) by lia. cbn [mbind outcome_bind].
  assert (forall x y z, buffers_ok ML true {| h_Length := x; h_Buffer := m.(h_Buffer); d_Length := y; d_Buffer := list_inserts 0 l m.(d_Buffer); DataLength := z |}) as Hb'.
  { intros. split; [exact Hm1 |]. intros _. cbn. by rewrite length_inserts. }
  destruct s; [apply packet_end_quiet; [done | apply Hb'] | |]; (eexists; split; [reflexivity | split; [done | apply Hb']]).
Qed.

Lemma receive_turn_quiet fuel N T ML w p k m :
  quiet N p -> (N < fuel)%nat -> buffers_ok ML w m ->
  exists r, receive_turn T ML w fuel p k m = Ret r /\
    match r with Done _ _ _ _ => True | Again p _ m => exists N', (N' < N)%nat /\ quiet N' p /\ buffers_ok ML w m end.
Proof.
  intros Hq Hf Hm. unfold receive_turn, KdpReceivePacketLeader.
  destruct (leader_loop_quiet fuel N p 0 [0; 0; 0; 0] Hq Hf) as (p1 & s1 & x & -> & _ & Hr). cbn [mbind outcome_bind].
  destruct s1; [| by eexists..]. destruct (Hr eq_refl) as (N' & Hlt & Hq1).
  match goal with |- exists r, ?t = _ /\ _ => assert (turn_ok N' ML w t) as (r & -> & Hr') end;
    [| exists r; split; [done |]; destruct r; [done | by exists N']].
  assert (forall t, match t with Again _ _ _ => False | _ => True end -> turn_ok N' ML w (Ret t)) as Hdone.
  { intros t Ht. exists t. split; [done |]. by destruct t. }
  destruct (KdpReceiveBuffer 2 p1) as [[p2 s2] l2] eqn:H2. destruct (KdpReceiveBuffer_quiet _ N' _ _ _ _ H2 Hq1) as [Hq2 _].
  destruct s2; [| by apply Hdone..]. destruct (_ && _); [by apply Hdone |].
  destruct (KdpReceiveBuffer 2 p2) as [[p3 s3] l3] eqn:H3. destruct (KdpReceiveBuffer_quiet _ N' _ _ _ _ H3 Hq2) as [Hq3 _].
  destruct s3; [| by apply Hdone..].
  destruct (KdpReceiveBuffer 4 p3) as [[p4 s4] l4] eqn:H4. destruct (KdpReceiveBuffer_quiet _ N' _ _ _ _ H4 Hq3) as [Hq4 _].
  destruct s4; [| by apply Hdone..].
  destruct (KdpReceiveBuffer 4 p4) as [[p5 s5] l5] eqn:H5. destruct (KdpReceiveBuffer_quiet _ N' _ _ _ _ H5 Hq4) as [Hq5 _].
  destruct s5; [| by apply Hdone..].
  destruct (x =? CONTROL_PACKET_LEADER).
  { eexists. split; [reflexivity |]. unfold control_packet. repeat (destruct (_ =? _); cbn [andb]); done. }
  unfold data_packet. destruct (_ =? _); [by apply Hdone |]. cbn [with_h_Length h_Length].
  destruct (Z.ltb_spec (le_of l3) ML) as [_ | Hc1]; [by eexists; split; [reflexivity |] |].
  destruct (Z.ltb_spec PACKET_MAX_SIZE (le_of l3)) as [_ | Hc2]; [by eexists; split; [reflexivity |] |]. cbn [orb].
  destruct (KdpReceiveBuffer _ p5) as [[p6 s6] l6] eqn:H6. destruct (KdpReceiveBuffer_quiet _ N' _ _ _ _ H6 Hq5) as [Hq6 Hl6].
  unfold with_header. cbn [with_h_Length h_Buffer]. destruct Hm as [Hm1 Hm2]. rewrite (proj2 (Nat.leb_le _ _)) by lia. cbn [mbind outcome_bind].
  assert (forall x z, buffers_ok ML w {| h_Length := x; h_Buffer := list_inserts 0 l6 m.(h_Buffer); d_Length := m.(d_Length); d_Buffer := m.(d_Buffer); DataLength := z |}) as Hb'.
  { intros. split; [cbn; by rewrite length_inserts | exact Hm2]. }
  destruct s6; [| by (eexists; split; [reflexivity | split; [done | apply Hb']])..].
  apply packet_data_quiet; [done | apply Hb' |]. cbn. lia.
Qed.

(** C36: waiting for a packet ends when the line falls silent. Whatever the next [N] reads of the
    port give, if those after them time out and the caller's buffers hold the largest
    packet, [KdReceivePacket] returns, within [N + 1] turns of each of its loops. (A
    time-out inside a packet's data does not end the call: it asks for the packet again.) *)
Theorem KdReceivePacket_returns PacketType MaximumLength wants_data N fuel p k m :
  quiet N p -> (N < fuel)%nat -> buffers_ok MaximumLength wants_data m ->
  exists r, KdReceivePacket PacketType MaximumLength wants_data fuel p k m = Ret r.
Proof.
  intros Hq Hf Hm. unfold KdReceivePacket. destruct (_ =? _); [destruct (KdpPollBreakIn p); by eexists |].
  revert N p k m Hq Hf Hm. induction fuel as [|fuel IH]; intros N p k m Hq Hf Hm; [lia |]. cbn [receive_loop].
  destruct (receive_turn_quiet (S fuel) N PacketType MaximumLength wants_data p k m Hq Hf Hm) as (r & -> & Hr). cbn [mbind outcome_bind].
  destruct r as [p' k' m' s | p' k' m']; [by eexists |]. destruct Hr as (N' & Hlt & Hq' & Hm').
  apply (IH N'); [done | lia | done].
Qed.

Definition demo_message : message := {| h_Length := 0; h_Buffer := [0; 0; 0]; d_Length := 0; d_Buffer := replicate 3997 0; DataLength := 0 |}.

Lemma KdReceivePacket_returns_witness :
  let p := {| incoming := [RxByte 0x62; RxByte 0x30; RxError; RxByte 7]; later := fun _ => RxNone; outgoing := [] |} in
  (4 < 5)%nat /\ exists r, KdReceivePacket 2 3 true 5 p new_kdcom demo_message = Ret r.
Proof.
  split; [lia |]. apply (KdReceivePacket_returns 2 3 true 4 5); [| lia | split; [split; vm_compute; discriminate | intros _; vm_compute; discriminate]].
  intros n Hn. unfold read_at. cbn [incoming later]. by do 4 (destruct n as [|n]; [lia |]).
Defined.

(** Fact: nothing else ends the wait. On a line that never falls silent and never brings a byte of a
    leader, the search for a leader goes on for ever, and with it the call. *)
Theorem KdReceivePacket_babble PacketType MaximumLength wants_data fuel p k m :
  PacketType <> PACKET_TYPE_KD_POLL_BREAKIN ->
  (forall n, match read_at p n with
             | RxNone => False
             | RxError => True
             | RxByte b => b <> PACKET_LEADER_BYTE /\ b <> CONTROL_PACKET_LEADER_BYTE
             end) ->
  KdReceivePacket PacketType MaximumLength wants_data fuel p k m = Diverged.
Proof.
  intros HT Hb. unfold KdReceivePacket. apply Z.eqb_neq in HT. rewrite HT. destruct fuel as [|fuel]; [done |].
  cbn [receive_loop]. unfold receive_turn, KdpReceivePacketLeader.
  assert (forall fuel p i buf, (forall n, match read_at p n with
             | RxNone => False | RxError => True | RxByte b => b <> PACKET_LEADER_BYTE /\ b <> CONTROL_PACKET_LEADER_BYTE end) ->
           leader_loop fuel p i buf = Diverged) as ->; [| done | done].
  clear. induction fuel as [|fuel IH]; intros p i buf Hb; [done |]. cbn [leader_loop]. unfold KdpReceiveByte.
  destruct (next_read p) as [x q] eqn:Hn. pose proof (Hb 0%nat) as H0.
  rewrite (proj1 (read_at_next _ _ _ 0 Hn)) in H0.
  assert (forall i buf, leader_loop fuel q i buf = Diverged) as Hrec.
  { intros. apply IH. intros n. rewrite (proj1 (proj2 (read_at_next _ _ _ n Hn))). apply (Hb (S n)). }
  destruct x as [b | |]; [| done | apply Hrec]. destruct H0 as [H1%Z.eqb_neq H2%Z.eqb_neq]. rewrite H1, H2. cbn [orb].
  destruct (b =? BREAKIN_PACKET_BYTE); apply Hrec.
Qed.

Lemma KdReceivePacket_babble_witness :
  KdReceivePacket 2 3 true 1000 {| incoming := [RxError]; later := fun _ => RxByte 0x62; outgoing := [] |} new_kdcom demo_message = Diverged.
Proof.
  apply (KdReceivePacket_babble 2 3 true); [discriminate |]. intros n. unfold read_at. cbn [incoming later].
  destruct n as [|[|n]]; cbn; by repeat split.
Defined.

(** ** What is received *)

(** A data packet on the wire. *)
Definition packet_bytes (type id : Z) (header data : list Z) (checksum trailing : Z) : list Z :=
  KD_PACKET PACKET_LEADER type (Z.of_nat (length header + length data)) id checksum ++ header ++ data ++ [trailing].
Definition checksum_of (header data : list Z) : Z := u32 (KdpCalculateChecksum header + KdpCalculateChecksum data).

(** What may come before the packet, each behind other bytes: a packet with a wrong checksum or a
    wrong trailing byte, a packet header that gives a length that is too small or too large, a
    packet that is intact but has another identifier or another type, or a control packet that
    is no answer to anything. *)
Inductive noise :=
| Damaged (garbage : list Z) (type id : Z) (header data : list Z) (checksum trailing : Z)
| Missized (garbage : list Z) (type count id checksum : Z)
| Unexpected (garbage : list Z) (type id : Z) (header data : list Z)
| Control (garbage : list Z) (type id : Z).

Definition noise_bytes (n : noise) : list Z :=
  match n with
  | Damaged g type id h d c t => g ++ packet_bytes type id h d c t
  | Missized g type count id c => g ++ KD_PACKET PACKET_LEADER type count id c
  | Unexpected g type id h d => g ++ packet_bytes type id h d (checksum_of h d) PACKET_TRAILING_BYTE
  | Control g type id => g ++ KD_PACKET CONTROL_PACKET_LEADER type 0 id 0
  end.

(** What is sent in answer. *)
Definition reply (n : noise) : list Z :=
  match n with
  | Damaged _ _ _ _ _ _ _ | Missized _ _ _ _ _ => KD_PACKET CONTROL_PACKET_LEADER PACKET_TYPE_KD_RESEND 0 0 0
  | Unexpected _ _ id _ _ => KD_PACKET CONTROL_PACKET_LEADER PACKET_TYPE_KD_ACKNOWLEDGE 0 id 0
  | Control _ _ _ => []
  end.

(** Bytes that do not start a leader. *)
Definition garbage_ok (g : list Z) : Prop :=
  Forall (fun b => b <> PACKET_LEADER_BYTE /\ b <> CONTROL_PACKET_LEADER_BYTE) g.
Definition parts_ok (MaximumLength type id : Z) (h d : list Z) : Prop :=
  Z.of_nat (length h) = MaximumLength /\ Z.of_nat (length h + length d) <= PACKET_MAX_SIZE /\ 0 <= type < 2 ^ 16 /\ 0 <= id < 2 ^ 32.

Definition noise_ok (T MaximumLength remote : Z) (n : noise) : Prop :=
  match n with
  | Damaged g type id h d c t => garbage_ok g /\ parts_ok MaximumLength type id h d /\ 0 <= c < 2 ^ 32 /\
      (c <> checksum_of h d \/ t <> PACKET_TRAILING_BYTE)
  | Missized g type count id c => garbage_ok g /\ 0 <= type < 2 ^ 16 /\ 0 <= id < 2 ^ 32 /\ 0 <= c < 2 ^ 32 /\
      0 <= count < 2 ^ 16 /\ (count < MaximumLength \/ PACKET_MAX_SIZE < count)
  | Unexpected g type id h d => garbage_ok g /\ parts_ok MaximumLength type id h d /\ (id <> remote \/ type <> T)
  | Control g type id => garbage_ok g /\ 0 <= type < 2 ^ 16 /\ 0 <= id < 2 ^ 32 /\
      type <> PACKET_TYPE_KD_RESEND /\ type <> PACKET_TYPE_KD_RESET
  end.

(** The caller's strings after a packet. *)
Definition filled (m : message) (h d : list Z) : message :=
  {| h_Length := Z.of_nat (length h); h_Buffer := list_inserts 0 h m.(h_Buffer);
     d_Length := Z.of_nat (length d); d_Buffer := list_inserts 0 d m.(d_Buffer); DataLength := Z.of_nat (length d) |}.

Section delivery.
Context (f : nat -> rx).
Local Notation at_port l out := {| incoming := l; later := f; outgoing := out |}.

Lemma KdpReceiveBuffer_run l rest out :
  KdpReceiveBuffer (length l) (at_port ((RxByte <$> l) ++ rest) out) = (at_port rest out, KDP_PACKET_RECEIVED, l).
Proof. induction l as [|b l IH]; [done |]. cbn [length KdpReceiveBuffer fmap list_fmap app KdpReceiveByte next_read incoming later outgoing]. by rewrite IH. Qed.

Lemma receive_le n v rest out : 0 <= v < 256 ^ Z.of_nat n ->
  exists l, KdpReceiveBuffer n (at_port ((RxByte <$> le_to n v) ++ rest) out) = (at_port rest out, KDP_PACKET_RECEIVED, l) /\ le_of l = v.
Proof.
  intros Hv. exists (le_to n v). split; [| by apply le_of_to]. rewrite <- (le_to_length n v) at 1. apply KdpReceiveBuffer_run.
Qed.

Lemma leader_run g b rest out buf fuel :
  garbage_ok g -> (b = PACKET_LEADER_BYTE \/ b = CONTROL_PACKET_LEADER_BYTE) -> length buf = 4%nat ->
  (List.hd 0 buf = 0 \/ List.hd 0 buf = BREAKIN_PACKET_BYTE) -> (length g + 4 <= fuel)%nat ->
  leader_loop fuel (at_port ((RxByte <$> g ++ [b; b; b; b]) ++ rest) out) 0 buf =
    Ret (at_port rest out, KDP_PACKET_RECEIVED, le_of [b; b; b; b]).
Proof.
  intros Hg Hb. revert buf fuel. induction Hg as [|c g (Hc1 & Hc2) Hg IH]; intros buf fuel Hl Hh Hf.
  - destruct buf as [|x0 [|x1 [|x2 [|x3 [|]]]]]; try done. do 4 (destruct fuel as [|fuel]; [cbn in Hf; lia |]).
    cbn in Hh. by destruct Hh as [-> | ->], Hb as [-> | ->].
  - destruct fuel as [|fuel]; [lia |]. cbn [fmap list_fmap app leader_loop KdpReceiveByte next_read incoming later outgoing].
    apply Z.eqb_neq in Hc1, Hc2. rewrite Hc1, Hc2. cbn [orb length] in *.
    destruct (Z.eqb_spec c BREAKIN_PACKET_BYTE) as [-> |]; (apply IH; [by rewrite length_insert | destruct buf; auto | lia]).
Qed.

(** The leader and the fields behind it. *)
Lemma head_run g b rest out fuel :
  garbage_ok g -> (b = PACKET_LEADER_BYTE \/ b = CONTROL_PACKET_LEADER_BYTE) -> (length g + 4 <= fuel)%nat ->
  KdpReceivePacketLeader fuel (at_port ((RxByte <$> g ++ [b; b; b; b]) ++ rest) out) =
    Ret (at_port rest out, KDP_PACKET_RECEIVED, le_of [b; b; b; b]).
Proof. intros Hg Hb Hf. apply leader_run; auto. Qed.

(** What follows the leader of a data packet, up to its checksum. *)
Lemma turn_head T M fuel g type count id c rest out k m :
  garbage_ok g -> (length g + 4 <= fuel)%nat -> 0 <= type < 2 ^ 16 -> 0 <= count < 2 ^ 16 -> 0 <= id < 2 ^ 32 -> 0 <= c < 2 ^ 32 ->
  receive_turn T M true fuel (at_port ((RxByte <$> g ++ KD_PACKET PACKET_LEADER type count id c) ++ rest) out) k m =
    data_packet T M true (at_port rest out) k m type count id c.
Proof.
  intros Hg Hf Htype Hcount Hid Hc. unfold KD_PACKET.
  change (le_to 4 PACKET_LEADER) with [PACKET_LEADER_BYTE; PACKET_LEADER_BYTE; PACKET_LEADER_BYTE; PACKET_LEADER_BYTE].
  rewrite app_assoc, fmap_app, <- app_assoc. unfold receive_turn. rewrite head_run by (done || by left). cbn [mbind outcome_bind].
  rewrite fmap_app, <- app_assoc. destruct (receive_le 2 type ((RxByte <$> le_to 2 count ++ le_to 4 id ++ le_to 4 c) ++ rest) out) as (l1 & -> & ->); [exact Htype |].
  change (le_of _ =? CONTROL_PACKET_LEADER) with false. cbn [andb].
  rewrite fmap_app, <- app_assoc. destruct (receive_le 2 count ((RxByte <$> le_to 4 id ++ le_to 4 c) ++ rest) out) as (l2 & -> & ->); [exact Hcount |].
  rewrite fmap_app, <- app_assoc. destruct (receive_le 4 id ((RxByte <$> le_to 4 c) ++ rest) out) as (l3 & -> & ->); [exact Hid |].
  destruct (receive_le 4 c rest out) as (l4 & -> & ->); [exact Hc |]. done.
Qed.

Lemma checksum_nil h : KdpCalculateChecksum h = checksum_of h [].
Proof.
  unfold checksum_of. cbn. rewrite Z.add_0_r. symmetry. apply wrap_small. unfold KdpCalculateChecksum.
  assert (forall x, 0 <= x < 2 ^ 32 -> 0 <= foldl (fun a b : Z => u32 (a + b)) x h < 2 ^ 32) as Hr; [| apply Hr; lia].
  induction h as [|b h IH]; intros x Hx; cbn [foldl]; [done |]. apply IH, wrap_range. lia.
Qed.

Lemma turn_data T M fuel out rest k m g type id h d c t :
  garbage_ok g -> (length g + 4 <= fuel)%nat -> parts_ok M type id h d -> 0 <= c < 2 ^ 32 -> T <> PACKET_TYPE_KD_ACKNOWLEDGE ->
  buffers_ok M true m ->
  receive_turn T M true fuel (at_port ((RxByte <$> g ++ packet_bytes type id h d c t) ++ rest) out) k m =
    let p := at_port rest out in
    Ret (if negb (t =? PACKET_TRAILING_BYTE) || negb (c =? checksum_of h d) then Again (KdpSendControlPacket PACKET_TYPE_KD_RESEND 0 p) k (filled m h d)
    else
      let p := KdpSendControlPacket PACKET_TYPE_KD_ACKNOWLEDGE id p in
      if negb (id =? k.(RemotePacketId)) then Again p k (filled m h d)
      else if T =? type then Done p (flip_remote k) (filled m h d) KDP_PACKET_RECEIVED
      else Again p k (filled m h d)).
Proof.
  intros Hg Hf (Hh & Hmax & Htype & Hid) Hc HT [Hm1 Hm2]. specialize (Hm2 eq_refl). unfold packet_bytes.
  rewrite (assoc_L app g), fmap_app, <- app_assoc. unfold PACKET_MAX_SIZE in *. rewrite turn_head by (done || lia).
  unfold data_packet. apply Z.eqb_neq in HT. rewrite HT. cbn [with_h_Length h_Length].
  destruct (Z.ltb_spec (Z.of_nat (length h + length d)) M); [lia |].
  destruct (Z.ltb_spec PACKET_MAX_SIZE (Z.of_nat (length h + length d))); [unfold PACKET_MAX_SIZE in *; lia |]. cbn [orb].
  rewrite <- Hh, Nat2Z.id, fmap_app, <- app_assoc, KdpReceiveBuffer_run.
  unfold with_header. cbn [with_h_Length h_Buffer]. rewrite (proj2 (Nat.leb_le _ _)) by lia. cbn [mbind outcome_bind].
  unfold packet_data. cbn [with_DataLength with_data_length with_h_Length DataLength d_Length h_Length h_Buffer d_Buffer].
  replace (Z.of_nat (length h + length d) - Z.of_nat (length h)) with (Z.of_nat (length d)) by lia.
  rewrite (wrap_small 16) by lia. rewrite fmap_app, <- app_assoc.
  assert (forall x, u32 (KdpCalculateChecksum h + KdpCalculateChecksum x) = checksum_of h x) as Hsum by done.
  assert (truthy (Z.of_nat (length d)) = match d with [] => false | _ => true end) as -> by (by destruct d).
  destruct d as [|b d].
  - rewrite checksum_nil. cbn [length Z.of_nat fmap list_fmap app]. unfold packet_end. cbn [KdpReceiveByte next_read incoming later outgoing fmap list_fmap app].
    by destruct (t =? _); cbn [negb orb]; [destruct (c =? _); cbn [negb orb] |].
  - rewrite Nat2Z.id, KdpReceiveBuffer_run, Hsum. unfold with_data. cbn [with_data_length with_DataLength d_Buffer]. rewrite (proj2 (Nat.leb_le _ _)) by lia. cbn [mbind outcome_bind].
    unfold packet_end. cbn [KdpReceiveByte next_read incoming later outgoing fmap list_fmap app].
    by destruct (t =? _); cbn [negb orb]; [destruct (c =? _); cbn [negb orb] |].
Qed.

Lemma turn_missized T M fuel out rest k m g type count id c :
  garbage_ok g -> (length g + 4 <= fuel)%nat -> 0 <= type < 2 ^ 16 -> 0 <= count < 2 ^ 16 -> 0 <= id < 2 ^ 32 -> 0 <= c < 2 ^ 32 ->
  T <> PACKET_TYPE_KD_ACKNOWLEDGE -> count < M \/ PACKET_MAX_SIZE < count ->
  receive_turn T M true fuel (at_port ((RxByte <$> g ++ KD_PACKET PACKET_LEADER type count id c) ++ rest) out) k m =
    Ret (Again (KdpSendControlPacket PACKET_TYPE_KD_RESEND 0 (at_port rest out)) k (with_h_Length m count)).
Proof.
  intros Hg Hf Ht Hn Hid Hc HT Hsize. rewrite turn_head by done. unfold data_packet. apply Z.eqb_neq in HT. rewrite HT. cbn [with_h_Length h_Length].
  replace ((count <? M) || (PACKET_MAX_SIZE <? count)) with true; [done |]. symmetry. apply orb_true_iff. rewrite !Z.ltb_lt. done.
Qed.

Lemma turn_control T M w fuel out rest k m g type id :
  garbage_ok g -> (length g + 4 <= fuel)%nat -> 0 <= type < 2 ^ 16 -> 0 <= id < 2 ^ 32 -> T <> PACKET_TYPE_KD_ACKNOWLEDGE ->
  type <> PACKET_TYPE_KD_RESEND -> type <> PACKET_TYPE_KD_RESET ->
  receive_turn T M w fuel (at_port ((RxByte <$> g ++ KD_PACKET CONTROL_PACKET_LEADER type 0 id 0) ++ rest) out) k m =
    Ret (Again (at_port rest out) k m).
Proof.
  intros Hg Hf Htype Hid HT H5 H6. unfold KD_PACKET.
  change (le_to 4 CONTROL_PACKET_LEADER) with [CONTROL_PACKET_LEADER_BYTE; CONTROL_PACKET_LEADER_BYTE; CONTROL_PACKET_LEADER_BYTE; CONTROL_PACKET_LEADER_BYTE].
  rewrite app_assoc, fmap_app, <- app_assoc. unfold receive_turn. rewrite head_run by (done || by right). cbn [mbind outcome_bind].
  change (le_of _ =? CONTROL_PACKET_LEADER) with true. cbn [andb].
  rewrite fmap_app, <- app_assoc. destruct (receive_le 2 type ((RxByte <$> le_to 2 0 ++ le_to 4 id ++ le_to 4 0) ++ rest) out) as (l1 & -> & ->); [exact Htype |].
  apply Z.eqb_neq in H5, H6, HT. rewrite H5.
  rewrite fmap_app, <- app_assoc. destruct (receive_le 2 0 ((RxByte <$> le_to 4 id ++ le_to 4 0) ++ rest) out) as (l2 & -> & _); [cbn; lia |].
  rewrite fmap_app, <- app_assoc. destruct (receive_le 4 id ((RxByte <$> le_to 4 0) ++ rest) out) as (l3 & -> & ->); [exact Hid |].
  destruct (receive_le 4 0 rest out) as (l4 & -> & _); [cbn; lia |].
  unfold control_packet. rewrite HT, H6, H5. cbn [andb]. by destruct (type =? PACKET_TYPE_KD_ACKNOWLEDGE).
Qed.

Lemma KD_PACKET_length a b c d e : length (KD_PACKET a b c d e) = 16%nat.
Proof. unfold KD_PACKET. by rewrite !length_app, !le_to_length. Qed.

Lemma buffers_filled M m h d : buffers_ok M true m -> buffers_ok M true (filled m h d).
Proof. intros [H1 H2]. split; cbn; [by rewrite length_inserts |]. by rewrite length_inserts. Qed.

(** One turn per packet before the one that is waited for. *)
Lemma turn_noise T M n fuel out rest k m :
  T <> PACKET_TYPE_KD_ACKNOWLEDGE -> noise_ok T M k.(RemotePacketId) n -> buffers_ok M true m -> (length (noise_bytes n) <= fuel)%nat ->
  exists m', receive_turn T M true fuel (at_port ((RxByte <$> noise_bytes n) ++ rest) out) k m =
    Ret (Again (at_port rest (out ++ reply n)) k m') /\ buffers_ok M true m' /\
    length m'.(h_Buffer) = length m.(h_Buffer) /\ length m'.(d_Buffer) = length m.(d_Buffer).
Proof.
  intros HT Hn Hm Hf. destruct n as [g type id h d c t | g type count id c | g type id h d | g type id]; cbn [noise_ok noise_bytes reply] in *;
    rewrite ?length_app in Hf; unfold packet_bytes in Hf; rewrite ?length_app, KD_PACKET_length in Hf.
  - destruct Hn as (Hg & Hp & Hc & Hne). rewrite turn_data by (done || lia).
    replace (negb (t =? PACKET_TRAILING_BYTE) || negb (c =? checksum_of h d)) with true
      by (symmetry; apply orb_true_iff; rewrite !negb_true_iff, !Z.eqb_neq; tauto).
    eexists. split; [done |]. split; [by apply buffers_filled |]. cbn. by rewrite !length_inserts.
  - destruct Hn as (Hg & Ht & Hid & Hc & Hcount & Hsize). rewrite turn_missized by (done || lia).
    eexists. split; [done |]. by split.
  - destruct Hn as (Hg & Hp & Hne). rewrite turn_data by (done || lia || apply wrap_range; lia).
    rewrite !Z.eqb_refl. cbn [negb orb]. exists (filled m h d). split; [| split; [by apply buffers_filled | cbn; by rewrite !length_inserts]].
    destruct (Z.eqb_spec id k.(RemotePacketId)), (Z.eqb_spec T type); try done. destruct Hne; congruence.
  - destruct Hn as (Hg & Ht & Hid & H5 & H6). rewrite turn_control by (done || lia). rewrite app_nil_r. by exists m.
Qed.

Lemma noise_turns T M ns out rest k m fuel :
  T <> PACKET_TYPE_KD_ACKNOWLEDGE -> Forall (noise_ok T M k.(RemotePacketId)) ns -> buffers_ok M true m ->
  exists m', receive_loop T M true (length (flat_map noise_bytes ns) + fuel) (at_port ((RxByte <$> flat_map noise_bytes ns) ++ rest) out) k m =
    receive_loop T M true (length (flat_map noise_bytes ns) - length ns + fuel) (at_port rest (out ++ flat_map reply ns)) k m' /\
    (length ns <= length (flat_map noise_bytes ns))%nat /\ buffers_ok M true m' /\
    length m'.(h_Buffer) = length m.(h_Buffer) /\ length m'.(d_Buffer) = length m.(d_Buffer).
Proof.
  intros HT. revert out m fuel. induction ns as [|n ns IH]; intros out m fuel Hns Hm; cbn [flat_map length].
  { exists m. by rewrite app_nil_r. }
  apply Forall_cons in Hns as [Hn Hns]. rewrite fmap_app, <- app_assoc, length_app.
  assert (exists j, length (noise_bytes n) = S j) as [j Hj].
  { assert (1 <= length (noise_bytes n))%nat by (destruct n; cbn [noise_bytes]; unfold packet_bytes; rewrite !length_app, ?KD_PACKET_length; lia).
    exists (pred (length (noise_bytes n))). lia. }
  destruct (turn_noise T M n (length (noise_bytes n) + length (flat_map noise_bytes ns) + fuel) out ((RxByte <$> flat_map noise_bytes ns) ++ rest) k m)
    as (m1 & Ht & Hm1 & Hl1 & Hl2); [done | done | done | lia |].
  rewrite Hj in *. cbn [Nat.add receive_loop]. cbn [Nat.add] in Ht. rewrite Ht. cbn [mbind outcome_bind].
  destruct (IH (out ++ reply n) m1 (j + fuel)%nat Hns Hm1) as (m2 & Hr & Hle & Hm2 & Hl3 & Hl4).
  exists m2. replace (j + length (flat_map noise_bytes ns) + fuel)%nat with (length (flat_map noise_bytes ns) + (j + fuel))%nat by lia.
  rewrite Hr, <- app_assoc. split; [f_equal; lia |]. split; [lia |]. split; [done | lia].
Qed.
End delivery.

Lemma inserts_front (l buf : list Z) : (length l <= length buf)%nat -> take (length l) (list_inserts 0 l buf) = l.
Proof.
  intros Hl. apply list_eq. intros i. destruct (decide (i < length l)%nat).
  - rewrite lookup_take_lt, list_lookup_inserts by lia. by rewrite Nat.sub_0_r.
  - rewrite (proj2 (lookup_ge_None l i)) by lia. apply lookup_ge_None. rewrite length_take. lia.
Qed.

(** C20: a packet gets through what comes before it. Before a packet of the expected type and
    identifier there may be, in any number and order and each behind any bytes that are not leader
    bytes: packets with a wrong checksum or trailing byte, packet headers with a length that is too
    small or too large, intact packets of another type or with another identifier, and control
    packets other than a request to send again or to reset (these two end the call). If the line
    has no errors or pauses up to the end of the packet, and the caller's buffers hold the largest packet,
    the packet is delivered: its header and its data are in the caller's strings, it is
    acknowledged and the next identifier is expected; each damaged packet was
    answered with a request to send it again and each unexpected one with an acknowledgement, and
    what follows the packet is left to be read. *)
Theorem KdReceivePacket_delivers T M k m ns g h d rest f out fuel :
  T <> PACKET_TYPE_KD_ACKNOWLEDGE -> T <> PACKET_TYPE_KD_POLL_BREAKIN ->
  Forall (noise_ok T M k.(RemotePacketId)) ns -> garbage_ok g -> parts_ok M T k.(RemotePacketId) h d ->
  buffers_ok M true m -> (length (flat_map noise_bytes ns) + length g + 4 <= fuel)%nat ->
  exists m', KdReceivePacket T M true fuel
      {| incoming := (RxByte <$> flat_map noise_bytes ns ++ g ++ packet_bytes T k.(RemotePacketId) h d (checksum_of h d) PACKET_TRAILING_BYTE) ++ rest;
         later := f; outgoing := out |} k m =
    Ret ({| incoming := rest; later := f; outgoing := out ++ flat_map reply ns ++
              KD_PACKET CONTROL_PACKET_LEADER PACKET_TYPE_KD_ACKNOWLEDGE 0 k.(RemotePacketId) 0 |},
         flip_remote k, m', KDP_PACKET_RECEIVED) /\
    m'.(h_Length) = M /\ take (length h) m'.(h_Buffer) = h /\
    m'.(DataLength) = Z.of_nat (length d) /\ take (length d) m'.(d_Buffer) = d.
Proof.
  intros HT HT8 Hns Hg Hp Hm Hf. unfold KdReceivePacket. apply Z.eqb_neq in HT8. rewrite HT8.
  rewrite fmap_app, <- app_assoc. set (tail := (RxByte <$> g ++ _) ++ rest).
  replace fuel with (length (flat_map noise_bytes ns) + S (fuel - length (flat_map noise_bytes ns) - 1))%nat by lia.
  destruct (noise_turns f T M ns out tail k m (S (fuel - length (flat_map noise_bytes ns) - 1)) HT Hns Hm) as (m1 & -> & Hle & Hm1 & Hl1 & Hl2).
  rewrite Nat.add_succ_r. cbn [receive_loop]. unfold tail. rewrite turn_data by (done || lia || apply wrap_range; lia).
  rewrite !Z.eqb_refl. cbn [negb orb mbind outcome_bind]. exists (filled m1 h d). split.
  - unfold KdpSendControlPacket, KdpSendBuffer. cbn [incoming later outgoing]. by rewrite <- app_assoc.
  - cbn [filled h_Length h_Buffer DataLength d_Buffer]. destruct Hp as (Hh & Hmax & _), Hm1 as [H1 H2]. specialize (H2 eq_refl).
    split; [done |]. split; [apply inserts_front; lia |]. split; [done | apply inserts_front; lia].
Qed.

Lemma KdReceivePacket_delivers_witness :
  let ns := [Damaged [7] 2 INITIAL_PACKET_ID [1; 2; 3] [] 99 0xAA; Missized [0x62] 2 1 0 0; Unexpected [] 2 (INITIAL_PACKET_ID + 1) [9; 9; 9] [8]] in
  exists p m, KdReceivePacket 2 3 true 80 {| incoming := (RxByte <$> flat_map noise_bytes ns ++
            [] ++ packet_bytes 2 (RemotePacketId new_kdcom) [4; 5; 6] [250; 251] (checksum_of [4; 5; 6] [250; 251]) PACKET_TRAILING_BYTE) ++ [RxNone];
         later := fun _ => RxError; outgoing := [] |} new_kdcom demo_message = Ret (p, flip_remote new_kdcom, m, KDP_PACKET_RECEIVED) /\
    take 3 m.(h_Buffer) = [4; 5; 6] /\ take 2 m.(d_Buffer) = [250; 251].
Proof.
  intros ns. destruct (KdReceivePacket_delivers 2 3 new_kdcom demo_message ns [] [4; 5; 6] [250; 251] [RxNone] (fun _ => RxError) [] 80)
    as (m' & Hr & _ & Hh & _ & Hd).
  - discriminate.
  - discriminate.
  - repeat constructor; try (vm_compute; congruence); left; vm_compute; congruence.
  - constructor.
  - repeat split; vm_compute; congruence.
  - split; [split; vm_compute; discriminate | intros _; vm_compute; discriminate].
  - vm_compute. lia.
  - eexists _, m'. split; [exact Hr |]. split; [exact Hh | exact Hd].
Defined.
