(* ===== verification/HvRing.v ===== *)
(** The ring buffers of a Hyper-V channel (kernel/drivers/HyperV/HyperVRingBuffer.cpp,
    the packets of HyperVChannel.cpp and the receiving loop of
    HyperVMouseDriver.cpp; structures of kernel/hal/devices/hv/HyperV_def.h).

    The data pages are mapped twice in a row, so an offset below twice their size
    is an access; one beyond is a [Fault].  Whether the other side is signalled is
    a result; signalling itself, and what a driver does with a message, are not
    modelled. *)
From Stdlib Require Import ZArith Lia.
From S2P Require Import Prelude CMemory OSSystem.

Definition VMBUS_PKT_TRAILER : Z := 8.
Definition VM_PKT_DATA_INBAND : Z := 0x6.
Definition VM_PKT_COMP : Z := 0xb.

(** The header's fields, the data pages, and the fields of the object. *)
Record ring := {
  write_index : Z; read_index : Z; interrupt_mask : Z; pending_send_sz : Z; feature_bits : Z;
  rdata : list Z; m_dataSize : Z; m_iterator : Z
}.

(** The constructor on [count] pages, the first of them the header. *)
Definition new_ring (count : Z) : ring :=
  {| write_index := 0; read_index := 0; interrupt_mask := 0; pending_send_sz := 0; feature_bits := 1;
     rdata := replicate (Z.to_nat (u32 (Z.shiftl (count - 1) PageShift))) 0;
     m_dataSize := u32 (Z.shiftl (count - 1) PageShift); m_iterator := 0 |}.

Definition with_rdata (r : ring) (l : list Z) : ring :=
  {| write_index := r.(write_index); read_index := r.(read_index); interrupt_mask := r.(interrupt_mask);
     pending_send_sz := r.(pending_send_sz); feature_bits := r.(feature_bits); rdata := l; m_dataSize := r.(m_dataSize); m_iterator := r.(m_iterator) |}.
Definition with_write_index (r : ring) (i : Z) : ring :=
  {| write_index := i; read_index := r.(read_index); interrupt_mask := r.(interrupt_mask);
     pending_send_sz := r.(pending_send_sz); feature_bits := r.(feature_bits); rdata := r.(rdata); m_dataSize := r.(m_dataSize); m_iterator := r.(m_iterator) |}.

(** ** The double mapping *)

(** The byte of the data pages an offset is mapped to. *)
Definition place (r : ring) (off : Z) : option nat :=
  if (0 <=? off) && (off <? 2 * r.(m_dataSize)) then Some (Z.to_nat (off mod r.(m_dataSize))) else None.

Fixpoint put_bytes (r : ring) (off : Z) (l : list Z) : outcome ring :=
  match l with
  | [] => Ret r
  | b :: l =>
      match place r off with
      | Some i => put_bytes (with_rdata r (<[i := b]> r.(rdata))) (off + 1) l
      | None => Fault
      end
  end.

Fixpoint get_bytes (r : ring) (off : Z) (n : nat) : outcome (list Z) :=
  match n with
  | O => Ret []
  | S n =>
      match place r off ≫= fun i => r.(rdata) !! i with
      | Some b => l ← get_bytes r (off + 1) n; Ret (b :: l)
      | None => Fault
      end
  end.

(** ** Writing *)

Definition Copy (r : ring) (location : Z) (buffer : list Z) : outcome (ring * Z) :=
  r ← put_bytes r location buffer;
  Ret (r, u32 (location + Z.of_nat (length buffer)) mod r.(m_dataSize)).

Fixpoint Copy_all (r : ring) (index : Z) (buffers : list (list Z)) : outcome (ring * Z) :=
  match buffers with
  | [] => Ret (r, index)
  | b :: bs => c ← Copy r index b; Copy_all c.1 c.2 bs
  end.

(** The ring and whether the device is signalled. *)
Definition Write (r : ring) (buffers : list (list Z)) : outcome (ring * bool) :=
  let startIndex := r.(write_index) in
  c ← Copy_all r startIndex buffers;
  let indexes := u64 (Z.shiftl c.1.(write_index) 32 + c.1.(read_index)) in
  c ← Copy c.1 c.2 (le_to 8 indexes);
  let r := with_write_index c.1 c.2 in
  Ret (r, if truthy r.(interrupt_mask) then false else startIndex =? r.(read_index)).

(** ** Reading *)

(** The pointer is the offset of the next byte, or null. *)
Definition Read (r : ring) : option Z := if r.(m_iterator) =? r.(write_index) then None else Some r.(m_iterator).

Definition Increment (r : ring) (length : Z) : ring :=
  {| write_index := r.(write_index); read_index := r.(read_index); interrupt_mask := r.(interrupt_mask);
     pending_send_sz := r.(pending_send_sz); feature_bits := r.(feature_bits); rdata := r.(rdata); m_dataSize := r.(m_dataSize);
     m_iterator := u32 (r.(m_iterator) + length) mod r.(m_dataSize) |}.

Definition CommitRead (r : ring) : ring * bool :=
  ({| write_index := r.(write_index); read_index := r.(m_iterator); interrupt_mask := r.(interrupt_mask);
      pending_send_sz := r.(pending_send_sz); feature_bits := r.(feature_bits); rdata := r.(rdata); m_dataSize := r.(m_dataSize);
      m_iterator := r.(m_iterator) |}, truthy r.(pending_send_sz)).

(** ** Packets *)

Record vmpacket_descriptor := { pk_type : Z; offset8 : Z; len8 : Z; pk_flags : Z; trans_id : Z }.
Definition descriptor_bytes (d : vmpacket_descriptor) : list Z :=
  le_to 2 d.(pk_type) ++ le_to 2 d.(offset8) ++ le_to 2 d.(len8) ++ le_to 2 d.(pk_flags) ++ le_to 8 d.(trans_id).

Definition AlignSize (x a : Z) : Z := Z.land (x + (a - 1)) (u64 (Z.lnot (a - 1))).

(** The three buffers of a packet. *)
Definition packet_descriptor (length requestId type flags : Z) : vmpacket_descriptor :=
  let packetlen_aligned := u32 (AlignSize (u32 (16 + u32 length)) 8) in
  {| pk_type := type; offset8 := Z.shiftr 16 3; len8 := u16 (Z.shiftr packetlen_aligned 3); pk_flags := flags; trans_id := requestId |}.
Definition packet_pad (length : Z) : nat :=
  Z.to_nat (u32 (u32 (AlignSize (u32 (16 + u32 length)) 8) - u32 (16 + u32 length))).

Definition SendPacket (r : ring) (buffer : list Z) (requestId type flags : Z) : outcome (ring * bool) :=
  let len := Z.of_nat (length buffer) in
  let buffers := [descriptor_bytes (packet_descriptor len requestId type flags); buffer; take (packet_pad len) (replicate 8 0)] in
  Write r (if len =? 0 then take 1 buffers else buffers).

Definition ReadPacket : ring -> option Z := Read.
Definition NextPacket (r : ring) (length : Z) : ring := Increment r (u32 (length + VMBUS_PKT_TRAILER)).
Definition StopRead : ring -> ring * bool := CommitRead.

Definition sizeof_pipe_prt_msg : Z := 12.

(** The packets a driver's callback takes: the messages, in order. *)
Fixpoint OnCallback_loop (fuel : nat) (r : ring) : outcome (ring * list (list Z)) :=
  match fuel with
  | O => Diverged
  | S fuel =>
      match ReadPacket r with
      | None => Ret (r, [])
      | Some packet =>
          type ← get_bytes r packet 2;
          off8 ← get_bytes r (packet + 2) 2;
          n8 ← get_bytes r (packet + 4) 2;
          let off := Z.shiftl (le_of off8) 3 in
          let len := Z.shiftl (le_of n8) 3 in
          if le_of type =? VM_PKT_COMP then OnCallback_loop fuel (NextPacket r len)
          else if le_of type =? VM_PKT_DATA_INBAND then
            let size := u32 (len - off) in
            if size <? sizeof_pipe_prt_msg then Bugcheck else
            msg ← get_bytes r (packet + off) (Z.to_nat size);
            t ← OnCallback_loop fuel (NextPacket r len);
            Ret (t.1, msg :: t.2)
          else Bugcheck
      end
  end.
Definition OnCallback (fuel : nat) (r : ring) : outcome (ring * bool * list (list Z)) :=
  t ← OnCallback_loop fuel r; Ret (StopRead t.1, t.2).

(** ** The bytes in a ring *)

Record ring_ok (r : ring) : Prop := {
  ro_size : 0 < r.(m_dataSize) < 2 ^ 31;
  ro_data : Z.of_nat (length r.(rdata)) = r.(m_dataSize)
}.

(** The bytes [l] are in the ring from offset [off] on, around its end. *)
Definition stored (r : ring) (off : Z) (l : list Z) : Prop :=
  forall k c, l !! k = Some c -> r.(rdata) !! Z.to_nat ((off + Z.of_nat k) mod r.(m_dataSize)) = Some c.

(** The bytes [q] are in the ring from [from] on, up to [to]. *)
Record holds (r : ring) (from : Z) (q : list Z) (to : Z) : Prop := {
  ho_from : 0 <= from < r.(m_dataSize);
  ho_stored : stored r from q;
  ho_to : to = (from + Z.of_nat (length q)) mod r.(m_dataSize);
  ho_room : Z.of_nat (length q) < r.(m_dataSize)
}.

Lemma mod_distinct a b s : 0 < s -> a < b < a + s -> a mod s <> b mod s.
Proof.
  intros Hs Hab He. pose proof (Zminus_mod b a s) as Hm. rewrite He, Z.sub_diag, Z.mod_0_l, Z.mod_small in Hm by lia. lia.
Qed.

Lemma place_run r off : 0 <= off < 2 * r.(m_dataSize) -> place r off = Some (Z.to_nat (off mod r.(m_dataSize))).
Proof. intros H. unfold place. destruct (Z.leb_spec 0 off), (Z.ltb_spec off (2 * m_dataSize r)); done || lia. Qed.

Lemma stored_app r off l1 l2 : stored r off (l1 ++ l2) <-> stored r off l1 /\ stored r (off + Z.of_nat (length l1)) l2.
Proof.
  unfold stored. split.
  - intros H. split; intros k c Hk; [apply H; by apply lookup_app_l_Some |].
    rewrite <- (H (length l1 + k)%nat c); [do 3 f_equal; lia |]. rewrite lookup_app_r by lia. rewrite <- Hk. f_equal. lia.
  - intros [H1 H2] k c [Hk | [Hl Hk]]%lookup_app_Some; [by apply H1 |]. rewrite <- (H2 _ _ Hk). do 3 f_equal. lia.
Qed.

Lemma stored_mod r off l : 0 < r.(m_dataSize) -> stored r (off mod r.(m_dataSize)) l <-> stored r off l.
Proof. intros Hs. unfold stored. split; intros H k c Hk; specialize (H k c Hk); rewrite Zplus_mod_idemp_l in *; done. Qed.

Lemma get_bytes_run r off l :
  0 <= off -> off + Z.of_nat (length l) <= 2 * r.(m_dataSize) -> stored r off l -> get_bytes r off (length l) = Ret l.
Proof.
  revert off. induction l as [|b l IH]; intros off H0 Hmax Hl; [done |]. cbn [length get_bytes] in *.
  pose proof (Hl 0%nat b eq_refl) as Hb. rewrite Z.add_0_r in Hb. rewrite place_run by lia. cbn [mbind option_bind]. rewrite Hb.
  rewrite IH; [done | lia | lia |]. apply (stored_app r off [b] l) in Hl as [_ Hl]. exact Hl.
Qed.

(** Writing [l] at [off] changes these places only. *)
Lemma put_bytes_run r off l :
  ring_ok r -> 0 <= off -> off + Z.of_nat (length l) <= 2 * r.(m_dataSize) -> Z.of_nat (length l) <= r.(m_dataSize) ->
  exists d, put_bytes r off l = Ret (with_rdata r d) /\ length d = length r.(rdata) /\ stored (with_rdata r d) off l /\
    forall j, (forall k, (k < length l)%nat -> j <> Z.to_nat ((off + Z.of_nat k) mod r.(m_dataSize))) -> d !! j = r.(rdata) !! j.
Proof.
  revert r off. induction l as [|b l IH]; intros r off Hr H0 Hmax Hl; cbn [length put_bytes] in *.
  { exists r.(rdata). split; [by destruct r |]. by split. }
  destruct Hr as [Hs Hd]. rewrite place_run by lia. set (i := Z.to_nat (off mod m_dataSize r)).
  pose proof (Z.mod_pos_bound off (m_dataSize r) ltac:(lia)) as Hi.
  destruct (IH (with_rdata r (<[i := b]> r.(rdata))) (off + 1)) as (d & -> & Hlen & Hst & Hout).
  - split; [done |]. cbn. by rewrite length_insert.
  - lia.
  - cbn. lia.
  - cbn. lia.
  - cbn [with_rdata rdata m_dataSize] in *. rewrite length_insert in Hlen. exists d. split; [done |]. split; [done |].
    assert (d !! i = Some b) as Hb.
    { rewrite Hout; [rewrite list_lookup_insert_eq; [done | unfold i; lia] |]. intros k Hk Heq. unfold i in Heq.
      apply (mod_distinct off (off + 1 + Z.of_nat k) (m_dataSize r)); [lia | lia |].
      pose proof (Z.mod_pos_bound (off + 1 + Z.of_nat k) (m_dataSize r)). lia. }
    split.
    + apply (stored_app (with_rdata r d) off [b] l). split; [| exact Hst].
      intros [|k] c Hk; [| done]. injection Hk as <-. cbn. by rewrite Z.add_0_r.
    + intros j Hj. rewrite Hout.
      * apply list_lookup_insert_ne. intros <-. apply (Hj 0%nat); [lia |]. unfold i. by rewrite Z.add_0_r.
      * intros k Hk. replace (off + 1 + Z.of_nat k) with (off + Z.of_nat (S k)) by lia. apply Hj. lia.
Qed.

Lemma Copy_run r from q to l :
  ring_ok r -> holds r from q to -> Z.of_nat (length q + length l) < r.(m_dataSize) ->
  exists d to', Copy r to l = Ret (with_rdata r d, to') /\ ring_ok (with_rdata r d) /\ holds (with_rdata r d) from (q ++ l) to'.
Proof.
  intros Hr [Hf Hst Hto Hroom] Hl. pose proof (Z.mod_pos_bound (from + Z.of_nat (length q)) (m_dataSize r) ltac:(lia)) as Hb. rewrite <- Hto in Hb.
  destruct (put_bytes_run r to l Hr) as (d & Hp & Hlen & Hst' & Hout); [lia | lia | lia |].
  destruct Hr as [Hs Hd]. unfold Copy. rewrite Hp. cbn [mbind outcome_bind]. rewrite wrap_small by lia.
  exists d, ((to + Z.of_nat (length l)) mod m_dataSize r). split; [done |]. split; [split; [done | cbn; lia] |].
  split; cbn [with_rdata m_dataSize]; [done | | | rewrite length_app; lia].
  - apply stored_app. split.
    + intros k c Hk. cbn [with_rdata rdata m_dataSize]. rewrite Hout; [by apply Hst |]. intros k' Hk' Heq.
      apply lookup_lt_Some in Hk. rewrite Hto, Zplus_mod_idemp_l in Heq.
      apply (mod_distinct (from + Z.of_nat k) (from + Z.of_nat (length q) + Z.of_nat k') (m_dataSize r)); [lia | lia |].
      pose proof (Z.mod_pos_bound (from + Z.of_nat k) (m_dataSize r)).
      pose proof (Z.mod_pos_bound (from + Z.of_nat (length q) + Z.of_nat k') (m_dataSize r)). lia.
    + apply stored_mod; [cbn; lia |]. cbn [with_rdata m_dataSize]. by rewrite <- Hto.
  - rewrite Hto, Zplus_mod_idemp_l, length_app. f_equal. lia.
Qed.

Lemma Copy_all_run r from q to bs :
  ring_ok r -> holds r from q to -> Z.of_nat (length q + length (concat bs)) < r.(m_dataSize) ->
  exists d to', Copy_all r to bs = Ret (with_rdata r d, to') /\ ring_ok (with_rdata r d) /\ holds (with_rdata r d) from (q ++ concat bs) to'.
Proof.
  revert r q to. induction bs as [|b bs IH]; intros r q to Hr Hh Hl; cbn [concat Copy_all] in *.
  { exists r.(rdata), to. rewrite app_nil_r. assert (with_rdata r r.(rdata) = r) as -> by (by destruct r). done. }
  rewrite length_app in Hl. destruct (Copy_run r from q to b Hr Hh ltac:(lia)) as (d & to1 & -> & Hr1 & Hh1). cbn [mbind outcome_bind fst snd].
  destruct (IH (with_rdata r d) (q ++ b) to1 Hr1 Hh1) as (d' & to2 & -> & Hr2 & Hh2); [cbn; rewrite length_app; lia |].
  exists d', to2. rewrite <- app_assoc in Hh2. done.
Qed.

(** A ring between its reader and its writer: [q] is in it. *)
Definition queued (r : ring) (q : list Z) : Prop := ring_ok r /\ holds r r.(read_index) q r.(write_index).

Lemma Write_run r q bs :
  queued r q -> Z.of_nat (length q + length (concat bs) + 8) < r.(m_dataSize) ->
  exists r' t, Write r bs = Ret (r', negb (truthy r.(interrupt_mask)) && bool_decide (q = [])) /\ length t = 8%nat /\
    queued r' (q ++ concat bs ++ t) /\ r'.(m_dataSize) = r.(m_dataSize).
Proof.
  intros (Hr & Hh) Hl. unfold Write.
  destruct (Copy_all_run r r.(read_index) q r.(write_index) bs Hr Hh ltac:(lia)) as (d & to1 & -> & Hr1 & Hh1). cbn [mbind outcome_bind fst snd].
  set (t := le_to 8 _). destruct (Copy_run (with_rdata r d) r.(read_index) (q ++ concat bs) to1 t Hr1 Hh1) as (d' & to2 & -> & Hr2 & Hh2).
  { unfold t. rewrite length_app, le_to_length. cbn. lia. }
  cbn [mbind outcome_bind fst snd]. exists (with_write_index (with_rdata (with_rdata r d) d') to2), t. split; [| split; [apply le_to_length | split; [| done]]].
  - f_equal. f_equal. cbn [with_write_index with_rdata interrupt_mask read_index]. destruct (truthy (interrupt_mask r)); [done |]. cbn [negb andb]. destruct Hh as [Hf _ Hto Hroom], Hr as [Hs _]. rewrite Hto.
    destruct (bool_decide_reflect (q = [])) as [-> | Hne].
    + cbn. rewrite Z.add_0_r, Z.mod_small by lia. apply Z.eqb_refl.
    + apply Z.eqb_neq. intros Heq. assert (0 < length q)%nat by (destruct q; [done | cbn; lia]).
      apply (mod_distinct (read_index r) (read_index r + Z.of_nat (length q)) (m_dataSize r)); [lia | lia |].
      rewrite Heq. by apply Z.mod_small.
  - split; [by destruct Hr2; split |]. rewrite <- app_assoc in Hh2. destruct Hh2 as [H1 H2 H3 H4]. split; done.
Qed.

(** ** Packets in a ring *)

Record msg := { m_payload : list Z; m_id : Z; m_type : Z; m_flags : Z }.

(** The payload with the bytes that fill it up to a multiple of eight. *)
Definition padded (m : msg) : list Z := m.(m_payload) ++ replicate (Z.to_nat ((- Z.of_nat (length m.(m_payload))) mod 8)) 0.

(** A packet as the two sides agree on it: two bytes each of type, offset of the payload and length, both in
    units of eight bytes, and flags, eight bytes of identifier, and the payload. *)
Definition packet_bytes (m : msg) : list Z :=
  (le_to 2 m.(m_type) ++ le_to 2 2 ++ le_to 2 (2 + Z.of_nat (length (padded m)) / 8) ++ le_to 2 m.(m_flags) ++ le_to 8 m.(m_id)) ++ padded m.

(** The messages a packet can carry: its length has sixteen bits, in units of eight bytes. *)
Definition msg_fits (m : msg) : Prop :=
  0 <= m.(m_type) < 2 ^ 16 /\ 0 <= m.(m_id) < 2 ^ 64 /\ 16 + Z.of_nat (length m.(m_payload)) <= 2 ^ 19 - 8.

(** The messages a callback knows: completions, and messages in band of nine bytes or more, which fill sixteen. *)
Definition msg_known (m : msg) : Prop :=
  m.(m_type) = VM_PKT_DATA_INBAND /\ 9 <= Z.of_nat (length m.(m_payload)) \/ m.(m_type) = VM_PKT_COMP.
Definition msg_ok (m : msg) : Prop := msg_known m /\ msg_fits m.

(** What a callback takes of a message: completions are passed over. *)
Definition delivered (m : msg) : list (list Z) := if m.(m_type) =? VM_PKT_COMP then [] else [padded m].

(** The bytes of packets with the indexes written behind each. *)
Definition packets (ps : list (msg * list Z)) : list Z := flat_map (fun p => packet_bytes p.1 ++ p.2) ps.

Lemma descriptor_length d : length (descriptor_bytes d) = 16%nat.
Proof. unfold descriptor_bytes. by rewrite !length_app, !le_to_length. Qed.

Lemma padded_length m : Z.of_nat (length (padded m)) = (Z.of_nat (length m.(m_payload)) + 7) / 8 * 8.
Proof.
  unfold padded. rewrite length_app, length_replicate, Nat2Z.inj_add, Z2Nat.id by (apply Z.mod_pos_bound; lia).
  Z.to_euclidean_division_equations; lia.
Qed.

Lemma AlignSize_run x : 0 <= x -> x + 7 < 2 ^ 64 -> AlignSize x 8 = (x + 7) / 8 * 8.
Proof.
  intros H0 H1. unfold AlignSize. change (8 - 1) with 7. change 7 with (2 ^ 3 - 1) at 2. rewrite land_lnot_low by lia. done.
Qed.

Lemma SendPacket_buffers m :
  msg_fits m ->
  let len := Z.of_nat (length m.(m_payload)) in
  let buffers := [descriptor_bytes (packet_descriptor len m.(m_id) m.(m_type) m.(m_flags)); m.(m_payload); take (packet_pad len) (replicate 8 0)] in
  concat (if len =? 0 then take 1 buffers else buffers) = packet_bytes m.
Proof.
  intros (_ & _ & Hlen) len buffers. assert (0 <= len) as H0 by lia. fold len in Hlen.
  assert (u32 (16 + u32 len) = 16 + len) as H16 by (rewrite (wrap_small 32 len), wrap_small by lia; done).
  assert (AlignSize (16 + len) 8 = 16 + (len + 7) / 8 * 8) as Hal by (rewrite AlignSize_run by lia; Z.to_euclidean_division_equations; lia).
  assert (0 <= (len + 7) / 8 * 8 < 2 ^ 19 - 16) as Hb by (Z.to_euclidean_division_equations; lia).
  pose proof (padded_length m) as Hpl. fold len in Hpl.
  assert (packet_descriptor len m.(m_id) m.(m_type) m.(m_flags) =
    {| pk_type := m.(m_type); offset8 := 2; len8 := 2 + Z.of_nat (length (padded m)) / 8; pk_flags := m.(m_flags); trans_id := m.(m_id) |}) as Hd.
  { unfold packet_descriptor. cbv zeta. rewrite H16, Hal, (wrap_small 32) by lia. rewrite !Z.shiftr_div_pow2 by lia. change (16 / 2 ^ 3) with 2. change (2 ^ 3) with 8.
    rewrite Hpl, Z.div_mul by lia. replace (16 + (len + 7) / 8 * 8) with ((2 + (len + 7) / 8) * 8) by lia. rewrite Z.div_mul by lia.
    f_equal. apply wrap_small. lia. }
  assert (packet_pad len = Z.to_nat ((- len) mod 8)) as Hpad.
  { unfold packet_pad. rewrite H16, Hal. rewrite (wrap_small 32 (16 + _)) by lia.
    assert (16 + (len + 7) / 8 * 8 - (16 + len) = (- len) mod 8) as -> by (Z.to_euclidean_division_equations; lia).
    pose proof (Z.mod_pos_bound (- len) 8 ltac:(lia)). by rewrite wrap_small by lia. }
  unfold buffers, packet_bytes. rewrite Hd, Hpad. clear Hd Hpad. unfold padded. fold len.
  assert (0 <= (- len) mod 8 < 8) as Hm by (apply Z.mod_pos_bound; lia).
  rewrite take_replicate, Nat.min_l by lia. destruct (Z.eqb_spec len 0) as [Hz | Hz].
  - assert (m.(m_payload) = []) as -> by (apply nil_length_inv; lia). rewrite Hz. cbn [take concat]. by rewrite !app_nil_r.
  - cbn [concat]. by rewrite app_nil_r.
Qed.

Lemma packet_length m : Z.of_nat (length (packet_bytes m)) = 16 + Z.of_nat (length (padded m)).
Proof. unfold packet_bytes. rewrite !length_app, !le_to_length. lia. Qed.

Lemma SendPacket_run r q m :
  queued r q -> msg_fits m -> Z.of_nat (length q + length (packet_bytes m) + 8) < r.(m_dataSize) ->
  exists r' t, SendPacket r m.(m_payload) m.(m_id) m.(m_type) m.(m_flags) = Ret (r', negb (truthy r.(interrupt_mask)) && bool_decide (q = [])) /\
    length t = 8%nat /\ queued r' (q ++ packet_bytes m ++ t) /\ r'.(m_dataSize) = r.(m_dataSize).
Proof.
  intros Hq Hm Hl. unfold SendPacket. rewrite <- (SendPacket_buffers m Hm) in *. apply (Write_run r q _ Hq Hl).
Qed.

(** Taking the first packet: the fields the callback reads, and the next place. *)
Lemma receive_run r off m t rest :
  ring_ok r -> msg_ok m -> length t = 8%nat -> r.(m_iterator) = off -> 0 <= off < r.(m_dataSize) ->
  holds r off ((packet_bytes m ++ t) ++ rest) r.(write_index) ->
  ReadPacket r = Some off /\
  (exists l, get_bytes r off 2 = Ret l /\ le_of l = m.(m_type)) /\
  (exists l, get_bytes r (off + 2) 2 = Ret l /\ Z.shiftl (le_of l) 3 = 16) /\
  (exists l, get_bytes r (off + 4) 2 = Ret l /\ Z.shiftl (le_of l) 3 = Z.of_nat (length (packet_bytes m))) /\
  get_bytes r (off + 16) (length (padded m)) = Ret (padded m) /\
  (let r' := NextPacket r (Z.of_nat (length (packet_bytes m))) in holds r' r'.(m_iterator) rest r'.(write_index)).
Proof.
  intros [Hs Hd] (_ & Hty & _ & Hml) Ht Hit Hoff [Hf Hst Hto Hroom].
  pose proof (packet_length m) as Hpl. pose proof (padded_length m) as Hpd.
  rewrite !length_app, Ht in Hroom. rewrite !length_app, Ht in Hto.
  apply stored_app in Hst as [Hst Hrest]. apply stored_app in Hst as [Hst _]. unfold packet_bytes in Hst at 1.
  apply stored_app in Hst as [Hdesc Hpay]. rewrite !length_app, !le_to_length in Hpay. cbn [Nat.add] in Hpay.
  apply stored_app in Hdesc as [H0 Hdesc]. apply stored_app in Hdesc as [H2 Hdesc]. apply stored_app in Hdesc as [H4 _].
  rewrite !le_to_length in *. change (Z.of_nat 2) with 2 in *. change (Z.of_nat 16) with 16 in *. replace (off + 2 + 2) with (off + 4) in H4 by lia.
  assert (forall k v, 0 <= k -> k + 2 <= 16 -> 0 <= v < 2 ^ 16 -> stored r (off + k) (le_to 2 v) -> exists l, get_bytes r (off + k) 2 = Ret l /\ le_of l = v) as Hget.
  { intros k v Hk Hk2 Hv Hsv. exists (le_to 2 v). split; [| by apply le_of_to].
    rewrite <- (le_to_length 2 v) at 1. apply get_bytes_run; [lia | rewrite le_to_length; lia | done]. }
  assert (0 <= 2 + Z.of_nat (length (padded m)) / 8 < 2 ^ 16) as Hlen8 by (rewrite Hpd, Z.div_mul by lia; assert ((Z.of_nat (length m.(m_payload)) + 7) / 8 < 2 ^ 16 - 2) by (apply Z.div_lt_upper_bound; lia);
    assert (0 <= (Z.of_nat (length m.(m_payload)) + 7) / 8) by (apply Z.div_pos; lia); lia).
  split; [| split; [| split; [| split; [| split]]]].
  - unfold ReadPacket, Read. rewrite Hit. destruct (Z.eqb_spec off (write_index r)) as [He |]; [| done]. exfalso.
    rewrite Hto in He. apply (mod_distinct off (off + Z.of_nat (length (packet_bytes m) + 8 + length rest)) (m_dataSize r)); [lia | lia |].
    rewrite <- He. by apply Z.mod_small.
  - destruct (Hget 0 m.(m_type)) as (l & Hl & Hv); [lia | lia | done | by rewrite Z.add_0_r |].
    rewrite Z.add_0_r in Hl. by exists l.
  - destruct (Hget 2 2) as (l & Hl & Hv); [lia | lia | lia | done |]. exists l. by rewrite Hv.
  - destruct (Hget 4 (2 + Z.of_nat (length (padded m)) / 8)) as (l & Hl & Hv); [lia | lia | lia | done |].
    exists l. split; [done |]. rewrite Hv, Z.shiftl_mul_pow2, Hpl, Hpd, Z.div_mul by lia. lia.
  - apply get_bytes_run; [lia | lia | done].
  - cbn zeta. unfold NextPacket, VMBUS_PKT_TRAILER. rewrite (wrap_small 32) by lia. unfold Increment. cbn [m_iterator write_index]. rewrite Hit.
    rewrite wrap_small by lia. rewrite length_app, Ht in Hrest.
    replace (Z.of_nat (length (packet_bytes m) + 8)) with (Z.of_nat (length (packet_bytes m)) + 8) in Hrest by lia.
    set (len := Z.of_nat (length (packet_bytes m)) + 8) in *.
    split; cbn [m_dataSize].
    + apply Z.mod_pos_bound. lia.
    + change (stored r ((off + len) mod m_dataSize r) rest). apply stored_mod; [lia | done].
    + rewrite Hto, Zplus_mod_idemp_l. f_equal. unfold len. lia.
    + lia.
Qed.

Lemma OnCallback_loop_run ps r fuel :
  ring_ok r -> Forall (fun p => msg_ok p.1 /\ length p.2 = 8%nat) ps -> holds r r.(m_iterator) (packets ps) r.(write_index) -> (length ps < fuel)%nat ->
  exists r', OnCallback_loop fuel r = Ret (r', flat_map (fun p => delivered p.1) ps) /\ ring_ok r' /\
    r'.(m_dataSize) = r.(m_dataSize) /\ r'.(write_index) = r.(write_index) /\ r'.(m_iterator) = r.(write_index) /\ 0 <= r.(write_index) < r.(m_dataSize).
Proof.
  revert r fuel. induction ps as [|[m t] ps IH]; intros r fuel Hr Hps Hh Hf; (destruct fuel as [|fuel]; [cbn in Hf; lia |]); cbn [OnCallback_loop flat_map length] in *.
  - destruct Hh as [H1 _ H3 _]. cbn in H3. rewrite Z.add_0_r, Z.mod_small in H3 by done. unfold ReadPacket, Read. rewrite H3, Z.eqb_refl.
    exists r. rewrite H3. done.
  - apply Forall_cons in Hps as [[Hm Ht] Hps]. cbn [fst snd] in *. unfold packets in Hh. cbn [flat_map fst snd] in Hh. fold (packets ps) in Hh.
    destruct (receive_run r r.(m_iterator) m t (packets ps) Hr Hm Ht eq_refl (ho_from _ _ _ _ Hh) Hh)
      as (-> & (l1 & -> & Hv1) & (l2 & -> & Hv2) & (l3 & -> & Hv3) & Hpay & Hnext).
    cbn [mbind outcome_bind]. rewrite Hv1, Hv2, Hv3.
    assert (ring_ok (NextPacket r (Z.of_nat (length (packet_bytes m))))) as Hr' by (by destruct Hr; split).
    destruct (IH _ fuel Hr' Hps Hnext ltac:(lia)) as (r' & Hloop & Hok & Hsz & Hw & Hit & Hb).
    cbn zeta in *. destruct Hm as [[[Hty Hmin] | Hty] _]; unfold delivered; rewrite Hty.
    + change (VM_PKT_DATA_INBAND =? VM_PKT_COMP) with false. rewrite Z.eqb_refl. cbn iota.
      pose proof (packet_length m) as Hpl. destruct Hh as [_ _ _ Hroom]. rewrite !length_app in Hroom. destruct Hr as [Hs _].
      rewrite (wrap_small 32) by lia. replace (Z.of_nat (length (packet_bytes m)) - 16) with (Z.of_nat (length (padded m))) by lia.
      destruct (Z.ltb_spec (Z.of_nat (length (padded m))) sizeof_pipe_prt_msg) as [Hsmall |].
      { rewrite padded_length in Hsmall. pose proof (Z.mul_div_le (Z.of_nat (length m.(m_payload)) + 7) 8 ltac:(lia)).
        pose proof (Z.div_le_lower_bound (Z.of_nat (length m.(m_payload)) + 7) 8 2 ltac:(lia) ltac:(lia)). unfold sizeof_pipe_prt_msg in Hsmall. lia. }
      rewrite Nat2Z.id, Hpay. cbn [mbind outcome_bind]. rewrite Hloop. cbn [mbind outcome_bind fst snd app]. by exists r'.
    + rewrite Z.eqb_refl, Hloop. by exists r'.
Qed.

(** ** The other side

    What the hypervisor's side of a ring does, by the layout of packets: it puts a packet behind
    those in the ring, and takes the first one. *)

(** [bytes] behind what is in the ring, around its end. *)
Definition host_put (bytes : list Z) (r : ring) : ring :=
  let data := imap (fun i c => default c (bytes !! Z.to_nat ((Z.of_nat i - r.(write_index)) mod r.(m_dataSize)))) r.(rdata) in
  with_write_index (with_rdata r data) ((r.(write_index) + Z.of_nat (length bytes)) mod r.(m_dataSize)).

Definition byte_from (r : ring) (k : Z) : Z := default 0 (r.(rdata) !! Z.to_nat ((r.(read_index) + k) mod r.(m_dataSize))).

(** The type, the identifier and the payload of the first packet, and the ring behind it. *)
Definition host_take (r : ring) : option (Z * Z * list Z) * ring :=
  if r.(read_index) =? r.(write_index) then (None, r)
  else
    let byte := byte_from r in
    let from := 8 * (byte 2 + 2 ^ 8 * byte 3) in
    let to := 8 * (byte 4 + 2 ^ 8 * byte 5) in
    (Some (byte 0 + 2 ^ 8 * byte 1, foldr (fun k v => byte k + 2 ^ 8 * v) 0 (seqZ 8 8), byte <$> seqZ from (to - from)),
     {| write_index := r.(write_index); read_index := (r.(read_index) + (to + 8)) mod r.(m_dataSize); interrupt_mask := r.(interrupt_mask);
        pending_send_sz := r.(pending_send_sz); feature_bits := r.(feature_bits); rdata := r.(rdata); m_dataSize := r.(m_dataSize); m_iterator := r.(m_iterator) |}).

Lemma host_put_run r q bytes :
  queued r q -> Z.of_nat (length q + length bytes) < r.(m_dataSize) -> queued (host_put bytes r) (q ++ bytes).
Proof.
  intros [[Hs Hd] [Hf Hst Hto Hroom]] Hl. split; [split; cbn; [done |]; by rewrite length_imap |].
  split; cbn [host_put with_write_index with_rdata m_dataSize read_index write_index]; [done | | | rewrite length_app; lia].
  2: { rewrite Hto, Zplus_mod_idemp_l, length_app. f_equal. lia. }
  apply stored_app. split; intros k c Hk; cbn [host_put with_write_index with_rdata rdata m_dataSize read_index]; rewrite list_lookup_imap.
  - rewrite (Hst k c Hk). cbn. f_equal. rewrite lookup_ge_None_2; [done |]. apply lookup_lt_Some in Hk.
    pose proof (Z.mod_pos_bound (read_index r + Z.of_nat k) (m_dataSize r) ltac:(lia)). rewrite Z2Nat.id by lia.
    rewrite Hto, <- Zminus_mod.
    replace (read_index r + Z.of_nat k - (read_index r + Z.of_nat (length q))) with (m_dataSize r + Z.of_nat k - Z.of_nat (length q) + (-1) * m_dataSize r) by lia.
    rewrite Z.mod_add, Z.mod_small by lia. lia.
  - pose proof (lookup_lt_Some _ _ _ Hk) as Hlt.
    pose proof (Z.mod_pos_bound (read_index r + Z.of_nat (length q) + Z.of_nat k) (m_dataSize r) ltac:(lia)) as Hi.
    set (i := (read_index r + Z.of_nat (length q) + Z.of_nat k) mod m_dataSize r) in *.
    destruct (lookup_lt_is_Some_2 r.(rdata) (Z.to_nat i) ltac:(lia)) as [x ->]. cbn. f_equal.
    replace (Z.to_nat ((Z.of_nat (Z.to_nat i) - write_index r) mod m_dataSize r)) with k; [by rewrite Hk |].
    rewrite Z2Nat.id by lia. unfold i. rewrite Hto, <- Zminus_mod by lia.
    replace (read_index r + Z.of_nat (length q) + Z.of_nat k - (read_index r + Z.of_nat (length q))) with (Z.of_nat k) by lia.
    rewrite Z.mod_small by lia. lia.
Qed.

Lemma byte_from_stored r l k c : stored r r.(read_index) l -> l !! k = Some c -> byte_from r (Z.of_nat k) = c.
Proof. intros Hl Hk. unfold byte_from. by rewrite (Hl k c Hk). Qed.

Lemma bytes_stored r off l n : stored r (r.(read_index) + off) l -> length l = n -> 0 <= off ->
  byte_from r <$> seqZ off (Z.of_nat n) = l.
Proof.
  intros Hl <- Hoff. apply list_eq. intros k. rewrite list_lookup_fmap. destruct (l !! k) as [c |] eqn:Hk.
  - rewrite (proj2 (lookup_seqZ off (Z.of_nat (length l)) k _) (conj eq_refl (inj_lt _ _ (lookup_lt_Some _ _ _ Hk)))). cbn. f_equal.
    unfold byte_from. replace (read_index r + (off + Z.of_nat k)) with (read_index r + off + Z.of_nat k) by lia. by rewrite (Hl k c Hk).
  - rewrite lookup_seqZ_ge; [done |]. apply lookup_ge_None in Hk. lia.
Qed.

Lemma le_of_foldr l : le_of l = foldr (fun b v => b + 2 ^ 8 * v) 0 l.
Proof. induction l as [| b l IH]; [done |]. cbn [le_of foldr]. rewrite IH. lia. Qed.

Lemma word_stored r off v n : stored r (r.(read_index) + off) (le_to n v) -> 0 <= off -> 0 <= v < 256 ^ Z.of_nat n ->
  foldr (fun k x => byte_from r k + 2 ^ 8 * x) 0 (seqZ off (Z.of_nat n)) = v.
Proof.
  intros Hl Hoff Hv. rewrite <- (le_of_to n v Hv), le_of_foldr.
  rewrite <- (bytes_stored r off (le_to n v) n Hl (le_to_length n v) Hoff).
  generalize (seqZ off (Z.of_nat n)). intros l. induction l as [| k l IH]; [done |]. rewrite fmap_cons. cbn [foldr]. by rewrite IH.
Qed.

(** The first packet is the first message that was sent. *)
Lemma host_take_run r m t rest :
  queued r ((packet_bytes m ++ t) ++ rest) -> msg_fits m -> length t = 8%nat ->
  exists r', host_take r = (Some (m.(m_type), m.(m_id), padded m), r') /\ queued r' rest /\ r'.(m_dataSize) = r.(m_dataSize) /\
    r'.(interrupt_mask) = r.(interrupt_mask).
Proof.
  intros [[Hs Hd] [Hf Hst Hto Hroom]] (Hty & Hid & Hml) Ht. pose proof (packet_length m) as Hpl. pose proof (padded_length m) as Hpd.
  rewrite !length_app, Ht in Hroom. rewrite !length_app, Ht in Hto.
  apply stored_app in Hst as [Hst Hrest]. apply stored_app in Hst as [Hst _]. unfold packet_bytes in Hst at 1.
  apply stored_app in Hst as [Hdesc Hpay]. rewrite !length_app, !le_to_length in Hpay. cbn [Nat.add] in Hpay.
  apply stored_app in Hdesc as [H0 Hdesc]. apply stored_app in Hdesc as [H2 Hdesc]. apply stored_app in Hdesc as [H4 Hdesc].
  apply stored_app in Hdesc as [_ H8]. rewrite !le_to_length in *. change (Z.of_nat 2) with 2 in *. change (Z.of_nat 16) with 16 in *.
  replace (read_index r + 2 + 2) with (read_index r + 4) in * by lia. replace (read_index r + 4 + 2 + 2) with (read_index r + 8) in * by lia.
  assert (Z.of_nat (length (padded m)) = 8 * (Z.of_nat (length (padded m)) / 8)) as Hdiv by (rewrite Hpd, Z.div_mul; lia).
  assert (0 <= 2 + Z.of_nat (length (padded m)) / 8 < 2 ^ 16) as Hlen8.
  { rewrite Hpd, Z.div_mul by lia. assert ((Z.of_nat (length m.(m_payload)) + 7) / 8 < 2 ^ 16 - 2) by (apply Z.div_lt_upper_bound; lia).
    assert (0 <= (Z.of_nat (length m.(m_payload)) + 7) / 8) by (apply Z.div_pos; lia). lia. }
  assert (forall off v, 0 <= off -> 0 <= v < 2 ^ 16 -> stored r (read_index r + off) (le_to 2 v) -> byte_from r off + 2 ^ 8 * byte_from r (off + 1) = v) as Hword.
  { intros off v Hoff Hv Hst. pose proof (word_stored r off v 2 Hst Hoff Hv) as Hw.
    change (Z.of_nat 2) with 2 in Hw. rewrite (seqZ_cons off), (seqZ_cons (Z.succ off)), seqZ_nil in Hw by lia. cbn [foldr] in Hw.
    replace (Z.succ off) with (off + 1) in Hw by lia. lia. }
  assert (read_index r <> write_index r) as Hne.
  { intros He. rewrite Hto in He. apply (mod_distinct (read_index r) (read_index r + Z.of_nat (length (packet_bytes m) + 8 + length rest)) (m_dataSize r)); [lia | lia |].
    rewrite <- He. by apply Z.mod_small. }
  unfold host_take. rewrite (proj2 (Z.eqb_neq _ _) Hne). cbv zeta.
  change (byte_from r 3) with (byte_from r (2 + 1)). change (byte_from r 5) with (byte_from r (4 + 1)). change (byte_from r 1) with (byte_from r (0 + 1)).
  rewrite (Hword 2 2), (Hword 4 (2 + Z.of_nat (length (padded m)) / 8)), (Hword 0 m.(m_type)) by (done || lia || by rewrite Z.add_0_r).
  pose proof (word_stored r 8 m.(m_id) 8 H8 ltac:(lia) Hid) as Hi. change (Z.of_nat 8) with 8 in Hi. rewrite Hi.
  replace (8 * (2 + Z.of_nat (length (padded m)) / 8) - 8 * 2) with (Z.of_nat (length (padded m))) by lia.
  change (8 * 2) with 16. rewrite (bytes_stored r 16 (padded m) (length (padded m)) Hpay eq_refl) by lia.
  replace (8 * (2 + Z.of_nat (length (padded m)) / 8) + 8) with (Z.of_nat (length (packet_bytes m) + 8)) by lia.
  eexists. split; [reflexivity |]. split; [| done]. rewrite length_app, Ht in Hrest.
  split; [split; done |]. split; cbn [read_index write_index m_dataSize].
  - apply Z.mod_pos_bound. lia.
  - match goal with |- stored ?x _ _ => change (stored r ((read_index r + Z.of_nat (length (packet_bytes m) + 8)) mod m_dataSize r) rest) end.
    apply stored_mod; [lia | done].
  - rewrite Hto, Zplus_mod_idemp_l. f_equal. lia.
  - lia.
Qed.

(** ** A channel as two queues of messages *)

(** The ring the driver sends on, and the one its callbacks read. *)
Record rings := { m_outbound : ring; m_inbound : ring }.

(** What happens on a channel: the driver sends a message, the other side takes one, it puts one with
    the indexes behind it, and the callback runs. *)
Inductive event := Send (m : msg) | HostTakes | HostPuts (m : msg) (indexes : list Z) | Callback.

(** What comes out: what the other side takes, and what the callback takes. *)
Inductive seen := HostSaw (m : option (Z * Z * list Z)) | Taken (l : list (list Z)).

Fixpoint run_events (es : list event) (c : rings) : outcome (rings * list seen) :=
  match es with
  | [] => Ret (c, [])
  | Send m :: es =>
      s ← SendPacket c.(m_outbound) m.(m_payload) m.(m_id) m.(m_type) m.(m_flags);
      run_events es {| m_outbound := s.1; m_inbound := c.(m_inbound) |}
  | HostTakes :: es =>
      let '(m, r) := host_take c.(m_outbound) in
      t ← run_events es {| m_outbound := r; m_inbound := c.(m_inbound) |};
      Ret (t.1, HostSaw m :: t.2)
  | HostPuts m indexes :: es =>
      run_events es {| m_outbound := c.(m_outbound); m_inbound := host_put (packet_bytes m ++ indexes) c.(m_inbound) |}
  | Callback :: es =>
      k ← OnCallback (S (length c.(m_inbound).(rdata))) c.(m_inbound);
      t ← run_events es {| m_outbound := c.(m_outbound); m_inbound := k.1.1 |};
      Ret (t.1, Taken k.2 :: t.2)
  end.

(** The events on two queues. *)
Fixpoint queue_events (es : list event) (out inb : list msg) : list seen :=
  match es with
  | [] => []
  | Send m :: es => queue_events es (out ++ [m]) inb
  | HostTakes :: es =>
      match out with
      | [] => HostSaw None :: queue_events es [] inb
      | m :: out => HostSaw (Some (m.(m_type), m.(m_id), padded m)) :: queue_events es out inb
      end
  | HostPuts m _ :: es => queue_events es out (inb ++ [m])
  | Callback :: es => Taken (flat_map delivered inb) :: queue_events es out []
  end.

(** The messages waiting never fill the rings, of [so] and [si] bytes. *)
Definition message_size (m : msg) : Z := 16 + Z.of_nat (length (padded m)) + 8.
Definition sizes (l : list msg) : Z := foldr (fun m n => message_size m + n) 0 l.
Fixpoint fits (so si : Z) (es : list event) (out inb : list msg) : Prop :=
  match es with
  | [] => True
  | Send m :: es => msg_fits m /\ sizes (out ++ [m]) < so /\ fits so si es (out ++ [m]) inb
  | HostTakes :: es => fits so si es (tail out) inb
  | HostPuts m indexes :: es => msg_ok m /\ length indexes = 8%nat /\ sizes (inb ++ [m]) < si /\ fits so si es out (inb ++ [m])
  | Callback :: es => fits so si es out []
  end.

Lemma packets_size ps : Forall (fun p => length p.2 = 8%nat) ps -> Z.of_nat (length (packets ps)) = sizes (fst <$> ps).
Proof.
  induction 1 as [|[m t] ps Ht _ IH]; [done |]. unfold packets, message_size in *. cbn [flat_map fst snd] in *. rewrite !length_app, Ht, fmap_cons. cbn [sizes foldr fst].
  fold (sizes (fst <$> ps)). rewrite <- IH. pose proof (packet_length m). unfold message_size. lia.
Qed.

Lemma packets_snoc ps m t : packets ps ++ packet_bytes m ++ t = packets (ps ++ [(m, t)]).
Proof. unfold packets. rewrite flat_map_app. cbn [flat_map fst snd]. by rewrite app_nil_r. Qed.

Lemma packets_length ps : Forall (fun p => length p.2 = 8%nat) ps -> (length ps <= length (packets ps))%nat.
Proof.
  induction 1 as [|[m t] ps Ht _ IH]; [done |]. unfold packets in *. cbn [flat_map fst snd length] in *. rewrite !length_app, Ht. lia.
Qed.

(** A callback empties the ring. *)
Lemma OnCallback_run r ps :
  queued r (packets ps) -> r.(m_iterator) = r.(read_index) -> Forall (fun p => msg_ok p.1 /\ length p.2 = 8%nat) ps ->
  exists r' b, OnCallback (S (length r.(rdata))) r = Ret ((r', b), flat_map delivered (fst <$> ps)) /\
    queued r' [] /\ r'.(m_iterator) = r'.(read_index) /\ r'.(m_dataSize) = r.(m_dataSize).
Proof.
  intros [Hr Hh] Hit Hps. pose proof (packets_length ps ltac:(eapply Forall_impl; [exact Hps | by intros ? []])) as Hlen.
  pose proof (ho_room _ _ _ _ Hh) as Hroom. rewrite <- Hit in Hh. unfold OnCallback.
  destruct (OnCallback_loop_run ps r (S (length r.(rdata))) Hr Hps Hh) as (r1 & -> & Hok & Hsz & Hw & Hit1 & Hb); [destruct Hr; lia |].
  cbn [mbind outcome_bind fst snd StopRead CommitRead]. eexists _, _. split; [| split; [| split]].
  - f_equal. f_equal. by rewrite flat_map_concat_map, flat_map_concat_map, <- (map_map fst delivered).
  - split; [by destruct Hok; split |]. split; cbn; [by rewrite Hit1, Hsz | by intros k c | | destruct Hok; lia].
    rewrite Z.add_0_r, Hit1, Hsz, Hw. symmetry. by apply Z.mod_small.
  - done.
  - exact Hsz.
Qed.

(** The channel with these messages waiting. *)
Record waiting (c : rings) (po pin : list (msg * list Z)) : Prop := {
  wa_out : queued c.(m_outbound) (packets po);
  wa_in : queued c.(m_inbound) (packets pin) /\ c.(m_inbound).(m_iterator) = c.(m_inbound).(read_index);
  wa_sent : Forall (fun p => msg_fits p.1 /\ length p.2 = 8%nat) po;
  wa_put : Forall (fun p => msg_ok p.1 /\ length p.2 = 8%nat) pin
}.

Lemma run_events_queues es c po pin :
  waiting c po pin -> fits c.(m_outbound).(m_dataSize) c.(m_inbound).(m_dataSize) es (fst <$> po) (fst <$> pin) ->
  exists c', run_events es c = Ret (c', queue_events es (fst <$> po) (fst <$> pin)).
Proof.
  revert c po pin. induction es as [|[m | | m t |] es IH]; intros c po pin [Hout [Hin Hit] Hso Hsi] Hfit; cbn [run_events queue_events fits] in *.
  - by exists c.
  - destruct Hfit as (Hm & Hl & Hfit).
    assert (sizes ((fst <$> po) ++ [m]) = Z.of_nat (length (packets po)) + message_size m) as Hsz.
    { rewrite packets_size by (eapply Forall_impl; [exact Hso | by intros ? []]). generalize (fst <$> po). intros l.
      induction l as [|x l IHl]; cbn [app sizes foldr]; [lia |]. unfold sizes in IHl. rewrite IHl. lia. }
    pose proof (packet_length m) as Hpl. unfold message_size in Hsz.
    destruct (SendPacket_run c.(m_outbound) (packets po) m Hout Hm ltac:(lia)) as (r1 & t & -> & Ht & Hq1 & Hsize). cbn [mbind outcome_bind fst].
    rewrite packets_snoc in Hq1. destruct (IH {| m_outbound := r1; m_inbound := c.(m_inbound) |} (po ++ [(m, t)]) pin) as (c' & Hc').
    + split; cbn; [exact Hq1 | done | | done]. apply Forall_app. split; [done |]. by constructor.
    + cbn. rewrite Hsize, fmap_app. exact Hfit.
    + exists c'. rewrite fmap_app in Hc'. exact Hc'.
  - destruct po as [|[m t] po]; cbn [fmap list_fmap fst tail] in *.
    + assert (host_take c.(m_outbound) = (None, c.(m_outbound))) as ->.
      { destruct Hout as [[Hs _] [Hf _ Hto _]]. unfold host_take. cbn in Hto. rewrite Z.add_0_r, Z.mod_small in Hto by done. by rewrite Hto, Z.eqb_refl. }
      destruct (IH c [] pin) as (c' & Hc'); [by split | exact Hfit |]. destruct c as [co ci]. cbn [m_outbound m_inbound]. rewrite Hc'. by exists c'.
    + apply Forall_cons in Hso as [[Hm Ht] Hso]. unfold packets in Hout. cbn [flat_map fst snd] in *. fold (packets po) in Hout.
      destruct (host_take_run c.(m_outbound) m t (packets po) Hout Hm Ht) as (r' & -> & Hq & Hsz & _). cbn iota.
      destruct (IH {| m_outbound := r'; m_inbound := c.(m_inbound) |} po pin) as (c' & ->); [by split | cbn; by rewrite Hsz |]. by exists c'.
  - destruct Hfit as (Hm & Ht & Hl & Hfit).
    assert (sizes ((fst <$> pin) ++ [m]) = Z.of_nat (length (packets pin)) + message_size m) as Hsz.
    { rewrite packets_size by (eapply Forall_impl; [exact Hsi | by intros ? []]). generalize (fst <$> pin). intros l.
      induction l as [|x l IHl]; cbn [app sizes foldr]; [lia |]. unfold sizes in IHl. rewrite IHl. lia. }
    pose proof (packet_length m) as Hpl. unfold message_size in Hsz.
    destruct (IH {| m_outbound := c.(m_outbound); m_inbound := host_put (packet_bytes m ++ t) c.(m_inbound) |} po (pin ++ [(m, t)])) as (c' & Hc').
    + split; cbn [m_outbound m_inbound]; [done | | done | apply Forall_app; split; [done |]; by constructor].
      rewrite <- packets_snoc. split; [| exact Hit]. apply host_put_run; [done |]. rewrite length_app, Ht. lia.
    + cbn. rewrite fmap_app. exact Hfit.
    + exists c'. rewrite fmap_app in Hc'. exact Hc'.
  - destruct (OnCallback_run c.(m_inbound) pin Hin Hit Hsi) as (r' & b & -> & Hq & Hit' & Hsz). cbn [mbind outcome_bind fst snd].
    destruct (IH {| m_outbound := c.(m_outbound); m_inbound := r' |} po []) as (c' & Hc'); [by split | cbn; by rewrite Hsz |].
    cbn in Hc'. rewrite Hc'. cbn [mbind outcome_bind fst snd]. by exists c'.
Qed.

(** C30: a channel is two queues. In any interleaving, and over the end of the rings' pages, the other
    side takes the messages the driver sends on the outbound ring in order, each once and with its
    type, its identifier and its bytes filled up to a multiple of eight, and the driver's
    callback takes the messages the other side puts into the inbound ring in the same way, each
    callback all that are there; completions among them are passed over. The other side follows the
    layout of packets ([host_put], [host_take]); the messages waiting are fewer bytes than their ring has;
    a message has at most 524264 bytes, and one for the callback, which knows only
    completions and messages in band, has at least nine if it is in band. (The facts below show
    what happens to longer and shorter ones.) *)
Theorem ring_is_queue es c :
  queued c.(m_outbound) [] -> queued c.(m_inbound) [] -> c.(m_inbound).(m_iterator) = c.(m_inbound).(read_index) ->
  fits c.(m_outbound).(m_dataSize) c.(m_inbound).(m_dataSize) es [] [] ->
  exists c', run_events es c = Ret (c', queue_events es [] []).
Proof. intros Ho Hi Hit Hf. apply (run_events_queues es c [] []); [by split | exact Hf]. Qed.

Lemma new_ring_queued count : 2 <= count < 2 ^ 19 -> queued (new_ring count) [].
Proof.
  intros Hc. assert (u32 (Z.shiftl (count - 1) PageShift) = (count - 1) * 4096) as Hs.
  { rewrite Z.shiftl_mul_pow2 by done. change (2 ^ PageShift) with 4096. apply wrap_small. lia. }
  split; [split |]; cbn [new_ring m_dataSize rdata]; rewrite ?Hs.
  - lia.
  - rewrite length_replicate. lia.
  - split; cbn; rewrite ?Hs; [lia | by intros k c | rewrite Z.mod_0_l; lia | lia].
Qed.

Definition demo_msg (l : list Z) : msg := {| m_payload := l; m_id := 5; m_type := VM_PKT_DATA_INBAND; m_flags := 1 |}.

Lemma ring_is_queue_witness :
  exists c', run_events [Send (demo_msg [1; 2; 3]); HostPuts (demo_msg [9; 8; 7; 6; 5; 4; 3; 2; 1]) (replicate 8 0); HostTakes; Callback; HostTakes]
               {| m_outbound := new_ring 2; m_inbound := new_ring 3 |} =
    Ret (c', [HostSaw (Some (6, 5, [1; 2; 3; 0; 0; 0; 0; 0])); Taken [[9; 8; 7; 6; 5; 4; 3; 2; 1; 0; 0; 0; 0; 0; 0; 0]]; HostSaw None]).
Proof.
  apply (ring_is_queue [Send (demo_msg [1; 2; 3]); HostPuts (demo_msg [9; 8; 7; 6; 5; 4; 3; 2; 1]) (replicate 8 0); HostTakes; Callback; HostTakes]
           {| m_outbound := new_ring 2; m_inbound := new_ring 3 |}).
  - apply new_ring_queued. lia.
  - apply new_ring_queued. lia.
  - reflexivity.
  - repeat split; first [left; split; [done | vm_compute; congruence] | vm_compute; congruence].
Defined.

(** Fact: the length of a packet is cut to sixteen bits: one with 524272 bytes says that it has no bytes at all. *)
Theorem long_packet_is_cut id type flags : len8 (packet_descriptor (2 ^ 19 - 16) id type flags) = 0.
Proof. reflexivity. Qed.

(** Fact: a message in band that fills only eight bytes stops the callback. *)
Theorem short_message_stops :
  exists r, host_put (packet_bytes (demo_msg [1; 2; 3]) ++ replicate 8 0) (new_ring 2) = r /\ OnCallback 2 r = Bugcheck.
Proof. eexists. split; [reflexivity |]. vm_compute. reflexivity. Qed.
