(* ===== verification/KdState.v ===== *)
(** The structures of the kernel debugger's requests and the state of its engine
    (ext/reactos/windbgkd.h, ketypes.h, ext/windows/winnt.h; kernel/debugger/kd64:
    kddata.cpp).

    A structure is the list of its bytes and a field of it a place in them, so that
    the members of a union share their bytes as in C.  The engine's buffers are
    lists of bytes apart from the kernel's memory: that the debugger can address
    them there too is not modelled. *)
From Stdlib Require Import ZArith Lia.
From S2P Require Import Prelude CMemory KdMemory KdBreak KdPacket.

(** ** Fields *)

Record field := { f_off : nat; f_size : nat }.
Definition get (f : field) (l : list Z) : Z := le_of (take f.(f_size) (drop f.(f_off) l)).
Definition set (f : field) (v : Z) (l : list Z) : list Z := list_inserts f.(f_off) (le_to f.(f_size) v) l.

(** Moving bytes out of a buffer and into one; an access behind its end is a [Fault]. *)
Definition read_buffer (k n : nat) (buf : list Z) : outcome (list Z) :=
  if (k + n <=? length buf)%nat then Ret (take n (drop k buf)) else Fault.
Definition write_buffer (k : nat) (l buf : list Z) : outcome (list Z) :=
  if (k + length l <=? length buf)%nat then Ret (list_inserts k l buf) else Fault.

(** The field lies in a structure of [n] bytes; two fields share no byte. *)
Definition field_in (f : field) (n : nat) : Prop := (f.(f_off) + f.(f_size) <= n)%nat.
Definition fields_apart (f g : field) : Prop := (f.(f_off) + f.(f_size) <= g.(f_off) \/ g.(f_off) + g.(f_size) <= f.(f_off))%nat.

Lemma set_length f v l : length (set f v l) = length l.
Proof. apply length_inserts. Qed.

Lemma take_drop_inserts k (l buf : list Z) : (k + length l <= length buf)%nat -> take (length l) (drop k (list_inserts k l buf)) = l.
Proof.
  intros H. apply list_eq. intros i. destruct (decide (i < length l)%nat).
  - rewrite lookup_take_lt, lookup_drop, list_lookup_inserts by lia. f_equal. lia.
  - rewrite (proj2 (lookup_ge_None l i)) by lia. apply lookup_ge_None. rewrite length_take. lia.
Qed.

Lemma take_drop_inserts_ne k (l : list Z) i n (buf : list Z) :
  (k + length l <= i \/ i + n <= k)%nat -> take n (drop i (list_inserts k l buf)) = take n (drop i buf).
Proof.
  intros H. apply list_eq. intros j. destruct (decide (j < n)%nat).
  - rewrite !lookup_take_lt, !lookup_drop by lia. destruct H; [apply list_lookup_inserts_ge | apply list_lookup_inserts_lt]; lia.
  - rewrite !(proj2 (lookup_ge_None _ j)); [done | |]; rewrite length_take; lia.
Qed.

Lemma get_set f v l : field_in f (length l) -> 0 <= v < 256 ^ Z.of_nat f.(f_size) -> get f (set f v l) = v.
Proof.
  intros Hf Hv. unfold get, set. rewrite <- (le_to_length f.(f_size) v) at 1. rewrite take_drop_inserts; [by apply le_of_to |].
  by rewrite le_to_length.
Qed.

Lemma get_set_ne f g v l : fields_apart f g -> get f (set g v l) = get f l.
Proof. intros H. unfold get, set. rewrite take_drop_inserts_ne; [done |]. rewrite le_to_length. unfold fields_apart in H. lia. Qed.

Lemma get_range f l : Forall is_byte l -> field_in f (length l) -> 0 <= get f l < 256 ^ Z.of_nat f.(f_size).
Proof.
  intros Hb Hf. unfold get. pose proof (le_of_range (take f.(f_size) (drop f.(f_off) l)) ltac:(by apply Forall_take, Forall_drop)) as H.
  rewrite length_take, length_drop in H. unfold field_in in Hf. replace (f.(f_size) `min` (length l - f.(f_off)))%nat with f.(f_size) in H by lia. exact H.
Qed.

Lemma inserts_bytes k l buf : Forall is_byte l -> Forall is_byte buf -> Forall is_byte (list_inserts k l buf).
Proof.
  intros Hl Hb. apply Forall_lookup. intros i x Hx. apply list_lookup_inserts_Some in Hx as [[_ Hx] | (_ & _ & Hx)].
  - exact (Forall_lookup_1 _ _ _ _ Hb Hx).
  - exact (Forall_lookup_1 _ _ _ _ Hl Hx).
Qed.

Lemma set_bytes f v l : Forall is_byte l -> Forall is_byte (set f v l).
Proof. intros Hl. apply inserts_bytes; [apply le_to_bytes | done]. Qed.

(** ** DBGKD_MANIPULATE_STATE64: a request and its reply *)

Definition sizeof_MANIPULATE_STATE : nat := 56.
Definition ApiNumber : field := {| f_off := 0; f_size := 4 |}.
Definition Processor : field := {| f_off := 6; f_size := 2 |}.
Definition ReturnStatus : field := {| f_off := 8; f_size := 4 |}.
Definition TargetBaseAddress : field := {| f_off := 16; f_size := 8 |}.
Definition TransferCount : field := {| f_off := 24; f_size := 4 |}.
Definition ActualBytes : field := {| f_off := 28; f_size := 4 |}.
Definition BreakPointAddress : field := {| f_off := 16; f_size := 8 |}.
Definition BreakPointHandle : field := {| f_off := 24; f_size := 4 |}.
Definition RestoreHandle : field := {| f_off := 16; f_size := 4 |}.
Definition ContinueStatus : field := {| f_off := 16; f_size := 4 |}.
Definition TraceFlag : field := {| f_off := 20; f_size := 4 |}.
Definition ControlSet_Dr7 : field := {| f_off := 24; f_size := 8 |}.
Definition CurrentSymbolStart : field := {| f_off := 32; f_size := 8 |}.
Definition CurrentSymbolEnd : field := {| f_off := 40; f_size := 8 |}.
Definition IoAddress : field := {| f_off := 16; f_size := 8 |}.
Definition Io_DataSize : field := {| f_off := 24; f_size := 4 |}.
Definition Io_DataValue : field := {| f_off := 28; f_size := 4 |}.
Definition IoEx_DataSize : field := {| f_off := 16; f_size := 4 |}.
Definition InterfaceType : field := {| f_off := 20; f_size := 4 |}.
Definition IoEx_BusNumber : field := {| f_off := 24; f_size := 4 |}.
Definition AddressSpace : field := {| f_off := 28; f_size := 4 |}.
Definition IoEx_IoAddress : field := {| f_off := 32; f_size := 8 |}.
Definition IoEx_DataValue : field := {| f_off := 40; f_size := 4 |}.
Definition Msr : field := {| f_off := 16; f_size := 4 |}.
Definition DataValueLow : field := {| f_off := 20; f_size := 4 |}.
Definition DataValueHigh : field := {| f_off := 24; f_size := 4 |}.
Definition BusDataType : field := {| f_off := 16; f_size := 4 |}.
Definition BusNumber : field := {| f_off := 20; f_size := 4 |}.
Definition SlotNumber : field := {| f_off := 24; f_size := 4 |}.
Definition Bus_Offset : field := {| f_off := 28; f_size := 4 |}.
Definition Bus_Length : field := {| f_off := 32; f_size := 4 |}.
Definition Ex_Offset : field := {| f_off := 16; f_size := 4 |}.
Definition Ex_ByteCount : field := {| f_off := 20; f_size := 4 |}.
Definition Ex_BytesCopied : field := {| f_off := 24; f_size := 4 |}.

(** ** CONTEXT and KSPECIAL_REGISTERS *)

Definition sizeof_CONTEXT : nat := 1232.
Definition SegCs : field := {| f_off := 56; f_size := 2 |}.
Definition SegDs : field := {| f_off := 58; f_size := 2 |}.
Definition SegEs : field := {| f_off := 60; f_size := 2 |}.
Definition SegFs : field := {| f_off := 62; f_size := 2 |}.
Definition EFlags : field := {| f_off := 68; f_size := 4 |}.
Definition Dr6 : field := {| f_off := 104; f_size := 8 |}.
Definition Dr7 : field := {| f_off := 112; f_size := 8 |}.
Definition Rax : field := {| f_off := 120; f_size := 8 |}.
Definition R8 : field := {| f_off := 184; f_size := 8 |}.
Definition R9 : field := {| f_off := 192; f_size := 8 |}.
Definition Rip : field := {| f_off := 248; f_size := 8 |}.
Definition sizeof_KSPECIAL_REGISTERS : nat := 216.

(** ** DBGKD_ANY_WAIT_STATE_CHANGE: what the engine reports *)

Definition sizeof_WAIT_STATE_CHANGE : nat := 240.
Definition sizeof_CONTROL_REPORT : nat := 48.
Definition sizeof_COMMAND_STRING : nat := 64.
Definition sizeof_EXCEPTION_RECORD : nat := 152.
Definition DBGKD_MAXSTREAM : nat := 16.
(** The unions of the structure: what is particular to the event, and the registers. *)
Definition WaitState_u : nat := 32.
Definition WaitState_ControlReport : nat := 192.
Definition InstructionStream : nat := 216.
Definition NewState : field := {| f_off := 0; f_size := 4 |}.
Definition W_ProcessorLevel : field := {| f_off := 4; f_size := 2 |}.
Definition W_Processor : field := {| f_off := 6; f_size := 2 |}.
Definition NumberProcessors : field := {| f_off := 8; f_size := 4 |}.
Definition W_Thread : field := {| f_off := 16; f_size := 8 |}.
Definition ProgramCounter : field := {| f_off := 24; f_size := 8 |}.
Definition PathNameLength : field := {| f_off := 32; f_size := 4 |}.
Definition BaseOfDll : field := {| f_off := 40; f_size := 8 |}.
Definition ProcessId : field := {| f_off := 48; f_size := 8 |}.
Definition CheckSum : field := {| f_off := 56; f_size := 4 |}.
Definition SizeOfImage : field := {| f_off := 60; f_size := 4 |}.
Definition UnloadSymbols : field := {| f_off := 64; f_size := 1 |}.
Definition FirstChance : field := {| f_off := 184; f_size := 4 |}.
Definition Report_Dr6 : field := {| f_off := 192; f_size := 8 |}.
Definition Report_Dr7 : field := {| f_off := 200; f_size := 8 |}.
Definition Report_EFlags : field := {| f_off := 208; f_size := 4 |}.
Definition InstructionCount : field := {| f_off := 212; f_size := 2 |}.
Definition ReportFlags : field := {| f_off := 214; f_size := 2 |}.
Definition Report_SegCs : field := {| f_off := 232; f_size := 2 |}.
Definition Report_SegDs : field := {| f_off := 234; f_size := 2 |}.
Definition Report_SegEs : field := {| f_off := 236; f_size := 2 |}.
Definition Report_SegFs : field := {| f_off := 238; f_size := 2 |}.

(** ** The machine and the line

    Model-specific registers and ports belong to the hardware: an access reads or
    changes a device's state, and an access to a register that does not exist is
    the hardware's to answer. *)
Class Machine := {
  device : Type;
  readmsr : device -> Z -> outcome (Z * device);
  writemsr : device -> Z -> Z -> outcome device;
  in_port : device -> nat -> Z -> outcome (Z * device);
  out_port : device -> nat -> Z -> Z -> outcome device;
  (** The address of [KiProcessorBlock[Processor]]. *)
  Prcb_address : Z -> Z;
  (** The values of the status codes (ntstatus.h is not in the sources). *)
  status_code : NTSTATUS -> Z;
  (** What local variables hold that nothing has been stored in. *)
  unset : nat -> list Z
}.

(** The loaded KdCom.dll, which receives packets of type [PacketType] into the
    engine's strings and polls for a break-in; [KdpControlCPending] is shared with it. *)
Class KdDll := {
  line : Type;
  dll_receive : Z -> line -> message -> outcome (line * message * KDP_STATUS);
  dll_poll : line -> outcome (line * KDP_STATUS);
  control_c_pending : line -> bool;
  clear_control_c : line -> line
}.

(** A packet given to [KdSendPacket]. *)
Record packet := { p_type : Z; p_header : list Z; p_data : option (list Z) }.

(** ** The engine's state

    [kd_bp] is the memory with the table of breakpoints; [kd_frame] has the request
    in work: its header is ManipulateState and its data is in KdpMessageBuffer;
    [Context] is the debugged thread's; [SpecialRegisters] are those kept in the
    block of the one processor; [sent] are the packets sent, the latest last. *)
Record kd64 `{!Machine} `{!KdDll} := {
  kd_bp : kd;
  kd_device : device;
  kd_line : line;
  kd_frame : message;
  Context : list Z;
  KdpContextSent : bool;
  KdDebuggerNotPresent : bool;
  KdDebuggerEnabled : bool;
  KdpNumInternalBreakpoints : Z;
  KdpCurrentSymbolStart : Z;
  KdpCurrentSymbolEnd : Z;
  KdVersionBlock : list Z;
  SpecialRegisters : list Z;
  sent : list packet
}.

Section updates.
Context `{!Machine} `{!KdDll}.

Definition with_bp (s : kd64) (x : kd) : kd64 :=
  {| kd_bp := x; kd_device := s.(kd_device); kd_line := s.(kd_line); kd_frame := s.(kd_frame); Context := s.(Context);
     KdpContextSent := s.(KdpContextSent); KdDebuggerNotPresent := s.(KdDebuggerNotPresent);
     KdDebuggerEnabled := s.(KdDebuggerEnabled); KdpNumInternalBreakpoints := s.(KdpNumInternalBreakpoints);
     KdpCurrentSymbolStart := s.(KdpCurrentSymbolStart); KdpCurrentSymbolEnd := s.(KdpCurrentSymbolEnd);
     KdVersionBlock := s.(KdVersionBlock); SpecialRegisters := s.(SpecialRegisters); sent := s.(sent) |}.
Definition with_device (s : kd64) (x : device) : kd64 :=
  {| kd_bp := s.(kd_bp); kd_device := x; kd_line := s.(kd_line); kd_frame := s.(kd_frame); Context := s.(Context);
     KdpContextSent := s.(KdpContextSent); KdDebuggerNotPresent := s.(KdDebuggerNotPresent);
     KdDebuggerEnabled := s.(KdDebuggerEnabled); KdpNumInternalBreakpoints := s.(KdpNumInternalBreakpoints);
     KdpCurrentSymbolStart := s.(KdpCurrentSymbolStart); KdpCurrentSymbolEnd := s.(KdpCurrentSymbolEnd);
     KdVersionBlock := s.(KdVersionBlock); SpecialRegisters := s.(SpecialRegisters); sent := s.(sent) |}.
Definition with_line (s : kd64) (x : line) : kd64 :=
  {| kd_bp := s.(kd_bp); kd_device := s.(kd_device); kd_line := x; kd_frame := s.(kd_frame); Context := s.(Context);
     KdpContextSent := s.(KdpContextSent); KdDebuggerNotPresent := s.(KdDebuggerNotPresent);
     KdDebuggerEnabled := s.(KdDebuggerEnabled); KdpNumInternalBreakpoints := s.(KdpNumInternalBreakpoints);
     KdpCurrentSymbolStart := s.(KdpCurrentSymbolStart); KdpCurrentSymbolEnd := s.(KdpCurrentSymbolEnd);
     KdVersionBlock := s.(KdVersionBlock); SpecialRegisters := s.(SpecialRegisters); sent := s.(sent) |}.
Definition with_frame (s : kd64) (x : message) : kd64 :=
  {| kd_bp := s.(kd_bp); kd_device := s.(kd_device); kd_line := s.(kd_line); kd_frame := x; Context := s.(Context);
     KdpContextSent := s.(KdpContextSent); KdDebuggerNotPresent := s.(KdDebuggerNotPresent);
     KdDebuggerEnabled := s.(KdDebuggerEnabled); KdpNumInternalBreakpoints := s.(KdpNumInternalBreakpoints);
     KdpCurrentSymbolStart := s.(KdpCurrentSymbolStart); KdpCurrentSymbolEnd := s.(KdpCurrentSymbolEnd);
     KdVersionBlock := s.(KdVersionBlock); SpecialRegisters := s.(SpecialRegisters); sent := s.(sent) |}.
Definition with_Context (s : kd64) (x : list Z) : kd64 :=
  {| kd_bp := s.(kd_bp); kd_device := s.(kd_device); kd_line := s.(kd_line); kd_frame := s.(kd_frame); Context := x;
     KdpContextSent := s.(KdpContextSent); KdDebuggerNotPresent := s.(KdDebuggerNotPresent);
     KdDebuggerEnabled := s.(KdDebuggerEnabled); KdpNumInternalBreakpoints := s.(KdpNumInternalBreakpoints);
     KdpCurrentSymbolStart := s.(KdpCurrentSymbolStart); KdpCurrentSymbolEnd := s.(KdpCurrentSymbolEnd);
     KdVersionBlock := s.(KdVersionBlock); SpecialRegisters := s.(SpecialRegisters); sent := s.(sent) |}.
Definition with_ContextSent (s : kd64) (x : bool) : kd64 :=
  {| kd_bp := s.(kd_bp); kd_device := s.(kd_device); kd_line := s.(kd_line); kd_frame := s.(kd_frame); Context := s.(Context);
     KdpContextSent := x; KdDebuggerNotPresent := s.(KdDebuggerNotPresent); KdDebuggerEnabled := s.(KdDebuggerEnabled);
     KdpNumInternalBreakpoints := s.(KdpNumInternalBreakpoints); KdpCurrentSymbolStart := s.(KdpCurrentSymbolStart);
     KdpCurrentSymbolEnd := s.(KdpCurrentSymbolEnd); KdVersionBlock := s.(KdVersionBlock);
     SpecialRegisters := s.(SpecialRegisters); sent := s.(sent) |}.
Definition with_NumInternal (s : kd64) (x : Z) : kd64 :=
  {| kd_bp := s.(kd_bp); kd_device := s.(kd_device); kd_line := s.(kd_line); kd_frame := s.(kd_frame); Context := s.(Context);
     KdpContextSent := s.(KdpContextSent); KdDebuggerNotPresent := s.(KdDebuggerNotPresent);
     KdDebuggerEnabled := s.(KdDebuggerEnabled); KdpNumInternalBreakpoints := x;
     KdpCurrentSymbolStart := s.(KdpCurrentSymbolStart); KdpCurrentSymbolEnd := s.(KdpCurrentSymbolEnd);
     KdVersionBlock := s.(KdVersionBlock); SpecialRegisters := s.(SpecialRegisters); sent := s.(sent) |}.
Definition with_Special (s : kd64) (x : list Z) : kd64 :=
  {| kd_bp := s.(kd_bp); kd_device := s.(kd_device); kd_line := s.(kd_line); kd_frame := s.(kd_frame); Context := s.(Context);
     KdpContextSent := s.(KdpContextSent); KdDebuggerNotPresent := s.(KdDebuggerNotPresent);
     KdDebuggerEnabled := s.(KdDebuggerEnabled); KdpNumInternalBreakpoints := s.(KdpNumInternalBreakpoints);
     KdpCurrentSymbolStart := s.(KdpCurrentSymbolStart); KdpCurrentSymbolEnd := s.(KdpCurrentSymbolEnd);
     KdVersionBlock := s.(KdVersionBlock); SpecialRegisters := x; sent := s.(sent) |}.
Definition with_sent (s : kd64) (x : list packet) : kd64 :=
  {| kd_bp := s.(kd_bp); kd_device := s.(kd_device); kd_line := s.(kd_line); kd_frame := s.(kd_frame); Context := s.(Context);
     KdpContextSent := s.(KdpContextSent); KdDebuggerNotPresent := s.(KdDebuggerNotPresent);
     KdDebuggerEnabled := s.(KdDebuggerEnabled); KdpNumInternalBreakpoints := s.(KdpNumInternalBreakpoints);
     KdpCurrentSymbolStart := s.(KdpCurrentSymbolStart); KdpCurrentSymbolEnd := s.(KdpCurrentSymbolEnd);
     KdVersionBlock := s.(KdVersionBlock); SpecialRegisters := s.(SpecialRegisters); sent := x |}.
Definition with_symbols (s : kd64) (a b : Z) : kd64 :=
  {| kd_bp := s.(kd_bp); kd_device := s.(kd_device); kd_line := s.(kd_line); kd_frame := s.(kd_frame); Context := s.(Context);
     KdpContextSent := s.(KdpContextSent); KdDebuggerNotPresent := s.(KdDebuggerNotPresent);
     KdDebuggerEnabled := s.(KdDebuggerEnabled); KdpNumInternalBreakpoints := s.(KdpNumInternalBreakpoints);
     KdpCurrentSymbolStart := a; KdpCurrentSymbolEnd := b; KdVersionBlock := s.(KdVersionBlock);
     SpecialRegisters := s.(SpecialRegisters); sent := s.(sent) |}.

(** ManipulateState, KdpMessageBuffer and Data.Length. *)
Definition State (s : kd64) : list Z := s.(kd_frame).(h_Buffer).
Definition KdpMessageBuffer (s : kd64) : list Z := s.(kd_frame).(d_Buffer).
Definition Data_Length (s : kd64) : Z := s.(kd_frame).(d_Length).
Definition kd_memory (s : kd64) : mem := s.(kd_bp).(kd_mem).
Definition with_State (s : kd64) (l : list Z) : kd64 :=
  let m := s.(kd_frame) in
  with_frame s {| h_Length := m.(h_Length); h_Buffer := l; d_Length := m.(d_Length); d_Buffer := m.(d_Buffer); DataLength := m.(DataLength) |}.
Definition with_message (s : kd64) (l : list Z) : kd64 :=
  let m := s.(kd_frame) in
  with_frame s {| h_Length := m.(h_Length); h_Buffer := m.(h_Buffer); d_Length := m.(d_Length); d_Buffer := l; DataLength := m.(DataLength) |}.
Definition with_Data_Length (s : kd64) (n : Z) : kd64 := with_frame s (with_data_length s.(kd_frame) n).
Definition with_memory (s : kd64) (m : mem) : kd64 := with_bp s (with_kd_mem s.(kd_bp) m).

(** [State->f = v] and [State->f]. *)
Definition put (f : field) (v : Z) (s : kd64) : kd64 := with_State s (set f v (State s)).
Definition fetch (f : field) (s : kd64) : Z := get f (State s).
End updates.
