(* ===== verification/KdApi.v ===== *)
(** The engine of the kernel debugger (kernel/debugger/kd64: kdapi.cpp, kdx64.cpp,
    [KdpPrintString] and [KdpDprintf] of kdprint.cpp, [KdpPollBreakInWithPortLock] of
    kdlock.cpp): the handlers of the debugger's requests and the loop that serves
    them until the debugged thread goes on.

    What kdbreak.cpp prints to the debugger is not modelled; what a failed copy
    prints is, because it is put into the buffer that is copied into.  Console
    output ([KePrintf]) and [KeSweepICache], an empty macro, are left out. *)
From Stdlib Require Import ZArith Lia String.
From S2P Require Import Prelude CMemory CrtPrintf VAS KdMemory KdBreak KdPacket KdState.
#[local] Open Scope Z_scope.

Definition MMDBG_COPY_PHYSICAL : Z := 0x00000002.
Definition MMDBG_COPY_CACHED : Z := 0x00000008.
Definition MMDBG_COPY_UNCACHED : Z := 0x00000010.
Definition MMDBG_COPY_WRITE_COMBINED : Z := 0x00000020.
Definition DBGKD_CACHING_CACHED : Z := 1.
Definition DBGKD_CACHING_UNCACHED : Z := 2.
Definition DBGKD_CACHING_WRITE_COMBINED : Z := 3.
Definition PACKET_TYPE_KD_STATE_MANIPULATE : Z := 2.
Definition PACKET_TYPE_KD_DEBUG_IO : Z := 3.
Definition PACKET_TYPE_KD_STATE_CHANGE64 : Z := 7.
Definition DbgKdPrintStringApi : Z := 0x3230.
Definition sizeof_DEBUG_IO : Z := 16.
Definition KeNumberProcessors : Z := 1.
Definition Isa : Z := 1.
Definition EFLAGS_TF : Z := 0x100.

(** The numbers of the requests. *)
Definition DbgKdMinimumManipulate : Z := 0x3130.
Definition DbgKdReadVirtualMemoryApi : Z := 0x3130.
Definition DbgKdWriteVirtualMemoryApi : Z := 0x3131.
Definition DbgKdGetContextApi : Z := 0x3132.
Definition DbgKdSetContextApi : Z := 0x3133.
Definition DbgKdWriteBreakPointApi : Z := 0x3134.
Definition DbgKdRestoreBreakPointApi : Z := 0x3135.
Definition DbgKdReadControlSpaceApi : Z := 0x3137.
Definition DbgKdWriteControlSpaceApi : Z := 0x3138.
Definition DbgKdReadIoSpaceApi : Z := 0x3139.
Definition DbgKdWriteIoSpaceApi : Z := 0x313A.
Definition DbgKdContinueApi2 : Z := 0x313C.
Definition DbgKdReadPhysicalMemoryApi : Z := 0x313D.
Definition DbgKdWritePhysicalMemoryApi : Z := 0x313E.
Definition DbgKdQuerySpecialCallsApi : Z := 0x313F.
Definition DbgKdSetSpecialCallApi : Z := 0x3140.
Definition DbgKdClearSpecialCallsApi : Z := 0x3141.
Definition DbgKdSetInternalBreakPointApi : Z := 0x3142.
Definition DbgKdGetInternalBreakPointApi : Z := 0x3143.
Definition DbgKdReadIoSpaceExtendedApi : Z := 0x3144.
Definition DbgKdWriteIoSpaceExtendedApi : Z := 0x3145.
Definition DbgKdGetVersionApi : Z := 0x3146.
Definition DbgKdWriteBreakPointExApi : Z := 0x3147.
Definition DbgKdRestoreBreakPointExApi : Z := 0x3148.
Definition DbgKdCauseBugCheckApi : Z := 0x3149.
Definition DbgKdSwitchProcessor : Z := 0x3150.
Definition DbgKdPageInApi : Z := 0x3151.
Definition DbgKdReadMachineSpecificRegister : Z := 0x3152.
Definition DbgKdWriteMachineSpecificRegister : Z := 0x3153.
Definition DbgKdSearchMemoryApi : Z := 0x3156.
Definition DbgKdGetBusDataApi : Z := 0x3157.
Definition DbgKdSetBusDataApi : Z := 0x3158.
Definition DbgKdCheckLowMemoryApi : Z := 0x3159.
Definition DbgKdClearAllInternalBreakpointsApi : Z := 0x315A.
Definition DbgKdFillMemoryApi : Z := 0x315B.
Definition DbgKdSwitchPartition : Z := 0x315D.
Definition DbgKdWriteCustomBreakpointApi : Z := 0x315E.
Definition DbgKdGetContextExApi : Z := 0x315F.
Definition DbgKdSetContextExApi : Z := 0x3160.
Definition DbgKdMaximumManipulate : Z := 0x3161.

Inductive KCONTINUE_STATUS := ContinueError | ContinueSuccess | ContinueProcessorReselected | ContinueNextProcessor.

Section engine.
Context `{!Machine} `{!KdDll} (IsValidKernelPointer : Z -> bool).

(** ** Sending *)

Definition KdSendPacket (type : Z) (header : list Z) (data : option (list Z)) (s : kd64) : kd64 :=
  with_sent s (s.(sent) ++ [{| p_type := type; p_header := header; p_data := data |}]).
Definition Data_bytes (s : kd64) : list Z := take (Z.to_nat (Data_Length s)) (KdpMessageBuffer s).

(** The reply to a request: ManipulateState, without data or with Data. *)
Definition send_state (s : kd64) : kd64 := KdSendPacket PACKET_TYPE_KD_STATE_MANIPULATE (take sizeof_MANIPULATE_STATE (State s)) None s.
Definition send_data (s : kd64) : kd64 :=
  KdSendPacket PACKET_TYPE_KD_STATE_MANIPULATE (take sizeof_MANIPULATE_STATE (State s)) (Some (Data_bytes s)) s.
Definition set_status (Status : NTSTATUS) : kd64 -> kd64 := put ReturnStatus (status_code Status).

(** ** Printing to the debugger *)

Definition KdpPollBreakInWithPortLock (s : kd64) : outcome (kd64 * bool) :=
  if s.(KdDebuggerEnabled) then
    if control_c_pending s.(kd_line) then Ret (with_line s (clear_control_c s.(kd_line)), true)
    else
      '(l, status) ← dll_poll s.(kd_line);
      Ret (with_line s l, match status with KDP_PACKET_RECEIVED => true | _ => false end)
  else Ret (s, false).

Definition KdpPrintString (Output : list Z) (s : kd64) : outcome (kd64 * bool) :=
  buf ← write_buffer 0 Output (KdpMessageBuffer s);
  let len := Z.of_nat (length Output) in
  let len := if PACKET_MAX_SIZE <? sizeof_DEBUG_IO + len then PACKET_MAX_SIZE - sizeof_DEBUG_IO else len in
  let DebugIo := le_to 4 DbgKdPrintStringApi ++ le_to 2 0 ++ le_to 2 0 ++ le_to 4 len ++ take 4 (unset 4) in
  KdpPollBreakInWithPortLock (KdSendPacket PACKET_TYPE_KD_DEBUG_IO DebugIo (Some (take (Z.to_nat len) buf)) (with_message s buf)).

(** [vsnprintf] ignores the size of the buffer of 100 bytes. *)
Definition KdpDprintf (Format : list Z) (Args : list arg) (s : kd64) : outcome kd64 :=
  '(text, _) ← kvprintf narrow (Some Format) 10 Args;
  if (100 <? length text + 1)%nat then Fault
  else '(s, _) ← KdpPrintString text s; Ret s.

Definition line_of (text : string) : list Z := lit text ++ [10].

(** ** Memory *)

Definition clamp_length (Length : Z) : Z :=
  let most := PACKET_MAX_SIZE - Z.of_nat sizeof_MANIPULATE_STATE in if most <? Length then most else Length.

(** A copy that stops prints the address it stopped at. *)
Definition copy_report (Status : NTSTATUS) (Flags Address : Z) (s : kd64) : outcome kd64 :=
  if NT_SUCCESS Status then Ret s
  else KdpDprintf (line_of "MmDbgCopyMemory: Failing %s for invalid Virtual Address 0x%p")
         [AStr (lit (if truthy (Z.land Flags MMDBG_COPY_WRITE) then "write" else "read")); AInt Address] s.

(** Copying into KdpMessageBuffer and out of it. *)
Definition read_memory (Flags Length : Z) (s : kd64) : outcome kd64 :=
  let Address := fetch TargetBaseAddress s in
  '(Status, m, buf, Actual) ← KdpCopyMemoryChunks IsValidKernelPointer (kd_memory s) Address (KdpMessageBuffer s) Length 0 Flags;
  s ← copy_report Status Flags (Address + Actual) (with_message (with_memory s m) buf);
  Ret (with_Data_Length (put ActualBytes Actual (set_status Status s)) (u16 Actual)).
Definition write_memory (Flags : Z) (s : kd64) : outcome kd64 :=
  let Address := fetch TargetBaseAddress s in
  '(Status, m, buf, Actual) ← KdpCopyMemoryChunks IsValidKernelPointer (kd_memory s) Address (KdpMessageBuffer s) (Data_Length s) 0 Flags;
  s ← copy_report Status Flags (Address + Actual) (with_message (with_memory s m) buf);
  Ret (set_status Status (put ActualBytes Actual s)).

Definition KdpReadVirtualMemory (s : kd64) : outcome kd64 :=
  let Length := clamp_length (fetch TransferCount s) in
  let Address := fetch TargetBaseAddress s in
  if (0xfffff78000000000 <=? Address) || (Address <? Layout.KernelStart) then
    buf ← write_buffer 0 (replicate (Z.to_nat Length) 0) (KdpMessageBuffer s);
    Ret (send_data (set_status STATUS_UNSUCCESSFUL (with_message s buf)))
  else s ← read_memory MMDBG_COPY_UNSAFE Length s; Ret (send_data s).

Definition KdpWriteVirtualMemory (s : kd64) : outcome kd64 :=
  s ← write_memory (Z.lor MMDBG_COPY_UNSAFE MMDBG_COPY_WRITE) s; Ret (send_state s).

(** The caching flags of the physical accesses. *)
Definition cache_flags (Flags CacheFlags : Z) : Z :=
  if CacheFlags =? DBGKD_CACHING_CACHED then Z.lor Flags MMDBG_COPY_CACHED
  else if CacheFlags =? DBGKD_CACHING_UNCACHED then Z.lor Flags MMDBG_COPY_UNCACHED
  else if CacheFlags =? DBGKD_CACHING_WRITE_COMBINED then Z.lor Flags MMDBG_COPY_WRITE_COMBINED
  else Flags.

Definition KdpReadPhysicalMemory (s : kd64) : outcome kd64 :=
  s ← read_memory (cache_flags (Z.lor MMDBG_COPY_UNSAFE MMDBG_COPY_PHYSICAL) (fetch ActualBytes s)) (clamp_length (fetch TransferCount s)) s;
  Ret (send_data s).
Definition KdpWritePhysicalMemory (s : kd64) : outcome kd64 :=
  s ← write_memory (cache_flags (Z.lor (Z.lor MMDBG_COPY_UNSAFE MMDBG_COPY_WRITE) MMDBG_COPY_PHYSICAL) (fetch ActualBytes s)) s;
  Ret (send_state s).

(** ** Breakpoints *)

Definition KdpWriteBreakpoint (s : kd64) : outcome kd64 :=
  '(bp, handle) ← KdpAddBreakpoint IsValidKernelPointer (fetch BreakPointAddress s) s.(kd_bp);
  Ret (send_state (set_status (if handle =? 0 then STATUS_UNSUCCESSFUL else STATUS_SUCCESS) (put BreakPointHandle handle (with_bp s bp)))).

Definition KdpRestoreBreakpoint (s : kd64) : outcome kd64 :=
  '(bp, ok) ← KdpDeleteBreakpoint IsValidKernelPointer (fetch RestoreHandle s) s.(kd_bp);
  Ret (send_state (set_status (if (ok : bool) then STATUS_SUCCESS else STATUS_UNSUCCESSFUL) (with_bp s bp))).

(** ** What is not supported *)

Definition KdpNotSupported (s : kd64) : kd64 := send_state (set_status STATUS_UNSUCCESSFUL s).
Definition unsupported (text : string) (s : kd64) : outcome kd64 :=
  s ← KdpDprintf (line_of text) [] s; Ret (KdpNotSupported s).
Definition KdpSearchMemory : kd64 -> outcome kd64 := unsupported "Memory Search support is unimplemented!".
Definition KdpFillMemory : kd64 -> outcome kd64 := unsupported "Memory Fill support is unimplemented!".
Definition KdpWriteCustomBreakpoint : kd64 -> outcome kd64 := unsupported "Custom Breakpoint Write is unimplemented".
Definition KdpWriteBreakPointEx (s : kd64) : outcome (kd64 * NTSTATUS) :=
  s ← KdpDprintf (line_of "Extended Breakpoint Write support is unimplemented!") [] s;
  Ret (send_data (set_status STATUS_UNSUCCESSFUL s), STATUS_UNSUCCESSFUL).
Definition KdpRestoreBreakPointEx (s : kd64) : outcome kd64 :=
  s ← KdpDprintf (line_of "Extended Breakpoint Restore support is unimplemented!") [] s;
  Ret (send_data (set_status STATUS_UNSUCCESSFUL s)).
(** [KdpSysCheckLowMemory] only fails. *)
Definition KdpCheckLowMemory (s : kd64) : kd64 := send_state (set_status STATUS_UNSUCCESSFUL s).

(** ** Registers *)

Definition KdpGetContext (s : kd64) : outcome kd64 :=
  if fetch Processor s <? KeNumberProcessors then
    l ← read_buffer 0 sizeof_CONTEXT s.(Context);
    buf ← write_buffer 0 l (KdpMessageBuffer s);
    Ret (send_data (set_status STATUS_SUCCESS (with_ContextSent (with_Data_Length (with_message s buf) (Z.of_nat sizeof_CONTEXT)) true)))
  else Ret (send_data (set_status STATUS_UNSUCCESSFUL s)).

Definition KdpSetContext (s : kd64) : outcome kd64 :=
  if (fetch Processor s <? KeNumberProcessors) && s.(KdpContextSent) then
    l ← read_buffer 0 sizeof_CONTEXT (KdpMessageBuffer s);
    c ← write_buffer 0 l s.(Context);
    Ret (send_state (set_status STATUS_SUCCESS (with_Context s c)))
  else Ret (send_state (set_status STATUS_UNSUCCESSFUL s)).

(** The sum of offset and length is one of 32 bits. *)
Definition ex_in_range (s : kd64) : bool := u32 (fetch Ex_Offset s + fetch Ex_ByteCount s) <=? Z.of_nat sizeof_CONTEXT.

Definition KdpGetContextEx (s : kd64) : outcome kd64 :=
  if (fetch Processor s <? KeNumberProcessors) && ex_in_range s then
    l ← read_buffer (Z.to_nat (fetch Ex_Offset s)) (Z.to_nat (fetch Ex_ByteCount s)) s.(Context);
    buf ← write_buffer 0 l (KdpMessageBuffer s);
    let s := put Ex_BytesCopied (fetch Ex_ByteCount s) (with_message s buf) in
    Ret (send_data (set_status STATUS_SUCCESS (with_ContextSent (with_Data_Length s (u16 (fetch Ex_ByteCount s))) true)))
  else Ret (send_data (set_status STATUS_UNSUCCESSFUL (put Ex_BytesCopied 0 s))).

Definition KdpSetContextEx (s : kd64) : outcome kd64 :=
  if (fetch Processor s <? KeNumberProcessors) && ex_in_range s && s.(KdpContextSent) then
    l ← read_buffer 0 (Z.to_nat (fetch Ex_ByteCount s)) (KdpMessageBuffer s);
    c ← write_buffer (Z.to_nat (fetch Ex_Offset s)) l s.(Context);
    Ret (send_state (set_status STATUS_SUCCESS (put Ex_BytesCopied (fetch Ex_ByteCount s) (with_Context s c))))
  else Ret (send_state (set_status STATUS_UNSUCCESSFUL (put Ex_BytesCopied 0 s))).

Definition KdpReadMachineSpecificRegister (s : kd64) : outcome kd64 :=
  '(MsrValue, d) ← readmsr s.(kd_device) (fetch Msr s);
  let s := set_status STATUS_SUCCESS (with_device s d) in
  Ret (send_state (put DataValueHigh (u32 (Z.shiftr MsrValue 32)) (put DataValueLow (u32 MsrValue) s))).

Definition KdpWriteMachineSpecificRegister (s : kd64) : outcome kd64 :=
  d ← writemsr s.(kd_device) (fetch Msr s) (fetch DataValueLow s + Z.shiftl (fetch DataValueHigh s) 32);
  Ret (send_state (set_status STATUS_SUCCESS (with_device s d))).

(** ** Control space: the address of the processor's block, and its registers *)

Definition AMD64_DEBUG_CONTROL_SPACE_KPRCB : Z := 1.
Definition AMD64_DEBUG_CONTROL_SPACE_KSPECIAL : Z := 2.

(** The registers of a processor's block; a block that is not in the array is a
    [Fault]. *)
Definition processor_block (Processor : Z) (s : kd64) : outcome (list Z) :=
  if Processor <? KeNumberProcessors then Ret s.(SpecialRegisters) else Fault.

(** The status, the buffer and [*ActualLength]. *)
Definition KdpSysReadControlSpace (Processor BaseAddress : Z) (Buffer : list Z) (Length : Z) (s : kd64) : outcome (NTSTATUS * list Z * Z) :=
  if BaseAddress =? AMD64_DEBUG_CONTROL_SPACE_KPRCB then
    buf ← write_buffer 0 (take (Z.to_nat (Z.min Length 8)) (le_to 8 (Prcb_address Processor))) Buffer;
    Ret (STATUS_SUCCESS, buf, 8)
  else if BaseAddress =? AMD64_DEBUG_CONTROL_SPACE_KSPECIAL then
    special ← processor_block Processor s;
    buf ← write_buffer 0 (take (Z.to_nat (Z.min Length (Z.of_nat sizeof_KSPECIAL_REGISTERS))) special) Buffer;
    Ret (STATUS_SUCCESS, buf, Z.of_nat sizeof_KSPECIAL_REGISTERS)
  else Ret (STATUS_UNSUCCESSFUL, Buffer, 0).

Definition KdpSysWriteControlSpace (Processor BaseAddress : Z) (Buffer : list Z) (Length : Z) (s : kd64) : outcome (NTSTATUS * kd64 * Z) :=
  if BaseAddress =? AMD64_DEBUG_CONTROL_SPACE_KSPECIAL then
    special ← processor_block Processor s;
    l ← read_buffer 0 (Z.to_nat (Z.min Length (Z.of_nat sizeof_KSPECIAL_REGISTERS))) Buffer;
    special ← write_buffer 0 l special;
    Ret (STATUS_SUCCESS, with_Special s special, Z.of_nat sizeof_KSPECIAL_REGISTERS)
  else Ret (STATUS_UNSUCCESSFUL, s, 0).

Definition KdpReadControlSpace (s : kd64) : outcome kd64 :=
  let Length := clamp_length (fetch TransferCount s) in
  '(Status, buf, Length) ← KdpSysReadControlSpace (fetch Processor s) (fetch TargetBaseAddress s) (KdpMessageBuffer s) Length s;
  Ret (send_data (with_Data_Length (put ActualBytes Length (set_status Status (with_message s buf))) (u16 Length))).

Definition KdpWriteControlSpace (s : kd64) : outcome kd64 :=
  '(Status, s, Length) ← KdpSysWriteControlSpace (fetch Processor s) (fetch TargetBaseAddress s) (KdpMessageBuffer s) (Data_Length s) s;
  Ret (send_data (set_status Status (put ActualBytes Length s))).

(** ** Buses and ports *)

(** [KdpSysReadBusData] and [KdpSysWriteBusData] fail and store nothing. *)
Definition KdpSysReadBusData (ActualLength : Z) : NTSTATUS * Z := (STATUS_UNSUCCESSFUL, ActualLength).
Definition KdpSysWriteBusData (ActualLength : Z) : NTSTATUS * Z := (STATUS_UNSUCCESSFUL, ActualLength).

Definition KdpGetBusData (s : kd64) : kd64 :=
  let Length := clamp_length (fetch Bus_Length s) in
  let '(Status, Length) := KdpSysReadBusData Length in
  send_data (with_Data_Length (put Bus_Length Length (set_status Status s)) (u16 Length)).
Definition KdpSetBusData (s : kd64) : kd64 :=
  let '(Status, Length) := KdpSysWriteBusData (le_of (take 4 (unset 4))) in
  send_state (put Bus_Length Length (set_status Status s)).

(** The checks before a port is accessed. *)
Definition port_check (InterfaceType BusNumber AddressSpace IoAddress DataSize : Z) : NTSTATUS :=
  if negb (InterfaceType =? Isa) || negb (BusNumber =? 0) || negb (AddressSpace =? 1) then STATUS_INVALID_PARAMETER
  else if truthy (Z.land IoAddress (u32 (DataSize - 1))) then STATUS_DATATYPE_MISALIGNMENT
  else if (DataSize =? 1) || (DataSize =? 2) || (DataSize =? 4) then STATUS_SUCCESS
  else STATUS_INVALID_PARAMETER.

(** The first [DataSize] bytes of a field. *)
Definition low_bytes (f : field) (DataSize : Z) : field := {| f_off := f.(f_off); f_size := Z.to_nat DataSize |}.

(** [value] is the field DataValue points to, [size] the one ActualDataSize does. *)
Definition KdpSysReadIoSpace (InterfaceType BusNumber AddressSpace IoAddress DataSize : Z) (value size : field) (s : kd64) : outcome kd64 :=
  let Status := port_check InterfaceType BusNumber AddressSpace IoAddress DataSize in
  if NT_SUCCESS Status then
    '(v, d) ← in_port s.(kd_device) (Z.to_nat DataSize) (u16 IoAddress);
    Ret (set_status Status (put size DataSize (put (low_bytes value DataSize) v (with_device s d))))
  else Ret (set_status Status (put size 0 s)).

Definition KdpSysWriteIoSpace (InterfaceType BusNumber AddressSpace IoAddress DataSize : Z) (value size : field) (s : kd64) : outcome kd64 :=
  let Status := port_check InterfaceType BusNumber AddressSpace IoAddress DataSize in
  if NT_SUCCESS Status then
    d ← out_port s.(kd_device) (Z.to_nat DataSize) (u16 IoAddress) (fetch (low_bytes value DataSize) s);
    Ret (set_status Status (put size DataSize (with_device s d)))
  else Ret (set_status Status (put size 0 s)).

Definition KdpReadIoSpace (s : kd64) : outcome kd64 :=
  s ← KdpSysReadIoSpace Isa 0 1 (fetch IoAddress s) (fetch Io_DataSize s) Io_DataValue Io_DataSize (put Io_DataValue 0 s);
  Ret (send_state s).
Definition KdpWriteIoSpace (s : kd64) : outcome kd64 :=
  s ← KdpSysWriteIoSpace Isa 0 1 (fetch IoAddress s) (fetch Io_DataSize s) Io_DataValue Io_DataSize s;
  Ret (send_state s).
Definition KdpReadIoSpaceExtended (s : kd64) : outcome kd64 :=
  s ← KdpSysReadIoSpace (fetch InterfaceType s) (fetch IoEx_BusNumber s) (fetch AddressSpace s) (fetch IoEx_IoAddress s) (fetch IoEx_DataSize s)
        IoEx_DataValue IoEx_DataSize (put IoEx_DataValue 0 s);
  Ret (send_state s).
Definition KdpWriteIoSpaceExtended (s : kd64) : outcome kd64 :=
  s ← KdpSysWriteIoSpace (fetch InterfaceType s) (fetch IoEx_BusNumber s) (fetch AddressSpace s) (fetch IoEx_IoAddress s) (fetch IoEx_DataSize s)
        IoEx_DataValue IoEx_DataSize s;
  Ret (send_state s).

(** ** The version *)

Definition GetVersion64 : nat := 16.
Definition KdpSysGetVersion (s : kd64) : outcome kd64 :=
  l ← read_buffer 0 40 s.(KdVersionBlock);
  buf ← write_buffer GetVersion64 l (State s);
  Ret (with_State s buf).
Definition KdpGetVersion (s : kd64) : outcome kd64 :=
  s ← KdpSysGetVersion s;
  Ret (send_state (set_status STATUS_SUCCESS (put ApiNumber DbgKdGetVersionApi s))).

(** ** Going on *)

Definition KdpGetStateChange (s : kd64) : kd64 :=
  if 0 <=? s32 (fetch ContinueStatus s) then
    let c := s.(Context) in
    let flags := get EFlags c in
    let c := set EFlags (if truthy (fetch TraceFlag s) then Z.lor flags EFLAGS_TF else Z.land flags (u32 (Z.lnot EFLAGS_TF))) c in
    let s := with_Context s (set Dr6 0 (set Dr7 (fetch ControlSet_Dr7 s) c)) in
    if negb (fetch CurrentSymbolStart s =? 1) then with_symbols s (fetch CurrentSymbolStart s) (fetch CurrentSymbolEnd s) else s
  else s.

(** ** Serving a request *)

Definition is_api (n : Z) (apis : list Z) : bool := existsb (Z.eqb n) apis.
Definition go_on (r : outcome kd64) : outcome (kd64 * option KCONTINUE_STATUS) := s ← r; Ret (s, None).

(** The switch on the request's number; a status ends the loop.  The name that is
    printed first is taken from an array by the number. *)
Definition KdpDispatch (s : kd64) : outcome (kd64 * option KCONTINUE_STATUS) :=
  let api := fetch ApiNumber s in
  if (api <? DbgKdMinimumManipulate) || (DbgKdMaximumManipulate <=? api) then Fault
  else if api =? DbgKdReadVirtualMemoryApi then go_on (KdpReadVirtualMemory s)
  else if api =? DbgKdWriteVirtualMemoryApi then go_on (KdpWriteVirtualMemory s)
  else if api =? DbgKdGetContextApi then go_on (KdpGetContext s)
  else if api =? DbgKdSetContextApi then go_on (KdpSetContext s)
  else if api =? DbgKdWriteBreakPointApi then go_on (KdpWriteBreakpoint s)
  else if api =? DbgKdRestoreBreakPointApi then go_on (KdpRestoreBreakpoint s)
  else if api =? DbgKdReadControlSpaceApi then go_on (KdpReadControlSpace s)
  else if api =? DbgKdWriteControlSpaceApi then go_on (KdpWriteControlSpace s)
  else if api =? DbgKdReadIoSpaceApi then go_on (KdpReadIoSpace s)
  else if api =? DbgKdWriteIoSpaceApi then go_on (KdpWriteIoSpace s)
  else if api =? DbgKdContinueApi2 then
    if 0 <=? s32 (fetch ContinueStatus s) then Ret (KdpGetStateChange s, Some ContinueSuccess) else Ret (s, Some ContinueError)
  else if api =? DbgKdReadPhysicalMemoryApi then go_on (KdpReadPhysicalMemory s)
  else if api =? DbgKdWritePhysicalMemoryApi then go_on (KdpWritePhysicalMemory s)
  else if is_api api [DbgKdQuerySpecialCallsApi; DbgKdSetSpecialCallApi; DbgKdClearSpecialCallsApi]
    then go_on (unsupported "Special Call support is unimplemented!" s)
  else if is_api api [DbgKdSetInternalBreakPointApi; DbgKdGetInternalBreakPointApi]
    then go_on (unsupported "Internal Breakpoint support is unimplemented!" s)
  else if api =? DbgKdReadIoSpaceExtendedApi then go_on (KdpReadIoSpaceExtended s)
  else if api =? DbgKdWriteIoSpaceExtendedApi then go_on (KdpWriteIoSpaceExtended s)
  else if api =? DbgKdGetVersionApi then go_on (KdpGetVersion s)
  else if api =? DbgKdWriteBreakPointExApi then
    '(s, Status) ← KdpWriteBreakPointEx s; Ret (s, if NT_SUCCESS Status then None else Some ContinueError)
  else if api =? DbgKdRestoreBreakPointExApi then go_on (KdpRestoreBreakPointEx s)
  else if api =? DbgKdCauseBugCheckApi then Bugcheck
  else if api =? DbgKdSwitchProcessor then go_on (unsupported "Processor Switch support is unimplemented!" s)
  else if api =? DbgKdPageInApi then go_on (unsupported "Page-In support is unimplemented!" s)
  else if api =? DbgKdReadMachineSpecificRegister then go_on (KdpReadMachineSpecificRegister s)
  else if api =? DbgKdWriteMachineSpecificRegister then go_on (KdpWriteMachineSpecificRegister s)
  else if api =? DbgKdSearchMemoryApi then go_on (KdpSearchMemory s)
  else if api =? DbgKdGetBusDataApi then go_on (Ret (KdpGetBusData s))
  else if api =? DbgKdSetBusDataApi then go_on (Ret (KdpSetBusData s))
  else if api =? DbgKdCheckLowMemoryApi then go_on (Ret (KdpCheckLowMemory s))
  else if api =? DbgKdClearAllInternalBreakpointsApi then go_on (Ret (with_NumInternal s 0))
  else if api =? DbgKdFillMemoryApi then go_on (KdpFillMemory s)
  else if api =? DbgKdSwitchPartition then go_on (unsupported "Partition Switch support is unimplemented!" s)
  else if api =? DbgKdWriteCustomBreakpointApi then go_on (KdpWriteCustomBreakpoint s)
  else if api =? DbgKdGetContextExApi then go_on (KdpGetContextEx s)
  else if api =? DbgKdSetContextExApi then go_on (KdpSetContextEx s)
  else
    s ← KdpDprintf (line_of "Received Unrecognized API 0x%lx") [AInt api] s;
    let s := set_status STATUS_UNSUCCESSFUL (with_Data_Length s 0) in
    go_on (Ret (KdSendPacket PACKET_TYPE_KD_STATE_MANIPULATE (take (Z.to_nat s.(kd_frame).(h_Length)) (State s)) (Some (Data_bytes s)) s)).

(** What is sent again: bytes of their own, or those KdpMessageBuffer has then. *)
Inductive send_data_of := SendNone | SendOwn (l : list Z) | SendMessage (n : nat).
Definition send_bytes (d : send_data_of) (s : kd64) : option (list Z) :=
  match d with SendNone => None | SendOwn l => Some l | SendMessage n => Some (take n (KdpMessageBuffer s)) end.

(** The receive loop and the loop around it. *)
Fixpoint serve_loop (fuel : nat) (PacketType : Z) (SendHeader : list Z) (SendData : send_data_of) (s : kd64) : outcome (kd64 * KCONTINUE_STATUS) :=
  match fuel with
  | O => Diverged
  | S fuel =>
      '(l, m, RecvCode) ← dll_receive PACKET_TYPE_KD_STATE_MANIPULATE s.(kd_line) s.(kd_frame);
      let s := with_frame (with_line s l) m in
      match RecvCode with
      | KDP_PACKET_TIMEOUT => serve_loop fuel PacketType SendHeader SendData s
      | KDP_PACKET_RESEND =>
          let s := KdSendPacket PacketType SendHeader (send_bytes SendData s) s in
          if s.(KdDebuggerNotPresent) then Ret (s, ContinueSuccess) else serve_loop fuel PacketType SendHeader SendData s
      | KDP_PACKET_RECEIVED =>
          '(s, r) ← KdpDispatch s;
          match r with
          | Some status => Ret (s, status)
          | None => serve_loop fuel PacketType SendHeader SendData s
          end
      end
  end.

Definition KdpSendWaitContinue (fuel : nat) (PacketType : Z) (SendHeader : list Z) (SendData : send_data_of) (s : kd64) : outcome (kd64 * KCONTINUE_STATUS) :=
  let s := KdSendPacket PacketType SendHeader (send_bytes SendData s) (with_ContextSent s false) in
  if s.(KdDebuggerNotPresent) then Ret (s, ContinueSuccess) else serve_loop fuel PacketType SendHeader SendData s.
End engine.
