(* ===== verification/KdSession.v ===== *)
(** A session of the kernel debugger: the requests of KdApi.v served one after the
    other.

    [engine_ok] is the engine's invariant against the memory [o] of the debugged
    program; [request_fits] says which requests are in the engine's reach, and what
    happens with others is shown at the end. *)
From Stdlib Require Import ZArith Lia String.
From S2P Require Import Prelude CMemory CrtNumeric CrtPrintf VAS KdMemory KdBreak KdPacket KdState KdApi.
#[local] Open Scope Z_scope.

(** ** Texts the engine prints *)

Lemma number_hex_short s num :
  0 <= num < 2 ^ 64 -> s.(bconv) = false -> s.(width) = 0 -> s.(dwidth) = 0 -> s.(padc) = 32 -> s.(upper) = false ->
  exists l, number narrow s num 16 [] = Ret l /\ (length l <= 19)%nat /\ Forall is_byte l.
Proof.
  intros Hn Hb Hw Hd Hp Hu. rewrite number_layout by (done || lia). eexists. split; [reflexivity |].
  assert (Forall is_byte (num_text s.(upper) 16 (magnitude s num)) /\ (length (num_text s.(upper) 16 (magnitude s num)) <= 16)%nat) as [Hby Hlen].
  { pose proof (magnitude_range s num Hn) as Hm. unfold num_text. rewrite Hu, length_rev, length_fmap. split.
    - apply Forall_rev, Forall_fmap. eapply Forall_impl; [apply (ldigits_range 64 16); lia |].
      intros d Hdr. cbn in *. apply digit_chr_byte. lia.
    - rewrite (ldigits_fuel 16 64); [apply ldigits_length | lia | exact Hm | lia]. }
  unfold precision. rewrite Hp, Hw, Hd. change (32 =? 48) with false. rewrite andb_false_r.
  assert (Forall is_byte (number_prefix s num 16) /\ (length (number_prefix s num 16) <= 3)%nat) as [Hpb Hpl].
  { unfold number_prefix. split; [apply Forall_app; split; repeat case_match; repeat constructor; unfold is_byte; lia |].
    rewrite length_app. repeat case_match; cbn; lia. }
  assert (forall k c, k <= 0 -> pad k c = []) as Hpad by (intros k c Hk; unfold pad; by replace (Z.to_nat k) with 0%nat by lia).
  rewrite !Hpad by lia. destruct s.(ladjust); cbn [negb app]; rewrite ?app_nil_r, length_app; (split; [lia | by apply Forall_app]).
Qed.

Lemma conv_s fl radix retval fmt0 str rest ap fuel :
  fl.(fl_fmt) 115 = 115 ->
  reswitch (S fuel) fl radix retval fmt0 spec0 (115 :: rest) (AStr str :: ap) = done_with (conv_string fl spec0 str) rest ap.
Proof. intros H. cbn [reswitch]. rewrite H. reflexivity. Qed.

Lemma conv_p fl radix retval fmt0 v rest ap fuel :
  fl.(fl_fmt) 112 = 112 ->
  reswitch (S fuel) fl radix retval fmt0 spec0 (112 :: rest) (AInt v :: ap)
  = (out ← number fl (set_adj false true false false spec0) (u64 v) 16 []; done_with out rest ap).
Proof. intros H. cbn [reswitch]. rewrite H. reflexivity. Qed.

Lemma conv_lx fl radix retval fmt0 v rest ap fuel :
  fl.(fl_fmt) 108 = 108 -> fl.(fl_fmt) 120 = 120 ->
  reswitch (S (S fuel)) fl radix retval fmt0 spec0 (108 :: 120 :: rest) (AInt v :: ap)
  = (out ← number fl (set_long false true spec0) (u32 v) 16 []; done_with out rest ap).
Proof. intros H1 H2. cbn [reswitch]. rewrite H1, H2. reflexivity. Qed.

(** Text without a percent sign. *)
Definition literal (t : list Z) : Prop := Forall (fun c => is_byte c /\ c <> 37) t.

Lemma loop_text t fuel rest ap out st :
  literal t -> kvprintf_loop (length t + fuel) narrow 10 (t ++ rest) ap false out st = kvprintf_loop fuel narrow 10 rest ap false (out ++ t) st.
Proof.
  intros Ht. apply loop_literal. eapply Forall_impl; [exact Ht |]. intros c [Hb Hc]. split; [by apply u8_id | by left].
Qed.

Lemma loop_newline fuel ap out st : kvprintf_loop (S (S fuel)) narrow 10 [10] ap false out st = Ret (out ++ [10], st).
Proof. reflexivity. Qed.

Lemma kvprintf_text t rest ap :
  literal t ->
  kvprintf narrow (Some (t ++ rest)) 10 ap = ('(out, st) ← kvprintf_loop (S (length rest)) narrow 10 rest ap false t []; Ret (stored_chars narrow out, st)).
Proof.
  intros Ht. apply kvprintf_prefix; [lia |]. eapply Forall_impl; [exact Ht |]. intros c [Hb Hc]. split; [split; by apply u8_id | done].
Qed.

Lemma stored_narrow l : Forall is_byte l -> stored_chars narrow l = l.
Proof. intros H. apply stored_plain. eapply Forall_impl; [exact H |]. intros c Hc. by split; apply u8_id. Qed.

Lemma lit_literal t : forallb (fun c => (0 <=? c) && (c <? 256) && negb (c =? 37)) t = true -> literal t.
Proof.
  intros H. apply Forall_forall. intros c Hc. rewrite forallb_forall in H. apply list_elem_of_In, H in Hc. zbool. unfold is_byte. lia.
Qed.

Lemma literal_bytes t : literal t -> Forall is_byte t.
Proof. intros H. eapply Forall_impl; [exact H |]. by intros c [Hc _]. Qed.

(** What is printed when a copy stops at an address, and how long it is. *)
Lemma failing_text (write : bool) a :
  0 <= a < 2 ^ 64 ->
  exists text, kvprintf narrow (Some (line_of "MmDbgCopyMemory: Failing %s for invalid Virtual Address 0x%p")) 10
      [AStr (lit (if write then "write" else "read")); AInt a] = Ret (text, []) /\
    (length text <= 99)%nat /\ Forall is_byte text.
Proof.
  intros Ha. destruct (number_hex_short (set_adj false true false false spec0) a) as (l & Hl & Hlen & Hby); [lia | done.. |].
  set (t1 := lit "MmDbgCopyMemory: Failing "). set (t2 := lit " for invalid Virtual Address 0x"). set (w := lit (if write then "write" else "read")).
  assert (literal t1) as H1 by (apply lit_literal; reflexivity). assert (literal t2) as H2 by (apply lit_literal; reflexivity).
  assert (conv_string narrow spec0 w = w /\ Forall is_byte w /\ (length w <= 5)%nat) as (Hw & Hwb & Hwl).
  { destruct write; (split; [reflexivity |]; split; [apply literal_bytes, lit_literal; reflexivity | cbn; lia]). }
  change (line_of "MmDbgCopyMemory: Failing %s for invalid Virtual Address 0x%p") with (t1 ++ 37 :: 115 :: t2 ++ [37; 112; 10]).
  exists (t1 ++ w ++ t2 ++ l ++ [10]). split.
  - rewrite kvprintf_text by done. cbn [length]. rewrite loop_percent by done. cbn [length]. rewrite conv_s, Hw by done. unfold done_with. cbn [mbind outcome_bind cv_fmt cv_ap cv_stop cv_out cv_store app].
    rewrite length_app. change (length [37; 112; 10]) with 3%nat. replace (S (S (length t2 + 3))) with (length t2 + 5)%nat by lia. rewrite loop_text by done.
    rewrite loop_percent by done. cbn [length]. rewrite conv_p by done. rewrite wrap_small by lia. rewrite Hl. unfold done_with. cbn [mbind outcome_bind cv_fmt cv_ap cv_stop cv_out cv_store app].
    rewrite loop_newline. cbn [mbind outcome_bind].
    rewrite <- !app_assoc. by rewrite stored_narrow by (repeat apply Forall_app_2; auto using literal_bytes; repeat constructor; unfold is_byte; lia).
  - rewrite !length_app. split; [cbn -[w]; lia |]. repeat apply Forall_app_2; auto using literal_bytes. repeat constructor; unfold is_byte; lia.
Qed.

Lemma unrecognized_text api :
  exists text, kvprintf narrow (Some (line_of "Received Unrecognized API 0x%lx")) 10 [AInt api] = Ret (text, []) /\
    (length text <= 99)%nat /\ Forall is_byte text.
Proof.
  destruct (number_hex_short (set_long false true spec0) (u32 api)) as (l & Hl & Hlen & Hby); [pose proof (wrap_range 32 api); lia | done.. |].
  set (t1 := lit "Received Unrecognized API 0x"). assert (literal t1) as H1 by (apply lit_literal; reflexivity).
  change (line_of "Received Unrecognized API 0x%lx") with (t1 ++ [37; 108; 120; 10]). exists (t1 ++ l ++ [10]). split.
  - rewrite kvprintf_text by done. cbn [length]. rewrite loop_percent by done. cbn [length]. rewrite conv_lx, Hl by done. unfold done_with. cbn [mbind outcome_bind cv_fmt cv_ap cv_stop cv_out cv_store app].
    rewrite loop_newline. cbn [mbind outcome_bind].
    rewrite <- !app_assoc. by rewrite stored_narrow by (repeat apply Forall_app_2; auto using literal_bytes; repeat constructor; unfold is_byte; lia).
  - rewrite !length_app. split; [cbn; lia |]. repeat apply Forall_app_2; auto using literal_bytes. repeat constructor; unfold is_byte; lia.
Qed.

(** A field lies in its structure, and apart from another. *)
Ltac in_struct := apply Nat.leb_le; reflexivity.
Ltac apart := unfold fields_apart; first [left; in_struct | right; in_struct].

(** ** The invariant *)

(** What the machine and the loaded library promise: ports answer, polling the line
    returns, and status codes have 32 bits. *)
Class MachineOk {machine : Machine} {dll : KdDll} := {
  status_range : forall x, 0 <= status_code x < 2 ^ 32;
  ports_answer : forall d n p, exists r, in_port d n p = Ret r;
  ports_take : forall d n p v, exists d', out_port d n p v = Ret d';
  poll_returns : forall l, exists r, dll_poll l = Ret r
}.

Section session.
Context {machine : Machine} {dll : KdDll} {laws : MachineOk} (valid : Z -> bool).

(** The buffers have the sizes the code gives them. *)
Record frame_ok (m : message) : Prop := {
  fr_header : h_Length m = Z.of_nat sizeof_MANIPULATE_STATE;
  fr_state : length m.(h_Buffer) = sizeof_MANIPULATE_STATE /\ Forall is_byte m.(h_Buffer);
  fr_message : Z.of_nat (length m.(d_Buffer)) = 4096 /\ Forall is_byte m.(d_Buffer);
  fr_length : 0 <= m.(d_Length) <= 4096
}.

Record engine_ok (o : mem) (s : kd64) : Prop := {
  en_mem : mem_ok o;
  en_valid : valid_mapped valid o;
  en_bp : bp_ok o s.(kd_bp);
  en_frame : frame_ok s.(kd_frame);
  en_context : length s.(Context) = sizeof_CONTEXT /\ Forall is_byte s.(Context);
  en_special : length s.(SpecialRegisters) = sizeof_KSPECIAL_REGISTERS /\ Forall is_byte s.(SpecialRegisters);
  en_version : length s.(KdVersionBlock) = 40%nat /\ Forall is_byte s.(KdVersionBlock)
}.

(** The packets of the exchange with the debugger: all but the text that is printed meanwhile. *)
Definition exchanged (l : list packet) : list packet := filter (fun p => p.(p_type) <> PACKET_TYPE_KD_DEBUG_IO) l.

Lemma exchanged_app l p : p.(p_type) <> PACKET_TYPE_KD_DEBUG_IO -> exchanged (l ++ [p]) = exchanged l ++ [p].
Proof. intros H. unfold exchanged. rewrite filter_app. cbn. by rewrite decide_True. Qed.

(** [s'] is a state in which the handler of the request in [s] has not answered yet. *)
Record prepared (o : mem) (s s' : kd64) : Prop := {
  pr_ok : engine_ok o s';
  pr_api : fetch ApiNumber s' = fetch ApiNumber s;
  pr_present : s'.(KdDebuggerNotPresent) = s.(KdDebuggerNotPresent);
  pr_sent : exchanged s'.(sent) = exchanged s.(sent)
}.

Lemma prepared_refl o s : engine_ok o s -> prepared o s s.
Proof. by split. Qed.

(** Changes of the engine's state, one at a time. *)
Lemma prepared_put o s s' f v :
  fields_apart ApiNumber f -> prepared o s s' -> prepared o s (put f v s').
Proof.
  intros Hf [[Hm Hv Hb [Hh Hst Hms Hl] Hc Hsp Hver] Ha Hp Hs]. split; [split; try done | | done | done].
  - split; cbn; try done. destruct Hst. split; [by rewrite set_length | by apply set_bytes].
  - rewrite <- Ha. change (get ApiNumber (set f v (State s')) = get ApiNumber (State s')). by apply get_set_ne.
Qed.

Lemma prepared_status o s s' x : prepared o s s' -> prepared o s (set_status x s').
Proof. apply prepared_put. apart. Qed.

Lemma prepared_message o s s' l :
  Z.of_nat (length l) = 4096 -> Forall is_byte l -> prepared o s s' -> prepared o s (with_message s' l).
Proof. intros Hn Hl [[Hm Hv Hb [Hh Hst Hms Hlen] Hc Hsp Hver] Ha Hp Hs]. by do 2 (split; try done). Qed.

Lemma prepared_Data_Length o s s' n : 0 <= n <= 4096 -> prepared o s s' -> prepared o s (with_Data_Length s' n).
Proof. intros Hn [[Hm Hv Hb [Hh Hst Hms Hlen] Hc Hsp Hver] Ha Hp Hs]. by do 2 (split; try done). Qed.

Lemma prepared_bp o o' s s' b :
  mem_ok o' -> valid_mapped valid o' -> bp_ok o' b -> prepared o s s' -> prepared o' s (with_bp s' b).
Proof. intros H1 H2 H3 [[Hm Hv Hb Hf Hc Hsp Hver] Ha Hp Hs]. by do 2 (split; try done). Qed.

Lemma prepared_device o s s' d : prepared o s s' -> prepared o s (with_device s' d).
Proof. intros [[Hm Hv Hb Hf Hc Hsp Hver] Ha Hp Hs]. by do 2 (split; try done). Qed.

Lemma prepared_line o s s' l : prepared o s s' -> prepared o s (with_line s' l).
Proof. intros [[Hm Hv Hb Hf Hc Hsp Hver] Ha Hp Hs]. by do 2 (split; try done). Qed.

Lemma prepared_Context o s s' c :
  length c = sizeof_CONTEXT -> Forall is_byte c -> prepared o s s' -> prepared o s (with_Context s' c).
Proof. intros H1 H2 [[Hm Hv Hb Hf Hc Hsp Hver] Ha Hp Hs]. by do 2 (split; try done). Qed.

Lemma prepared_ContextSent o s s' b : prepared o s s' -> prepared o s (with_ContextSent s' b).
Proof. intros [[Hm Hv Hb Hf Hc Hsp Hver] Ha Hp Hs]. by do 2 (split; try done). Qed.

Lemma prepared_Special o s s' c :
  length c = sizeof_KSPECIAL_REGISTERS -> Forall is_byte c -> prepared o s s' -> prepared o s (with_Special s' c).
Proof. intros H1 H2 [[Hm Hv Hb Hf Hc Hsp Hver] Ha Hp Hs]. by do 2 (split; try done). Qed.

Lemma prepared_print o s s' header data :
  prepared o s s' -> prepared o s (KdSendPacket PACKET_TYPE_KD_DEBUG_IO header data s').
Proof.
  intros [[Hm Hv Hb Hf Hc Hsp Hver] Ha Hp Hs]. split; [by split | done | done |]. cbn. unfold exchanged in *. rewrite filter_app, Hs. by rewrite app_nil_r.
Qed.

Create HintDb kd discriminated.
#[local] Hint Resolve prepared_refl prepared_status prepared_device prepared_line prepared_ContextSent : kd.

Lemma write_buffer_run k l buf : (k + length l <= length buf)%nat -> write_buffer k l buf = Ret (list_inserts k l buf).
Proof. intros H. unfold write_buffer. destruct (Nat.leb_spec (k + length l) (length buf)); [done | lia]. Qed.
Lemma read_buffer_run k n buf : (k + n <= length buf)%nat -> read_buffer k n buf = Ret (take n (drop k buf)).
Proof. intros H. unfold read_buffer. destruct (Nat.leb_spec (k + n) (length buf)); [done | lia]. Qed.

(** Printing leaves everything but KdpMessageBuffer and the line. *)
Lemma KdpDprintf_run o s s' fmt ap text st :
  kvprintf narrow (Some fmt) 10 ap = Ret (text, st) -> (length text <= 99)%nat -> Forall is_byte text ->
  prepared o s s' -> exists s1, KdpDprintf fmt ap s' = Ret s1 /\ prepared o s s1 /\ kd_memory s1 = kd_memory s' /\ s1.(Context) = s'.(Context).
Proof using laws.
  intros Ht Hlen Hby Hp. pose proof (pr_ok _ _ _ Hp) as Hok. destruct (fr_message _ (en_frame _ _ Hok)) as [Hl Hb].
  unfold KdpDprintf. rewrite Ht. cbn [mbind outcome_bind]. destruct (Nat.ltb_spec 100 (length text + 1)); [lia |].
  unfold KdpPrintString. rewrite write_buffer_run by (unfold KdpMessageBuffer; lia). cbn [mbind outcome_bind].
  set (s2 := KdSendPacket _ _ _ _).
  assert (prepared o s s2) as H2.
  { apply prepared_print, prepared_message; [by rewrite length_inserts | by apply inserts_bytes | done]. }
  unfold KdpPollBreakInWithPortLock. destruct (KdDebuggerEnabled s2); cbn [mbind outcome_bind]; [| by exists s2].
  destruct (control_c_pending _); cbn [mbind outcome_bind]; [eexists; split; [reflexivity |]; split; [by apply prepared_line | done] |].
  destruct (poll_returns (kd_line s2)) as [[l st'] ->]. cbn [mbind outcome_bind]. eexists. split; [reflexivity |]. split; [by apply prepared_line | done].
Qed.

(** A request is answered: one packet with its number, after what was printed. *)
Definition answered (o : mem) (s s' : kd64) : Prop :=
  exists s1 data, s' = KdSendPacket PACKET_TYPE_KD_STATE_MANIPULATE (take sizeof_MANIPULATE_STATE (State s1)) data s1 /\ prepared o s s1.

Lemma answered_state o s s1 : prepared o s s1 -> answered o s (send_state s1).
Proof. intros H. by exists s1, None. Qed.
Lemma answered_data o s s1 : prepared o s s1 -> answered o s (send_data s1).
Proof. intros H. by exists s1, (Some (Data_bytes s1)). Qed.
#[local] Hint Resolve answered_state answered_data : kd.

Lemma fetch_range o s s' f : prepared o s s' -> field_in f sizeof_MANIPULATE_STATE -> 0 <= fetch f s' < 256 ^ Z.of_nat f.(f_size).
Proof.
  intros Hp Hf. destruct (fr_state _ (en_frame _ _ (pr_ok _ _ _ Hp))) as [Hl Hb]. apply get_range; [exact Hb |]. unfold State. by rewrite Hl.
Qed.

Lemma clamp_range n : 0 <= n -> 0 <= clamp_length n <= 3944 /\ clamp_length n <= n.
Proof. intros H. unfold clamp_length. change (PACKET_MAX_SIZE - Z.of_nat sizeof_MANIPULATE_STATE) with 3944. cbv zeta. zcase; lia. Qed.

Lemma copy_report_run o s s' Status Flags a :
  0 <= a < 2 ^ 64 -> prepared o s s' ->
  exists s1, copy_report Status Flags a s' = Ret s1 /\ prepared o s s1 /\ kd_memory s1 = kd_memory s'.
Proof using laws.
  intros Ha Hp. unfold copy_report. destruct (NT_SUCCESS Status); [by exists s' |].
  destruct (failing_text (truthy (Z.land Flags MMDBG_COPY_WRITE)) a Ha) as (text & Ht & Hlen & Hby).
  replace (lit (if truthy _ then _ else _)) with (lit (if truthy (Z.land Flags MMDBG_COPY_WRITE) then "write" else "read")) by done.
  destruct (KdpDprintf_run o s s' _ _ text [] Ht Hlen Hby Hp) as (s1 & -> & H1 & H2 & _). by exists s1.
Qed.

Lemma engine_memory o s : engine_ok o s -> mem_ok (kd_memory s) /\ valid_mapped valid (kd_memory s).
Proof. intros [Hm Hv [Hc _] _ _ _ _]. split; [by eapply core_mem_ok | by eapply core_valid]. Qed.

(** Reading memory changes nothing but the buffer. *)
Lemma read_memory_run o s s' Flags Length :
  prepared o s s' -> truthy (Z.land Flags MMDBG_COPY_WRITE) = false -> 0 <= Length <= 4096 -> fetch TargetBaseAddress s' + Length < 2 ^ 64 ->
  exists s1, read_memory valid Flags Length s' = Ret s1 /\ prepared o s s1.
Proof using laws.
  intros Hp Hfl Hlen Hmax. pose proof (pr_ok _ _ _ Hp) as Hok. destruct (engine_memory o s' Hok) as [Hm Hv].
  destruct (fr_message _ (en_frame _ _ Hok)) as [Hbl Hbb]. pose proof (fetch_range o s s' TargetBaseAddress Hp ltac:(in_struct)) as Ha. change (256 ^ _) with (2 ^ 64) in Ha.
  unfold read_memory. destruct (KdpCopyMemoryChunks_run valid (kd_memory s') (fetch TargetBaseAddress s') (KdpMessageBuffer s') Length 0 Flags)
    as (m' & buf' & n & Hr & Hn & _ & _ & Hc); [done | done | done | unfold KdpMessageBuffer; lia | lia | lia |].
  rewrite Hr. cbn [mbind outcome_bind]. rewrite Hfl in Hc. destruct (copied_keeps valid _ _ _ _ _ _ _ _ Hc) as (_ & Hbb' & _ & Hbl'); [done | done | done | unfold KdpMessageBuffer; lia |].
  destruct Hc as (-> & _). set (Status := if _ =? _ then _ else _).
  assert (prepared o s (with_message (with_memory s' (kd_memory s')) buf')) as H1.
  { apply prepared_message; [by rewrite Hbl' | done |]. assert (with_memory s' (kd_memory s') = s') as -> by (by destruct s' as [[] ? ? ? ? ? ? ? ? ? ? ? ?]). done. }
  destruct (copy_report_run o s _ Status Flags (fetch TargetBaseAddress s' + Z.of_nat n) ltac:(lia) H1) as (s2 & -> & H2 & _).
  cbn [mbind outcome_bind]. eexists. split; [reflexivity |]. apply prepared_Data_Length; [rewrite wrap_small; lia |].
  apply prepared_put; [apart |]. by apply prepared_status.
Qed.

(** The program with bytes of it replaced. *)
Definition patched (a : Z) (l : list Z) (o : mem) : mem := mem_of a l ∪ o.

Lemma patched_lookup a l o x : patched a l o !! x = if (a <=? x) && (x <? a + Z.of_nat (length l)) then l !! Z.to_nat (x - a) else o !! x.
Proof.
  unfold patched. rewrite lookup_union, lookup_mem_of. repeat zcase; cbn [andb]; try (by destruct (o !! x)).
  - destruct (lookup_lt_is_Some_2 l (Z.to_nat (x - a))) as [c ->]; [lia |]. by destruct (o !! x).
  - rewrite (proj2 (lookup_ge_None l _)) by lia. by destruct (o !! x).
Qed.

(** No breakpoint has a byte in [[a, a + n)]. *)
Definition unbroken (b : kd) (a n : Z) : Prop :=
  forall i e, b.(KdpBreakpointTable) !! i = Some e -> saved e = true -> e.(bp_Address) < a \/ a + n <= e.(bp_Address).

Lemma written_saved e : written e = true -> saved e = true.
Proof. unfold saved. by intros ->. Qed.

(** Writing where no breakpoint is changes the program there. *)
Lemma bp_ok_patched o b a l m' :
  bp_ok o b -> unbroken b a (Z.of_nat (length l)) ->
  (forall x, m' !! x = if (a <=? x) && (x <? a + Z.of_nat (length l)) then l !! Z.to_nat (x - a) else b.(kd_mem) !! x) ->
  bp_ok (patched a l o) (with_kd_mem b m').
Proof.
  intros [[Hl He Hd Hr] Hs] Hu Hm. split; [split; cbn; try done | done].
  - intros i e Hi. destruct (He i e Hi) as [H1 H2 H3 H4]. split; [done | done | |].
    + intros Hw. rewrite Hm. destruct (Hu i e Hi (written_saved e Hw)); repeat zcase; cbn [andb]; try lia; auto.
    + intros Hsv. rewrite patched_lookup. destruct (Hu i e Hi Hsv); repeat zcase; cbn [andb]; try lia; auto.
  - intros x Hx. rewrite Hm, patched_lookup. by destruct (_ && _); [| apply Hr].
Qed.

Lemma patched_ok a l o : mem_ok o -> Forall is_byte l -> mem_ok (patched a l o).
Proof.
  intros Ho Hl x c. rewrite patched_lookup. destruct (_ && _); [| apply Ho]. intros H. exact (Forall_lookup_1 _ _ _ _ Hl H).
Qed.

Lemma patched_valid a l o : valid_mapped valid o -> valid_mapped valid (patched a l o).
Proof.
  intros Hv y x Hy Hx. rewrite patched_lookup. repeat zcase; cbn [andb]; try by apply (Hv y). apply lookup_lt_is_Some_2. lia.
Qed.

(** Writing memory where no breakpoint is: the program is patched with what was
    copied. *)
Lemma write_memory_run o s Flags :
  engine_ok o s -> truthy (Z.land Flags MMDBG_COPY_WRITE) = true -> fetch TargetBaseAddress s + Data_Length s < 2 ^ 64 ->
  unbroken s.(kd_bp) (fetch TargetBaseAddress s) (Data_Length s) ->
  exists s1 l, write_memory valid Flags s = Ret s1 /\ prepared (patched (fetch TargetBaseAddress s) l o) s s1 /\
    (exists n, l = take n (KdpMessageBuffer s) /\ Z.of_nat n <= Data_Length s /\
       ((forall x, fetch TargetBaseAddress s <= x < fetch TargetBaseAddress s + Data_Length s -> valid x = true) -> Z.of_nat n = Data_Length s)).
Proof using laws.
  intros Hok Hfl Hmax Hu. destruct (engine_memory o s Hok) as [Hm Hv].
  destruct (fr_message _ (en_frame _ _ Hok)) as [Hbl Hbb]. pose proof (fr_length _ (en_frame _ _ Hok)) as Hdl. fold (Data_Length s) in Hdl.
  pose proof (fetch_range o s s TargetBaseAddress (prepared_refl o s Hok) ltac:(in_struct)) as Ha. change (256 ^ _) with (2 ^ 64) in Ha.
  unfold write_memory. set (a := fetch TargetBaseAddress s) in *.
  destruct (KdpCopyMemoryChunks_run valid (kd_memory s) a (KdpMessageBuffer s) (Data_Length s) 0 Flags)
    as (m' & buf' & n & Hr & Hn & Hall & _ & Hc); [done | done | done | unfold KdpMessageBuffer; lia | lia | lia |].
  rewrite Hr. cbn [mbind outcome_bind]. rewrite Hfl in Hc. destruct Hc as (-> & Hm'). set (l := take n (KdpMessageBuffer s)).
  assert (length l = n) as Hl by (unfold l; rewrite length_take; unfold KdpMessageBuffer; lia).
  assert (Forall is_byte l) as Hlb by (by apply Forall_take).
  set (Status := if _ =? _ then _ else _).
  assert (prepared (patched a l o) s (with_message (with_memory s m') (KdpMessageBuffer s))) as H1.
  { apply prepared_message; [done | done |]. eapply prepared_bp; [| | | by apply prepared_refl].
    - apply patched_ok; [apply Hok | done].
    - apply patched_valid, Hok.
    - apply bp_ok_patched; [apply Hok | | ].
      + intros i e Hi He. destruct (Hu i e Hi He); [left | right]; lia.
      + intros x. rewrite Hl, Hm'. destruct (_ && _) eqn:Hx; [| done]. zbool. unfold l. rewrite lookup_take_lt by lia. done. }
  destruct (copy_report_run _ s _ Status Flags (a + Z.of_nat n) ltac:(lia) H1) as (s2 & -> & H2 & _).
  cbn [mbind outcome_bind]. eexists _, l. split; [reflexivity |]. split.
  - apply prepared_status, prepared_put; [apart | done].
  - by exists n.
Qed.

Lemma cache_flags_write Flags c : truthy (Z.land (cache_flags Flags c) MMDBG_COPY_WRITE) = truthy (Z.land Flags MMDBG_COPY_WRITE).
Proof.
  unfold cache_flags, MMDBG_COPY_CACHED, MMDBG_COPY_UNCACHED, MMDBG_COPY_WRITE_COMBINED, MMDBG_COPY_WRITE.
  repeat case_match; rewrite ?Z.land_lor_distr_l, ?Z.lor_0_r; done.
Qed.

(** ** The handlers *)

Definition write_target (s : kd64) (o o' : mem) : Prop :=
  exists l, o' = patched (fetch TargetBaseAddress s) l o /\ l = take (length l) (KdpMessageBuffer s) /\ Z.of_nat (length l) <= Data_Length s.

Lemma KdpReadVirtualMemory_run o s : engine_ok o s -> exists s', KdpReadVirtualMemory valid s = Ret s' /\ answered o s s'.
Proof using laws.
  intros Hok. pose proof (prepared_refl o s Hok) as Hp. unfold KdpReadVirtualMemory. destruct (fr_message _ (en_frame _ _ Hok)) as [Hbl Hbb].
  pose proof (fetch_range o s s TransferCount Hp ltac:(in_struct)) as Hc. destruct (clamp_range (fetch TransferCount s) ltac:(lia)) as [Hlen _].
  destruct (Z.leb_spec 0xfffff78000000000 (fetch TargetBaseAddress s)); cbn [orb].
  2: destruct (Z.ltb_spec (fetch TargetBaseAddress s) Layout.KernelStart).
  3: { destruct (read_memory_run o s s MMDBG_COPY_UNSAFE _ Hp eq_refl ltac:(split; [apply Hlen | lia])) as (s1 & -> & H1); [lia |].
       cbn [mbind outcome_bind]. eexists. split; [reflexivity |]. by apply answered_data. }
  all: rewrite write_buffer_run by (rewrite length_replicate; unfold KdpMessageBuffer; lia); cbn [mbind outcome_bind];
    eexists; (split; [reflexivity |]); apply answered_data, prepared_status, prepared_message;
    [by rewrite length_inserts | apply inserts_bytes; [apply Forall_replicate; unfold is_byte; lia | done] | done].
Qed.

Lemma KdpReadPhysicalMemory_run o s :
  engine_ok o s -> fetch TargetBaseAddress s + clamp_length (fetch TransferCount s) < 2 ^ 64 ->
  exists s', KdpReadPhysicalMemory valid s = Ret s' /\ answered o s s'.
Proof using laws.
  intros Hok Hmax. pose proof (prepared_refl o s Hok) as Hp. unfold KdpReadPhysicalMemory.
  pose proof (fetch_range o s s TransferCount Hp ltac:(in_struct)) as Hc. destruct (clamp_range (fetch TransferCount s) ltac:(lia)) as [Hlen _].
  destruct (read_memory_run o s s (cache_flags (Z.lor MMDBG_COPY_UNSAFE MMDBG_COPY_PHYSICAL) (fetch ActualBytes s)) (clamp_length (fetch TransferCount s)) Hp)
    as (s1 & -> & H1); [by rewrite cache_flags_write | lia | done |].
  cbn [mbind outcome_bind]. eexists. split; [reflexivity |]. by apply answered_data.
Qed.

Lemma write_run o s Flags :
  engine_ok o s -> truthy (Z.land Flags MMDBG_COPY_WRITE) = true -> fetch TargetBaseAddress s + Data_Length s < 2 ^ 64 ->
  unbroken s.(kd_bp) (fetch TargetBaseAddress s) (Data_Length s) ->
  exists s' o', (s ← write_memory valid Flags s; Ret (send_state s)) = Ret s' /\ answered o' s s' /\ write_target s o o'.
Proof using laws.
  intros Hok Hfl Hmax Hu. destruct (write_memory_run o s Flags Hok Hfl Hmax Hu) as (s1 & l & -> & H1 & n & -> & Hn & _).
  cbn [mbind outcome_bind]. eexists _, _. split; [reflexivity |]. split; [by apply answered_state |].
  pose proof (fr_length _ (en_frame _ _ Hok)) as Hdl. destruct (fr_message _ (en_frame _ _ Hok)) as [Hbl _]. fold (Data_Length s) in Hdl.
  exists (take n (KdpMessageBuffer s)). split; [done |]. rewrite length_take. unfold KdpMessageBuffer in *. rewrite Nat.min_l by lia. done.
Qed.

Lemma unsupported_run o s text :
  literal (line_of text) -> (length (line_of text) <= 99)%nat -> engine_ok o s ->
  exists s1, KdpDprintf (line_of text) [] s = Ret s1 /\ prepared o s s1.
Proof using laws.
  intros Hlit Hlen Hok. destruct (KdpDprintf_run o s s (line_of text) [] (line_of text) []) as (s1 & H1 & H2 & _).
  - rewrite <- (app_nil_r (line_of text)) at 1. rewrite kvprintf_text by done. cbn. by rewrite stored_narrow by (by apply literal_bytes).
  - done.
  - by apply literal_bytes.
  - by apply prepared_refl.
  - by exists s1.
Qed.

Lemma Context_buffer o s : engine_ok o s -> take sizeof_CONTEXT (drop 0 s.(Context)) = s.(Context).
Proof. intros Hok. destruct (en_context _ _ Hok) as [Hl _]. rewrite drop_0. apply take_ge. lia. Qed.

Lemma KdpGetContext_run o s : engine_ok o s -> exists s', KdpGetContext s = Ret s' /\ answered o s s'.
Proof.
  intros Hok. pose proof (prepared_refl o s Hok) as Hp. unfold KdpGetContext. destruct (fr_message _ (en_frame _ _ Hok)) as [Hbl Hbb]. destruct (en_context _ _ Hok) as [Hcl Hcb].
  destruct (_ <? _); [| eexists; split; [reflexivity |]; by apply answered_data, prepared_status].
  rewrite read_buffer_run by lia. cbn [mbind outcome_bind]. rewrite (Context_buffer o) by done.
  rewrite write_buffer_run by (rewrite Hcl; unfold KdpMessageBuffer; apply Nat2Z.inj_le; rewrite Hbl; vm_compute; congruence). cbn [mbind outcome_bind].
  eexists. split; [reflexivity |]. apply answered_data, prepared_status, prepared_ContextSent, prepared_Data_Length; [vm_compute; split; congruence |].
  apply prepared_message; [by rewrite length_inserts | by apply inserts_bytes | done].
Qed.

Lemma KdpSetContext_run o s : engine_ok o s -> exists s', KdpSetContext s = Ret s' /\ answered o s s'.
Proof.
  intros Hok. pose proof (prepared_refl o s Hok) as Hp. unfold KdpSetContext. destruct (fr_message _ (en_frame _ _ Hok)) as [Hbl Hbb]. destruct (en_context _ _ Hok) as [Hcl Hcb].
  destruct (_ && _); [| eexists; split; [reflexivity |]; by apply answered_state, prepared_status].
  assert (0 + sizeof_CONTEXT <= length (KdpMessageBuffer s))%nat as Hfit by (unfold KdpMessageBuffer; apply Nat2Z.inj_le; rewrite Hbl; vm_compute; congruence).
  rewrite read_buffer_run by done. cbn [mbind outcome_bind]. rewrite write_buffer_run by (rewrite length_take, length_drop; lia). cbn [mbind outcome_bind].
  eexists. split; [reflexivity |]. apply answered_state, prepared_status, prepared_Context; [by rewrite length_inserts | | done].
  apply inserts_bytes; [by apply Forall_take, Forall_drop | done].
Qed.

(** The part of the context a request names lies in it. *)
Lemma ex_range o s :
  engine_ok o s -> fetch Ex_Offset s + fetch Ex_ByteCount s < 2 ^ 32 -> ex_in_range s = true ->
  0 <= fetch Ex_ByteCount s <= 1232 /\ (Z.to_nat (fetch Ex_Offset s) + Z.to_nat (fetch Ex_ByteCount s) <= sizeof_CONTEXT)%nat.
Proof.
  intros Hok Hmax Hr. pose proof (prepared_refl o s Hok) as Hp.
  pose proof (fetch_range o s s Ex_Offset Hp ltac:(in_struct)) as Ho. pose proof (fetch_range o s s Ex_ByteCount Hp ltac:(in_struct)) as Hc.
  unfold ex_in_range in Hr. rewrite wrap_small in Hr by lia. apply Z.leb_le in Hr. change (Z.of_nat sizeof_CONTEXT) with 1232 in Hr. split; [lia |].
  apply Nat2Z.inj_le. change (Z.of_nat sizeof_CONTEXT) with 1232. lia.
Qed.

Lemma KdpGetContextEx_run o s :
  engine_ok o s -> fetch Ex_Offset s + fetch Ex_ByteCount s < 2 ^ 32 -> exists s', KdpGetContextEx s = Ret s' /\ answered o s s'.
Proof.
  intros Hok Hmax. pose proof (prepared_refl o s Hok) as Hp. unfold KdpGetContextEx. destruct (fr_message _ (en_frame _ _ Hok)) as [Hbl Hbb]. destruct (en_context _ _ Hok) as [Hcl Hcb].
  destruct (_ && _) eqn:Hin; [| eexists; split; [reflexivity |]; apply answered_data, prepared_status, prepared_put; [apart | done]].
  apply andb_true_iff in Hin as [_ Hin]. destruct (ex_range o s Hok Hmax Hin) as [Hn Hfit].
  rewrite read_buffer_run by lia. cbn [mbind outcome_bind].
  rewrite write_buffer_run by (rewrite length_take, length_drop; unfold KdpMessageBuffer; lia). cbn [mbind outcome_bind].
  assert (prepared o s (put Ex_BytesCopied (fetch Ex_ByteCount s) (with_message s (list_inserts 0 (take (Z.to_nat (fetch Ex_ByteCount s)) (drop (Z.to_nat (fetch Ex_Offset s)) (Context s))) (KdpMessageBuffer s))))) as H1.
  { apply prepared_put; [apart |]. apply prepared_message; [by rewrite length_inserts | apply inserts_bytes; [by apply Forall_take, Forall_drop | done] | done]. }
  eexists. split; [reflexivity |]. apply answered_data, prepared_status, prepared_ContextSent, prepared_Data_Length; [| exact H1].
  pose proof (fetch_range o s _ Ex_ByteCount H1 ltac:(in_struct)) as Hr.
  assert (fetch Ex_ByteCount (put Ex_BytesCopied (fetch Ex_ByteCount s) (with_message s (list_inserts 0 (take (Z.to_nat (fetch Ex_ByteCount s)) (drop (Z.to_nat (fetch Ex_Offset s)) (Context s))) (KdpMessageBuffer s)))) = fetch Ex_ByteCount s) as ->.
  { change (get Ex_ByteCount (set Ex_BytesCopied (fetch Ex_ByteCount s) (State s)) = get Ex_ByteCount (State s)). apply get_set_ne. apart. }
  rewrite wrap_small by lia. lia.
Qed.

Lemma KdpSetContextEx_run o s :
  engine_ok o s -> fetch Ex_Offset s + fetch Ex_ByteCount s < 2 ^ 32 -> exists s', KdpSetContextEx s = Ret s' /\ answered o s s'.
Proof.
  intros Hok Hmax. pose proof (prepared_refl o s Hok) as Hp. unfold KdpSetContextEx. destruct (fr_message _ (en_frame _ _ Hok)) as [Hbl Hbb]. destruct (en_context _ _ Hok) as [Hcl Hcb].
  destruct (_ && _) eqn:Hin; [| eexists; split; [reflexivity |]; apply answered_state, prepared_status, prepared_put; [apart | done]].
  apply andb_true_iff in Hin as [Hin _]. apply andb_true_iff in Hin as [_ Hin]. destruct (ex_range o s Hok Hmax Hin) as [Hn Hfit].
  assert (0 + Z.to_nat (fetch Ex_ByteCount s) <= length (KdpMessageBuffer s))%nat as Hf2 by (unfold KdpMessageBuffer; lia).
  rewrite read_buffer_run by done. cbn [mbind outcome_bind]. rewrite write_buffer_run by (rewrite length_take, length_drop; lia). cbn [mbind outcome_bind].
  eexists. split; [reflexivity |]. apply answered_state, prepared_status, prepared_put; [apart |]. apply prepared_Context; [by rewrite length_inserts | | done].
  apply inserts_bytes; [by apply Forall_take, Forall_drop | done].
Qed.

Lemma KdpWriteBreakpoint_run o s :
  engine_ok o s -> KdBreak.request_ok (AddBreakpoint (fetch BreakPointAddress s)) s.(kd_bp) ->
  exists s', KdpWriteBreakpoint valid s = Ret s' /\ answered o s s'.
Proof.
  intros Hok [Ha H13]. unfold KdpWriteBreakpoint.
  destruct (KdpAddBreakpoint_run valid o (en_mem _ _ Hok) (en_valid _ _ Hok) s.(kd_bp) _ (en_bp _ _ Hok) Ha H13) as (b & h & -> & Hb).
  cbn [mbind outcome_bind]. eexists. split; [reflexivity |]. apply answered_state, prepared_status, prepared_put; [apart |].
  eapply prepared_bp; [apply Hok | apply Hok | exact Hb | by apply prepared_refl].
Qed.

Lemma KdpRestoreBreakpoint_run o s : engine_ok o s -> exists s', KdpRestoreBreakpoint valid s = Ret s' /\ answered o s s'.
Proof.
  intros Hok. pose proof (fetch_range o s s RestoreHandle (prepared_refl o s Hok) ltac:(in_struct)) as Hr. unfold KdpRestoreBreakpoint.
  destruct (serve_run valid o (DeleteBreakpoint (fetch RestoreHandle s)) s.(kd_bp) (en_mem _ _ Hok) (en_valid _ _ Hok) (en_bp _ _ Hok)) as (b & Hb & Hbok); [change (0 <= fetch RestoreHandle s); lia |].
  cbn [serve] in Hb. destruct (KdpDeleteBreakpoint _ _ _) as [[b' ok] | | |]; try discriminate. injection Hb as ->.
  cbn [mbind outcome_bind]. eexists. split; [reflexivity |]. apply answered_state, prepared_status.
  eapply prepared_bp; [apply Hok | apply Hok | exact Hbok | by apply prepared_refl].
Qed.

Lemma take_bytes_of (l : list Z) n : Forall is_byte l -> Forall is_byte (take n l).
Proof. apply Forall_take. Qed.

Lemma KdpReadControlSpace_run o s :
  engine_ok o s -> (fetch TargetBaseAddress s = AMD64_DEBUG_CONTROL_SPACE_KSPECIAL -> fetch Processor s < KeNumberProcessors) ->
  exists s', KdpReadControlSpace s = Ret s' /\ answered o s s'.
Proof.
  intros Hok Hproc. pose proof (prepared_refl o s Hok) as Hp. destruct (fr_message _ (en_frame _ _ Hok)) as [Hbl Hbb]. destruct (en_special _ _ Hok) as [Hsl Hsb].
  unfold KdpReadControlSpace, KdpSysReadControlSpace, processor_block.
  set (len := clamp_length _). destruct (Z.eqb_spec (fetch TargetBaseAddress s) AMD64_DEBUG_CONTROL_SPACE_KPRCB).
  - rewrite write_buffer_run by (rewrite length_take, le_to_length; unfold KdpMessageBuffer; lia). cbn [mbind outcome_bind].
    eexists. split; [reflexivity |]. apply answered_data, prepared_Data_Length; [vm_compute; split; congruence |].
    apply prepared_put; [apart |]. apply prepared_status, prepared_message; [by rewrite length_inserts | apply inserts_bytes; [apply Forall_take, le_to_bytes | done] | done].
  - destruct (Z.eqb_spec (fetch TargetBaseAddress s) AMD64_DEBUG_CONTROL_SPACE_KSPECIAL) as [Hk |].
    + destruct (Z.ltb_spec (fetch Processor s) KeNumberProcessors); [| specialize (Hproc Hk); lia]. cbn [mbind outcome_bind].
      rewrite write_buffer_run by (rewrite length_take, Hsl; unfold KdpMessageBuffer; apply Nat2Z.inj_le; rewrite Hbl; unfold sizeof_KSPECIAL_REGISTERS; lia). cbn [mbind outcome_bind].
      eexists. split; [reflexivity |]. apply answered_data, prepared_Data_Length; [vm_compute; split; congruence |].
      apply prepared_put; [apart |]. apply prepared_status, prepared_message; [by rewrite length_inserts | apply inserts_bytes; [by apply Forall_take | done] | done].
    + cbn [mbind outcome_bind]. eexists. split; [reflexivity |]. apply answered_data, prepared_Data_Length; [vm_compute; split; congruence |].
      apply prepared_put; [apart |]. apply prepared_status, prepared_message; done.
Qed.

Lemma KdpWriteControlSpace_run o s :
  engine_ok o s -> (fetch TargetBaseAddress s = AMD64_DEBUG_CONTROL_SPACE_KSPECIAL -> fetch Processor s < KeNumberProcessors) ->
  exists s', KdpWriteControlSpace s = Ret s' /\ answered o s s'.
Proof.
  intros Hok Hproc. pose proof (prepared_refl o s Hok) as Hp. destruct (fr_message _ (en_frame _ _ Hok)) as [Hbl Hbb]. destruct (en_special _ _ Hok) as [Hsl Hsb].
  unfold KdpWriteControlSpace, KdpSysWriteControlSpace, processor_block.
  destruct (Z.eqb_spec (fetch TargetBaseAddress s) AMD64_DEBUG_CONTROL_SPACE_KSPECIAL) as [Hk |].
  - destruct (Z.ltb_spec (fetch Processor s) KeNumberProcessors); [| specialize (Hproc Hk); lia]. cbn [mbind outcome_bind].
    assert (Z.to_nat (Z.min (Data_Length s) (Z.of_nat sizeof_KSPECIAL_REGISTERS)) <= sizeof_KSPECIAL_REGISTERS)%nat as Hmin by lia.
    rewrite read_buffer_run by (unfold KdpMessageBuffer, sizeof_KSPECIAL_REGISTERS in *; lia). cbn [mbind outcome_bind].
    rewrite write_buffer_run by (rewrite length_take, length_drop, Hsl; lia). cbn [mbind outcome_bind].
    eexists. split; [reflexivity |]. apply answered_data, prepared_status, prepared_put; [apart |].
    apply prepared_Special; [by rewrite length_inserts | apply inserts_bytes; [by apply Forall_take, Forall_drop | done] | done].
  - cbn [mbind outcome_bind]. eexists. split; [reflexivity |]. apply answered_data, prepared_status, prepared_put; [apart | done].
Qed.

Lemma KdpReadMachineSpecificRegister_run o s r :
  engine_ok o s -> readmsr s.(kd_device) (fetch Msr s) = Ret r -> exists s', KdpReadMachineSpecificRegister s = Ret s' /\ answered o s s'.
Proof.
  intros Hok Hr. unfold KdpReadMachineSpecificRegister. rewrite Hr. destruct r as [v d]. cbn [mbind outcome_bind]. eexists. split; [reflexivity |].
  apply answered_state, prepared_put; [apart |]. apply prepared_put; [apart |]. by apply prepared_status, prepared_device, prepared_refl.
Qed.

Lemma KdpWriteMachineSpecificRegister_run o s d :
  engine_ok o s -> writemsr s.(kd_device) (fetch Msr s) (fetch DataValueLow s + Z.shiftl (fetch DataValueHigh s) 32) = Ret d ->
  exists s', KdpWriteMachineSpecificRegister s = Ret s' /\ answered o s s'.
Proof.
  intros Hok Hr. unfold KdpWriteMachineSpecificRegister. rewrite Hr. cbn [mbind outcome_bind]. eexists. split; [reflexivity |].
  by apply answered_state, prepared_status, prepared_device, prepared_refl.
Qed.

Lemma low_bytes_apart f n : (4 <= f.(f_off))%nat -> fields_apart ApiNumber (low_bytes f n).
Proof. intros H. left. cbn. lia. Qed.

Lemma KdpSysReadIoSpace_run o s s1 T B A a n value size :
  (4 <= value.(f_off))%nat -> (4 <= size.(f_off))%nat -> prepared o s s1 ->
  exists s2, KdpSysReadIoSpace T B A a n value size s1 = Ret s2 /\ prepared o s s2.
Proof using laws.
  intros Hv Hz Hp. unfold KdpSysReadIoSpace. assert (fields_apart ApiNumber size) as Hsz by (left; cbn; lia).
  destruct (NT_SUCCESS _); [| eexists; split; [reflexivity |]; by apply prepared_status, prepared_put].
  destruct (ports_answer s1.(kd_device) (Z.to_nat n) (u16 a)) as [[v d] ->]. cbn [mbind outcome_bind]. eexists. split; [reflexivity |].
  apply prepared_status, prepared_put; [done |]. apply prepared_put; [by apply low_bytes_apart | by apply prepared_device].
Qed.

Lemma KdpSysWriteIoSpace_run o s s1 T B A a n value size :
  (4 <= size.(f_off))%nat -> prepared o s s1 -> exists s2, KdpSysWriteIoSpace T B A a n value size s1 = Ret s2 /\ prepared o s s2.
Proof using laws.
  intros Hz Hp. unfold KdpSysWriteIoSpace. assert (fields_apart ApiNumber size) as Hsz by (left; cbn; lia).
  destruct (NT_SUCCESS _); [| eexists; split; [reflexivity |]; by apply prepared_status, prepared_put].
  destruct (ports_take s1.(kd_device) (Z.to_nat n) (u16 a) (fetch (low_bytes value n) s1)) as [d ->]. cbn [mbind outcome_bind]. eexists. split; [reflexivity |].
  apply prepared_status, prepared_put; [done |]. by apply prepared_device.
Qed.

(** The four handlers of ports. *)
Lemma KdpIoSpace_run o s :
  engine_ok o s ->
  (exists s', KdpReadIoSpace s = Ret s' /\ answered o s s') /\ (exists s', KdpWriteIoSpace s = Ret s' /\ answered o s s') /\
  (exists s', KdpReadIoSpaceExtended s = Ret s' /\ answered o s s') /\ (exists s', KdpWriteIoSpaceExtended s = Ret s' /\ answered o s s').
Proof using laws.
  intros Hok. pose proof (prepared_refl o s Hok) as Hp.
  assert (prepared o s (put Io_DataValue 0 s)) as H1 by (apply prepared_put; [apart | done]).
  assert (prepared o s (put IoEx_DataValue 0 s)) as H2 by (apply prepared_put; [apart | done]).
  unfold KdpReadIoSpace, KdpWriteIoSpace, KdpReadIoSpaceExtended, KdpWriteIoSpaceExtended. split; [| split; [| split]].
  - destruct (KdpSysReadIoSpace_run o s _ Isa 0 1 (fetch IoAddress s) (fetch Io_DataSize s) Io_DataValue Io_DataSize ltac:(in_struct) ltac:(in_struct) H1) as (s2 & -> & Hs2).
    eexists. split; [reflexivity | by apply answered_state].
  - destruct (KdpSysWriteIoSpace_run o s _ Isa 0 1 (fetch IoAddress s) (fetch Io_DataSize s) Io_DataValue Io_DataSize ltac:(in_struct) Hp) as (s2 & -> & Hs2).
    eexists. split; [reflexivity | by apply answered_state].
  - destruct (KdpSysReadIoSpace_run o s _ (fetch InterfaceType s) (fetch IoEx_BusNumber s) (fetch AddressSpace s) (fetch IoEx_IoAddress s) (fetch IoEx_DataSize s)
      IoEx_DataValue IoEx_DataSize ltac:(in_struct) ltac:(in_struct) H2) as (s2 & -> & Hs2).
    eexists. split; [reflexivity | by apply answered_state].
  - destruct (KdpSysWriteIoSpace_run o s _ (fetch InterfaceType s) (fetch IoEx_BusNumber s) (fetch AddressSpace s) (fetch IoEx_IoAddress s) (fetch IoEx_DataSize s)
      IoEx_DataValue IoEx_DataSize ltac:(in_struct) Hp) as (s2 & -> & Hs2).
    eexists. split; [reflexivity | by apply answered_state].
Qed.

Lemma KdpGetVersion_run o s :
  engine_ok o s -> fetch ApiNumber s = DbgKdGetVersionApi -> exists s', KdpGetVersion s = Ret s' /\ answered o s s'.
Proof.
  intros Hok Hapi. pose proof Hok as [Hm Hv Hb [Hh [Hsl Hsb] Hms Hl] Hc Hsp [Hvl Hvb]]. unfold KdpGetVersion, KdpSysGetVersion.
  rewrite read_buffer_run by lia. cbn [mbind outcome_bind]. rewrite drop_0, take_ge by lia.
  assert (GetVersion64 + length (KdVersionBlock s) <= length (State s))%nat as Hfit by (unfold State; rewrite Hsl, Hvl; vm_compute; lia).
  rewrite write_buffer_run by done. cbn [mbind outcome_bind]. set (l := list_inserts _ _ _).
  assert (length l = sizeof_MANIPULATE_STATE) as Hll by (unfold l; by rewrite length_inserts).
  eexists. split; [reflexivity |]. apply answered_state, prepared_status. split; [split; try done | | done | done].
  - split; [exact Hh | | exact Hms | exact Hl]. change (length (set ApiNumber DbgKdGetVersionApi l) = sizeof_MANIPULATE_STATE /\ Forall is_byte (set ApiNumber DbgKdGetVersionApi l)).
    rewrite set_length. split; [done |]. apply set_bytes. by apply inserts_bytes.
  - rewrite Hapi. change (get ApiNumber (set ApiNumber DbgKdGetVersionApi l) = DbgKdGetVersionApi).
    apply get_set; [rewrite Hll; in_struct | vm_compute; split; congruence].
Qed.

Lemma KdpBusData_run o s : engine_ok o s -> answered o s (KdpGetBusData s) /\ answered o s (KdpSetBusData s).
Proof.
  intros Hok. pose proof (prepared_refl o s Hok) as Hp. pose proof (fetch_range o s s Bus_Length Hp ltac:(in_struct)) as Hr.
  destruct (clamp_range (fetch Bus_Length s) ltac:(lia)) as [Hlen _]. split.
  - apply answered_data, prepared_Data_Length; [rewrite wrap_small; lia |]. apply prepared_put; [apart |]. by apply prepared_status.
  - apply answered_state, prepared_put; [apart |]. by apply prepared_status.
Qed.

Lemma KdpGetStateChange_run o s : engine_ok o s -> engine_ok o (KdpGetStateChange s).
Proof.
  intros Hok. unfold KdpGetStateChange. destruct (_ <=? _); [| done]. set (c := set Dr6 _ _).
  assert (engine_ok o (with_Context s c)) as H1.
  { destruct Hok as [Hm Hv Hb Hf [Hcl Hcb] Hsp Hver]. split; try done. change (length c = sizeof_CONTEXT /\ Forall is_byte c). unfold c. rewrite !set_length. split; [done |]. by do 3 apply set_bytes. }
  destruct (negb _); [| exact H1]. by destruct H1 as [Hm Hv Hb Hf Hc Hsp Hver].
Qed.

(** ** One request *)

(** The requests the engine can serve: the number is one of its own, ranges of
    memory and of the context do not run around the end of their integers, memory
    is not written where a breakpoint is, a breakpoint is not set at an address
    whose breakpoint is stuck in memory, a register exists. *)
Record request_fits (s : kd64) : Prop := {
  rf_number : DbgKdMinimumManipulate <= fetch ApiNumber s < DbgKdMaximumManipulate /\ fetch ApiNumber s <> DbgKdCauseBugCheckApi;
  rf_write : is_api (fetch ApiNumber s) [DbgKdWriteVirtualMemoryApi; DbgKdWritePhysicalMemoryApi] = true ->
    fetch TargetBaseAddress s + Data_Length s < 2 ^ 64 /\ unbroken s.(kd_bp) (fetch TargetBaseAddress s) (Data_Length s);
  rf_read : fetch ApiNumber s = DbgKdReadPhysicalMemoryApi -> fetch TargetBaseAddress s + clamp_length (fetch TransferCount s) < 2 ^ 64;
  rf_breakpoint : fetch ApiNumber s = DbgKdWriteBreakPointApi -> KdBreak.request_ok (AddBreakpoint (fetch BreakPointAddress s)) s.(kd_bp);
  rf_control : is_api (fetch ApiNumber s) [DbgKdReadControlSpaceApi; DbgKdWriteControlSpaceApi] = true ->
    fetch TargetBaseAddress s = AMD64_DEBUG_CONTROL_SPACE_KSPECIAL -> fetch Processor s < KeNumberProcessors;
  rf_context : is_api (fetch ApiNumber s) [DbgKdGetContextExApi; DbgKdSetContextExApi] = true -> fetch Ex_Offset s + fetch Ex_ByteCount s < 2 ^ 32;
  rf_readmsr : fetch ApiNumber s = DbgKdReadMachineSpecificRegister -> exists r, readmsr s.(kd_device) (fetch Msr s) = Ret r;
  rf_writemsr : fetch ApiNumber s = DbgKdWriteMachineSpecificRegister ->
    exists d, writemsr s.(kd_device) (fetch Msr s) (fetch DataValueLow s + Z.shiftl (fetch DataValueHigh s) 32) = Ret d
}.

(** What serving a request leaves: the invariant, and the packets that answer it. *)
Record served (o : mem) (s s' : kd64) (n : nat) : Prop := {
  sv_ok : engine_ok o s';
  sv_present : s'.(KdDebuggerNotPresent) = s.(KdDebuggerNotPresent);
  sv_answers : exists ps, exchanged s'.(sent) = exchanged s.(sent) ++ ps /\ length ps = n /\
    Forall (fun p => p.(p_type) = PACKET_TYPE_KD_STATE_MANIPULATE /\ get ApiNumber p.(p_header) = fetch ApiNumber s) ps
}.

Lemma answered_served o s s' : answered o s s' -> served o s s' 1.
Proof.
  intros (s1 & data & -> & [Hok Hapi Hpres Hsent]). split; [by destruct Hok | done |].
  eexists [_]. split; [cbn; rewrite exchanged_app by done; by rewrite Hsent |]. split; [done |]. constructor; [| constructor].
  split; [done |]. cbn [p_header]. rewrite <- Hapi. destruct (fr_state _ (en_frame _ _ Hok)) as [Hl _]. rewrite (take_ge (State s1)) by (unfold State; by rewrite Hl). done.
Qed.

Lemma quiet_served o s s' : engine_ok o s' -> s'.(KdDebuggerNotPresent) = s.(KdDebuggerNotPresent) -> s'.(sent) = s.(sent) -> served o s s' 0.
Proof. intros H1 H2 H3. split; [done | done |]. exists []. by rewrite H3, app_nil_r. Qed.

(** How many packets answer a request, and which status it ends the loop with. *)
Definition replies (s : kd64) : nat := if is_api (fetch ApiNumber s) [DbgKdContinueApi2; DbgKdClearAllInternalBreakpointsApi] then 0 else 1.
Definition continues (s : kd64) : option KCONTINUE_STATUS :=
  if fetch ApiNumber s =? DbgKdContinueApi2 then Some (if 0 <=? s32 (fetch ContinueStatus s) then ContinueSuccess else ContinueError)
  else if fetch ApiNumber s =? DbgKdWriteBreakPointExApi then Some ContinueError else None.
Definition patches (s : kd64) (o o' : mem) : Prop :=
  if is_api (fetch ApiNumber s) [DbgKdWriteVirtualMemoryApi; DbgKdWritePhysicalMemoryApi] then write_target s o o' else o' = o.

Lemma go_on_run o s s1 (r : outcome kd64) :
  r = Ret s1 -> served o s s1 1 -> go_on r = Ret (s1, None) /\ served o s s1 1.
Proof. by intros ->. Qed.

Lemma handled o s (r : outcome kd64) :
  (exists s', r = Ret s' /\ answered o s s') ->
  exists s' o', go_on r = Ret (s', None) /\ o' = o /\ served o' s s' 1.
Proof. intros (s' & -> & H). exists s', o. split; [done |]. split; [done | by apply answered_served]. Qed.

Lemma unsupported_handled o s text :
  literal (line_of text) -> (length (line_of text) <= 99)%nat -> engine_ok o s ->
  exists s', unsupported text s = Ret s' /\ answered o s s'.
Proof using laws.
  intros H1 H2 Hok. unfold unsupported. destruct (unsupported_run o s text H1 H2 Hok) as (s1 & -> & Hp). cbn [mbind outcome_bind].
  eexists. split; [reflexivity |]. by apply answered_state, prepared_status.
Qed.

Lemma with_NumInternal_ok o s n : engine_ok o s -> engine_ok o (with_NumInternal s n).
Proof. by intros [Hm Hv Hb Hf Hc Hsp Hver]. Qed.

Lemma unrecognized_handled o s api :
  engine_ok o s ->
  exists s', (s ← KdpDprintf (line_of "Received Unrecognized API 0x%lx") [AInt api] s;
              let s := set_status STATUS_UNSUCCESSFUL (with_Data_Length s 0) in
              Ret (KdSendPacket PACKET_TYPE_KD_STATE_MANIPULATE (take (Z.to_nat s.(kd_frame).(h_Length)) (State s)) (Some (Data_bytes s)) s)) = Ret s' /\ answered o s s'.
Proof using laws.
  intros Hok. destruct (unrecognized_text api) as (text & Ht & Hlen & Hby).
  destruct (KdpDprintf_run o s s _ _ text [] Ht Hlen Hby (prepared_refl o s Hok)) as (s1 & -> & Hp & _). cbn [mbind outcome_bind]. cbv zeta.
  set (s2 := set_status _ _). assert (prepared o s s2) as H2 by (apply prepared_status, prepared_Data_Length; [lia | done]).
  eexists. split; [reflexivity |]. rewrite (fr_header _ (en_frame _ _ (pr_ok _ _ _ H2))). by apply answered_data.
Qed.

(** The next test of the switch: its case, and the rest. *)
Ltac bool_consts := repeat match goal with |- context [Z.eqb ?a ?b] => let r := eval vm_compute in (Z.eqb a b) in
  match r with true => change (Z.eqb a b) with true | false => change (Z.eqb a b) with false end end; cbn [orb].
Ltac api_case api c := destruct (Z.eqb_spec api c) as [-> | ?]; [bool_consts | cbn [orb]].
Ltac nope := apply handled, unsupported_handled; [apply lit_literal; reflexivity | vm_compute; lia | done].

(** One request: it returns, and it leaves what [served] says. *)
Lemma KdpDispatch_run o s :
  engine_ok o s -> request_fits s ->
  exists s' o', KdpDispatch valid s = Ret (s', continues s) /\ patches s o o' /\ served o' s s' (replies s).
Proof using laws.
  intros Hok [[Hnum Hbug] Hwrite Hread Hbp Hctl Hctx Hrd Hwr]. unfold KdpDispatch, continues, patches, replies, is_api in *.
  remember (fetch ApiNumber s) as api eqn:Hapi. cbn [existsb] in *.
  destruct (Z.ltb_spec api DbgKdMinimumManipulate); [lia |]. destruct (Z.leb_spec DbgKdMaximumManipulate api); [lia |]. cbn [orb].
  api_case api DbgKdReadVirtualMemoryApi. { by apply handled, KdpReadVirtualMemory_run. }
  api_case api DbgKdWriteVirtualMemoryApi.
  { destruct (Hwrite eq_refl) as [Hmax Hu]. destruct (write_run o s (Z.lor MMDBG_COPY_UNSAFE MMDBG_COPY_WRITE) Hok eq_refl Hmax Hu) as (s' & o' & Hr & Ha & Ht).
    unfold KdpWriteVirtualMemory. rewrite Hr. exists s', o'. split; [done |]. split; [done | by apply answered_served]. }
  api_case api DbgKdGetContextApi. { by apply handled, KdpGetContext_run. }
  api_case api DbgKdSetContextApi. { by apply handled, KdpSetContext_run. }
  api_case api DbgKdWriteBreakPointApi. { apply handled, KdpWriteBreakpoint_run; auto. }
  api_case api DbgKdRestoreBreakPointApi. { by apply handled, KdpRestoreBreakpoint_run. }
  api_case api DbgKdReadControlSpaceApi. { apply handled, KdpReadControlSpace_run; auto. }
  api_case api DbgKdWriteControlSpaceApi. { apply handled, KdpWriteControlSpace_run; auto. }
  destruct (KdpIoSpace_run o s Hok) as (Hio1 & Hio2 & Hio3 & Hio4). destruct (KdpBusData_run o s Hok) as [Hbus1 Hbus2].
  api_case api DbgKdReadIoSpaceApi. { by apply handled. }
  api_case api DbgKdWriteIoSpaceApi. { by apply handled. }
  api_case api DbgKdContinueApi2.
  { destruct (_ <=? _); eexists _, o; (split; [reflexivity |]; split; [done |]).
    - apply quiet_served; [by apply KdpGetStateChange_run | |]; unfold KdpGetStateChange; by repeat case_match.
    - by apply quiet_served. }
  api_case api DbgKdReadPhysicalMemoryApi. { apply handled, KdpReadPhysicalMemory_run; auto. }
  api_case api DbgKdWritePhysicalMemoryApi.
  { destruct (Hwrite eq_refl) as [Hmax Hu]. unfold KdpWritePhysicalMemory.
    edestruct (write_run o s) as (s' & o' & Hr & Ha & Ht); [done | | done | done |]; [| rewrite Hr; exists s', o'; split; [done |]; split; [done | by apply answered_served]].
    by rewrite cache_flags_write. }
  api_case api DbgKdQuerySpecialCallsApi. { nope. }
  api_case api DbgKdSetSpecialCallApi. { nope. }
  api_case api DbgKdClearSpecialCallsApi. { nope. }
  api_case api DbgKdSetInternalBreakPointApi. { nope. }
  api_case api DbgKdGetInternalBreakPointApi. { nope. }
  api_case api DbgKdReadIoSpaceExtendedApi. { by apply handled. }
  api_case api DbgKdWriteIoSpaceExtendedApi. { by apply handled. }
  api_case api DbgKdGetVersionApi. { by apply handled, KdpGetVersion_run. }
  api_case api DbgKdWriteBreakPointExApi.
  { unfold KdpWriteBreakPointEx. edestruct (unsupported_run o s) as (s1 & -> & Hp); [| | done |]; [apply lit_literal; reflexivity | vm_compute; lia |].
    cbn [mbind outcome_bind NT_SUCCESS]. eexists _, o. split; [reflexivity |]. split; [done |]. by apply answered_served, answered_data, prepared_status. }
  api_case api DbgKdRestoreBreakPointExApi.
  { apply handled. unfold KdpRestoreBreakPointEx. edestruct (unsupported_run o s) as (s1 & -> & Hp); [| | done |]; [apply lit_literal; reflexivity | vm_compute; lia |].
    cbn [mbind outcome_bind]. eexists. split; [reflexivity |]. by apply answered_data, prepared_status. }
  api_case api DbgKdCauseBugCheckApi. { done. }
  api_case api DbgKdSwitchProcessor. { nope. }
  api_case api DbgKdPageInApi. { nope. }
  api_case api DbgKdReadMachineSpecificRegister. { destruct (Hrd eq_refl) as [r Hr]. by apply handled, (KdpReadMachineSpecificRegister_run o s r). }
  api_case api DbgKdWriteMachineSpecificRegister. { destruct (Hwr eq_refl) as [d Hd]. by apply handled, (KdpWriteMachineSpecificRegister_run o s d). }
  api_case api DbgKdSearchMemoryApi. { nope. }
  api_case api DbgKdGetBusDataApi. { apply handled. by eexists. }
  api_case api DbgKdSetBusDataApi. { apply handled. by eexists. }
  api_case api DbgKdCheckLowMemoryApi. { apply handled. eexists. split; [reflexivity |]. by apply answered_state, prepared_status, prepared_refl. }
  api_case api DbgKdClearAllInternalBreakpointsApi. { eexists _, o. split; [reflexivity |]. split; [done |]. apply quiet_served; [by apply with_NumInternal_ok | done | done]. }
  api_case api DbgKdFillMemoryApi. { nope. }
  api_case api DbgKdSwitchPartition. { nope. }
  api_case api DbgKdWriteCustomBreakpointApi. { nope. }
  api_case api DbgKdGetContextExApi. { apply handled, KdpGetContextEx_run; auto. }
  api_case api DbgKdSetContextExApi. { apply handled, KdpSetContextEx_run; auto. }
  destruct (unrecognized_handled o s api Hok) as (s' & Hr & Ha). exists s', o. split; [| split; [done | by apply answered_served]].
  apply bind_Ret in Hr as (s1 & H1 & Hr). rewrite H1. cbn [mbind outcome_bind]. unfold go_on. cbn [mbind outcome_bind]. by injection Hr as <-.
Qed.

(** ** A stop of the debugged thread *)

(** The state in which a received message is served. *)
Definition received (s : kd64) (l : line) (m : message) : kd64 := with_frame (with_line s l) m.

(** What is sent in a stop: the state change again, with these data, or the answer to a request
    of this number. *)
Inductive sending := ChangeAgain (data : option (list Z)) | AnswerTo (api : Z).

Definition is_sent (header : list Z) (e : sending) (p : packet) : Prop :=
  match e with
  | ChangeAgain data => p = {| p_type := PACKET_TYPE_KD_STATE_CHANGE64; p_header := header; p_data := data |}
  | AnswerTo api => p.(p_type) = PACKET_TYPE_KD_STATE_MANIPULATE /\ get ApiNumber p.(p_header) = api
  end.

(** The packets that are to answer the request in [s]. *)
Definition answer_of (s : kd64) : list sending := replicate (replies s) (AnswerTo (fetch ApiNumber s)).

(** What the debugger does until the thread goes on, in at most [n] receptions: what is to be sent
    for it, and the status the last one gives. *)
Inductive script (header : list Z) (data : send_data_of) : kd64 -> nat -> list sending -> KCONTINUE_STATUS -> Prop :=
| script_timeout s l m n apis st :
    dll_receive PACKET_TYPE_KD_STATE_MANIPULATE s.(kd_line) s.(kd_frame) = Ret (l, m, KDP_PACKET_TIMEOUT) -> frame_ok m ->
    script header data (received s l m) n apis st -> script header data s (S n) apis st
| script_resend s l m n apis st :
    dll_receive PACKET_TYPE_KD_STATE_MANIPULATE s.(kd_line) s.(kd_frame) = Ret (l, m, KDP_PACKET_RESEND) -> frame_ok m ->
    script header data (KdSendPacket PACKET_TYPE_KD_STATE_CHANGE64 header (send_bytes data (received s l m)) (received s l m)) n apis st ->
    script header data s (S n) (ChangeAgain (send_bytes data (received s l m)) :: apis) st
| script_request s l m n apis st s' :
    dll_receive PACKET_TYPE_KD_STATE_MANIPULATE s.(kd_line) s.(kd_frame) = Ret (l, m, KDP_PACKET_RECEIVED) -> frame_ok m ->
    request_fits (received s l m) -> KdpDispatch valid (received s l m) = Ret (s', None) ->
    script header data s' n apis st -> script header data s (S n) (answer_of (received s l m) ++ apis) st
| script_continue s l m n st :
    dll_receive PACKET_TYPE_KD_STATE_MANIPULATE s.(kd_line) s.(kd_frame) = Ret (l, m, KDP_PACKET_RECEIVED) -> frame_ok m ->
    request_fits (received s l m) -> continues (received s l m) = Some st ->
    script header data s (S n) (answer_of (received s l m)) st.

Lemma received_ok o s l m : engine_ok o s -> frame_ok m -> engine_ok o (received s l m).
Proof. by intros [Hm Hv Hb _ Hc Hsp Hver] Hf. Qed.

Lemma served_received header o s l m s' : served o (received s l m) s' (replies (received s l m)) ->
  exists ps, exchanged s'.(sent) = exchanged s.(sent) ++ ps /\ Forall2 (is_sent header) (answer_of (received s l m)) ps.
Proof.
  intros [_ _ (ps & Hs & Hn & Hall)]. exists ps. split; [exact Hs |]. unfold answer_of. rewrite <- Hn. clear Hs Hn.
  induction Hall as [|p ps Hp _ IH]; [constructor |]. cbn [length replicate]. by constructor.
Qed.

Lemma serve_loop_run header data s n apis st o :
  script header data s n apis st -> engine_ok o s -> s.(KdDebuggerNotPresent) = false ->
  exists s' o', serve_loop valid n PACKET_TYPE_KD_STATE_CHANGE64 header data s = Ret (s', st) /\ engine_ok o' s' /\
    exists ps, exchanged s'.(sent) = exchanged s.(sent) ++ ps /\ Forall2 (is_sent header) apis ps.
Proof using laws.
  intros Hs. revert o. induction Hs as [s l m n apis st Hr Hf _ IH | s l m n apis st Hr Hf _ IH | s l m n apis st s1 Hr Hf Hfit Hd _ IH | s l m n st Hr Hf Hfit Hc];
    intros o Hok Hp; cbn [serve_loop]; rewrite Hr; cbn [mbind outcome_bind]; fold (received s l m).
  - apply (IH o); [by apply received_ok | done].
  - change (KdDebuggerNotPresent (KdSendPacket _ _ _ _)) with (KdDebuggerNotPresent s). rewrite Hp.
    destruct (IH o) as (s' & o' & Hl & Hok' & ps & Hps & Hapis).
    + pose proof (received_ok o s l m Hok Hf) as H1. by destruct H1.
    + done.
    + exists s', o'. split; [done |]. split; [done |]. eexists (_ :: ps). split; [| by constructor].
      rewrite Hps. cbn [sent KdSendPacket with_sent]. by rewrite exchanged_app, <- app_assoc by done.
  - destruct (KdpDispatch_run o (received s l m) (received_ok o s l m Hok Hf) Hfit) as (s2 & o2 & Hd2 & _ & Hsv).
    rewrite Hd in Hd2. injection Hd2 as <- Hnone. rewrite Hd. cbn [mbind outcome_bind].
    destruct (served_received header _ _ _ _ _ Hsv) as (ps & Hps & Hn).
    destruct (IH o2) as (s' & o' & Hl & Hok' & ps' & Hps' & Hapis); [apply Hsv | by rewrite (sv_present _ _ _ _ Hsv) |].
    exists s', o'. split; [done |]. split; [done |]. exists (ps ++ ps'). rewrite Hps', Hps, app_assoc. split; [done | by apply Forall2_app].
  - destruct (KdpDispatch_run o (received s l m) (received_ok o s l m Hok Hf) Hfit) as (s2 & o2 & -> & _ & Hsv). rewrite Hc. cbn [mbind outcome_bind].
    destruct (served_received header _ _ _ _ _ Hsv) as (ps & Hps & Hn). exists s2, o2. split; [done |]. split; [apply Hsv |]. by exists ps.
Qed.

Lemma KdpSendWaitContinue_run header data s n apis st o :
  engine_ok o s -> s.(KdDebuggerNotPresent) = false ->
  script header data (KdSendPacket PACKET_TYPE_KD_STATE_CHANGE64 header (send_bytes data (with_ContextSent s false)) (with_ContextSent s false)) n apis st ->
  exists s' o', KdpSendWaitContinue valid n PACKET_TYPE_KD_STATE_CHANGE64 header data s = Ret (s', st) /\ engine_ok o' s' /\
    exists ps, exchanged s'.(sent) = exchanged s.(sent) ++
      {| p_type := PACKET_TYPE_KD_STATE_CHANGE64; p_header := header; p_data := send_bytes data (with_ContextSent s false) |} :: ps /\
      Forall2 (is_sent header) apis ps.
Proof using laws.
  intros Hok Hp Hs. unfold KdpSendWaitContinue. set (s0 := KdSendPacket _ _ _ _) in *.
  assert (engine_ok o s0) as H0 by (by destruct Hok). change (KdDebuggerNotPresent s0) with (KdDebuggerNotPresent s). rewrite Hp.
  destruct (serve_loop_run header data s0 n apis st o Hs H0 Hp) as (s' & o' & Hl & Hok' & ps & Hps & Hapis).
  exists s', o'. split; [done |]. split; [done |]. exists ps. split; [| done]. rewrite Hps. unfold s0. cbn [sent KdSendPacket with_sent].
  by rewrite exchanged_app, <- app_assoc by done.
Qed.


(** ** Memory through the debugger *)

Lemma get_take f n l : (f.(f_off) + f.(f_size) <= n)%nat -> get f (take n l) = get f l.
Proof.
  intros H. unfold get. f_equal. apply list_eq. intros i. destruct (decide (i < f.(f_size))%nat).
  - rewrite !lookup_take_lt, !lookup_drop, lookup_take_lt by lia. done.
  - rewrite !lookup_take_ge by lia. done.
Qed.

(** A reply without data that says that [n] bytes were transferred. *)
Definition transferred (n : Z) (p : packet) : Prop :=
  p.(p_type) = PACKET_TYPE_KD_STATE_MANIPULATE /\ get ReturnStatus p.(p_header) = status_code STATUS_SUCCESS /\ get ActualBytes p.(p_header) = n.

Lemma fetch_put o s s' f v : prepared o s s' -> field_in f sizeof_MANIPULATE_STATE -> 0 <= v < 256 ^ Z.of_nat f.(f_size) -> fetch f (put f v s') = v.
Proof.
  intros Hp Hf Hv. change (get f (set f v (State s')) = v). destruct (fr_state _ (en_frame _ _ (pr_ok _ _ _ Hp))) as [Hl _].
  apply get_set; [| done]. unfold State. by rewrite Hl.
Qed.
Lemma fetch_put_ne s' f g v : fields_apart f g -> fetch f (put g v s') = fetch f s'.
Proof. apply get_set_ne. Qed.

Lemma sent_header f s1 data :
  (f.(f_off) + f.(f_size) <= sizeof_MANIPULATE_STATE)%nat ->
  get f (p_header {| p_type := PACKET_TYPE_KD_STATE_MANIPULATE; p_header := take sizeof_MANIPULATE_STATE (State s1); p_data := data |}) = fetch f s1.
Proof. apply get_take. Qed.

Definition all_valid (a n : Z) : Prop := forall x, a <= x < a + n -> valid x = true.

(** A write of a range that the kernel holds valid. *)
Lemma write_all o s Flags :
  engine_ok o s -> truthy (Z.land Flags MMDBG_COPY_WRITE) = true -> fetch TargetBaseAddress s + Data_Length s < 2 ^ 64 ->
  unbroken s.(kd_bp) (fetch TargetBaseAddress s) (Data_Length s) -> all_valid (fetch TargetBaseAddress s) (Data_Length s) ->
  exists s' p, (s ← write_memory valid Flags s; Ret (send_state s)) = Ret s' /\ s'.(sent) = s.(sent) ++ [p] /\ transferred (Data_Length s) p /\
    engine_ok (patched (fetch TargetBaseAddress s) (Data_bytes s) o) s' /\
    forall x, kd_memory s' !! x = if (fetch TargetBaseAddress s <=? x) && (x <? fetch TargetBaseAddress s + Data_Length s)
                                   then Data_bytes s !! Z.to_nat (x - fetch TargetBaseAddress s) else kd_memory s !! x.
Proof using laws.
  intros Hok Hfl Hmax Hu Hall. destruct (write_memory_run o s Flags Hok Hfl Hmax Hu) as (s1 & l & Hw & Hp & n & -> & _ & Hn).
  specialize (Hn Hall). destruct (engine_memory o s Hok) as [Hm Hv]. destruct (fr_message _ (en_frame _ _ Hok)) as [Hbl Hbb].
  pose proof (fr_length _ (en_frame _ _ Hok)) as Hdl. fold (Data_Length s) in Hdl.
  pose proof (fetch_range o s s TargetBaseAddress (prepared_refl o s Hok) ltac:(in_struct)) as Ha. change (256 ^ _) with (2 ^ 64) in Ha.
  rewrite Hw. cbn [mbind outcome_bind]. unfold write_memory in Hw. set (a := fetch TargetBaseAddress s) in *.
  destruct (KdpCopyMemoryChunks_run valid (kd_memory s) a (KdpMessageBuffer s) (Data_Length s) 0 Flags)
    as (m' & buf' & n' & Hr & _ & Hall' & _ & Hc); [done | done | done | unfold KdpMessageBuffer; lia | lia | lia |].
  specialize (Hall' Hall). rewrite Hr in Hw. cbn [mbind outcome_bind] in Hw. rewrite Hfl in Hc. destruct Hc as [-> Hm'].
  rewrite Hall', Z.eqb_refl in Hw. unfold copy_report in Hw. cbn [NT_SUCCESS mbind outcome_bind] in Hw. injection Hw as <-.
  assert (n = Z.to_nat (Data_Length s)) as -> by lia. assert (n' = Z.to_nat (Data_Length s)) as -> by lia.
  set (s1 := with_message _ _) in *.
  assert (prepared (patched a (Data_bytes s) o) s s1) as H1.
  { apply prepared_message; [done | done |]. eapply prepared_bp; [apply patched_ok; [apply Hok | by apply Forall_take] | apply patched_valid, Hok | | by apply prepared_refl].
    assert (length (Data_bytes s) = Z.to_nat (Data_Length s)) as Hl by (unfold Data_bytes; rewrite length_take; unfold KdpMessageBuffer; lia).
    apply bp_ok_patched; [apply Hok | rewrite Hl, Z2Nat.id by lia; exact Hu |]. intros x. rewrite Hl, Hm'. destruct (_ && _) eqn:Hx; [| done].
    zbool. unfold Data_bytes. by rewrite lookup_take_lt by lia. }
  eexists _, _. split; [reflexivity |]. split; [reflexivity |]. split; [| split].
  - split; [done |]. rewrite !sent_header by in_struct. unfold set_status. split.
    + eapply fetch_put; [apply prepared_put; [apart | exact H1] | in_struct | apply status_range].
    + rewrite fetch_put_ne by apart. eapply fetch_put; [exact H1 | in_struct | change (256 ^ _) with (2 ^ 32); lia].
  - destruct (pr_ok _ _ _ Hp). by split.
  - intros x. change (kd_memory (send_state _)) with m'. rewrite Hm'. rewrite Z2Nat.id by lia. destruct (_ && _) eqn:Hx; [| done].
    zbool. unfold Data_bytes. by rewrite lookup_take_lt by lia.
Qed.

(** A read of a range that the kernel holds valid. *)
Lemma read_all o s :
  engine_ok o s -> Layout.KernelStart <= fetch TargetBaseAddress s < 0xfffff78000000000 -> fetch TransferCount s <= 3944 ->
  all_valid (fetch TargetBaseAddress s) (fetch TransferCount s) ->
  exists s' p l, KdpReadVirtualMemory valid s = Ret s' /\ s'.(sent) = s.(sent) ++ [p] /\ transferred (fetch TransferCount s) p /\
    p.(p_data) = Some l /\ Z.of_nat (length l) = fetch TransferCount s /\ bytes_at (kd_memory s) (fetch TargetBaseAddress s) l.
Proof using laws.
  intros Hok Ha Hn Hall. pose proof (prepared_refl o s Hok) as Hp. destruct (engine_memory o s Hok) as [Hm Hv]. destruct (fr_message _ (en_frame _ _ Hok)) as [Hbl Hbb].
  pose proof (fetch_range o s s TransferCount Hp ltac:(in_struct)) as Hc. unfold Layout.KernelStart in *. unfold KdpReadVirtualMemory.
  assert (clamp_length (fetch TransferCount s) = fetch TransferCount s) as ->.
  { unfold clamp_length. change (PACKET_MAX_SIZE - Z.of_nat sizeof_MANIPULATE_STATE) with 3944. cbv zeta. zcase; lia. }
  set (a := fetch TargetBaseAddress s) in *. set (len := fetch TransferCount s) in *. unfold Layout.KernelStart.
  destruct (Z.leb_spec 0xfffff78000000000 a); [lia |]. destruct (Z.ltb_spec a 0xFFFF800000000000); [lia |]. cbn [orb]. unfold read_memory. fold a.
  destruct (KdpCopyMemoryChunks_run valid (kd_memory s) a (KdpMessageBuffer s) len 0 MMDBG_COPY_UNSAFE)
    as (m' & buf' & n & Hr & _ & Hall' & _ & Hcp); [done | done | done | unfold KdpMessageBuffer; lia | lia | lia |].
  specialize (Hall' Hall). rewrite Hr. cbn [mbind outcome_bind]. change (truthy (Z.land MMDBG_COPY_UNSAFE MMDBG_COPY_WRITE)) with false in Hcp.
  destruct (copied_keeps valid _ _ _ _ _ _ _ _ Hcp) as (_ & Hbb' & _ & Hbl'); [done | done | done | unfold KdpMessageBuffer; lia |].
  destruct Hcp as (-> & _ & Hbuf). rewrite Hall', Z.eqb_refl. unfold copy_report. cbn [NT_SUCCESS mbind outcome_bind].
  set (s1 := with_message _ _). assert (prepared o s s1) as H1.
  { apply prepared_message; [by rewrite Hbl' | done |]. assert (with_memory s (kd_memory s) = s) as -> by (by destruct s as [[] ? ? ? ? ? ? ? ? ? ? ? ?]). done. }
  eexists _, _, (take (Z.to_nat len) buf'). split; [reflexivity |]. split; [reflexivity |]. split; [| split; [| split]].
  - split; [done |]. rewrite !sent_header by in_struct.
    change (fetch ReturnStatus (with_Data_Length ?x ?n)) with (fetch ReturnStatus x). change (fetch ActualBytes (with_Data_Length ?x ?n)) with (fetch ActualBytes x). split.
    + rewrite fetch_put_ne by apart. eapply fetch_put; [exact H1 | in_struct | apply status_range].
    + eapply fetch_put; [by apply prepared_status | in_struct | change (256 ^ _) with (2 ^ 32); lia].
  - cbn [p_data]. unfold Data_bytes. do 2 f_equal. change (Data_Length _) with (u16 len). rewrite wrap_small by lia. done.
  - rewrite length_take, Hbl'. unfold KdpMessageBuffer. lia.
  - intros i c Hi. apply lookup_take_Some in Hi as [Hi Hlt]. rewrite Hbuf in Hi.
    destruct (Nat.leb_spec 0 i); [| lia]. destruct (Nat.ltb_spec i (0 + n)); [| lia]. cbn [andb] in Hi. by rewrite Nat.sub_0_r in Hi.
Qed.
(** Fact: what the debugger writes it reads back. Bytes written to a range of kernel
    memory that is valid and has no breakpoint are all reported as transferred,
    nothing else in memory changes, and a later request to read the range, whatever
    else the engine has done, is answered with these bytes. *)
Theorem debugger_reads_back o s :
  engine_ok o s -> Layout.KernelStart <= fetch TargetBaseAddress s < 0xfffff78000000000 -> Data_Length s <= 3944 ->
  unbroken s.(kd_bp) (fetch TargetBaseAddress s) (Data_Length s) -> all_valid (fetch TargetBaseAddress s) (Data_Length s) ->
  exists s1 p, KdpWriteVirtualMemory valid s = Ret s1 /\ s1.(sent) = s.(sent) ++ [p] /\ transferred (Data_Length s) p /\
    (forall x, ~ (fetch TargetBaseAddress s <= x < fetch TargetBaseAddress s + Data_Length s) -> kd_memory s1 !! x = kd_memory s !! x) /\
    forall o2 s2, engine_ok o2 s2 -> kd_memory s2 = kd_memory s1 ->
      fetch TargetBaseAddress s2 = fetch TargetBaseAddress s -> fetch TransferCount s2 = Data_Length s ->
      exists s3 p2, KdpReadVirtualMemory valid s2 = Ret s3 /\ s3.(sent) = s2.(sent) ++ [p2] /\ transferred (Data_Length s) p2 /\ p2.(p_data) = Some (Data_bytes s).
Proof using laws.
  intros Hok Ha Hn Hu Hall. destruct (fr_message _ (en_frame _ _ Hok)) as [Hbl _]. pose proof (fr_length _ (en_frame _ _ Hok)) as Hdl. fold (Data_Length s) in Hdl.
  unfold Layout.KernelStart in *. destruct (write_all o s (Z.lor MMDBG_COPY_UNSAFE MMDBG_COPY_WRITE) Hok eq_refl ltac:(lia) Hu Hall) as (s1 & p & Hw & Hs & Ht & _ & Hm).
  exists s1, p. split; [exact Hw |]. split; [done |]. split; [done |]. split.
  { intros x Hx. rewrite Hm. destruct (_ && _) eqn:Hb; [| done]. zbool. lia. }
  intros o2 s2 Hok2 Hm2 Ha2 Hn2. destruct (read_all o2 s2 Hok2) as (s3 & p2 & l & Hr & Hs3 & Ht2 & Hp2 & Hl & Hat); [rewrite Ha2; exact Ha | lia | by rewrite Ha2, Hn2 |].
  exists s3, p2. rewrite Hn2 in *. split; [done |]. split; [done |]. split; [done |]. rewrite Hp2. f_equal.
  assert (length (Data_bytes s) = length l) as Hlen by (unfold Data_bytes; rewrite length_take; unfold KdpMessageBuffer; lia).
  apply (list_eq_same_length _ _ (length l)); [done | done |]. intros i x y Hi Hx Hy. pose proof (Hat i x Hx) as Hx2. rewrite Hm2, Hm, Ha2 in Hx2.
  destruct (_ && _) eqn:Hb.
  - rewrite Z.add_simpl_l, Nat2Z.id in Hx2. congruence.
  - apply andb_false_iff in Hb as [Hb | Hb]; zbool; lia.
Qed.

End session.

(** ** A machine, a line and a stop *)

#[export] Instance demo_machine : Machine := {|
  device := unit;
  readmsr := fun d _ => Ret (7, d); writemsr := fun d _ _ => Ret d;
  in_port := fun d _ _ => Ret (0xff, d); out_port := fun d _ _ _ => Ret d;
  Prcb_address := fun p => p; status_code := fun x => if NT_SUCCESS x then 0 else 0xC0000001; unset := fun n => replicate n 0
|}.

(** A line whose receptions are given. *)
#[export] Instance demo_dll : KdDll := {|
  line := list (KDP_STATUS * list Z * list Z);
  dll_receive := fun _ l m =>
    match l with
    | [] => Diverged
    | (st, h, d) :: l =>
        Ret (l, {| h_Length := 56; h_Buffer := list_inserts 0 h m.(h_Buffer); d_Length := Z.of_nat (length d);
                   d_Buffer := list_inserts 0 d m.(d_Buffer); DataLength := Z.of_nat (length d) |}, st)
    end;
  dll_poll := fun l => Ret (l, KDP_PACKET_TIMEOUT); control_c_pending := fun _ => false; clear_control_c := fun l => l
|}.

#[export] Instance demo_laws : MachineOk.
Proof.
  split.
  - intros x. cbn. destruct (NT_SUCCESS x); lia.
  - intros d n p. by eexists.
  - intros d n p v. by eexists.
  - intros l. by eexists.
Qed.

Definition demo_base : Z := 0xFFFF800000000000.
Definition demo_program : mem := mem_of demo_base (seqZ 10 16).
Definition demo_valid (a : Z) : bool := (demo_base <=? a) && (a <? demo_base + 16).

Definition demo_engine (l : list (KDP_STATUS * list Z * list Z)) : kd64 :=
  {| kd_bp := new_kd demo_program; kd_device := tt; kd_line := l;
     kd_frame := {| h_Length := 56; h_Buffer := replicate 56 0; d_Length := 0; d_Buffer := replicate (Z.to_nat 4096) 0; DataLength := 0 |};
     Context := replicate sizeof_CONTEXT 0; KdpContextSent := false; KdDebuggerNotPresent := false; KdDebuggerEnabled := true;
     KdpNumInternalBreakpoints := 0; KdpCurrentSymbolStart := 0; KdpCurrentSymbolEnd := 0;
     KdVersionBlock := replicate 40 0; SpecialRegisters := replicate sizeof_KSPECIAL_REGISTERS 0; sent := [] |}.

Definition ask (api : Z) (fields : list (field * Z)) : list Z :=
  foldr (fun f l => set f.1 f.2 l) (set ApiNumber api (replicate 56 0)) fields.

Definition all_bytes (l : list Z) : bool := forallb (fun b => (0 <=? b) && (b <? 256)) l.
Lemma all_bytes_ok l : all_bytes l = true -> Forall is_byte l.
Proof. intros H. apply Forall_forall. intros b Hb. unfold all_bytes in H. rewrite forallb_forall in H. apply list_elem_of_In, H in Hb. zbool. unfold is_byte. lia. Qed.

Definition frame_okb (m : message) : bool :=
  (m.(h_Length) =? 56) && (Z.of_nat (length m.(h_Buffer)) =? 56) && all_bytes m.(h_Buffer) &&
  (Z.of_nat (length m.(d_Buffer)) =? 4096) && all_bytes m.(d_Buffer) && (0 <=? m.(d_Length)) && (m.(d_Length) <=? 4096).
Lemma frame_okb_ok m : frame_okb m = true -> frame_ok m.
Proof.
  unfold frame_okb. rewrite !andb_true_iff. intros ((((((H1 & H2) & H3) & H4) & H5) & H6) & H7). zbool.
  split; [done | | | lia]; (split; [| by apply all_bytes_ok]); [by apply Nat2Z.inj | done].
Qed.

Lemma demo_engine_ok l : engine_ok demo_valid demo_program (demo_engine l).
Proof.
  split.
  - apply mem_of_ok. reflexivity.
  - intros a x Ha Hx. unfold demo_valid, demo_base in Ha. zbool. apply (mem_of_mapped demo_base (seqZ 10 16) x 1); [unfold demo_base; Z.to_euclidean_division_equations; lia | | lia].
    rewrite length_seqZ. unfold demo_base. Z.to_euclidean_division_equations; lia.
  - apply start_ok.
  - apply frame_okb_ok. vm_compute. reflexivity.
  - split; [apply length_replicate | apply Forall_replicate; unfold is_byte; lia].
  - split; [apply length_replicate | apply Forall_replicate; unfold is_byte; lia].
  - split; [apply length_replicate | apply Forall_replicate; unfold is_byte; lia].
Qed.

Lemma script_request_as valid header data s n apis st l m s' apis' :
  dll_receive PACKET_TYPE_KD_STATE_MANIPULATE s.(kd_line) s.(kd_frame) = Ret (l, m, KDP_PACKET_RECEIVED) -> frame_ok m ->
  request_fits (received s l m) -> KdpDispatch valid (received s l m) = Ret (s', None) ->
  apis' = answer_of (received s l m) ++ apis ->
  script valid header data s' n apis st -> script valid header data s (S n) apis' st.
Proof. intros H1 H2 H3 H4 -> H5. by eapply script_request. Qed.

Lemma script_resend_as valid header data s n apis st l m apis' :
  dll_receive PACKET_TYPE_KD_STATE_MANIPULATE s.(kd_line) s.(kd_frame) = Ret (l, m, KDP_PACKET_RESEND) -> frame_ok m ->
  apis' = ChangeAgain (send_bytes data (received s l m)) :: apis ->
  script valid header data (KdSendPacket PACKET_TYPE_KD_STATE_CHANGE64 header (send_bytes data (received s l m)) (received s l m)) n apis st ->
  script valid header data s (S n) apis' st.
Proof. intros H1 H2 -> H3. by eapply script_resend. Qed.

Lemma script_continue_as valid header data s n st l m apis' :
  dll_receive PACKET_TYPE_KD_STATE_MANIPULATE s.(kd_line) s.(kd_frame) = Ret (l, m, KDP_PACKET_RECEIVED) -> frame_ok m ->
  request_fits (received s l m) -> continues (received s l m) = Some st ->
  apis' = answer_of (received s l m) -> script valid header data s (S n) apis' st.
Proof. intros H1 H2 H3 H4 ->. by eapply script_continue. Qed.

Definition demo_line : list (KDP_STATUS * list Z * list Z) :=
  [(KDP_PACKET_RECEIVED, ask DbgKdWriteBreakPointApi [(BreakPointAddress, demo_base + 3)], []);
   (KDP_PACKET_TIMEOUT, [], []); (KDP_PACKET_RESEND, [], []);
   (KDP_PACKET_RECEIVED, ask DbgKdReadVirtualMemoryApi [(TargetBaseAddress, demo_base); (TransferCount, 5)], []);
   (KDP_PACKET_RECEIVED, ask DbgKdContinueApi2 [], [])].

Ltac not_this := intros Hnot; vm_compute in Hnot; discriminate Hnot.


Definition demo_write : kd64 :=
  with_frame (demo_engine []) {| h_Length := 56; h_Buffer := ask DbgKdWriteVirtualMemoryApi [(TargetBaseAddress, demo_base + 4)]; d_Length := 3;
                                 d_Buffer := [1; 2; 3] ++ replicate (Z.to_nat 4093) 0; DataLength := 3 |}.

Lemma debugger_reads_back_witness :
  exists s1 p, KdpWriteVirtualMemory demo_valid demo_write = Ret s1 /\ s1.(sent) = [] ++ [p] /\ transferred 3 p /\ kd_memory s1 !! demo_base = Some 10.
Proof.
  destruct (debugger_reads_back demo_valid demo_program demo_write) as (s1 & p & Hw & Hs & Ht & Hm & _).
  - destruct (demo_engine_ok []) as [H1 H2 H3 _ H5 H6 H7]. split; try done. apply frame_okb_ok. vm_compute. reflexivity.
  - vm_compute. split; congruence.
  - vm_compute. congruence.
  - intros i e Hi He. apply lookup_replicate in Hi as [-> _]. done.
  - intros x Hx. change (fetch TargetBaseAddress demo_write) with (demo_base + 4) in Hx. change (Data_Length demo_write) with 3 in Hx.
    unfold demo_valid, demo_base in *. apply andb_true_iff. split; [apply Z.leb_le | apply Z.ltb_lt]; lia.
  - exists s1, p. split; [exact Hw |]. split; [exact Hs |]. split; [exact Ht |]. rewrite Hm; [reflexivity |].
    change (fetch TargetBaseAddress demo_write) with (demo_base + 4). lia.
Defined.

(** ** Requests out of reach *)

Definition demo_asked (h d : list Z) : kd64 :=
  with_frame (demo_engine []) {| h_Length := 56; h_Buffer := h; d_Length := Z.of_nat (length d); d_Buffer := d ++ replicate (4096 - length d) 0; DataLength := Z.of_nat (length d) |}.

(** Fact: a read that runs out of valid memory is answered with the text that reports
    it instead of the bytes it had copied: both are put into KdpMessageBuffer. *)
Theorem short_read_answers_text :
  (s ← KdpReadVirtualMemory demo_valid (demo_asked (ask DbgKdReadVirtualMemoryApi [(TargetBaseAddress, demo_base + 12); (TransferCount, 8)]) []);
   Ret (p_data <$> last s.(sent))) = Ret (Some (Some (lit "MmDb"))).
Proof. vm_compute. reflexivity. Qed.

(** Fact: the sum of offset and length of a part of the context is one of 32 bits: a
    request behind the context passes the check. *)
Theorem context_ex_runs_over o s :
  engine_ok demo_valid o s -> fetch Processor s = 0 -> fetch Ex_Offset s = 2 ^ 32 - 16 -> fetch Ex_ByteCount s = 32 -> KdpGetContextEx s = Fault.
Proof.
  intros Hok Hp Ho Hn. unfold KdpGetContextEx, ex_in_range. rewrite Hp, Ho, Hn. change (_ && _) with true. cbv iota.
  unfold read_buffer. destruct (en_context _ _ _ Hok) as [Hl _]. rewrite Hl.
  destruct (Nat.leb_spec (Z.to_nat (2 ^ 32 - 16) + Z.to_nat 32) sizeof_CONTEXT) as [H |]; [| done]. exfalso.
  apply Nat2Z.inj_le in H. rewrite Nat2Z.inj_add, !Z2Nat.id in H by lia. change (Z.of_nat sizeof_CONTEXT) with 1232 in H. lia.
Qed.

Lemma context_ex_runs_over_witness :
  KdpGetContextEx (demo_asked (ask DbgKdGetContextExApi [(Ex_Offset, 2 ^ 32 - 16); (Ex_ByteCount, 32)]) []) = Fault.
Proof.
  apply (context_ex_runs_over demo_program); [| reflexivity | reflexivity | reflexivity].
  destruct (demo_engine_ok []) as [H1 H2 H3 _ H5 H6 H7]. split; try done. apply frame_okb_ok. vm_compute. reflexivity.
Defined.

(** Fact: a number that no request has is looked up in the array of names. *)
Theorem unknown_number_faults h d : get ApiNumber h = DbgKdMaximumManipulate -> KdpDispatch demo_valid (demo_asked h d) = Fault.
Proof. intros H. unfold KdpDispatch. change (fetch ApiNumber (demo_asked h d)) with (get ApiNumber h). by rewrite H. Qed.
