(* ===== verification/KdReport.v ===== *)
(** Stops of the debugged thread (kernel/debugger: kd64/kdtrap.cpp, kdprint.cpp,
    cpu.cpp and kdlock.cpp, the reports of kdapi.cpp, [KdpSetContextState] of
    kdx64.cpp, [ConvertToContext] and [DebuggerEvent] of Debugger.cpp): an exception
    becomes a report, the debugger is served, and the thread goes on.

    The engine is [kd64] of KdState; around it are the buffers of the reports and
    the context that is kept in the processor's block.  Pausing the system is left
    out: [KePauseSystem] has no body in the sources. *)
From Stdlib Require Import ZArith Lia.
From S2P Require Import Prelude CMemory VAS KdMemory KdBreak KdPacket KdState KdApi KdSession.
#[local] Open Scope Z_scope.

Definition DbgKdExceptionStateChange : Z := 0x3030.
Definition DbgKdLoadSymbolsStateChange : Z := 0x3031.
Definition DbgKdCommandStringStateChange : Z := 0x3032.
Definition DbgKdGetStringApi : Z := 0x3231.
Definition REPORT_INCLUDES_SEGS : Z := 1.
Definition REPORT_STANDARD_CS : Z := 2.
Definition KGDT64_R0_CODE : Z := 0x10.
Definition BREAKPOINT_BREAK : Z := 0.
Definition BREAKPOINT_PRINT : Z := 1.
Definition BREAKPOINT_PROMPT : Z := 2.
Definition BREAKPOINT_LOAD_SYMBOLS : Z := 3.
Definition BREAKPOINT_UNLOAD_SYMBOLS : Z := 4.
Definition BREAKPOINT_COMMAND_STRING : Z := 5.
Definition KD_PRINT_MAX_BYTES : Z := 512.

Inductive KPROCESSOR_MODE := KernelMode | UserMode.

(** EXCEPTION_RECORD, of 152 bytes. *)
Definition ExceptionCode : field := {| f_off := 0; f_size := 4 |}.
Definition NumberParameters : field := {| f_off := 24; f_size := 4 |}.
Definition ExceptionInformation (i : nat) : field := {| f_off := 32 + 8 * i; f_size := 8 |}.

Record KD_SYMBOLS_INFO := { i_BaseOfDll : Z; i_ProcessId : Z; i_CheckSum : Z; i_SizeOfImage : Z }.
Record STRING := { s_Length : Z; s_MaximumLength : Z; s_Buffer : Z }.

(** The registers that are kept over a stop, and the interrupted thread's. *)
Class Registers `{!Machine} := {
  readcr : nat -> device -> Z;
  writecr : nat -> Z -> device -> device;
  readdr : nat -> device -> Z;
  writedr : nat -> Z -> device -> device;
  (** [sgdt] and [sidt] store a limit of two bytes and a base of eight. *)
  sgdt : device -> list Z;
  lgdt : list Z -> device -> device;
  sidt : device -> list Z;
  lidt : list Z -> device -> device;
  KeGetCurrentThread : Z
}.

(** What kddata.cpp and the processor's block keep apart from the engine; the
    exception's report has the trace buffer behind it. *)
Record stop `{!Machine} `{!KdDll} := {
  st_kd : kd64;
  ContextFrame : list Z;
  TraceDataBuffer : list Z;
  TraceDataBufferPosition : Z;
  KdpPathBuffer : list Z;
  KdpPortLocked : bool;
  KdEnteredDebugger : bool;
  KdpControlCPressed : bool
}.

Section stops.
Context `{!Machine} `{!KdDll} `{!Registers} (IsValidKernelPointer : Z -> bool).

Definition with_kd (t : stop) (s : kd64) : stop :=
  {| st_kd := s; ContextFrame := t.(ContextFrame); TraceDataBuffer := t.(TraceDataBuffer); TraceDataBufferPosition := t.(TraceDataBufferPosition);
     KdpPathBuffer := t.(KdpPathBuffer); KdpPortLocked := t.(KdpPortLocked); KdEnteredDebugger := t.(KdEnteredDebugger); KdpControlCPressed := t.(KdpControlCPressed) |}.
Definition with_ContextFrame (t : stop) (c : list Z) : stop :=
  {| st_kd := t.(st_kd); ContextFrame := c; TraceDataBuffer := t.(TraceDataBuffer); TraceDataBufferPosition := t.(TraceDataBufferPosition);
     KdpPathBuffer := t.(KdpPathBuffer); KdpPortLocked := t.(KdpPortLocked); KdEnteredDebugger := t.(KdEnteredDebugger); KdpControlCPressed := t.(KdpControlCPressed) |}.
Definition with_trace (t : stop) (l : list Z) (n : Z) : stop :=
  {| st_kd := t.(st_kd); ContextFrame := t.(ContextFrame); TraceDataBuffer := l; TraceDataBufferPosition := n;
     KdpPathBuffer := t.(KdpPathBuffer); KdpPortLocked := t.(KdpPortLocked); KdEnteredDebugger := t.(KdEnteredDebugger); KdpControlCPressed := t.(KdpControlCPressed) |}.
Definition with_path (t : stop) (l : list Z) : stop :=
  {| st_kd := t.(st_kd); ContextFrame := t.(ContextFrame); TraceDataBuffer := t.(TraceDataBuffer); TraceDataBufferPosition := t.(TraceDataBufferPosition);
     KdpPathBuffer := l; KdpPortLocked := t.(KdpPortLocked); KdEnteredDebugger := t.(KdEnteredDebugger); KdpControlCPressed := t.(KdpControlCPressed) |}.
Definition with_entered (t : stop) : stop :=
  {| st_kd := t.(st_kd); ContextFrame := t.(ContextFrame); TraceDataBuffer := t.(TraceDataBuffer); TraceDataBufferPosition := t.(TraceDataBufferPosition);
     KdpPathBuffer := t.(KdpPathBuffer); KdpPortLocked := true; KdEnteredDebugger := true; KdpControlCPressed := t.(KdpControlCPressed) |}.
Definition with_control_c (t : stop) (b : bool) : stop :=
  {| st_kd := t.(st_kd); ContextFrame := t.(ContextFrame); TraceDataBuffer := t.(TraceDataBuffer); TraceDataBufferPosition := t.(TraceDataBufferPosition);
     KdpPathBuffer := t.(KdpPathBuffer); KdpPortLocked := t.(KdpPortLocked); KdEnteredDebugger := t.(KdEnteredDebugger); KdpControlCPressed := b |}.

(** ** The processor's control state *)

Definition special (k : nat) : field := {| f_off := k; f_size := 8 |}.
Definition saved_registers (d : device) : list (field * Z) :=
  [(special 0, readcr 0 d); (special 8, readcr 2 d); (special 16, readcr 3 d); (special 24, readcr 4 d); (special 160, readcr 8 d);
   (special 32, readdr 0 d); (special 40, readdr 1 d); (special 48, readdr 2 d); (special 56, readdr 3 d);
   (special 64, readdr 6 d); (special 72, readdr 7 d)].
Definition Gdtr_Limit : nat := 86.
Definition Idtr_Limit : nat := 102.
(** The model-specific registers with their places. *)
Definition saved_msrs : list (Z * field) :=
  [(0xC0000101, special 168); (0xC0000102, special 176); (0xC0000081, special 184); (0xC0000082, special 192); (0xC0000083, special 200); (0xC0000084, special 208)].

Fixpoint save_msrs (l : list (Z * field)) (d : device) (regs : list Z) : outcome (device * list Z) :=
  match l with
  | [] => Ret (d, regs)
  | (n, f) :: l => '(v, d) ← readmsr d n; save_msrs l d (set f v regs)
  end.
Fixpoint restore_msrs (l : list (Z * field)) (d : device) (regs : list Z) : outcome device :=
  match l with
  | [] => Ret d
  | (n, f) :: l => d ← writemsr d n (get f regs); restore_msrs l d regs
  end.

Definition KiSaveProcessorControlState (s : kd64) : outcome kd64 :=
  let d := s.(kd_device) in
  let regs := foldl (fun l f => set f.1 f.2 l) s.(SpecialRegisters) (saved_registers d) in
  let regs := list_inserts Idtr_Limit (sidt d) (list_inserts Gdtr_Limit (sgdt d) regs) in
  '(d, regs) ← save_msrs saved_msrs d regs;
  Ret (with_Special (with_device s d) regs).

Definition KiRestoreProcessorControlState (s : kd64) : outcome kd64 :=
  let r k := get (special k) s.(SpecialRegisters) in
  let d := s.(kd_device) in
  let d := writecr 8 (r 160%nat) (writecr 4 (r 24%nat) (writecr 3 (r 16%nat) (writecr 0 (r 0%nat) d))) in
  let d := writedr 3 (r 56%nat) (writedr 2 (r 48%nat) (writedr 1 (r 40%nat) (writedr 0 (r 32%nat) d))) in
  let d := writedr 7 (r 72%nat) (writedr 6 (r 64%nat) d) in
  let d := lidt (take 10 (drop Idtr_Limit s.(SpecialRegisters))) (lgdt (take 10 (drop Gdtr_Limit s.(SpecialRegisters))) d) in
  d ← restore_msrs saved_msrs d s.(SpecialRegisters);
  Ret (with_device s d).

(** ** Reports *)

(** A copy out of memory into a buffer of its own. *)
Definition copy_out (Address : Z) (Buffer : list Z) (Length : Z) (s : kd64) : outcome (kd64 * list Z * Z) :=
  '(Status, m, buf, Actual) ← KdpCopyMemoryChunks IsValidKernelPointer (kd_memory s) Address Buffer Length 0 MMDBG_COPY_UNSAFE;
  s ← copy_report Status MMDBG_COPY_UNSAFE (Address + Actual) (with_memory s m);
  Ret (s, buf, Actual).

(** The same into the structure or buffer [buf] from its byte [k] on. *)
Definition copy_into (Address : Z) (k : nat) (buf : list Z) (Length : Z) (s : kd64) : outcome (kd64 * list Z * Z) :=
  '(s, part, Actual) ← copy_out Address (drop k buf) Length s; Ret (s, take k buf ++ part, Actual).

Definition KdpSetCommonState (New : Z) (w : list Z) (s : kd64) : outcome (kd64 * list Z) :=
  let Pc := get Rip s.(Context) in
  let w := set W_Processor 0 (set W_ProcessorLevel 1 (set NewState New w)) in
  let w := set ProgramCounter Pc (set W_Thread KeGetCurrentThread (set NumberProcessors KeNumberProcessors w)) in
  let w := list_inserts WaitState_ControlReport (replicate sizeof_CONTROL_REPORT 0) w in
  '(s, w, Count) ← copy_into Pc InstructionStream w (Z.of_nat DBGKD_MAXSTREAM) s;
  let w := set InstructionCount (u16 Count) w in
  '(b, HadBreakpoints) ← KdpDeleteBreakpointRange IsValidKernelPointer Pc (u64 (Pc + get InstructionCount w - 1)) s.(kd_bp);
  let s := with_bp s b in
  if (HadBreakpoints : bool) then
    '(s, w, _) ← copy_into Pc InstructionStream w Count s; Ret (s, w)
  else Ret (s, w).

Definition KdpSetContextState (w Context : list Z) : list Z :=
  let w := set Report_Dr7 (get Dr7 Context) (set Report_Dr6 (get Dr6 Context) w) in
  let w := set Report_SegDs (get SegDs Context) (set Report_SegCs (get SegCs Context) w) in
  let w := set Report_SegFs (get SegFs Context) (set Report_SegEs (get SegEs Context) w) in
  let w := set ReportFlags REPORT_INCLUDES_SEGS (set Report_EFlags (get EFlags Context) w) in
  if get Report_SegCs w =? KGDT64_R0_CODE then set ReportFlags (Z.lor (get ReportFlags w) REPORT_STANDARD_CS) w else w.

Definition DumpTraceData (t : stop) : stop * list Z :=
  let n := t.(TraceDataBufferPosition) in
  let l := list_inserts 0 (le_to 4 n) t.(TraceDataBuffer) in
  (with_trace t l 1, take (Z.to_nat (u16 (n * 4))) l).

(** STRING and KD_SYMBOLS_INFO in memory. *)
Definition load_STRING (m : mem) (a : Z) : outcome STRING :=
  n ← load_le 2 m a; k ← load_le 2 m (a + 2); b ← load_le 8 m (a + 8); Ret {| s_Length := n; s_MaximumLength := k; s_Buffer := b |}.
Definition load_SYMBOLS_INFO (m : mem) (a : Z) : outcome KD_SYMBOLS_INFO :=
  b ← load_le 8 m a; p ← load_le 8 m (a + 8); c ← load_le 4 m (a + 16); n ← load_le 4 m (a + 20);
  Ret {| i_BaseOfDll := b; i_ProcessId := p; i_CheckSum := c; i_SizeOfImage := n |}.

(** No processor is switched to, so that the loop around a report is left. *)
Definition report_again (st : KCONTINUE_STATUS) : bool := match st with ContinueProcessorReselected => true | _ => false end.

(** The reports; [fuel] bounds the receptions, as in [KdpSendWaitContinue]. *)
Fixpoint KdpReportExceptionStateChange (turns fuel : nat) (ExceptionRecord : list Z) (SecondChance : bool) (t : stop) : outcome (stop * KCONTINUE_STATUS) :=
  match turns with
  | O => Diverged
  | S turns =>
      '(s, w) ← KdpSetCommonState DbgKdExceptionStateChange (unset sizeof_WAIT_STATE_CHANGE) t.(st_kd);
      let w := set FirstChance (of_bool (negb SecondChance)) (list_inserts WaitState_u ExceptionRecord w) in
      let w := KdpSetContextState w s.(Context) in
      let '(t, Data) := DumpTraceData t in
      '(s, Status) ← KdpSendWaitContinue IsValidKernelPointer fuel PACKET_TYPE_KD_STATE_CHANGE64 w (SendOwn Data) s;
      if report_again Status then KdpReportExceptionStateChange turns fuel ExceptionRecord SecondChance (with_kd t s) else Ret (with_kd t s, Status)
  end.

Fixpoint KdpReportLoadSymbolsStateChange (turns fuel : nat) (PathName SymbolInfo : Z) (Unload : bool) (t : stop) : outcome stop :=
  match turns with
  | O => Diverged
  | S turns =>
      '(s, w) ← KdpSetCommonState DbgKdLoadSymbolsStateChange (unset sizeof_WAIT_STATE_CHANGE) t.(st_kd);
      let w := KdpSetContextState w s.(Context) in
      Info ← load_SYMBOLS_INFO (kd_memory s) SymbolInfo;
      let w := set ProcessId Info.(i_ProcessId) (set BaseOfDll Info.(i_BaseOfDll) (set UnloadSymbols (of_bool Unload) w)) in
      let w := set SizeOfImage Info.(i_SizeOfImage) (set CheckSum Info.(i_CheckSum) w) in
      '(s, path, w, Extra) ←
        (if PathName =? 0 then Ret (s, t.(KdpPathBuffer), set PathNameLength 0 w, SendNone)
         else
           p ← load_STRING (kd_memory s) PathName;
           '(s, path, n) ← copy_out p.(s_Buffer) t.(KdpPathBuffer) p.(s_Length) s;
           path ← write_buffer (Z.to_nat n) [0] path;
           Ret (s, path, set PathNameLength (n + 1) w, SendOwn (take (Z.to_nat (u16 (n + 1))) path)));
      let t := with_path t path in
      '(s, Status) ← KdpSendWaitContinue IsValidKernelPointer fuel PACKET_TYPE_KD_STATE_CHANGE64 w Extra s;
      if report_again Status then KdpReportLoadSymbolsStateChange turns fuel PathName SymbolInfo Unload (with_kd t s) else Ret (with_kd t s)
  end.

(** The strings go into KdpMessageBuffer, where the length the packet leaves for
    them is what the second may take. *)
Definition command_length (Total Length : Z) : Z :=
  let most := PACKET_MAX_SIZE - Z.of_nat sizeof_WAIT_STATE_CHANGE - Total in if most <? Length then most else Length.

(** Copying into KdpMessageBuffer from its byte [k] on; what a failed copy prints
    goes through the same buffer. *)
Definition copy_message (Address : Z) (k : nat) (Length : Z) (s : kd64) : outcome (kd64 * Z) :=
  let buf := KdpMessageBuffer s in
  '(Status, m, part, Actual) ← KdpCopyMemoryChunks IsValidKernelPointer (kd_memory s) Address (drop k buf) Length 0 MMDBG_COPY_UNSAFE;
  s ← copy_report Status MMDBG_COPY_UNSAFE (Address + Actual) (with_message (with_memory s m) (take k buf ++ part));
  Ret (s, Actual).
Definition end_message (k : Z) (s : kd64) : outcome kd64 :=
  buf ← write_buffer (Z.to_nat k) [0] (KdpMessageBuffer s); Ret (with_message s buf).

Definition command_data (NameString CommandString : Z) (s : kd64) : outcome (kd64 * Z) :=
  Name ← load_STRING (kd_memory s) NameString;
  '(s, n) ← copy_message Name.(s_Buffer) 0 (Z.min 127 Name.(s_Length)) s;
  s ← end_message n s;
  Command ← load_STRING (kd_memory s) CommandString;
  '(s, m) ← copy_message Command.(s_Buffer) (Z.to_nat (n + 1)) (command_length (n + 1) Command.(s_Length)) s;
  s ← end_message (n + 1 + m) s;
  Ret (s, n + 1 + m + 1).

Fixpoint KdpReportCommandStringStateChange (turns fuel : nat) (NameString CommandString : Z) (t : stop) : outcome stop :=
  match turns with
  | O => Diverged
  | S turns =>
      '(s, w) ← KdpSetCommonState DbgKdCommandStringStateChange (unset sizeof_WAIT_STATE_CHANGE) t.(st_kd);
      let w := list_inserts WaitState_u (replicate sizeof_COMMAND_STRING 0) (KdpSetContextState w s.(Context)) in
      '(s, Total) ← command_data NameString CommandString s;
      '(s, Status) ← KdpSendWaitContinue IsValidKernelPointer fuel PACKET_TYPE_KD_STATE_CHANGE64 w (SendMessage (Z.to_nat (u16 Total))) s;
      if report_again Status then KdpReportCommandStringStateChange turns fuel NameString CommandString (with_kd t s) else Ret (with_kd t s)
  end.

(** ** Entering the debugger

    Leaving it only lets the system go on: the port's lock is commented out. *)
Definition KdEnterDebugger (t : stop) : stop := with_entered t.

Definition is_debug_exception (ExceptionRecord : list Z) : bool :=
  let code := get ExceptionCode ExceptionRecord in
  (code =? status_code STATUS_BREAKPOINT) || (code =? status_code STATUS_SINGLE_STEP) || (code =? status_code STATUS_ASSERTION_FAILURE).
Definition status_true (st : KCONTINUE_STATUS) : bool := match st with ContinueError => false | _ => true end.

(** Entering with the thread's context kept in the processor's block; the engine
    then works on the context [ContextRecord]. *)
Definition enter_with (ContextRecord : list Z) (t : stop) : outcome stop :=
  let t := KdEnterDebugger t in
  s ← KiSaveProcessorControlState t.(st_kd);
  Ret (with_ContextFrame (with_kd t (with_Context s ContextRecord)) ContextRecord).

(** The results of a trap: the state, the thread's context, and whether it is handled. *)
Definition KdpReport (turns fuel : nat) (ExceptionRecord ContextRecord : list Z) (SecondChance : bool) (t : stop) : outcome (stop * list Z * bool) :=
  if is_debug_exception ExceptionRecord then
    t ← enter_with ContextRecord t;
    '(t, Status) ← KdpReportExceptionStateChange turns fuel ExceptionRecord SecondChance t;
    s ← KiRestoreProcessorControlState t.(st_kd);
    Ret (with_control_c (with_kd t s) false, t.(ContextFrame), status_true Status)
  else Ret (t, ContextRecord, false).

Definition kernel_mode (m : KPROCESSOR_MODE) : bool := match m with KernelMode => true | _ => false end.

Definition KdpCommandString (turns fuel : nat) (NameString CommandString : Z) (PreviousMode : KPROCESSOR_MODE) (ContextRecord : list Z) (t : stop) : outcome (stop * list Z) :=
  if negb (kernel_mode PreviousMode) || t.(st_kd).(KdDebuggerNotPresent) then Ret (t, ContextRecord)
  else
    t ← enter_with ContextRecord t;
    t ← KdpReportCommandStringStateChange turns fuel NameString CommandString t;
    s ← KiRestoreProcessorControlState t.(st_kd);
    Ret (with_kd t s, t.(ContextFrame)).

(** The one report whose context is the one kept in the block. *)
Definition KdpSymbol (turns fuel : nat) (DllPath SymbolInfo : Z) (Unload : bool) (PreviousMode : KPROCESSOR_MODE) (ContextRecord : list Z) (t : stop) : outcome (stop * list Z) :=
  if negb (kernel_mode PreviousMode) || t.(st_kd).(KdDebuggerNotPresent) then Ret (t, ContextRecord)
  else
    t ← enter_with ContextRecord t;
    t ← KdpReportLoadSymbolsStateChange turns fuel DllPath SymbolInfo Unload t;
    let t := with_ContextFrame t (Context t.(st_kd)) in
    s ← KiRestoreProcessorControlState t.(st_kd);
    Ret (with_kd t s, t.(ContextFrame)).

(** ** Printing and asking *)

Definition KdpPrint (String Length : Z) (t : stop) : outcome (stop * NTSTATUS * bool) :=
  let Length := Z.min Length KD_PRINT_MAX_BYTES in
  if t.(st_kd).(KdDebuggerNotPresent) then Ret (t, STATUS_DEVICE_NOT_CONNECTED, true)
  else
    let t := KdEnterDebugger t in
    text ← load_bytes (kd_memory t.(st_kd)) String (Z.to_nat Length);
    '(s, pressed) ← KdpPrintString text t.(st_kd);
    Ret (with_kd t s, if (pressed : bool) then STATUS_BREAKPOINT else STATUS_SUCCESS, true).

(** Waiting for the answer: [None] asks for the prompt again. *)
Fixpoint prompt_loop (fuel : nat) (s : kd64) (m : message) : outcome (kd64 * option Z) :=
  match fuel with
  | O => Diverged
  | S fuel =>
      '(l, m, Status) ← dll_receive PACKET_TYPE_KD_DEBUG_IO s.(kd_line) m;
      let s := with_message (with_line s l) m.(d_Buffer) in
      match Status with
      | KDP_PACKET_RESEND => Ret (s, None)
      | KDP_PACKET_RECEIVED => Ret (s, Some m.(DataLength))
      | KDP_PACKET_TIMEOUT => prompt_loop fuel s m
      end
  end.

Definition KdpPromptString (fuel : nat) (Prompt PromptLength Response MaximumLength : Z) (s : kd64) : outcome (kd64 * option Z) :=
  text ← load_bytes (kd_memory s) Prompt (Z.to_nat PromptLength);
  buf ← write_buffer 0 text (KdpMessageBuffer s);
  let Length := if PACKET_MAX_SIZE <? sizeof_DEBUG_IO + PromptLength then PACKET_MAX_SIZE - sizeof_DEBUG_IO else PromptLength in
  let DebugIo := le_to 4 DbgKdGetStringApi ++ le_to 2 0 ++ le_to 2 0 ++ le_to 4 Length ++ le_to 4 MaximumLength in
  let s := KdSendPacket PACKET_TYPE_KD_DEBUG_IO DebugIo (Some (take (Z.to_nat Length) buf)) (with_message s buf) in
  '(s, Length) ← prompt_loop fuel s {| h_Length := sizeof_DEBUG_IO; h_Buffer := DebugIo; d_Length := Length; d_Buffer := buf; DataLength := Length |};
  match Length with
  | None => Ret (s, None)
  | Some Length =>
      let Length := Z.min Length MaximumLength in
      answer ← read_buffer 0 (Z.to_nat Length) (KdpMessageBuffer s);
      m ← store_bytes (kd_memory s) Response answer;
      Ret (with_memory s m, Some (u16 Length))
  end.

Fixpoint prompt_turns (turns fuel : nat) (Prompt PromptLength Response MaximumLength : Z) (s : kd64) : outcome (kd64 * Z) :=
  match turns with
  | O => Diverged
  | S turns =>
      '(s, Length) ← KdpPromptString fuel Prompt PromptLength Response MaximumLength s;
      match Length with
      | None => prompt_turns turns fuel Prompt PromptLength Response MaximumLength s
      | Some Length => Ret (s, Length)
      end
  end.

Definition KdpPrompt (turns fuel : nat) (PromptString PromptLength ResponseString MaximumResponseLength : Z) (t : stop) : outcome (stop * Z) :=
  let t := KdEnterDebugger t in
  '(s, Length) ← prompt_turns turns fuel PromptString (Z.min PromptLength KD_PRINT_MAX_BYTES) ResponseString (Z.min MaximumResponseLength KD_PRINT_MAX_BYTES) t.(st_kd);
  Ret (with_kd t s, Length).

Definition KdPollBreakIn (t : stop) : outcome (stop * bool) :=
  '(s, DoBreak) ← KdpPollBreakInWithPortLock t.(st_kd);
  Ret (if (DoBreak : bool) then with_control_c (with_kd t s) true else with_kd t s, DoBreak).

(** ** Traps *)

Definition KeSetContextReturnRegister (v : Z) (c : list Z) : list Z := set Rax v c.

(** What a breakpoint with the number of a service asks for. *)
Definition debug_service (turns fuel : nat) (rec ctx : list Z) (mode : KPROCESSOR_MODE) (t : stop) : outcome (stop * list Z * bool) :=
  let info i := get (ExceptionInformation i) rec in
  if info 0%nat =? BREAKPOINT_PRINT then
    '(t, Status, Handled) ← KdpPrint (info 1%nat) (u16 (info 2%nat)) t;
    Ret (t, KeSetContextReturnRegister (u64 (s32 (status_code Status))) ctx, Handled)
  else if info 0%nat =? BREAKPOINT_PROMPT then
    '(t, n) ← KdpPrompt turns fuel (info 1%nat) (u16 (info 2%nat)) (get R8 ctx) (u16 (get R9 ctx)) t;
    Ret (t, KeSetContextReturnRegister n ctx, true)
  else if (info 0%nat =? BREAKPOINT_UNLOAD_SYMBOLS) || (info 0%nat =? BREAKPOINT_LOAD_SYMBOLS) then
    '(t, ctx) ← KdpSymbol turns fuel (info 1%nat) (info 2%nat) (info 0%nat =? BREAKPOINT_UNLOAD_SYMBOLS) mode ctx t;
    Ret (t, ctx, true)
  else if info 0%nat =? BREAKPOINT_COMMAND_STRING then
    '(t, ctx) ← KdpCommandString turns fuel (info 1%nat) (info 2%nat) mode ctx t;
    Ret (t, ctx, true)
  else Ret (t, ctx, false).

Definition KdpTrap (turns fuel : nat) (rec ctx : list Z) (mode : KPROCESSOR_MODE) (SecondChance : bool) (t : stop) : outcome (stop * list Z * bool) :=
  if (get ExceptionCode rec =? status_code STATUS_BREAKPOINT) && negb (get (ExceptionInformation 0) rec =? BREAKPOINT_BREAK) then
    '(t, ctx', Handled) ← debug_service turns fuel rec ctx mode t;
    Ret (t, if get Rip ctx =? get Rip ctx' then set Rip (u64 (get Rip ctx + KD_BREAKPOINT_SIZE)) ctx' else ctx', Handled)
  else KdpReport turns fuel rec ctx SecondChance t.

(** ** The interrupt

    The interrupted thread's registers, and the context made of them: the segments
    DS and ES and the debug registers stay 0. *)
Record X64_INTERRUPT_FRAME := {
  f_RAX : Z; f_RCX : Z; f_RDX : Z; f_RBX : Z; f_RSI : Z; f_RDI : Z; f_R8 : Z; f_R9 : Z; f_R10 : Z; f_R11 : Z; f_R12 : Z; f_R13 : Z; f_R14 : Z; f_R15 : Z;
  f_FS : Z; f_GS : Z; f_RBP : Z; f_ErrorCode : Z; f_RIP : Z; f_CS : Z; f_RFlags : Z; f_RSP : Z; f_SS : Z
}.
Definition SegGs : field := {| f_off := 64; f_size := 2 |}.
Definition SegSs : field := {| f_off := 66; f_size := 2 |}.
(** The integer registers of CONTEXT, Rax first. *)
Definition integer_register (i : nat) : field := {| f_off := 120 + 8 * i; f_size := 8 |}.

Definition frame_registers (f : X64_INTERRUPT_FRAME) : list Z :=
  [f.(f_RAX); f.(f_RCX); f.(f_RDX); f.(f_RBX); f.(f_RSP); f.(f_RBP); f.(f_RSI); f.(f_RDI);
   f.(f_R8); f.(f_R9); f.(f_R10); f.(f_R11); f.(f_R12); f.(f_R13); f.(f_R14); f.(f_R15)].
Definition ConvertToContext (f : X64_INTERRUPT_FRAME) (c : list Z) : list Z :=
  let c := set SegSs (u16 f.(f_SS)) (set SegGs (u16 f.(f_GS)) (set SegFs (u16 f.(f_FS)) (set SegCs (u16 f.(f_CS)) c))) in
  let c := set Rip f.(f_RIP) (set EFlags (u32 f.(f_RFlags)) c) in
  foldl (fun c r => set (integer_register r.1) r.2 c) c (zip (seq 0 16) (frame_registers f)).

Definition break_record (thread : Z) : list Z :=
  set (ExceptionInformation 2) 0 (set (ExceptionInformation 1) thread (set (ExceptionInformation 0) BREAKPOINT_BREAK
    (set NumberParameters 3 (set ExceptionCode (status_code STATUS_BREAKPOINT) (replicate sizeof_EXCEPTION_RECORD 0))))).

(** Nothing of the context goes back into the frame. *)
Definition DebuggerEvent (turns fuel : nat) (vector thread : Z) (f : X64_INTERRUPT_FRAME) (t : stop) : outcome stop :=
  _ ← Assert (vector =? 3);
  '(t, _, _) ← KdpTrap turns fuel (break_record thread) (ConvertToContext f (replicate sizeof_CONTEXT 0)) KernelMode false t;
  Ret t.
End stops.

(** ** What a report shows *)

(** What the machine promises besides [MachineOk]. *)
Class RegistersOk {machine : Machine} {dll : KdDll} {registers : Registers} := {
  ro_laws : MachineOk;
  ro_unset : forall n, length (unset n) = n /\ Forall is_byte (unset n);
  ro_cr : forall n d, 0 <= readcr n d < 2 ^ 64;
  ro_dr : forall n d, 0 <= readdr n d < 2 ^ 64;
  ro_tables : forall d, (length (sgdt d) = 10 /\ Forall is_byte (sgdt d))%nat /\ (length (sidt d) = 10 /\ Forall is_byte (sidt d))%nat;
  (** Writing back what was read changes nothing. *)
  ro_writecr : forall n d, writecr n (readcr n d) d = d;
  ro_writedr : forall n d, writedr n (readdr n d) d = d;
  ro_lgdt : forall d, lgdt (sgdt d) d = d;
  ro_lidt : forall d, lidt (sidt d) d = d;
  (** The six model-specific registers exist. *)
  ro_readmsr : forall r d, In r saved_msrs -> exists v, readmsr d r.1 = Ret (v, d) /\ 0 <= v < 2 ^ 64 /\ writemsr d r.1 v = Ret d;
  ro_writemsr : forall r d v, In r saved_msrs -> exists d', writemsr d r.1 v = Ret d'
}.

Section report.
Context {machine : Machine} {dll : KdDll} {registers : Registers} {laws : RegistersOk} (valid : Z -> bool).

#[local] Instance machine_ok : MachineOk := ro_laws.

(** Printing leaves everything but KdpMessageBuffer, the line and what was sent. *)
Record printed (s s' : kd64) : Prop := {
  pd_bp : s'.(kd_bp) = s.(kd_bp);
  pd_device : s'.(kd_device) = s.(kd_device);
  pd_Context : s'.(Context) = s.(Context);
  pd_special : s'.(SpecialRegisters) = s.(SpecialRegisters);
  pd_present : s'.(KdDebuggerNotPresent) = s.(KdDebuggerNotPresent)
}.

Lemma KdpDprintf_printed fmt ap s s' : KdpDprintf fmt ap s = Ret s' -> printed s s'.
Proof.
  unfold KdpDprintf. intros H. apply bind_Ret in H as ([text st] & _ & H). destruct (_ <? _)%nat; [done |].
  apply bind_Ret in H as ([s1 b] & H & [= <-]). unfold KdpPrintString in H. apply bind_Ret in H as (buf & _ & H).
  unfold KdpPollBreakInWithPortLock in H. destruct (KdDebuggerEnabled _); [| by injection H as <- _].
  destruct (control_c_pending _); [by injection H as <- _ |]. apply bind_Ret in H as ([l x] & _ & H). by injection H as <- _.
Qed.

Lemma copy_report_printed st fl a s s' : copy_report st fl a s = Ret s' -> printed s s'.
Proof. unfold copy_report. destruct (NT_SUCCESS st); [by intros [= <-] | apply KdpDprintf_printed]. Qed.

Lemma with_own_memory s : with_memory s (kd_memory s) = s.
Proof. by destruct s as [[] ? ? ? ? ? ? ? ? ? ? ? ? ?]. Qed.

(** Copying into a structure: the bytes from its byte [k] on are memory's. *)
Lemma copy_into_run o s a k buf Length :
  engine_ok valid o s -> Forall is_byte buf -> (k + Z.to_nat Length <= length buf)%nat -> 0 <= Length -> 0 <= a -> a + Length < 2 ^ 64 ->
  exists s' part n, copy_into valid a k buf Length s = Ret (s', take k buf ++ part, Z.of_nat n) /\
    prepared valid o s s' /\ printed s s' /\ (n <= Z.to_nat Length)%nat /\ (all_valid valid a Length -> n = Z.to_nat Length /\ s' = s) /\
    Forall is_byte part /\ length part = (length buf - k)%nat /\
    forall i, part !! i = if (i <? n)%nat then kd_memory s !! (a + Z.of_nat i) else buf !! (k + i)%nat.
Proof using laws.
  intros Hok Hb Hk HL Ha Hmax. destruct (engine_memory valid o s Hok) as [Hm Hv].
  assert (Forall is_byte (drop k buf)) as Hdb by (by apply Forall_drop).
  destruct (KdpCopyMemoryChunks_run valid (kd_memory s) a (drop k buf) Length 0 MMDBG_COPY_UNSAFE) as (m' & part & n & Hr & Hn & Hall & _ & Hc);
    [done | done | done | rewrite length_drop; lia | lia | lia |].
  destruct (copied_keeps valid _ _ _ _ _ _ _ _ Hc) as (_ & Hpb & _ & Hpl); [done | done | done | rewrite length_drop; lia |].
  unfold copied in Hc. change (truthy (Z.land MMDBG_COPY_UNSAFE MMDBG_COPY_WRITE)) with false in Hc. destruct Hc as (-> & _ & Hi).
  unfold copy_into, copy_out. rewrite Hr. cbn [mbind outcome_bind]. rewrite with_own_memory. set (Status := if _ =? _ then _ else _).
  destruct (copy_report_run valid o s s Status MMDBG_COPY_UNSAFE (a + Z.of_nat n) ltac:(lia) (prepared_refl valid o s Hok)) as (s1 & Hs1 & Hp & _).
  rewrite Hs1. cbn [mbind outcome_bind]. exists s1, part, n. split; [done |]. split; [done |]. split; [by eapply copy_report_printed |]. split; [lia |]. split.
  { intros Hva. assert (Z.of_nat n = Length) as HnL by (apply Hall; intros; apply Hva; lia). split; [lia |].
    unfold Status in Hs1. rewrite HnL, Z.eqb_refl in Hs1. unfold copy_report in Hs1. cbn in Hs1. congruence. }
  split; [done |]. split; [by rewrite Hpl, length_drop |]. intros i. rewrite Hi, lookup_drop, Nat.sub_0_r, Nat.add_0_l. cbn [Nat.leb andb]. done.
Qed.

Lemma get_app f l1 l2 : (f.(f_off) + f.(f_size) <= length l1)%nat -> get f (l1 ++ l2) = get f l1.
Proof. intros H. unfold get. by rewrite drop_app_le, take_app_le by (rewrite ?length_drop; lia). Qed.

(** A report of the event [New] at [Pc]: it shows the bytes of the program [o]. *)
Record shows (o : mem) (New Pc : Z) (w : list Z) : Prop := {
  sh_length : length w = sizeof_WAIT_STATE_CHANGE;
  sh_bytes : Forall is_byte w;
  sh_event : get NewState w = New;
  sh_pc : get ProgramCounter w = Pc;
  sh_count : get InstructionCount w = Z.of_nat DBGKD_MAXSTREAM;
  sh_stream : bytes_at o Pc (take DBGKD_MAXSTREAM (drop InstructionStream w))
}.

(** The bytes of the structure that belong to none of these. *)
Definition elsewhere (k n : nat) : Prop :=
  (4 <= k /\ k + n <= 24 \/ 32 <= k /\ k + n <= 212 \/ 214 <= k /\ k + n <= 216 \/ 232 <= k /\ k + n <= 240)%nat.

Lemma shows_inserts o New Pc w k l : elsewhere k (length l) -> Forall is_byte l -> shows o New Pc w -> shows o New Pc (list_inserts k l w).
Proof.
  intros Hk Hl [H1 H2 H3 H4 H5 H6]. unfold elsewhere in Hk.
  split; [by rewrite length_inserts | by apply inserts_bytes | | | |]; unfold get; rewrite take_drop_inserts_ne; try done;
    cbn [f_off f_size NewState ProgramCounter InstructionCount]; unfold DBGKD_MAXSTREAM, InstructionStream; lia.
Qed.
Lemma shows_set o New Pc w f v : elsewhere f.(f_off) f.(f_size) -> shows o New Pc w -> shows o New Pc (set f v w).
Proof. intros Hf. apply shows_inserts; [by rewrite le_to_length | apply le_to_bytes]. Qed.

(** The structure with the instruction stream read behind its bytes [w]. *)
Lemma stream_take (w part : list Z) : (InstructionStream <= length w)%nat ->
  take DBGKD_MAXSTREAM (drop InstructionStream (take InstructionStream w ++ part)) = take DBGKD_MAXSTREAM part.
Proof.
  intros H. assert (length (take InstructionStream w) = InstructionStream) as Hl by (rewrite length_take; lia).
  rewrite drop_app_ge by lia. by rewrite Hl, Nat.sub_diag, drop_0.
Qed.

Lemma stream_bytes (o : mem) a n (part w : list Z) :
  (forall i, part !! i = if (i <? n)%nat then o !! (a + Z.of_nat i) else w !! i) -> (DBGKD_MAXSTREAM <= n)%nat -> bytes_at o a (take DBGKD_MAXSTREAM part).
Proof.
  intros Hp Hn i b Hi. apply lookup_take_Some in Hi as [Hi Hlt]. rewrite Hp in Hi. destruct (Nat.ltb_spec i n); [done | lia].
Qed.

Lemma shows_stream o New Pc w part :
  length w = sizeof_WAIT_STATE_CHANGE -> Forall is_byte w -> get NewState w = New -> get ProgramCounter w = Pc -> get InstructionCount w = Z.of_nat DBGKD_MAXSTREAM ->
  Forall is_byte part -> length part = 24%nat -> bytes_at o Pc (take DBGKD_MAXSTREAM part) -> shows o New Pc (take InstructionStream w ++ part).
Proof.
  intros Hl Hb HN HP HC Hpb Hpl Hs. assert (length (take InstructionStream w) = InstructionStream) as Htl by (rewrite length_take, Hl; reflexivity).
  split.
  - rewrite length_app, Htl, Hpl. reflexivity.
  - by apply Forall_app_2; [apply Forall_take |].
  - rewrite get_app by (rewrite Htl; in_struct). rewrite get_take by in_struct. done.
  - rewrite get_app by (rewrite Htl; in_struct). rewrite get_take by in_struct. done.
  - rewrite get_app by (rewrite Htl; in_struct). rewrite get_take by in_struct. done.
  - rewrite stream_take by (rewrite Hl; in_struct). done.
Qed.

(** Where no breakpoint is the memory is the program's. *)
Lemma unbroken_program o b a n x :
  core_ok o b -> (forall j e, b.(KdpBreakpointTable) !! j = Some e -> a <= e.(bp_Address) <= a + n - 1 -> e.(bp_Flags) = 0) ->
  a <= x < a + n -> b.(kd_mem) !! x = o !! x.
Proof.
  intros Hc Hf Hx. apply (co_rest o b Hc). intros i e Hi Hw He. specialize (Hf i e Hi ltac:(lia)). unfold written in Hw. by rewrite Hf in Hw.
Qed.

Definition common_fields (New Pc : Z) (w : list Z) : list Z :=
  list_inserts WaitState_ControlReport (replicate sizeof_CONTROL_REPORT 0)
    (set ProgramCounter Pc (set W_Thread KeGetCurrentThread (set NumberProcessors KeNumberProcessors (set W_Processor 0 (set W_ProcessorLevel 1 (set NewState New w)))))).

Lemma get_inserts_ne f k l w : (f.(f_off) + f.(f_size) <= k \/ k + length l <= f.(f_off))%nat -> get f (list_inserts k l w) = get f w.
Proof. intros H. unfold get. rewrite take_drop_inserts_ne; [done | lia]. Qed.

Lemma common_fields_ok New Pc w :
  length w = sizeof_WAIT_STATE_CHANGE -> Forall is_byte w -> 0 <= New < 2 ^ 32 -> 0 <= Pc < 2 ^ 64 ->
  let w' := common_fields New Pc w in
  length w' = sizeof_WAIT_STATE_CHANGE /\ Forall is_byte w' /\ get NewState w' = New /\ get ProgramCounter w' = Pc.
Proof.
  intros Hl Hb HN HP. cbv zeta. unfold common_fields. split; [by rewrite length_inserts, !set_length |]. split.
  { apply inserts_bytes; [apply Forall_replicate; unfold is_byte; lia |]. do 6 apply set_bytes. done. }
  split; rewrite get_inserts_ne by (rewrite length_replicate; left; in_struct).
  - rewrite !get_set_ne by apart. apply get_set; [unfold field_in; rewrite Hl; in_struct | done].
  - apply get_set; [unfold field_in; rewrite !set_length, Hl; in_struct | done].
Qed.

Lemma KdpSetCommonState_run o New w s :
  engine_ok valid o s -> length w = sizeof_WAIT_STATE_CHANGE -> Forall is_byte w -> 0 <= New < 2 ^ 32 ->
  let Pc := get Rip s.(Context) in
  Pc + 16 < 2 ^ 64 -> all_valid valid Pc 16 ->
  exists b w', KdpSetCommonState valid New w s = Ret (with_bp s b, w') /\ bp_ok o b /\ shows o New Pc w' /\
    forall j e, b.(KdpBreakpointTable) !! j = Some e -> Pc <= e.(bp_Address) < Pc + 16 -> e.(bp_Flags) = 0.
Proof using laws.
  intros Hok Hl Hb HN Pc Hmax Hva. unfold KdpSetCommonState. fold (common_fields New (get Rip s.(Context)) w). fold Pc.
  assert (0 <= Pc) as HP by (apply (get_range Rip); [apply Hok | unfold field_in; rewrite (proj1 (en_context _ _ _ Hok)); in_struct]).
  destruct (common_fields_ok New Pc w Hl Hb HN ltac:(lia)) as (Hl1 & Hb1 & HN1 & HP1). set (w1 := common_fields New Pc w) in *.
  destruct (copy_into_run o s Pc InstructionStream w1 (Z.of_nat DBGKD_MAXSTREAM)) as (s1 & part & n & -> & _ & _ & _ & Hn & Hpb & Hpl & Hpi);
    [done | done | rewrite Hl1; in_struct | done | done | exact Hmax |].
  destruct (Hn Hva) as [-> ->]. cbn [mbind outcome_bind]. rewrite Hl1 in Hpl. change (Z.of_nat (Z.to_nat (Z.of_nat DBGKD_MAXSTREAM))) with 16. change (u16 16) with 16.
  set (w2 := set InstructionCount 16 (take InstructionStream w1 ++ part)).
  assert (length (take InstructionStream w1 ++ part) = sizeof_WAIT_STATE_CHANGE) as Hl2 by (rewrite length_app, length_take, Hl1, Hpl; reflexivity).
  assert (get InstructionCount w2 = 16) as HC2.
  { apply get_set; [unfold field_in; rewrite Hl2; in_struct | done]. }
  assert (Forall is_byte w2) as Hb2 by (apply set_bytes, Forall_app_2; [by apply Forall_take | done]).
  assert (get NewState w2 = New /\ get ProgramCounter w2 = Pc) as [HN2 HP2].
  { unfold w2. rewrite !get_set_ne by apart. rewrite !get_app by (rewrite length_take, Hl1; in_struct). by rewrite !get_take by in_struct. }
  rewrite HC2, (wrap_small 64) by lia.
  destruct (KdpDeleteBreakpointRange_clears valid o (en_mem _ _ _ Hok) (en_valid _ _ _ Hok) s.(kd_bp) Pc (Pc + 16 - 1) (en_bp _ _ _ Hok)) as (b & had & -> & Hbok & Hsame & Hfree);
    [intros x Hx; apply Hva; lia |].
  cbn [mbind outcome_bind]. assert (forall x, Pc <= x < Pc + 16 -> b.(kd_mem) !! x = o !! x) as Hprog by (intros x; apply unbroken_program; [apply Hbok | exact Hfree]).
  assert (forall part', (forall i, part' !! i = if (i <? 16)%nat then b.(kd_mem) !! (Pc + Z.of_nat i) else w1 !! (InstructionStream + i)%nat) ->
            bytes_at o Pc (take DBGKD_MAXSTREAM part')) as Hstream.
  { intros part' Hpart. apply (stream_bytes o Pc 16 part' (drop InstructionStream w1)); [| reflexivity].
    intros i. rewrite Hpart, lookup_drop. destruct (Nat.ltb_spec i 16); [apply Hprog; lia | done]. }
  destruct had.
  - destruct (copy_into_run o (with_bp s b) Pc InstructionStream w2 16) as (s2 & part2 & n2 & -> & _ & _ & _ & Hn2 & Hpb2 & Hpl2 & Hpi2);
      [by destruct Hok | done | unfold w2; rewrite set_length, Hl2; in_struct | done | done | exact Hmax |].
    destruct (Hn2 Hva) as [-> ->]. cbn [mbind outcome_bind]. exists b. eexists. split; [reflexivity |]. split; [done |]. split; [| intros j e Hj Hx; apply (Hfree j e Hj); lia].
    apply shows_stream; try done; [unfold w2; by rewrite set_length, Hl2 | unfold w2 in Hpl2; rewrite set_length, Hl2 in Hpl2; by rewrite Hpl2 |].
    apply (stream_bytes o Pc 16 part2 (drop InstructionStream w2)); [| reflexivity].
    intros i. rewrite Hpi2, lookup_drop. change (Z.to_nat 16) with 16%nat. destruct (Nat.ltb_spec i 16); [apply Hprog; lia | done].
  - exists b, w2. assert (b = s.(kd_bp)) as Hbs by (by apply Hsame). split; [by rewrite Hbs; destruct s |]. split; [done |]. split; [| intros j e Hj Hx; apply (Hfree j e Hj); lia].
    split; [unfold w2; by rewrite set_length | done | done | done | done |].
    unfold w2, set. rewrite take_drop_inserts_ne by (rewrite le_to_length; left; in_struct). rewrite stream_take by (rewrite Hl1; in_struct).
    apply Hstream. intros i. rewrite Hpi, Hbs. done.
Qed.

Ltac away := unfold elsewhere; cbn [f_off f_size Report_Dr6 Report_Dr7 Report_EFlags ReportFlags Report_SegCs Report_SegDs Report_SegEs Report_SegFs FirstChance]; lia.

Lemma shows_context o New Pc w c : shows o New Pc w -> shows o New Pc (KdpSetContextState w c).
Proof.
  intros H. unfold KdpSetContextState. match goal with |- context [if _ then set ReportFlags _ ?w' else _] => set (w1 := w') end.
  assert (shows o New Pc w1) as H1 by (unfold w1; do 8 (apply shows_set; [away |]); done).
  destruct (_ =? _); [apply shows_set; [away | done] | done].
Qed.

(** ** The processor's registers over a stop *)

(** The value of a field after several have been stored. *)
Ltac stored_field :=
  repeat first
    [ rewrite get_set by first [unfold field_in; rewrite ?set_length, ?length_inserts, ?set_length; first [assumption | match goal with Hl : length _ = _ |- _ => rewrite Hl; in_struct end] | done]
    | rewrite get_set_ne by apart
    | rewrite get_inserts_ne by (match goal with Ht : length ?t = 10%nat |- context [length ?t] => rewrite Ht end; first [left; in_struct | right; in_struct]) ].

Lemma save_msrs_run d l regs : incl l saved_msrs -> exists vs, length vs = length l /\
  save_msrs l d regs = Ret (d, foldl (fun w r => set r.1.2 r.2 w) regs (zip l vs)) /\
  Forall2 (fun r v => 0 <= v < 2 ^ 64 /\ writemsr d r.1 v = Ret d) l vs.
Proof using laws.
  revert regs. induction l as [|[n f] l IH]; intros regs Hl; [by exists [] |].
  destruct (ro_readmsr (n, f) d) as (v & Hr & Hv & Hw); [apply Hl; by left |]. cbn [fst] in Hr, Hw.
  destruct (IH (set f v regs)) as (vs & Hlen & Hs & Hall); [intros x Hx; apply Hl; by right |].
  exists (v :: vs). cbn [save_msrs length zip zip_with foldl fst snd]. rewrite Hr. cbn [mbind outcome_bind]. split; [by rewrite Hlen |]. split; [exact Hs |]. by constructor.
Qed.

Lemma KiSave_run s :
  length s.(SpecialRegisters) = sizeof_KSPECIAL_REGISTERS -> Forall is_byte s.(SpecialRegisters) ->
  exists regs, KiSaveProcessorControlState s = Ret (with_Special s regs) /\
    length regs = sizeof_KSPECIAL_REGISTERS /\ Forall is_byte regs /\
    KiRestoreProcessorControlState (with_Special s regs) = Ret (with_Special s regs).
Proof using laws.
  intros Hl Hb. set (d := s.(kd_device)). destruct (ro_tables d) as [[Hg Hgb] [Hi Hib]].
  unfold KiSaveProcessorControlState. fold d.
  set (r0 := list_inserts Idtr_Limit _ _).
  destruct (save_msrs_run d saved_msrs r0 ltac:(intros x Hx; exact Hx)) as (vs & Hlen & -> & Hall). cbn [mbind outcome_bind].
  repeat (destruct vs as [|? vs]; try discriminate Hlen). 
  apply Forall2_cons in Hall as [[? ?] Hall]. apply Forall2_cons in Hall as [[? ?] Hall]. apply Forall2_cons in Hall as [[? ?] Hall].
  apply Forall2_cons in Hall as [[? ?] Hall]. apply Forall2_cons in Hall as [[? ?] Hall]. apply Forall2_cons in Hall as [[? ?] _].
  cbn [saved_msrs zip zip_with foldl fst snd]. 
  match goal with |- context [with_Special _ ?r] => set (regs := r) end.
  exists regs. split; [by destruct s |].
  assert (length r0 = sizeof_KSPECIAL_REGISTERS) as Hr0.
  { unfold r0. rewrite !length_inserts. cbn [saved_registers foldl fst snd]. by rewrite !set_length. }
  assert (length regs = sizeof_KSPECIAL_REGISTERS) as Hrl.
  { unfold regs. by rewrite !set_length. }
  split; [done |]. split.
  { unfold regs. do 6 apply set_bytes. unfold r0. apply inserts_bytes; [done |]. apply inserts_bytes; [done |]. cbn [saved_registers foldl fst snd]. do 11 apply set_bytes. done. }
  assert (take 10 (drop Gdtr_Limit regs) = sgdt d /\ take 10 (drop Idtr_Limit regs) = sidt d) as [HG HI].
  { unfold regs, set. rewrite !take_drop_inserts_ne by (rewrite le_to_length; right; in_struct). unfold r0. split.
    - rewrite take_drop_inserts_ne by (rewrite Hi; right; in_struct). rewrite <- Hg. apply take_drop_inserts. rewrite Hg. cbn [saved_registers foldl fst snd]. rewrite !set_length, Hl. in_struct.
    - rewrite <- Hi. apply take_drop_inserts. rewrite Hi, length_inserts. cbn [saved_registers foldl fst snd]. rewrite !set_length, Hl. in_struct. }
  unfold KiRestoreProcessorControlState. cbn [with_Special SpecialRegisters kd_device]. rewrite HG, HI. fold d.
  assert (get (special 160) regs = readcr 8 d /\
    get (special 24) regs = readcr 4 d /\
    get (special 16) regs = readcr 3 d /\
    get (special 0) regs = readcr 0 d) as (-> & -> & -> & ->).
  { unfold regs, r0. cbn [saved_registers foldl fst snd]. pose proof (fun n => ro_cr n d). repeat split; by stored_field. }
  assert (get (special 32) regs = readdr 0 d /\
    get (special 40) regs = readdr 1 d /\
    get (special 48) regs = readdr 2 d /\
    get (special 56) regs = readdr 3 d /\
    get (special 64) regs = readdr 6 d /\
    get (special 72) regs = readdr 7 d) as (-> & -> & -> & -> & -> & ->).
  { unfold regs, r0. cbn [saved_registers foldl fst snd]. pose proof (fun n => ro_dr n d). repeat split; by stored_field. }
  rewrite !ro_writecr, !ro_writedr, ro_lgdt, ro_lidt.
  cbn [saved_msrs restore_msrs].
  assert (get (special 168) regs = z /\ get (special 176) regs = z0 /\ get (special 184) regs = z1 /\ get (special 192) regs = z2 /\ get (special 200) regs = z3 /\ get (special 208) regs = z4) as (-> & -> & -> & -> & -> & ->) by (unfold regs; repeat split; by stored_field).
  cbn [fst] in *. repeat match goal with Hw : writemsr d _ _ = Ret d |- _ => rewrite Hw; cbn [mbind outcome_bind]; clear Hw end. done.
Qed.

Lemma KiRestore_run o s : engine_ok valid o s -> exists d, KiRestoreProcessorControlState s = Ret (with_device s d).
Proof using laws.
  intros _. unfold KiRestoreProcessorControlState. cbv zeta. match goal with |- context [restore_msrs _ ?x _] => generalize x end.
  assert (forall l d regs, incl l saved_msrs -> exists d', restore_msrs l d regs = Ret d') as Hr.
  { induction l as [|[n f] l IH]; intros d regs Hl; [by exists d |]. cbn [restore_msrs].
    destruct (ro_writemsr (n, f) d (get f regs)) as [d1 Hd]; [apply Hl; by left |]. cbn [fst] in Hd. rewrite Hd. cbn [mbind outcome_bind].
    apply IH. intros x Hx. apply Hl. by right. }
  intros d. destruct (Hr saved_msrs d s.(SpecialRegisters) ltac:(intros x Hx; exact Hx)) as [d' ->]. by exists d'.
Qed.

(** ** Stops *)

Lemma enter_with_run o t ctx :
  engine_ok valid o t.(st_kd) -> length ctx = sizeof_CONTEXT -> Forall is_byte ctx ->
  exists t', enter_with ctx t = Ret t' /\ engine_ok valid o t'.(st_kd) /\ t'.(ContextFrame) = ctx /\ t'.(st_kd).(Context) = ctx /\
    t'.(st_kd).(sent) = t.(st_kd).(sent) /\ t'.(st_kd).(KdDebuggerNotPresent) = t.(st_kd).(KdDebuggerNotPresent) /\
    t'.(st_kd).(kd_line) = t.(st_kd).(kd_line) /\ t'.(st_kd).(kd_frame) = t.(st_kd).(kd_frame).
Proof using laws.
  intros Hok Hl Hb. destruct (en_special _ _ _ Hok) as [Hsl Hsb].
  destruct (KiSave_run (st_kd t) Hsl Hsb) as (regs & Hr & Hrl & Hrb & _). unfold enter_with. cbn [KdEnterDebugger with_entered st_kd]. rewrite Hr. cbn [mbind outcome_bind].
  eexists. split; [reflexivity |]. split; [| done]. destruct Hok. by split.
Qed.

(** The debugger ends a stop by letting the thread go on, not by choosing another
    processor: a report is made once. *)
Lemma script_status header data s n apis st : script valid header data s n apis st -> report_again st = false.
Proof.
  induction 1 as [| | | s l m n st _ _ _ Hc]; [done | done | done |]. unfold continues in Hc.
  destruct (_ =? _); [by injection Hc as <-; destruct (_ <=? _) |]. destruct (_ =? _); [by injection Hc as <- | done].
Qed.

Lemma context_keeps k n w c : (k + n <= 192)%nat -> take n (drop k (KdpSetContextState w c)) = take n (drop k w).
Proof.
  intros H. unfold KdpSetContextState, set. destruct (_ =? _); repeat rewrite take_drop_inserts_ne by (rewrite le_to_length; right;
    cbn [f_off Report_Dr6 Report_Dr7 Report_EFlags ReportFlags Report_SegCs Report_SegDs Report_SegEs Report_SegFs]; lia); done.
Qed.


(** ** Services *)

Definition is_service (rec : list Z) (n : Z) : Prop :=
  get ExceptionCode rec = status_code STATUS_BREAKPOINT /\ get (ExceptionInformation 0) rec = n.

(** The packet that prints [text]. *)
Definition print_packet (text : list Z) : packet :=
  {| p_type := PACKET_TYPE_KD_DEBUG_IO;
     p_header := le_to 4 DbgKdPrintStringApi ++ le_to 2 0 ++ le_to 2 0 ++ le_to 4 (Z.of_nat (length text)) ++ take 4 (unset 4); p_data := Some text |}.

Lemma KdpPrintString_run o s text :
  engine_ok valid o s -> Z.of_nat (length text) <= KD_PRINT_MAX_BYTES -> Forall is_byte text ->
  exists s' b, KdpPrintString text s = Ret (s', b) /\ engine_ok valid o s' /\ s'.(sent) = s.(sent) ++ [print_packet text] /\ kd_memory s' = kd_memory s.
Proof using laws.
  intros Hok Hn Hb. unfold KD_PRINT_MAX_BYTES in Hn. destruct (fr_message _ (en_frame _ _ _ Hok)) as [Hl Hbb].
  unfold KdpPrintString. rewrite write_buffer_run by (unfold KdpMessageBuffer; lia). cbn [mbind outcome_bind].
  unfold PACKET_MAX_SIZE, sizeof_DEBUG_IO. destruct (Z.ltb_spec 4000 (16 + Z.of_nat (length text))); [lia |]. rewrite Nat2Z.id.
  assert (take (length text) (list_inserts 0 text (KdpMessageBuffer s)) = text) as ->.
  { rewrite <- (drop_0 (list_inserts 0 text (KdpMessageBuffer s))). apply take_drop_inserts. unfold KdpMessageBuffer. lia. }
  set (s1 := KdSendPacket _ _ _ _). assert (prepared valid o s s1) as H1.
  { apply prepared_print, prepared_message; [by rewrite length_inserts | by apply inserts_bytes | by apply prepared_refl]. }
  assert (s1.(sent) = s.(sent) ++ [print_packet text]) as Hsent by done.
  unfold KdpPollBreakInWithPortLock. destruct (KdDebuggerEnabled s1); [| by exists s1, false; split; [| split; [apply H1 |]]].
  destruct (control_c_pending _); [eexists _, true; split; [reflexivity |]; split; [by apply (prepared_line valid o s) | done] |].
  destruct (poll_returns (kd_line s1)) as [[l st'] ->]. cbn [mbind outcome_bind]. eexists _, _. split; [reflexivity |]. split; [by apply (prepared_line valid o s) | done].
Qed.

(** Fact: a print of the program's reaches the debugger and costs the program nothing.
    A breakpoint with the number of [DbgPrint] sends the text at the given address,
    cut to 512 bytes, as one packet; the result in the context's register is the
    status, a break when the debugger has asked for one meanwhile; the program
    counter is moved behind the breakpoint and the context is otherwise unchanged. *)
Theorem debug_print_prints o t rec ctx text turns fuel mode SecondChance :
  engine_ok valid o t.(st_kd) -> t.(st_kd).(KdDebuggerNotPresent) = false -> is_service rec BREAKPOINT_PRINT ->
  bytes_at (kd_memory t.(st_kd)) (get (ExceptionInformation 1) rec) text ->
  Z.of_nat (length text) = Z.min (u16 (get (ExceptionInformation 2) rec)) KD_PRINT_MAX_BYTES ->
  exists t' st, KdpTrap valid turns fuel rec ctx mode SecondChance t =
      Ret (t', set Rip (u64 (get Rip ctx + 1)) (set Rax (u64 (s32 (status_code st))) ctx), true) /\
    (st = STATUS_SUCCESS \/ st = STATUS_BREAKPOINT) /\ t'.(st_kd).(sent) = t.(st_kd).(sent) ++ [print_packet text] /\
    engine_ok valid o t'.(st_kd) /\ kd_memory t'.(st_kd) = kd_memory t.(st_kd).
Proof using laws.
  intros Hok Hp [Hcode Hinfo] Htext Hlen. destruct (engine_memory valid o (st_kd t) Hok) as [Hm _].
  assert (Forall is_byte text) as Hb by (apply Forall_lookup; intros i b Hi; exact (Hm _ _ (Htext i b Hi))).
  unfold KdpTrap, debug_service. rewrite Hcode, Z.eqb_refl, Hinfo. change (BREAKPOINT_PRINT =? BREAKPOINT_BREAK) with false. change (BREAKPOINT_PRINT =? BREAKPOINT_PRINT) with true. cbn [negb andb].
  unfold KdpPrint. rewrite Hp. cbn [KdEnterDebugger with_entered st_kd].
  assert (load_bytes (kd_memory (st_kd t)) (get (ExceptionInformation 1) rec) (Z.to_nat (Z.min (u16 (get (ExceptionInformation 2) rec)) KD_PRINT_MAX_BYTES)) = Ret text) as ->
    by (apply load_bytes_Ret; split; [lia | exact Htext]).
  cbn [mbind outcome_bind]. destruct (KdpPrintString_run o (st_kd t) text Hok ltac:(lia) Hb) as (s & pressed & Hps & Hoks & Hsent & Hmem).
  rewrite Hps. cbn [mbind outcome_bind]. unfold KeSetContextReturnRegister. rewrite get_set_ne by apart. rewrite Z.eqb_refl.
  eexists _, _. split; [reflexivity |]. by destruct pressed; auto.
Qed.

(** What the engine receives the answer of a prompt into. *)
Definition prompt_header (n most : Z) : list Z := le_to 4 DbgKdGetStringApi ++ le_to 2 0 ++ le_to 2 0 ++ le_to 4 n ++ le_to 4 most.
Definition prompt_frame (text : list Z) (most : Z) (s : kd64) : message :=
  {| h_Length := sizeof_DEBUG_IO; h_Buffer := prompt_header (Z.of_nat (length text)) most; d_Length := Z.of_nat (length text);
     d_Buffer := list_inserts 0 text (KdpMessageBuffer s); DataLength := Z.of_nat (length text) |}.

(** C23: an answer typed at the debugger gets into the program. A breakpoint with the
    number of [DbgPrompt] sends the prompt; once the line has delivered an answer,
    its bytes, no more than the program has room for, are in memory at the address
    the program gave, their number is in the result register, and memory is
    otherwise what it was. *)
Theorem debug_prompt_answers o t rec ctx text answer l m mode SecondChance :
  engine_ok valid o t.(st_kd) -> is_service rec BREAKPOINT_PROMPT ->
  bytes_at (kd_memory t.(st_kd)) (get (ExceptionInformation 1) rec) text ->
  Z.of_nat (length text) = Z.min (u16 (get (ExceptionInformation 2) rec)) KD_PRINT_MAX_BYTES ->
  let room := Z.min (u16 (get R9 ctx)) KD_PRINT_MAX_BYTES in
  dll_receive PACKET_TYPE_KD_DEBUG_IO t.(st_kd).(kd_line) (prompt_frame text room t.(st_kd)) = Ret (l, m, KDP_PACKET_RECEIVED) ->
  Z.of_nat (length m.(d_Buffer)) = 4096 -> Forall is_byte m.(d_Buffer) -> 0 <= m.(DataLength) <= 4096 ->
  answer = take (Z.to_nat (Z.min m.(DataLength) room)) m.(d_Buffer) ->
  mapped (kd_memory t.(st_kd)) (get R8 ctx) (Z.of_nat (length answer)) -> unbroken t.(st_kd).(kd_bp) (get R8 ctx) (Z.of_nat (length answer)) ->
  exists t', KdpTrap valid 1 1 rec ctx mode SecondChance t =
      Ret (t', set Rip (u64 (get Rip ctx + 1)) (set Rax (Z.of_nat (length answer)) ctx), true) /\
    bytes_at (kd_memory t'.(st_kd)) (get R8 ctx) answer /\
    (forall x, x < get R8 ctx \/ get R8 ctx + Z.of_nat (length answer) <= x -> kd_memory t'.(st_kd) !! x = kd_memory t.(st_kd) !! x) /\
    t'.(st_kd).(sent) = t.(st_kd).(sent) ++ [{| p_type := PACKET_TYPE_KD_DEBUG_IO; p_header := prompt_header (Z.of_nat (length text)) room; p_data := Some text |}] /\
    engine_ok valid (patched (get R8 ctx) answer o) t'.(st_kd).
Proof using laws.
  intros Hok [Hcode Hinfo] Htext Hlen room Hrecv Hml Hmb HD Hans Hmap Hun. destruct (engine_memory valid o (st_kd t) Hok) as [Hm Hv].
  destruct (fr_message _ (en_frame _ _ _ Hok)) as [Hl Hbb]. unfold KD_PRINT_MAX_BYTES in Hlen.
  assert (Forall is_byte text) as Hb by (apply Forall_lookup; intros i b Hi; exact (Hm _ _ (Htext i b Hi))).
  assert (0 <= room <= 512) as Hroom by (unfold room, KD_PRINT_MAX_BYTES; pose proof (wrap_range 16 (get R9 ctx)); lia).
  assert (Z.of_nat (length answer) = Z.min m.(DataLength) room) as Hal by (rewrite Hans, length_take; lia).
  assert (Forall is_byte answer) as Hab by (rewrite Hans; by apply Forall_take).
  destruct (store_bytes_spec (kd_memory (st_kd t)) (get R8 ctx) answer Hmap Hab) as (m' & Hst & Hm').
  unfold KdpTrap, debug_service. rewrite Hcode, Z.eqb_refl, Hinfo. change (BREAKPOINT_PROMPT =? BREAKPOINT_BREAK) with false.
  change (BREAKPOINT_PROMPT =? BREAKPOINT_PRINT) with false. change (BREAKPOINT_PROMPT =? BREAKPOINT_PROMPT) with true. cbn [negb andb].
  unfold KdpPrompt. fold room. cbn [KdEnterDebugger with_entered st_kd]. unfold KD_PRINT_MAX_BYTES. rewrite <- Hlen.
  cbn [prompt_turns]. unfold KdpPromptString.
  assert (load_bytes (kd_memory (st_kd t)) (get (ExceptionInformation 1) rec) (Z.to_nat (Z.of_nat (length text))) = Ret text) as ->
    by (apply load_bytes_Ret; split; [lia | exact Htext]).
  cbn [mbind outcome_bind]. rewrite write_buffer_run by (unfold KdpMessageBuffer; lia). cbn [mbind outcome_bind].
  unfold PACKET_MAX_SIZE. change sizeof_DEBUG_IO with 16. destruct (Z.ltb_spec 4000 (16 + Z.of_nat (length text))); [lia |]. rewrite Nat2Z.id.
  assert (take (length text) (list_inserts 0 text (KdpMessageBuffer (st_kd t))) = text) as ->.
  { rewrite <- (drop_0 (list_inserts 0 text _)). apply take_drop_inserts. unfold KdpMessageBuffer. lia. }
  fold (prompt_header (Z.of_nat (length text)) room). cbn [prompt_loop].
  match goal with |- context [dll_receive _ _ ?f] => change f with (prompt_frame text room (st_kd t)) end. cbn [KdSendPacket with_sent with_message with_frame kd_line].
  rewrite Hrecv. cbn [mbind outcome_bind].
  match goal with |- context [read_buffer 0 ?n (KdpMessageBuffer ?s)] => set (s1 := s); change (KdpMessageBuffer s1) with m.(d_Buffer) end.
  rewrite read_buffer_run by lia. cbn [mbind outcome_bind]. rewrite drop_0, <- Hans. change (kd_memory s1) with (kd_memory (st_kd t)). rewrite Hst. cbn [mbind outcome_bind].
  rewrite <- Hal, (wrap_small 16) by lia. unfold KeSetContextReturnRegister. rewrite get_set_ne by apart. rewrite Z.eqb_refl.
  eexists. split; [reflexivity |]. cbn [with_kd st_kd]. change (kd_memory (with_memory s1 m')) with m'. split; [| split; [| split; [done |]]].
  - intros i b Hi. rewrite Hm'. assert (i < length answer)%nat by (by eapply lookup_lt_Some). repeat zcase; try lia. cbn [andb]. by replace (Z.to_nat (get R8 ctx + Z.of_nat i - get R8 ctx)) with i by lia.
  - intros x Hx. rewrite Hm'. repeat zcase; cbn [andb]; done || lia.
  - pose proof Hok as [Hmo Hvo Hbp [Hh Hst0 Hms Hdl] Hc Hsp Hver]. split; [by apply patched_ok | by apply patched_valid | by apply bp_ok_patched | | done | done | done].
    by split.
Qed.
End report.

(** ** A machine with a breakpoint set *)

#[export] Instance demo_registers : Registers := {|
  readcr := fun _ _ => 0; writecr := fun _ _ d => d; readdr := fun _ _ => 0; writedr := fun _ _ d => d;
  sgdt := fun _ => replicate 10 0; lgdt := fun _ d => d; sidt := fun _ => replicate 10 0; lidt := fun _ d => d; KeGetCurrentThread := 0
|}.

#[export] Instance demo_registers_ok : RegistersOk.
Proof.
  assert (forall n, Forall is_byte (replicate n 0)) as Hz by (intros n; apply Forall_replicate; unfold is_byte; lia).
  split; try done.
  - apply demo_laws.
  - intros n. split; [apply length_replicate | apply Hz].
  - intros d. split; (split; [done | apply Hz]).
  - intros r d _. exists 7. split; [done |]. split; [lia | done].
  - intros r d v _. by exists d.
Qed.

Definition demo_broken : kd :=
  match KdpAddBreakpoint demo_valid (demo_base + 3) (new_kd demo_program) with Ret (b, _) => b | _ => new_kd demo_program end.

Lemma demo_broken_ok : bp_ok demo_program demo_broken.
Proof.
  destruct (demo_engine_ok []) as [Hm Hv _ _ _ _ _].
  destruct (KdpAddBreakpoint_run demo_valid demo_program Hm Hv (new_kd demo_program) (demo_base + 3)) as (b & h & Hr & Hb); [apply start_ok | unfold address_ok, demo_base; lia | |].
  - intros i e Hi. apply lookup_replicate in Hi as [-> _]. done.
  - unfold demo_broken. rewrite Hr. exact Hb.
Qed.

Definition demo_stop (l : list (KDP_STATUS * list Z * list Z)) : stop :=
  {| st_kd := with_bp (demo_engine l) demo_broken; ContextFrame := []; TraceDataBuffer := replicate 160 0; TraceDataBufferPosition := 1;
     KdpPathBuffer := []; KdpPortLocked := false; KdEnteredDebugger := false; KdpControlCPressed := false |}.
Definition demo_context : list Z := set Rip demo_base (replicate sizeof_CONTEXT 0).

Lemma demo_stop_ok l : engine_ok demo_valid demo_program (st_kd (demo_stop l)).
Proof. destruct (demo_engine_ok l). split; try done. apply demo_broken_ok. Qed.


Definition service (n a len : Z) : list Z :=
  set (ExceptionInformation 2) len (set (ExceptionInformation 1) a (set (ExceptionInformation 0) n
    (set ExceptionCode (status_code STATUS_BREAKPOINT) (replicate sizeof_EXCEPTION_RECORD 0)))).

Lemma debug_print_prints_witness :
  exists t' st, KdpTrap demo_valid 0 0 (service BREAKPOINT_PRINT demo_base 5) demo_context KernelMode false (demo_stop []) =
      Ret (t', set Rip (u64 (get Rip demo_context + 1)) (set Rax (u64 (s32 (status_code st))) demo_context), true) /\
    t'.(st_kd).(sent) = [print_packet [10; 11; 12; 0xCC; 14]].
Proof.
  destruct (debug_print_prints demo_valid demo_program (demo_stop []) (service BREAKPOINT_PRINT demo_base 5) demo_context [10; 11; 12; 0xCC; 14] 0 0 KernelMode false)
    as (t' & st & Hr & _ & Hs & _ & _).
  - apply demo_stop_ok.
  - reflexivity.
  - split; vm_compute; reflexivity.
  - intros i b Hi. do 5 (destruct i as [|i]; [injection Hi as <-; vm_compute; reflexivity |]). discriminate Hi.
  - vm_compute. reflexivity.
  - exists t', st. split; [exact Hr | exact Hs].
Defined.

(** The program has room for three characters at [demo_base + 8]. *)
Definition prompt_context : list Z := set R9 3 (set R8 (demo_base + 8) demo_context).

Lemma debug_prompt_answers_witness :
  exists t', KdpTrap demo_valid 1 1 (service BREAKPOINT_PROMPT demo_base 2) prompt_context KernelMode false (demo_stop [(KDP_PACKET_RECEIVED, [], [89; 101; 115; 33])]) =
      Ret (t', set Rip (u64 (get Rip prompt_context + 1)) (set Rax 3 prompt_context), true) /\ bytes_at (kd_memory t'.(st_kd)) (demo_base + 8) [89; 101; 115].
Proof.
  destruct (debug_prompt_answers demo_valid demo_program (demo_stop [(KDP_PACKET_RECEIVED, [], [89; 101; 115; 33])]) (service BREAKPOINT_PROMPT demo_base 2) prompt_context
              [10; 11] [89; 101; 115] [] {| h_Length := 56; h_Buffer := prompt_header 2 3; d_Length := 4; d_Buffer := [89; 101; 115; 33] ++ replicate (Z.to_nat 4092) 0; DataLength := 4 |} KernelMode false)
    as (t' & Hr & Hb & _).
  - apply demo_stop_ok.
  - split; vm_compute; reflexivity.
  - intros i b Hi. do 2 (destruct i as [|i]; [injection Hi as <-; vm_compute; reflexivity |]). discriminate Hi.
  - vm_compute. reflexivity.
  - vm_compute. reflexivity.
  - vm_compute. reflexivity.
  - apply all_bytes_ok. vm_compute. reflexivity.
  - vm_compute. split; congruence.
  - vm_compute. reflexivity.
  - intros x Hx. change (get R8 prompt_context) with (demo_base + 8) in Hx. cbn in Hx. assert (x = demo_base + 8 \/ x = demo_base + 9 \/ x = demo_base + 10) as [-> | [-> | ->]] by lia; vm_compute; eauto.
  - intros i e Hi Hs. assert (forallb (fun e => negb (saved e) || (bp_Address e <? demo_base + 8)) (KdpBreakpointTable demo_broken) = true) as Hall by (vm_compute; reflexivity).
    rewrite forallb_forall in Hall. apply list_elem_of_lookup_2, list_elem_of_In, Hall in Hi. rewrite Hs in Hi. cbn [negb orb] in Hi. zbool. by left.
  - exists t'. split; [exact Hr | exact Hb].
Defined.
