(* ===== verification/Font.v ===== *)
(** The 8 x 16 font of the kernel's text (src/src/gfx/Font.h): one row of sixteen bytes
    per character, each byte a line of eight dots, leftmost dot in the highest bit. *)
From S2P Require Import Prelude.

(** [XGA_8x16]: the glyphs of the 256 characters. *)
Definition XGA_8x16 : list (list Z) :=
  [ [0; 0; 0; 0; 0; 0; 0; 0; 0; 0; 0; 0; 0; 0; 0; 0];
    [0; 0; 0x7e; 0x81; 0xa5; 0x81; 0x81; 0xbd; 0x99; 0x81; 0x81; 0x7e; 0; 0; 0; 0];
    [0; 0; 0x7e; 0xff; 0xdb; 0xff; 0xff; 0xc3; 0xe7; 0xff; 0xff; 0x7e; 0; 0; 0; 0];
    [0; 0; 0; 0; 0x6c; 0xfe; 0xfe; 0xfe; 0xfe; 0x7c; 0x38; 0x10; 0; 0; 0; 0];
    [0; 0; 0; 0; 0x10; 0x38; 0x7c; 0xfe; 0x7c; 0x38; 0x10; 0; 0; 0; 0; 0];
    [0; 0; 0; 0x18; 0x3c; 0x3c; 0xe7; 0xe7; 0xe7; 0x18; 0x18; 0x3c; 0; 0; 0; 0];
    [0; 0; 0; 0x18; 0x3c; 0x7e; 0xff; 0xff; 0x7e; 0x18; 0x18; 0x3c; 0; 0; 0; 0];
    [0; 0; 0; 0; 0; 0; 0x18; 0x3c; 0x3c; 0x18; 0; 0; 0; 0; 0; 0];
    [0xff; 0xff; 0xff; 0xff; 0xff; 0xff; 0xe7; 0xc3; 0xc3; 0xe7; 0xff; 0xff; 0xff; 0xff; 0xff; 0xff];
    [0; 0; 0; 0; 0; 0x3c; 0x66; 0x42; 0x42; 0x66; 0x3c; 0; 0; 0; 0; 0];
    [0xff; 0xff; 0xff; 0xff; 0xff; 0xc3; 0x99; 0xbd; 0xbd; 0x99; 0xc3; 0xff; 0xff; 0xff; 0xff; 0xff];
    [0; 0; 0x1e; 0x0e; 0x1a; 0x32; 0x78; 0xcc; 0xcc; 0xcc; 0xcc; 0x78; 0; 0; 0; 0];
    [0; 0; 0x3c; 0x66; 0x66; 0x66; 0x66; 0x3c; 0x18; 0x7e; 0x18; 0x18; 0; 0; 0; 0];
    [0; 0; 0x3f; 0x33; 0x3f; 0x30; 0x30; 0x30; 0x30; 0x70; 0xf0; 0xe0; 0; 0; 0; 0];
    [0; 0; 0x7f; 0x63; 0x7f; 0x63; 0x63; 0x63; 0x63; 0x67; 0xe7; 0xe6; 0xc0; 0; 0; 0];
    [0; 0; 0; 0x18; 0x18; 0xdb; 0x3c; 0xe7; 0x3c; 0xdb; 0x18; 0x18; 0; 0; 0; 0];
    [0; 0x80; 0xc0; 0xe0; 0xf0; 0xf8; 0xfe; 0xf8; 0xf0; 0xe0; 0xc0; 0x80; 0; 0; 0; 0];
    [0; 0x02; 0x06; 0x0e; 0x1e; 0x3e; 0xfe; 0x3e; 0x1e; 0x0e; 0x06; 0x02; 0; 0; 0; 0];
    [0; 0; 0x18; 0x3c; 0x7e; 0x18; 0x18; 0x18; 0x7e; 0x3c; 0x18; 0; 0; 0; 0; 0];
    [0; 0; 0x66; 0x66; 0x66; 0x66; 0x66; 0x66; 0x66; 0; 0x66; 0x66; 0; 0; 0; 0];
    [0; 0; 0x7f; 0xdb; 0xdb; 0xdb; 0x7b; 0x1b; 0x1b; 0x1b; 0x1b; 0x1b; 0; 0; 0; 0];
    [0; 0x7c; 0xc6; 0x60; 0x38; 0x6c; 0xc6; 0xc6; 0x6c; 0x38; 0x0c; 0xc6; 0x7c; 0; 0; 0];
    [0; 0; 0; 0; 0; 0; 0; 0; 0xfe; 0xfe; 0xfe; 0xfe; 0; 0; 0; 0];
    [0; 0; 0x18; 0x3c; 0x7e; 0x18; 0x18; 0x18; 0x7e; 0x3c; 0x18; 0x7e; 0; 0; 0; 0];
    [0; 0; 0x18; 0x3c; 0x7e; 0x18; 0x18; 0x18; 0x18; 0x18; 0x18; 0x18; 0; 0; 0; 0];
    [0; 0; 0x18; 0x18; 0x18; 0x18; 0x18; 0x18; 0x18; 0x7e; 0x3c; 0x18; 0; 0; 0; 0];
    [0; 0; 0; 0; 0; 0x18; 0x0c; 0xfe; 0x0c; 0x18; 0; 0; 0; 0; 0; 0];
    [0; 0; 0; 0; 0; 0x30; 0x60; 0xfe; 0x60; 0x30; 0; 0; 0; 0; 0; 0];
    [0; 0; 0; 0; 0; 0; 0xc0; 0xc0; 0xc0; 0xfe; 0; 0; 0; 0; 0; 0];
    [0; 0; 0; 0; 0; 0x28; 0x6c; 0xfe; 0x6c; 0x28; 0; 0; 0; 0; 0; 0];
    [0; 0; 0; 0; 0x10; 0x38; 0x38; 0x7c; 0x7c; 0xfe; 0xfe; 0; 0; 0; 0; 0];
    [0; 0; 0; 0; 0xfe; 0xfe; 0x7c; 0x7c; 0x38; 0x38; 0x10; 0; 0; 0; 0; 0];
    [0; 0; 0; 0; 0; 0; 0; 0; 0; 0; 0; 0; 0; 0; 0; 0];
    [0; 0; 0x18; 0x3c; 0x3c; 0x3c; 0x18; 0x18; 0x18; 0; 0x18; 0x18; 0; 0; 0; 0];
    [0; 0x66; 0x66; 0x66; 0x24; 0; 0; 0; 0; 0; 0; 0; 0; 0; 0; 0];
    [0; 0; 0; 0x6c; 0x6c; 0xfe; 0x6c; 0x6c; 0x6c; 0xfe; 0x6c; 0x6c; 0; 0; 0; 0];
    [0x18; 0x18; 0x7c; 0xc6; 0xc2; 0xc0; 0x7c; 0x06; 0x06; 0x86; 0xc6; 0x7c; 0x18; 0x18; 0; 0];
    [0; 0; 0; 0; 0xc2; 0xc6; 0x0c; 0x18; 0x30; 0x60; 0xc6; 0x86; 0; 0; 0; 0];
    [0; 0; 0x38; 0x6c; 0x6c; 0x38; 0x76; 0xdc; 0xcc; 0xcc; 0xcc; 0x76; 0; 0; 0; 0];
    [0; 0x30; 0x30; 0x30; 0x60; 0; 0; 0; 0; 0; 0; 0; 0; 0; 0; 0];
    [0; 0; 0x0c; 0x18; 0x30; 0x30; 0x30; 0x30; 0x30; 0x30; 0x18; 0x0c; 0; 0; 0; 0];
    [0; 0; 0x30; 0x18; 0x0c; 0x0c; 0x0c; 0x0c; 0x0c; 0x0c; 0x18; 0x30; 0; 0; 0; 0];
    [0; 0; 0; 0; 0; 0x66; 0x3c; 0xff; 0x3c; 0x66; 0; 0; 0; 0; 0; 0];
    [0; 0; 0; 0; 0; 0x18; 0x18; 0x7e; 0x18; 0x18; 0; 0; 0; 0; 0; 0];
    [0; 0; 0; 0; 0; 0; 0; 0; 0; 0x18; 0x18; 0x18; 0x30; 0; 0; 0];
    [0; 0; 0; 0; 0; 0; 0; 0xfe; 0; 0; 0; 0; 0; 0; 0; 0];
    [0; 0; 0; 0; 0; 0; 0; 0; 0; 0; 0x18; 0x18; 0; 0; 0; 0];
    [0; 0; 0; 0; 0x02; 0x06; 0x0c; 0x18; 0x30; 0x60; 0xc0; 0x80; 0; 0; 0; 0];
    [0; 0; 0x38; 0x6c; 0xc6; 0xc6; 0xd6; 0xd6; 0xc6; 0xc6; 0x6c; 0x38; 0; 0; 0; 0];
    [0; 0; 0x18; 0x38; 0x78; 0x18; 0x18; 0x18; 0x18; 0x18; 0x18; 0x7e; 0; 0; 0; 0];
    [0; 0; 0x7c; 0xc6; 0x06; 0x0c; 0x18; 0x30; 0x60; 0xc0; 0xc6; 0xfe; 0; 0; 0; 0];
    [0; 0; 0x7c; 0xc6; 0x06; 0x06; 0x3c; 0x06; 0x06; 0x06; 0xc6; 0x7c; 0; 0; 0; 0];
    [0; 0; 0x0c; 0x1c; 0x3c; 0x6c; 0xcc; 0xfe; 0x0c; 0x0c; 0x0c; 0x1e; 0; 0; 0; 0];
    [0; 0; 0xfe; 0xc0; 0xc0; 0xc0; 0xfc; 0x06; 0x06; 0x06; 0xc6; 0x7c; 0; 0; 0; 0];
    [0; 0; 0x38; 0x60; 0xc0; 0xc0; 0xfc; 0xc6; 0xc6; 0xc6; 0xc6; 0x7c; 0; 0; 0; 0];
    [0; 0; 0xfe; 0xc6; 0x06; 0x06; 0x0c; 0x18; 0x30; 0x30; 0x30; 0x30; 0; 0; 0; 0];
    [0; 0; 0x7c; 0xc6; 0xc6; 0xc6; 0x7c; 0xc6; 0xc6; 0xc6; 0xc6; 0x7c; 0; 0; 0; 0];
    [0; 0; 0x7c; 0xc6; 0xc6; 0xc6; 0x7e; 0x06; 0x06; 0x06; 0x0c; 0x78; 0; 0; 0; 0];
    [0; 0; 0; 0; 0x18; 0x18; 0; 0; 0; 0x18; 0x18; 0; 0; 0; 0; 0];
    [0; 0; 0; 0; 0x18; 0x18; 0; 0; 0; 0x18; 0x18; 0x30; 0; 0; 0; 0];
    [0; 0; 0; 0x06; 0x0c; 0x18; 0x30; 0x60; 0x30; 0x18; 0x0c; 0x06; 0; 0; 0; 0];
    [0; 0; 0; 0; 0; 0x7e; 0; 0; 0x7e; 0; 0; 0; 0; 0; 0; 0];
    [0; 0; 0; 0x60; 0x30; 0x18; 0x0c; 0x06; 0x0c; 0x18; 0x30; 0x60; 0; 0; 0; 0];
    [0; 0; 0x7c; 0xc6; 0xc6; 0x0c; 0x18; 0x18; 0x18; 0; 0x18; 0x18; 0; 0; 0; 0];
    [0; 0; 0; 0x7c; 0xc6; 0xc6; 0xde; 0xde; 0xde; 0xdc; 0xc0; 0x7c; 0; 0; 0; 0];
    [0; 0; 0x10; 0x38; 0x6c; 0xc6; 0xc6; 0xfe; 0xc6; 0xc6; 0xc6; 0xc6; 0; 0; 0; 0];
    [0; 0; 0xfc; 0x66; 0x66; 0x66; 0x7c; 0x66; 0x66; 0x66; 0x66; 0xfc; 0; 0; 0; 0];
    [0; 0; 0x3c; 0x66; 0xc2; 0xc0; 0xc0; 0xc0; 0xc0; 0xc2; 0x66; 0x3c; 0; 0; 0; 0];
    [0; 0; 0xf8; 0x6c; 0x66; 0x66; 0x66; 0x66; 0x66; 0x66; 0x6c; 0xf8; 0; 0; 0; 0];
    [0; 0; 0xfe; 0x66; 0x62; 0x68; 0x78; 0x68; 0x60; 0x62; 0x66; 0xfe; 0; 0; 0; 0];
    [0; 0; 0xfe; 0x66; 0x62; 0x68; 0x78; 0x68; 0x60; 0x60; 0x60; 0xf0; 0; 0; 0; 0];
    [0; 0; 0x3c; 0x66; 0xc2; 0xc0; 0xc0; 0xde; 0xc6; 0xc6; 0x66; 0x3a; 0; 0; 0; 0];
    [0; 0; 0xc6; 0xc6; 0xc6; 0xc6; 0xfe; 0xc6; 0xc6; 0xc6; 0xc6; 0xc6; 0; 0; 0; 0];
    [0; 0; 0x3c; 0x18; 0x18; 0x18; 0x18; 0x18; 0x18; 0x18; 0x18; 0x3c; 0; 0; 0; 0];
    [0; 0; 0x1e; 0x0c; 0x0c; 0x0c; 0x0c; 0x0c; 0xcc; 0xcc; 0xcc; 0x78; 0; 0; 0; 0];
    [0; 0; 0xe6; 0x66; 0x66; 0x6c; 0x78; 0x78; 0x6c; 0x66; 0x66; 0xe6; 0; 0; 0; 0];
    [0; 0; 0xf0; 0x60; 0x60; 0x60; 0x60; 0x60; 0x60; 0x62; 0x66; 0xfe; 0; 0; 0; 0];
    [0; 0; 0xc6; 0xee; 0xfe; 0xfe; 0xd6; 0xc6; 0xc6; 0xc6; 0xc6; 0xc6; 0; 0; 0; 0];
    [0; 0; 0xc6; 0xe6; 0xf6; 0xfe; 0xde; 0xce; 0xc6; 0xc6; 0xc6; 0xc6; 0; 0; 0; 0];
    [0; 0; 0x7c; 0xc6; 0xc6; 0xc6; 0xc6; 0xc6; 0xc6; 0xc6; 0xc6; 0x7c; 0; 0; 0; 0];
    [0; 0; 0xfc; 0x66; 0x66; 0x66; 0x7c; 0x60; 0x60; 0x60; 0x60; 0xf0; 0; 0; 0; 0];
    [0; 0; 0x7c; 0xc6; 0xc6; 0xc6; 0xc6; 0xc6; 0xc6; 0xd6; 0xde; 0x7c; 0x0c; 0x0e; 0; 0];
    [0; 0; 0xfc; 0x66; 0x66; 0x66; 0x7c; 0x6c; 0x66; 0x66; 0x66; 0xe6; 0; 0; 0; 0];
    [0; 0; 0x7c; 0xc6; 0xc6; 0x60; 0x38; 0x0c; 0x06; 0xc6; 0xc6; 0x7c; 0; 0; 0; 0];
    [0; 0; 0x7e; 0x7e; 0x5a; 0x18; 0x18; 0x18; 0x18; 0x18; 0x18; 0x3c; 0; 0; 0; 0];
    [0; 0; 0xc6; 0xc6; 0xc6; 0xc6; 0xc6; 0xc6; 0xc6; 0xc6; 0xc6; 0x7c; 0; 0; 0; 0];
    [0; 0; 0xc6; 0xc6; 0xc6; 0xc6; 0xc6; 0xc6; 0xc6; 0x6c; 0x38; 0x10; 0; 0; 0; 0];
    [0; 0; 0xc6; 0xc6; 0xc6; 0xc6; 0xd6; 0xd6; 0xd6; 0xfe; 0xee; 0x6c; 0; 0; 0; 0];
    [0; 0; 0xc6; 0xc6; 0x6c; 0x7c; 0x38; 0x38; 0x7c; 0x6c; 0xc6; 0xc6; 0; 0; 0; 0];
    [0; 0; 0x66; 0x66; 0x66; 0x66; 0x3c; 0x18; 0x18; 0x18; 0x18; 0x3c; 0; 0; 0; 0];
    [0; 0; 0xfe; 0xc6; 0x86; 0x0c; 0x18; 0x30; 0x60; 0xc2; 0xc6; 0xfe; 0; 0; 0; 0];
    [0; 0; 0x3c; 0x30; 0x30; 0x30; 0x30; 0x30; 0x30; 0x30; 0x30; 0x3c; 0; 0; 0; 0];
    [0; 0; 0; 0x80; 0xc0; 0xe0; 0x70; 0x38; 0x1c; 0x0e; 0x06; 0x02; 0; 0; 0; 0];
    [0; 0; 0x3c; 0x0c; 0x0c; 0x0c; 0x0c; 0x0c; 0x0c; 0x0c; 0x0c; 0x3c; 0; 0; 0; 0];
    [0x10; 0x38; 0x6c; 0xc6; 0; 0; 0; 0; 0; 0; 0; 0; 0; 0; 0; 0];
    [0; 0; 0; 0; 0; 0; 0; 0; 0; 0; 0; 0; 0; 0xff; 0; 0];
    [0x30; 0x30; 0x18; 0; 0; 0; 0; 0; 0; 0; 0; 0; 0; 0; 0; 0];
    [0; 0; 0; 0; 0; 0x78; 0x0c; 0x7c; 0xcc; 0xcc; 0xcc; 0x76; 0; 0; 0; 0];
    [0; 0; 0xe0; 0x60; 0x60; 0x78; 0x6c; 0x66; 0x66; 0x66; 0x66; 0x7c; 0; 0; 0; 0];
    [0; 0; 0; 0; 0; 0x7c; 0xc6; 0xc0; 0xc0; 0xc0; 0xc6; 0x7c; 0; 0; 0; 0];
    [0; 0; 0x1c; 0x0c; 0x0c; 0x3c; 0x6c; 0xcc; 0xcc; 0xcc; 0xcc; 0x76; 0; 0; 0; 0];
    [0; 0; 0; 0; 0; 0x7c; 0xc6; 0xfe; 0xc0; 0xc0; 0xc6; 0x7c; 0; 0; 0; 0];
    [0; 0; 0x38; 0x6c; 0x64; 0x60; 0xf0; 0x60; 0x60; 0x60; 0x60; 0xf0; 0; 0; 0; 0];
    [0; 0; 0; 0; 0; 0x76; 0xcc; 0xcc; 0xcc; 0xcc; 0xcc; 0x7c; 0x0c; 0xcc; 0x78; 0];
    [0; 0; 0xe0; 0x60; 0x60; 0x6c; 0x76; 0x66; 0x66; 0x66; 0x66; 0xe6; 0; 0; 0; 0];
    [0; 0; 0x18; 0x18; 0; 0x38; 0x18; 0x18; 0x18; 0x18; 0x18; 0x3c; 0; 0; 0; 0];
    [0; 0; 0x06; 0x06; 0; 0x0e; 0x06; 0x06; 0x06; 0x06; 0x06; 0x06; 0x66; 0x66; 0x3c; 0];
    [0; 0; 0xe0; 0x60; 0x60; 0x66; 0x6c; 0x78; 0x78; 0x6c; 0x66; 0xe6; 0; 0; 0; 0];
    [0; 0; 0x38; 0x18; 0x18; 0x18; 0x18; 0x18; 0x18; 0x18; 0x18; 0x3c; 0; 0; 0; 0];
    [0; 0; 0; 0; 0; 0xec; 0xfe; 0xd6; 0xd6; 0xd6; 0xd6; 0xc6; 0; 0; 0; 0];
    [0; 0; 0; 0; 0; 0xdc; 0x66; 0x66; 0x66; 0x66; 0x66; 0x66; 0; 0; 0; 0];
    [0; 0; 0; 0; 0; 0x7c; 0xc6; 0xc6; 0xc6; 0xc6; 0xc6; 0x7c; 0; 0; 0; 0];
    [0; 0; 0; 0; 0; 0xdc; 0x66; 0x66; 0x66; 0x66; 0x66; 0x7c; 0x60; 0x60; 0xf0; 0];
    [0; 0; 0; 0; 0; 0x76; 0xcc; 0xcc; 0xcc; 0xcc; 0xcc; 0x7c; 0x0c; 0x0c; 0x1e; 0];
    [0; 0; 0; 0; 0; 0xdc; 0x76; 0x66; 0x60; 0x60; 0x60; 0xf0; 0; 0; 0; 0];
    [0; 0; 0; 0; 0; 0x7c; 0xc6; 0x60; 0x38; 0x0c; 0xc6; 0x7c; 0; 0; 0; 0];
    [0; 0; 0x10; 0x30; 0x30; 0xfc; 0x30; 0x30; 0x30; 0x30; 0x36; 0x1c; 0; 0; 0; 0];
    [0; 0; 0; 0; 0; 0xcc; 0xcc; 0xcc; 0xcc; 0xcc; 0xcc; 0x76; 0; 0; 0; 0];
    [0; 0; 0; 0; 0; 0x66; 0x66; 0x66; 0x66; 0x66; 0x3c; 0x18; 0; 0; 0; 0];
    [0; 0; 0; 0; 0; 0xc6; 0xc6; 0xd6; 0xd6; 0xd6; 0xfe; 0x6c; 0; 0; 0; 0];
    [0; 0; 0; 0; 0; 0xc6; 0x6c; 0x38; 0x38; 0x38; 0x6c; 0xc6; 0; 0; 0; 0];
    [0; 0; 0; 0; 0; 0xc6; 0xc6; 0xc6; 0xc6; 0xc6; 0xc6; 0x7e; 0x06; 0x0c; 0xf8; 0];
    [0; 0; 0; 0; 0; 0xfe; 0xcc; 0x18; 0x30; 0x60; 0xc6; 0xfe; 0; 0; 0; 0];
    [0; 0; 0x0e; 0x18; 0x18; 0x18; 0x70; 0x18; 0x18; 0x18; 0x18; 0x0e; 0; 0; 0; 0];
    [0; 0; 0x18; 0x18; 0x18; 0x18; 0; 0x18; 0x18; 0x18; 0x18; 0x18; 0; 0; 0; 0];
    [0; 0; 0x70; 0x18; 0x18; 0x18; 0x0e; 0x18; 0x18; 0x18; 0x18; 0x70; 0; 0; 0; 0];
    [0; 0; 0x76; 0xdc; 0; 0; 0; 0; 0; 0; 0; 0; 0; 0; 0; 0];
    [0; 0; 0; 0; 0x10; 0x38; 0x6c; 0xc6; 0xc6; 0xc6; 0xfe; 0; 0; 0; 0; 0];
    [0; 0; 0x3c; 0x66; 0xc2; 0xc0; 0xc0; 0xc0; 0xc2; 0x66; 0x3c; 0x0c; 0x06; 0x7c; 0; 0];
    [0; 0; 0xcc; 0; 0; 0xcc; 0xcc; 0xcc; 0xcc; 0xcc; 0xcc; 0x76; 0; 0; 0; 0];
    [0; 0x0c; 0x18; 0x30; 0; 0x7c; 0xc6; 0xfe; 0xc0; 0xc0; 0xc6; 0x7c; 0; 0; 0; 0];
    [0; 0x10; 0x38; 0x6c; 0; 0x78; 0x0c; 0x7c; 0xcc; 0xcc; 0xcc; 0x76; 0; 0; 0; 0];
    [0; 0; 0xcc; 0; 0; 0x78; 0x0c; 0x7c; 0xcc; 0xcc; 0xcc; 0x76; 0; 0; 0; 0];
    [0; 0x60; 0x30; 0x18; 0; 0x78; 0x0c; 0x7c; 0xcc; 0xcc; 0xcc; 0x76; 0; 0; 0; 0];
    [0; 0x38; 0x6c; 0x38; 0; 0x78; 0x0c; 0x7c; 0xcc; 0xcc; 0xcc; 0x76; 0; 0; 0; 0];
    [0; 0; 0; 0; 0x3c; 0x66; 0x60; 0x60; 0x66; 0x3c; 0x0c; 0x06; 0x3c; 0; 0; 0];
    [0; 0x10; 0x38; 0x6c; 0; 0x7c; 0xc6; 0xfe; 0xc0; 0xc0; 0xc6; 0x7c; 0; 0; 0; 0];
    [0; 0; 0xc6; 0; 0; 0x7c; 0xc6; 0xfe; 0xc0; 0xc0; 0xc6; 0x7c; 0; 0; 0; 0];
    [0; 0x60; 0x30; 0x18; 0; 0x7c; 0xc6; 0xfe; 0xc0; 0xc0; 0xc6; 0x7c; 0; 0; 0; 0];
    [0; 0; 0x66; 0; 0; 0x38; 0x18; 0x18; 0x18; 0x18; 0x18; 0x3c; 0; 0; 0; 0];
    [0; 0x18; 0x3c; 0x66; 0; 0x38; 0x18; 0x18; 0x18; 0x18; 0x18; 0x3c; 0; 0; 0; 0];
    [0; 0x60; 0x30; 0x18; 0; 0x38; 0x18; 0x18; 0x18; 0x18; 0x18; 0x3c; 0; 0; 0; 0];
    [0; 0xc6; 0; 0x10; 0x38; 0x6c; 0xc6; 0xc6; 0xfe; 0xc6; 0xc6; 0xc6; 0; 0; 0; 0];
    [0x38; 0x6c; 0x38; 0; 0x38; 0x6c; 0xc6; 0xc6; 0xfe; 0xc6; 0xc6; 0xc6; 0; 0; 0; 0];
    [0x18; 0x30; 0x60; 0; 0xfe; 0x66; 0x60; 0x7c; 0x60; 0x60; 0x66; 0xfe; 0; 0; 0; 0];
    [0; 0; 0; 0; 0; 0xcc; 0x76; 0x36; 0x7e; 0xd8; 0xd8; 0x6e; 0; 0; 0; 0];
    [0; 0; 0x3e; 0x6c; 0xcc; 0xcc; 0xfe; 0xcc; 0xcc; 0xcc; 0xcc; 0xce; 0; 0; 0; 0];
    [0; 0x10; 0x38; 0x6c; 0; 0x7c; 0xc6; 0xc6; 0xc6; 0xc6; 0xc6; 0x7c; 0; 0; 0; 0];
    [0; 0; 0xc6; 0; 0; 0x7c; 0xc6; 0xc6; 0xc6; 0xc6; 0xc6; 0x7c; 0; 0; 0; 0];
    [0; 0x60; 0x30; 0x18; 0; 0x7c; 0xc6; 0xc6; 0xc6; 0xc6; 0xc6; 0x7c; 0; 0; 0; 0];
    [0; 0x30; 0x78; 0xcc; 0; 0xcc; 0xcc; 0xcc; 0xcc; 0xcc; 0xcc; 0x76; 0; 0; 0; 0];
    [0; 0x60; 0x30; 0x18; 0; 0xcc; 0xcc; 0xcc; 0xcc; 0xcc; 0xcc; 0x76; 0; 0; 0; 0];
    [0; 0; 0xc6; 0; 0; 0xc6; 0xc6; 0xc6; 0xc6; 0xc6; 0xc6; 0x7e; 0x06; 0x0c; 0x78; 0];
    [0; 0xc6; 0; 0x7c; 0xc6; 0xc6; 0xc6; 0xc6; 0xc6; 0xc6; 0xc6; 0x7c; 0; 0; 0; 0];
    [0; 0xc6; 0; 0xc6; 0xc6; 0xc6; 0xc6; 0xc6; 0xc6; 0xc6; 0xc6; 0x7c; 0; 0; 0; 0];
    [0; 0x18; 0x18; 0x3c; 0x66; 0x60; 0x60; 0x60; 0x66; 0x3c; 0x18; 0x18; 0; 0; 0; 0];
    [0; 0x38; 0x6c; 0x64; 0x60; 0xf0; 0x60; 0x60; 0x60; 0x60; 0xe6; 0xfc; 0; 0; 0; 0];
    [0; 0; 0x66; 0x66; 0x3c; 0x18; 0x7e; 0x18; 0x7e; 0x18; 0x18; 0x18; 0; 0; 0; 0];
    [0; 0xf8; 0xcc; 0xcc; 0xf8; 0xc4; 0xcc; 0xde; 0xcc; 0xcc; 0xcc; 0xc6; 0; 0; 0; 0];
    [0; 0x0e; 0x1b; 0x18; 0x18; 0x18; 0x7e; 0x18; 0x18; 0x18; 0x18; 0x18; 0xd8; 0x70; 0; 0];
    [0; 0x18; 0x30; 0x60; 0; 0x78; 0x0c; 0x7c; 0xcc; 0xcc; 0xcc; 0x76; 0; 0; 0; 0];
    [0; 0x0c; 0x18; 0x30; 0; 0x38; 0x18; 0x18; 0x18; 0x18; 0x18; 0x3c; 0; 0; 0; 0];
    [0; 0x18; 0x30; 0x60; 0; 0x7c; 0xc6; 0xc6; 0xc6; 0xc6; 0xc6; 0x7c; 0; 0; 0; 0];
    [0; 0x18; 0x30; 0x60; 0; 0xcc; 0xcc; 0xcc; 0xcc; 0xcc; 0xcc; 0x76; 0; 0; 0; 0];
    [0; 0; 0x76; 0xdc; 0; 0xdc; 0x66; 0x66; 0x66; 0x66; 0x66; 0x66; 0; 0; 0; 0];
    [0x76; 0xdc; 0; 0xc6; 0xe6; 0xf6; 0xfe; 0xde; 0xce; 0xc6; 0xc6; 0xc6; 0; 0; 0; 0];
    [0; 0x3c; 0x6c; 0x6c; 0x3e; 0; 0x7e; 0; 0; 0; 0; 0; 0; 0; 0; 0];
    [0; 0x38; 0x6c; 0x6c; 0x38; 0; 0x7c; 0; 0; 0; 0; 0; 0; 0; 0; 0];
    [0; 0; 0x30; 0x30; 0; 0x30; 0x30; 0x60; 0xc0; 0xc6; 0xc6; 0x7c; 0; 0; 0; 0];
    [0; 0; 0; 0; 0; 0; 0xfe; 0xc0; 0xc0; 0xc0; 0xc0; 0; 0; 0; 0; 0];
    [0; 0; 0; 0; 0; 0; 0xfe; 0x06; 0x06; 0x06; 0x06; 0; 0; 0; 0; 0];
    [0; 0xc0; 0xc0; 0xc2; 0xc6; 0xcc; 0x18; 0x30; 0x60; 0xdc; 0x86; 0x0c; 0x18; 0x3e; 0; 0];
    [0; 0xc0; 0xc0; 0xc2; 0xc6; 0xcc; 0x18; 0x30; 0x66; 0xce; 0x9e; 0x3e; 0x06; 0x06; 0; 0];
    [0; 0; 0x18; 0x18; 0; 0x18; 0x18; 0x18; 0x3c; 0x3c; 0x3c; 0x18; 0; 0; 0; 0];
    [0; 0; 0; 0; 0; 0x36; 0x6c; 0xd8; 0x6c; 0x36; 0; 0; 0; 0; 0; 0];
    [0; 0; 0; 0; 0; 0xd8; 0x6c; 0x36; 0x6c; 0xd8; 0; 0; 0; 0; 0; 0];
    [0x11; 0x44; 0x11; 0x44; 0x11; 0x44; 0x11; 0x44; 0x11; 0x44; 0x11; 0x44; 0x11; 0x44; 0x11; 0x44];
    [0x55; 0xaa; 0x55; 0xaa; 0x55; 0xaa; 0x55; 0xaa; 0x55; 0xaa; 0x55; 0xaa; 0x55; 0xaa; 0x55; 0xaa];
    [0xdd; 0x77; 0xdd; 0x77; 0xdd; 0x77; 0xdd; 0x77; 0xdd; 0x77; 0xdd; 0x77; 0xdd; 0x77; 0xdd; 0x77];
    [0x18; 0x18; 0x18; 0x18; 0x18; 0x18; 0x18; 0x18; 0x18; 0x18; 0x18; 0x18; 0x18; 0x18; 0x18; 0x18];
    [0x18; 0x18; 0x18; 0x18; 0x18; 0x18; 0x18; 0xf8; 0x18; 0x18; 0x18; 0x18; 0x18; 0x18; 0x18; 0x18];
    [0x18; 0x18; 0x18; 0x18; 0x18; 0xf8; 0x18; 0xf8; 0x18; 0x18; 0x18; 0x18; 0x18; 0x18; 0x18; 0x18];
    [0x36; 0x36; 0x36; 0x36; 0x36; 0x36; 0x36; 0xf6; 0x36; 0x36; 0x36; 0x36; 0x36; 0x36; 0x36; 0x36];
    [0; 0; 0; 0; 0; 0; 0; 0xfe; 0x36; 0x36; 0x36; 0x36; 0x36; 0x36; 0x36; 0x36];
    [0; 0; 0; 0; 0; 0xf8; 0x18; 0xf8; 0x18; 0x18; 0x18; 0x18; 0x18; 0x18; 0x18; 0x18];
    [0x36; 0x36; 0x36; 0x36; 0x36; 0xf6; 0x06; 0xf6; 0x36; 0x36; 0x36; 0x36; 0x36; 0x36; 0x36; 0x36];
    [0x36; 0x36; 0x36; 0x36; 0x36; 0x36; 0x36; 0x36; 0x36; 0x36; 0x36; 0x36; 0x36; 0x36; 0x36; 0x36];
    [0; 0; 0; 0; 0; 0xfe; 0x06; 0xf6; 0x36; 0x36; 0x36; 0x36; 0x36; 0x36; 0x36; 0x36];
    [0x36; 0x36; 0x36; 0x36; 0x36; 0xf6; 0x06; 0xfe; 0; 0; 0; 0; 0; 0; 0; 0];
    [0x36; 0x36; 0x36; 0x36; 0x36; 0x36; 0x36; 0xfe; 0; 0; 0; 0; 0; 0; 0; 0];
    [0x18; 0x18; 0x18; 0x18; 0x18; 0xf8; 0x18; 0xf8; 0; 0; 0; 0; 0; 0; 0; 0];
    [0; 0; 0; 0; 0; 0; 0; 0xf8; 0x18; 0x18; 0x18; 0x18; 0x18; 0x18; 0x18; 0x18];
    [0x18; 0x18; 0x18; 0x18; 0x18; 0x18; 0x18; 0x1f; 0; 0; 0; 0; 0; 0; 0; 0];
    [0x18; 0x18; 0x18; 0x18; 0x18; 0x18; 0x18; 0xff; 0; 0; 0; 0; 0; 0; 0; 0];
    [0; 0; 0; 0; 0; 0; 0; 0xff; 0x18; 0x18; 0x18; 0x18; 0x18; 0x18; 0x18; 0x18];
    [0x18; 0x18; 0x18; 0x18; 0x18; 0x18; 0x18; 0x1f; 0x18; 0x18; 0x18; 0x18; 0x18; 0x18; 0x18; 0x18];
    [0; 0; 0; 0; 0; 0; 0; 0xff; 0; 0; 0; 0; 0; 0; 0; 0];
    [0x18; 0x18; 0x18; 0x18; 0x18; 0x18; 0x18; 0xff; 0x18; 0x18; 0x18; 0x18; 0x18; 0x18; 0x18; 0x18];
    [0x18; 0x18; 0x18; 0x18; 0x18; 0x1f; 0x18; 0x1f; 0x18; 0x18; 0x18; 0x18; 0x18; 0x18; 0x18; 0x18];
    [0x36; 0x36; 0x36; 0x36; 0x36; 0x36; 0x36; 0x37; 0x36; 0x36; 0x36; 0x36; 0x36; 0x36; 0x36; 0x36];
    [0x36; 0x36; 0x36; 0x36; 0x36; 0x37; 0x30; 0x3f; 0; 0; 0; 0; 0; 0; 0; 0];
    [0; 0; 0; 0; 0; 0x3f; 0x30; 0x37; 0x36; 0x36; 0x36; 0x36; 0x36; 0x36; 0x36; 0x36];
    [0x36; 0x36; 0x36; 0x36; 0x36; 0xf7; 0; 0xff; 0; 0; 0; 0; 0; 0; 0; 0];
    [0; 0; 0; 0; 0; 0xff; 0; 0xf7; 0x36; 0x36; 0x36; 0x36; 0x36; 0x36; 0x36; 0x36];
    [0x36; 0x36; 0x36; 0x36; 0x36; 0x37; 0x30; 0x37; 0x36; 0x36; 0x36; 0x36; 0x36; 0x36; 0x36; 0x36];
    [0; 0; 0; 0; 0; 0xff; 0; 0xff; 0; 0; 0; 0; 0; 0; 0; 0];
    [0x36; 0x36; 0x36; 0x36; 0x36; 0xf7; 0; 0xf7; 0x36; 0x36; 0x36; 0x36; 0x36; 0x36; 0x36; 0x36];
    [0x18; 0x18; 0x18; 0x18; 0x18; 0xff; 0; 0xff; 0; 0; 0; 0; 0; 0; 0; 0];
    [0x36; 0x36; 0x36; 0x36; 0x36; 0x36; 0x36; 0xff; 0; 0; 0; 0; 0; 0; 0; 0];
    [0; 0; 0; 0; 0; 0xff; 0; 0xff; 0x18; 0x18; 0x18; 0x18; 0x18; 0x18; 0x18; 0x18];
    [0; 0; 0; 0; 0; 0; 0; 0xff; 0x36; 0x36; 0x36; 0x36; 0x36; 0x36; 0x36; 0x36];
    [0x36; 0x36; 0x36; 0x36; 0x36; 0x36; 0x36; 0x3f; 0; 0; 0; 0; 0; 0; 0; 0];
    [0x18; 0x18; 0x18; 0x18; 0x18; 0x1f; 0x18; 0x1f; 0; 0; 0; 0; 0; 0; 0; 0];
    [0; 0; 0; 0; 0; 0x1f; 0x18; 0x1f; 0x18; 0x18; 0x18; 0x18; 0x18; 0x18; 0x18; 0x18];
    [0; 0; 0; 0; 0; 0; 0; 0x3f; 0x36; 0x36; 0x36; 0x36; 0x36; 0x36; 0x36; 0x36];
    [0x36; 0x36; 0x36; 0x36; 0x36; 0x36; 0x36; 0xff; 0x36; 0x36; 0x36; 0x36; 0x36; 0x36; 0x36; 0x36];
    [0x18; 0x18; 0x18; 0x18; 0x18; 0xff; 0x18; 0xff; 0x18; 0x18; 0x18; 0x18; 0x18; 0x18; 0x18; 0x18];
    [0x18; 0x18; 0x18; 0x18; 0x18; 0x18; 0x18; 0xf8; 0; 0; 0; 0; 0; 0; 0; 0];
    [0; 0; 0; 0; 0; 0; 0; 0x1f; 0x18; 0x18; 0x18; 0x18; 0x18; 0x18; 0x18; 0x18];
    [0xff; 0xff; 0xff; 0xff; 0xff; 0xff; 0xff; 0xff; 0xff; 0xff; 0xff; 0xff; 0xff; 0xff; 0xff; 0xff];
    [0; 0; 0; 0; 0; 0; 0; 0xff; 0xff; 0xff; 0xff; 0xff; 0xff; 0xff; 0xff; 0xff];
    [0xf0; 0xf0; 0xf0; 0xf0; 0xf0; 0xf0; 0xf0; 0xf0; 0xf0; 0xf0; 0xf0; 0xf0; 0xf0; 0xf0; 0xf0; 0xf0];
    [0x0f; 0x0f; 0x0f; 0x0f; 0x0f; 0x0f; 0x0f; 0x0f; 0x0f; 0x0f; 0x0f; 0x0f; 0x0f; 0x0f; 0x0f; 0x0f];
    [0xff; 0xff; 0xff; 0xff; 0xff; 0xff; 0xff; 0; 0; 0; 0; 0; 0; 0; 0; 0];
    [0; 0; 0; 0; 0; 0x76; 0xdc; 0xd8; 0xd8; 0xd8; 0xdc; 0x76; 0; 0; 0; 0];
    [0; 0; 0x78; 0xcc; 0xcc; 0xcc; 0xd8; 0xcc; 0xc6; 0xc6; 0xc6; 0xcc; 0; 0; 0; 0];
    [0; 0; 0xfe; 0xc6; 0xc6; 0xc0; 0xc0; 0xc0; 0xc0; 0xc0; 0xc0; 0xc0; 0; 0; 0; 0];
    [0; 0; 0; 0; 0xfe; 0x6c; 0x6c; 0x6c; 0x6c; 0x6c; 0x6c; 0x6c; 0; 0; 0; 0];
    [0; 0; 0; 0xfe; 0xc6; 0x60; 0x30; 0x18; 0x30; 0x60; 0xc6; 0xfe; 0; 0; 0; 0];
    [0; 0; 0; 0; 0; 0x7e; 0xd8; 0xd8; 0xd8; 0xd8; 0xd8; 0x70; 0; 0; 0; 0];
    [0; 0; 0; 0; 0x66; 0x66; 0x66; 0x66; 0x66; 0x7c; 0x60; 0x60; 0xc0; 0; 0; 0];
    [0; 0; 0; 0; 0x76; 0xdc; 0x18; 0x18; 0x18; 0x18; 0x18; 0x18; 0; 0; 0; 0];
    [0; 0; 0; 0x7e; 0x18; 0x3c; 0x66; 0x66; 0x66; 0x3c; 0x18; 0x7e; 0; 0; 0; 0];
    [0; 0; 0; 0x38; 0x6c; 0xc6; 0xc6; 0xfe; 0xc6; 0xc6; 0x6c; 0x38; 0; 0; 0; 0];
    [0; 0; 0x38; 0x6c; 0xc6; 0xc6; 0xc6; 0x6c; 0x6c; 0x6c; 0x6c; 0xee; 0; 0; 0; 0];
    [0; 0; 0x1e; 0x30; 0x18; 0x0c; 0x3e; 0x66; 0x66; 0x66; 0x66; 0x3c; 0; 0; 0; 0];
    [0; 0; 0; 0; 0; 0x7e; 0xdb; 0xdb; 0xdb; 0x7e; 0; 0; 0; 0; 0; 0];
    [0; 0; 0; 0x03; 0x06; 0x7e; 0xdb; 0xdb; 0xf3; 0x7e; 0x60; 0xc0; 0; 0; 0; 0];
    [0; 0; 0x1c; 0x30; 0x60; 0x60; 0x7c; 0x60; 0x60; 0x60; 0x30; 0x1c; 0; 0; 0; 0];
    [0; 0; 0; 0x7c; 0xc6; 0xc6; 0xc6; 0xc6; 0xc6; 0xc6; 0xc6; 0xc6; 0; 0; 0; 0];
    [0; 0; 0; 0; 0xfe; 0; 0; 0xfe; 0; 0; 0xfe; 0; 0; 0; 0; 0];
    [0; 0; 0; 0; 0x18; 0x18; 0x7e; 0x18; 0x18; 0; 0; 0xff; 0; 0; 0; 0];
    [0; 0; 0; 0x30; 0x18; 0x0c; 0x06; 0x0c; 0x18; 0x30; 0; 0x7e; 0; 0; 0; 0];
    [0; 0; 0; 0x0c; 0x18; 0x30; 0x60; 0x30; 0x18; 0x0c; 0; 0x7e; 0; 0; 0; 0];
    [0; 0; 0x0e; 0x1b; 0x1b; 0x18; 0x18; 0x18; 0x18; 0x18; 0x18; 0x18; 0x18; 0x18; 0x18; 0x18];
    [0x18; 0x18; 0x18; 0x18; 0x18; 0x18; 0x18; 0x18; 0xd8; 0xd8; 0xd8; 0x70; 0; 0; 0; 0];
    [0; 0; 0; 0; 0x18; 0x18; 0; 0x7e; 0; 0x18; 0x18; 0; 0; 0; 0; 0];
    [0; 0; 0; 0; 0; 0x76; 0xdc; 0; 0x76; 0xdc; 0; 0; 0; 0; 0; 0];
    [0; 0x38; 0x6c; 0x6c; 0x38; 0; 0; 0; 0; 0; 0; 0; 0; 0; 0; 0];
    [0; 0; 0; 0; 0; 0; 0; 0x18; 0x18; 0; 0; 0; 0; 0; 0; 0];
    [0; 0; 0; 0; 0; 0; 0; 0; 0x18; 0; 0; 0; 0; 0; 0; 0];
    [0; 0x0f; 0x0c; 0x0c; 0x0c; 0x0c; 0x0c; 0xec; 0x6c; 0x6c; 0x3c; 0x1c; 0; 0; 0; 0];
    [0; 0xd8; 0x6c; 0x6c; 0x6c; 0x6c; 0x6c; 0; 0; 0; 0; 0; 0; 0; 0; 0];
    [0; 0x70; 0xd8; 0x30; 0x60; 0xc8; 0xf8; 0; 0; 0; 0; 0; 0; 0; 0; 0];
    [0; 0; 0; 0; 0x7c; 0x7c; 0x7c; 0x7c; 0x7c; 0x7c; 0x7c; 0; 0; 0; 0; 0];
    [0; 0; 0; 0; 0; 0; 0; 0; 0; 0; 0; 0; 0; 0; 0; 0] ].

(** [Font::GetFontHeight] and [Font::GetFontWidth]. *)
Definition GetFontHeight : Z := 16.

Definition GetFontWidth : Z := 8.

(** [Font::GetCharacterMap]: the glyph of a character, [None] outside the table (a [char]
    is cast to [uint8_t], so it never is). *)
Definition GetCharacterMap (c : Z) : option (list Z) :=
  XGA_8x16 !! Z.to_nat (u8 c).

(** Every character has a glyph of sixteen lines of eight dots. *)
Definition glyph_ok (g : list Z) : bool :=
  (Z.of_nat (length g) =? GetFontHeight) && forallb (fun b => (0 <=? b) && (b <? 256)) g.

Lemma XGA_8x16_ok : length XGA_8x16 = 256%nat /\ forallb glyph_ok XGA_8x16 = true.
Proof. split; vm_compute; reflexivity. Qed.

Lemma GetCharacterMap_total (c : Z) :
  exists g, GetCharacterMap c = Some g /\ length g = 16%nat /\
    forall b, b ∈ g -> 0 <= b < 256.
Proof.
  unfold GetCharacterMap. destruct XGA_8x16_ok as [Hl Hf].
  assert (0 <= u8 c < 2 ^ 8) as Hc by (apply wrap_range; lia).
  destruct (lookup_lt_is_Some_2 XGA_8x16 (Z.to_nat (u8 c))) as [g Hg]; [rewrite Hl; lia |].
  exists g. split; [exact Hg |].
  rewrite forallb_forall in Hf.
  specialize (Hf g (proj1 (list_elem_of_In _ _) (list_elem_of_lookup_2 _ _ _ Hg))).
  unfold glyph_ok, GetFontHeight in Hf. zbool. split; [lia |].
  intros b Hb. rewrite forallb_forall in H0.
  specialize (H0 b (proj1 (list_elem_of_In _ _) Hb)). zbool. lia.
Qed.
