(* ===== verification/Graphics.v ===== *)
(** Drawing into frame buffers (src/src/gfx/FrameBuffer.h, LinearFrameBuffer.h, Types.h,
    Color.h, Cursor.h) and the loading screen (kernel/io/LoadingScreen.cpp).

    A frame buffer is its width, its height and its pixels.  A [Color*] is the index of a
    pixel: pointers are addresses modulo 2^64 and a pixel takes four bytes, so indices are
    taken modulo 2^62; an index outside the buffer is a [Fault].  [DrawPrintf] is left out
    (it formats with [vsprintf] into a local array and calls [DrawText]). *)
From S2P Require Import Prelude Font.

(** ** Data *)

Record Point2D := mkPoint { pt_X : Z; pt_Y : Z }.

Record Rectangle := mkRect { X : Z; Y : Z; Width : Z; Height : Z }.

(** [Rectangle::Contains]. *)
Definition Contains (r : Rectangle) (p : Point2D) : bool :=
  if (pt_X p <? X r) || (u64 (X r + Width r) <? pt_X p) then false
  else if (pt_Y p <? Y r) || (u64 (Y r + Height r) <? pt_Y p) then false
  else true.

(** [BGRRPixel]: the four bytes of a pixel and the pixel as one word. *)
Record BGRRPixel := mkPixel { Blue : Z; Green : Z; Red : Z; Reserved : Z }.

Definition AsUint32 (p : BGRRPixel) : Z :=
  Blue p + Green p * 2 ^ 8 + Red p * 2 ^ 16 + Reserved p * 2 ^ 24.

Definition of_uint32 (v : Z) : BGRRPixel :=
  mkPixel (u8 v) (u8 (v / 2 ^ 8)) (u8 (v / 2 ^ 16)) (u8 (v / 2 ^ 24)).

Definition White : Z := AsUint32 (mkPixel 0xFF 0xFF 0xFF 0x00).
Definition ColorBlue : Z := AsUint32 (mkPixel 0xFF 0x00 0x00 0x00).
Definition Black : Z := AsUint32 (mkPixel 0x00 0x00 0x00 0x00).

(** A frame buffer: [GetWidth], [GetHeight] and the pixels behind [GetBuffer]. *)
Record FrameBuffer := mkFB { GetWidth : Z; GetHeight : Z; GetBuffer : list Z }.

Definition with_buffer (fb : FrameBuffer) (buf : list Z) : FrameBuffer :=
  mkFB (GetWidth fb) (GetHeight fb) buf.

(** A pixel's index after pointer arithmetic. *)
Definition pixel_ptr (i : Z) : Z := wrap 62 i.

Definition store_pixel (p v : Z) (buf : list Z) : outcome (list Z) :=
  if (0 <=? p) && (p <? Z.of_nat (length buf)) then Ret (<[Z.to_nat p := v]> buf) else Fault.

Definition load_pixel (p : Z) (buf : list Z) : outcome Z :=
  if (0 <=? p) && (p <? Z.of_nat (length buf))
  then match buf !! Z.to_nat p with Some v => Ret v | None => Fault end
  else Fault.

(** ** Filling and copying *)

Fixpoint SetPixels_loop (n : nat) (dst val : Z) (buf : list Z) : outcome (list Z) :=
  match n with
  | O => Ret buf
  | S n => buf ← store_pixel dst val buf; SetPixels_loop n (pixel_ptr (dst + 1)) val buf
  end.

(** [FrameBuffer::SetPixels]. *)
Definition SetPixels (dst val size : Z) (buf : list Z) : outcome (list Z) :=
  SetPixels_loop (Z.to_nat size) dst val buf.

(** [memcpy] of whole pixels from another array. *)
Fixpoint copy_pixels (n : nat) (dst src : Z) (frame buf : list Z) : outcome (list Z) :=
  match n with
  | O => Ret buf
  | S n =>
    v ← load_pixel src frame;
    buf ← store_pixel dst v buf;
    copy_pixels n (pixel_ptr (dst + 1)) (pixel_ptr (src + 1)) frame buf
  end.

(** [for (y = 0; y < Height; y++) { if (y + Y >= GetHeight()) break; ... }]: the loop the
    drawing functions share; [row] is the rest of the body. *)
Fixpoint rows (n : nat) (y : Z) (height : Z) (r : Rectangle)
    (row : Z -> list Z -> outcome (list Z)) (buf : list Z) : outcome (list Z) :=
  match n with
  | O => Ret buf
  | S n =>
    if height <=? u64 (y + Y r) then Ret buf
    else buf ← row y buf; rows n (y + 1) height r row buf
  end.

(** [GetBuffer() + (region.Y + y) * GetWidth() + region.X]. *)
Definition row_ptr (fb : FrameBuffer) (r : Rectangle) (y : Z) : Z :=
  pixel_ptr (pixel_ptr (u64 (u64 (Y r + y) * GetWidth fb)) + X r).

(** [std::min(region.Width, GetWidth() - region.X)]. *)
Definition row_count (fb : FrameBuffer) (r : Rectangle) : Z :=
  Z.min (Width r) (u64 (GetWidth fb - X r)).

Definition on_rows (fb : FrameBuffer) (r : Rectangle)
    (row : Z -> list Z -> outcome (list Z)) : outcome FrameBuffer :=
  buf ← rows (Z.to_nat (Height r)) 0 (GetHeight fb) r row (GetBuffer fb);
  Ret (with_buffer fb buf).

(** [FrameBuffer::DrawRectangle]. *)
Definition DrawRectangle (color : Z) (r : Rectangle) (fb : FrameBuffer) : outcome FrameBuffer :=
  on_rows fb r (fun y buf => SetPixels (row_ptr fb r y) color (row_count fb r) buf).

(** [FrameBuffer::GetBounds] and [FrameBuffer::Size]. *)
Definition GetBounds (fb : FrameBuffer) : Rectangle := mkRect 0 0 (GetWidth fb) (GetHeight fb).

Definition Size (fb : FrameBuffer) : Z := u64 (GetHeight fb * GetWidth fb * 4).

(** [FrameBuffer::FillScreen]. *)
Definition FillScreen (color : Z) (fb : FrameBuffer) : outcome FrameBuffer :=
  DrawRectangle color (GetBounds fb) fb.

(** [FrameBuffer::DrawPoint]. *)
Definition DrawPoint (color : Z) (p : Point2D) (fb : FrameBuffer) : outcome FrameBuffer :=
  if (pt_X p <? 0) || (GetWidth fb <=? pt_X p) || (pt_Y p <? 0) || (GetHeight fb <=? pt_Y p)
  then Ret fb
  else
    buf ← store_pixel (pixel_ptr (pixel_ptr (u64 (pt_Y p * GetWidth fb)) + pt_X p)) color
            (GetBuffer fb);
    Ret (with_buffer fb buf).

(** The two sides of [FrameBuffer::DrawFrameBorder]: the loop from [y] for [n] rows. *)
Fixpoint border_sides (n : nat) (y : Z) (color thickness : Z) (fb : FrameBuffer) (buf : list Z)
    : outcome (list Z) :=
  match n with
  | O => Ret buf
  | S n =>
    let row := pixel_ptr (u64 (y * GetWidth fb)) in
    buf ← SetPixels row color thickness buf;
    buf ← SetPixels (pixel_ptr (row + u64 (GetWidth fb - thickness))) color thickness buf;
    border_sides n (y + 1) color thickness fb buf
  end.

(** [FrameBuffer::DrawFrameBorder]. *)
Definition DrawFrameBorder (color thickness : Z) (fb : FrameBuffer) : outcome FrameBuffer :=
  let edge := u64 (GetWidth fb * thickness) in
  let inner := u64 (GetHeight fb - thickness) in
  buf ← SetPixels 0 color edge (GetBuffer fb);
  buf ← SetPixels (pixel_ptr (u64 (inner * GetWidth fb))) color edge buf;
  buf ← border_sides (Z.to_nat (inner - thickness)) thickness color thickness fb buf;
  Ret (with_buffer fb buf).

(** [FrameBuffer::DrawBorder]. *)
Definition DrawBorder (color : Z) (r : Rectangle) (thickness : Z) (fb : FrameBuffer)
    : outcome FrameBuffer :=
  fb ← DrawRectangle color (mkRect (X r) (Y r) (Width r) thickness) fb;
  fb ← DrawRectangle color (mkRect (X r) (Y r) thickness (Height r)) fb;
  fb ← DrawRectangle color (mkRect (u64 (X r + Width r)) (Y r) thickness (Height r)) fb;
  DrawRectangle color (mkRect (X r) (u64 (Y r + Height r)) (Width r) thickness) fb.

(** [FrameBuffer::WriteFrame]: [frame] is an array of pixels, [Width] to a row. *)
Definition WriteFrame (r : Rectangle) (frame : list Z) (fb : FrameBuffer) : outcome FrameBuffer :=
  on_rows fb r (fun y buf =>
    copy_pixels (Z.to_nat (pixel_ptr (row_count fb r))) (row_ptr fb r y)
      (pixel_ptr (u64 (y * Width r))) frame buf).

(** The gray pixel of [FrameBuffer::WriteFrameGrayscale]. *)
Definition grayscale (v : Z) : Z :=
  let p := of_uint32 v in
  let average := u8 ((Blue p + Green p + Red p) / 3) in
  AsUint32 (mkPixel average average average (Reserved p)).

Fixpoint gray_pixels (n : nat) (dst src : Z) (frame buf : list Z) : outcome (list Z) :=
  match n with
  | O => Ret buf
  | S n =>
    v ← load_pixel src frame;
    buf ← store_pixel dst (grayscale v) buf;
    gray_pixels n (pixel_ptr (dst + 1)) (pixel_ptr (src + 1)) frame buf
  end.

(** [FrameBuffer::WriteFrameGrayscale]. *)
Definition WriteFrameGrayscale (r : Rectangle) (frame : list Z) (fb : FrameBuffer)
    : outcome FrameBuffer :=
  on_rows fb r (fun y buf =>
    gray_pixels (Z.to_nat (row_count fb r)) (row_ptr fb r y)
      (pixel_ptr (u64 (y * Width r))) frame buf).

(** [memmove] of [n] pixels inside the buffer. *)
Definition move_pixels (n : Z) (dst src : Z) (buf : list Z) : outcome (list Z) :=
  if n =? 0 then Ret buf
  else if (dst + n <=? Z.of_nat (length buf)) && (src + n <=? Z.of_nat (length buf))
  then Ret (list_inserts (Z.to_nat dst) (take (Z.to_nat n) (drop (Z.to_nat src) buf)) buf)
  else Fault.

(** [FrameBuffer::Scroll]; [clearBytes] is a [uint32_t]. *)
Definition Scroll (yOffset : Z) (fb : FrameBuffer) : outcome FrameBuffer :=
  let count := u64 (u64 (GetHeight fb - yOffset) * GetWidth fb) in
  buf ← move_pixels (pixel_ptr count) 0 (pixel_ptr (u64 (yOffset * GetWidth fb))) (GetBuffer fb);
  let clearBytes := u32 (yOffset * GetWidth fb * 4) in
  buf ← SetPixels (pixel_ptr count) 0 (clearBytes / 4) buf;
  Ret (with_buffer fb buf).

(** [FrameBuffer::GetPixel]. *)
Definition GetPixel (p : Point2D) (fb : FrameBuffer) : outcome Z :=
  load_pixel (pixel_ptr (u64 (pt_Y p * GetWidth fb + pt_X p))) (GetBuffer fb).

(** [LinearFrameBuffer::Write]: the whole of another frame buffer at once. *)
Definition Write (src dst : FrameBuffer) : outcome FrameBuffer :=
  let bufferSize := u64 (GetHeight src * GetWidth src * 4) in
  buf ← copy_pixels (Z.to_nat (bufferSize / 4)) 0 0 (GetBuffer src) (GetBuffer dst);
  Ret (with_buffer dst buf).

(** ** Cursor and text *)

(** [Cursor::cursor8x8_basic]. *)
Definition cursor8x8_basic : list Z :=
  [0x3C00; 0x3E00; 0x3F00; 0x3F80; 0x3FC0; 0x3FE0; 0x3FF0; 0x3FF8;
   0x3FFC; 0x3FFC; 0x3FC0; 0x3DE0; 0x39E0; 0x30F0; 0x00F0; 0x0060].

(** [FrameBuffer::DrawCursor]. *)
Definition DrawCursor (position : Point2D) (color : Z) (fb : FrameBuffer) : outcome FrameBuffer :=
  for_loop 16 0 (fun y fb =>
    match cursor8x8_basic !! Z.to_nat y with
    | None => Fault
    | Some line =>
      for_loop 16 0 (fun x fb =>
        let mask := u16 (Z.shiftl 1 (16 - x - 1)) in
        if truthy (Z.land line mask)
        then DrawPoint color (mkPoint (u64 (pt_X position + x)) (u64 (pt_Y position + y))) fb
        else Ret fb) fb
    end) fb.

Definition FontScale : Z := 1.

(** One line of a character: [while (mask > 0)]; the mask starts at 0x80 and is halved, so
    eight turns are enough. *)
Fixpoint char_line (fuel : nat) (x mask y : Z) (line : Z) (position : Point2D) (color : Z)
    (fb : FrameBuffer) : outcome FrameBuffer :=
  match fuel with
  | O => Diverged
  | S fuel =>
    if 0 <? mask then
      fb ← (if truthy (Z.land (s8 line) mask)
            then DrawRectangle color
                   (mkRect (u64 (u64 (pt_X position + x) * FontScale))
                           (u64 (u64 (pt_Y position + y) * FontScale)) FontScale FontScale) fb
            else Ret fb);
      char_line fuel (x + 1) (Z.shiftr mask 1) y line position color fb
    else Ret fb
  end.

(** [FrameBuffer::DrawCharacter]. *)
Definition DrawCharacter (position : Point2D) (c color : Z) (fb : FrameBuffer)
    : outcome FrameBuffer :=
  match GetCharacterMap c with
  | None => Fault
  | Some map =>
    for_loop (Z.to_nat GetFontHeight) 0 (fun y fb =>
      match map !! Z.to_nat y with
      | None => Fault
      | Some line => char_line 9 0 0x80 y line position color fb
      end) fb
  end.

(** A printable character of [FrameBuffer::DrawText]: next line at the right edge, scroll at
    the bottom, draw, advance. *)
Definition put_char (pos : Point2D) (c color : Z) (fb : FrameBuffer)
    : outcome (Point2D * FrameBuffer) :=
  let pos := if GetWidth fb <=? pt_X pos
             then mkPoint 0 (u64 (pt_Y pos + GetFontHeight)) else pos in
  '(pos, fb) ← (if GetHeight fb <=? u64 (pt_Y pos + GetFontHeight)
                then fb ← Scroll GetFontHeight fb;
                     Ret (mkPoint (pt_X pos) (u64 (pt_Y pos - GetFontHeight)), fb)
                else Ret (pos, fb));
  fb ← DrawCharacter pos c color fb;
  Ret (mkPoint (u64 (pt_X pos + GetFontWidth)) (pt_Y pos), fb).

(** One character of [FrameBuffer::DrawText]. *)
Definition text_char (pos : Point2D) (c color : Z) (fb : FrameBuffer)
    : outcome (Point2D * FrameBuffer) :=
  if c =? 10 then Ret (mkPoint 0 (u64 (pt_Y pos + GetFontHeight)), fb)
  else if c =? 9 then Ret (mkPoint (u64 (pt_X pos + GetFontWidth * 4)) (pt_Y pos), fb)
  else if c =? 13 then Ret (pos, fb)
  else put_char pos c color fb.

(** [FrameBuffer::DrawText]. *)
Fixpoint DrawText (pos : Point2D) (text : list Z) (color : Z) (fb : FrameBuffer)
    : outcome (Point2D * FrameBuffer) :=
  match text with
  | [] => Ret (pos, fb)
  | c :: text => '(pos, fb) ← text_char pos c color fb; DrawText pos text color fb
  end.

(** ** The loading screen *)

Record LoadingScreen := mkScreen { m_frameBuffer : FrameBuffer; yPos : Z; xPos : Z; xOffset : Z }.

(** The constructor. *)
Definition LoadingScreen_new (fb : FrameBuffer) : LoadingScreen := mkScreen fb 35 0 5.

(** [VSOS 0.1 dev]. *)
Definition banner : list Z := [86; 83; 79; 83; 32; 48; 46; 49; 32; 100; 101; 118].

(** [LoadingScreen::Initialize]. *)
Definition LoadingScreen_Initialize (s : LoadingScreen) : outcome LoadingScreen :=
  fb ← FillScreen Black (m_frameBuffer s);
  fb ← DrawFrameBorder ColorBlue 3 fb;
  '(_, fb) ← DrawText (mkPoint 9 9) banner White fb;
  fb ← DrawRectangle ColorBlue (mkRect 0 30 (GetWidth fb) 3) fb;
  Ret (mkScreen fb (yPos s) (xPos s) (xOffset s)).

(** [LoadingScreen::Write]. *)
Definition LoadingScreen_Write (text : list Z) (s : LoadingScreen) : outcome LoadingScreen :=
  '(point, fb) ← DrawText (mkPoint (xPos s) (yPos s)) text White (m_frameBuffer s);
  let x := pt_X point in
  Ret (mkScreen fb (pt_Y point) (if x =? 0 then u64 (x + xOffset s) else x) (xOffset s)).

(** [LoadingScreen::SetFramebuffer]. *)
Definition SetFramebuffer (fb : FrameBuffer) (s : LoadingScreen) : LoadingScreen :=
  mkScreen fb 0 0 (xOffset s).

(** [LoadingScreen::RemoveChar]. *)
Definition RemoveChar (s : LoadingScreen) : outcome LoadingScreen :=
  fb ← DrawRectangle Black (mkRect (u64 (xPos s - 8)) (yPos s) 8 16) (m_frameBuffer s);
  Ret (mkScreen fb (yPos s) (u64 (xPos s - 8)) (xOffset s)).

(** ** Specification: which pixels an operation paints *)

Definition pixel (fb : FrameBuffer) (x y : Z) : option Z :=
  GetBuffer fb !! Z.to_nat (y * GetWidth fb + x).

(** A frame buffer whose buffer holds its rows and can be addressed. *)
Definition fb_ok (fb : FrameBuffer) : Prop :=
  0 <= GetWidth fb /\ 0 <= GetHeight fb /\ GetWidth fb * GetHeight fb < 2 ^ 60 /\
  GetHeight fb < 2 ^ 60 /\ GetWidth fb < 2 ^ 60 /\
  Z.of_nat (length (GetBuffer fb)) = GetWidth fb * GetHeight fb.

(** [fb'] is [fb] with the pixels of [P] set to [f] and the others as they were. *)
Record paints (P : Z -> Z -> bool) (f : Z -> Z -> option Z) (fb fb' : FrameBuffer) : Prop := {
  paints_width : GetWidth fb' = GetWidth fb;
  paints_height : GetHeight fb' = GetHeight fb;
  paints_length : length (GetBuffer fb') = length (GetBuffer fb);
  paints_pixel x y : 0 <= x < GetWidth fb -> 0 <= y < GetHeight fb ->
    pixel fb' x y = if P x y then f x y else pixel fb x y }.

(** The points of a rectangle, its right and bottom edges excluded. *)
Definition inside (r : Rectangle) (x y : Z) : bool :=
  (X r <=? x) && (x <? X r + Width r) && (Y r <=? y) && (y <? Y r + Height r).

(** A rectangle whose fields are [size_t]s and which starts in the frame's columns. *)
Definition rect_ok (fb : FrameBuffer) (r : Rectangle) : Prop :=
  0 <= X r <= GetWidth fb /\ 0 <= Y r < 2 ^ 64 /\ 0 <= Width r < 2 ^ 64 /\ 0 <= Height r < 2 ^ 64.

Lemma paints_ok P f fb fb' : fb_ok fb -> paints P f fb fb' -> fb_ok fb'.
Proof. intros (?&?&?&?&?&?) [Hw Hh Hl _]. unfold fb_ok. rewrite Hw, Hh, Hl. tauto. Qed.

Lemma paints_nothing P f fb :
  (forall x y, 0 <= x < GetWidth fb -> 0 <= y < GetHeight fb -> P x y = false) ->
  paints P f fb fb.
Proof. intros HP. split; [done.. |]. intros x y Hx Hy. by rewrite HP. Qed.

Lemma paints_ext P Q f g fb fb' :
  paints P f fb fb' ->
  (forall x y, 0 <= x < GetWidth fb -> 0 <= y < GetHeight fb ->
    P x y = Q x y /\ (P x y = true -> f x y = g x y)) ->
  paints Q g fb fb'.
Proof.
  intros [Hw Hh Hl Hp] He. split; [done.. |]. intros x y Hx Hy.
  rewrite Hp by done. destruct (He x y Hx Hy) as [<- Hf]. by destruct (P x y); [rewrite Hf |].
Qed.

(** Two paintings in sequence; the second one covers the first. *)
Lemma paints_trans P Q f g fb fb1 fb2 :
  paints P f fb fb1 -> paints Q g fb1 fb2 ->
  paints (fun x y => Q x y || P x y) (fun x y => if Q x y then g x y else f x y) fb fb2.
Proof.
  intros [Hw Hh Hl Hp] [Hw2 Hh2 Hl2 Hp2].
  split; [congruence.. |]. intros x y Hx Hy.
  rewrite Hp2 by congruence. destruct (Q x y); [done |]. by apply Hp.
Qed.

(** The same for one colour. *)
Lemma paints_color_trans P Q c fb fb1 fb2 :
  paints P (fun _ _ => Some c) fb fb1 -> paints Q (fun _ _ => Some c) fb1 fb2 ->
  paints (fun x y => P x y || Q x y) (fun _ _ => Some c) fb fb2.
Proof.
  intros H1 H2. refine (paints_ext _ _ _ _ _ _ (paints_trans _ _ _ _ _ _ _ H1 H2) _).
  intros x y _ _. split; [apply orb_comm |]. by destruct (Q x y).
Qed.

(** ** Runs of pixels *)

Lemma store_pixel_run (p v : Z) (buf : list Z) :
  0 <= p < Z.of_nat (length buf) -> store_pixel p v buf = Ret (<[Z.to_nat p := v]> buf).
Proof.
  intros Hp. unfold store_pixel.
  by replace ((0 <=? p) && (p <? Z.of_nat (length buf))) with true by lia.
Qed.

Lemma load_pixel_run (p : Z) (buf : list Z) (v : Z) :
  0 <= p -> buf !! Z.to_nat p = Some v -> load_pixel p buf = Ret v.
Proof.
  intros Hp Hv. unfold load_pixel. pose proof (lookup_lt_Some _ _ _ Hv).
  replace ((0 <=? p) && (p <? Z.of_nat (length buf))) with true by lia. by rewrite Hv.
Qed.

Lemma pixel_ptr_small (i : Z) : 0 <= i < 2 ^ 62 -> pixel_ptr i = i.
Proof. apply wrap_small. Qed.

(** Values stored one after the other, from index [p] on. *)
Fixpoint store_run (p : Z) (vs : list Z) (buf : list Z) : outcome (list Z) :=
  match vs with
  | [] => Ret buf
  | v :: vs => buf ← store_pixel p v buf; store_run (pixel_ptr (p + 1)) vs buf
  end.

Lemma store_run_inserts (vs : list Z) : forall p buf,
  0 <= p -> p + Z.of_nat (length vs) <= Z.of_nat (length buf) -> Z.of_nat (length buf) < 2 ^ 61 ->
  store_run p vs buf = Ret (list_inserts (Z.to_nat p) vs buf).
Proof.
  induction vs as [| v vs IH]; intros p buf Hp Hl Hb; [done |].
  cbn [length] in Hl. cbn [store_run list_inserts].
  rewrite store_pixel_run by lia. cbn.
  rewrite pixel_ptr_small by lia.
  rewrite IH by (rewrite ?length_insert; lia).
  replace (Z.to_nat (p + 1)) with (S (Z.to_nat p)) by lia.
  f_equal. apply list_eq. intros i.
  destruct (decide (i = Z.to_nat p)) as [-> | Hi].
  - rewrite list_lookup_inserts_lt by lia.
    by rewrite !list_lookup_insert_eq by (rewrite ?length_inserts; lia).
  - rewrite list_lookup_insert_ne by lia.
    destruct (decide (i < S (Z.to_nat p))%nat);
      [rewrite !list_lookup_inserts_lt by lia; by rewrite list_lookup_insert_ne by lia |].
    destruct (decide (i < S (Z.to_nat p) + length vs)%nat).
    + rewrite !list_lookup_inserts by (rewrite ?length_insert; lia). done.
    + rewrite !list_lookup_inserts_ge by lia. by rewrite list_lookup_insert_ne by lia.
Qed.

Lemma SetPixels_store (n : nat) (c : Z) : forall p buf,
  SetPixels_loop n p c buf = store_run p (replicate n c) buf.
Proof. induction n as [| n IH]; intros p buf; cbn; [done |]. by destruct (store_pixel p c buf); cbn. Qed.

(** Copying is storing the pixels read. *)
Lemma copy_pixels_store (frame : list Z) (n : nat) : forall p src buf,
  0 <= src -> src + Z.of_nat n <= Z.of_nat (length frame) -> Z.of_nat (length frame) < 2 ^ 61 ->
  copy_pixels n p src frame buf =
    store_run p (take n (drop (Z.to_nat src) frame)) buf.
Proof.
  induction n as [| n IH]; intros p src buf Hs Hn Hl; [by rewrite take_0 |].
  destruct (lookup_lt_is_Some_2 frame (Z.to_nat src)) as [v Hv]; [lia |].
  cbn [copy_pixels]. rewrite (load_pixel_run _ _ v) by (done || lia).
  rewrite (drop_S _ v) by done. cbn [take store_run]. cbn.
  destruct (store_pixel p v buf); cbn; try done.
  rewrite (pixel_ptr_small (src + 1)) by lia.
  rewrite IH by lia. by replace (Z.to_nat (src + 1)) with (S (Z.to_nat src)) by lia.
Qed.

Lemma gray_pixels_store (frame : list Z) (n : nat) : forall p src buf,
  0 <= src -> src + Z.of_nat n <= Z.of_nat (length frame) -> Z.of_nat (length frame) < 2 ^ 61 ->
  gray_pixels n p src frame buf =
    store_run p (grayscale <$> take n (drop (Z.to_nat src) frame)) buf.
Proof.
  induction n as [| n IH]; intros p src buf Hs Hn Hl; [by rewrite take_0 |].
  destruct (lookup_lt_is_Some_2 frame (Z.to_nat src)) as [v Hv]; [lia |].
  cbn [gray_pixels]. rewrite (load_pixel_run _ _ v) by (done || lia).
  rewrite (drop_S _ v) by done. cbn [take fmap list_fmap store_run]. cbn.
  destruct (store_pixel p (grayscale v) buf); cbn; try done.
  rewrite (pixel_ptr_small (src + 1)) by lia.
  rewrite IH by lia. by replace (Z.to_nat (src + 1)) with (S (Z.to_nat src)) by lia.
Qed.

(** A point outside a rectangle. *)
Ltac not_inside := apply not_true_iff_false; intros ?; zbool; lia.

(** Two conditions on a point that hold together. *)
Ltac same_points :=
  apply eq_true_iff_eq;
  rewrite ?andb_true_iff, ?orb_true_iff, ?andb_true_iff, ?Z.leb_le, ?Z.ltb_lt, ?Z.eqb_eq; lia.

(** ** Rows *)

(** The index of a pixel determines it. *)
Lemma index_split (W x y x' y' : Z) :
  0 <= x < W -> 0 <= x' < W -> y * W + x = y' * W + x' -> x = x' /\ y = y'.
Proof. intros. assert (y = y') by nia. subst. lia. Qed.

Lemma index_bound (W H x y : Z) : 0 <= x < W -> 0 <= y < H -> 0 <= y * W + x < W * H.
Proof. nia. Qed.

(** Values stored from a point of a row on. *)
Lemma inserts_row (fb : FrameBuffer) (vs : list Z) (x0 y0 x y : Z) :
  fb_ok fb -> 0 <= x0 -> x0 + Z.of_nat (length vs) <= GetWidth fb ->
  0 <= y0 < GetHeight fb -> 0 <= x < GetWidth fb -> 0 <= y < GetHeight fb ->
  pixel (with_buffer fb (list_inserts (Z.to_nat (y0 * GetWidth fb + x0)) vs (GetBuffer fb))) x y =
    if (x0 <=? x) && (x <? x0 + Z.of_nat (length vs)) && (y =? y0)
    then vs !! Z.to_nat (x - x0) else pixel fb x y.
Proof.
  intros (? & ? & ? & ? & ? & Hl) Hx0 Hv Hy0 Hx Hy. unfold pixel. cbn.
  pose proof (index_bound _ _ _ _ Hx Hy).
  set (i := y * GetWidth fb + x) in *. set (j := y0 * GetWidth fb + x0).
  assert (0 <= j) by (unfold j; nia).
  destruct ((x0 <=? x) && (x <? x0 + Z.of_nat (length vs)) && (y =? y0)) eqn:Hin.
  - zbool. subst y0. rewrite list_lookup_inserts by lia. f_equal. lia.
  - destruct (decide (i < j)); [by rewrite list_lookup_inserts_lt by lia |].
    destruct (decide (i < j + Z.of_nat (length vs))).
    + exfalso. destruct (index_split (GetWidth fb) x y (x0 + (i - j)) y0) as [Hx1 Hy1];
        [lia | lia | unfold i, j; lia | lia].
    + by rewrite list_lookup_inserts_ge by lia.
Qed.

Lemma row_ptr_run (fb : FrameBuffer) (r : Rectangle) (y : Z) :
  fb_ok fb -> rect_ok fb r -> 0 <= y -> Y r + y < GetHeight fb ->
  row_ptr fb r y = (Y r + y) * GetWidth fb + X r.
Proof.
  intros (? & ? & ? & ? & ? & Hl) (? & ? & _) Hy Hr. unfold row_ptr.
  assert (0 <= (Y r + y) * GetWidth fb < 2 ^ 60) by nia.
  rewrite (wrap_small 64 (Y r + y)) by lia. rewrite (wrap_small 64) by lia.
  rewrite (pixel_ptr_small ((Y r + y) * GetWidth fb)) by lia. apply pixel_ptr_small. lia.
Qed.

Lemma row_count_run (fb : FrameBuffer) (r : Rectangle) :
  fb_ok fb -> rect_ok fb r -> row_count fb r = Z.min (Width r) (GetWidth fb - X r).
Proof.
  intros (? & ? & ? & ? & ? & Hl) (? & ? & _). unfold row_count. by rewrite wrap_small by lia.
Qed.

(** A row that stores [vs y] paints the rectangle's part of the frame with them. *)
Lemma rows_paints (r : Rectangle) (row : Z -> list Z -> outcome (list Z)) (vs : Z -> list Z)
    (n : nat) : forall (y : Z) (fb : FrameBuffer),
  fb_ok fb -> rect_ok fb r -> 0 <= y ->
  (forall y', y <= y' < y + Z.of_nat n -> Y r + y' < GetHeight fb ->
     Z.of_nat (length (vs y')) = row_count fb r /\
     forall buf, length buf = length (GetBuffer fb) ->
       row y' buf = store_run (row_ptr fb r y') (vs y') buf) ->
  y = 0 \/ y + Y r <= GetHeight fb ->
  exists buf, rows n y (GetHeight fb) r row (GetBuffer fb) = Ret buf /\
    paints (fun px py => (X r <=? px) && (px <? X r + Width r) &&
                         (Y r + y <=? py) && (py <? Y r + y + Z.of_nat n))
           (fun px py => vs (py - Y r) !! Z.to_nat (px - X r)) fb (with_buffer fb buf).
Proof.
  induction n as [| n IH]; intros y fb Hfb Hr Hy Hrow Hn.
  { exists (GetBuffer fb). split; [done |].
    replace (with_buffer fb (GetBuffer fb)) with fb by by destruct fb.
    apply paints_nothing. intros px py _ _. not_inside. }
  cbn [rows]. pose proof Hr as (HX & HY & HW & HH). pose proof Hfb as (? & ? & ? & ? & ? & Hl).
  destruct (Z.leb_spec (GetHeight fb) (u64 (y + Y r))) as [Hout | Hin].
  { exists (GetBuffer fb). split; [done |].
    replace (with_buffer fb (GetBuffer fb)) with fb by by destruct fb.
    apply paints_nothing. intros px py _ Hpy.
    destruct Hn as [-> | Hn]; [rewrite wrap_small in Hout by lia; not_inside |].
    destruct (decide (y + Y r = GetHeight fb)); [not_inside |].
    rewrite wrap_small in Hout by lia. lia. }
  assert (Y r + y < GetHeight fb) as Hlow.
  { destruct Hn as [-> | Hn]; [rewrite wrap_small in Hin by lia; lia |].
    destruct (decide (y + Y r = GetHeight fb)); [rewrite wrap_small in Hin by lia; lia | lia]. }
  destruct (Hrow y) as [Hlen Hst]; [lia.. |]. rewrite Hst by done.
  rewrite row_ptr_run by done. rewrite row_count_run in Hlen by done.
  assert ((Y r + y + 1) * GetWidth fb <= GetWidth fb * GetHeight fb) by nia.
  assert (0 <= (Y r + y) * GetWidth fb) by nia.
  rewrite store_run_inserts by lia. cbn.
  set (fb1 := with_buffer fb (list_inserts (Z.to_nat ((Y r + y) * GetWidth fb + X r))
                (vs y) (GetBuffer fb))).
  assert (paints (fun px py => (X r <=? px) && (px <? X r + Width r) && (py =? Y r + y))
            (fun px py => vs (py - Y r) !! Z.to_nat (px - X r)) fb fb1) as Hp1.
  { split; [done | done | by cbn; rewrite length_inserts |]. intros px py Hpx Hpy.
    unfold fb1. rewrite inserts_row by (done || lia).
    replace ((X r <=? px) && (px <? X r + Z.of_nat (length (vs y))) && (py =? Y r + y))
      with ((X r <=? px) && (px <? X r + Width r) && (py =? Y r + y)) by lia.
    destruct ((X r <=? px) && (px <? X r + Width r) && (py =? Y r + y)) eqn:Hin1; [| done].
    zbool. subst py. by replace (Y r + y - Y r) with y by lia. }
  destruct (IH (y + 1) fb1) as (buf & Hbuf & Hp2).
  - by apply (paints_ok _ _ _ _ Hfb Hp1).
  - done.
  - lia.
  - intros y' Hy' Hl'. unfold fb1, row_ptr, row_count in *. cbn in *.
    destruct (Hrow y') as [H6 H7]; [lia.. |]. split; [done |]. intros b Hb. apply H7.
    by rewrite Hb, length_inserts.
  - right. cbn. lia.
  - exists buf. split; [exact Hbuf |].
    refine (paints_ext _ _ _ _ _ _ (paints_trans _ _ _ _ _ _ _ Hp1 Hp2) _).
    intros px py Hpx Hpy. split; [same_points |]. intros _.
    by destruct ((X r <=? px) && (px <? X r + Width r) && (Y r + (y + 1) <=? py) &&
                 (py <? Y r + (y + 1) + Z.of_nat n)).
Qed.

(** The whole loop of a drawing function. *)
Lemma on_rows_paints (fb : FrameBuffer) (r : Rectangle) (row : Z -> list Z -> outcome (list Z))
    (vs : Z -> list Z) :
  fb_ok fb -> rect_ok fb r ->
  (forall y, 0 <= y < Height r -> Y r + y < GetHeight fb ->
     Z.of_nat (length (vs y)) = row_count fb r /\
     forall buf, length buf = length (GetBuffer fb) ->
       row y buf = store_run (row_ptr fb r y) (vs y) buf) ->
  exists fb', on_rows fb r row = Ret fb' /\
    paints (inside r) (fun x y => vs (y - Y r) !! Z.to_nat (x - X r)) fb fb'.
Proof.
  intros Hfb Hr Hrow. pose proof Hr as (HX & HY & HW & HH). unfold on_rows.
  destruct (rows_paints r row vs (Z.to_nat (Height r)) 0 fb) as (buf & -> & Hp);
    [done | done | lia | intros; apply Hrow; lia | by left |].
  exists (with_buffer fb buf). split; [done |].
  refine (paints_ext _ _ _ _ _ _ Hp _). intros x y _ _. unfold inside. split; [same_points | done].
Qed.

Lemma DrawRectangle_run (color : Z) (r : Rectangle) (fb : FrameBuffer) :
  fb_ok fb -> rect_ok fb r ->
  exists fb', DrawRectangle color r fb = Ret fb' /\ paints (inside r) (fun _ _ => Some color) fb fb'.
Proof.
  intros Hfb Hr. pose proof Hr as (HX & HY & HW & HH). pose proof (row_count_run fb r Hfb Hr) as Hc.
  destruct (on_rows_paints fb r
    (fun y buf => SetPixels (row_ptr fb r y) color (row_count fb r) buf)
    (fun _ => replicate (Z.to_nat (row_count fb r)) color) Hfb Hr) as (fb' & Hrun & Hp).
  - intros y _ _. split; [rewrite length_replicate; lia |]. intros buf _. apply SetPixels_store.
  - exists fb'. split; [exact Hrun |].
    refine (paints_ext _ _ _ _ _ _ Hp _). intros x y Hx Hy. split; [done |]. unfold inside.
    intros Hin. zbool. apply lookup_replicate. split; [done | lia].
Qed.

(** Reading a run of a list. *)
Lemma lookup_run (l : list Z) (p n i : nat) :
  (i < n)%nat -> take n (drop p l) !! i = l !! (p + i)%nat.
Proof. intros. rewrite lookup_take, lookup_drop. by case_decide; [| lia]. Qed.

(** The source of a copied rectangle: [Width] pixels to a row. *)
Definition source_ok (r : Rectangle) (frame : list Z) : Prop :=
  Width r * Height r <= Z.of_nat (length frame) /\ Z.of_nat (length frame) < 2 ^ 61.

(** The copying functions: [f] is what is made of a source pixel, [row] the loop over a row. *)
Lemma copied_rows_paint (f : Z -> Z) (r : Rectangle) (frame : list Z) (fb : FrameBuffer)
    (row : Z -> list Z -> outcome (list Z)) :
  fb_ok fb -> rect_ok fb r -> source_ok r frame ->
  (forall y buf, 0 <= y < Height r ->
     row y buf = store_run (row_ptr fb r y)
       (f <$> take (Z.to_nat (row_count fb r)) (drop (Z.to_nat (y * Width r)) frame)) buf) ->
  exists fb', on_rows fb r row = Ret fb' /\
    paints (inside r) (fun x y => f <$> frame !! Z.to_nat ((y - Y r) * Width r + (x - X r))) fb fb'.
Proof.
  intros Hfb Hr Hs Hrow. pose proof Hr as (HX & HY & HW & HH). destruct Hs as [Hs Hs'].
  pose proof (row_count_run fb r Hfb Hr) as Hc.
  destruct (on_rows_paints fb r row (fun y => f <$> take (Z.to_nat (row_count fb r))
      (drop (Z.to_nat (y * Width r)) frame)) Hfb Hr) as (fb' & Hrun & Hp).
  - intros y Hy _. split; [| intros; by apply Hrow].
    assert ((y + 1) * Width r <= Width r * Height r) by nia.
    rewrite length_fmap, length_take, length_drop. nia.
  - exists fb'. split; [exact Hrun |].
    refine (paints_ext _ _ _ _ _ _ Hp _). intros x y Hx Hy. split; [done |]. unfold inside.
    intros Hin. zbool. rewrite list_lookup_fmap, lookup_run by lia. do 2 f_equal. nia.
Qed.

Lemma source_index (r : Rectangle) (frame : list Z) (fb : FrameBuffer) (y : Z) :
  fb_ok fb -> rect_ok fb r -> source_ok r frame -> 0 <= y < Height r ->
  pixel_ptr (u64 (y * Width r)) = y * Width r /\ 0 <= y * Width r /\
  y * Width r + row_count fb r <= Z.of_nat (length frame).
Proof.
  intros Hfb Hr [Hs Hs'] Hy. pose proof (row_count_run fb r Hfb Hr) as Hc.
  destruct Hr as (HX & HY & HW & HH).
  assert ((y + 1) * Width r <= Width r * Height r) by nia. assert (0 <= y * Width r) by nia.
  rewrite (wrap_small 64) by lia. rewrite pixel_ptr_small by lia. lia.
Qed.

Lemma WriteFrame_run (r : Rectangle) (frame : list Z) (fb : FrameBuffer) :
  fb_ok fb -> rect_ok fb r -> source_ok r frame ->
  exists fb', WriteFrame r frame fb = Ret fb' /\
    paints (inside r) (fun x y => frame !! Z.to_nat ((y - Y r) * Width r + (x - X r))) fb fb'.
Proof.
  intros Hfb Hr Hs. unfold WriteFrame.
  destruct (copied_rows_paint id r frame fb (fun y buf =>
    copy_pixels (Z.to_nat (pixel_ptr (row_count fb r))) (row_ptr fb r y)
      (pixel_ptr (u64 (y * Width r))) frame buf) Hfb Hr Hs) as (fb' & Hrun & Hp).
  - intros y buf Hy. destruct (source_index r frame fb y Hfb Hr Hs Hy) as (-> & H1 & H2).
    pose proof (row_count_run fb r Hfb Hr). destruct Hr as (HX & HY & HW & HH).
    destruct Hfb as (? & ? & ? & ? & ? & ?). destruct Hs.
    rewrite pixel_ptr_small by lia. rewrite copy_pixels_store by lia. by rewrite list_fmap_id.
  - exists fb'. split; [exact Hrun |]. refine (paints_ext _ _ _ _ _ _ Hp _).
    intros x y _ _. split; [done |]. intros _. by destruct (frame !! _).
Qed.

Lemma WriteFrameGrayscale_run (r : Rectangle) (frame : list Z) (fb : FrameBuffer) :
  fb_ok fb -> rect_ok fb r -> source_ok r frame ->
  exists fb', WriteFrameGrayscale r frame fb = Ret fb' /\
    paints (inside r)
      (fun x y => grayscale <$> frame !! Z.to_nat ((y - Y r) * Width r + (x - X r))) fb fb'.
Proof.
  intros Hfb Hr Hs. apply (copied_rows_paint grayscale); [done.. |].
  intros y buf Hy. destruct (source_index r frame fb y Hfb Hr Hs Hy) as (-> & H1 & H2).
  pose proof (row_count_run fb r Hfb Hr). destruct Hr as (HX & HY & HW & HH). destruct Hfb as (? & ?).
  destruct Hs. rewrite gray_pixels_store by lia. done.
Qed.

(** ** Runs over several rows *)

Lemma SetPixels_paints (p n c : Z) (fb : FrameBuffer) :
  fb_ok fb -> 0 <= p -> 0 <= n -> p + n <= GetWidth fb * GetHeight fb ->
  exists buf, SetPixels p c n (GetBuffer fb) = Ret buf /\
    paints (fun x y => (p <=? y * GetWidth fb + x) && (y * GetWidth fb + x <? p + n))
      (fun _ _ => Some c) fb (with_buffer fb buf).
Proof.
  intros (? & ? & ? & ? & ? & Hl) Hp Hn Hb. unfold SetPixels. rewrite SetPixels_store.
  rewrite store_run_inserts by (rewrite ?length_replicate; lia).
  eexists. split; [reflexivity |]. split; [done | done | by cbn; rewrite length_inserts |].
  intros x y Hx Hy. pose proof (index_bound _ _ _ _ Hx Hy). unfold pixel. cbn.
  set (i := y * GetWidth fb + x) in *.
  destruct ((p <=? i) && (i <? p + n)) eqn:Hin.
  - zbool. rewrite list_lookup_inserts by (rewrite ?length_replicate; lia).
    apply lookup_replicate. split; [done | lia].
  - destruct (decide (i < p)); [by rewrite list_lookup_inserts_lt by lia |].
    rewrite list_lookup_inserts_ge; [done |]. rewrite length_replicate.
    apply andb_false_iff in Hin as [Hin | Hin]; zbool; lia.
Qed.

(** A painting, then a run of pixels of the same colour. *)
Lemma SetPixels_paints_after (P : Z -> Z -> bool) (p n c : Z) (fb fb1 : FrameBuffer) :
  fb_ok fb -> paints P (fun _ _ => Some c) fb fb1 ->
  0 <= p -> 0 <= n -> p + n <= GetWidth fb * GetHeight fb ->
  exists buf, SetPixels p c n (GetBuffer fb1) = Ret buf /\
    paints (fun x y => P x y || (p <=? y * GetWidth fb + x) && (y * GetWidth fb + x <? p + n))
      (fun _ _ => Some c) fb (with_buffer fb1 buf).
Proof.
  intros Hfb H1 Hp Hn Hb. pose proof (paints_width _ _ _ _ H1) as Hw.
  pose proof (paints_height _ _ _ _ H1) as Hh.
  destruct (SetPixels_paints p n c fb1) as (buf & Hrun & H2);
    [by apply (paints_ok _ _ _ _ Hfb H1) | done | done | by rewrite Hw, Hh |].
  exists buf. split; [exact Hrun |]. rewrite Hw in H2.
  exact (paints_color_trans _ _ _ _ _ _ H1 H2).
Qed.

(** The frame border: [t] rows at the top and the bottom, [t] columns at the sides. *)
Definition in_border (fb : FrameBuffer) (t x y : Z) : bool :=
  (y <? t) || (GetHeight fb - t <=? y) || (x <? t) || (GetWidth fb - t <=? x).

Lemma border_sides_run (c t : Z) (fb : FrameBuffer) (n : nat) : forall y P fb1,
  fb_ok fb -> 0 <= t <= GetWidth fb -> 0 <= y -> y + Z.of_nat n <= GetHeight fb ->
  paints P (fun _ _ => Some c) fb fb1 ->
  exists buf, border_sides n y c t fb (GetBuffer fb1) = Ret buf /\
    paints (fun px py => P px py ||
              (y <=? py) && (py <? y + Z.of_nat n) && ((px <? t) || (GetWidth fb - t <=? px)))
      (fun _ _ => Some c) fb (with_buffer fb1 buf).
Proof.
  induction n as [| n IH]; intros y P fb1 Hfb Ht Hy Hn Hp1.
  { exists (GetBuffer fb1). split; [done |].
    replace (with_buffer fb1 (GetBuffer fb1)) with fb1 by by destruct fb1.
    refine (paints_ext _ _ _ _ _ _ Hp1 _). intros px py _ _. split; [| done].
    replace ((y <=? py) && (py <? y + Z.of_nat 0)) with false by (symmetry; not_inside).
    by rewrite orb_false_r. }
  pose proof Hfb as (Hfw & Hfh & Hfa & Hfh' & Hfw' & Hl). cbn [border_sides].
  assert ((y + 1) * GetWidth fb <= GetWidth fb * GetHeight fb) by nia.
  assert (0 <= y * GetWidth fb) by nia.
  rewrite (wrap_small 64 (y * GetWidth fb)) by lia.
  rewrite (wrap_small 64 (GetWidth fb - t)) by lia.
  rewrite (pixel_ptr_small (y * GetWidth fb)) by lia. rewrite pixel_ptr_small by lia.
  destruct (SetPixels_paints_after P (y * GetWidth fb) t c fb fb1) as (b1 & -> & Hp2);
    [done | done | lia.. |]. cbn [mbind outcome_bind].
  destruct (SetPixels_paints_after _ (y * GetWidth fb + (GetWidth fb - t)) t c fb _ Hfb Hp2)
    as (b2 & Hb2 & Hp3); [lia.. |].
  cbn in Hb2. rewrite Hb2. cbn [mbind outcome_bind].
  destruct (IH (y + 1) _ _ Hfb Ht ltac:(lia) ltac:(lia) Hp3) as (buf & Hbuf & Hp4).
  exists buf. split; [exact Hbuf |].
  refine (paints_ext _ _ _ _ _ _ Hp4 _). intros px py Hpx Hpy. split; [| done].
  assert ((y * GetWidth fb <=? py * GetWidth fb + px) && (py * GetWidth fb + px <? y * GetWidth fb + t)
    = (y =? py) && (px <? t)) as ->.
  { apply eq_true_iff_eq. rewrite !andb_true_iff, Z.leb_le, !Z.ltb_lt, Z.eqb_eq.
    split; [| intros [-> ?]; lia]. intros [? ?]. assert (y = py) by nia. subst. lia. }
  assert ((y * GetWidth fb + (GetWidth fb - t) <=? py * GetWidth fb + px) &&
          (py * GetWidth fb + px <? y * GetWidth fb + (GetWidth fb - t) + t)
    = (y =? py) && (GetWidth fb - t <=? px)) as ->.
  { apply eq_true_iff_eq. rewrite !andb_true_iff, !Z.leb_le, Z.ltb_lt, Z.eqb_eq.
    split; [| intros [-> ?]; lia]. intros [? ?]. assert (y = py) by nia. subst. lia. }
  apply eq_true_iff_eq. destruct (P px py); [done |].
  rewrite !orb_true_iff, !andb_true_iff, !orb_true_iff, !Z.leb_le, !Z.ltb_lt, !Z.eqb_eq. lia.
Qed.

Lemma DrawFrameBorder_run (c t : Z) (fb : FrameBuffer) :
  fb_ok fb -> 0 <= t <= GetWidth fb -> t <= GetHeight fb ->
  exists fb', DrawFrameBorder c t fb = Ret fb' /\ paints (in_border fb t) (fun _ _ => Some c) fb fb'.
Proof.
  intros Hfb Ht Hth. pose proof Hfb as (Hfw & Hfh & Hfa & Hfh' & Hfw' & Hl). unfold DrawFrameBorder.
  assert (0 <= GetWidth fb * t <= GetWidth fb * GetHeight fb) by nia.
  assert ((GetHeight fb - t) * GetWidth fb = GetWidth fb * GetHeight fb - GetWidth fb * t) as He by ring.
  rewrite (wrap_small 64 (GetHeight fb - t)) by lia. rewrite !(wrap_small 64) by lia.
  rewrite pixel_ptr_small by lia.
  destruct (SetPixels_paints 0 (GetWidth fb * t) c fb) as (b1 & -> & Hp1); [done | lia.. |].
  cbn [mbind outcome_bind].
  destruct (SetPixels_paints_after _ ((GetHeight fb - t) * GetWidth fb) (GetWidth fb * t) c fb _ Hfb Hp1)
    as (b2 & Hb2 & Hp2); [lia.. |].
  cbn in Hb2. rewrite Hb2. cbn [mbind outcome_bind].
  destruct (decide (t <= GetHeight fb - t)) as [Hle | Hgt].
  - destruct (border_sides_run c t fb (Z.to_nat (GetHeight fb - t - t)) t _ _ Hfb Ht
      ltac:(lia) ltac:(lia) Hp2) as (buf & Hbuf & Hp3).
    cbn in Hbuf. rewrite Hbuf. cbn [mbind outcome_bind]. eexists. split; [reflexivity |].
    refine (paints_ext _ _ _ _ _ _ Hp3 _). intros px py Hpx Hpy. split; [| done].
    unfold in_border. apply eq_true_iff_eq.
    rewrite !orb_true_iff, !andb_true_iff, !orb_true_iff, !Z.leb_le, !Z.ltb_lt.
    assert (py * GetWidth fb + px < 0 + GetWidth fb * t <-> py < t) by nia.
    assert ((GetHeight fb - t) * GetWidth fb <= py * GetWidth fb + px <-> GetHeight fb - t <= py) by nia.
    assert (py * GetWidth fb + px < (GetHeight fb - t) * GetWidth fb + GetWidth fb * t) by nia.
    assert (0 <= py * GetWidth fb + px) by nia. lia.
  - replace (Z.to_nat (GetHeight fb - t - t)) with 0%nat by lia. cbn. eexists. split; [reflexivity |].
    refine (paints_ext _ _ _ _ _ _ Hp2 _). intros px py Hpx Hpy. split; [| done].
    unfold in_border. apply eq_true_iff_eq.
    rewrite !orb_true_iff, !andb_true_iff, !Z.leb_le, !Z.ltb_lt.
    assert (py * GetWidth fb + px < 0 + GetWidth fb * t <-> py < t) by nia.
    assert ((GetHeight fb - t) * GetWidth fb <= py * GetWidth fb + px <-> GetHeight fb - t <= py) by nia.
    assert (py * GetWidth fb + px < (GetHeight fb - t) * GetWidth fb + GetWidth fb * t) by nia.
    assert (0 <= py * GetWidth fb + px) by nia. lia.
Qed.

(** Scrolling: every pixel comes from [yOffset] rows below, the last rows are cleared. *)
Lemma Scroll_run (o : Z) (fb : FrameBuffer) :
  fb_ok fb -> 0 <= o <= GetHeight fb -> o * GetWidth fb < 2 ^ 30 ->
  exists fb', Scroll o fb = Ret fb' /\
    paints (fun _ _ => true)
      (fun x y => if y + o <? GetHeight fb then pixel fb x (y + o) else Some 0) fb fb'.
Proof.
  intros Hfb Ho Hc. pose proof Hfb as (Hfw & Hfh & Hfa & Hfh' & Hfw' & Hl). unfold Scroll.
  assert (0 <= o * GetWidth fb <= GetWidth fb * GetHeight fb) by nia.
  assert ((GetHeight fb - o) * GetWidth fb = GetWidth fb * GetHeight fb - o * GetWidth fb) as He by ring.
  rewrite (wrap_small 64 (GetHeight fb - o)) by lia. rewrite !(wrap_small 64) by lia.
  rewrite !pixel_ptr_small by lia. rewrite (wrap_small 32) by lia. rewrite Z.div_mul by lia.
  set (n := (GetHeight fb - o) * GetWidth fb) in *. set (k := o * GetWidth fb) in *.
  set (moved := list_inserts 0 (take (Z.to_nat n) (drop (Z.to_nat k) (GetBuffer fb))) (GetBuffer fb)).
  assert (move_pixels n 0 k (GetBuffer fb) = Ret moved) as ->.
  { unfold move_pixels. destruct (Z.eqb_spec n 0) as [Hn |].
    - unfold moved. rewrite Hn. cbn. done.
    - replace ((0 + n <=? Z.of_nat (length (GetBuffer fb))) &&
               (k + n <=? Z.of_nat (length (GetBuffer fb)))) with true by lia. done. }
  cbn [mbind outcome_bind].
  assert (length moved = length (GetBuffer fb)) as Hm by (unfold moved; by rewrite length_inserts).
  destruct (SetPixels_paints n k 0 (with_buffer fb moved)) as (buf & Hbuf & Hp2).
  { unfold fb_ok. cbn. rewrite Hm. repeat split; lia. }
  1-3: cbn; lia.
  cbn in Hbuf. rewrite Hbuf. cbn [mbind outcome_bind]. eexists. split; [reflexivity |].
  destruct Hp2 as [_ _ Hl2 Hp2]. split; [done | done | cbn in Hl2 |- *; congruence |].
  intros x y Hx Hy. specialize (Hp2 x y Hx Hy). cbn in Hp2. unfold pixel in *. cbn in *. rewrite Hp2.
  assert (y * GetWidth fb + x < n <-> y + o < GetHeight fb) by (unfold n; nia).
  assert (0 <= y * GetWidth fb + x < n + k) by nia.
  destruct (Z.ltb_spec (y + o) (GetHeight fb)).
  - replace (n <=? y * GetWidth fb + x) with false by lia. cbn. unfold moved.
    assert (length (take (Z.to_nat n) (drop (Z.to_nat k) (GetBuffer fb))) = Z.to_nat n) as Hln
      by (rewrite length_take, length_drop; lia).
    rewrite list_lookup_inserts by lia. rewrite lookup_run by lia. f_equal. unfold k. nia.
  - by replace ((n <=? y * GetWidth fb + x) && (y * GetWidth fb + x <? n + k)) with true by lia.
Qed.

Lemma DrawPoint_run (c : Z) (p : Point2D) (fb : FrameBuffer) :
  fb_ok fb -> 0 <= pt_X p -> 0 <= pt_Y p ->
  exists fb', DrawPoint c p fb = Ret fb' /\
    paints (fun x y => (x =? pt_X p) && (y =? pt_Y p)) (fun _ _ => Some c) fb fb'.
Proof.
  intros Hfb HX HY. pose proof Hfb as (Hfw & Hfh & Hfa & Hfh' & Hfw' & Hl). unfold DrawPoint.
  destruct ((pt_X p <? 0) || (GetWidth fb <=? pt_X p) || (pt_Y p <? 0) || (GetHeight fb <=? pt_Y p)) eqn:Ho.
  - exists fb. split; [done |]. apply paints_nothing. intros x y Hx Hy.
    rewrite !orb_true_iff, !Z.ltb_lt, !Z.leb_le in Ho. not_inside.
  - zbool. pose proof (index_bound (GetWidth fb) (GetHeight fb) (pt_X p) (pt_Y p)).
    assert (0 <= pt_Y p * GetWidth fb) by nia.
    rewrite (wrap_small 64) by lia. rewrite (pixel_ptr_small (pt_Y p * GetWidth fb)) by lia.
    rewrite pixel_ptr_small by lia.
    destruct (SetPixels_paints (pt_Y p * GetWidth fb + pt_X p) 1 c fb) as (buf & Hb & Hp); [done | lia.. |].
    rewrite store_pixel_run by lia. cbn. unfold SetPixels in Hb. change (Z.to_nat 1) with 1%nat in Hb.
    cbn [SetPixels_loop] in Hb. rewrite store_pixel_run in Hb by lia. cbn in Hb. injection Hb as <-.
    eexists. split; [reflexivity |]. refine (paints_ext _ _ _ _ _ _ Hp _).
    intros x y Hx Hy. split; [| done].
    apply eq_true_iff_eq. rewrite !andb_true_iff, Z.leb_le, Z.ltb_lt, !Z.eqb_eq.
    split; [| intros [-> ->]; lia]. intros [? ?].
    destruct (index_split (GetWidth fb) x y (pt_X p) (pt_Y p)); [lia.. |]. done.
Qed.

(** ** Loops that paint *)

Lemma existsb_seqZ (f : Z -> bool) (i n : Z) :
  existsb f (seqZ i n) = true <-> exists j, i <= j < i + n /\ f j = true.
Proof.
  rewrite existsb_exists. split; intros (j & Hj & Hf); exists j; (split; [| exact Hf]).
  - by apply list_elem_of_In, elem_of_seqZ in Hj.
  - by apply list_elem_of_In, elem_of_seqZ.
Qed.

Lemma for_loop_paints (c : Z) (body : Z -> FrameBuffer -> outcome FrameBuffer)
    (P : Z -> Z -> Z -> bool) (fb : FrameBuffer) (n : nat) : forall i Q fb1,
  fb_ok fb -> paints Q (fun _ _ => Some c) fb fb1 ->
  (forall j fb2, i <= j < i + Z.of_nat n -> fb_ok fb2 ->
     GetWidth fb2 = GetWidth fb -> GetHeight fb2 = GetHeight fb ->
     exists fb3, body j fb2 = Ret fb3 /\ paints (P j) (fun _ _ => Some c) fb2 fb3) ->
  exists fb', for_loop n i body fb1 = Ret fb' /\
    paints (fun x y => Q x y || existsb (fun j => P j x y) (seqZ i (Z.of_nat n)))
      (fun _ _ => Some c) fb fb'.
Proof.
  induction n as [| n IH]; intros i Q fb1 Hfb Hp1 Hb.
  { exists fb1. split; [done |]. refine (paints_ext _ _ _ _ _ _ Hp1 _).
    intros x y _ _. cbn. by rewrite orb_false_r. }
  cbn [for_loop].
  destruct (Hb i fb1) as (fb2 & -> & Hp2);
    [lia | by apply (paints_ok _ _ _ _ Hfb Hp1) | apply Hp1 | apply Hp1 |]. cbn [mbind outcome_bind].
  destruct (IH (i + 1) _ fb2 Hfb (paints_color_trans _ _ _ _ _ _ Hp1 Hp2)) as (fb' & Hrun & Hp3).
  - intros j fb3 Hj. apply Hb. lia.
  - exists fb'. split; [exact Hrun |]. refine (paints_ext _ _ _ _ _ _ Hp3 _).
    intros x y _ _. split; [| done]. rewrite (seqZ_cons i) by lia. cbn [existsb].
    replace (Z.pred (Z.of_nat (S n))) with (Z.of_nat n) by lia.
    replace (Z.succ i) with (i + 1) by lia. by rewrite orb_assoc.
Qed.

Lemma for_loop_paints_from (c : Z) (body : Z -> FrameBuffer -> outcome FrameBuffer)
    (P : Z -> Z -> Z -> bool) (fb : FrameBuffer) (n : nat) :
  fb_ok fb ->
  (forall j fb2, 0 <= j < Z.of_nat n -> fb_ok fb2 ->
     GetWidth fb2 = GetWidth fb -> GetHeight fb2 = GetHeight fb ->
     exists fb3, body j fb2 = Ret fb3 /\ paints (P j) (fun _ _ => Some c) fb2 fb3) ->
  exists fb', for_loop n 0 body fb = Ret fb' /\
    paints (fun x y => existsb (fun j => P j x y) (seqZ 0 (Z.of_nat n)))
      (fun _ _ => Some c) fb fb'.
Proof.
  intros Hfb Hb.
  destruct (for_loop_paints c body P fb n 0 (fun _ _ => false) fb) as (fb' & Hrun & Hp);
    [done | by apply paints_nothing | intros; by apply Hb |].
  exists fb'. split; [exact Hrun |]. by refine (paints_ext _ _ _ _ _ _ Hp _).
Qed.

Lemma paints_false c fb :
  exists fb', Ret fb = Ret fb' /\ paints (fun _ _ => false) (fun _ _ => Some c) fb fb'.
Proof. exists fb. split; [done |]. by apply paints_nothing. Qed.

(** ** The cursor and characters *)

(** The dots of the cursor. *)
Definition cursor_dot (dx dy : Z) : bool :=
  (0 <=? dx) && (dx <? 16) && (0 <=? dy) && (dy <? 16) &&
  Z.testbit (nth (Z.to_nat dy) cursor8x8_basic 0) (15 - dx).

Lemma cursor_bits :
  forallb (fun x => forallb (fun line =>
    eqb (truthy (Z.land line (u16 (Z.shiftl 1 (16 - x - 1))))) (Z.testbit line (15 - x)))
    cursor8x8_basic) (seqZ 0 16) = true.
Proof. vm_compute. reflexivity. Qed.

Lemma cursor_bit (line x : Z) :
  line ∈ cursor8x8_basic -> 0 <= x < 16 ->
  truthy (Z.land line (u16 (Z.shiftl 1 (16 - x - 1)))) = Z.testbit line (15 - x).
Proof.
  intros Hl Hx. pose proof cursor_bits as H. rewrite forallb_forall in H.
  specialize (H x (proj1 (list_elem_of_In _ _) (proj2 (elem_of_seqZ _ _ _) Hx))).
  rewrite forallb_forall in H. by apply eqb_prop, H, list_elem_of_In.
Qed.

Lemma DrawCursor_run (p : Point2D) (c : Z) (fb : FrameBuffer) :
  fb_ok fb -> 0 <= pt_X p < 2 ^ 63 -> 0 <= pt_Y p < 2 ^ 63 ->
  exists fb', DrawCursor p c fb = Ret fb' /\
    paints (fun x y => cursor_dot (x - pt_X p) (y - pt_Y p)) (fun _ _ => Some c) fb fb'.
Proof.
  intros Hfb HX HY. unfold DrawCursor.
  match goal with |- context [for_loop 16 0 ?b fb] =>
    destruct (for_loop_paints_from c b (fun dy x y => existsb (fun dx =>
      Z.testbit (nth (Z.to_nat dy) cursor8x8_basic 0) (15 - dx) &&
      ((x =? pt_X p + dx) && (y =? pt_Y p + dy))) (seqZ 0 16)) fb 16 Hfb) as (fb' & Hrun & Hp)
  end.
  - intros dy fb2 Hdy Hfb2 Hw Hh.
    destruct (lookup_lt_is_Some_2 cursor8x8_basic (Z.to_nat dy)) as [line Hline]; [cbn; lia |].
    rewrite Hline. rewrite (nth_lookup_Some _ _ _ _ Hline).
    apply (for_loop_paints_from c _ (fun dx x y => Z.testbit line (15 - dx) &&
      ((x =? pt_X p + dx) && (y =? pt_Y p + dy))) fb2 16 Hfb2).
    intros dx fb3 Hdx Hfb3 _ _. cbv zeta.
    rewrite cursor_bit by (by eapply list_elem_of_lookup_2 || lia).
    destruct (Z.testbit line (15 - dx)); [| apply paints_false].
    rewrite !wrap_small by lia. cbn [andb].
    apply (DrawPoint_run c (mkPoint (pt_X p + dx) (pt_Y p + dy))); cbn; [done | lia..].
  - exists fb'. split; [exact Hrun |]. refine (paints_ext _ _ _ _ _ _ Hp _).
    intros x y _ _. split; [| done]. unfold cursor_dot. apply eq_true_iff_eq.
    rewrite existsb_seqZ, !andb_true_iff, !Z.leb_le, !Z.ltb_lt. split.
    + intros (dy & Hdy & Hd). apply existsb_seqZ in Hd as (dx & Hdx & Hd). zbool. subst.
      replace (pt_X p + dx - pt_X p) with dx by lia. replace (pt_Y p + dy - pt_Y p) with dy by lia.
      repeat split; (done || lia).
    + intros ((((? & ?) & ?) & ?) & Hbit). exists (y - pt_Y p). split; [lia |].
      apply existsb_seqZ. exists (x - pt_X p). split; [lia |]. rewrite Hbit. cbn. same_points.
Qed.

(** The dots of a character. *)
Definition glyph_dot (c dx dy : Z) : bool :=
  (0 <=? dx) && (dx <? 8) && (0 <=? dy) && (dy <? 16) &&
  match GetCharacterMap c with
  | Some map => Z.testbit (nth (Z.to_nat dy) map 0) (7 - dx)
  | None => false
  end.

(** The body of a line's loop. *)
Definition char_dot (y line : Z) (p : Point2D) (color x : Z) (fb : FrameBuffer)
    : outcome FrameBuffer :=
  if truthy (Z.land (s8 line) (Z.shiftr 0x80 x))
  then DrawRectangle color
         (mkRect (u64 (u64 (pt_X p + x) * FontScale)) (u64 (u64 (pt_Y p + y) * FontScale))
                 FontScale FontScale) fb
  else Ret fb.

(** The mask's loop is a loop over the eight dots. *)
Lemma char_line_loop (y line : Z) (p : Point2D) (color : Z) (fb : FrameBuffer) :
  char_line 9 0 0x80 y line p color fb = for_loop 8 0 (char_dot y line p color) fb.
Proof. reflexivity. Qed.

Lemma glyph_bits :
  forallb (fun x => forallb (fun line =>
    eqb (truthy (Z.land (s8 line) (Z.shiftr 0x80 x))) (Z.testbit line (7 - x)))
    (seqZ 0 256)) (seqZ 0 8) = true.
Proof. vm_compute. reflexivity. Qed.

Lemma glyph_bit (line x : Z) :
  0 <= line < 256 -> 0 <= x < 8 ->
  truthy (Z.land (s8 line) (Z.shiftr 0x80 x)) = Z.testbit line (7 - x).
Proof.
  intros Hl Hx. pose proof glyph_bits as H. rewrite forallb_forall in H.
  specialize (H x (proj1 (list_elem_of_In _ _) (proj2 (elem_of_seqZ _ _ _) Hx))).
  rewrite forallb_forall in H.
  by apply eqb_prop, H, list_elem_of_In, elem_of_seqZ.
Qed.

Lemma DrawCharacter_run (p : Point2D) (c color : Z) (fb : FrameBuffer) :
  fb_ok fb -> 0 <= pt_X p -> pt_X p + 7 <= GetWidth fb -> 0 <= pt_Y p < 2 ^ 63 ->
  exists fb', DrawCharacter p c color fb = Ret fb' /\
    paints (fun x y => glyph_dot c (x - pt_X p) (y - pt_Y p)) (fun _ _ => Some color) fb fb'.
Proof.
  intros Hfb HX HXw HY. pose proof Hfb as (Hfw & Hfh & Hfa & Hfh' & Hfw' & Hl).
  unfold DrawCharacter.
  destruct (GetCharacterMap_total c) as (map & Hmap & Hlen & Hbytes). rewrite Hmap.
  match goal with |- context [for_loop _ 0 ?b fb] =>
    destruct (for_loop_paints_from color b (fun dy x y => existsb (fun dx =>
      Z.testbit (nth (Z.to_nat dy) map 0) (7 - dx) &&
      ((x =? pt_X p + dx) && (y =? pt_Y p + dy))) (seqZ 0 8)) fb 16 Hfb) as (fb' & Hrun & Hp)
  end.
  - intros dy fb2 Hdy Hfb2 Hw Hh.
    destruct (lookup_lt_is_Some_2 map (Z.to_nat dy)) as [line Hline]; [lia |].
    rewrite Hline. rewrite (nth_lookup_Some _ _ _ _ Hline). rewrite char_line_loop.
    apply (for_loop_paints_from color _ (fun dx x y => Z.testbit line (7 - dx) &&
      ((x =? pt_X p + dx) && (y =? pt_Y p + dy))) fb2 8 Hfb2).
    intros dx fb3 Hdx Hfb3 Hw3 Hh3. unfold char_dot.
    rewrite glyph_bit by (lia || by apply Hbytes; eapply list_elem_of_lookup_2).
    destruct (Z.testbit line (7 - dx)); [| apply paints_false].
    unfold FontScale. rewrite !Z.mul_1_r, !wrap_wrap, !wrap_small by lia. cbn [andb].
    destruct (DrawRectangle_run color (mkRect (pt_X p + dx) (pt_Y p + dy) 1 1) fb3 Hfb3)
      as (fb4 & -> & Hp4); [unfold rect_ok; cbn; lia |].
    exists fb4. split; [done |]. refine (paints_ext _ _ _ _ _ _ Hp4 _).
    intros x y _ _. split; [| done]. unfold inside. cbn. same_points.
  - exists fb'. split; [exact Hrun |]. refine (paints_ext _ _ _ _ _ _ Hp _).
    intros x y _ _. split; [| done]. unfold glyph_dot. rewrite Hmap. apply eq_true_iff_eq.
    rewrite existsb_seqZ, !andb_true_iff, !Z.leb_le, !Z.ltb_lt. split.
    + intros (dy & Hdy & Hd). apply existsb_seqZ in Hd as (dx & Hdx & Hd). zbool. subst.
      replace (pt_X p + dx - pt_X p) with dx by lia. replace (pt_Y p + dy - pt_Y p) with dy by lia.
      repeat split; (done || lia).
    + intros ((((? & ?) & ?) & ?) & Hbit). exists (y - pt_Y p). split; [lia |].
      apply existsb_seqZ. exists (x - pt_X p). split; [lia |]. rewrite Hbit. cbn. same_points.
Qed.

(** ** Text *)

Definition printable (c : Z) : bool := negb ((c =? 10) || (c =? 9) || (c =? 13)).

(** The dots of a line of text. *)
Definition text_dot (text : list Z) (dx dy : Z) : bool :=
  match text !! Z.to_nat (dx / 8) with
  | Some c => (0 <=? dx) && glyph_dot c (dx mod 8) dy
  | None => false
  end.

Lemma put_char_run (pos : Point2D) (c color : Z) (fb : FrameBuffer) :
  fb_ok fb -> 0 <= pt_X pos < GetWidth fb -> pt_X pos + 7 <= GetWidth fb ->
  0 <= pt_Y pos -> pt_Y pos + 16 < GetHeight fb ->
  exists fb', put_char pos c color fb = Ret (mkPoint (pt_X pos + 8) (pt_Y pos), fb') /\
    paints (fun x y => glyph_dot c (x - pt_X pos) (y - pt_Y pos)) (fun _ _ => Some color) fb fb'.
Proof.
  intros Hfb HX HXw HY HYh. pose proof Hfb as (Hfw & Hfh & Hfa & Hfh' & Hfw' & Hl). unfold put_char.
  replace (GetWidth fb <=? pt_X pos) with false by lia.
  unfold GetFontHeight, GetFontWidth. rewrite !wrap_small by lia.
  replace (GetHeight fb <=? pt_Y pos + 16) with false by lia. cbn [mbind outcome_bind].
  destruct (DrawCharacter_run pos c color fb) as (fb' & -> & Hp); [done | lia.. |].
  cbn [mbind outcome_bind pt_X pt_Y]. rewrite wrap_small by lia. exists fb'. split; [done | exact Hp].
Qed.

Lemma text_dot_cons (c : Z) (text : list Z) (dx dy : Z) :
  text_dot (c :: text) dx dy = glyph_dot c dx dy || text_dot text (dx - 8) dy.
Proof.
  unfold text_dot. destruct (Z.leb_spec 0 dx) as [Hx |].
  - destruct (Z.ltb_spec dx 8).
    + rewrite (Z.div_small dx 8), (Z.mod_small dx 8) by lia. cbn.
      destruct (text !! Z.to_nat ((dx - 8) / 8)); [| by rewrite orb_false_r].
      replace (0 <=? dx - 8) with false by lia. cbn. by rewrite orb_false_r.
    + assert (glyph_dot c dx dy = false) as ->.
      { unfold glyph_dot. replace (dx <? 8) with false by lia. rewrite andb_false_r. done. }
      replace (dx - 8) with (dx + (-1) * 8) by lia. rewrite Z.div_add, Z.mod_add by lia.
      assert (1 <= dx / 8) by (apply Z.div_le_lower_bound; lia).
      replace (Z.to_nat (dx / 8)) with (S (Z.to_nat (dx / 8 + -1))) by lia. cbn [lookup list_lookup].
      destruct (text !! _); [| done]. replace (0 <=? dx + (-1) * 8) with true by lia. done.
  - assert (glyph_dot c dx dy = false) as ->.
    { unfold glyph_dot. replace (0 <=? dx) with false by lia. done. }
    replace (0 <=? dx - 8) with false by lia.
    cbn [andb orb]. by destruct ((c :: text) !! _); destruct (text !! _).
Qed.

Lemma DrawText_line_run (color : Z) (text : list Z) : forall (pos : Point2D) (fb : FrameBuffer),
  fb_ok fb -> forallb printable text = true ->
  0 <= pt_X pos -> pt_X pos + 8 * Z.of_nat (length text) <= GetWidth fb ->
  0 <= pt_Y pos -> pt_Y pos + 16 < GetHeight fb ->
  exists fb', DrawText pos text color fb =
      Ret (mkPoint (pt_X pos + 8 * Z.of_nat (length text)) (pt_Y pos), fb') /\
    paints (fun x y => text_dot text (x - pt_X pos) (y - pt_Y pos)) (fun _ _ => Some color) fb fb'.
Proof.
  induction text as [| c text IH]; intros pos fb Hfb Hpr HX HXw HY HYh.
  { exists fb. cbn. rewrite Z.add_0_r. split; [by destruct pos |]. apply paints_nothing. done. }
  cbn [forallb length] in *. apply andb_true_iff in Hpr as [Hc Hpr].
  cbn [DrawText]. unfold text_char. unfold printable in Hc. zbool.
  replace (c =? 10) with false by lia. replace (c =? 9) with false by lia.
  replace (c =? 13) with false by lia.
  destruct (put_char_run pos c color fb) as (fb1 & -> & Hp1); [done | lia.. |].
  cbn [mbind outcome_bind].
  destruct (IH (mkPoint (pt_X pos + 8) (pt_Y pos)) fb1) as (fb' & -> & Hp2); cbn [pt_X pt_Y].
  - by apply (paints_ok _ _ _ _ Hfb Hp1).
  - done.
  - lia.
  - rewrite (paints_width _ _ _ _ Hp1). lia.
  - lia.
  - rewrite (paints_height _ _ _ _ Hp1). lia.
  - exists fb'. split; [do 3 f_equal; lia |].
    refine (paints_ext _ _ _ _ _ _ (paints_color_trans _ _ _ _ _ _ Hp1 Hp2) _).
    intros x y _ _. split; [| done]. cbn. rewrite text_dot_cons.
    by replace (x - pt_X pos - 8) with (x - (pt_X pos + 8)) by lia.
Qed.

(** A column where a character can start: a whole number of characters from the left. *)
Definition column (x : Z) : Prop := 0 <= x /\ (8 | x).

Lemma column_fits (W x : Z) : column x -> (8 | W) -> x < W -> x + 8 <= W.
Proof. intros [? [k ->]] [w ->] ?. lia. Qed.

(** What a character of a text keeps: the frame's size, the columns, and a bound on the row. *)
Lemma text_char_safe (pos : Point2D) (c color : Z) (fb : FrameBuffer) :
  fb_ok fb -> 0 < GetWidth fb < 2 ^ 20 -> (8 | GetWidth fb) -> 32 <= GetHeight fb ->
  column (pt_X pos) -> pt_X pos < 2 ^ 62 -> 0 <= pt_Y pos < 2 ^ 62 ->
  exists pos' fb', text_char pos c color fb = Ret (pos', fb') /\ fb_ok fb' /\
    GetWidth fb' = GetWidth fb /\ GetHeight fb' = GetHeight fb /\
    column (pt_X pos') /\ pt_X pos' <= Z.max (GetWidth fb) (pt_X pos + 32) /\
    0 <= pt_Y pos' <= pt_Y pos + 16.
Proof.
  intros Hfb HW H8 HH HX HXb HY. pose proof Hfb as (Hfw & Hfh & Hfa & Hfh' & Hfw' & Hl).
  destruct HX as [HX0 HX8]. unfold text_char, GetFontHeight, GetFontWidth.
  destruct (c =? 10).
  { rewrite wrap_small by lia. do 2 eexists. split; [reflexivity |]. cbn.
    repeat split; (done || lia || by exists 0). }
  destruct (c =? 9).
  { rewrite wrap_small by lia. do 2 eexists. split; [reflexivity |]. cbn.
    repeat split; try (done || lia). apply Z.divide_add_r; [done | by exists 4]. }
  destruct (c =? 13).
  { do 2 eexists. split; [reflexivity |]. repeat split; (done || lia). }
  unfold put_char, GetFontHeight, GetFontWidth.
  set (pos1 := if GetWidth fb <=? pt_X pos then mkPoint 0 (u64 (pt_Y pos + 16)) else pos).
  assert (column (pt_X pos1) /\ pt_X pos1 < GetWidth fb /\ 0 <= pt_Y pos1 <= pt_Y pos + 16) as (Hc1 & Hw1 & Hy1).
  { unfold pos1. destruct (Z.leb_spec (GetWidth fb) (pt_X pos)); cbn.
    - rewrite wrap_small by lia. repeat split; (lia || by exists 0).
    - repeat split; (done || lia). }
  assert (pt_X pos1 + 8 <= GetWidth fb) as Hfit by by apply column_fits. destruct Hc1 as [Hc0 Hc8].
  rewrite (wrap_small 64 (pt_Y pos1 + 16)) by lia.
  set (pos2 := if GetHeight fb <=? pt_Y pos1 + 16 then mkPoint (pt_X pos1) (pt_Y pos1 - 16) else pos1).
  assert (pt_X pos2 = pt_X pos1 /\ 0 <= pt_Y pos2 <= pt_Y pos1) as [Hx2 Hy2].
  { unfold pos2. destruct (Z.leb_spec (GetHeight fb) (pt_Y pos1 + 16)); cbn; lia. }
  assert (exists fb2, (if GetHeight fb <=? pt_Y pos1 + 16
      then Scroll 16 fb ≫= (fun fb => Ret (mkPoint (pt_X pos1) (u64 (pt_Y pos1 - 16)), fb))
      else Ret (pos1, fb)) = Ret (pos2, fb2) /\ fb_ok fb2 /\
      GetWidth fb2 = GetWidth fb /\ GetHeight fb2 = GetHeight fb) as (fb2 & -> & Hok2 & Hw2 & Hh2).
  { unfold pos2. destruct (Z.leb_spec (GetHeight fb) (pt_Y pos1 + 16)); [| by exists fb].
    destruct (Scroll_run 16 fb) as (fb2 & -> & Hp); [done | lia.. |]. cbn.
    rewrite wrap_small by lia. exists fb2.
    split_and!; [done | by apply (paints_ok _ _ _ _ Hfb Hp) | apply Hp | apply Hp]. }
  cbn [mbind outcome_bind].
  destruct (DrawCharacter_run pos2 c color fb2) as (fb3 & -> & Hp3); [done | lia.. |].
  cbn [mbind outcome_bind]. rewrite wrap_small by lia. do 2 eexists. split; [reflexivity |]. cbn.
  rewrite (paints_width _ _ _ _ Hp3), (paints_height _ _ _ _ Hp3).
  split_and!; [by apply (paints_ok _ _ _ _ Hok2 Hp3) | done | done | | lia | lia | lia].
  split; [lia |]. rewrite Hx2. apply Z.divide_add_r; [done | by exists 1].
Qed.

(** ** Theorems *)

(** C29: drawing is clipped to the frame: for a rectangle that starts in the frame's columns,
    however far it reaches, as long as the source has all its pixels and is smaller than 2^61 of them, [DrawRectangle], [WriteFrame] and [WriteFrameGrayscale] return, set
    exactly the pixels of the rectangle that lie in the frame (to the colour, to the source's
    pixel, to its gray value) and leave all others as they were. *)
Theorem drawing_is_clipped (color : Z) (r : Rectangle) (frame : list Z) (fb : FrameBuffer) :
  fb_ok fb -> rect_ok fb r -> source_ok r frame ->
  let source := fun x y => frame !! Z.to_nat ((y - Y r) * Width r + (x - X r)) in
  (exists fb', DrawRectangle color r fb = Ret fb' /\
     paints (inside r) (fun _ _ => Some color) fb fb') /\
  (exists fb', WriteFrame r frame fb = Ret fb' /\ paints (inside r) source fb fb') /\
  (exists fb', WriteFrameGrayscale r frame fb = Ret fb' /\
     paints (inside r) (fun x y => grayscale <$> source x y) fb fb').
Proof.
  intros Hfb Hr Hs source. split_and!.
  - by apply DrawRectangle_run.
  - by apply WriteFrame_run.
  - by apply WriteFrameGrayscale_run.
Qed.

(** Fact: a line of printable text that fits between a position and the right edge, above the
    last sixteen rows, is drawn as the dots of its characters' glyphs, eight columns to each,
    nothing else is painted, and the position moves behind it. *)
Theorem DrawText_draws (pos : Point2D) (text : list Z) (color : Z) (fb : FrameBuffer) :
  fb_ok fb -> forallb printable text = true ->
  0 <= pt_X pos -> pt_X pos + 8 * Z.of_nat (length text) <= GetWidth fb ->
  0 <= pt_Y pos -> pt_Y pos + 16 < GetHeight fb ->
  exists fb', DrawText pos text color fb =
      Ret (mkPoint (pt_X pos + 8 * Z.of_nat (length text)) (pt_Y pos), fb') /\
    paints (fun x y => text_dot text (x - pt_X pos) (y - pt_Y pos)) (fun _ _ => Some color) fb fb'.
Proof. intros. by apply DrawText_line_run. Qed.

(** Fact: whatever the text (new lines, tabs, wrapping and scrolling included), drawing it never
    leaves the frame's memory: on a frame whose width is a whole number of characters, from a
    position at such a column, [DrawText] returns, and the frame keeps its size. *)
Theorem DrawText_stays_inside (text : list Z) (color : Z) : forall (pos : Point2D) (fb : FrameBuffer),
  fb_ok fb -> 0 < GetWidth fb < 2 ^ 20 -> (8 | GetWidth fb) -> 32 <= GetHeight fb ->
  column (pt_X pos) -> pt_X pos + 32 * Z.of_nat (length text) < 2 ^ 61 ->
  0 <= pt_Y pos -> pt_Y pos + 16 * Z.of_nat (length text) < 2 ^ 62 ->
  exists pos' fb', DrawText pos text color fb = Ret (pos', fb') /\ fb_ok fb' /\
    GetWidth fb' = GetWidth fb /\ GetHeight fb' = GetHeight fb /\ column (pt_X pos').
Proof.
  assert (forall text pos fb, fb_ok fb -> 0 < GetWidth fb < 2 ^ 20 -> (8 | GetWidth fb) ->
    32 <= GetHeight fb -> column (pt_X pos) ->
    pt_X pos + 32 * Z.of_nat (length text) < 2 ^ 62 ->
    GetWidth fb + 32 * Z.of_nat (length text) < 2 ^ 62 ->
    0 <= pt_Y pos -> pt_Y pos + 16 * Z.of_nat (length text) < 2 ^ 62 ->
    exists pos' fb', DrawText pos text color fb = Ret (pos', fb') /\ fb_ok fb' /\
      GetWidth fb' = GetWidth fb /\ GetHeight fb' = GetHeight fb /\ column (pt_X pos')) as Hgen.
  { clear text. induction text as [| c text IH]; intros pos fb Hfb HW H8 HH HX HXb HWb HY HYb.
    { by exists pos, fb. }
    cbn [DrawText length] in *.
    destruct (text_char_safe pos c color fb) as (pos1 & fb1 & -> & Hok & Hw & Hh & Hx & Hxb & Hy);
      [done.. | lia | lia |]. cbn [mbind outcome_bind].
    destruct (IH pos1 fb1) as (pos' & fb' & -> & Hr); rewrite ?Hw, ?Hh; [done.. | lia | lia | lia | lia |].
    exists pos', fb'. split; [done |]. by rewrite <- Hw, <- Hh. }
  intros pos fb Hfb HW H8 HH HX HXb HY HYb. destruct HX as [HX0 HX8].
  apply Hgen; [done.. | lia | lia | lia | lia].
Qed.

(** Fact: a rectangle that starts right of the frame is not clipped: [GetWidth() - region.X]
    wraps, the whole width is written, and the pixels land in the next row. *)
Theorem DrawRectangle_spills :
  let fb := mkFB 10 4 (replicate 40 0) in
  exists fb', DrawRectangle 7 (mkRect 12 1 3 1) fb = Ret fb' /\
    pixel fb' 2 2 = Some 7 /\ pixel fb' 4 2 = Some 7 /\ DrawRectangle 7 (mkRect 12 3 3 1) fb = Fault.
Proof. eexists. split; [vm_compute; reflexivity |]. repeat split; vm_compute; reflexivity. Qed.

(** Fact: at the offset of a new line (five pixels) [RemoveChar] leaves the screen: the column
    wraps to a number near 2^64. *)
Theorem RemoveChar_wraps (s s' : LoadingScreen) :
  xPos s = 5 -> RemoveChar s = Ret s' -> xPos s' = 2 ^ 64 - 3.
Proof.
  intros Hx. unfold RemoveChar. rewrite Hx. intros H.
  apply bind_Ret in H as (fb & _ & [= <-]). reflexivity.
Qed.

(** ** Witnesses *)

Definition small_frame : FrameBuffer := mkFB 24 40 (replicate 960 0).

Lemma small_frame_ok : fb_ok small_frame.
Proof.
  unfold fb_ok. cbn [GetWidth GetHeight GetBuffer small_frame]. rewrite length_replicate. lia.
Qed.

Lemma drawing_is_clipped_witness :
  exists fb', WriteFrame (mkRect 23 38 2 3) [1; 2; 3; 4; 5; 6] small_frame = Ret fb' /\
    pixel fb' 23 39 = Some 3 /\ pixel fb' 22 39 = Some 0.
Proof.
  destruct (drawing_is_clipped 7 (mkRect 23 38 2 3) [1; 2; 3; 4; 5; 6] small_frame small_frame_ok)
    as (_ & (fb' & Hrun & Hp) & _).
  - unfold rect_ok. cbn. lia.
  - unfold source_ok. cbn. lia.
  - exists fb'. split; [exact Hrun |].
    rewrite !(paints_pixel _ _ _ _ Hp) by (cbn; lia). split; vm_compute; reflexivity.
Defined.

(** [Hi]. *)
Lemma DrawText_draws_witness :
  exists fb', DrawText (mkPoint 3 2) [72; 105] White small_frame = Ret (mkPoint 19 2, fb') /\
    pixel fb' 3 4 = Some White /\ pixel fb' 3 2 = Some 0.
Proof.
  destruct (DrawText_draws (mkPoint 3 2) [72; 105] White small_frame small_frame_ok)
    as (fb' & Hrun & Hp); [reflexivity | cbn; lia.. |].
  exists fb'. split; [exact Hrun |].
  rewrite !(paints_pixel _ _ _ _ Hp) by (cbn; lia). split; vm_compute; reflexivity.
Defined.

(** A text that wraps and scrolls. *)
Lemma DrawText_stays_inside_witness :
  exists pos' fb', DrawText (mkPoint 8 16) [9; 72; 10; 10; 105; 33; 33; 33] White small_frame
    = Ret (pos', fb') /\ fb_ok fb'.
Proof.
  destruct (DrawText_stays_inside [9; 72; 10; 10; 105; 33; 33; 33] White (mkPoint 8 16) small_frame
    small_frame_ok) as (pos' & fb' & Hrun & Hok & _).
  - cbn. lia.
  - by exists 3.
  - cbn. lia.
  - split; [cbn; lia | by exists 1].
  - cbn. lia.
  - cbn. lia.
  - cbn. lia.
  - exists pos', fb'. split; [exact Hrun | exact Hok].
Defined.
