(* ===== verification/Svga.v ===== *)
(** The command FIFO of the VMware SVGA-II driver
    (src/src/kernel/drivers/video/vmware_svga2.cpp and .h): a ring of 32-bit words in device
    memory that the driver fills and the device empties.

    The FIFO is a list of words (the header: "It is always treated as 32-bit words"); its
    first [SVGA_FIFO_NUM_REGS] words are registers, the others hold commands.  [Initialize]
    panics unless there are 0x5000 bytes, so the registers are always there.  The register
    [SVGA_FIFO_STOP] belongs to the device: the values [FIFOReserve] reads from it, one per
    turn of its loop, are an argument ([stops]); when they run out the loop is still
    spinning ([Diverged]).  [Panic] halts for ever and is a [Bugcheck].  Port writes, the
    version negotiation and [SetResolution] are at the end; the [#if 0] blocks are not
    modelled. *)
From S2P Require Import Prelude Graphics.

(** ** Registers *)

Definition SVGA_REG_ID : Z := 0.
Definition SVGA_REG_ENABLE : Z := 1.
Definition SVGA_REG_WIDTH : Z := 2.
Definition SVGA_REG_HEIGHT : Z := 3.
Definition SVGA_REG_BITS_PER_PIXEL : Z := 7.
Definition SVGA_REG_BYTES_PER_LINE : Z := 12.
Definition SVGA_REG_CONFIG_DONE : Z := 20.
Definition SVGA_CMD_UPDATE : Z := 1.
Definition SVGA_CMD_DEFINE_CURSOR : Z := 19.
Definition SVGA_CMD_ESCAPE : Z := 33.

Definition SVGA_FIFO_MIN : Z := 0.
Definition SVGA_FIFO_MAX : Z := 1.
Definition SVGA_FIFO_NEXT_CMD : Z := 2.
Definition SVGA_FIFO_STOP : Z := 3.
Definition SVGA_FIFO_CAPABILITIES : Z := 4.
Definition SVGA_FIFO_CURSOR_ON : Z := 9.
Definition SVGA_FIFO_CURSOR_X : Z := 10.
Definition SVGA_FIFO_CURSOR_Y : Z := 11.
Definition SVGA_FIFO_CURSOR_COUNT : Z := 12.
Definition SVGA_FIFO_RESERVED : Z := 14.
Definition SVGA_FIFO_CURSOR_SCREEN_ID : Z := 15.
Definition SVGA_FIFO_NUM_REGS : Z := 291.

Definition SVGA_FIFO_CAP_CURSOR_BYPASS_3 : Z := 2 ^ 4.
Definition SVGA_FIFO_CAP_RESERVE : Z := 2 ^ 6.
Definition SVGA_FIFO_CAP_SCREEN_OBJECT : Z := 2 ^ 7.

(** [sizeof(fifo.bounceBuffer)]. *)
Definition bounce_size : Z := 1024 * 1024.

(** ** State *)

Record svga := mkSvga {
  fifoMem : list Z;
  reservedSize : Z;
  usingBounceBuffer : bool;
  bounceBuffer : list Z }.

(** A pointer [FIFOReserve] returns: a byte offset into the FIFO, or the bounce buffer. *)
Inductive fifo_ptr := InFifo (offset : Z) | InBounce.

Definition fifo_reg (i : Z) (s : svga) : Z := nth (Z.to_nat i) (fifoMem s) 0.

Definition with_mem (s : svga) (mem : list Z) : svga :=
  mkSvga mem (reservedSize s) (usingBounceBuffer s) (bounceBuffer s).

Definition set_fifo_reg (i v : Z) (s : svga) : svga :=
  with_mem s (<[Z.to_nat i := v]> (fifoMem s)).

(** [HasFIFOCap] and [IsFIFORegValid]. *)
Definition HasFIFOCap (cap : Z) (s : svga) : bool :=
  truthy (Z.land (fifo_reg SVGA_FIFO_CAPABILITIES s) cap).

Definition IsFIFORegValid (reg : Z) (s : svga) : bool :=
  u32 (Z.shiftl reg 2) <? fifo_reg SVGA_FIFO_MIN s.

(** Words written at a byte offset: outside the array it is a [Fault]. *)
Definition put_words (offset : Z) (ws : list Z) (mem : list Z) : outcome (list Z) :=
  if (0 <=? offset) && (offset mod 4 =? 0) &&
     (offset / 4 + Z.of_nat (length ws) <=? Z.of_nat (length mem))
  then Ret (list_inserts (Z.to_nat (offset / 4)) ws mem) else Fault.

(** ** Reserving *)

(** What a turn of [FIFOReserve] decides: [reserveInPlace], [needBounce], or neither (after
    [FIFOFull], which does nothing). *)
Inductive decision := ReserveInPlace | NeedBounce | Full.

Definition find_room (min max nextCmd stop bytes : Z) : decision :=
  if stop <=? nextCmd then
    if (u32 (nextCmd + bytes) <? max) || ((u32 (nextCmd + bytes) =? max) && (min <? stop))
    then ReserveInPlace
    else if u32 (u32 (max - nextCmd) + u32 (stop - min)) <=? bytes then Full
    else NeedBounce
  else if u32 (nextCmd + bytes) <? stop then ReserveInPlace
  else Full.

(** The loop [while (1)]; [stops] are the values read from [SVGA_FIFO_STOP]. *)
Fixpoint reserve_loop (stops : list Z) (min max nextCmd bytes : Z) (reserveable : bool) (s : svga)
    : outcome (fifo_ptr * svga) :=
  match stops with
  | [] => Diverged
  | stop :: stops =>
    let bounce := Ret (InBounce, mkSvga (fifoMem s) (reservedSize s) true (bounceBuffer s)) in
    match find_room min max nextCmd stop bytes with
    | ReserveInPlace =>
      if reserveable || (bytes <=? 4) then
        let s := mkSvga (fifoMem s) (reservedSize s) false (bounceBuffer s) in
        let s := if reserveable then set_fifo_reg SVGA_FIFO_RESERVED bytes s else s in
        Ret (InFifo nextCmd, s)
      else bounce
    | NeedBounce => bounce
    | Full => reserve_loop stops min max nextCmd bytes reserveable s
    end
  end.

(** [FIFOReserve]. *)
Definition FIFOReserve (stops : list Z) (bytes : Z) (s : svga) : outcome (fifo_ptr * svga) :=
  let max := fifo_reg SVGA_FIFO_MAX s in
  let min := fifo_reg SVGA_FIFO_MIN s in
  let nextCmd := fifo_reg SVGA_FIFO_NEXT_CMD s in
  let reserveable := HasFIFOCap SVGA_FIFO_CAP_RESERVE s in
  if (bounce_size <? bytes) || (u32 (max - min) <? bytes) then Bugcheck
  else if truthy (bytes mod 4) then Bugcheck
  else if negb (reservedSize s =? 0) then Bugcheck
  else
    reserve_loop stops min max nextCmd bytes reserveable
      (mkSvga (fifoMem s) bytes (usingBounceBuffer s) (bounceBuffer s)).

(** Words stored through a reserved pointer, [offset] bytes behind it. *)
Definition store_words (p : fifo_ptr) (offset : Z) (ws : list Z) (s : svga) : outcome svga :=
  match p with
  | InFifo base => mem ← put_words (base + offset) ws (fifoMem s); Ret (with_mem s mem)
  | InBounce =>
    b ← put_words offset ws (bounceBuffer s);
    Ret (mkSvga (fifoMem s) (reservedSize s) (usingBounceBuffer s) b)
  end.

(** ** Committing *)

(** The slow path: one word at a time, [SVGA_FIFO_NEXT_CMD] updated after each. *)
Fixpoint commit_words (ws : list Z) (min max nextCmd : Z) (s : svga) : outcome svga :=
  match ws with
  | [] => Ret s
  | w :: ws =>
    mem ← put_words (nextCmd / 4 * 4) [w] (fifoMem s);
    let nextCmd := u32 (nextCmd + 4) in
    let nextCmd := if nextCmd =? max then min else nextCmd in
    commit_words ws min max nextCmd (set_fifo_reg SVGA_FIFO_NEXT_CMD nextCmd (with_mem s mem))
  end.

(** [FIFOCommit]; [bytes] is a whole number of words, as [FIFOCommitAll] passes it. *)
Definition FIFOCommit (bytes : Z) (s : svga) : outcome svga :=
  let nextCmd := fifo_reg SVGA_FIFO_NEXT_CMD s in
  let max := fifo_reg SVGA_FIFO_MAX s in
  let min := fifo_reg SVGA_FIFO_MIN s in
  let reserveable := HasFIFOCap SVGA_FIFO_CAP_RESERVE s in
  if reservedSize s =? 0 then Bugcheck
  else
    let s := mkSvga (fifoMem s) 0 (usingBounceBuffer s) (bounceBuffer s) in
    let words := take (Z.to_nat (bytes / 4)) (bounceBuffer s) in
    s ← (if usingBounceBuffer s then
           if reserveable then
             let chunkSize := Z.min bytes (u32 (max - nextCmd)) in
             let s := set_fifo_reg SVGA_FIFO_RESERVED bytes s in
             mem ← put_words nextCmd (take (Z.to_nat (chunkSize / 4)) words) (fifoMem s);
             mem ← put_words min (drop (Z.to_nat (chunkSize / 4)) words) mem;
             Ret (with_mem s mem)
           else commit_words words min max nextCmd s
         else Ret s);
    let s := if negb (usingBounceBuffer s) || reserveable then
               let nextCmd := u32 (nextCmd + bytes) in
               let nextCmd := if max <=? nextCmd then u32 (nextCmd - u32 (max - min)) else nextCmd in
               set_fifo_reg SVGA_FIFO_NEXT_CMD nextCmd s
             else s in
    Ret (if reserveable then set_fifo_reg SVGA_FIFO_RESERVED 0 s else s).

(** [FIFOCommitAll]. *)
Definition FIFOCommitAll (s : svga) : outcome svga := FIFOCommit (reservedSize s) s.

(** ** Commands *)

(** [FIFOReserveCmd]: the pointer returned is one word behind the reserved one. *)
Definition FIFOReserveCmd (stops : list Z) (type bytes : Z) (s : svga)
    : outcome (fifo_ptr * svga) :=
  '(p, s) ← FIFOReserve stops (u32 (bytes + 4)) s;
  s ← store_words p 0 [type] s;
  Ret (p, s).

(** [FIFOReserveEscape]: a header of three words. *)
Definition FIFOReserveEscape (stops : list Z) (nsid bytes : Z) (s : svga)
    : outcome (fifo_ptr * svga) :=
  let paddedBytes := Z.land (u32 (bytes + 3)) (u32 (Z.lnot 3)) in
  '(p, s) ← FIFOReserve stops (u32 (paddedBytes + 12)) s;
  s ← store_words p 0 [SVGA_CMD_ESCAPE; nsid; bytes] s;
  Ret (p, s).

(** [UpdateRect]. *)
Definition UpdateRect (stops : list Z) (r : Rectangle) (s : svga) : outcome svga :=
  '(p, s) ← FIFOReserveCmd stops SVGA_CMD_UPDATE 16 s;
  s ← store_words p 4 [u32 (X r); u32 (Y r); u32 (Width r); u32 (Height r)] s;
  FIFOCommitAll s.

(** The bytes of a scanline of [w] one-bit pixels, padded to words. *)
Definition pitch (w : Z) : Z := u32 (Z.shiftl (Z.shiftr (u32 (1 * w + 31)) 5) 2).

(** [DefineCursor]: [bitmap] is the AND mask, as words. *)
Definition DefineCursor (stops : list Z) (bitmap : list Z) (w h : Z) (s : svga) : outcome svga :=
  let andSize := u32 (pitch w * h) in
  let xorSize := u32 (pitch w * h) in
  '(p, s) ← FIFOReserveCmd stops SVGA_CMD_DEFINE_CURSOR (u32 (28 + andSize + xorSize)) s;
  s ← store_words p 4 [0; 1; 1; w; h; 1; 1] s;
  s ← store_words p 32 (take (Z.to_nat (andSize / 4)) bitmap) s;
  FIFOCommitAll s.

(** [MoveCursor]. *)
Definition MoveCursor (visible x y screenId : Z) (s : svga) : svga :=
  let s := if HasFIFOCap SVGA_FIFO_CAP_SCREEN_OBJECT s
           then set_fifo_reg SVGA_FIFO_CURSOR_SCREEN_ID screenId s else s in
  if HasFIFOCap SVGA_FIFO_CAP_CURSOR_BYPASS_3 s then
    let s := set_fifo_reg SVGA_FIFO_CURSOR_ON visible s in
    let s := set_fifo_reg SVGA_FIFO_CURSOR_X x s in
    let s := set_fifo_reg SVGA_FIFO_CURSOR_Y y s in
    set_fifo_reg SVGA_FIFO_CURSOR_COUNT (u32 (fifo_reg SVGA_FIFO_CURSOR_COUNT s + 1)) s
  else s.

(** The FIFO's part of [Activate]: an empty ring behind the registers. *)
Definition Activate_fifo (m_FifoSize : Z) (s : svga) : svga :=
  let s := set_fifo_reg SVGA_FIFO_MIN (SVGA_FIFO_NUM_REGS * 4) s in
  let s := set_fifo_reg SVGA_FIFO_MAX (u32 m_FifoSize) s in
  let s := set_fifo_reg SVGA_FIFO_NEXT_CMD (fifo_reg SVGA_FIFO_MIN s) s in
  set_fifo_reg SVGA_FIFO_STOP (fifo_reg SVGA_FIFO_MIN s) s.

(** ** Ports and version negotiation *)

Definition SVGA_MAGIC : Z := 0x900000.
Definition SVGA_MAKE_ID (ver : Z) : Z := Z.lor (Z.shiftl SVGA_MAGIC 8) ver.
Definition SVGA_ID_2 : Z := SVGA_MAKE_ID 2.
Definition SVGA_ID_0 : Z := SVGA_MAKE_ID 0.

(** [WriteReg]: the index goes to the first port, the value to the second. *)
Definition WriteReg (m_IObaseAddr reg val : Z) : list (Z * Z) :=
  [(m_IObaseAddr + 0, reg); (m_IObaseAddr + 1, val)].

(** The negotiation of [Initialize]: the highest identifier the device reads back;
    [reads v] is what the identifier register gives after [v] was written.  Three turns are
    enough: identifiers go down from [SVGA_ID_2] to [SVGA_ID_0]. *)
Fixpoint negotiate (fuel : nat) (deviceVersionId : Z) (reads : Z -> Z) : outcome Z :=
  match fuel with
  | O => Diverged
  | S fuel =>
    if reads deviceVersionId =? deviceVersionId then Ret deviceVersionId
    else
      let deviceVersionId := u32 (deviceVersionId - 1) in
      if SVGA_ID_0 <=? deviceVersionId then negotiate fuel deviceVersionId reads
      else Ret deviceVersionId
  end.

(** [SetResolution]: the register writes, in order; the new frame buffer over the device's
    memory has the requested size. *)
Definition SetResolution_writes (m_IObaseAddr w h : Z) : list (Z * Z) :=
  WriteReg m_IObaseAddr SVGA_REG_WIDTH w ++ WriteReg m_IObaseAddr SVGA_REG_HEIGHT h ++
  WriteReg m_IObaseAddr SVGA_REG_BITS_PER_PIXEL 32 ++ WriteReg m_IObaseAddr SVGA_REG_ENABLE 1.

(** ** The ring as a queue

    [lo] is the first word of the ring, [size] the number of its words.  A place in the ring
    is a word's index, counted on from [n] with wrap-around. *)

Section Ring.
#[local] Set Default Proof Using "All".
Context (lo size : Z) (Hlo : SVGA_FIFO_NUM_REGS <= lo) (Hsize : 0 < size).

Definition place (n k : Z) : Z := lo + (n - lo + k) mod size.

Definition in_ring (n : Z) : Prop := lo <= n < lo + size.

Lemma place_in_ring n k : in_ring (place n k).
Proof. unfold in_ring, place. pose proof (Z.mod_pos_bound (n - lo + k) size). lia. Qed.

Lemma place_0 n : in_ring n -> place n 0 = n.
Proof. unfold in_ring, place. intros. rewrite Z.mod_small by lia. lia. Qed.

Lemma place_place n j k : place (place n j) k = place n (j + k).
Proof.
  unfold place. replace (lo + (n - lo + j) mod size - lo + k) with ((n - lo + j) mod size + k) by lia.
  rewrite Zplus_mod_idemp_l. do 2 f_equal. lia.
Qed.

Lemma place_lap n k : place n (k + size) = place n k.
Proof.
  unfold place. replace (n - lo + (k + size)) with (n - lo + k + 1 * size) by lia.
  by rewrite Z.mod_add by lia.
Qed.

Lemma place_small n k : in_ring n -> 0 <= k -> n + k < lo + size -> place n k = n + k.
Proof. unfold in_ring, place. intros. rewrite Z.mod_small by lia. lia. Qed.

Lemma place_wrap n k :
  in_ring n -> 0 <= k <= size -> lo + size <= n + k -> place n k = n + k - size.
Proof.
  unfold in_ring, place. intros.
  replace (n - lo + k) with (n - lo + k - size + 1 * size) by lia.
  rewrite Z.mod_add by lia. rewrite Z.mod_small by lia. lia.
Qed.

(** No words are written. *)
Ltac no_words k :=
  cbn [length]; change (Z.of_nat 0) with 0; replace (k <? 0) with false by lia.

(** Words [ws] written into the ring from [n] on: the other words of the ring and all
    registers but [SVGA_FIFO_NEXT_CMD] and [SVGA_FIFO_RESERVED] are as before. *)
Record wrote (n : Z) (ws : list Z) (s s' : svga) : Prop := {
  wrote_length : length (fifoMem s') = length (fifoMem s);
  wrote_ring k : 0 <= k < size -> fifoMem s' !! Z.to_nat (place n k) =
    if k <? Z.of_nat (length ws) then ws !! Z.to_nat k else fifoMem s !! Z.to_nat (place n k);
  wrote_regs j : 0 <= j < SVGA_FIFO_NUM_REGS -> j <> SVGA_FIFO_NEXT_CMD -> j <> SVGA_FIFO_RESERVED ->
    fifo_reg j s' = fifo_reg j s }.

Lemma wrote_nothing n s s' : fifoMem s' = fifoMem s -> wrote n [] s s'.
Proof.
  intros He. unfold fifo_reg. split.
  - by rewrite He.
  - intros k Hk. no_words k. by rewrite He.
  - intros. unfold fifo_reg. by rewrite He.
Qed.

Lemma wrote_trans n ws1 ws2 s s1 s2 :
  Z.of_nat (length ws1) + Z.of_nat (length ws2) <= size ->
  wrote n ws1 s s1 -> wrote (place n (Z.of_nat (length ws1))) ws2 s1 s2 ->
  wrote n (ws1 ++ ws2) s s2.
Proof.
  intros Hlen [Hl1 Hr1 Hg1] [Hl2 Hr2 Hg2]. split; [congruence | | intros j Hj Hn Hr; rewrite Hg2, Hg1 by assumption; reflexivity].
  intros k Hk. rewrite length_app, Nat2Z.inj_add.
  set (j := Z.of_nat (length ws1)) in *.
  destruct (Z.ltb_spec k j).
  - assert (place n k = place (place n j) (k - j + size)) as He
      by (rewrite place_place, <- (place_lap n k); f_equal; lia).
    replace (k <? j + Z.of_nat (length ws2)) with true by lia.
    rewrite He, Hr2 by lia. replace (k - j + size <? Z.of_nat (length ws2)) with false by lia.
    rewrite <- He, Hr1 by lia. replace (k <? j) with true by lia.
    rewrite lookup_app_l by lia. done.
  - assert (place n k = place (place n j) (k - j)) as He by (rewrite place_place; f_equal; lia).
    rewrite He, Hr2 by lia.
    replace (k - j <? Z.of_nat (length ws2)) with (k <? j + Z.of_nat (length ws2)) by lia.
    destruct (Z.ltb_spec k (j + Z.of_nat (length ws2))).
    + rewrite lookup_app_r by lia. f_equal. lia.
    + rewrite <- He, Hr1 by lia. by replace (k <? j) with false by lia.
Qed.

Lemma wrote_trans_l n ws s s1 s2 : wrote n [] s s1 -> wrote n ws s1 s2 -> wrote n ws s s2.
Proof.
  intros [Hl1 Hr1 Hg1] [Hl2 Hr2 Hg2]. split; [congruence | | intros j Hj Hn Hr; rewrite Hg2, Hg1 by assumption; reflexivity].
  intros k Hk. rewrite Hr2, Hr1 by done. by no_words k.
Qed.

Lemma wrote_trans_r n ws s s1 s2 : wrote n ws s s1 -> wrote n [] s1 s2 -> wrote n ws s s2.
Proof.
  intros [Hl1 Hr1 Hg1] [Hl2 Hr2 Hg2]. split; [congruence | | intros j Hj Hn Hr; rewrite Hg2, Hg1 by assumption; reflexivity].
  intros k Hk. rewrite Hr2, Hr1 by done. by no_words k.
Qed.

(** The bounce buffer and the flags are not in the ring. *)
Lemma wrote_mem n ws s s1 s2 : fifoMem s2 = fifoMem s1 -> wrote n ws s s1 -> wrote n ws s s2.
Proof. intros He [Hl Hr Hg]. split; unfold fifo_reg in *; rewrite He; done. Qed.

(** Setting a register. *)
Lemma fifo_reg_set i j v s :
  0 <= i < Z.of_nat (length (fifoMem s)) -> 0 <= j ->
  fifo_reg j (set_fifo_reg i v s) = if decide (i = j) then v else fifo_reg j s.
Proof.
  intros Hi Hj. unfold fifo_reg, set_fifo_reg. cbn. rewrite !nth_lookup.
  case_decide as Hd.
  - subst. by rewrite list_lookup_insert_eq by lia.
  - by rewrite list_lookup_insert_ne by lia.
Qed.

Lemma wrote_reg n i v s :
  i = SVGA_FIFO_NEXT_CMD \/ i = SVGA_FIFO_RESERVED ->
  lo <= Z.of_nat (length (fifoMem s)) -> wrote n [] s (set_fifo_reg i v s).
Proof.
  unfold SVGA_FIFO_NUM_REGS, SVGA_FIFO_NEXT_CMD, SVGA_FIFO_RESERVED in *.
  intros Hi Hm. split.
  - cbn. by rewrite length_insert.
  - intros k Hk. no_words k.
    pose proof (place_in_ring n k). unfold in_ring in *.
    unfold set_fifo_reg, with_mem. cbn [fifoMem]. by rewrite list_lookup_insert_ne by lia.
  - intros j Hj Hn Hr. unfold SVGA_FIFO_NUM_REGS, SVGA_FIFO_NEXT_CMD, SVGA_FIFO_RESERVED in *.
    rewrite fifo_reg_set by lia. by case_decide; [lia |].
Qed.

(** Words written without wrapping. *)
Lemma put_words_run o ws mem :
  0 <= o -> o + Z.of_nat (length ws) <= Z.of_nat (length mem) ->
  put_words (4 * o) ws mem = Ret (list_inserts (Z.to_nat o) ws mem).
Proof.
  intros. unfold put_words. replace (4 * o) with (o * 4) by lia.
  rewrite Z.div_mul, Z.mod_mul by lia.
  by replace ((0 <=? o * 4) && (0 =? 0) && (o + Z.of_nat (length ws) <=? Z.of_nat (length mem)))
    with true by lia.
Qed.

Lemma wrote_words n ws s :
  in_ring n -> n + Z.of_nat (length ws) <= lo + size ->
  lo + size <= Z.of_nat (length (fifoMem s)) ->
  wrote n ws s (with_mem s (list_inserts (Z.to_nat n) ws (fifoMem s))).
Proof.
  unfold SVGA_FIFO_NUM_REGS in *. intros Hn Hw Hm. pose proof Hn as Hn'. unfold in_ring in Hn'. split.
  - cbn. by rewrite length_inserts.
  - intros k Hk. cbn. destruct (Z.ltb_spec k (Z.of_nat (length ws))).
    + rewrite place_small by (done || lia). rewrite list_lookup_inserts by lia. f_equal. lia.
    + destruct (Z.ltb_spec (n + k) (lo + size)).
      * rewrite place_small by (done || lia). by rewrite list_lookup_inserts_ge by lia.
      * rewrite place_wrap by (done || lia). by rewrite list_lookup_inserts_lt by lia.
  - intros j Hj _ _. unfold fifo_reg, SVGA_FIFO_NUM_REGS in *. cbn. rewrite !nth_lookup.
    by rewrite list_lookup_inserts_lt by lia.
Qed.

(** The words queued between the device's place and the driver's. *)
Definition queued (s : svga) (stop next : Z) (q : list Z) : Prop :=
  in_ring stop /\ next = place stop (Z.of_nat (length q)) /\ Z.of_nat (length q) < size /\
  forall k, 0 <= k < Z.of_nat (length q) -> fifoMem s !! Z.to_nat (place stop k) = q !! Z.to_nat k.

(** Words written from the driver's place on join the queue. *)
Lemma queued_wrote s s' stop next q ws :
  queued s stop next q -> wrote next ws s s' ->
  Z.of_nat (length q) + Z.of_nat (length ws) < size ->
  queued s' stop (place next (Z.of_nat (length ws))) (q ++ ws).
Proof.
  intros (Hs & -> & Hq & Hk) [_ Hr _] Hl. unfold queued. rewrite length_app, Nat2Z.inj_add.
  split_and!; [done | by rewrite place_place | lia |]. intros k Hk'.
  set (n := Z.of_nat (length q)) in *.
  destruct (Z.ltb_spec k n).
  - rewrite lookup_app_l by lia. rewrite <- Hk by lia.
    assert (place stop k = place (place stop n) (k - n + size)) as He
      by (rewrite place_place, <- (place_lap stop k); f_equal; lia).
    rewrite He, Hr by lia. by replace (k - n + size <? Z.of_nat (length ws)) with false by lia.
  - rewrite lookup_app_r by lia.
    assert (place stop k = place (place stop n) (k - n)) as He by (rewrite place_place; f_equal; lia).
    rewrite He, Hr by lia. replace (k - n <? Z.of_nat (length ws)) with true by lia. f_equal. lia.
Qed.

(** The device consumes words from the front. *)
Lemma queued_consume s stop next q1 q2 :
  queued s stop next (q1 ++ q2) -> queued s (place stop (Z.of_nat (length q1))) next q2.
Proof.
  intros (Hs & -> & Hq & Hk). rewrite length_app, Nat2Z.inj_add in *. unfold queued.
  split_and!; [apply place_in_ring | by rewrite place_place | lia |].
  intros k Hk'. rewrite place_place. rewrite Hk by lia. rewrite lookup_app_r by lia. f_equal. lia.
Qed.

(** ** Reserving and committing *)

(** The registers and buffers of a FIFO between commands. *)
Record fifo_ok (s : svga) : Prop := {
  ok_min : fifo_reg SVGA_FIFO_MIN s = 4 * lo;
  ok_max : fifo_reg SVGA_FIFO_MAX s = 4 * (lo + size);
  ok_mem : lo + size <= Z.of_nat (length (fifoMem s));
  ok_bound : 4 * (lo + size) < 2 ^ 31;
  ok_bounce : Z.of_nat (length (bounceBuffer s)) * 4 = bounce_size;
  ok_idle : reservedSize s = 0 }.

(** The device's place [w] (a byte offset) leaves no room for [m] words. *)
Definition no_room (next m w : Z) : Prop :=
  exists stop c, w = 4 * stop /\ in_ring stop /\ 0 <= c < size /\ next = place stop c /\ size <= c + m.

Lemma place_cases stop c :
  in_ring stop -> 0 <= c < size ->
  (place stop c = stop + c /\ stop + c < lo + size) \/
  (place stop c = stop + c - size /\ place stop c < stop /\ lo + size <= stop + c).
Proof.
  intros Hs Hc. destruct (Z.ltb_spec (stop + c) (lo + size)).
  - left. rewrite place_small by (done || lia). lia.
  - right. rewrite place_wrap by (done || lia). lia.
Qed.

Lemma find_room_full next m w s :
  fifo_ok s -> 0 < m -> 4 * m <= bounce_size -> m <= size -> no_room next m w ->
  find_room (4 * lo) (4 * (lo + size)) (4 * next) w (4 * m) = Full.
Proof.
  unfold SVGA_FIFO_NUM_REGS, bounce_size in *.
  intros [_ _ _ Hb _ _] Hm Hmb Hms (stop & c & -> & Hs & Hc & -> & Hf).
  pose proof (place_cases stop c Hs Hc) as Hp. unfold in_ring in Hs. unfold find_room.
  rewrite !wrap_small by lia.
  destruct (Z.leb_spec (4 * stop) (4 * place stop c)).
  - rewrite (wrap_small 32 (4 * (lo + size) - _)), (wrap_small 32 (4 * stop - _)) by lia.
    rewrite wrap_small by lia.
    replace ((4 * place stop c + 4 * m <? 4 * (lo + size)) ||
             ((4 * place stop c + 4 * m =? 4 * (lo + size)) && (4 * lo <? 4 * stop))) with false.
    2: { symmetry. apply not_true_iff_false. rewrite orb_true_iff, andb_true_iff, !Z.ltb_lt, Z.eqb_eq. lia. }
    by replace (4 * (lo + size) - 4 * place stop c + (4 * stop - 4 * lo) <=? 4 * m) with true by lia.
  - by replace (4 * place stop c + 4 * m <? 4 * stop) with false by lia.
Qed.

Lemma find_room_some stop c m s :
  fifo_ok s -> 0 < m -> 4 * m <= bounce_size -> in_ring stop -> 0 <= c -> c + m < size ->
  let d := find_room (4 * lo) (4 * (lo + size)) (4 * place stop c) (4 * stop) (4 * m) in
  (d = ReserveInPlace /\ place stop c + m <= lo + size) \/ d = NeedBounce.
Proof.
  intros [_ _ _ Hb _ _] Hm Hmb Hs Hc Hf d. unfold SVGA_FIFO_NUM_REGS, bounce_size in *.
  pose proof (place_cases stop c Hs ltac:(lia)) as Hp. unfold in_ring in Hs. unfold d, find_room.
  rewrite !(wrap_small 32 (4 * place stop c + 4 * m)) by lia.
  destruct (Z.leb_spec (4 * stop) (4 * place stop c)).
  - rewrite (wrap_small 32 (4 * (lo + size) - _)), (wrap_small 32 (4 * stop - _)) by lia.
    rewrite wrap_small by lia.
    destruct ((4 * place stop c + 4 * m <? 4 * (lo + size)) ||
             ((4 * place stop c + 4 * m =? 4 * (lo + size)) && (4 * lo <? 4 * stop))) eqn:Hd.
    + left. rewrite orb_true_iff, andb_true_iff, !Z.ltb_lt, Z.eqb_eq in Hd. split; [done | lia].
    + right. by replace (4 * (lo + size) - 4 * place stop c + (4 * stop - 4 * lo) <=? 4 * m) with false by lia.
  - left. replace (4 * place stop c + 4 * m <? 4 * stop) with true by lia. split; [done | lia].
Qed.

(** The loop spins while there is no room and then reserves. *)
Lemma reserve_loop_waits (waits stops : list Z) next m b s :
  fifo_ok s -> 0 < m -> 4 * m <= bounce_size -> m <= size -> Forall (no_room next m) waits ->
  forall s0, reserve_loop (waits ++ stops) (4 * lo) (4 * (lo + size)) (4 * next) (4 * m) b s0
    = reserve_loop stops (4 * lo) (4 * (lo + size)) (4 * next) (4 * m) b s0.
Proof.
  intros Hok Hm Hmb Hms Hw s0. induction Hw as [| w waits Hr _ IH]; [done |].
  cbn [app reserve_loop]. by rewrite (find_room_full next m w s).
Qed.

(** The words of a bounce buffer after a command was stored in it. *)
Lemma bounce_words (type : Z) (payload bb : list Z) :
  (length payload < length bb)%nat ->
  take (S (length payload)) (list_inserts 1 payload (list_inserts 0 [type] bb)) = type :: payload.
Proof.
  intros Hl. destruct bb as [| b bb]; [cbn in Hl; lia |]. cbn [length] in Hl.
  apply list_eq. intros i. rewrite lookup_take.
  destruct (decide (i < S (length payload))%nat) as [Hi | Hi].
  - destruct i as [| i]; [by rewrite list_lookup_inserts_lt by lia |].
    rewrite list_lookup_inserts by (cbn; lia). cbn. f_equal. lia.
  - symmetry. apply lookup_ge_None. cbn. lia.
Qed.

(** The next place after [m] words, as [FIFOCommit] computes it. *)
Lemma next_after n m s :
  fifo_ok s -> in_ring n -> 0 <= m <= size -> 4 * m <= bounce_size ->
  (let nextCmd := u32 (4 * n + 4 * m) in
   if 4 * (lo + size) <=? nextCmd then u32 (nextCmd - u32 (4 * (lo + size) - 4 * lo)) else nextCmd)
  = 4 * place n m.
Proof.
  intros [_ _ _ Hb _ _] Hn Hm Hmb. unfold SVGA_FIFO_NUM_REGS, bounce_size in *. cbv zeta.
  pose proof Hn as Hn'. unfold in_ring in Hn'.
  rewrite (wrap_small 32 (4 * n + 4 * m)) by lia. rewrite (wrap_small 32 (_ - 4 * lo)) by lia.
  destruct (Z.leb_spec (4 * (lo + size)) (4 * n + 4 * m)).
  - rewrite place_wrap by (done || lia). rewrite wrap_small; lia.
  - rewrite place_small by (done || lia). lia.
Qed.

(** The slow path writes the words one after the other. *)
Lemma commit_words_run (ws : list Z) : forall n s,
  lo + size <= Z.of_nat (length (fifoMem s)) -> 4 * (lo + size) < 2 ^ 31 -> in_ring n ->
  Z.of_nat (length ws) <= size ->
  exists s', commit_words ws (4 * lo) (4 * (lo + size)) (4 * n) s = Ret s' /\
    wrote n ws s s' /\
    (ws <> [] -> fifo_reg SVGA_FIFO_NEXT_CMD s' = 4 * place n (Z.of_nat (length ws))) /\
    reservedSize s' = reservedSize s /\ usingBounceBuffer s' = usingBounceBuffer s /\
    bounceBuffer s' = bounceBuffer s.
Proof.
  pose proof Hlo as Hlo'. unfold SVGA_FIFO_NUM_REGS in Hlo'.
  induction ws as [| w ws IH]; intros n s Hm Hb Hn Hl.
  { exists s. split_and!; [done | by apply wrote_nothing | done..]. }
  cbn [commit_words length] in *. pose proof Hn as Hn'. unfold in_ring in Hn'.
  replace (4 * n / 4 * 4) with (4 * n) by (rewrite Z.mul_comm, Z.div_mul by lia; lia).
  rewrite put_words_run by (cbn [length]; lia). cbn [mbind outcome_bind].
  rewrite (wrap_small 32 (4 * n + 4)) by lia.
  assert ((if 4 * n + 4 =? 4 * (lo + size) then 4 * lo else 4 * n + 4) = 4 * place n 1) as ->.
  { destruct (Z.eqb_spec (4 * n + 4) (4 * (lo + size))).
    - rewrite place_wrap by (done || lia). lia.
    - rewrite place_small by (done || lia). lia. }
  set (s1 := set_fifo_reg SVGA_FIFO_NEXT_CMD (4 * place n 1)
    (with_mem s (list_inserts (Z.to_nat n) [w] (fifoMem s)))).
  assert (wrote n [w] s s1) as Hw.
  { apply (wrote_trans_r _ _ _ _ _ (wrote_words n [w] s Hn ltac:(cbn [length]; lia) Hm)).
    apply wrote_reg; [by left |]. cbn [with_mem fifoMem]. rewrite length_inserts. lia. }
  pose proof (wrote_length _ _ _ _ Hw) as Hl1.
  destruct (IH (place n 1) s1) as (s' & Hrun & Hw' & Hnext & Hf);
    [lia | done | apply place_in_ring | lia |].
  exists s'. split_and!; [exact Hrun | | | apply Hf..].
  - by apply (wrote_trans n [w] ws s s1 s'); [cbn [length]; lia | ..].
  - intros _. destruct ws as [| w' ws].
    + cbn in Hrun. injection Hrun as <-. unfold s1.
      rewrite fifo_reg_set; [by rewrite decide_True | | done].
      unfold SVGA_FIFO_NEXT_CMD. cbn [with_mem fifoMem]. rewrite length_inserts. lia.
    + rewrite Hnext by done. rewrite place_place. do 2 f_equal. cbn [length]. lia.
Qed.

(** Words in the ring are not registers. *)
Lemma reg_words n ws s j :
  in_ring n -> 0 <= j < SVGA_FIFO_NUM_REGS ->
  fifo_reg j (with_mem s (list_inserts (Z.to_nat n) ws (fifoMem s))) = fifo_reg j s.
Proof.
  unfold in_ring, SVGA_FIFO_NUM_REGS in *. intros Hn Hj. unfold fifo_reg. cbn. rewrite !nth_lookup.
  by rewrite list_lookup_inserts_lt by lia.
Qed.

(** A command stored through a reserved pointer and not yet committed: in the ring behind the
    driver's place, or in the bounce buffer. *)
Record prepared (n : Z) (cmd : list Z) (s s2 : svga) : Prop := {
  prep_size : reservedSize s2 = 4 * Z.of_nat (length cmd);
  prep_next : fifo_reg SVGA_FIFO_NEXT_CMD s2 = fifo_reg SVGA_FIFO_NEXT_CMD s;
  prep_bounce : length (bounceBuffer s2) = length (bounceBuffer s);
  prep_words : if usingBounceBuffer s2
    then wrote n [] s s2 /\ take (length cmd) (bounceBuffer s2) = cmd
    else wrote n cmd s s2 /\ n + Z.of_nat (length cmd) <= lo + size }.

(** What [wrote] keeps of a FIFO between commands. *)
Lemma wrote_caps n ws s s' c : wrote n ws s s' -> HasFIFOCap c s' = HasFIFOCap c s.
Proof.
  intros [_ _ Hg]. unfold HasFIFOCap.
  by rewrite Hg by (unfold SVGA_FIFO_CAPABILITIES, SVGA_FIFO_NUM_REGS, SVGA_FIFO_NEXT_CMD, SVGA_FIFO_RESERVED; lia).
Qed.

Lemma wrote_min_max n ws s s' :
  wrote n ws s s' ->
  fifo_reg SVGA_FIFO_MIN s' = fifo_reg SVGA_FIFO_MIN s /\
  fifo_reg SVGA_FIFO_MAX s' = fifo_reg SVGA_FIFO_MAX s.
Proof.
  intros [_ _ Hg].
  split; apply Hg; unfold SVGA_FIFO_MIN, SVGA_FIFO_MAX, SVGA_FIFO_NUM_REGS, SVGA_FIFO_NEXT_CMD, SVGA_FIFO_RESERVED; lia.
Qed.

(** Storing the command's words, the type first. *)
Lemma store_in_place n type payload s s0 :
  in_ring n -> n + 1 + Z.of_nat (length payload) <= lo + size ->
  lo + size <= Z.of_nat (length (fifoMem s)) -> wrote n [] s s0 ->
  exists s1 s2, store_words (InFifo (4 * n)) 0 [type] s0 = Ret s1 /\
    store_words (InFifo (4 * n)) 4 payload s1 = Ret s2 /\
    wrote n (type :: payload) s s2 /\
    fifo_reg SVGA_FIFO_NEXT_CMD s2 = fifo_reg SVGA_FIFO_NEXT_CMD s0 /\
    s2 = mkSvga (fifoMem s2) (reservedSize s0) (usingBounceBuffer s0) (bounceBuffer s0).
Proof.
  intros Hn Hl Hm H0. pose proof Hn as Hn'. unfold in_ring in Hn'.
  pose proof Hlo as Hlo'. unfold SVGA_FIFO_NUM_REGS in Hlo'.
  pose proof (wrote_length _ _ _ _ H0) as Hl0. cbn [store_words]. rewrite Z.add_0_r.
  rewrite put_words_run by (cbn [length]; lia). cbn [mbind outcome_bind].
  set (s1 := with_mem s0 (list_inserts (Z.to_nat n) [type] (fifoMem s0))).
  assert (wrote n [type] s s1) as H1.
  { apply (wrote_trans_l n [type] s s0 s1 H0). apply wrote_words; [done | cbn [length]; lia | lia]. }
  pose proof (wrote_length _ _ _ _ H1) as Hl1.
  exists s1. replace (4 * n + 4) with (4 * (n + 1)) by lia.
  rewrite put_words_run by lia. cbn [mbind outcome_bind]. eexists. split_and!; [done | done | | | done].
  - destruct payload as [| w payload].
    + apply (wrote_trans_r n [type] s s1); [exact H1 | by apply wrote_nothing].
    + cbn [length] in Hl. apply (wrote_trans n [type] (w :: payload) s s1); [cbn [length]; lia | exact H1 |].
      cbn [length]. change (Z.of_nat 1) with 1. rewrite place_small by (done || lia).
      apply wrote_words; [unfold in_ring; lia | cbn [length]; lia | lia].
  - assert (0 <= SVGA_FIFO_NEXT_CMD < SVGA_FIFO_NUM_REGS) as Hj
      by (unfold SVGA_FIFO_NEXT_CMD, SVGA_FIFO_NUM_REGS; lia).
    destruct payload as [| w payload].
    + exact (reg_words n [type] s0 _ Hn Hj).
    + cbn [length] in Hl. rewrite reg_words by (done || unfold in_ring; lia).
      exact (reg_words n [type] s0 _ Hn Hj).
Qed.

Lemma reserve_and_store stop n q type payload (waits rest : list Z) s :
  let m := 1 + Z.of_nat (length payload) in
  fifo_ok s -> fifo_reg SVGA_FIFO_NEXT_CMD s = 4 * n -> queued s stop n q ->
  Z.of_nat (length q) + m < size -> 4 * m <= bounce_size -> Forall (no_room n m) waits ->
  exists p s1 s2,
    FIFOReserveCmd (waits ++ 4 * stop :: rest) type (4 * Z.of_nat (length payload)) s = Ret (p, s1) /\
    store_words p 4 payload s1 = Ret s2 /\ prepared n (type :: payload) s s2.
Proof.
  intros m Hok Hnext (Hs & Hn & Hq & Hk) Hfit Hmb Hw.
  pose proof Hok as [Hmin Hmax Hmem Hbound Hbb Hidle].
  assert (in_ring n) as Hn' by (rewrite Hn; apply place_in_ring).
  pose proof Hlo as Hlo'. unfold SVGA_FIFO_NUM_REGS in Hlo'.
  assert (4 * m < 2 ^ 32) by (unfold bounce_size in Hmb; lia).
  unfold FIFOReserveCmd, FIFOReserve. rewrite Hmin, Hmax, Hnext, Hidle. cbv zeta.
  rewrite (wrap_small 32 (4 * Z.of_nat (length payload) + 4)) by lia.
  replace (4 * Z.of_nat (length payload) + 4) with (4 * m) by lia.
  rewrite (wrap_small 32) by lia.
  replace ((bounce_size <? 4 * m) || (4 * (lo + size) - 4 * lo <? 4 * m)) with false.
  2: { symmetry. apply not_true_iff_false. rewrite orb_true_iff, !Z.ltb_lt. lia. }
  replace (4 * m mod 4) with 0 by (rewrite Z.mul_comm, Z.mod_mul; lia). cbn [truthy Z.eqb negb].
  rewrite (reserve_loop_waits waits _ n m _ s) by (done || lia). cbn [reserve_loop].
  assert (exists s1 s2, (s' ← store_words InBounce 0 [type]
       (mkSvga (fifoMem s) (4 * m) true (bounceBuffer s)); Ret (InBounce, s')) = Ret (InBounce, s1) /\
    store_words InBounce 4 payload s1 = Ret s2 /\ prepared n (type :: payload) s s2) as Hbounce.
  { cbn [store_words bounceBuffer fifoMem reservedSize usingBounceBuffer].
    pose proof (put_words_run 0 [type] (bounceBuffer s)) as Hb1. change (4 * 0) with 0 in Hb1.
    rewrite Hb1 by (cbn [length]; lia). cbn [mbind outcome_bind].
    do 2 eexists. split; [reflexivity |].
    pose proof (put_words_run 1 payload (list_inserts (Z.to_nat 0) [type] (bounceBuffer s))) as Hb2.
    change (4 * 1) with 4 in Hb2. cbn [store_words bounceBuffer].
    rewrite Hb2 by (rewrite ?length_inserts; lia). cbn [mbind outcome_bind].
    split; [reflexivity |]. split; cbn [reservedSize bounceBuffer usingBounceBuffer length].
    - lia.
    - done.
    - by rewrite !length_inserts.
    - split; [by apply wrote_nothing |]. apply bounce_words. lia. }
  destruct (find_room_some stop (Z.of_nat (length q)) m s Hok ltac:(lia) Hmb Hs ltac:(lia) Hfit)
    as [[Hd Hroom] | Hd]; rewrite <- Hn in Hd; rewrite Hd.
  2: { cbn [mbind outcome_bind]. destruct Hbounce as (s1 & s2 & H1 & H2 & H3).
       exists InBounce, s1, s2. done. }
  rewrite <- Hn in Hroom.
  destruct (HasFIFOCap SVGA_FIFO_CAP_RESERVE s || (4 * m <=? 4)) eqn:Hin.
  2: { cbn [mbind outcome_bind]. destruct Hbounce as (s1 & s2 & H1 & H2 & H3).
       exists InBounce, s1, s2. done. }
  cbn [mbind outcome_bind].
  match goal with |- context [store_words (InFifo (4 * n)) 0 [type] ?t] => set (s0 := t) end.
  assert (wrote n [] s s0 /\ fifo_reg SVGA_FIFO_NEXT_CMD s0 = fifo_reg SVGA_FIFO_NEXT_CMD s /\
    reservedSize s0 = 4 * m /\ usingBounceBuffer s0 = false /\ bounceBuffer s0 = bounceBuffer s)
    as (Hw0 & Hn0 & Hr0 & Hu0 & Hb0).
  { unfold s0. destruct (HasFIFOCap SVGA_FIFO_CAP_RESERVE s); split_and!; try done.
    - apply (wrote_trans_l n [] s (mkSvga (fifoMem s) (4 * m) false (bounceBuffer s)));
        [by apply wrote_nothing |]. apply wrote_reg; [by right |]. cbn [fifoMem]. lia.
    - rewrite fifo_reg_set; [by rewrite decide_False | | done].
      unfold SVGA_FIFO_RESERVED. cbn [fifoMem]. lia.
    - by apply wrote_nothing. }
  destruct (store_in_place n type payload s s0) as (s1 & s2 & -> & H2 & H3 & H4 & H5);
    [done | lia | lia | done |]. cbn [mbind outcome_bind].
  exists (InFifo (4 * n)), s1, s2. split_and!; [done | done |].
  assert (reservedSize s2 = 4 * m /\ usingBounceBuffer s2 = false /\ bounceBuffer s2 = bounceBuffer s)
    as (E1 & E2 & E3) by (rewrite H5; cbn [reservedSize bounceBuffer usingBounceBuffer]; done).
  split.
  - rewrite E1. cbn [length]. lia.
  - by rewrite H4.
  - by rewrite E3.
  - rewrite E2. split; [exact H3 |]. cbn [length]. lia.
Qed.

(** Setting registers after a command. *)
Lemma finish_regs n ws s s' (v : Z) (reserveable : bool) :
  fifo_ok s -> wrote n ws s s' ->
  let s1 := set_fifo_reg SVGA_FIFO_NEXT_CMD v s' in
  let s2 := if reserveable then set_fifo_reg SVGA_FIFO_RESERVED 0 s1 else s1 in
  wrote n ws s s2 /\ fifo_reg SVGA_FIFO_NEXT_CMD s2 = v /\
  reservedSize s2 = reservedSize s' /\ bounceBuffer s2 = bounceBuffer s'.
Proof.
  intros [_ _ Hm _ _ _] Hw s1 s2. pose proof (wrote_length _ _ _ _ Hw) as Hl.
  pose proof Hlo as Hlo'. unfold SVGA_FIFO_NUM_REGS in Hlo'.
  assert (wrote n ws s s1) as H1.
  { apply (wrote_trans_r n ws s s' s1 Hw). apply wrote_reg; [by left | lia]. }
  assert (fifo_reg SVGA_FIFO_NEXT_CMD s1 = v) as Hv.
  { unfold s1. rewrite fifo_reg_set; [by rewrite decide_True | unfold SVGA_FIFO_NEXT_CMD; lia | done]. }
  unfold s2. destruct reserveable; [| done]. split_and!; [| | done | done].
  - apply (wrote_trans_r n ws s s1 _ H1). apply wrote_reg; [by right |].
    pose proof (wrote_length _ _ _ _ H1). lia.
  - rewrite fifo_reg_set; [by rewrite decide_False | | done].
    pose proof (wrote_length _ _ _ _ H1). unfold SVGA_FIFO_RESERVED. lia.
Qed.

(** Two chunks: up to the end of the ring, the rest from its start. *)
Lemma wrote_chunks n cmd s s0 :
  in_ring n -> lo + size <= Z.of_nat (length (fifoMem s)) -> Z.of_nat (length cmd) <= size ->
  wrote n [] s s0 ->
  let k := Z.to_nat (Z.min (Z.of_nat (length cmd)) (lo + size - n)) in
  exists mem, (mem ← put_words (4 * n) (take k cmd) (fifoMem s0);
               put_words (4 * lo) (drop k cmd) mem) = Ret mem /\
    wrote n cmd s (with_mem s0 mem) /\
    forall j, 0 <= j < SVGA_FIFO_NUM_REGS -> fifo_reg j (with_mem s0 mem) = fifo_reg j s0.
Proof.
  intros Hn Hm Hl H0 k. pose proof Hn as Hn'. unfold in_ring in Hn'.
  pose proof Hlo as Hlo'. unfold SVGA_FIFO_NUM_REGS in Hlo'.
  pose proof (wrote_length _ _ _ _ H0) as Hl0.
  rewrite put_words_run by (rewrite ?length_take; lia). cbn [mbind outcome_bind].
  set (s1 := with_mem s0 (list_inserts (Z.to_nat n) (take k cmd) (fifoMem s0))).
  assert (wrote n (take k cmd) s s1) as H1.
  { apply (wrote_trans_l n _ s s0 s1 H0). apply wrote_words; [done | rewrite length_take; lia | lia]. }
  pose proof (wrote_length _ _ _ _ H1) as Hl1. cbn [s1 with_mem fifoMem] in Hl1.
  rewrite put_words_run by (rewrite ?length_drop; lia).
  eexists. split; [reflexivity |]. split.
  - destruct (decide (k = length cmd)) as [Hk | Hk].
    + rewrite Hk, drop_all, take_ge by lia. cbn.
      unfold s1 in H1. by rewrite Hk, take_ge in H1 by lia.
    + rewrite <- (take_drop k cmd) at 1.
      apply (wrote_trans n (take k cmd) (drop k cmd) s s1);
        [rewrite length_take, length_drop; lia | exact H1 |].
      assert (place n (Z.of_nat (length (take k cmd))) = lo) as ->.
      { rewrite length_take. rewrite place_wrap by (done || lia). lia. }
      apply (wrote_words lo (drop k cmd) s1); [unfold in_ring; lia | rewrite length_drop; lia |].
      cbn [s1 with_mem fifoMem]. lia.
  - intros j Hj. rewrite <- (reg_words n (take k cmd) s0 j Hn Hj).
    apply (reg_words lo (drop k cmd) s1 j); [unfold in_ring; lia | done].
Qed.

Lemma commit_run n cmd s s2 :
  fifo_ok s -> in_ring n -> fifo_reg SVGA_FIFO_NEXT_CMD s = 4 * n -> cmd <> [] ->
  Z.of_nat (length cmd) <= size -> 4 * Z.of_nat (length cmd) <= bounce_size ->
  prepared n cmd s s2 ->
  exists s3, FIFOCommitAll s2 = Ret s3 /\ wrote n cmd s s3 /\
    fifo_reg SVGA_FIFO_NEXT_CMD s3 = 4 * place n (Z.of_nat (length cmd)) /\
    reservedSize s3 = 0 /\ length (bounceBuffer s3) = length (bounceBuffer s).
Proof.
  intros Hok Hn Hnext Hne Hl Hlb [Hsz Hnx Hbb Hws].
  pose proof Hok as [Hmin Hmax Hmem Hbound _ _]. pose proof Hn as Hn'. unfold in_ring in Hn'.
  pose proof Hlo as Hlo'. unfold SVGA_FIFO_NUM_REGS in Hlo'.
  assert (exists ws, wrote n ws s s2) as [ws0 Hw0] by (destruct (usingBounceBuffer s2); destruct Hws; eauto).
  destruct (wrote_min_max _ _ _ _ Hw0) as [Hmin2 Hmax2].
  unfold FIFOCommitAll, FIFOCommit. rewrite Hnx, Hnext, Hmin2, Hmin, Hmax2, Hmax, Hsz.
  assert (length cmd <> 0%nat) by (destruct cmd; [done | cbn; lia]).
  replace (4 * Z.of_nat (length cmd) =? 0) with false by lia.
  replace (4 * Z.of_nat (length cmd) / 4) with (Z.of_nat (length cmd)) by (rewrite Z.mul_comm, Z.div_mul; lia).
  rewrite Nat2Z.id. cbv zeta.
  pose proof (next_after n (Z.of_nat (length cmd)) s Hok Hn ltac:(lia) Hlb) as Hna. cbv zeta in Hna.
  rewrite Hna. set (reserveable := HasFIFOCap SVGA_FIFO_CAP_RESERVE s2).
  destruct (usingBounceBuffer s2) eqn:Hu; destruct Hws as [Hw Hc].
  2: { cbn [mbind outcome_bind usingBounceBuffer negb orb].
       destruct (finish_regs n cmd s (mkSvga (fifoMem s2) 0 false (bounceBuffer s2))
         (4 * place n (Z.of_nat (length cmd))) reserveable Hok) as (H1 & H2 & H3 & H4);
         [by apply (wrote_mem n cmd s s2) |].
       eexists. split; [reflexivity |]. split_and!; [done | done | done |]. by rewrite H4. }
  cbn [usingBounceBuffer bounceBuffer]. rewrite Hc.
  assert (wrote n [] s (mkSvga (fifoMem s2) 0 true (bounceBuffer s2))) as Hw1
    by (by apply (wrote_mem n [] s s2)).
  destruct reserveable eqn:Hr.
  - (* two chunks *)
    rewrite (wrap_small 32 (4 * (lo + size) - 4 * n)) by lia.
    replace (Z.to_nat (Z.min (4 * Z.of_nat (length cmd)) (4 * (lo + size) - 4 * n) / 4))
      with (Z.to_nat (Z.min (Z.of_nat (length cmd)) (lo + size - n))).
    2: { f_equal. replace (Z.min (4 * Z.of_nat (length cmd)) (4 * (lo + size) - 4 * n))
           with (Z.min (Z.of_nat (length cmd)) (lo + size - n) * 4) by lia. by rewrite Z.div_mul by lia. }
    match goal with |- context [with_mem ?t _] => set (s0 := t) end.
    assert (wrote n [] s s0) as Hw2.
    { unfold s0. apply (wrote_trans_l n [] s _ _ Hw1). apply wrote_reg; [by right |].
      pose proof (wrote_length _ _ _ _ Hw1). lia. }
    destruct (wrote_chunks n cmd s s0 Hn Hmem Hl Hw2) as (mem & Hrun & Hw3 & Hregs).
    apply bind_Ret in Hrun as (mem1 & Hm1 & Hm2). rewrite Hm1. cbn [mbind outcome_bind].
    rewrite Hm2. cbn [mbind outcome_bind].
    rewrite orb_true_r.
    destruct (finish_regs n cmd s (with_mem s0 mem) (4 * place n (Z.of_nat (length cmd))) true Hok Hw3)
      as (H1 & H2 & H3 & H4).
    eexists. split; [reflexivity |]. split_and!; [done | done | done |]. by rewrite H4.
  - (* one word at a time *)
    destruct (commit_words_run cmd n (mkSvga (fifoMem s2) 0 true (bounceBuffer s2)))
      as (s' & -> & Hw3 & Hnext3 & Hrs & Hus & Hbs); [| done | done | lia |].
    { pose proof (wrote_length _ _ _ _ Hw1). lia. }
    cbn [mbind outcome_bind]. rewrite Hus. cbn [negb orb usingBounceBuffer].
    eexists. split; [reflexivity |].
    split_and!; [by apply (wrote_trans_l n cmd s _ s' Hw1) | by apply Hnext3 | done |]. by rewrite Hbs.
Qed.

End Ring.

(** ** Theorems *)

(** A whole command: reserve, store, commit. *)
Definition send_command (stops : list Z) (type : Z) (payload : list Z) (s : svga) : outcome svga :=
  '(p, s) ← FIFOReserveCmd stops type (4 * Z.of_nat (length payload)) s;
  s ← store_words p 4 payload s;
  FIFOCommitAll s.

Lemma send_command_run lo size s stop next q type payload (waits rest : list Z) :
  SVGA_FIFO_NUM_REGS <= lo -> 0 < size ->
  let m := 1 + Z.of_nat (length payload) in
  fifo_ok lo size s -> fifo_reg SVGA_FIFO_NEXT_CMD s = 4 * next -> queued lo size s stop next q ->
  Z.of_nat (length q) + m < size -> 4 * m <= bounce_size ->
  Forall (no_room lo size next m) waits ->
  exists s' next', send_command (waits ++ 4 * stop :: rest) type payload s = Ret s' /\
    fifo_ok lo size s' /\ fifo_reg SVGA_FIFO_NEXT_CMD s' = 4 * next' /\
    queued lo size s' stop next' (q ++ type :: payload).
Proof.
  intros Hlo Hsize m Hok Hnext Hq Hfit Hmb Hw. pose proof Hok as [Hmin Hmax Hmem Hbound Hbb Hidle].
  destruct (reserve_and_store lo size Hlo Hsize stop next q type payload waits rest s Hok Hnext Hq
    Hfit Hmb Hw) as (p & s1 & s2 & H1 & H2 & Hprep).
  assert (in_ring lo size next) as Hn by (destruct Hq as (_ & -> & _); by apply place_in_ring).
  destruct (commit_run lo size Hlo Hsize next (type :: payload) s s2 Hok Hn Hnext ltac:(done)
    ltac:(cbn [length]; lia) ltac:(cbn [length]; lia) Hprep) as (s3 & H3 & Hw3 & Hn3 & Hr3 & Hb3).
  destruct (wrote_min_max lo size Hlo Hsize _ _ _ _ Hw3) as [Hmin3 Hmax3].
  exists s3, (place lo size next (Z.of_nat (length (type :: payload)))). split_and!.
  - unfold send_command. rewrite H1. cbn [mbind outcome_bind]. rewrite H2. exact H3.
  - split; [congruence | congruence | | exact Hbound | by rewrite Hb3 | exact Hr3].
    by rewrite (wrote_length _ _ _ _ _ _ Hw3).
  - exact Hn3.
  - apply (queued_wrote lo size Hlo Hsize s s3); [exact Hq | exact Hw3 | cbn [length]; lia].
Qed.

(** C24: the FIFO is a queue of words.  Whatever path the driver takes (in place, through the
    bounce buffer in two chunks, or word by word; with or without the device's reserve
    capability; across the end of the ring or not), once the device has left room, a command
    that is reserved, stored and committed is appended behind the words already queued, they
    stay as they were, and the FIFO is ready for the next command; until then the driver
    waits. *)
Theorem command_is_queued lo size s stop next q type payload (waits rest : list Z) :
  SVGA_FIFO_NUM_REGS <= lo -> 0 < size ->
  let m := 1 + Z.of_nat (length payload) in
  fifo_ok lo size s -> fifo_reg SVGA_FIFO_NEXT_CMD s = 4 * next -> queued lo size s stop next q ->
  Z.of_nat (length q) + m < size -> 4 * m <= bounce_size ->
  Forall (no_room lo size next m) waits ->
  exists s' next', send_command (waits ++ 4 * stop :: rest) type payload s = Ret s' /\
    fifo_ok lo size s' /\ fifo_reg SVGA_FIFO_NEXT_CMD s' = 4 * next' /\
    queued lo size s' stop next' (q ++ type :: payload) /\
    forall q1 q2, q ++ type :: payload = q1 ++ q2 ->
      queued lo size s' (place lo size stop (Z.of_nat (length q1))) next' q2.
Proof.
  intros Hlo Hsize m Hok Hnext Hq Hfit Hmb Hw.
  destruct (send_command_run lo size s stop next q type payload waits rest Hlo Hsize Hok Hnext Hq
    Hfit Hmb Hw) as (s' & next' & Hrun & Hok' & Hn' & Hq').
  exists s', next'. do 4 (split; [assumption |]). intros q1 q2 He. rewrite He in Hq'.
  by apply queued_consume.
Qed.

(** While the device frees nothing the driver spins: [FIFOFull] does nothing. *)
Theorem full_fifo_spins lo size s n m type payload (waits : list Z) :
  SVGA_FIFO_NUM_REGS <= lo -> 0 < size -> fifo_ok lo size s ->
  fifo_reg SVGA_FIFO_NEXT_CMD s = 4 * n -> m = 1 + Z.of_nat (length payload) ->
  4 * m <= bounce_size -> m <= size -> Forall (no_room lo size n m) waits ->
  send_command waits type payload s = Diverged.
Proof.
  intros Hlo Hsize Hok Hnext Hm Hmb Hms Hw. pose proof Hok as [Hmin Hmax Hmem Hbound Hbb Hidle].
  unfold bounce_size, SVGA_FIFO_NUM_REGS in *.
  unfold send_command, FIFOReserveCmd, FIFOReserve. rewrite Hmin, Hmax, Hnext, Hidle. cbv zeta.
  rewrite (wrap_small 32 (4 * Z.of_nat (length payload) + 4)) by lia.
  replace (4 * Z.of_nat (length payload) + 4) with (4 * m) by lia. rewrite (wrap_small 32) by lia.
  unfold bounce_size.
  replace ((1024 * 1024 <? 4 * m) || (4 * (lo + size) - 4 * lo <? 4 * m)) with false.
  2: { symmetry. apply not_true_iff_false. rewrite orb_true_iff, !Z.ltb_lt. lia. }
  replace (4 * m mod 4) with 0 by (rewrite Z.mul_comm, Z.mod_mul; lia). cbn [truthy Z.eqb negb].
  rewrite <- (app_nil_r waits).
  rewrite (reserve_loop_waits lo size Hlo Hsize waits [] n m _ s) by (done || lia). reflexivity.
Qed.

(** [Activate] leaves an empty FIFO behind the registers. *)
Theorem Activate_empties (m_FifoSize : Z) (s : svga) :
  0x5000 <= m_FifoSize < 2 ^ 31 -> m_FifoSize mod 4 = 0 ->
  m_FifoSize <= 4 * Z.of_nat (length (fifoMem s)) ->
  Z.of_nat (length (bounceBuffer s)) * 4 = bounce_size -> reservedSize s = 0 ->
  let lo := SVGA_FIFO_NUM_REGS in let size := m_FifoSize / 4 - lo in
  let s' := Activate_fifo m_FifoSize s in
  fifo_ok lo size s' /\ fifo_reg SVGA_FIFO_NEXT_CMD s' = 4 * lo /\
  fifo_reg SVGA_FIFO_STOP s' = 4 * lo /\ queued lo size s' lo lo [].
Proof.
  intros Hsz Hal Hmem Hbb Hidle lo size s'.
  assert (4 * (m_FifoSize / 4) = m_FifoSize) as He by (pose proof (Z.div_mod m_FifoSize 4); lia).
  assert (forall i v t, length (fifoMem (set_fifo_reg i v t)) = length (fifoMem t)) as Hlen
    by (intros; cbn; by rewrite length_insert).
  assert (forall i j v t, length (fifoMem t) = length (fifoMem s) -> 0 <= i < 4 -> 0 <= j ->
    fifo_reg j (set_fifo_reg i v t) = if decide (i = j) then v else fifo_reg j t) as Hset.
  { intros i j v t Ht Hi Hj.
    apply (fifo_reg_set 291 1 ltac:(unfold SVGA_FIFO_NUM_REGS; lia) ltac:(lia)); lia. }
  assert (fifo_reg 0 s' = 1164 /\ fifo_reg 1 s' = m_FifoSize /\ fifo_reg 2 s' = 1164 /\
          fifo_reg 3 s' = 1164) as (H0 & H1 & H2 & H3).
  { unfold s', Activate_fifo, SVGA_FIFO_NUM_REGS, SVGA_FIFO_MIN, SVGA_FIFO_MAX, SVGA_FIFO_NEXT_CMD,
      SVGA_FIFO_STOP. rewrite (wrap_small 32 m_FifoSize) by lia.
    rewrite !Hset by (rewrite ?Hlen; lia). done. }
  unfold size, lo, SVGA_FIFO_NUM_REGS.
  split; [split | split; [exact H2 | split; [exact H3 |]]].
  - exact H0.
  - unfold SVGA_FIFO_MAX. rewrite H1. lia.
  - unfold s', Activate_fifo. rewrite !Hlen. lia.
  - lia.
  - exact Hbb.
  - exact Hidle.
  - unfold queued, in_ring, place. cbn [length]. change (Z.of_nat 0) with 0.
    rewrite Z.mod_small by lia. repeat split; intros; lia.
Qed.

(** [UpdateRect] queues the five words of its command. *)
Theorem UpdateRect_queues lo size s stop next q (r : Rectangle) (rest : list Z) :
  SVGA_FIFO_NUM_REGS <= lo -> 0 < size ->
  fifo_ok lo size s -> fifo_reg SVGA_FIFO_NEXT_CMD s = 4 * next -> queued lo size s stop next q ->
  Z.of_nat (length q) + 5 < size ->
  exists s' next', UpdateRect (4 * stop :: rest) r s = Ret s' /\ fifo_ok lo size s' /\
    fifo_reg SVGA_FIFO_NEXT_CMD s' = 4 * next' /\
    queued lo size s' stop next'
      (q ++ [SVGA_CMD_UPDATE; u32 (X r); u32 (Y r); u32 (Width r); u32 (Height r)]).
Proof.
  intros Hlo Hsize Hok Hnext Hq Hfit.
  destruct (send_command_run lo size s stop next q SVGA_CMD_UPDATE
    [u32 (X r); u32 (Y r); u32 (Width r); u32 (Height r)] [] rest Hlo Hsize Hok Hnext Hq)
    as (s' & next' & Hrun & Hr); [cbn [length]; lia | cbn [length]; unfold bounce_size; lia | done |].
  exists s', next'. split; [exact Hrun | exact Hr].
Qed.

(** Fact: the version negotiation ends within three turns and settles on the highest identifier
    the device accepts. *)
Theorem negotiate_settles (reads : Z -> Z) :
  exists v, negotiate 3 SVGA_ID_2 reads = Ret v /\ SVGA_ID_0 - 1 <= v <= SVGA_ID_2 /\
    (SVGA_ID_0 <= v -> reads v = v) /\ forall w, v < w <= SVGA_ID_2 -> reads w <> w.
Proof.
  change SVGA_ID_2 with 0x90000002. change SVGA_ID_0 with 0x90000000.
  cbn [negotiate]. change SVGA_ID_0 with 0x90000000.
  destruct (Z.eqb_spec (reads 0x90000002) 0x90000002) as [H2 | H2].
  { exists 0x90000002. split_and!; [done | lia | lia | done | lia]. }
  change (u32 (0x90000002 - 1)) with 0x90000001.
  change (0x90000000 <=? 0x90000001) with true. cbv iota.
  destruct (Z.eqb_spec (reads 0x90000001) 0x90000001) as [H1 | H1].
  { exists 0x90000001. split_and!; [done | lia | lia | done |].
    intros w Hw. by assert (w = 0x90000002) as -> by lia. }
  change (u32 (0x90000001 - 1)) with 0x90000000.
  change (0x90000000 <=? 0x90000000) with true. cbv iota.
  destruct (Z.eqb_spec (reads 0x90000000) 0x90000000) as [H0 | H0].
  { exists 0x90000000. split_and!; [done | lia | lia | done |].
    intros w Hw. assert (w = 0x90000002 \/ w = 0x90000001) as [-> | ->] by lia; done. }
  exists (0x90000000 - 1). split_and!; [reflexivity | lia | lia | lia |].
  intros w Hw. assert (w = 0x90000002 \/ w = 0x90000001 \/ w = 0x90000000) as [-> | [-> | ->]] by lia; done.
Qed.

(** Fact: [DefineCursor] reserves room for the XOR mask but never writes it: its words are what
    the reserved memory held before. *)
Theorem DefineCursor_leaves_xor (s : svga) (stops bitmap : list Z) (w h : Z) p s1 s2 s3 :
  FIFOReserveCmd stops SVGA_CMD_DEFINE_CURSOR
    (u32 (28 + u32 (pitch w * h) + u32 (pitch w * h))) s = Ret (p, s1) ->
  store_words p 4 [0; 1; 1; w; h; 1; 1] s1 = Ret s2 ->
  store_words p 32 (take (Z.to_nat (u32 (pitch w * h) / 4)) bitmap) s2 = Ret s3 ->
  DefineCursor stops bitmap w h s = FIFOCommitAll s3.
Proof.
  intros H1 H2 H3. unfold DefineCursor. rewrite H1. cbn [mbind outcome_bind].
  rewrite H2. cbn [mbind outcome_bind]. by rewrite H3.
Qed.

(** ** Witnesses *)

(** A FIFO of eight words behind the registers, the driver two words before its end. *)
Definition demo_mem : list Z :=
  list_inserts 0 [1164; 1196; 1188] (replicate 299 0).

Definition demo_fifo : svga := mkSvga demo_mem 0 false (replicate (Z.to_nat 262144) 0).

Lemma demo_fifo_ok : fifo_ok 291 8 demo_fifo.
Proof.
  split.
  - reflexivity.
  - reflexivity.
  - unfold demo_fifo, demo_mem. cbn [fifoMem]. rewrite length_inserts, length_replicate. lia.
  - lia.
  - unfold demo_fifo. cbn [bounceBuffer]. rewrite length_replicate. unfold bounce_size. lia.
  - reflexivity.
Qed.

(** A command of four words that wraps around the end; at the first read there is no room. *)
Lemma command_is_queued_witness :
  exists s' next', send_command [4 * 298; 4 * 297] 7 [8; 9; 10] demo_fifo = Ret s' /\
    queued 291 8 s' 297 next' [7; 8; 9; 10].
Proof.
  destruct (command_is_queued 291 8 demo_fifo 297 297 [] 7 [8; 9; 10] [4 * 298] [])
    as (s' & next' & Hrun & _ & _ & Hq & _).
  - unfold SVGA_FIFO_NUM_REGS. lia.
  - lia.
  - exact demo_fifo_ok.
  - reflexivity.
  - split; [unfold in_ring; lia |]. split; [reflexivity |]. split; [reflexivity |].
    cbn [length]. intros. lia.
  - cbn [length]. lia.
  - cbn [length]. unfold bounce_size. lia.
  - constructor; [| constructor]. exists 298, 7. split_and!; [lia | unfold in_ring; lia | lia | lia | reflexivity | cbn [length]; lia].
  - exists s', next'. split; [exact Hrun | exact Hq].
Defined.
