(* ===== verification/PciBus.v ===== *)
(** The PCI bus (src/src/kernel/hal/devices/pci/PCIBus.cpp, PCIBus.h, PCIDevice.cpp): access to
    configuration space, enumeration of the devices, base address registers and interrupt
    routing.

    The configuration space behind the two ports is hardware: a type [B] of its states, what
    a doubleword reads as ([config_read]) and what a write does ([config_write]); a state
    remembers the address last written to the command port only between the two accesses of
    one function, so a read is one [config_read] of the address.  Console output is left
    out. *)
From Stdlib Require Import String.
From stdpp Require Import sorting.
From S2P Require Import Prelude OSSystem.
#[local] Open Scope Z_scope.

(** ** Data *)

Definition PCI_DESCR_OFFSET_VEN_ID : Z := 0x00.
Definition PCI_DESCR_OFFSET_DEV_ID : Z := 0x02.
Definition PCI_DESCR_OFFSET_COMMAND : Z := 0x04.
Definition PCI_DESCR_OFFSET_HEAD_TYPE : Z := 0x0E.
Definition PCI_DESCR_OFFSET_BAR0 : Z := 0x10.

Definition PCI_VEN_ID_INTEL : Z := 0x8086.
Definition PCI_DEVICE_ID_INTEL_82801IR : Z := 0x2922.
Definition PCI_VENDOR_ID_VMWARE : Z := 0x15ad.
Definition PCI_DEVICE_ID_VMWARE_SVGA2 : Z := 0x0405.

(** [PciLimits]. *)
Definition Functions : Z := 8.
Definition Devices : Z := 32.
Definition Buses : Z := 256.
Definition Pins : Z := 4.

(** [ClassCodes], without the terminator. *)
Definition ClassCodes : list (Z * Z * string) :=
  [(0x00, 0x00, "Unclassified"%string);
   (0x01, 0x00, "Mass Storage Controller - SCSI Bus Controller"%string);
   (0x01, 0x01, "Mass Storage Controller - IDE Controller"%string);
   (0x01, 0x02, "Mass Storage Controller - Floppy Disk Controller"%string);
   (0x01, 0x03, "Mass Storage Controller - IPI Bus Controller"%string);
   (0x01, 0x04, "Mass Storage Controller - RAID Controller"%string);
   (0x01, 0x05, "Mass Storage Controller - ATA Controller"%string);
   (0x01, 0x06, "Mass Storage Controller - Serial ATA"%string);
   (0x01, 0x07, "Mass Storage Controller - Serial Attached SCSI"%string);
   (0x01, 0x08, "Mass Storage Controller - Non - Volatile Memory Controller"%string);
   (0x01, 0x80, "Mass Storage Controller - Other"%string);
   (0x02, 0x00, "Network Controller - Ethernet Controller"%string);
   (0x02, 0x01, "Network Controller - Token Ring Controller"%string);
   (0x02, 0x02, "Network Controller - FDDI Controller"%string);
   (0x02, 0x03, "Network Controller - ATM Controller"%string);
   (0x02, 0x04, "Network Controller - ISDN Controller"%string);
   (0x02, 0x05, "Network Controller - WorldFip Controller"%string);
   (0x02, 0x06, "Network Controller - PICMG 2.14 Multi Computing"%string);
   (0x02, 0x07, "Network Controller - Infiniband Controller"%string);
   (0x02, 0x08, "Network Controller - Fabric Controller"%string);
   (0x02, 0x80, "Network Controller - Other"%string);
   (0x03, 0x00, "Display Controller - VGA Compatible Controller"%string);
   (0x03, 0x01, "Display Controller - XGA Controller"%string);
   (0x03, 0x02, "Display Controller - 3D Controller(Not VGA - Compatible)"%string);
   (0x03, 0x80, "Display Controller - Other"%string);
   (0x04, 0x00, "Multimedia Controller - Multimedia Video Controller"%string);
   (0x04, 0x01, "Multimedia Controller - Multimedia Audio Controller"%string);
   (0x04, 0x02, "Multimedia Controller - Computer Telephony Device"%string);
   (0x04, 0x03, "Multimedia Controller - Audio Device"%string);
   (0x04, 0x80, "Multimedia Controller - Other"%string);
   (0x05, 0x00, "Memory Controller - RAM Controller"%string);
   (0x05, 0x01, "Memory Controller - Flash Controller"%string);
   (0x05, 0x80, "Memory Controller - Other"%string);
   (0x06, 0x00, "Bridge Device - Host Bridge"%string);
   (0x06, 0x01, "Bridge Device - ISA Bridge"%string);
   (0x06, 0x02, "Bridge Device - EISA Bridge"%string);
   (0x06, 0x03, "Bridge Device - MCA Bridge"%string);
   (0x06, 0x04, "Bridge Device - PCI - to - PCI Bridge"%string);
   (0x06, 0x05, "Bridge Device - PCMCIA Bridge"%string);
   (0x06, 0x06, "Bridge Device - NuBus Bridge"%string);
   (0x06, 0x07, "Bridge Device - CardBus Bridge"%string);
   (0x06, 0x08, "Bridge Device - RACEway Bridge"%string);
   (0x06, 0x09, "Bridge Device - PCI - to - PCI Bridge"%string);
   (0x06, 0x0A, "Bridge Device - InfiniBand - to - PCI Host Bridge"%string);
   (0x06, 0x80, "Bridge Device - Other"%string);
   (0x07, 0x00, "Simple Communication Controller - Serial Controller"%string);
   (0x07, 0x01, "Simple Communication Controller - Parallel Controller"%string);
   (0x07, 0x02, "Simple Communication Controller - Multiport Serial Controller"%string);
   (0x07, 0x03, "Simple Communication Controller - Modem"%string);
   (0x07, 0x04, "Simple Communication Controller - IEEE 488.1 / 2 (GPIB)Controller"%string);
   (0x07, 0x05, "Simple Communication Controller - Smart Card"%string);
   (0x07, 0x80, "Simple Communication Controller - Other"%string);
   (0x08, 0x00, "Base System Peripheral - PIC"%string);
   (0x08, 0x01, "Base System Peripheral - DMA Controller"%string);
   (0x08, 0x02, "Base System Peripheral - Timer"%string);
   (0x08, 0x03, "Base System Peripheral - RTC Controller"%string);
   (0x08, 0x04, "Base System Peripheral - PCI Hot - Plug Controller"%string);
   (0x08, 0x05, "Base System Peripheral - SD Host controller"%string);
   (0x08, 0x06, "Base System Peripheral - IOMMU"%string);
   (0x08, 0x80, "Base System Peripheral - Other"%string);
   (0x09, 0x00, "Input Device Controller - Keyboard Controller"%string);
   (0x09, 0x01, "Input Device Controller - Digitizer Pen"%string);
   (0x09, 0x02, "Input Device Controller - Mouse Controller"%string);
   (0x09, 0x03, "Input Device Controller - Scanner Controller"%string);
   (0x09, 0x04, "Input Device Controller - Gameport Controller"%string);
   (0x09, 0x80, "Input Device Controller - Other"%string);
   (0x0A, 0x00, "Docking Station - Generic"%string);
   (0x0A, 0x80, "Docking Station - Other"%string);
   (0x0B, 0x00, "Processor - 386"%string);
   (0x0B, 0x01, "Processor - 486"%string);
   (0x0B, 0x02, "Processor - Pentium"%string);
   (0x0B, 0x10, "Processor - Alpha"%string);
   (0x0B, 0x20, "Processor - PowerPC"%string);
   (0x0B, 0x30, "Processor - MIPS"%string);
   (0x0B, 0x40, "Processor - Co - Processor"%string);
   (0x0C, 0x00, "Serial Bus Controller - FireWire(IEEE 1394) Controller"%string);
   (0x0C, 0x01, "Serial Bus Controller - ACCESS Bus"%string);
   (0x0C, 0x02, "Serial Bus Controller - SSA"%string);
   (0x0C, 0x03, "Serial Bus Controller - USB Controller"%string);
   (0x0C, 0x04, "Serial Bus Controller - Fibre Channel"%string);
   (0x0C, 0x05, "Serial Bus Controller - SMBus"%string);
   (0x0C, 0x06, "Serial Bus Controller - InfiniBand"%string);
   (0x0C, 0x07, "Serial Bus Controller - IPMI Interface"%string);
   (0x0C, 0x08, "Serial Bus Controller - SERCOS Interface(IEC 61491)"%string);
   (0x0C, 0x09, "Serial Bus Controller - CANbus"%string);
   (0x0D, 0x00, "Wireless Controller - iRDA Compatible Controller"%string);
   (0x0D, 0x01, "Wireless Controller - Consumer IR Controller"%string);
   (0x0D, 0x10, "Wireless Controller - RF Controller"%string);
   (0x0D, 0x11, "Wireless Controller - Bluetooth Controller"%string);
   (0x0D, 0x12, "Wireless Controller - Broadband Controller"%string);
   (0x0D, 0x20, "Wireless Controller - Ethernet Controller(802.1a)"%string);
   (0x0D, 0x21, "Wireless Controller - Ethernet Controller(802.1b)"%string);
   (0x0D, 0x80, "Wireless Controller - Other"%string);
   (0x0E, 0x00, "Intelligent Controller - I20"%string);
   (0x0F, 0x01, "Satellite Communication Controller - Satellite TV Controller"%string);
   (0x0F, 0x02, "Satellite Communication Controller - Satellite Audio Controller"%string);
   (0x0F, 0x03, "Satellite Communication Controller - Satellite Voice Controller"%string);
   (0x0F, 0x04, "Satellite Communication Controller - Satellite Data Controller"%string);
   (0x10, 0x00, "Encryption Controller - Network and Computing Encrpytion / Decryption"%string);
   (0x10, 0x10, "Encryption Controller - Entertainment Encryption / Decryption"%string);
   (0x10, 0x80, "Encryption Controller - Other Encryption / Decryption"%string);
   (0x11, 0x00, "Signal Processing Controller - DPIO Modules"%string);
   (0x11, 0x01, "Signal Processing Controller - Performance Counters"%string);
   (0x11, 0x10, "Signal Processing Controller - Communication Synchronizer"%string);
   (0x11, 0x20, "Signal Processing Controller - Signal Processing Management"%string);
   (0x11, 0x80, "Signal Processing Controller - Other"%string);
   (0x12, 0x00, "Processing Accelerator"%string);
   (0x13, 0x00, "Non - Essential Instrumentation"%string);
   (0x40, 0x00, "Co - Processor"%string);
   (0xFF, 0x00, "Unassigned Class "%string)].

Inductive BaseAddressRegisterType := MemoryMapping | InputOutput.

Record BaseAddressRegister := mkBAR {
  bar_address : Z;
  bar_size : Z;
  bar_type : BaseAddressRegisterType }.

Record PCIDeviceDescriptor := mkDescr {
  has_port_base : bool;
  port_base : Z;
  interruptLine : Z;
  interruptPin : Z;
  d_bus : Z;
  d_device : Z;
  d_function : Z;
  d_command : Z;
  d_status : Z;
  vendor_id : Z;
  device_id : Z;
  class_id : Z;
  subclass_id : Z;
  interface_id : Z;
  revision : Z;
  cacheLineSize : Z;
  latTimer : Z;
  BIST : Z;
  bars : list BaseAddressRegister }.

(** [PCIDeviceDescriptor::GetType]: the first entry of the table with the two codes. *)
Fixpoint GetType_loop (table : list (Z * Z * string)) (class_id subclass_id : Z) : string :=
  match table with
  | [] => "Unknown"%string
  | (c, s, description) :: table =>
    if (c =? class_id) && (s =? subclass_id) then description
    else GetType_loop table class_id subclass_id
  end.

Definition GetType (d : PCIDeviceDescriptor) : string :=
  GetType_loop ClassCodes (class_id d) (subclass_id d).

(** ** Configuration space *)

(** The address written to the command port. *)
Definition config_id (bus device function registeroffset : Z) : Z :=
  Z.lor (Z.lor (Z.lor (Z.lor (Z.shiftl 1 31)
    (Z.shiftl (Z.land bus 0xFF) 16))
    (Z.shiftl (Z.land device 0x1F) 11))
    (Z.shiftl (Z.land function 0x07) 8))
    (Z.land registeroffset 0xFC).

Section Bus.
Context {B : Type} (config_read : B -> Z -> Z) (config_write : B -> Z -> Z -> B).

(** [PCIBus::read] and [PCIBus::write]. *)
Definition read (b : B) (bus device function registeroffset : Z) : Z :=
  Z.shiftr (u32 (config_read b (config_id bus device function registeroffset)))
    (8 * (registeroffset mod 4)).

Definition write (b : B) (bus device function registeroffset value : Z) : B :=
  config_write b (config_id bus device function registeroffset) (u32 value).

(** [PCIBus::device_has_functions]. *)
Definition device_has_functions (b : B) (bus device : Z) : bool :=
  truthy (Z.land (read b bus device 0 0x0E) (Z.shiftl 1 7)).

(** [PCIBus::get_device_descriptor]: the fields the function does not set are [uninit]'s. *)
Definition get_device_descriptor (uninit : PCIDeviceDescriptor) (b : B)
    (bus device function : Z) : PCIDeviceDescriptor :=
  let rd := read b bus device function in
  {| has_port_base := has_port_base uninit;
     port_base := port_base uninit;
     interruptLine := u8 (rd 0x3C);
     interruptPin := u8 (rd 0x3D);
     d_bus := bus;
     d_device := device;
     d_function := function;
     d_command := u16 (rd PCI_DESCR_OFFSET_COMMAND);
     d_status := u16 (rd 0x06);
     vendor_id := u16 (rd PCI_DESCR_OFFSET_VEN_ID);
     device_id := u16 (rd PCI_DESCR_OFFSET_DEV_ID);
     class_id := u8 (rd 0x0B);
     subclass_id := u8 (rd 0x0A);
     interface_id := u8 (rd 0x09);
     revision := u8 (rd 0x08);
     cacheLineSize := u8 (rd 0x0C);
     latTimer := u8 (rd 0x0D);
     BIST := u8 (rd 0x0F);
     bars := bars uninit |}.

(** [PCIBus::get_base_address_register]; for a bridge the result stays uninitialised
    ([garbage]). *)
Definition get_base_address_register (garbage : BaseAddressRegister) (b : B)
    (bus device function bar : Z) : BaseAddressRegister * B :=
  let offset := PCI_DESCR_OFFSET_BAR0 + 4 * bar in
  let headerType := read b bus device function PCI_DESCR_OFFSET_HEAD_TYPE in
  if truthy (Z.land headerType 0x3F) then (garbage, b)
  else
    let bar_value := read b bus device function offset in
    let type := if truthy (Z.land bar_value 1) then InputOutput else MemoryMapping in
    let address := Z.land bar_value (u32 (Z.lnot 0xF)) in
    let b := write b bus device function offset
               (Z.lor 0xFFFFFFF0 (match type with InputOutput => 1 | MemoryMapping => 0 end)) in
    let size := read b bus device function offset in
    let size := u32 (Z.lor (u32 (Z.lnot size)) 0xF + 1) in
    let b := write b bus device function offset bar_value in
    (mkBAR address size type, b).

(** ** Enumeration *)

Definition set_bar (barNum : Z) (bar : BaseAddressRegister) (d : PCIDeviceDescriptor)
    : PCIDeviceDescriptor :=
  let io := truthy (bar_address bar) && match bar_type bar with InputOutput => true | MemoryMapping => false end in
  {| has_port_base := if io then true else has_port_base d;
     port_base := if io then u32 (bar_address bar) else port_base d;
     interruptLine := interruptLine d; interruptPin := interruptPin d;
     d_bus := d_bus d; d_device := d_device d; d_function := d_function d;
     d_command := d_command d; d_status := d_status d;
     vendor_id := vendor_id d; device_id := device_id d;
     class_id := class_id d; subclass_id := subclass_id d; interface_id := interface_id d;
     revision := revision d; cacheLineSize := cacheLineSize d; latTimer := latTimer d;
     BIST := BIST d;
     bars := <[Z.to_nat barNum := bar]> (bars d) |}.

(** [for (barNum = 5; barNum >= 0; barNum--)]. *)
Fixpoint read_bars (garbage : BaseAddressRegister) (n : nat) (b : B) (d : PCIDeviceDescriptor)
    : PCIDeviceDescriptor * B :=
  match n with
  | O => (d, b)
  | S n =>
    let '(bar, b) := get_base_address_register garbage b (d_bus d) (d_device d) (d_function d) (Z.of_nat n) in
    read_bars garbage n b (set_bar (Z.of_nat n) bar d)
  end.

(** A vendor that marks an absent function. *)
Definition absent (vendor : Z) : bool :=
  (vendor =? 0x0000) || (vendor =? 0x0001) || (vendor =? 0xFFFF).

(** One function of one device: what the innermost loop of [PCIBus::Initialize] adds. *)
Definition probe (uninit : PCIDeviceDescriptor) (garbage : BaseAddressRegister)
    (bus device : Z) (acc : list PCIDeviceDescriptor * B) (function : Z)
    : list PCIDeviceDescriptor * B :=
  let '(found, b) := acc in
  let d := get_device_descriptor uninit b bus device function in
  if absent (vendor_id d) then (found, b)
  else let '(d, b) := read_bars garbage 6 b d in (found ++ [d], b).

Definition numFunctions (b : B) (bus device : Z) : Z :=
  if device_has_functions b bus device then 8 else 1.

Definition probe_device (uninit : PCIDeviceDescriptor) (garbage : BaseAddressRegister)
    (bus : Z) (acc : list PCIDeviceDescriptor * B) (device : Z) : list PCIDeviceDescriptor * B :=
  fold_left (probe uninit garbage bus device) (seqZ 0 (numFunctions (snd acc) bus device)) acc.

Definition probe_bus (uninit : PCIDeviceDescriptor) (garbage : BaseAddressRegister)
    (acc : list PCIDeviceDescriptor * B) (bus : Z) : list PCIDeviceDescriptor * B :=
  fold_left (probe_device uninit garbage bus) (seqZ 0 32) acc.

(** The enumeration of [PCIBus::Initialize]. *)
Definition enumerate (uninit : PCIDeviceDescriptor) (garbage : BaseAddressRegister) (b : B)
    : list PCIDeviceDescriptor * B :=
  fold_left (probe_bus uninit garbage) (seqZ 0 8) ([], b).

(** [PCIDevice::SetMemEnabled]: the new command register, written to the device. *)
Definition SetMemEnabled (enabled : bool) (d : PCIDeviceDescriptor) (b : B)
    : PCIDeviceDescriptor * B :=
  let flags := 0x0007 in
  let command := if enabled then Z.lor (d_command d) flags
                 else u16 (Z.land (d_command d) (Z.lnot flags)) in
  ({| has_port_base := has_port_base d; port_base := port_base d;
      interruptLine := interruptLine d; interruptPin := interruptPin d;
      d_bus := d_bus d; d_device := d_device d; d_function := d_function d;
      d_command := command; d_status := d_status d;
      vendor_id := vendor_id d; device_id := device_id d;
      class_id := class_id d; subclass_id := subclass_id d; interface_id := interface_id d;
      revision := revision d; cacheLineSize := cacheLineSize d; latTimer := latTimer d;
      BIST := BIST d; bars := bars d |},
   write b (d_bus d) (d_device d) (d_function d) PCI_DESCR_OFFSET_COMMAND command).

End Bus.

(** [PCIDevice::GetBAR]. *)
Definition GetBAR (d : PCIDeviceDescriptor) (id : Z) : outcome BaseAddressRegister :=
  _ ← Assert (id <? 6);
  match bars d !! Z.to_nat id with Some bar => Ret bar | None => Fault end.

(** The drivers [PCIBus::FindDeviceDrivers] hands to the driver manager. *)
Inductive pci_driver := AHCIDriver | VMware_SVGA2_Driver.

Definition driver_for (d : PCIDeviceDescriptor) : option pci_driver :=
  if vendor_id d =? PCI_VEN_ID_INTEL then
    if device_id d =? PCI_DEVICE_ID_INTEL_82801IR then Some AHCIDriver else None
  else if vendor_id d =? PCI_VENDOR_ID_VMWARE then
    if device_id d =? PCI_DEVICE_ID_VMWARE_SVGA2 then Some VMware_SVGA2_Driver else None
  else None.

Definition FindDeviceDrivers (devices : list PCIDeviceDescriptor)
    : list (PCIDeviceDescriptor * pci_driver) :=
  omap (fun d => pair d <$> driver_for d) devices.

(** ** Interrupt routing *)

(** [PciBusRounting]: the parent bus, the bridge's device on it, the lines by device and pin
    (0: none). *)
Record PciBusRounting := mkRouting {
  m_parent : Z;
  m_device : Z;
  m_irq : gmap (Z * Z) Z }.

Definition irq_at (r : PciBusRounting) (device pin : Z) : Z := default 0 (m_irq r !! (device, pin)).

Definition routing_table : Type := gmap Z PciBusRounting.

(** [PCIBus::RegisterRoutingBus]. *)
Definition RegisterRoutingBus (bus parentBus device : Z) (t : routing_table)
    : routing_table * bool :=
  if (Buses <=? bus) || (Buses <=? parentBus) || (Devices <=? device) then (t, false)
  else (<[bus := mkRouting parentBus device ∅]> t, true).

(** [PCIBus::AddDeviceRouting]; pins count from 1. *)
Definition AddDeviceRouting (bus device pin irq : Z) (t : routing_table) : routing_table * bool :=
  let pin := u32 (pin - 1) in
  if (Pins <=? pin) || (Buses <=? bus) || (Devices <=? device) then (t, false)
  else
    match t !! bus with
    | None => (t, false)
    | Some r => (<[bus := mkRouting (m_parent r) (m_device r) (<[(device, pin) := irq]> (m_irq r))]> t, true)
    end.

(** The loop of [getPciDeviceIrq]: while there is no line, go to the parent bus. *)
Fixpoint irq_loop (fuel : nat) (t : routing_table) (bus offset irq : Z) : outcome Z :=
  if irq =? 0 then
    match fuel with
    | O => Diverged
    | S fuel =>
      match t !! bus with
      | None => Fault
      | Some r =>
        if bus =? m_parent r then Ret irq
        else
          let offset := u32 (offset + m_device r) in
          match t !! m_parent r with
          | None => Fault
          | Some p => irq_loop fuel t (m_parent r) offset (irq_at p 0 (offset mod Pins))
          end
      end
    end
  else Ret irq.

(** [PCIBus::getPciDeviceIrq]. *)
Definition getPciDeviceIrq (fuel : nat) (bus device pin : Z) (t : routing_table) : outcome Z :=
  let pin := u32 (pin - 1) in
  if (Pins <=? pin) || (Buses <=? bus) || (Devices <=? device) then Ret 0
  else
    match t !! bus with
    | None => Ret 0
    | Some r => irq_loop fuel t bus (u32 (device + pin)) (irq_at r device pin)
    end.

(** ** What configuration space hardware does

    A base address register of [2^bits] bytes keeps the address bits written to it and reads
    its type in the low bits; no other register changes.  (A register that is not implemented
    keeps no bit, and the upper half of a 64-bit one may keep them all.) *)
Class BarHardware {B : Type} (config_read : B -> Z -> Z) (config_write : B -> Z -> Z -> B) := {
  bar_register : Z -> Prop;
  bar_bits : Z -> Z;
  bar_flags : Z -> Z;
  bar_range id : bar_register id -> 0 <= bar_bits id <= 32 /\ 0 <= bar_flags id < 2 ^ Z.min 4 (bar_bits id);
  write_other b id id' v : bar_register id -> id' <> id ->
    config_read (config_write b id v) id' = config_read b id';
  write_same b id v : bar_register id -> 0 <= v < 2 ^ 32 ->
    config_read (config_write b id v) id = Z.lor (Z.land v (2 ^ 32 - 2 ^ bar_bits id)) (bar_flags id);
  reads_masked b id : bar_register id -> exists v, 0 <= v < 2 ^ 32 /\
    config_read b id = Z.lor (Z.land v (2 ^ 32 - 2 ^ bar_bits id)) (bar_flags id) }.

(** ** Addresses *)

Lemma land_low_two o : 0 <= o < 2 ^ 8 -> Z.land o 0xFC = o / 4 * 4.
Proof. intros. change 0xFC with (wrap 8 (Z.lnot (2 ^ 2 - 1))). by rewrite land_lnot_low by lia. Qed.

(** The fields of an address. *)
Lemma config_id_sum bus device function offset :
  0 <= bus < 256 -> 0 <= device < 32 -> 0 <= function < 8 -> 0 <= offset < 256 ->
  config_id bus device function offset =
    2 ^ 31 + bus * 2 ^ 16 + device * 2 ^ 11 + function * 2 ^ 8 + offset / 4 * 4.
Proof.
  intros Hb Hd Hf Ho. unfold config_id.
  change (Z.land bus 0xFF) with (Z.land bus (Z.ones 8)).
  change (Z.land device 0x1F) with (Z.land device (Z.ones 5)).
  change (Z.land function 0x07) with (Z.land function (Z.ones 3)).
  rewrite land_low_two by lia. rewrite !Z.land_ones by lia.
  rewrite (Z.mod_small bus), (Z.mod_small device), (Z.mod_small function) by lia.
  rewrite !Z.shiftl_mul_pow2 by lia.
  assert (0 <= offset / 4 < 64) by (split; [apply Z.div_pos | apply Z.div_lt_upper_bound]; lia).
  replace (1 * 2 ^ 31) with (128 * 2 ^ 24) by lia. rewrite lor_shift_add by lia.
  replace (128 * 2 ^ 24 + bus * 2 ^ 16) with ((128 * 2 ^ 8 + bus) * 2 ^ 16) by lia.
  rewrite lor_shift_add by lia.
  replace ((128 * 2 ^ 8 + bus) * 2 ^ 16 + device * 2 ^ 11)
    with (((128 * 2 ^ 8 + bus) * 2 ^ 5 + device) * 2 ^ 11) by lia.
  rewrite lor_shift_add by lia.
  replace (((128 * 2 ^ 8 + bus) * 2 ^ 5 + device) * 2 ^ 11 + function * 2 ^ 8)
    with ((((128 * 2 ^ 8 + bus) * 2 ^ 5 + device) * 2 ^ 3 + function) * 2 ^ 8) by lia.
  rewrite lor_shift_add by lia. lia.
Qed.

(** Different registers have different addresses. *)
Lemma config_id_inj bus device function offset bus' device' function' offset' :
  0 <= bus < 256 -> 0 <= device < 32 -> 0 <= function < 8 -> 0 <= offset < 256 ->
  0 <= bus' < 256 -> 0 <= device' < 32 -> 0 <= function' < 8 -> 0 <= offset' < 256 ->
  config_id bus device function offset = config_id bus' device' function' offset' ->
  bus = bus' /\ device = device' /\ function = function' /\ offset / 4 = offset' / 4.
Proof.
  intros Hb Hd Hf Ho Hb' Hd' Hf' Ho'. rewrite !config_id_sum by done.
  assert (0 <= offset / 4 < 64) by (split; [apply Z.div_pos | apply Z.div_lt_upper_bound]; lia).
  assert (0 <= offset' / 4 < 64) by (split; [apply Z.div_pos | apply Z.div_lt_upper_bound]; lia).
  lia.
Qed.

(** ** Base address registers *)

Section Bars.
Context {B : Type} {config_read : B -> Z -> Z} {config_write : B -> Z -> Z -> B}.
Context `{!BarHardware config_read config_write}.

(** Two states that read the same everywhere. *)
Definition same_reads (b b' : B) : Prop := forall id, config_read b' id = config_read b id.

Lemma read_same b b' bus device function offset :
  same_reads b b' -> read config_read b' bus device function offset = read config_read b bus device function offset.
Proof. intros H. unfold read. by rewrite H. Qed.

(** The mask of a register of [2^k] bytes. *)
Lemma mask_bits k : 0 <= k <= 32 -> 2 ^ 32 - 2 ^ k = Z.shiftl (Z.ones (32 - k)) k.
Proof.
  intros Hk. rewrite Z.shiftl_mul_pow2, Z.ones_equiv by lia.
  replace (2 ^ 32) with (2 ^ (32 - k) * 2 ^ k); [lia |]. rewrite <- Z.pow_add_r by lia. f_equal. lia.
Qed.

Lemma land_mask v k : 0 <= k <= 32 -> 0 <= v < 2 ^ 32 -> Z.land v (2 ^ 32 - 2 ^ k) = v / 2 ^ k * 2 ^ k.
Proof.
  intros Hk Hv. rewrite <- (land_lnot_low k v 32) by lia. f_equal.
  unfold wrap. assert (0 < 2 ^ k <= 2 ^ 32) by (split; [lia | apply Z.pow_le_mono_r; lia]).
  replace (Z.lnot (2 ^ k - 1)) with (- 2 ^ k) by (unfold Z.lnot; lia).
  destruct (decide (2 ^ k = 2 ^ 32)) as [-> |]; [done |].
  apply (Z.mod_unique_pos _ _ (-1)); lia.
Qed.

Lemma bar_value_sum v k f :
  0 <= k <= 32 -> 0 <= f < 2 ^ Z.min 4 k -> 0 <= v < 2 ^ 32 ->
  Z.lor (Z.land v (2 ^ 32 - 2 ^ k)) f = v / 2 ^ k * 2 ^ k + f.
Proof.
  intros Hk Hf Hv. rewrite land_mask by lia.
  apply lor_shift_add; [lia |]. assert (2 ^ Z.min 4 k <= 2 ^ k) by (apply Z.pow_le_mono_r; lia). lia.
Qed.

Lemma bar_value_range v k f :
  0 <= k <= 32 -> 0 <= f < 2 ^ Z.min 4 k -> 0 <= v < 2 ^ 32 -> 0 <= v / 2 ^ k * 2 ^ k + f < 2 ^ 32.
Proof.
  intros Hk Hf Hv. assert (0 < 2 ^ k) by lia. assert (2 ^ Z.min 4 k <= 2 ^ k) by (apply Z.pow_le_mono_r; lia).
  assert (0 <= v / 2 ^ k) by (apply Z.div_pos; lia).
  assert (2 ^ 32 = 2 ^ (32 - k) * 2 ^ k) as He by (rewrite <- Z.pow_add_r by lia; f_equal; lia).
  assert (v / 2 ^ k < 2 ^ (32 - k)) by (apply Z.div_lt_upper_bound; lia). nia.
Qed.

Lemma bar_offset bar : 0 <= bar < 6 -> (PCI_DESCR_OFFSET_BAR0 + 4 * bar) mod 4 = 0.
Proof.
  intros. unfold PCI_DESCR_OFFSET_BAR0. replace (0x10 + 4 * bar) with ((4 + bar) * 4) by lia.
  by rewrite Z.mod_mul.
Qed.

(** Reading a register that is a whole doubleword. *)
Lemma read_aligned b bus device function offset :
  offset mod 4 = 0 -> read config_read b bus device function offset =
    u32 (config_read b (config_id bus device function offset)).
Proof. intros Ho. unfold read. by rewrite Ho, Z.mul_0_r, Z.shiftr_0_r. Qed.

(** The size computed from what a register reads after all its bits were written. *)
Lemma size_decode k f :
  4 <= k <= 32 -> 0 <= f < 16 ->
  u32 (Z.lor (u32 (Z.lnot (2 ^ 32 - 2 ^ k + f))) 0xF + 1) = u32 (2 ^ k).
Proof.
  intros Hk Hf. assert (2 ^ 4 <= 2 ^ k <= 2 ^ 32) as Hp by (split; apply Z.pow_le_mono_r; lia).
  assert (u32 (Z.lnot (2 ^ 32 - 2 ^ k + f)) = 2 ^ k - 1 - f) as ->.
  { unfold wrap, Z.lnot. symmetry. apply (Z.mod_unique_pos _ _ (-1)); lia. }
  assert (2 ^ k = 2 ^ (k - 4) * 2 ^ 4) as He by (rewrite <- Z.pow_add_r by lia; f_equal; lia).
  replace (2 ^ k - 1 - f) with ((2 ^ (k - 4) - 1) * 2 ^ 4 + (15 - f)) by lia.
  rewrite <- lor_shift_add by lia. rewrite <- Z.lor_assoc.
  assert (Z.lor (15 - f) 0xF = 0xF) as ->.
  { assert (f = 0 \/ f = 1 \/ f = 2 \/ f = 3 \/ f = 4 \/ f = 5 \/ f = 6 \/ f = 7 \/ f = 8 \/ f = 9 \/
      f = 10 \/ f = 11 \/ f = 12 \/ f = 13 \/ f = 14 \/ f = 15) as Hc by lia.
    repeat destruct Hc as [-> | Hc]; [reflexivity .. |]. by rewrite Hc. }
  rewrite lor_shift_add by lia. f_equal. lia.
Qed.

Lemma get_bar_run (garbage : BaseAddressRegister) (b : B) bus device function bar :
  0 <= bar < 6 ->
  let id := config_id bus device function (PCI_DESCR_OFFSET_BAR0 + 4 * bar) in
  (Z.land (read config_read b bus device function PCI_DESCR_OFFSET_HEAD_TYPE) 0x3F = 0 -> bar_register id) ->
  exists r b', get_base_address_register config_read config_write garbage b bus device function bar = (r, b') /\
    same_reads b b' /\
    (Z.land (read config_read b bus device function PCI_DESCR_OFFSET_HEAD_TYPE) 0x3F = 0 -> 4 <= bar_bits id ->
     r = mkBAR (Z.land (config_read b id) (u32 (Z.lnot 0xF))) (u32 (2 ^ bar_bits id))
           (if truthy (Z.land (config_read b id) 1) then InputOutput else MemoryMapping)).
Proof.
  intros Hbar id Hid. unfold get_base_address_register. cbv zeta.
  destruct (truthy (Z.land (read config_read b bus device function PCI_DESCR_OFFSET_HEAD_TYPE) 0x3F)) eqn:Hh.
  { exists garbage, b. split; [done |]. split; [by intros ? |]. intros H0. by rewrite H0 in Hh. }
  specialize (Hid ltac:(by apply negb_false_iff, Z.eqb_eq in Hh)).
  rewrite !read_aligned by by apply bar_offset. unfold write. fold id.
  destruct (bar_range id Hid) as [Hk Hf].
  destruct (reads_masked b id Hid) as (v & Hv & Hr).
  pose proof (bar_value_range v _ _ Hk Hf Hv) as Hrange.
  assert (u32 (config_read b id) = config_read b id) as Hu
    by (rewrite Hr, bar_value_sum by done; by apply wrap_small).
  rewrite Hu.
  set (ones := u32 (Z.lor 0xFFFFFFF0 _)).
  assert (0 <= ones < 2 ^ 32) as Hones by (apply wrap_range; lia).
  eexists _, _. split; [reflexivity |]. split.
  - intros id'. destruct (decide (id' = id)) as [-> | Hne].
    + rewrite write_same by (done || rewrite Hu, Hr, bar_value_sum by done; done).
      rewrite Hu, Hr, !bar_value_sum by (done || rewrite bar_value_sum by done; done).
      assert (2 ^ Z.min 4 (bar_bits id) <= 2 ^ bar_bits id) by (apply Z.pow_le_mono_r; lia).
      rewrite Z.div_add_l, (Z.div_small (bar_flags id)) by lia. lia.
    + by rewrite !write_other.
  - intros _ Hk4. replace (Z.min 4 (bar_bits id)) with 4 in Hf by lia. change (2 ^ 4) with 16 in Hf.
    f_equal. rewrite write_same by done.
    assert (16 * (ones / 16) = 0xFFFFFFF0) as Hhi by (unfold ones; by destruct (truthy (Z.land (config_read b id) 1))).
    rewrite bar_value_sum by (done || (replace (Z.min 4 (bar_bits id)) with 4 by lia; done)).
    assert (ones / 2 ^ bar_bits id * 2 ^ bar_bits id = 2 ^ 32 - 2 ^ bar_bits id) as ->.
    { assert (2 ^ 4 <= 2 ^ bar_bits id <= 2 ^ 32) by (split; apply Z.pow_le_mono_r; lia).
      assert (2 ^ 32 = 2 ^ (32 - bar_bits id) * 2 ^ bar_bits id) as He
        by (rewrite <- Z.pow_add_r by lia; f_equal; lia).
      assert (ones / 2 ^ bar_bits id = 2 ^ (32 - bar_bits id) - 1) as ->; [| lia].
      symmetry. apply Z.div_unique with (r := ones - (2 ^ 32 - 2 ^ bar_bits id)); [| lia].
      left. pose proof (Z.div_mod ones 16). pose proof (Z.mod_pos_bound ones 16). lia. }
    rewrite (wrap_small 32 (2 ^ 32 - 2 ^ bar_bits id + bar_flags id)) by
      (assert (2 ^ 4 <= 2 ^ bar_bits id <= 2 ^ 32) by (split; apply Z.pow_le_mono_r; lia); lia).
    apply size_decode; lia.
Qed.

(** ** Enumeration *)

(** What a function's vendor register reads, and whether something is there. *)
Definition vendor_at (b : B) (bus device function : Z) : Z :=
  u16 (read config_read b bus device function PCI_DESCR_OFFSET_VEN_ID).

Definition present (b : B) (bus device function : Z) : bool :=
  negb (absent (vendor_at b bus device function)).

(** All base address registers of the functions that are there behave, except those of bridges, which
    are not touched. *)
Definition bars_behave (b : B) : Prop :=
  forall bus device function bar, 0 <= bus < 8 -> 0 <= device < 32 -> 0 <= function < 8 ->
    present b bus device function = true ->
    Z.land (read config_read b bus device function PCI_DESCR_OFFSET_HEAD_TYPE) 0x3F = 0 ->
    0 <= bar < 6 -> bar_register (config_id bus device function (PCI_DESCR_OFFSET_BAR0 + 4 * bar)).

(** Where a descriptor was read. *)
Definition location (d : PCIDeviceDescriptor) : Z * Z * Z := (d_bus d, d_device d, d_function d).

Definition on_bus (d : PCIDeviceDescriptor) : Prop :=
  0 <= d_bus d < 8 /\ 0 <= d_device d < 32 /\ 0 <= d_function d < 8.

Lemma set_bar_location n bar d : location (set_bar n bar d) = location d.
Proof. done. Qed.

Lemma same_reads_trans b1 b2 b3 : same_reads b1 b2 -> same_reads b2 b3 -> same_reads b1 b3.
Proof. intros H1 H2 id. by rewrite H2, H1. Qed.

Lemma read_bars_run garbage b0 (n : nat) : forall b d,
  bars_behave b0 -> same_reads b0 b -> present b0 (d_bus d) (d_device d) (d_function d) = true -> on_bus d -> (n <= 6)%nat ->
  same_reads b (read_bars config_read config_write garbage n b d).2 /\
  location (read_bars config_read config_write garbage n b d).1 = location d /\
  vendor_id (read_bars config_read config_write garbage n b d).1 = vendor_id d.
Proof.
  induction n as [| n IH]; intros b d Hb Hsame Hpres Hd Hn; [done |]. cbn [read_bars].
  destruct (get_bar_run garbage b (d_bus d) (d_device d) (d_function d) (Z.of_nat n)) as (r & b' & Hg & Hs & _);
    [lia | rewrite (read_same b0 b) by done; intros Hh; apply Hb; (apply Hd || done || lia) |].
  rewrite Hg. destruct (IH b' (set_bar (Z.of_nat n) r d) Hb (same_reads_trans _ _ _ Hsame Hs) Hpres Hd ltac:(lia)) as (Hs' & Hl & Hv).
  split; [by apply same_reads_trans with b' | done].
Qed.

(** The functions that are there, in the order in which they are probed. *)
Definition device_functions (b : B) (bus device : Z) : list (Z * Z * Z) :=
  (fun f => (bus, device, f)) <$>
    base.filter (fun f => present b bus device f = true) (seqZ 0 (numFunctions config_read b bus device)).

Definition bus_functions (b : B) (bus : Z) : list (Z * Z * Z) :=
  mjoin (device_functions b bus <$> seqZ 0 32).

Definition all_functions (b : B) : list (Z * Z * Z) := mjoin (bus_functions b <$> seqZ 0 8).

(** What an enumeration step does to the list found so far. *)
Definition finds (b0 : B) (acc acc' : list PCIDeviceDescriptor * B) (l : list (Z * Z * Z)) : Prop :=
  same_reads b0 acc'.2 /\ location <$> acc'.1 = (location <$> acc.1) ++ l.

Lemma fold_finds {X} (step : list PCIDeviceDescriptor * B -> X -> list PCIDeviceDescriptor * B)
    (found : X -> list (Z * Z * Z)) (b0 : B) (xs : list X) : forall acc,
  (forall x acc, x ∈ xs -> same_reads b0 acc.2 -> finds b0 acc (step acc x) (found x)) ->
  same_reads b0 acc.2 -> finds b0 acc (fold_left step xs acc) (mjoin (found <$> xs)).
Proof.
  induction xs as [| x xs IH]; intros acc Hstep Hacc.
  - split; [done |]. cbn. by rewrite app_nil_r.
  - cbn [fold_left]. destruct (Hstep x acc) as [H1 H2]; [by left | done |].
    destruct (IH (step acc x)) as [H3 H4]; [| done |].
    + intros y acc' Hy. apply Hstep. by right.
    + split; [done |]. rewrite H4, H2. cbn. by rewrite app_assoc.
Qed.

Lemma probe_finds uninit garbage b0 bus device f acc :
  bars_behave b0 -> 0 <= bus < 8 -> 0 <= device < 32 -> 0 <= f < 8 -> same_reads b0 acc.2 ->
  finds b0 acc (probe config_read config_write uninit garbage bus device acc f)
    (if present b0 bus device f then [(bus, device, f)] else []).
Proof.
  intros Hb Hbus Hdev Hf Hacc. destruct acc as [found b]. unfold probe, present.
  set (d := get_device_descriptor config_read uninit b bus device f).
  assert (vendor_id d = vendor_at b0 bus device f) as ->.
  { unfold d, vendor_at. cbn. by rewrite (read_same b0 b). }
  destruct (absent (vendor_at b0 bus device f)) eqn:Hpres; cbn [negb].
  - split; [done |]. cbn. by rewrite app_nil_r.
  - destruct (read_bars_run garbage b0 6 b d Hb Hacc) as (Hs & Hl & _);
      [unfold present; cbn; by rewrite Hpres | done | lia |].
    destruct (read_bars config_read config_write garbage 6 b d) as [d' b'].
    change (location d' = location d) in Hl.
    split; [by apply same_reads_trans with b |].
    change (location <$> (found ++ [d']) = (location <$> found) ++ [(bus, device, f)]).
    rewrite fmap_app. cbn [fmap list_fmap]. by rewrite Hl.
Qed.

Lemma numFunctions_same b0 b bus device :
  same_reads b0 b -> numFunctions config_read b bus device = numFunctions config_read b0 bus device.
Proof. intros H. unfold numFunctions, device_has_functions. by rewrite (read_same b0 b). Qed.

Lemma numFunctions_range b bus device : 0 <= numFunctions config_read b bus device <= 8.
Proof. unfold numFunctions. destruct (device_has_functions config_read b bus device); lia. Qed.

Lemma filter_join (P : Z -> bool) (g : Z -> Z * Z * Z) (l : list Z) :
  mjoin ((fun f => if P f then [g f] else []) <$> l) = g <$> base.filter (fun f => P f = true) l.
Proof.
  induction l as [| x l IH]; [done |]. rewrite filter_cons, fmap_cons.
  change (mjoin ((if P x then [g x] else []) :: ((fun f => if P f then [g f] else []) <$> l)))
    with ((if P x then [g x] else []) ++ mjoin ((fun f => if P f then [g f] else []) <$> l)).
  rewrite IH. destruct (P x) eqn:Hx.
  - by rewrite decide_True.
  - by rewrite decide_False by congruence.
Qed.

Lemma enumerate_run uninit garbage b0 :
  bars_behave b0 -> finds b0 ([], b0) (enumerate config_read config_write uninit garbage b0) (all_functions b0).
Proof.
  intros Hb. unfold enumerate, all_functions. apply fold_finds; [| done].
  intros bus acc Hbus Hacc. apply elem_of_seqZ in Hbus. unfold probe_bus, bus_functions.
  apply fold_finds; [| done].
  intros device acc1 Hdev Hacc1. apply elem_of_seqZ in Hdev. unfold probe_device, device_functions.
  rewrite (numFunctions_same b0) by done. rewrite <- filter_join.
  apply fold_finds; [| done].
  intros f acc2 Hf Hacc2. apply elem_of_seqZ in Hf. pose proof (numFunctions_range b0 bus device).
  apply probe_finds; (done || lia).
Qed.

End Bars.

(** ** Which functions there are *)

(** The ordinals of chunks that lie behind each other. *)
Lemma sorted_mjoin {A} (key : A -> Z) (f : Z -> list A) (base w : Z) (n : nat) :
  (forall i, StronglySorted Z.lt (key <$> f i)) -> (forall i a, a ∈ f i -> base + i * w <= key a < base + (i + 1) * w) ->
  0 < w -> StronglySorted Z.lt (key <$> mjoin (f <$> seqZ 0 (Z.of_nat n))).
Proof.
  intros Hf Hk Hw. induction n as [| n IH]; [constructor |].
  rewrite seqZ_S, fmap_app, join_app, fmap_app. apply StronglySorted_app_2; [| exact IH | cbn; rewrite app_nil_r; apply Hf].
  intros x y Hx Hy. apply list_elem_of_fmap in Hx as (a & -> & Ha), Hy as (c & -> & Hc).
  apply list_elem_of_join in Ha as (l & Ha & Hl). apply list_elem_of_fmap in Hl as (i & -> & Hi). apply elem_of_seqZ in Hi.
  cbn in Hc. rewrite app_nil_r in Hc. apply Hk in Ha, Hc. nia.
Qed.

(** The number of a function in the order of the bus, the device and the function. *)
Definition ordinal (p : Z * Z * Z) : Z := p.1.1 * 256 + p.1.2 * 8 + p.2.

Section Present.
Context {B : Type} (config_read : B -> Z -> Z).

Lemma elem_of_device_functions b bus device p :
  p ∈ device_functions (config_read := config_read) b bus device <->
  exists f, p = (bus, device, f) /\ 0 <= f < numFunctions config_read b bus device /\
    present (config_read := config_read) b bus device f = true.
Proof.
  unfold device_functions. rewrite list_elem_of_fmap.
  split; intros (f & -> & Hf); exists f; (split; [done |]).
  - apply list_elem_of_filter in Hf as [Hp Hf]. apply elem_of_seqZ in Hf. split; [lia | done].
  - apply list_elem_of_filter. rewrite elem_of_seqZ. destruct Hf. split; [done | lia].
Qed.

Lemma elem_of_all_functions b bus device f :
  (bus, device, f) ∈ all_functions (config_read := config_read) b <->
  0 <= bus < 8 /\ 0 <= device < 32 /\ 0 <= f < numFunctions config_read b bus device /\
  present (config_read := config_read) b bus device f = true.
Proof.
  unfold all_functions, bus_functions. rewrite list_elem_of_join. split.
  - intros (l & Hin & Hl). apply list_elem_of_fmap in Hl as (i & -> & Hi).
    apply list_elem_of_join in Hin as (l & Hin & Hl). apply list_elem_of_fmap in Hl as (j & -> & Hj).
    apply elem_of_device_functions in Hin as (g & [= -> -> ->] & Hg).
    apply elem_of_seqZ in Hi, Hj. destruct Hg. split_and!; (done || lia).
  - intros (Hb & Hd & Hf & Hp). exists (bus_functions (config_read := config_read) b bus). split.
    + unfold bus_functions. apply list_elem_of_join.
      exists (device_functions (config_read := config_read) b bus device). split.
      * apply elem_of_device_functions. by exists f.
      * apply list_elem_of_fmap. exists device. rewrite elem_of_seqZ. split; [done | lia].
    + apply list_elem_of_fmap. exists bus. rewrite elem_of_seqZ. split; [done | lia].
Qed.

Lemma sorted_all_functions b : StronglySorted Z.lt (ordinal <$> all_functions (config_read := config_read) b).
Proof.
  assert (forall bus device p, p ∈ device_functions (config_read := config_read) b bus device ->
    bus * 256 + device * 8 <= ordinal p < bus * 256 + (device + 1) * 8) as Hdev.
  { intros bus device p Hp. apply elem_of_device_functions in Hp as (f & -> & Hf & _). unfold ordinal. cbn [fst snd].
    pose proof (numFunctions_range (config_read := config_read) b bus device). lia. }
  unfold all_functions. apply (sorted_mjoin ordinal _ 0 256 8); [| | lia].
  - intros bus. unfold bus_functions. apply (sorted_mjoin ordinal _ (bus * 256) 8 32); [| apply Hdev | lia].
    intros device. unfold device_functions. rewrite <- list_fmap_compose.
    apply StronglySorted_fmap with (R1 := Z.lt); [intros x y Hxy; unfold ordinal; cbn; lia |].
    generalize (numFunctions config_read b bus device). intros n.
    destruct (Z.le_gt_cases n 0) as [Hn | Hn]; [rewrite seqZ_nil by lia; constructor |].
    rewrite <- (Z2Nat.id n) by lia. generalize (Z.to_nat n). clear. intros n. induction n as [| n IH]; [constructor |].
    rewrite seqZ_S, filter_app. apply StronglySorted_app_2; [| exact IH | cbn; by case_decide; repeat constructor].
    intros x y [_ Hx%elem_of_seqZ]%list_elem_of_filter [_ Hy%list_elem_of_singleton]%list_elem_of_filter. lia.
  - intros bus p Hp. unfold bus_functions in Hp. apply list_elem_of_join in Hp as (l & Hin & Hl).
    apply list_elem_of_fmap in Hl as (j & -> & Hj). apply elem_of_seqZ in Hj. apply Hdev in Hin. lia.
Qed.

End Present.

(** ** Routing *)

(** The line of a pin by the rule for bridges: the bus's own entry; without one, the bridge's
    entry on the parent bus for the pin moved on by the device's number. *)
Inductive routed (t : routing_table) : Z -> Z -> Z -> Z -> Prop :=
| routed_here bus r device pin :
    t !! bus = Some r -> irq_at r device pin <> 0 -> routed t bus device pin (irq_at r device pin)
| routed_none bus r device pin :
    t !! bus = Some r -> irq_at r device pin = 0 -> m_parent r = bus -> routed t bus device pin 0
| routed_up bus r device pin irq :
    t !! bus = Some r -> irq_at r device pin = 0 -> m_parent r <> bus ->
    routed t (m_parent r) (m_device r) ((device + pin) mod Pins) irq -> routed t bus device pin irq.

(** Tables whose rows are all the first row, moved on by the device's number. *)
Definition swizzled (t : routing_table) : Prop :=
  forall bus r device pin, t !! bus = Some r -> 0 <= device < Devices -> 0 <= pin < Pins ->
    irq_at r device pin = irq_at r 0 ((device + pin) mod Pins).

(** Buses whose parents lead to a bus that is its own parent, in [rank bus] steps at most. *)
Definition buses_ok (t : routing_table) (rank : Z -> nat) : Prop :=
  forall bus r, t !! bus = Some r -> 0 <= m_device r < Devices /\
    (m_parent r <> bus -> is_Some (t !! m_parent r) /\ (rank (m_parent r) < rank bus)%nat).

(** Registering a bus whose parent is there (or is the bus itself) keeps the buses in order. *)
Lemma u32_mod_pins x : u32 x mod Pins = x mod Pins.
Proof. unfold wrap, Pins. rewrite <- Znumtheory.Zmod_div_mod; [done | lia | lia |]. by exists (2 ^ 30). Qed.

Lemma irq_loop_run (t : routing_table) (rank : Z -> nat) :
  swizzled t -> buses_ok t rank ->
  forall fuel bus r device pin offset,
    t !! bus = Some r -> (rank bus < fuel)%nat -> 0 <= device < Devices -> 0 <= pin < Pins ->
    offset mod Pins = (device + pin) mod Pins ->
    exists irq, irq_loop fuel t bus offset (irq_at r device pin) = Ret irq /\
      routed t bus device pin irq.
Proof.
  intros Hsw Hok. induction fuel as [| fuel IH]; intros bus r device pin offset Hr Hrk Hd Hp Ho; [lia |].
  cbn [irq_loop]. destruct (Z.eqb_spec (irq_at r device pin) 0) as [Hz | Hz].
  2: { eexists. split; [reflexivity |]. by apply routed_here. }
  rewrite Hr. destruct (Z.eqb_spec bus (m_parent r)) as [Hroot | Hup].
  { exists 0. split; [by rewrite Hz |]. by eapply routed_none. }
  destruct (Hok bus r Hr) as [Hdev Hpar]. destruct (Hpar ltac:(done)) as [[pr Hpr] Hlt].
  rewrite Hpr. unfold Devices, Pins in *.
  assert (0 <= (device + pin) mod 4 < 4) by (apply Z.mod_pos_bound; lia).
  assert (irq_at pr 0 (u32 (offset + m_device r) mod 4) =
          irq_at pr (m_device r) ((device + pin) mod 4)) as ->.
  { rewrite (Hsw _ pr (m_device r)) by done. f_equal. pose proof (u32_mod_pins (offset + m_device r)) as Hu.
    unfold Pins in *. rewrite Hu. rewrite <- Zplus_mod_idemp_l, Ho, Zplus_mod_idemp_l, Zplus_mod_idemp_r.
    f_equal. lia. }
  destruct (IH (m_parent r) pr (m_device r) ((device + pin) mod 4) (u32 (offset + m_device r)))
    as (irq & Hrun & Hroute); [done | lia | done | done | |].
  - pose proof (u32_mod_pins (offset + m_device r)) as Hu. unfold Pins in Hu. rewrite Hu.
    rewrite <- Zplus_mod_idemp_l, Ho, Zplus_mod_idemp_l, Zplus_mod_idemp_r. f_equal. lia.
  - exists irq. split; [exact Hrun |]. eapply routed_up; [done.. | exact Hroute].
Qed.

(** The rule gives one line only. *)
Lemma routed_fun t bus device pin i j : routed t bus device pin i -> routed t bus device pin j -> i = j.
Proof.
  intros H. revert j. induction H; intros j Hj; inversion Hj; subst; simplify_eq; try done.
  by apply IHrouted.
Qed.

(** ** Theorems *)

(** C25: on hardware where the base address registers of the functions that are there, bridges
    apart, behave, enumerating the bus finds every
    function that is there on the buses 0 to 7 (the first of each device, all eight where the
    device says that it has several) exactly once, in the order of bus, device and function, and leaves
    configuration space reading as before. The other buses are never looked at. *)
Theorem enumeration_is_complete {B : Type} (config_read : B -> Z -> Z) (config_write : B -> Z -> Z -> B)
    `{!BarHardware config_read config_write} (uninit : PCIDeviceDescriptor)
    (garbage : BaseAddressRegister) (b b' : B) (found : list PCIDeviceDescriptor) :
  bars_behave (config_read := config_read) (config_write := config_write) b ->
  enumerate config_read config_write uninit garbage b = (found, b') ->
  same_reads (config_read := config_read) b b' /\ StronglySorted Z.lt (ordinal <$> (location <$> found)) /\
  (forall bus device f, (bus, device, f) ∈ location <$> found <->
     0 <= bus < 8 /\ 0 <= device < 32 /\ 0 <= f < (if device_has_functions config_read b bus device then 8 else 1) /\
     absent (vendor_at (config_read := config_read) b bus device f) = false).
Proof.
  intros Hb He. pose proof (enumerate_run uninit garbage b Hb) as [Hs Hl]. rewrite He in Hs, Hl.
  cbn [fst snd fmap list_fmap app] in Hs, Hl. split; [exact Hs |].
  change ([] ++ all_functions b) with (all_functions (config_read := config_read) b) in Hl.
  rewrite Hl. split; [apply sorted_all_functions |].
  intros bus device f. rewrite elem_of_all_functions. unfold present.
  by rewrite negb_true_iff.
Qed.

(** Fact: a base address register of at least sixteen bytes is decoded: for a function that is no bridge the size is that
    of the register, the type its low bit, the address its upper bits, and the register (and all
    of configuration space) reads as before. *)
Theorem bar_is_sized {B : Type} (config_read : B -> Z -> Z) (config_write : B -> Z -> Z -> B)
    `{!BarHardware config_read config_write} (garbage : BaseAddressRegister) (b : B)
    bus device function bar :
  0 <= bar < 6 ->
  let id := config_id bus device function (PCI_DESCR_OFFSET_BAR0 + 4 * bar) in
  bar_register id ->
  Z.land (read config_read b bus device function PCI_DESCR_OFFSET_HEAD_TYPE) 0x3F = 0 -> 4 <= bar_bits id ->
  exists b', get_base_address_register config_read config_write garbage b bus device function bar =
      (mkBAR (Z.land (config_read b id) (u32 (Z.lnot 0xF))) (u32 (2 ^ bar_bits id))
             (if truthy (Z.land (config_read b id) 1) then InputOutput else MemoryMapping), b') /\
    same_reads (config_read := config_read) b b'.
Proof.
  intros Hbar id Hid Hh Hk. destruct (get_bar_run garbage b bus device function bar Hbar (fun _ => Hid))
    as (r & b' & Hg & Hs & Hr).
  exists b'. by rewrite Hg, Hr.
Qed.

(** Fact: interrupt routing: for buses that lead to a root, [getPciDeviceIrq] returns, with fuel
    for the bus's depth, the line the bridge rule gives. *)
Theorem irq_is_routed (t : routing_table) (rank : Z -> nat) bus r device pin :
  swizzled t -> buses_ok t rank -> t !! bus = Some r ->
  0 <= bus < Buses -> 0 <= device < Devices -> 1 <= pin <= Pins ->
  exists irq, getPciDeviceIrq (S (rank bus)) bus device pin t = Ret irq /\
    routed t bus device (pin - 1) irq /\
    forall j, routed t bus device (pin - 1) j -> j = irq.
Proof.
  intros Hsw Hok Hr Hb Hd Hp. unfold getPciDeviceIrq, Pins, Devices, Buses in *.
  rewrite (wrap_small 32 (pin - 1)) by lia.
  replace ((4 <=? pin - 1) || (256 <=? bus) || (32 <=? device)) with false.
  2: { symmetry. apply not_true_iff_false. rewrite !orb_true_iff, !Z.leb_le. lia. }
  rewrite Hr. rewrite (wrap_small 32) by lia.
  destruct (irq_loop_run t rank Hsw Hok (S (rank bus)) bus r device (pin - 1) (device + (pin - 1)))
    as (irq & Hrun & Hroute); [done | lia | done | unfold Pins; lia | done |].
  - exists irq. split; [exact Hrun |]. split; [exact Hroute |].
    intros j Hj. by apply (routed_fun t bus device (pin - 1)).
Qed.

(** Fact: two buses that name each other as parent make the search run for ever; nothing in
    [RegisterRoutingBus] rules this out. *)
Theorem routing_cycle_diverges (fuel : nat) :
  let t := (RegisterRoutingBus 2 1 0 (RegisterRoutingBus 1 2 0 ∅).1).1 in
  getPciDeviceIrq fuel 1 0 1 t = Diverged.
Proof.
  set (r1 := mkRouting 2 0 ∅). set (r2 := mkRouting 1 0 ∅).
  assert (forall fuel offset, irq_loop fuel (<[2 := r2]> (<[1 := r1]> ∅)) 1 offset 0 = Diverged /\
    irq_loop fuel (<[2 := r2]> (<[1 := r1]> ∅)) 2 offset 0 = Diverged) as Hloop.
  { induction fuel0 as [| n IH]; intros offset; [done |].
    split; cbn [irq_loop Z.eqb]; simplify_map_eq; cbn [m_parent r1 r2 Z.eqb Pos.eqb]; simplify_map_eq;
      unfold irq_at; cbn [m_irq r1 r2]; rewrite lookup_empty; apply IH. }
  intros t. apply Hloop.
Qed.

(** Fact: the mask of an address clears four bits of port addresses too, which have only two
    type bits: a port base of 0xC004 is read as 0xC000. *)
Theorem port_base_rounded : Z.land 0xC005 (u32 (Z.lnot 0xF)) = 0xC000 /\ Z.land 0xC005 (u32 (Z.lnot 0x3)) = 0xC004.
Proof. split; reflexivity. Qed.

(** ** Witnesses *)

(** A bus with one device: its first base address register has 2^12 bytes and keeps what is
    written; the other registers read 0, absent vendors 0xFFFFFFFF. *)
Definition demo_bar : Z := config_id 0 2 0 0x10.

Definition demo_read (v id : Z) : Z :=
  if id =? config_id 0 2 0 0 then 0x04051234
  else if id mod 256 =? 0 then 0xFFFFFFFF
  else if id =? demo_bar then Z.lor (Z.land v (2 ^ 32 - 2 ^ 12)) 0
  else 0.

Definition demo_write (v id value : Z) : Z := if id =? demo_bar then u32 value else v.

#[export] Instance demo_hardware : BarHardware demo_read demo_write.
Proof.
  refine {| bar_register := fun id => id mod 256 <> 0;
            bar_bits := fun id => if id =? demo_bar then 12 else 32; bar_flags := fun _ => 0 |}.
  - intros id _. by destruct (id =? demo_bar).
  - intros b id id' v Hid Hne. unfold demo_read, demo_write.
    destruct (Z.eqb_spec id demo_bar) as [-> |]; [| done].
    by replace (id' =? demo_bar) with false by lia.
  - intros b id v Hid Hv. unfold demo_read, demo_write.
    assert (id <> config_id 0 2 0 0) by (intros ->; by apply Hid).
    replace (id =? config_id 0 2 0 0) with false by lia. replace (id mod 256 =? 0) with false by lia.
    destruct (id =? demo_bar); [by rewrite wrap_small by lia |]. by rewrite Z.sub_diag, Z.land_0_r.
  - intros b id Hid. unfold demo_read.
    assert (id <> config_id 0 2 0 0) by (intros ->; by apply Hid).
    replace (id =? config_id 0 2 0 0) with false by lia. replace (id mod 256 =? 0) with false by lia.
    exists (u32 b). split; [apply wrap_range; lia |].
    destruct (id =? demo_bar); [| by rewrite Z.sub_diag, Z.land_0_r].
    f_equal. rewrite mask_bits by lia. unfold wrap. rewrite <- Z.land_ones, <- Z.land_assoc by lia.
    f_equal.
Defined.

Lemma demo_bars_behave b : bars_behave (config_read := demo_read) (config_write := demo_write) b.
Proof.
  intros bus device function bar Hb Hd Hf _ _ Hbar. cbn. unfold PCI_DESCR_OFFSET_BAR0.
  rewrite config_id_sum by lia. replace (0x10 + 4 * bar) with ((4 + bar) * 4) by lia.
  rewrite Z.div_mul by lia. intros H0. apply Z.mod_divide in H0 as [k Hk]; lia.
Qed.

Definition no_descr : PCIDeviceDescriptor :=
  mkDescr false 0 0 0 0 0 0 0 0 0 0 0 0 0 0 0 0 0 (replicate 6 (mkBAR 0 0 MemoryMapping)).

Lemma enumeration_is_complete_witness :
  let r := enumerate demo_read demo_write no_descr (mkBAR 0 0 MemoryMapping) 0xFE000000 in
  location <$> r.1 = [(0, 2, 0)] /\ StronglySorted Z.lt (ordinal <$> (location <$> r.1)).
Proof.
  destruct (enumeration_is_complete demo_read demo_write no_descr (mkBAR 0 0 MemoryMapping) 0xFE000000
    (enumerate demo_read demo_write no_descr (mkBAR 0 0 MemoryMapping) 0xFE000000).2
    (enumerate demo_read demo_write no_descr (mkBAR 0 0 MemoryMapping) 0xFE000000).1
    (demo_bars_behave _) (surjective_pairing _)) as (_ & Hnd & _).
  split; [vm_compute; reflexivity | exact Hnd].
Defined.

Lemma bar_is_sized_witness :
  exists b', get_base_address_register demo_read demo_write (mkBAR 0 0 MemoryMapping) 0xFE000000 0 2 0 0
    = (mkBAR 0xFE000000 4096 MemoryMapping, b').
Proof.
  destruct (bar_is_sized demo_read demo_write (mkBAR 0 0 MemoryMapping) 0xFE000000 0 2 0 0)
    as (b' & Hg & _).
  - lia.
  - apply (demo_bars_behave 0xFE000000 0 2 0 0); (lia || (vm_compute; reflexivity)).
  - vm_compute. reflexivity.
  - vm_compute. discriminate.
  - exists b'. rewrite Hg. f_equal.
Defined.

(** Two buses; a device on the second, which has no line of its own. *)
Definition demo_routes : routing_table :=
  {[ 0 := mkRouting 0 0 (list_to_map ((fun p => (p, 10 + (fst p + snd p) mod 4)) <$>
            (d ← seqZ 0 32; (fun q => (d, q)) <$> seqZ 0 4)));
     1 := mkRouting 0 3 ∅ ]}.

Lemma demo_swizzled : swizzled demo_routes.
Proof.
  intros bus r device pin Hr Hd Hp. unfold demo_routes in Hr.
  assert (forallb (fun d => forallb (fun q =>
     (irq_at (mkRouting 0 0 (list_to_map ((fun p => (p, 10 + (fst p + snd p) mod 4)) <$>
            (d ← seqZ 0 32; (fun q => (d, q)) <$> seqZ 0 4)))) d q =?
      irq_at (mkRouting 0 0 (list_to_map ((fun p => (p, 10 + (fst p + snd p) mod 4)) <$>
            (d ← seqZ 0 32; (fun q => (d, q)) <$> seqZ 0 4)))) 0 ((d + q) mod Pins)))
     (seqZ 0 4)) (seqZ 0 32) = true) as Hall by (vm_compute; reflexivity).
  apply lookup_insert_Some in Hr as [[<- <-] | [_ Hr]].
  - rewrite forallb_forall in Hall.
    specialize (Hall device (proj1 (list_elem_of_In _ _) (proj2 (elem_of_seqZ _ _ _) Hd))).
    rewrite forallb_forall in Hall.
    specialize (Hall pin (proj1 (list_elem_of_In _ _) (proj2 (elem_of_seqZ _ _ _) Hp))).
    by apply Z.eqb_eq in Hall.
  - apply lookup_singleton_Some in Hr as [<- <-]. unfold irq_at. cbn [m_irq]. by rewrite !lookup_empty.
Qed.

Lemma irq_is_routed_witness : exists irq,
  getPciDeviceIrq 2 1 5 1 demo_routes = Ret irq /\ irq = 10.
Proof.
  destruct (irq_is_routed demo_routes (fun bus => if decide (bus = 1) then 1%nat else 0%nat)
    1 (mkRouting 0 3 ∅) 5 1 demo_swizzled) as (irq & Hrun & _).
  - intros bus r Hr. unfold demo_routes in Hr. unfold Devices.
    apply lookup_insert_Some in Hr as [[<- <-] | [_ Hr]]; cbn [m_device m_parent]; [split; [lia | done] |].
    apply lookup_singleton_Some in Hr as [<- <-]. cbn [m_device m_parent]. split; [lia |]. intros _.
    split; [by eexists; vm_compute | apply Nat.ltb_lt; vm_compute; reflexivity].
  - reflexivity.
  - unfold Buses. lia.
  - unfold Devices. lia.
  - unfold Pins. lia.
  - exists irq. split; [exact Hrun |]. vm_compute in Hrun. by injection Hrun as <-.
Defined.
