(* ===== verification/Keyboard.v ===== *)
(** The PS/2 keyboard (src/src/kernel/drivers/io/KeyboardDriver.cpp and .h, the key codes of
    kernel/os/types.h, the echo of kernel/Kernel.cpp): scan codes to key events.

    Key codes and scan codes are numbers with the names of the source (a trailing underscore
    where Rocq has the word).  A [KeyEvent] the interpreter does not set keeps the value it had
    ([uninit], an argument).  Registering interrupts and console messages are left out. *)
From S2P Require Import Prelude.

(** ** Key codes *)

(** [enum KeyCode]: characters are themselves, other keys start at 1000. *)
Module KeyCode.
Definition A := 65%Z.
Definition a := 97%Z.
Definition B := 66%Z.
Definition b := 98%Z.
Definition C := 67%Z.
Definition c := 99%Z.
Definition D := 68%Z.
Definition d := 100%Z.
Definition E := 69%Z.
Definition e := 101%Z.
Definition F := 70%Z.
Definition f := 102%Z.
Definition G := 71%Z.
Definition g := 103%Z.
Definition H := 72%Z.
Definition h := 104%Z.
Definition I := 73%Z.
Definition i := 105%Z.
Definition J := 74%Z.
Definition j := 106%Z.
Definition K := 75%Z.
Definition k := 107%Z.
Definition L := 76%Z.
Definition l := 108%Z.
Definition M := 77%Z.
Definition m := 109%Z.
Definition N := 78%Z.
Definition n := 110%Z.
Definition O := 79%Z.
Definition o := 111%Z.
Definition P := 80%Z.
Definition p := 112%Z.
Definition Q := 81%Z.
Definition q := 113%Z.
Definition R := 82%Z.
Definition r := 114%Z.
Definition S := 83%Z.
Definition s := 115%Z.
Definition T := 84%Z.
Definition t := 116%Z.
Definition U := 85%Z.
Definition u := 117%Z.
Definition V := 86%Z.
Definition v := 118%Z.
Definition W := 87%Z.
Definition w := 119%Z.
Definition X := 88%Z.
Definition x := 120%Z.
Definition Y := 89%Z.
Definition y := 121%Z.
Definition Z := 90%Z.
Definition z := 122%Z.
Definition zero := 48%Z.
Definition one := 49%Z.
Definition two := 50%Z.
Definition three := 51%Z.
Definition four := 52%Z.
Definition five := 53%Z.
Definition six := 54%Z.
Definition seven := 55%Z.
Definition eight := 56%Z.
Definition nine := 57%Z.
Definition comma := 44%Z.
Definition fullStop := 46%Z.
Definition exclamationMark := 33%Z.
Definition questionMark := 63%Z.
Definition quotationMark := 34%Z.
Definition semicolon := 59%Z.
Definition colon := 58%Z.
Definition apostrophe := 39%Z.
Definition slantedApostrophe := 96%Z.
Definition powerSign := 94%Z.
Definition dollarSign := 36%Z.
Definition percentSign := 37%Z.
Definition andSign := 38%Z.
Definition atSign := 64%Z.
Definition underscore := 95%Z.
Definition lineThing := 124%Z.
Definition hash := 35%Z.
Definition backslash := 92%Z.
Definition forwardSlash := 47%Z.
Definition squigglyLine := 126%Z.
Definition plus := 43%Z.
Definition minus := 45%Z.
Definition equals := 61%Z.
Definition multiply := 42%Z.
Definition lessThan := 60%Z.
Definition greaterThan := 62%Z.
Definition openBracket := 40%Z.
Definition closeBracket := 41%Z.
Definition openSquareBracket := 91%Z.
Definition closeSquareBracket := 93%Z.
Definition openCurlyBracket := 123%Z.
Definition closeCurlyBracket := 125%Z.
Definition space := 32%Z.
Definition tab := 9%Z.
Definition enter := 10%Z.
Definition backspace := 8%Z.
Definition f1 := 1000%Z.
Definition f2 := 1001%Z.
Definition f3 := 1002%Z.
Definition f4 := 1003%Z.
Definition f5 := 1004%Z.
Definition f6 := 1005%Z.
Definition f7 := 1006%Z.
Definition f8 := 1007%Z.
Definition f9 := 1008%Z.
Definition f10 := 1009%Z.
Definition f11 := 1010%Z.
Definition f12 := 1011%Z.
Definition escape := 1012%Z.
Definition printScreen := 1013%Z.
Definition scrollLock := 1014%Z.
Definition pauseBreak := 1015%Z.
Definition upArrow := 1016%Z.
Definition downArrow := 1017%Z.
Definition leftArrow := 1018%Z.
Definition rightArrow := 1019%Z.
Definition insert := 1020%Z.
Definition home := 1021%Z.
Definition pageUp := 1022%Z.
Definition deleteKey := 1023%Z.
Definition end_ := 1024%Z.
Definition pageDown := 1025%Z.
Definition capsLock := 1026%Z.
Definition leftShift := 1027%Z.
Definition leftControl := 1028%Z.
Definition leftOS := 1029%Z.
Definition leftAlt := 1030%Z.
Definition rightAlt := 1031%Z.
Definition functionKey := 1032%Z.
Definition rightControl := 1033%Z.
Definition rightShift := 1034%Z.
Definition numberPadLock := 1035%Z.
Definition numberPadForwardSlash := 1036%Z.
Definition numberPadMultiply := 1037%Z.
Definition numberPadMinus := 1038%Z.
Definition numberPadPlus := 1039%Z.
Definition numberPadEnter := 1040%Z.
Definition numberPadZero := 1041%Z.
Definition numberPadOne := 1042%Z.
Definition numberPadTwo := 1043%Z.
Definition numberPadThree := 1044%Z.
Definition numberPadFour := 1045%Z.
Definition numberPadFive := 1046%Z.
Definition numberPadSix := 1047%Z.
Definition numberPadSeven := 1048%Z.
Definition numberPadEight := 1049%Z.
Definition numberPadNine := 1050%Z.
Definition numberPadFullStop := 1051%Z.
Definition numberPadHome := 1052%Z.
Definition numberPadPageDown := 1053%Z.
Definition numberPadPageUp := 1054%Z.
Definition numberPadEnd := 1055%Z.
Definition numberPadInsert := 1056%Z.
Definition numberPadUpArrow := 1057%Z.
Definition numberPadDownArrow := 1058%Z.
Definition numberPadLeftArrow := 1059%Z.
Definition numberPadRightArrow := 1060%Z.
Definition Invalid := 1061%Z.
End KeyCode.

(** [enum KeyCodeEN_US]: the scan codes. *)
Module KeyCodeEN_US.
Definition escape := 0x01%Z.
Definition f1 := 0x3B%Z.
Definition f2 := 0x3C%Z.
Definition f3 := 0x3D%Z.
Definition f4 := 0x3E%Z.
Definition f5 := 0x3F%Z.
Definition f6 := 0x40%Z.
Definition f7 := 0x41%Z.
Definition f8 := 0x42%Z.
Definition f9 := 0x43%Z.
Definition f10 := 0x44%Z.
Definition f11 := 0x57%Z.
Definition f12 := 0x58%Z.
Definition printScreen := 0x37%Z.
Definition scrollLock := 0x46%Z.
Definition pauseBreak := 0x45%Z.
Definition squigglyLine := 0x29%Z.
Definition one := 0x02%Z.
Definition two := 0x03%Z.
Definition three := 0x04%Z.
Definition four := 0x05%Z.
Definition five := 0x06%Z.
Definition six := 0x07%Z.
Definition seven := 0x08%Z.
Definition eight := 0x09%Z.
Definition nine := 0x0A%Z.
Definition zero := 0x0B%Z.
Definition minus := 0x0C%Z.
Definition equals := 0x0D%Z.
Definition backspace := 0x0E%Z.
Definition insert := 0x52%Z.
Definition home := 0x47%Z.
Definition pageUp := 0x49%Z.
Definition numberPadLock := 0x45%Z.
Definition numberPadForwardSlash := 0x35%Z.
Definition numberPadMultiply := 0x37%Z.
Definition numberPadMinus := 0x4A%Z.
Definition tab := 0x0F%Z.
Definition Q := 0x10%Z.
Definition W := 0x11%Z.
Definition E := 0x12%Z.
Definition R := 0x13%Z.
Definition T := 0x14%Z.
Definition Y := 0x15%Z.
Definition U := 0x16%Z.
Definition I := 0x17%Z.
Definition O := 0x18%Z.
Definition P := 0x19%Z.
Definition openSquareBracket := 0x1A%Z.
Definition closeSquareBracket := 0x1B%Z.
Definition backslash := 0x2B%Z.
Definition deleteKey := 0x53%Z.
Definition end_ := 0x4F%Z.
Definition pageDown := 0x51%Z.
Definition numberPadSeven := 0x47%Z.
Definition numberPadEight := 0x48%Z.
Definition numberPadNine := 0x49%Z.
Definition numberPadPlus := 0x4E%Z.
Definition capsLock := 0x3A%Z.
Definition A := 0x1E%Z.
Definition S := 0x1F%Z.
Definition D := 0x20%Z.
Definition F := 0x21%Z.
Definition G := 0x22%Z.
Definition H := 0x23%Z.
Definition J := 0x24%Z.
Definition K := 0x25%Z.
Definition L := 0x26%Z.
Definition semicolon := 0x27%Z.
Definition apostrophe := 0x28%Z.
Definition enter := 0x1C%Z.
Definition numberPadFour := 0x4B%Z.
Definition numberPadFive := 0x4C%Z.
Definition numberPadSix := 0x4D%Z.
Definition leftShift := 0x2A%Z.
Definition Z := 0x2C%Z.
Definition X := 0x2D%Z.
Definition C := 0x2E%Z.
Definition V := 0x2F%Z.
Definition B := 0x30%Z.
Definition N := 0x31%Z.
Definition M := 0x32%Z.
Definition comma := 0x33%Z.
Definition fullStop := 0x34%Z.
Definition forwardSlash := 0x35%Z.
Definition rightShift := 0x36%Z.
Definition upArrow := 0x48%Z.
Definition numberPadOne := 0x4F%Z.
Definition numberPadTwo := 0x50%Z.
Definition numberPadThree := 0x51%Z.
Definition numberPadEnter := 0x1C%Z.
Definition leftControl := 0x1D%Z.
Definition leftOS := 0x5B%Z.
Definition leftAlt := 0x38%Z.
Definition space := 0x39%Z.
Definition rightAlt := 0x38%Z.
Definition function_ := 0x5D%Z.
Definition rightControl := 0x1D%Z.
Definition leftArrow := 0x4B%Z.
Definition downArrow := 0x50%Z.
Definition rightArrow := 0x4D%Z.
Definition numberPadZero := 0x52%Z.
Definition numberPadFullStop := 0x53%Z.
End KeyCodeEN_US.

(** ** State *)

Record KeyboardState := mkKeyboard {
  left_shift : bool; right_shift : bool;
  left_control : bool; right_control : bool;
  left_alt : bool; right_alt : bool;
  caps_lock : bool; number_pad_lock : bool; scroll_lock : bool }.

Record KeyEvent := mkKeyEvent { key_up : bool; keyboard_state : KeyboardState; key_code : Z }.

(** [KeyboardInterpreter]'s members. *)
Record KeyboardInterpreter := mkInterp {
  m_keyboard_state : KeyboardState;
  m_next_is_extended_code_0 : bool;
  m_current_extended_code_1 : Z;
  m_extended_code_1_buffer : Z }.

Definition KeyboardState_init : KeyboardState :=
  mkKeyboard false false false false false false false false false.

Definition KeyboardInterpreter_init : KeyboardInterpreter := mkInterp KeyboardState_init false 0 0.

(** The assignments [x = !x] to the state. *)
Definition toggle_left_shift (s : KeyboardState) : KeyboardState :=
  mkKeyboard (negb (left_shift s)) (right_shift s) (left_control s) (right_control s)
    (left_alt s) (right_alt s) (caps_lock s) (number_pad_lock s) (scroll_lock s).

Definition toggle_right_shift (s : KeyboardState) : KeyboardState :=
  mkKeyboard (left_shift s) (negb (right_shift s)) (left_control s) (right_control s)
    (left_alt s) (right_alt s) (caps_lock s) (number_pad_lock s) (scroll_lock s).

Definition toggle_controls (s : KeyboardState) : KeyboardState :=
  mkKeyboard (left_shift s) (right_shift s) (negb (left_control s)) (negb (right_control s))
    (left_alt s) (right_alt s) (caps_lock s) (number_pad_lock s) (scroll_lock s).

Definition toggle_alts (s : KeyboardState) : KeyboardState :=
  mkKeyboard (left_shift s) (right_shift s) (left_control s) (right_control s)
    (negb (left_alt s)) (negb (right_alt s)) (caps_lock s) (number_pad_lock s) (scroll_lock s).

Definition toggle_caps_lock (s : KeyboardState) : KeyboardState :=
  mkKeyboard (left_shift s) (right_shift s) (left_control s) (right_control s)
    (left_alt s) (right_alt s) (negb (caps_lock s)) (number_pad_lock s) (scroll_lock s).

Definition toggle_number_pad_lock (s : KeyboardState) : KeyboardState :=
  mkKeyboard (left_shift s) (right_shift s) (left_control s) (right_control s)
    (left_alt s) (right_alt s) (caps_lock s) (negb (number_pad_lock s)) (scroll_lock s).

(** ** The interpreter *)

(** A case of the switch: the state after it and the event's key. *)
Definition key (st : KeyboardState) (code : Z) : option (KeyboardState * Z) := Some (st, code).

(** The switch of [DefaultKeyboardInterpreter::InterpretKey], case by case in its order;
    [None] is its [default]. *)
Definition InterpretKey_switch (scan_code : Z) (released upper : bool) (st : KeyboardState)
    : option (KeyboardState * Z) :=
  if scan_code =? KeyCodeEN_US.escape then key st KeyCode.escape else
  if scan_code =? KeyCodeEN_US.f1 then key st KeyCode.f1 else
  if scan_code =? KeyCodeEN_US.f2 then key st KeyCode.f2 else
  if scan_code =? KeyCodeEN_US.f3 then key st KeyCode.f3 else
  if scan_code =? KeyCodeEN_US.f4 then key st KeyCode.f4 else
  if scan_code =? KeyCodeEN_US.f5 then key st KeyCode.f5 else
  if scan_code =? KeyCodeEN_US.f6 then key st KeyCode.f6 else
  if scan_code =? KeyCodeEN_US.f7 then key st KeyCode.f7 else
  if scan_code =? KeyCodeEN_US.f8 then key st KeyCode.f8 else
  if scan_code =? KeyCodeEN_US.f9 then key st KeyCode.f9 else
  if scan_code =? KeyCodeEN_US.f10 then key st KeyCode.f10 else
  if scan_code =? KeyCodeEN_US.f11 then key st KeyCode.f11 else
  if scan_code =? KeyCodeEN_US.f12 then key st KeyCode.f12 else
  if scan_code =? KeyCodeEN_US.printScreen then key st (if number_pad_lock st then KeyCode.numberPadMultiply else KeyCode.printScreen) else
  if scan_code =? KeyCodeEN_US.scrollLock then key st KeyCode.scrollLock else
  if scan_code =? KeyCodeEN_US.squigglyLine then key st (if upper then KeyCode.squigglyLine else KeyCode.slantedApostrophe) else
  if scan_code =? KeyCodeEN_US.one then key st (if upper then KeyCode.exclamationMark else KeyCode.one) else
  if scan_code =? KeyCodeEN_US.two then key st (if upper then KeyCode.atSign else KeyCode.two) else
  if scan_code =? KeyCodeEN_US.three then key st (if upper then KeyCode.hash else KeyCode.three) else
  if scan_code =? KeyCodeEN_US.four then key st (if upper then KeyCode.dollarSign else KeyCode.four) else
  if scan_code =? KeyCodeEN_US.five then key st (if upper then KeyCode.percentSign else KeyCode.five) else
  if scan_code =? KeyCodeEN_US.six then key st (if upper then KeyCode.powerSign else KeyCode.six) else
  if scan_code =? KeyCodeEN_US.seven then key st (if upper then KeyCode.andSign else KeyCode.seven) else
  if scan_code =? KeyCodeEN_US.eight then key st (if upper then KeyCode.multiply else KeyCode.eight) else
  if scan_code =? KeyCodeEN_US.nine then key st (if upper then KeyCode.openBracket else KeyCode.nine) else
  if scan_code =? KeyCodeEN_US.zero then key st (if upper then KeyCode.closeBracket else KeyCode.zero) else
  if scan_code =? KeyCodeEN_US.minus then key st (if upper then KeyCode.underscore else KeyCode.minus) else
  if scan_code =? KeyCodeEN_US.equals then key st (if upper then KeyCode.plus else KeyCode.equals) else
  if scan_code =? KeyCodeEN_US.backspace then key st KeyCode.backspace else
  if scan_code =? KeyCodeEN_US.insert then key st (if number_pad_lock st then KeyCode.numberPadZero else KeyCode.insert) else
  if scan_code =? KeyCodeEN_US.home then key st (if number_pad_lock st then KeyCode.numberPadSeven else KeyCode.home) else
  if scan_code =? KeyCodeEN_US.pageUp then key st (if number_pad_lock st then KeyCode.numberPadNine else KeyCode.pageUp) else
  if scan_code =? KeyCodeEN_US.numberPadLock then key (if released then st else toggle_number_pad_lock st) KeyCode.numberPadLock else
  if scan_code =? KeyCodeEN_US.numberPadForwardSlash then (if number_pad_lock st then key st KeyCode.numberPadForwardSlash
    else key st (if upper then KeyCode.questionMark else KeyCode.forwardSlash)) else
  if scan_code =? KeyCodeEN_US.numberPadMinus then key st KeyCode.numberPadMinus else
  if scan_code =? KeyCodeEN_US.tab then key st KeyCode.tab else
  if scan_code =? KeyCodeEN_US.Q then key st (if upper then KeyCode.Q else KeyCode.q) else
  if scan_code =? KeyCodeEN_US.W then key st (if upper then KeyCode.W else KeyCode.w) else
  if scan_code =? KeyCodeEN_US.E then key st (if upper then KeyCode.E else KeyCode.e) else
  if scan_code =? KeyCodeEN_US.R then key st (if upper then KeyCode.R else KeyCode.r) else
  if scan_code =? KeyCodeEN_US.T then key st (if upper then KeyCode.T else KeyCode.t) else
  if scan_code =? KeyCodeEN_US.Y then key st (if upper then KeyCode.Y else KeyCode.y) else
  if scan_code =? KeyCodeEN_US.U then key st (if upper then KeyCode.U else KeyCode.u) else
  if scan_code =? KeyCodeEN_US.I then key st (if upper then KeyCode.I else KeyCode.i) else
  if scan_code =? KeyCodeEN_US.O then key st (if upper then KeyCode.O else KeyCode.o) else
  if scan_code =? KeyCodeEN_US.P then key st (if upper then KeyCode.P else KeyCode.p) else
  if scan_code =? KeyCodeEN_US.openSquareBracket then key st (if upper then KeyCode.openCurlyBracket else KeyCode.openSquareBracket) else
  if scan_code =? KeyCodeEN_US.closeSquareBracket then key st (if upper then KeyCode.closeCurlyBracket else KeyCode.closeSquareBracket) else
  if scan_code =? KeyCodeEN_US.backslash then key st (if upper then KeyCode.lineThing else KeyCode.backslash) else
  if scan_code =? KeyCodeEN_US.deleteKey then key st (if number_pad_lock st then KeyCode.numberPadFullStop else KeyCode.deleteKey) else
  if scan_code =? KeyCodeEN_US.end_ then key st (if number_pad_lock st then KeyCode.numberPadOne else KeyCode.end_) else
  if scan_code =? KeyCodeEN_US.pageDown then key st (if number_pad_lock st then KeyCode.numberPadThree else KeyCode.pageDown) else
  if scan_code =? KeyCodeEN_US.numberPadEight then key st (if number_pad_lock st then KeyCode.numberPadEight else KeyCode.upArrow) else
  if scan_code =? KeyCodeEN_US.numberPadPlus then key st KeyCode.numberPadPlus else
  if scan_code =? KeyCodeEN_US.capsLock then key (if released then st else toggle_caps_lock st) KeyCode.capsLock else
  if scan_code =? KeyCodeEN_US.A then key st (if upper then KeyCode.A else KeyCode.a) else
  if scan_code =? KeyCodeEN_US.S then key st (if upper then KeyCode.S else KeyCode.s) else
  if scan_code =? KeyCodeEN_US.D then key st (if upper then KeyCode.D else KeyCode.d) else
  if scan_code =? KeyCodeEN_US.F then key st (if upper then KeyCode.F else KeyCode.f) else
  if scan_code =? KeyCodeEN_US.G then key st (if upper then KeyCode.G else KeyCode.g) else
  if scan_code =? KeyCodeEN_US.H then key st (if upper then KeyCode.H else KeyCode.h) else
  if scan_code =? KeyCodeEN_US.J then key st (if upper then KeyCode.J else KeyCode.j) else
  if scan_code =? KeyCodeEN_US.K then key st (if upper then KeyCode.K else KeyCode.k) else
  if scan_code =? KeyCodeEN_US.L then key st (if upper then KeyCode.L else KeyCode.l) else
  if scan_code =? KeyCodeEN_US.semicolon then key st (if upper then KeyCode.colon else KeyCode.semicolon) else
  if scan_code =? KeyCodeEN_US.apostrophe then key st (if upper then KeyCode.quotationMark else KeyCode.apostrophe) else
  if scan_code =? KeyCodeEN_US.enter then key st (if number_pad_lock st then KeyCode.numberPadEnter else KeyCode.enter) else
  if scan_code =? KeyCodeEN_US.numberPadFour then key st (if number_pad_lock st then KeyCode.numberPadFour else KeyCode.leftArrow) else
  if scan_code =? KeyCodeEN_US.numberPadFive then key st KeyCode.numberPadFive else
  if scan_code =? KeyCodeEN_US.numberPadSix then key st (if number_pad_lock st then KeyCode.numberPadSix else KeyCode.rightArrow) else
  if scan_code =? KeyCodeEN_US.leftShift then key (toggle_left_shift st) KeyCode.leftShift else
  if scan_code =? KeyCodeEN_US.Z then key st (if upper then KeyCode.Z else KeyCode.z) else
  if scan_code =? KeyCodeEN_US.X then key st (if upper then KeyCode.X else KeyCode.x) else
  if scan_code =? KeyCodeEN_US.C then key st (if upper then KeyCode.C else KeyCode.c) else
  if scan_code =? KeyCodeEN_US.V then key st (if upper then KeyCode.V else KeyCode.v) else
  if scan_code =? KeyCodeEN_US.B then key st (if upper then KeyCode.B else KeyCode.b) else
  if scan_code =? KeyCodeEN_US.N then key st (if upper then KeyCode.N else KeyCode.n) else
  if scan_code =? KeyCodeEN_US.M then key st (if upper then KeyCode.M else KeyCode.m) else
  if scan_code =? KeyCodeEN_US.comma then key st (if upper then KeyCode.lessThan else KeyCode.comma) else
  if scan_code =? KeyCodeEN_US.fullStop then key st (if upper then KeyCode.greaterThan else KeyCode.fullStop) else
  if scan_code =? KeyCodeEN_US.rightShift then key (if released then st else toggle_right_shift st) KeyCode.rightShift else
  if scan_code =? KeyCodeEN_US.numberPadTwo then key st (if number_pad_lock st then KeyCode.numberPadTwo else KeyCode.downArrow) else
  if scan_code =? KeyCodeEN_US.leftControl then key (if released then st else toggle_controls st) KeyCode.leftControl else
  if scan_code =? KeyCodeEN_US.leftOS then key st KeyCode.leftOS else
  if scan_code =? KeyCodeEN_US.leftAlt then key (if released then st else toggle_alts st) KeyCode.leftAlt else
  if scan_code =? KeyCodeEN_US.space then key st KeyCode.space else
  None.

(** [DefaultKeyboardInterpreter::InterpretKey]: the result, the event and the members after. *)
Definition InterpretKey (scan_code : Z) (keyEvent : KeyEvent) (t : KeyboardInterpreter)
    : bool * KeyEvent * KeyboardInterpreter :=
  let st := m_keyboard_state t in
  let e1 := m_current_extended_code_1 t in
  let buf := m_extended_code_1_buffer t in
  let released := truthy (Z.land scan_code 0x80) &&
                  (truthy e1 || negb (scan_code =? 0xe1)) &&
                  (m_next_is_extended_code_0 t || negb (scan_code =? 0xe0)) in
  let scan_code := if released then u8 (Z.land scan_code (Z.lnot 0x80)) else scan_code in
  if scan_code =? 0xe0 then (false, keyEvent, mkInterp st true e1 buf)
  else
    let keyType := if m_next_is_extended_code_0 t then 1 else 0 in
    if m_next_is_extended_code_0 t &&
       ((scan_code =? KeyCodeEN_US.leftShift) || (scan_code =? KeyCodeEN_US.rightShift))
    then (false, keyEvent, mkInterp st false e1 buf)
    else if scan_code =? 0xe1 then (false, keyEvent, mkInterp st false 1 buf)
    else if e1 =? 1 then (false, keyEvent, mkInterp st false 2 scan_code)
    else
      let keyType := if e1 =? 2 then 2 else keyType in
      let buf := if e1 =? 2 then Z.lor buf (u16 (Z.shiftl scan_code 8)) else buf in
      let e1 := if e1 =? 2 then 0 else e1 in
      let is_shifting := left_shift st || right_shift st in
      let should_be_upper_case := negb (eqb is_shifting (caps_lock st)) in
      if keyType =? 0 then
        match InterpretKey_switch scan_code released should_be_upper_case st with
        | Some (st, code) => (true, mkKeyEvent released st code, mkInterp st false e1 buf)
        | None => (false, keyEvent, mkInterp st false e1 buf)
        end
      else (true, keyEvent, mkInterp st false e1 buf).

(** ** The driver *)

(** [KeyboardDriver]: the handlers, by name, and the interpreter, if one is set. *)
Record KeyboardDriver := mkDriver {
  m_KeyEventHandler : list Z;
  m_Interpreter : option KeyboardInterpreter }.

(** [AddKeyEventHandler] and [SetKeyboardInterpreter]. *)
Definition AddKeyEventHandler (h : Z) (d : KeyboardDriver) : KeyboardDriver :=
  mkDriver (m_KeyEventHandler d ++ [h]) (m_Interpreter d).

Definition SetKeyboardInterpreter (t : KeyboardInterpreter) (d : KeyboardDriver) : KeyboardDriver :=
  mkDriver (m_KeyEventHandler d) (Some t).

(** [KeyboardDriver::HandleInterrupt] with [KeyboardDriver::InterpretKey]: the scan code read
    from the port; the calls of handlers, in order. *)
Definition HandleInterrupt (uninit : KeyEvent) (scan_code : Z) (d : KeyboardDriver)
    : KeyboardDriver * list (Z * KeyEvent) :=
  match m_Interpreter d with
  | Some t =>
    let '(result, event, t) := InterpretKey scan_code uninit t in
    (mkDriver (m_KeyEventHandler d) (Some t),
     if result then (fun h => (h, event)) <$> m_KeyEventHandler d else [])
  | None => (d, [])
  end.

(** A sequence of interrupts. *)
Fixpoint interrupts (uninit : KeyEvent) (codes : list Z) (d : KeyboardDriver)
    : KeyboardDriver * list (Z * KeyEvent) :=
  match codes with
  | [] => (d, [])
  | c :: codes =>
    let '(d, calls) := HandleInterrupt uninit c d in
    let '(d, calls') := interrupts uninit codes d in (d, calls ++ calls')
  end.

(** Port accesses, for [KeyboardDriver::Activate]: [reads] are the values the reads give. *)
Inductive port_op := In (port : Z) | Out (port value : Z).

Definition KEYBOARD_DATA_PORT : Z := 0x60.
Definition KEYBOARD_COMMAND_PORT : Z := 0x64.
Definition EnableFirstPort : Z := 0xAE.

(** The waiting loop: two reads a turn while the first gives anything but 0. *)
Fixpoint wait_key (reads : list Z) : outcome (list Z * list port_op) :=
  match reads with
  | [] => Diverged
  | status :: reads' =>
    if truthy status then
      match reads' with
      | [] => Diverged
      | _ :: reads'' =>
        '(rest, ops) ← wait_key reads'';
        Ret (rest, In (Z.land KEYBOARD_COMMAND_PORT 1) :: In KEYBOARD_DATA_PORT :: ops)
      end
    else Ret (reads', [In (Z.land KEYBOARD_COMMAND_PORT 1)])
  end.

(** [KeyboardDriver::Activate], its port accesses. *)
Definition Activate (reads : list Z) : outcome (list port_op) :=
  '(reads, ops) ← wait_key reads;
  match reads with
  | [] => Diverged
  | data :: _ =>
    let status := u8 (Z.land (Z.lor data 1) (Z.lnot 0x10)) in
    Ret (ops ++ [Out KEYBOARD_COMMAND_PORT EnableFirstPort; Out KEYBOARD_COMMAND_PORT 0x20;
                 In KEYBOARD_DATA_PORT; Out KEYBOARD_COMMAND_PORT 0x60;
                 Out KEYBOARD_DATA_PORT status])
  end.

(** ** The echo of the kernel *)

(** What [DummyKeyboardOutput::OnKeyEvent] does with an event: text printed, a character
    removed, and whether the machine is shut down. *)
Inductive echo := Print (text : list Z) | RemoveChar.

Definition OnKeyEvent (e : KeyEvent) : list echo * bool :=
  (if negb (key_up e) && (key_code e <? KeyCode.f1) then
     if key_code e =? KeyCode.enter then [Print [13; 10]]
     else if key_code e =? KeyCode.backspace then [RemoveChar]
     else [Print [u8 (key_code e)]]
   else [],
   key_code e =? KeyCode.f8).

(** ** The layout

    The keys of a US keyboard as rows of consecutive scan codes: the first code of a row, its
    characters without and with shift. *)
Definition us_layout : list (Z * list Z * list Z) :=
  [(0x02, [49; 50; 51; 52; 53; 54; 55; 56; 57; 48; 45; 61],
         [33; 64; 35; 36; 37; 94; 38; 42; 40; 41; 95; 43]);
   (0x10, [113; 119; 101; 114; 116; 121; 117; 105; 111; 112; 91; 93],
         [81; 87; 69; 82; 84; 89; 85; 73; 79; 80; 123; 125]);
   (0x1E, [97; 115; 100; 102; 103; 104; 106; 107; 108; 59; 39; 96],
         [65; 83; 68; 70; 71; 72; 74; 75; 76; 58; 34; 126]);
   (0x2B, [92],
         [124]);
   (0x2C, [122; 120; 99; 118; 98; 110; 109; 44; 46; 47],
         [90; 88; 67; 86; 66; 78; 77; 60; 62; 63]);
   (0x39, [32],
         [32])].

(** The key and shift of a character. *)
Fixpoint position (c : Z) (l : list Z) : option Z :=
  match l with
  | [] => None
  | x :: l => if x =? c then Some 0 else (fun i => i + 1) <$> position c l
  end.

Fixpoint key_of (c : Z) (rows : list (Z * list Z * list Z)) : option (Z * bool) :=
  match rows with
  | [] => None
  | (first, plain, shifted) :: rows =>
    match position c plain, position c shifted with
    | Some i, _ => Some (first + i, false)
    | None, Some i => Some (first + i, true)
    | None, None => key_of c rows
    end
  end.

(** What the keyboard sends when a character is typed: its key pressed and released, inside a
    left shift when it needs one. *)
Definition keystrokes (c : Z) : list Z :=
  match key_of c us_layout with
  | Some (k, false) => [k; k + 0x80]
  | Some (k, true) => [0x2A; k; k + 0x80; 0xAA]
  | None => []
  end.

Definition printable (c : Z) : Prop := 32 <= c < 127.

(** The driver at rest, with one handler: no prefix is pending, and shift, caps lock and number lock
    are off.  What is recorded of control, alt and scroll lock may be anything. *)
Definition at_rest (lc rc la ra sl : bool) (buf h : Z) : KeyboardDriver :=
  mkDriver [h] (Some (mkInterp (mkKeyboard false false lc rc la ra false false sl) false 0 buf)).
Definition resting (h : Z) (d : KeyboardDriver) : Prop := exists lc rc la ra sl buf, d = at_rest lc rc la ra sl buf h.

(** The driver as it starts, with one handler. *)
Definition idle (h : Z) : KeyboardDriver := mkDriver [h] (Some KeyboardInterpreter_init).

Lemma idle_resting h : resting h (idle h).
Proof. by exists false, false, false, false, false, 0. Qed.

(** What the handlers' calls print. *)
Definition echoed (calls : list (Z * KeyEvent)) : list echo :=
  mjoin ((fun call => (OnKeyEvent call.2).1) <$> calls).

Lemma echoed_app c1 c2 : echoed (c1 ++ c2) = echoed c1 ++ echoed c2.
Proof. unfold echoed. by rewrite fmap_app, join_app. Qed.

(** ** Lemmas *)

Lemma interrupts_app uninit c1 c2 d :
  interrupts uninit (c1 ++ c2) d =
    ((interrupts uninit c2 (interrupts uninit c1 d).1).1,
     (interrupts uninit c1 d).2 ++ (interrupts uninit c2 (interrupts uninit c1 d).1).2).
Proof.
  revert d. induction c1 as [| c c1 IH]; intros d.
  - cbn. by destruct (interrupts uninit c2 d).
  - cbn [app interrupts]. destruct (HandleInterrupt uninit c d) as [d1 calls].
    rewrite IH. destruct (interrupts uninit c1 d1) as [d2 calls2]. cbn.
    by rewrite app_assoc.
Qed.

(** One printable character, from rest back to rest. *)
Lemma type_char uninit h d c :
  resting h d -> printable c ->
  (interrupts uninit (keystrokes c) d).1 = d /\ echoed (interrupts uninit (keystrokes c) d).2 = [Print [c]].
Proof.
  intros (lc & rc & la & ra & sl & buf & ->) Hc. unfold printable in Hc.
  assert (In_c : c ∈ seqZ 32 95) by (apply elem_of_seqZ; lia).
  revert In_c. clear Hc. revert c. apply (proj1 (Forall_forall _ _)).
  change (seqZ 32 95) with (ltac:(let l := eval vm_compute in (seqZ 32 95) in exact l)).
  repeat (constructor; [split; vm_compute; reflexivity |]). constructor.
Qed.

(** ** Theorems *)

(** The keys before: pressed and released, none of them right shift, caps lock or number lock, and
    none with a prefix. *)
Definition plain_key (k : Z) : Prop := 1 <= k < 0x58 /\ k <> 0x36 /\ k <> 0x3A /\ k <> 0x45.

Lemma plain_key_rests uninit h d k : resting h d -> plain_key k -> resting h (interrupts uninit [k; k + 0x80] d).1.
Proof.
  intros (lc & rc & la & ra & sl & buf & ->) (Hk & H1 & H2 & H3).
  assert (Hin : k ∈ base.filter (fun k => k <> 0x36 /\ k <> 0x3A /\ k <> 0x45) (seqZ 1 0x57))
    by (apply list_elem_of_filter; split; [done | apply elem_of_seqZ; lia]).
  revert Hin. clear. revert k. apply (proj1 (Forall_forall _ _)).
  match goal with |- Forall _ ?l => let l' := eval vm_compute in l in change l with l' end.
  repeat (constructor; [do 6 eexists; vm_compute; reflexivity |]). constructor.
Qed.


(** The pending-prefix member stays one of its three states. *)
Theorem extended_code_state (scan_code : Z) (e : KeyEvent) (t : KeyboardInterpreter) :
  0 <= m_current_extended_code_1 t <= 2 ->
  0 <= m_current_extended_code_1 (InterpretKey scan_code e t).2 <= 2.
Proof.
  intros H. unfold InterpretKey. cbv zeta.
  repeat match goal with
  | |- context [if ?b then _ else _] => destruct b; try (cbn; lia)
  | |- context [match ?o with Some _ => _ | None => _ end] => destruct o as [[? ?] |]; try (cbn; lia)
  end.
Qed.

(** Fact: a key with the prefix 0xE0 (arrows, right control, ...) is reported to the handlers
    with an event that was never set. *)
Theorem extended_key_uninitialised (scan_code : Z) (uninit : KeyEvent) (t : KeyboardInterpreter) :
  0 <= scan_code < 0x80 -> scan_code <> 0x2A -> scan_code <> 0x36 ->
  m_next_is_extended_code_0 t = true -> m_current_extended_code_1 t = 0 ->
  (InterpretKey scan_code uninit t).1 = (true, uninit).
Proof.
  intros Hs Hl Hr Hn He. unfold InterpretKey. rewrite Hn, He. cbv zeta.
  assert (truthy (Z.land scan_code 0x80) = false) as ->.
  { change 0x80 with (2 ^ 7). unfold truthy.
    assert (Z.land scan_code (2 ^ 7) = 0) as ->; [| done].
    apply Z.bits_inj'. intros i Hi. rewrite Z.land_spec, Z.bits_0.
    destruct (decide (i = 7)) as [-> |].
    - rewrite <- (Z.mod_small scan_code (2 ^ 7)) by lia. by rewrite Z.mod_pow2_bits_high by lia.
    - rewrite Z.pow2_bits_false by lia. apply andb_false_r. }
  cbn [andb orb truthy Z.eqb negb]. unfold KeyCodeEN_US.leftShift, KeyCodeEN_US.rightShift.
  replace (scan_code =? 0xe0) with false by lia. replace (scan_code =? 0x2A) with false by lia.
  replace (scan_code =? 0x36) with false by lia. replace (scan_code =? 0xe1) with false by lia.
  reflexivity.
Qed.

(** Fact: right shift is toggled by presses only: pressing and releasing it once leaves the
    keyboard shifted (left shift toggles on both). *)
Theorem right_shift_sticks (uninit : KeyEvent) (h : Z) :
  echoed (interrupts uninit [0x36; 0xB6; 0x1E; 0x9E] (idle h)).2 = [Print [65]] /\
  echoed (interrupts uninit [0x2A; 0xAA; 0x1E; 0x9E] (idle h)).2 = [Print [97]].
Proof. split; vm_compute; reflexivity. Qed.

(** Fact: a held left shift repeats its press, and every second repeat takes the shift back. *)
Theorem held_shift_flips (uninit : KeyEvent) (h : Z) :
  echoed (interrupts uninit [0x2A; 0x2A; 0x1E] (idle h)).2 = [Print [97]] /\
  echoed (interrupts uninit [0x2A; 0x2A; 0x2A; 0x1E] (idle h)).2 = [Print [65]].
Proof. split; vm_compute; reflexivity. Qed.

(** Fact: caps lock shifts digits and signs, too. *)
Theorem caps_lock_shifts_digits (uninit : KeyEvent) (h : Z) :
  echoed (interrupts uninit [0x3A; 0xBA; 0x02] (idle h)).2 = [Print [33]].
Proof. vm_compute. reflexivity. Qed.

(** Fact: waiting for the keyboard reads port 0 ([KEYBOARD_COMMAND_PORT & 0x1]), not bit 0 of
    the status port. *)
Theorem Activate_reads_port_0 (reads : list Z) (ops : list port_op) :
  Activate reads = Ret ops -> exists ops', ops = In 0 :: ops'.
Proof.
  unfold Activate. destruct reads as [| status reads]; [done |]. cbn [wait_key].
  destruct (truthy status).
  - destruct reads as [| x reads]; [done |]. destruct (wait_key reads) as [[rest o] | | |]; cbn; try done.
    destruct rest; [done |]. intros [= <-]. by eexists.
  - cbn. destruct reads; [done |]. intros [= <-]. by eexists.
Qed.

(** ** Witnesses *)

