(* ===== verification/Interrupts.v ===== *)
(** Interrupts: the handler table of the HAL (src/src/kernel/hal/HAL_x64.cpp), the local APIC
    and the I/O APIC (kernel/hal/devices/apic/LocalAPIC.cpp, IOAPIC.cpp) and the walk over the
    ACPI table that describes them (APIC.cpp).

    Memory-mapped registers are written into logs of (register, value) pairs; what registers and
    ports read is an argument.  Handlers are functions on the HAL's state ([run_handler]).  The
    structures of the ACPI table are those of ACPICA's headers, taken as byte layouts.  The
    x2APIC branches are dead ([x2Apic] is set to false) and left out, as is console output. *)
From S2P Require Import Prelude Scheduler CMemory OSSystem.

(** ** The local APIC *)

Definition LAPIC_ID : Z := 0x0020.
Definition LAPIC_VER : Z := 0x0030.
Definition LAPIC_TPR : Z := 0x0080.
Definition LAPIC_EOI : Z := 0x00b0.
Definition LAPIC_SVR : Z := 0x00f0.
Definition LAPIC_ESR : Z := 0x0280.
Definition LAPIC_ICRLO : Z := 0x0300.
Definition LAPIC_TIMER : Z := 0x0320.
Definition LAPIC_PERF : Z := 0x0340.
Definition LAPIC_LINT0 : Z := 0x0350.
Definition LAPIC_LINT1 : Z := 0x0360.
Definition LAPIC_ERROR : Z := 0x0370.
Definition LAPIC_TICR : Z := 0x0380.
Definition LAPIC_TCCR : Z := 0x0390.
Definition LAPIC_TDCR : Z := 0x03e0.
Definition ICR_FIXED : Z := 0.
Definition ICR_SEND_PENDING : Z := 0x1000.
Definition ICR_ALL_EXCLUDING_SELF : Z := 0xc0000.
Definition APIC_DISABLE : Z := 2 ^ 16.
Definition LAPIC_TIMER_PERIODIC : Z := 2 ^ 17.
Definition Timer0 : Z := 0x80.
Definition IRQ_ERROR : Z := 0x33.

Record LocalAPIC := mkLapic {
  eoi_required : bool;
  last_interrupt : Z;
  lapic_writes : list (Z * Z) }.

(** [LocalAPIC::write]. *)
Definition lapic_write (reg data : Z) (a : LocalAPIC) : LocalAPIC :=
  mkLapic (eoi_required a) (last_interrupt a) (lapic_writes a ++ [(reg, u32 data)]).

(** [NotifyEOIRequired], [EOIPending], [SignalEOI]. *)
Definition NotifyEOIRequired (vector : Z) (a : LocalAPIC) : LocalAPIC :=
  mkLapic true vector (lapic_writes a).

Definition EOIPending (a : LocalAPIC) : Z := if eoi_required a then last_interrupt a else 0.

Definition SignalEOI (a : LocalAPIC) : LocalAPIC :=
  lapic_write LAPIC_EOI 0 (mkLapic false (last_interrupt a) (lapic_writes a)).

(** [APIC::EOI]. *)
Definition EOI (a : LocalAPIC) : LocalAPIC := if truthy (EOIPending a) then SignalEOI a else a.

(** [LocalAPIC::ipi]: [reads] are the values of the command register while it is polled. *)
Fixpoint ipi_wait (reads : list Z) : outcome unit :=
  match reads with
  | [] => Diverged
  | r :: reads => if truthy (Z.land r ICR_SEND_PENDING) then ipi_wait reads else Ret tt
  end.

Definition ipi (vector : Z) (reads : list Z) (a : LocalAPIC) : outcome LocalAPIC :=
  _ ← ipi_wait reads;
  Ret (lapic_write LAPIC_ICRLO (Z.lor (Z.lor ICR_ALL_EXCLUDING_SELF ICR_FIXED) vector) a).

(** The end of [CalibrateTimer] in a release build: [remaining] is what the current-count
    register reads; the results are [apicCalibVal] and [Freq]. *)
Definition CalibrateTimer (remaining : Z) : Z * Z :=
  let apicCalibVal := u32 (0xffffffff - remaining) in
  let Freq := u32 (u32 (apicCalibVal * 16) * 100) in
  (Freq / APIC_TICKS_PER_SEC, Freq).

(** The register writes of [CalibrateTimer]. *)
Definition CalibrateTimer_writes (a : LocalAPIC) : LocalAPIC :=
  lapic_write LAPIC_TIMER APIC_DISABLE (lapic_write LAPIC_TICR 0xffffffff
    (lapic_write LAPIC_LINT1 APIC_DISABLE (lapic_write LAPIC_LINT0 APIC_DISABLE
      (lapic_write LAPIC_TIMER APIC_DISABLE a)))).

(** [LocalAPIC::id]. *)
Definition lapic_id (id_register : Z) : Z := Z.shiftr (u32 id_register) 24.

(** [LocalAPIC::Initialize]: [version], [remaining] and [id_register] are what the registers
    read. *)
Definition LocalAPIC_Initialize (version remaining id_register : Z) (a : LocalAPIC) : LocalAPIC :=
  let a := lapic_write LAPIC_SVR (Z.lor (2 ^ 8) 0x100) a in
  let a := lapic_write LAPIC_TDCR 3 a in
  let a := CalibrateTimer_writes a in
  let a := lapic_write LAPIC_TICR (fst (CalibrateTimer remaining)) a in
  let a := lapic_write LAPIC_TIMER (Z.lor Timer0 LAPIC_TIMER_PERIODIC) a in
  let a := if lapic_id id_register =? 0 then a else lapic_write LAPIC_LINT0 0x00010000 a in
  let a := lapic_write LAPIC_LINT1 APIC_DISABLE a in
  let a := if 4 <=? Z.land (Z.shiftr version 16) 0xFF then lapic_write LAPIC_PERF APIC_DISABLE a else a in
  let a := lapic_write LAPIC_ERROR IRQ_ERROR a in
  let a := lapic_write LAPIC_ESR 0 a in
  let a := lapic_write LAPIC_ESR 0 a in
  let a := lapic_write LAPIC_EOI 0 a in
  lapic_write LAPIC_TPR 0 a.

(** ** The handler table *)

Record HAL := mkHAL {
  m_interruptHandlers : gmap Z Z;
  m_local_apic : LocalAPIC;
  m_NumCPUs : Z;
  m_CPUS : gset Z }.

Definition with_lapic (h : HAL) (a : LocalAPIC) : HAL :=
  mkHAL (m_interruptHandlers h) a (m_NumCPUs h) (m_CPUS h).

(** [HAL::UnRegisterInterrupt] and [HAL::RegisterInterrupt]; a context is a name for the handler
    and its argument. *)
Definition UnRegisterInterrupt (vector : Z) (h : HAL) : HAL :=
  mkHAL (delete vector (m_interruptHandlers h)) (m_local_apic h) (m_NumCPUs h) (m_CPUS h).

Definition RegisterInterrupt (vector context : Z) (h : HAL) : HAL :=
  let h := UnRegisterInterrupt vector h in
  let handlers := match m_interruptHandlers h !! vector with
                  | Some _ => m_interruptHandlers h
                  | None => <[vector := context]> (m_interruptHandlers h)
                  end in
  mkHAL handlers (m_local_apic h) (m_NumCPUs h) (m_CPUS h).

(** [HAL::HandleInterrupt]; an interrupt nobody handles is fatal. *)
Definition HandleInterrupt (run_handler : Z -> HAL -> outcome HAL) (vector : Z) (h : HAL)
    : outcome HAL :=
  let h := if 32 <? vector then with_lapic h (NotifyEOIRequired vector (m_local_apic h)) else h in
  match m_interruptHandlers h !! vector with
  | Some context => h ← run_handler context h; Ret (with_lapic h (EOI (m_local_apic h)))
  | None =>
    if vector =? Timer0 then Ret (with_lapic h (EOI (m_local_apic h)))
    else Bugcheck
  end.

(** [HAL::RegisterCPU]. *)
Definition RegisterCPU (id : Z) (h : HAL) : HAL :=
  mkHAL (m_interruptHandlers h) (m_local_apic h) (u8 (m_NumCPUs h + 1)) ({[id]} ∪ m_CPUS h).

(** ** The I/O APIC *)

Record Override := mkOverride {
  ov_bus : Z; ov_source : Z; ov_global_system_interrupt : Z; ov_flags : Z }.

Record IOAPIC := mkIoapic {
  m_GlobalIrqBase : Z;
  m_PhysicalAddr : Z;
  m_max_redirect_entry : Z;
  m_override_array_size : Z;
  m_override_array : list Override;
  ioapic_writes : list (Z * Z) }.

Record interrupt_redirect_t := mkRedirect {
  r_type : Z; r_index : Z; r_interrupt : Z; r_destination : Z; r_flags : Z; r_mask : bool }.

Definition FirstEntry : Z := 0x10.

(** [WriteReg]: the register's number is cast to eight bits. *)
Definition WriteReg (reg value : Z) (a : IOAPIC) : IOAPIC :=
  mkIoapic (m_GlobalIrqBase a) (m_PhysicalAddr a) (m_max_redirect_entry a)
    (m_override_array_size a) (m_override_array a) (ioapic_writes a ++ [(u8 reg, u32 value)]).

(** [WriteEntry]: the low and the high half. *)
Definition WriteEntry (pin entry : Z) (a : IOAPIC) : IOAPIC :=
  let a := WriteReg (FirstEntry + 2 * pin) (u32 entry) a in
  WriteReg (FirstEntry + 1 + 2 * pin) (u32 (entry / 2 ^ 32)) a.

(** The fields of [RedirectionEntry]. *)
Definition set_InterruptVector (e v : Z) : Z := set_bits e 0 8 v.
Definition set_DeliveryMode (e v : Z) : Z := set_bits e 8 3 v.
Definition set_DestinationMode (e v : Z) : Z := set_bits e 11 1 v.
Definition set_InterruptPolarity (e v : Z) : Z := set_bits e 13 1 v.
Definition set_TriggerMode (e v : Z) : Z := set_bits e 15 1 v.
Definition set_InterruptMasked (e v : Z) : Z := set_bits e 16 1 v.
Definition set_Destination (e v : Z) : Z := set_bits e 56 8 v.

(** The loop of [IOAPIC::Initialize] that masks the entries. *)
Definition mask_entries (n : nat) (a : IOAPIC) : IOAPIC :=
  fold_left (fun a i => WriteEntry i (set_InterruptVector (set_InterruptMasked 0 1) (32 + i)) a)
    (seqZ 0 (Z.of_nat n)) a.

(** [IOAPIC::Initialize]: [m_version] is a [uint8_t]. *)
Definition IOAPIC_Initialize (version_register address base : Z) (a : IOAPIC) : IOAPIC :=
  let m_version := u8 version_register in
  let m_max_redirect_entry := u8 (Z.land (u8 (Z.shiftr m_version 16)) 0xFF + 1) in
  mask_entries (Z.to_nat m_max_redirect_entry)
    (mkIoapic base address m_max_redirect_entry (m_override_array_size a) (m_override_array a)
       (ioapic_writes a)).

(** [RegisterOverrideEntry]. *)
Definition RegisterOverrideEntry (indx : Z) (ovr : Override) (a : IOAPIC) : outcome IOAPIC :=
  _ ← Assert (indx <? 0x10);
  Ret (mkIoapic (m_GlobalIrqBase a) (m_PhysicalAddr a) (m_max_redirect_entry a)
        (u32 (m_override_array_size a + 1)) (<[Z.to_nat indx := ovr]> (m_override_array a))
        (ioapic_writes a)).

(** The first override for a source; C reads [a & 0b11 == 2] as [a & (0b11 == 2)]. *)
Fixpoint apply_override (overrides : list Override) (type entry : Z) : Z :=
  match overrides with
  | [] => entry
  | o :: overrides =>
    if negb (ov_source o =? type) then apply_override overrides type entry
    else
      let entry := set_InterruptPolarity entry
                     (if truthy (Z.land (ov_flags o) (of_bool (3 =? 2))) then 1 else 0) in
      let entry := set_InterruptPolarity entry
                     (if truthy (Z.land (Z.shiftr (ov_flags o) 2) (of_bool (3 =? 2))) then 1 else 0) in
      set_TriggerMode entry (of_bool (Z.land (Z.shiftr (ov_flags o) 2) 3 =? 2))
  end.

(** The entry [IOAPIC::SetRedirection] writes. *)
Definition redirection_entry (r : interrupt_redirect_t) (a : IOAPIC) : Z :=
  let entry := Z.lor (r_flags r) (Z.land (r_interrupt r) 0xFF) in
  let entry := set_Destination entry (r_destination r) in
  let entry := set_InterruptMasked entry (of_bool (r_mask r)) in
  let entry := set_InterruptVector entry (r_interrupt r) in
  let entry := set_DeliveryMode entry 0 in
  let entry := set_DestinationMode entry 0 in
  apply_override (take (Z.to_nat (m_override_array_size a)) (m_override_array a)) (r_type r) entry.

(** [IOAPIC::SetRedirection]. *)
Definition SetRedirection (r : interrupt_redirect_t) (a : IOAPIC) : IOAPIC :=
  WriteEntry (r_index r) (redirection_entry r a) a.

(** ** The walk over the MADT *)

Definition ACPI_MADT_TYPE_LOCAL_APIC : Z := 0.
Definition ACPI_MADT_TYPE_IO_APIC : Z := 1.
Definition ACPI_MADT_TYPE_INTERRUPT_OVERRIDE : Z := 2.
Definition ACPI_MADT_ENABLED : Z := 1.
Definition sizeof_ACPI_TABLE_MADT : Z := 44.

(** What the walk changes. *)
Record apics := mkApics { ap_hal : HAL; ap_io : IOAPIC; overrideIndx : Z }.

(** [n] bytes at an offset of the table. *)
Definition table_read (table : list Z) (n : nat) (off : Z) : outcome Z :=
  if off + Z.of_nat n <=? Z.of_nat (length table)
  then Ret (le_of (take n (drop (Z.to_nat off) table))) else Fault.

(** The three kinds of entries. *)
Definition local_apic_entry (processor flags : Z) (s : apics) : apics :=
  if truthy (Z.land flags ACPI_MADT_ENABLED)
  then mkApics (RegisterCPU processor (ap_hal s)) (ap_io s) (overrideIndx s) else s.

Definition io_apic_entry (version : Z -> Z) (address base : Z) (s : apics) : apics :=
  mkApics (ap_hal s) (IOAPIC_Initialize (version address) address base (ap_io s)) (overrideIndx s).

Definition override_entry (o : Override) (s : apics) : outcome apics :=
  io ← RegisterOverrideEntry (overrideIndx s) o (ap_io s);
  Ret (mkApics (ap_hal s) io (u8 (overrideIndx s + 1))).

(** The loop of [APIC::Init]; [version address] is what an I/O APIC's version register reads. *)
Fixpoint madt_walk (fuel : nat) (version : Z -> Z) (table : list Z) (entry madt_end : Z) (s : apics)
    : outcome apics :=
  match fuel with
  | O => Diverged
  | S fuel =>
    if entry + 2 <? madt_end then
      type ← table_read table 1 entry;
      s ← (if type =? ACPI_MADT_TYPE_LOCAL_APIC then
             processor ← table_read table 1 (entry + 2);
             flags ← table_read table 4 (entry + 4);
             Ret (local_apic_entry processor flags s)
           else if type =? ACPI_MADT_TYPE_IO_APIC then
             address ← table_read table 4 (entry + 4);
             base ← table_read table 4 (entry + 8);
             Ret (io_apic_entry version address base s)
           else if type =? ACPI_MADT_TYPE_INTERRUPT_OVERRIDE then
             bus ← table_read table 1 (entry + 2);
             source ← table_read table 1 (entry + 3);
             gsi ← table_read table 4 (entry + 4);
             flags ← table_read table 2 (entry + 8);
             override_entry (mkOverride bus source gsi flags) s
           else Ret s);
      len ← table_read table 1 (entry + 1);
      madt_walk fuel version table (entry + len) madt_end s
    else Ret s
  end.

(** [APIC::disable_pic]: the port writes. *)
Definition disable_pic : list (Z * Z) :=
  [(0x20, 0x11); (0xA0, 0x11); (0x21, 0x20); (0xA1, 0x28); (0x21, 0x04); (0xA1, 0x02);
   (0x21, 0x01); (0xA1, 0x01); (0x21, 0xFF); (0xA1, 0xFF)].

(** [APIC::Init] over a whole table: [lversion], [remaining] and [id_register] are what the
    registers of the local APIC read; the port writes mask the old controller and set IMCR. *)
Definition APIC_Init (fuel : nat) (version : Z -> Z) (lversion remaining id_register : Z)
    (table : list Z) (s : apics) : outcome (apics * list (Z * Z)) :=
  len ← table_read table 4 4;
  let hal := with_lapic (ap_hal s)
    (LocalAPIC_Initialize lversion remaining id_register (m_local_apic (ap_hal s))) in
  s ← madt_walk fuel version table sizeof_ACPI_TABLE_MADT len (mkApics hal (ap_io s) 0);
  Ret (s, disable_pic ++ [(0x22, 0x70); (0x23, 0x01)]).

(** ** Dispatch *)

(** How often the end of an interrupt was signalled. *)
Definition eoi_count (h : HAL) : nat :=
  length (base.filter (fun w => w.1 = LAPIC_EOI) (lapic_writes (m_local_apic h))).

Lemma eoi_count_signal h :
  eoi_count (with_lapic h (SignalEOI (m_local_apic h))) = S (eoi_count h).
Proof.
  unfold eoi_count, SignalEOI, lapic_write. cbn. rewrite filter_app, length_app.
  rewrite filter_cons, decide_True by done. cbn. lia.
Qed.

(** A registered handler is found, and only for its vector. *)
Lemma RegisterInterrupt_lookup vector context v h :
  m_interruptHandlers (RegisterInterrupt vector context h) !! v =
    if decide (v = vector) then Some context else m_interruptHandlers h !! v.
Proof.
  unfold RegisterInterrupt, UnRegisterInterrupt. cbn. rewrite lookup_delete_eq. cbn.
  case_decide as Hv.
  - subst. by rewrite lookup_insert_eq.
  - by rewrite lookup_insert_ne, lookup_delete_ne by done.
Qed.

(** ** The table, written *)

Inductive madt_entry :=
| MadtLocalApic (processor id flags : Z)
| MadtIoApic (id address base : Z)
| MadtOverride (o : Override)
| MadtOther (type : Z) (data : list Z).

Definition encode_entry (e : madt_entry) : list Z :=
  match e with
  | MadtLocalApic processor id flags => [0; 8; processor; id] ++ le_to 4 flags
  | MadtIoApic id address base => [1; 12; id; 0] ++ le_to 4 address ++ le_to 4 base
  | MadtOverride o =>
    [2; 10; ov_bus o; ov_source o] ++ le_to 4 (ov_global_system_interrupt o) ++ le_to 2 (ov_flags o)
  | MadtOther type data => [type; 2 + Z.of_nat (length data)] ++ data
  end.

Definition entry_ok (e : madt_entry) : Prop :=
  match e with
  | MadtLocalApic _ _ flags => 0 <= flags < 2 ^ 32
  | MadtIoApic _ address base => 0 <= address < 2 ^ 32 /\ 0 <= base < 2 ^ 32
  | MadtOverride o => 0 <= ov_global_system_interrupt o < 2 ^ 32 /\ 0 <= ov_flags o < 2 ^ 16
  | MadtOther type data => 3 <= type < 256 /\ data <> [] /\ Z.of_nat (length data) < 254
  end.

(** What an entry means. *)
Definition apply_entry (version : Z -> Z) (e : madt_entry) (s : apics) : outcome apics :=
  match e with
  | MadtLocalApic processor _ flags => Ret (local_apic_entry processor flags s)
  | MadtIoApic _ address base => Ret (io_apic_entry version address base s)
  | MadtOverride o => override_entry o s
  | MadtOther _ _ => Ret s
  end.

Fixpoint apply_entries (version : Z -> Z) (es : list madt_entry) (s : apics) : outcome apics :=
  match es with
  | [] => Ret s
  | e :: es => s ← apply_entry version e s; apply_entries version es s
  end.

Lemma table_read_app pre l n k :
  0 <= k -> k + Z.of_nat n <= Z.of_nat (length l) ->
  table_read (pre ++ l) n (Z.of_nat (length pre) + k) = Ret (le_of (take n (drop (Z.to_nat k) l))).
Proof.
  intros Hk Hl. unfold table_read. rewrite length_app.
  rewrite (proj2 (Z.leb_le _ _)) by lia.
  do 2 f_equal. replace (Z.to_nat (Z.of_nat (length pre) + k)) with (length pre + Z.to_nat k)%nat by lia.
  by rewrite drop_app_add.
Qed.

Lemma le_byte b : le_of [b] = b.
Proof. cbn. lia. Qed.

(** The fields of an encoded entry. *)
Lemma take_byte k l b : l !! k = Some b -> le_of (take 1 (drop k l)) = b.
Proof.
  intros Hk. rewrite (drop_S _ b k Hk). apply le_byte.
Qed.

Lemma take_field pre n v l :
  0 <= v < 256 ^ Z.of_nat n -> le_of (take n (drop (length pre) (pre ++ le_to n v ++ l))) = v.
Proof.
  intros Hv. rewrite drop_app_length. rewrite take_app_le by (rewrite le_to_length; done).
  rewrite take_ge by (rewrite le_to_length; done). by apply le_of_to.
Qed.

Ltac field pre n v rest :=
  match goal with
  | |- context [le_of (take n (drop ?k ?l))] =>
    replace (le_of (take n (drop k l))) with v by (symmetry; by apply (take_field pre n v rest))
  end.

(** One turn of the walk: an entry is applied and skipped. *)
Lemma madt_turn version pre e rest fuel s :
  entry_ok e ->
  madt_walk (S fuel) version (pre ++ encode_entry e ++ rest) (Z.of_nat (length pre))
    (Z.of_nat (length (pre ++ encode_entry e ++ rest))) s =
  (s ← apply_entry version e s;
   madt_walk fuel version (pre ++ encode_entry e ++ rest)
     (Z.of_nat (length (pre ++ encode_entry e)))
     (Z.of_nat (length (pre ++ encode_entry e ++ rest))) s).
Proof.
  intros He. cbn [madt_walk].
  assert (3 <= length (encode_entry e))%nat as Hlen.
  { destruct e; cbn in He |- *; try lia. destruct data; [naive_solver | cbn; lia]. }
  assert (Z.of_nat (length pre) + 2 <? Z.of_nat (length (pre ++ encode_entry e ++ rest)) = true) as ->
    by (apply Z.ltb_lt; rewrite !length_app; lia).
  rewrite <- (Z.add_0_r (Z.of_nat (length pre))) at 1.
  assert (forall n k, 0 <= k -> k + Z.of_nat n <= Z.of_nat (length (encode_entry e)) ->
    table_read (pre ++ encode_entry e ++ rest) n (Z.of_nat (length pre) + k) =
      Ret (le_of (take n (drop (Z.to_nat k) (encode_entry e ++ rest))))) as Hread.
  { intros n k Hk Hn. apply table_read_app; [done |]. rewrite length_app. lia. }
  assert (Z.of_nat (length (pre ++ encode_entry e)) = Z.of_nat (length pre) + Z.of_nat (length (encode_entry e)))
    as -> by (rewrite length_app; lia).
  destruct e as [p i f | i a b | o | ty data]; cbn [encode_entry apply_entry entry_ok] in *;
    rewrite (Hread 1%nat 0), (Hread 1%nat 1) by (cbn; lia);
    erewrite !take_byte by reflexivity; cbn [mbind outcome_bind].
  - cbn [Z.eqb ACPI_MADT_TYPE_LOCAL_APIC].
    rewrite (Hread 1%nat 2), (Hread 4%nat 4) by (cbn; lia). cbn [mbind outcome_bind].
    erewrite take_byte by reflexivity. by field [0; 8; p; i] 4%nat f rest.
  - change (1 =? ACPI_MADT_TYPE_LOCAL_APIC) with false. change (1 =? ACPI_MADT_TYPE_IO_APIC) with true.
    rewrite (Hread 4%nat 4), (Hread 4%nat 8) by (cbn; lia). cbn [mbind outcome_bind].
    destruct He. field [1; 12; i; 0] 4%nat a (le_to 4 b ++ rest).
    by field ([1; 12; i; 0] ++ le_to 4 a) 4%nat b rest.
  - change (2 =? ACPI_MADT_TYPE_LOCAL_APIC) with false. change (2 =? ACPI_MADT_TYPE_IO_APIC) with false.
    change (2 =? ACPI_MADT_TYPE_INTERRUPT_OVERRIDE) with true.
    rewrite (Hread 1%nat 2), (Hread 1%nat 3), (Hread 4%nat 4), (Hread 2%nat 8) by (cbn; lia).
    cbn [mbind outcome_bind]. destruct He. erewrite !take_byte by reflexivity.
    destruct o as [bus src g f]. cbn [ov_bus ov_source ov_global_system_interrupt ov_flags] in *.
    field [2; 10; bus; src] 4%nat g (le_to 2 f ++ rest).
    by field ([2; 10; bus; src] ++ le_to 4 g) 2%nat f rest.
  - unfold ACPI_MADT_TYPE_LOCAL_APIC, ACPI_MADT_TYPE_IO_APIC, ACPI_MADT_TYPE_INTERRUPT_OVERRIDE.
    rewrite !(proj2 (Z.eqb_neq ty _)) by lia. cbn [mbind outcome_bind length app].
    do 2 f_equal. cbn. lia.
Qed.

Lemma madt_walk_run version (es : list madt_entry) : forall pre s,
  Forall entry_ok es ->
  madt_walk (S (length es)) version (pre ++ mjoin (encode_entry <$> es)) (Z.of_nat (length pre))
    (Z.of_nat (length (pre ++ mjoin (encode_entry <$> es)))) s
  = apply_entries version es s.
Proof.
  induction es as [| e es IH]; intros pre s Hes.
  - cbn. rewrite app_nil_r. destruct (Z.ltb_spec (Z.of_nat (length pre) + 2) (Z.of_nat (length pre))); [lia | done].
  - inversion Hes as [| ? ? He Hes']; subst.
    change (mjoin (encode_entry <$> e :: es)) with (encode_entry e ++ mjoin (encode_entry <$> es)).
    cbn [length]. rewrite madt_turn by done. cbn [apply_entries].
    destruct (apply_entry version e s) as [s' | | |]; cbn [mbind outcome_bind]; try done.
    specialize (IH (pre ++ encode_entry e) s' Hes'). by rewrite <- !app_assoc in IH.
Qed.

(** ** Acknowledging interrupts *)

Lemma EOI_pending vector a :
  vector <> 0 -> EOI (NotifyEOIRequired vector a) = SignalEOI (NotifyEOIRequired vector a).
Proof.
  intros Hv. unfold EOI, EOIPending, truthy. cbn [eoi_required last_interrupt NotifyEOIRequired].
  by rewrite (proj2 (Z.eqb_neq vector 0)) by done.
Qed.

Lemma EOI_done a : EOI (SignalEOI a) = SignalEOI a.
Proof. done. Qed.

(** C27: an interrupt with a handler is acknowledged exactly once when the handler leaves the
    local APIC alone and the vector is above 32, nothing stays pending, and the handler ran on
    the state in which the interrupt is noted; the spurious timer interrupt is acknowledged
    although nobody handles it, and any other vector without a handler is fatal. *)
Theorem interrupt_is_acknowledged (run_handler : Z -> HAL -> outcome HAL) vector h :
  32 < vector < 256 ->
  (forall context s s', run_handler context s = Ret s' -> m_local_apic s' = m_local_apic s) ->
  match m_interruptHandlers h !! vector with
  | Some context =>
    forall h1, run_handler context (with_lapic h (NotifyEOIRequired vector (m_local_apic h))) = Ret h1 ->
    exists h', HandleInterrupt run_handler vector h = Ret h' /\ eoi_count h' = S (eoi_count h) /\
      eoi_required (m_local_apic h') = false /\ m_interruptHandlers h' = m_interruptHandlers h1
  | None =>
    if vector =? Timer0
    then exists h', HandleInterrupt run_handler vector h = Ret h' /\ eoi_count h' = S (eoi_count h) /\
      eoi_required (m_local_apic h') = false
    else HandleInterrupt run_handler vector h = Bugcheck
  end.
Proof.
  intros Hv Hkeep. unfold HandleInterrupt. rewrite (proj2 (Z.ltb_lt 32 vector)) by lia.
  assert (forall h1, m_local_apic h1 = NotifyEOIRequired vector (m_local_apic h) ->
    EOI (m_local_apic h1) = SignalEOI (m_local_apic h1) /\
    eoi_count (with_lapic h1 (EOI (m_local_apic h1))) = S (eoi_count h)) as Hack.
  { intros h1 H1. assert (EOI (m_local_apic h1) = SignalEOI (m_local_apic h1)) as ->.
    { rewrite H1. apply EOI_pending. lia. }
    split; [done |]. rewrite eoi_count_signal. unfold eoi_count. by rewrite H1. }
  cbn [m_interruptHandlers with_lapic].
  destruct (m_interruptHandlers h !! vector) as [context |].
  - intros h1 Hrun. rewrite Hrun. eexists. split; [done |].
    destruct (Hack h1) as [Heq Hc]; [by rewrite (Hkeep _ _ _ Hrun) |].
    split; [done |]. by rewrite Heq.
  - destruct (vector =? Timer0); [| done]. eexists. split; [done |].
    destruct (Hack (with_lapic h (NotifyEOIRequired vector (m_local_apic h)))) as [Heq Hc]; [done |].
    split; [done |]. by rewrite Heq.
Qed.

Definition idle_hal : HAL := mkHAL ∅ (mkLapic false 0 []) 0 ∅.

Lemma interrupt_is_acknowledged_witness :
  exists h', HandleInterrupt (fun _ => Ret) 0x81 (RegisterInterrupt 0x81 7 idle_hal) = Ret h' /\
    eoi_count h' = 1%nat /\ eoi_required (m_local_apic h') = false.
Proof.
  pose proof (interrupt_is_acknowledged (fun _ => Ret) 0x81 (RegisterInterrupt 0x81 7 idle_hal)
    ltac:(lia) ltac:(intros ? ? ? [= ->]; reflexivity)) as H.
  rewrite RegisterInterrupt_lookup in H. destruct (H _ eq_refl) as (h' & Hr & Hc & He & _).
  exists h'. split; [exact Hr |]. split; [exact Hc | exact He].
Defined.

(** A handler that is interrupted is not acknowledged: the inner interrupt clears the only flag. *)
Theorem nested_interrupt_unacknowledged inner outer h :
  32 < inner < 256 -> 32 < outer < 256 -> inner <> outer ->
  let hal := RegisterInterrupt outer outer (RegisterInterrupt inner inner h) in
  let quiet (_ : Z) (s : HAL) := Ret s in
  let nested (context : Z) (s : HAL) :=
    if context =? outer then HandleInterrupt quiet inner s else Ret s in
  exists h', HandleInterrupt nested outer hal = Ret h' /\ eoi_count h' = S (eoi_count h).
Proof.
  intros Hi Ho Hne hal quiet nested.
  assert (m_interruptHandlers hal !! outer = Some outer) as Hout.
  { unfold hal. by rewrite RegisterInterrupt_lookup, decide_True by done. }
  assert (m_interruptHandlers hal !! inner = Some inner) as Hin.
  { unfold hal. by rewrite !RegisterInterrupt_lookup, decide_False, decide_True by done. }
  unfold HandleInterrupt at 1. rewrite (proj2 (Z.ltb_lt 32 outer)) by lia.
  cbn [m_interruptHandlers with_lapic]. rewrite Hout. unfold nested. rewrite Z.eqb_refl.
  unfold HandleInterrupt. rewrite (proj2 (Z.ltb_lt 32 inner)) by lia.
  cbn [m_interruptHandlers with_lapic]. rewrite Hin. cbn [quiet mbind outcome_bind].
  eexists. split; [done |]. cbn [m_local_apic with_lapic].
  rewrite EOI_pending, EOI_done by lia.
  unfold eoi_count. cbn [lapic_writes m_local_apic with_lapic lapic_write NotifyEOIRequired SignalEOI].
  rewrite filter_app, length_app, filter_cons, decide_True by done. cbn. lia.
Qed.

(** ** What the walk leaves behind *)

Definition enabled_processors (es : list madt_entry) : list Z :=
  omap (fun e => match e with
                 | MadtLocalApic p _ f => if truthy (Z.land f ACPI_MADT_ENABLED) then Some p else None
                 | _ => None
                 end) es.

Definition overrides_of (es : list madt_entry) : list Override :=
  omap (fun e => match e with MadtOverride o => Some o | _ => None end) es.

(** The overrides an I/O APIC holds: the used part of its array. *)
Definition overrides (a : IOAPIC) : list Override :=
  take (Z.to_nat (m_override_array_size a)) (m_override_array a).

Definition overrides_wf (s : apics) : Prop :=
  length (m_override_array (ap_io s)) = 16%nat /\
  0 <= m_override_array_size (ap_io s) <= 16 /\
  overrideIndx s = m_override_array_size (ap_io s).

Lemma mask_entries_keeps n : forall a,
  m_override_array (mask_entries n a) = m_override_array a /\
  m_override_array_size (mask_entries n a) = m_override_array_size a.
Proof.
  unfold mask_entries. generalize (seqZ 0 (Z.of_nat n)). intros l.
  induction l as [| i l IH]; intros a; [done |]. cbn [fold_left]. exact (IH (WriteEntry i _ a)).
Qed.

Lemma IOAPIC_Initialize_keeps v address base a :
  m_override_array (IOAPIC_Initialize v address base a) = m_override_array a /\
  m_override_array_size (IOAPIC_Initialize v address base a) = m_override_array_size a.
Proof. exact (mask_entries_keeps _ (mkIoapic _ _ _ _ _ _)). Qed.

Lemma override_entry_adds o s :
  overrides_wf s -> m_override_array_size (ap_io s) < 16 ->
  exists s', override_entry o s = Ret s' /\ overrides_wf s' /\
    overrides (ap_io s') = overrides (ap_io s) ++ [o] /\ ap_hal s' = ap_hal s /\
    m_override_array_size (ap_io s') = m_override_array_size (ap_io s) + 1.
Proof.
  intros (Hl & Hn & Hi) Hlt. unfold override_entry, RegisterOverrideEntry.
  unfold Assert. rewrite (proj2 (Z.ltb_lt _ _)) by lia. cbn [mbind outcome_bind].
  eexists. split; [done |]. unfold overrides_wf, overrides. cbn [ap_io ap_hal m_override_array m_override_array_size overrideIndx].
  rewrite Hi. assert (u32 (m_override_array_size (ap_io s) + 1) = m_override_array_size (ap_io s) + 1) as ->
    by (apply Z.mod_small; lia).
  assert (u8 (m_override_array_size (ap_io s) + 1) = m_override_array_size (ap_io s) + 1) as ->
    by (apply Z.mod_small; lia).
  rewrite length_insert. split; [lia |]. split; [| done].
  replace (Z.to_nat (m_override_array_size (ap_io s) + 1)) with (S (Z.to_nat (m_override_array_size (ap_io s)))) by lia.
  rewrite (take_S_r _ _ o) by (apply list_lookup_insert_eq; lia).
  f_equal. by rewrite take_insert_ge by lia.
Qed.

Lemma apply_entries_run version es : forall s,
  overrides_wf s -> m_override_array_size (ap_io s) + Z.of_nat (length (overrides_of es)) <= 16 ->
  exists s', apply_entries version es s = Ret s' /\
    overrides (ap_io s') = overrides (ap_io s) ++ overrides_of es /\
    u8 (m_NumCPUs (ap_hal s')) = u8 (m_NumCPUs (ap_hal s) + Z.of_nat (length (enabled_processors es))) /\
    m_CPUS (ap_hal s') = m_CPUS (ap_hal s) ∪ list_to_set (enabled_processors es) /\
    m_interruptHandlers (ap_hal s') = m_interruptHandlers (ap_hal s) /\
    m_local_apic (ap_hal s') = m_local_apic (ap_hal s).
Proof.
  induction es as [| e es IH]; intros s Hwf Hle.
  - exists s. split; [done |]. cbn. rewrite app_nil_r, Z.add_0_r. repeat split; try done. set_solver.
  - destruct e as [p i f | i a b | o | ty data]; cbn [apply_entries apply_entry mbind outcome_bind].
    + unfold local_apic_entry. unfold enabled_processors. cbn [omap list_omap].
      destruct (truthy (Z.land f ACPI_MADT_ENABLED)); [| by apply IH].
      destruct (IH (mkApics (RegisterCPU p (ap_hal s)) (ap_io s) (overrideIndx s)) Hwf Hle)
        as (s' & Hr & Ho & Hn & Hc & Hh & Hl).
      exists s'. split; [exact Hr |]. split; [exact Ho |]. cbn [ap_hal RegisterCPU m_NumCPUs m_CPUS] in Hn, Hc, Hh, Hl.
      cbn [length list_to_set]. split.
      * rewrite Hn. unfold u8, wrap. rewrite Z.add_mod_idemp_l by lia. f_equal. unfold enabled_processors. lia.
      * split; [| done]. rewrite Hc. unfold enabled_processors. set_solver.
    + destruct (IOAPIC_Initialize_keeps (version a) a b (ap_io s)) as [H1 H2].
      destruct (IH (io_apic_entry version a b s)) as (s' & Hr & Ho & H).
      * unfold overrides_wf, io_apic_entry. cbn [ap_io overrideIndx]. by rewrite H1, H2.
      * cbn [io_apic_entry ap_io]. by rewrite H2.
      * exists s'. split; [exact Hr |]. split; [| exact H].
        rewrite Ho. unfold overrides. cbn [io_apic_entry ap_io]. by rewrite H1, H2.
    + cbn [overrides_of omap list_omap length] in Hle.
      destruct (override_entry_adds o s Hwf ltac:(lia)) as (s1 & -> & Hwf1 & Ho1 & Hh1 & Hs1).
      cbn [mbind outcome_bind]. destruct (IH s1 Hwf1) as (s' & Hr & Ho & H).
      { unfold overrides_of. lia. }
      exists s'. split; [exact Hr |]. rewrite Ho, Ho1, <- app_assoc, <- Hh1. by split.
    + by apply IH.
Qed.

(** A table as the firmware lays it out: a signature, the length, the rest of the header and the
    entries. *)
Definition madt_table (signature body : list Z) (es : list madt_entry) : list Z :=
  let entries := mjoin (encode_entry <$> es) in
  signature ++ le_to 4 (44 + Z.of_nat (length entries)) ++ body ++ entries.

(** C26: walking a well-formed ACPI table with at most sixteen interrupt overrides succeeds and
    terminates; afterwards the I/O APIC holds exactly the table's overrides in their order, the
    set of processors is the set of the enabled ones and their number is the number of their
    entries (modulo 256), and the interrupt handlers are as they were. *)
Theorem madt_is_read version lversion remaining id_register signature body es s :
  length signature = 4%nat -> length body = 36%nat -> Forall entry_ok es ->
  44 + Z.of_nat (length (mjoin (encode_entry <$> es))) < 2 ^ 32 ->
  length (m_override_array (ap_io s)) = 16%nat -> m_override_array_size (ap_io s) = 0 ->
  m_NumCPUs (ap_hal s) = 0 -> m_CPUS (ap_hal s) = ∅ ->
  (length (overrides_of es) <= 16)%nat ->
  exists s' ports,
    APIC_Init (S (length es)) version lversion remaining id_register (madt_table signature body es) s
      = Ret (s', ports) /\
    overrides (ap_io s') = overrides_of es /\
    u8 (m_NumCPUs (ap_hal s')) = u8 (Z.of_nat (length (enabled_processors es))) /\
    m_CPUS (ap_hal s') = list_to_set (enabled_processors es) /\
    m_interruptHandlers (ap_hal s') = m_interruptHandlers (ap_hal s).
Proof.
  intros Hs Hb Hes Hlen Ha Hz Hn Hc Ho. unfold APIC_Init, madt_table.
  set (entries := mjoin (encode_entry <$> es)) in *.
  set (len := 44 + Z.of_nat (length entries)) in *.
  assert (table_read (signature ++ le_to 4 len ++ body ++ entries) 4 4 = Ret len) as ->.
  { pose proof (table_read_app signature (le_to 4 len ++ body ++ entries) 4 0 ltac:(lia)) as Hr.
    rewrite Hs in Hr. etransitivity; [apply Hr; rewrite length_app, le_to_length; lia |].
    f_equal. apply (take_field [] 4 len (body ++ entries)). cbn. unfold len in *. lia. }
  cbn [mbind outcome_bind].
  set (hdr := signature ++ le_to 4 len ++ body).
  assert (length hdr = 44%nat) as Hhdr
    by (unfold hdr; rewrite !length_app, le_to_length; lia).
  replace (signature ++ le_to 4 len ++ body ++ entries) with (hdr ++ entries)
    by (unfold hdr; by rewrite <- !app_assoc).
  replace sizeof_ACPI_TABLE_MADT with (Z.of_nat (length hdr)) by (rewrite Hhdr; done).
  replace len with (Z.of_nat (length (hdr ++ entries))) by (rewrite length_app; unfold len; lia).
  unfold entries. rewrite madt_walk_run by done.
  set (s0 := mkApics _ _ _).
  destruct (apply_entries_run version es s0) as (s' & -> & H1 & H2 & H3 & H4 & _).
  { unfold overrides_wf, s0. cbn [ap_io overrideIndx]. lia. }
  { unfold s0. cbn [ap_io]. lia. }
  cbn [mbind outcome_bind]. eexists s', _. split; [done |].
  rewrite H1, H2, H3, H4. unfold s0, overrides. cbn [ap_io ap_hal with_lapic m_NumCPUs m_CPUS m_interruptHandlers].
  rewrite Hz, Hn, Hc. split; [done |]. split; [done |]. split; [set_solver | done].
Qed.

Definition fresh_apics : apics :=
  mkApics idle_hal (mkIoapic 0 0 0 0 (replicate 16 (mkOverride 0 0 0 0)) []) 0.

Definition qemu_entries : list madt_entry :=
  [MadtLocalApic 0 0 1; MadtLocalApic 1 1 0; MadtIoApic 0 0xfec00000 0;
   MadtOverride (mkOverride 0 0 2 0); MadtOther 4 [255; 0; 0; 1]; MadtOverride (mkOverride 0 5 5 13)].

Lemma madt_is_read_witness :
  exists s' ports,
    APIC_Init 7 (fun _ => 0x170020) 0x50014 0 0
      (madt_table [65; 80; 73; 67] (replicate 36 0) qemu_entries) fresh_apics = Ret (s', ports) /\
    overrides (ap_io s') = [mkOverride 0 0 2 0; mkOverride 0 5 5 13] /\
    m_CPUS (ap_hal s') = {[ 0 ]}.
Proof.
  destruct (madt_is_read (fun _ => 0x170020) 0x50014 0 0 [65; 80; 73; 67] (replicate 36 0) qemu_entries
    fresh_apics) as (s' & ports & Hr & Ho & _ & Hc & _);
    [done | done | repeat constructor; cbn; lia || done | cbn; lia | done | done | done | done | cbn; lia |].
  exists s', ports. split; [exact Hr |]. split; [exact Ho |]. rewrite Hc. vm_compute. reflexivity.
Defined.

(** An entry whose length is zero is read for ever. *)
Theorem zero_length_entry_spins fuel version pre data s :
  data <> [] ->
  madt_walk fuel version (pre ++ 4 :: 0 :: data) (Z.of_nat (length pre))
    (Z.of_nat (length (pre ++ 4 :: 0 :: data))) s = Diverged.
Proof.
  intros Hd. assert (0 < length data)%nat by (destruct data; [done | cbn; lia]).
  induction fuel as [| fuel IH]; [done |]. cbn [madt_walk].
  rewrite (proj2 (Z.ltb_lt _ _)) by (rewrite length_app; cbn [length]; lia).
  assert (table_read (pre ++ 4 :: 0 :: data) 1 (Z.of_nat (length pre)) = Ret 4) as ->.
  { rewrite <- (Z.add_0_r (Z.of_nat (length pre))). rewrite table_read_app by (cbn [length]; lia).
    done. }
  assert (table_read (pre ++ 4 :: 0 :: data) 1 (Z.of_nat (length pre) + 1) = Ret 0) as ->.
  { rewrite table_read_app by (cbn [length]; lia). done. }
  cbn [mbind outcome_bind]. rewrite Z.add_0_r. exact IH.
Qed.

(** A seventeenth override fails the assertion. *)
Theorem seventeenth_override_asserts o s :
  overrideIndx s = 16 -> override_entry o s = Bugcheck.
Proof. intros Hi. unfold override_entry, RegisterOverrideEntry. by rewrite Hi. Qed.

(** ** Redirections *)

(** The first override for an interrupt source. *)
Definition override_for (source : Z) (os : list Override) : option Override :=
  snd <$> list_find (fun o => ov_source o = source) os.

Lemma apply_override_spec os source e :
  apply_override os source e =
    match override_for source os with
    | Some o => set_TriggerMode (set_InterruptPolarity (set_InterruptPolarity e 0) 0)
                  (of_bool (Z.land (Z.shiftr (ov_flags o) 2) 3 =? 2))
    | None => e
    end.
Proof.
  unfold override_for. induction os as [| o os IH]; [done |]. cbn [apply_override list_find].
  case_decide as Ho.
  - rewrite (proj2 (Z.eqb_eq _ _)) by done. cbn [negb fmap option_fmap option_map snd].
    change (3 =? 2) with false. cbn [of_bool]. rewrite !Z.land_0_r. done.
  - rewrite (proj2 (Z.eqb_neq _ _)) by done. cbn [negb]. rewrite IH.
    by destruct (list_find _ os) as [[??]|].
Qed.

Lemma set_bits_0 v lo w : 0 <= lo -> 0 <= w -> get_bits (set_bits v lo w 0) lo w = 0.
Proof. intros. by rewrite get_set_bits_same by lia. Qed.

Ltac redirect_field :=
  unfold set_InterruptVector, set_DeliveryMode, set_DestinationMode, set_InterruptPolarity,
    set_TriggerMode, set_InterruptMasked, set_Destination;
  repeat first [rewrite get_set_bits_same by lia | rewrite get_set_bits_other by lia];
  try reflexivity.

(** Fact: the redirection entry routes the vector asked for to the destination asked for, in fixed
    and physical mode, masked as asked for; the trigger mode is level exactly for an override that
    says so (bits 2-3 are 2), and without an override trigger mode and polarity are the caller's
    flags.  With an override the polarity is always active high. *)
Theorem redirection_is_faithful r a :
  0 <= r_interrupt r < 256 -> 0 <= r_destination r < 256 -> 0 <= r_flags r < 2 ^ 32 ->
  let e := redirection_entry r a in
  get_bits e 0 8 = r_interrupt r /\ get_bits e 56 8 = r_destination r /\
  get_bits e 16 1 = of_bool (r_mask r) /\ get_bits e 8 3 = 0 /\ get_bits e 11 1 = 0 /\
  match override_for (r_type r) (overrides a) with
  | Some o => get_bits e 13 1 = 0 /\
              get_bits e 15 1 = of_bool (Z.land (Z.shiftr (ov_flags o) 2) 3 =? 2)
  | None => get_bits e 13 1 = get_bits (r_flags r) 13 1 /\
            get_bits e 15 1 = get_bits (r_flags r) 15 1
  end.
Proof.
  intros Hi Hd Hf e. unfold e, redirection_entry. rewrite apply_override_spec. fold (overrides a).
  assert (Z.land (r_interrupt r) (Z.ones 8) = r_interrupt r) as Hvec
    by (rewrite Z.land_ones by lia; apply Z.mod_small; lia).
  assert (Z.land (r_destination r) (Z.ones 8) = r_destination r) as Hdst
    by (rewrite Z.land_ones by lia; apply Z.mod_small; lia).
  assert (forall b, Z.land (of_bool b) (Z.ones 1) = of_bool b) as Hbool by by intros [].
  assert (forall k, 8 <= k -> get_bits (Z.lor (r_flags r) (Z.land (r_interrupt r) 0xFF)) k 1
    = get_bits (r_flags r) k 1) as Hflags.
  { intros k Hk. apply Z.bits_inj'. intros j Hj. rewrite !get_bits_testbit by lia.
    rewrite Z.lor_spec, Z.land_spec. change 0xFF with (Z.ones 8).
    rewrite (Z.ones_spec_high 8) by lia. by rewrite andb_false_r, orb_false_r. }
  destruct (override_for (r_type r) (overrides a)) as [o |];
    repeat split; redirect_field; rewrite ?Hvec, ?Hdst, ?Hbool; try done; by apply Hflags.
Qed.

Lemma redirection_is_faithful_witness :
  let a := mkIoapic 0 0 24 1 [mkOverride 0 9 9 0x8] [] in
  let e := redirection_entry (mkRedirect 9 9 0x41 1 0 false) a in
  get_bits e 0 8 = 0x41 /\ get_bits e 56 8 = 1 /\ get_bits e 15 1 = 1.
Proof.
  destruct (redirection_is_faithful (mkRedirect 9 9 0x41 1 0 false)
    (mkIoapic 0 0 24 1 [mkOverride 0 9 9 0x8] [])) as (H1 & H2 & _ & _ & _ & H3);
    [cbn; lia | cbn; lia | cbn; lia |].
  split; [exact H1 |]. split; [exact H2 |]. apply H3.
Defined.

(** The entry goes to the two registers of the pin. *)
Theorem SetRedirection_writes r a :
  0 <= r_index r -> FirstEntry + 1 + 2 * r_index r < 256 ->
  ioapic_writes (SetRedirection r a) = ioapic_writes a ++
    [(FirstEntry + 2 * r_index r, u32 (redirection_entry r a));
     (FirstEntry + 1 + 2 * r_index r, u32 (redirection_entry r a / 2 ^ 32))].
Proof.
  intros H1 H2. unfold SetRedirection, WriteEntry, WriteReg. cbn [ioapic_writes].
  rewrite <- app_assoc. unfold FirstEntry in *. unfold u8, wrap. rewrite !(Z.mod_small _ (2 ^ 8)) by lia.
  cbn [app]. unfold u32, wrap. by rewrite !Z.mod_mod by lia.
Qed.

(** The version register is kept in eight bits, so its count of entries is lost: of an I/O APIC
    with 24 entries (version register 0x170020) one is masked. *)
Theorem Initialize_masks_one_entry version_register address base a :
  m_max_redirect_entry (IOAPIC_Initialize version_register address base a) = 1 /\
  ioapic_writes (IOAPIC_Initialize version_register address base a) =
    ioapic_writes a ++ [(0x10, 0x10020); (0x11, 0)].
Proof.
  unfold IOAPIC_Initialize.
  assert (u8 (Z.shiftr (u8 version_register) 16) = 0) as ->.
  { unfold u8, wrap. rewrite Z.shiftr_div_pow2 by lia.
    pose proof (Z.mod_pos_bound version_register (2 ^ 8) ltac:(lia)).
    by rewrite Z.div_small by lia. }
  unfold mask_entries. change (seqZ 0 (Z.of_nat (Z.to_nat (u8 (Z.land 0 255 + 1))))) with [0].
  cbn [fold_left]. split; [done |]. unfold WriteEntry, WriteReg. cbn [ioapic_writes].
  by rewrite <- app_assoc.
Qed.

(** The timer's initial count is sixteen times what the reference interval took. *)
Theorem CalibrateTimer_overcounts remaining :
  0 <= remaining <= 0xffffffff -> (0xffffffff - remaining) * 1600 < 2 ^ 32 ->
  fst (CalibrateTimer remaining) = 16 * (0xffffffff - remaining).
Proof.
  intros Hr Hs. unfold CalibrateTimer, APIC_TICKS_PER_SEC, u32, wrap. cbn [fst].
  rewrite (Z.mod_small (0xffffffff - remaining)) by lia.
  rewrite (Z.mod_small ((0xffffffff - remaining) * 16)) by lia.
  rewrite Z.mod_small by lia. rewrite Z.div_mul by lia. lia.
Qed.
