(* ===== verification/Clock.v ===== *)
(** Clock: the real-time clock and the tick counter (src/src/kernel/drivers/platform/Clock.cpp,
    Clock.h, kernel/time.h).

    What the clock chip's registers hold is a function of their numbers; the values of the status
    register while it is polled, and of the tick counter while [delay] waits, are lists (a loop
    that outlives its list has not ended).  Tick handlers are names; a call is a name with the
    tick count it was given.  [Time] and the length of a tick are those of the files [FatNames]
    and [Scheduler]. *)
From S2P Require Import Prelude FatNames Scheduler Interrupts.

Record Clock := mkClock {
  m_ticks : Z;
  m_binary : bool;
  m_24_hour_clock : bool;
  m_Handlers : list Z }.

(** [OnAPICTimerTick]: the counter and the calls to the handlers. *)
Definition OnAPICTimerTick (c : Clock) : Clock * list (Z * Z) :=
  let ticks := u64 (m_ticks c + 1) in
  (mkClock ticks (m_binary c) (m_24_hour_clock c) (m_Handlers c),
   (fun h => (h, ticks)) <$> m_Handlers c).

Definition RegisterTickHandler (h : Z) (c : Clock) : Clock :=
  mkClock (m_ticks c) (m_binary c) (m_24_hour_clock c) (m_Handlers c ++ [h]).

(** [ReadRTC]. *)
Definition ReadRTC (rtc : Z -> Z) (addr : Z) : Z := u8 (rtc addr).

(** [Activate]; [self] names the timer handler and its argument. *)
Definition Activate (self : Z) (rtc : Z -> Z) (c : Clock) (h : HAL) : Clock * HAL :=
  let status := ReadRTC rtc 0xB in
  (mkClock (m_ticks c) (truthy (Z.land status 0x04)) (truthy (Z.land status 0x02)) [],
   RegisterInterrupt Timer0 self h).

(** [Deactivate]. *)
Definition Deactivate (h : HAL) : HAL := UnRegisterInterrupt Timer0 h.

(** [binary_representation]. *)
Definition binary_representation (number : Z) (c : Clock) : Z :=
  if m_binary c then number else u8 (number / 16 * 10 + Z.land number 0x0f).

(** The loop that waits for the clock to be ready. *)
Fixpoint wait_ready (status : list Z) : outcome unit :=
  match status with
  | [] => Diverged
  | s :: status => if truthy (Z.land (u8 s) 0x80) then wait_ready status else Ret tt
  end.

(** [get_time]. *)
Definition get_time (status : list Z) (rtc : Z -> Z) (c : Clock) : outcome Time :=
  _ ← wait_ready status;
  let read addr := binary_representation (ReadRTC rtc addr) c in
  let h := read 0x4 in
  let h := if negb (m_24_hour_clock c) && negb (Z.land h 0x80 =? 0)
           then (Z.land h 0x7F + 12) mod 24 else h in
  Ret (Build_Time (u16 (read 0x9 + 2000)) (read 0x8) (read 0x7) h (read 0x2) (read 0x0)).

(** [delay]: the tick to wait for, and the wait. *)
Definition delay_target (ticks milliseconds : Z) : Z :=
  let rounded_milliseconds := u32 (milliseconds + (msPerTick - 1)) / msPerTick in
  u64 (ticks + rounded_milliseconds).

Fixpoint wait_ticks (target : Z) (reads : list Z) : outcome unit :=
  match reads with
  | [] => Diverged
  | t :: reads => if t <? target then wait_ticks target reads else Ret tt
  end.

Definition delay (reads : list Z) (milliseconds : Z) (c : Clock) : outcome unit :=
  wait_ticks (delay_target (m_ticks c) milliseconds) reads.

(** ** The clock chip *)

(** A number in the chip's format. *)
Definition encode (binary : bool) (v : Z) : Z := if binary then v else 16 * (v / 10) + v mod 10.

(** The hour on a twelve-hour dial. *)
Definition dial (h : Z) : Z := if h mod 12 =? 0 then 12 else h mod 12.

Definition encode_hour (binary h24 : bool) (h : Z) : Z :=
  if h24 then encode binary h
  else encode binary (dial h) + (if 12 <=? h then 0x80 else 0).

(** The registers of a chip that shows a time. *)
Definition rtc_of (binary h24 : bool) (t : Time) (addr : Z) : Z :=
  if addr =? 0x9 then encode binary (year t - 2000)
  else if addr =? 0x8 then encode binary (month t)
  else if addr =? 0x7 then encode binary (day t)
  else if addr =? 0x4 then encode_hour binary h24 (hour t)
  else if addr =? 0x2 then encode binary (minute t)
  else if addr =? 0x0 then encode binary (second t)
  else if addr =? 0xB then (if binary then 0x04 else 0) + (if h24 then 0x02 else 0)
  else 0.

Definition calendar_ok (t : Time) : Prop :=
  2000 <= year t < 2100 /\ 1 <= month t <= 12 /\ 1 <= day t <= 31 /\
  0 <= hour t < 24 /\ 0 <= minute t < 60 /\ 0 <= second t < 60.

Lemma land_0f v : Z.land v 0x0f = v mod 16.
Proof. change 0x0f with (Z.ones 4). by rewrite Z.land_ones by lia. Qed.

Lemma decode_encode v c :
  0 <= v < 100 -> binary_representation (u8 (encode (m_binary c) v)) c = v.
Proof.
  intros Hv. unfold binary_representation, encode. destruct (m_binary c).
  - apply Z.mod_small. lia.
  - pose proof (Z.mod_pos_bound v 10). pose proof (Z.div_mod v 10).
    unfold u8, wrap. rewrite (Z.mod_small (16 * (v / 10) + v mod 10)) by lia.
    rewrite land_0f.
    replace ((16 * (v / 10) + v mod 10) / 16) with (v / 10)
      by (apply Z.div_unique with (v mod 10); lia).
    replace ((16 * (v / 10) + v mod 10) mod 16) with (v mod 10)
      by (apply Z.mod_unique with (v / 10); lia).
    rewrite Z.mod_small by lia. lia.
Qed.

Lemma wait_ready_run (busy : list Z) s rest :
  Forall (fun b => Z.land (u8 b) 0x80 <> 0) busy -> Z.land (u8 s) 0x80 = 0 ->
  wait_ready (busy ++ s :: rest) = Ret tt.
Proof.
  intros Hb Hs. induction Hb as [| b busy Hb' _ IH]; cbn [app wait_ready]; unfold truthy.
  - by rewrite Hs.
  - by rewrite (proj2 (Z.eqb_neq _ _)) by done.
Qed.

(** What [get_time] returns on a chip: every field but the hour is right. *)
Lemma get_time_run busy s rest t c :
  Forall (fun b => Z.land (u8 b) 0x80 <> 0) busy -> Z.land (u8 s) 0x80 = 0 -> calendar_ok t ->
  get_time (busy ++ s :: rest) (rtc_of (m_binary c) (m_24_hour_clock c) t) c =
    let h := binary_representation (u8 (encode_hour (m_binary c) (m_24_hour_clock c) (hour t))) c in
    Ret (Build_Time (year t) (month t) (day t)
          (if negb (m_24_hour_clock c) && negb (Z.land h 0x80 =? 0)
           then (Z.land h 0x7F + 12) mod 24 else h)
          (minute t) (second t)).
Proof.
  intros Hb Hs (Hy & Hm & Hd & Hh & Hmin & Hsec). unfold get_time.
  rewrite wait_ready_run by done. cbn [mbind outcome_bind]. unfold ReadRTC, rtc_of. cbn [Z.eqb Pos.eqb].
  rewrite !decode_encode by lia. cbn zeta. do 2 f_equal. unfold u16, wrap. rewrite Z.mod_small by lia. lia.
Qed.

(** Fact: a chip in 24-hour mode is read right, in binary and in BCD, for every time of the years
    2000 to 2099 and however often the chip was busy first. *)
Theorem clock_reads_the_time busy s rest t self c h hal :
  Forall (fun b => Z.land (u8 b) 0x80 <> 0) busy -> Z.land (u8 s) 0x80 = 0 -> calendar_ok t ->
  forall binary, let rtc := rtc_of binary true t in
  get_time (busy ++ s :: rest) rtc (fst (Activate self rtc c h)) = Ret t /\
  m_interruptHandlers (snd (Activate self rtc c hal)) !! Timer0 = Some self.
Proof.
  intros Hb Hs Ht binary rtc. split.
  - set (c' := fst (Activate self rtc c h)).
    assert (m_binary c' = binary) as Hbin by by destruct binary.
    assert (m_24_hour_clock c' = true) as H24 by by destruct binary.
    pose proof (get_time_run busy s rest t c' Hb Hs Ht) as Hg. rewrite H24, Hbin in Hg.
    unfold rtc. rewrite Hg. cbn [negb andb encode_hour]. rewrite <- Hbin.
    destruct Ht as (_ & _ & _ & Hh & _). rewrite decode_encode by lia. by destruct t.
  - unfold Activate. cbn [snd]. by rewrite RegisterInterrupt_lookup, decide_True by done.
Qed.

Lemma clock_reads_the_time_witness :
  get_time [0x80; 0x26] (rtc_of false true (Build_Time 2024 2 29 23 59 58))
    (fst (Activate 1 (rtc_of false true (Build_Time 2024 2 29 23 59 58)) (mkClock 0 true true []) idle_hal))
  = Ret (Build_Time 2024 2 29 23 59 58).
Proof.
  apply (clock_reads_the_time [0x80] 0x26 [] (Build_Time 2024 2 29 23 59 58) 1 (mkClock 0 true true [])
    idle_hal idle_hal); [by repeat constructor | done | unfold calendar_ok; cbn; lia].
Defined.

(** The hour [get_time] reads from a chip in 12-hour mode. *)
Definition read_dial (binary : bool) (h : Z) : Z :=
  let r := binary_representation (u8 (encode_hour binary false h)) (mkClock 0 binary false []) in
  if negb (Z.land r 0x80 =? 0) then (Z.land r 0x7F + 12) mod 24 else r.

Definition dial_readable (binary : bool) (h : Z) : bool :=
  (1 <=? h) && (h <? 12) || binary && (13 <=? h).

Lemma read_dial_check :
  forallb (fun h => forallb (fun binary => eqb (read_dial binary h =? h) (dial_readable binary h))
    [true; false]) (seqZ 0 24) = true.
Proof. vm_compute. reflexivity. Qed.

Lemma read_dial_ok binary h : 0 <= h < 24 -> (read_dial binary h =? h) = dial_readable binary h.
Proof.
  intros Hh. pose proof (proj1 (forallb_forall _ _) read_dial_check h) as Hc.
  specialize (Hc ltac:(apply list_elem_of_In, elem_of_seqZ; lia)). cbn [forallb] in Hc.
  rewrite !andb_true_iff in Hc. destruct Hc as (H1 & H2 & _). apply eqb_prop in H1, H2.
  by destruct binary.
Qed.

(** A chip in 12-hour mode: the hour is right exactly in the morning after midnight and, with
    binary numbers only, in the afternoon after the hour of noon. *)
Theorem twelve_hour_mode s t c :
  Z.land (u8 s) 0x80 = 0 -> calendar_ok t -> m_24_hour_clock c = false ->
  (get_time [s] (rtc_of (m_binary c) false t) c = Ret t <->
   1 <= hour t < 12 \/ m_binary c = true /\ 13 <= hour t).
Proof.
  intros Hs Ht H24. pose proof (get_time_run [] s [] t c (Forall_nil_2 _) Hs Ht) as Hg.
  rewrite H24 in Hg. cbn [app negb andb] in Hg. rewrite Hg. clear Hg. cbn zeta.
  transitivity (read_dial (m_binary c) (hour t) =? hour t = true).
  - rewrite Z.eqb_eq. destruct t as [y mo d h mi se], c as [ticks bin h24 hs].
    unfold read_dial, binary_representation. cbn [m_binary year month day hour minute second].
    split; intros Heq; [injection Heq as Heq; exact Heq | do 2 f_equal; exact Heq].
  - destruct Ht as (_ & _ & _ & Hh & _). rewrite read_dial_ok by done. unfold dial_readable.
    rewrite orb_true_iff, !andb_true_iff, !Z.leb_le, Z.ltb_lt. tauto.
Qed.

(** Fact: [delay] waits for the least number of whole ticks that is at least as long as asked for:
    polled at every tick from now on, it ends exactly when that many ticks have passed. *)
Theorem delay_waits milliseconds n c :
  0 <= milliseconds -> milliseconds + 9 < 2 ^ 32 -> 0 <= m_ticks c -> m_ticks c + 2 ^ 32 < 2 ^ 64 ->
  (delay (seqZ (m_ticks c) (n + 1)) milliseconds c = Ret tt <-> 0 <= n /\ milliseconds <= msPerTick * n).
Proof.
  intros Hm Ho Ht Ht'. unfold delay, delay_target. change msPerTick with 10. unfold u32, u64, wrap.
  rewrite (Z.mod_small (milliseconds + (10 - 1))) by lia.
  pose proof (Z.div_mod (milliseconds + (10 - 1)) 10 ltac:(lia)) as Hdm.
  pose proof (Z.mod_pos_bound (milliseconds + (10 - 1)) 10 ltac:(lia)) as Hmb.
  set (k := (milliseconds + (10 - 1)) / 10) in *. rewrite Z.mod_small by lia.
  assert (forall j t, wait_ticks (m_ticks c + k) (seqZ t (Z.of_nat j)) = Ret tt <->
    0 < Z.of_nat j /\ m_ticks c + k < t + Z.of_nat j) as Hw.
  { induction j as [| j IH]; intros t.
    - split; [done | lia].
    - rewrite seqZ_cons by lia. cbn [wait_ticks].
      replace (Z.pred (Z.of_nat (S j))) with (Z.of_nat j) by lia.
      destruct (Z.ltb_spec t (m_ticks c + k)); [| split; [lia | done]].
      rewrite IH. lia. }
  destruct (Z.le_gt_cases 0 n).
  - replace (n + 1) with (Z.of_nat (Z.to_nat (n + 1))) by lia. rewrite Hw. lia.
  - rewrite seqZ_nil by lia. split; [done | lia].
Qed.

Lemma delay_waits_witness :
  delay (seqZ 100 (3 + 1)) 25 (mkClock 100 true true []) = Ret tt.
Proof.
  apply (delay_waits 25 3 (mkClock 100 true true [])); [lia | lia | cbn; lia | cbn; lia | change msPerTick with 10; lia].
Defined.

(** The rounding overflows: the longest delay is none at all. *)
Theorem longest_delay_is_none c :
  0 <= m_ticks c < 2 ^ 64 -> delay [m_ticks c] (2 ^ 32 - 1) c = Ret tt.
Proof.
  intros Ht. unfold delay, delay_target. change (u32 (2 ^ 32 - 1 + (msPerTick - 1)) / msPerTick) with 0.
  unfold u64, wrap. rewrite Z.add_0_r, Z.mod_small by lia. cbn [wait_ticks].
  by rewrite Z.ltb_irrefl.
Qed.

(** The ticks of a clock: what its handlers are told. *)
Fixpoint run_ticks (n : nat) (c : Clock) : Clock * list (Z * Z) :=
  match n with
  | O => (c, [])
  | S n => let (c, calls) := OnAPICTimerTick c in
           let (c, calls') := run_ticks n c in (c, calls ++ calls')
  end.

Lemma calls_of_others h t l :
  h ∉ l -> base.filter (fun call : Z * Z => call.1 = h) ((fun h' => (h', t)) <$> l) = [].
Proof.
  induction l as [| a l IH]; intros Hn; [done |]. apply not_elem_of_cons in Hn as [Ha Hn].
  rewrite fmap_cons, filter_cons. cbn [fst]. rewrite decide_False by done. by apply IH.
Qed.

Lemma calls_of_handler h t l :
  NoDup l -> h ∈ l ->
  base.filter (fun call : Z * Z => call.1 = h) ((fun h' => (h', t)) <$> l) = [(h, t)].
Proof.
  intros Hl Hin. induction Hl as [| a l Ha Hl IH]; [by apply not_elem_of_nil in Hin |].
  rewrite fmap_cons, filter_cons. cbn [fst]. case_decide as Hah.
  - subst a. by rewrite calls_of_others.
  - apply IH. by apply elem_of_cons in Hin as [-> |].
Qed.

(** Every handler is told of every tick, in order. *)
Theorem ticks_are_delivered n h : forall c,
  0 <= m_ticks c -> m_ticks c + Z.of_nat n < 2 ^ 64 -> NoDup (m_Handlers c) -> h ∈ m_Handlers c ->
  m_ticks (fst (run_ticks n c)) = m_ticks c + Z.of_nat n /\
  base.filter (fun call => call.1 = h) (snd (run_ticks n c)) =
    (fun t => (h, t)) <$> seqZ (m_ticks c + 1) (Z.of_nat n).
Proof.
  induction n as [| n IH]; intros c H0 Hn Hnd Hh.
  - cbn. split; [lia | done].
  - cbn [run_ticks]. destruct (OnAPICTimerTick c) as [c1 calls] eqn:Hc. unfold OnAPICTimerTick in Hc.
    unfold u64, wrap in Hc. rewrite Z.mod_small in Hc by lia. injection Hc as <- <-.
    match goal with |- context [run_ticks n ?c1] => specialize (IH c1);
      destruct (run_ticks n c1) as [c2 calls2] end.
    cbn [fst snd m_ticks m_Handlers] in IH |- *.
    destruct IH as [IH1 IH2]; [lia | lia | done | done |]. split; [lia |].
    rewrite filter_app, IH2, (seqZ_cons (m_ticks c + 1) (Z.of_nat (S n))) by lia. rewrite fmap_cons.
    replace (Z.pred (Z.of_nat (S n))) with (Z.of_nat n) by lia.
    by rewrite calls_of_handler.
Qed.
