(* ===== verification/Mouse.v ===== *)
(** Mouse: the PS/2 mouse driver (src/src/kernel/drivers/io/MouseDriver.cpp, MouseDriver.h), its
    events (kernel/os/types.h) and the pointer that listens to them (MouseDummyDrawer of
    kernel/Kernel.cpp).

    An interrupt is the pair of bytes the status and the data port hold when the driver reads
    them.  The buffer is uninitialised when the driver starts: its contents are part of the
    state.  The drawer's calls of the video device are values of [video_call], and the point it
    draws goes to a frame buffer. *)
From S2P Require Import Prelude Graphics Svga Interrupts.

(** [MouseMoveEvent], [MouseButtonEvent]; the two event handlers' calls. *)
Inductive mouse_event :=
| MouseMove (x y : Z)
| MouseButton (button : Z) (button_up : bool).

Record MouseDriver := mkMouse {
  buffer : list Z;
  offset : Z;
  buttons : Z }.

(** The driver's initial state around whatever its buffer holds. *)
Definition MouseDriver_new (garbage : Z * Z * Z) : MouseDriver :=
  mkMouse [garbage.1.1; garbage.1.2; garbage.2] 2 0.

Definition buffer_at (d : MouseDriver) (i : nat) : Z := nth i (buffer d) 0.

(** The move event of a complete buffer. *)
Definition move_event (d : MouseDriver) : list mouse_event :=
  if negb (buffer_at d 1 =? 0) || negb (buffer_at d 2 =? 0) then
    let relX := s8 (buffer_at d 0 - Z.land (Z.shiftl (buffer_at d 2) 4) 0x100) in
    let relY := s8 (buffer_at d 1 - Z.land (Z.shiftl (buffer_at d 2) 3) 0x100) in
    [MouseMove relX (s8 (- relY))]
  else [].

(** The button events: a loop over the three buttons. *)
Definition button_event (d : MouseDriver) (i : Z) : list mouse_event :=
  let bit := Z.shiftl 1 i in
  if negb (Z.land (buffer_at d 2) bit =? Z.land (buttons d) bit)
  then [MouseButton (u8 (i + 1)) (truthy (Z.land (buttons d) bit))]
  else [].

Definition button_events (d : MouseDriver) : list mouse_event :=
  button_event d 0 ++ button_event d 1 ++ button_event d 2.

(** [HandleInterrupt]. *)
Definition HandleInterrupt (interrupt : Z * Z) (d : MouseDriver) : MouseDriver * list mouse_event :=
  let (status, data) := interrupt in
  if Z.land (u8 status) 0x20 =? 0 then (d, [])
  else
    let d := mkMouse (<[Z.to_nat (offset d) := u8 data]> (buffer d)) ((offset d + 1) mod 3) (buttons d) in
    if negb (offset d =? 0) then (d, [])
    else (mkMouse (buffer d) (offset d) (buffer_at d 0), move_event d ++ button_events d).

(** A sequence of interrupts. *)
Fixpoint interrupts (irqs : list (Z * Z)) (d : MouseDriver) : MouseDriver * list mouse_event :=
  match irqs with
  | [] => (d, [])
  | i :: irqs =>
    let (d, es) := HandleInterrupt i d in
    let (d, es') := interrupts irqs d in
    (d, es ++ es')
  end.

(** [Activate]: the port operations ([None] for a read) and the redirection; [state] is what the
    controller's configuration byte reads. *)
Definition Activate (state self : Z) (a : IOAPIC) (h : HAL) : list (Z * option Z) * IOAPIC * HAL :=
  ([(0x64, Some 0x20); (0x60, None); (0x64, Some 0x60); (0x60, Some (u8 (Z.lor (u8 state) 2)));
    (0x64, Some 0xAB); (0x64, Some 0xD4); (0x60, Some 0xF4); (0x60, None)],
   SetRedirection (mkRedirect 0xC 0xC 0x2C 0 0 false) a,
   RegisterInterrupt 0x2C self h).

(** ** The pointer *)

Record MouseDummyDrawer := mkDrawer { ptr_x : Z; ptr_y : Z }.

(** The calls the drawer makes of the video device. *)
Inductive video_call :=
| CallMoveCursor (visible x y screenId : Z)
| CallUpdateRect (r : Rectangle).

(** A coordinate after a relative move on a screen of a given extent. *)
Definition clamp (v rel extent : Z) : Z :=
  let v := s32 (v + rel) in
  let v := if v <? 0 then 0 else v in
  if extent <? u32 v then s32 (u32 (extent - 1)) else v.

(** [OnMouseMoveEvent]. *)
Definition OnMouseMoveEvent (width height x y : Z) (p : MouseDummyDrawer)
    : MouseDummyDrawer * list video_call :=
  let p := mkDrawer (clamp (ptr_x p) x width) (clamp (ptr_y p) y height) in
  (p, [CallMoveCursor 1 (u32 (ptr_x p)) (u32 (ptr_y p)) 0]).

(** [OnMouseButtonEvent]: a point is drawn when a button goes down. *)
Definition OnMouseButtonEvent (button_up : bool) (p : MouseDummyDrawer) (fb : FrameBuffer)
    : outcome (FrameBuffer * list video_call) :=
  if button_up then Ret (fb, [])
  else
    fb ← DrawPoint White (mkPoint (u64 (ptr_x p)) (u64 (ptr_y p))) fb;
    Ret (fb, [CallUpdateRect (mkRect (u64 (ptr_x p)) (u64 (ptr_y p)) 1 1)]).

(** The drawer on a sequence of events; the screen is the frame buffer's size. *)
Fixpoint on_events (es : list mouse_event) (p : MouseDummyDrawer) (fb : FrameBuffer)
    : outcome (MouseDummyDrawer * FrameBuffer * list video_call) :=
  match es with
  | [] => Ret (p, fb, [])
  | MouseMove x y :: es =>
    let (p, calls) := OnMouseMoveEvent (GetWidth fb) (GetHeight fb) x y p in
    '(p, fb, calls') ← on_events es p fb;
    Ret (p, fb, calls ++ calls')
  | MouseButton _ up :: es =>
    '(fb, calls) ← OnMouseButtonEvent up p fb;
    '(p, fb, calls') ← on_events es p fb;
    Ret (p, fb, calls ++ calls')
  end.

(** ** Packets *)

(** A report of the mouse: flags, horizontal and vertical movement. *)
Record report := mkReport { rp_flags : Z; rp_dx : Z; rp_dy : Z }.

(** The driver's buffer starts at its third byte, so that it holds a report's movement and the
    flags of the next report.  The bytes from a first flags byte on: *)
Fixpoint stream (rs : list (Z * Z * Z)) : list Z :=
  match rs with
  | [] => []
  | (dx, dy, next_flags) :: rs => dx :: dy :: next_flags :: stream rs
  end.

Definition moves (es : list mouse_event) : list (Z * Z) :=
  omap (fun e => match e with MouseMove x y => Some (x, y) | _ => None end) es.

Lemma moves_app a b : moves (a ++ b) = moves a ++ moves b.
Proof. apply omap_app. Qed.

Lemma moves_buttons d : moves (button_events d) = [].
Proof.
  assert (forall i, moves (button_event d i) = []) as Hb
    by (intros i; unfold button_event; by destruct (negb _)).
  unfold button_events. by rewrite !moves_app, !Hb.
Qed.

Lemma mouse_interrupts_app a b d :
  interrupts (a ++ b) d =
    let (d, es) := interrupts a d in let (d, es') := interrupts b d in (d, es ++ es').
Proof.
  revert d. induction a as [| i a IH]; intros d; cbn [app interrupts].
  - by destruct (interrupts b d).
  - destruct (HandleInterrupt i d) as [d1 e1]. rewrite IH.
    destruct (interrupts a d1) as [d2 e2]. destruct (interrupts b d2) as [d3 e3].
    by rewrite app_assoc.
Qed.

Definition ready (b : Z) : Z * Z := (0x20, b).

(** The bytes of the interrupts that carry mouse data. *)
Definition mouse_data (irqs : list (Z * Z)) : list Z :=
  (base.filter (fun i => Z.land (u8 i.1) 0x20 <> 0) irqs).*2.

(** Interrupts without mouse data change nothing, and of the status byte only that bit counts. *)
Lemma interrupts_filter irqs d : interrupts irqs d = interrupts (ready <$> mouse_data irqs) d.
Proof.
  unfold mouse_data. revert d. induction irqs as [| [s b] irqs IH]; intros d; [done |].
  rewrite filter_cons. cbn [fst].
  assert (Z.land (u8 s) 0x20 <> 0 -> HandleInterrupt (s, b) d = HandleInterrupt (ready b) d) as Hready.
  { intros Hs. unfold HandleInterrupt, ready. destruct (Z.eqb_spec (Z.land (u8 s) 32) 0); [done |].
    by change (Z.land (u8 32) 32 =? 0) with false. }
  case_decide as Hs.
  - rewrite !fmap_cons. cbn [interrupts snd]. rewrite Hready by done.
    destruct (HandleInterrupt (ready b) d) as [d1 e1]. by rewrite IH.
  - cbn [interrupts]. unfold HandleInterrupt. rewrite Hs. cbn [Z.eqb].
    rewrite <- IH. by destruct (interrupts irqs d).
Qed.

(** The ninth bit the driver subtracts is lost in the conversion to eight bits. *)
Lemma s8_sub_ninth v k : s8 (v - Z.land k 0x100) = s8 v.
Proof.
  assert (Z.land k 0x100 mod 2 ^ 8 = 0) as Hm.
  { rewrite <- Z.land_ones by lia. rewrite <- Z.land_assoc. apply Z.land_0_r. }
  apply Z.div_exact in Hm; [| lia]. rewrite Hm. unfold swrap.
  replace (v - 2 ^ 8 * (Z.land k 256 / 2 ^ 8) + 2 ^ (8 - 1))
    with (v + 2 ^ (8 - 1) + (- (Z.land k 256 / 2 ^ 8)) * 2 ^ 8) by lia.
  by rewrite Z.mod_add by lia.
Qed.

(** The movement of a report as an event: the vertical axis is turned around. *)
Definition decoded (dx dy : Z) : Z * Z := (s8 dx, s8 (- s8 dy)).

Lemma move_event_decoded a b c o k :
  c <> 0 -> move_event (mkMouse [a; b; c] o k) = [MouseMove (decoded a b).1 (decoded a b).2].
Proof.
  intros Hc. unfold move_event, buffer_at. cbn [buffer nth].
  rewrite (proj2 (Z.eqb_neq c 0)) by done. rewrite orb_true_r. by rewrite !s8_sub_ninth.
Qed.

Definition byte (b : Z) : Prop := 0 <= b < 256.

Lemma byte_u8 b : byte b -> u8 b = b.
Proof. intros. by apply Z.mod_small. Qed.

(** One byte: it is stored, and the third one completes a packet. *)
Lemma ready_byte v b0 b1 b2 o k :
  byte v -> 0 <= o < 3 ->
  HandleInterrupt (ready v) (mkMouse [b0; b1; b2] o k) =
    if o =? 0 then (mkMouse [v; b1; b2] 1 k, [])
    else if o =? 1 then (mkMouse [b0; v; b2] 2 k, [])
    else (mkMouse [b0; b1; v] 0 b0,
          move_event (mkMouse [b0; b1; v] 0 k) ++ button_events (mkMouse [b0; b1; v] 0 k)).
Proof.
  intros Hv Ho. unfold HandleInterrupt, ready. rewrite (byte_u8 v) by done.
  assert (o = 0 \/ o = 1 \/ o = 2) as [-> | [-> | ->]] by lia; reflexivity.
Qed.

(** Three bytes with the buffer at its start: one step of the stream. *)
Lemma three_bytes dx dy f buf k :
  length buf = 3%nat -> byte dx -> byte dy -> byte f ->
  interrupts (ready <$> [dx; dy; f]) (mkMouse buf 0 k) =
    (mkMouse [dx; dy; f] 0 dx,
     move_event (mkMouse [dx; dy; f] 0 k) ++ button_events (mkMouse [dx; dy; f] 0 k)).
Proof.
  intros Hl Hx Hy Hf. destruct buf as [| b0 [| b1 [| b2 [| ? ?]]]]; try discriminate.
  rewrite !fmap_cons, fmap_nil. cbn [interrupts].
  rewrite (ready_byte dx) by (done || lia). cbn [Z.eqb].
  rewrite (ready_byte dy) by (done || lia). cbn [Z.eqb Pos.eqb].
  rewrite (ready_byte f) by (done || lia). cbn [Z.eqb Pos.eqb app]. by rewrite app_nil_r.
Qed.

Lemma stream_moves (rs : list (Z * Z * Z)) : forall buf k,
  length buf = 3%nat -> Forall (fun r => byte r.1.1 /\ byte r.1.2 /\ byte r.2 /\ r.2 <> 0) rs ->
  moves (snd (interrupts (ready <$> stream rs) (mkMouse buf 0 k))) = (fun r => decoded r.1.1 r.1.2) <$> rs.
Proof.
  induction rs as [| [[dx dy] f] rs IH]; intros buf k Hl Hrs; [done |].
  inversion Hrs as [| ? ? (Hx & Hy & Hf & Hn) Hrs']; subst. cbn [fst snd] in *.
  cbn [stream]. change (dx :: dy :: f :: stream rs) with ([dx; dy; f] ++ stream rs).
  rewrite fmap_app, mouse_interrupts_app, three_bytes by done.
  specialize (IH [dx; dy; f] dx eq_refl Hrs').
  destruct (interrupts (ready <$> stream rs) _) as [d2 e2]. cbn [snd] in *.
  rewrite !moves_app, IH, moves_buttons, move_event_decoded by done. rewrite fmap_cons. cbn [fst snd]. by destruct (decoded dx dy).
Qed.

(** Fact: the driver decodes the mouse's stream: whatever its buffer held, and with any interrupts
    that carry no mouse data in between, the first flags byte completes a spurious packet from
    the uninitialised bytes, and then every report gives exactly one move event, in order, with
    the report's eight-bit movement and the vertical axis turned around. *)
Theorem moves_are_decoded g (irqs : list (Z * Z)) flags rs :
  mouse_data irqs = flags :: stream rs ->
  byte flags -> flags <> 0 ->
  Forall (fun r => byte r.1.1 /\ byte r.1.2 /\ byte r.2 /\ r.2 <> 0) rs ->
  moves (snd (interrupts irqs (MouseDriver_new g))) =
    decoded g.1.1 g.1.2 :: ((fun r => decoded r.1.1 r.1.2) <$> rs).
Proof.
  intros Hi Hf Hn Hrs. rewrite interrupts_filter, Hi. rewrite fmap_cons. destruct g as [[g0 g1] g2].
  cbn [interrupts fst snd].
  assert (HandleInterrupt (ready flags) (MouseDriver_new (g0, g1, g2)) =
    (mkMouse [g0; g1; flags] 0 g0,
     move_event (mkMouse [g0; g1; flags] 0 0) ++ button_events (mkMouse [g0; g1; flags] 0 0))) as ->.
  { by apply (ready_byte flags g0 g1 g2 2 0). }
  pose proof (stream_moves rs [g0; g1; flags] g0 eq_refl Hrs) as Hm.
  destruct (interrupts (ready <$> stream rs) _) as [d2 e2]. cbn [snd] in *.
  rewrite !moves_app, Hm, moves_buttons, move_event_decoded by done. by destruct (decoded g0 g1).
Qed.

Lemma moves_are_decoded_witness :
  moves (snd (interrupts [(0x3D, 8); (0x1D, 99); (0x3D, 5); (0x3D, 254); (0x3D, 0x28)]
    (MouseDriver_new (0, 0, 0)))) = [(0, 0); (5, 2)].
Proof.
  rewrite (moves_are_decoded (0, 0, 0) _ 8 [(5, 254, 0x28)]);
    [reflexivity | reflexivity | unfold byte; lia | lia |].
  repeat constructor; cbn; lia.
Defined.

(** The subtraction of the sign bit is lost: a fast movement is read backwards. *)
Theorem fast_movement_reverses flags :
  byte flags -> flags <> 0 -> Z.land flags 0x10 = 0 ->
  move_event (mkMouse [200; 0; flags] 0 0) = [MouseMove (-56) 0].
Proof. intros _ Hf _. by rewrite move_event_decoded. Qed.

(** The previous buttons are taken from the byte of the movement: a button held while the mouse
    rests is reported as pressed again by every report, and moving one to the right releases a
    button that was never pressed. *)
Theorem held_button_repeats n :
  snd (interrupts (ready <$> stream (replicate n (0, 0, 9))) (mkMouse [0; 0; 9] 0 0)) =
    mjoin (replicate n [MouseMove 0 0; MouseButton 1 false]).
Proof.
  induction n as [| n IH]; [done |]. cbn [replicate stream].
  change (0 :: 0 :: 9 :: stream (replicate n (0, 0, 9))) with ([0; 0; 9] ++ stream (replicate n (0, 0, 9))).
  rewrite fmap_app, mouse_interrupts_app, three_bytes by (done || unfold byte; lia).
  destruct (interrupts (ready <$> stream (replicate n (0, 0, 9))) _) as [d es]. cbn [snd] in *.
  by rewrite IH.
Qed.

Theorem movement_releases_button :
  snd (interrupts (ready <$> stream [(1, 0, 8); (0, 0, 8)]) (mkMouse [0; 0; 8] 0 0)) =
    [MouseMove 1 0; MouseMove 0 0; MouseButton 1 true].
Proof. reflexivity. Qed.

(** ** The pointer on the screen *)

Definition on_screen (fb : FrameBuffer) (p : MouseDummyDrawer) : Prop :=
  0 <= ptr_x p <= GetWidth fb /\ 0 <= ptr_y p <= GetHeight fb.

Definition event_ok (e : mouse_event) : Prop :=
  match e with MouseMove x y => -128 <= x < 128 /\ -128 <= y < 128 | _ => True end.

Lemma s8_range v : -128 <= s8 v < 128.
Proof. unfold swrap. pose proof (Z.mod_pos_bound (v + 2 ^ (8 - 1)) (2 ^ 8) ltac:(lia)). lia. Qed.

Lemma s32_small v : - 2 ^ 31 <= v < 2 ^ 31 -> s32 v = v.
Proof. intros Hv. unfold swrap. rewrite Z.mod_small by lia. lia. Qed.

Lemma move_event_ok d : Forall event_ok (move_event d).
Proof.
  unfold move_event. destruct (negb _ || negb _); [| constructor].
  constructor; [| constructor]. split; apply s8_range.
Qed.

Lemma button_events_ok d : Forall event_ok (button_events d).
Proof.
  assert (forall i, Forall event_ok (button_event d i)) as Hb
    by (intros i; unfold button_event; destruct (negb _); repeat constructor).
  unfold button_events. by repeat apply Forall_app_2.
Qed.

Lemma interrupts_ok irqs : forall d, Forall event_ok (snd (interrupts irqs d)).
Proof.
  induction irqs as [| i irqs IH]; intros d; [constructor |]. cbn [interrupts].
  assert (Forall event_ok (snd (HandleInterrupt i d))) as Hi.
  { destruct i as [s b]. unfold HandleInterrupt. destruct (_ =? 0); [constructor |].
    destruct (negb _); [constructor |]. apply Forall_app_2; [apply move_event_ok | apply button_events_ok]. }
  destruct (HandleInterrupt i d) as [d1 e1]. specialize (IH d1).
  destruct (interrupts irqs d1) as [d2 e2]. by apply Forall_app_2.
Qed.

Lemma clamp_on_screen v rel extent :
  0 <= v <= extent -> 1 <= extent < 2 ^ 30 -> -128 <= rel < 128 -> 0 <= clamp v rel extent <= extent.
Proof.
  intros Hv He Hr. unfold clamp. rewrite s32_small by lia.
  set (w := if v + rel <? 0 then 0 else v + rel).
  assert (0 <= w < 2 ^ 31) as Hw by (unfold w; destruct (Z.ltb_spec (v + rel) 0); lia).
  rewrite (wrap_small 32 w) by lia. destruct (Z.ltb_spec extent w); [| lia].
  rewrite (wrap_small 32) by lia. rewrite s32_small by lia. lia.
Qed.

Lemma on_events_run es : forall p fb,
  Forall event_ok es -> fb_ok fb -> 1 <= GetWidth fb < 2 ^ 30 -> 1 <= GetHeight fb < 2 ^ 30 ->
  on_screen fb p ->
  exists p' fb' calls, on_events es p fb = Ret (p', fb', calls) /\ fb_ok fb' /\
    GetWidth fb' = GetWidth fb /\ GetHeight fb' = GetHeight fb /\ on_screen fb' p' /\
    (forall v x y s, CallMoveCursor v x y s ∈ calls -> 0 <= x <= GetWidth fb /\ 0 <= y <= GetHeight fb).
Proof.
  induction es as [| e es IH]; intros p fb Hes Hfb Hw Hh Hp.
  - exists p, fb, []. repeat (split; [done |]). intros ????. by intros ?%not_elem_of_nil.
  - inversion Hes as [| ? ? He Hes']; subst. destruct e as [x y | b up]; cbn [on_events].
    + unfold OnMouseMoveEvent. set (p1 := mkDrawer _ _). destruct He as [Hx Hy]. destruct Hp as [Hpx Hpy].
      assert (on_screen fb p1) as Hp1 by (split; by apply clamp_on_screen).
      destruct (IH p1 fb Hes' Hfb Hw Hh Hp1) as (p' & fb' & calls & -> & H1 & H2 & H3 & H4 & H5).
      cbn [mbind outcome_bind]. eexists _, _, _. repeat (split; [done |]).
      intros v a b s [Hc | Hc]%elem_of_app; [| by apply (H5 v a b s)].
      apply list_elem_of_singleton in Hc. injection Hc as -> -> -> ->. destruct Hp1 as [Ha Hb].
      cbn [p1 ptr_x ptr_y] in Ha, Hb. rewrite !wrap_small by lia. by split.
    + assert (exists fb1 calls1, OnMouseButtonEvent up p fb = Ret (fb1, calls1) /\ fb_ok fb1 /\
        GetWidth fb1 = GetWidth fb /\ GetHeight fb1 = GetHeight fb /\
        forall v a b s, CallMoveCursor v a b s ∉ calls1) as (fb1 & calls1 & -> & Hfb1 & Hw1 & Hh1 & Hn1).
      { unfold OnMouseButtonEvent. destruct up.
        { eexists _, _. repeat (split; [done |]). intros. by apply not_elem_of_nil. }
        destruct Hp as [Hpx Hpy]. rewrite !(wrap_small 64) by lia.
        destruct (DrawPoint_run White (mkPoint (ptr_x p) (ptr_y p)) fb Hfb) as (fb1 & -> & Hpt);
          [cbn; lia | cbn; lia |].
        cbn [mbind outcome_bind]. eexists _, _. split; [done |]. split; [by eapply paints_ok |].
        destruct Hpt as [-> -> _ _]. repeat (split; [done |]).
        by intros v a b' s Hc%list_elem_of_singleton. }
      cbn [mbind outcome_bind].
      destruct (IH p fb1 Hes' Hfb1) as (p' & fb' & calls & -> & H1 & H2 & H3 & H4 & H5);
        [by rewrite Hw1 | by rewrite Hh1 | unfold on_screen; by rewrite Hw1, Hh1 |].
      cbn [mbind outcome_bind]. rewrite Hw1 in *. rewrite Hh1 in *. eexists _, _, _. repeat (split; [done |]).
      intros v a b' s [Hc | Hc]%elem_of_app; [by destruct (Hn1 v a b' s) | by apply (H5 v a b' s)].
Qed.

(** Fact: whatever the mouse sends, the pointer and every cursor position given to the video device
    stay on the screen or one past its edge, and drawing at the pointer never leaves the frame
    buffer. *)
Theorem pointer_stays_on_screen (irqs : list (Z * Z)) d fb :
  fb_ok fb -> 1 <= GetWidth fb < 2 ^ 30 -> 1 <= GetHeight fb < 2 ^ 30 ->
  exists p' fb' calls,
    on_events (snd (interrupts irqs d)) (mkDrawer 0 0) fb = Ret (p', fb', calls) /\
    fb_ok fb' /\ GetWidth fb' = GetWidth fb /\ GetHeight fb' = GetHeight fb /\ on_screen fb' p' /\
    (forall v x y s, CallMoveCursor v x y s ∈ calls -> 0 <= x <= GetWidth fb /\ 0 <= y <= GetHeight fb).
Proof.
  intros Hfb Hw Hh. apply on_events_run; [apply interrupts_ok | done | done | done |].
  split; cbn; lia.
Qed.

Lemma pointer_stays_on_screen_witness :
  exists p' fb' calls,
    on_events (snd (interrupts (ready <$> [8; 100; 10; 9]) (MouseDriver_new (0, 0, 0)))) (mkDrawer 0 0)
      small_frame = Ret (p', fb', calls) /\ on_screen small_frame p'.
Proof.
  destruct (pointer_stays_on_screen (ready <$> [8; 100; 10; 9]) (MouseDriver_new (0, 0, 0)) small_frame
    small_frame_ok) as (p' & fb' & calls & Hr & _ & Hw & Hh & Hp & _); [cbn; lia | cbn; lia |].
  exists p', fb', calls. split; [exact Hr |]. unfold on_screen in *. rewrite Hw, Hh in Hp. exact Hp.
Defined.

(** The edge: a pointer one past the right edge is not moved back. *)
Theorem pointer_rests_past_the_edge extent :
  1 <= extent < 2 ^ 30 -> clamp (extent - 1) 1 extent = extent.
Proof.
  intros He. unfold clamp. rewrite s32_small by lia. replace (extent - 1 + 1) with extent by lia.
  rewrite (proj2 (Z.ltb_ge extent 0)) by lia. rewrite (wrap_small 32 extent) by lia.
  by rewrite Z.ltb_irrefl.
Qed.
