(* ===== verification/Ahci.v ===== *)
(** Ahci: the driver of SATA controllers (src/src/kernel/drivers/io/AHCI.cpp, AHCI.h, AHCIPort.cpp,
    AHCIPort.h).

    A command table and a command header are records of the fields the driver uses; the memory
    the controller reads is the list of headers and the tables with their physical addresses.
    The controller is an interface, [AHCIController]: its registers as the driver reads them
    (values that are polled are functions of the number of the poll, or lists), and [issue], what
    it does when a command is issued.  [AHCIDevice] adds what a working disk behind it does.
    Physical pages come from the kernel and are arguments. *)
From S2P Require Import Prelude OSSystem DiskIO.

(** ** Data *)

Definition SATA_SIG_ATAPI : Z := 0xEB140101.
Definition SATA_SIG_ATA : Z := 0x00000101.
Definition SATA_SIG_SEMB : Z := 0xC33C0101.
Definition SATA_SIG_PM : Z := 0x96690101.
Definition HBA_PxCMD_CR : Z := 0x8000.
Definition HBA_PxCMD_FRE : Z := 0x0010.
Definition HBA_PxCMD_FR : Z := 0x4000.
Definition HBA_PxCMD_ST : Z := 0x0001.
Definition HBA_PxCMD_POD : Z := 0x0004.
Definition HBA_PxCMD_SUD : Z := 0x0002.
Definition ATA_CMD_READ_DMA_EX : Z := 0x25.
Definition ATA_CMD_WRITE_DMA_EX : Z := 0x35.
Definition ATA_CMD_IDENTIFY : Z := 0xEC.
Definition ATA_CMD_IDENTIFY_PACKET : Z := 0xA1.
Definition ATA_CMD_PACKET : Z := 0xA0.
Definition ATA_DEV_BUSY : Z := 0x80.
Definition ATA_DEV_DRQ : Z := 0x08.
Definition HBA_PxIS_TFES : Z := 2 ^ 30.
Definition ATAPI_READ_CMD : Z := 0xA8.
Definition ATA_IDENT_MODEL : nat := 54.
Definition ATA_IDENT_MAX_LBA : nat := 120.
Definition ATA_IDENT_COMMANDSETS : nat := 164.
Definition ATA_IDENT_MAX_LBA_EXT : nat := 200.
Definition FIS_TYPE_REG_H2D : Z := 0x27.

Inductive port_type :=
| PORT_TYPE_NONE | PORT_TYPE_SATA | PORT_TYPE_SEMB | PORT_TYPE_PM | PORT_TYPE_SATAPI.
#[global] Instance port_type_eq_dec : EqDecision port_type.
Proof. solve_decision. Defined.

Record hba_command_fis := mkFis {
  fis_type : Z; command_control : Z; command : Z; feature_low : Z;
  lba0 : Z; lba1 : Z; lba2 : Z; device_register : Z;
  lba3 : Z; lba4 : Z; lba5 : Z; feature_high : Z;
  count_low : Z; count_high : Z }.

Record hba_prdt_entry := mkPrdt {
  data_base_address : Z; data_base_address_upper : Z; byte_count : Z; interrupt_on_completion : Z }.

Record hba_command_table := mkTable {
  ct_command_fis : hba_command_fis; atapi_command : list Z; prdt_entry : list hba_prdt_entry }.

(** The fields of a command header the driver ever stores in memory. *)
Record hba_command_header := mkHeader {
  h_prdt_length : Z; command_table_base_address : Z; command_table_base_address_upper : Z }.

(** The members of [AHCIPort]; [command_table] are the tables with the physical addresses of
    their pages, [command_header] is the list in memory. *)
Record AHCIPort := mkPort {
  m_Type : port_type;
  isATATPI : bool;
  useLBA48 : bool;
  bufferPhysicalAddr : Z;
  buffer : list Z;
  command_header : list hba_command_header;
  command_table : list (Z * hba_command_table) }.

Definition zero_fis : hba_command_fis := mkFis 0 0 0 0 0 0 0 0 0 0 0 0 0 0.

Definition zero_table : hba_command_table :=
  mkTable zero_fis (replicate 16 0) (replicate 32 (mkPrdt 0 0 0 0)).

(** The registers of a port and the controller's capabilities, as the driver reads them, and what
    the controller does when [command_issue] is written: the new buffer and the values of
    [command_issue] and [interrupt_status] as they are polled afterwards. *)
Class AHCIController (D : Type) := {
  host_capabilities : D -> Z;
  sata_active : D -> Z;
  command_issue : D -> Z;
  sata_status : D -> Z;
  signature : D -> Z;
  task_file_data : D -> nat -> Z;
  issue : D -> Z -> AHCIPort -> D * list Z * list (Z * Z) }.

Section Driver.
Context {D : Type} `{AHCIController D}.

(** ** Setting a port up *)

(** [check_port_type]. *)
Definition check_port_type (d : D) : port_type :=
  let interface_power_management := u8 (Z.land (Z.shiftr (sata_status d) 8) 0x7) in
  let device_detection := u8 (Z.land (sata_status d) 0x7) in
  if negb (device_detection =? 0x03) then PORT_TYPE_NONE
  else if negb (interface_power_management =? 0x01) then PORT_TYPE_NONE
  else if signature d =? SATA_SIG_ATAPI then PORT_TYPE_SATAPI
  else if signature d =? SATA_SIG_SEMB then PORT_TYPE_SEMB
  else if signature d =? SATA_SIG_PM then PORT_TYPE_PM
  else if signature d =? SATA_SIG_ATA then PORT_TYPE_SATA
  else PORT_TYPE_NONE.

(** [Disable]: whether the engines stop; [status] are the values of [command_status] as it is
    polled, twice a turn unless the first poll tells. *)
Fixpoint Disable_loop (turns : nat) (status : nat -> Z) (i : nat) : bool :=
  match turns with
  | O => false
  | S turns =>
    if truthy (Z.land (status i) HBA_PxCMD_FR) then Disable_loop turns status (S i)
    else if truthy (Z.land (status (S i)) HBA_PxCMD_CR) then Disable_loop turns status (S (S i))
    else true
  end.

Definition Disable (status : nat -> Z) : bool := Disable_loop (Z.to_nat 10000000) status 0.

(** The header and the table of a slot in [ConfigurePort]: the slot's page is at [page]. *)
Definition configure_slot (i page : Z) : hba_command_header * (Z * hba_command_table) :=
  let address := u64 (page + Z.shiftl i 8) in
  (mkHeader 8 (u32 address) (address / 2 ^ 32), (page, zero_table)).

(** [ConfigurePort]: [pages] are the physical pages of the 32 tables; [None] when it returns
    false.  The buffer is set up by [StartupPort]. *)
Definition ConfigurePort (status : nat -> Z) (pages : list Z) (d : D) : option AHCIPort :=
  if negb (Disable status) then None
  else
    let type := check_port_type d in
    if decide (type = PORT_TYPE_NONE) then None
    else
      let slots := imap (fun i page => configure_slot (Z.of_nat i) page) pages in
      Some (mkPort type false true 0 [] slots.*1 slots.*2).

(** ** Commands *)

(** [FindFreeCMDSlot]. *)
Fixpoint FindFreeCMDSlot_loop (n : nat) (i slots : Z) : Z :=
  match n with
  | O => -1
  | S n => if Z.land slots 1 =? 0 then i else FindFreeCMDSlot_loop n (i + 1) (Z.shiftr slots 1)
  end.

Definition FindFreeCMDSlot (d : D) : Z :=
  let slots := Z.lor (sata_active d) (command_issue d) in
  let cmd_slots := Z.shiftr (Z.land (host_capabilities d) 0x0f00) 8 in
  FindFreeCMDSlot_loop (Z.to_nat cmd_slots) 0 slots.

(** The wait for the device: 1000000 turns; false when the port is hung. *)
Fixpoint spin_wait (turns : nat) (tfd : nat -> Z) (spin : nat) : bool :=
  match turns with
  | O => false
  | S turns =>
    if truthy (Z.land (tfd spin) (Z.lor ATA_DEV_BUSY ATA_DEV_DRQ))
    then spin_wait turns tfd (S spin) else true
  end.

Definition max_spin : nat := Z.to_nat 1000000.

(** The wait for the command: [while (1)], and the test of the error bit after it. *)
Fixpoint wait_done (mask : Z) (polls : list (Z * Z)) : outcome bool :=
  match polls with
  | [] => Diverged
  | (issued, status) :: polls =>
    if Z.land issued mask =? 0 then Ret (negb (truthy (Z.land status HBA_PxIS_TFES)))
    else if truthy (Z.land status HBA_PxIS_TFES) then Ret false
    else wait_done mask polls
  end.

(** A region descriptor: the count has 22 bits. *)
Definition region (address count : Z) : hba_prdt_entry :=
  mkPrdt (u32 address) (u32 (address / 2 ^ 32)) (wrap 22 count) 1.

Definition set_region (i : Z) (e : hba_prdt_entry) (t : hba_command_table) : outcome hba_command_table :=
  if (0 <=? i) && (i <? Z.of_nat (length (prdt_entry t)))
  then Ret (mkTable (ct_command_fis t) (atapi_command t) (<[Z.to_nat i := e]> (prdt_entry t)))
  else Fault.

(** The loop over the regions but the last: the address and the count that are left. *)
Fixpoint fill_regions (n : nat) (i address count : Z) (t : hba_command_table)
    : outcome (Z * Z * Z * hba_command_table) :=
  match n with
  | O => Ret (i, address, count, t)
  | S n =>
    t ← set_region i (region address (8 * 1024 - 1)) t;
    fill_regions n (i + 1) (u64 (address + 0x1000)) (u32 (count - 16)) t
  end.

(** The table of a transfer: the regions and the command.  [count] is counted down by the
    regions before it goes into the command. *)
Definition transfer_table (dirIn : bool) (sector count address : Z) (atapi : bool)
    : outcome hba_command_table :=
  let sector_low := u32 sector in
  let sector_high := u32 (sector / 2 ^ 32) in
  let prdt_length := u16 (u16 (Z.shiftr (u32 (count - 1)) 4) + 1) in
  '(i, address, count, t) ← fill_regions (Z.to_nat (prdt_length - 1)) 0 address count zero_table;
  t ← set_region i (region address (u32 (u32 (Z.shiftl count 9) - 1))) t;
  if atapi then
    Ret (mkTable
      (mkFis FIS_TYPE_REG_H2D 1 ATA_CMD_PACKET 1 0 0 0 0 0 0 0 0 (u8 (Z.land count 0xFF)) (u8 (Z.shiftr count 8)))
      ([ATAPI_READ_CMD; 0; u8 (Z.land (Z.shiftr sector_high 8) 0xFF); u8 sector_high;
        u8 (Z.shiftr sector_low 24); u8 (Z.shiftr sector_low 16); u8 (Z.shiftr sector_low 8);
        u8 sector_low; 0; u8 count; 0; 0] ++ drop 12 (atapi_command t))
      (prdt_entry t))
  else
    Ret (mkTable
      (mkFis FIS_TYPE_REG_H2D 1 (if dirIn then ATA_CMD_READ_DMA_EX else ATA_CMD_WRITE_DMA_EX) 0
        (u8 sector_low) (u8 (Z.shiftr sector_low 8)) (u8 (Z.shiftr sector_low 16)) (2 ^ 6)
        (u8 (Z.shiftr sector_low 24)) (u8 sector_high) (u8 (Z.shiftr sector_high 8)) 0
        (u8 (Z.land count 0xFF)) (u8 (Z.shiftr count 8)))
      (atapi_command t) (prdt_entry t)).

Definition with_table (slot : Z) (t : hba_command_table) (p : AHCIPort) : outcome AHCIPort :=
  match command_table p !! Z.to_nat slot with
  | Some (page, _) =>
    Ret (mkPort (m_Type p) (isATATPI p) (useLBA48 p) (bufferPhysicalAddr p) (buffer p)
          (command_header p) (<[Z.to_nat slot := (page, t)]> (command_table p)))
  | None => Fault
  end.

Definition with_buffer (b : list Z) (p : AHCIPort) : AHCIPort :=
  mkPort (m_Type p) (isATATPI p) (useLBA48 p) (bufferPhysicalAddr p) b (command_header p) (command_table p).

(** Issuing a command and waiting for it; [mask] is what is written, [slot] the one waited for. *)
Definition run_command (mask slot : Z) (p : AHCIPort) (d : D) : outcome (bool * AHCIPort * D) :=
  let '(d, b, polls) := issue d mask p in
  ok ← wait_done (Z.shiftl 1 slot) polls;
  Ret (ok, with_buffer b p, d).

(** [TransferData]: the number of bytes transferred, 0 for a failure.  The header of the slot is
    copied into a local variable, and only the copy is changed. *)
Definition TransferData (dirIn : bool) (sector count : Z) (p : AHCIPort) (d : D)
    : outcome (Z * AHCIPort * D) :=
  let slot := FindFreeCMDSlot d in
  if slot =? -1 then Ret (0, p, d)
  else
    t ← transfer_table dirIn sector count (bufferPhysicalAddr p) (isATATPI p);
    p ← with_table slot t p;
    if negb (spin_wait max_spin (task_file_data d) 0) then Ret (0, p, d)
    else
      '(ok, p, d) ← run_command (Z.shiftl 1 slot) slot p d;
      Ret (if (ok : bool) then u32 (count * (if isATATPI p then 2048 else 512)) else 0, p, d).

(** The table of [Identify]. *)
Definition identify_table (address : Z) (atapi : bool) : hba_command_table :=
  mkTable (mkFis FIS_TYPE_REG_H2D 1 (if atapi then ATA_CMD_IDENTIFY_PACKET else ATA_CMD_IDENTIFY)
             0 0 0 0 0 0 0 0 0 0 0)
    (replicate 16 0) (<[0%nat := region address (512 - 1)]> (prdt_entry zero_table)).

(** [Identify]: the command is issued in slot 0 whatever slot was free. *)
Definition Identify (p : AHCIPort) (d : D) : outcome (bool * AHCIPort * D) :=
  let slot := FindFreeCMDSlot d in
  if slot =? -1 then Ret (false, p, d)
  else
    p ← with_table slot (identify_table (bufferPhysicalAddr p) (isATATPI p)) p;
    if negb (spin_wait max_spin (task_file_data d) 0) then Ret (false, p, d)
    else run_command 1 slot p d.

(** ** The identity of a disk *)

(** A 32-bit word of the buffer. *)
Definition ident_word (off : nat) (b : list Z) : Z :=
  nth off b 0 + nth (off + 1) b 0 * 2 ^ 8 + nth (off + 2) b 0 * 2 ^ 16 + nth (off + 3) b 0 * 2 ^ 24.

(** The model: the bytes of each word are swapped. *)
Definition diskModel (b : list Z) : list Z :=
  mjoin ((fun k => [nth (ATA_IDENT_MODEL + 2 * k + 1) b 0; nth (ATA_IDENT_MODEL + 2 * k) b 0]) <$> seq 0 20).

(** The loop that drops trailing blanks; one character always stays. *)
Fixpoint identifier_length (strLen : nat) (model : list Z) : nat :=
  match strLen with
  | O => O
  | S n => if (nth n model 0 =? 32) && (0 <? n)%nat then identifier_length n model else S n
  end.

(** What [StartupPort] hands to the disk manager: the identifier and the arguments of [Disk]. *)
Record disk_identity := mkIdentity {
  identifier : list Z; id_type : DiskType; id_size : Z; id_blocks : Z; id_blockSize : Z; id_LBA48 : bool }.

Definition identify_disk (b : list Z) (atapi : bool) : disk_identity :=
  let LBA48 := truthy (Z.land (ident_word ATA_IDENT_COMMANDSETS b) (2 ^ 26)) in
  let diskSize := ident_word (if LBA48 then ATA_IDENT_MAX_LBA_EXT else ATA_IDENT_MAX_LBA) b in
  let sectSize := if atapi then 2048 else 512 in
  let model := diskModel b in
  mkIdentity (take (identifier_length 40 model) model) (if atapi then CDROM else HardDisk)
    (diskSize / 2 * 1024) (diskSize / 2 / sectSize) sectSize LBA48.

(** [StartupPort]: [page] is the buffer's physical page; a zeroed page of 4096 bytes. *)
Definition StartupPort (page : Z) (p : AHCIPort) (d : D)
    : outcome (option disk_identity * bool * AHCIPort * D) :=
  let p := mkPort (m_Type p) (isATATPI p) (useLBA48 p) page (replicate 4096 0)
             (command_header p) (command_table p) in
  if decide (m_Type p = PORT_TYPE_NONE) then Ret (None, true, p, d)
  else
    let p := mkPort (m_Type p) (bool_decide (m_Type p = PORT_TYPE_SATAPI)) (useLBA48 p)
               (bufferPhysicalAddr p) (buffer p) (command_header p) (command_table p) in
    '(ok, p, d) ← Identify p d;
    if negb ok then Ret (None, false, p, d)
    else
      let identity := identify_disk (buffer p) (isATATPI p) in
      Ret (Some identity, true,
           mkPort (m_Type p) (isATATPI p) (id_LBA48 identity) (bufferPhysicalAddr p) (buffer p)
             (command_header p) (command_table p), d).

(** ** The driver *)

(** [AHCIDriver]: the ports it found, each with its part of the controller. *)
Record AHCIDriver := mkAHCI { ahci_ports : list (option (AHCIPort * D)); port_count : Z }.

Definition port_at (drive : Z) (drv : AHCIDriver) : option (AHCIPort * D) :=
  mjoin (ahci_ports drv !! Z.to_nat drive).

Definition with_port (drive : Z) (pd : AHCIPort * D) (drv : AHCIDriver) : AHCIDriver :=
  mkAHCI (<[Z.to_nat drive := Some pd]> (ahci_ports drv)) (port_count drv).

(** [ReadSector]: the result, the caller's buffer and the driver.  Without a port the function
    ends without a value ([garbage]). *)
Definition ReadSector (garbage drive sector : Z) (out : list Z) (drv : AHCIDriver)
    : outcome (Z * list Z * AHCIDriver) :=
  _ ← Assert (drive <? 32);
  match port_at drive drv with
  | None => Ret (garbage, out, drv)
  | Some (p, d) =>
    '(res, p, d) ← TransferData true sector 1 p d;
    if 0 <? res then
      if res <=? Z.of_nat (length out)
      then Ret (0, list_inserts 0 (take (Z.to_nat res) (buffer p)) out, with_port drive (p, d) drv)
      else Fault
    else Ret (1, out, with_port drive (p, d) drv)
  end.

(** [WriteSector]: the result of the transfer is kept in a [uint8_t]. *)
Definition WriteSector (garbage drive sector : Z) (data : list Z) (drv : AHCIDriver)
    : outcome (Z * AHCIDriver) :=
  _ ← Assert (drive <? 32);
  match port_at drive drv with
  | None => Ret (garbage, drv)
  | Some (p, d) =>
    let p := with_buffer (list_inserts 0 (take 512 data) (buffer p)) p in
    '(res, p, d) ← TransferData false sector 1 p d;
    Ret (if 0 <? u8 res then 0 else 1, with_port drive (p, d) drv)
  end.

(** [probe_ports]: the implemented ports that can be configured, in order; the pages of each
    port's tables and its status are the port's. *)
Fixpoint probe_ports (ports_implemented : Z) (i : Z) (ports : list ((nat -> Z) * list Z * D))
    (found : list (option (AHCIPort * D))) : list (option (AHCIPort * D)) :=
  match ports with
  | [] => found
  | (status, pages, d) :: ports =>
    let found := if truthy (Z.land ports_implemented (Z.shiftl 1 i))
                 then match ConfigurePort status pages d with
                      | Some p => found ++ [Some (p, d)]
                      | None => found
                      end
                 else found in
    probe_ports ports_implemented (i + 1) ports found
  end.

(** [OnInterrupt]: the ports whose interrupts are handled, and the value written back. *)
Definition OnInterrupt (interrupt_status ports_implemented : Z) (drv : AHCIDriver)
    : option (list Z * Z) :=
  let interruptPending := Z.land interrupt_status ports_implemented in
  if interruptPending =? 0 then None
  else
    Some (base.filter (fun i => truthy (Z.land interruptPending (Z.shiftl 1 i)) = true /\
                                is_Some (port_at i drv)) (seqZ 0 (port_count drv)),
          interruptPending).

End Driver.

(** ** What a command asks for *)

Definition fis_lba (f : hba_command_fis) : Z :=
  lba0 f + lba1 f * 2 ^ 8 + lba2 f * 2 ^ 16 + lba3 f * 2 ^ 24 + lba4 f * 2 ^ 32 + lba5 f * 2 ^ 40.

Definition fis_count (f : hba_command_fis) : Z := count_low f + count_high f * 2 ^ 8.

Definition region_address (e : hba_prdt_entry) : Z :=
  data_base_address e + data_base_address_upper e * 2 ^ 32.

Definition header_address (h : hba_command_header) : Z :=
  command_table_base_address h + command_table_base_address_upper h * 2 ^ 32.

(** The table at a physical address. *)
Definition table_at (address : Z) (p : AHCIPort) : option hba_command_table :=
  (fun r => r.2.2) <$> list_find (fun e => e.1 = address) (command_table p).

(** A transfer of one sector as the device finds it in memory: direction and sector. *)
Record one_sector (p : AHCIPort) (slot : nat) (dirIn : bool) (sector : Z) : Prop := {
  os_header : exists h t e, command_header p !! slot = Some h /\ table_at (header_address h) p = Some t /\
    fis_type (ct_command_fis t) = FIS_TYPE_REG_H2D /\ command_control (ct_command_fis t) = 1 /\
    command (ct_command_fis t) = (if dirIn then ATA_CMD_READ_DMA_EX else ATA_CMD_WRITE_DMA_EX) /\
    fis_lba (ct_command_fis t) = sector /\ fis_count (ct_command_fis t) = 1 /\
    prdt_entry t !! 0%nat = Some e /\ region_address e = bufferPhysicalAddr p /\ byte_count e = 511;
  os_buffer : length (buffer p) = 4096%nat }.

(** A disk behind the controller that works.  As the driver leaves the length of the command and
    the direction in the header at 0, the device goes by the command alone. *)
Class AHCIDevice (D : Type) `{AHCIController D} := {
  sectors : D -> Z -> list Z;
  sectors_length d s : length (sectors d s) = 512%nat;
  issue_read d slot p s :
    one_sector p slot true s ->
    exists d' polls, issue d (Z.shiftl 1 (Z.of_nat slot)) p = (d', sectors d s ++ drop 512 (buffer p), polls) /\
      wait_done (Z.shiftl 1 (Z.of_nat slot)) polls = Ret true /\ (forall x, sectors d' x = sectors d x) /\
      host_capabilities d' = host_capabilities d /\ sata_active d' = sata_active d /\
      command_issue d' = command_issue d /\ task_file_data d' = task_file_data d;
  issue_write d slot p s :
    one_sector p slot false s ->
    exists d' polls, issue d (Z.shiftl 1 (Z.of_nat slot)) p = (d', buffer p, polls) /\
      wait_done (Z.shiftl 1 (Z.of_nat slot)) polls = Ret true /\
      (forall x, sectors d' x = if decide (x = s) then take 512 (buffer p) else sectors d x) /\
      host_capabilities d' = host_capabilities d /\ sata_active d' = sata_active d /\
      command_issue d' = command_issue d /\ task_file_data d' = task_file_data d }.

(** The bytes of a number. *)
Lemma bytes_sum_6 v :
  0 <= v < 2 ^ 48 ->
  u8 (u32 v) + u8 (Z.shiftr (u32 v) 8) * 2 ^ 8 + u8 (Z.shiftr (u32 v) 16) * 2 ^ 16 +
  u8 (Z.shiftr (u32 v) 24) * 2 ^ 24 + u8 (u32 (v / 2 ^ 32)) * 2 ^ 32 +
  u8 (Z.shiftr (u32 (v / 2 ^ 32)) 8) * 2 ^ 40 = v.
Proof.
  intros Hv. rewrite !Z.shiftr_div_pow2 by lia.
  assert (0 <= v / 2 ^ 32 < 2 ^ 16) as Hh
    by (split; [apply Z.div_pos; lia | apply Z.div_lt_upper_bound; lia]).
  rewrite (wrap_small 32 (v / 2 ^ 32)) by lia. unfold wrap.
  pose proof (Z.div_mod v (2 ^ 32)) as E. pose proof (Z.mod_pos_bound v (2 ^ 32)).
  set (l := v mod 2 ^ 32) in *. set (h := v / 2 ^ 32) in *.
  pose proof (Z.div_mod l (2 ^ 8)). pose proof (Z.div_mod (l / 2 ^ 8) (2 ^ 8)).
  pose proof (Z.div_mod (l / 2 ^ 16) (2 ^ 8)). pose proof (Z.div_mod h (2 ^ 8)).
  rewrite !Z.div_div in * by lia.
  change (2 ^ 8 * 2 ^ 8) with (2 ^ 16) in *. change (2 ^ 16 * 2 ^ 8) with (2 ^ 24) in *.
  assert (l / 2 ^ 24 < 2 ^ 8) by (apply Z.div_lt_upper_bound; lia).
  assert (0 <= l / 2 ^ 24) by (apply Z.div_pos; lia).
  assert (h / 2 ^ 8 < 2 ^ 8) by (apply Z.div_lt_upper_bound; lia).
  assert (0 <= h / 2 ^ 8) by (apply Z.div_pos; lia).
  rewrite (Z.mod_small (l / 2 ^ 24)) by lia. rewrite (Z.mod_small (h / 2 ^ 8)) by lia. lia.
Qed.

Lemma address_split a : 0 <= a < 2 ^ 64 -> u32 a + u32 (a / 2 ^ 32) * 2 ^ 32 = a.
Proof.
  intros Ha. assert (0 <= a / 2 ^ 32 < 2 ^ 32)
    by (split; [apply Z.div_pos; lia | apply Z.div_lt_upper_bound; lia]).
  rewrite (wrap_small 32 (a / 2 ^ 32)) by lia. unfold wrap.
  pose proof (Z.div_mod a (2 ^ 32)). lia.
Qed.

Lemma set_region_run i e t :
  0 <= i < Z.of_nat (length (prdt_entry t)) ->
  set_region i e t = Ret (mkTable (ct_command_fis t) (atapi_command t) (<[Z.to_nat i := e]> (prdt_entry t))).
Proof.
  intros Hi. unfold set_region. by rewrite (proj2 (Z.leb_le _ _)), (proj2 (Z.ltb_lt _ _)) by lia.
Qed.

(** A command of up to sixteen sectors: one region. *)
Lemma transfer_table_run dirIn sector count address :
  0 <= sector < 2 ^ 48 -> 1 <= count <= 16 -> 0 <= address < 2 ^ 64 ->
  exists t e, transfer_table dirIn sector count address false = Ret t /\
    fis_type (ct_command_fis t) = FIS_TYPE_REG_H2D /\ command_control (ct_command_fis t) = 1 /\
    command (ct_command_fis t) = (if dirIn then ATA_CMD_READ_DMA_EX else ATA_CMD_WRITE_DMA_EX) /\
    fis_lba (ct_command_fis t) = sector /\ fis_count (ct_command_fis t) = count /\
    prdt_entry t !! 0%nat = Some e /\ region_address e = address /\ byte_count e = count * 512 - 1.
Proof.
  intros Hs Hc Ha. unfold transfer_table.
  assert (Z.shiftr (u32 (count - 1)) 4 = 0) as ->.
  { rewrite (wrap_small 32) by lia. rewrite Z.shiftr_div_pow2 by lia. apply Z.div_small. lia. }
  change (Z.to_nat (u16 (u16 0 + 1) - 1)) with 0%nat. cbn [fill_regions mbind outcome_bind].
  rewrite set_region_run by (cbn; lia). cbn [mbind outcome_bind].
  eexists _, _. split; [reflexivity |]. cbn [ct_command_fis prdt_entry].
  split; [done |]. split; [done |]. split; [done |].
  split; [by apply bytes_sum_6 |].
  split. { unfold fis_count. cbn [count_low count_high].
    assert (Z.land count 0xFF = count) as ->
      by (change 0xFF with (Z.ones 8); rewrite Z.land_ones by lia; apply Z.mod_small; lia).
    assert (Z.shiftr count 8 = 0) as -> by (rewrite Z.shiftr_div_pow2 by lia; apply Z.div_small; lia).
    rewrite !wrap_small by lia. lia. }
  split; [apply list_lookup_insert_eq; cbn; lia |].
  split; [by apply address_split |].
  unfold region. cbn [byte_count]. rewrite Z.shiftl_mul_pow2 by lia.
  rewrite (wrap_small 32 (count * 2 ^ 9)) by lia. rewrite (wrap_small 32) by lia.
  rewrite (wrap_small 22) by lia. lia.
Qed.

(** Fact: the command the driver lays out for up to sixteen sectors is the transfer asked for: a
    register FIS with the read or the write command whose six address bytes are the sector's 48
    bits and whose count is the number of sectors, and one region at the buffer's address that is
    exactly as long as the sectors. *)
Theorem command_is_the_transfer dirIn sector count address :
  0 <= sector < 2 ^ 48 -> 1 <= count <= 16 -> 0 <= address < 2 ^ 64 ->
  exists t e, transfer_table dirIn sector count address false = Ret t /\
    fis_type (ct_command_fis t) = FIS_TYPE_REG_H2D /\ command_control (ct_command_fis t) = 1 /\
    command (ct_command_fis t) = (if dirIn then ATA_CMD_READ_DMA_EX else ATA_CMD_WRITE_DMA_EX) /\
    fis_lba (ct_command_fis t) = sector /\ fis_count (ct_command_fis t) = count /\
    prdt_entry t !! 0%nat = Some e /\ region_address e = address /\ byte_count e = count * 512 - 1.
Proof. apply transfer_table_run. Qed.

Lemma command_is_the_transfer_witness :
  exists t, transfer_table true 0x123456789ABC 16 0xFEDC0000 false = Ret t /\
    fis_lba (ct_command_fis t) = 0x123456789ABC /\ fis_count (ct_command_fis t) = 16.
Proof.
  destruct (command_is_the_transfer true 0x123456789ABC 16 0xFEDC0000) as (t & e & H1 & _ & _ & _ & H2 & H3 & _);
    [lia | lia | lia |].
  exists t. split; [exact H1 |]. split; [exact H2 | exact H3].
Defined.

(** Longer transfers are laid out in regions of eight kilobytes that start four kilobytes apart,
    and the command asks for the last region's sectors only. *)
Theorem long_transfer_is_cut dirIn sector address :
  0 <= address < 2 ^ 32 - 0x1000 ->
  exists t, transfer_table dirIn sector 20 address false = Ret t /\ fis_count (ct_command_fis t) = 4 /\
    prdt_entry t !! 0%nat = Some (mkPrdt address 0 8191 1) /\
    prdt_entry t !! 1%nat = Some (mkPrdt (address + 4096) 0 2047 1).
Proof.
  intros Ha. unfold transfer_table.
  change (Z.to_nat (u16 (u16 (Z.shiftr (u32 (20 - 1)) 4) + 1) - 1)) with 1%nat.
  cbn [fill_regions]. rewrite set_region_run by (cbn; lia). cbn [mbind outcome_bind].
  rewrite set_region_run by (cbn [prdt_entry]; rewrite length_insert; change (length (prdt_entry zero_table)) with 32%nat; lia). cbn [mbind outcome_bind].
  eexists. split; [reflexivity |]. cbn [ct_command_fis prdt_entry]. split; [done |].
  unfold region. rewrite (wrap_small 64) by lia. rewrite !(wrap_small 32 address), !(wrap_small 32 (address + 4096)) by lia.
  rewrite !Z.div_small by lia. split; reflexivity.
Qed.

(** ** Slots *)

(** Fact: the slot found is the lowest one that is neither active nor issued among the first
    [n] = bits 8 to 11 of the capabilities, and none is found only if all of these are taken. *)
Theorem FindFreeCMDSlot_lowest {D} `{AHCIController D} (d : D) :
  0 <= sata_active d -> 0 <= command_issue d ->
  let slots := Z.lor (sata_active d) (command_issue d) in
  let n := host_capabilities d / 2 ^ 8 mod 2 ^ 4 in
  let slot := FindFreeCMDSlot d in
  (slot = -1 /\ (forall i, 0 <= i < n -> Z.testbit slots i = true)) \/
  (0 <= slot < n /\ Z.testbit slots slot = false /\ (forall i, 0 <= i < slot -> Z.testbit slots i = true)).
Proof.
  intros Ha Hc slots n slot. unfold slot, FindFreeCMDSlot. fold slots.
  assert (Z.shiftr (Z.land (host_capabilities d) 0x0f00) 8 = n) as ->.
  { unfold n. change 0x0f00 with (Z.shiftl (Z.ones 4) 8). rewrite Z.shiftr_land.
    rewrite Z.shiftr_shiftl_l by lia. change (Z.shiftl (Z.ones 4) (8 - 8)) with (Z.ones 4).
    rewrite Z.land_ones by lia. by rewrite Z.shiftr_div_pow2 by lia. }
  assert (0 <= n) as Hn by (apply Z.mod_pos_bound; lia).
  assert (forall k i s, 0 <= i -> s = Z.shiftr slots i ->
    (forall j, 0 <= j < i -> Z.testbit slots j = true) ->
    let r := FindFreeCMDSlot_loop k i s in
    (r = -1 /\ (forall j, 0 <= j < i + Z.of_nat k -> Z.testbit slots j = true)) \/
    (0 <= r < i + Z.of_nat k /\ Z.testbit slots r = false /\ (forall j, 0 <= j < r -> Z.testbit slots j = true)))
    as Hloop.
  { induction k as [| k IH]; intros i s Hi Hs Hbelow; cbn [FindFreeCMDSlot_loop].
    - left. split; [done |]. intros j Hj. apply Hbelow. lia.
    - assert ((Z.land s 1 =? 0) = negb (Z.testbit slots i)) as ->.
      { subst s. change 1 with (Z.ones 1). rewrite Z.land_ones by lia.
        rewrite <- (Z.add_0_l i) at 2. rewrite <- Z.shiftr_spec by lia. rewrite <- Z.bit0_mod.
        by destruct (Z.testbit (Z.shiftr slots i) 0). }
      destruct (Z.testbit slots i) eqn:Hb; cbn [negb].
      + destruct (IH (i + 1) (Z.shiftr s 1)) as [[Hr Hall] | Hr]; [lia | | | left; split; [done |] | right].
        * subst s. by rewrite Z.shiftr_shiftr by lia.
        * intros j Hj. destruct (decide (j = i)) as [-> |]; [done | apply Hbelow; lia].
        * intros j Hj. apply Hall. lia.
        * destruct Hr as (? & ? & ?). split; [lia | done].
      + right. split; [lia |]. split; [done | exact Hbelow]. }
  specialize (Hloop (Z.to_nat n) 0 slots ltac:(lia) eq_refl ltac:(lia)).
  rewrite Z2Nat.id in Hloop by lia. exact Hloop.
Qed.

(** The capabilities have five bits for the number of slots less one: with seventeen slots none
    is ever found. *)
Theorem seventeen_slots_are_none {D} `{AHCIController D} (d : D) :
  host_capabilities d / 2 ^ 8 mod 2 ^ 4 = 0 -> FindFreeCMDSlot d = -1.
Proof.
  intros Hn. unfold FindFreeCMDSlot.
  assert (Z.shiftr (Z.land (host_capabilities d) 0x0f00) 8 = 0) as ->; [| done].
  rewrite <- Hn. change 0x0f00 with (Z.shiftl (Z.ones 4) 8). rewrite Z.shiftr_land.
  rewrite Z.shiftr_shiftl_l by lia. change (Z.shiftl (Z.ones 4) (8 - 8)) with (Z.ones 4).
  rewrite Z.land_ones by lia. by rewrite Z.shiftr_div_pow2 by lia.
Qed.

(** ** Reading and writing sectors *)

Section Device.
Context {D : Type} `{AHCIDevice D}.

(** A disk's port as the driver sets it up: the first header leads to the first table, and the
    buffer is a page. *)
Record port_ok (p : AHCIPort) : Prop := {
  ok_header : exists page t, 0 <= page < 2 ^ 64 /\
    command_header p !! 0%nat = Some (mkHeader 8 (u32 page) (page / 2 ^ 32)) /\
    command_table p !! 0%nat = Some (page, t);
  ok_disk : isATATPI p = false;
  ok_address : 0 <= bufferPhysicalAddr p < 2 ^ 64;
  ok_buffer : length (buffer p) = 4096%nat }.

(** The controller takes commands: the first slot is free and the device is not busy. *)
Record idle (d : D) : Prop := {
  idle_slot : FindFreeCMDSlot d = 0;
  idle_device : spin_wait max_spin (task_file_data d) 0 = true }.

Lemma idle_same (d d' : D) :
  host_capabilities d' = host_capabilities d -> sata_active d' = sata_active d ->
  command_issue d' = command_issue d -> task_file_data d' = task_file_data d -> idle d -> idle d'.
Proof.
  intros Hc Ha Hi Ht [Hs Hd]. split; [| by rewrite Ht]. unfold FindFreeCMDSlot in *.
  by rewrite Hc, Ha, Hi.
Qed.

Lemma with_table_ok t p :
  port_ok p -> exists page, with_table 0 t p =
    Ret (mkPort (m_Type p) (isATATPI p) (useLBA48 p) (bufferPhysicalAddr p) (buffer p)
          (command_header p) (<[0%nat := (page, t)]> (command_table p))) /\
    port_ok (mkPort (m_Type p) (isATATPI p) (useLBA48 p) (bufferPhysicalAddr p) (buffer p)
          (command_header p) (<[0%nat := (page, t)]> (command_table p))).
Proof.
  intros [(page & t0 & Hpage & Hh & Ht) Hd Ha Hb]. exists page. unfold with_table.
  change (Z.to_nat 0) with 0%nat. rewrite Ht. split; [done |].
  split; [| done | done | done]. exists page, t. split; [done |]. split; [done |].
  apply list_lookup_insert_eq. by eapply lookup_lt_Some.
Qed.

(** The device sees the table of the first slot. *)
Lemma one_sector_ok p page dirIn sector t :
  port_ok p -> 0 <= sector < 2 ^ 48 ->
  transfer_table dirIn sector 1 (bufferPhysicalAddr p) (isATATPI p) = Ret t ->
  with_table 0 t p = Ret page -> one_sector page 0 dirIn sector.
Proof.
  intros Hp Hs Ht Hw. destruct Hp as [(pg & t0 & Hpg & Hh & Ht0) Hd Ha Hb]. rewrite Hd in Ht.
  destruct (transfer_table_run dirIn sector 1 (bufferPhysicalAddr p) Hs ltac:(lia) Ha)
    as (t' & e & Ht' & H1 & H2 & H3 & H4 & H5 & H6 & H7 & H8).
  rewrite Ht' in Ht. injection Ht as ->.
  unfold with_table in Hw. change (Z.to_nat 0) with 0%nat in Hw. rewrite Ht0 in Hw. injection Hw as <-.
  split; [| done]. eexists _, t, e. cbn [command_header command_table bufferPhysicalAddr].
  split; [exact Hh |]. split.
  - unfold table_at, header_address. cbn [command_table_base_address command_table_base_address_upper command_table].
    destruct (command_table p) as [| [pg' t1] tables]; [done |]. injection Ht0 as -> ->.
    cbn [insert list_insert list_find fst]. assert (0 <= pg / 2 ^ 32 < 2 ^ 32) as Hq
      by (split; [apply Z.div_pos; lia | apply Z.div_lt_upper_bound; lia]).
    pose proof (address_split pg Hpg) as Hsp. rewrite (wrap_small 32 (pg / 2 ^ 32)) in Hsp by lia.
    by rewrite decide_True by done.
  - repeat (split; [done |]). exact H8.
Qed.

(** [TransferData] of one sector, up to what the device does. *)
Lemma TransferData_run dirIn sector p d :
  port_ok p -> idle d -> 0 <= sector < 2 ^ 48 ->
  exists p1, TransferData dirIn sector 1 p d =
    ('(ok, p, d) ← run_command 1 0 p1 d; Ret (if (ok : bool) then 512 else 0, p, d)) /\
    port_ok p1 /\ one_sector p1 0 dirIn sector /\ buffer p1 = buffer p.
Proof.
  intros Hp [Hslot Hspin] Hs. unfold TransferData. rewrite Hslot. change (0 =? -1) with false. cbn match.
  destruct (transfer_table_run dirIn sector 1 (bufferPhysicalAddr p) Hs ltac:(lia) (ok_address p Hp))
    as (t & e & Ht & _).
  rewrite <- (ok_disk p Hp) in Ht. rewrite Ht. cbn [mbind outcome_bind].
  destruct (with_table_ok t p Hp) as (page & Hw & Hok). rewrite Hw. cbn [mbind outcome_bind].
  rewrite Hspin. cbn [negb].
  exists (mkPort (m_Type p) (isATATPI p) (useLBA48 p) (bufferPhysicalAddr p) (buffer p)
    (command_header p) (<[0%nat := (page, t)]> (command_table p))). split.
  - change (Z.shiftl 1 0) with 1. unfold run_command.
    destruct (issue d 1 _) as [[d' b] polls].
    destruct (wait_done (Z.shiftl 1 0) polls) as [ok | | |]; cbn [mbind outcome_bind with_buffer isATATPI];
      by rewrite ?(ok_disk p Hp).
  - split; [exact Hok |]. split; [| done]. eapply one_sector_ok; [exact Hp | done | exact Ht | exact Hw].
Qed.

Lemma port_ok_buffer b p : port_ok p -> length b = 4096%nat -> port_ok (with_buffer b p).
Proof. intros [] Hb. by split. Qed.

Lemma TransferData_read p d sector :
  port_ok p -> idle d -> 0 <= sector < 2 ^ 48 ->
  exists p' d', TransferData true sector 1 p d = Ret (512, p', d') /\ port_ok p' /\ idle d' /\
    take 512 (buffer p') = sectors d sector /\ (forall x, sectors d' x = sectors d x).
Proof.
  intros Hp Hd Hs. destruct (TransferData_run true sector p d Hp Hd Hs) as (p1 & -> & Hp1 & Hone & Hb).
  destruct (issue_read d 0 p1 sector Hone) as (d' & polls & Hi & Hw & Hsec & H1 & H2 & H3 & H4).
  change (Z.shiftl 1 (Z.of_nat 0)) with 1 in *. unfold run_command. rewrite Hi.
  change (Z.shiftl 1 0) with 1. rewrite Hw. cbn [mbind outcome_bind].
  eexists _, _. split; [reflexivity |]. pose proof (sectors_length d sector) as Hlen.
  split; [apply port_ok_buffer; [done |]; rewrite length_app, length_drop, Hlen, (ok_buffer p1 Hp1); lia |].
  split; [by eapply idle_same |]. split; [| done].
  cbn [with_buffer buffer]. rewrite <- Hlen. apply take_app_length.
Qed.

Lemma TransferData_write p d sector :
  port_ok p -> idle d -> 0 <= sector < 2 ^ 48 ->
  exists p' d', TransferData false sector 1 p d = Ret (512, p', d') /\ port_ok p' /\ idle d' /\
    (forall x, sectors d' x = if decide (x = sector) then take 512 (buffer p) else sectors d x).
Proof.
  intros Hp Hd Hs. destruct (TransferData_run false sector p d Hp Hd Hs) as (p1 & -> & Hp1 & Hone & Hb).
  destruct (issue_write d 0 p1 sector Hone) as (d' & polls & Hi & Hw & Hsec & H1 & H2 & H3 & H4).
  change (Z.shiftl 1 (Z.of_nat 0)) with 1 in *. unfold run_command. rewrite Hi.
  change (Z.shiftl 1 0) with 1. rewrite Hw. cbn [mbind outcome_bind].
  eexists _, _. split; [reflexivity |]. rewrite Hb in Hsec.
  split; [apply port_ok_buffer; [done | apply Hp1] |]. split; [by eapply idle_same | done].
Qed.

(** A driver whose port at [drive] is set up and takes commands. *)
Definition drive_ok (drive : Z) (drv : AHCIDriver (D := D)) (d : D) : Prop :=
  0 <= drive < 32 /\ exists p, port_at drive drv = Some (p, d) /\ port_ok p /\ idle d.

Lemma port_at_with drive pd (drv : AHCIDriver (D := D)) :
  is_Some (port_at drive drv) -> port_at drive (with_port drive pd drv) = Some pd.
Proof.
  intros [x Hx]. unfold port_at, with_port in *. cbn [ahci_ports].
  destruct (ahci_ports drv !! Z.to_nat drive) eqn:Hl; [| done].
  rewrite list_lookup_insert_eq; [done | by eapply lookup_lt_Some].
Qed.

(** [ReadSector] on a working drive. *)
Lemma ReadSector_run garbage drive sector out drv d :
  drive_ok drive drv d -> 0 <= sector < 2 ^ 48 -> (512 <= length out)%nat ->
  exists drv' d', ReadSector garbage drive sector out drv =
      Ret (0, list_inserts 0 (sectors d sector) out, drv') /\
    drive_ok drive drv' d' /\ (forall x, sectors d' x = sectors d x).
Proof.
  intros (Hdr & p & Hp & Hok & Hidle) Hs Hout. unfold ReadSector, Assert.
  rewrite (proj2 (Z.ltb_lt drive 32)) by lia. cbn [mbind outcome_bind]. rewrite Hp.
  destruct (TransferData_read p d sector Hok Hidle Hs) as (p' & d' & -> & Hok' & Hidle' & Hb & Hsec).
  cbn [mbind outcome_bind]. change (0 <? 512) with true. cbn match.
  rewrite (proj2 (Z.leb_le 512 _)) by lia. change (Z.to_nat 512) with 512%nat. rewrite Hb.
  eexists _, d'. split; [reflexivity |]. split; [| done]. split; [done |]. exists p'.
  split; [by apply port_at_with |]. by split.
Qed.

(** [WriteSector] on a working drive: the sector is written, and the result is 1. *)
Lemma WriteSector_run garbage drive sector data drv d :
  drive_ok drive drv d -> 0 <= sector < 2 ^ 48 -> length data = 512%nat ->
  exists drv' d', WriteSector garbage drive sector data drv = Ret (1, drv') /\
    drive_ok drive drv' d' /\ (forall x, sectors d' x = if decide (x = sector) then data else sectors d x).
Proof.
  intros (Hdr & p & Hp & Hok & Hidle) Hs Hdata. unfold WriteSector, Assert.
  rewrite (proj2 (Z.ltb_lt drive 32)) by lia. cbn [mbind outcome_bind]. rewrite Hp.
  set (p1 := with_buffer _ p).
  assert (port_ok p1) as Hok1 by (apply port_ok_buffer; [done |]; rewrite length_inserts; apply Hok).
  destruct (TransferData_write p1 d sector Hok1 Hidle Hs) as (p' & d' & -> & Hok' & Hidle' & Hsec).
  cbn [mbind outcome_bind]. change (0 <? u8 512) with false. cbn match.
  eexists _, d'. split; [reflexivity |]. split.
  - split; [done |]. exists p'. split; [by apply port_at_with |]. by split.
  - intros x. rewrite Hsec. case_decide; [| done]. unfold p1. cbn [with_buffer buffer].
    rewrite (take_ge data) by lia. apply list_eq. intros i. rewrite lookup_take.
    pose proof (ok_buffer p Hok) as Hlen. case_decide.
    + rewrite list_lookup_inserts by lia. by rewrite Nat.sub_0_r.
    + symmetry. apply lookup_ge_None. lia.
Qed.

(** Fact: over a disk that works, reading a sector gives that sector and changes nothing, and what
    was written to a sector is what reading it gives back, the other sectors being as they were;
    the port stays fit for the next command.  But [WriteSector] answers 1, the failure value. *)
Theorem sectors_are_transferred garbage drive sector data out drv d :
  drive_ok drive drv d -> 0 <= sector < 2 ^ 48 -> length data = 512%nat -> (512 <= length out)%nat ->
  (exists drv' d', ReadSector garbage drive sector out drv = Ret (0, list_inserts 0 (sectors d sector) out, drv') /\
     drive_ok drive drv' d' /\ (forall x, sectors d' x = sectors d x)) /\
  (exists drv1 d1 drv2 d2,
     WriteSector garbage drive sector data drv = Ret (1, drv1) /\
     ReadSector garbage drive sector out drv1 = Ret (0, list_inserts 0 data out, drv2) /\
     drive_ok drive drv1 d1 /\ drive_ok drive drv2 d2 /\
     (forall x, x <> sector -> sectors d1 x = sectors d x) /\ (forall x, sectors d2 x = sectors d1 x)).
Proof.
  intros Hok Hs Hdata Hout. split; [by apply ReadSector_run |].
  destruct (WriteSector_run garbage drive sector data drv d Hok Hs Hdata) as (drv1 & d1 & Hw & Hok1 & Hsec1).
  destruct (ReadSector_run garbage drive sector out drv1 d1 Hok1 Hs Hout) as (drv2 & d2 & Hr & Hok2 & Hsec2).
  exists drv1, d1, drv2, d2. split; [done |]. rewrite Hr, (Hsec1 sector), decide_True by done.
  split; [done |]. split; [done |]. split; [done |]. split; [| done].
  intros x Hx. by rewrite Hsec1, decide_False by done.
Qed.

End Device.

(** Whatever the device does, no write of a sector is ever reported as a success. *)
Theorem WriteSector_never_succeeds {D} `{AHCIController D} garbage drive sector data (drv drv' : AHCIDriver (D := D)) r :
  is_Some (port_at drive drv) -> WriteSector garbage drive sector data drv = Ret (r, drv') ->
  (forall p, option_fmap _ _ fst (port_at drive drv) = Some p -> isATATPI p = false) -> r = 1.
Proof.
  intros [[p d] Hp] Hw Hata. unfold WriteSector in Hw. rewrite Hp in Hw, Hata. specialize (Hata p eq_refl).
  destruct (Assert (drive <? 32)); try discriminate. cbn [mbind outcome_bind] in Hw.
  destruct (TransferData _ _ _ _ _) as [[[res p'] d'] | | |] eqn:Ht; try discriminate.
  cbn [mbind outcome_bind] in Hw. injection Hw as <- _.
  enough (u8 res = 0) as -> by done.
  unfold TransferData in Ht. destruct (_ =? -1); [by injection Ht as <- |].
  destruct (transfer_table _ _ _ _ _) as [t | | |]; try discriminate. cbn [mbind outcome_bind] in Ht.
  destruct (with_table _ _ _) as [p1 | | |] eqn:Hw1; try discriminate. cbn [mbind outcome_bind] in Ht.
  destruct (spin_wait _ _ _); cbn [negb] in Ht; [| by injection Ht as <-].
  destruct (run_command _ _ _ _) as [[[ok p2] d2] | | |] eqn:Hr; try discriminate. cbn [mbind outcome_bind] in Ht.
  injection Ht as <- _ _.
  assert (isATATPI p2 = false) as ->.
  { unfold with_table in Hw1. destruct (_ !! _) as [[pg t0] |]; [| discriminate]. injection Hw1 as <-.
    unfold run_command in Hr. destruct (issue _ _ _) as [[d3 b] polls].
    destruct (wait_done _ polls); try discriminate. cbn [mbind outcome_bind] in Hr. injection Hr as _ <- _. exact Hata. }
  by destruct ok.
Qed.
