(* ===== verification/X64.v ===== *)
(** X64: the processor's tables and the code that loads them (src/src/kernel/hal/x64/x64.h,
    x64.cpp).

    A descriptor is the number its bit fields pack into, with the layouts of OSSystem; the task
    state segment is its list of 32-bit words.  Special instructions and port writes are recorded
    in the order the code executes them; what CPUID and the registers hold is an argument.  The
    decoding functions at the end of the definitions are the processor's, from the figures of the
    manual the header cites. *)
From Stdlib Require Import String.
From S2P Require Import Prelude OSSystem.
#[local] Open Scope string_scope.
#[local] Open Scope Z_scope.

(** ** Layouts *)

Definition SEGMENT_SELECTOR : layout := [("PrivilegeLevel", 2); ("TableIndicator", 1); ("Index", 13)].

Definition SEGMENT_DESCRIPTOR : layout :=
  [("SegmentLimit1", 16); ("BaseAddress1", 16); ("BaseAddress2", 8); ("Type", 4); ("S", 1);
   ("DPL", 2); ("Present", 1); ("SegmentLimit2", 4); ("Available", 1); ("L", 1); ("DB", 1);
   ("Granulatiry", 1); ("BaseAddress3", 8)].

Definition TSS_LDT_ENTRY : layout :=
  [("SegmentLimit1", 16); ("BaseAddress1", 16); ("BaseAddress2", 8); ("Type", 4); ("Zero1", 1);
   ("PrivilegeLevel", 2); ("Present", 1); ("Limit", 4); ("Available", 1); ("Zero2", 1);
   ("Zero3", 1); ("Granularity", 1); ("BaseAddress3", 8); ("BaseAddress4", 32);
   ("Reserved1", 8); ("Zeros", 4); ("Reserved2", 20)].

Definition IDT_GATE_layout : layout :=
  [("Offset1", 16); ("SegmentSelector", 16); ("InterruptStackTable", 3); ("Zeros", 5); ("Type", 4);
   ("Zero", 1); ("PrivilegeLevel", 2); ("Present", 1); ("Offset2", 16); ("Offset3", 32);
   ("Reserved", 32)].

Definition IA32_STAR_REG : layout := [("Reserved", 32); ("SyscallCS", 16); ("SysretCS", 16)].

(** An aggregate initialiser: the values of the fields in order. *)
Fixpoint initialise (lo : Z) (l : layout) (values : list Z) : Z :=
  match l, values with
  | (_, w) :: l, v :: values => set_bits (initialise (lo + w) l values) lo w v
  | _, _ => 0
  end.

(** ** Constants *)

Definition IST_DOUBLEFAULT_IDX : Z := 1.
Definition IST_NMI_IDX : Z := 2.
Definition IST_DEBUG_IDX : Z := 3.
Definition IST_MCE_IDX : Z := 4.
Definition UserDPL : Z := 3.
Definition KernelDPL : Z := 0.
Definition IstStackSize : Z := Z.shiftl 1 12.
Definition GDT_TYPE_RW : Z := 0x2.
Definition GDT_TYPE_EX : Z := 0x8.

Inductive GDT := Empty | KernelCode | KernelData | User32Code | UserData | UserCode | TssEntry.

Definition GDT_index (e : GDT) : Z :=
  match e with
  | Empty => 0 | KernelCode => 1 | KernelData => 2 | User32Code => 3 | UserData => 4
  | UserCode => 5 | TssEntry => 6
  end.

Definition InterruptGate32 : Z := 0xE.

Definition MSR_IA32_STAR : Z := 0xC0000081.
Definition MSR_IA32_LSTAR : Z := 0xC0000082.
Definition MSR_IA32_FMASK : Z := 0xC0000084.
Definition MSR_IA32_EFER : Z := 0xC0000080.

Definition QWordLow (x : Z) : Z := u32 x.
Definition QWordHigh (x : Z) : Z := Z.shiftr x 32.

(** ** Selectors, gates and tables *)

(** The constructor of [SEGMENT_SELECTOR]; the value starts undefined ([garbage]). *)
Definition new_SEGMENT_SELECTOR (garbage index level : Z) : Z :=
  let v := set_field SEGMENT_SELECTOR "PrivilegeLevel" level garbage in
  let v := set_field SEGMENT_SELECTOR "TableIndicator" 0 v in
  set_field SEGMENT_SELECTOR "Index" index v.

(** The constructors of [IDT_GATE]: with all arguments, without the privilege level, and with
    the address alone.  The gates are static, hence zero at first. *)
Definition IDT_GATE_priv (isrAddress stack type priv : Z) : Z :=
  let selector := set_field SEGMENT_SELECTOR "PrivilegeLevel" KernelDPL 0 in
  let selector := set_field SEGMENT_SELECTOR "Index" (GDT_index KernelCode) selector in
  let g := set_field IDT_GATE_layout "Offset1" (u16 isrAddress) 0 in
  let g := set_field IDT_GATE_layout "SegmentSelector" selector g in
  let g := set_field IDT_GATE_layout "InterruptStackTable" stack g in
  let g := set_field IDT_GATE_layout "Zeros" 0 g in
  let g := set_field IDT_GATE_layout "Type" type g in
  let g := set_field IDT_GATE_layout "Zero" 0 g in
  let g := set_field IDT_GATE_layout "PrivilegeLevel" priv g in
  let g := set_field IDT_GATE_layout "Present" 1 g in
  let g := set_field IDT_GATE_layout "Offset2" (u16 (Z.shiftr isrAddress 16)) g in
  let g := set_field IDT_GATE_layout "Offset3" (u32 (Z.shiftr isrAddress 32)) g in
  set_field IDT_GATE_layout "Reserved" 0 g.

Definition IDT_GATE_stack (isrAddress stack type : Z) : Z :=
  IDT_GATE_priv isrAddress stack type KernelDPL.

Definition IDT_GATE (isrAddress : Z) : Z := IDT_GATE_priv isrAddress 0 InterruptGate32 KernelDPL.

(** [IDT]: [handler n] is the address of the n-th interrupt handler. *)
Definition IDT_entry (handler : Z -> Z) (n : Z) : Z :=
  match n with
  | 2 => IDT_GATE_stack (handler 2) IST_NMI_IDX InterruptGate32
  | 3 => IDT_GATE_priv (handler 3) IST_DEBUG_IDX InterruptGate32 UserDPL
  | 8 => IDT_GATE_stack (handler 8) IST_DOUBLEFAULT_IDX InterruptGate32
  | 18 => IDT_GATE_stack (handler 18) IST_MCE_IDX InterruptGate32
  | _ => IDT_GATE (handler n)
  end.

Definition IDT (handler : Z -> Z) : list Z := IDT_entry handler <$> seqZ 0 256.

(** [TSS64]: the addresses of the four stacks. *)
Definition TSS64 (DOUBLEFAULT_STACK NMI_Stack DEBUG_STACK MCE_STACK : Z) : list Z :=
  [0; 0; 0; 0; 0; 0; 0; 0; 0;
   QWordLow (DOUBLEFAULT_STACK + IstStackSize); QWordHigh (DOUBLEFAULT_STACK + IstStackSize);
   QWordLow (NMI_Stack + IstStackSize); QWordHigh (NMI_Stack + IstStackSize);
   QWordLow (DEBUG_STACK + IstStackSize); QWordHigh (DEBUG_STACK + IstStackSize);
   QWordLow (MCE_STACK + IstStackSize); QWordHigh (MCE_STACK + IstStackSize);
   0; 0; 0; 0; 0; 0; 0; 0; 0].

(** [SetKernelInterruptStack]: the stack for entries from user mode. *)
Definition SetKernelInterruptStack (stack : Z) (tss : list Z) : list Z :=
  <[2%nat := QWordHigh stack]> (<[1%nat := QWordLow stack]> tss).

(** [KernelGDT]: the six descriptors, and the entry of the task state segment, which takes the
    place of two. *)
Definition segment (type dpl : Z) (l db : bool) : Z :=
  initialise 0 SEGMENT_DESCRIPTOR
    [0xFFFF; 0; 0; type; 1; dpl; 1; 0xF; 0; Z.b2z l; Z.b2z db; 1; 0].

Definition tss_entry (tss : Z) : Z :=
  initialise 0 TSS_LDT_ENTRY
    [104 - 1; u16 tss; u8 (Z.shiftr tss 16); 0x9; 0; 0; 1; 0; 0; 0; 0; 1; u8 (Z.shiftr tss 24);
     QWordHigh tss; 0; 0; 0].

Definition KernelGDT (tss : Z) : list Z :=
  [0;
   segment (Z.lor GDT_TYPE_RW GDT_TYPE_EX) KernelDPL true false;
   segment GDT_TYPE_RW KernelDPL false true;
   segment (Z.lor GDT_TYPE_RW GDT_TYPE_EX) UserDPL false true;
   segment GDT_TYPE_RW UserDPL false true;
   segment (Z.lor GDT_TYPE_RW GDT_TYPE_EX) UserDPL true false;
   u64 (tss_entry tss); Z.shiftr (tss_entry tss) 64].

(** ** Loading the tables *)

Inductive instruction :=
| Lgdt | UpdateSegments (data code : Z) | Ltr (selector : Z) | Lidt | Sti
| WriteMsr (msr value : Z) | WriteCr4 (value : Z).

(** [EnableFSGSBASE]: the new CR4. *)
Definition EnableFSGSBASE (cr4 : Z) : Z := Z.lor cr4 (Z.shiftl 1 16).

(** [SetupDescriptorTables] up to the frequency of the counter; [garbage] is what the local
    variables hold, [entry] the address of [x64_SYSTEMCALL], [efer] and [cr4] what is read. *)
Definition SetupDescriptorTables (garbage entry efer cr4 : Z) : list instruction :=
  let dataSelector := new_SEGMENT_SELECTOR garbage (GDT_index KernelData) KernelDPL in
  let codeSelector := new_SEGMENT_SELECTOR garbage (GDT_index KernelCode) KernelDPL in
  let tssSelector := new_SEGMENT_SELECTOR garbage (GDT_index TssEntry) KernelDPL in
  let userCodeSelector := new_SEGMENT_SELECTOR garbage (GDT_index User32Code) UserDPL in
  let starReg := initialise 0 IA32_STAR_REG [0; codeSelector; userCodeSelector] in
  [Lgdt; UpdateSegments dataSelector codeSelector; Ltr tssSelector; Lidt; Sti;
   WriteMsr MSR_IA32_STAR starReg; WriteMsr MSR_IA32_LSTAR entry;
   WriteMsr MSR_IA32_FMASK (Z.lor 0x200 0x100); WriteMsr MSR_IA32_EFER (Z.lor efer 1);
   WriteCr4 (EnableFSGSBASE cr4)].

(** The frequency of the counter: [leaf15] and [leaf16] are the four registers (as C ints) of the
    two leaves, [info] the platform register.  Overflow of an int is undefined. *)
Definition int_ok (x : Z) : bool := (- 2 ^ 31 <=? x) && (x <? 2 ^ 31).

Definition mul_int (x y : Z) : outcome Z := if int_ok (x * y) then Ret (x * y) else Fault.

Definition div_int (x y : Z) : outcome Z :=
  if (y =? 0) || negb (int_ok (Z.quot x y)) then Fault else Ret (Z.quot x y).

Definition TSC_frequency (leaf15 leaf16 : Z * Z * Z * Z) (info TSCFreq : Z) : outcome Z :=
  let '(eax, ebx, ecx, _) := leaf15 in
  let '(r0, r1, _, _) := leaf16 in
  TSCFreq ← (if ecx =? 0 then
               if negb (r0 =? 0) && negb (r1 =? 0) && negb (eax =? 0) && negb (ebx =? 0) then
                 a ← mul_int r0 10000000; b ← div_int eax ebx; f ← mul_int a b; Ret (u32 f)
               else Ret TSCFreq
             else if negb (ebx =? 0) && negb (ecx =? 0) then
               q ← div_int ebx eax; f ← mul_int ecx q; Ret (u32 f)
             else Ret TSCFreq);
  if TSCFreq =? 0 then
    Ret (u32 (Z.b2z (negb (Z.shiftr info 8 =? 0) && negb (0xFF =? 0)) * 100))
  else Ret TSCFreq.

(** ** Features and control registers *)

Definition EDX_MSR : Z := Z.shiftl 1 5.
Definition ECX_X2APIC : Z := Z.shiftl 1 21.
Definition CR0_MONITOR_COPROC : Z := Z.shiftl 1 1.
Definition CR0_EM : Z := Z.shiftl 1 2.
Definition CR0_NUMERIC_ERROR : Z := Z.shiftl 1 5.
Definition CR4_FXSR : Z := Z.shiftl 1 9.
Definition CR4_SIMD_EXCEPTION : Z := Z.shiftl 1 10.

(** Registers of the first leaf. *)
Definition HasEDXFeature (edx f : Z) : bool := negb (Z.land edx f =? 0).
Definition HasECXFeature (ecx f : Z) : bool := negb (Z.land ecx f =? 0).
Definition HasMSR (edx : Z) : bool := HasEDXFeature edx EDX_MSR.

(** [SupportsX2APIC]: the mask is the value of a comparison. *)
Definition SupportsX2APIC (ecx : Z) : bool := negb (Z.land ecx (Z.b2z (1 <? 21)) =? 0).

(** [InitSIMD]: the new CR0 and CR4. *)
Definition InitSIMD (cr0 cr4 : Z) : Z * Z :=
  let cr0 := Z.land cr0 (u64 (Z.lnot CR0_EM)) in
  let cr0 := Z.lor cr0 CR0_MONITOR_COPROC in
  let cr0 := Z.lor cr0 CR0_NUMERIC_ERROR in
  let cr4 := Z.lor cr4 CR4_FXSR in
  let cr4 := Z.lor cr4 CR4_SIMD_EXCEPTION in
  (cr0, cr4).

(** ** The legacy timer and interrupt controllers *)

Definition PIC1_CMD : Z := 0x20.
Definition PIC1_DATA : Z := 0x21.
Definition PIC2_CMD : Z := 0xa0.
Definition PIC2_DATA : Z := 0xa1.
Definition ICW1_ICW4 : Z := 0x01.
Definition ICW1_INIT : Z := 0x10.
Definition ICW4_8086 : Z := 0x01.
Definition IRQ_BASE : Z := 0x20.
Definition PIT_COUNTER0 : Z := 0x40.
Definition PIT_CMD : Z := 0x43.
Definition CMD_BINARY : Z := 0x00.
Definition CMD_MODE3 : Z := 0x06.
Definition CMD_RW_BOTH : Z := 0x30.
Definition CMD_COUNTER0 : Z := 0x00.
Definition PIT_FREQUENCY : Z := 1193182.

(** The port writes of [InitPIT] and [InitPIC]; a write takes the low byte. *)
Definition InitPIT : list (Z * Z) :=
  let hz := 1000 in
  let divisor := PIT_FREQUENCY / hz in
  [(PIT_CMD, Z.lor (Z.lor (Z.lor CMD_BINARY CMD_MODE3) CMD_RW_BOTH) CMD_COUNTER0);
   (PIT_COUNTER0, u8 divisor); (PIT_COUNTER0, u8 (Z.shiftr divisor 8))].

Definition InitPIC : list (Z * Z) :=
  [(PIC1_CMD, Z.lor ICW1_INIT ICW1_ICW4); (PIC2_CMD, Z.lor ICW1_INIT ICW1_ICW4);
   (PIC1_DATA, IRQ_BASE); (PIC2_DATA, IRQ_BASE + 8); (PIC1_DATA, 4); (PIC2_DATA, 2);
   (PIC1_DATA, ICW4_8086); (PIC2_DATA, ICW4_8086); (PIC1_DATA, 0xff); (PIC2_DATA, 0xff)].

(** ** The processor's reading of the tables *)

(** A gate, as an interrupt reads it. *)
Record gate := mkGate {
  target : Z; selector : Z; stack_index : Z; gate_type : Z; gate_dpl : Z; gate_present : bool }.

Definition decode_gate (g : Z) : gate :=
  mkGate (get_bits g 0 16 + get_bits g 48 16 * 2 ^ 16 + get_bits g 64 32 * 2 ^ 32)
    (get_bits g 16 16) (get_bits g 32 3) (get_bits g 40 4) (get_bits g 45 2) (get_bits g 47 1 =? 1).

(** The pointer of the interrupt stack table; index 0 keeps the stack. *)
Definition word64 (tss : list Z) (i : nat) : Z := nth i tss 0 + nth (i + 1) tss 0 * 2 ^ 32.

Definition gate_stack (tss : list Z) (g : gate) : option Z :=
  if stack_index g =? 0 then None
  else Some (word64 tss (7 + 2 * Z.to_nat (stack_index g))).

(** A code or data segment. *)
Record segment_view := mkSegment {
  sv_code : bool; sv_long : bool; sv_writable : bool; sv_dpl : Z; sv_present : bool;
  sv_base : Z; sv_limit : Z }.

Definition decode_segment (d : Z) : segment_view :=
  let limit := get_bits d 0 16 + get_bits d 48 4 * 2 ^ 16 in
  mkSegment (Z.testbit d 43) (Z.testbit d 53) (Z.testbit d 41) (get_bits d 45 2) (Z.testbit d 47)
    (get_bits d 16 24 + get_bits d 56 8 * 2 ^ 24)
    (if Z.testbit d 55 then limit * 2 ^ 12 + 4095 else limit).

(** The descriptor of a selector. *)
Definition descriptor (gdt : list Z) (selector : Z) : option Z := gdt !! Z.to_nat (selector / 8).

(** The base of the task state segment a selector names. *)
Definition tss_base (gdt : list Z) (selector : Z) : option Z :=
  low ← gdt !! Z.to_nat (selector / 8);
  high ← gdt !! S (Z.to_nat (selector / 8));
  Some (get_bits low 16 24 + get_bits low 56 8 * 2 ^ 24 + get_bits high 0 32 * 2 ^ 32).

(** The selectors SYSCALL and SYSRET load from STAR: code and stack. *)
Definition syscall_selectors (star : Z) : Z * Z :=
  (Z.land (get_bits star 32 16) 0xFFFC, get_bits star 32 16 + 8).

Definition sysret_selectors (star : Z) : Z * Z :=
  (Z.lor (get_bits star 48 16 + 16) 3, Z.lor (get_bits star 48 16 + 8) 3).

(** An interrupt controller under its initialisation: how many command words it still expects,
    the base of its vectors, the word that wires it to the other, its mode and its mask. *)
Record pic := mkPic { expects : list nat; vector_base : Z; wiring : Z; mode : Z; mask : Z }.

Definition pic_command (v : Z) (p : pic) : pic :=
  if Z.testbit v 4 then
    mkPic (2%nat :: (if Z.testbit v 1 then [] else [3%nat]) ++ (if Z.testbit v 0 then [4%nat] else []))
      (vector_base p) (wiring p) (mode p) 0
  else p.

Definition pic_data (v : Z) (p : pic) : pic :=
  match expects p with
  | 2%nat :: e => mkPic e (Z.land v 0xF8) (wiring p) (mode p) (mask p)
  | 3%nat :: e => mkPic e (vector_base p) v (mode p) (mask p)
  | _ :: e => mkPic e (vector_base p) (wiring p) v (mask p)
  | [] => mkPic [] (vector_base p) (wiring p) (mode p) v
  end.

Definition pics_write (w : Z * Z) (ps : pic * pic) : pic * pic :=
  if w.1 =? 0x20 then (pic_command w.2 ps.1, ps.2)
  else if w.1 =? 0x21 then (pic_data w.2 ps.1, ps.2)
  else if w.1 =? 0xa0 then (ps.1, pic_command w.2 ps.2)
  else if w.1 =? 0xa1 then (ps.1, pic_data w.2 ps.2)
  else ps.

(** The timer: the bytes of the counter are taken low then high once the control word says so. *)
Record pit := mkPit { control : Z; low_byte : option Z; divisor : Z }.

Definition pit_write (w : Z * Z) (p : pit) : pit :=
  if w.1 =? 0x43 then mkPit w.2 None (divisor p)
  else if (w.1 =? 0x40) && (get_bits (control p) 4 2 =? 3) then
    match low_byte p with
    | None => mkPit (control p) (Some w.2) (divisor p)
    | Some l => mkPit (control p) None (l + w.2 * 2 ^ 8)
    end
  else p.

(** ** Gates *)

(** Reading a field of a number written field by field. *)
Ltac read_fields :=
  repeat first [rewrite get_set_bits_other by lia | rewrite get_set_bits_same by lia].

Ltac at_fields :=
  unfold get_field, set_field;
  repeat match goal with
  | |- context [field_at 0 ?l ?n] =>
      let r := eval vm_compute in (field_at 0 l n) in change (field_at 0 l n) with r
  end; cbv beta iota.

Lemma get_bits_0 lo w : get_bits 0 lo w = 0.
Proof. unfold get_bits. by rewrite Z.shiftr_0_l, Z.land_0_l. Qed.

Lemma land_ones_wrap w x : 0 <= w -> Z.land x (Z.ones w) = wrap w x.
Proof. intros. by rewrite Z.land_ones by lia. Qed.

(** An address cut into 16, 16 and 32 bits. *)
Lemma address_parts a :
  0 <= a < 2 ^ 64 ->
  wrap 16 (u16 a) + wrap 16 (u16 (Z.shiftr a 16)) * 2 ^ 16 + wrap 32 (u32 (Z.shiftr a 32)) * 2 ^ 32 = a.
Proof.
  intros Ha. rewrite !Z.shiftr_div_pow2 by lia. unfold wrap. rewrite !Z.mod_mod by lia.
  pose proof (Z.div_mod a (2 ^ 16)). pose proof (Z.div_mod (a / 2 ^ 16) (2 ^ 16)).
  rewrite Z.div_div in * by lia. change (2 ^ 16 * 2 ^ 16) with (2 ^ 32) in *.
  assert (0 <= a / 2 ^ 32 < 2 ^ 32) by (split; [apply Z.div_pos; lia | apply Z.div_lt_upper_bound; lia]).
  rewrite (Z.mod_small (a / 2 ^ 32)) by lia. lia.
Qed.

(** What the processor reads from a gate the constructor made. *)
Lemma decode_IDT_GATE a stack type priv :
  0 <= a < 2 ^ 64 -> 0 <= stack < 8 -> 0 <= type < 16 -> 0 <= priv < 4 ->
  decode_gate (IDT_GATE_priv a stack type priv) = mkGate a (8 * GDT_index KernelCode) stack type priv true.
Proof.
  intros Ha Hs Ht Hp. unfold IDT_GATE_priv, decode_gate. at_fields. read_fields.
  rewrite !land_ones_wrap by lia.
  rewrite address_parts by lia. rewrite (wrap_small 3), (wrap_small 4), (wrap_small 2) by lia. done.
Qed.

Lemma words_64 a : 0 <= a < 2 ^ 64 -> QWordLow a + QWordHigh a * 2 ^ 32 = a.
Proof.
  intros Ha. unfold QWordLow, QWordHigh, wrap. rewrite Z.shiftr_div_pow2 by lia.
  pose proof (Z.div_mod a (2 ^ 32)). lia.
Qed.

(** The table of interrupts at a vector. *)
Lemma IDT_lookup handler n : 0 <= n < 256 -> IDT handler !! Z.to_nat n = Some (IDT_entry handler n).
Proof.
  intros Hn. unfold IDT. rewrite list_lookup_fmap.
  rewrite (lookup_seqZ_lt 0 256 (Z.to_nat n)) by lia. cbn [fmap option_fmap option_map]. f_equal. f_equal. lia.
Qed.

(** The vectors with a stack of their own, and the one that user code may raise. *)
Definition own_stack (df nmi debug mce n : Z) : option Z :=
  if decide (n = 2) then Some nmi else if decide (n = 3) then Some debug
  else if decide (n = 8) then Some df else if decide (n = 18) then Some mce else None.

Lemma IDT_entry_cases handler (n : Z) :
  n = 2 \/ n = 3 \/ n = 8 \/ n = 18 \/
  ((n <> 2 /\ n <> 3 /\ n <> 8 /\ n <> 18) /\ IDT_entry handler n = IDT_GATE (handler n)).
Proof.
  destruct (decide (n = 2)); [tauto |]. destruct (decide (n = 3)); [tauto |].
  destruct (decide (n = 8)); [tauto |]. destruct (decide (n = 18)); [tauto |].
  do 4 right. split; [done |].
  destruct n as [| p |]; try done. do 5 (destruct p as [p | p |]; try done).
Qed.

Lemma gate_stack_eq tss g : stack_index g <> 0 ->
  gate_stack tss g = Some (word64 tss (7 + 2 * Z.to_nat (stack_index g))).
Proof. intros Hs. unfold gate_stack. by rewrite (proj2 (Z.eqb_neq _ _) Hs). Qed.

Ltac at_index :=
  match goal with
  | |- context [word64 _ ?i] => let r := eval vm_compute in i in change i with r
  end; unfold word64, TSS64; cbn [nth Nat.add].

(** C14: every interrupt reaches its handler: the gate of each of the 256 vectors is present, leads
    to the handler's 64-bit address in the kernel's code segment with interrupts off, may be
    raised by user code only for the breakpoint, and switches to the top of the stack set aside
    for non-maskable interrupts, breakpoints, double faults and machine checks, and to none else. *)
Theorem gates_lead_to_handlers handler df nmi debug mce n :
  (forall v, 0 <= v < 256 -> 0 <= handler v < 2 ^ 64) ->
  Forall (fun s => 0 <= s < 2 ^ 64 - IstStackSize) [df; nmi; debug; mce] -> 0 <= n < 256 ->
  exists g, IDT handler !! Z.to_nat n = Some g /\ let d := decode_gate g in
    target d = handler n /\ selector d = 8 * GDT_index KernelCode /\ gate_type d = InterruptGate32 /\
    gate_present d = true /\ gate_dpl d = (if decide (n = 3) then UserDPL else KernelDPL) /\
    gate_stack (TSS64 df nmi debug mce) d =
      (fun s => s + IstStackSize) <$> own_stack df nmi debug mce n.
Proof.
  intros Hh Hs Hn. rewrite !Forall_cons in Hs. destruct Hs as (H1 & H2 & H3 & H4 & _).
  change IstStackSize with 4096 in *.
  exists (IDT_entry handler n). split; [by apply IDT_lookup |]. cbv zeta.
  destruct (IDT_entry_cases handler n) as [-> | [-> | [-> | [-> | [Hne Hg]]]]].
  5: rewrite Hg; unfold IDT_GATE.
  1-4: cbn [IDT_entry]; unfold IDT_GATE_stack.
  all: rewrite decode_IDT_GATE by (try apply Hh; unfold InterruptGate32, KernelDPL, UserDPL, IST_NMI_IDX,
         IST_DEBUG_IDX, IST_DOUBLEFAULT_IDX, IST_MCE_IDX; lia);
    cbn [target selector gate_type gate_present gate_dpl]; unfold own_stack;
    repeat (split; [solve [done | by rewrite ?decide_False by tauto] |]).
  1-4: rewrite gate_stack_eq by done; at_index; change IstStackSize with 4096;
    rewrite words_64 by lia; by repeat case_decide.
  by rewrite !decide_False by tauto.
Qed.

Lemma gates_lead_to_handlers_witness :
  exists g, IDT (fun v => 0xFFFF800000100000 + 16 * v) !! 14%nat = Some g /\
    target (decode_gate g) = 0xFFFF8000001000E0.
Proof.
  destruct (gates_lead_to_handlers (fun v => 0xFFFF800000100000 + 16 * v) 0x1000 0x2000 0x3000 0x4000 14)
    as (g & Hg & Ht & _); [intros v Hv; cbv beta; lia | change IstStackSize with 4096; rewrite !Forall_cons; repeat split; lia || constructor | lia |].
  exists g. split; [exact Hg | exact Ht].
Defined.

(** ** Segments *)

Lemma selector_value garbage index level :
  0 <= garbage < 2 ^ 16 -> 0 <= index < 2 ^ 13 -> 0 <= level < 4 ->
  new_SEGMENT_SELECTOR garbage index level = 8 * index + level.
Proof.
  intros Hg Hi Hl. unfold new_SEGMENT_SELECTOR. at_fields.
  set (v1 := set_bits garbage 0 2 level). set (v2 := set_bits v1 2 1 0). set (v := set_bits v2 3 13 index).
  assert (forall i, 16 <= i -> Z.testbit garbage i = false) as Hhigh.
  { intros i Hi'. rewrite <- (Z.mod_small garbage (2 ^ 16)) by lia. by apply Z.mod_pow2_bits_high. }
  assert (v = Z.lor (index * 2 ^ 3) level) as ->.
  - apply Z.bits_inj'. intros i Hi'. unfold v, v2, v1. rewrite !set_bits_testbit by lia.
    rewrite Z.lor_spec, <- Z.shiftl_mul_pow2, Z.shiftl_spec by lia.
    assert (forall j, 2 <= j -> Z.testbit level j = false) as Hlev.
    { intros j Hj. rewrite <- (Z.mod_small level (2 ^ 2)) by lia. by apply Z.mod_pow2_bits_high. }
    assert (forall j, 13 <= j -> Z.testbit index j = false) as Hidx.
    { intros j Hj. rewrite <- (Z.mod_small index (2 ^ 13)) by lia. by apply Z.mod_pow2_bits_high. }
    destruct (Z.leb_spec 3 i), (Z.leb_spec 2 i), (Z.leb_spec 0 i), (Z.ltb_spec i (3 + 13)), (Z.ltb_spec i (2 + 1)),
      (Z.ltb_spec i (0 + 2)); try lia; cbn [andb].
    all: rewrite ?(Z.testbit_neg_r index) by lia; rewrite ?Hlev, ?Hidx, ?Hhigh by lia;
      rewrite ?Z.testbit_0_l, ?orb_false_r, ?Z.sub_0_r; done.
  - rewrite lor_shift_add by lia. lia.
Qed.

Lemma get_bits_wrap x w lo n : 0 <= lo -> 0 <= n -> lo + n <= w -> get_bits (wrap w x) lo n = get_bits x lo n.
Proof.
  intros Hlo Hn Hw. apply Z.bits_inj'. intros i Hi. rewrite !get_bits_testbit by lia.
  destruct (Z.ltb_spec i n); [| done]. cbn [andb]. unfold wrap. apply Z.mod_pow2_bits_low. lia.
Qed.

Lemma get_bits_shiftr x k lo n : 0 <= k -> 0 <= lo -> 0 <= n -> get_bits (Z.shiftr x k) lo n = get_bits x (lo + k) n.
Proof.
  intros Hk Hlo Hn. apply Z.bits_inj'. intros i Hi. rewrite !get_bits_testbit, Z.shiftr_spec by lia.
  by rewrite Z.add_assoc.
Qed.

Lemma get_bits_split x lo n1 n2 :
  0 <= lo -> 0 <= n1 -> 0 <= n2 -> get_bits x lo (n1 + n2) = get_bits x lo n1 + get_bits x (lo + n1) n2 * 2 ^ n1.
Proof.
  intros Hlo H1 H2. rewrite (Z.add_comm (get_bits x lo n1)), <- lor_shift_add by (try apply get_bits_range; lia).
  apply Z.bits_inj'. intros i Hi.
  rewrite Z.lor_spec, <- Z.shiftl_mul_pow2, Z.shiftl_spec by lia.
  rewrite (get_bits_testbit x lo (n1 + n2)), (get_bits_testbit x lo n1) by lia. destruct (Z.ltb_spec i n1).
  - rewrite (Z.testbit_neg_r _ (i - n1)) by lia. by rewrite (proj2 (Z.ltb_lt i (n1 + n2))) by lia.
  - rewrite get_bits_testbit by lia. cbn [andb]. rewrite orb_false_r.
    replace (i - n1 + (lo + n1)) with (i + lo) by lia.
    destruct (Z.ltb_spec i (n1 + n2)), (Z.ltb_spec (i - n1) n2); try lia; done.
Qed.

(** The task state segment's address, cut into 16, 8, 8 and 32 bits. *)
Lemma tss_entry_base tss :
  0 <= tss < 2 ^ 64 ->
  get_bits (u64 (tss_entry tss)) 16 24 + get_bits (u64 (tss_entry tss)) 56 8 * 2 ^ 24 +
  get_bits (Z.shiftr (tss_entry tss) 64) 0 32 * 2 ^ 32 = tss.
Proof.
  intros Ht. rewrite !get_bits_wrap, get_bits_shiftr by lia. change 24 with (16 + 8) at 1.
  rewrite get_bits_split by lia. unfold tss_entry, TSS_LDT_ENTRY. cbn [initialise].
  cbn [Z.add Z.mul Pos.add Pos.mul Pos.succ]. read_fields. rewrite !land_ones_wrap by lia.
  unfold QWordHigh. rewrite !Z.shiftr_div_pow2 by lia. unfold wrap. rewrite !Z.mod_mod by lia.
  pose proof (Z.div_mod tss (2 ^ 16)). pose proof (Z.div_mod (tss / 2 ^ 16) (2 ^ 8)).
  pose proof (Z.div_mod (tss / 2 ^ 24) (2 ^ 8)).
  rewrite !Z.div_div in * by lia. change (2 ^ 16 * 2 ^ 8) with (2 ^ 24) in *. change (2 ^ 24 * 2 ^ 8) with (2 ^ 32) in *.
  assert (0 <= tss / 2 ^ 32 < 2 ^ 32) by (split; [apply Z.div_pos; lia | apply Z.div_lt_upper_bound; lia]).
  rewrite (Z.mod_small (tss / 2 ^ 32)) by lia. lia.
Qed.

(** Fact: the tables the processor is given fit together.  The task register names the task state
    segment, at its address; the kernel's code and data segments are present, flat and privileged;
    and the selectors that SYSCALL and SYSRET derive from the STAR register name the kernel's
    64-bit code and its data, and the user's 64-bit code and data, with the privilege of each. *)
Theorem segments_fit garbage entry efer cr4 tss :
  0 <= garbage < 2 ^ 16 -> 0 <= tss < 2 ^ 64 ->
  exists data code task star,
    SetupDescriptorTables garbage entry efer cr4 =
      [Lgdt; UpdateSegments data code; Ltr task; Lidt; Sti; WriteMsr MSR_IA32_STAR star;
       WriteMsr MSR_IA32_LSTAR entry; WriteMsr MSR_IA32_FMASK 0x300;
       WriteMsr MSR_IA32_EFER (Z.lor efer 1); WriteCr4 (Z.lor cr4 (2 ^ 16))] /\
    tss_base (KernelGDT tss) task = Some tss /\
    decode_segment <$> descriptor (KernelGDT tss) code = Some (mkSegment true true true 0 true 0 (2 ^ 32 - 1)) /\
    decode_segment <$> descriptor (KernelGDT tss) data = Some (mkSegment false false true 0 true 0 (2 ^ 32 - 1)) /\
    syscall_selectors star = (code, data) /\
    let '(user_code, user_data) := sysret_selectors star in
    user_code mod 4 = UserDPL /\ user_data mod 4 = UserDPL /\
    decode_segment <$> descriptor (KernelGDT tss) user_code = Some (mkSegment true true true 3 true 0 (2 ^ 32 - 1)) /\
    decode_segment <$> descriptor (KernelGDT tss) user_data = Some (mkSegment false false true 3 true 0 (2 ^ 32 - 1)).
Proof.
  intros Hg Ht. unfold SetupDescriptorTables.
  rewrite !selector_value by (unfold GDT_index, KernelDPL, UserDPL; lia).
  eexists _, _, _, _. split; [reflexivity |]. split.
  - unfold tss_base, KernelGDT. change (Z.to_nat _) with 6%nat. cbn [lookup list_lookup mbind option_bind].
    by rewrite tss_entry_base by done.
  - repeat split; vm_compute; reflexivity.
Qed.

Lemma segments_fit_witness :
  exists data code task star rest, SetupDescriptorTables 0xBEEF 0xFFFF800000001000 0x500 0x668 =
      Lgdt :: UpdateSegments data code :: Ltr task :: Lidt :: Sti :: WriteMsr MSR_IA32_STAR star :: rest /\
    syscall_selectors star = (code, data) /\ tss_base (KernelGDT 0xFFFF800000ABC000) task = Some 0xFFFF800000ABC000.
Proof.
  destruct (segments_fit 0xBEEF 0xFFFF800000001000 0x500 0x668 0xFFFF800000ABC000)
    as (data & code & task & star & Hi & Ht & _ & _ & Hs & _); [lia | lia |].
  exists data, code, task, star. eexists. split; [exact Hi |]. split; [exact Hs | exact Ht].
Defined.

(** The stack for entries from user mode is the one set, and the others stay. *)
Theorem SetKernelInterruptStack_sets stack tss :
  0 <= stack < 2 ^ 64 -> (26 <= length tss)%nat ->
  word64 (SetKernelInterruptStack stack tss) 1 = stack /\
  (forall i, (3 <= i)%nat -> word64 (SetKernelInterruptStack stack tss) i = word64 tss i).
Proof.
  intros Hs Hl. destruct tss as [| a [| b [| c tss]]]; cbn [length] in Hl; try lia.
  unfold SetKernelInterruptStack, word64. cbn [insert list_insert nth]. split; [by apply words_64 |].
  intros i Hi. do 3 (destruct i as [| i]; [lia |]). done.
Qed.

(** ** Control registers and features *)

(** [InitSIMD] turns emulation off and monitoring, numeric errors, the save area and the unmasked
    exceptions on, and keeps every other bit. *)
Theorem InitSIMD_bits cr0 cr4 i :
  0 <= i < 64 ->
  Z.testbit (InitSIMD cr0 cr4).1 i =
    (if decide (i = 2) then false else if decide (i = 1 \/ i = 5) then true else Z.testbit cr0 i) /\
  Z.testbit (InitSIMD cr0 cr4).2 i = (if decide (i = 9 \/ i = 10) then true else Z.testbit cr4 i).
Proof.
  intros Hi. unfold InitSIMD, CR0_MONITOR_COPROC, CR0_EM, CR0_NUMERIC_ERROR, CR4_FXSR, CR4_SIMD_EXCEPTION. cbn [fst snd].
  rewrite !Z.lor_spec, Z.land_spec. unfold wrap. rewrite Z.mod_pow2_bits_low, Z.lnot_spec by lia.
  rewrite !Z.shiftl_spec by lia.
  assert (forall k, Z.testbit 1 (i - k) = bool_decide (i = k)) as Hb.
  { intros k. case_bool_decide; [by subst; rewrite Z.sub_diag |].
    destruct (decide (i < k)); [by rewrite Z.testbit_neg_r by lia |].
    change 1 with (2 ^ 0). rewrite Z.pow2_bits_false by lia. done. }
  rewrite !Hb.
  split; repeat case_decide; repeat case_bool_decide; try lia; cbn [negb];
    rewrite ?andb_true_r, ?andb_false_r, ?orb_true_r, ?orb_false_r; done.
Qed.

(** The bit that is tested for the x2APIC is that of SSE3. *)
Theorem SupportsX2APIC_is_SSE3 ecx : SupportsX2APIC ecx = Z.testbit ecx 0.
Proof.
  unfold SupportsX2APIC. change (Z.b2z (1 <? 21)) with (Z.ones 1). rewrite Z.land_ones by lia.
  rewrite <- Z.bit0_mod. by destruct (Z.testbit ecx 0).
Qed.

(** Without the two leaves the frequency is 100, or 0 if the platform register is empty above its
    low byte, whatever the ratio in it. *)
Theorem TSC_fallback l16 eax ebx info :
  eax = 0 \/ ebx = 0 ->
  TSC_frequency (eax, ebx, 0, 0) l16 info 0 = Ret (if Z.shiftr info 8 =? 0 then 0 else 100).
Proof.
  intros He. unfold TSC_frequency. destruct l16 as [[[r0 r1] r2] r3]. cbn [Z.eqb].
  assert (negb (r0 =? 0) && negb (r1 =? 0) && negb (eax =? 0) && negb (ebx =? 0) = false) as ->.
  { destruct He as [-> | ->]; cbn; by rewrite ?andb_false_r. }
  cbn [mbind outcome_bind]. by destruct (Z.shiftr info 8 =? 0).
Qed.

(** ** The legacy controllers *)

(** After [InitPIC], whatever came before, both controllers are initialised: their vectors follow
    each other from 32 on, the second is wired to line 2 of the first, and every line is masked. *)
Theorem InitPIC_remaps ps :
  foldl (fun ps w => pics_write w ps) ps InitPIC =
    (mkPic [] 32 (2 ^ 2) 1 0xff, mkPic [] 40 2 1 0xff).
Proof. destruct ps as [[] []]. reflexivity. Qed.

(** After [InitPIT] the timer is a square wave of 1000 Hz, up to the rounding of its divisor. *)
Theorem InitPIT_programs p :
  let p' := foldl (fun p w => pit_write w p) p InitPIT in
  divisor p' = 1193 /\ get_bits (control p') 1 3 = 3 /\ low_byte p' = None /\
  PIT_FREQUENCY / divisor p' = 1000.
Proof. destruct p. repeat split. Qed.
