(* ===== verification/Serial.v ===== *)
(** Serial: the serial port under the kernel debugger's connection (src/src/kdCom/cport.cpp,
    cportlib.h, ns16550.h, kdcom.cpp) and the kernel's own driver of it
    (src/src/kernel/drivers/io/UartDriver.cpp, UartDriver.h).

    The code runs against any machine with a byte read and a byte write of a port ([Ports]).  The
    theorems are about one such machine, the UART of the second half of this file: a 16550 with
    what is still to come over the line as a list, one item per poll of its status. *)
From Stdlib Require Import String.
From S2P Require Import Prelude OSSystem Objects KdPacket.

(** ** Registers *)

Definition CLOCK_RATE : Z := 115200.
Definition TIMEOUT_COUNT : Z := 1024 * 200.
Definition RECEIVE_BUFFER_REGISTER : Z := 0.
Definition TRANSMIT_HOLDING_REGISTER : Z := 0.
Definition INTERRUPT_ENABLE_REGISTER : Z := 1.
Definition INTERRUPT_IDENT_REGISTER : Z := 2.
Definition FIFO_CONTROL_REGISTER : Z := 2.
Definition LINE_CONTROL_REGISTER : Z := 3.
Definition MODEM_CONTROL_REGISTER : Z := 4.
Definition LINE_STATUS_REGISTER : Z := 5.
Definition MODEM_STATUS_REGISTER : Z := 6.
Definition SCRATCH_REGISTER : Z := 7.
Definition DIVISOR_LATCH_LSB : Z := 0.
Definition DIVISOR_LATCH_MSB : Z := 1.
Definition SERIAL_FCR_DISABLE : Z := 0x00.
Definition SERIAL_FCR_ENABLE : Z := 0x01.
Definition SERIAL_FCR_RCVR_RESET : Z := 0x02.
Definition SERIAL_FCR_TXMT_RESET : Z := 0x04.
Definition SERIAL_LCR_DLAB : Z := 0x80.
Definition SERIAL_8_DATA : Z := 0x03.
Definition SERIAL_1_STOP : Z := 0x00.
Definition SERIAL_NONE_PARITY : Z := 0x00.
Definition SERIAL_MCR_DTR : Z := 0x01.
Definition SERIAL_MCR_RTS : Z := 0x02.
Definition SERIAL_MCR_OUT1 : Z := 0x04.
Definition SERIAL_MCR_OUT2 : Z := 0x08.
Definition SERIAL_MCR_LOOP : Z := 0x10.
Definition SERIAL_LSR_DR : Z := 0x01.
Definition SERIAL_LSR_OE : Z := 0x02.
Definition SERIAL_LSR_PE : Z := 0x04.
Definition SERIAL_LSR_FE : Z := 0x08.
Definition SERIAL_LSR_THRE : Z := 0x20.
Definition SERIAL_MSR_CTS : Z := 0x10.
Definition SERIAL_MSR_DSR : Z := 0x20.
Definition SERIAL_MSR_RI : Z := 0x40.
Definition SERIAL_MSR_DCD : Z := 0x80.
Definition CP_GET_SUCCESS : Z := 0.
Definition CP_GET_NODATA : Z := 1.
Definition CP_GET_ERROR : Z := 2.
Definition CPPORT_FLAG_MODEM_CONTROL : Z := 0x02.
Definition STATUS_SUCCESS : Z := 0.
Definition STATUS_INVALID_PARAMETER : Z := 0xC000000D.
Definition STATUS_NOT_FOUND : Z := 0xC0000225.
Definition DEFAULT_DEBUG_BAUD_RATE : Z := 115200.
Definition BaseArray : list Z := [0; 0x3F8; 0x2F8; 0x3E8; 0x2E8].

(** [READ_PORT_UCHAR] and [WRITE_PORT_UCHAR]. *)
Class Ports (U : Type) := { inb : Z -> U -> Z * U; outb : Z -> Z -> U -> U }.

(** ** The port library *)

Record CPPORT := mkPort { Address : Z; BaudRate : Z; Flags : Z }.

Section CpLib.
Context {U : Type} `{Ports U}.

Definition CpEnableFifo (address : Z) (enable : bool) (u : U) : U :=
  outb (address + FIFO_CONTROL_REGISTER)
    (if enable then Z.lor (Z.lor SERIAL_FCR_ENABLE SERIAL_FCR_RCVR_RESET) SERIAL_FCR_TXMT_RESET
     else SERIAL_FCR_DISABLE) u.

Definition CpSetBaud (p : CPPORT) (baud : Z) (u : U) : CPPORT * U :=
  let mode := CLOCK_RATE / baud in
  let '(Lcr, u) := inb (Address p + LINE_CONTROL_REGISTER) u in
  let u := outb (Address p + LINE_CONTROL_REGISTER) (Z.lor Lcr SERIAL_LCR_DLAB) u in
  let u := outb (Address p + DIVISOR_LATCH_LSB) (u8 (Z.land mode 0xFF)) u in
  let u := outb (Address p + DIVISOR_LATCH_MSB) (u8 (Z.land (Z.shiftr mode 8) 0xFF)) u in
  let u := outb (Address p + LINE_CONTROL_REGISTER) Lcr u in
  (mkPort (Address p) baud (Flags p), u).

Definition ComPortTest1 (address : Z) (u : U) : bool * U :=
  let '(Mcr, u) := inb (address + MODEM_CONTROL_REGISTER) u in
  let u := outb (address + MODEM_CONTROL_REGISTER) SERIAL_MCR_LOOP u in
  let u := outb (address + MODEM_CONTROL_REGISTER) SERIAL_MCR_LOOP u in
  let '(Msr, u) := inb (address + MODEM_STATUS_REGISTER) u in
  let '(RetVal, u) :=
    if Z.land Msr (Z.lor (Z.lor (Z.lor SERIAL_MSR_CTS SERIAL_MSR_DSR) SERIAL_MSR_RI) SERIAL_MSR_DCD) =? 0x00 then
      let u := outb (address + MODEM_CONTROL_REGISTER) (Z.lor SERIAL_MCR_OUT1 SERIAL_MCR_LOOP) u in
      let '(Msr, u) := inb (address + MODEM_STATUS_REGISTER) u in
      (negb (Z.land Msr SERIAL_MSR_RI =? 0), u)
    else (false, u) in
  (RetVal, outb (address + MODEM_CONTROL_REGISTER) Mcr u).

(** The loop over the 256 values of the byte, [n] of them left. *)
Fixpoint ComPortTest2_loop (n : nat) (address byte : Z) (u : U) : bool * U :=
  match n with
  | O => (true, u)
  | S n =>
    let u := outb (address + SCRATCH_REGISTER) byte u in
    let '(v, u) := inb (address + SCRATCH_REGISTER) u in
    if negb (v =? byte) then (false, u)
    else ComPortTest2_loop n address (u8 (byte + 1)) u
  end.
Definition ComPortTest2 (address : Z) (u : U) : bool * U := ComPortTest2_loop 256 address 0 u.

Definition CpDoesPortExist (address : Z) (u : U) : bool * U :=
  let '(ok, u) := ComPortTest1 address u in
  if (ok : bool) then (true, u) else ComPortTest2 address u.

Definition CpInitialize (p : CPPORT) (address baud : Z) (u : U) : Z * CPPORT * U :=
  if (address =? 0) || (baud =? 0) then (STATUS_INVALID_PARAMETER, p, u)
  else
    let '(ok, u) := CpDoesPortExist address u in
    if negb ok then (STATUS_NOT_FOUND, p, u)
    else
      let p := mkPort address 0 0 in
      let u := outb (address + LINE_CONTROL_REGISTER) 0 u in
      let u := outb (address + INTERRUPT_ENABLE_REGISTER) 0 u in
      let u := outb (address + MODEM_CONTROL_REGISTER)
                 (Z.lor (Z.lor SERIAL_MCR_DTR SERIAL_MCR_RTS) SERIAL_MCR_OUT2) u in
      let '(p, u) := CpSetBaud p baud u in
      let u := outb (Address p + LINE_CONTROL_REGISTER)
                 (Z.lor (Z.lor SERIAL_8_DATA SERIAL_1_STOP) SERIAL_NONE_PARITY) u in
      let u := CpEnableFifo address true u in
      let '(_, u) := inb (address + RECEIVE_BUFFER_REGISTER) u in
      (STATUS_SUCCESS, p, u).

(** The port with the variable [RingIndicator] and the machine. *)
Record com := mkCom { Port : CPPORT; RingIndicator : Z; machine : U }.

Definition with_machine (u : U) (c : com) : com := mkCom (Port c) (RingIndicator c) u.

Definition CpReadLsr (ExpectedValue : Z) (c : com) : Z * com :=
  let '(Lsr, u) := inb (Address (Port c) + LINE_STATUS_REGISTER) (machine c) in
  if Z.land Lsr ExpectedValue =? 0 then
    let '(Msr, u) := inb (Address (Port c) + MODEM_STATUS_REGISTER) u in
    let ring := u8 (Z.lor (RingIndicator c) (if Z.land Msr SERIAL_MSR_RI =? 0 then 2 else 1)) in
    let p := if ring =? 3 then mkPort (Address (Port c)) (BaudRate (Port c))
                                 (Z.lor (Flags (Port c)) CPPORT_FLAG_MODEM_CONTROL)
             else Port c in
    (Lsr, mkCom p ring u)
  else (Lsr, with_machine u c).

(** The attempts of [CpGetByte], [LimitCount] left; [Byte] is the caller's byte. *)
Fixpoint CpGetByte_loop (LimitCount : nat) (Poll : bool) (Byte : Z) (c : com) : Z * Z * com :=
  match LimitCount with
  | O => let '(_, c) := CpReadLsr 0 c in (CP_GET_NODATA, Byte, c)
  | S LimitCount =>
    let '(Lsr, c) := CpReadLsr SERIAL_LSR_DR c in
    if Z.land Lsr SERIAL_LSR_DR =? SERIAL_LSR_DR then
      if negb (Z.land Lsr (Z.lor (Z.lor SERIAL_LSR_FE SERIAL_LSR_PE) SERIAL_LSR_OE) =? 0)
      then (CP_GET_ERROR, 0, c)
      else if Poll then (CP_GET_SUCCESS, Byte, c)
      else
        let '(b, u) := inb (Address (Port c) + RECEIVE_BUFFER_REGISTER) (machine c) in
        (CP_GET_SUCCESS, b, with_machine u c)
    else CpGetByte_loop LimitCount Poll Byte c
  end.

Definition CpGetByte (Byte : Z) (Wait Poll : bool) (c : com) : Z * Z * com :=
  if Address (Port c) =? 0 then (CP_GET_NODATA, Byte, c)
  else CpGetByte_loop (if Wait then Z.to_nat TIMEOUT_COUNT else 1) Poll Byte c.

(** The wait for the transmitter has no limit. *)
Fixpoint CpPutByte (fuel : nat) (Byte : Z) (c : com) : outcome com :=
  match fuel with
  | O => Diverged
  | S fuel =>
    let '(Lsr, c) := CpReadLsr SERIAL_LSR_THRE c in
    if Z.land Lsr SERIAL_LSR_THRE =? 0 then CpPutByte fuel Byte c
    else Ret (with_machine (outb (Address (Port c) + TRANSMIT_HOLDING_REGISTER) Byte (machine c)) c)
  end.

(** ** The debugger's side (kdcom.cpp); [com] is [KdComPort] *)

Definition KdpPortInitialize (ComPortNumber ComPortBaudRate : Z) (c : com) : outcome (Z * com) :=
  match BaseArray !! Z.to_nat ComPortNumber with
  | None => Fault
  | Some address =>
    let '(status, p, u) := CpInitialize (Port c) address ComPortBaudRate (machine c) in
    Ret (if status =? STATUS_SUCCESS then STATUS_SUCCESS else STATUS_INVALID_PARAMETER,
         mkCom p (RingIndicator c) u)
  end.

Definition KdInitialize (ComPortNumber : Z) (c : com) : outcome (Z * com) :=
  KdpPortInitialize ComPortNumber DEFAULT_DEBUG_BAUD_RATE c.

Definition KdpSendByte (fuel : nat) (Byte : Z) (c : com) : outcome com := CpPutByte fuel Byte c.

Definition packet_status (Status : Z) : KDP_STATUS :=
  if Status =? CP_GET_SUCCESS then KDP_PACKET_RECEIVED
  else if Status =? CP_GET_NODATA then KDP_PACKET_TIMEOUT else KDP_PACKET_RESEND.

Definition KdpPollByte (OutByte : Z) (c : com) : com * KDP_STATUS * Z :=
  let '(Status, b, c) := CpGetByte OutByte false false c in (c, packet_status Status, b).

Definition KdpReceiveByte (OutByte : Z) (c : com) : com * KDP_STATUS * Z :=
  let '(Status, b, c) := CpGetByte OutByte true false c in (c, packet_status Status, b).

(** [KdpSendBuffer]; each byte may be waited for [fuel] polls. *)
Fixpoint KdpSendBuffer (fuel : nat) (Buffer : list Z) (c : com) : outcome com :=
  match Buffer with
  | [] => Ret c
  | b :: Buffer => c ← KdpSendByte fuel b c; KdpSendBuffer fuel Buffer c
  end.

(** ** The kernel's driver *)

Record UartDriver := mkUart { m_port : Z; m_rxBuffer : KRingBuffer Z }.

Definition new_UartDriver (port : Z) : UartDriver := mkUart port (new_KRingBuffer 0x100 0).

Definition ReadReg (d : UartDriver) (reg : Z) (u : U) : Z * U := inb (m_port d + reg) u.
Definition WriteReg (d : UartDriver) (reg value : Z) (u : U) : U := outb (m_port d + reg) value u.

(** [Initialize]. *)
Definition Initialize (d : UartDriver) (u : U) : U :=
  let u := WriteReg d INTERRUPT_ENABLE_REGISTER 0 u in
  let u := WriteReg d FIFO_CONTROL_REGISTER (Z.shiftl 3 6 + 1 + 2 + 4) u in
  let u := WriteReg d MODEM_CONTROL_REGISTER (8 + 2 + 1) u in
  WriteReg d INTERRUPT_ENABLE_REGISTER 1 u.

(** The loop of [OnInterrupt] while the status says a character is there. *)
Fixpoint drain (fuel : nat) (status : Z) (d : UartDriver) (u : U) : outcome (UartDriver * U) :=
  if negb (Z.testbit status 0) then Ret (d, u)
  else
    match fuel with
    | O => Diverged
    | S fuel =>
      _ ← Assert (negb (IsFull (m_rxBuffer d)));
      let '(b, u) := ReadReg d RECEIVE_BUFFER_REGISTER u in
      r ← Write (m_rxBuffer d) b;
      let d := mkUart (m_port d) (match r with Some r => r | None => m_rxBuffer d end) in
      let '(status, u) := ReadReg d LINE_STATUS_REGISTER u in
      drain fuel status d u
    end.

Definition OnInterrupt (fuel : nat) (d : UartDriver) (u : U) : outcome (UartDriver * U) :=
  let '(isr, u) := ReadReg d INTERRUPT_IDENT_REGISTER u in
  _ ← Assert (negb (Z.testbit isr 0));
  let '(status, u) := ReadReg d LINE_STATUS_REGISTER u in
  '(d, u) ← drain fuel status d u;
  let '(isr, u) := ReadReg d INTERRUPT_IDENT_REGISTER u in
  _ ← Assert (Z.testbit isr 0);
  Ret (d, u).

(** [Read]: the characters, or [None] for [Result::Failed]. *)
Fixpoint Read_loop (length : nat) (r : KRingBuffer Z) : outcome (list Z * KRingBuffer Z) :=
  match length with
  | O => Ret ([], r)
  | S length =>
    x ← Read r;
    match x with
    | None => Ret ([], r)
    | Some (r, b) => '(l, r) ← Read_loop length r; Ret (b :: l, r)
    end
  end.

Definition UartRead (length : Z) (d : UartDriver) : outcome (option (list Z) * UartDriver) :=
  if m_count (m_rxBuffer d) <? length then Ret (None, d)
  else '(l, r) ← Read_loop (Z.to_nat length) (m_rxBuffer d); Ret (Some l, mkUart (m_port d) r).

(** [Write]: the transmitter is not waited for. *)
Fixpoint UartWrite (buffer : list Z) (d : UartDriver) (u : U) : U :=
  match buffer with
  | [] => u
  | b :: buffer => UartWrite buffer d (WriteReg d TRANSMIT_HOLDING_REGISTER (u8 b) u)
  end.

End CpLib.
Arguments com : clear implicits.

(** ** A 16550 *)

(** What comes over the line: a poll of the status with nothing there, or a character with its
    error bits.  The characters in front, up to the first poll with nothing there, are those that
    have arrived and wait to be read. *)
Inductive wire_item := Idle | Data (b e : Z).

(** The registers, the line, what was transmitted, how many polls each character to come
    takes until the transmitter is empty, and whether the characters that wait have done so for the
    time of four characters in which none came and none was read. *)
Record ns16550 := mkNS {
  u_base : Z; u_ier : Z; u_fcr : Z; u_lcr : Z; u_mcr : Z; u_msr : Z; u_scr : Z;
  u_dll : Z; u_dlm : Z; wire : list wire_item; sent : list Z; delays : list nat; stale : bool }.

Definition dlab (u : ns16550) : bool := Z.testbit (u_lcr u) 7.
Definition with_wire (w : list wire_item) (u : ns16550) : ns16550 :=
  mkNS (u_base u) (u_ier u) (u_fcr u) (u_lcr u) (u_mcr u) (u_msr u) (u_scr u) (u_dll u) (u_dlm u) w (sent u) (delays u) (stale u).
Definition with_delays (l : list nat) (u : ns16550) : ns16550 :=
  mkNS (u_base u) (u_ier u) (u_fcr u) (u_lcr u) (u_mcr u) (u_msr u) (u_scr u) (u_dll u) (u_dlm u) (wire u) (sent u) l (stale u).

Definition with_stale (b : bool) (u : ns16550) : ns16550 :=
  mkNS (u_base u) (u_ier u) (u_fcr u) (u_lcr u) (u_mcr u) (u_msr u) (u_scr u) (u_dll u) (u_dlm u) (wire u) (sent u) (delays u) b.

(** The modem status: the modem control's outputs under the loop-back test. *)
Definition modem_status (u : ns16550) : Z :=
  if Z.testbit (u_mcr u) 4 then
    Z.b2z (Z.testbit (u_mcr u) 1) * 2 ^ 4 + Z.b2z (Z.testbit (u_mcr u) 0) * 2 ^ 5 +
    Z.b2z (Z.testbit (u_mcr u) 2) * 2 ^ 6 + Z.b2z (Z.testbit (u_mcr u) 3) * 2 ^ 7
  else u_msr u.

(** The characters that wait to be read. *)
Fixpoint level (w : list wire_item) : Z := match w with Data _ _ :: w => 1 + level w | _ => 0 end.

Definition fifo_on (u : ns16550) : bool := Z.testbit (u_fcr u) 0.

(** The number of characters that raises the interrupt, of the upper bits of the queue control. *)
Definition trigger (u : ns16550) : Z :=
  if fifo_on u then
    match Z.shiftr (Z.land (u_fcr u) 0xC0) 6 with 0 => 1 | 1 => 4 | 2 => 8 | _ => 14 end
  else 1.

(** The receiver's interrupts: enough characters, or, with the queue on, some that have waited. *)
Definition received (u : ns16550) : bool := Z.testbit (u_ier u) 0 && (trigger u <=? level (wire u)).
Definition timed_out (u : ns16550) : bool :=
  Z.testbit (u_ier u) 0 && fifo_on u && stale u && (0 <? level (wire u)).

(** A read of the line status: data ready, the errors of the first character, which the read
    clears, and the transmitter; the poll takes its time. *)
Definition line_status (u : ns16550) : Z :=
  Z.lor (match wire u with Data _ e :: _ => Z.lor 1 (Z.land e 0x1E) | _ => 0 end)
        (match delays u with S _ :: _ => 0 | _ => 0x60 end).

Definition polled (u : ns16550) : ns16550 :=
  with_delays (match delays u with S n :: l => n :: l | l => l end)
    (match wire u with
     | Idle :: w => with_stale false (with_wire w u)
     | Data b _ :: w => with_wire (Data b 0 :: w) u
     | [] => u
     end).

(** The interrupts of the transmitter, the line status and the modem status, which no driver here
    enables, are left out of the interrupt identification. *)
Definition read_reg (k : Z) (u : ns16550) : Z * ns16550 :=
  match k with
  | 0 => if dlab u then (u_dll u, u)
         else match wire u with Data b _ :: w => (b, with_stale false (with_wire w u)) | _ => (0, u) end
  | 1 => (if dlab u then u_dlm u else u_ier u, u)
  | 2 => ((if fifo_on u then 0xC0 else 0) +
          (if received u then 0x04 else if timed_out u then 0x0C else 1), u)
  | 3 => (u_lcr u, u)
  | 4 => (u_mcr u, u)
  | 5 => (line_status u, polled u)
  | 6 => (modem_status u, u)
  | 7 => (u_scr u, u)
  | _ => (0, u)
  end.

(** Resetting the receiver drops the characters that have arrived, and with them their wait. *)
Fixpoint drop_data (w : list wire_item) : list wire_item :=
  match w with Data _ _ :: w => drop_data w | _ => w end.

(** A character written while the transmitter is not empty is lost. *)
Definition write_reg (k v : Z) (u : ns16550) : ns16550 :=
  let set ier fcr lcr mcr scr dll dlm w t l :=
    mkNS (u_base u) ier fcr lcr mcr (u_msr u) scr dll dlm w t l (stale u) in
  match k with
  | 0 => if dlab u then set (u_ier u) (u_fcr u) (u_lcr u) (u_mcr u) (u_scr u) v (u_dlm u) (wire u) (sent u) (delays u)
         else match delays u with
              | S _ :: _ => u
              | l => set (u_ier u) (u_fcr u) (u_lcr u) (u_mcr u) (u_scr u) (u_dll u) (u_dlm u) (wire u) (sent u ++ [v]) (tail l)
              end
  | 1 => if dlab u then set (u_ier u) (u_fcr u) (u_lcr u) (u_mcr u) (u_scr u) (u_dll u) v (wire u) (sent u) (delays u)
         else set (Z.land v 0x0F) (u_fcr u) (u_lcr u) (u_mcr u) (u_scr u) (u_dll u) (u_dlm u) (wire u) (sent u) (delays u)
  | 2 => with_stale (stale u && negb (Z.testbit v 1))
           (set (u_ier u) v (u_lcr u) (u_mcr u) (u_scr u) (u_dll u) (u_dlm u)
              (if Z.testbit v 1 then drop_data (wire u) else wire u) (sent u) (delays u))
  | 3 => set (u_ier u) (u_fcr u) v (u_mcr u) (u_scr u) (u_dll u) (u_dlm u) (wire u) (sent u) (delays u)
  | 4 => set (u_ier u) (u_fcr u) (u_lcr u) (Z.land v 0x1F) (u_scr u) (u_dll u) (u_dlm u) (wire u) (sent u) (delays u)
  | 7 => set (u_ier u) (u_fcr u) (u_lcr u) (u_mcr u) v (u_dll u) (u_dlm u) (wire u) (sent u) (delays u)
  | _ => u
  end.

#[global] Instance ns16550_ports : Ports ns16550 := {
  inb port u := read_reg (port - u_base u) u;
  outb port v u := write_reg (port - u_base u) v u }.

(** ** Registers of the UART *)

Lemma inb_reg a k u : u_base u = a -> inb (a + k) u = read_reg k u.
Proof. intros <-. cbn [inb ns16550_ports]. by rewrite Z.add_simpl_l. Qed.

Lemma outb_reg a k v u : u_base u = a -> outb (a + k) v u = write_reg k v u.
Proof. intros <-. cbn [outb ns16550_ports]. by rewrite Z.add_simpl_l. Qed.

Lemma base_outb port v u : u_base (outb port v u) = u_base u.
Proof.
  cbn [outb ns16550_ports]. unfold write_reg. generalize (port - u_base u). intros k.
  destruct k as [| p |]; [| do 3 (try destruct p as [p | p |]) |]; try done; try (by destruct (dlab u)).
  destruct (dlab u); [done |]. by destruct (delays u) as [| []].
Qed.

Lemma drop_data_head w : match drop_data w with Data _ _ :: _ => False | _ => True end.
Proof. induction w as [| [] w IH]; [done | done | exact IH]. Qed.

(** Running accesses to a UART given by its fields. *)
Ltac reg_step :=
  repeat first
    [ rewrite inb_reg by (rewrite ?base_outb; reflexivity)
    | rewrite outb_reg by (rewrite ?base_outb; reflexivity)
    | progress cbn [read_reg write_reg u_base u_ier u_fcr u_lcr u_mcr u_msr u_scr u_dll u_dlm wire sent delays stale Address Flags]
    | progress unfold dlab
    | match goal with
      | |- context [Z.testbit (Z.pos ?p) ?n] =>
          let r := eval vm_compute in (Z.testbit (Z.pos p) n) in change (Z.testbit (Z.pos p) n) with r
      end
    | rewrite Z.testbit_0_l ].

(** The loop-back test finds the UART, and leaves it as it was. *)
Lemma ComPortTest1_run u :
  ComPortTest1 (u_base u) u =
    (true, mkNS (u_base u) (u_ier u) (u_fcr u) (u_lcr u) (Z.land (u_mcr u) 0x1F) (u_msr u) (u_scr u)
             (u_dll u) (u_dlm u) (wire u) (sent u) (delays u) (stale u)).
Proof.
  destruct u as [a ier fcr lcr mcr msr scr dll dlm w t l cti]. cbn [u_base]. unfold ComPortTest1.
  unfold MODEM_CONTROL_REGISTER, MODEM_STATUS_REGISTER. reg_step.
  match goal with |- context [modem_status ?x] => change (modem_status x) with 0 end.
  rewrite Z.land_0_l. cbn match. reg_step.
  match goal with |- context [modem_status ?x] => change (modem_status x) with 0x40 end.
  rewrite Z.eqb_refl. cbn beta iota zeta. reg_step. reflexivity.
Qed.

(** Setting the baud rate writes the divisor and puts the line control back. *)
Lemma CpSetBaud_run p baud u :
  Address p = u_base u -> dlab u = false ->
  CpSetBaud p baud u =
    (mkPort (u_base u) baud (Flags p),
     mkNS (u_base u) (u_ier u) (u_fcr u) (u_lcr u) (u_mcr u) (u_msr u) (u_scr u)
       (u8 (Z.land (CLOCK_RATE / baud) 0xFF)) (u8 (Z.land (Z.shiftr (CLOCK_RATE / baud) 8) 0xFF))
       (wire u) (sent u) (delays u) (stale u)).
Proof.
  destruct u as [a ier fcr lcr mcr msr scr dll dlm w t l cti]. unfold dlab. cbn [u_base u_lcr]. intros Ha Hl.
  unfold CpSetBaud. cbv zeta. generalize (CLOCK_RATE / baud) as q. intros q. rewrite Ha.
  assert (Z.testbit (Z.lor lcr SERIAL_LCR_DLAB) 7 = true) as Hd by (rewrite Z.lor_spec; apply orb_true_r).
  unfold LINE_CONTROL_REGISTER, DIVISOR_LATCH_LSB, DIVISOR_LATCH_MSB.
  rewrite inb_reg by done. cbn [read_reg u_lcr].
  rewrite (outb_reg a 3 (Z.lor lcr _)) by done. cbn [write_reg u_base u_ier u_fcr u_mcr u_msr u_scr u_dll u_dlm wire sent delays stale with_stale].
  rewrite (outb_reg a 0) by done. cbn [write_reg]. unfold dlab at 1. cbn [u_base u_ier u_fcr u_lcr u_mcr u_msr u_scr u_dll u_dlm wire sent delays stale with_stale].
  rewrite Hd. rewrite (outb_reg a 1) by done. cbn [write_reg]. unfold dlab at 1.
  cbn [u_base u_ier u_fcr u_lcr u_mcr u_msr u_scr u_dll u_dlm wire sent delays stale with_stale]. rewrite Hd.
  rewrite outb_reg by done. reflexivity.
Qed.

Lemma byte_pair q : 0 <= q < 2 ^ 16 ->
  u8 (Z.land q 0xFF) + u8 (Z.land (Z.shiftr q 8) 0xFF) * 2 ^ 8 = q.
Proof.
  intros Hq. change 0xFF with (Z.ones 8). rewrite !Z.land_ones, Z.shiftr_div_pow2 by lia. unfold wrap.
  rewrite !Z.mod_mod by lia. assert (0 <= q / 2 ^ 8 < 2 ^ 8)
    by (split; [apply Z.div_pos; lia | apply Z.div_lt_upper_bound; lia]).
  rewrite (Z.mod_small (q / 2 ^ 8)) by lia. pose proof (Z.div_mod q (2 ^ 8)). lia.
Qed.

(** Fact: the port library programs the UART.  [CpInitialize] finds it, and leaves it with the divisor
    of the baud rate asked for, eight data bits, one stop bit and no parity, the terminal ready
    and the request to send on, its interrupts off, its queues empty and enabled, and the port
    variable filled in; what is still to come over the line is untouched. *)
Theorem CpInitialize_programs p baud u :
  u_base u <> 0 -> 2 <= baud <= 115200 ->
  exists u', CpInitialize p (u_base u) baud u = (STATUS_SUCCESS, mkPort (u_base u) baud 0, u') /\
    u_dll u' + u_dlm u' * 2 ^ 8 = CLOCK_RATE / baud /\ u_lcr u' = 3 /\ u_mcr u' = 0x0B /\
    u_ier u' = 0 /\ u_fcr u' = 7 /\ wire u' = drop_data (wire u) /\
    u_base u' = u_base u /\ sent u' = sent u /\ delays u' = delays u.
Proof.
  intros Ha Hb. unfold CpInitialize. rewrite (proj2 (Z.eqb_neq _ _) Ha), (proj2 (Z.eqb_neq baud 0)) by lia. cbn [orb].
  unfold CpDoesPortExist. rewrite ComPortTest1_run. cbn [negb].
  assert (0 <= CLOCK_RATE / baud < 2 ^ 16 \/ baud = 1) as Hq.
  { destruct (decide (baud = 1)); [by right | left]. unfold CLOCK_RATE. split; [apply Z.div_pos; lia |].
    apply Z.div_lt_upper_bound; lia. }
  destruct u as [a ier fcr lcr mcr msr scr dll dlm w t l cti].
  cbn [u_base u_ier u_fcr u_lcr u_mcr u_msr u_scr u_dll u_dlm wire sent delays stale with_stale] in *.
  unfold LINE_CONTROL_REGISTER, INTERRUPT_ENABLE_REGISTER, MODEM_CONTROL_REGISTER, FIFO_CONTROL_REGISTER, RECEIVE_BUFFER_REGISTER.
  rewrite (outb_reg a 3 0) by done. cbn [write_reg u_base u_ier u_fcr u_mcr u_msr u_scr u_dll u_dlm wire sent delays stale with_stale].
  rewrite (outb_reg a 1 0) by done. unfold write_reg at 1. unfold dlab at 1. cbn [u_base u_ier u_fcr u_lcr u_mcr u_msr u_scr u_dll u_dlm wire sent delays stale with_stale].
  rewrite Z.testbit_0_l.
  rewrite (outb_reg a 4) by done. cbn [write_reg u_base u_ier u_fcr u_lcr u_mcr u_msr u_scr u_dll u_dlm wire sent delays stale with_stale].
  rewrite CpSetBaud_run by done. cbn [Address u_base u_ier u_fcr u_lcr u_mcr u_msr u_scr wire sent delays].
  rewrite (outb_reg a 3) by done. cbn [write_reg u_base u_ier u_fcr u_lcr u_mcr u_msr u_scr u_dll u_dlm wire sent delays stale with_stale].
  unfold CpEnableFifo, FIFO_CONTROL_REGISTER. rewrite (outb_reg a 2) by done.
  cbn [write_reg u_base u_ier u_fcr u_lcr u_mcr u_msr u_scr u_dll u_dlm wire sent delays stale with_stale].
  rewrite inb_reg by done. cbn [read_reg]. unfold dlab. cbn [u_lcr wire with_stale].
  match goal with |- context [Z.testbit ?x 7] => change (Z.testbit x 7) with false end.
  match goal with |- context [Z.testbit ?x 1] => change (Z.testbit x 1) with true end. cbn match.
  pose proof (drop_data_head w) as Hw.
  eexists. split; [destruct (drop_data w) as [| [] w'] eqn:Hd; [| | done]; rewrite <- Hd; reflexivity |].
  cbn [u_base u_ier u_fcr u_lcr u_mcr u_dll u_dlm wire sent delays stale with_stale].
  split; [apply byte_pair; lia |]. repeat split.
Qed.

Lemma CpInitialize_programs_witness :
  let u := mkNS 0x3F8 1 0 0x83 0 0 0 0 0 [Data 65 0; Idle; Data 66 0] [] [] true in
  exists u', CpInitialize (mkPort 0 0 0) 0x3F8 19200 u = (STATUS_SUCCESS, mkPort 0x3F8 19200 0, u') /\
    u_dll u' + u_dlm u' * 2 ^ 8 = 6 /\ wire u' = [Idle; Data 66 0].
Proof.
  destruct (CpInitialize_programs (mkPort 0 0 0) 19200 (mkNS 0x3F8 1 0 0x83 0 0 0 0 0 [Data 65 0; Idle; Data 66 0] [] [] true))
    as (u' & H1 & H2 & _ & _ & _ & _ & H3 & _); [done | lia |].
  exists u'. split; [exact H1 |]. split; [exact H2 | exact H3].
Defined.

(** ** The port of the packet protocol *)

(** The port is set up and its UART gives access to the data registers. *)
Record ready (c : com ns16550) : Prop := {
  rd_address : Address (Port c) = u_base (machine c);
  rd_nonzero : Address (Port c) <> 0;
  rd_dlab : dlab (machine c) = false }.

(** What a poll leaves. *)
Lemma polled_regs u :
  u_base (polled u) = u_base u /\ u_ier (polled u) = u_ier u /\ u_fcr (polled u) = u_fcr u /\ dlab (polled u) = dlab u /\
  sent (polled u) = sent u /\ delays (polled u) = (match delays u with S n :: l => n :: l | l => l end).
Proof. unfold polled. by destruct (wire u) as [| []]. Qed.

Lemma polled_sent u : sent (polled u) = sent u.
Proof. apply polled_regs. Qed.

Lemma polled_stale u : stale (polled u) = match wire u with Idle :: _ => false | _ => stale u end.
Proof. unfold polled. by destruct (wire u) as [| []]. Qed.

Lemma polled_wire u : wire (polled u) = match wire u with Idle :: w => w | Data b _ :: w => Data b 0 :: w | [] => [] end.
Proof. unfold polled. by destruct (wire u) as [| []] eqn:Hw; cbn. Qed.

(** A read of the status: the poll, whatever becomes of the ring indicator. *)
Lemma CpReadLsr_run e c :
  ready c -> exists c', CpReadLsr e c = (line_status (machine c), c') /\ ready c' /\
    machine c' = polled (machine c) /\ Address (Port c') = Address (Port c).
Proof.
  intros [Ha Hn Hd]. unfold CpReadLsr, LINE_STATUS_REGISTER. rewrite inb_reg by done. cbn [read_reg].
  assert (forall p r, Address p = Address (Port c) -> ready (mkCom p r (polled (machine c)))) as Hr.
  { destruct (polled_regs (machine c)) as (Hpb & _ & _ & Hpd & _).
    intros p r Hp. split; cbn [Port machine]; [by rewrite Hp, Hpb | by rewrite Hp | by rewrite Hpd]. }
  destruct (Z.land _ e =? 0).
  - unfold MODEM_STATUS_REGISTER. rewrite inb_reg by (by rewrite (proj1 (polled_regs _))). cbn [read_reg]. eexists. split; [reflexivity |].
    destruct (_ =? 3); (split; [by apply Hr | done]).
  - eexists. split; [reflexivity |]. split; [by apply Hr | done].
Qed.

Lemma line_status_idle u : match wire u with Data _ _ :: _ => False | _ => True end ->
  Z.testbit (line_status u) 0 = false.
Proof. unfold line_status. intros Hw. rewrite Z.lor_spec. destruct (wire u) as [| []], (delays u) as [| []]; done. Qed.

Lemma line_status_data u b e w : wire u = Data b e :: w ->
  Z.testbit (line_status u) 0 = true /\ Z.land (line_status u) 0x0E = Z.land e 0x0E.
Proof.
  intros Hw. unfold line_status. rewrite Hw, Z.lor_spec, Z.lor_spec. split; [done |].
  rewrite !Z.land_lor_distr_l, <- Z.land_assoc. change (Z.land 0x1E 0x0E) with 0x0E. change (Z.land 1 0x0E) with 0.
  rewrite Z.lor_0_l. destruct (delays u) as [| []]; [| | by rewrite Z.land_0_l, Z.lor_0_r];
    change (Z.land 0x60 0x0E) with 0; by rewrite Z.lor_0_r.
Qed.

(** Polls that find nothing. *)
Lemma CpGetByte_idle n k b c w :
  ready c -> wire (machine c) = replicate k Idle ++ w -> (k <= n)%nat ->
  exists c', CpGetByte_loop n false b c = CpGetByte_loop (n - k) false b c' /\ ready c' /\
    wire (machine c') = w /\ sent (machine c') = sent (machine c).
Proof.
  revert n c. induction k as [| k IH]; intros n c Hc Hw Hk.
  - exists c. by rewrite Nat.sub_0_r.
  - destruct n as [| n]; [lia |]. cbn [CpGetByte_loop replicate app] in *.
    destruct (CpReadLsr_run SERIAL_LSR_DR c Hc) as (c1 & -> & Hc1 & Hm & _).
    assert (Z.land (line_status (machine c)) SERIAL_LSR_DR =? SERIAL_LSR_DR = false) as ->.
    { change SERIAL_LSR_DR with (2 ^ 0). apply Z.eqb_neq.
      pose proof (truthy_bit (line_status (machine c)) 0 ltac:(lia)) as Ht.
      rewrite line_status_idle in Ht by (by rewrite Hw). apply Z.eqb_eq in Ht. rewrite Ht. done. }
    destruct (IH n c1 Hc1) as (c2 & -> & Hc2 & Hw2 & Hs2); [by rewrite Hm, polled_wire, Hw | lia |].
    exists c2. split; [done |]. split; [done |]. split; [done |]. by rewrite Hs2, Hm, polled_sent.
Qed.

(** A character that is there: given, or refused for its errors. *)
Lemma CpGetByte_data n b0 c b e w :
  ready c -> wire (machine c) = Data b e :: w ->
  exists c', ready c' /\ sent (machine c') = sent (machine c) /\
    CpGetByte_loop (S n) false b0 c =
      (if decide (Z.land e 0x0E = 0) then (CP_GET_SUCCESS, b, c') else (CP_GET_ERROR, 0, c')) /\
    wire (machine c') = (if decide (Z.land e 0x0E = 0) then w else Data b 0 :: w).
Proof.
  intros Hc Hw. cbn [CpGetByte_loop]. destruct (CpReadLsr_run SERIAL_LSR_DR c Hc) as (c1 & -> & Hc1 & Hm & _).
  destruct (line_status_data _ _ _ _ Hw) as [Hdr Herr].
  assert (Z.land (line_status (machine c)) SERIAL_LSR_DR =? SERIAL_LSR_DR = true) as ->.
  { change SERIAL_LSR_DR with (Z.ones 1) at 1. rewrite Z.land_ones, <- Z.bit0_mod, Hdr by lia. done. }
  change (Z.lor (Z.lor SERIAL_LSR_FE SERIAL_LSR_PE) SERIAL_LSR_OE) with 0x0E. rewrite Herr.
  assert (wire (machine c1) = Data b 0 :: w) as Hw1 by (by rewrite Hm, polled_wire, Hw).
  assert (sent (machine c1) = sent (machine c)) as Hs1 by (by rewrite Hm, polled_sent).
  case_decide as He.
  - rewrite He. cbn [Z.eqb negb]. unfold RECEIVE_BUFFER_REGISTER. rewrite inb_reg by (symmetry; apply Hc1).
    cbn [read_reg]. rewrite (rd_dlab _ Hc1), Hw1. eexists. split; [| split; [| split; [reflexivity |]]]; try done.
    destruct Hc1 as [H1 H2 H3]. by split.
  - rewrite (proj2 (Z.eqb_neq _ _) He). cbn [negb]. by exists c1.
Qed.

(** When the line has no more items, nothing comes any more. *)
Definition silence : nat -> rx := fun _ => RxNone.

(** What reads of the port are to give, for what comes over the line: a character within the
    attempts of one read, or none for all of them; a character with an error is first refused and
    then given all the same, because the register still holds it. *)
Inductive line (N : nat) : list wire_item -> list rx -> Prop :=
| line_end n : line N (replicate n Idle) []
| line_byte n b e w l : (n < N)%nat -> Z.land e 0x0E = 0 -> line N w l ->
    line N (replicate n Idle ++ Data b e :: w) (RxByte b :: l)
| line_error n b e w l : (n < N)%nat -> Z.land e 0x0E <> 0 -> line N w l ->
    line N (replicate n Idle ++ Data b e :: w) (RxError :: RxByte b :: l)
| line_none w l : line N w l -> line N (replicate (S N) Idle ++ w) (RxNone :: l).

Lemma CpGetByte_end b c : ready c ->
  exists c', CpGetByte_loop 0 false b c = (CP_GET_NODATA, b, c') /\ ready c' /\ machine c' = polled (machine c).
Proof.
  intros Hc. cbn [CpGetByte_loop]. destruct (CpReadLsr_run 0 c Hc) as (c1 & -> & Hc1 & Hm & _). by exists c1.
Qed.

(** A line where nothing comes any more. *)
Lemma CpGetByte_silent n k b c :
  ready c -> wire (machine c) = replicate k Idle ->
  exists c' k', CpGetByte_loop n false b c = (CP_GET_NODATA, b, c') /\ ready c' /\
    wire (machine c') = replicate k' Idle /\ sent (machine c') = sent (machine c).
Proof.
  assert (forall u j, wire u = replicate j Idle -> wire (polled u) = replicate (pred j) Idle) as Hp.
  { intros u j Hj. rewrite polled_wire, Hj. by destruct j. }
  revert k c. induction n as [| n IH]; intros k c Hc Hw.
  - destruct (CpGetByte_end b c Hc) as (c' & -> & Hc' & Hm). exists c', (pred k). rewrite Hm, polled_sent. by auto.
  - cbn [CpGetByte_loop]. destruct (CpReadLsr_run SERIAL_LSR_DR c Hc) as (c1 & -> & Hc1 & Hm & _).
    assert (Z.land (line_status (machine c)) SERIAL_LSR_DR =? SERIAL_LSR_DR = false) as ->.
    { change SERIAL_LSR_DR with (2 ^ 0). apply Z.eqb_neq.
      pose proof (truthy_bit (line_status (machine c)) 0 ltac:(lia)) as Ht.
      rewrite line_status_idle in Ht by (rewrite Hw; by destruct k). apply Z.eqb_eq in Ht. rewrite Ht. done. }
    destruct (IH (pred k) c1 Hc1) as (c2 & k2 & -> & Hc2 & Hw2 & Hs2); [rewrite Hm; by apply Hp |].
    exists c2, k2. split; [done |]. split; [done |]. split; [done |]. by rewrite Hs2, Hm, polled_sent.
Qed.

(** One read of the port for any number of attempts. *)
Lemma receive_line N b0 c l :
  ready c -> (0 < N)%nat -> line N (wire (machine c)) l ->
  exists c' s b, CpGetByte_loop N false b0 c = (s, b, c') /\ ready c' /\
    let '(p, st, v) := KdPacket.KdpReceiveByte {| incoming := l; later := silence; outgoing := sent (machine c) |} in
    packet_status s = st /\ (st = KDP_PACKET_RECEIVED -> b = v) /\
    line N (wire (machine c')) (incoming p) /\ later p = silence /\ sent (machine c') = outgoing p.
Proof.
  intros Hc HN Hl. inversion Hl as [n Hw Hr | n b e w l' Hn He Hl' Hw Hr | n b e w l' Hn He Hl' Hw Hr | w l' Hl' Hw Hr]; subst l.
  - destruct (CpGetByte_silent N n b0 c Hc (eq_sym Hw)) as (c' & k' & -> & Hc' & Hw' & Hs').
    eexists _, _, _. split; [reflexivity |]. split; [done |]. cbn. split; [done |]. split; [done |].
    split; [rewrite Hw'; apply line_end | done].
  - destruct (CpGetByte_idle N n b0 c _ Hc (eq_sym Hw)) as (c1 & -> & Hc1 & Hw1 & Hs1); [lia |].
    destruct (CpGetByte_data (N - n - 1) b0 c1 b e w Hc1 Hw1) as (c2 & Hc2 & Hs2 & Hrun & Hw2).
    replace (N - n)%nat with (S (N - n - 1)) by lia. rewrite Hrun. rewrite !decide_True in * by done.
    eexists _, _, _. split; [reflexivity |]. split; [done |]. cbn. rewrite Hw2, Hs2, Hs1. by split_and!.
  - destruct (CpGetByte_idle N n b0 c _ Hc (eq_sym Hw)) as (c1 & -> & Hc1 & Hw1 & Hs1); [lia |].
    destruct (CpGetByte_data (N - n - 1) b0 c1 b e w Hc1 Hw1) as (c2 & Hc2 & Hs2 & Hrun & Hw2).
    replace (N - n)%nat with (S (N - n - 1)) by lia. rewrite Hrun. rewrite !decide_False in * by done.
    eexists _, _, _. split; [reflexivity |]. split; [done |]. cbn. rewrite Hw2, Hs2, Hs1.
    split; [done |]. split; [done |]. split; [| done]. by apply (line_byte N 0 b 0).
  - assert (wire (machine c) = replicate N Idle ++ (Idle :: w)) as Hw'.
    { rewrite <- Hw, (cons_middle Idle), (assoc_L (++)), <- replicate_cons_app. done. }
    destruct (CpGetByte_idle N N b0 c _ Hc Hw') as (c1 & -> & Hc1 & Hw1 & Hs1); [lia |]. rewrite Nat.sub_diag.
    destruct (CpGetByte_end b0 c1 Hc1) as (c2 & -> & Hc2 & Hm2).
    eexists _, _, _. split; [reflexivity |]. split; [done |]. cbn. rewrite Hm2, polled_wire, polled_sent, Hw1, Hs1. by split_and!.
Qed.

(** C12: over a UART that is set up, the port the packet protocol is proved on is what the port
    library gives.  A read takes at most 204801 polls and agrees with the read of that port: the
    next character of the line, no character when none comes in that many polls, or a line error,
    after which the refused character is still given; nothing is sent, and the line is left at
    what the port has left. *)
Theorem port_is_the_line b0 c l :
  ready c -> line (Z.to_nat TIMEOUT_COUNT) (wire (machine c)) l ->
  exists c' st b, KdpReceiveByte b0 c = (c', st, b) /\ ready c' /\
    let '(p, st', v) := KdPacket.KdpReceiveByte {| incoming := l; later := silence; outgoing := sent (machine c) |} in
    st = st' /\ (st = KDP_PACKET_RECEIVED -> b = v) /\
    line (Z.to_nat TIMEOUT_COUNT) (wire (machine c')) (incoming p) /\ later p = silence /\ sent (machine c') = outgoing p.
Proof.
  intros Hc Hl. unfold KdpReceiveByte, CpGetByte. rewrite (proj2 (Z.eqb_neq _ _) (rd_nonzero c Hc)).
  assert (0 < Z.to_nat TIMEOUT_COUNT)%nat as HN by (unfold TIMEOUT_COUNT; lia).
  revert Hl HN. generalize (Z.to_nat TIMEOUT_COUNT) as N. intros N Hl HN.
  destruct (receive_line N b0 c l Hc HN Hl) as (c' & s & b & -> & Hc' & H).
  exists c', (packet_status s), b. split; [done |]. split; [done |].
  destruct (KdPacket.KdpReceiveByte _) as [[p st'] v]. destruct H as (<- & H). by split.
Qed.

Definition demo_com : com ns16550 :=
  mkCom (mkPort 0x3F8 115200 0) 0 (mkNS 0x3F8 0 7 3 0x0B 0 0 1 0 [Idle; Data 0x30 0; Data 0x31 4; Idle] [0x69] [2%nat] false).

Lemma demo_line : line (Z.to_nat TIMEOUT_COUNT) (wire (machine demo_com)) [RxByte 0x30; RxError; RxByte 0x31].
Proof.
  assert (2 < Z.to_nat TIMEOUT_COUNT)%nat as HN by (unfold TIMEOUT_COUNT; lia).
  revert HN. generalize (Z.to_nat TIMEOUT_COUNT) as N. intros N HN.
  apply (line_byte N 1 0x30 0); [lia | done |]. apply (line_error N 0 0x31 4); [lia | done |]. apply (line_end N 1).
Qed.

Lemma port_is_the_line_witness :
  exists c', KdpReceiveByte 7 demo_com = (c', KDP_PACKET_RECEIVED, 0x30) /\ sent (machine c') = [0x69].
Proof.
  destruct (port_is_the_line 7 demo_com [RxByte 0x30; RxError; RxByte 0x31] ltac:(by split) demo_line)
    as (c' & st & b & Hr & _ & Hst & Hb & _ & _ & Hs).
  exists c'. rewrite Hr, Hst, (Hb Hst). split; [reflexivity | exact Hs].
Defined.

(** ** Sending *)

(** The characters of the line. *)
Definition data_of (w : list wire_item) : list (Z * Z) :=
  omap (fun i => match i with Idle => None | Data b e => Some (b, e) end) w.

Lemma line_status_thre u : Z.testbit (line_status u) 5 = match delays u with S _ :: _ => false | _ => true end.
Proof.
  unfold line_status. rewrite Z.lor_spec.
  assert (forall e, Z.testbit (Z.lor 1 (Z.land e 0x1E)) 5 = false) as He.
  { intros e. rewrite Z.lor_spec, Z.land_spec. change (Z.testbit 0x1E 5) with false. by rewrite andb_false_r. }
  destruct (wire u) as [| [] w]; rewrite ?He; by destruct (delays u) as [| [] l].
Qed.

(** The first delay has run out after that many polls. *)
Definition wait (u : ns16550) : nat := match delays u with n :: _ => n | [] => 0%nat end.

Lemma polled_data u : (data_of (wire (polled u))).*1 = (data_of (wire u)).*1.
Proof. rewrite polled_wire. by destruct (wire u) as [| [] w]. Qed.

Lemma CpPutByte_run n b c :
  ready c -> (wait (machine c) < n)%nat ->
  exists c', CpPutByte n b c = Ret c' /\ ready c' /\ sent (machine c') = sent (machine c) ++ [b] /\
    delays (machine c') = tail (delays (machine c)) /\
    (data_of (wire (machine c'))).*1 = (data_of (wire (machine c))).*1.
Proof.
  revert c. induction n as [| n IH]; intros c Hc Hn; [lia |]. cbn [CpPutByte].
  destruct (CpReadLsr_run SERIAL_LSR_THRE c Hc) as (c1 & -> & Hc1 & Hm & _).
  change SERIAL_LSR_THRE with (2 ^ 5). rewrite truthy_bit, line_status_thre by lia.
  assert (delays (machine c1) = match delays (machine c) with S k :: l => k :: l | l => l end) as Hd1 by (rewrite Hm; apply polled_regs).
  unfold wait in *. destruct (delays (machine c)) as [| [| k] l] eqn:Hd; cbn [negb].
  1, 2: unfold TRANSMIT_HOLDING_REGISTER; rewrite outb_reg by (symmetry; apply Hc1);
    cbn [write_reg]; rewrite (rd_dlab _ Hc1), Hd1; eexists; split; [reflexivity |];
    cbn [with_machine machine Port sent delays wire tail]; (split; [by destruct Hc1 |]);
    rewrite Hm, ?polled_sent; (split; [done |]); (split; [done |]); apply polled_data.
  destruct (IH c1 Hc1) as (c2 & -> & Hc2 & Hs2 & Hd2 & Hw2); [rewrite Hd1; lia |].
  exists c2. split; [done |]. split; [done |].
  rewrite Hs2, Hd2, Hw2, Hd1, Hm, polled_sent. split; [done |]. split; [done |]. apply polled_data.
Qed.

(** Fact: sending a buffer puts exactly its bytes on the line, in order and behind what was sent
    before, as the port of the packet protocol does, provided the transmitter becomes empty
    within [n] polls for each byte; no character that came meanwhile is lost. *)
Theorem buffer_is_sent n Buffer c :
  ready c -> Forall (fun d => (d < n)%nat) (delays (machine c)) -> (0 < n)%nat ->
  exists c', KdpSendBuffer n Buffer c = Ret c' /\ ready c' /\
    sent (machine c') = outgoing (KdPacket.KdpSendBuffer {| incoming := []; later := silence; outgoing := sent (machine c) |} Buffer) /\
    (data_of (wire (machine c'))).*1 = (data_of (wire (machine c))).*1.
Proof.
  intros Hc Hd Hn. cbn [KdPacket.KdpSendBuffer outgoing]. revert c Hc Hd.
  induction Buffer as [| b Buffer IH]; intros c Hc Hd; cbn [KdpSendBuffer].
  - exists c. by rewrite app_nil_r.
  - destruct (CpPutByte_run n b c Hc) as (c1 & Hr & Hc1 & Hs1 & Hd1 & Hw1).
    { unfold wait. destruct Hd; done. }
    unfold KdpSendByte. rewrite Hr. cbn [mbind outcome_bind].
    destruct (IH c1 Hc1) as (c2 & -> & Hc2 & Hs2 & Hw2); [rewrite Hd1; by destruct Hd |].
    exists c2. split; [done |]. split; [done |]. rewrite Hs2, Hs1, Hw2, Hw1, <- (assoc_L (++)). done.
Qed.

Lemma buffer_is_sent_witness :
  exists c', KdpSendBuffer 3 [0x62; 0xAA] demo_com = Ret c' /\ sent (machine c') = [0x69; 0x62; 0xAA].
Proof.
  destruct (buffer_is_sent 3 [0x62; 0xAA] demo_com ltac:(by split)) as (c' & Hr & _ & Hs & _);
    [repeat constructor | lia |].
  exists c'. split; [exact Hr | exact Hs].
Defined.

(** ** The kernel's driver *)

(** [Initialize] enables the receiver's interrupts and queues, which it empties, and marks the
    terminal ready. *)
Theorem UartDriver_Initialize_run d u :
  m_port d = u_base u -> dlab u = false ->
  Initialize d u = mkNS (u_base u) 1 0xC7 (u_lcr u) 0x0B (u_msr u) (u_scr u) (u_dll u) (u_dlm u)
                     (drop_data (wire u)) (sent u) (delays u) false.
Proof.
  intros Hp Hd. destruct u as [a ier fcr lcr mcr msr scr dll dlm w t l cti]. unfold dlab in *. cbn [u_base u_lcr] in *.
  unfold Initialize, WriteReg, INTERRUPT_ENABLE_REGISTER, FIFO_CONTROL_REGISTER, MODEM_CONTROL_REGISTER. rewrite Hp.
  cbv zeta. change (Z.shiftl 3 6 + 1 + 2 + 4) with 0xC7.
  rewrite (outb_reg a 1 0) by done. cbn [write_reg]. unfold dlab at 1. cbn [u_lcr]. rewrite Hd.
  rewrite (outb_reg a 2) by done. cbn [write_reg u_base u_ier u_fcr u_lcr u_mcr u_msr u_scr u_dll u_dlm wire sent delays stale with_stale].
  change (Z.testbit 0xC7 1) with true. cbn match.
  rewrite (outb_reg a 4) by done. cbn [write_reg u_base u_ier u_fcr u_lcr u_mcr u_msr u_scr u_dll u_dlm wire sent delays stale with_stale].
  rewrite (outb_reg a 1) by done. cbn [write_reg]. unfold dlab. cbn [u_base u_ier u_fcr u_lcr u_mcr u_msr u_scr u_dll u_dlm wire sent delays stale with_stale].
  rewrite Hd. cbn [negb]. rewrite andb_false_r. reflexivity.
Qed.

(** The line gives [bytes] at once and then a pause. *)
Definition burst (bytes : list (Z * Z)) (w : list wire_item) : list wire_item :=
  ((fun d => Data d.1 d.2) <$> bytes) ++ w.

Definition pauses (w : list wire_item) : Prop := match w with Data _ _ :: _ => False | _ => True end.

#[global] Instance pauses_dec w : Decision (pauses w).
Proof. destruct w as [| [] w]; cbn; apply _. Defined.

(** What a poll that finds nothing leaves of the line. *)
Definition after (w : list wire_item) : list wire_item := match w with Idle :: w => w | w => w end.

Lemma status_burst u bytes w : wire u = burst bytes w -> pauses w ->
  Z.testbit (line_status u) 0 = match bytes with [] => false | _ => true end.
Proof.
  intros Hw Hp. destruct bytes as [| [b e] bytes].
  - apply line_status_idle. by rewrite Hw.
  - by apply (line_status_data u b e (burst bytes w)).
Qed.

(** The loop takes every character that is there. *)
Lemma drain_run bytes : forall b e fuel u d q w st,
  m_port d = u_base u -> dlab u = false -> pauses w -> (length bytes < fuel)%nat ->
  wire u = burst ((b, e) :: bytes) w -> holds (m_rxBuffer d) q -> Z.testbit st 0 = true ->
  Z.of_nat (length q + S (length bytes)) <= Size (m_rxBuffer d) ->
  exists d' u', drain fuel st d u = Ret (d', u') /\ holds (m_rxBuffer d') (q ++ b :: bytes.*1) /\
    Size (m_rxBuffer d') = Size (m_rxBuffer d) /\ m_port d' = m_port d /\ wire u' = after w /\
    u_base u' = u_base u /\ u_ier u' = u_ier u /\ u_fcr u' = u_fcr u /\ dlab u' = false /\ stale u' = false.
Proof.
  induction bytes as [| [b2 e2] bytes IH]; intros b e fuel u d q w st Hp Hd Hw Hf Hu Hq Hst Hs;
    (destruct fuel as [| fuel]; [cbn in Hf; lia |]); cbn [drain length] in *; rewrite Hst; cbn [negb].
  all: assert (IsFull (m_rxBuffer d) = false) as ->
         by (unfold IsFull; apply Z.eqb_neq; destruct Hq as (_ & -> & _); lia).
  all: cbn [negb Assert mbind outcome_bind]; unfold ReadReg, RECEIVE_BUFFER_REGISTER.
  all: rewrite inb_reg by done; cbn [read_reg]; rewrite Hd, Hu; cbn [burst fmap list_fmap app fst snd].
  all: pose proof (Write_holds (m_rxBuffer d) q b Hq) as Hwr; rewrite decide_False in Hwr by lia;
    destruct Hwr as (r' & -> & Hr' & Hsz); cbn [mbind outcome_bind].
  all: unfold LINE_STATUS_REGISTER; rewrite inb_reg by done; cbn [read_reg].
  all: match goal with |- context [polled ?x] =>
         destruct (polled_regs x) as (E1 & E2 & E3 & E4 & _); pose proof (polled_wire x) as E5; pose proof (polled_stale x) as E6;
         set (u1 := polled x) in * end.
  all: cbn [with_stale with_wire wire u_base u_ier u_fcr stale] in E1, E2, E3, E4, E5, E6;
    change (dlab (with_stale false _)) with (dlab u) in E4; rewrite Hd in E4.
  - assert (stale u1 = false) as Hst1 by (rewrite E6; by destruct w as [| []]).
    destruct fuel; cbn [drain]; rewrite (status_burst _ [] w) by done; cbn [negb];
      (eexists _, _; split; [reflexivity |]; cbn [m_rxBuffer m_port]; split; [exact Hr' |]; split_and!; try done;
       rewrite E5; by destruct w as [| [] w']).
  - edestruct (IH b2 0 fuel) as (d' & u' & -> & H1 & H2 & H3 & H4 & H5 & H6 & H7 & H8 & H9).
    6: exact Hr'. 1: rewrite E1; exact Hp. 1: exact E4. 1: exact Hw. 1: lia. 1: exact E5.
    { by rewrite (status_burst _ ((b2, e2) :: bytes) w). }
    { cbn [m_rxBuffer]. rewrite length_app, Hsz. cbn [length]. lia. }
    eexists _, _. split; [reflexivity |]. rewrite <- (assoc_L (++)) in H1.
    split; [exact H1 |]. split; [by rewrite H2 |]. rewrite H5, H6, H7. by split_and!.
Qed.

(** The buffered characters are taken in order. *)
Lemma Read_loop_run n : forall r q, holds r q -> (n <= length q)%nat ->
  exists r', Read_loop n r = Ret (take n q, r') /\ holds r' (drop n q).
Proof.
  induction n as [| n IH]; intros r q Hr Hn; cbn [Read_loop]; [by exists r |].
  destruct q as [| x q]; [cbn in Hn; lia |]. destruct (Read_holds r (x :: q) Hr) as (r' & -> & Hr' & _).
  cbn [mbind outcome_bind]. destruct (IH r' q Hr') as (r2 & -> & Hr2); [cbn in Hn; lia |]. by exists r2.
Qed.

Lemma level_burst bytes w : pauses w -> level (burst bytes w) = Z.of_nat (length bytes).
Proof.
  intros Hp. induction bytes as [| [b e] bytes IH]; cbn [burst fmap list_fmap app level length fst snd] in *; [by destruct w as [| []] |].
  unfold burst in IH. rewrite IH. lia.
Qed.

Lemma level_nonneg w : 0 <= level w.
Proof. induction w as [| [] w IH]; cbn [level]; lia. Qed.

(** The lowest bit of the interrupt identification. *)
Lemma ident_bit (f i j : bool) : Z.testbit ((if f then 0xC0 else 0) + (if i then 0x04 else if j then 0x0C else 1)) 0 = negb (i || j).
Proof. by destruct f, i, j. Qed.

(** An interrupt that finds the line quiet after the characters that came. *)
Lemma OnInterrupt_run fuel d u q bytes w :
  m_port d = u_base u -> dlab u = false -> Z.testbit (u_ier u) 0 = true -> bytes <> [] ->
  wire u = burst bytes w -> pauses w -> (length bytes <= fuel)%nat ->
  holds (m_rxBuffer d) q -> Z.of_nat (length q + length bytes) <= Size (m_rxBuffer d) ->
  exists d' u', holds (m_rxBuffer d') (q ++ bytes.*1) /\ m_port d' = m_port d /\ wire u' = after w /\ u_base u' = u_base u /\
    OnInterrupt fuel d u = if received u || timed_out u then if level (after w) <? trigger u then Ret (d', u') else Bugcheck else Bugcheck.
Proof.
  intros Hp Hd Hi Hne Hu Hw Hf Hq Hs. destruct bytes as [| [b e] bytes]; [done |].
  unfold OnInterrupt, ReadReg, INTERRUPT_IDENT_REGISTER. rewrite inb_reg by done. cbn [read_reg].
  rewrite ident_bit, negb_involutive. unfold LINE_STATUS_REGISTER.
  edestruct (drain_run bytes b 0 fuel (polled u) d q w (line_status u))
    as (d' & u' & Hrun & H1 & H2 & H3 & H4 & H5 & H6 & H7 & H8 & H9); try done.
  { unfold polled. by destruct (wire u) as [| []]. }
  { unfold polled. by destruct (wire u) as [| []]. }
  { unfold polled. rewrite Hu. reflexivity. }
  { by rewrite (status_burst _ ((b, e) :: bytes) w). }
  assert (u_base (polled u) = u_base u /\ u_ier (polled u) = u_ier u /\ u_fcr (polled u) = u_fcr u) as (Hb1 & Hb2 & Hb3)
    by (unfold polled; by destruct (wire u) as [| []]).
  exists d', u'. split; [exact H1 |]. split; [done |]. split; [done |]. split; [by rewrite H5 |].
  destruct (received u || timed_out u); [| done].
  cbn [Assert mbind outcome_bind]. rewrite inb_reg by done. cbn [read_reg]. rewrite Hrun.
  cbn [mbind outcome_bind]. rewrite inb_reg by (rewrite H5, H3, Hb1; done). cbn [read_reg].
  rewrite ident_bit. unfold received, timed_out. rewrite H9, andb_false_r, andb_false_l, orb_false_r, H6, Hb2, Hi, H4. cbn [andb].
  replace (trigger u') with (trigger u) by (unfold trigger, fifo_on; by rewrite H7, Hb3).
  rewrite Z.leb_antisym, negb_involutive. by destruct (_ <? _).
Qed.

(** C15: characters that come to the kernel's driver in a burst are all kept and given to the
    reader in order.  The receiver's interrupt is on, and is raised by as many characters as the queue
    control's upper bits say (14 as the driver programs it) or by fewer that have waited.  An
    interrupt with room in the buffer moves the characters that wait behind those the buffer
    holds; a read of up to that many then takes the oldest, and a read of
    more takes none.  Characters that come between the last poll of the loop and the
    closing look at the interrupt's status stay on the line, unless there are enough of them to
    raise the interrupt again: then the handler's closing assertion stops the kernel, as its
    opening one does when it is called with no interrupt of the receiver raised. *)
Theorem characters_are_kept fuel d u q bytes w n :
  m_port d = u_base u -> dlab u = false -> Z.testbit (u_ier u) 0 = true -> bytes <> [] ->
  wire u = burst bytes w -> pauses w -> (length bytes <= fuel)%nat ->
  holds (m_rxBuffer d) q -> Z.of_nat (length q + length bytes) <= Size (m_rxBuffer d) -> 0 <= n ->
  let raised := (trigger u <=? Z.of_nat (length bytes)) || (Z.testbit (u_fcr u) 0 && stale u) in
  if decide (raised = true /\ level (after w) < trigger u) then
    exists d' u', OnInterrupt fuel d u = Ret (d', u') /\ wire u' = after w /\
      let all := q ++ bytes.*1 in
      exists d2, UartRead n d' = Ret (if n <=? Z.of_nat (length all) then Some (take (Z.to_nat n) all) else None, d2) /\
        holds (m_rxBuffer d2) (if n <=? Z.of_nat (length all) then drop (Z.to_nat n) all else all)
  else OnInterrupt fuel d u = Bugcheck.
Proof.
  intros Hp Hd Hi Hne Hu Hw Hf Hq Hs Hn raised.
  destruct (OnInterrupt_run fuel d u q bytes w) as (d' & u' & Hr & Hp' & Hw' & _ & Hrun); try done.
  assert (received u || timed_out u = raised) as Hraise.
  { unfold received, timed_out, raised. rewrite Hi, Hu, level_burst by done. cbn [andb]. unfold fifo_on.
    replace (0 <? Z.of_nat (length bytes)) with true by (destruct bytes; done). by rewrite andb_true_r. }
  rewrite Hrun, Hraise. case_decide as Hc; [destruct Hc as [-> Hc] |].
  2: { destruct raised; [| done]. destruct (Z.ltb_spec (level (after w)) (trigger u)); [| done]. by destruct Hc. }
  rewrite (proj2 (Z.ltb_lt _ _) Hc). exists d', u'. split; [done |]. split; [done |]. cbv zeta.
  unfold UartRead. destruct Hr as (Hr1 & Hcount & Hr2). rewrite Hcount.
  destruct (Z.ltb_spec (Z.of_nat (length (q ++ bytes.*1))) n), (Z.leb_spec n (Z.of_nat (length (q ++ bytes.*1)))); try lia.
  - exists d'. split; [done |]. by split.
  - destruct (Read_loop_run (Z.to_nat n) (m_rxBuffer d') (q ++ bytes.*1)) as (r' & -> & Hr'); [by split | lia |].
    cbn [mbind outcome_bind]. by eexists.
Qed.

Definition demo_uart : ns16550 := mkNS 0x2F8 1 0xC7 3 0x0B 0 0 1 0 [Data 72 0; Data 105 2; Idle; Data 33 0] [] [] true.

Lemma characters_are_kept_witness :
  exists d' u' d2, OnInterrupt 2 (new_UartDriver 0x2F8) demo_uart = Ret (d', u') /\ wire u' = [Data 33 0] /\
    UartRead 2 d' = Ret (Some [72; 105], d2).
Proof.
  destruct (characters_are_kept 2 (new_UartDriver 0x2F8) demo_uart [] [(72, 0); (105, 2)] [Idle; Data 33 0] 2)
    as (d' & u' & Hr & Hw & d2 & Hd & _); try done.
  - apply holds_new; lia.
  - exists d', u', d2. split; [exact Hr |]. split; [exact Hw | exact Hd].
Defined.
