(* ===== verification/EfiLoader.v ===== *)
(** EfiLoader: the boot loader's mapping of the kernel image (src/src/Boot/EfiLoader.cpp, Error.h,
    and the memory map's size from src/src/Boot/main.cpp).

    The firmware is a parameter: [EfiServices] are the calls the loader makes of it, each with the
    status it returns, and [EfiServicesOk] what the UEFI specification promises of those on an
    open file.  A program of the loader threads the firmware's state and the memory, which the
    firmware maps one to one, and returns a status when a call fails. *)
From S2P Require Import Prelude OSSystem CMemory CrtString CrtNumeric PortableExecutable RamDrive VAS.

(** ** The firmware *)

Definition EFI_SUCCESS : Z := 0.
Definition EFIERR (a : Z) : Z := Z.lor 0x8000000000000000 a.
Definition EFI_UNSUPPORTED : Z := EFIERR 3.
Definition EFI_BUFFER_TOO_SMALL : Z := EFIERR 5.
Definition EFI_NOT_FOUND : Z := EFIERR 14.
Definition EFI_ERROR (status : Z) : bool := s64 status <? 0.

(** The calls on the open file and the allocations: status, what they give, and the state. *)
Class EfiServices (S : Type) := {
  efi_Read : Z -> S -> Z * list Z * S;
  efi_SetPosition : Z -> S -> Z * S;
  efi_GetInfo : S -> Z * Z * S;
  efi_FileInfo : Z -> S -> Z * Z * S;
  efi_AllocatePages : Z -> S -> Z * Z * S;
  efi_AllocatePool : Z -> S -> Z * Z * S }.

(** What an open file does: it has contents and a position. *)
Class EfiServicesOk (S : Type) `{EfiServices S} := {
  file_bytes : S -> list Z;
  file_position : S -> nat;
  Read_ok n s : 0 <= n -> (file_position s <= length (file_bytes s))%nat ->
    exists s', efi_Read n s = (EFI_SUCCESS, take (Z.to_nat n) (drop (file_position s) (file_bytes s)), s') /\
      file_bytes s' = file_bytes s;
  SetPosition_ok p s : 0 <= p <= Z.of_nat (length (file_bytes s)) ->
    exists s', efi_SetPosition p s = (EFI_SUCCESS, s') /\ file_bytes s' = file_bytes s /\
      file_position s' = Z.to_nat p;
  AllocatePages_keeps n s : file_bytes (efi_AllocatePages n s).2 = file_bytes s }.

(** ** Programs of the loader *)

Inductive result (A : Type) := Ok (a : A) | Err (status : Z).
Arguments Ok {A} a.
Arguments Err {A} status.

Section Program.
Context {S : Type}.

Definition efi (A : Type) : Type := S * mem -> outcome (result A * (S * mem)).

#[global] Instance efi_ret : MRet efi := fun A a w => Ret (Ok a, w).
#[global] Instance efi_bind : MBind efi := fun A B f p w =>
  '(r, w) ← p w; match r with Ok a => f a w | Err status => Ret (Err status, w) end.

Definition throw {A} (status : Z) : efi A := fun w => Ret (Err status, w).

(** [ReturnIfNotSuccess] of a status. *)
Definition ReturnIfNotSuccess (status : Z) : efi unit :=
  if EFI_ERROR status then throw status else mret ().

(** A call of the firmware under [ReturnIfNotSuccess]. *)
Definition call {A} (f : S -> Z * A * S) : efi A := fun w =>
  let '(status, a, s) := f w.1 in
  if EFI_ERROR status then Ret (Err status, (s, w.2)) else Ret (Ok a, (s, w.2)).

(** Reading and changing memory, and the assertions. *)
Definition peek {A} (f : mem -> outcome A) : efi A := fun w => a ← f w.2; Ret (Ok a, w).
Definition poke (f : mem -> outcome mem) : efi unit := fun w => m ← f w.2; Ret (Ok (), (w.1, m)).
Definition lift {A} (o : outcome A) : efi A := fun w => a ← o; Ret (Ok a, w).
End Program.

(** ** The loader *)

Definition IMAGE_FILE_MACHINE_AMD64 : Z := 0x8664.
Definition IMAGE_NT_OPTIONAL_HDR64_MAGIC : Z := 0x20b.
Definition IMAGE_SUBSYSTEM_NATIVE : Z := 1.
Definition IMAGE_DIRECTORY_ENTRY_IMPORT : Z := 1.
Definition IMAGE_DIRECTORY_ENTRY_BASERELOC : Z := 5.
Definition IMAGE_REL_BASED_ABSOLUTE : Z := 0.
Definition IMAGE_REL_BASED_HIGHLOW : Z := 3.
Definition IMAGE_REL_BASED_DIR64 : Z := 10.
Definition sizeof_IMAGE_DOS_HEADER : Z := 64.
Definition sizeof_IMAGE_NT_HEADERS64 : Z := 264.
Definition sizeof_IMAGE_BASE_RELOCATION : Z := 8.

(** A field of a structure held as its bytes: [n] bytes at [off]. *)
Definition word (off n : nat) (l : list Z) : Z := le_of (take n (drop off l)).

Section Loader.
Context {S : Type} `{EfiServices S}.
Abbreviation prog := (efi (S := S)).

Definition SetPosition (p : Z) : prog unit :=
  call (fun s => let '(status, s) := efi_SetPosition p s in (status, (), s)).

(** Reading into a local structure: what the file does not give stays as it was. *)
Definition read_local (garbage : list Z) : prog (list Z) :=
  l ← call (efi_Read (Z.of_nat (length garbage))); mret (list_inserts 0 l garbage).

(** Reading into memory. *)
Definition read_memory (size address : Z) : prog unit :=
  l ← call (efi_Read size); poke (fun m => store_bytes m address l).

(** [MapFile]: the address and the size. *)
Definition MapFile : prog (Z * Z) :=
  fun w =>
    let '(status, infoSize, s) := efi_GetInfo w.1 in
    (_ ← (if status =? EFI_BUFFER_TOO_SMALL then mret () else ReturnIfNotSuccess status);
     _ ← call (efi_AllocatePool infoSize);
     sizeOut ← call (efi_FileInfo infoSize);
     addressOut ← call (efi_AllocatePages (SizeToPages sizeOut));
     l ← call (efi_Read sizeOut);
     _ ← poke (fun m => store_bytes m addressOut l);
     mret (addressOut, Z.of_nat (length l))) (s, w.2).

(** The loop over the sections: [i] is a 16-bit index; the headers are read from memory in
    every turn. *)
Fixpoint load_sections (fuel : nat) (base nt section i : Z) : prog unit :=
  match fuel with
  | O => lift Diverged
  | Datatypes.S fuel =>
    n ← peek (fun m => NumberOfSections m nt);
    if i <? n then
      let header := section + i * sizeof_IMAGE_SECTION_HEADER in
      va ← peek (fun m => VirtualAddress m header);
      rawSize ← peek (fun m => load_le 4 m (header + 16));
      _ ← (if negb (rawSize =? 0) then
             pointer ← peek (fun m => load_le 4 m (header + 20));
             _ ← SetPosition pointer;
             read_memory rawSize (u64 (base + va))
           else mret ());
      load_sections fuel base nt section (u16 (i + 1))
    else mret ()
  end.

(** One relocation: [data] is the entry, [location] the address of the page it is in. *)
Definition relocate_entry (location data delta : Z) (m : mem) : outcome mem :=
  let type := Z.shiftr data 12 in
  let offset := Z.land data 0x0FFF in
  if type =? IMAGE_REL_BASED_HIGHLOW then
    v ← load_le 4 m (u64 (location + offset)); store_le 4 m (u64 (location + offset)) (u32 (v + u32 delta))
  else if type =? IMAGE_REL_BASED_DIR64 then
    v ← load_le 8 m (u64 (location + offset)); store_le 8 m (u64 (location + offset)) (u64 (v + delta))
  else Ret m.

(** The entries of a block; its size is read in every turn. *)
Fixpoint relocate_block (fuel : nat) (block location i delta : Z) (m : mem) : outcome mem :=
  match fuel with
  | O => Diverged
  | Datatypes.S fuel =>
    size ← load_le 4 m (block + 4);
    if i <? u64 (size - sizeof_IMAGE_BASE_RELOCATION) / 2 then
      data ← load16 m (block + sizeof_IMAGE_BASE_RELOCATION + 2 * i);
      m ← relocate_entry location data delta m;
      relocate_block fuel block location (u32 (i + 1)) delta m
    else Ret m
  end.

(** The blocks, up to one without an address. *)
Fixpoint relocate_blocks (fuel : nat) (base block delta : Z) (m : mem) : outcome mem :=
  match fuel with
  | O => Diverged
  | Datatypes.S fuel =>
    va ← load_le 4 m block;
    if va =? 0 then Ret m
    else
      m ← relocate_block fuel block (u64 (base + va)) 0 delta m;
      size ← load_le 4 m (block + 4);
      relocate_blocks fuel base (u64 (block + size)) delta m
  end.

(** The optional header's fields. *)
Definition ImageBase (m : mem) (nt : Z) : outcome Z := load_le 8 m (nt + 24 + 24).

(** The end of [MapKernel]: the image has to be linked for its address, is relocated by the
    difference to what its file says ([fileBase]), and gives its size and entry point. *)
Definition finish_image (fuel : nat) (base nt fileBase : Z) : prog (Z * Z * Z) :=
  image ← peek (fun m => ImageBase m nt);
  _ ← lift (Assert (image =? VAS.Layout.KernelBaseAddress));
  _ ← poke (fun m => store_le 8 m (nt + 24 + 24) VAS.Layout.KernelBaseAddress);
  directory ← peek (fun m => DataDirectory m nt IMAGE_DIRECTORY_ENTRY_BASERELOC);
  _ ← (if negb (directory.2 =? 0) then
         image ← peek (fun m => ImageBase m nt);
         poke (relocate_blocks fuel base (u64 (base + directory.1)) (u64 (image - fileBase)))
       else mret ());
  size ← peek (fun m => SizeOfImage m nt);
  image ← peek (fun m => ImageBase m nt);
  entry ← peek (fun m => AddressOfEntryPoint m nt);
  mret (size, u64 (image + entry), base).

(** [MapKernel]: the image's size, its entry point and its physical address.  [dos_garbage] and
    [nt_garbage] are what the local headers hold before they are read. *)
Definition MapKernel (fuel : nat) (dos_garbage nt_garbage : list Z) : prog (Z * Z * Z) :=
  dosHeader ← read_local dos_garbage;
  _ ← ReturnIfNotSuccess (Z.b2z (word 0 2 dosHeader =? IMAGE_DOS_SIGNATURE));
  let e_lfanew := s32 (word 60 4 dosHeader) in
  _ ← SetPosition (u64 e_lfanew);
  peHeader ← read_local nt_garbage;
  if negb (word 0 4 peHeader =? IMAGE_NT_SIGNATURE) ||
     negb (word 4 2 peHeader =? IMAGE_FILE_MACHINE_AMD64) ||
     negb (word 24 2 peHeader =? IMAGE_NT_OPTIONAL_HDR64_MAGIC) ||
     negb (word 92 2 peHeader =? IMAGE_SUBSYSTEM_NATIVE) then throw EFI_UNSUPPORTED
  else if negb (word 148 4 peHeader =? 0) then throw EFI_UNSUPPORTED
  else
    base ← call (efi_AllocatePages (SizeToPages (word 80 4 peHeader)));
    _ ← SetPosition 0;
    _ ← read_memory (word 84 4 peHeader) base;
    let nt := u64 (base + e_lfanew) in
    section ← peek (fun m => IMAGE_FIRST_SECTION m nt);
    _ ← load_sections (Z.to_nat 65536) base nt section 0;
    finish_image fuel base nt (word 48 8 peHeader).

End Loader.

(** ** The C runtime's initialisers *)

Definition crt_name : list Z := [46; 67; 82; 84].

(** The section of a name, or [None]. *)
Fixpoint find_section (n : nat) (m : mem) (section : Z) (name : list Z) : outcome (option Z) :=
  match n with
  | O => Ret None
  | S n =>
    s ← read_cstr m section;
    if bool_decide (s = name) then Ret (Some section)
    else find_section n m (section + sizeof_IMAGE_SECTION_HEADER) name
  end.

(** The calls; [run f m] is what the function at [f] makes of memory. *)
Fixpoint run_initializers (fuel : nat) (run : Z -> mem -> outcome mem) (a : Z) (m : mem) : outcome (list Z * mem) :=
  match fuel with
  | O => Diverged
  | S fuel =>
    f ← load_le 8 m a;
    if f =? 0 then Ret ([], m)
    else m ← run f m; '(l, m) ← run_initializers fuel run (a + 8) m; Ret (f :: l, m)
  end.

(** [CrtInitialization]: the status, the functions called and memory. *)
Definition CrtInitialization (fuel : nat) (run : Z -> mem -> outcome mem) (imageBase : Z) (m : mem)
    : outcome (Z * list Z * mem) :=
  e_lfanew ← load_le 4 m (imageBase + 60);
  let nt := u64 (imageBase + s32 e_lfanew) in
  section ← IMAGE_FIRST_SECTION m nt;
  n ← NumberOfSections m nt;
  crt ← find_section (Z.to_nat n) m section crt_name;
  match crt with
  | None => Ret (EFI_NOT_FOUND, [], m)
  | Some section =>
    va ← VirtualAddress m section;
    '(l, m) ← run_initializers fuel run (u64 (imageBase + va)) m;
    Ret (EFI_SUCCESS, l, m)
  end.

(** ** Images *)

(** A section: where it goes in the image, how long it is and where it is in the file. *)
Definition section : Type := Z * Z * Z.
Definition s_address (x : section) : Z := x.1.1.
Definition s_size (x : section) : Z := x.1.2.
Definition s_pointer (x : section) : Z := x.2.

Definition section_bytes (c : list Z) (x : section) : list Z :=
  take (Z.to_nat (s_size x)) (drop (Z.to_nat (s_pointer x)) c).

(** The contents [c] of a file are a kernel image: headers of [hsize] bytes with the NT headers at
    [lf], and sections that lie behind the headers, inside the image and apart from each other. *)
Record pe_file (c : list Z) (lf hsize isize opt entry : Z) (secs : list section) : Prop := {
  pf_bytes : Forall is_byte c;
  pf_length : 64 <= Z.of_nat (length c) /\ 0 <= lf /\ lf + 264 <= hsize <= Z.of_nat (length c) /\ hsize <= isize < 2 ^ 32;
  pf_lfanew : s32 (word 60 4 c) = lf;
  pf_signature : word (Z.to_nat lf) 4 c = IMAGE_NT_SIGNATURE;
  pf_machine : word (Z.to_nat (lf + 4)) 2 c = IMAGE_FILE_MACHINE_AMD64;
  pf_count : word (Z.to_nat (lf + 6)) 2 c = Z.of_nat (length secs);
  pf_opt : word (Z.to_nat (lf + 20)) 2 c = opt;
  pf_magic : word (Z.to_nat (lf + 24)) 2 c = IMAGE_NT_OPTIONAL_HDR64_MAGIC;
  pf_entry : word (Z.to_nat (lf + 40)) 4 c = entry;
  pf_base : word (Z.to_nat (lf + 48)) 8 c = VAS.Layout.KernelBaseAddress;
  pf_isize : word (Z.to_nat (lf + 80)) 4 c = isize;
  pf_hsize : word (Z.to_nat (lf + 84)) 4 c = hsize;
  pf_subsystem : word (Z.to_nat (lf + 92)) 2 c = IMAGE_SUBSYSTEM_NATIVE;
  pf_imports : word (Z.to_nat (lf + 148)) 4 c = 0;
  pf_table : 0 <= opt /\ lf + 24 + opt + 40 * Z.of_nat (length secs) <= hsize;
  pf_sections i x : secs !! i = Some x ->
    word (Z.to_nat (lf + 24 + opt + 40 * Z.of_nat i + 12)) 4 c = s_address x /\
    word (Z.to_nat (lf + 24 + opt + 40 * Z.of_nat i + 16)) 4 c = s_size x /\
    word (Z.to_nat (lf + 24 + opt + 40 * Z.of_nat i + 20)) 4 c = s_pointer x;
  pf_inside x : x ∈ secs -> 0 <= s_size x /\ (s_size x <> 0 ->
    hsize <= s_address x /\ s_address x + s_size x <= isize /\
    0 <= s_pointer x /\ s_pointer x + s_size x <= Z.of_nat (length c));
  pf_apart i j x y : secs !! i = Some x -> secs !! j = Some y -> i <> j -> s_size x <> 0 -> s_size y <> 0 ->
    s_address x + s_size x <= s_address y \/ s_address y + s_size y <= s_address x }.

(** The image of a file in memory at [base]: the headers and the sections, each at its place. *)
Record image_at (m : mem) (base : Z) (c : list Z) (hsize : Z) (secs : list section) : Prop := {
  im_headers : bytes_at m base (take (Z.to_nat hsize) c);
  im_sections x : x ∈ secs -> bytes_at m (base + s_address x) (section_bytes c x) }.

(** ** Programs, step by step *)

Section Steps.
Context {S : Type} `{EfiServicesOk S}.
Abbreviation prog := (efi (S := S)).

Lemma list_inserts_full (l g : list Z) : length l = length g -> list_inserts 0 l g = l.
Proof.
  intros Hl. apply list_eq. intros i. destruct (decide (i < length l)%nat).
  - rewrite list_lookup_inserts by lia. by rewrite Nat.sub_0_r.
  - rewrite !lookup_ge_None_2; [done | lia | rewrite length_inserts; lia].
Qed.

Lemma efi_bind_run {A B} (p : prog A) (g : A -> prog B) w w' a :
  p w = Ret (Ok a, w') -> (p ≫= g) w = g a w'.
Proof. intros Hp. unfold mbind, efi_bind. by rewrite Hp. Qed.

Lemma EFI_SUCCESS_ok : EFI_ERROR EFI_SUCCESS = false.
Proof. done. Qed.

Lemma peek_run {A} (f : mem -> outcome A) (w : S * mem) a : f w.2 = Ret a -> peek f w = Ret (Ok a, w).
Proof. intros Hf. unfold peek. by rewrite Hf. Qed.

Lemma poke_run (f : mem -> outcome mem) (w : S * mem) m : f w.2 = Ret m -> poke f w = Ret (Ok (), (w.1, m)).
Proof. intros Hf. unfold poke. by rewrite Hf. Qed.

Lemma SetPosition_run p s m : 0 <= p <= Z.of_nat (length (file_bytes s)) ->
  exists s', SetPosition p (s, m) = Ret (Ok (), (s', m)) /\ file_bytes s' = file_bytes s /\ file_position s' = Z.to_nat p.
Proof.
  intros Hp. destruct (SetPosition_ok p s Hp) as (s' & Hs & Hb & Hpos). exists s'. split; [| done].
  unfold SetPosition, call. cbn [fst snd]. by rewrite Hs.
Qed.

(** A part of the file. *)
Definition part (c : list Z) (p : nat) (n : Z) : list Z := take (Z.to_nat n) (drop p c).

Lemma part_length c p n : 0 <= n -> Z.of_nat p + n <= Z.of_nat (length c) -> length (part c p n) = Z.to_nat n.
Proof. intros Hn Hp. unfold part. rewrite length_take, length_drop. lia. Qed.

Lemma part_bytes c p n : Forall is_byte c -> Forall is_byte (part c p n).
Proof. intros Hc. by apply Forall_take, Forall_drop. Qed.

Lemma read_local_run g s m :
  (file_position s + length g <= length (file_bytes s))%nat ->
  exists s', read_local g (s, m) = Ret (Ok (part (file_bytes s) (file_position s) (Z.of_nat (length g))), (s', m)) /\
    file_bytes s' = file_bytes s.
Proof.
  intros Hp. destruct (Read_ok (Z.of_nat (length g)) s) as (s' & Hs & Hb); [lia | lia |]. exists s'. split; [| done].
  unfold read_local. rewrite (efi_bind_run _ _ _ (s', m) (part (file_bytes s) (file_position s) (Z.of_nat (length g)))).
  - unfold mret, efi_ret. do 2 f_equal. f_equal. apply list_inserts_full. rewrite part_length; lia.
  - unfold call. cbn [fst snd]. by rewrite Hs.
Qed.

Lemma read_into_memory_run n a s m :
  0 <= n -> Z.of_nat (file_position s) + n <= Z.of_nat (length (file_bytes s)) ->
  Forall is_byte (file_bytes s) -> mapped m a n ->
  exists s' m', read_memory n a (s, m) = Ret (Ok (), (s', m')) /\ file_bytes s' = file_bytes s /\
    stored_at m a (part (file_bytes s) (file_position s) n) m'.
Proof.
  intros Hn Hp Hc Hm. destruct (Read_ok n s) as (s' & Hs & Hb); [lia | lia |].
  pose proof (part_length (file_bytes s) (file_position s) n Hn Hp) as Hl.
  destruct (store_bytes_spec m a (part (file_bytes s) (file_position s) n)) as (m' & Hst & Hx).
  { rewrite Hl. by rewrite Z2Nat.id by lia. }
  { by apply part_bytes. }
  exists s', m'. split; [| by split]. unfold read_memory.
  rewrite (efi_bind_run _ _ _ (s', m) (part (file_bytes s) (file_position s) n)).
  - apply (poke_run _ (s', m)). exact Hst.
  - unfold call. cbn [fst snd]. by rewrite Hs.
Qed.
End Steps.

(** ** Reading the headers in memory *)

Lemma stored_mapped m a l m' x n : stored_at m a l m' -> mapped m x n -> mapped m' x n.
Proof.
  intros Hst Hm y Hy. rewrite Hst. destruct (Z.leb_spec a y), (Z.ltb_spec y (a + Z.of_nat (length l))); cbn [andb];
    try (apply Hm; lia). apply lookup_lt_is_Some. lia.
Qed.

(** A field of the headers is in memory what it is in the file. *)
Lemma header_word m base h c off n :
  bytes_at m base (take (Z.to_nat h) c) -> 0 <= off -> off + Z.of_nat n <= h -> h <= Z.of_nat (length c) ->
  load_le n m (base + off) = Ret (word (Z.to_nat off) n c).
Proof.
  intros Hb Ho Hn Hh. unfold load_le, word.
  assert (load_bytes m (base + off) n = Ret (take n (drop (Z.to_nat off) c))) as ->; [| done].
  apply load_bytes_Ret. split; [rewrite length_take, length_drop; lia |].
  intros j b [Hj Hl]%lookup_take_Some. rewrite lookup_drop in Hj.
  rewrite <- (Hb (Z.to_nat off + j)%nat b); [f_equal; lia |]. rewrite lookup_take. by rewrite decide_True by lia.
Qed.

Section Mapping.
Context {S : Type} `{EfiServicesOk S}.
Context (c : list Z) (lf hsize isize opt entry : Z) (secs : list section).
Context (pe : pe_file c lf hsize isize opt entry secs) (base : Z).
Context (Hbase : 0 <= base /\ base + isize < 2 ^ 64).

Definition nt : Z := base + lf.
Definition table : Z := nt + 24 + opt.

(** The headers and the first [i] sections are in memory, and nothing else changed. *)
Record loaded (m0 m : mem) (i : nat) : Prop := {
  ld_headers : bytes_at m base (take (Z.to_nat hsize) c);
  ld_ok : mem_ok m;
  ld_mapped : mapped m base isize;
  ld_outside : same_outside m0 m base isize;
  ld_sections j x : (j < i)%nat -> secs !! j = Some x -> bytes_at m (base + s_address x) (section_bytes c x) }.

Lemma section_header m0 m i k x :
  loaded m0 m k -> secs !! i = Some x ->
  NumberOfSections m nt = Ret (Z.of_nat (length secs)) /\
  VirtualAddress m (table + Z.of_nat i * sizeof_IMAGE_SECTION_HEADER) = Ret (s_address x) /\
  load_le 4 m (table + Z.of_nat i * sizeof_IMAGE_SECTION_HEADER + 16) = Ret (s_size x) /\
  load_le 4 m (table + Z.of_nat i * sizeof_IMAGE_SECTION_HEADER + 20) = Ret (s_pointer x).
Proof using pe.
  intros Hl Hi. destruct (pf_sections _ _ _ _ _ _ _ pe i x Hi) as (H1 & H2 & H3).
  destruct (pf_length _ _ _ _ _ _ _ pe) as (Hc & Hlf & Hh & _). destruct (pf_table _ _ _ _ _ _ _ pe) as [Ho Ht].
  pose proof (lookup_lt_Some _ _ _ Hi). unfold NumberOfSections, VirtualAddress, table, nt, sizeof_IMAGE_SECTION_HEADER.
  pose proof (fun off n => header_word m base hsize c off n (ld_headers _ _ _ Hl)) as Hw.
  replace (base + lf + 24 + opt + Z.of_nat i * 40) with (base + (lf + 24 + opt + 40 * Z.of_nat i)) by lia.
  rewrite <- !Z.add_assoc. rewrite !Hw by lia.
  rewrite (pf_count _ _ _ _ _ _ _ pe). rewrite <- H1, <- H2, <- H3. rewrite !Z.add_assoc. done.
Qed.

Lemma count_run m0 m k : loaded m0 m k -> NumberOfSections m nt = Ret (Z.of_nat (length secs)).
Proof using pe.
  intros Hl. destruct (pf_length _ _ _ _ _ _ _ pe) as (Hc & Hlf & Hh & _). unfold NumberOfSections, nt.
  rewrite <- Z.add_assoc, (header_word _ _ hsize c) by (try apply Hl; lia). by rewrite (pf_count _ _ _ _ _ _ _ pe).
Qed.

(** Storing a section keeps what is loaded. *)
Lemma loaded_step m0 m m' i x :
  loaded m0 m i -> secs !! i = Some x -> s_size x <> 0 ->
  stored_at m (base + s_address x) (section_bytes c x) m' -> loaded m0 m' (Datatypes.S i).
Proof using pe.
  intros Hl Hi Hne Hst. pose proof (list_elem_of_lookup_2 _ _ _ Hi) as Hin.
  destruct (pf_inside _ _ _ _ _ _ _ pe x Hin) as [Hsz Hx]. destruct (Hx Hne) as (Hx1 & Hx2 & Hx3 & Hx4).
  destruct (pf_length _ _ _ _ _ _ _ pe) as (Hc & Hlf & Hh & _).
  assert (Z.of_nat (length (section_bytes c x)) = s_size x) as Hlen
    by (unfold section_bytes; rewrite length_take, length_drop; lia).
  pose proof (stored_outside _ _ _ _ Hst) as Ho. rewrite Hlen in Ho. destruct Hl as [H1 H2 H3 H4 H5]. split.
  - eapply bytes_at_outside; [exact Ho | rewrite length_take; lia | exact H1].
  - eapply stored_ok; [exact Hst | done |]. apply part_bytes, pe.
  - eapply stored_mapped; [exact Hst | done].
  - intros a Ha. rewrite (Ho a) by lia. by apply H4.
  - intros j y Hj Hy. destruct (decide (j = i)) as [-> |].
    + assert (y = x) as -> by congruence. by eapply stored_inside.
    + destruct (decide (s_size y = 0)) as [Hz | Hz].
      { unfold section_bytes. rewrite Hz. intros k b Hk. by rewrite take_0, lookup_nil in Hk. }
      eapply bytes_at_outside; [exact Ho | | apply (H5 j); [lia | done]].
      destruct (pf_apart _ _ _ _ _ _ _ pe i j x y Hi Hy ltac:(done) Hne Hz); unfold section_bytes; rewrite length_take, length_drop;
        destruct (pf_inside _ _ _ _ _ _ _ pe y (list_elem_of_lookup_2 _ _ _ Hy)) as [? Hyy]; specialize (Hyy Hz); lia.
Qed.

(** The loop loads every section. *)
Lemma load_sections_run m0 k : forall fuel i s m,
  (i + k = length secs)%nat -> (k < fuel)%nat -> file_bytes s = c -> loaded m0 m i ->
  exists s' m', load_sections fuel base nt table (Z.of_nat i) (s, m) = Ret (Ok (), (s', m')) /\
    file_bytes s' = c /\ loaded m0 m' (length secs).
Proof using pe Hbase.
  destruct (pf_length _ _ _ _ _ _ _ pe) as (Hc & Hlf & Hh & Hisz). destruct (pf_table _ _ _ _ _ _ _ pe) as [Hopt Htab].
  assert (Z.of_nat (length secs) < 2 ^ 16) as Hmax.
  { rewrite <- (pf_count _ _ _ _ _ _ _ pe). unfold word.
    assert (Forall is_byte (take 2 (drop (Z.to_nat (lf + 6)) c))) as Hf by apply Forall_take, Forall_drop, pe.
    pose proof (le_of_range _ Hf) as Hr. rewrite length_take, length_drop in Hr.
    replace (2 `min` _)%nat with 2%nat in Hr by lia. change (256 ^ Z.of_nat 2) with (2 ^ 16) in Hr. lia. }
  induction k as [| k IH]; intros fuel i s m Hik Hf Hs Hl; (destruct fuel as [| fuel]; [lia |]); cbn [load_sections].
  - rewrite (efi_bind_run _ _ _ _ _ (peek_run _ (s, m) _ (count_run _ _ _ Hl))).
    rewrite (proj2 (Z.ltb_ge _ _)) by lia. exists s, m. split; [done |]. split; [done |].
    replace (length secs) with i by lia. done.
  - rewrite (efi_bind_run _ _ _ _ _ (peek_run _ (s, m) _ (count_run _ _ _ Hl))).
    rewrite (proj2 (Z.ltb_lt _ _)) by lia.
    destruct (lookup_lt_is_Some_2 secs i) as [x Hx]; [lia |].
    destruct (section_header m0 m i i x Hl Hx) as (_ & Hva & Hsz & Hptr).
    rewrite (efi_bind_run _ _ _ _ _ (peek_run _ (s, m) _ Hva)), (efi_bind_run _ _ _ _ _ (peek_run _ (s, m) _ Hsz)).
    destruct (pf_inside _ _ _ _ _ _ _ pe x (list_elem_of_lookup_2 _ _ _ Hx)) as [Hnn Hin].
    assert (u16 (Z.of_nat i + 1) = Z.of_nat (Datatypes.S i)) as Hi by (rewrite wrap_small by lia; lia).
    destruct (Z.eqb_spec (s_size x) 0) as [Hz | Hz]; cbn [negb].
    + rewrite (efi_bind_run _ _ _ (s, m) ()) by done. rewrite Hi. apply IH; [lia | lia | done |].
      destruct Hl as [H1 H2 H3 H4 H5]. split; try done. intros j y Hj Hy.
      destruct (decide (j = i)) as [-> |]; [| apply (H5 j); [lia | done]].
      assert (y = x) as -> by congruence. unfold section_bytes. rewrite Hz. intros n b Hn. by rewrite take_0, lookup_nil in Hn.
    + destruct (Hin Hz) as (Ha1 & Ha2 & Ha3 & Ha4).
      destruct (SetPosition_run (s_pointer x) s m) as (s1 & Hset & Hb1 & Hp1); [rewrite Hs; lia |].
      destruct (read_into_memory_run (s_size x) (u64 (base + s_address x)) s1 m) as (s2 & m2 & Hread & Hb2 & Hst);
        [lia | rewrite Hb1, Hs, Hp1; lia | rewrite Hb1, Hs; apply pe | |].
      { rewrite wrap_small by lia. intros y Hy. apply (ld_mapped _ _ _ Hl). lia. }
      rewrite (efi_bind_run _ _ _ (s2, m2) ()).
      2: { rewrite (efi_bind_run _ _ _ _ _ (peek_run _ (s, m) _ Hptr)). by rewrite (efi_bind_run _ _ _ _ _ Hset). }
      rewrite Hi. apply IH; [lia | lia | by rewrite Hb2, Hb1 |].
      eapply loaded_step; [exact Hl | exact Hx | done |].
      rewrite wrap_small in Hst by lia. by rewrite Hb1, Hs, Hp1 in Hst.
Qed.
End Mapping.

(** ** Relocations by nothing *)

Lemma store_bytes_same m a l : mem_ok m -> bytes_at m a l -> store_bytes m a l = Ret m.
Proof.
  intros Hm. revert a. induction l as [| b l IH]; intros a Hl; cbn [store_bytes]; [done |].
  pose proof (Hl 0%nat b eq_refl) as Hb. rewrite Z.add_0_r in Hb. unfold store8. rewrite Hb. cbn [mbind outcome_bind].
  rewrite (u8_id b) by (by eapply Hm). rewrite insert_id by done. apply IH.
  intros i v Hi. rewrite <- (Hl (Datatypes.S i) v Hi). f_equal. lia.
Qed.

Lemma load_le_bytes n m a v : mem_ok m -> load_le n m a = Ret v ->
  exists l, length l = n /\ bytes_at m a l /\ Forall is_byte l /\ v = le_of l.
Proof.
  intros Hm Hv. unfold load_le in Hv. apply bind_Ret in Hv as (l & Hl & [= <-]).
  apply load_bytes_Ret in Hl as [Hn Hl]. exists l. split; [done |]. split; [done |]. split; [by eapply bytes_at_Forall | done].
Qed.

(** A number stored where it is. *)
Lemma store_le_same n m a v : mem_ok m -> load_le n m a = Ret v -> store_le n m a v = Ret m.
Proof.
  intros Hm Hv. destruct (load_le_bytes n m a v Hm Hv) as (l & Hn & Hl & Hb & ->). unfold store_le.
  rewrite <- Hn, le_to_of by done. by apply store_bytes_same.
Qed.

(** The place an entry points to is in memory. *)
Definition target_ok (m : mem) (location e : Z) : Prop :=
  let a := u64 (location + Z.land e 0x0FFF) in
  (Z.shiftr e 12 = IMAGE_REL_BASED_HIGHLOW -> mapped m a 4) /\ (Z.shiftr e 12 = IMAGE_REL_BASED_DIR64 -> mapped m a 8).

(** A relocation table: blocks of a page and entries, up to a block without a page. *)
Fixpoint reloc_table (m : mem) (base a : Z) (blocks : list (Z * list Z)) : Prop :=
  match blocks with
  | [] => load_le 4 m a = Ret 0
  | (va, es) :: blocks =>
    load_le 4 m a = Ret va /\ va <> 0 /\ load_le 4 m (a + 4) = Ret (8 + 2 * Z.of_nat (length es)) /\
    (forall i e, es !! i = Some e -> load16 m (a + 8 + 2 * Z.of_nat i) = Ret e /\ target_ok m (u64 (base + va)) e) /\
    0 <= a /\ a + 8 + 2 * Z.of_nat (length es) < 2 ^ 64 /\ Z.of_nat (length es) < 2 ^ 31 /\
    reloc_table m base (a + 8 + 2 * Z.of_nat (length es)) blocks
  end.

Lemma relocate_entry_0 location e m : mem_ok m -> target_ok m location e -> relocate_entry location e 0 m = Ret m.
Proof.
  intros Hm [H1 H2]. unfold relocate_entry.
  assert (forall n a, mapped m a (Z.of_nat n) -> exists v, load_le n m a = Ret v /\ 0 <= v < 256 ^ Z.of_nat n) as Hload.
  { intros n a Ha. destruct (load_bytes_total m a n Ha) as [l Hl]. exists (le_of l). unfold load_le. rewrite Hl. split; [done |].
    apply load_bytes_Ret in Hl as [<- Hl]. apply le_of_range. by eapply bytes_at_Forall. }
  destruct (Z.eqb_spec (Z.shiftr e 12) IMAGE_REL_BASED_HIGHLOW) as [He | _].
  - destruct (Hload 4%nat _ (H1 He)) as (v & Hv & Hr). rewrite Hv. cbn [mbind outcome_bind].
    change (256 ^ Z.of_nat 4) with (2 ^ 32) in Hr. rewrite (wrap_small 32 0), Z.add_0_r, (wrap_small 32 v) by lia. by apply store_le_same.
  - destruct (Z.eqb_spec (Z.shiftr e 12) IMAGE_REL_BASED_DIR64) as [He | _]; [| done].
    destruct (Hload 8%nat _ (H2 He)) as (v & Hv & Hr). rewrite Hv. cbn [mbind outcome_bind].
    change (256 ^ Z.of_nat 8) with (2 ^ 64) in Hr. rewrite Z.add_0_r, (wrap_small 64 v) by lia. by apply store_le_same.
Qed.

Lemma relocate_block_0 m a location es k : forall fuel i,
  mem_ok m -> load_le 4 m (a + 4) = Ret (8 + 2 * Z.of_nat (length es)) -> Z.of_nat (length es) < 2 ^ 31 ->
  (forall i e, es !! i = Some e -> load16 m (a + 8 + 2 * Z.of_nat i) = Ret e /\ target_ok m location e) ->
  (i + k = length es)%nat -> (k < fuel)%nat -> relocate_block fuel a location (Z.of_nat i) 0 m = Ret m.
Proof.
  induction k as [| k IH]; intros fuel i Hm Hsize Hlt Hes Hik Hf; (destruct fuel as [| fuel]; [lia |]);
    cbn [relocate_block]; rewrite Hsize; cbn [mbind outcome_bind]; unfold sizeof_IMAGE_BASE_RELOCATION;
    rewrite wrap_small by lia; replace (8 + 2 * Z.of_nat (length es) - 8) with (Z.of_nat (length es) * 2) by lia;
    rewrite Z.div_mul by lia.
  - by rewrite (proj2 (Z.ltb_ge _ _)) by lia.
  - rewrite (proj2 (Z.ltb_lt _ _)) by lia. destruct (lookup_lt_is_Some_2 es i) as [e He]; [lia |].
    destruct (Hes i e He) as [Hl Ht]. rewrite Hl. cbn [mbind outcome_bind]. rewrite relocate_entry_0 by done.
    cbn [mbind outcome_bind]. rewrite wrap_small by lia. replace (Z.of_nat i + 1) with (Z.of_nat (S i)) by lia.
    apply IH; try done; lia.
Qed.

Lemma relocate_blocks_0 m base blocks : forall fuel a,
  mem_ok m -> reloc_table m base a blocks -> (length blocks < fuel)%nat ->
  Forall (fun b : Z * list Z => (length b.2 < fuel - length blocks)%nat) blocks -> relocate_blocks fuel base a 0 m = Ret m.
Proof.
  induction blocks as [| [va es] blocks IH]; intros fuel a Hm Ht Hf Hb; (destruct fuel as [| fuel]; [cbn in Hf; lia |]);
    cbn [relocate_blocks reloc_table length] in *.
  - rewrite Ht. done.
  - destruct Ht as (Hva & Hne & Hsize & Hes & Ha & Hr & Hlt & Ht). apply Forall_cons in Hb as [Hb1 Hb]. cbn [snd] in Hb1.
    rewrite Hva. cbn [mbind outcome_bind]. rewrite (proj2 (Z.eqb_neq _ _)) by done.
    pose proof (relocate_block_0 m a (u64 (base + va)) es (length es) fuel 0) as Hb0. change (Z.of_nat 0) with 0 in Hb0.
    rewrite Hb0 by (try done; lia).
    cbn [mbind outcome_bind]. rewrite Hsize. cbn [mbind outcome_bind]. rewrite wrap_small by lia.
    replace (a + (8 + 2 * Z.of_nat (length es))) with (a + 8 + 2 * Z.of_nat (length es)) by lia.
    apply IH; [done | done | lia |]. eapply Forall_impl; [exact Hb |]. cbn. lia.
Qed.

(** ** The kernel's image *)

Section MapKernel.
Context {S : Type} `{EfiServicesOk S}.

(** The fields of a local header that was read from the file. *)
Lemma word_part c p n off k : (off + k <= Z.to_nat n)%nat -> word off k (part c p n) = word (p + off) k c.
Proof.
  intros Hk. unfold word, part. f_equal. rewrite skipn_firstn_comm, drop_drop, take_take. f_equal. lia.
Qed.

Lemma call_run {A} (f : S -> Z * A * S) s m a s' :
  f s = (EFI_SUCCESS, a, s') -> call f (s, m) = Ret (Ok a, (s', m)).
Proof. intros Hf. unfold call. cbn [fst snd]. by rewrite Hf. Qed.

Context (c : list Z) (lf hsize isize opt entry : Z) (secs : list section).
Context (pe : pe_file c lf hsize isize opt entry secs) (base : Z).
Context (Hbase : 0 <= base /\ base + 2 ^ 32 <= 2 ^ 64).

(** The relocation table of the image, if it has one, is well formed and shorter than the fuel. *)
Definition relocs_ok (fuel : nat) : Prop :=
  word (Z.to_nat (lf + 180)) 4 c <> 0 -> forall m, image_at m base c hsize secs -> mapped m base isize ->
    exists blocks, reloc_table m base (base + word (Z.to_nat (lf + 176)) 4 c) blocks /\
      (length blocks < fuel)%nat /\ Forall (fun b : Z * list Z => (length b.2 < fuel - length blocks)%nat) blocks.

Lemma nt_field m0 m i off n :
  loaded c hsize isize secs base m0 m i -> 0 <= off -> off + Z.of_nat n <= 264 ->
  load_le n m (base + lf + off) = Ret (word (Z.to_nat (lf + off)) n c).
Proof using pe.
  intros Hl Ho Hn. destruct (pf_length _ _ _ _ _ _ _ pe) as (Hc & Hlf & Hh & _).
  rewrite <- Z.add_assoc. apply (header_word m base hsize); [apply Hl | lia | lia | lia].
Qed.

Lemma image_of_loaded m0 m : loaded c hsize isize secs base m0 m (length secs) -> image_at m base c hsize secs.
Proof.
  intros [H1 _ _ _ H5]. split; [done |]. intros x [j Hj]%list_elem_of_lookup. apply (H5 j); [by eapply lookup_lt_Some | done].
Qed.

Lemma word_range off n : (off + n <= length c)%nat -> 0 <= word off n c < 256 ^ Z.of_nat n.
Proof using pe.
  intros Hn. unfold word. assert (Forall is_byte (take n (drop off c))) as Hf by apply Forall_take, Forall_drop, pe.
  pose proof (le_of_range _ Hf) as Hr. rewrite length_take, length_drop in Hr. by replace (n `min` _)%nat with n in Hr by lia.
Qed.

(** From the loaded sections to the end. *)
Lemma finish_run fuel m0 m s :
  loaded c hsize isize secs base m0 m (length secs) -> relocs_ok fuel ->
  finish_image (S := S) fuel base (base + lf) VAS.Layout.KernelBaseAddress (s, m) =
  Ret (Ok (isize, u64 (VAS.Layout.KernelBaseAddress + entry), base), (s, m)).
Proof using pe Hbase.
  intros Hl Hr. unfold finish_image. pose proof (fun off n => nt_field m0 m _ off n Hl) as Hf.
  assert (ImageBase m (base + lf) = Ret VAS.Layout.KernelBaseAddress) as Hi.
  { unfold ImageBase. replace (base + lf + 24 + 24) with (base + lf + 48) by lia. rewrite Hf by lia. by rewrite (pf_base _ _ _ _ _ _ _ pe). }
  rewrite (efi_bind_run _ _ _ _ _ (peek_run _ (s, m) _ Hi)), Z.eqb_refl.
  rewrite (efi_bind_run _ _ _ (s, m) ()) by done.
  rewrite (efi_bind_run _ _ _ (s, m) ()).
  2: { apply (poke_run _ (s, m)). apply store_le_same; [apply Hl | exact Hi]. }
  assert (DataDirectory m (base + lf) IMAGE_DIRECTORY_ENTRY_BASERELOC =
    Ret (word (Z.to_nat (lf + 176)) 4 c, word (Z.to_nat (lf + 180)) 4 c)) as Hd.
  { unfold DataDirectory, IMAGE_DIRECTORY_ENTRY_BASERELOC. replace (base + lf + 24 + 112 + 8 * 5) with (base + lf + 176) by lia.
    replace (base + lf + 176 + 4) with (base + lf + 180) by lia. by rewrite !Hf by lia. }
  rewrite (efi_bind_run _ _ _ _ _ (peek_run _ (s, m) _ Hd)). cbn [fst snd].
  rewrite (efi_bind_run _ _ _ (s, m) ()).
  2: { destruct (Z.eqb_spec (word (Z.to_nat (lf + 180)) 4 c) 0) as [_ | Hne]; [done |]. cbn [negb].
    destruct (Hr Hne m (image_of_loaded _ _ Hl) (ld_mapped _ _ _ _ _ _ _ _ Hl)) as (blocks & Ht & Hlen & Hes).
    rewrite (efi_bind_run _ _ _ _ _ (peek_run _ (s, m) _ Hi)). apply (poke_run _ (s, m)). rewrite Z.sub_diag.
    destruct (pf_length _ _ _ _ _ _ _ pe) as (Hc & Hlf & Hh & _).
    pose proof (word_range (Z.to_nat (lf + 176)) 4 ltac:(lia)) as Hw. change (256 ^ Z.of_nat 4) with (2 ^ 32) in Hw.
    rewrite (wrap_small 64 0), (wrap_small 64 (base + _)) by lia. apply (relocate_blocks_0 m base blocks); [apply Hl | done | done | done]. }
  assert (SizeOfImage m (base + lf) = Ret isize) as Hs.
  { unfold SizeOfImage. replace (base + lf + 24 + 56) with (base + lf + 80) by lia. rewrite Hf by lia. by rewrite (pf_isize _ _ _ _ _ _ _ pe). }
  assert (AddressOfEntryPoint m (base + lf) = Ret entry) as He.
  { unfold AddressOfEntryPoint. replace (base + lf + 24 + 16) with (base + lf + 40) by lia. rewrite Hf by lia. by rewrite (pf_entry _ _ _ _ _ _ _ pe). }
  rewrite (efi_bind_run _ _ _ _ _ (peek_run _ (s, m) _ Hs)), (efi_bind_run _ _ _ _ _ (peek_run _ (s, m) _ Hi)),
    (efi_bind_run _ _ _ _ _ (peek_run _ (s, m) _ He)). done.
Qed.

(** C13: the boot loader maps the kernel as its file says.  For a file that is a kernel image linked
    for the kernel's address, and pages from the firmware, [MapKernel] succeeds, whatever its
    local headers held: the headers and every section are in memory at their places in the image,
    nothing outside the image changes, and the image's size, its entry point in the kernel's
    address space and its physical address are returned.  The relocations, if there are any,
    shift by nothing and end. *)
Theorem kernel_is_mapped fuel dos_garbage nt_garbage s m :
  file_bytes s = c -> file_position s = 0%nat -> length dos_garbage = 64%nat -> length nt_garbage = 264%nat ->
  (forall s', file_bytes s' = c -> exists s'', efi_AllocatePages (SizeToPages isize) s' = (EFI_SUCCESS, base, s'')) ->
  mem_ok m -> mapped m base isize -> relocs_ok fuel ->
  exists s' m', MapKernel fuel dos_garbage nt_garbage (s, m) =
      Ret (Ok (isize, u64 (VAS.Layout.KernelBaseAddress + entry), base), (s', m')) /\
    image_at m' base c hsize secs /\ same_outside m m' base isize.
Proof using pe Hbase.
  intros Hs Hp Hg1 Hg2 Halloc Hm Hmap Hrel. destruct (pf_length _ _ _ _ _ _ _ pe) as (Hc & Hlf & Hh & Hi).
  unfold MapKernel.
  destruct (read_local_run dos_garbage s m) as (s1 & Hr1 & Hb1); [rewrite Hs; lia |].
  rewrite (efi_bind_run _ _ _ _ _ Hr1). rewrite Hs, Hp, Hg1 in *.
  rewrite (efi_bind_run _ _ _ (s1, m) ()) by (by destruct (_ =? _)).
  rewrite !word_part by lia. cbn [Nat.add]. rewrite (pf_lfanew _ _ _ _ _ _ _ pe), (wrap_small 64 lf) by lia.
  destruct (SetPosition_run lf s1 m) as (s2 & Hr2 & Hb2 & Hp2); [rewrite Hb1; lia |].
  rewrite (efi_bind_run _ _ _ _ _ Hr2).
  destruct (read_local_run nt_garbage s2 m) as (s3 & Hr3 & Hb3); [rewrite Hb2, Hb1; lia |].
  rewrite (efi_bind_run _ _ _ _ _ Hr3). rewrite Hb2, Hb1, Hp2, Hg2 in *. rewrite !word_part by lia.
  assert (forall k : nat, (Z.to_nat lf + k)%nat = Z.to_nat (lf + Z.of_nat k)) as Hk by (intros; lia). rewrite !Hk.
  change (Z.of_nat 0) with 0. change (Z.of_nat 4) with 4. change (Z.of_nat 24) with 24. change (Z.of_nat 92) with 92.
  change (Z.of_nat 148) with 148. change (Z.of_nat 80) with 80. change (Z.of_nat 84) with 84. change (Z.of_nat 48) with 48.
  rewrite Z.add_0_r. rewrite (pf_signature _ _ _ _ _ _ _ pe), (pf_machine _ _ _ _ _ _ _ pe), (pf_magic _ _ _ _ _ _ _ pe),
    (pf_subsystem _ _ _ _ _ _ _ pe), (pf_imports _ _ _ _ _ _ _ pe), (pf_isize _ _ _ _ _ _ _ pe),
    (pf_hsize _ _ _ _ _ _ _ pe), (pf_base _ _ _ _ _ _ _ pe). rewrite !Z.eqb_refl. cbn [negb orb].
  destruct (Halloc s3) as (s4 & Ha); [by rewrite Hb3 |].
  rewrite (efi_bind_run _ _ _ _ _ (call_run _ _ _ _ _ Ha)).
  assert (file_bytes s4 = c) as Hb4.
  { pose proof (AllocatePages_keeps (SizeToPages isize) s3) as Hkp. rewrite Ha in Hkp. cbn [snd] in Hkp. by rewrite Hkp, Hb3. }
  destruct (SetPosition_run 0 s4 m) as (s5 & Hr5 & Hb5 & Hp5); [lia |]. rewrite (efi_bind_run _ _ _ _ _ Hr5).
  destruct (read_into_memory_run hsize base s5 m) as (s6 & m6 & Hr6 & Hb6 & Hst);
    [lia | rewrite Hb5, Hb4, Hp5; lia | rewrite Hb5, Hb4; apply pe | intros y Hy; apply Hmap; lia |].
  rewrite (efi_bind_run _ _ _ _ _ Hr6). rewrite Hb5, Hb4, Hp5 in *. rewrite (wrap_small 64 (base + lf)) by lia.
  assert (length (part c (Z.to_nat 0) hsize) = Z.to_nat hsize) as Hlen by (apply part_length; lia).
  assert (loaded c hsize isize secs base m m6 0) as Hl0.
  { split.
    - by apply stored_inside in Hst.
    - eapply stored_ok; [exact Hst | done | apply part_bytes, pe].
    - by eapply stored_mapped.
    - intros a Ha'. apply (stored_outside _ _ _ _ Hst). rewrite Hlen. lia.
    - intros j x Hj. lia. }
  assert (IMAGE_FIRST_SECTION m6 (base + lf) = Ret (table lf opt base)) as Hsec.
  { unfold IMAGE_FIRST_SECTION, SizeOfOptionalHeader. rewrite (nt_field m m6 0) by (done || lia).
    cbn [mbind outcome_bind]. rewrite (pf_opt _ _ _ _ _ _ _ pe). done. }
  rewrite (efi_bind_run _ _ _ _ _ (peek_run _ (s6, m6) _ Hsec)).
  destruct (load_sections_run c lf hsize isize opt entry secs pe base ltac:(lia) m (length secs) (Z.to_nat 65536) 0 s6 m6)
    as (s7 & m7 & Hr7 & _ & Hl7); [lia | | done | done |].
  { pose proof (word_range (Z.to_nat (lf + 6)) 2 ltac:(lia)) as Hw. rewrite (pf_count _ _ _ _ _ _ _ pe) in Hw.
    change (256 ^ Z.of_nat 2) with 65536 in Hw. lia. }
  rewrite (efi_bind_run _ _ _ _ _ Hr7), (finish_run fuel m) by done.
  exists s7, m7. split; [done |]. split; [by eapply image_of_loaded | apply Hl7].
Qed.
End MapKernel.

(** ** A small kernel *)

Record demo_firmware := mkFirmware { d_bytes : list Z; d_position : nat }.

#[global] Instance demo_services : EfiServices demo_firmware := {
  efi_Read n s := let l := take (Z.to_nat n) (drop (d_position s) (d_bytes s)) in
    (EFI_SUCCESS, l, mkFirmware (d_bytes s) (d_position s + length l));
  efi_SetPosition p s := (EFI_SUCCESS, mkFirmware (d_bytes s) (Z.to_nat p));
  efi_GetInfo s := (EFI_BUFFER_TOO_SMALL, 80, s);
  efi_FileInfo _ s := (EFI_SUCCESS, Z.of_nat (length (d_bytes s)), s);
  efi_AllocatePages _ s := (EFI_SUCCESS, 0x2000, s);
  efi_AllocatePool _ s := (EFI_SUCCESS, 0x9000, s) }.

#[global, refine] Instance demo_services_ok : EfiServicesOk demo_firmware :=
  {| file_bytes := d_bytes; file_position := d_position |}.
Proof.
  - intros n s _ _. by eexists.
  - intros p s _. by eexists.
  - done.
Defined.

(** The file: the headers at 64, one section header at 328, and its four bytes at 368. *)
Definition demo_kernel : list Z :=
  [0x4D; 0x5A] ++ replicate 58 0 ++ le_to 4 64 ++
  le_to 4 0x4550 ++ le_to 2 0x8664 ++ le_to 2 1 ++ replicate 12 0 ++ le_to 2 240 ++ le_to 2 0 ++
  le_to 2 0x20b ++ replicate 14 0 ++ le_to 4 0x190 ++ le_to 4 0 ++ le_to 8 0xFFFF800001000000 ++ replicate 24 0 ++
  le_to 4 512 ++ le_to 4 368 ++ le_to 4 0 ++ le_to 2 1 ++ replicate 170 0 ++
  [46; 116; 101; 120; 116; 0; 0; 0] ++ le_to 4 4 ++ le_to 4 0x190 ++ le_to 4 4 ++ le_to 4 368 ++ replicate 16 0 ++
  [0x90; 0x90; 0xC3; 0xCC].

Lemma demo_pe_file : pe_file demo_kernel 64 368 512 240 0x190 [(0x190, 4, 368)].
Proof.
  split; try (vm_compute; reflexivity).
  - unfold is_byte. apply Forall_forall. intros b Hb. apply list_elem_of_In in Hb.
    assert (forallb (fun b => (0 <=? b) && (b <? 256)) demo_kernel = true) as Ha by (vm_compute; reflexivity).
    rewrite forallb_forall in Ha. specialize (Ha b Hb). zbool. lia.
  - vm_compute. repeat split; discriminate.
  - vm_compute. split; discriminate.
  - intros [| i] x; [intros [= <-]; vm_compute; auto | done].
  - intros x ->%list_elem_of_singleton. vm_compute. repeat split; discriminate.
  - intros [| i] [| j] x y; done.
Qed.

Lemma kernel_is_mapped_witness :
  exists s' m', MapKernel 1 (replicate 64 0xAA) (replicate 264 0xAA)
      (mkFirmware demo_kernel 0, mem_of 0x2000 (replicate 512 0)) =
      Ret (Ok (512, 0xFFFF800001000190, 0x2000), (s', m')) /\ bytes_at m' 0x2190 [0x90; 0x90; 0xC3; 0xCC].
Proof.
  destruct (kernel_is_mapped demo_kernel 64 368 512 240 0x190 [(0x190, 4, 368)] demo_pe_file 0x2000 ltac:(lia)
    1 (replicate 64 0xAA) (replicate 264 0xAA) (mkFirmware demo_kernel 0) (mem_of 0x2000 (replicate 512 0)))
    as (s' & m' & Hr & Him & _); try reflexivity.
  - intros s' _. by eexists.
  - by apply mem_of_ok.
  - apply mem_of_mapped; [lia |]. rewrite length_replicate. lia.
  - intros Hne. exfalso. apply Hne. vm_compute. reflexivity.
  - exists s', m'. split; [exact Hr |]. 
    exact (im_sections _ _ _ _ _ Him (0x190, 4, 368) ltac:(by apply list_elem_of_singleton)).
Defined.

(** ** What is not checked *)

(** The test of the DOS signature is a comparison taken for a status: neither answer is an error,
    and a file without the signature goes on. *)
Theorem magic_is_not_checked {S : Type} (magic : Z) (w : S * mem) :
  ReturnIfNotSuccess (Z.b2z (magic =? IMAGE_DOS_SIGNATURE)) w = Ret (Ok (), w).
Proof. by destruct (magic =? IMAGE_DOS_SIGNATURE). Qed.

(** ** Other files *)

(** [MapFile] puts a file's contents at the pages it is given. *)
Theorem MapFile_reads {S} `{EfiServicesOk S} s m info s1 pool s2 base s3 :
  efi_GetInfo s = (EFI_BUFFER_TOO_SMALL, info, s1) -> efi_AllocatePool info s1 = (EFI_SUCCESS, pool, s2) ->
  let n := Z.of_nat (length (file_bytes s)) in
  efi_FileInfo info s2 = (EFI_SUCCESS, n, s2) -> efi_AllocatePages (SizeToPages n) s2 = (EFI_SUCCESS, base, s3) ->
  file_bytes s2 = file_bytes s -> file_position s3 = 0%nat -> Forall is_byte (file_bytes s) -> mapped m base n ->
  exists s' m', MapFile (s, m) = Ret (Ok (base, n), (s', m')) /\ stored_at m base (file_bytes s) m'.
Proof.
  intros H1 H2 n H3 H4 Hb Hp Hbytes Hm.
  assert (file_bytes s3 = file_bytes s) as Hb3.
  { pose proof (AllocatePages_keeps (SizeToPages n) s2) as Hk. rewrite H4 in Hk. cbn [snd] in Hk. by rewrite Hk. }
  unfold MapFile. cbn [fst snd]. rewrite H1, Z.eqb_refl.
  rewrite (efi_bind_run _ _ _ (s1, m) ()) by done. rewrite (efi_bind_run _ _ _ _ _ (call_run _ _ _ _ _ H2)).
  rewrite (efi_bind_run _ _ _ _ _ (call_run _ _ _ _ _ H3)), (efi_bind_run _ _ _ _ _ (call_run _ _ _ _ _ H4)).
  destruct (Read_ok n s3) as (s4 & Hr & _); [lia | lia |]. rewrite Hb3, Hp, drop_0, take_ge in Hr by lia.
  rewrite (efi_bind_run _ _ _ _ _ (call_run _ _ _ _ _ Hr)).
  destruct (store_bytes_spec m base (file_bytes s)) as (m' & Hst & Hx); [done | done |].
  rewrite (efi_bind_run _ _ _ (s4, m') ()) by (by apply (poke_run _ (s4, m))). exists s4, m'. by split.
Qed.

(** The initialisers of a section: the pointers up to the null one, which the calls leave alone. *)
Theorem run_initializers_all run (fs : list Z) : forall fuel a m,
  (length fs < fuel)%nat -> Forall (fun f => f <> 0) fs ->
  (forall f m, f ∈ fs -> exists m', run f m = Ret m' /\ (forall x n, load_le n m' x = load_le n m x)) ->
  (forall i f, (fs ++ [0]) !! i = Some f -> load_le 8 m (a + 8 * Z.of_nat i) = Ret f) ->
  exists m', run_initializers fuel run a m = Ret (fs, m').
Proof.
  induction fs as [| f fs IH]; intros fuel a m Hf Hne Hrun Hl; (destruct fuel as [| fuel]; [cbn in Hf; lia |]); cbn [run_initializers].
  - pose proof (Hl 0%nat 0 eq_refl) as H0. rewrite Z.add_0_r in H0. rewrite H0. by exists m.
  - pose proof (Hl 0%nat f eq_refl) as H0. rewrite Z.add_0_r in H0. rewrite H0. cbn [mbind outcome_bind].
    apply Forall_cons in Hne as [Hf0 Hne]. rewrite (proj2 (Z.eqb_neq _ _)) by done.
    destruct (Hrun f m ltac:(by apply list_elem_of_here)) as (m1 & -> & Hsame). cbn [mbind outcome_bind].
    destruct (IH fuel (a + 8) m1) as (m2 & ->); [cbn in Hf; lia | done | | | by exists m2].
    + intros g m' Hg. apply Hrun. by apply list_elem_of_further.
    + intros i g Hi. rewrite Hsame. rewrite <- (Hl (Datatypes.S i) g Hi). f_equal. lia.
Qed.
