(* ===== verification/HvPlatform.v ===== *)
(** The Hyper-V platform: synthetic interrupts, hypercalls, the reference clock, the
    synthetic timers and the names of the bus's devices.

    Models src/src/kernel/drivers/HyperV/HyperVPlatform.cpp and .h,
    src/src/kernel/hal/devices/hv/HyperVTimer.cpp and HyperVDevice.cpp, with the structures
    of HyperV_def.h.  The two pages the hypervisor writes are state: the event flags as
    bytes, the message slots as records of the fields the code reads.  Model-specific
    registers are a file of words, the hypercall page a class [Hypervisor]: what is behind
    it is not part of the program.  [ProcessInterrupts] runs with interrupts disabled; a
    flag the hypervisor sets on another processor while the scan runs is not modelled. *)
From Stdlib Require Import String.
From S2P Require Import Prelude OSSystem CMemory CrtNumeric CrtPrintf.
#[local] Open Scope string_scope.
#[local] Open Scope list_scope.
#[local] Open Scope Z_scope.

(** ** Constants *)

Definition HV_MESSAGE_PAYLOAD_BYTE_COUNT : Z := 240.
Definition HV_SYNIC_SINT_COUNT : Z := 16.
Definition HV_EVENT_FLAGS_COUNT : Z := 256 * 8.
Definition HV_EVENT_FLAGS_BYTE_COUNT : Z := 256.
Definition HV_MESSAGE_TYPE_HYPERVISOR_MASK : Z := 0x80000000.
Definition HvMessageTypeNone : Z := 0.
Definition HV_STATUS_SUCCESS : Z := 0.
Definition CHANNELMSG_COUNT : Z := 24.
Definition HypercallCodes_PostMessage : Z := 0x5C.
Definition HypercallCodes_SignalEvent : Z := 0x5D.

(** ** Synthetic interrupts *)

(** A message slot: [Header.MessageType], [Header.MessageFlags.MessagePending] and the
    bytes of the payload. *)
Record HV_MESSAGE := mkMessage { MessageType : Z; MessagePending : bool; Payload : list Z }.

Record synic := mkSynic { SynicEvents : list Z; SynicMessages : list HV_MESSAGE }.

(** [_InterlockedCompareExchange]: 32 bits at byte [off] of a page. *)
Definition InterlockedCompareExchange (off : nat) (Exchange Comparand : Z) (page : list Z) : outcome (list Z) :=
  let l := take 4 (drop off page) in
  if (length l <? 4)%nat then Fault
  else if s32 (le_of l) =? Comparand then Ret (list_inserts off (le_to 4 (u32 Exchange)) page)
  else Ret page.

(** The scan of [ProcessInterrupts] over the flags from byte [base], from flag [i] on for
    [n] flags. *)
Fixpoint scan_flags (n base : nat) (i : Z) (page : list Z) (channelIds : list Z)
  : outcome (list Z * list Z) :=
  match n with
  | O => Ret (channelIds, page)
  | S n =>
    let index := u8 (i / 8) in
    let flag := u8 (i mod 8) in
    let mask := u8 (Z.shiftl 1 flag) in
    match page !! (base + Z.to_nat index)%nat with
    | None => Fault
    | Some f =>
      if Z.land f mask =? 0 then scan_flags n base (i + 1) page channelIds
      else
        let cleared := u8 (Z.land f (Z.lnot mask)) in
        page ← InterlockedCompareExchange (base + Z.to_nat index) cleared f page;
        scan_flags n base (i + 1) page (channelIds ++ [i])
    end
  end.

(** [ProcessInterrupts]: the channels, the queue with the message, the pages, and whether the
    end of the message is signalled ([SignalEom]). *)
Definition ProcessInterrupts (sint : nat) (queue : list HV_MESSAGE) (s : synic)
  : outcome (list Z * list HV_MESSAGE * synic * bool) :=
  '(channelIds, events) ← scan_flags (Z.to_nat HV_EVENT_FLAGS_COUNT)
                             (sint * Z.to_nat HV_EVENT_FLAGS_BYTE_COUNT) 0 (SynicEvents s) [];
  match SynicMessages s !! sint with
  | None => Fault
  | Some message =>
    _ ← Assert (Z.land (MessageType message) HV_MESSAGE_TYPE_HYPERVISOR_MASK =? 0);
    _ ← Assert (MessageType message <? CHANNELMSG_COUNT);
    if negb (MessageType message =? HvMessageTypeNone) then
      Ret (channelIds, queue ++ [message],
           mkSynic events (<[sint := mkMessage HvMessageTypeNone (MessagePending message) (Payload message)]> (SynicMessages s)),
           MessagePending message)
    else Ret (channelIds, queue, mkSynic events (SynicMessages s), false)
  end.

(** ** Hypercalls *)

(** The hypercall page: the input value, the second argument's content (the page at the
    address, or the value itself for a fast call), and the hypervisor's state. *)
Class Hypervisor (H : Type) := { hypercall : Z -> list Z -> H -> Z * H }.

Definition HV_HYPERCALL_INPUT_VALUE : layout :=
  [("CallCode", 16); ("Fast", 1); ("HeaderSize", 9); ("IsNested", 1); ("ReservedZ1", 5);
   ("RepCount", 12); ("ReservedZ2", 4); ("RepStartIndex", 12); ("ReservedZ3", 4)].

(** [HV_SUCCESS] of the 16-bit status of a result. *)
Definition HV_SUCCESS (result : Z) : bool := u16 result =? HV_STATUS_SUCCESS.

Section Hypercalls.
Context {H : Type} `{Hypervisor H}.

(** The stores of [HvPostMessage] into [PostMessagePage]. *)
Definition post_input (ConnectionId MessageType : Z) (Message page : list Z) : list Z :=
  let page := list_inserts 0 (le_to 4 ConnectionId) page in
  let page := list_inserts 8 (le_to 4 MessageType) page in
  let page := list_inserts 12 (le_to 4 (Z.of_nat (length Message))) page in
  list_inserts 16 Message page.

Definition HvPostMessage (ConnectionId MessageType : Z) (Message page : list Z) (h : H)
  : outcome (Z * list Z * H) :=
  _ ← Assert (Z.of_nat (length Message) <=? HV_MESSAGE_PAYLOAD_BYTE_COUNT);
  let page := post_input ConnectionId MessageType Message page in
  let '(status, h) := hypercall (set_field HV_HYPERCALL_INPUT_VALUE "CallCode" HypercallCodes_PostMessage 0) page h in
  Ret (status, page, h).

Definition HvSignalEvent (ConnectionId FlagNumber : Z) (page : list Z) (h : H) : Z * list Z * H :=
  let page := list_inserts 4 (le_to 2 FlagNumber) (list_inserts 0 (le_to 4 ConnectionId) page) in
  let inputValue := set_field HV_HYPERCALL_INPUT_VALUE "Fast" 1
                      (set_field HV_HYPERCALL_INPUT_VALUE "CallCode" HypercallCodes_SignalEvent 0) in
  let '(status, h) := hypercall inputValue (take 8 page) h in
  (status, page, h).

End Hypercalls.

(** ** Registers *)

Definition HV_X64_MSR_GUEST_OS_ID : Z := 0x40000000.
Definition HV_X64_MSR_HYPERCALL : Z := 0x40000001.
Definition HV_X64_MSR_REFERENCE_TSC : Z := 0x40000021.
Definition HV_X64_MSR_STIMER0_CONFIG : Z := 0x400000B0.
Definition HV_X64_MSR_STIMER0_COUNT : Z := 0x400000B1.
Definition SCONTROL : Z := 0x40000080.
Definition SIEFP : Z := 0x40000082.
Definition SIMP : Z := 0x40000083.
Definition SINT0 : Z := 0x40000090.

(** The model-specific registers; [__readmsr] is application. *)
Definition msrs : Type := Z -> Z.
Definition writemsr (r v : Z) (m : msrs) : msrs := fun r' => if r' =? r then v else m r'.

Definition HV_INTERRUPT_PAGE_REGISTER : layout := [("Enable", 1); ("Reserved", 11); ("BaseAddress", 52)].
Definition HV_SINT_REGISTER : layout :=
  [("Vector", 8); ("Reserved0", 8); ("Masked", 1); ("AutoEOI", 1); ("Polling", 1); ("Reserved1", 45)].
Definition HV_SCONTROL_REGISTER : layout := [("Enabled", 1); ("Reserved", 63)].
Definition HV_HYPERCALL_REGISTER : layout :=
  [("Enabled", 1); ("Locked", 1); ("Reserved", 10); ("HypercallGPFN", 42)].
Definition GUEST_OS_ID_REG : layout :=
  [("BuildNumber", 16); ("Version", 32); ("OSID", 8); ("OSType", 7); ("OpenSource", 1)].
Definition HV_REF_TSC_REG : layout := [("Enable", 1); ("Reserved", 11); ("GPAPageNumber", 52)].
Definition HV_STIMER_CONFIG_REG : layout :=
  [("Enable", 1); ("Periodic", 1); ("Lazy", 1); ("AutoEnable", 1); ("ApicVector", 8);
   ("DirectMode", 1); ("Reserved0", 3); ("Source", 4); ("Reserved1", 44)].

Definition set_page (r address : Z) (m : msrs) : msrs :=
  writemsr r (set_field HV_INTERRUPT_PAGE_REGISTER "BaseAddress" (Z.shiftr address PageShift)
                (set_field HV_INTERRUPT_PAGE_REGISTER "Enable" 1 (m r))) m.
Definition SetSynicMessagePage : Z -> msrs -> msrs := set_page SIMP.
Definition SetSynicEventPage : Z -> msrs -> msrs := set_page SIEFP.

Definition SetSintVector (sint vector : Z) (m : msrs) : msrs :=
  let r := SINT0 + sint in
  writemsr r (set_field HV_SINT_REGISTER "AutoEOI" 1 (set_field HV_SINT_REGISTER "Masked" 0
                (set_field HV_SINT_REGISTER "Vector" vector (m r)))) m.

Definition EnableSynic (m : msrs) : msrs :=
  writemsr SCONTROL (set_field HV_SCONTROL_REGISTER "Enabled" 1 (m SCONTROL)) m.

(** ** The reference clock *)

(** One turn of the loop of [ReadTsc]: what is read, in order. *)
Record tsc_turn := mkTurn { StartSequence : Z; Tsc : Z; Scale : Z; Offset : Z; EndSequence : Z }.

(** [ReadTsc]: the page is read until the sequence number has not changed; [turns] is what the
    successive reads see.  [_mul128] multiplies signed numbers. *)
Fixpoint ReadTsc (turns : list tsc_turn) : outcome Z :=
  match turns with
  | [] => Diverged
  | t :: turns =>
    _ ← Assert (truthy (StartSequence t));
    if EndSequence t =? StartSequence t
    then Ret (u64 (s64 (Tsc t) * s64 (Scale t) / 2 ^ 64 + Offset t))
    else ReadTsc turns
  end.

(** ** [HyperV::Initialize] *)

(** A C string stored in a buffer. *)
Fixpoint c_string (l : list Z) : list Z :=
  match l with [] => [] | c :: l => if c =? 0 then [] else c :: c_string l end.

Record cpu_info := mkInfo { m_vendor : list Z; m_isPresent : bool; m_featuresEax : Z; m_featuresEdx : Z; m_recommendationsEax : Z }.

Definition read_info (cpuid : Z -> Z * Z * Z * Z) : cpu_info :=
  let '(_, ebx, ecx, edx) := cpuid 0x40000000 in
  let vendor := c_string (le_to 4 ebx ++ le_to 4 ecx ++ le_to 4 edx) in
  let '(eax3, _, _, edx3) := cpuid 0x40000003 in
  let '(eax4, _, _, _) := cpuid 0x40000004 in
  mkInfo vendor (bool_decide (vendor = lit "Microsoft Hv")) eax3 edx3 eax4.

(** The registers, given the physical addresses of the four pages. *)
Definition Initialize (cpuid : Z -> Z * Z * Z * Z) (HypercallPage SynicEvents SynicMessages TscPage : Z)
    (turns : list tsc_turn) (m : msrs) : outcome (cpu_info * msrs) :=
  let info := read_info cpuid in
  let '(eax, _, _, _) := cpuid 0x40000001 in
  _ ← Assert (bool_decide (c_string (le_to 4 eax) = lit "Hv#1"));
  _ ← Assert (m_isPresent info);
  _ ← Assert (Z.testbit (m_featuresEdx info) 19);
  _ ← Assert (Z.testbit (m_featuresEax info) 9);
  _ ← Assert (negb (Z.testbit (m_recommendationsEax info) 9));
  let guestId := set_field GUEST_OS_ID_REG "OpenSource" 1 (set_field GUEST_OS_ID_REG "OSType" 1
                   (set_field GUEST_OS_ID_REG "OSID" 1 (set_field GUEST_OS_ID_REG "Version" 1
                      (set_field GUEST_OS_ID_REG "BuildNumber" 2 0)))) in
  let m := writemsr HV_X64_MSR_GUEST_OS_ID guestId m in
  let reg := m HV_X64_MSR_HYPERCALL in
  let m :=
    if get_field HV_HYPERCALL_REGISTER "Enabled" reg =? 0 then
      writemsr HV_X64_MSR_HYPERCALL
        (set_field HV_HYPERCALL_REGISTER "HypercallGPFN" (Z.shiftr HypercallPage PageShift)
           (set_field HV_HYPERCALL_REGISTER "Enabled" 1 reg)) m
    else m in
  let m := SetSynicMessagePage SynicMessages (SetSynicEventPage SynicEvents m) in
  let m := writemsr HV_X64_MSR_REFERENCE_TSC
             (set_field HV_REF_TSC_REG "GPAPageNumber" (Z.shiftr TscPage PageShift)
                (set_field HV_REF_TSC_REG "Enable" 1 (m HV_X64_MSR_REFERENCE_TSC))) m in
  _ ← ReadTsc turns;
  Ret (info, m).

(** ** HyperVTimer *)

Definition NumTimers : Z := 4.

Record HyperVTimer := mkTimer { m_timerId : Z; m_configRegister : Z; m_countRegister : Z }.

Definition new_HyperVTimer (timerId : Z) : HyperVTimer :=
  mkTimer timerId (u32 (HV_X64_MSR_STIMER0_CONFIG + timerId)) (u32 (HV_X64_MSR_STIMER0_COUNT + timerId)).

Definition Timer_Enable (t : HyperVTimer) (value vector : Z) (m : msrs) : outcome msrs :=
  _ ← Assert (m_timerId t <? NumTimers);
  let m := writemsr (m_countRegister t) (value / 100) m in
  let config := set_field HV_STIMER_CONFIG_REG "DirectMode" 1 (set_field HV_STIMER_CONFIG_REG "ApicVector" vector
                  (set_field HV_STIMER_CONFIG_REG "Periodic" 1 (set_field HV_STIMER_CONFIG_REG "AutoEnable" 1
                     (set_field HV_STIMER_CONFIG_REG "Enable" 1 0)))) in
  Ret (writemsr (m_configRegister t) config m).

Definition Timer_Disable (t : HyperVTimer) (m : msrs) : msrs :=
  writemsr (m_configRegister t) (set_field HV_STIMER_CONFIG_REG "Enable" 0 (m (m_configRegister t))) m.

(** ** HyperVDevice *)

(** The interface type of an offer: [guid_t]. *)
Record guid := mkGuid { Data1 : Z; Data2 : Z; Data3 : Z; Data4 : list Z }.

Definition hid_format : list Z := lit "{%08lX-%04hX-%04hX-%02hhX%02hhX-%02hhX%02hhX%02hhX%02hhX%02hhX%02hhX}".

(** The hardware identifier [Initialize] prints. *)
Definition device_hid (g : guid) : outcome (list Z) :=
  '(out, _) ← kvprintf narrow (Some hid_format) 10
                 (AInt (Data1 g) :: AInt (Data2 g) :: AInt (Data3 g) :: (AInt <$> Data4 g));
  Ret out.

Definition VMBUS_DEVICE_NAMES : list (string * string) :=
  [("{525074DC-8985-46E2-8057-A307DC18A502}", "Hyper-V Dynamic Memory");
   ("{F8E65716-3CB3-4A06-9A60-1889C5CCCAB5}", "Hyper-V Remote Desktop Control Channel");
   ("{CFA8B69E-5B4A-4CC0-B98B-8BA1A1F3F95A}", "Hyper-V Mouse");
   ("{F912AD6D-2B17-48EA-BD65-F927A61C7684}", "Hyper-V Keyboard");
   ("{DA0A7802-E377-4AAC-8E77-0558EB1073F8}", "Hyper-V Video");
   ("{3375BAF4-9E15-4B30-B765-67ACB10D607B}", "Hyper-V Activation Component");
   ("{57164F39-9115-4E78-AB55-382F3BD5422D}", "Hyper-V Heartbeat");
   ("{A9A0F4E7-5A45-4D96-B827-8A841E8C03E6}", "Hyper-V Data Exchange");
   ("{0E0B6031-5213-4934-818B-38D90CED39DB}", "Hyper-V Guest Shutdown");
   ("{9527E630-D0AE-497B-ADCE-E80AB0175CAF}", "Hyper-V Time Sync");
   ("{35FA2E29-EA23-4236-96AE-3A6EBACBA440}", "Hyper-V Volume Shadow Copy");
   ("{276AACF4-AC15-426C-98DD-7521AD3F01FE}", "Hyper-V Remote Desktop Virtualization");
   ("{F8615163-DF3E-46C5-913F-F2D2F965ED0E}", "Hyper-V Network Adapter");
   ("{BA6163D9-04A1-4D29-B605-72E2FFB1DC7F}", "Hyper-V SCSI Controller")].

(** [GetDeviceName]: the name, or [None] for [false]. *)
Fixpoint search_names (table : list (string * string)) (hid : list Z) : option string :=
  match table with
  | [] => None
  | (h, name) :: table => if bool_decide (hid = lit h) then Some name else search_names table hid
  end.

Definition GetDeviceName : list Z -> option string := search_names VMBUS_DEVICE_NAMES.

(** * Properties *)

(** ** Hardware identifiers *)

(** The value of hexadecimal text in upper case, and the GUID an identifier stands for. *)
Definition unhex (c : Z) : Z := if c <? 65 then c - 48 else c - 55.
Definition unhex_text (l : list Z) : Z := foldl (fun a c => a * 16 + unhex c) 0 l.

Definition parse_hid (l : list Z) : guid :=
  let f off n := unhex_text (take (Z.to_nat n) (drop (Z.to_nat off) l)) in
  mkGuid (f 1 8) (f 10 4) (f 15 4) [f 20 2; f 22 2; f 25 2; f 27 2; f 29 2; f 31 2; f 33 2; f 35 2].

Definition guid_ok (g : guid) : Prop :=
  0 <= Data1 g < 2 ^ 32 /\ 0 <= Data2 g < 2 ^ 16 /\ 0 <= Data3 g < 2 ^ 16 /\
  length (Data4 g) = 8%nat /\ Forall is_byte (Data4 g).

(** What [%0wX] prints. *)
Definition hexfield (w : nat) (v : Z) : list Z :=
  pad (Z.of_nat w - Z.of_nat (length (num_text true 16 v))) 48 ++ num_text true 16 v.

Lemma unhex_digit d : 0 <= d < 16 -> unhex (case_chr true d) = d /\ is_byte (case_chr true d).
Proof.
  intros Hd. pose proof (digit_cases (fun d => implb (d <? 16)
    (bool_decide (unhex (case_chr true d) = d /\ 0 <= case_chr true d < 256))) eq_refl d ltac:(lia)) as H.
  cbv beta in H. rewrite (proj2 (Z.ltb_lt d 16)) in H by lia. cbn [implb] in H. by apply bool_decide_eq_true in H.
Qed.

Lemma unhex_foldl ds a :
  Forall (fun d => 0 <= d < 16) ds ->
  foldl (fun a c => a * 16 + unhex c) a (case_chr true <$> ds) = mvalue 16 a ds.
Proof.
  intros H. revert a. induction H as [|d ds Hd _ IH]; intros a; [done |].
  cbn [fmap list_fmap foldl mvalue]. rewrite IH, (proj1 (unhex_digit d Hd)). done.
Qed.

Lemma unhex_zeros n l : unhex_text (repeat 48 n ++ l) = unhex_text l.
Proof. unfold unhex_text. rewrite foldl_app. f_equal. by induction n. Qed.

Lemma hexfield_spec w v :
  0 <= v < 16 ^ Z.of_nat w -> (0 < w <= 16)%nat ->
  length (hexfield w v) = w /\ unhex_text (hexfield w v) = v /\ Forall is_byte (hexfield w v).
Proof.
  intros Hv Hw. assert (16 ^ Z.of_nat w <= 16 ^ 16) by (apply Z.pow_le_mono_r; lia).
  change (16 ^ 16) with (2 ^ 64) in *.
  assert (num_text true 16 v = rev (case_chr true <$> ldigits w 16 v)) as E.
  { unfold num_text. by rewrite (ldigits_fuel w 64) by lia. }
  assert (Forall (fun d => 0 <= d < 16) (rev (ldigits w 16 v))) as Hr by (apply Forall_rev, ldigits_range; lia).
  pose proof (ldigits_length w 16 v) as Hl.
  unfold hexfield, pad. rewrite E, length_app, repeat_length, !length_rev, !length_fmap. split_and!.
  - lia.
  - rewrite unhex_zeros. unfold unhex_text. rewrite rev_fmap, unhex_foldl, mvalue_rev by done.
    apply ldigits_value; lia.
  - apply Forall_app. split; [apply List.Forall_forall; intros c ->%List.repeat_spec; unfold is_byte; lia |]. rewrite rev_fmap. apply Forall_fmap.
    eapply Forall_impl; [exact Hr |]. intros d Hd. apply (unhex_digit d Hd).
Qed.

(** [%0wX] of an argument the conversion leaves alone. *)
Lemma number_hex fl s w v :
  s.(bconv) = false -> s.(sign) = false -> s.(sharpflag) = false -> s.(ladjust) = false ->
  s.(padc) = 48 -> s.(upper) = true -> s.(width) = Z.of_nat w -> s.(dwidth) = 0 -> (0 < w <= 16)%nat ->
  0 <= v < 16 ^ Z.of_nat w -> number fl s v 16 [] = Ret (hexfield w v).
Proof.
  intros Hb Hs Hsh Hl Hp Hu Hw Hd Hr Hv.
  assert (16 ^ Z.of_nat w <= 16 ^ 16) by (apply Z.pow_le_mono_r; lia). change (16 ^ 16) with (2 ^ 64) in *.
  rewrite number_layout by (done || lia || (rewrite Hd; lia)).
  unfold number_prefix, precision, magnitude. rewrite Hs, Hsh, Hl, Hp, Hu. cbn [negb andb app length].
  change (48 =? 48) with true. cbv iota. rewrite Hw.
  destruct (hexfield_spec w v Hv Hr) as [Hlen _]. unfold hexfield in Hlen |- *.
  rewrite length_app in Hlen. unfold pad in Hlen |- *. rewrite repeat_length in Hlen. 
  assert (number_prefix s v 16 = []) as -> by (unfold number_prefix; by rewrite Hs, Hsh).
  set (n := length (num_text true 16 v)) in *. cbn [length].
  replace (Z.to_nat (Z.of_nat w - (_ + _))) with 0%nat by lia. rewrite app_nil_r.
  cbn [repeat app]. do 3 f_equal. lia.
Qed.

(** One pass through the switch, for the characters of the format. *)
Section Format.
Context (radix retval : Z) (fmt0 : list Z).
#[local] Abbreviation again := (fun fuel s fmt ap => reswitch fuel narrow radix retval fmt0 s fmt ap).

Lemma step_zero fuel s fmt ap : s.(dot) = false -> again (S fuel) s (48 :: fmt) ap = again fuel (set_padc 48 s) fmt ap.
Proof. intros H. cbn [reswitch]. rewrite H. reflexivity. Qed.

Lemma step_width fuel s w c fmt ap :
  s.(dot) = false -> 49 <= w <= 57 -> 58 <= c < 128 ->
  again (S fuel) s (w :: c :: fmt) ap = again fuel (set_width (w - 48) s) (c :: fmt) ap.
Proof.
  intros H Hw Hc. cbn [reswitch]. change (fl_fmt narrow w) with (u8 w). rewrite (wrap_small 8 w) by lia.
  rewrite H. repeat (rewrite (proj2 (Z.eqb_neq w _)) by lia). cbn [andb negb].
  rewrite !(proj2 (Z.leb_le _ _)) by lia. cbn [scan_number fl_char narrow andb].
  rewrite (swrap_small 8 c), (swrap_small 32) by lia. rewrite (proj2 (Z.ltb_lt 57 c)), orb_true_r by lia.
  by replace (0 * 10 + w - 48) with (w - 48) by lia.
Qed.

Lemma step_l fuel s fmt ap : s.(lflag) = false -> again (S fuel) s (108 :: fmt) ap = again fuel (set_long s.(qflag) true s) fmt ap.
Proof. intros H. cbn [reswitch]. rewrite H. reflexivity. Qed.

Lemma step_h fuel s fmt ap :
  again (S fuel) s (104 :: fmt) ap
  = again fuel (if s.(hflag) then set_half true false s else set_half s.(cflag) true s) fmt ap.
Proof. reflexivity. Qed.

Lemma step_X fuel s v fmt ap :
  again (S fuel) s (88 :: fmt) (AInt v :: ap) = conv_number narrow (set_conv s.(bconv) true s) false 16 fmt (AInt v :: ap).
Proof. reflexivity. Qed.

End Format.

Lemma conv_hex s w v fmt ap :
  s.(bconv) = false -> s.(sharpflag) = false -> s.(ladjust) = false -> s.(padc) = 48 ->
  s.(upper) = true -> s.(width) = Z.of_nat w -> s.(dwidth) = 0 -> (0 < w <= 16)%nat ->
  0 <= v < 16 ^ Z.of_nat w ->
  fetch_unsigned (set_adj false false false s.(dot) s) (AInt v :: ap) = Ret (v, ap) ->
  conv_number narrow s false 16 fmt (AInt v :: ap) = done_with (hexfield w v) fmt ap.
Proof.
  intros Hb Hs Hl Hp Hu Hw Hd Hr Hv Hf. unfold conv_number. rewrite Hl, Hs, Hf.
  cbn [mbind outcome_bind]. change (bconv (set_adj _ _ _ _ _)) with (bconv s). rewrite Hb. cbn [mbind outcome_bind].
  by rewrite (number_hex _ _ w) by done.
Qed.

Ltac hex_steps :=
  rewrite loop_percent by done; cbn [length];
  rewrite step_zero by done; rewrite step_width by (done || lia);
  repeat first [rewrite step_l by done | rewrite step_h]; cbn [hflag set_half set_width set_padc spec0 cflag];
  rewrite step_X.

Lemma loop_08lX fuel v rest ap out st :
  0 <= v < 2 ^ 32 ->
  kvprintf_loop (S fuel) narrow 10 (37 :: 48 :: 56 :: 108 :: 88 :: rest) (AInt v :: ap) false out st
  = kvprintf_loop fuel narrow 10 rest ap false (out ++ hexfield 8 v) (st ++ []).
Proof.
  intros Hv. hex_steps. rewrite (conv_hex _ 8); [reflexivity | done.. | lia | lia |].
  cbn -[wrap]. by rewrite (wrap_small 32).
Qed.

Lemma loop_04hX fuel v rest ap out st :
  0 <= v < 2 ^ 16 ->
  kvprintf_loop (S fuel) narrow 10 (37 :: 48 :: 52 :: 104 :: 88 :: rest) (AInt v :: ap) false out st
  = kvprintf_loop fuel narrow 10 rest ap false (out ++ hexfield 4 v) (st ++ []).
Proof.
  intros Hv. hex_steps. rewrite (conv_hex _ 4); [reflexivity | done.. | lia | lia |].
  cbn -[wrap swrap]. by rewrite (swrap_small 32), (wrap_small 16) by lia.
Qed.

Lemma loop_02hhX fuel v rest ap out st :
  is_byte v ->
  kvprintf_loop (S fuel) narrow 10 (37 :: 48 :: 50 :: 104 :: 104 :: 88 :: rest) (AInt v :: ap) false out st
  = kvprintf_loop fuel narrow 10 rest ap false (out ++ hexfield 2 v) (st ++ []).
Proof.
  unfold is_byte. intros Hv. hex_steps. rewrite (conv_hex _ 2); [reflexivity | done.. | lia | lia |].
  cbn -[wrap swrap]. by rewrite (swrap_small 32), (wrap_small 8) by lia.
Qed.

Lemma loop_char fuel c rest ap out st :
  0 <= c < 128 -> c <> 37 ->
  kvprintf_loop (S fuel) narrow 10 (c :: rest) ap false out st
  = kvprintf_loop fuel narrow 10 rest ap false (out ++ [c]) st.
Proof.
  intros Hc Hn. cbn [kvprintf_loop]. change (fl_fmt narrow c) with (u8 c).
  rewrite (wrap_small 8) by lia. by rewrite (proj2 (Z.eqb_neq c 37)).
Qed.

Lemma hexfield_plain w v :
  0 <= v < 16 ^ Z.of_nat w -> (0 < w <= 16)%nat -> Forall (plain narrow) (hexfield w v).
Proof.
  intros Hv Hw. eapply Forall_impl; [apply (hexfield_spec w v Hv Hw) |].
  intros c Hc. split; apply (wrap_small 8); exact Hc.
Qed.

Lemma device_hid_fields g :
  guid_ok g ->
  device_hid g = Ret ([123] ++ hexfield 8 (Data1 g) ++ [45] ++ hexfield 4 (Data2 g) ++ [45] ++ hexfield 4 (Data3 g) ++ [45] ++
    hexfield 2 (nth 0 (Data4 g) 0) ++ hexfield 2 (nth 1 (Data4 g) 0) ++ [45] ++ hexfield 2 (nth 2 (Data4 g) 0) ++
    hexfield 2 (nth 3 (Data4 g) 0) ++ hexfield 2 (nth 4 (Data4 g) 0) ++ hexfield 2 (nth 5 (Data4 g) 0) ++
    hexfield 2 (nth 6 (Data4 g) 0) ++ hexfield 2 (nth 7 (Data4 g) 0) ++ [125]).
Proof.
  intros (H1 & H2 & H3 & Hl & Hb). destruct g as [d1 d2 d3 d4]. cbn [Data1 Data2 Data3 Data4] in *.
  do 8 (destruct d4 as [|? d4]; [discriminate Hl |]). destruct d4; [| discriminate Hl].
  repeat (apply Forall_cons in Hb as [? Hb]). clear Hb Hl.
  unfold device_hid, kvprintf. cbn [fmap list_fmap Data1 Data2 Data3 Data4 nth].
  let f := eval vm_compute in hid_format in change hid_format with f.
  cbn [default from_option id length]. change ((10 <? 2) || (36 <? 10)) with false. cbv iota.
  repeat first [rewrite loop_08lX by done | rewrite loop_04hX by done | rewrite loop_02hhX by done
               | rewrite loop_char by lia].
  cbn [kvprintf_loop mbind outcome_bind]. rewrite <- !app_assoc, app_nil_l, stored_plain; [done |].
  unfold is_byte in *.
  rewrite !Forall_app; split_and!;
    first [apply hexfield_plain; lia | apply Forall_singleton; split; reflexivity].
Qed.

(** Fact: the hardware identifier the bus prints for an offer says exactly which device it is:
    it has 38 characters, and reading its hexadecimal fields back gives the GUID of the
    interface, so two interfaces never share an identifier. *)
Theorem device_hid_parses g :
  guid_ok g -> exists hid, device_hid g = Ret hid /\ length hid = 38%nat /\ parse_hid hid = g.
Proof.
  intros Hg. rewrite device_hid_fields by done. eexists. split; [done |].
  destruct Hg as (H1 & H2 & H3 & Hl & Hb). destruct g as [d1 d2 d3 d4]. cbn [Data1 Data2 Data3 Data4] in *.
  do 8 (destruct d4 as [|? d4]; [discriminate Hl |]). destruct d4; [| discriminate Hl].
  repeat (apply Forall_cons in Hb as [? Hb]). clear Hb Hl. unfold is_byte in *. cbn [nth].
  repeat match goal with
  | |- context [hexfield ?w ?v] =>
    destruct (hexfield_spec w v ltac:(lia) ltac:(lia)) as (? & ? & _); generalize dependent (hexfield w v)
  end.
  intros. repeat match goal with
  | H : length ?l = S _ |- _ => destruct l; [discriminate H | injection H as H]
  | H : length ?l = 0%nat |- _ => apply nil_length_inv in H; subst l
  end.
  split; [done |]. unfold parse_hid. cbn in *. unfold unhex_text in *. cbn in *. by subst.
Qed.

Lemma device_hid_parses_witness :
  exists hid, device_hid (mkGuid 0xCFA8B69E 0x5B4A 0x4CC0 [0xB9; 0x8B; 0x8B; 0xA1; 0xA1; 0xF3; 0xF9; 0x5A]) = Ret hid /\
    length hid = 38%nat /\
    parse_hid hid = mkGuid 0xCFA8B69E 0x5B4A 0x4CC0 [0xB9; 0x8B; 0x8B; 0xA1; 0xA1; 0xF3; 0xF9; 0x5A].
Proof. apply device_hid_parses. repeat split; cbn; try lia. repeat constructor; cbn; lia. Defined.

(** Fact: every device of the table is found by the identifier its own GUID prints. *)
Theorem devices_are_named :
  Forall (fun row => (hid ← device_hid (parse_hid (lit row.1)); Ret (GetDeviceName hid)) = Ret (Some row.2))
    VMBUS_DEVICE_NAMES.
Proof. repeat constructor. Qed.

(** ** The scan of the event flags *)

Section Scan.
#[local] Set Default Proof Using "All".
Context (page : list Z) (base : nat).
Hypothesis page_bytes : Forall is_byte page.
Hypothesis page_long : (base + 259 <= length page)%nat.

(** A flag of the source's own 256 bytes. *)
Definition flag_set (i : Z) : bool := Z.testbit (nth (base + Z.to_nat (i / 8)) page 0) (i mod 8).

(** The three bytes behind a byte are zero: only then does the exchange find what it compares
    with. *)
Definition alone (off : nat) : bool :=
  (nth (off + 1) page 0 =? 0) && (nth (off + 2) page 0 =? 0) && (nth (off + 3) page 0 =? 0).

(** The page when the scan has reached flag [i]. *)
Definition scanned (i : Z) : list Z :=
  imap (fun off f => if (base <=? off)%nat && (off <? base + 256)%nat && alone off
                     then Z.ldiff f (Z.ones (Z.max 0 (i - 8 * Z.of_nat (off - base)))) else f) page.

Lemma byte_at off : (off < length page)%nat -> page !! off = Some (nth off page 0) /\ 0 <= nth off page 0 < 256.
Proof.
  intros H. apply lookup_lt_is_Some_2 in H as [x Hx]. rewrite (nth_lookup_Some _ _ _ _ Hx). split; [done |].
  rewrite Forall_lookup in page_bytes. exact (page_bytes _ _ Hx).
Qed.

Lemma scanned_lookup i off : (off < length page)%nat ->
  scanned i !! off = Some (if (base <=? off)%nat && (off <? base + 256)%nat && alone off
    then Z.ldiff (nth off page 0) (Z.ones (Z.max 0 (i - 8 * Z.of_nat (off - base)))) else nth off page 0).
Proof. intros H. unfold scanned. rewrite list_lookup_imap, (proj1 (byte_at off H)). done. Qed.

Lemma scanned_later i off :
  (off < length page)%nat -> (off < base)%nat \/ i <= 8 * Z.of_nat (off - base) -> scanned i !! off = Some (nth off page 0).
Proof.
  intros Hl H. rewrite scanned_lookup by done. destruct (Nat.leb_spec base off); cbn [andb]; [| done].
  replace (Z.max 0 _) with 0 by lia. rewrite Z.ones_equiv, Z.pow_0_r. cbn [Z.pred]. rewrite Z.ldiff_0_r.
  by case_match.
Qed.

Lemma ldiff_byte f m : 0 <= f < 256 -> 8 <= m -> Z.ldiff f (Z.ones m) = 0.
Proof.
  intros Hf Hm. rewrite <- (Z.mod_small f (2 ^ 8)), <- Z.land_ones by lia.
  apply Z.bits_inj_iff'. intros k Hk. rewrite Z.ldiff_spec, Z.land_spec, Z.bits_0, !Z.testbit_ones_nonneg by lia.
  destruct (Z.ltb_spec k 8), (Z.ltb_spec k m); try lia; cbn; by rewrite ?andb_false_r.
Qed.

Lemma ldiff_range f m : 0 <= f < 256 -> 0 <= Z.ldiff f m < 256.
Proof.
  intros Hf. assert (Z.ldiff f m = Z.ldiff f m mod 2 ^ 8) as ->; [| apply Z.mod_pos_bound; lia].
  rewrite <- (Z.mod_small f (2 ^ 8)) at 1 by lia. rewrite <- !Z.land_ones by lia.
  apply Z.bits_inj_iff'. intros k Hk. rewrite !Z.land_spec, !Z.ldiff_spec, Z.land_spec.
  by destruct (Z.testbit f k), (Z.testbit (Z.ones 8) k), (Z.testbit m k).
Qed.

Lemma ldiff_next f b : 0 <= b -> Z.ldiff f (Z.ones (b + 1)) = Z.land (Z.ldiff f (Z.ones b)) (Z.lnot (Z.shiftl 1 b)).
Proof.
  intros Hb. apply Z.bits_inj_iff'. intros k Hk.
  rewrite Z.land_spec, !Z.ldiff_spec, Z.lnot_spec, Z.shiftl_spec, !Z.testbit_ones_nonneg by lia.
  destruct (Z.ltb_spec k b), (Z.ltb_spec k (b + 1)); try lia; cbn [negb]; rewrite ?andb_false_r, ?andb_true_r; cbn [andb]; try done.
  - replace (k - b) with 0 by lia. by rewrite andb_false_r.
  - destruct (Z.eqb_spec k b); [lia |]. rewrite (Z.bits_above_log2 1 (k - b)) by (cbn; lia). by rewrite andb_true_r.
Qed.

(** From one flag to the next only the byte of the flag changes, and only if it stands alone. *)
Lemma scanned_next off b :
  (base <= off < base + 256)%nat -> 0 <= b < 8 ->
  scanned (8 * Z.of_nat (off - base) + b + 1)
  = (if alone off then <[off := Z.ldiff (nth off page 0) (Z.ones (b + 1))]> else id) (scanned (8 * Z.of_nat (off - base) + b)).
Proof.
  intros Ho Hb. apply list_eq. intros j. destruct (decide (j < length page)%nat) as [Hj | Hj].
  2: { assert (forall i, length (scanned i) = length page) as Hl by (intros; apply length_imap).
       rewrite !lookup_ge_None_2; [done | |]; [destruct (alone off); cbn; rewrite ?length_insert |]; rewrite Hl; lia. }
  rewrite scanned_lookup by done.
  assert (forall i, i <= 0 -> Z.ldiff (nth j page 0) (Z.ones (Z.max 0 i)) = nth j page 0) as H0.
  { intros. replace (Z.max 0 i) with 0 by lia. apply Z.ldiff_0_r. }
  assert (forall i, 8 <= i -> Z.ldiff (nth j page 0) (Z.ones (Z.max 0 i)) = 0) as H8.
  { intros. apply ldiff_byte; [apply byte_at; done | lia]. }
  destruct (decide (j = off)) as [-> | Hne].
  - destruct (Nat.leb_spec base off), (Nat.ltb_spec off (base + 256)); try lia. cbn [andb].
    destruct (alone off) eqn:Ea.
    + rewrite list_lookup_insert_eq by (unfold scanned; rewrite length_imap; done).
      do 3 f_equal. lia.
    + cbn [id]. rewrite scanned_lookup by done. by rewrite Ea, andb_false_r.
  - assert ((if alone off then <[off := Z.ldiff (nth off page 0) (Z.ones (b + 1))]> else id)
              (scanned (8 * Z.of_nat (off - base) + b)) !! j = scanned (8 * Z.of_nat (off - base) + b) !! j) as ->
      by (destruct (alone off); [by rewrite list_lookup_insert_ne | done]).
    rewrite scanned_lookup by done. do 2 f_equal.
    destruct (Nat.leb_spec base j); cbn [andb]; [| done].
    destruct (lt_dec j off); [rewrite !H8 by lia | rewrite !H0 by lia]; done.
Qed.

Lemma exchange_run off b c :
  (base <= off < base + 256)%nat -> 0 <= b < 8 -> 0 <= c < 256 ->
  let i := 8 * Z.of_nat (off - base) + b in
  let x := if alone off then Z.ldiff (nth off page 0) (Z.ones b) else nth off page 0 in
  0 <= x < 256 /\
  InterlockedCompareExchange off c x (scanned i)
  = Ret ((if alone off then <[off := c]> else id) (scanned i)).
Proof.
  intros Ho Hb Hc i x.
  assert (scanned i !! off = Some x) as Hx.
  { rewrite scanned_lookup by lia. unfold x, i.
    destruct (Nat.leb_spec base off), (Nat.ltb_spec off (base + 256)); try lia. cbn [andb].
    replace (Z.max 0 _) with b by lia. done. }
  assert (0 <= x < 256) as Hxb.
  { pose proof (proj2 (byte_at off ltac:(lia))) as Hf. unfold x. destruct (alone off); [| done].
    by apply ldiff_range. }
  split; [done |].
  assert (forall k, (0 < k <= 3)%nat -> scanned i !! (off + k)%nat = Some (nth (off + k) page 0)) as Hn.
  { intros k Hk. apply scanned_later; unfold i; lia. }
  unfold InterlockedCompareExchange.
  rewrite (drop_S _ x off Hx).
  rewrite (drop_S _ _ (S off)) by (rewrite <- (Hn 1%nat) by lia; f_equal; lia).
  rewrite (drop_S _ _ (S (S off))) by (rewrite <- (Hn 2%nat) by lia; f_equal; lia).
  rewrite (drop_S _ _ (S (S (S off)))) by (rewrite <- (Hn 3%nat) by lia; f_equal; lia).
  cbn [take length Nat.ltb Nat.leb le_of].
  pose proof (proj2 (byte_at (off + 1) ltac:(lia))) as B1. pose proof (proj2 (byte_at (off + 2) ltac:(lia))) as B2.
  pose proof (proj2 (byte_at (off + 3) ltac:(lia))) as B3.
  change (le_of (take 0 _)) with 0. unfold alone.
  destruct (Z.eqb_spec (nth (off + 1) page 0) 0) as [E1 | N1]; cbn [andb].
  1: destruct (Z.eqb_spec (nth (off + 2) page 0) 0) as [E2 | N2]; cbn [andb].
  1: destruct (Z.eqb_spec (nth (off + 3) page 0) 0) as [E3 | N3].
  2-4: rewrite (proj2 (Z.eqb_neq _ x)); [done |]; unfold swrap; intros E; Z.div_mod_to_equations; lia.
  rewrite E1, E2, E3. replace (x + _) with x by lia. rewrite (swrap_small 32), Z.eqb_refl by lia.
  rewrite (wrap_small 32) by lia.
  assert (le_to 4 c = [c; 0; 0; 0]) as -> by (cbn [le_to]; by rewrite (Z.mod_small c), (Z.div_small c) by lia).
  cbn [list_inserts].
  assert (forall k, (0 < k <= 3)%nat -> scanned i !! (off + k)%nat = Some 0) as Hz.
  { intros k Hk. rewrite Hn by done. f_equal. destruct k as [|[|[|[|k]]]]; try lia; done. }
  rewrite (list_insert_id _ (S (S (S off)))) by (rewrite <- (Hz 3%nat) by lia; f_equal; lia).
  rewrite (list_insert_id _ (S (S off))) by (rewrite <- (Hz 2%nat) by lia; f_equal; lia).
  rewrite (list_insert_id _ (S off)) by (rewrite <- (Hz 1%nat) by lia; f_equal; lia). done.
Qed.

Lemma scan_step n i ids :
  0 <= i < 2048 ->
  scan_flags (S n) base i (scanned i) ids
  = scan_flags n base (i + 1) (scanned (i + 1)) (ids ++ if flag_set i then [i] else []).
Proof.
  intros Hi. set (off := (base + Z.to_nat (i / 8))%nat). set (b := i mod 8).
  assert (0 <= i / 8 < 256) as Hq by (split; [apply Z.div_pos | apply Z.div_lt_upper_bound]; lia).
  assert (0 <= b < 8) as Hb by (apply Z.mod_pos_bound; lia).
  assert (i = 8 * Z.of_nat (off - base) + b) as Ei
    by (unfold off, b; replace (Z.of_nat _) with (i / 8) by lia; apply Z.div_mod; lia).
  assert (base <= off < base + 256)%nat as Ho by (unfold off; lia).
  destruct (exchange_run off b 0 Ho Hb ltac:(lia)) as [Hx _]. pose proof (scanned_next off b Ho Hb) as Hnext.
  cbn [scan_flags]. rewrite (wrap_small 8 (i / 8)), (wrap_small 8 (i mod 8)) by (fold b; lia). fold b off.
  set (x := if alone off then Z.ldiff (nth off page 0) (Z.ones b) else nth off page 0) in *.
  assert (scanned i !! off = Some x) as ->.
  { rewrite Ei, scanned_lookup by lia. unfold x.
    destruct (Nat.leb_spec base off), (Nat.ltb_spec off (base + 256)); try lia. cbn [andb].
    replace (Z.max 0 _) with b by lia. done. }
  assert (0 < Z.shiftl 1 b < 256) as Hs.
  { rewrite Z.shiftl_1_l. split; [lia |]. apply Z.pow_lt_mono_r with (c := 8) (a := 2); lia. }
  rewrite (wrap_small 8 (Z.shiftl 1 b)) by lia.
  assert (Z.testbit x b = flag_set i) as Hbit.
  { unfold x, flag_set. fold b off. destruct (alone off); [| done].
    rewrite Z.ldiff_spec, Z.testbit_ones_nonneg by lia. destruct (Z.ltb_spec b b); [lia |]. by rewrite andb_true_r. }
  assert ((Z.land x (Z.shiftl 1 b) =? 0) = negb (flag_set i)) as ->.
  { rewrite <- Hbit, Z.shiftl_1_l. apply truthy_bit. lia. }
  assert (0 <= Z.land x (Z.lnot (Z.shiftl 1 b)) < 256) as Hc
    by (rewrite <- Z.ldiff_land; by apply ldiff_range).
  rewrite (wrap_small 8 (Z.land _ _)) by lia.
  assert (scanned (i + 1) = (if alone off then <[off := Z.land x (Z.lnot (Z.shiftl 1 b))]> else id) (scanned i)) as ->.
  { rewrite Ei at 1. rewrite Hnext, <- Ei. unfold x. destruct (alone off); [| done]. by rewrite ldiff_next by lia. }
  destruct (exchange_run off b _ Ho Hb Hc) as [_ Hrun]. rewrite <- Ei in Hrun. fold x in Hrun.
  destruct (flag_set i) eqn:Hf; cbn [negb].
  - rewrite Hrun. reflexivity.
  - rewrite app_nil_r. f_equal. destruct (alone off) eqn:Ea; [| done]. symmetry. apply list_insert_id.
    rewrite Ei, scanned_lookup, Ea by lia.
    destruct (Nat.leb_spec base off), (Nat.ltb_spec off (base + 256)); try lia. cbn [andb].
    replace (Z.max 0 _) with b by lia. f_equal. unfold x. symmetry.
    rewrite <- Z.ldiff_land, Z.shiftl_1_l. apply Z.bits_inj_iff'. intros k Hk. rewrite Z.ldiff_spec.
    destruct (Z.eqb_spec k b) as [-> |]; [by unfold x in Hbit; rewrite Hbit |].
    rewrite Z.pow2_bits_false by lia. apply andb_true_r.
Qed.

Lemma scan_run n : forall i ids, 0 <= i -> i + Z.of_nat n <= 2048 ->
  scan_flags n base i (scanned i) ids = Ret (ids ++ filter (fun i => flag_set i = true) (seqZ i (Z.of_nat n)), scanned (i + Z.of_nat n)).
Proof.
  induction n as [|n IH]; intros i ids Hi Hn.
  - cbn. by rewrite app_nil_r, Z.add_0_r.
  - rewrite scan_step by lia. rewrite IH by lia. rewrite (seqZ_cons i) by lia.
    replace (Z.pred (Z.of_nat (S n))) with (Z.of_nat n) by lia. replace (Z.succ i) with (i + 1) by lia.
    rewrite filter_cons, <- app_assoc. do 3 f_equal; [by destruct (flag_set i) | lia].
Qed.

Lemma scanned_0 : scanned 0 = page.
Proof.
  apply list_eq. intros j. destruct (decide (j < length page)%nat) as [Hj | Hj].
  - rewrite scanned_later by lia. by rewrite (proj1 (byte_at j Hj)).
  - rewrite !lookup_ge_None_2; [done | lia |]. unfold scanned. rewrite length_imap. lia.
Qed.

Lemma scanned_end off : (off < length page)%nat ->
  scanned 2048 !! off = Some (if (base <=? off)%nat && (off <? base + 256)%nat && alone off then 0 else nth off page 0).
Proof.
  intros Hj. rewrite scanned_lookup by done. f_equal.
  destruct (Nat.leb_spec base off), (Nat.ltb_spec off (base + 256)); try done. cbn [andb].
  destruct (alone off); [| done]. apply ldiff_byte; [apply byte_at; done | lia].
Qed.

End Scan.

(** C9: an interrupt of a synthetic source below 15, with a message of a known type or none in its slot, is
    collected completely: the channels are exactly the set
    flags of the source, each once and in ascending order; a message in the slot is appended
    to the queue and the slot is freed, and the end of the message is signalled just when
    another is pending.  A flag byte is cleared just when the three bytes behind it are zero
    (the exchange is one of 32 bits): the flags before a later set flag are reported again by
    the next interrupt. *)
Theorem interrupts_are_collected sint queue s message :
  Forall is_byte (SynicEvents s) -> length (SynicEvents s) = 4096%nat -> (sint < 15)%nat ->
  SynicMessages s !! sint = Some message -> 0 <= MessageType message < CHANNELMSG_COUNT ->
  let base := (sint * 256)%nat in
  exists events,
    ProcessInterrupts sint queue s
    = Ret (filter (fun i => flag_set (SynicEvents s) base i = true) (seqZ 0 2048),
           queue ++ (if MessageType message =? 0 then [] else [message]),
           mkSynic events (<[sint := mkMessage 0 (MessagePending message) (Payload message)]> (SynicMessages s)),
           negb (MessageType message =? 0) && MessagePending message) /\
    length events = 4096%nat /\
    forall off f, SynicEvents s !! off = Some f ->
      events !! off = Some (if (base <=? off)%nat && (off <? base + 256)%nat && alone (SynicEvents s) off then 0 else f).
Proof.
  intros Hb Hl Hs Hm Ht base. exists (scanned (SynicEvents s) base 2048).
  assert (base + 259 <= length (SynicEvents s))%nat as Hlong by (unfold base; lia). split_and!.
  - unfold ProcessInterrupts. change (Z.to_nat HV_EVENT_FLAGS_BYTE_COUNT) with 256%nat. fold base.
    rewrite <- (scanned_0 _ base Hb Hlong) at 1. rewrite scan_run by (done || vm_compute; done).
    cbn [mbind outcome_bind app]. rewrite Hm. change (0 + _) with 2048. change (Z.of_nat _) with 2048.
    assert (Z.land (MessageType message) HV_MESSAGE_TYPE_HYPERVISOR_MASK = 0) as ->.
    { apply Z.bits_inj_iff'. intros k Hk. rewrite Z.land_spec, Z.bits_0.
      change HV_MESSAGE_TYPE_HYPERVISOR_MASK with (2 ^ 31). unfold CHANNELMSG_COUNT in Ht.
      rewrite <- (Z.mod_small (MessageType message) (2 ^ 5)) by lia.
      destruct (Z.ltb_spec k 5); [rewrite (Z.pow2_bits_false 31) by lia; apply andb_false_r |].
      by rewrite Z.mod_pow2_bits_high by lia. }
    rewrite (proj2 (Z.ltb_lt _ _)) by lia. cbn [Z.eqb Assert mbind outcome_bind]. unfold HvMessageTypeNone.
    destruct (Z.eqb_spec (MessageType message) 0) as [E | _]; cbn [negb andb]; [| done].
    rewrite app_nil_r, list_insert_id; [done |]. rewrite Hm. f_equal. destruct message. cbn in *. by subst.
  - unfold scanned. by rewrite length_imap.
  - intros off f Hf. pose proof (lookup_lt_Some _ _ _ Hf).
    rewrite scanned_end by done. by rewrite (nth_lookup_Some _ _ _ _ Hf).
Qed.

(** Source 2 with the flags 16 and 18 set and an offer in its slot. *)
Definition demo_synic : synic :=
  mkSynic (<[514%nat := 5]> (replicate 4096 0)) (<[2%nat := mkMessage 1 true [1; 0; 0; 0]]> (replicate 16 (mkMessage 0 false []))).

Lemma interrupts_are_collected_witness :
  exists s', ProcessInterrupts 2 [] demo_synic = Ret ([16; 18], [mkMessage 1 true [1; 0; 0; 0]], s', true).
Proof.
  destruct (interrupts_are_collected 2 [] demo_synic (mkMessage 1 true [1; 0; 0; 0])) as (ev & H & _).
  - apply Forall_insert; [apply Forall_replicate; cbv; split; [discriminate | reflexivity] | cbv; split; [discriminate | reflexivity]].
  - reflexivity.
  - repeat constructor.
  - reflexivity.
  - cbv. split; [discriminate | reflexivity].
  - eexists. etransitivity; [exact H |]. vm_compute. reflexivity.
Defined.

(** ** What the hypervisor is told *)

Lemma read_inserts (off : nat) (new l : list Z) :
  (off + length new <= length l)%nat -> take (length new) (drop off (list_inserts off new l)) = new.
Proof.
  intros Hl. apply list_eq. intros k. destruct (decide (k < length new)%nat) as [Hk | Hk].
  - rewrite lookup_take_lt, lookup_drop, list_lookup_inserts by lia. f_equal. lia.
  - rewrite !lookup_ge_None_2; [done | lia |]. rewrite length_take. lia.
Qed.

Lemma read_other_inserts (off off' n : nat) (new l : list Z) :
  (off + n <= off')%nat \/ (off' + length new <= off)%nat ->
  take n (drop off (list_inserts off' new l)) = take n (drop off l).
Proof.
  intros Hd. apply list_eq. intros k. destruct (decide (k < n)%nat) as [Hk | Hk].
  - rewrite !lookup_take_lt, !lookup_drop by done.
    destruct Hd; [apply list_lookup_inserts_lt | apply list_lookup_inserts_ge]; lia.
  - by rewrite !lookup_take_ge by lia.
Qed.

Lemma read_le (off n : nat) v (l : list Z) :
  (off + n <= length l)%nat -> 0 <= v < 256 ^ Z.of_nat n ->
  le_of (take n (drop off (list_inserts off (le_to n v) l))) = v.
Proof.
  intros Hl Hv. rewrite <- (le_of_to n v) at 2 by done. f_equal.
  rewrite <- (le_to_length n v) at 1. apply read_inserts. by rewrite le_to_length.
Qed.

(** Fact: a posted message reaches the hypervisor as it was given: the identifier, the type,
    the length and the bytes, where the input page has them. *)
Theorem post_input_reads ConnectionId MessageType Message page :
  length page = 4096%nat -> Z.of_nat (length Message) <= HV_MESSAGE_PAYLOAD_BYTE_COUNT ->
  0 <= ConnectionId < 2 ^ 32 -> 0 <= MessageType < 2 ^ 32 ->
  let l := post_input ConnectionId MessageType Message page in
  le_of (take 4 (drop 0 l)) = ConnectionId /\ le_of (take 4 (drop 8 l)) = MessageType /\
  le_of (take 4 (drop 12 l)) = Z.of_nat (length Message) /\ take (length Message) (drop 16 l) = Message.
Proof.
  intros Hp Hm Hc Ht l. unfold HV_MESSAGE_PAYLOAD_BYTE_COUNT in Hm. unfold l, post_input. split_and!.
  - do 3 rewrite read_other_inserts by (cbn; lia). apply read_le; cbn; lia.
  - do 2 rewrite read_other_inserts by (cbn; lia). apply read_le; rewrite ?length_inserts; cbn; lia.
  - rewrite read_other_inserts by (cbn; lia). apply read_le; rewrite ?length_inserts; cbn; lia.
  - apply read_inserts. rewrite !length_inserts. lia.
Qed.

(** Fact: the reference time is computed from one consistent reading of the page: turns whose
    sequence number changed are repeated, and the result is the scaled counter of the first
    that did not. *)
Theorem ReadTsc_is_consistent unstable t rest :
  Forall (fun t => StartSequence t <> 0 /\ EndSequence t <> StartSequence t) unstable ->
  StartSequence t <> 0 -> EndSequence t = StartSequence t ->
  ReadTsc (unstable ++ t :: rest) = Ret (u64 (s64 (Tsc t) * s64 (Scale t) / 2 ^ 64 + Offset t)).
Proof.
  intros Hu Ht He. induction Hu as [|x l [Hx Hn] _ IH]; cbn [app ReadTsc]; unfold truthy.
  - rewrite (proj2 (Z.eqb_neq _ _) Ht), He, Z.eqb_refl. done.
  - rewrite (proj2 (Z.eqb_neq _ _) Hx), (proj2 (Z.eqb_neq _ _) Hn). exact IH.
Qed.

(** Fact: the registers of a timer are computed with a stride of one, but configuration and
    count registers alternate: the configuration register of each timer but the first is the
    count register of the one before, so that enabling timer 1 sets the count of timer 0. *)
Theorem timers_collide k value vector m :
  0 <= k < 3 ->
  m_configRegister (new_HyperVTimer (k + 1)) = m_countRegister (new_HyperVTimer k) /\
  (k = 0 -> exists m', Timer_Enable (new_HyperVTimer 1) value vector m = Ret m' /\
     get_field HV_STIMER_CONFIG_REG "Enable" (m' HV_X64_MSR_STIMER0_COUNT) = 1).
Proof.
  intros Hk. split.
  - unfold new_HyperVTimer, HV_X64_MSR_STIMER0_CONFIG, HV_X64_MSR_STIMER0_COUNT. cbn. f_equal. lia.
  - intros _. eexists. split; [reflexivity |].
    unfold writemsr. change (m_configRegister (new_HyperVTimer 1)) with HV_X64_MSR_STIMER0_COUNT. rewrite Z.eqb_refl.
    unfold set_field, get_field. cbn [field_at HV_STIMER_CONFIG_REG String.eqb Ascii.eqb Bool.eqb].
    rewrite !get_set_bits_other by lia. reflexivity.
Qed.
