(* ===== verification/VmBus.v ===== *)
(** The Hyper-V bus: its driver, the opening of channels and the mouse behind it.

    Models src/src/kernel/drivers/HyperV/VMBusDriver.cpp and VmBusDriver.h, the set-up of a
    channel in HyperVChannel.cpp and the messages of HyperVMouseDriver.cpp (its packets are in
    HvRing).  The driver's state is a record; the queue and the semaphore that counts it are
    kept apart from the rest, [bus_core].  Code that waits is split where it waits: the
    driver's thread into [ThreadLoop_wait] and [ThreadLoop_handle], [PostMessage] into what it
    does before and after the wait for its event.  The event is a local variable of
    [PostMessage] and the response one of its caller: both are cells ([frames], [responses])
    that a request points to, and an access to a cell that is gone is a [Fault].  The
    callbacks of channels are a parameter, run on a world of their own.

    [kernel.KeWait] is used here and declared nowhere in the sources, so it is a parameter too
    ([KernelWait]).  The theorems about the driver assume that it waits until the object is
    signalled ([WaitBlocks]); the scheduler's own wait would not do for it, because its
    default time-out is over at once (Scheduler), and with such a wait the driver's thread stops the
    machine in its first turn ([returning_wait_stops]). *)
From Stdlib Require Import String.
From S2P Require Import Prelude OSSystem CMemory Objects HvPlatform.
From S2P Require Scheduler.
#[local] Open Scope list_scope.
#[local] Open Scope Z_scope.

(** ** Constants *)

Definition CHANNELMSG_OFFERCHANNEL : Z := 1.
Definition CHANNELMSG_REQUESTOFFERS : Z := 3.
Definition CHANNELMSG_ALLOFFERS_DELIVERED : Z := 4.
Definition CHANNELMSG_OPENCHANNEL : Z := 5.
Definition CHANNELMSG_OPENCHANNEL_RESULT : Z := 6.
Definition CHANNELMSG_GPADL_HEADER : Z := 8.
Definition CHANNELMSG_GPADL_CREATED : Z := 10.
Definition CHANNELMSG_INITIATE_CONTACT : Z := 14.
Definition CHANNELMSG_VERSION_RESPONSE : Z := 15.
Definition VERSION_WIN10_V5_2 : Z := Z.lor (Z.shiftl 5 16) 2.
Definition VMBUS_MESSAGE_SINT : nat := 2.
Definition VMBUS_MESSAGE_CONNECTION_ID_4 : Z := 4.
Definition MAX_USER_DEFINED_BYTES : Z := 120.
Definition MAX_SIZE_CHANNEL_MESSAGE : Z := HV_MESSAGE_PAYLOAD_BYTE_COUNT.
Definition sizeof_vmbus_channel_offer_channel : nat := 196.
Definition sizeof_vmbus_channel_gpadl_created : nat := 20.
Definition sizeof_vmbus_channel_open_result : nat := 20.

(** ** Waiting *)

(** [kernel.KeWait] on an object as it is: [None] while the thread waits, or the status it returns
    with and what it leaves of the object. *)
Class KernelWait (O : Type) := KeWait : O -> option (outcome (Scheduler.WaitStatus * O)).

(** It returns when the object is signalled, which it observes, and not before. *)
Class WaitBlocks (O : Type) `{KSignalObject O} `{KernelWait O} :=
  KeWait_blocks : forall o : O,
    KeWait o = if IsSignalled o then Some (o ← Observed o; Ret (Scheduler.Signaled, o)) else None.

(** ** The driver's state *)

Record BusRequest := mkRequest { Gpadl : Z; child_relid : Z; openid : Z; Event : nat; Response : nat }.

(** A child: the offer's bytes, the connection, and what [Initialize] prints and finds. *)
Record HyperVDevice := mkDevice { m_channel : list Z; d_msg_conn_id : Z; m_hid : list Z; Name : option string }.

Record bus_core (C : Type) := mkCore {
  m_connectEvent : KEvent; m_channelCallbacks : gmap Z C; m_msg_conn_id : Z; m_nextGpadlHandle : Z;
  m_requests : list BusRequest; children : list HyperVDevice;
  frames : gmap nat KEvent; responses : gmap nat (list Z)
}.
Arguments mkCore {C}. Arguments m_connectEvent {C}. Arguments m_channelCallbacks {C}.
Arguments m_msg_conn_id {C}. Arguments m_nextGpadlHandle {C}. Arguments m_requests {C}.
Arguments children {C}. Arguments frames {C}. Arguments responses {C}.

Record VmBusDriver (C : Type) := mkBus { m_threadSync : KSemaphore; m_queue : list HV_MESSAGE; core : bus_core C }.
Arguments mkBus {C}. Arguments m_threadSync {C}. Arguments m_queue {C}. Arguments core {C}.

Definition new_VmBusDriver (C : Type) : VmBusDriver C :=
  mkBus (new_KSemaphore 0 (2 ^ 31 - 1)) []
    (mkCore (new_KEvent false false) ∅ 0 0 [] [] ∅ ∅).

(** A field of a message's payload. *)
Definition field (off n : nat) (p : list Z) : Z := le_of (take n (drop off p)).
Definition msgtype (p : list Z) : Z := field 0 4 p.

Section Driver.
Context {C W H : Type} (run : C -> W -> outcome W) `{Hypervisor H} `{KernelWait KSemaphore} `{KernelWait KEvent}.

Definition with_event (e : KEvent) (c : bus_core C) : bus_core C :=
  mkCore e (m_channelCallbacks c) (m_msg_conn_id c) (m_nextGpadlHandle c) (m_requests c) (children c) (frames c) (responses c).
Definition with_connection (id : Z) (c : bus_core C) : bus_core C :=
  mkCore (m_connectEvent c) (m_channelCallbacks c) id (m_nextGpadlHandle c) (m_requests c) (children c) (frames c) (responses c).
Definition with_children (l : list HyperVDevice) (c : bus_core C) : bus_core C :=
  mkCore (m_connectEvent c) (m_channelCallbacks c) (m_msg_conn_id c) (m_nextGpadlHandle c) (m_requests c) l (frames c) (responses c).
Definition with_cells (f : gmap nat KEvent) (r : gmap nat (list Z)) (c : bus_core C) : bus_core C :=
  mkCore (m_connectEvent c) (m_channelCallbacks c) (m_msg_conn_id c) (m_nextGpadlHandle c) (m_requests c) (children c) f r.
Definition with_request (next : Z) (r : BusRequest) (c : bus_core C) : bus_core C :=
  mkCore (m_connectEvent c) (m_channelCallbacks c) (m_msg_conn_id c) next (m_requests c ++ [r]) (children c) (frames c) (responses c).

(** ** Requests *)

(** [FindRequest], by handle and by channel: the first match; none fails an assertion. *)
Fixpoint find_first (p : BusRequest -> bool) (l : list BusRequest) : outcome BusRequest :=
  match l with
  | [] => Bugcheck
  | r :: l => if p r then Ret r else find_first p l
  end.

Definition FindRequest_gpadl (gpadl : Z) (c : bus_core C) : outcome BusRequest :=
  find_first (fun r => Gpadl r =? gpadl) (m_requests c).

Definition FindRequest_channel (relid id : Z) (c : bus_core C) : outcome BusRequest :=
  find_first (fun r => (child_relid r =? relid) && (openid r =? id)) (m_requests c).

(** The response is stored through the request and its event set. *)
Definition reply (r : BusRequest) (bytes : list Z) (c : bus_core C) : outcome (bus_core C) :=
  match responses c !! Response r, frames c !! Event r with
  | Some _, Some e => Ret (with_cells (<[Event r := Set_event e]> (frames c)) (<[Response r := bytes]> (responses c)) c)
  | _, _ => Fault
  end.

(** ** The thread *)

Definition offer_guid (p : list Z) : guid := mkGuid (field 8 4 p) (field 12 2 p) (field 14 2 p) (take 8 (drop 16 p)).

(** The switch of [ThreadLoop] on a message. *)
Definition dispatch (message : HV_MESSAGE) (c : bus_core C) : outcome (bus_core C) :=
  let p := Payload message in
  if msgtype p =? CHANNELMSG_VERSION_RESPONSE then
    _ ← Assert (truthy (field 8 1 p));
    let c := with_connection (field 12 4 p) c in
    Ret (with_event (Set_event (m_connectEvent c)) c)
  else if msgtype p =? CHANNELMSG_OFFERCHANNEL then
    _ ← Assert (field 180 2 p =? 0);
    hid ← device_hid (offer_guid p);
    let child := mkDevice (take sizeof_vmbus_channel_offer_channel p) (m_msg_conn_id c) hid (GetDeviceName hid) in
    Ret (with_children (children c ++ [child]) c)
  else if msgtype p =? CHANNELMSG_ALLOFFERS_DELIVERED then
    Ret (with_event (Set_event (m_connectEvent c)) c)
  else if msgtype p =? CHANNELMSG_GPADL_CREATED then
    request ← FindRequest_gpadl (field 12 4 p) c;
    reply request (take sizeof_vmbus_channel_gpadl_created p) c
  else if msgtype p =? CHANNELMSG_OPENCHANNEL_RESULT then
    request ← FindRequest_channel (field 8 4 p) (field 12 4 p) c;
    reply request (take sizeof_vmbus_channel_open_result p) c
  else Bugcheck.

(** One turn of [ThreadLoop]: the wait, [None] while it is not over, whose status is not looked at,
    and what follows it. *)
Definition ThreadLoop_wait (b : VmBusDriver C) : option (outcome (VmBusDriver C)) :=
  (fun o => '(_, s) ← o; Ret (mkBus s (m_queue b) (core b))) <$> KeWait (m_threadSync b).

Definition ThreadLoop_handle (b : VmBusDriver C) : outcome (VmBusDriver C) :=
  match m_queue b with
  | [] => Bugcheck
  | message :: queue =>
    _ ← Assert (Z.of_nat (length queue) =? Value (m_threadSync b));
    c ← dispatch message (core b);
    Ret (mkBus (m_threadSync b) queue c)
  end.

(** ** The interrupt *)

Fixpoint run_callbacks (ids : list Z) (callbacks : gmap Z C) (w : W) : outcome W :=
  match ids with
  | [] => Ret w
  | id :: ids =>
    match callbacks !! id with
    | None => run_callbacks ids callbacks w
    | Some c => w ← run c w; run_callbacks ids callbacks w
    end
  end.

Definition OnInterrupt (b : VmBusDriver C) (s : synic) (w : W) : outcome (VmBusDriver C * synic * W) :=
  '(ids, queue, s, _) ← ProcessInterrupts VMBUS_MESSAGE_SINT (m_queue b) s;
  w ← run_callbacks ids (m_channelCallbacks (core b)) w;
  let sync := if bool_decide (queue = []) then m_threadSync b else Signal (m_threadSync b) in
  _ ← Assert (Z.of_nat (length queue) =? Value sync);
  Ret (mkBus sync queue (core b), s, w).

Definition SetCallback (id : Z) (context : C) (c : bus_core C) : outcome (bus_core C) :=
  _ ← Assert (bool_decide (m_channelCallbacks c !! id = None));
  Ret (mkCore (m_connectEvent c) (<[id := context]> (m_channelCallbacks c)) (m_msg_conn_id c) (m_nextGpadlHandle c)
         (m_requests c) (children c) (frames c) (responses c)).

(** [SetMonitor] on the bytes of [MonitorPage1]; group 4 and up are beyond the groups. *)
Definition SetMonitor (monitorId : Z) (page : list Z) : outcome (list Z) :=
  let group := u8 monitorId / 32 in
  let bit := u8 monitorId mod 32 in
  let off := Z.to_nat (8 + 8 * group) in
  let pending := field off 4 page in
  if (length page <? off + 4)%nat then Fault
  else Ret (list_inserts off (le_to 4 (Z.lor pending (u32 (Z.shiftl 1 bit)))) page).

(** ** Sending *)

(** [PostMessage] up to its wait; [frame] is its event, [response] the caller's variable.  The
    message is changed in place: its bytes are a result. *)
Definition PostMessage_send (frame response : nat) (message : list Z) (c : bus_core C) (page : list Z) (h : H)
  : outcome (list Z * bus_core C * list Z * H) :=
  let c := with_cells (<[frame := new_KEvent false false]> (frames c)) (responses c) c in
  '(message, c) ← (
    if msgtype message =? CHANNELMSG_GPADL_HEADER then
      let gpadl := u32 (m_nextGpadlHandle c + 1) in
      Ret (list_inserts 12 (le_to 4 gpadl) message, with_request gpadl (mkRequest gpadl 0 0 frame response) c)
    else if msgtype message =? CHANNELMSG_OPENCHANNEL then
      Ret (message, with_request (m_nextGpadlHandle c) (mkRequest 0 (field 8 4 message) (field 12 4 message) frame response) c)
    else Bugcheck);
  '(result, page, h) ← HvPostMessage (m_msg_conn_id c) 1 message page h;
  _ ← Assert (HV_SUCCESS result);
  Ret (message, c, page, h).

(** The wait, whose status is not looked at, and the return, which ends the event's life; [None]
    while it waits. *)
Definition PostMessage_return (frame : nat) (c : bus_core C) : option (outcome (bus_core C)) :=
  match frames c !! frame with
  | Some e => (fun o => _ ← o; Ret (with_cells (delete frame (frames c)) (responses c) c)) <$> KeWait e
  | None => Some Fault
  end.

(** [EnumerateChildren]: the contact, and after the wait for its answer the request for offers. *)
Definition initiate_contact (monitor_page1 monitor_page2 : Z) : list Z :=
  le_to 4 CHANNELMSG_INITIATE_CONTACT ++ le_to 4 0 ++ le_to 4 VERSION_WIN10_V5_2 ++ le_to 4 0 ++
  le_to 1 (Z.of_nat VMBUS_MESSAGE_SINT) ++ replicate 7 0 ++ le_to 8 monitor_page1 ++ le_to 8 monitor_page2.

Definition EnumerateChildren_contact (monitor_page1 monitor_page2 : Z) (page : list Z) (h : H) : outcome (Z * list Z * H) :=
  HvPostMessage VMBUS_MESSAGE_CONNECTION_ID_4 1 (initiate_contact monitor_page1 monitor_page2) page h.

(** The wait for the connection, asserted to end with the signal. *)
Definition connect_wait (c : bus_core C) : option (outcome (bus_core C)) :=
  (fun o => '(status, e) ← o; _ ← Assert (bool_decide (status = Scheduler.Signaled)); Ret (with_event e c)) <$> KeWait (m_connectEvent c).

Definition EnumerateChildren_offers (c : bus_core C) (page : list Z) (h : H)
  : option (outcome (bus_core C * list Z * H)) :=
  (fun o => c ← o;
    '(_, page, h) ← HvPostMessage (m_msg_conn_id c) 1 (le_to 4 CHANNELMSG_REQUESTOFFERS ++ le_to 4 0) page h;
    Ret (c, page, h)) <$> connect_wait c.

(** And after the wait for the last offer it is done. *)
Definition EnumerateChildren_done (c : bus_core C) : option (outcome (bus_core C)) := connect_wait c.

End Driver.

(** ** HyperVChannel *)

Definition ANYSIZE_ARRAY : Z := 1.
Definition sizeof_vmbus_channel_gpadl_header : Z := 20.
Definition sizeof_gpa_range : Z := 16.
Definition pfncount : Z :=
  (MAX_SIZE_CHANNEL_MESSAGE - sizeof_vmbus_channel_gpadl_header - (sizeof_gpa_range - ANYSIZE_ARRAY * 8)) / 8.

(** The message of [Initialize] that describes the [pageCount] pages of the two rings. *)
Definition gpadl_message (relid address pageCount : Z) : outcome (list Z) :=
  _ ← Assert (negb (pfncount <? pageCount));
  let bodySize := u16 (sizeof_gpa_range + (pageCount - ANYSIZE_ARRAY) * 8) in
  Ret (le_to 4 CHANNELMSG_GPADL_HEADER ++ le_to 4 0 ++ le_to 4 relid ++ le_to 4 0 ++ le_to 2 bodySize ++ le_to 2 1 ++
       le_to 4 (u32 (Z.shiftl pageCount PageShift)) ++ le_to 4 0 ++
       concat (map (fun i => le_to 8 (Z.shiftr address PageShift + i)) (seqZ 0 pageCount))).

Definition open_message (relid gpadl sendCount : Z) (userdata : list Z) : outcome (list Z) :=
  _ ← Assert (Z.of_nat (length userdata) <=? MAX_USER_DEFINED_BYTES);
  Ret (le_to 4 CHANNELMSG_OPENCHANNEL ++ le_to 4 0 ++ le_to 4 relid ++ le_to 4 relid ++ le_to 4 gpadl ++ le_to 4 0 ++
       le_to 4 (u32 sendCount) ++ userdata ++ replicate (Z.to_nat MAX_USER_DEFINED_BYTES - length userdata) 0).

(** The handle in the answer, [m_gpadlHandle]. *)
Definition response_gpadl (bytes : list Z) : Z := field 12 4 bytes.

(** ** HyperVMouseDriver *)

Definition PIPE_MESSAGE_DATA : Z := 1.
Definition SYNTH_HID_PROTOCOL_REQUEST : Z := 0.
Definition SYNTH_HID_PROTOCOL_RESPONSE : Z := 1.
Definition SYNTH_HID_INITIAL_DEVICE_INFO : Z := 2.
Definition SYNTH_HID_INITIAL_DEVICE_INFO_ACK : Z := 3.
Definition SYNTH_HID_INPUT_REPORT : Z := 4.
Definition SYNTHHID_INPUT_VERSION : Z := Z.lor 0 (Z.shiftl 2 16).
Definition HID_DT_HID : Z := Z.lor (Z.shiftl 1 5) 1.
Definition sizeof_pipe_prt_msg : Z := 12.
Definition sizeof_mousevsc_prt_msg : Z := 24.
Definition sizeof_hv_input_dev_info : Z := 32.

(** The event posted to the kernel: the buttons and the position. *)
Record mouse_report := mkReport { LeftPressed : bool; RightPressed : bool; XPosition : Z; YPosition : Z }.

Record HyperVMouseDriver := mkMouse { m_response : list Z; m_event : KEvent; posted : list mouse_report }.

(** The requests [Initialize] sends, as long as it sends them. *)
Definition protocol_request : list Z :=
  take (Z.to_nat (sizeof_pipe_prt_msg - 1 + 12))
    (le_to 4 PIPE_MESSAGE_DATA ++ le_to 4 12 ++ le_to 4 SYNTH_HID_PROTOCOL_REQUEST ++ le_to 4 4 ++
     le_to 4 SYNTHHID_INPUT_VERSION ++ replicate 4 0).
Definition device_info_ack : list Z :=
  take (Z.to_nat (sizeof_pipe_prt_msg - 1 + 9))
    (le_to 4 PIPE_MESSAGE_DATA ++ le_to 4 9 ++ le_to 4 SYNTH_HID_INITIAL_DEVICE_INFO_ACK ++ le_to 4 1 ++ replicate 8 0).

(** [ProcessMessage] on the bytes from the message on; a field behind them is a [Fault]. *)
Definition ProcessMessage (msg : list Z) (d : HyperVMouseDriver) : outcome HyperVMouseDriver :=
  let have n := if (length msg <? n)%nat then Fault else Ret tt in
  _ ← have 8%nat;
  if negb (field 0 4 msg =? PIPE_MESSAGE_DATA) then Ret d
  else
    let size := field 4 4 msg in
    _ ← have 12%nat;
    let type := field 8 4 msg in
    if type =? SYNTH_HID_PROTOCOL_RESPONSE then
      let innerSize := u32 (size + sizeof_pipe_prt_msg - 1) in
      _ ← Assert (innerSize =? sizeof_mousevsc_prt_msg);
      _ ← have 24%nat;
      let response := take 24 msg in
      _ ← Assert (truthy (field 20 1 response));
      Ret (mkMouse response (m_event d) (posted d))
    else if type =? SYNTH_HID_INITIAL_DEVICE_INFO then
      _ ← Assert (sizeof_hv_input_dev_info <=? size);
      _ ← have 57%nat;
      let msg := list_inserts 48 [0x9] msg in
      _ ← Assert (truthy (field 48 1 msg));
      _ ← Assert (field 49 1 msg =? HID_DT_HID);
      _ ← Assert (field 50 2 msg =? 0x101);
      _ ← Assert (field 53 1 msg =? 1);
      Ret (mkMouse (m_response d) (Set_event (m_event d)) (posted d))
    else if type =? SYNTH_HID_INPUT_REPORT then
      _ ← have 23%nat;
      _ ← Assert (field 12 4 msg =? 7);
      let buttons := field 16 1 msg in
      let report := mkReport (Z.testbit buttons 0) (Z.testbit buttons 1) (field 17 2 msg) (field 19 2 msg) in
      Ret (mkMouse (m_response d) (m_event d) (posted d ++ [report]))
    else Bugcheck.

(** * Properties *)

(** ** The driver and the hypervisor *)

(** What the hypervisor does before it interrupts: it may fill the (free) message slot and
    sets flags of channels. *)
Definition set_flag (events : list Z) (i : Z) : list Z :=
  alter (fun f => Z.lor f (2 ^ (i mod 8))) (512 + Z.to_nat (i / 8))%nat events.

Definition host_writes (m : option HV_MESSAGE) (flags : list Z) (s : synic) : synic :=
  mkSynic (foldl set_flag (SynicEvents s) flags)
    (match m with Some m => <[VMBUS_MESSAGE_SINT := m]> (SynicMessages s) | None => SynicMessages s end).

(** A schedule: interrupts, and the two halves of the thread's turn. *)
Inductive action := Interrupt (m : option HV_MESSAGE) (flags : list Z) | Wake | Handle.

Definition action_ok (a : action) : Prop :=
  match a with
  | Interrupt m flags =>
    Forall (fun i => 0 <= i < 2048) flags /\
    match m with Some m => 1 <= MessageType m < CHANNELMSG_COUNT | None => True end
  | _ => True
  end.

(** A wait that blocks. *)
#[local] Instance blocking_wait {O} `{KSignalObject O} : KernelWait O :=
  fun o => if IsSignalled o then Some (o ← Observed o; Ret (Scheduler.Signaled, o)) else None.
#[local] Instance blocking_wait_blocks {O} `{KSignalObject O} : WaitBlocks O := fun o => eq_refl.

(** ** What a message means *)

(** The fields of a message's payload, by the bytes they are made of. *)
Definition byte_at (p : list Z) (i : nat) : Z := default 0 (p !! i).
Definition word_at (p : list Z) (i : nat) : Z := byte_at p i + 2 ^ 8 * byte_at p (i + 1).
Definition dword_at (p : list Z) (i : nat) : Z := word_at p i + 2 ^ 16 * word_at p (i + 2).

Lemma field_1 i p : field i 1 p = byte_at p i.
Proof.
  unfold field, byte_at. rewrite <- (Nat.add_0_r i) at 2. rewrite <- lookup_drop. destruct (drop i p) as [| a l]; cbn [take le_of]; [done |].
  destruct l; cbn; lia.
Qed.

Lemma field_app_S i n p : field i (S n) p = byte_at p i + 2 ^ 8 * field (i + 1) n p.
Proof.
  unfold field, byte_at. rewrite <- (Nat.add_0_r i) at 2. rewrite <- lookup_drop. rewrite <- drop_drop.
  destruct (drop i p) as [| a l]; cbn [take drop]; [by rewrite take_nil |]. cbn. rewrite drop_0. lia.
Qed.

Lemma field_2 i p : field i 2 p = word_at p i.
Proof. rewrite field_app_S, field_1. done. Qed.

Lemma field_4 i p : field i 4 p = dword_at p i.
Proof.
  rewrite !field_app_S. change (field _ 0 p) with 0. unfold dword_at, word_at. rewrite <- !Nat.add_assoc. cbn [Nat.add]. lia.
Qed.

(** The messages the driver knows, as it reads them. *)
Inductive bus_message :=
| Version (supported connection : Z)
| Offer (id : guid) (sub_channel : Z) (bytes : list Z)
| AllOffers
| GpadlCreated (gpadl : Z) (bytes : list Z)
| OpenResult (relid open : Z) (bytes : list Z)
| Unknown.

Definition view (p : list Z) : bus_message :=
  match dword_at p 0 with
  | 15 => Version (byte_at p 8) (dword_at p 12)
  | 1 => Offer (mkGuid (dword_at p 8) (word_at p 12) (word_at p 14) (take 8 (drop 16 p))) (word_at p 180) (take 196 p)
  | 4 => AllOffers
  | 10 => GpadlCreated (dword_at p 12) (take 20 p)
  | 6 => OpenResult (dword_at p 8) (dword_at p 12) (take 20 p)
  | _ => Unknown
  end.

Section Meaning.
Context {C : Type}.
Implicit Type c : bus_core C.

(** The connection's event is set, under the identifier. *)
Definition connected (id : Z) c : bus_core C :=
  {| m_connectEvent := Set_event (m_connectEvent c); m_channelCallbacks := m_channelCallbacks c; m_msg_conn_id := id;
     m_nextGpadlHandle := m_nextGpadlHandle c; m_requests := m_requests c; children := children c;
     frames := frames c; responses := responses c |}.

(** A child more. *)
Definition offered (d : HyperVDevice) c : bus_core C :=
  {| m_connectEvent := m_connectEvent c; m_channelCallbacks := m_channelCallbacks c; m_msg_conn_id := m_msg_conn_id c;
     m_nextGpadlHandle := m_nextGpadlHandle c; m_requests := m_requests c; children := children c ++ [d];
     frames := frames c; responses := responses c |}.

(** The answer to the oldest request that matches, stored where its caller waits, whose event is set;
    without a request the driver stops, without a caller it stores into what is gone. *)
Definition answered (P : BusRequest -> Prop) `{forall r, Decision (P r)} (bytes : list Z) c : outcome (bus_core C) :=
  match list_find P (m_requests c) with
  | None => Bugcheck
  | Some (_, r) =>
    match frames c !! Event r with
    | Some e =>
      if decide (is_Some (responses c !! Response r)) then
        Ret {| m_connectEvent := m_connectEvent c; m_channelCallbacks := m_channelCallbacks c; m_msg_conn_id := m_msg_conn_id c;
               m_nextGpadlHandle := m_nextGpadlHandle c; m_requests := m_requests c; children := children c;
               frames := <[Event r := {| m_manualReset := m_manualReset e; m_state := true |}]> (frames c);
               responses := <[Response r := bytes]> (responses c) |}
      else Fault
    | None => Fault
    end
  end.

Definition meaning (m : bus_message) c : outcome (bus_core C) :=
  match m with
  | Version supported connection => if supported =? 0 then Bugcheck else Ret (connected connection c)
  | Offer id sub_channel bytes =>
    if sub_channel =? 0 then hid ← device_hid id; Ret (offered (mkDevice bytes (m_msg_conn_id c) hid (GetDeviceName hid)) c) else Bugcheck
  | AllOffers => Ret (connected (m_msg_conn_id c) c)
  | GpadlCreated gpadl bytes => answered (fun r => Gpadl r = gpadl) bytes c
  | OpenResult relid open bytes => answered (fun r => child_relid r = relid /\ openid r = open) bytes c
  | Unknown => Bugcheck
  end.

Lemma find_first_list_find (p : BusRequest -> bool) (P : BusRequest -> Prop) `{forall r, Decision (P r)} l :
  (forall r, p r = bool_decide (P r)) ->
  find_first p l = match list_find P l with Some (_, r) => Ret r | None => Bugcheck end.
Proof.
  intros Hp. induction l as [| r l IH]; [done |]. cbn [find_first list_find]. rewrite Hp.
  destruct (decide (P r)) as [Hr | Hr]; [by rewrite bool_decide_true |]. rewrite bool_decide_false, IH by done.
  destruct (list_find P l) as [[] |]; done.
Qed.

Lemma answer_meaning p (P : BusRequest -> Prop) `{forall r, Decision (P r)} bytes c :
  (forall r, p r = bool_decide (P r)) ->
  (request ← find_first p (m_requests c); reply request bytes c) = answered P bytes c.
Proof.
  intros Hp. rewrite (find_first_list_find p P) by done. unfold answered, reply.
  destruct (list_find _ _) as [[i r] |]; [| done]. cbn [mbind outcome_bind].
  destruct (responses c !! Response r), (frames c !! Event r); [by rewrite decide_True | done | | done].
  rewrite decide_False; [done | by intros []].
Qed.

Lemma eqb_decide a b : (a =? b) = bool_decide (a = b).
Proof. case_bool_decide; [by apply Z.eqb_eq | by apply Z.eqb_neq]. Qed.

Lemma offer_meaning p c :
  (_ ← Assert (field 180 2 p =? 0);
   hid ← device_hid (offer_guid p);
   Ret (with_children (children c ++ [mkDevice (take sizeof_vmbus_channel_offer_channel p) (m_msg_conn_id c) hid (GetDeviceName hid)]) c)) =
  meaning (Offer (mkGuid (dword_at p 8) (word_at p 12) (word_at p 14) (take 8 (drop 16 p))) (word_at p 180) (take 196 p)) c.
Proof.
  unfold offer_guid. rewrite !field_2, field_4. cbn [meaning].
  change sizeof_vmbus_channel_offer_channel with 196%nat. generalize (take 196 p) as b. intros b.
  generalize (mkGuid (dword_at p 8) (word_at p 12) (word_at p 14) (take 8 (drop 16 p))) as id. intros id.
  generalize (device_hid id) as o. intros o. destruct (word_at p 180 =? 0); [| reflexivity]. by destruct o.
Qed.

Lemma gpadl_meaning p c :
  (request ← FindRequest_gpadl (field 12 4 p) c; reply request (take sizeof_vmbus_channel_gpadl_created p) c) =
  meaning (GpadlCreated (dword_at p 12) (take 20 p)) c.
Proof. rewrite field_4. apply answer_meaning. intros r. apply eqb_decide. Qed.

Lemma open_meaning p c :
  (request ← FindRequest_channel (field 8 4 p) (field 12 4 p) c; reply request (take sizeof_vmbus_channel_open_result p) c) =
  meaning (OpenResult (dword_at p 8) (dword_at p 12) (take 20 p)) c.
Proof. rewrite !field_4. apply answer_meaning. intros r. by rewrite bool_decide_and, <- !eqb_decide. Qed.

Lemma version_meaning p c :
  (_ ← Assert (truthy (field 8 1 p));
   let c := with_connection (field 12 4 p) c in Ret (with_event (Set_event (m_connectEvent c)) c)) =
  meaning (Version (byte_at p 8) (dword_at p 12)) c.
Proof. rewrite field_1, field_4. unfold truthy. cbn [meaning]. by destruct (byte_at p 8 =? 0). Qed.

(** The kinds of messages are numbers. *)
Lemma by_number {A} (t : Z) (a b c d e f : A) :
  (if t =? 15 then a else if t =? 1 then b else if t =? 4 then c else if t =? 10 then d else if t =? 6 then e else f) =
  match t with 15 => a | 1 => b | 4 => c | 10 => d | 6 => e | _ => f end.
Proof. destruct t as [| q | q]; [reflexivity | | reflexivity]. do 4 (destruct q as [q | q |]; try reflexivity). Qed.

(** The switch of the thread does what the message means. *)
Lemma dispatch_meaning m c : dispatch m c = meaning (view (Payload m)) c.
Proof.
  unfold dispatch. cbv zeta. rewrite version_meaning, offer_meaning, gpadl_meaning, open_meaning.
  unfold view, msgtype. rewrite field_4. generalize (dword_at (Payload m) 0) as t. intros t.
  etransitivity; [apply by_number |]. destruct t as [| q | q]; [reflexivity | | reflexivity]. do 4 (destruct q as [q | q |]; try reflexivity).
Qed.

End Meaning.

Section System.
Context {C W : Type} (run : C -> W -> outcome W).
Context {wait : KernelWait KSemaphore} `{!WaitBlocks KSemaphore}.

(** The program: the bus, the hypervisor's pages, whether the thread is past its wait, and the
    world of the callbacks.  A half-turn that is not due does nothing. *)
Record sys := mkSys { bus : VmBusDriver C; pages : synic; woken : bool; world : W }.

Definition step (a : action) (s : sys) : outcome sys :=
  match a with
  | Interrupt m flags =>
    '(b, p, w) ← OnInterrupt run (bus s) (host_writes m flags (pages s)) (world s);
    Ret (mkSys b p (woken s) w)
  | Wake =>
    match ThreadLoop_wait (bus s) with
    | Some b => if woken s then Ret s else b ← b; Ret (mkSys b (pages s) true (world s))
    | None => Ret s
    end
  | Handle =>
    if woken s then b ← ThreadLoop_handle (bus s); Ret (mkSys b (pages s) false (world s)) else Ret s
  end.

Fixpoint steps (acts : list action) (s : sys) : outcome sys :=
  match acts with [] => Ret s | a :: acts => s ← step a s; steps acts s end.

(** The specification: a queue of messages, the thread holding the first one or not, and the
    flags that are still set. *)
Record spec := mkSpec { pending : list HV_MESSAGE; held : bool; s_core : bus_core C; s_events : list Z; s_world : W }.

Definition channels (events : list Z) : list Z := filter (fun i => flag_set events 512 i = true) (seqZ 0 2048).
Definition cleared (events : list Z) : list Z :=
  imap (fun off f => if (512 <=? off)%nat && (off <? 768)%nat && alone events off then 0 else f) events.

(** The callbacks of the channels, one after the other. *)
Definition call_all (callbacks : gmap Z C) (ids : list Z) (w : W) : outcome W :=
  foldl (fun o k => w ← o; run k w) (Ret w) (omap (callbacks !!.) ids).

(** [None]: the interrupt comes at a time the driver is not made for. *)
Definition spec_step (a : action) (p : spec) : option (outcome spec) :=
  match a with
  | Interrupt m flags =>
    if held p || (bool_decide (m = None) && negb (bool_decide (pending p = []))) then None
    else
      let events := foldl set_flag (s_events p) flags in
      Some (w ← call_all (m_channelCallbacks (s_core p)) (channels events) (s_world p);
            Ret (mkSpec (pending p ++ option_list m) false (s_core p) (cleared events) w))
  | Wake => Some (Ret (mkSpec (pending p) (held p || negb (bool_decide (pending p = []))) (s_core p) (s_events p) (s_world p)))
  | Handle =>
    Some (match held p, pending p with
          | true, m :: l => c ← meaning (view (Payload m)) (s_core p); Ret (mkSpec l false c (s_events p) (s_world p))
          | _, _ => Ret p
          end)
  end.

Fixpoint spec_steps (acts : list action) (p : spec) : option (outcome spec) :=
  match acts with
  | [] => Some (Ret p)
  | a :: acts =>
    match spec_step a p with
    | Some (Ret p) => spec_steps acts p
    | o => o
    end
  end.

(** The relation between the two. *)
Record represents (s : sys) (p : spec) : Prop := {
  r_queue : m_queue (bus s) = pending p;
  r_core : core (bus s) = s_core p;
  r_woken : woken s = held p;
  r_held : held p = true -> pending p <> [];
  r_value : m_value (m_threadSync (bus s)) = Z.of_nat (length (pending p)) - Z.b2z (held p);
  r_events : SynicEvents (pages s) = s_events p;
  r_page : length (s_events p) = 4096%nat /\ Forall is_byte (s_events p);
  r_slot : exists m, SynicMessages (pages s) !! VMBUS_MESSAGE_SINT = Some m /\ MessageType m = 0;
  r_world : world s = s_world p
}.

(** Equal ends, or related results. *)
Definition refines (o : outcome sys) (p : outcome spec) : Prop :=
  match o, p with
  | Ret s, Ret p => represents s p
  | Bugcheck, Bugcheck | Fault, Fault | Diverged, Diverged => True
  | _, _ => False
  end.

Lemma run_callbacks_all callbacks ids w : run_callbacks run ids callbacks w = call_all callbacks ids w.
Proof.
  unfold call_all. change (run_callbacks run ids callbacks w) with (w ← Ret w; run_callbacks run ids callbacks w).
  generalize (Ret w). clear w. induction ids as [| i ids IH]; intros o; cbn [run_callbacks omap list_omap foldl].
  - by destruct o.
  - destruct (callbacks !! i) as [k |]; cbn [foldl]; rewrite <- IH; by destruct o.
Qed.

Lemma set_flag_page events i :
  length events = 4096%nat /\ Forall is_byte events -> 0 <= i < 2048 ->
  length (set_flag events i) = 4096%nat /\ Forall is_byte (set_flag events i).
Proof.
  intros [Hl Hb] Hi. unfold set_flag. rewrite length_alter. split; [done |].
  apply Forall_alter; [done |]. intros x _ Hx. unfold is_byte in *.
  pose proof (Z.mod_pos_bound i 8 ltac:(lia)).
  assert (Z.lor x (2 ^ (i mod 8)) = Z.lor x (2 ^ (i mod 8)) mod 2 ^ 8) as ->; [| apply Z.mod_pos_bound; lia].
  rewrite <- (Z.mod_small x (2 ^ 8)) by lia. rewrite <- !Z.land_ones by lia.
  apply Z.bits_inj_iff'. intros k Hk. rewrite !Z.land_spec, !Z.lor_spec, !Z.land_spec, Z.testbit_ones_nonneg by lia.
  destruct (Z.ltb_spec k 8); rewrite ?andb_true_r, ?andb_false_r; [done |].
  by rewrite Z.pow2_bits_false by lia.
Qed.

Lemma host_page events flags :
  length events = 4096%nat /\ Forall is_byte events -> Forall (fun i => 0 <= i < 2048) flags ->
  length (foldl set_flag events flags) = 4096%nat /\ Forall is_byte (foldl set_flag events flags).
Proof.
  intros He Hf. revert events He. induction Hf as [|i l Hi _ IH]; intros; [done |]. by apply IH, set_flag_page.
Qed.

Lemma cleared_page events :
  length events = 4096%nat /\ Forall is_byte events -> length (cleared events) = 4096%nat /\ Forall is_byte (cleared events).
Proof.
  intros [Hl Hb]. unfold cleared. rewrite length_imap. split; [done |]. apply Forall_lookup. intros k x.
  rewrite list_lookup_imap. destruct (events !! k) as [f |] eqn:Hf; [| done]. intros [= <-].
  rewrite Forall_lookup in Hb. specialize (Hb _ _ Hf). case_match; [unfold is_byte; lia | done].
Qed.

(** An interrupt, from the pages the hypervisor has written. *)
Lemma collect_run m flags queue s p :
  represents s p -> action_ok (Interrupt m flags) ->
  let events := foldl set_flag (s_events p) flags in
  exists s', ProcessInterrupts VMBUS_MESSAGE_SINT queue (host_writes m flags (pages s))
    = Ret (channels events, queue ++ option_list m, s', default false (MessagePending <$> m)) /\
    SynicEvents s' = cleared events /\
    exists m', SynicMessages s' !! VMBUS_MESSAGE_SINT = Some m' /\ MessageType m' = 0.
Proof.
  intros R [Hf Hm] events. destruct (r_slot _ _ R) as (old & Hold & Ht).
  destruct (host_page (s_events p) flags (r_page _ _ R) Hf) as [Hl Hb].
  set (slot := match m with Some m => m | None => old end).
  assert (SynicMessages (host_writes m flags (pages s)) !! VMBUS_MESSAGE_SINT = Some slot) as Hs.
  { unfold slot. destruct m; [| done]. cbn [host_writes SynicMessages].
    apply list_lookup_insert_eq. by eapply lookup_lt_Some. }
  assert (SynicEvents (host_writes m flags (pages s)) = events) as He
    by (unfold host_writes; cbn [SynicEvents]; by rewrite (r_events _ _ R)).
  assert (0 <= MessageType slot < CHANNELMSG_COUNT) as Htype
    by (unfold slot, CHANNELMSG_COUNT in *; destruct m; lia).
  destruct (interrupts_are_collected VMBUS_MESSAGE_SINT queue (host_writes m flags (pages s)) slot) as (ev & Hrun & Hlen & Hev);
    rewrite ?He; try done; [by repeat constructor |].
  rewrite He in Hrun, Hev. eexists. split; [| split].
  - rewrite Hrun. unfold slot. destruct m as [m |]; cbn [option_list default from_option fmap option_fmap option_map].
    + rewrite (proj2 (Z.eqb_neq _ 0)) by lia. done.
    + rewrite Ht. done.
  - cbn [SynicEvents]. apply list_eq. intros k. destruct (events !! k) as [f |] eqn:Hk.
    + rewrite (Hev k f Hk). unfold cleared. by rewrite list_lookup_imap, Hk.
    + apply lookup_ge_None in Hk. rewrite lookup_ge_None_2 by (rewrite Hlen; unfold events in Hk; lia).
      symmetry. apply lookup_ge_None_2. unfold cleared. by rewrite length_imap.
  - cbn [SynicMessages]. eexists. rewrite list_lookup_insert_eq by (by eapply lookup_lt_Some). done.
Qed.

Lemma interrupt_refines m flags s p o :
  represents s p -> action_ok (Interrupt m flags) -> Z.of_nat (length (pending p)) + 1 < 2 ^ 31 ->
  spec_step (Interrupt m flags) p = Some o -> refines (step (Interrupt m flags) s) o.
Proof.
  intros R Ha Hlen Ho. destruct (collect_run m flags (m_queue (bus s)) s p R Ha) as (s' & Hrun & He & Hslot).
  destruct Ha as [Hf _]. pose proof (host_page _ flags (r_page _ _ R) Hf) as Hp.
  cbn [spec_step] in Ho. destruct (held p) eqn:Hh; cbn [orb] in Ho; [done |].
  destruct (bool_decide (m = None) && negb (bool_decide (pending p = []))) eqn:Hq; [done |]. injection Ho as <-.
  cbn [step]. unfold OnInterrupt. rewrite Hrun. cbn [mbind outcome_bind].
  rewrite (r_core _ _ R), (r_world _ _ R), (r_queue _ _ R), run_callbacks_all.
  destruct (call_all _ _ _) as [w | | |]; cbn [mbind outcome_bind refines]; try done.
  pose proof (r_value _ _ R) as Hv. rewrite Hh in Hv. cbn [Z.b2z] in Hv.
  assert (m_value (if bool_decide (pending p ++ option_list m = []) then m_threadSync (bus s) else Signal (m_threadSync (bus s)))
          = Z.of_nat (length (pending p ++ option_list m))) as Hsync.
  { rewrite length_app. destruct m as [m |]; cbn [option_list length].
    - rewrite bool_decide_eq_false_2 by (by destruct (pending p)). cbn [Signal m_value].
      change (length (option_list (Some m))) with 1%nat. rewrite swrap_small by lia. lia.
    - rewrite bool_decide_eq_true_2 in Hq by done. cbn [andb] in Hq. apply negb_false_iff, bool_decide_eq_true_1 in Hq.
      rewrite Hq in *. rewrite bool_decide_eq_true_2 by done. cbn in Hv |- *. lia. }
  unfold Value. rewrite Hsync, Z.eqb_refl. cbn [Assert mbind outcome_bind refines].
  split; cbn [bus pages woken world pending held s_core s_events s_world m_queue core m_threadSync]; try done.
  - by rewrite (r_woken _ _ R).
  - rewrite Hsync. cbn. lia.
  - by apply cleared_page.
Qed.

Lemma wake_refines s p o :
  represents s p -> spec_step Wake p = Some o -> refines (step Wake s) o.
Proof using Type*.
  intros R [= <-]. cbn [step]. unfold ThreadLoop_wait. rewrite KeWait_blocks. pose proof (r_value _ _ R) as Hv. pose proof (r_held _ _ R) as Hheld.
  cbn [IsSignalled KSemaphore_signal]. destruct (held p) eqn:Hh; cbn [Z.b2z orb] in *.
  - rewrite (r_woken _ _ R), Hh. destruct (0 <? _); cbn [refines]; (destruct R; split; cbn; rewrite ?Hh in *; done).
  - destruct (pending p) as [|x l] eqn:Hp; cbn [length] in Hv.
    + rewrite (proj2 (Z.ltb_ge _ _)) by lia. rewrite bool_decide_eq_true_2 by done. cbn [negb refines].
      destruct R; split; cbn; rewrite ?Hh, ?Hp in *; done.
    + rewrite (proj2 (Z.ltb_lt _ _)) by lia. rewrite (r_woken _ _ R), Hh.
      cbn [Observed KSemaphore_signal]. rewrite (proj2 (Z.ltb_lt _ _)) by lia. cbn [Assert mbind outcome_bind].
      rewrite bool_decide_eq_false_2 by done. cbn [negb refines].
      destruct R; split; cbn; rewrite ?Hh, ?Hp in *; try done. cbn [length]. lia.
Qed.

Lemma handle_refines s p o :
  represents s p -> spec_step Handle p = Some o -> refines (step Handle s) o.
Proof.
  intros R [= <-]. cbn [step]. rewrite (r_woken _ _ R). pose proof (r_value _ _ R) as Hv. pose proof (r_held _ _ R) as Hheld.
  destruct (held p) eqn:Hh; [| done]. destruct (pending p) as [|x l] eqn:Hp; [by specialize (Hheld eq_refl) |].
  unfold ThreadLoop_handle. rewrite (r_queue _ _ R), Hp. cbn [length Z.b2z] in Hv.
  unfold Value. rewrite (proj2 (Z.eqb_eq _ (m_value _))) by lia. cbn [Assert mbind outcome_bind]. rewrite (r_core _ _ R).
  rewrite dispatch_meaning.
  destruct (meaning _ (s_core p)) as [c | | |]; cbn [mbind outcome_bind refines]; try done.
  destruct R; split; cbn; rewrite ?Hh, ?Hp in *; try done. lia.
Qed.

Lemma step_refines a s p o :
  represents s p -> action_ok a -> Z.of_nat (length (pending p)) + 1 < 2 ^ 31 ->
  spec_step a p = Some o -> refines (step a s) o.
Proof using Type*. destruct a; [apply interrupt_refines | intros ? _ _; by apply wake_refines | intros ? _ _; by apply handle_refines]. Qed.

Lemma spec_step_length a p p' :
  spec_step a p = Some (Ret p') -> (length (pending p') <= length (pending p) + 1)%nat.
Proof.
  destruct a as [m flags | |]; cbn [spec_step].
  - case_match; [done |]. intros [= H1]. destruct (call_all _ _ _); [| done..]. injection H1 as <-.
    cbn [pending]. rewrite length_app. destruct m; cbn; lia.
  - intros [= <-]. cbn. lia.
  - intros [= H1]. destruct (held p); [destruct (pending p) eqn:E |]; try (injection H1 as <-; rewrite ?E; cbn; lia).
    destruct (meaning _ _); [| done..]. injection H1 as <-. cbn. lia.
Qed.

(** C10: the bus is a queue served by its thread, given a wait that blocks until its object is
    signalled.  Under every schedule in which no interrupt
    falls between the thread's wait and its taking of the message, and an interrupt without a
    message finds the queue empty, the driver does what the specification does: the messages
    take effect once each and in the order they came, each as its kind and fields say (the
    connection is made, a child added, the oldest matching request answered); every interrupt
    runs the callbacks of all the channels whose flags are set, in ascending order; the
    assertions on the semaphore hold, and
    the driver stops just where the effect of a message or a callback stops. *)
Theorem bus_refines_queue acts s p o :
  represents s p -> Forall action_ok acts -> Z.of_nat (length (pending p)) + Z.of_nat (length acts) < 2 ^ 31 ->
  spec_steps acts p = Some o -> refines (steps acts s) o.
Proof using Type*.
  intros R Ha. revert s p R. induction Ha as [|a acts Ha _ IH]; intros s p R Hlen Ho; cbn [spec_steps steps length] in *.
  - by injection Ho as <-.
  - destruct (spec_step a p) as [q |] eqn:Hq; [| done].
    pose proof (step_refines a s p q R Ha ltac:(lia) Hq) as Hs.
    destruct q as [p' | | |].
    + destruct (step a s) as [s' | | |]; try done. apply (IH s' p'); [done | | done].
      pose proof (spec_step_length _ _ _ Hq). lia.
    + injection Ho as <-. by destruct (step a s).
    + injection Ho as <-. by destruct (step a s).
    + injection Ho as <-. by destruct (step a s).
Qed.

(** Fact: the interrupts the specification leaves out stop the machine: one that falls between the
    wait of the driver's thread and its taking of the message, or one without a message while
    a message is queued, fails an assertion on the semaphore at once or when the thread goes
    on. *)
Theorem early_interrupt_stops m flags s p w :
  represents s p -> action_ok (Interrupt m flags) -> Z.of_nat (length (pending p)) + 1 < 2 ^ 31 ->
  call_all (m_channelCallbacks (s_core p)) (channels (foldl set_flag (s_events p) flags)) (s_world p) = Ret w ->
  spec_step (Interrupt m flags) p = None ->
  steps [Interrupt m flags; Handle] s = Bugcheck.
Proof.
  intros R Ha Hlen Hw Ho. destruct (collect_run m flags (m_queue (bus s)) s p R Ha) as (s' & Hrun & _ & _).
  pose proof (r_value _ _ R) as Hv. pose proof (r_held _ _ R) as Hheld. cbn [steps step]. unfold OnInterrupt. rewrite Hrun.
  cbn [mbind outcome_bind]. rewrite (r_core _ _ R), (r_world _ _ R), (r_queue _ _ R), run_callbacks_all, Hw. cbn [mbind outcome_bind].
  assert (pending p <> []) as Hne.
  { cbn [spec_step] in Ho. destruct (held p) eqn:Hh; [by apply Hheld |]. cbn [orb] in Ho.
    destruct (bool_decide (m = None)), (bool_decide_reflect (pending p = [])); done. }
  rewrite bool_decide_eq_false_2 by (intros Hnil; by apply app_eq_nil in Hnil as [? _]).
  unfold Value. cbn [Signal m_value].
  assert (0 < Z.of_nat (length (pending p))) by (destruct (pending p); [done | cbn; lia]).
  rewrite swrap_small by (destruct (held p); cbn in Hv; lia). rewrite Hv, length_app.
  destruct m as [m |].
  - change (length (option_list (Some m))) with 1%nat. cbn [spec_step] in Ho.
    destruct (held p) eqn:Hh; [| done]. cbn [Z.b2z]. rewrite (proj2 (Z.eqb_neq _ _)) by lia. done.
  - change (length (option_list (@None HV_MESSAGE))) with 0%nat. destruct (held p) eqn:Hh; cbn [Z.b2z].
    2: { rewrite (proj2 (Z.eqb_neq _ _)) by lia. done. }
    rewrite (proj2 (Z.eqb_eq _ _)) by lia. cbn [Assert mbind outcome_bind woken bus].
    rewrite (r_woken _ _ R), Hh. unfold ThreadLoop_handle. cbn [m_queue m_threadSync core].
    rewrite app_nil_r. destruct (pending p) as [|x l] eqn:Hp; [done |]. cbn [length Z.b2z m_value] in *.
    unfold Value. rewrite (proj2 (Z.eqb_neq _ _)); [done |]. cbn [Signal m_value]. rewrite swrap_small by lia. lia.
Qed.

End System.

(** Fact: with a wait that returns at once although the object is not signalled, as the scheduler's
    does with its default time-out, the thread's first turn stops the machine: it finds
    the queue empty. *)
Theorem returning_wait_stops {C W} (run : C -> W -> outcome W) (s : sys (C := C) (W := W)) :
  m_queue (bus s) = [] -> woken s = false ->
  steps (wait := fun sem : KSemaphore => Some (Ret (Scheduler.Timeout, sem))) run [Wake; Handle] s = Bugcheck.
Proof. intros Hq Hw. cbn [steps step]. unfold ThreadLoop_wait, KeWait. cbn. rewrite Hw. cbn. unfold ThreadLoop_handle. cbn. by rewrite Hq. Qed.

(** ** A first message *)

Definition version_response : HV_MESSAGE :=
  mkMessage 1 false (le_to 4 15 ++ le_to 4 0 ++ [1; 0; 0; 0] ++ le_to 4 7 ++ replicate 224 0).

Definition demo_core : bus_core unit := mkCore (new_KEvent false false) {[ 3 := tt ]} 0 0 [] [] ∅ ∅.

Definition demo_sys : sys (C := unit) (W := Z) :=
  mkSys (mkBus (new_KSemaphore 0 (2 ^ 31 - 1)) [] demo_core)
    (mkSynic (replicate 4096 0) (replicate 16 (mkMessage 0 false []))) false 0.

Definition demo_spec : spec (C := unit) (W := Z) := mkSpec [] false demo_core (replicate 4096 0) 0.

Definition count_call (_ : unit) (n : Z) : outcome Z := Ret (n + 1).

Lemma demo_sys_represents : represents demo_sys demo_spec.
Proof.
  split; try done; [split; [reflexivity | apply Forall_replicate; unfold is_byte; lia] |].
  by exists (mkMessage 0 false []).
Qed.

Lemma version_response_ok flags : Forall (fun i => 0 <= i < 2048) flags -> action_ok (Interrupt (Some version_response) flags).
Proof. intros H. split; [done |]. unfold CHANNELMSG_COUNT. cbn [MessageType version_response]. lia. Qed.

Lemma bus_refines_queue_witness :
  exists s', steps count_call [Interrupt (Some version_response) [3]; Wake; Handle] demo_sys = Ret s' /\
    m_queue (bus s') = [] /\ m_msg_conn_id (core (bus s')) = 7 /\ world s' = 1.
Proof.
  pose proof (bus_refines_queue count_call [Interrupt (Some version_response) [3]; Wake; Handle] demo_sys demo_spec) as H.
  destruct (spec_steps count_call [Interrupt (Some version_response) [3]; Wake; Handle] demo_spec) as [o |] eqn:E.
  2: { vm_compute in E. discriminate E. }
  specialize (H o demo_sys_represents).
  assert (Forall action_ok [Interrupt (Some version_response) [3]; Wake; Handle]) as Ha.
  { apply Forall_cons. split; [apply version_response_ok | repeat constructor]. apply Forall_singleton. lia. }
  specialize (H Ha eq_refl eq_refl).
  destruct o as [q | | |]; try (vm_compute in E; discriminate E).
  revert H. generalize (steps count_call [Interrupt (Some version_response) [3]; Wake; Handle] demo_sys).
  intros [s' | | |] H; try (exfalso; exact H). exists s'. split; [reflexivity |].
  pose proof (f_equal (fun x => match x with Some (Ret q) => (length (pending q), m_msg_conn_id (s_core q), s_world q) | _ => (0%nat, 0, 0) end) E) as E'.
  vm_compute in E'. injection E' as E1 E2 E3. cbn in H. destruct H as [Hq Hc _ _ _ _ _ _ Hw].
  clear E Ha. rewrite Hq, Hc, Hw. split; [| split]; [apply nil_length_inv; exact (eq_sym E1) | exact (eq_sym E2) | exact (eq_sym E3)].
Defined.

(** The thread is past its wait, with the message still in the queue. *)
Definition woken_sys : sys (C := unit) (W := Z) :=
  mkSys (mkBus (new_KSemaphore 0 (2 ^ 31 - 1)) [version_response] demo_core)
    (mkSynic (replicate 4096 0) (replicate 16 (mkMessage 0 false []))) true 0.

Lemma early_interrupt_stops_witness :
  steps count_call [Interrupt (Some version_response) []; Handle] woken_sys = Bugcheck.
Proof.
  apply (early_interrupt_stops count_call (Some version_response) [] woken_sys
           (mkSpec [version_response] true demo_core (replicate 4096 0) 0) 0).
  - split; try done; [split; [reflexivity | apply Forall_replicate; unfold is_byte; lia] |].
    by exists (mkMessage 0 false []).
  - by apply version_response_ok.
  - reflexivity.
  - vm_compute. reflexivity.
  - reflexivity.
Defined.

(** ** Requests and responses *)

Section Requests.
Context {C H : Type} `{Hypervisor H} {wait : KernelWait KEvent} `{!WaitBlocks KEvent}.
Implicit Type c : bus_core C.

(** The handles that were given out: 0 stands for none. *)
Definition handles c : list Z := filter (fun g => g <> 0) (Gpadl <$> m_requests c).

(** Handles are distinct, and none is ahead of the counter. *)
Definition handles_ok c : Prop :=
  0 <= m_nextGpadlHandle c /\ NoDup (handles c) /\ Forall (fun g => 0 <= g <= m_nextGpadlHandle c) (Gpadl <$> m_requests c).

Lemma find_first_app p l r :
  Forall (fun x => p x = false) l -> p r = true -> find_first p (l ++ [r]) = Ret r.
Proof. intros Hl Hr. induction Hl as [|x l Hx _ IH]; cbn [app find_first]; [by rewrite Hr | by rewrite Hx]. Qed.

(** What a sent request leaves behind, whatever the hypervisor answers. *)
Lemma PostMessage_send_inv frame response msg c page (h : H) msg' c1 page' h' :
  msgtype msg = CHANNELMSG_GPADL_HEADER ->
  PostMessage_send frame response msg c page h = Ret (msg', c1, page', h') ->
  let gpadl := u32 (m_nextGpadlHandle c + 1) in
  msg' = list_inserts 12 (le_to 4 gpadl) msg /\
  c1 = with_request gpadl (mkRequest gpadl 0 0 frame response)
         (with_cells (<[frame := new_KEvent false false]> (frames c)) (responses c) c).
Proof.
  intros Ht Hs gpadl. unfold PostMessage_send in Hs. rewrite Ht, Z.eqb_refl in Hs. cbn [mbind outcome_bind] in Hs.
  destruct (HvPostMessage _ _ _ _ _) as [[[r p] h2] | | |]; cbn [mbind outcome_bind] in Hs; try done.
  destruct (HV_SUCCESS r); cbn [Assert mbind outcome_bind] in Hs; [| done]. by injection Hs as <- <- _ _.
Qed.

(** C11: the answer to a request for memory reaches the caller that asked.  Given a wait that
    blocks until its object is signalled, [PostMessage] waits
    until the bus delivers the answer with the handle it put into the message; then it
    returns with the answer in its caller's variable, the event is gone, and every other caller's
    variable is as it was.  The handle is none of those given out before, and the handles
    stay distinct. *)
Theorem response_reaches_caller frame response old msg c page (h : H) msg' c1 page' h' m :
  handles_ok c -> m_nextGpadlHandle c + 1 < 2 ^ 32 -> responses c !! response = Some old ->
  msgtype msg = CHANNELMSG_GPADL_HEADER -> (16 <= length msg)%nat ->
  PostMessage_send frame response msg c page h = Ret (msg', c1, page', h') ->
  msgtype (Payload m) = CHANNELMSG_GPADL_CREATED -> field 12 4 (Payload m) = field 12 4 msg' ->
  PostMessage_return frame c1 = None /\ field 12 4 msg' ∉ handles c /\
  exists c2 c3, dispatch m c1 = Ret c2 /\ PostMessage_return frame c2 = Some (Ret c3) /\
    responses c3 !! response = Some (take sizeof_vmbus_channel_gpadl_created (Payload m)) /\
    frames c3 = delete frame (frames c) /\ handles c3 = handles c ++ [field 12 4 msg'] /\ handles_ok c3 /\
    forall r, r <> response -> responses c3 !! r = responses c !! r.
Proof using Type*.
  intros (Hn & Hd & Hr) Hb Hold Ht Hl Hs Hm Hf. destruct (PostMessage_send_inv _ _ _ _ _ _ _ _ _ _ Ht Hs) as [-> ->].
  rewrite (wrap_small 32) in * by lia. set (g := m_nextGpadlHandle c + 1) in *.
  assert (field 12 4 (list_inserts 12 (le_to 4 g) msg) = g) as Hread by (unfold field; apply read_le; cbn; lia).
  rewrite Hread in *.
  assert (g ∉ handles c) as Hfresh.
  { unfold handles. rewrite list_elem_of_filter. intros [_ Hg]. rewrite Forall_forall in Hr. apply Hr in Hg. lia. }
  split; [| split; [exact Hfresh |]].
  { unfold PostMessage_return. cbn [frames with_request with_cells]. rewrite lookup_insert_eq, KeWait_blocks. done. }
  set (c1 := with_request _ _ _). set (r := mkRequest g 0 0 frame response).
  assert (FindRequest_gpadl g c1 = Ret r) as Hfind.
  { unfold FindRequest_gpadl, c1. cbn [m_requests with_request with_cells]. apply find_first_app; [| apply Z.eqb_refl].
    rewrite Forall_fmap in Hr. eapply Forall_impl; [exact Hr |]. intros x Hx. cbn in Hx |- *. apply Z.eqb_neq. lia. }
  assert (handles c1 = handles c ++ [g]) as Hh1.
  { unfold handles, c1. cbn [m_requests with_request with_cells]. rewrite fmap_app, filter_app. f_equal. cbn.
    rewrite decide_True by lia. done. }
  eexists _, _. split; [| split].
  - unfold dispatch. rewrite Hm, Hf, Hfind. cbn [mbind outcome_bind Z.eqb CHANNELMSG_GPADL_CREATED].
    unfold reply, c1. cbn [Event Response r frames responses with_request with_cells].
    rewrite Hold, lookup_insert_eq. reflexivity.
  - unfold PostMessage_return. cbn [frames responses with_request with_cells]. rewrite lookup_insert_eq, KeWait_blocks. reflexivity.
  - cbn [frames responses with_request with_cells c1]. split_and!.
    + by rewrite lookup_insert_eq.
    + by rewrite insert_insert_eq, delete_insert_eq.
    + exact Hh1.
    + split; [cbn; lia |]. split.
      * change (NoDup (handles c1)). rewrite Hh1. apply NoDup_app. split; [done |]. split; [| apply NoDup_singleton].
        intros x Hx ->%list_elem_of_singleton. by apply Hfresh.
      * cbn [m_requests m_nextGpadlHandle with_request with_cells]. rewrite fmap_app. apply Forall_app. split.
        -- eapply Forall_impl; [exact Hr |]. cbn. lia.
        -- apply Forall_singleton. cbn. lia.
    + intros k Hk. by rewrite lookup_insert_ne.
Qed.

(** Fact: requests are never removed, and the first match is taken: when a channel is opened a
    second time, the answer is stored through the event of the first request, which ended
    when that [PostMessage] returned. *)
Theorem second_opening_faults c before r after m :
  m_requests c = before ++ r :: after -> frames c !! Event r = None ->
  Forall (fun x => (child_relid x =? child_relid r) && (openid x =? openid r) = false) before ->
  msgtype (Payload m) = CHANNELMSG_OPENCHANNEL_RESULT ->
  field 8 4 (Payload m) = child_relid r -> field 12 4 (Payload m) = openid r ->
  dispatch m c = Fault.
Proof.
  intros Hq Hd Hb Ht H1 H2. unfold dispatch. rewrite Ht, H1, H2. cbn -[FindRequest_channel reply].
  assert (FindRequest_channel (child_relid r) (openid r) c = Ret r) as ->.
  { unfold FindRequest_channel. rewrite Hq. clear Hq. induction Hb as [|x l Hx _ IH]; cbn [app find_first].
    - by rewrite !Z.eqb_refl.
    - cbn in Hx. by rewrite Hx. }
  cbn [mbind outcome_bind]. unfold reply. rewrite Hd. by destruct (responses c !! Response r).
Qed.

End Requests.

(** A hypervisor that takes every message. *)
#[local] Instance accepting : Hypervisor unit := { hypercall _ _ h := (0, h) }.

Lemma response_reaches_caller_witness :
  let c := mkCore (C := unit) (new_KEvent false false) ∅ 7 4 [mkRequest 4 0 0 1 1] [] ∅ {[ 9%nat := [] ]} in
  let answer := mkMessage 1 false (le_to 4 10 ++ le_to 4 0 ++ le_to 4 3 ++ le_to 4 5 ++ replicate 224 0) in
  exists msg' c1 page' h' c2 c3, gpadl_message 3 0x10000 20 ≫= (fun msg => PostMessage_send 2 9 msg c (replicate 4096 0) tt) = Ret (msg', c1, page', h') /\
    PostMessage_return 2 c1 = None /\ dispatch answer c1 = Ret c2 /\ PostMessage_return 2 c2 = Some (Ret c3) /\
    response_gpadl <$> responses c3 !! 9%nat = Some 5.
Proof.
  intros c answer.
  destruct (gpadl_message 3 0x10000 20 ≫= (fun msg => PostMessage_send 2 9 msg c (replicate 4096 0) tt)) as [[[[msg' c1] page'] h'] | | |] eqn:E;
    try (vm_compute in E; discriminate E).
  destruct (gpadl_message 3 0x10000 20) as [msg | | |] eqn:Em; try (vm_compute in Em; discriminate Em).
  cbn [mbind outcome_bind] in E.
  destruct (response_reaches_caller 2 9 [] msg c (replicate 4096 0) tt msg' c1 page' h' answer) as (Hw & _ & c2 & c3 & H1 & H2 & H3 & _).
  - split; [vm_compute; discriminate |]. split; [apply NoDup_singleton | repeat constructor; vm_compute; discriminate].
  - reflexivity.
  - reflexivity.
  - vm_compute in Em. injection Em as <-. reflexivity.
  - vm_compute in Em. injection Em as <-. cbn. lia.
  - exact E.
  - reflexivity.
  - vm_compute in Em. injection Em as <-. vm_compute in E. injection E as <- _ _ _. reflexivity.
  - exists msg', c1, page', h', c2, c3. split; [reflexivity |]. split; [done |]. split; [done |]. split; [done |].
    rewrite H3. reflexivity.
Defined.

(** ** The description of the rings *)

(** What the hypervisor reads in the message: channel, size and offset of the range, and the
    numbers of its pages. *)
Definition gpadl_view (l : list Z) : Z * Z * Z * list Z :=
  (field 8 4 l, field 20 4 l, field 24 4 l,
   (fun i => field (Z.to_nat (28 + 8 * i)) 8 l) <$> seqZ 0 ((field 16 2 l - 8) / 8)).

Lemma field_here n v l : 0 <= v < 256 ^ Z.of_nat n -> field 0 n (le_to n v ++ l) = v.
Proof.
  intros Hv. unfold field. rewrite drop_0, take_app_length' by (by rewrite le_to_length). by apply le_of_to.
Qed.

Lemma field_skip n v off k l : (n <= off)%nat -> field off k (le_to n v ++ l) = field (off - n) k l.
Proof. intros Hn. unfold field. rewrite drop_app_ge by (by rewrite le_to_length). by rewrite le_to_length. Qed.

Lemma field_of_concat xs : forall i x,
  xs !! i = Some x -> 0 <= x < 2 ^ 64 -> field (8 * i) 8 (concat (map (le_to 8) xs)) = x.
Proof.
  induction xs as [|y xs IH]; intros i x Hi Hx; [done |]. cbn [map concat]. destruct i as [|i].
  - injection Hi as ->. by apply field_here.
  - rewrite field_skip by lia. replace (8 * S i - 8)%nat with (8 * i)%nat by lia. by apply IH.
Qed.

(** Fact: the message that opens a channel describes its rings exactly: it fits into a message of
    the hypervisor, and the pages it lists are, in order, the pages of the memory that was
    allocated for the two rings. *)
Theorem gpadl_covers_rings relid address pageCount :
  0 <= relid < 2 ^ 32 -> 0 <= address -> address mod PageSize = 0 -> address + pageCount * PageSize <= 2 ^ 64 ->
  1 <= pageCount <= 26 ->
  exists msg, gpadl_message relid address pageCount = Ret msg /\
    Z.of_nat (length msg) <= MAX_SIZE_CHANNEL_MESSAGE /\ msgtype msg = CHANNELMSG_GPADL_HEADER /\
    gpadl_view msg = (relid, pageCount * PageSize, 0, (fun i => (address + i * PageSize) / PageSize) <$> seqZ 0 pageCount).
Proof.
  change PageSize with 4096. change (2 ^ 64) with 18446744073709551616. intros Hr Ha Hal Hb Hp.
  unfold gpadl_message. change pfncount with 26. rewrite (proj2 (Z.ltb_ge 26 pageCount)) by lia.
  cbn [negb Assert mbind outcome_bind]. eexists. split; [reflexivity |].
  set (pfns := map (fun i => Z.shiftr address PageShift + i) (seqZ 0 pageCount)).
  assert (map (fun i => le_to 8 (Z.shiftr address PageShift + i)) (seqZ 0 pageCount) = map (le_to 8) pfns) as ->
    by (unfold pfns; by rewrite map_map).
  assert (length (concat (map (le_to 8) pfns)) = (8 * Z.to_nat pageCount)%nat) as Hlen.
  { assert (length pfns = Z.to_nat pageCount) as <- by (unfold pfns; rewrite length_map, length_seqZ; lia).
    induction pfns as [|x l IH]; [done |]. cbn [map concat length]. rewrite length_app, le_to_length, IH. lia. }
  change PageShift with 12 in *. rewrite Z.shiftl_mul_pow2 by lia. change (2 ^ 12) with 4096.
  unfold sizeof_gpa_range, ANYSIZE_ARRAY. replace (16 + (pageCount - 1) * 8) with (8 + 8 * pageCount) by lia.
  rewrite (wrap_small 16), (wrap_small 32) by lia.
  split; [| split].
  - rewrite !length_app, !le_to_length, Hlen. change MAX_SIZE_CHANNEL_MESSAGE with 240. lia.
  - by apply field_here.
  - assert (forall off k l, field (28 + off) k
        (le_to 4 CHANNELMSG_GPADL_HEADER ++ le_to 4 0 ++ le_to 4 relid ++ le_to 4 0 ++ le_to 2 (8 + 8 * pageCount) ++
         le_to 2 1 ++ le_to 4 (pageCount * 4096) ++ le_to 4 0 ++ l) = field off k l) as Hbody.
    { intros off k l. rewrite !field_skip by lia. f_equal. lia. }
    assert (forall off n v l, off = 0%nat -> 0 <= v < 256 ^ Z.of_nat n -> field off n (le_to n v ++ l) = v) as Hhere
      by (intros off n v l -> Hv; by apply field_here).
    unfold gpadl_view.
    match goal with |- (_, _, _, _ <$> seqZ 0 ((field 16 2 ?m - 8) / 8)) = _ =>
      assert (field 8 4 m = relid /\ field 20 4 m = pageCount * 4096 /\ field 24 4 m = 0 /\ field 16 2 m = 8 + 8 * pageCount)
        as (-> & -> & -> & ->) by (split_and!; repeat rewrite field_skip by lia; apply Hhere; done || (cbn; lia))
    end.
    replace ((8 + 8 * pageCount - 8) / 8) with pageCount
      by (replace (8 + 8 * pageCount - 8) with (pageCount * 8) by lia; by rewrite Z.div_mul).
    f_equal. apply list_fmap_ext. intros k i Hk. apply lookup_seqZ in Hk as [-> Hk].
    replace (Z.to_nat (28 + 8 * (0 + Z.of_nat k))) with (28 + 8 * k)%nat by lia. rewrite Hbody, Z.div_add by lia.
    assert (0 <= address / 4096 + Z.of_nat k < 2 ^ 64).
    { pose proof (Z.div_pos address 4096 Ha ltac:(lia)). split; [lia |].
      assert (address / 4096 <= address) by (apply Z.div_le_upper_bound; lia). lia. }
    apply field_of_concat; [| done]. unfold pfns. change (map ?f ?l) with (f <$> l).
    rewrite list_lookup_fmap, (proj2 (lookup_seqZ 0 pageCount k _) (conj eq_refl Hk)). cbn [fmap option_fmap option_map].
    by rewrite Z.shiftr_div_pow2.
Qed.

Lemma gpadl_covers_rings_witness :
  exists msg, gpadl_message 3 0x10000 20 = Ret msg /\ Z.of_nat (length msg) <= MAX_SIZE_CHANNEL_MESSAGE /\
    msgtype msg = CHANNELMSG_GPADL_HEADER /\
    gpadl_view msg = (3, 20 * PageSize, 0, (fun i => (0x10000 + i * PageSize) / PageSize) <$> seqZ 0 20).
Proof.
  apply gpadl_covers_rings; [lia | lia | reflexivity | vm_compute; discriminate | lia].
Defined.

(** ** The monitor page, and the mouse *)

(** Fact: a monitor number above 127 selects a group behind the four of the page: its bit is
    set in reserved bytes, and no trigger group changes. *)
Theorem SetMonitor_reserved monitorId page page' :
  128 <= monitorId < 256 -> SetMonitor monitorId page = Ret page' ->
  take 40 page' = take 40 page.
Proof.
  intros Hm Hs. unfold SetMonitor in Hs. rewrite (wrap_small 8) in Hs by lia.
  case_match; [done |].
  assert (forall A (a b : A), Ret a = Ret b -> a = b) as Hret by (intros A a b Hab; by injection Hab).
  apply Hret in Hs as <-. assert (4 <= monitorId / 32) by (apply Z.div_le_lower_bound; lia).
  match goal with |- take 40 ?l = _ => rewrite <- (drop_0 l) end. rewrite <- (drop_0 page) at 3.
  apply read_other_inserts. lia.
Qed.

(** Fact: a report of seven bytes is posted as the buttons and the absolute position it holds,
    and nothing else of the driver changes. *)
Theorem report_is_posted buttons x y wheel d rest :
  0 <= buttons < 256 -> 0 <= x < 2 ^ 16 -> 0 <= y < 2 ^ 16 -> 0 <= wheel < 2 ^ 16 ->
  ProcessMessage (le_to 4 PIPE_MESSAGE_DATA ++ le_to 4 15 ++ le_to 4 SYNTH_HID_INPUT_REPORT ++ le_to 4 7 ++
                  le_to 1 buttons ++ le_to 2 x ++ le_to 2 y ++ le_to 2 wheel ++ rest) d
  = Ret (mkMouse (m_response d) (m_event d)
           (posted d ++ [mkReport (Z.testbit buttons 0) (Z.testbit buttons 1) x y])).
Proof.
  intros Hb Hx Hy Hw. unfold ProcessMessage.
  rewrite !length_app, !le_to_length. cbn [Nat.add Nat.ltb Nat.leb mbind outcome_bind].
  match goal with |- context [field 0 4 ?m] =>
    assert (field 0 4 m = PIPE_MESSAGE_DATA /\ field 8 4 m = SYNTH_HID_INPUT_REPORT /\ field 12 4 m = 7 /\
            field 16 1 m = buttons /\ field 17 2 m = x /\ field 19 2 m = y) as (-> & -> & -> & -> & -> & ->)
  end; [| reflexivity].
  assert (forall off n v l, off = 0%nat -> 0 <= v < 256 ^ Z.of_nat n -> field off n (le_to n v ++ l) = v) as Hhere
    by (intros off n v l -> Hv; by apply field_here).
  split_and!; repeat rewrite field_skip by lia; apply Hhere; done || (cbn; lia).
Qed.
