(* ===== verification/Firmware.v ===== *)
(** Firmware: the firmware's tables: the configuration tables of UEFI and the SMBIOS table.

    Models src/src/kernel/hal/devices/ConfigTables.cpp and .h and SMBios.cpp and .h, on the
    byte memory of CMemory.  [SMBios::Init] is split where it maps memory: [SMBios_walk] is
    what it does once the table is there.  A function that runs off its end without a
    [return] gives [None]: its value is not defined. *)
From Stdlib Require Import String.
From S2P Require Import Prelude OSSystem CMemory CrtString.
#[local] Open Scope list_scope.
#[local] Open Scope Z_scope.

(** ** Configuration tables *)

Definition sizeof_EFI_CONFIGURATION_TABLE : Z := 24.

Record ConfigTables := mkConfig { m_tables : Z; m_count : Z }.

(** A GUID as it is stored. *)
Definition guid_bytes (Data1 Data2 Data3 : Z) (Data4 : list Z) : list Z :=
  le_to 4 Data1 ++ le_to 2 Data2 ++ le_to 2 Data3 ++ Data4.

Definition ACPI_20_TABLE_GUID : list Z :=
  guid_bytes 0x8868e871 0xe4f1 0x11d3 [0xbc; 0x22; 0x0; 0x80; 0xc7; 0x3c; 0x88; 0x81].
Definition SMBIOS3_TABLE_GUID : list Z :=
  guid_bytes 0xf2fd1544 0x9794 0x4a2c [0x99; 0x2e; 0xe5; 0xbb; 0xcf; 0x20; 0xe3; 0x94].

(** [newTables] is what [new] returns. *)
Definition Reallocate (newTables : Z) (c : ConfigTables) (m : mem) : outcome (ConfigTables * mem) :=
  _ ← Assert (truthy newTables);
  '(m, _) ← memcpy m newTables (m_tables c) (u64 (m_count c * sizeof_EFI_CONFIGURATION_TABLE));
  Ret (mkConfig newTables (m_count c), m).

(** The loop of [GetTableByGuid] from table [i] on, for [n] tables; [guid] is an address. *)
Fixpoint GetTableByGuid_loop (n : nat) (m : mem) (tables i guid : Z) : outcome (option Z) :=
  match n with
  | O => Ret None
  | S n =>
    let entry := tables + i * sizeof_EFI_CONFIGURATION_TABLE in
    r ← memcmp m entry guid 16;
    if negb (r =? 0) then GetTableByGuid_loop n m tables (i + 1) guid
    else vendorTable ← load64 m (entry + 16); Ret (Some vendorTable)
  end.

Definition GetTableByGuid (m : mem) (c : ConfigTables) (guid : Z) : outcome (option Z) :=
  GetTableByGuid_loop (Z.to_nat (m_count c)) m (m_tables c) 0 guid.

(** The GUID is a local constant, at [local]. *)
Definition GetAcpiTable (local : Z) (c : ConfigTables) (m : mem) : outcome Z :=
  m ← store_bytes m local ACPI_20_TABLE_GUID;
  table ← GetTableByGuid m c local;
  match table with Some table => Ret table | None => Bugcheck end.

Definition GetSMBiosTable (local : Z) (c : ConfigTables) (m : mem) : outcome Z :=
  m ← store_bytes m local SMBIOS3_TABLE_GUID;
  table ← GetTableByGuid m c local;
  Ret (default 0 table).

(** ** SMBIOS *)

Definition BiosInfo : Z := 0.
Definition ProcessorInfo : Z := 4.
Definition OEMStrings : Z := 11.

(** [SMBios]: the version, and of [cpuInfo] the structure's address and the strings. *)
Record SMBios := mkSMBios { smBiosVersion : Z; smbiosInfo : Z; strings : list (list Z) }.

(** The [std::string] of a C string. *)
Definition std_string (m : mem) (s : Z) : outcome (list Z) :=
  n ← strlen m s; load_bytes m s (Z.to_nat n).

(** The loop over the strings behind a structure. *)
Fixpoint read_strings (fuel : nat) (m : mem) (ctr : Z) (acc : list (list Z)) : outcome (list (list Z)) :=
  match fuel with
  | O => Diverged
  | S fuel =>
    if ctr =? 0 then Ret acc
    else
      c ← load8 m ctr;
      if c =? NUL then Ret acc
      else
        s ← std_string m ctr;
        n ← strlen m ctr;
        read_strings fuel m (ctr + (n + 1)) (acc ++ [s])
  end.

Fixpoint struct_end_loop (fuel : nat) (m : mem) (addr : Z) : outcome Z :=
  match fuel with
  | O => Diverged
  | S fuel =>
    c ← load8 m addr;
    if negb (c =? NUL) then struct_end_loop fuel m (addr + 1)
    else
      c ← load8 m (addr + 1);
      if negb (c =? NUL) then struct_end_loop fuel m (addr + 1) else Ret (addr + 2)
  end.

Definition smbios_struct_end (m : mem) (hd : Z) : outcome Z :=
  length ← load8 m (hd + 1);
  struct_end_loop (walk_fuel m) m (hd + length).

(** The switch of [Init] on the structure at [tbl]; the console line of a processor reads
    three of its fields. *)
Definition structure (m : mem) (tbl type : Z) (s : SMBios) : outcome SMBios :=
  if type =? BiosInfo then
    if 31 <=? smBiosVersion s then
      length ← load8 m (tbl + 1);
      _ ← read_strings (walk_fuel m) m (tbl + length) [];
      Ret s
    else Ret s
  else if type =? ProcessorInfo then
    length ← load8 m (tbl + 1);
    l ← read_strings (walk_fuel m) m (tbl + length) (strings s);
    _ ← load16 m (tbl + 18);
    _ ← load16 m (tbl + 20);
    _ ← load16 m (tbl + 22);
    Ret (mkSMBios (smBiosVersion s) tbl l)
  else if type =? OEMStrings then
    length ← load8 m (tbl + 1);
    _ ← read_strings (walk_fuel m) m (tbl + length) [];
    Ret s
  else Ret s.

Fixpoint SMBios_loop (fuel : nat) (m : mem) (tbl : Z) (s : SMBios) : outcome SMBios :=
  match fuel with
  | O => Diverged
  | S fuel =>
    type ← load8 m tbl;
    if type =? 127 then Ret s
    else
      s ← structure m tbl type s;
      tbl ← smbios_struct_end m tbl;
      SMBios_loop fuel m tbl s
  end.

(** What [Init] does with the table at [tbl] and the entry point at [header]. *)
Definition SMBios_walk (m : mem) (header tbl : Z) (s : SMBios) : outcome SMBios :=
  major ← load8 m (header + 7);
  minor ← load8 m (header + 8);
  SMBios_loop (walk_fuel m) m tbl (mkSMBios (major * 10 + minor) (smbiosInfo s) (strings s)).

(** [Kernel::VirtualMapRT] of one page, as far as memory is concerned: the page at the
    physical address appears at the reserved address [window], and [VMM::VirtualMap] clears
    what it has mapped. *)
Definition VirtualMapRT (page : list Z) (window : Z) (m : mem) : outcome mem :=
  '(m, _) ← memset (mem_of window page ∪ m) window 0 PageSize;
  Ret m.

(** [Init]: [physical] are the pages of physical memory by address, [window1] and [window2]
    the addresses that are reserved, [sm3] the address of the literal. *)
Definition SMBios_Init (physical : Z -> list Z) (window1 window2 sm3 ESP : Z) (m : mem) (s : SMBios)
  : outcome (option bool * SMBios) :=
  if ESP =? 0x0 then Ret (Some false, s)
  else
    m ← VirtualMapRT (physical (ESP - ESP mod PageSize)) window1 m;
    r ← memcmp m window1 sm3 5;
    if negb (r =? 0) then Ret (Some false, s)
    else
      address ← load64 m (window1 + 16);
      m ← VirtualMapRT (physical (address - address mod PageSize)) window2 m;
      s ← SMBios_walk m window1 window2 s;
      Ret (None, s).

Definition GetExtBusSpeed (m : mem) (s : SMBios) : outcome (option Z) :=
  if truthy (smbiosInfo s) then clock ← load16 m (smbiosInfo s + 18); Ret (Some clock) else Ret None.

(** * Properties *)

(** ** Tables by their GUID *)

(** The tables [l], as GUIDs and addresses, are stored from [a] on. *)
Definition tables_at (m : mem) (a : Z) (l : list (list Z * Z)) : Prop :=
  bytes_at m a (mjoin ((fun t => t.1 ++ le_to 8 t.2) <$> l)) /\
  Forall (fun t => length t.1 = 16%nat /\ 0 <= t.2 < 2 ^ 64) l.

(** The first table with a GUID. *)
Definition lookup_table (guid : list Z) (l : list (list Z * Z)) : option Z :=
  snd <$> head (base.filter (fun t => t.1 = guid) l).

Lemma bytes_at_mapped m a l : bytes_at m a l -> mapped m a (Z.of_nat (length l)).
Proof.
  intros H x Hx. destruct (lookup_lt_is_Some_2 l (Z.to_nat (x - a))) as [b Hb]; [lia |].
  exists b. rewrite <- (H _ _ Hb). f_equal. lia.
Qed.

Lemma same_bytes_lists m p q l1 l2 :
  bytes_at m p l1 -> bytes_at m q l2 -> length l1 = length l2 ->
  same_bytes m p q (Z.of_nat (length l1)) <-> l1 = l2.
Proof.
  intros H1 H2 Hl. split.
  - intros H. apply list_eq. intros i. destruct (l1 !! i) as [b |] eqn:E1.
    + pose proof (lookup_lt_Some _ _ _ E1). destruct (lookup_lt_is_Some_2 l2 i) as [c E2]; [lia |].
      rewrite E2. pose proof (H (Z.of_nat i) ltac:(lia)) as He.
      rewrite (H1 _ _ E1), (H2 _ _ E2) in He. congruence.
    + apply lookup_ge_None in E1. symmetry. apply lookup_ge_None. lia.
  - intros <- x Hx. destruct (lookup_lt_is_Some_2 l1 (Z.to_nat x)) as [b Hb]; [lia |].
    pose proof (H1 _ _ Hb) as E1. pose proof (H2 _ _ Hb) as E2. rewrite Z2Nat.id in E1, E2 by lia. congruence.
Qed.

Lemma GetTableByGuid_loop_spec guid m l : forall tables i g,
  mem_ok m -> tables_at m (tables + i * 24) l -> bytes_at m g guid -> length guid = 16%nat ->
  GetTableByGuid_loop (length l) m tables i g = Ret (lookup_table guid l).
Proof.
  induction l as [| [h v] l IH]; intros tables i g Hok [Hb Hl] Hg Hgl; [done |].
  inversion Hl as [| ? ? [Hh Hv] Hl']; subst. cbn [fst snd] in *.
  change (mjoin ((fun t : list Z * Z => t.1 ++ le_to 8 t.2) <$> (h, v) :: l))
    with ((h ++ le_to 8 v) ++ mjoin ((fun t : list Z * Z => t.1 ++ le_to 8 t.2) <$> l)) in Hb.
  apply bytes_at_app in Hb as [Hhv Hr]. apply bytes_at_app in Hhv as [Hbh Hbv].
  rewrite length_app, le_to_length, Hh in Hr. rewrite Hh in Hbv.
  cbn [length GetTableByGuid_loop]. change sizeof_EFI_CONFIGURATION_TABLE with 24.
  pose proof (bytes_at_mapped _ _ _ Hbh) as Hm1. pose proof (bytes_at_mapped _ _ _ Hg) as Hm2.
  rewrite Hh in Hm1. rewrite Hgl in Hm2.
  destruct (memcmp_same m (tables + i * 24) g 16 Hok ltac:(lia) Hm1 Hm2) as (r & -> & _ & Hr0).
  cbn [mbind outcome_bind]. unfold lookup_table. rewrite filter_cons. cbn [fst].
  assert (r = 0 <-> h = guid) as Heq.
  { rewrite Hr0, <- (same_bytes_lists m (tables + i * 24) g h guid) by (done || congruence). by rewrite Hh. }
  destruct (Z.eqb_spec r 0) as [Hz | Hz]; cbn [negb].
  - rewrite decide_True by tauto. cbn [head fmap option_fmap option_map snd].
    unfold load_le. rewrite (proj2 (load_bytes_Ret m _ 8 (le_to 8 v)));
      [| by rewrite le_to_length]. cbn [mbind outcome_bind]. by rewrite le_of_to.
  - rewrite decide_False by tauto. apply IH; [done | split; [| done] | done | done].
    replace (tables + (i + 1) * 24) with (tables + i * 24 + Z.of_nat (16 + 8)) by lia. done.
Qed.

Lemma blit_bytes_at m dst src n m' a l :
  blit m dst src n m' -> bytes_at m (src + a) l -> 0 <= a -> a + Z.of_nat (length l) <= n ->
  bytes_at m' (dst + a) l.
Proof.
  intros Hb H Ha Hn i b Hi. rewrite (Hb _). pose proof (lookup_lt_Some _ _ _ Hi).
  destruct (Z.leb_spec dst (dst + a + Z.of_nat i)); [| lia].
  destruct (Z.ltb_spec (dst + a + Z.of_nat i) (dst + n)); [| lia]. cbn [andb].
  rewrite <- (H _ _ Hi). f_equal. lia.
Qed.

Lemma tables_length l :
  Forall (fun t : list Z * Z => length t.1 = 16%nat /\ 0 <= t.2 < 2 ^ 64) l ->
  length (mjoin ((fun t => t.1 ++ le_to 8 t.2) <$> l)) = (24 * length l)%nat.
Proof.
  induction 1 as [| t l [Ht _] _ IH]; [done |].
  change (length ((t.1 ++ le_to 8 t.2) ++ mjoin ((fun t => t.1 ++ le_to 8 t.2) <$> l)) = (24 * S (length l))%nat).
  rewrite !length_app, le_to_length, IH, Ht. lia.
Qed.

(** Fact: the configuration tables survive the move to the kernel's heap: a search for a GUID
    among the copied tables gives the address of the first table with that GUID, or none. *)
Theorem reallocated_tables_found guid g l c new m :
  mem_ok m -> tables_at m (m_tables c) l -> m_count c = Z.of_nat (length l) ->
  24 * m_count c < 2 ^ 64 -> new <> 0 -> mapped m new (24 * m_count c) ->
  new <= m_tables c \/ m_tables c + 24 * m_count c <= new ->
  bytes_at m g guid -> length guid = 16%nat -> g + 16 <= new \/ new + 24 * m_count c <= g ->
  exists c' m', Reallocate new c m = Ret (c', m') /\ GetTableByGuid m' c' g = Ret (lookup_table guid l).
Proof.
  intros Hok [Hb Hl] Hc H64 Hn Hmap Hd Hg Hgl Hgd. unfold Reallocate.
  assert (truthy new = true) as -> by (unfold truthy; destruct (Z.eqb_spec new 0); done).
  cbn [Assert mbind outcome_bind]. change sizeof_EFI_CONFIGURATION_TABLE with 24.
  rewrite wrap_small by lia.
  pose proof (bytes_at_mapped _ _ _ Hb) as Hms. rewrite tables_length in Hms by done.
  destruct (memcpy_blit m new (m_tables c) (m_count c * 24)) as (m' & -> & Hbl);
    [done | lia | by replace (m_count c * 24) with (Z.of_nat (24 * length l)) by lia |
     by replace (m_count c * 24) with (24 * m_count c) by lia | lia |].
  cbn [mbind outcome_bind]. eexists _, _. split; [reflexivity |].
  unfold GetTableByGuid. cbn [m_count m_tables]. rewrite Hc, Nat2Z.id.
  apply GetTableByGuid_loop_spec; [by eapply blit_ok | split; [| done] | | done].
  - rewrite Z.mul_0_l, Z.add_0_r. rewrite <- (Z.add_0_r new).
    eapply blit_bytes_at; [exact Hbl | by rewrite Z.add_0_r | lia |]. rewrite tables_length by done. lia.
  - intros i b Hi. rewrite (Hbl _). pose proof (lookup_lt_Some _ _ _ Hi).
    destruct (Z.leb_spec new (g + Z.of_nat i)); [| by apply Hg].
    destruct (Z.ltb_spec (g + Z.of_nat i) (new + m_count c * 24)); [lia | by apply Hg].
Qed.

(** ** The SMBIOS table *)

(** A structure: its type, its handle, the rest of its formatted part and its strings. *)
Record smb := mkSmb { smb_type : Z; smb_handle : Z; smb_body : list Z; smb_strings : list (list Z) }.

(** Strings one after the other, and a NUL. *)
Definition str_bytes (ss : list (list Z)) : list Z := mjoin ((fun s => s ++ [0]) <$> ss) ++ [0].

(** A string set: two NULs when there are no strings. *)
Definition string_set (ss : list (list Z)) : list Z :=
  str_bytes ss ++ match ss with [] => [0] | _ => [] end.

Definition smb_length (s : smb) : Z := 4 + Z.of_nat (length (smb_body s)).

Definition encode (s : smb) : list Z :=
  ([smb_type s; smb_length s] ++ le_to 2 (smb_handle s) ++ smb_body s) ++ string_set (smb_strings s).

Definition string_ok (s : list Z) : Prop := s <> [] /\ Forall (fun b => b <> 0) s.

Definition smb_ok (s : smb) : Prop :=
  smb_type s <> 127 /\ smb_length s < 256 /\ Forall string_ok (smb_strings s) /\
  (smb_type s = ProcessorInfo -> 20 <= Z.of_nat (length (smb_body s))).

(** What a table says: the last processor's structure and the strings of all processors. *)
Definition apply_smb (a : Z) (x : smb) (s : SMBios) : SMBios :=
  if smb_type x =? ProcessorInfo then mkSMBios (smBiosVersion s) a (strings s ++ smb_strings x) else s.

Fixpoint apply_table (a : Z) (l : list smb) (s : SMBios) : SMBios :=
  match l with
  | [] => s
  | x :: l => apply_table (a + Z.of_nat (length (encode x))) l (apply_smb a x s)
  end.

Lemma load8_at m a b l : bytes_at m a (b :: l) -> load8 m a = Ret b.
Proof. intros H. apply bytes_at_cons in H as [H _]. by apply load8_eq. Qed.

Lemma std_string_at m a s l :
  Forall (fun b => b <> 0) s -> bytes_at m a (s ++ 0 :: l) ->
  strlen m a = Ret (Z.of_nat (length s)) /\ std_string m a = Ret s.
Proof.
  intros Hs Hb. assert (cstr m a s) as Hc.
  { split; [| done]. change (s ++ 0 :: l) with (s ++ [0] ++ l) in Hb. rewrite app_assoc in Hb.
    by apply bytes_at_app in Hb as [Hb _]. }
  pose proof (strlen_cstr _ _ _ Hc) as Hn. split; [done |].
  unfold std_string. rewrite Hn. cbn [mbind outcome_bind]. rewrite Nat2Z.id.
  apply load_bytes_Ret. split; [done |]. by apply bytes_at_app in Hb as [Hb _].
Qed.

Lemma str_bytes_cons s ss : str_bytes (s :: ss) = s ++ 0 :: str_bytes ss.
Proof. unfold str_bytes. cbn. by rewrite <- !app_assoc. Qed.

Lemma str_bytes_length ss : (length ss < length (str_bytes ss))%nat.
Proof.
  induction ss as [| s ss IH]; [by cbn; lia |].
  rewrite str_bytes_cons, length_app. cbn [length]. lia.
Qed.

Lemma read_strings_spec m ss : forall fuel a acc,
  (length ss < fuel)%nat -> 0 < a -> Forall string_ok ss -> bytes_at m a (str_bytes ss) ->
  read_strings fuel m a acc = Ret (acc ++ ss).
Proof.
  induction ss as [| s ss IH]; intros fuel a acc Hf Ha Hok Hb; (destruct fuel as [| fuel]; [lia |]);
    cbn [read_strings]; destruct (Z.eqb_spec a 0); try lia.
  - rewrite (load8_at _ _ _ _ Hb). cbn. by rewrite app_nil_r.
  - inversion Hok as [| ? ? [Hne Hs] Hok']; subst. rewrite str_bytes_cons in Hb.
    destruct s as [| b s]; [done |]. rewrite (load8_at _ _ _ _ Hb). cbn [mbind outcome_bind].
    destruct (std_string_at _ _ _ _ Hs Hb) as [-> ->]. inversion Hs; subst.
    destruct (Z.eqb_spec b NUL); [done |]. cbn [mbind outcome_bind length].
    rewrite IH; [by rewrite <- app_assoc | cbn [length] in *; lia | lia | done |].
    change (b :: s) with ([b] ++ s) in Hb. apply bytes_at_app in Hb as [_ Hb].
    apply bytes_at_cons in Hb as [_ Hb]. cbn [app length] in Hb.
    by replace (a + (Z.of_nat (S (length s)) + 1)) with (a + Z.of_nat (S (length s)) + 1) by lia.
Qed.

Lemma read_strings_set m a ss acc :
  0 < a -> Forall string_ok ss -> bytes_at m a (string_set ss) ->
  read_strings (walk_fuel m) m a acc = Ret (acc ++ ss).
Proof.
  intros Ha Hok Hb. unfold string_set in Hb. apply bytes_at_app in Hb as [Hb _].
  apply read_strings_spec; [| done..]. pose proof (bytes_at_size _ _ _ Hb).
  pose proof (str_bytes_length ss). unfold walk_fuel. lia.
Qed.

Lemma struct_end_skip m s : forall fuel a l,
  Forall (fun b => b <> 0) s -> bytes_at m a (s ++ l) ->
  struct_end_loop (length s + fuel) m a = struct_end_loop fuel m (a + Z.of_nat (length s)).
Proof.
  induction s as [| b s IH]; intros fuel a l Hs Hb; [by rewrite Z.add_0_r |].
  inversion Hs; subst. cbn [length Nat.add struct_end_loop]. rewrite (load8_at _ _ _ _ Hb).
  cbn [mbind outcome_bind]. destruct (Z.eqb_spec b NUL); [done |]. cbn [negb].
  apply bytes_at_cons in Hb as [_ Hb]. rewrite (IH _ _ _ ltac:(done) Hb). f_equal. lia.
Qed.

Lemma struct_end_strings m ss : forall fuel s a,
  (length (s ++ 0%Z :: str_bytes ss) <= fuel)%nat -> Forall (fun b => b <> 0) s -> Forall string_ok ss ->
  bytes_at m a (s ++ 0 :: str_bytes ss) ->
  struct_end_loop fuel m a = Ret (a + Z.of_nat (length (s ++ 0 :: str_bytes ss))).
Proof.
  induction ss as [| t ss IH]; intros fuel s a Hf Hs Hok Hb; rewrite length_app in *; cbn [length] in *;
    replace fuel with (length s + (fuel - length s))%nat by lia;
    rewrite (struct_end_skip _ _ _ _ _ Hs Hb); apply bytes_at_app in Hb as [_ Hb];
    (destruct (fuel - length s)%nat as [| f] eqn:Ef; [lia |]); cbn [struct_end_loop];
    rewrite (load8_at _ _ _ _ Hb); apply bytes_at_cons in Hb as [_ Hb]; cbn [mbind outcome_bind NUL Z.eqb negb].
  - rewrite (load8_at _ _ _ _ Hb). cbn. f_equal. lia.
  - inversion Hok as [| ? ? [Hne Ht] Hok']; subst. rewrite str_bytes_cons in *.
    destruct t as [| b t]; [done |]. rewrite (load8_at _ _ _ _ Hb). inversion Ht; subst.
    cbn [mbind outcome_bind]. unfold NUL in *. destruct (Z.eqb_spec b 0); [done |]. cbn [negb].
    rewrite (IH f (b :: t)); [f_equal; lia | lia | done..].
Qed.

Lemma struct_end_set m a ss :
  Forall string_ok ss -> bytes_at m a (string_set ss) ->
  struct_end_loop (walk_fuel m) m a = Ret (a + Z.of_nat (length (string_set ss))).
Proof.
  intros Hok Hb. pose proof (bytes_at_size _ _ _ Hb) as Hsz. unfold walk_fuel.
  destruct ss as [| s ss]; unfold string_set in *.
  - cbn [str_bytes fmap list_fmap mjoin list_join app length struct_end_loop] in *.
    rewrite (load8_at _ _ _ _ Hb). apply bytes_at_cons in Hb as [_ Hb]. by rewrite (load8_at _ _ _ _ Hb).
  - rewrite app_nil_r in *. inversion Hok as [| ? ? [_ Hs] Hok']; subst. rewrite str_bytes_cons in *.
    apply struct_end_strings; [lia | done..].
Qed.

(** What is known of a structure in memory. *)
Lemma encode_at m a x l :
  bytes_at m a (encode x ++ l) ->
  load8 m a = Ret (smb_type x) /\ load8 m (a + 1) = Ret (smb_length x) /\
  bytes_at m (a + smb_length x) (string_set (smb_strings x)) /\
  mapped m a (smb_length x) /\
  bytes_at m (a + Z.of_nat (length (encode x))) l /\
  Z.of_nat (length (encode x)) = smb_length x + Z.of_nat (length (string_set (smb_strings x))).
Proof.
  intros Hb. assert (Z.of_nat (length ([smb_type x; smb_length x] ++ le_to 2 (smb_handle x) ++ smb_body x)) = smb_length x) as Hl.
  { rewrite !length_app, le_to_length. unfold smb_length. cbn [length]. lia. }
  apply bytes_at_app in Hb as [Hb Hr]. unfold encode in Hb. apply bytes_at_app in Hb as [Hf Hs]. rewrite Hl in Hs.
  pose proof (bytes_at_mapped _ _ _ Hf) as Hm. rewrite Hl in Hm.
  cbn [app] in Hf. pose proof (load8_at _ _ _ _ Hf). apply bytes_at_cons in Hf as [_ Hf]. pose proof (load8_at _ _ _ _ Hf).
  split_and!; [done.. |]. unfold encode. rewrite length_app, Nat2Z.inj_add. by rewrite Hl.
Qed.

Lemma load_le_mapped m a x n k :
  mapped m a n -> a <= x -> x + Z.of_nat k <= a + n -> exists v, load_le k m x = Ret v.
Proof.
  intros Hm H1 H2. unfold load_le. destruct (load_bytes_total m x k) as [l ->]; [| by eexists].
  by eapply mapped_le.
Qed.

Lemma structure_spec m a x l s :
  0 < a -> smb_ok x -> bytes_at m a (encode x ++ l) ->
  structure m a (smb_type x) s = Ret (apply_smb a x s).
Proof.
  intros Ha (_ & _ & Hs & Hp) Hb. destruct (encode_at _ _ _ _ Hb) as (_ & Hlen & Hset & Hm & _).
  assert (0 < a + smb_length x) by (unfold smb_length; lia).
  unfold structure, apply_smb. rewrite Hlen. cbn [mbind outcome_bind].
  rewrite !(read_strings_set _ _ _ _ ltac:(done) Hs Hset). cbn [mbind outcome_bind].
  destruct (Z.eqb_spec (smb_type x) BiosInfo) as [-> | _]; [by destruct (31 <=? _) |].
  destruct (Z.eqb_spec (smb_type x) ProcessorInfo) as [E | _]; [| by destruct (_ =? OEMStrings)].
  specialize (Hp E). unfold smb_length in *.
  destruct (load_le_mapped m a (a + 18) (4 + Z.of_nat (length (smb_body x))) 2) as [? ->]; [done | lia | lia |].
  destruct (load_le_mapped m a (a + 20) (4 + Z.of_nat (length (smb_body x))) 2) as [? ->]; [done | lia | lia |].
  destruct (load_le_mapped m a (a + 22) (4 + Z.of_nat (length (smb_body x))) 2) as [? ->]; [done | lia | lia |].
  done.
Qed.

Lemma SMBios_loop_spec m xs : forall fuel a s l,
  (length xs < fuel)%nat -> 0 < a -> Forall smb_ok xs -> bytes_at m a (mjoin (encode <$> xs) ++ 127 :: l) ->
  SMBios_loop fuel m a s = Ret (apply_table a xs s).
Proof.
  induction xs as [| x xs IH]; intros fuel a s l Hf Ha Hok Hb; (destruct fuel as [| fuel]; [lia |]);
    cbn [SMBios_loop apply_table].
  - cbn in Hb. by rewrite (load8_at _ _ _ _ Hb).
  - inversion Hok as [| ? ? Hx Hok']; subst. cbn [fmap list_fmap mjoin list_join] in Hb. rewrite <- app_assoc in Hb.
    destruct (encode_at _ _ _ _ Hb) as (Ht & Hlen & Hset & _ & Hr & Hel).
    rewrite Ht. cbn [mbind outcome_bind]. destruct (Z.eqb_spec (smb_type x) 127); [by destruct Hx |].
    rewrite (structure_spec _ _ _ _ _ Ha Hx Hb). cbn [mbind outcome_bind].
    unfold smbios_struct_end. rewrite Hlen. cbn [mbind outcome_bind].
    rewrite (struct_end_set _ _ _ (proj1 (proj2 (proj2 Hx))) Hset). cbn [mbind outcome_bind].
    rewrite <- Z.add_assoc, <- Hel. eapply IH; [cbn [length] in Hf; lia | lia | done | exact Hr].
Qed.

Lemma encode_nonempty xs : (length xs <= length (mjoin (encode <$> xs)))%nat.
Proof.
  induction xs as [| x xs IH]; [done |].
  change (length (x :: xs)) with (S (length xs)).
  change (mjoin (encode <$> x :: xs)) with (encode x ++ mjoin (encode <$> xs)).
  rewrite length_app. unfold encode at 1. cbn [app length]. lia.
Qed.

(** C16: a well-formed SMBIOS table is read to its end.  When the table is in memory as the
    firmware lays it out, with every structure before the end-of-table structure followed by its
    strings, the walk ends, and it has found the version of the entry point, the structure of the last
    processor and the strings of all processors in their order; structures of other types
    change nothing. *)
Theorem smbios_is_read m header tbl major minor xs l s :
  m !! (header + 7) = Some major -> m !! (header + 8) = Some minor ->
  0 < tbl -> Forall smb_ok xs -> bytes_at m tbl (mjoin (encode <$> xs) ++ 127 :: l) ->
  SMBios_walk m header tbl s
  = Ret (apply_table tbl xs (mkSMBios (major * 10 + minor) (smbiosInfo s) (strings s))).
Proof.
  intros H7 H8 Ht Hok Hb. unfold SMBios_walk. rewrite (load8_eq _ _ _ H7), (load8_eq _ _ _ H8).
  cbn [mbind outcome_bind]. eapply SMBios_loop_spec; [| done | done | exact Hb].
  pose proof (bytes_at_size _ _ _ Hb) as Hs. rewrite length_app in Hs.
  pose proof (encode_nonempty xs). unfold walk_fuel. lia.
Qed.

(** Two processors and the strings of one: the first has two strings, the second none. *)
Definition demo_body : list Z := [1; 3; 2; 2] ++ replicate 8 0 ++ [0; 0; 100; 0; 0x10; 0x0E; 0x10; 0x0E].
Definition demo_table : list smb :=
  [mkSmb 0 0 [1; 2] [lit "Vendor"%string]; mkSmb ProcessorInfo 1 demo_body [lit "CPU"%string; lit "0"%string];
   mkSmb 1 2 [] []; mkSmb ProcessorInfo 3 demo_body []].
Definition demo_mem : mem :=
  mem_of 1 ([0; 0; 0; 0; 0; 0; 0; 3; 1] ++ (mjoin (encode <$> demo_table) ++ 127 :: [4; 0; 0; 0; 0])).

Lemma smbios_is_read_witness :
  exists s, SMBios_walk demo_mem 1 10 (mkSMBios 0 0 []) = Ret s /\
    s = mkSMBios 31 61 [lit "CPU"%string; lit "0"%string] /\ GetExtBusSpeed demo_mem s = Ret (Some 100).
Proof.
  eexists. split; [| split].
  - apply (smbios_is_read demo_mem 1 10 3 1 demo_table [4; 0; 0; 0; 0]).
    + by vm_compute.
    + by vm_compute.
    + lia.
    + repeat (constructor; [split_and!; [done | by vm_compute | repeat (constructor; [split; [done | repeat (constructor; [done |]); by constructor] |]); by constructor | by vm_compute] |]).
      by constructor.
    + intros i b Hi. unfold demo_mem. rewrite lookup_mem_of. zcase; [| lia].
      rewrite lookup_app_r by (cbn; lia). rewrite <- Hi. f_equal. cbn. lia.
  - vm_compute. reflexivity.
  - vm_compute. reflexivity.
Defined.

(** ** Any memory *)

(** How much of the memory lies at or above an address. *)
Definition above (m : mem) (a : Z) : nat := size (base.filter (fun p : Z * Z => a <= p.1) m).

Lemma above_le m a : (above m a <= size m)%nat.
Proof. unfold above. rewrite <- !size_dom. apply subseteq_size, dom_filter_subseteq. Qed.

Lemma above_step m a b : is_Some (m !! a) -> a < b -> (above m b < above m a)%nat.
Proof.
  intros [v Hv] Hab. unfold above. rewrite <- !size_dom. apply subset_size. split.
  - intros x. rewrite !elem_of_dom. intros [w Hw]. apply map_lookup_filter_Some in Hw as [Hw Hx]. cbn in Hx.
    exists w. apply map_lookup_filter_Some. split; [done | cbn; lia].
  - intros Hs. assert (a ∈ dom (base.filter (fun p : Z * Z => b <= p.1) m)) as Ha.
    { apply Hs, elem_of_dom. exists v. apply map_lookup_filter_Some. split; [done | cbn; lia]. }
    apply elem_of_dom in Ha as [w Hw]. apply map_lookup_filter_Some in Hw as [_ Hx]. cbn in Hx. lia.
Qed.

(** A computation that ends, with a result that satisfies [P] if it has one. *)
Definition ends {A} (P : A -> Prop) (o : outcome A) : Prop :=
  match o with Ret a => P a | Diverged => False | _ => True end.

Lemma ends_load8 m a : ends (fun _ => is_Some (m !! a)) (load8 m a).
Proof. unfold load8. destruct (m !! a); cbn; eauto. Qed.

Lemma ends_load_le n m a : ends (fun _ => True) (load_le n m a).
Proof.
  unfold load_le. enough (ends (fun _ => True) (load_bytes m a n)) by (by destruct (load_bytes m a n)).
  revert a. induction n as [| n IH]; intros a; cbn; [done |]. unfold load8.
  destruct (m !! a); cbn; [| done]. specialize (IH (a + 1)). by destruct (load_bytes m (a + 1) n).
Qed.

Lemma ends_bind {A B} (P : A -> Prop) (Q : B -> Prop) (o : outcome A) (f : A -> outcome B) :
  ends P o -> (forall a, P a -> ends Q (f a)) -> ends Q (a ← o; f a).
Proof. destruct o; cbn; auto. Qed.

Lemma ends_mono {A} (P Q : A -> Prop) (o : outcome A) : ends P o -> (forall a, P a -> Q a) -> ends Q o.
Proof. destruct o; cbn; auto. Qed.

Lemma ends_strlen fuel m : forall a k, (above m a < fuel)%nat -> 0 <= k -> ends (fun n => k <= n) (strlen_loop fuel m a k).
Proof.
  induction fuel as [| fuel IH]; intros a k Hf Hk; [lia |]. cbn [strlen_loop].
  eapply ends_bind; [apply ends_load8 |]. intros c Ha. destruct (c =? NUL); [cbn; lia |].
  pose proof (above_step m a (a + 1) Ha ltac:(lia)).
  eapply ends_mono; [apply IH; lia |]. cbn. lia.
Qed.

Lemma ends_strings fuel m : forall a acc, (above m a < fuel)%nat -> ends (fun _ => True) (read_strings fuel m a acc).
Proof.
  induction fuel as [| fuel IH]; intros a acc Hf; [lia |]. cbn [read_strings].
  destruct (a =? 0); [done |]. eapply ends_bind; [apply ends_load8 |]. intros c Ha. destruct (c =? NUL); [done |].
  assert (ends (fun n => 0 <= n) (strlen m a)) as Hn.
  { apply ends_strlen; [| lia]. pose proof (above_le m a). unfold walk_fuel. lia. }
  apply (ends_bind (fun _ => True)).
  { unfold std_string. eapply ends_bind; [exact Hn |]. intros n _.
    pose proof (ends_load_le (Z.to_nat n) m a) as H. unfold load_le in H. by destruct (load_bytes m a (Z.to_nat n)). }
  intros s _. eapply ends_bind; [exact Hn |]. intros n Hn0. cbn in Hn0. apply IH.
  pose proof (above_step m a (a + (n + 1)) Ha ltac:(lia)). lia.
Qed.

Lemma ends_struct_end fuel m : forall a, (above m a < fuel)%nat -> ends (fun e => a < e) (struct_end_loop fuel m a).
Proof.
  induction fuel as [| fuel IH]; intros a Hf; [lia |]. cbn [struct_end_loop].
  eapply ends_bind; [apply ends_load8 |]. intros c Ha. pose proof (above_step m a (a + 1) Ha ltac:(lia)).
  assert (ends (fun e => a < e) (struct_end_loop fuel m (a + 1))) as Hnext.
  { eapply ends_mono; [apply IH; lia |]. cbn. lia. }
  destruct (negb (c =? NUL)); [done |]. eapply ends_bind; [apply ends_load8 |]. intros c' _.
  destruct (negb (c' =? NUL)); [done | cbn; lia].
Qed.

Lemma ends_structure m a type s : ends (fun _ => True) (structure m a type s).
Proof.
  assert (forall b acc, ends (fun _ => True) (read_strings (walk_fuel m) m b acc)) as Hr.
  { intros b acc. apply ends_strings. pose proof (above_le m b). unfold walk_fuel. lia. }
  unfold structure. repeat case_match; try done;
    repeat (eapply ends_bind; [first [apply ends_load8 | apply Hr | apply ends_load_le] |]; intros ? _); done.
Qed.

(** Fact: the walk over an SMBIOS table ends whatever the memory holds: it finds the structure of
    type 127 or leaves the mapped memory; every turn moves on by two bytes at least. *)
Theorem smbios_walk_ends m header tbl s :
  (forall a b, m !! a = Some b -> 0 <= b) -> SMBios_walk m header tbl s <> Diverged.
Proof.
  intros Hok. assert (forall fuel a t, (above m a < fuel)%nat -> ends (fun _ => True) (SMBios_loop fuel m a t)) as Hl.
  { induction fuel as [| fuel IH]; intros a t Hf; [lia |]. cbn [SMBios_loop].
    eapply ends_bind; [apply ends_load8 |]. intros c Ha. destruct (c =? 127); [done |].
    eapply ends_bind; [apply ends_structure |]. intros t' _.
    eapply (ends_bind (fun e => a < e)).
    - unfold smbios_struct_end. unfold load8. destruct (m !! (a + 1)) as [k |] eqn:E; [| done]. cbn [mbind outcome_bind].
      pose proof (Hok _ _ E). pose proof (above_le m (a + k)).
      eapply ends_mono; [apply ends_struct_end; unfold walk_fuel; lia |]. cbn. lia.
    - intros e He. apply IH. pose proof (above_step m a e Ha He). lia. }
  enough (ends (fun _ => True) (SMBios_walk m header tbl s)) by (intros E; by rewrite E in *).
  unfold SMBios_walk. do 2 (eapply ends_bind; [apply ends_load8 |]; intros ? _).
  apply Hl. pose proof (above_le m tbl). unfold walk_fuel. lia.
Qed.

(** Fact: the table is never found.  [VirtualMap] clears the page it maps, so the entry point is
    wiped before its signature is compared, whatever the firmware has put there. *)
Theorem smbios_is_wiped physical window1 window2 sm3 ESP m s :
  length (physical (ESP - ESP mod PageSize)) = Z.to_nat PageSize ->
  m !! sm3 = Some 0x5F -> sm3 < window1 \/ window1 + PageSize <= sm3 ->
  SMBios_Init physical window1 window2 sm3 ESP m s = Ret (Some false, s).
Proof.
  intros Hp Hs Hd. unfold SMBios_Init. destruct (ESP =? 0); [done |].
  unfold VirtualMapRT, memset. change PageSize with 4096 in *.
  destruct (memset_loop_spec (Z.to_nat 4096) (mem_of window1 (physical (ESP - ESP mod 4096)) ∪ m) window1 0)
    as (m' & -> & Hm').
  { intros x Hx. apply lookup_union_is_Some. left. apply (mem_of_mapped window1 _ window1 4096); lia. }
  cbn [mbind outcome_bind]. rewrite Z2Nat.id in Hm' by lia.
  assert (m' !! window1 = Some 0) as H0.
  { rewrite Hm'. destruct (Z.leb_spec window1 window1), (Z.ltb_spec window1 (window1 + 4096)); by try lia. }
  assert (m' !! sm3 = Some 0x5F) as H1.
  { rewrite Hm'. destruct (Z.leb_spec window1 sm3), (Z.ltb_spec sm3 (window1 + 4096)); try lia; cbn [andb];
      (rewrite lookup_union_r; [done |]); rewrite lookup_mem_of; zcase; try done; apply lookup_ge_None; lia. }
  change (memcmp m' window1 sm3 5) with
    (r ← memcmp_loop 1 5 m' window1 sm3; match r with inl v => Ret v | inr _ => Ret 0 end).
  cbn [memcmp_loop]. unfold load_le, load_bytes, load8. by rewrite H0, H1.
Qed.
