(* ===== verification/Acpi.v ===== *)
(** Acpi: the kernel's side of ACPI: the services it gives to ACPICA, the tables it reads
    itself, the routing of PCI interrupts and the resources of devices.

    Models src/src/kernel/hal/devices/acpi/ACPI.cpp and ACPI.h, ACPIDevice.cpp, and the
    mapping of physical memory in src/src/kernel/Kernel.cpp, on the byte memory of CMemory.
    What ACPICA's interpreter finds (the resources of an object) is an argument.  The
    structures of ACPI tables are byte layouts, those of Interrupts where it has them.
    Tables are followed to the addresses the kernel maps them at. *)
From Stdlib Require Import String.
From S2P Require Import Prelude OSSystem CMemory CrtString PageTables PageWalk VAS Interrupts PciBus.
#[local] Open Scope list_scope.
#[local] Open Scope Z_scope.

(** ** Status codes *)

Definition AE_OK : Z := 0x0000.
Definition AE_ERROR : Z := 0x0001.
Definition AE_SUPPORT : Z := 0x000F.
Definition AE_BAD_PARAMETER : Z := Z.lor 0x0001 0x1000.
Definition AE_BAD_VALUE : Z := Z.lor 0x0004 0x2000.
Definition AE_CTRL_TERMINATE : Z := Z.lor 0x0003 0x4000.

(** ** Mapping physical memory *)

(** [Kernel::MapPhysicalMemory], in the current page tables. *)
Definition MapPhysicalMemory (s : machine) (PhysicalAddress Length mapStartAddr : Z) : outcome (machine * Z) :=
  let pageOffset := Z.land PhysicalAddress PageMask in
  let pageCount := DivRoundUp (u64 (pageOffset + Length)) PageSize in
  let physicalBase := Z.land PhysicalAddress (u64 (Z.lnot PageMask)) in
  '(s, ok) ← MapPages s (cr3 s) (u64 (mapStartAddr + physicalBase)) physicalBase pageCount true;
  _ ← Assert ok;
  Ret (s, u64 (mapStartAddr + physicalBase + pageOffset)).

(** [ACPI::AcpiOsMapMemory] is the same with the section of ACPI. *)
Definition AcpiOsMapMemory (s : machine) (PhysicalAddress Length : Z) : outcome (machine * Z) :=
  let pageOffset := Z.land PhysicalAddress PageMask in
  let pageCount := DivRoundUp (u64 (pageOffset + Length)) PageSize in
  let physicalBase := Z.land PhysicalAddress (u64 (Z.lnot PageMask)) in
  '(s, ok) ← MapPages s (cr3 s) (u64 (Layout.KernelAcpiStart + physicalBase)) physicalBase pageCount true;
  _ ← Assert ok;
  Ret (s, u64 (Layout.KernelAcpiStart + physicalBase + pageOffset)).

Definition AcpiOsGetPhysicalAddress (s : machine) (LogicalAddress : Z) : outcome (Z * Z) :=
  PhysicalAddress ← ResolveAddress s (cr3 s) LogicalAddress;
  Ret (AE_OK, PhysicalAddress).

Definition DriverMapPages (s : machine) (address count : Z) : outcome (machine * Z) :=
  _ ← Assert (0 <? count);
  let virtualAddress := u64 (Layout.KernelIoStart + address) in
  '(s, ok) ← MapPages s (cr3 s) virtualAddress address count true;
  _ ← Assert ok;
  Ret (s, virtualAddress).

(** ** Services *)

(** The access of [AcpiOsReadMemory] and [AcpiOsWriteMemory]; the status, and the value. *)
Definition AcpiOsReadMemory (m : mem) (Address Width : Z) : outcome (Z * option Z) :=
  if (Width =? 8) || (Width =? 16) || (Width =? 32) || (Width =? 64)
  then Value ← load_le (Z.to_nat (Width / 8)) m Address; Ret (AE_OK, Some Value)
  else Ret (AE_BAD_VALUE, None).

Definition AcpiOsWriteMemory (m : mem) (Address Value Width : Z) : outcome (Z * mem) :=
  if (Width =? 8) || (Width =? 16) || (Width =? 32) || (Width =? 64)
  then m ← store_le (Z.to_nat (Width / 8)) m Address Value; Ret (AE_OK, m)
  else Ret (AE_BAD_VALUE, m).

(** Ports: [read] is what the hardware answers, a write is the triple the HAL is given. *)
Definition AcpiOsReadPort (read : Z -> Z -> Z) (Address Width : Z) : Z * option Z :=
  if (Width =? 8) || (Width =? 16) || (Width =? 32) then (AE_OK, Some (read (u32 Address) Width))
  else (AE_BAD_VALUE, None).

Definition AcpiOsWritePort (Address Value Width : Z) : Z * list (Z * Z * Z) :=
  if (Width =? 8) || (Width =? 16) || (Width =? 32) then (AE_OK, [(u32 Address, Value, Width)])
  else (AE_BAD_VALUE, []).

(** Semaphores and locks do nothing: ACPICA runs in one thread. *)
Definition AcpiOsWaitSemaphore (Handle Units : Z) : outcome Z :=
  if negb (truthy Handle) then Ret AE_BAD_PARAMETER else _ ← Assert (Units =? 1); Ret AE_OK.

Definition AcpiOsInstallInterruptHandler (InterruptLevel Handler : Z) (h : HAL) : Z * HAL :=
  (AE_OK, RegisterInterrupt (u8 InterruptLevel) Handler h).

Definition AcpiOsRemoveInterruptHandler (InterruptNumber : Z) (h : HAL) : Z * HAL :=
  (AE_OK, UnRegisterInterrupt (u8 InterruptNumber) h).

(** ** The tables *)

Definition MAX_ACPI_TABLES : nat := 16.
Definition sizeof_ACPI_TABLE_DESC : Z := 32.
Definition ACPI_TABLE_ORIGIN_INTERNAL_PHYSICAL : Z := 1.

(** The loop of [GetAcpiTableBySignature] from descriptor [i] on, for [n] of them; [sig] is the
    address of the signature, the result that of the descriptor. *)
Fixpoint table_loop (n : nat) (m : mem) (acpi_tables i sig : Z) : outcome (option Z) :=
  match n with
  | O => Ret None
  | S n =>
    let desc := acpi_tables + i * sizeof_ACPI_TABLE_DESC in
    r ← strcmp m (desc + 20) sig;
    if r =? 0 then Ret (Some desc) else table_loop n m acpi_tables (i + 1) sig
  end.

Definition GetAcpiTableBySignature (m : mem) (acpi_tables sig : Z) : outcome (option Z) :=
  table_loop MAX_ACPI_TABLES m acpi_tables 0 sig.

(** Where the table of a descriptor is. *)
Definition table_address (m : mem) (descr : Z) : outcome Z :=
  Flags ← load8 m (descr + 26);
  Address ← load64 m descr;
  Ret (if truthy (Z.land Flags ACPI_TABLE_ORIGIN_INTERNAL_PHYSICAL) then u64 (Layout.KernelAcpiStart + Address) else Address).

(** The test of [Init] for the power management timer: the descriptor taken for the table. *)
Definition HasPMTimer (m : mem) (acpi_tables sig : Z) (old : bool) : outcome bool :=
  fadt ← GetAcpiTableBySignature m acpi_tables sig;
  match fadt with
  | Some fadt => PmTimerLength ← load8 m (fadt + 91); Ret (PmTimerLength =? 4)
  | None => Ret old
  end.

Definition GetMADTTable (m : mem) (acpi_tables sig : Z) : outcome (option Z) :=
  descr ← GetAcpiTableBySignature m acpi_tables sig;
  match descr with
  | None => Ret None
  | Some descr => madt ← table_address m descr; Ret (if truthy madt then Some madt else None)
  end.

(** The loop of [RemapIRQ]. *)
Fixpoint RemapIRQ_loop (fuel : nat) (m : mem) (irq entry madt_end : Z) : outcome Z :=
  match fuel with
  | O => Diverged
  | S fuel =>
    if entry + 2 <? madt_end then
      Type_ ← load8 m entry;
      found ← (if Type_ =? ACPI_MADT_TYPE_INTERRUPT_OVERRIDE then
                 SourceIrq ← load8 m (entry + 3);
                 if SourceIrq =? irq then GlobalIrq ← load_le 4 m (entry + 4); Ret (Some GlobalIrq) else Ret None
               else Ret None);
      match found with
      | Some GlobalIrq => Ret GlobalIrq
      | None => Length ← load8 m (entry + 1); RemapIRQ_loop fuel m irq (entry + Length) madt_end
      end
    else Ret irq
  end.

Definition RemapIRQ (fuel : nat) (m : mem) (acpi_tables sig irq : Z) : outcome Z :=
  madt ← GetMADTTable m acpi_tables sig;
  match madt with
  | None => Ret 0
  | Some madt =>
    _ ← load_le 4 m (madt + 36);
    Length ← load_le 4 m (madt + 4);
    RemapIRQ_loop fuel m irq (madt + sizeof_ACPI_TABLE_MADT) (madt + Length)
  end.

(** ** PCI segments *)

Definition sizeof_ACPI_TABLE_MCFG : Z := 44.
Definition sizeof_ACPI_MCFG_ALLOCATION : Z := 16.

(** The loop of [parseMcfg]; the console line reads the item. *)
Fixpoint mcfg_loop (fuel : nat) (m : mem) (entry mcfg_end : Z) (segments : list Z) : outcome (list Z) :=
  match fuel with
  | O => Diverged
  | S fuel =>
    if entry + sizeof_ACPI_MCFG_ALLOCATION <? mcfg_end then
      _ ← load8 m (entry + 10);
      _ ← load8 m (entry + 11);
      _ ← load64 m entry;
      mcfg_loop fuel m (entry + sizeof_ACPI_MCFG_ALLOCATION) mcfg_end (segments ++ [entry])
    else Ret segments
  end.

(** [parseMcfg]: the signature of the table, an array, and the literal [mcfg_sig] are compared
    as addresses. *)
Definition parseMcfg (m : mem) (acpi_tables sig mcfg_sig : Z) (segments : list Z) : outcome (list Z) :=
  descr ← GetAcpiTableBySignature m acpi_tables sig;
  match descr with
  | None => Ret segments
  | Some descr =>
    mcfg ← table_address m descr;
    if negb (truthy mcfg) || negb (mcfg =? mcfg_sig) then Ret segments
    else
      Length ← load_le 4 m (mcfg + 4);
      mcfg_loop (Z.to_nat (Length / sizeof_ACPI_MCFG_ALLOCATION + 1)) m (mcfg + sizeof_ACPI_TABLE_MCFG)
        (mcfg + Length) segments
  end.

(** ** Interrupt routing *)

(** A resource of an object as the callbacks see it: its type, and the interrupts it lists. *)
Record ACPI_RESOURCE := mkResource { Type_ : Z; Interrupts_ : list Z }.

Definition ACPI_RESOURCE_TYPE_IRQ : Z := 0.
Definition ACPI_RESOURCE_TYPE_DMA : Z := 1.
Definition ACPI_RESOURCE_TYPE_IO : Z := 4.
Definition ACPI_RESOURCE_TYPE_FIXED_MEMORY32 : Z := 10.
Definition ACPI_RESOURCE_TYPE_ADDRESS32 : Z := 12.
Definition ACPI_RESOURCE_TYPE_ADDRESS64 : Z := 13.
Definition ACPI_RESOURCE_TYPE_EXTENDED_IRQ : Z := 15.

(** An entry of a routing table; [Source] is empty when the line is wired to the interrupt
    controller. *)
Record ACPI_PCI_ROUTING_TABLE := mkPrt { Pin : Z; Address_ : Z; SourceIndex : Z; Source : list Z }.

(** [processCrs], on bus 0. *)
Definition processCrs (e : ACPI_PCI_ROUTING_TABLE) (resource : ACPI_RESOURCE) (t : routing_table) : outcome routing_table :=
  if (Type_ resource =? ACPI_RESOURCE_TYPE_IRQ) || (Type_ resource =? ACPI_RESOURCE_TYPE_EXTENDED_IRQ) then
    match Interrupts_ resource !! Z.to_nat (SourceIndex e) with
    | None => Fault
    | Some irq => Ret (AddDeviceRouting 0 (u32 (Z.shiftr (Address_ e) 16)) (u32 (Pin e + 1)) irq t).1
    end
  else Ret t.

(** ACPICA's walk over the resources, up to the end tag: one call for each. *)
Fixpoint AcpiWalkResources (e : ACPI_PCI_ROUTING_TABLE) (l : list ACPI_RESOURCE) (t : routing_table) : outcome routing_table :=
  match l with
  | [] => Ret t
  | r :: l => t ← processCrs e r t; AcpiWalkResources e l t
  end.

(** What one entry adds; [crs name] are the resources of the object that is named, [None]
    when there is none. *)
Definition route_entry (crs : list Z -> option (list ACPI_RESOURCE)) (e : ACPI_PCI_ROUTING_TABLE) (t : routing_table)
  : outcome routing_table :=
  match Source e with
  | [] => Ret (AddDeviceRouting 0 (u32 (Z.shiftr (Address_ e) 16)) (u32 (Pin e + 1)) (SourceIndex e) t).1
  | name => match crs name with Some l => AcpiWalkResources e l t | None => Ret t end
  end.

(** The loop of [acpiProcessSystemBridge] over the table ACPICA has filled in. *)
Fixpoint bridge_loop (fuel : nat) (crs : list Z -> option (list ACPI_RESOURCE)) (m : mem) (tableBytes : Z) (t : routing_table)
  : outcome routing_table :=
  match fuel with
  | O => Diverged
  | S fuel =>
    Length ← load_le 4 m tableBytes;
    if truthy Length then
      pin ← load_le 4 m (tableBytes + 4);
      address ← load64 m (tableBytes + 8);
      index ← load_le 4 m (tableBytes + 16);
      n ← strlen m (tableBytes + 20);
      name ← load_bytes m (tableBytes + 20) (Z.to_nat n);
      t ← route_entry crs (mkPrt pin address index name) t;
      bridge_loop fuel crs m (tableBytes + Length) t
    else Ret t
  end.

(** [acpiProcessSystemBridge]; [prt] is the buffer, [None] when there is no routing table. *)
Definition acpiProcessSystemBridge (fuel : nat) (crs : list Z -> option (list ACPI_RESOURCE)) (level : Z) (prt : option Z) (m : mem)
    (t : routing_table) : outcome (Z * routing_table) :=
  if 10 <=? level then Ret (AE_ERROR, t)
  else
    match prt with
    | Some p =>
      if p =? 0 then Ret (AE_ERROR, t) else t ← bridge_loop fuel crs m p t; Ret (AE_OK, t)
    | None => Ret (AE_OK, t)
    end.

(** ** Resources of devices *)

(** [AttachResource]: one resource of each type is kept. *)
Definition attached (type : Z) : bool :=
  (type =? ACPI_RESOURCE_TYPE_ADDRESS32) || (type =? ACPI_RESOURCE_TYPE_ADDRESS64) ||
  (type =? ACPI_RESOURCE_TYPE_FIXED_MEMORY32) || (type =? ACPI_RESOURCE_TYPE_IRQ) ||
  (type =? ACPI_RESOURCE_TYPE_EXTENDED_IRQ) || (type =? ACPI_RESOURCE_TYPE_IO).

Definition AttachResource (resource : ACPI_RESOURCE) (m_resources : list ACPI_RESOURCE) : list ACPI_RESOURCE :=
  if attached (Type_ resource)
  then base.filter (fun r => Type_ r <> Type_ resource) m_resources ++ [resource] else m_resources.

Definition GetResource (type : Z) (m_resources : list ACPI_RESOURCE) : option ACPI_RESOURCE :=
  head (base.filter (fun r => Type_ r = type) m_resources).

(** * Properties *)

(** ** Reading structures *)

Lemma load_le_at n v m a l :
  0 <= v < 256 ^ Z.of_nat n -> bytes_at m a (le_to n v ++ l) ->
  load_le n m a = Ret v /\ bytes_at m (a + Z.of_nat n) l.
Proof.
  intros Hv Hb. apply bytes_at_app in Hb as [Hb Hr]. rewrite le_to_length in Hr. split; [| done].
  unfold load_le. rewrite (proj2 (load_bytes_Ret m a n (le_to n v))) by (by rewrite le_to_length).
  cbn [mbind outcome_bind]. by rewrite le_of_to.
Qed.

Lemma load8_head m a b l : bytes_at m a (b :: l) -> load8 m a = Ret b /\ bytes_at m (a + 1) l.
Proof. intros H. apply bytes_at_cons in H as [H ?]. by rewrite (load8_eq _ _ _ H). Qed.

Lemma bytes_at_skip m a l1 l2 k : bytes_at m a (l1 ++ l2) -> Z.of_nat (length l1) = k -> bytes_at m (a + k) l2.
Proof. intros H <-. by apply bytes_at_app in H as [_ H]. Qed.

(** ** The table of a signature *)

(** The descriptors' signatures as strings: up to the first NUL, which is behind the four
    characters unless the owner's number is zero. *)
Definition signatures_at (m : mem) (acpi_tables : Z) (names : list (list Z)) : Prop :=
  length names = MAX_ACPI_TABLES /\
  forall i s, names !! i = Some s -> cstr m (acpi_tables + Z.of_nat i * sizeof_ACPI_TABLE_DESC + 20) s.

Lemma table_loop_first m acpi_tables sig name names : forall i,
  mem_ok m -> cstr m sig name ->
  (forall j s, names !! j = Some s -> cstr m (acpi_tables + (i + Z.of_nat j) * sizeof_ACPI_TABLE_DESC + 20) s) ->
  table_loop (length names) m acpi_tables i sig =
  Ret ((fun p => acpi_tables + (i + Z.of_nat p.1) * sizeof_ACPI_TABLE_DESC) <$> list_find (fun s => s = name) names).
Proof.
  induction names as [| s names IH]; intros i Hok Hs Hn; [done |]. cbn [length table_loop].
  pose proof (Hn 0%nat s eq_refl) as H0. rewrite Z.add_0_r in H0.
  assert (strcmp m (acpi_tables + i * sizeof_ACPI_TABLE_DESC + 20) sig = Ret (str_compare s name)) as ->.
  { apply strcmp_loop_spec; [done.. |]. apply cstr_size in H0. unfold walk_fuel. lia. }
  cbn [mbind outcome_bind list_find].
  pose proof (str_compare_zero s name ltac:(by destruct H0) ltac:(by destruct Hs)) as Hz.
  destruct (Z.eqb_spec (str_compare s name) 0) as [E | E].
  - rewrite decide_True by tauto. cbn [fmap option_fmap option_map fst]. by rewrite Z.add_0_r.
  - rewrite decide_False by tauto. rewrite IH; [| done | done |].
    + destruct (list_find _ names) as [[j t] |]; [| done]. cbn. do 2 f_equal. lia.
    + intros j t Hj. replace (i + 1 + Z.of_nat j) with (i + Z.of_nat (S j)) by lia. by apply Hn.
Qed.

Lemma GetAcpiTableBySignature_run m acpi_tables sig name names :
  mem_ok m -> cstr m sig name -> signatures_at m acpi_tables names ->
  GetAcpiTableBySignature m acpi_tables sig =
  Ret ((fun p => acpi_tables + Z.of_nat p.1 * sizeof_ACPI_TABLE_DESC) <$> list_find (fun s => s = name) names).
Proof.
  intros Hok Hs [Hl Hn]. unfold GetAcpiTableBySignature. rewrite <- Hl. by rewrite (table_loop_first _ _ _ name).
Qed.

(** ** Interrupt overrides *)

(** The line an interrupt of the old controller is wired to. *)
Definition remapped (irq : Z) (es : list madt_entry) : Z :=
  default irq (ov_global_system_interrupt <$> head (base.filter (fun o => ov_source o = irq) (overrides_of es))).

(** One turn over an entry. *)
Lemma remap_turn fuel m irq entry e l :
  entry_ok e -> bytes_at m entry (encode_entry e ++ l) ->
  RemapIRQ_loop (S fuel) m irq entry (entry + Z.of_nat (length (encode_entry e ++ l))) =
  match e with
  | MadtOverride o =>
    if ov_source o =? irq then Ret (ov_global_system_interrupt o)
    else RemapIRQ_loop fuel m irq (entry + 10) (entry + Z.of_nat (length (encode_entry e ++ l)))
  | _ => RemapIRQ_loop fuel m irq (entry + Z.of_nat (length (encode_entry e))) (entry + Z.of_nat (length (encode_entry e ++ l)))
  end.
Proof.
  intros He Hb. cbn [RemapIRQ_loop]. set (e' := entry + Z.of_nat (length (encode_entry e ++ l))).
  assert (entry + 2 <? e' = true) as ->.
  { apply Z.ltb_lt. unfold e'. rewrite length_app. destruct e as [| | | ty [| d data]]; cbn in He |- *; try lia. naive_solver. }
  destruct e as [p i f | i a b | o | ty data]; cbn [encode_entry app] in Hb;
    destruct (load8_head _ _ _ _ Hb) as [-> Hb1]; cbn [mbind outcome_bind];
    destruct (load8_head _ _ _ _ Hb1) as [Hlen Hb2].
  - change (0 =? ACPI_MADT_TYPE_INTERRUPT_OVERRIDE) with false. cbn [mbind outcome_bind]. by rewrite Hlen.
  - change (1 =? ACPI_MADT_TYPE_INTERRUPT_OVERRIDE) with false. cbn [mbind outcome_bind]. by rewrite Hlen.
  - change (2 =? ACPI_MADT_TYPE_INTERRUPT_OVERRIDE) with true. cbv iota.
    destruct (load8_head _ _ _ _ Hb2) as [_ Hb3]. destruct (load8_head _ _ _ _ Hb3) as [Hsrc Hb4].
    replace (entry + 1 + 1 + 1) with (entry + 3) in Hsrc by lia. rewrite Hsrc. cbn [mbind outcome_bind].
    destruct He as [Hg _]. cbn [app] in Hb4. rewrite <- app_assoc in Hb4.
    destruct (load_le_at 4 _ m _ _ Hg Hb4) as [Hgsi _].
    replace (entry + 1 + 1 + 1 + 1) with (entry + 4) in Hgsi by lia. rewrite Hgsi.
    destruct (ov_source o =? irq); cbn [mbind outcome_bind]; [done |]. by rewrite Hlen.
  - destruct He as (Ht & _). destruct (Z.eqb_spec ty ACPI_MADT_TYPE_INTERRUPT_OVERRIDE) as [E | _]; [unfold ACPI_MADT_TYPE_INTERRUPT_OVERRIDE in E; lia |].
    cbn [mbind outcome_bind]. rewrite Hlen. cbn [mbind outcome_bind encode_entry app length]. do 2 f_equal. lia.
Qed.

Lemma RemapIRQ_loop_run m irq es : forall entry,
  Forall entry_ok es -> bytes_at m entry (mjoin (encode_entry <$> es)) ->
  RemapIRQ_loop (S (length es)) m irq entry (entry + Z.of_nat (length (mjoin (encode_entry <$> es)))) = Ret (remapped irq es).
Proof.
  induction es as [| e es IH]; intros entry Hok Hb.
  - cbn [length RemapIRQ_loop]. rewrite (proj2 (Z.ltb_ge _ _)); [done | cbn; lia].
  - inversion Hok as [| ? ? He Hok']; subst. cbn [length].
    change (mjoin (encode_entry <$> e :: es)) with (encode_entry e ++ mjoin (encode_entry <$> es)) in *.
    rewrite remap_turn by done. pose proof (bytes_at_skip _ _ _ _ _ Hb eq_refl) as Hr.
    specialize (IH _ Hok' Hr). rewrite <- Z.add_assoc, <- Nat2Z.inj_add, <- length_app in IH.
    destruct e as [p i f | i a b | o | ty data]; [exact IH | exact IH | | exact IH].
    unfold remapped. change (overrides_of (MadtOverride o :: es)) with (o :: overrides_of es). rewrite filter_cons.
    destruct (Z.eqb_spec (ov_source o) irq) as [E | E].
    + by rewrite decide_True.
    + rewrite decide_False by done. exact IH.
Qed.

(** Fact: an interrupt of the old controller is remapped as the firmware's table says.  When the
    table of processors and interrupt controllers is the first one with its signature and is
    in memory, [RemapIRQ] ends and gives the line of the first override of the interrupt, or the
    interrupt itself when it has none. *)
Theorem irq_is_remapped names k m acpi_tables sig madt signature body es irq :
  mem_ok m -> signatures_at m acpi_tables names -> cstr m sig (lit "APIC"%string) ->
  list_find (fun s => s = lit "APIC"%string) names = Some (k, lit "APIC"%string) ->
  table_address m (acpi_tables + Z.of_nat k * sizeof_ACPI_TABLE_DESC) = Ret madt -> madt <> 0 ->
  length signature = 4%nat -> length body = 36%nat -> Forall is_byte body -> Forall entry_ok es ->
  44 + Z.of_nat (length (mjoin (encode_entry <$> es))) < 2 ^ 32 ->
  bytes_at m madt (madt_table signature body es) ->
  RemapIRQ (S (length es)) m acpi_tables sig irq = Ret (remapped irq es).
Proof.
  intros Hok Hn Hs Hf Ha Hz Hsl Hbl Hbb Hes Hlen Hb. unfold RemapIRQ, GetMADTTable.
  rewrite (GetAcpiTableBySignature_run _ _ _ _ _ Hok Hs Hn), Hf. cbn [mbind outcome_bind fmap option_fmap option_map fst].
  rewrite Ha. cbn [mbind outcome_bind]. rewrite truthy_nonzero by done.
  unfold madt_table in Hb. pose proof (bytes_at_skip _ _ _ _ 4 Hb ltac:(lia)) as Hb4.
  edestruct (load_le_at 4) as [-> Hb8]; [| exact Hb4 |]; [change (256 ^ Z.of_nat 4) with (2 ^ 32); lia |].
  replace (madt + 4 + Z.of_nat 4) with (madt + 8) in Hb8 by lia.
  assert (bytes_at m (madt + 8 + 36) (mjoin (encode_entry <$> es))) as Hb44 by (eapply bytes_at_skip; [exact Hb8 | lia]).
  apply bytes_at_app in Hb8 as [Hbody _].
  assert (exists v, load_le 4 m (madt + 36) = Ret v) as [v ->].
  { unfold load_le. destruct (load_bytes_total m (madt + 36) 4) as [l ->]; [| by eexists].
    intros x Hx. destruct (lookup_lt_is_Some_2 body (Z.to_nat (x - madt - 8))) as [c Hc]; [lia |].
    exists c. rewrite <- (Hbody _ _ Hc). f_equal. lia. }
  cbn [mbind outcome_bind]. change sizeof_ACPI_TABLE_MADT with 44.
  replace (madt + 8 + 36) with (madt + 44) in Hb44 by lia.
  pose proof (RemapIRQ_loop_run m irq es (madt + 44) Hes Hb44) as Hrun.
  by replace (madt + 44 + Z.of_nat (length (mjoin (encode_entry <$> es))))
    with (madt + (44 + Z.of_nat (length (mjoin (encode_entry <$> es))))) in Hrun by lia.
Qed.

(** A memory with two descriptors and a table with an override of the timer's interrupt. *)
Definition demo_descriptor (address : Z) (name : list Z) : list Z :=
  le_to 8 address ++ replicate 12 0 ++ name ++ replicate (12 - length name) 0.
Definition demo_entries : list madt_entry := [MadtLocalApic 0 0 1; MadtOverride (mkOverride 0 0 2 0); MadtOther 4 [255; 5; 0; 1]].
Definition demo_names : list (list Z) := [lit "FACP"%string; lit "APIC"%string] ++ replicate 14 [].
Definition demo_acpi : mem :=
  mem_of 0 (lit "APIC"%string ++ replicate 12 0 ++
            (demo_descriptor 0x900 (lit "FACP"%string) ++ demo_descriptor 528 (lit "APIC"%string) ++ replicate 448 0) ++
            madt_table (lit "APIC"%string) (replicate 36 0) demo_entries).

Definition check_cstr (m : mem) (a : Z) (s : list Z) : bool :=
  match load_bytes m a (S (length s)) with Ret l => bool_decide (l = s ++ [0]) | _ => false end &&
  forallb (fun b => negb (b =? 0)) s.

Lemma cstr_checked m a s : check_cstr m a s = true -> cstr m a s.
Proof.
  unfold check_cstr. intros [Hl Hs]%andb_true_iff. split.
  - destruct (load_bytes m a (S (length s))) as [l | | |] eqn:E; try done.
    apply bool_decide_eq_true in Hl as ->. by apply load_bytes_Ret in E as [_ E].
  - apply Forall_forall. intros b Hb. rewrite forallb_forall in Hs.
    apply list_elem_of_In in Hb. by apply Hs, negb_true_iff, Z.eqb_neq in Hb.
Qed.

Lemma irq_is_remapped_witness :
  RemapIRQ 4 demo_acpi 16 0 0 = Ret 2 /\ RemapIRQ 4 demo_acpi 16 0 1 = Ret 1.
Proof.
  assert (forall irq, RemapIRQ 4 demo_acpi 16 0 irq = Ret (remapped irq demo_entries)) as H.
  { intros irq. apply (irq_is_remapped demo_names 1 demo_acpi 16 0 528 (lit "APIC"%string) (replicate 36 0) demo_entries).
    - apply mem_of_ok. vm_compute. reflexivity.
    - split; [reflexivity |]. intros i s Hi. apply cstr_checked.
      assert (forallb (fun p => check_cstr demo_acpi (16 + Z.of_nat p.1 * sizeof_ACPI_TABLE_DESC + 20) p.2)
                (imap pair demo_names) = true) as Hall by (vm_compute; reflexivity).
      rewrite forallb_forall in Hall. apply (Hall (i, s)), list_elem_of_In, elem_of_lookup_imap. by exists i, s.
    - apply cstr_checked. vm_compute. reflexivity.
    - vm_compute. reflexivity.
    - vm_compute. reflexivity.
    - lia.
    - reflexivity.
    - reflexivity.
    - apply Forall_replicate. done.
    - repeat (constructor; [vm_compute; repeat split; discriminate || reflexivity |]). constructor.
    - vm_compute. reflexivity.
    - apply (load_bytes_Ret demo_acpi 528 (length (madt_table (lit "APIC"%string) (replicate 36 0) demo_entries))).
      vm_compute. reflexivity. }
  split; rewrite H; vm_compute; reflexivity.
Defined.

(** ** Mapping *)

(** Fact: memory mapped for ACPICA or a driver is where the result says: with pool pages for the
    tables, every address of the range that was asked for resolves to the physical address at
    the same distance, whatever the alignment of its ends. *)
Theorem mapped_memory_resolves s T PhysicalAddress Length mapStartAddr :
  wf s (cr3 s) T -> 0 <= PhysicalAddress -> 0 < Length -> PhysicalAddress + Length < 2 ^ 47 ->
  0 <= mapStartAddr -> mapStartAddr mod PageSize = 0 ->
  mapStartAddr + PhysicalAddress + Length + 2 * PageSize <= 2 ^ 64 ->
  (3 * Z.to_nat (Length / PageSize + 2) <= free_count (pool s))%nat ->
  exists s' a, MapPhysicalMemory s PhysicalAddress Length mapStartAddr = Ret (s', a) /\
    forall d, 0 <= d < Length -> ResolveAddress s' (cr3 s) (a + d) = Ret (PhysicalAddress + d).
Proof.
  change PageSize with 4096. intros Hwf Hp Hl Hpl Hs Hsa Hfit Hfree. unfold MapPhysicalMemory.
  assert (Z.land PhysicalAddress PageMask = PhysicalAddress mod 4096) as ->
    by (change PageMask with (Z.ones 12); by rewrite Z.land_ones by lia).
  assert (Z.land PhysicalAddress (u64 (Z.lnot PageMask)) = PhysicalAddress - PhysicalAddress mod 4096) as ->.
  { change PageMask with (2 ^ 12 - 1). rewrite (land_lnot_low 12 _ 64) by lia. change (2 ^ 12) with 4096.
    pose proof (Z.div_mod PhysicalAddress 4096). lia. }
  pose proof (Z.mod_pos_bound PhysicalAddress 4096 ltac:(lia)) as Hoff.
  pose proof (Z.div_mod PhysicalAddress 4096 ltac:(lia)) as Hdm.
  set (off := PhysicalAddress mod 4096) in *. rewrite (wrap_small 64 (off + Length)) by lia.
  pose proof (proj1 (DivRoundUp_spec (off + Length) 4096 ltac:(lia) ltac:(lia) ltac:(lia) ltac:(lia) _) eq_refl) as Hc.
  change (DivRoundUp (off + Length) PageSize) with (DivRoundUp (off + Length) 4096).
  set (count := DivRoundUp (off + Length) 4096) in *.
  assert (1 <= count <= Length / 4096 + 2) as [Hc1 Hc2].
  { pose proof (Z.div_mod Length 4096 ltac:(lia)). pose proof (Z.mod_pos_bound Length 4096 ltac:(lia)). lia. }
  rewrite !(wrap_small 64) by lia.
  destruct (MapPages_range s (cr3 s) T (mapStartAddr + (PhysicalAddress - off)) (PhysicalAddress - off) count true Hwf)
    as (s' & T' & -> & _ & Hres & _); change PageSize with 4096 in *;
    [lia | lia | lia | | lia | lia | | lia |].
  - rewrite Zplus_mod, Hsa. replace (PhysicalAddress - off) with ((PhysicalAddress / 4096) * 4096) by lia.
    by rewrite Z.mod_mul.
  - replace (PhysicalAddress - off) with ((PhysicalAddress / 4096) * 4096) by lia. by apply Z.mod_mul.
  - cbn [Assert mbind outcome_bind]. eexists _, _. split; [reflexivity |]. intros d Hd.
    replace (mapStartAddr + (PhysicalAddress - off) + off + d) with (mapStartAddr + (PhysicalAddress - off) + (off + d)) by lia.
    rewrite Hres by lia. f_equal. lia.
Qed.

(** [AcpiOsMapMemory] is [MapPhysicalMemory] into the section of ACPI. *)
Lemma AcpiOsMapMemory_eq s PhysicalAddress Length :
  AcpiOsMapMemory s PhysicalAddress Length = MapPhysicalMemory s PhysicalAddress Length Layout.KernelAcpiStart.
Proof. done. Qed.

Lemma le_of_cut n : forall v, le_of (le_to n v) = v mod 256 ^ Z.of_nat n.
Proof.
  induction n as [| n IH]; intros v; [by rewrite Z.mod_1_r |]. cbn [le_to le_of]. rewrite IH.
  rewrite Nat2Z.inj_succ, Z.pow_succ_r by lia. rewrite Z.rem_mul_r by lia. lia.
Qed.

(** Fact: what ACPICA writes to memory it reads back, cut to the width, and the rest of memory
    is as it was; other widths are refused and change nothing. *)
Theorem memory_is_read_back m Address Value Width :
  mapped m Address (Width / 8) ->
  if bool_decide (Width ∈ [8; 16; 32; 64]) then
    exists m', AcpiOsWriteMemory m Address Value Width = Ret (AE_OK, m') /\
      AcpiOsReadMemory m' Address Width = Ret (AE_OK, Some (Value mod 2 ^ Width)) /\
      forall x, x < Address \/ Address + Width / 8 <= x -> m' !! x = m !! x
  else AcpiOsWriteMemory m Address Value Width = Ret (AE_BAD_VALUE, m) /\
       AcpiOsReadMemory m Address Width = Ret (AE_BAD_VALUE, None).
Proof.
  intros Hm. unfold AcpiOsWriteMemory, AcpiOsReadMemory.
  assert ((Width =? 8) || (Width =? 16) || (Width =? 32) || (Width =? 64) = bool_decide (Width ∈ [8; 16; 32; 64])) as ->.
  { apply Bool.eq_iff_eq_true. rewrite bool_decide_eq_true, !orb_true_iff, !Z.eqb_eq. set_solver. }
  case_bool_decide as Hw; [| done].
  assert (exists n, Z.of_nat n = Width / 8 /\ 2 ^ Width = 256 ^ Z.of_nat n) as (n & Hn & ->).
  { exists (Z.to_nat (Width / 8)). repeat (apply elem_of_cons in Hw as [-> | Hw]; [done |]). by apply elem_of_nil in Hw. }
  rewrite <- Hn, Nat2Z.id in *. unfold store_le, load_le.
  destruct (store_bytes_spec m Address (le_to n Value)) as (m' & -> & Hm');
    [by rewrite le_to_length | apply le_to_bytes |].
  rewrite le_to_length in Hm'. cbn [mbind outcome_bind]. eexists. split; [reflexivity |].
  rewrite (proj2 (load_bytes_Ret m' Address n (le_to n Value))).
  - cbn [mbind outcome_bind]. rewrite le_of_cut. split; [done |]. intros x Hx. rewrite Hm'.
    destruct (Z.leb_spec Address x), (Z.ltb_spec x (Address + Z.of_nat n)); done || lia.
  - split; [by rewrite le_to_length |]. intros i b Hi. rewrite Hm'.
    pose proof (lookup_lt_Some _ _ _ Hi) as Hlt. rewrite le_to_length in Hlt.
    destruct (Z.leb_spec Address (Address + Z.of_nat i)); [| lia].
    destruct (Z.ltb_spec (Address + Z.of_nat i) (Address + Z.of_nat n)); [| lia]. cbn [andb].
    rewrite <- Hi. f_equal. lia.
Qed.

(** ** Routing *)

(** An entry as ACPICA lays it out: its length, the fields, and the name with its padding. *)
Definition prt_length (e : ACPI_PCI_ROUTING_TABLE) (pad : list Z) : Z := 21 + Z.of_nat (length (Source e)) + Z.of_nat (length pad).
Definition encode_prt (p : ACPI_PCI_ROUTING_TABLE * list Z) : list Z :=
  let '(e, pad) := p in
  le_to 4 (prt_length e pad) ++ le_to 4 (Pin e) ++ le_to 8 (Address_ e) ++ le_to 4 (SourceIndex e) ++ Source e ++ [0] ++ pad.

Definition prt_ok (p : ACPI_PCI_ROUTING_TABLE * list Z) : Prop :=
  let '(e, pad) := p in
  0 <= Pin e < 2 ^ 32 /\ 0 <= Address_ e < 2 ^ 64 /\ 0 <= SourceIndex e < 2 ^ 32 /\
  Forall (fun b => b <> 0) (Source e) /\ prt_length e pad < 2 ^ 32.

Lemma bridge_turn fuel crs m p e pad l t :
  prt_ok (e, pad) -> bytes_at m p (encode_prt (e, pad) ++ l) ->
  bridge_loop (S fuel) crs m p t =
  (t ← route_entry crs e t; bridge_loop fuel crs m (p + Z.of_nat (length (encode_prt (e, pad)))) t).
Proof.
  intros (Hp & Ha & Hi & Hs & Hl) Hb. cbn [bridge_loop].
  assert (Z.of_nat (length (encode_prt (e, pad))) = prt_length e pad) as Hlen.
  { cbn [encode_prt]. rewrite !length_app, !le_to_length. unfold prt_length. cbn [length]. lia. }
  rewrite Hlen. cbn [encode_prt] in Hb. rewrite <- !app_assoc in Hb.
  assert (0 < prt_length e pad) by (unfold prt_length; lia).
  destruct (load_le_at 4 _ m p _ (conj (Z.lt_le_incl _ _ ltac:(eassumption)) Hl) Hb) as [-> Hb1].
  destruct (load_le_at 4 _ m _ _ Hp Hb1) as [Hpin Hb2].
  destruct (load_le_at 8 _ m _ _ Ha Hb2) as [Hadr Hb3].
  destruct (load_le_at 4 _ m _ _ Hi Hb3) as [Hidx Hb4].
  change (p + Z.of_nat 4) with (p + 4) in *.
  replace (p + 4 + Z.of_nat 4) with (p + 8) in * by lia.
  replace (p + 8 + Z.of_nat 8) with (p + 16) in * by lia.
  replace (p + 16 + Z.of_nat 4) with (p + 20) in * by lia.
  cbn [mbind outcome_bind]. rewrite truthy_nonzero, Hpin, Hadr, Hidx by lia. cbn [mbind outcome_bind].
  assert (cstr m (p + 20) (Source e)) as Hc.
  { split; [| done]. rewrite app_assoc in Hb4. by apply bytes_at_app in Hb4 as [Hb4 _]. }
  rewrite (strlen_cstr _ _ _ Hc). cbn [mbind outcome_bind]. rewrite Nat2Z.id.
  rewrite (proj2 (load_bytes_Ret m (p + 20) _ (Source e))).
  - cbn [mbind outcome_bind]. by destruct e.
  - split; [done |]. by apply bytes_at_app in Hb4 as [Hb4 _].
Qed.

(** The table after all entries. *)
Fixpoint route_entries (crs : list Z -> option (list ACPI_RESOURCE)) (l : list ACPI_PCI_ROUTING_TABLE) (t : routing_table)
  : outcome routing_table :=
  match l with
  | [] => Ret t
  | e :: l => t ← route_entry crs e t; route_entries crs l t
  end.

Lemma bridge_loop_run crs m l rest : forall p t,
  Forall prt_ok l -> bytes_at m p (mjoin (encode_prt <$> l) ++ le_to 4 0 ++ rest) ->
  bridge_loop (S (length l)) crs m p t = route_entries crs (fst <$> l) t.
Proof.
  induction l as [| [e pad] l IH]; intros p t Hok Hb.
  - cbn [mjoin list_join fmap list_fmap app] in Hb. cbn [length bridge_loop].
    by destruct (load_le_at 4 0 m p rest ltac:(done) Hb) as [-> _].
  - inversion Hok as [| ? ? He Hok']; subst.
    change (mjoin (encode_prt <$> (e, pad) :: l)) with (encode_prt (e, pad) ++ mjoin (encode_prt <$> l)) in Hb.
    rewrite <- app_assoc in Hb. cbn [length]. rewrite (bridge_turn _ _ _ _ _ _ _ _ He Hb).
    change (fst <$> (e, pad) :: l) with (e :: (fst <$> l)). cbn [route_entries].
    destruct (route_entry crs e t) as [t' | | |]; [| done..]. cbn [mbind outcome_bind].
    apply IH; [done |]. by eapply bytes_at_skip.
Qed.

(** An entry that is wired to the interrupt controller, for a pin of a device of the bus. *)
Definition direct (e : ACPI_PCI_ROUTING_TABLE) : Prop :=
  Source e = [] /\ 0 <= Z.shiftr (Address_ e) 16 < Devices /\ 0 <= Pin e < Pins /\ SourceIndex e <> 0.

Lemma direct_entry crs e t r :
  direct e -> t !! 0 = Some r ->
  route_entry crs e t = Ret (<[0 := mkRouting (m_parent r) (m_device r) (<[(Z.shiftr (Address_ e) 16, Pin e) := SourceIndex e]> (m_irq r))]> t).
Proof.
  intros (Hs & Hd & Hp & _) Hr. unfold route_entry. rewrite Hs. unfold Devices, Pins in *.
  rewrite (wrap_small 32 (Z.shiftr (Address_ e) 16)) by lia. rewrite (wrap_small 32 (Pin e + 1)) by lia.
  unfold AddDeviceRouting, Pins, Devices, Buses. rewrite (wrap_small 32 (Pin e + 1 - 1)) by lia.
  replace (Pin e + 1 - 1) with (Pin e) by lia.
  replace ((4 <=? Pin e) || (256 <=? 0) || (32 <=? Z.shiftr (Address_ e) 16)) with false.
  2: { symmetry. apply not_true_iff_false. rewrite !orb_true_iff, !Z.leb_le. lia. }
  by rewrite Hr.
Qed.

Lemma route_entries_irqs crs l : forall t r,
  Forall direct l -> NoDup ((fun e => (Z.shiftr (Address_ e) 16, Pin e)) <$> l) -> t !! 0 = Some r ->
  exists t' r', route_entries crs l t = Ret t' /\ t' !! 0 = Some r' /\
    (forall e, e ∈ l -> m_irq r' !! (Z.shiftr (Address_ e) 16, Pin e) = Some (SourceIndex e)) /\
    forall k, k ∉ ((fun e => (Z.shiftr (Address_ e) 16, Pin e)) <$> l) -> m_irq r' !! k = m_irq r !! k.
Proof.
  induction l as [| e l IH]; intros t r Hd Hnd Hr.
  - exists t, r. split_and!; [done | done | | done]. intros e He. by apply elem_of_nil in He.
  - inversion Hd as [| ? ? He Hd']; subst. rewrite fmap_cons in Hnd. apply NoDup_cons in Hnd as [Hni Hnd].
    cbn [route_entries]. rewrite (direct_entry crs e t r He Hr). cbn [mbind outcome_bind].
    match goal with |- context [route_entries crs l (<[0 := ?x]> t)] =>
      destruct (IH _ x Hd' Hnd (lookup_insert_eq (M := gmap Z) t 0 x)) as (t' & r' & Hrun & Hr' & Hin & Hout) end.
    exists t', r'. split_and!; [exact Hrun | done | |].
    + intros x Hx. apply elem_of_cons in Hx as [-> | Hx]; [| by apply Hin].
      rewrite Hout by done. cbn [m_irq]. by rewrite lookup_insert_eq.
    + intros k Hk. rewrite fmap_cons, not_elem_of_cons in Hk. destruct Hk as [Hk1 Hk2].
      rewrite Hout by done. cbn [m_irq]. by rewrite lookup_insert_ne by congruence.
Qed.

(** Fact: the interrupts of a bridge's routing table are found.  When the firmware's table wires
    pins of different devices, or different pins, to the interrupt controller, the walk over it
    ends, and afterwards the line of each of these pins is the one in the table. *)
Theorem routes_are_found crs level p m l rest t r :
  level < 10 -> p <> 0 -> Forall prt_ok l -> Forall direct (fst <$> l) ->
  NoDup ((fun e => (Z.shiftr (Address_ e) 16, Pin e)) <$> (fst <$> l)) -> t !! 0 = Some r ->
  bytes_at m p (mjoin (encode_prt <$> l) ++ le_to 4 0 ++ rest) ->
  exists t', acpiProcessSystemBridge (S (length l)) crs level (Some p) m t = Ret (AE_OK, t') /\
    forall e fuel, e ∈ fst <$> l -> getPciDeviceIrq (S fuel) 0 (Z.shiftr (Address_ e) 16) (Pin e + 1) t' = Ret (SourceIndex e).
Proof.
  intros Hl Hp Hok Hd Hnd Hr Hb. unfold acpiProcessSystemBridge.
  rewrite (proj2 (Z.leb_gt 10 level)) by lia. destruct (Z.eqb_spec p 0); [done |].
  rewrite (bridge_loop_run _ _ _ rest) by done.
  destruct (route_entries_irqs crs (fst <$> l) t r Hd Hnd Hr) as (t' & r' & -> & Hr' & Hin & _).
  cbn [mbind outcome_bind]. exists t'. split; [done |]. intros e fuel He.
  rewrite Forall_forall in Hd. destruct (Hd e He) as (_ & Hdev & Hpin & Hne). unfold getPciDeviceIrq, Pins, Devices, Buses in *.
  rewrite (wrap_small 32 (Pin e + 1 - 1)) by lia. replace (Pin e + 1 - 1) with (Pin e) by lia.
  replace ((4 <=? Pin e) || (256 <=? 0) || (32 <=? Z.shiftr (Address_ e) 16)) with false.
  2: { symmetry. apply not_true_iff_false. rewrite !orb_true_iff, !Z.leb_le. lia. }
  rewrite Hr'. unfold irq_at. rewrite (Hin e He). cbn [default from_option irq_loop]. unfold id.
  by destruct (Z.eqb_spec (SourceIndex e) 0).
Qed.

(** ** Segments and resources *)

(** Fact: no segment is ever recorded: the signature is compared as an address, and a literal is
    not where the table is. *)
Theorem parseMcfg_finds_nothing m acpi_tables sig mcfg_sig segments l :
  (forall descr, table_address m descr <> Ret mcfg_sig) ->
  parseMcfg m acpi_tables sig mcfg_sig segments = Ret l -> l = segments.
Proof.
  intros Hne. unfold parseMcfg.
  destruct (GetAcpiTableBySignature m acpi_tables sig) as [[descr |] | | |]; cbn [mbind outcome_bind]; try congruence.
  destruct (table_address m descr) as [mcfg | | |] eqn:E; cbn [mbind outcome_bind]; try congruence.
  destruct (Z.eqb_spec mcfg mcfg_sig) as [-> | _]; [by destruct (Hne descr) |].
  rewrite orb_true_r. congruence.
Qed.

(** Fact: after any sequence of resources a device keeps one of each type, and a search by type gives
    the last of the attached ones. *)
Theorem last_resource_is_kept type l :
  attached type = true ->
  GetResource type (foldl (fun rs r => AttachResource r rs) [] l) = last (base.filter (fun r => Type_ r = type) l).
Proof.
  intros Ht. induction l as [| x l IH] using rev_ind; [done |].
  rewrite foldl_app, filter_app. cbn [foldl]. set (rs := foldl _ [] l) in *. unfold AttachResource.
  destruct (decide (Type_ x = type)) as [E | E].
  - rewrite E, Ht. rewrite filter_cons, decide_True, filter_nil, last_snoc by done. unfold GetResource.
    rewrite filter_app, filter_cons, decide_True, filter_nil by done.
    replace (base.filter (fun r => Type_ r = type) (base.filter (fun r => Type_ r <> type) rs)) with (@nil ACPI_RESOURCE); [done |].
    symmetry. rewrite list_filter_filter. clear IH. clearbody rs. induction rs as [| y rs IHr]; [done |].
    rewrite filter_cons, decide_False by tauto. exact IHr.
  - rewrite filter_cons, decide_False, filter_nil, app_nil_r by done. rewrite <- IH.
    destruct (attached (Type_ x)); [| done]. unfold GetResource. rewrite filter_app, filter_cons, decide_False, filter_nil, app_nil_r by done.
    f_equal. clear IH. clearbody rs. induction rs as [| y rs IHr]; [done |]. rewrite !filter_cons.
    destruct (decide (Type_ y = type)) as [Ey | Ey].
    + rewrite decide_True by congruence. rewrite filter_cons, decide_True by done. f_equal. exact IHr.
    + case_decide; [| exact IHr]. rewrite filter_cons, decide_False by done. exact IHr.
Qed.
