(* ===== verification/BootHeap.v ===== *)
(** BootHeap: the allocator of the early kernel, and the kernel's choice between it and the
    heap.

    Models src/src/kernel/mem/BootHeap.cpp and BootHeap.h, and [Allocate] and [Deallocate] of
    src/src/kernel/Kernel.cpp, which operator new and delete call: memory comes from the boot
    heap until the kernel's heap (KHeap) is initialised, and goes back to the one that is in use
    at the time. *)
From S2P Require Import Prelude OSSystem CMemory CrtString KHeap.
#[local] Open Scope list_scope.
#[local] Open Scope Z_scope.

Definition Alignment : Z := 16.

Record BootHeap := mkBootHeap { m_address : Z; m_length : Z; m_watermark : Z }.

Definition new_BootHeap (address length : Z) : BootHeap := mkBootHeap address length address.

Definition BootHeap_Allocate (size : Z) (b : BootHeap) (m : mem) : outcome (Z * BootHeap * mem) :=
  _ ← Assert (u64 (m_watermark b + size) <=? u64 (m_address b + m_length b));
  let level := m_watermark b in
  let aligned := ByteAlign size Alignment in
  '(m, _) ← memset m level 0xDEADBEEF aligned;
  Ret (level, mkBootHeap (m_address b) (m_length b) (u64 (level + aligned)), m).

Definition BootHeap_Deallocate (address : Z) (b : BootHeap) : BootHeap := b.

(** The two heaps of the kernel, and the memory under the boot heap. *)
Record heaps := mkHeaps { m_bootHeap : BootHeap; m_heap : KHeap; boot_memory : mem }.

Definition Kernel_Allocate (size : Z) (k : heaps) : outcome (Z * heaps) :=
  if m_isInitialized (m_heap k) then
    '(h, a) ← KHeap.Allocate (m_heap k) size; Ret (a, mkHeaps (m_bootHeap k) h (boot_memory k))
  else
    '(a, b, m) ← BootHeap_Allocate size (m_bootHeap k) (boot_memory k); Ret (a, mkHeaps b (m_heap k) m).

Definition Kernel_Deallocate (address : Z) (k : heaps) : outcome heaps :=
  if m_isInitialized (m_heap k) then
    h ← KHeap.Deallocate (m_heap k) address; Ret (mkHeaps (m_bootHeap k) h (boot_memory k))
  else Ret (mkHeaps (BootHeap_Deallocate address (m_bootHeap k)) (m_heap k) (boot_memory k)).

(** * Properties *)

(** A run of allocations from the boot heap: the addresses. *)
Fixpoint boot_run (sizes : list Z) (b : BootHeap) (m : mem) : outcome (list Z * BootHeap * mem) :=
  match sizes with
  | [] => Ret ([], b, m)
  | n :: sizes =>
    '(a, b, m) ← BootHeap_Allocate n b m;
    '(l, b, m) ← boot_run sizes b m;
    Ret (a :: l, b, m)
  end.

(** Blocks one after the other, between two addresses. *)
Fixpoint laid_out (from to : Z) (l : list (Z * Z)) : Prop :=
  match l with
  | [] => from <= to
  | (a, n) :: l => from <= a /\ laid_out (a + n) to l
  end.

Lemma laid_out_below from from' to l : laid_out from to l -> from' <= from -> laid_out from' to l.
Proof. destruct l as [| [a n] l]; cbn; [lia |]. intros [H Hl] ?. split; [lia | done]. Qed.

Definition boot_ok (b : BootHeap) : Prop :=
  0 <= m_address b <= m_watermark b /\ 0 <= m_length b /\ m_address b + m_length b + 2 ^ 33 < 2 ^ 64 /\
  m_watermark b < m_address b + m_length b + Alignment.

Lemma ByteAlign_16 n : 0 <= n < 2 ^ 32 -> n <= ByteAlign n Alignment < n + 16 /\ ByteAlign n Alignment mod 16 = 0.
Proof.
  intros Hn. change Alignment with (2 ^ 4). rewrite ByteAlign_spec by lia. change (2 ^ 4) with 16.
  pose proof (proj1 (DivRoundUp_spec n 16 ltac:(lia) ltac:(lia) ltac:(lia) ltac:(lia) _) eq_refl).
  split; [lia | by apply Z.mod_mul].
Qed.

(** A [memset] that returns has found the range mapped. *)
Lemma memset_loop_Ret n v : forall m a m',
  memset_loop n m a v = Ret m' -> mapped m a (Z.of_nat n).
Proof.
  induction n as [| n IH]; intros m a m' H x Hx; [lia |]. cbn [memset_loop] in H. unfold store8 in H.
  destruct (m !! a) as [c |] eqn:E; [| done]. cbn [mbind outcome_bind] in H.
  destruct (decide (x = a)) as [-> | Hne]; [by eexists |].
  specialize (IH _ _ _ H x ltac:(lia)). by rewrite lookup_insert_ne in IH by done.
Qed.

Lemma BootHeap_Allocate_run n b m a b' m' :
  boot_ok b -> 0 <= n < 2 ^ 32 -> BootHeap_Allocate n b m = Ret (a, b', m') ->
  boot_ok b' /\ a = m_watermark b /\ b' = mkBootHeap (m_address b) (m_length b) (a + ByteAlign n Alignment) /\
  a + n <= m_address b + m_length b /\
  forall x, m' !! x = if (a <=? x) && (x <? a + ByteAlign n Alignment) then Some 0xEF else m !! x.
Proof.
  intros (Ha & Hl & Hb & Hw) Hn. unfold BootHeap_Allocate, memset. destruct (ByteAlign_16 n Hn) as [Hal _].
  unfold Alignment in Hw. rewrite (wrap_small 64 (m_address b + m_length b)), (wrap_small 64 (m_watermark b + n)) by lia.
  destruct (Z.leb_spec (m_watermark b + n) (m_address b + m_length b)); cbn [Assert mbind outcome_bind]; [| done].
  destruct (memset_loop _ m (m_watermark b) 0xDEADBEEF) as [m1 | | |] eqn:E; cbn [mbind outcome_bind]; try done.
  intros [= <- <- <-]. rewrite wrap_small by lia.
  split_and!; [unfold boot_ok; cbn [m_address m_length m_watermark]; change Alignment with 16 in *; lia | done | done | done |].
  destruct (memset_loop_spec _ _ _ 0xDEADBEEF (memset_loop_Ret _ _ _ _ _ E)) as (m2 & E2 & H2).
  assert (m2 = m1) as -> by congruence. intros x. rewrite H2, Z2Nat.id by lia. by destruct (_ && _).
Qed.

(** Fact: allocations from the boot heap do not overlap: they follow each other inside the heap's
    memory, whatever their sizes, and the memory below the first of them is untouched. *)
Theorem boot_allocations_are_disjoint sizes : forall b m l b' m',
  boot_ok b -> Forall (fun n => 0 <= n < 2 ^ 32) sizes -> boot_run sizes b m = Ret (l, b', m') ->
  boot_ok b' /\ m_watermark b <= m_watermark b' /\ length l = length sizes /\
  laid_out (m_watermark b) (m_watermark b') (zip l sizes) /\
  Forall (fun p => p.1 + p.2 <= m_address b + m_length b) (zip l sizes) /\
  forall x, x < m_watermark b -> m' !! x = m !! x.
Proof.
  induction sizes as [| n sizes IH]; intros b m l b' m' Hok Hs Hrun; cbn [boot_run] in Hrun.
  - injection Hrun as <- <- <-. cbn. split_and!; [done | lia | done | lia | done | done].
  - inversion Hs as [| ? ? Hn Hs']; subst.
    destruct (BootHeap_Allocate n b m) as [[[a b1] m1] | | |] eqn:E; cbn [mbind outcome_bind] in Hrun; try done.
    destruct (boot_run sizes b1 m1) as [[[l1 b2] m2] | | |] eqn:E2; cbn [mbind outcome_bind] in Hrun; try done.
    injection Hrun as <- <- <-. destruct (BootHeap_Allocate_run _ _ _ _ _ _ Hok Hn E) as (Hok1 & -> & -> & Hfit & Hm).
    destruct (ByteAlign_16 n Hn) as [Hal _].
    destruct (IH _ _ _ _ _ Hok1 Hs' E2) as (Hok2 & Hw & Hlen & Hlay & Hin & Hrest). cbn [m_watermark m_address m_length] in *.
    split_and!; [done | lia | cbn; congruence | | by constructor |].
    + cbn [zip zip_with laid_out]. split; [lia |]. eapply laid_out_below; [exact Hlay | lia].
    + intros x Hx. rewrite Hrest by lia. rewrite Hm. by rewrite (proj2 (Z.leb_gt _ _)) by lia.
Qed.

(** Fact: the check of the boot heap is made with the size, the filling with the size rounded
    up: the last allocation writes up to fifteen bytes behind the heap. *)
Theorem last_allocation_spills b m n a b' m' :
  boot_ok b -> 0 <= n < 2 ^ 32 -> BootHeap_Allocate n b m = Ret (a, b', m') ->
  a + n = m_address b + m_length b -> ByteAlign n Alignment <> n -> m' !! (m_address b + m_length b) = Some 0xEF.
Proof.
  intros Hok Hn Ha He Hal. destruct (BootHeap_Allocate_run _ _ _ _ _ _ Hok Hn Ha) as (_ & _ & _ & _ & ->).
  destruct (ByteAlign_16 n Hn) as [H _].
  rewrite (proj2 (Z.leb_le _ _)), (proj2 (Z.ltb_lt _ _)) by lia. done.
Qed.

(** Fact: memory of the boot heap that is given back after the kernel's heap has been initialised
    stops the machine: it goes to the heap that is in use, which asserts its range. *)
Theorem boot_memory_cannot_be_freed k address :
  m_isInitialized (m_heap k) = true ->
  address < m_start (m_heap k) + sizeof_HeapBlock \/ m_end (m_heap k) <= address ->
  Kernel_Deallocate address k = Bugcheck.
Proof.
  intros Hi Ho. unfold Kernel_Deallocate, KHeap.Deallocate. rewrite Hi.
  destruct (Z.leb_spec (m_start (m_heap k) + sizeof_HeapBlock) address); cbn [Assert mbind outcome_bind]; [| done].
  destruct (Z.ltb_spec address (m_end (m_heap k))); [lia | done].
Qed.
